(* ===== verification/_CoqProject ===== *)
-Q . S2P
Prelude.v
CString.v
Font.v
Framebuffer.v
Overlay.v
Input.v
Ring.v
BtnWatcher.v
BtnKeys.v
BtnMain.v
PlatoShim.v
PlatoTouch.v
SdlText.v
SdlOsk.v
SdlQueue.v
SdlShim.v
SdlDisplay.v
SdlSafety.v
SdlBehaviour.v
SdlTimers.v
SdlLife.v
AppSwitcher.v
AppSwitcherProps.v
AppSwitcherTouch.v
AppSwitcherMain.v
AppSwitcherExit.v
AppSwitcherVariant.v
WebKey.v
WebKeyTyping.v
MtpName.v
MtpData.v
MtpWriter.v
MtpUsb.v
MtpHash.v
MtpDb.v
MtpTable.v
MtpPath.v
MtpStorage.v
MtpMount.v
MtpSession.v
MtpScan.v
MtpFile.v
MtpHandles.v
MtpOps.v
MtpDisk.v
MtpSend.v
MtpProps.v
MtpDataset.v
MtpAccess.v
MtpAnswer.v
MtpRename.v
MtpReceive.v
MtpDispatch.v
MtpCommands.v
MtpConfig.v
MtpConfigProps.v
MtpConfigFile.v
MtpDaemon.v
MtpInotify.v
MtpInotifyProps.v
MtpInotifyBuffer.v
MtpDescriptors.v
MtpGadget.v
MtpGadgetProps.v
MtpGadgetRounds.v
MtpMain.v
MtpMainProps.v
MtpStop.v
MtpStopProps.v
MtpTurns.v
MtpKept.v
MtpResponder.v
MtpThreads.v
MtpNames.v
MtpLog.v
MtpCancel.v
Tools.v
ToolsProps.v
ToolsMeet.v
ToolsTaps.v
