(* ===== verification/Prelude.v ===== *)
(** * Verification of the BNRV700 (NOOK GlowLight Plus) Linux userspace

    The repository turns an e-ink reader into a small Linux system.  Its own
    logic is a handful of C programs around one 1404 x 1872 framebuffer, one
    touch digitizer and a few buttons:

    - [btn-watcher.c] grabs the buttons and turns presses, long presses, double
      taps and chords into key events, overlays and program switches;
    - [app-switcher.c] is the modal dialog that suspends the running program
      and switches to another one;
    - [plato_shim.c] is preloaded into the Plato reader and rewrites its
      display requests and its touch events;
    - [sdl_fb0_shim.c] is the SDL 1.2 library of the NetSurf browser, with an
      on-screen keyboard, an event queue, timers and a control FIFO;
    - [nook-webkey.c] is a web server through which a phone types into that
      FIFO;
    - [umtprd] is an MTP responder (a vendored daemon with local changes).

    The programs meet in shared state: the framebuffer they all draw on and
    have to give back, the files [/tmp/current_app] and [/tmp/active_reader],
    the signals that stop and continue readers, and the FIFO.  The theorems
    follow those meeting points.

    ** How the code is modelled

    Each C function is a Rocq function of the same name on an explicit state
    record whose fields are the C variables.  A C integer is a [Z] with the
    wrap-around of its type written where the code can reach it ([u8], [u16],
    [u32], [u64], [i32] below).  Mapped memory is a size and a function from
    word index to word; a load or store outside an object is [None], so a
    theorem that ends in [Some] says no access leaves its object.  Effects on
    the rest of the system (shell commands, events written, display requests,
    sleeps) are a trace in the state.  What the kernel, other programs and the
    clock answer are parameters: arguments, environment records or the list of
    inputs, over which the theorems quantify.  Loops over input are structural
    in the list of inputs; loops over text have the length of the text as
    their fuel, which always suffices because each round consumes a byte
    ([utf8_loop], [fgets_lines]); loops over pixels are over integer intervals.

    ** The files

    - [Prelude]: machine integers, the tactics, loops in the option monad;
      [CString]: strings and decimal text of the C library; [Font]: the two
      font tables; [Input]: input events.
    - [Framebuffer]: [set_pixel], [draw_rect], [draw_char], [draw_string] and
      their relatives, of which [btn-watcher.c], [app-switcher.c] and
      [sdl_fb0_shim.c] have textual copies; [confined] is the specification
      clients use: a drawing changes only words of a box.  [save_rows] and
      [restore_rows] are the backup loops.
    - [Overlay]: toast and media card of [btn-watcher.c].  The abstraction
      [overlay_over m0 o] reads "the screen is [m0] with the active overlays on
      top"; every call keeps it and hiding both gives [m0] back.
    - [BtnWatcher]: the event loop of [main] in [btn-watcher.c] (timers, power,
      Home, page keys, chords, media mode, lid) and its safety; [BtnKeys]: what
      the keys do, among them that the virtual Home key is never released
      without being pressed; [BtnMain]: the start-up and exit of [main].
    - [Ring]: the two circular queues, refined to bounded lists.
    - [PlatoShim]: [plato_shim.c]'s display requests, rotation and log lines;
      [PlatoTouch]: its [open], [poll] and [read], with the touch stream as the
      abstract specification.
    - [SdlText], [SdlOsk], [SdlQueue], [SdlShim]: the parts of
      [sdl_fb0_shim.c]; [SdlDisplay] (refresh geometry), [SdlSafety] (the
      invariant of a session), [SdlBehaviour] (FIFO, updates against the
      keyboard), [SdlTimers] (the timer table under all interleavings of the
      timer thread with callers, as a step relation), [SdlLife] (the library
      from [SDL_Init] to [SDL_Quit], its surface and its clock).
    - [AppSwitcher]: [app-switcher.c] from its set-up to its exit;
      [AppSwitcherProps] and [AppSwitcherTouch] its session invariant,
      [AppSwitcherMain] gestures and the ways out, [AppSwitcherExit] what it
      leaves behind (with [get_active_app] of [BtnWatcher]);
      [AppSwitcherVariant]: the copy of it without the battery text under
      [patches], related to it state by state.
    - [WebKey]: [nook-webkey.c]; [WebKeyTyping] joins it to [SdlBehaviour].
    - [MtpName]: [mtp_sanitize.c] of [umtprd]; [MtpData]: the packet data of
      [mtp_helpers.c] and the strings of [usbstring.c]; [MtpUsb]: string
      descriptors and error codes.
    - [MtpHash], [MtpDb]: the object table of [hash_utils.c] and
      [fs_handles_db.c] (a pointer is a slot of the pool, any allocation may
      fail) with its invariant [db_ok]; [MtpTable]: the tables its operations
      can reach; [MtpPath]: [build_full_path]; [MtpScan]: the directory scan.
    - [MtpStorage]: storages, access, user ids, mounting and sessions of
      [mtp.c], [mtp_helpers.c], [mtp_ops_helpers.c] and [msgqueue.c];
      [MtpMount] and [MtpSession]: their invariants and the locking commands.
    - [MtpFile]: [send_file_data] and the opening of objects; [MtpHandles]:
      [GetObjectHandles]; [MtpOps]: deleting, editing and reading, over the
      class [FileSystem] of the system calls, of which [MtpDisk] is a small
      instance; [MtpSend]: [SendObjectInfo] and [SendObject]; [MtpAccess] and
      [MtpReceive]: what they guarantee.
    - [MtpWriter]: stores into a packet as functions of the buffer and the
      offset, chained with [+>], and the classes [Writes], [Dataset] and [Text]
      by which instance search computes the bytes of a chain; [MtpProps]:
      the property tables of [mtp_properties.c]; [MtpDataset]: the datasets of
      [mtp_datasets.c] and the property list; [MtpAnswer]: the operations that
      answer with a dataset, events and [setObjectPropValue]; [MtpRename]: what
      the renaming guarantees.
    - [MtpDispatch]: [process_in_packet] and [mtp_incoming_packet] of [mtp.c]
      over all operations, with the receive buffer as part of the state;
      [MtpCommands]: what the host can rely on.
    - [MtpConfig]: the configuration parser [mtp_cfg.c] and the messages of
      [msgqueue.c]; [MtpConfigProps] and [MtpConfigFile]: words, options, numbers
      and whole files; [MtpDaemon]: the invariant of the loaded daemon.
    - [MtpInotify]: the watcher thread of [inotify.c], as steps on the session's
      table between which the host's commands may run; [MtpInotifyProps] its
      safety and the effect of one event, [MtpInotifyBuffer] the bytes of a read.
    - [MtpDescriptors]: the descriptors and strings of [usb_gadget.c];
      [MtpGadget]: its set-up, requests, event loops and release, over a system
      that counts descriptors and blocks and logs its actions;
      [MtpGadgetProps]: the invariant [good] of a gadget in use and its release,
      [MtpGadgetRounds]: its set-up; [MtpCancel]: the cancellation of a transfer.
    - [MtpMain]: [umtprd.c], the context of [mtp.c] and the queue of
      [msgqueue.c], which compose the configuration, the gadget and the commands;
      [MtpMainProps]: the rounds of the daemon and the processes around it;
      [MtpStop] and [MtpStopProps]: the start and the end of its two service
      threads, over all interleavings with the main thread;
      [MtpTurns]: the third mode.  [MtpKept] and [MtpResponder]: what each part
      of an operation, and each operation, does to the session; [MtpThreads]:
      the commands, the messages and the watcher together.  [MtpNames]: the tables of names of
      [mtp_constant_strings.c] against the header's constants; [MtpLog]:
      [logs_out.c].
    - [Tools]: the six small programs that write events, commands and display
      requests; [ToolsProps]: the display probe; [ToolsMeet] and [ToolsTaps]:
      what the browser, the switcher, Plato and the button supervisor make of
      what the others write.

    ** What the theorems show

    - Screens are given back: [overlays_restore_screen], [switcher_returns_screen],
      [keyboard_session_safe]; and drawing stays inside its object:
      [supervisor_safe], [switcher_safe], [update_spares_keyboard].
    - Events are neither lost nor invented: [touch_stream_lossless],
      [event_queue_refines_list], [virtual_home_balanced],
      [touch_releases_end_contacts], [poll_then_read].
    - Programs are left running and the choice is visible to the others:
      [no_program_left_stopped], [supervisor_sees_choice],
      [chord_selects_reader].
    - Text arrives as typed: [phone_text_is_typed], [fifo_text_typed_exactly],
      [osk_layout_sound], with [url_decode_inverts_encoding] and
      [utf8_round_trip] below them.
    - What each key, chord, gesture and button does, on every branch:
      [gesture_decides], [power_button_taps], [reading_mode_forwards],
      [media_mode_captures], [lid_event], [visible_button_hit].
    - Geometry, bounds and tables: [refresh_covers_rectangle],
      [rotation_round_trip], [update_translation], [timers_timeout_bounds],
      [log_lines_complete], [timer_table_invariant], [add_timer_spec],
      [surface_faithful].  What the browser's library takes it gives back, but
      for the descriptors of its input thread ([shim_gives_back],
      [each_start_leaks], [missing_thread_joined]).
    - Where the code does something else than it means to, a theorem states
      what it does instead, for example [home_stuck_after_late_chord],
      [keyboard_swallows_release], [update_saves_keyboard_pixels],
      [callback_return_kills_new_timer], [netsurf_chosen_twice_stays_stopped],
      [hex_letters_are_shifted].
    - The MTP responder's data: names are safe path components
      ([sanitize_name_safe]), numbers and strings survive a packet ([poke_peek],
      [string_round_trip]), and every access ends with the process's own ids
      ([ids_come_back]).
    - Its object table: no sequence of operations, with any allocations
      failing, loses an entry, gives a handle twice or follows a dangling
      pointer ([table_safe]); insertion and enumeration are exact
      ([add_entry_exact], [children_enumerated]); paths end and stay under the
      root ([build_full_path_correct]); a scan makes the table agree with the
      directory, for a folder that is there, whichever of its files are gone
      ([scan_updates_folder], [folder_resolves]); all commands that mount, lock,
      open and close keep that state ([sessions_safe], [locking_closes_storages]);
      and so does any order of the host's commands, the messages, the watcher's
      rounds and the end of the cable, as long as each of them returns
      ([session_survives]).
    - Its operations: the data phases are exact ([object_handles_exact],
      [send_file_data_exact], [object_received_exactly]), protected storages are
      not touched ([protected_untouched]), and a deletion ends and stays in its
      folder ([remove_tree_stays_inside]).  Where they fail:
      [partial_object_overruns], [stale_folder_crashes], [lock_unlock_hides],
      [locked_storage_takes_folders], [unknown_folder_goes_on],
      [delete_handle_zero_empties_storage].
    - Its answers: what a property is described as is what is sent
      ([property_values_typed]), the property list agrees with the single
      properties ([property_list_exact]), the object information is read back
      ([object_info_round_trip]), a renaming changes the file and the table
      alike ([rename_exact]), and every command without a data phase is answered
      once, in order, when what it asks about can be told ([commands_answered]).  Where they fail:
      [persistent_uid_differs], [set_device_prop_unsupported],
      [short_packet_reuses_parameter], [removed_storage_hides_others],
      [name_reads_past_nul].
    - Its configuration: a file of well-formed settings is read back as them
      ([config_file_exact]), and any file leaves the daemon well formed, whatever
      the queue and the host then do ([daemon_well_formed]).  Where a line is read
      otherwise than meant: [last_line_lost], [missing_value_sets_zero],
      [tab_hides_value], [hash_cuts_quotes], [uid_without_value].
    - Its watcher: a round crashes exactly when its folder's path does, and
      otherwise uses nothing that is gone, whatever the host does between two
      rounds ([watcher_safe]), an event does what it says ([event_exact]), and
      the bytes of a read are its events ([read_handles_events]).  Where it
      fails: [close_between_rounds], [last_of_full_buffer_lost],
      [vanished_file_announced], [removed_tree_crashes].
    - Its gadget and its life: what the kernel is given is the configuration
      ([gadget_block_read], [descriptor_strings_answered]); everything opened,
      allocated and started is given back once, in the two modes on endpoint 0
      ([daemon_gives_back]); a cancelled transfer writes nothing more
      ([cancel_protocol]); one daemon serves at a time ([single_daemon]); and the
      loops end ([io_thread_ends]).  At its end the context outlives its threads
      ([freed_after_threads]), and a requested shutdown ends ([shutdown_stops]).
      Where they fail: [no_shutdown_no_end], [signal_between_test_and_call],
      [watcher_at_work_misses_signal], [android_mode_leaks],
      [refused_endpoint_closed_twice], [started_without_endpoint],
      [long_interface_overflows], [first_daemon_not_alone],
      [sender_taken_for_daemon], [unknown_type_null].
    - The tools: the probe's verdict is all of its checks ([probe_verdict]) and
      it puts the automatic refresh back ([probe_restores]); a tap lands where it
      is meant ([injected_tap_browser], [injected_tap_switcher],
      [injected_tap_plato]); commands run as written ([fifo_commands_run]); two
      taps of Home toggle playback ([default_taps_toggle]).  A dump of the log
      shows its buffer ([dump_shows_buffer]); the battery text is all there is
      between the switcher and its copy ([battery_text_only]).

    ** Limits

    Concurrency is modelled where threads share a structure (the event queue
    and the timer table: all interleavings of their critical sections); the
    drawing of the keyboard by the input thread and of the page by the browser
    are taken one after the other.  Most log lines are left out.  [keyboard_session_safe] is for the
    English layout and ASCII commands; the behaviour on other text is in
    [backspace_splits_letter] and [truncated_lead_reads_past_nul].  The Lua
    overlays, the shell scripts, and the page of HTML that [nook-webkey.c] serves
    are not modelled: the overlays extend programs whose code is not here, the
    scripts are sequences of external commands, of which the C programs' own are
    in the traces.
    Of [umtprd] strings are lists of unsigned bytes; allocations
    may fail in the object table and at the opening of a session, and succeed
    elsewhere (packets; the path and the string of a missing object in
    [build_full_path], the string of a name in [fs_remove_tree]); the directory listed by [opendir] and the
    answers of [stat64] and [realpath] do not change during one scan, and a
    directory that is removed is read when it is opened; mutexes are granted.
    The fuel of its loops is the size of the table or of the data, and of
    [fs_remove_tree] the limit on paths.  What the packet buffers hold before
    an operation and what [localtime_r] answers are parameters; the files and
    the storages do not change during one command but by the command.
    The USB driver, the kernel and the transfer thread act on the gadget between
    two events of endpoint 0, each with any effect that keeps the session; the
    thread's reads and writes are those of the operations.  [daemon_gives_back]
    is for the two modes on endpoint 0, for endpoints that take their descriptors
    and a name of the interface that fits its array; without one of these,
    [android_mode_leaks], [refused_endpoint_closed_twice] and
    [long_interface_overflows] say what happens.  The turns of [io_thread] are
    the transfers the host has left, and enough by [io_thread_ends]; in
    [session_survives] a command, a message and a round of the watcher are one
    step each, though two commands do not take the lock, one that ends the daemon
    is no step, and the bound [K] is
    that of the names in one folder; the fuel of
    the watcher's search is the size of the table, and that of a read its number
    of bytes.  In [MtpStop] a system call is entered in a step of its own, after
    the last test, and the handler of the signal is there from the thread's
    first step; what the threads do with a message or an event is in the other
    files.  [mtp_deinit_responder] of [MtpMain] is the part after the threads. *)

From Stdlib Require Export ZArith Lia.
From stdpp Require Export base gmap strings list numbers fin_maps.
From coqutil Require Export Datatypes.RecordSetters.
Export RecordSetters.DoubleBraceUpdate.

#[global] Open Scope Z_scope.

(** ** Machine integers

    A C integer of width [w] is a [Z]; the conversions below write out the
    wrap-around of the unsigned types and of the (two's complement) signed
    ones. *)
Definition u8 (z : Z) : Z := z mod 256.
Definition u16 (z : Z) : Z := z mod 65536.
Definition u32 (z : Z) : Z := z mod 4294967296.
Definition u64 (z : Z) : Z := z mod 18446744073709551616.
Definition i32 (z : Z) : Z := (z + 2147483648) mod 4294967296 - 2147483648.
Definition i64 (z : Z) : Z := (z + 9223372036854775808) mod 18446744073709551616 - 9223372036854775808.
Definition i16 (z : Z) : Z := (z + 32768) mod 65536 - 32768.

Definition is_u8 (z : Z) : Prop := 0 <= z < 256.
Definition is_u16 (z : Z) : Prop := 0 <= z < 65536.
Definition is_u32 (z : Z) : Prop := 0 <= z < 4294967296.
Definition is_i32 (z : Z) : Prop := -2147483648 <= z < 2147483648.

Create HintDb nook discriminated.
Create Rewrite HintDb nook.

Lemma u8_small z : is_u8 z -> u8 z = z.
Proof. apply Z.mod_small. Qed.
Lemma u16_small z : is_u16 z -> u16 z = z.
Proof. apply Z.mod_small. Qed.
Lemma u32_small z : is_u32 z -> u32 z = z.
Proof. apply Z.mod_small. Qed.
Lemma u8_range z : is_u8 (u8 z).
Proof. apply Z.mod_pos_bound. lia. Qed.
Lemma u16_range z : is_u16 (u16 z).
Proof. apply Z.mod_pos_bound. lia. Qed.
Lemma u32_range z : is_u32 (u32 z).
Proof. apply Z.mod_pos_bound. lia. Qed.
Lemma i32_range z : is_i32 (i32 z).
Proof. unfold is_i32, i32. pose proof (Z.mod_pos_bound (z + 2147483648) 4294967296). lia. Qed.
Lemma i32_small z : is_i32 z -> i32 z = z.
Proof. unfold is_i32, i32. intros. rewrite Z.mod_small; lia. Qed.

#[export] Hint Resolve u8_range u16_range u32_range i32_range : nook.
#[export] Hint Rewrite u8_small u16_small u32_small i32_small
  using (unfold is_u8, is_u16, is_u32, is_i32; lia) : nook.

(** ** Boolean tests

    [bdestr] splits on the boolean comparisons of a goal and turns them into
    arithmetic facts; [bprop] turns the boolean hypotheses into propositions. *)
Ltac bprop :=
  repeat match goal with
  | H : (_ && _)%bool = true |- _ => apply andb_true_iff in H as [? ?]
  | H : (_ || _)%bool = false |- _ => apply orb_false_iff in H as [? ?]
  | H : negb _ = true |- _ => apply negb_true_iff in H
  | H : negb _ = false |- _ => apply negb_false_iff in H
  | H : (_ <? _) = true |- _ => apply Z.ltb_lt in H
  | H : (_ <? _) = false |- _ => apply Z.ltb_ge in H
  | H : (_ <=? _) = true |- _ => apply Z.leb_le in H
  | H : (_ <=? _) = false |- _ => apply Z.leb_gt in H
  | H : (_ =? _) = true |- _ => apply Z.eqb_eq in H
  | H : (_ =? _) = false |- _ => apply Z.eqb_neq in H
  end.

Ltac bdestr :=
  repeat match goal with
  | |- context [?a <? ?b] => destruct (Z.ltb_spec a b)
  | |- context [?a <=? ?b] => destruct (Z.leb_spec a b)
  | |- context [?a =? ?b] => destruct (Z.eqb_spec a b)
  end.

(** [step] reduces the record updates of a state whose record is destructed. *)
Ltac upd := cbv [apply_update constant]; cbn.

(** Case analysis on the test of an [if] in the goal. *)
Ltac cases_if :=
  match goal with |- context [if ?b then _ else _] => destruct b eqn:? end.

(** ** Loops in the option monad

    [foldM f l s] is the loop [for x in l: s = f s x] of a body that may get
    stuck (an access outside an object).  [forM] is its Boolean-free version
    over the integer interval of a counting C loop, [seqZ]. *)
Fixpoint foldM {A B} (f : A -> B -> option A) (l : list B) (s : A) : option A :=
  match l with
  | [] => Some s
  | x :: l' => match f s x with Some s' => foldM f l' s' | None => None end
  end.

Lemma foldM_app {A B} (f : A -> B -> option A) l1 l2 s :
  foldM f (l1 ++ l2) s = foldM f l1 s ≫= foldM f l2.
Proof.
  revert s. induction l1 as [|x l1 IH]; intros s; simpl; [done|].
  destruct (f s x); [apply IH | done].
Qed.

(** The invariant rule of [foldM]: an invariant that each iteration keeps
    (with the prefix already done) holds at the end, and the loop does not
    get stuck. *)
Lemma foldM_inv {A B} (I : list B -> A -> Prop) (f : A -> B -> option A) l s :
  I [] s ->
  (forall pre x s, x ∈ l -> I pre s -> exists s', f s x = Some s' /\ I (pre ++ [x]) s') ->
  exists s', foldM f l s = Some s' /\ I l s'.
Proof.
  intros H0 Hstep.
  enough (forall pre s, I pre s -> exists s', foldM f l s = Some s' /\ I (pre ++ l) s') as G
    by (apply (G []); done).
  clear H0 s. induction l as [|x l IH]; intros pre s Hs.
  - exists s. by rewrite app_nil_r.
  - destruct (Hstep pre x s) as (s1 & E1 & H1); [left | done |].
    destruct (IH (fun pre y s Hy => Hstep pre y s (list_elem_of_further _ _ _ Hy))
                 (pre ++ [x]) s1 H1) as (s2 & E2 & H2).
    exists s2. simpl. rewrite E1, E2. split; [done|]. by rewrite <- app_assoc in H2.
Qed.

(** The same with the position of the round, for loops over distinct items. *)
Lemma foldM_inv_at {A B} (I : list B -> A -> Prop) (f : A -> B -> option A) l s :
  I [] s ->
  (forall pre x post s, l = pre ++ x :: post -> I pre s -> exists s', f s x = Some s' /\ I (pre ++ [x]) s') ->
  exists s', foldM f l s = Some s' /\ I l s'.
Proof.
  intros H0 Hstep.
  enough (forall post pre s, l = pre ++ post -> I pre s -> exists s', foldM f post s = Some s' /\ I l s') as G
    by (apply (G l []); done).
  clear H0 s. induction post as [|x post IH]; intros pre s El Hs.
  - exists s. rewrite app_nil_r in El. by subst.
  - destruct (Hstep pre x post s El Hs) as (s1 & E1 & H1).
    destruct (IH (pre ++ [x]) s1) as (s2 & E2 & H2); [by rewrite <- app_assoc|done|].
    exists s2. cbn [foldM]. by rewrite E1.
Qed.

#[global] Arguments seqZ : simpl never.

(** ** Lists *)
Lemma last_lookup_Z {A} (l : list A) (x : A) : last (l ++ [x]) = Some x.
Proof. apply last_snoc. Qed.

Lemma elem_of_seqZ_iff m n k : k ∈ seqZ m n <-> m <= k < m + n.
Proof. apply elem_of_seqZ. Qed.

Lemma forallb_In {A} (f : A -> bool) l x : forallb f l = true -> x ∈ l -> f x = true.
Proof. rewrite forallb_forall. intros H Hx. apply H. by apply list_elem_of_In. Qed.

(** A fact about every byte, by enumeration. *)
Lemma byte_cases (P : Z -> bool) : forallb P (map Z.of_nat (seq 0 256)) = true ->
  forall c, is_u8 c -> P c = true.
Proof.
  rewrite forallb_forall. intros H c Hc. apply H, in_map_iff. exists (Z.to_nat c).
  unfold is_u8 in Hc. split; [lia|]. apply in_seq. lia.
Qed.
