(* ===== verification/CString.v ===== *)
(** * C strings and decimal text

    A C string is the list of its bytes before the terminating NUL, each byte
    a [Z] in 1..255; a [char] buffer is the list of its bytes.  The functions
    of the C library the components use on them are written out here. *)

From Stdlib Require Import Ascii String.
From S2P Require Import Prelude.

(** The bytes of a string literal. *)
Definition cstr (s : string) : list Z :=
  map (fun a => Z.of_N (N_of_ascii a)) (list_ascii_of_string s).

(** [strlit] computes the lengths of the string literals of a goal. *)
Ltac strlit :=
  repeat match goal with
  | |- context [length (cstr (String ?a ?t))] =>
      let s := constr:(String a t) in
      let n := eval vm_compute in (length (cstr s)) in change (length (cstr s)) with n
  end.

Definition strlen (s : list Z) : Z := Z.of_nat (length s).
Definition streq (s t : list Z) : bool := bool_decide (s = t).

Lemma streq_spec s t : streq s t = true <-> s = t.
Proof. unfold streq. by rewrite bool_decide_eq_true. Qed.
Lemma streq_refl s : streq s s = true.
Proof. by apply streq_spec. Qed.

(** [strcomp] computes the comparisons of string literals in a goal. *)
Ltac strcomp :=
  repeat match goal with
  | |- context [streq (cstr ?a) (cstr ?b)] =>
      let v := eval vm_compute in (streq (cstr a) (cstr b)) in change (streq (cstr a) (cstr b)) with v
  end.

(** [strncmp(s, p, strlen(p)) == 0]: [s] starts with [p]. *)
Fixpoint starts_with (p s : list Z) : bool :=
  match p, s with
  | [], _ => true
  | a :: p', b :: s' => (a =? b) && starts_with p' s'
  | _ :: _, [] => false
  end.

Lemma starts_with_spec p s : starts_with p s = true <-> exists t, s = p ++ t.
Proof.
  revert s. induction p as [|a p IH]; intros [|b s]; simpl.
  - split; [by exists [] | done].
  - split; [by eexists | done].
  - split; [done | by intros [??]].
  - rewrite andb_true_iff, Z.eqb_eq, IH. split.
    + intros [-> [t ->]]. by exists t.
    + intros [t [= -> ->]]. eauto.
Qed.

(** [strchr(s, c) != NULL] and [strstr(s, p) != NULL]. *)
Definition has_char (c : Z) (s : list Z) : bool := existsb (Z.eqb c) s.

Fixpoint has_sub (p s : list Z) : bool :=
  starts_with p s || match s with [] => false | _ :: s' => has_sub p s' end.

(** The suffix of [s] at the first occurrence of [p] ([strstr]). *)
Fixpoint strstr (p s : list Z) : option (list Z) :=
  if starts_with p s then Some s
  else match s with [] => None | _ :: s' => strstr p s' end.

(** [s] up to the first byte of [cs], [strcspn] used to cut a line. *)
Fixpoint cut_at (cs s : list Z) : list Z :=
  match s with
  | [] => []
  | c :: s' => if existsb (Z.eqb c) cs then [] else c :: cut_at cs s'
  end.

(** [fgets(buf, len, f)] on a file with contents [s]: at most [len - 1] bytes,
    up to and including the first newline; [None] at end of file. *)
Fixpoint take_line (n : nat) (s : list Z) : list Z :=
  match n, s with
  | S n', c :: s' => c :: if c =? 10 then [] else take_line n' s'
  | _, _ => []
  end.
Definition fgets (len : Z) (s : list Z) : option (list Z) :=
  match s with [] => None | _ => Some (take_line (Z.to_nat (len - 1)) s) end.

(** A string read back from a buffer ends at its first NUL. *)
Fixpoint to_nul (s : list Z) : list Z :=
  match s with [] => [] | c :: s' => if c =? 0 then [] else c :: to_nul s' end.

(** Decimal digits of a natural number, most significant first ([%u]); the
    fuel is the number of binary digits, enough for every decimal digit. *)
Fixpoint dec_digits (fuel : nat) (n : Z) (acc : list Z) : list Z :=
  match fuel with
  | O => acc
  | S f => let acc' := (48 + n mod 10) :: acc in
           if n / 10 =? 0 then acc' else dec_digits f (n / 10) acc'
  end.
Definition dec_string (n : Z) : list Z := dec_digits (S (Z.to_nat (Z.log2 n))) n [].
(** [%d]. *)
Definition int_string (n : Z) : list Z :=
  if n <? 0 then 45 :: dec_string (- n) else dec_string n.

(** The value of a digit string. *)
Definition dec_value (s : list Z) : Z := fold_left (fun v c => v * 10 + (c - 48)) s 0.

(** [scanf]'s [%d]: the number at the start of [s] and the rest of the text.
    A number outside [int] is undefined in C; the 32-bit library of the device
    saturates, as here. *)
Definition is_digit (c : Z) : bool := (48 <=? c) && (c <=? 57).
Definition is_space (c : Z) : bool := (c =? 32) || ((9 <=? c) && (c <=? 13)).
Fixpoint scan_digits (s : list Z) : list Z * list Z :=
  match s with
  | c :: s' => if is_digit c then let '(d, r) := scan_digits s' in (c :: d, r) else ([], s)
  | [] => ([], [])
  end.
Fixpoint skip_white (s : list Z) : list Z :=
  match s with c :: s' => if is_space c then skip_white s' else s | [] => [] end.
Definition scan_int (s : list Z) : option (Z * list Z) :=
  let s := skip_white s in
  let '(neg, s) := match s with
                   | 45 :: s' => (true, s') | 43 :: s' => (false, s') | _ => (false, s) end in
  match scan_digits s with
  | ([], _) => None
  | (d, r) => Some (if neg : bool then Z.max (-2147483648) (- dec_value d)
                    else Z.min 2147483647 (dec_value d), r)
  end.

(** [atoi]. *)
Definition atoi (s : list Z) : Z := match scan_int s with Some (v, _) => v | None => 0 end.

Lemma dec_digits_value fuel n acc v0 :
  0 <= n -> n < 2 ^ Z.of_nat fuel ->
  fold_left (fun v c => v * 10 + (c - 48)) (dec_digits fuel n acc) v0 =
  fold_left (fun v c => v * 10 + (c - 48)) acc
    (match fuel with O => v0 | _ => fold_left (fun v c => v * 10 + (c - 48))
       (dec_digits fuel n []) v0 end).
Proof.
  revert n acc v0. induction fuel as [|f IH]; intros n acc v0 Hn Hf; [done|].
  cbn [dec_digits]. destruct (Z.eqb_spec (n / 10) 0) as [E|E]; [done|].
  rewrite Nat2Z.inj_succ, Z.pow_succ_r in Hf by lia.
  assert (0 <= n / 10 < 2 ^ Z.of_nat f).
  { split; [apply Z.div_pos; lia|]. apply Z.div_lt_upper_bound; lia. }
  rewrite (IH (n / 10) (_ :: acc)) by lia. rewrite (IH (n / 10) [_]) by lia. done.
Qed.

(** Reading back a printed number gives the number. *)
Lemma dec_value_string n : 0 <= n -> dec_value (dec_string n) = n.
Proof.
  intros Hn. unfold dec_value, dec_string.
  assert (forall f k, 0 <= k < 2 ^ Z.of_nat f -> (0 < f)%nat ->
            fold_left (fun v c => v * 10 + (c - 48)) (dec_digits f k []) 0 = k) as G.
  { clear n Hn. induction f as [|f IH]; intros k Hk Hf; [lia|].
    cbn [dec_digits]. destruct (Z.eqb_spec (k / 10) 0) as [E|E].
    - simpl. pose proof (Z.div_mod k 10). lia.
    - rewrite Nat2Z.inj_succ, Z.pow_succ_r in Hk by lia.
      assert (0 <= k / 10 < 2 ^ Z.of_nat f).
      { split; [apply Z.div_pos; lia|]. apply Z.div_lt_upper_bound; lia. }
      destruct f as [|f]; [simpl in *; lia|].
      rewrite dec_digits_value by lia. cbn [fold_left].
      rewrite (IH (k / 10)) by lia. pose proof (Z.div_mod k 10). lia. }
  apply G; [|lia]. rewrite Nat2Z.inj_succ, Z2Nat.id by apply Z.log2_nonneg.
  destruct (decide (n = 0)) as [->|]; [split; [lia|reflexivity]|].
  pose proof (Z.log2_spec n). lia.
Qed.

(** A number below [10 ^ k] prints in at most [k] digits. *)
Lemma dec_digits_length k fuel n acc :
  (1 <= k)%nat -> 0 <= n < 10 ^ Z.of_nat k -> (length (dec_digits fuel n acc) <= k + length acc)%nat.
Proof.
  revert n acc k. induction fuel as [|f IH]; intros n acc k Hk Hn; cbn [dec_digits]; [lia|].
  destruct (Z.eqb_spec (n / 10) 0); [cbn; lia|].
  destruct k as [|[|k]]; [lia|pose proof (Z.div_small n 10); lia|].
  rewrite Nat2Z.inj_succ, Z.pow_succ_r in Hn by lia.
  assert (0 <= n / 10 < 10 ^ Z.of_nat (S k))
    by (split; [apply Z.div_pos; lia|apply Z.div_lt_upper_bound; lia]).
  pose proof (IH (n / 10) ((48 + n mod 10) :: acc) (S k)). cbn [length] in *. lia.
Qed.

Lemma dec_string_length k n :
  (1 <= k)%nat -> 0 <= n < 10 ^ Z.of_nat k -> (length (dec_string n) <= k)%nat.
Proof.
  intros Hk Hn. unfold dec_string.
  pose proof (dec_digits_length k (S (Z.to_nat (Z.log2 n))) n [] Hk Hn). cbn [length] in *. lia.
Qed.

Lemma dec_digits_digits fuel n acc : Forall (fun c => is_digit c = true) acc -> Forall (fun c => is_digit c = true) (dec_digits fuel n acc).
Proof.
  revert n acc. induction fuel as [|f IH]; intros n acc H; cbn [dec_digits]; [done|].
  assert (Forall (fun c => is_digit c = true) ((48 + n mod 10) :: acc)) as G.
  { constructor; [|done]. pose proof (Z.mod_pos_bound n 10 ltac:(lia)). unfold is_digit. apply andb_true_iff.
    split; apply Z.leb_le; lia. }
  destruct (_ =? _); [done|by apply IH].
Qed.

Lemma dec_digits_nonempty fuel n acc : acc <> [] \/ (0 < fuel)%nat -> dec_digits fuel n acc <> [].
Proof.
  revert n acc. induction fuel as [|f IH]; intros n acc H; cbn [dec_digits]; [destruct H; [done|lia]|].
  destruct (_ =? _); [done|]. apply IH. by left.
Qed.

Lemma dec_string_digits n : Forall (fun c => is_digit c = true) (dec_string n) /\ dec_string n <> [].
Proof. split; [apply dec_digits_digits; constructor|apply dec_digits_nonempty; right; lia]. Qed.

Lemma scan_all_digits s : Forall (fun c => is_digit c = true) s -> scan_digits s = (s, []).
Proof. induction 1 as [|c s Hc Hs IH]; [done|]. cbn [scan_digits]. by rewrite Hc, IH. Qed.

Lemma scan_digits_digits s : Forall (fun c => 48 <= c <= 57) (fst (scan_digits s)).
Proof.
  induction s as [|c s IH]; cbn; [apply Forall_nil_2|].
  destruct (is_digit c) eqn:E; [|apply Forall_nil_2].
  destruct (scan_digits s). cbn in *. apply Forall_cons_2; [|done].
  unfold is_digit in E. bprop. lia.
Qed.

Lemma dec_value_nonneg d : Forall (fun c => 48 <= c <= 57) d -> 0 <= dec_value d.
Proof.
  unfold dec_value. intros H. assert (forall v, 0 <= v ->
    0 <= fold_left (fun v c => v * 10 + (c - 48)) d v) as G; [|by apply G].
  induction H as [|c d Hc Hd IH]; intros v Hv; cbn; [done|]. apply IH. lia.
Qed.

Lemma atoi_range s : is_i32 (atoi s).
Proof.
  unfold atoi, scan_int. set (p := match skip_white s with 45 :: _ => _ | _ => _ end).
  destruct p as [neg r]. pose proof (scan_digits_digits r) as Hd.
  destruct (scan_digits r) as [[|c d] r']; [unfold is_i32; lia|].
  pose proof (dec_value_nonneg (c :: d) Hd). unfold is_i32. destruct neg; lia.
Qed.

Lemma strlen_app a b : strlen (a ++ b) = strlen a + strlen b.
Proof. unfold strlen. rewrite length_app. lia. Qed.
Lemma strlen_nonneg s : 0 <= strlen s.
Proof. unfold strlen. lia. Qed.
