(* ===== verification/Font.v ===== *)
(** * Bitmap fonts of the native components

    The glyph tables of [components/common/include/font8x16.h] (Terminus Bold,
    ASCII 32..126) and [font8x16_cyrillic.h], one list of sixteen row bytes per
    glyph, and the codepoint-to-index function of the second header. *)

From S2P Require Import Prelude.

Definition font8x16 : list (list Z) :=
  [ [0; 0; 0; 0; 0; 0; 0; 0; 0; 0; 0; 0; 0; 0; 0; 0];
    [0; 0; 24; 24; 24; 24; 24; 24; 24; 0; 24; 24; 0; 0; 0; 0];
    [0; 102; 102; 102; 0; 0; 0; 0; 0; 0; 0; 0; 0; 0; 0; 0];
    [0; 0; 108; 108; 108; 254; 108; 108; 254; 108; 108; 108; 0; 0; 0; 0];
    [0; 16; 16; 124; 214; 208; 208; 124; 22; 22; 214; 124; 16; 16; 0; 0];
    [0; 0; 102; 214; 108; 12; 24; 24; 48; 54; 107; 102; 0; 0; 0; 0];
    [0; 0; 56; 108; 108; 56; 118; 220; 204; 204; 220; 118; 0; 0; 0; 0];
    [0; 24; 24; 24; 0; 0; 0; 0; 0; 0; 0; 0; 0; 0; 0; 0];
    [0; 0; 12; 24; 48; 48; 48; 48; 48; 48; 24; 12; 0; 0; 0; 0];
    [0; 0; 48; 24; 12; 12; 12; 12; 12; 12; 24; 48; 0; 0; 0; 0];
    [0; 0; 0; 0; 0; 108; 56; 254; 56; 108; 0; 0; 0; 0; 0; 0];
    [0; 0; 0; 0; 0; 24; 24; 126; 24; 24; 0; 0; 0; 0; 0; 0];
    [0; 0; 0; 0; 0; 0; 0; 0; 0; 0; 24; 24; 48; 0; 0; 0];
    [0; 0; 0; 0; 0; 0; 0; 254; 0; 0; 0; 0; 0; 0; 0; 0];
    [0; 0; 0; 0; 0; 0; 0; 0; 0; 0; 24; 24; 0; 0; 0; 0];
    [0; 0; 6; 6; 12; 12; 24; 24; 48; 48; 96; 96; 0; 0; 0; 0];
    [0; 0; 124; 198; 198; 206; 222; 246; 230; 198; 198; 124; 0; 0; 0; 0];
    [0; 0; 24; 56; 120; 24; 24; 24; 24; 24; 24; 126; 0; 0; 0; 0];
    [0; 0; 124; 198; 198; 6; 12; 24; 48; 96; 192; 254; 0; 0; 0; 0];
    [0; 0; 124; 198; 198; 6; 60; 6; 6; 198; 198; 124; 0; 0; 0; 0];
    [0; 0; 6; 14; 30; 54; 102; 198; 254; 6; 6; 6; 0; 0; 0; 0];
    [0; 0; 254; 192; 192; 192; 252; 6; 6; 6; 198; 124; 0; 0; 0; 0];
    [0; 0; 60; 96; 192; 192; 252; 198; 198; 198; 198; 124; 0; 0; 0; 0];
    [0; 0; 254; 6; 6; 12; 12; 24; 24; 48; 48; 48; 0; 0; 0; 0];
    [0; 0; 124; 198; 198; 198; 124; 198; 198; 198; 198; 124; 0; 0; 0; 0];
    [0; 0; 124; 198; 198; 198; 198; 126; 6; 6; 12; 120; 0; 0; 0; 0];
    [0; 0; 0; 0; 0; 24; 24; 0; 0; 0; 24; 24; 0; 0; 0; 0];
    [0; 0; 0; 0; 0; 24; 24; 0; 0; 0; 24; 24; 48; 0; 0; 0];
    [0; 0; 0; 6; 12; 24; 48; 96; 48; 24; 12; 6; 0; 0; 0; 0];
    [0; 0; 0; 0; 0; 254; 0; 0; 254; 0; 0; 0; 0; 0; 0; 0];
    [0; 0; 0; 96; 48; 24; 12; 6; 12; 24; 48; 96; 0; 0; 0; 0];
    [0; 0; 124; 198; 198; 198; 12; 24; 24; 0; 24; 24; 0; 0; 0; 0];
    [0; 0; 124; 198; 206; 214; 214; 214; 214; 206; 192; 126; 0; 0; 0; 0];
    [0; 0; 124; 198; 198; 198; 198; 254; 198; 198; 198; 198; 0; 0; 0; 0];
    [0; 0; 252; 198; 198; 198; 252; 198; 198; 198; 198; 252; 0; 0; 0; 0];
    [0; 0; 124; 198; 198; 192; 192; 192; 192; 198; 198; 124; 0; 0; 0; 0];
    [0; 0; 248; 204; 198; 198; 198; 198; 198; 198; 204; 248; 0; 0; 0; 0];
    [0; 0; 254; 192; 192; 192; 248; 192; 192; 192; 192; 254; 0; 0; 0; 0];
    [0; 0; 254; 192; 192; 192; 248; 192; 192; 192; 192; 192; 0; 0; 0; 0];
    [0; 0; 124; 198; 198; 192; 192; 222; 198; 198; 198; 124; 0; 0; 0; 0];
    [0; 0; 198; 198; 198; 198; 254; 198; 198; 198; 198; 198; 0; 0; 0; 0];
    [0; 0; 60; 24; 24; 24; 24; 24; 24; 24; 24; 60; 0; 0; 0; 0];
    [0; 0; 30; 12; 12; 12; 12; 12; 12; 204; 204; 120; 0; 0; 0; 0];
    [0; 0; 198; 198; 204; 216; 240; 240; 216; 204; 198; 198; 0; 0; 0; 0];
    [0; 0; 192; 192; 192; 192; 192; 192; 192; 192; 192; 254; 0; 0; 0; 0];
    [0; 0; 130; 198; 238; 254; 214; 198; 198; 198; 198; 198; 0; 0; 0; 0];
    [0; 0; 198; 198; 198; 230; 246; 222; 206; 198; 198; 198; 0; 0; 0; 0];
    [0; 0; 124; 198; 198; 198; 198; 198; 198; 198; 198; 124; 0; 0; 0; 0];
    [0; 0; 252; 198; 198; 198; 198; 252; 192; 192; 192; 192; 0; 0; 0; 0];
    [0; 0; 124; 198; 198; 198; 198; 198; 198; 198; 222; 124; 6; 0; 0; 0];
    [0; 0; 252; 198; 198; 198; 198; 252; 240; 216; 204; 198; 0; 0; 0; 0];
    [0; 0; 124; 198; 192; 192; 124; 6; 6; 198; 198; 124; 0; 0; 0; 0];
    [0; 0; 255; 24; 24; 24; 24; 24; 24; 24; 24; 24; 0; 0; 0; 0];
    [0; 0; 198; 198; 198; 198; 198; 198; 198; 198; 198; 124; 0; 0; 0; 0];
    [0; 0; 198; 198; 198; 198; 198; 108; 108; 108; 56; 56; 0; 0; 0; 0];
    [0; 0; 198; 198; 198; 198; 198; 214; 254; 238; 198; 130; 0; 0; 0; 0];
    [0; 0; 198; 198; 108; 108; 56; 56; 108; 108; 198; 198; 0; 0; 0; 0];
    [0; 0; 195; 195; 102; 102; 60; 24; 24; 24; 24; 24; 0; 0; 0; 0];
    [0; 0; 254; 6; 6; 12; 24; 48; 96; 192; 192; 254; 0; 0; 0; 0];
    [0; 0; 60; 48; 48; 48; 48; 48; 48; 48; 48; 60; 0; 0; 0; 0];
    [0; 0; 96; 96; 48; 48; 24; 24; 12; 12; 6; 6; 0; 0; 0; 0];
    [0; 0; 60; 12; 12; 12; 12; 12; 12; 12; 12; 60; 0; 0; 0; 0];
    [0; 24; 60; 102; 0; 0; 0; 0; 0; 0; 0; 0; 0; 0; 0; 0];
    [0; 0; 0; 0; 0; 0; 0; 0; 0; 0; 0; 0; 0; 254; 0; 0];
    [48; 24; 0; 0; 0; 0; 0; 0; 0; 0; 0; 0; 0; 0; 0; 0];
    [0; 0; 0; 0; 0; 124; 6; 126; 198; 198; 198; 126; 0; 0; 0; 0];
    [0; 0; 192; 192; 192; 252; 198; 198; 198; 198; 198; 252; 0; 0; 0; 0];
    [0; 0; 0; 0; 0; 124; 198; 192; 192; 192; 198; 124; 0; 0; 0; 0];
    [0; 0; 6; 6; 6; 126; 198; 198; 198; 198; 198; 126; 0; 0; 0; 0];
    [0; 0; 0; 0; 0; 124; 198; 198; 254; 192; 192; 124; 0; 0; 0; 0];
    [0; 0; 30; 48; 48; 252; 48; 48; 48; 48; 48; 48; 0; 0; 0; 0];
    [0; 0; 0; 0; 0; 126; 198; 198; 198; 198; 198; 126; 6; 6; 124; 0];
    [0; 0; 192; 192; 192; 252; 198; 198; 198; 198; 198; 198; 0; 0; 0; 0];
    [0; 0; 24; 24; 0; 56; 24; 24; 24; 24; 24; 60; 0; 0; 0; 0];
    [0; 0; 6; 6; 0; 14; 6; 6; 6; 6; 6; 6; 102; 102; 60; 0];
    [0; 0; 192; 192; 192; 198; 204; 216; 240; 216; 204; 198; 0; 0; 0; 0];
    [0; 0; 56; 24; 24; 24; 24; 24; 24; 24; 24; 60; 0; 0; 0; 0];
    [0; 0; 0; 0; 0; 252; 214; 214; 214; 214; 214; 214; 0; 0; 0; 0];
    [0; 0; 0; 0; 0; 252; 198; 198; 198; 198; 198; 198; 0; 0; 0; 0];
    [0; 0; 0; 0; 0; 124; 198; 198; 198; 198; 198; 124; 0; 0; 0; 0];
    [0; 0; 0; 0; 0; 252; 198; 198; 198; 198; 198; 252; 192; 192; 192; 0];
    [0; 0; 0; 0; 0; 126; 198; 198; 198; 198; 198; 126; 6; 6; 6; 0];
    [0; 0; 0; 0; 0; 222; 240; 224; 192; 192; 192; 192; 0; 0; 0; 0];
    [0; 0; 0; 0; 0; 126; 192; 192; 124; 6; 6; 252; 0; 0; 0; 0];
    [0; 0; 48; 48; 48; 252; 48; 48; 48; 48; 48; 30; 0; 0; 0; 0];
    [0; 0; 0; 0; 0; 198; 198; 198; 198; 198; 198; 126; 0; 0; 0; 0];
    [0; 0; 0; 0; 0; 198; 198; 198; 108; 108; 56; 56; 0; 0; 0; 0];
    [0; 0; 0; 0; 0; 198; 198; 214; 214; 214; 214; 124; 0; 0; 0; 0];
    [0; 0; 0; 0; 0; 198; 198; 108; 56; 108; 198; 198; 0; 0; 0; 0];
    [0; 0; 0; 0; 0; 198; 198; 198; 198; 198; 198; 126; 6; 6; 124; 0];
    [0; 0; 0; 0; 0; 254; 12; 24; 48; 96; 192; 254; 0; 0; 0; 0];
    [0; 0; 28; 48; 48; 48; 96; 48; 48; 48; 48; 28; 0; 0; 0; 0];
    [0; 0; 24; 24; 24; 24; 24; 24; 24; 24; 24; 24; 0; 0; 0; 0];
    [0; 0; 112; 24; 24; 24; 12; 24; 24; 24; 24; 112; 0; 0; 0; 0];
    [0; 0; 0; 0; 0; 0; 115; 219; 206; 0; 0; 0; 0; 0; 0; 0] ].

Definition font8x16_cyrillic : list (list Z) :=
  [ [0; 0; 0; 0; 48; 120; 120; 72; 204; 252; 204; 134; 0; 0; 0; 0];
    [0; 0; 0; 0; 126; 96; 96; 126; 99; 99; 99; 126; 0; 0; 0; 0];
    [0; 0; 0; 0; 126; 99; 99; 126; 99; 99; 99; 126; 0; 0; 0; 0];
    [0; 0; 0; 0; 126; 96; 96; 96; 96; 96; 96; 96; 0; 0; 0; 0];
    [0; 0; 0; 126; 102; 102; 102; 102; 102; 102; 255; 195; 195; 0; 0; 0];
    [0; 0; 0; 0; 126; 96; 96; 126; 96; 96; 96; 126; 0; 0; 0; 0];
    [0; 0; 0; 0; 24; 219; 255; 255; 255; 153; 153; 24; 0; 0; 0; 0];
    [0; 0; 0; 0; 60; 70; 6; 60; 6; 6; 70; 60; 0; 0; 0; 0];
    [0; 0; 0; 0; 206; 206; 206; 214; 214; 230; 230; 230; 0; 0; 0; 0];
    [0; 0; 72; 48; 0; 206; 206; 206; 214; 214; 230; 230; 230; 0; 0; 0];
    [0; 0; 0; 0; 198; 220; 248; 248; 248; 204; 206; 199; 0; 0; 0; 0];
    [0; 0; 0; 0; 63; 51; 51; 51; 51; 51; 99; 195; 0; 0; 0; 0];
    [0; 0; 0; 0; 199; 199; 239; 171; 187; 147; 131; 131; 0; 0; 0; 0];
    [0; 0; 0; 0; 198; 198; 198; 254; 198; 198; 198; 198; 0; 0; 0; 0];
    [0; 0; 0; 0; 60; 102; 195; 195; 195; 195; 102; 60; 0; 0; 0; 0];
    [0; 0; 0; 0; 254; 198; 198; 198; 198; 198; 198; 198; 0; 0; 0; 0];
    [0; 0; 0; 0; 126; 99; 99; 99; 126; 96; 96; 96; 0; 0; 0; 0];
    [0; 0; 0; 0; 31; 49; 96; 96; 96; 96; 49; 31; 0; 0; 0; 0];
    [0; 0; 0; 0; 255; 24; 24; 24; 24; 24; 24; 24; 0; 0; 0; 0];
    [0; 0; 0; 0; 134; 204; 220; 248; 120; 112; 48; 224; 0; 0; 0; 0];
    [0; 0; 0; 0; 24; 126; 219; 153; 153; 219; 126; 24; 0; 0; 0; 0];
    [0; 0; 0; 0; 134; 204; 204; 120; 120; 204; 204; 134; 0; 0; 0; 0];
    [0; 0; 0; 198; 198; 198; 198; 198; 198; 198; 255; 3; 3; 0; 0; 0];
    [0; 0; 0; 0; 198; 198; 198; 126; 6; 6; 6; 6; 0; 0; 0; 0];
    [0; 0; 0; 0; 24; 24; 24; 24; 24; 24; 24; 255; 0; 0; 0; 0];
    [0; 0; 0; 49; 49; 49; 49; 49; 49; 49; 255; 0; 0; 0; 0; 0];
    [0; 0; 0; 240; 240; 48; 63; 63; 49; 51; 63; 0; 0; 0; 0; 0];
    [0; 0; 0; 0; 131; 131; 131; 251; 143; 143; 143; 251; 0; 0; 0; 0];
    [0; 0; 0; 0; 96; 96; 96; 126; 99; 99; 99; 126; 0; 0; 0; 0];
    [0; 0; 0; 124; 78; 6; 63; 63; 6; 78; 124; 0; 0; 0; 0; 0];
    [0; 0; 0; 0; 30; 51; 97; 225; 97; 97; 51; 30; 0; 0; 0; 0];
    [0; 0; 0; 0; 62; 102; 102; 102; 62; 54; 54; 102; 0; 0; 0; 0];
    [0; 0; 0; 0; 0; 60; 6; 62; 102; 102; 62; 0; 0; 0; 0; 0];
    [0; 0; 0; 60; 32; 96; 124; 102; 102; 102; 102; 60; 0; 0; 0; 0];
    [0; 0; 0; 0; 0; 126; 102; 126; 102; 102; 124; 0; 0; 0; 0; 0];
    [0; 0; 0; 0; 0; 62; 48; 48; 48; 48; 48; 0; 0; 0; 0; 0];
    [0; 0; 0; 0; 126; 102; 102; 102; 102; 255; 129; 129; 0; 0; 0; 0];
    [0; 0; 0; 0; 0; 60; 102; 126; 96; 96; 62; 0; 0; 0; 0; 0];
    [0; 0; 0; 0; 0; 219; 255; 126; 126; 219; 219; 0; 0; 0; 0; 0];
    [0; 0; 0; 0; 0; 62; 6; 28; 6; 6; 60; 0; 0; 0; 0; 0];
    [0; 0; 0; 0; 0; 102; 110; 110; 118; 118; 102; 0; 0; 0; 0; 0];
    [0; 0; 0; 36; 28; 0; 102; 110; 110; 118; 118; 102; 0; 0; 0; 0];
    [0; 0; 0; 0; 0; 110; 124; 120; 120; 108; 110; 0; 0; 0; 0; 0];
    [0; 0; 0; 0; 0; 62; 54; 54; 54; 54; 102; 0; 0; 0; 0; 0];
    [0; 0; 0; 0; 0; 198; 238; 238; 238; 214; 198; 0; 0; 0; 0; 0];
    [0; 0; 0; 0; 0; 102; 102; 126; 102; 102; 102; 0; 0; 0; 0; 0];
    [0; 0; 0; 0; 0; 60; 102; 102; 102; 102; 60; 0; 0; 0; 0; 0];
    [0; 0; 0; 0; 0; 126; 102; 102; 102; 102; 102; 0; 0; 0; 0; 0];
    [0; 0; 0; 0; 124; 102; 102; 102; 102; 124; 96; 96; 0; 0; 0; 0];
    [0; 0; 0; 0; 0; 60; 96; 96; 96; 96; 60; 0; 0; 0; 0; 0];
    [0; 0; 0; 0; 0; 252; 48; 48; 48; 48; 48; 0; 0; 0; 0; 0];
    [0; 0; 0; 0; 198; 108; 108; 40; 56; 48; 48; 96; 0; 0; 0; 0];
    [0; 0; 24; 24; 24; 255; 153; 153; 153; 153; 255; 24; 24; 0; 0; 0];
    [0; 0; 0; 0; 0; 198; 108; 56; 56; 108; 198; 0; 0; 0; 0; 0];
    [0; 0; 0; 0; 102; 102; 102; 102; 102; 127; 1; 1; 0; 0; 0; 0];
    [0; 0; 0; 0; 0; 102; 102; 126; 6; 6; 6; 0; 0; 0; 0; 0];
    [0; 0; 0; 0; 0; 153; 153; 153; 153; 153; 255; 0; 0; 0; 0; 0];
    [0; 0; 0; 0; 153; 153; 153; 153; 153; 255; 0; 0; 0; 0; 0; 0];
    [0; 0; 0; 0; 240; 48; 62; 51; 51; 62; 0; 0; 0; 0; 0; 0];
    [0; 0; 0; 0; 0; 195; 195; 251; 207; 207; 251; 0; 0; 0; 0; 0];
    [0; 0; 0; 0; 0; 96; 96; 124; 102; 102; 124; 0; 0; 0; 0; 0];
    [0; 0; 0; 0; 120; 28; 124; 124; 28; 120; 0; 0; 0; 0; 0; 0];
    [0; 0; 0; 0; 0; 158; 179; 243; 243; 179; 158; 0; 0; 0; 0; 0];
    [0; 0; 0; 0; 0; 124; 108; 108; 60; 60; 108; 0; 0; 0; 0; 0];
    [0; 0; 0; 40; 0; 126; 96; 96; 126; 96; 96; 96; 126; 0; 0; 0];
    [0; 0; 0; 0; 40; 0; 60; 102; 126; 96; 96; 62; 0; 0; 0; 0] ].
(** [get_cyrillic_font_index]: the index in [font8x16_cyrillic] of a
    codepoint of the Russian alphabet, -1 for any other. *)
Definition get_cyrillic_font_index (unicode : Z) : Z :=
  if (0x0410 <=? unicode) && (unicode <=? 0x042F) then unicode - 0x0410
  else if (0x0430 <=? unicode) && (unicode <=? 0x044F) then unicode - 0x0430 + 32
  else if unicode =? 0x0401 then 64
  else if unicode =? 0x0451 then 65
  else -1.

(** ** Shape of the tables *)
Definition glyph_ok (g : list Z) : bool :=
  (Nat.eqb (length g) 16) && forallb (fun b => (0 <=? b) && (b <? 256)) g.

Lemma font8x16_length : length font8x16 = 95%nat.
Proof. reflexivity. Qed.

Lemma font8x16_cyrillic_length : length font8x16_cyrillic = 66%nat.
Proof. reflexivity. Qed.

Lemma font8x16_glyphs : forallb glyph_ok font8x16 = true.
Proof. vm_compute. reflexivity. Qed.

Lemma font8x16_cyrillic_glyphs : forallb glyph_ok font8x16_cyrillic = true.
Proof. vm_compute. reflexivity. Qed.

Lemma cyrillic_index_range c : -1 <= get_cyrillic_font_index c < 66.
Proof. unfold get_cyrillic_font_index. repeat cases_if; bprop; lia. Qed.

Lemma glyph_rows g r :
  glyph_ok g = true -> 0 <= r < 16 -> exists b, g !! Z.to_nat r = Some b /\ is_u8 b.
Proof.
  intros Hg Hr. apply andb_true_iff in Hg as [Hl Hb]. apply Nat.eqb_eq in Hl.
  destruct (lookup_lt_is_Some_2 g (Z.to_nat r)) as [b E]; [lia|].
  exists b. split; [done|]. apply list_elem_of_lookup_2 in E.
  pose proof (forallb_In _ _ _ Hb E). simpl in *. bprop. unfold is_u8. lia.
Qed.

Lemma font8x16_row k r :
  0 <= k < 95 -> 0 <= r < 16 ->
  exists g b, font8x16 !! Z.to_nat k = Some g /\ g !! Z.to_nat r = Some b /\ is_u8 b.
Proof.
  intros Hk Hr. destruct (lookup_lt_is_Some_2 font8x16 (Z.to_nat k)) as [g E].
  { rewrite font8x16_length. lia. }
  destruct (glyph_rows g r) as (b & Eb & Hb); [|done|eauto].
  apply (forallb_In _ _ _ font8x16_glyphs). by eapply list_elem_of_lookup_2.
Qed.

Lemma font8x16_cyrillic_row k r :
  0 <= k < 66 -> 0 <= r < 16 ->
  exists g b, font8x16_cyrillic !! Z.to_nat k = Some g /\ g !! Z.to_nat r = Some b /\ is_u8 b.
Proof.
  intros Hk Hr. destruct (lookup_lt_is_Some_2 font8x16_cyrillic (Z.to_nat k)) as [g E].
  { rewrite font8x16_cyrillic_length. lia. }
  destruct (glyph_rows g r) as (b & Eb & Hb); [|done|eauto].
  apply (forallb_In _ _ _ font8x16_cyrillic_glyphs). by eapply list_elem_of_lookup_2.
Qed.
