(* ===== verification/Framebuffer.v ===== *)
(** * Framebuffer drawing

    The drawing primitives that [btn-watcher.c], [app-switcher.c] and
    [sdl_fb0_shim.c] each contain, over one model of a mapped framebuffer: a
    function from word index to 16-bit word, with a size.  A store or a copy
    outside the mapping is [None] (the C program would fault or corrupt
    memory), so every theorem that ends in [Some] states that no access
    leaves the mapping. *)

From S2P Require Import Prelude CString Font.

(** ** Mapped memory *)
Record fbmem := mkfb { words : Z -> Z; nwords : Z }.

#[export] Instance fbmem_equiv : Equiv fbmem :=
  fun m1 m2 => nwords m1 = nwords m2 /\ forall i, words m1 i = words m2 i.

#[export] Instance fbmem_equivalence : Equivalence (≡@{fbmem}).
Proof.
  split.
  - by intros m.
  - intros m1 m2 [? ?]; split; [done|]. by intros i.
  - intros m1 m2 m3 [? H1] [? H2]; split; [congruence|]. intros i. by rewrite H1, H2.
Qed.

#[export] Instance words_proper : Proper (equiv ==> eq ==> eq) words.
Proof. intros m1 m2 [_ H] i ? <-. apply H. Qed.
#[export] Instance nwords_proper : Proper (equiv ==> eq) nwords.
Proof. by intros m1 m2 [H _]. Qed.

(** A store and a row copy ([memcpy] of [n] words), both checked. *)
Definition fb_store (m : fbmem) (i v : Z) : option fbmem :=
  if (0 <=? i) && (i <? nwords m)
  then Some {| words := fun j => if j =? i then v else words m j; nwords := nwords m |}
  else None.

Definition fb_memcpy (dst : fbmem) (di : Z) (src : fbmem) (si n : Z) : option fbmem :=
  if (0 <=? di) && (di + n <=? nwords dst) && (0 <=? si) && (si + n <=? nwords src)
  then Some {| words := fun j => if (di <=? j) && (j <? di + n)
                                 then words src (si + (j - di)) else words dst j;
               nwords := nwords dst |}
  else None.

Lemma fb_store_ok m i v :
  0 <= i < nwords m ->
  exists m', fb_store m i v = Some m' /\ nwords m' = nwords m /\
             forall j, words m' j = if j =? i then v else words m j.
Proof.
  intros H. unfold fb_store.
  replace ((0 <=? i) && (i <? nwords m)) with true by (symmetry; apply andb_true_iff; lia).
  eexists. split; [done|]. by split.
Qed.

Lemma fb_memcpy_ok dst di src si n :
  0 <= di -> di + n <= nwords dst -> 0 <= si -> si + n <= nwords src ->
  exists m', fb_memcpy dst di src si n = Some m' /\ nwords m' = nwords dst /\
    forall j, words m' j = if (di <=? j) && (j <? di + n)
                           then words src (si + (j - di)) else words dst j.
Proof.
  intros. unfold fb_memcpy.
  replace ((0 <=? di) && (di + n <=? nwords dst) && (0 <=? si) && (si + n <=? nwords src))
    with true by (symmetry; rewrite !andb_true_iff; lia).
  eexists. split; [done|]. by split.
Qed.

(** ** Geometry *)
Record geom := mkgeom { width : Z; height : Z; stride : Z }.

(** The panel of the BNRV700: 1404 x 1872 pixels in rows of 1408 words. *)
Definition panel : geom := {| width := 1404; height := 1872; stride := 1408 |}.
Definition panel_words : Z := 1408 * 1872.

Definition geom_ok (g : geom) (m : fbmem) : Prop :=
  0 < width g <= stride g /\ 0 < height g /\ stride g * height g <= nwords m.

Section Drawing.
Context (g : geom).

Definition set_pixel (m : fbmem) (x y color : Z) : option fbmem :=
  if (0 <=? x) && (x <? width g) && (0 <=? y) && (y <? height g)
  then fb_store m (y * stride g + x) color
  else Some m.

Definition draw_row (y x w color : Z) (m : fbmem) : option fbmem :=
  foldM (fun m cx => if (0 <=? cx) && (cx <? width g)
                     then fb_store m (y * stride g + cx) color else Some m)
        (seqZ x w) m.

Definition draw_rect (x y w h color : Z) (m : fbmem) : option fbmem :=
  foldM (fun m cy => if (cy <? 0) || (height g <=? cy) then Some m
                     else draw_row cy x w color m)
        (seqZ y h) m.

Definition draw_rect_outline (x y w h thickness color : Z) (m : fbmem) : option fbmem :=
  m1 ← draw_rect x y w thickness color m;
  m2 ← draw_rect x (y + h - thickness) w thickness color m1;
  m3 ← draw_rect x y thickness h color m2;
  draw_rect (x + w - thickness) y thickness h color m3.

(** The body of [draw_char]: one glyph of sixteen row bytes. *)
Definition glyph_pixel (line col : Z) : bool :=
  negb (Z.land line (Z.shiftl 1 (7 - col)) =? 0).

Definition draw_block (x y scale color : Z) (m : fbmem) : option fbmem :=
  foldM (fun m sy => foldM (fun m sx => set_pixel m (x + sx) (y + sy) color)
                           (seqZ 0 scale) m)
        (seqZ 0 scale) m.

Definition draw_glyph_bit (x y row col line scale fg bg : Z) (m : fbmem) : option fbmem :=
  let color := if glyph_pixel line col then fg else bg in
  if scale =? 1 then
    if negb (color =? bg) || negb (bg =? 0)
    then set_pixel m (x + col) (y + row) color else Some m
  else draw_block (x + col * scale) (y + row * scale) scale color m.

Definition draw_glyph (x y : Z) (glyph : list Z) (scale fg bg : Z) (m : fbmem) : option fbmem :=
  foldM (fun m row =>
           line ← glyph !! Z.to_nat row;
           foldM (fun m col => draw_glyph_bit x y row col line scale fg bg m)
                 (seqZ 0 8) m)
        (seqZ 0 16) m.

Definition draw_char (x y ch scale fg bg : Z) (m : fbmem) : option fbmem :=
  let ch := if (ch <? 32) || (126 <? ch) then 32 else ch in
  glyph ← font8x16 !! Z.to_nat (ch - 32);
  draw_glyph x y glyph scale fg bg m.

Fixpoint draw_string (x y : Z) (str : list Z) (scale fg bg : Z) (m : fbmem) : option fbmem :=
  match str with
  | [] => Some m
  | ch :: str' =>
      m1 ← draw_char x y ch scale fg bg m;
      draw_string (x + 8 * scale) y str' scale fg bg m1
  end.

Definition draw_string_centered (box_x box_y box_w box_h : Z) (str : list Z)
    (scale fg bg : Z) (m : fbmem) : option fbmem :=
  let len := Z.of_nat (length str) in
  let str_w := len * 8 * scale in
  let str_h := 16 * scale in
  let cx := box_x + Z.quot (box_w - str_w) 2 in
  let cy := box_y + Z.quot (box_h - str_h) 2 in
  draw_string cx cy str scale fg bg m.

(** Copying the rows of a rectangle between the framebuffer and a packed
    backup buffer, as the save and restore loops of the overlays do. *)
Definition save_rows (x y w h : Z) (m bk : fbmem) : option fbmem :=
  foldM (fun bk r => fb_memcpy bk (r * w) m ((y + r) * stride g + x) w) (seqZ 0 h) bk.

Definition restore_rows (x y w h : Z) (bk m : fbmem) : option fbmem :=
  foldM (fun m r => fb_memcpy m ((y + r) * stride g + x) bk (r * w) w) (seqZ 0 h) m.

(** A sequence of drawing calls. *)
Definition draws (l : list (fbmem -> option fbmem)) (m : fbmem) : option fbmem :=
  foldM (fun m f => f m) l m.
End Drawing.

(** ** Specifications *)

(** The words of the rectangle [x y w h] that are on the screen. *)
Definition in_box (g : geom) (x y w h i : Z) : Prop :=
  0 <= i mod stride g - x < w /\ 0 <= i / stride g - y < h.

Definition in_rect (g : geom) (x y w h i : Z) : Prop :=
  in_box g x y w h i /\ i mod stride g < width g /\ 0 <= i / stride g < height g.

#[export] Instance in_box_dec g x y w h i : Decision (in_box g x y w h i).
Proof. unfold in_box. apply _. Defined.
#[export] Instance in_rect_dec g x y w h i : Decision (in_rect g x y w h i).
Proof. unfold in_rect. apply _. Defined.

Lemma pixel_index g x y :
  0 < stride g -> 0 <= x < stride g ->
  (y * stride g + x) mod stride g = x /\ (y * stride g + x) / stride g = y.
Proof.
  intros Hs Hx. split.
  - rewrite Z.add_comm, Z.mod_add by lia. by apply Z.mod_small.
  - rewrite Z.add_comm, Z.div_add by lia. rewrite (Z.div_small x) by lia. lia.
Qed.

Lemma index_pixel g i : 0 < stride g -> i = (i / stride g) * stride g + i mod stride g.
Proof. intros Hs. rewrite (Z.div_mod i (stride g)) at 1; lia. Qed.

Lemma index_eqb g x y i :
  0 < stride g -> 0 <= x < stride g ->
  i = y * stride g + x <-> i mod stride g = x /\ i / stride g = y.
Proof.
  intros Hs Hx. split.
  - intros ->. by apply pixel_index.
  - intros [<- <-]. by apply index_pixel.
Qed.

Lemma pixel_in_bounds g m x y :
  geom_ok g m -> 0 <= x < width g -> 0 <= y < height g ->
  0 <= y * stride g + x < nwords m.
Proof. intros (Hw & Hh & Hn) Hx Hy. nia. Qed.

Lemma draw_row_spec g m x y w c :
  geom_ok g m -> 0 <= y < height g ->
  exists m', draw_row g y x w c m = Some m' /\ nwords m' = nwords m /\
    forall i, words m' i = if decide (in_rect g x y w 1 i) then c else words m i.
Proof.
  intros Hg Hy. unfold draw_row.
  destruct (foldM_inv
    (fun pre m' => nwords m' = nwords m /\
       forall i, words m' i = if decide (i / stride g = y /\ i mod stride g ∈ pre /\
                                         i mod stride g < width g) then c else words m i)
    (fun m cx => if (0 <=? cx) && (cx <? width g)
                 then fb_store m (y * stride g + cx) c else Some m)
    (seqZ x w) m) as (m' & E & Hn & Hm').
  - split; [done|]. intros i. rewrite decide_False; [done|]. rewrite elem_of_nil. tauto.
  - intros pre cx s _ [Hs Hsi]. destruct Hg as (Hw & Hh & Hn).
    destruct ((0 <=? cx) && (cx <? width g)) eqn:B; bprop.
    + destruct (fb_store_ok s (y * stride g + cx) c) as (s' & E & Hn' & Hs').
      { rewrite Hs. eapply pixel_in_bounds; [split; eauto|lia|lia]. }
      exists s'. repeat split; [done|congruence|]. intros i. rewrite Hs', Hsi.
      assert (i = y * stride g + cx <-> _) as Hi by (apply (index_eqb g cx y i); lia).
      destruct (Z.eqb_spec i (y * stride g + cx)) as [Hi'|Hi'].
      * apply Hi in Hi' as [? ?]. rewrite decide_True; [done|].
        rewrite elem_of_app, list_elem_of_singleton. repeat split; [lia|by right|lia].
      * apply decide_ext. rewrite elem_of_app, list_elem_of_singleton. tauto.
    + exists s. repeat split; [done..|]. intros i. rewrite Hsi. apply decide_ext.
      apply andb_false_iff in B.
      pose proof (Z.mod_pos_bound i (stride g)). bprop.
      rewrite elem_of_app, list_elem_of_singleton.
      assert (i mod stride g = cx -> i mod stride g < width g -> False).
      { intros Hc ?. destruct B; bprop; lia. }
      tauto.
  - exists m'. repeat split; [done..|]. intros i. rewrite Hm'. apply decide_ext.
    rewrite elem_of_seqZ. unfold in_rect, in_box. lia.
Qed.

Theorem draw_rect_spec g m x y w h c :
  geom_ok g m ->
  exists m', draw_rect g x y w h c m = Some m' /\ nwords m' = nwords m /\
    forall i, words m' i = if decide (in_rect g x y w h i) then c else words m i.
Proof.
  intros Hg. unfold draw_rect.
  destruct (foldM_inv
    (fun pre m' => nwords m' = nwords m /\
       forall i, words m' i = if decide (in_rect g x (i / stride g) w 1 i /\
                                         i / stride g ∈ pre) then c else words m i)
    (fun m cy => if (cy <? 0) || (height g <=? cy) then Some m else draw_row g cy x w c m)
    (seqZ y h) m) as (m' & E & Hn & Hm').
  - split; [done|]. intros i. rewrite decide_False; [done|]. rewrite elem_of_nil. tauto.
  - intros pre cy s _ [Hs Hsi].
    destruct ((cy <? 0) || (height g <=? cy)) eqn:B.
    + exists s. repeat split; [done..|]. intros i. rewrite Hsi. apply decide_ext.
      rewrite elem_of_app, list_elem_of_singleton. apply orb_true_iff in B.
      assert (i / stride g = cy -> ~ in_rect g x (i / stride g) w 1 i) as Hf.
      { intros Hc. unfold in_rect. destruct B; bprop; lia. }
      tauto.
    + bprop. destruct (draw_row_spec g s x cy w c) as (s' & E & Hn & Hs').
      { unfold geom_ok in *. rewrite Hs. done. }
      { lia. }
      exists s'. repeat split; [done|congruence|]. intros i. rewrite Hs', Hsi.
      assert (in_rect g x cy w 1 i <-> in_rect g x (i / stride g) w 1 i /\ i / stride g = cy) as Hc
        by (unfold in_rect, in_box; lia).
      assert (i / stride g ∈ pre ++ [cy] <-> i / stride g ∈ pre \/ i / stride g = cy) as Hp
        by (by rewrite elem_of_app, list_elem_of_singleton).
      repeat case_decide; tauto.
  - exists m'. repeat split; [done..|]. intros i. rewrite Hm'. apply decide_ext.
    rewrite elem_of_seqZ. unfold in_rect, in_box. lia.
Qed.

(** ** Confinement

    [confined g x y w h f]: on every mapping large enough for the geometry,
    [f] succeeds and changes only words of the box [x y w h]. *)
Definition confined (g : geom) (x y w h : Z) (f : fbmem -> option fbmem) : Prop :=
  forall m, geom_ok g m ->
  exists m', f m = Some m' /\ nwords m' = nwords m /\
             forall i, ~ in_box g x y w h i -> words m' i = words m i.

Section Confinement.
Context (g : geom).

Lemma geom_ok_nwords m m' : nwords m' = nwords m -> geom_ok g m -> geom_ok g m'.
Proof. unfold geom_ok. intros ->. done. Qed.

Lemma confined_weaken x y w h x' y' w' h' f :
  x <= x' -> x' + w' <= x + w -> y <= y' -> y' + h' <= y + h ->
  confined g x' y' w' h' f -> confined g x y w h f.
Proof.
  intros ???? Hf m Hm. destruct (Hf m Hm) as (m' & E & Hn & Hi).
  exists m'. repeat split; [done..|]. intros i Hout. apply Hi.
  intros Hin. apply Hout. unfold in_box in *. lia.
Qed.

Lemma confined_id x y w h : confined g x y w h Some.
Proof. intros m Hm. by exists m. Qed.

Lemma confined_bind x y w h f1 f2 :
  confined g x y w h f1 -> confined g x y w h f2 ->
  confined g x y w h (fun m => f1 m ≫= f2).
Proof.
  intros H1 H2 m Hm. destruct (H1 m Hm) as (m1 & E1 & Hn1 & Hi1).
  destruct (H2 m1) as (m2 & E2 & Hn2 & Hi2); [by eapply geom_ok_nwords|].
  exists m2. rewrite E1. simpl. repeat split; [done|congruence|].
  intros i Hi. rewrite Hi2, Hi1; done.
Qed.

Lemma confined_foldM {B} x y w h (f : fbmem -> B -> option fbmem) l :
  (forall b, b ∈ l -> confined g x y w h (fun m => f m b)) ->
  confined g x y w h (foldM f l).
Proof.
  induction l as [|b l IH]; intros Hf; [apply confined_id|].
  intros m Hm. destruct (Hf b (list_elem_of_here _ _) m Hm) as (m1 & E1 & Hn1 & Hi1).
  destruct (IH (fun b' Hb => Hf b' (list_elem_of_further _ _ _ Hb)) m1)
    as (m2 & E2 & Hn2 & Hi2); [by eapply geom_ok_nwords|].
  exists m2. simpl. rewrite E1. repeat split; [done|congruence|].
  intros i Hi. rewrite Hi2, Hi1; done.
Qed.

Lemma confined_draws x y w h l :
  Forall (confined g x y w h) l -> confined g x y w h (draws l).
Proof. intros Hl. apply confined_foldM. intros f. by apply Forall_forall. Qed.

Lemma confined_rect x y w h c : confined g x y w h (draw_rect g x y w h c).
Proof.
  intros m Hm. destruct (draw_rect_spec g m x y w h c Hm) as (m' & E & Hn & Hi).
  exists m'. repeat split; [done..|]. intros i Hout. rewrite Hi, decide_False; [done|].
  intros [??]; done.
Qed.

Lemma confined_outline x y w h t c :
  0 <= t <= w -> t <= h -> confined g x y w h (draw_rect_outline g x y w h t c).
Proof.
  intros Ht Hh. unfold draw_rect_outline.
  apply (confined_bind _ _ _ _ (draw_rect g x y w t c) _);
    [eapply confined_weaken; [..|apply confined_rect]; lia|].
  apply (confined_bind _ _ _ _ (draw_rect g x (y + h - t) w t c) _);
    [eapply confined_weaken; [..|apply confined_rect]; lia|].
  apply (confined_bind _ _ _ _ (draw_rect g x y t h c) _);
    [eapply confined_weaken; [..|apply confined_rect]; lia|].
  eapply confined_weaken; [..|apply confined_rect]; lia.
Qed.

Lemma confined_pixel x y c : confined g x y 1 1 (fun m => set_pixel g m x y c).
Proof.
  intros m Hm. unfold set_pixel.
  destruct (_ && _ && _ && _) eqn:B; [|by exists m]. bprop.
  destruct (fb_store_ok m (y * stride g + x) c) as (m' & E & Hn & Hi).
  { eapply pixel_in_bounds; [done|lia|lia]. }
  exists m'. repeat split; [done..|]. intros i Hout. rewrite Hi.
  destruct (Z.eqb_spec i (y * stride g + x)) as [He|]; [|done]. exfalso. apply Hout.
  destruct Hm as (? & ? & ?). apply index_eqb in He; [|lia..]. unfold in_box. lia.
Qed.

Lemma confined_block x y scale c :
  confined g x y scale scale (draw_block g x y scale c).
Proof.
  apply confined_foldM. intros sy Hsy%elem_of_seqZ.
  apply confined_foldM. intros sx Hsx%elem_of_seqZ.
  eapply confined_weaken; [..|apply confined_pixel]; lia.
Qed.

Lemma confined_glyph x y glyph scale fg bg :
  1 <= scale -> glyph_ok glyph = true ->
  confined g x y (8 * scale) (16 * scale) (draw_glyph g x y glyph scale fg bg).
Proof.
  intros Hs Hg. apply confined_foldM. intros row Hrow%elem_of_seqZ.
  destruct (glyph_rows glyph row Hg) as (line & -> & _); [lia|]. cbn [mbind option_bind].
  apply confined_foldM. intros col Hcol%elem_of_seqZ. unfold draw_glyph_bit.
  destruct (Z.eqb_spec scale 1) as [->|].
  - destruct (_ || _); [|apply confined_id].
    eapply confined_weaken; [..|apply confined_pixel]; lia.
  - eapply confined_weaken; [..|apply confined_block]; nia.
Qed.

Lemma confined_char x y ch scale fg bg :
  1 <= scale -> confined g x y (8 * scale) (16 * scale) (draw_char g x y ch scale fg bg).
Proof.
  intros Hs. unfold draw_char.
  set (ch' := if (ch <? 32) || (126 <? ch) then 32 else ch).
  assert (32 <= ch' <= 126) by (unfold ch'; cases_if; bprop; lia).
  destruct (lookup_lt_is_Some_2 font8x16 (Z.to_nat (ch' - 32))) as [gl E].
  { rewrite font8x16_length. lia. }
  rewrite E. cbn [mbind option_bind]. apply confined_glyph; [done|].
  apply (forallb_In _ _ _ font8x16_glyphs). by eapply list_elem_of_lookup_2.
Qed.

Lemma confined_string x y str scale fg bg :
  1 <= scale ->
  confined g x y (Z.of_nat (length str) * 8 * scale) (16 * scale)
           (draw_string g x y str scale fg bg).
Proof.
  intros Hs. revert x. induction str as [|ch str IH]; intros x; [apply confined_id|].
  cbn [draw_string length]. rewrite Nat2Z.inj_succ.
  apply (confined_bind _ _ _ _ (draw_char g x y ch scale fg bg) _).
  - eapply confined_weaken; [..|apply confined_char; done]; nia.
  - eapply confined_weaken; [..|apply IH]; nia.
Qed.

(** A centred string that fits its box stays in it. *)
Lemma confined_centered bx by_ bw bh str scale fg bg :
  1 <= scale -> Z.of_nat (length str) * 8 * scale <= bw -> 16 * scale <= bh ->
  confined g bx by_ bw bh (draw_string_centered g bx by_ bw bh str scale fg bg).
Proof.
  intros Hs Hw Hh. unfold draw_string_centered.
  eapply confined_weaken; [..|apply confined_string; done];
    rewrite !Z.quot_div_nonneg by lia;
    set (a := Z.of_nat (length str) * 8 * scale) in *;
    pose proof (Z.div_mod (bw - a) 2); pose proof (Z.mod_pos_bound (bw - a) 2);
    pose proof (Z.div_mod (bh - 16 * scale) 2);
    pose proof (Z.mod_pos_bound (bh - 16 * scale) 2); lia.
Qed.
End Confinement.

Create HintDb confine discriminated.
#[export] Hint Resolve confined_id confined_bind confined_rect confined_outline
  confined_pixel confined_char confined_string confined_centered : confine.

(** [confine] discharges a confinement goal for one drawing call inside a
    larger box; [confines] for each call of a list. *)
Ltac confine :=
  match goal with
  | |- confined _ _ _ _ _ (draw_rect _ _ _ _ _ _) =>
      eapply confined_weaken; [..|apply confined_rect]
  | |- confined _ _ _ _ _ (draw_rect_outline _ _ _ _ _ _ _) =>
      eapply confined_weaken; [..|apply confined_outline]
  | |- confined _ _ _ _ _ (draw_string_centered _ _ _ _ _ _ _ _ _) =>
      eapply confined_weaken; [..|apply confined_centered]
  | |- confined _ _ _ _ _ (draw_string _ _ _ _ _ _ _) =>
      eapply confined_weaken; [..|apply confined_string]
  end; strlit; cbn [length] in *; lia.
Ltac confines := repeat (apply Forall_cons_2; [confine|]); apply Forall_nil_2.

(** ** Saving and restoring a rectangle *)
Section Backup.
Context (g : geom) (x y w h : Z).

(** The rectangle is inside the panel. *)
Definition box_ok : Prop :=
  0 <= x /\ 0 <= w /\ x + w <= stride g /\ 0 <= y /\ 0 <= h /\ y + h <= height g.

(** [bk] holds the words of the rectangle of [m], row by row. *)
Definition holds_box (m bk : fbmem) : Prop :=
  forall r c, 0 <= r < h -> 0 <= c < w ->
  words bk (r * w + c) = words m ((y + r) * stride g + x + c).

Lemma save_rows_spec m bk :
  geom_ok g m -> box_ok -> w * h <= nwords bk ->
  exists bk', save_rows g x y w h m bk = Some bk' /\ nwords bk' = nwords bk /\
              holds_box m bk'.
Proof.
  intros (Hw & Hh & Hn) (Hx & Hw0 & Hxw & Hy & Hh0 & Hyh) Hbk.
  destruct (foldM_inv
    (fun pre bk' => nwords bk' = nwords bk /\
       forall r c, r ∈ pre -> 0 <= r < h -> 0 <= c < w ->
       words bk' (r * w + c) = words m ((y + r) * stride g + x + c))
    (fun bk r => fb_memcpy bk (r * w) m ((y + r) * stride g + x) w) (seqZ 0 h) bk)
    as (bk' & E & Hn' & Hbk').
  - split; [done|]. intros r c Hr%elem_of_nil. done.
  - intros pre r s Hr%elem_of_seqZ [Hs Hsi].
    destruct (fb_memcpy_ok s (r * w) m ((y + r) * stride g + x) w) as (s' & E & Hn' & Hs').
    1-4: nia.
    exists s'. repeat split; [done|congruence|]. intros r' c Hin Hr' Hc. rewrite Hs'.
    destruct (decide (r' = r)) as [->|Hne].
    + replace (_ && _) with true by (symmetry; apply andb_true_iff; lia). f_equal. lia.
    + replace (_ && _) with false.
      * apply Hsi; [|done..]. apply elem_of_app in Hin as [?|Hin]; [done|].
        apply list_elem_of_singleton in Hin. done.
      * symmetry. apply andb_false_iff.
        destruct (decide (r' < r)); [left|right]; bdestr; nia.
  - exists bk'. repeat split; [done..|]. intros r c Hr Hc. apply Hbk'; [|done..].
    apply elem_of_seqZ. lia.
Qed.

Lemma restore_rows_spec m bk :
  geom_ok g m -> box_ok -> w * h <= nwords bk ->
  exists m', restore_rows g x y w h bk m = Some m' /\ nwords m' = nwords m /\
    forall i, words m' i = if decide (in_box g x y w h i)
                           then words bk ((i / stride g - y) * w + (i mod stride g - x))
                           else words m i.
Proof.
  intros (Hw & Hh & Hn) (Hx & Hw0 & Hxw & Hy & Hh0 & Hyh) Hbk.
  destruct (foldM_inv
    (fun pre m' => nwords m' = nwords m /\
       forall i, words m' i =
         if decide (in_box g x y w h i /\ i / stride g - y ∈ pre)
         then words bk ((i / stride g - y) * w + (i mod stride g - x)) else words m i)
    (fun m r => fb_memcpy m ((y + r) * stride g + x) bk (r * w) w) (seqZ 0 h) m)
    as (m' & E & Hn' & Hm').
  - split; [done|]. intros i. rewrite decide_False; [done|]. rewrite elem_of_nil. tauto.
  - intros pre r s Hr%elem_of_seqZ [Hs Hsi].
    destruct (fb_memcpy_ok s ((y + r) * stride g + x) bk (r * w) w) as (s' & E & Hn' & Hs').
    1-4: nia.
    exists s'. repeat split; [done|congruence|]. intros i. rewrite Hs', Hsi.
    assert (((y + r) * stride g + x <=? i) && (i <? (y + r) * stride g + x + w) = true <->
            in_box g x y w h i /\ i / stride g - y = r) as Hrow.
    { pose proof (Z.mod_pos_bound i (stride g)). pose proof (index_pixel g i).
      rewrite andb_true_iff, Z.leb_le, Z.ltb_lt. unfold in_box. split; [intros|nia].
      assert (i / stride g = y + r) by
        (symmetry; apply (Z.div_unique _ _ _ (i - (y + r) * stride g)); lia). nia. }
    assert (i / stride g - y ∈ pre ++ [r] <-> i / stride g - y ∈ pre \/ i / stride g - y = r)
      as Hp by (by rewrite elem_of_app, list_elem_of_singleton).
    destruct (_ && _) eqn:B.
    + apply proj1 in Hrow. destruct (Hrow eq_refl) as [Hin Hir].
      rewrite decide_True by tauto. f_equal.
      rewrite (index_pixel g i) at 1 by lia. nia.
    + assert (~ (in_box g x y w h i /\ i / stride g - y = r)) by (rewrite <- Hrow; done).
      repeat case_decide; tauto.
  - exists m'. repeat split; [done..|]. intros i. rewrite Hm'. apply decide_ext.
    rewrite elem_of_seqZ. unfold in_box. lia.
Qed.

(** Restoring a saved rectangle puts back the words it held and leaves the
    others alone. *)
Lemma restore_holds m0 m bk :
  geom_ok g m -> box_ok -> w * h <= nwords bk -> holds_box m0 bk ->
  exists m', restore_rows g x y w h bk m = Some m' /\ nwords m' = nwords m /\
    forall i, words m' i = if decide (in_box g x y w h i) then words m0 i else words m i.
Proof.
  intros Hg Hb Hbk Hh.
  destruct (restore_rows_spec m bk) as (m' & E & Hn' & Hm'); [done..|].
  exists m'. repeat split; [done..|]. intros i. rewrite Hm'.
  case_decide as D; [|done].
  destruct Hg as (? & ? & ?). unfold in_box in D. rewrite Hh by lia.
  f_equal. pose proof (index_pixel g i). lia.
Qed.
End Backup.
