(* ===== verification/Overlay.v ===== *)
(** * Toast and media-card overlays of [btn-watcher.c]

    The two overlays the button supervisor paints over the running reader: the
    toast at the top of the panel and the media-player card in its middle.
    Each saves the words under it when it appears and puts them back when it
    is hidden. *)

From Stdlib Require Import Ascii String.
From S2P Require Import Prelude CString Framebuffer.

Definition TOAST_X := 102.
Definition TOAST_Y := 60.
Definition TOAST_W := 1200.
Definition TOAST_H := 160.
Definition CARD_X := 102.
Definition CARD_Y := 536.
Definition CARD_W := 1200.
Definition CARD_H := 800.

(** The fields of [struct mxcfb_update_data_v1] that [epdc_refresh] sets; the
    others are zero ([memset]). *)
Record epdc_update := mkepdc {
  upd_left : Z; upd_top : Z; upd_width : Z; upd_height : Z;
  upd_waveform : Z; upd_mode : Z; upd_temp : Z; upd_flags : Z }.

(** What the kernel answers to [fb_init]: whether each node opens, the words
    of the mapping if [mmap] succeeds, and the contents of the two [malloc]ed
    buffers if they succeed. *)
Record fb_device := mkdevice {
  dev_open : bool; dev_open_alt : bool;
  dev_mmap : option (Z -> Z);
  dev_toast : option (Z -> Z); dev_card : option (Z -> Z) }.

(** The file-scope variables of [btn-watcher.c]; [ioctls] is the trace of the
    update requests sent to the display controller. *)
Record overlay := mkoverlay {
  fb_fd : bool;
  fb_mem : option fbmem;
  toast_backup : option fbmem;
  card_backup : option fbmem;
  toast_active : bool;
  card_active : bool;
  toast_expire_time : Z;
  media_mode : bool;
  ioctls : list epdc_update }.

Definition overlay_init : overlay :=
  {| fb_fd := false; fb_mem := None; toast_backup := None; card_backup := None;
     toast_active := false; card_active := false; toast_expire_time := 0;
     media_mode := false; ioctls := [] |}.

(** [fb_init]: maps the framebuffer and allocates the backups, once. *)
Definition fb_init (d : fb_device) (o : overlay) : overlay :=
  match fb_mem o with
  | Some _ => o
  | None =>
      if dev_open d || dev_open_alt d then
        match dev_mmap d with
        | None => o {{ fb_fd := false }}
        | Some ws =>
            o {{ fb_fd := true;
                 fb_mem := Some {| words := ws; nwords := panel_words |};
                 toast_backup := (fun ws => {| words := ws; nwords := TOAST_W * TOAST_H |})
                                   <$> dev_toast d;
                 card_backup := (fun ws => {| words := ws; nwords := CARD_W * CARD_H |})
                                  <$> dev_card d }}
        end
      else o {{ fb_fd := false }}
  end.

(** [epdc_refresh]: one update request, the region clamped. *)
Definition epdc_request (left top width height mode : Z) : epdc_update :=
  {| upd_left := if left <? 0 then 0 else left;
     upd_top := if top <? 0 then 0 else top;
     upd_width := if 1404 <? width then 1404 else width;
     upd_height := if 1872 <? height then 1872 else height;
     upd_waveform := mode;
     upd_mode := if mode =? 2 then 0 else 1;
     upd_temp := 0x1001; upd_flags := 0 |}.

Definition epdc_refresh (left top width height mode : Z) (o : overlay) : overlay :=
  if fb_fd o then o {{ ioctls := ioctls o ++ [epdc_request left top width height mode] }}
  else o.

(** [hide_toast]. *)
Definition hide_toast (o : overlay) : option overlay :=
  match toast_active o, fb_mem o, toast_backup o with
  | true, Some m, Some bk =>
      m' ← restore_rows panel TOAST_X TOAST_Y TOAST_W TOAST_H bk m;
      Some ((epdc_refresh TOAST_X TOAST_Y TOAST_W TOAST_H 1 (o {{ fb_mem := Some m' }}))
              {{ toast_active := false }})
  | _, _, _ => Some o
  end.

(** The drawing calls of [show_toast]. *)
Definition toast_drawing (title : list Z) (subtitle : option (list Z)) :=
  [ draw_rect panel TOAST_X TOAST_Y TOAST_W TOAST_H 0x0000;
    draw_rect_outline panel TOAST_X TOAST_Y TOAST_W TOAST_H 4 0xFFFF ] ++
  match subtitle with
  | Some (c :: s) =>
      [ draw_string_centered panel TOAST_X (TOAST_Y + 25) TOAST_W 55 title 3 0xFFFF 0x0000;
        draw_string_centered panel TOAST_X (TOAST_Y + 95) TOAST_W 40 (c :: s) 2 0xDEFB 0x0000 ]
  | _ =>
      [ draw_string_centered panel TOAST_X TOAST_Y TOAST_W TOAST_H title 3 0xFFFF 0x0000 ]
  end.

(** Saving the words under an overlay that is about to appear. *)
Definition save_toast (m : fbmem) (o : overlay) : option overlay :=
  if toast_active o then Some o else
  match toast_backup o with
  | Some bk => bk' ← save_rows panel TOAST_X TOAST_Y TOAST_W TOAST_H m bk;
               Some (o {{ toast_backup := Some bk'; toast_active := true }})
  | None => Some (o {{ toast_active := true }})
  end.

Definition show_toast (d : fb_device) (title : list Z) (subtitle : option (list Z))
    (now : Z) (o : overlay) : option overlay :=
  let o := fb_init d o in
  match fb_mem o with
  | None => Some o
  | Some m =>
      o1 ← save_toast m o;
      m' ← draws (toast_drawing title subtitle) m;
      Some ((epdc_refresh TOAST_X TOAST_Y TOAST_W TOAST_H 1 (o1 {{ fb_mem := Some m' }}))
              {{ toast_expire_time := u64 (now + 2200) }})
  end.

(** [hide_media_card]. *)
Definition hide_media_card (o : overlay) : option overlay :=
  match card_active o, fb_mem o, card_backup o with
  | true, Some m, Some bk =>
      m' ← restore_rows panel CARD_X CARD_Y CARD_W CARD_H bk m;
      Some ((epdc_refresh CARD_X CARD_Y CARD_W CARD_H 2 (o {{ fb_mem := Some m' }}))
              {{ card_active := false }})
  | _, _, _ => Some o
  end.

(** One button quadrant of the card. *)
Definition quadrant (x y : Z) (title text : string) :=
  [ draw_rect panel x y 560 195 0xFFFF;
    draw_rect_outline panel x y 560 195 3 0x0000;
    draw_string_centered panel x (y + 35) 560 35 (cstr title) 2 0x0000 0xFFFF;
    draw_string_centered panel x (y + 95) 560 55 (cstr text) 3 0x0000 0xFFFF ].

(** The drawing calls of [show_media_card]. *)
Definition card_drawing (status : option (list Z)) :=
  let col1_x := CARD_X + 25 in
  let col2_x := CARD_X + 615 in
  let row1_y := CARD_Y + 160 in
  let row2_y := CARD_Y + 375 in
  [ draw_rect panel CARD_X CARD_Y CARD_W CARD_H 0xFFFF;
    draw_rect_outline panel CARD_X CARD_Y CARD_W CARD_H 6 0x0000;
    draw_rect_outline panel (CARD_X + 10) (CARD_Y + 10) (CARD_W - 20) (CARD_H - 20) 2 0x0000;
    draw_rect panel (CARD_X + 14) (CARD_Y + 14) (CARD_W - 28) 125 0x0000;
    draw_string_centered panel (CARD_X + 14) (CARD_Y + 26) (CARD_W - 28) 50
      (cstr "MEDIA PLAYER CONTROLS") 3 0xFFFF 0x0000;
    draw_string_centered panel (CARD_X + 14) (CARD_Y + 84) (CARD_W - 28) 36
      (match status with Some s => s | None => cstr "PLAYBACK ACTIVE" end) 2 0xFFFF 0x0000 ] ++
  quadrant col1_x row1_y "[ TOP-LEFT BUTTON (F9) ]" "|<< PREV TRACK" ++
  quadrant col2_x row1_y "[ TOP-RIGHT BUTTON (F11) ]" "NEXT TRACK >>|" ++
  quadrant col1_x row2_y "[ BOTTOM-LEFT BUTTON (F10) ]" "SHUFFLE ON / OFF" ++
  quadrant col2_x row2_y "[ BOTTOM-RIGHT BUTTON (F12) ]" ">|| PLAY / PAUSE" ++
  [ draw_rect panel (CARD_X + 25) (CARD_Y + 585) (CARD_W - 50) 3 0x0000;
    draw_string_centered panel CARD_X (CARD_Y + 605) CARD_W 35
      (cstr "HOME BUTTON:  >|| PLAY / PAUSE") 2 0x0000 0xFFFF;
    draw_string_centered panel CARD_X (CARD_Y + 655) CARD_W 35
      (cstr "HOLD HOME + BOTTOM-RIGHT:  RETURN TO READING") 2 0x0000 0xFFFF;
    draw_string_centered panel CARD_X (CARD_Y + 705) CARD_W 35
      (cstr "(Music continues playing seamlessly in background)") 2 0x0000 0xFFFF ].

Definition save_card (m : fbmem) (o : overlay) : option overlay :=
  if card_active o then Some o else
  match card_backup o with
  | Some bk => bk' ← save_rows panel CARD_X CARD_Y CARD_W CARD_H m bk;
               Some (o {{ card_backup := Some bk'; card_active := true }})
  | None => Some (o {{ card_active := true }})
  end.

Definition show_media_card (d : fb_device) (status : option (list Z))
    (o : overlay) : option overlay :=
  let o := fb_init d o in
  match fb_mem o with
  | None => Some o
  | Some m =>
      o1 ← save_card m o;
      m' ← draws (card_drawing status) m;
      Some (epdc_refresh CARD_X CARD_Y CARD_W CARD_H 1 (o1 {{ fb_mem := Some m' }}))
  end.

(** ** Every drawing stays inside its overlay *)
Definition toast_fits (title : list Z) (subtitle : option (list Z)) : Prop :=
  Z.of_nat (length title) <= 50 /\
  Z.of_nat (length (default [] subtitle)) <= 75.

Definition status_fits (status : option (list Z)) : Prop :=
  Z.of_nat (length (default [] status)) <= 73.

Lemma toast_confined title subtitle :
  toast_fits title subtitle ->
  confined panel TOAST_X TOAST_Y TOAST_W TOAST_H (draws (toast_drawing title subtitle)).
Proof.
  intros [Ht Hs]. apply confined_draws. unfold toast_drawing, TOAST_X, TOAST_Y, TOAST_W, TOAST_H.
  destruct subtitle as [[|c s]|]; cbn [app default from_option id length] in *; confines.
Qed.

Lemma quadrant_confined x y t1 t2 :
  (CARD_X <= x /\ x + 560 <= CARD_X + CARD_W) -> (CARD_Y <= y /\ y + 195 <= CARD_Y + CARD_H) ->
  (length (cstr t1) <= 35)%nat -> (length (cstr t2) <= 23)%nat ->
  Forall (confined panel CARD_X CARD_Y CARD_W CARD_H) (quadrant x y t1 t2).
Proof.
  unfold CARD_X, CARD_Y, CARD_W, CARD_H. intros Hx Hy H1 H2. unfold quadrant.
  confines.
Qed.

Lemma card_confined status :
  status_fits status ->
  confined panel CARD_X CARD_Y CARD_W CARD_H (draws (card_drawing status)).
Proof.
  intros Hs. apply confined_draws. unfold card_drawing.
  rewrite !Forall_app. split_and!.
  2-5: apply quadrant_confined; [unfold CARD_X, CARD_W; lia|unfold CARD_Y, CARD_H; lia|..];
       cbn [length cstr map list_ascii_of_string]; lia.
  - unfold status_fits, CARD_X, CARD_Y, CARD_W, CARD_H in *.
    destruct status as [st|]; cbn [default from_option id length] in *; confines.
  - unfold CARD_X, CARD_Y, CARD_W, CARD_H. confines.
Qed.

(** ** The abstract view: a screen with at most two overlays on top

    [overlay_over m0 o]: the framebuffer of [o] is the screen [m0] with the
    active overlays painted over it, and the backup of each active overlay
    holds the words of [m0] it covers. *)
Abbreviation in_toast := (in_box panel TOAST_X TOAST_Y TOAST_W TOAST_H).
Abbreviation in_card := (in_box panel CARD_X CARD_Y CARD_W CARD_H).

Record overlay_over (m0 : fbmem) (o : overlay) : Prop := {
  ov_fd : fb_fd o = true;
  ov_screen : nwords m0 = panel_words;
  ov_mem : exists m, fb_mem o = Some m /\ nwords m = panel_words /\
    forall i, ~ (toast_active o = true /\ in_toast i) ->
              ~ (card_active o = true /\ in_card i) -> words m i = words m0 i;
  ov_toast : exists bk, toast_backup o = Some bk /\ nwords bk = TOAST_W * TOAST_H /\
    (toast_active o = true -> holds_box panel TOAST_X TOAST_Y TOAST_W TOAST_H m0 bk);
  ov_card : exists bk, card_backup o = Some bk /\ nwords bk = CARD_W * CARD_H /\
    (card_active o = true -> holds_box panel CARD_X CARD_Y CARD_W CARD_H m0 bk) }.

Lemma panel_geom_ok m : nwords m = panel_words -> geom_ok panel m.
Proof. unfold geom_ok, panel_words. simpl. lia. Qed.

Lemma toast_box_ok : box_ok panel TOAST_X TOAST_Y TOAST_W TOAST_H.
Proof. unfold box_ok. simpl. unfold TOAST_X, TOAST_Y, TOAST_W, TOAST_H. lia. Qed.
Lemma card_box_ok : box_ok panel CARD_X CARD_Y CARD_W CARD_H.
Proof. unfold box_ok. simpl. unfold CARD_X, CARD_Y, CARD_W, CARD_H. lia. Qed.

Lemma boxes_disjoint i : in_toast i -> in_card i -> False.
Proof.
  unfold in_box, TOAST_X, TOAST_Y, TOAST_W, TOAST_H, CARD_X, CARD_Y, CARD_W, CARD_H. lia.
Qed.

#[export] Hint Resolve panel_geom_ok toast_box_ok card_box_ok : nook.

Lemma holds_box_agree g x y w h m0 m bk :
  0 < stride g -> box_ok g x y w h ->
  (forall i, in_box g x y w h i -> words m i = words m0 i) ->
  holds_box g x y w h m bk -> holds_box g x y w h m0 bk.
Proof.
  intros Hs (?&?&?&?&?&?) Ha Hh r c Hr Hc. rewrite Hh by done. apply Ha.
  destruct (pixel_index g (x + c) (y + r)) as [E1 E2]; [lia..|].
  unfold in_box. rewrite <- Z.add_assoc, E1, E2. lia.
Qed.

(** The generic step of the two [show] functions: saving a box that is not
    covered yet. *)
Lemma save_uncovered x y w h m m0 bk :
  box_ok panel x y w h -> nwords m = panel_words -> nwords bk = w * h ->
  (forall i, in_box panel x y w h i -> words m i = words m0 i) ->
  exists bk', save_rows panel x y w h m bk = Some bk' /\ nwords bk' = w * h /\
              holds_box panel x y w h m0 bk'.
Proof.
  intros Hb Hm Hbk Ha.
  destruct (save_rows_spec panel x y w h m bk) as (bk' & E & Hn & Hh);
    [auto with nook|done|lia|].
  exists bk'. repeat split; [done|congruence|].
  by apply (holds_box_agree panel x y w h m0 m).
Qed.

Lemma fb_init_mapped d o m : fb_mem o = Some m -> fb_init d o = o.
Proof. unfold fb_init. by intros ->. Qed.

Lemma show_toast_over d title subtitle now m0 o :
  toast_fits title subtitle -> overlay_over m0 o ->
  exists o', show_toast d title subtitle now o = Some o' /\ overlay_over m0 o' /\
    toast_active o' = true /\ card_active o' = card_active o /\
    toast_expire_time o' = u64 (now + 2200) /\ media_mode o' = media_mode o.
Proof.
  intros Hf [Hfd Hs (m & Em & Hm & Ha) (tb & Et & Htn & Ht) (cb & Ec & Hcn & Hc)].
  unfold show_toast. rewrite (fb_init_mapped d o m Em), Em.
  destruct (toast_confined title subtitle Hf m) as (m' & Ed & Hm' & Ho); [auto with nook|].
  assert (exists tb', save_toast m o = Some (o {{ toast_backup := Some tb'; toast_active := true }})
            /\ nwords tb' = TOAST_W * TOAST_H
            /\ holds_box panel TOAST_X TOAST_Y TOAST_W TOAST_H m0 tb') as (tb' & Es & Htn' & Hh).
  { unfold save_toast. destruct (toast_active o) eqn:A.
    - exists tb. repeat split; [|done|by apply Ht]. destruct o; simpl in *; subst. done.
    - rewrite Et. destruct (save_uncovered TOAST_X TOAST_Y TOAST_W TOAST_H m m0 tb)
        as (tb' & E & ? & ?); [auto with nook..| |].
      + intros i Hi. apply Ha; [by intros [??]|]. intros [_ Hci]. by eapply boxes_disjoint.
      + exists tb'. rewrite E. done. }
  rewrite Es. cbn [mbind option_bind]. rewrite Ed. eexists. split; [reflexivity|].
  destruct o as [fd fm tb0 cb0 ta ca te mm io]; simpl in *; subst.
  split; [|done]. split; cbn; try done.
  - exists m'. repeat split; [congruence|]. intros i H1 H2. rewrite Ho by tauto. apply Ha; tauto.
  - by exists tb'.
  - by exists cb.
Qed.

Lemma show_card_over d status m0 o :
  status_fits status -> overlay_over m0 o ->
  exists o', show_media_card d status o = Some o' /\ overlay_over m0 o' /\
    card_active o' = true /\ toast_active o' = toast_active o /\
    toast_expire_time o' = toast_expire_time o /\ media_mode o' = media_mode o.
Proof.
  intros Hf [Hfd Hs (m & Em & Hm & Ha) (tb & Et & Htn & Ht) (cb & Ec & Hcn & Hc)].
  unfold show_media_card. rewrite (fb_init_mapped d o m Em), Em.
  destruct (card_confined status Hf m) as (m' & Ed & Hm' & Ho); [auto with nook|].
  assert (exists cb', save_card m o = Some (o {{ card_backup := Some cb'; card_active := true }})
            /\ nwords cb' = CARD_W * CARD_H
            /\ holds_box panel CARD_X CARD_Y CARD_W CARD_H m0 cb') as (cb' & Es & Hcn' & Hh).
  { unfold save_card. destruct (card_active o) eqn:A.
    - exists cb. repeat split; [|done|by apply Hc]. destruct o; simpl in *; subst. done.
    - rewrite Ec. destruct (save_uncovered CARD_X CARD_Y CARD_W CARD_H m m0 cb)
        as (cb' & E & ? & ?); [auto with nook..| |].
      + intros i Hi. apply Ha; [|by intros [??]]. intros [_ Hti]. by eapply boxes_disjoint.
      + exists cb'. rewrite E. done. }
  rewrite Es. cbn [mbind option_bind]. rewrite Ed. eexists. split; [reflexivity|].
  destruct o as [fd fm tb0 cb0 ta ca te mm io]; simpl in *; subst.
  split; [|done]. split; cbn; try done.
  - exists m'. repeat split; [congruence|]. intros i H1 H2. rewrite Ho by tauto. apply Ha; tauto.
  - by exists tb.
  - by exists cb'.
Qed.

Lemma hide_toast_over m0 o :
  overlay_over m0 o ->
  exists o', hide_toast o = Some o' /\ overlay_over m0 o' /\
    toast_active o' = false /\ card_active o' = card_active o /\
    toast_expire_time o' = toast_expire_time o /\ media_mode o' = media_mode o.
Proof.
  intros Hov. pose proof Hov as [Hfd Hs (m & Em & Hm & Ha) (tb & Et & Htn & Ht) (cb & Ec & Hcn & Hc)].
  unfold hide_toast. destruct (toast_active o) eqn:A.
  - rewrite Em, Et.
    destruct (restore_holds panel TOAST_X TOAST_Y TOAST_W TOAST_H m0 m tb)
      as (m' & E & Hm' & Hi); [auto with nook..|lia|by apply Ht|].
    rewrite E. eexists. split; [reflexivity|].
    destruct o as [fd fm tb0 cb0 ta ca te mm io]; simpl in *; subst.
    split; [|done]. split; cbn; try done.
    + exists m'. repeat split; [congruence|]. intros i H1 H2. rewrite Hi.
      case_decide; [done|]. apply Ha; tauto.
    + by exists tb.
    + by exists cb.
  - exists o. split_and!; done.
Qed.

Lemma hide_card_over m0 o :
  overlay_over m0 o ->
  exists o', hide_media_card o = Some o' /\ overlay_over m0 o' /\
    card_active o' = false /\ toast_active o' = toast_active o /\
    toast_expire_time o' = toast_expire_time o /\ media_mode o' = media_mode o.
Proof.
  intros Hov. pose proof Hov as [Hfd Hs (m & Em & Hm & Ha) (tb & Et & Htn & Ht) (cb & Ec & Hcn & Hc)].
  unfold hide_media_card. destruct (card_active o) eqn:A.
  - rewrite Em, Ec.
    destruct (restore_holds panel CARD_X CARD_Y CARD_W CARD_H m0 m cb)
      as (m' & E & Hm' & Hi); [auto with nook..|lia|by apply Hc|].
    rewrite E. eexists. split; [reflexivity|].
    destruct o as [fd fm tb0 cb0 ta ca te mm io]; simpl in *; subst.
    split; [|done]. split; cbn; try done.
    + exists m'. repeat split; [congruence|]. intros i H1 H2. rewrite Hi.
      case_decide; [done|]. apply Ha; tauto.
    + by exists tb.
    + by exists cb.
  - exists o. split_and!; done.
Qed.

Lemma fb_init_over d ws tw cw o :
  fb_mem o = None -> toast_active o = false -> card_active o = false ->
  dev_open d || dev_open_alt d = true -> dev_mmap d = Some ws ->
  dev_toast d = Some tw -> dev_card d = Some cw ->
  overlay_over {| words := ws; nwords := panel_words |} (fb_init d o).
Proof.
  intros Hm Hta Hca Ho Hmm Ht Hc. unfold fb_init. rewrite Hm, Ho, Hmm, Ht, Hc.
  destruct o as [fd fm tb0 cb0 ta ca te mm io]; simpl in *; subst.
  split; cbn; try done; eexists; repeat split; done.
Qed.

(** With no overlay active the screen is the one underneath, word for word. *)
Lemma over_clean m0 o :
  overlay_over m0 o -> toast_active o = false -> card_active o = false ->
  exists m, fb_mem o = Some m /\ m ≡ m0.
Proof.
  intros [_ Hs (m & Em & Hm & Ha) _ _] Ht Hc. exists m. split; [done|].
  split; [congruence|]. intros i. apply Ha; intros [??]; congruence.
Qed.

(** ** Sequences of overlay calls *)
Inductive overlay_call :=
  | ShowToast (title : list Z) (subtitle : option (list Z)) (now : Z)
  | HideToast
  | ShowCard (status : option (list Z))
  | HideCard.

Definition run_call (d : fb_device) (o : overlay) (c : overlay_call) : option overlay :=
  match c with
  | ShowToast t s now => show_toast d t s now o
  | HideToast => hide_toast o
  | ShowCard s => show_media_card d s o
  | HideCard => hide_media_card o
  end.

Definition call_fits (c : overlay_call) : Prop :=
  match c with
  | ShowToast t s _ => toast_fits t s
  | ShowCard s => status_fits s
  | _ => True
  end.

Lemma run_call_over d m0 o c :
  call_fits c -> overlay_over m0 o ->
  exists o', run_call d o c = Some o' /\ overlay_over m0 o'.
Proof.
  intros Hf Ho. destruct c; simpl in *.
  - destruct (show_toast_over d title subtitle now m0 o Hf Ho) as (o' & ? & ? & _); eauto.
  - destruct (hide_toast_over m0 o Ho) as (o' & ? & ? & _); eauto.
  - destruct (show_card_over d status m0 o Hf Ho) as (o' & ? & ? & _); eauto.
  - destruct (hide_card_over m0 o Ho) as (o' & ? & ? & _); eauto.
Qed.

Lemma run_calls_over d m0 o cs :
  Forall call_fits cs -> overlay_over m0 o ->
  exists o', foldM (run_call d) cs o = Some o' /\ overlay_over m0 o'.
Proof.
  revert o. induction cs as [|c cs IH]; intros o Hf Ho; [by exists o|].
  apply Forall_cons in Hf as [Hc Hcs].
  destruct (run_call_over d m0 o c Hc Ho) as (o1 & E & H1).
  destruct (IH o1 Hcs H1) as (o2 & E2 & H2). exists o2. simpl. by rewrite E.
Qed.

(** C1: whatever sequence of overlays the supervisor shows, redraws and hides
    over a screen, hiding both overlays at the end puts every word of that
    screen back, and no call leaves the mapping or a backup buffer. *)
Theorem overlays_restore_screen d m0 o cs :
  overlay_over m0 o -> Forall call_fits cs ->
  exists o' m, foldM (run_call d) (cs ++ [HideToast; HideCard]) o = Some o' /\
    fb_mem o' = Some m /\ m ≡ m0.
Proof.
  intros Ho Hf. destruct (run_calls_over d m0 o cs Hf Ho) as (o1 & E1 & H1).
  destruct (hide_toast_over m0 o1 H1) as (o2 & E2 & H2 & Ht & _).
  destruct (hide_card_over m0 o2 H2) as (o3 & E3 & H3 & Hc & Ht' & _).
  destruct (over_clean m0 o3) as (m & Em & Hm); [done|congruence|done|].
  exists o3, m. rewrite foldM_app, E1. cbn [mbind option_bind foldM run_call].
  by rewrite E2, E3.
Qed.

Definition demo_device : fb_device :=
  {| dev_open := true; dev_open_alt := false; dev_mmap := Some (fun i => i mod 7);
     dev_toast := Some (fun _ => 0); dev_card := Some (fun _ => 0) |}.

Lemma overlays_restore_screen_witness :
  exists o' m, foldM (run_call demo_device)
      ([ShowToast (cstr "SWITCHING TO PLATO...") (Some (cstr "Fast Touch-Driven Rust Reader")) 5;
        ShowCard (Some (cstr "PLAYLIST: SHUFFLE TOGGLED"))] ++ [HideToast; HideCard])
      (fb_init demo_device overlay_init) = Some o' /\
    fb_mem o' = Some m /\ m ≡ {| words := fun i => i mod 7; nwords := panel_words |}.
Proof.
  apply (overlays_restore_screen demo_device).
  - by apply (fb_init_over demo_device _ (fun _ => 0) (fun _ => 0)).
  - apply Forall_cons_2; [split; cbn; lia|].
    apply Forall_cons_2; [unfold call_fits, status_fits; cbn; lia|]. apply Forall_nil_2.
Defined.
