(* ===== verification/Input.v ===== *)
(** * Linux input events

    The event record and the event codes the components exchange with the
    kernel ([linux/input.h]; documented values of that interface). *)

From S2P Require Import Prelude.

Record event := mkev { ev_type : Z; ev_code : Z; ev_value : Z }.

Definition EV_SYN := 0.
Definition EV_KEY := 1.
Definition EV_ABS := 3.
Definition EV_SW := 5.
Definition SYN_REPORT := 0.
Definition SW_LID := 0.
Definition KEY_HOME := 102.
Definition KEY_POWER := 116.
Definition BTN_TOUCH := 330.
Definition ABS_X := 0.
Definition ABS_Y := 1.
Definition ABS_MT_SLOT := 47.
Definition ABS_MT_TOUCH_MAJOR := 48.
Definition ABS_MT_WIDTH_MAJOR := 50.
Definition ABS_MT_POSITION_X := 53.
Definition ABS_MT_POSITION_Y := 54.
Definition ABS_MT_TRACKING_ID := 57.

#[export] Instance event_eq_dec : EqDecision event.
Proof. solve_decision. Defined.
