(* ===== verification/Ring.v ===== *)
(** * Ring buffers

    The two event queues of the shims are rings: an array of [N] cells with a
    head and a tail index, empty when the two are equal, so holding at most
    [N - 1] elements.  [plato_shim.c] drops the oldest element when full,
    [sdl_fb0_shim.c] drops the new one.  The abstraction [contents] is the list
    of queued elements, oldest first; the lemmas say what each operation does
    to it. *)

From S2P Require Import Prelude.

Record ring (A : Type) := mkring { cells : list A; head : Z; tail : Z }.
Arguments mkring {A}. Arguments cells {A}. Arguments head {A}. Arguments tail {A}.

Section Ring.
Context {A : Type} (N : Z) (d : A).

Definition ring_next (i : Z) : Z := (i + 1) mod N.

Definition ring_store (i : Z) (x : A) (l : list A) : list A := <[Z.to_nat i := x]> l.
Definition ring_load (i : Z) (l : list A) : A := nth (Z.to_nat i) l d.

Definition push_drop_newest (x : A) (r : ring A) : ring A :=
  let next := ring_next (tail r) in
  if next =? head r then r
  else {| cells := ring_store (tail r) x (cells r); head := head r; tail := next |}.

Definition push_drop_oldest (x : A) (r : ring A) : ring A :=
  let next := ring_next (tail r) in
  {| cells := ring_store (tail r) x (cells r);
     head := if next =? head r then ring_next (head r) else head r;
     tail := next |}.

Definition pop (r : ring A) : option (A * ring A) :=
  if head r =? tail r then None
  else Some (ring_load (head r) (cells r),
             {| cells := cells r; head := ring_next (head r); tail := tail r |}).

(** The abstraction. *)
Definition ring_len (r : ring A) : nat := Z.to_nat ((tail r - head r) mod N).
Definition contents (r : ring A) : list A :=
  (fun k => ring_load ((head r + Z.of_nat k) mod N) (cells r)) <$> seq 0 (ring_len r).

Record ring_ok (r : ring A) : Prop := {
  ring_cells : Z.of_nat (length (cells r)) = N;
  ring_head : 0 <= head r < N;
  ring_tail : 0 <= tail r < N }.

Lemma next_spec i : 0 <= i < N -> ring_next i = if i + 1 =? N then 0 else i + 1.
Proof.
  intros Hi. unfold ring_next. destruct (Z.eqb_spec (i + 1) N) as [->|].
  - apply Z.mod_same. lia.
  - apply Z.mod_small. lia.
Qed.

Lemma mod_sub a b : 0 <= a < N -> 0 <= b < N -> (b - a) mod N = if b <? a then b - a + N else b - a.
Proof.
  intros Ha Hb. destruct (Z.ltb_spec b a).
  - rewrite <- (Z_mod_plus_full (b - a) 1 N), Z.mod_small; lia.
  - apply Z.mod_small. lia.
Qed.

Lemma mod_add a k : 0 <= a < N -> 0 <= k < N -> (a + k) mod N = if a + k <? N then a + k else a + k - N.
Proof.
  intros Ha Hk. destruct (Z.ltb_spec (a + k) N).
  - apply Z.mod_small. lia.
  - rewrite <- (Z_mod_plus_full (a + k) (-1) N), Z.mod_small; lia.
Qed.

Ltac ring_arith :=
  repeat match goal with
  | H : ring_ok _ |- _ => destruct H
  end;
  unfold ring_len in *; cbn [head tail cells] in *;
  rewrite ?next_spec, ?mod_sub, ?mod_add in * by (repeat case_match; bprop; lia);
  repeat case_match; bprop; try lia.

Lemma load_store i j x l :
  0 <= i < Z.of_nat (length l) -> 0 <= j ->
  ring_load j (ring_store i x l) = if i =? j then x else ring_load j l.
Proof.
  intros Hi Hj. unfold ring_load, ring_store.
  destruct (Z.eqb_spec i j) as [->|Hne]; rewrite !nth_lookup.
  - rewrite list_lookup_insert_eq by lia. done.
  - rewrite list_lookup_insert_ne by lia. done.
Qed.

Lemma contents_length r : length (contents r) = ring_len r.
Proof. unfold contents. by rewrite length_fmap, length_seq. Qed.

Lemma ring_len_bound r : ring_ok r -> Z.of_nat (ring_len r) < N.
Proof. intros Hr. ring_arith. Qed.

Lemma ring_len_empty r : ring_ok r -> head r = tail r <-> ring_len r = 0%nat.
Proof. intros Hr. split; intros; ring_arith. Qed.

(** A ring whose contents agree cell by cell with a list. *)
Lemma contents_ext r l :
  length l = ring_len r ->
  (forall k x, l !! k = Some x -> ring_load ((head r + Z.of_nat k) mod N) (cells r) = x) ->
  contents r = l.
Proof.
  intros Hl Hx. apply list_eq. intros k. unfold contents. rewrite list_lookup_fmap.
  destruct (l !! k) as [x|] eqn:E.
  - apply lookup_lt_Some in E as Hk. rewrite lookup_seq_lt by lia. cbn. f_equal. by apply Hx.
  - apply lookup_ge_None in E. rewrite lookup_seq_ge by lia. done.
Qed.

Lemma contents_lookup r k x :
  contents r !! k = Some x -> (k < ring_len r)%nat /\
  ring_load ((head r + Z.of_nat k) mod N) (cells r) = x.
Proof.
  unfold contents. rewrite list_lookup_fmap. intros (i & Hi & ->)%fmap_Some.
  apply lookup_seq in Hi as [-> ?]. done.
Qed.

Lemma push_newest_ok x r : ring_ok r -> ring_ok (push_drop_newest x r).
Proof.
  intros Hr. unfold push_drop_newest. destruct (_ =? _) eqn:E; [done|].
  destruct Hr. split; cbn; [unfold ring_store; by rewrite length_insert|done|].
  rewrite next_spec by done. case_match; bprop; lia.
Qed.

Lemma push_oldest_ok x r : ring_ok r -> ring_ok (push_drop_oldest x r).
Proof.
  intros []. unfold push_drop_oldest.
  split; cbn; [unfold ring_store; by rewrite length_insert|..];
    rewrite !next_spec by done; repeat case_match; bprop; lia.
Qed.

Lemma pop_ok r x r' : ring_ok r -> pop r = Some (x, r') -> ring_ok r'.
Proof.
  intros [] . unfold pop. case_match; [done|]. intros [= <- <-].
  split; cbn; [done| |done]. rewrite next_spec by done. case_match; bprop; lia.
Qed.

Lemma push_newest_contents x r :
  ring_ok r ->
  contents (push_drop_newest x r) =
    if Z.of_nat (length (contents r)) <? N - 1 then contents r ++ [x] else contents r.
Proof.
  intros Hr. rewrite contents_length. unfold push_drop_newest.
  assert (Hf : (ring_next (tail r) =? head r) = negb (Z.of_nat (ring_len r) <? N - 1)).
  { apply eq_true_iff_eq. rewrite negb_true_iff, Z.eqb_eq, Z.ltb_ge. ring_arith. }
  rewrite Hf. destruct (Z.of_nat (ring_len r) <? N - 1) eqn:E; [|done]. cbn [negb].
  bprop. apply contents_ext.
  - rewrite length_app, contents_length. cbn. ring_arith.
  - intros k y [Hk|[Hk Hy]]%lookup_app_Some.
    + apply contents_lookup in Hk as [Hlt <-]. pose proof Hr as [Hc _ _]. cbn [cells head].
      rewrite load_store by (ring_arith || (ring_arith; apply Z.mod_pos_bound; lia)).
      destruct (Z.eqb_spec (tail r) ((head r + Z.of_nat k) mod N)) as [Et|]; [|done].
      exfalso. ring_arith.
    + apply list_lookup_singleton_Some in Hy as [Hk' <-]. rewrite contents_length in *.
      pose proof Hr as [Hc _ _]. cbn [cells head].
      rewrite load_store by (ring_arith || (ring_arith; apply Z.mod_pos_bound; lia)).
      replace ((head r + Z.of_nat k) mod N) with (tail r); [by rewrite Z.eqb_refl|].
      replace k with (ring_len r) by lia. ring_arith.
Qed.

Lemma pop_contents r :
  ring_ok r ->
  match pop r with
  | None => contents r = []
  | Some (x, r') => contents r = x :: contents r'
  end.
Proof.
  intros Hr. unfold pop. destruct (Z.eqb_spec (head r) (tail r)) as [E|E].
  - apply ring_len_empty in E; [|done]. apply nil_length_inv. by rewrite contents_length.
  - apply contents_ext.
    + cbn. rewrite contents_length. ring_arith.
    + intros [|k] y; cbn; [intros [= <-]|intros Hk].
      * f_equal. ring_arith.
      * apply contents_lookup in Hk as [Hlt <-]. cbn [cells head]. f_equal.
        ring_arith.
Qed.

(** Dropping the oldest element is a pop, if the ring is full, and a push. *)
Lemma push_oldest_pop x r :
  ring_ok r -> 2 <= N ->
  push_drop_oldest x r =
    push_drop_newest x (if ring_next (tail r) =? head r
                        then {| cells := cells r; head := ring_next (head r); tail := tail r |}
                        else r).
Proof.
  intros Hr HN. unfold push_drop_oldest, push_drop_newest.
  destruct (ring_next (tail r) =? head r) eqn:E; cbn [head tail cells]; [|by rewrite E].
  bprop. rewrite (proj2 (Z.eqb_neq _ _)); [done|]. rewrite E. ring_arith.
Qed.

Lemma push_oldest_contents x r :
  ring_ok r -> 2 <= N ->
  contents (push_drop_oldest x r) =
    (if Z.of_nat (length (contents r)) <? N - 1 then contents r else drop 1 (contents r)) ++ [x].
Proof.
  intros Hr HN. rewrite push_oldest_pop by done.
  assert (Hf : (ring_next (tail r) =? head r) = negb (Z.of_nat (length (contents r)) <? N - 1)).
  { apply eq_true_iff_eq. rewrite negb_true_iff, Z.eqb_eq, Z.ltb_ge, contents_length. ring_arith. }
  rewrite Hf. destruct (Z.of_nat (length (contents r)) <? N - 1) eqn:El; cbn [negb].
  - rewrite push_newest_contents by done. by rewrite El.
  - pose proof (pop_contents r Hr) as Hp. unfold pop in Hp.
    destruct (Z.eqb_spec (head r) (tail r)) as [E|E].
    { rewrite Hp in El. cbn in El. bprop. lia. }
    set (r1 := {| cells := cells r; head := ring_next (head r); tail := tail r |}) in *.
    assert (ring_ok r1) as H1 by (eapply pop_ok; [done|unfold pop; by rewrite (proj2 (Z.eqb_neq _ _) E)]).
    rewrite push_newest_contents by done. rewrite Hp. cbn [drop].
    pose proof (ring_len_bound r Hr) as Hb. rewrite <- contents_length, Hp in Hb. cbn [length] in Hb.
    rewrite (proj2 (Z.ltb_lt _ _)) by lia. done.
Qed.
End Ring.
