(* ===== verification/BtnWatcher.v ===== *)
(** * The button supervisor, [btn-watcher.c]

    The event loop of [main] as a step function on the supervisor's state:
    one iteration runs the timers at the time read at its head and then
    handles the result of [select] and [read].  What the program does to the
    rest of the system (events emitted on the virtual device, shell commands,
    sleeps, taps injected into the touch device) is a trace. *)

From Stdlib Require Import Ascii String.
From S2P Require Import Prelude CString Input Framebuffer Overlay.

Definition POWER_DOUBLE_CLICK_MS := 400.
Definition HOME_LONG_PRESS_MS := 500.

Inductive effect :=
  | Emit (ev : event)
  | Sys (cmd : string)
  | Usleep (us : Z)
  | TouchWrite (evs : list event).

(** The local variables of [main]. *)
Record keys := mkkeys {
  power_pending : bool; power_down_time : Z;
  home_down : bool; home_combo_consumed : bool; home_pending_single : bool;
  home_long_sent : bool; home_down_time : Z; home_single_time : Z;
  home_double_consumed : bool }.

Definition keys_init : keys :=
  {| power_pending := false; power_down_time := 0; home_down := false;
     home_combo_consumed := false; home_pending_single := false;
     home_long_sent := false; home_down_time := 0; home_single_time := 0;
     home_double_consumed := false |}.

(** The whole state: the overlay variables, the key variables, the files of
    [/tmp] the program reads and writes, and the trace (oldest effect first). *)
Record bw := mkbw {
  ov : overlay; ks : keys; files : gmap string (list Z); out : list effect }.

(** The device and file permissions the program meets: what mapping the
    framebuffer gives, which paths open for writing, and whether the touch
    device opens for writing. *)
Record env := mkenv { fbdev : fb_device; can_write : string -> bool; touch_ok : bool }.

Section Supervisor.
Context (e : env).

Definition emit_event (type code val : Z) (s : bw) : bw :=
  s {{ out := out s ++ [Emit {| ev_type := u16 type; ev_code := u16 code; ev_value := val |}] }}.
Definition emit_syn (s : bw) : bw := emit_event EV_SYN SYN_REPORT 0 s.
Definition system (cmd : string) (s : bw) : bw := s {{ out := out s ++ [Sys cmd] }}.
Definition usleep (us : Z) (s : bw) : bw := s {{ out := out s ++ [Usleep us] }}.

Definition emit_key_click (code : Z) (s : bw) : bw :=
  emit_syn (emit_event EV_KEY code 0 (usleep 20000 (emit_syn (emit_event EV_KEY code 1 s)))).

(** [inject_plato_frontlight]: two taps on the sun icon. *)
Definition tap_down : list event :=
  [ mkev EV_ABS 57 1; mkev EV_ABS 53 35; mkev EV_ABS 54 180; mkev EV_KEY 330 1; mkev EV_SYN 0 0 ].
Definition tap_up : list event := [ mkev EV_ABS 57 (-1); mkev EV_KEY 330 0; mkev EV_SYN 0 0 ].

Definition inject_plato_frontlight (s : bw) : bw :=
  if touch_ok e then
    s {{ out := out s ++ [ TouchWrite tap_down; Usleep 40000; TouchWrite tap_up; Usleep 180000;
                           TouchWrite tap_down; Usleep 40000; TouchWrite tap_up ] }}
  else s.

(** [get_active_app] with a 32-byte buffer, and [set_active_app]. *)
Definition get_active_app (len : Z) (fs : gmap string (list Z)) : list Z :=
  let f := match fs !! "/tmp/current_app"%string with
           | Some c => Some c | None => fs !! "/tmp/active_reader"%string end in
  let buf := match f with
             | Some c => match fgets len c with
                         | Some l => cut_at [13; 10] (to_nul l) | None => [] end
             | None => [] end in
  if bool_decide (buf = []) then cstr "koreader" else buf.

Definition write_file (path : string) (c : list Z) (fs : gmap string (list Z)) :=
  if can_write e path then <[path := c]> fs else fs.

Definition set_active_app (name : string) (s : bw) : bw :=
  s {{ files := write_file "/tmp/active_reader" (cstr name ++ [10])
                  (write_file "/tmp/current_app" (cstr name ++ [10]) (files s)) }}.

(** Lifting the overlay calls to the whole state. *)
Definition on_ov (f : overlay -> option overlay) (s : bw) : option bw :=
  o ← f (ov s); Some (s {{ ov := o }}).
Definition toast (title sub : string) (now : Z) : bw -> option bw :=
  on_ov (show_toast (fbdev e) (cstr title) (Some (cstr sub)) now).
Definition card (status : string) : bw -> option bw :=
  on_ov (show_media_card (fbdev e) (Some (cstr status))).
Definition in_media (s : bw) : bool := media_mode (ov s).
Definition set_media (b : bool) (s : bw) : bw := s {{ ov := (ov s) {{ media_mode := b }} }}.
Definition on_keys (f : keys -> keys) (s : bw) : bw := s {{ ks := f (ks s) }}.

(** ** The timers at the head of the loop

    [rem deadline now] is the C expression [(int)(deadline - now)] on
    unsigned 64-bit times. *)
Definition rem (deadline now : Z) : Z := i32 (u64 (deadline - now)).

Definition shorten (r timeout : Z) : Z := if r <? timeout then r else timeout.

Definition toast_timer (now timeout : Z) (s : bw) : option (bw * Z) :=
  if toast_active (ov s) then
    let r := rem (toast_expire_time (ov s)) now in
    if r <=? 0 then s' ← on_ov hide_toast s; Some (s', timeout)
    else Some (s, shorten r timeout)
  else Some (s, timeout).

Definition power_timer (now timeout : Z) (s : bw) : bw * Z :=
  if power_pending (ks s) then
    let r := rem (u64 (power_down_time (ks s) + POWER_DOUBLE_CLICK_MS)) now in
    if r <=? 0
    then (on_keys (fun k => k {{ power_pending := false }}) (emit_key_click KEY_POWER s), timeout)
    else (s, shorten r timeout)
  else (s, timeout).

Definition long_press_timer (now timeout : Z) (s : bw) : bw * Z :=
  if home_down (ks s) && negb (home_combo_consumed (ks s)) && negb (home_long_sent (ks s)) then
    let r := rem (u64 (home_down_time (ks s) + HOME_LONG_PRESS_MS)) now in
    if r <=? 0
    then (on_keys (fun k => k {{ home_long_sent := true; home_pending_single := false }})
            (emit_syn (emit_event EV_KEY KEY_HOME 1 s)), timeout)
    else (s, shorten r timeout)
  else (s, timeout).

Definition single_timer (now timeout : Z) (s : bw) : bw * Z :=
  if home_pending_single (ks s) then
    let r := rem (u64 (home_single_time (ks s) + POWER_DOUBLE_CLICK_MS)) now in
    if r <=? 0
    then (on_keys (fun k => k {{ home_pending_single := false }}) (emit_key_click KEY_HOME s), timeout)
    else (s, shorten r timeout)
  else (s, timeout).

(** The four timers in order; the result is the state and the [select]
    timeout in milliseconds. *)
Definition timers (now : Z) (s : bw) : option (bw * Z) :=
  '(s, t) ← toast_timer now 1000 s;
  let '(s, t) := power_timer now t s in
  let '(s, t) := long_press_timer now t s in
  Some (single_timer now t s).

(** ** The event handlers *)
Definition handle_power (val now : Z) (s : bw) : bw :=
  if val =? 1 then
    if power_pending (ks s) && (u64 (now - power_down_time (ks s)) <=? POWER_DOUBLE_CLICK_MS)
    then system "/opt/scripts/toggle_frontlight.sh &"
           (on_keys (fun k => k {{ power_pending := false }}) s)
    else on_keys (fun k => k {{ power_pending := true; power_down_time := now }}) s
  else s.

Definition play_pause (s : bw) : option bw :=
  card "PLAYBACK: PLAY / PAUSE TOGGLED  >||" (system "/opt/audiocontrol.sh pause 2>/dev/null &" s).

Definition home_press (now : Z) (s : bw) : option bw :=
  s ← (if home_pending_single (ks s) && negb (home_double_consumed (ks s)) &&
          (u64 (now - home_single_time (ks s)) <=? POWER_DOUBLE_CLICK_MS)
       then play_pause (on_keys (fun k => k {{ home_pending_single := false;
                                               home_double_consumed := true }}) s)
       else Some s);
  Some (on_keys (fun k => k {{ home_down := true; home_down_time := now;
                               home_combo_consumed := false; home_long_sent := false;
                               home_pending_single := false }}) s).

Definition home_release (now : Z) (s : bw) : option bw :=
  let s := on_keys (fun k => k {{ home_down := false }}) s in
  if home_combo_consumed (ks s) then
    Some (on_keys (fun k => k {{ home_combo_consumed := false }}) s)
  else if home_long_sent (ks s) then
    Some (on_keys (fun k => k {{ home_long_sent := false }})
            (emit_syn (emit_event EV_KEY KEY_HOME 0 s)))
  else if home_double_consumed (ks s) then
    Some (on_keys (fun k => k {{ home_double_consumed := false }}) s)
  else if in_media s then play_pause s
  else Some (on_keys (fun k => k {{ home_pending_single := true; home_single_time := now }}) s).

Definition handle_home (val now : Z) (s : bw) : option bw :=
  if val =? 1 then home_press now s
  else if val =? 0 then home_release now s
  else Some s.

(** [if (media_mode) { hide_media_card(); media_mode = 0; }] *)
Definition leave_media (s : bw) : option bw :=
  if in_media s then s' ← on_ov hide_media_card s; Some (set_media false s') else Some s.

Definition chord_koreader (now : Z) (s : bw) : option bw :=
  s ← leave_media s;
  if streq (get_active_app 32 (files s)) (cstr "koreader") then
    s ← toast "FRONTLIGHT DIALOG" "KOReader Warmth & Brightness" now s;
    let s := emit_syn (emit_event EV_KEY KEY_HOME 1 s) in
    let s := emit_syn (emit_event EV_KEY KEY_HOME 0 (usleep 550000 s)) in
    Some (on_keys (fun k => k {{ home_combo_consumed := false }}) s)
  else
    s ← toast "SWITCHING TO KOREADER..." "Document & Book Reader" now s;
    Some (system "killall -9 ld-2.19.so plato netsurf-fb 2>/dev/null || true"
            (set_active_app "koreader" s)).

Definition chord_plato (now : Z) (s : bw) : option bw :=
  s ← leave_media s;
  if streq (get_active_app 32 (files s)) (cstr "plato") then
    s ← toast "FRONTLIGHT DIALOG" "Opening Plato Warmth & Brightness" now s;
    Some (inject_plato_frontlight s)
  else
    s ← toast "SWITCHING TO PLATO..." "Fast Touch-Driven Rust Reader" now s;
    Some (system "killall -9 luajit netsurf-fb 2>/dev/null || true"
            (set_active_app "plato" s)).

Definition chord_netsurf (now : Z) (s : bw) : option bw :=
  s ← leave_media s;
  if streq (get_active_app 32 (files s)) (cstr "netsurf") then
    s ← toast "CLOSING NETSURF..." "Returning to Document Reader" now s;
    Some (system "killall -9 netsurf-fb 2>/dev/null || true" (set_active_app "koreader" s))
  else
    s ← toast "LAUNCHING NETSURF..." "E-Ink Optimized Web Browser" now s;
    Some (system "killall -9 luajit ld-2.19.so plato 2>/dev/null || true"
            (set_active_app "netsurf" s)).

Definition chord_media (now : Z) (s : bw) : option bw :=
  let s := set_media (negb (in_media s)) s in
  if in_media s then card "PLAYBACK ACTIVE: CONTROLS READY" s
  else
    s ← on_ov hide_media_card s;
    toast "READING MODE RESTORED" "Audio running in background (Side buttons = Page turns)" now s.

Definition handle_chord (code now : Z) (s : bw) : option bw :=
  let s := on_keys (fun k => k {{ home_combo_consumed := true; home_pending_single := false }}) s in
  if code =? 191 then chord_koreader now s
  else if code =? 192 then chord_plato now s
  else if code =? 193 then chord_netsurf now s
  else if code =? 194 then chord_media now s
  else Some s.

Definition media_key (code : Z) (s : bw) : option bw :=
  if code =? 191 then
    card "TRACK SKIPPED: PREVIOUS  |<<" (system "/opt/audiocontrol.sh prev 2>/dev/null &" s)
  else if code =? 192 then
    card "PLAYLIST: SHUFFLE TOGGLED" (system "/opt/audiocontrol.sh shuffle 2>/dev/null &" s)
  else if code =? 193 then
    card "TRACK SKIPPED: NEXT  >>|" (system "/opt/audiocontrol.sh next 2>/dev/null &" s)
  else if code =? 194 then play_pause s
  else Some s.

Definition handle_page_key (ev : event) (now : Z) (s : bw) : option bw :=
  if ev_value ev =? 1 then
    if home_down (ks s) then handle_chord (ev_code ev) now s
    else if in_media s then media_key (ev_code ev) s
    else Some (emit_event (ev_type ev) (ev_code ev) (ev_value ev) s)
  else if ev_value ev =? 0 then
    if home_combo_consumed (ks s) || in_media s then Some s
    else Some (emit_event (ev_type ev) (ev_code ev) (ev_value ev) s)
  else Some s.

Definition handle_lid (ev : event) (s : bw) : bw :=
  let s := if ev_value ev =? 1 then
             if streq (get_active_app 32 (files s)) (cstr "koreader") then s
             else system "echo mem > /sys/power/state 2>/dev/null" s
           else s in
  emit_event (ev_type ev) (ev_code ev) (ev_value ev) s.

Definition handle_event (ev : event) (now : Z) (s : bw) : option bw :=
  if (ev_type ev =? EV_KEY) && (ev_code ev =? KEY_POWER) then
    Some (handle_power (ev_value ev) now s)
  else if (ev_type ev =? EV_KEY) && (ev_code ev =? KEY_HOME) then
    handle_home (ev_value ev) now s
  else if (ev_type ev =? EV_KEY) && (191 <=? ev_code ev) && (ev_code ev <=? 194) then
    handle_page_key ev now s
  else if (ev_type ev =? EV_SW) && (ev_code ev =? 0) then
    Some (handle_lid ev s)
  else if (ev_type ev =? EV_SW) || (ev_type ev =? EV_SYN) then
    Some (emit_event (ev_type ev) (ev_code ev) (ev_value ev) s)
  else Some s.

(** ** The loop

    What [select] and [read] answer in one iteration. *)
Inductive answer :=
  | SelectInterrupted
  | SelectFailed
  | SelectTimeout
  | ShortRead
  | Read (ev : event) (now : Z).

(** One iteration: [inl] when the loop goes on, [inr] when it ends. *)
Definition iteration (now : Z) (a : answer) (s : bw) : option (bw + bw) :=
  '(s, _) ← timers now s;
  match a with
  | SelectFailed => Some (inr s)
  | SelectInterrupted | SelectTimeout | ShortRead => Some (inl s)
  | Read ev now' => s' ← handle_event ev now' s; Some (inl s')
  end.

Fixpoint run (l : list (Z * answer)) (s : bw) : option (bw + bw) :=
  match l with
  | [] => Some (inl s)
  | (now, a) :: l' =>
      r ← iteration now a s;
      match r with inl s' => run l' s' | inr s' => Some (inr s') end
  end.
End Supervisor.

Definition bw_init (fs : gmap string (list Z)) : bw :=
  {| ov := overlay_init; ks := keys_init; files := fs; out := [] |}.

(** ** The [select] timeout *)
Lemma shorten_bounds r t : 0 < r -> 1 <= t <= 1000 -> 1 <= shorten r t <= 1000.
Proof. unfold shorten. cases_if; bprop; lia. Qed.

Lemma toast_timer_bounds now t s s' t' :
  1 <= t <= 1000 -> toast_timer now t s = Some (s', t') -> 1 <= t' <= 1000.
Proof.
  unfold toast_timer. intros Ht. repeat cases_if.
  - destruct (on_ov hide_toast s); simpl; [by intros [= _ <-]|done].
  - intros [= _ <-]. apply shorten_bounds; bprop; lia.
  - by intros [= _ <-].
Qed.

Lemma key_timer_bounds now t s :
  1 <= t <= 1000 ->
  1 <= (power_timer now t s).2 <= 1000 /\ 1 <= (long_press_timer now t s).2 <= 1000 /\
  1 <= (single_timer now t s).2 <= 1000.
Proof.
  intros Ht. unfold power_timer, long_press_timer, single_timer.
  split_and!; repeat cases_if; simpl; bprop; try lia; apply shorten_bounds; lia.
Qed.

(** The timeout the loop passes to [select] is always between 1 and 1000
    milliseconds: it never waits past the next deadline by more than a
    second and never passes a zero or negative time. *)
Theorem timers_timeout_bounds now s s' t :
  timers now s = Some (s', t) -> 1 <= t <= 1000.
Proof.
  unfold timers. destruct (toast_timer now 1000 s) as [[s1 t1]|] eqn:E; simpl; [|done].
  apply toast_timer_bounds in E; [|lia].
  pose proof (key_timer_bounds now t1 s1 E) as (H2 & _).
  destruct (power_timer now t1 s1) as [s2 t2]. simpl in H2.
  pose proof (key_timer_bounds now t2 s2 H2) as (_ & H3 & _).
  destruct (long_press_timer now t2 s2) as [s3 t3]. simpl in H3.
  pose proof (key_timer_bounds now t3 s3 H3) as (_ & _ & H4).
  intros [= E']. by rewrite E' in H4.
Qed.

Lemma timers_timeout_bounds_witness :
  timers 700 ((bw_init ∅) {{ ks := keys_init {{ power_pending := true; power_down_time := 400 }} }})
    = Some ((bw_init ∅) {{ ks := keys_init {{ power_pending := true; power_down_time := 400 }} }}, 100)
  /\ 1 <= 100 <= 1000.
Proof.
  split; [vm_compute; reflexivity|].
  eapply (timers_timeout_bounds 700
    ((bw_init ∅) {{ ks := keys_init {{ power_pending := true; power_down_time := 400 }} }})).
  vm_compute. reflexivity.
Defined.

(** ** No handler gets stuck

    [ov_inv d o]: either the framebuffer was never mapped, or the overlays
    are over the screen the device gave. *)
Definition dev_good (d : fb_device) : Prop :=
  is_Some (dev_toast d) /\ is_Some (dev_card d).

Definition screen_of (d : fb_device) : fbmem :=
  {| words := default (fun _ => 0) (dev_mmap d); nwords := panel_words |}.

Definition ov_inv (d : fb_device) (o : overlay) : Prop :=
  (fb_mem o = None /\ toast_active o = false /\ card_active o = false) \/
  overlay_over (screen_of d) o.

Section Safety.
Context (e : env) (Hdev : dev_good (fbdev e)).
Abbreviation inv := (ov_inv (fbdev e)).

Definition ok_opt (r : option bw) : Prop := exists s', r = Some s' /\ inv (ov s').

Lemma ok_ret s : inv (ov s) -> ok_opt (Some s).
Proof. intros H. by exists s. Qed.

Lemma ok_bind r f : ok_opt r -> (forall s, inv (ov s) -> ok_opt (f s)) -> ok_opt (r ≫= f).
Proof. intros (s & -> & Hs) Hf. by apply Hf. Qed.

Lemma fb_init_inv o : inv o -> inv (fb_init (fbdev e) o).
Proof.
  intros [(Hm & Ht & Hc)|Ho].
  - destruct Hdev as [[tw Etw] [cw Ecw]].
    destruct (dev_open (fbdev e) || dev_open_alt (fbdev e)) eqn:Eo;
      [destruct (dev_mmap (fbdev e)) as [ws|] eqn:Em|].
    + right. unfold screen_of. rewrite Em. simpl. by eapply (fb_init_over _ ws tw cw).
    + left. unfold fb_init. rewrite Hm, Eo, Em. by split_and!.
    + left. unfold fb_init. rewrite Hm, Eo. by split_and!.
  - destruct (ov_mem _ _ Ho) as (m & Em & _). right. by rewrite (fb_init_mapped _ _ m).
Qed.

Lemma fb_init_idem o : fb_init (fbdev e) (fb_init (fbdev e) o) = fb_init (fbdev e) o.
Proof.
  unfold fb_init. destruct o as [fd fm tb cb ta ca te mm io]; cbn.
  destruct fm; [done|].
  destruct (_ || _) eqn:E2; [destruct (dev_mmap _) eqn:E3|]; cbn; rewrite ?E2, ?E3; done.
Qed.

(** The [show] calls start with [fb_init], the [hide] calls test the active flag. *)
Lemma show_inv c o :
  run_call (fbdev e) o c = run_call (fbdev e) (fb_init (fbdev e) o) c ->
  (fb_mem (fb_init (fbdev e) o) = None ->
   run_call (fbdev e) (fb_init (fbdev e) o) c = Some (fb_init (fbdev e) o)) ->
  call_fits c -> inv o -> exists o', run_call (fbdev e) o c = Some o' /\ inv o'.
Proof.
  intros -> Hnone Hf Ho. pose proof (fb_init_inv o Ho) as Hi.
  destruct Hi as [(Hm & ?)|Hover].
  - exists (fb_init (fbdev e) o). split; [by apply Hnone|]. by left.
  - destruct (run_call_over (fbdev e) _ _ c Hf Hover) as (o' & E & H'). exists o'.
    split; [done|by right].
Qed.

Lemma run_call_inv c o :
  call_fits c -> inv o -> exists o', run_call (fbdev e) o c = Some o' /\ inv o'.
Proof.
  intros Hf Ho. destruct c as [t sub now| |st|].
  - apply show_inv; try done; simpl; unfold show_toast; rewrite fb_init_idem; [done|].
    by intros ->.
  - destruct Ho as [(Hm & Ht & Hc)|Ho].
    + exists o. simpl. unfold hide_toast. rewrite Ht. split; [done|by left].
    + destruct (run_call_over (fbdev e) _ _ HideToast Hf Ho) as (o' & E & H').
      exists o'. split; [done|by right].
  - apply show_inv; try done; simpl; unfold show_media_card; rewrite fb_init_idem; [done|].
    by intros ->.
  - destruct Ho as [(Hm & Ht & Hc)|Ho].
    + exists o. simpl. unfold hide_media_card. rewrite Hc. split; [done|by left].
    + destruct (run_call_over (fbdev e) _ _ HideCard Hf Ho) as (o' & E & H').
      exists o'. split; [done|by right].
Qed.

Lemma ok_call c f s :
  f = (fun o => run_call (fbdev e) o c) -> call_fits c -> inv (ov s) -> ok_opt (on_ov f s).
Proof.
  intros -> Hf Hs. destruct (run_call_inv c (ov s) Hf Hs) as (o' & E & Ho').
  unfold on_ov. rewrite E. by eexists.
Qed.

Lemma ok_toast t sub now s :
  toast_fits (cstr t) (Some (cstr sub)) -> inv (ov s) -> ok_opt (toast e t sub now s).
Proof. intros. by apply (ok_call (ShowToast (cstr t) (Some (cstr sub)) now)). Qed.
Lemma ok_card st s : status_fits (Some (cstr st)) -> inv (ov s) -> ok_opt (card e st s).
Proof. intros. by apply (ok_call (ShowCard (Some (cstr st)))). Qed.
Lemma ok_hide_card s : inv (ov s) -> ok_opt (on_ov hide_media_card s).
Proof. intros. by apply (ok_call HideCard). Qed.
Lemma ok_hide_toast s : inv (ov s) -> ok_opt (on_ov hide_toast s).
Proof. intros. by apply (ok_call HideToast). Qed.

Lemma inv_set_media b s : inv (ov s) -> inv (ov (set_media b s)).
Proof.
  intros [(?&?&?)|[]]; [left; by split_and!|right]. constructor; done.
Qed.
End Safety.

(** Decides one handler: splits its tests, then applies the lemma of each
    overlay call; the string widths are computed. *)
Ltac ok_steps :=
  repeat first
    [ apply ok_ret; assumption
    | match goal with
      | |- ok_opt _ (mbind _ _) => apply ok_bind; [|intros ? ?]
      | |- ok_opt _ (if ?b then _ else _) => destruct b
      | |- ok_opt _ (toast _ _ _ _ _) =>
          apply ok_toast; [assumption|split; vm_compute; discriminate|]
      | |- ok_opt _ (card _ _ _) => apply ok_card; [assumption|vm_compute; discriminate|]
      | |- ok_opt _ (on_ov hide_media_card _) => apply ok_hide_card; [assumption|]
      | |- ov_inv _ (ov (set_media _ _)) => apply inv_set_media
      end
    | assumption ].

Section Runs.
Context (e : env) (Hdev : dev_good (fbdev e)).
Abbreviation inv := (ov_inv (fbdev e)).
Abbreviation ok := (ok_opt e).
Hint Resolve ok_ret : core.

Lemma play_pause_ok s : inv (ov s) -> ok (play_pause e s).
Proof. intros Hs. unfold play_pause. ok_steps. Qed.

Lemma leave_media_ok s : inv (ov s) -> ok (leave_media s).
Proof.
  intros Hs. unfold leave_media. ok_steps. apply ok_ret. by apply inv_set_media.
Qed.

Lemma chords_ok code now s : inv (ov s) -> ok (handle_chord e code now s).
Proof.
  intros Hs. unfold handle_chord, chord_koreader, chord_plato, chord_netsurf, chord_media.
  set (s1 := on_keys _ s). assert (inv (ov s1)) as H1 by done. clearbody s1.
  pose proof (leave_media_ok s1 H1) as Hl.
  ok_steps. apply ok_ret. unfold inject_plato_frontlight. by destruct (touch_ok e).
Qed.

Lemma handle_home_ok val now s : inv (ov s) -> ok (handle_home e val now s).
Proof.
  intros Hs. unfold handle_home, home_press, home_release.
  destruct (val =? 1).
  - apply ok_bind; [|intros; by apply ok_ret].
    destruct (_ && _); [by apply play_pause_ok|by apply ok_ret].
  - destruct (val =? 0); [|by apply ok_ret].
    destruct (home_combo_consumed _); [by apply ok_ret|].
    destruct (home_long_sent _); [by apply ok_ret|].
    destruct (home_double_consumed _); [by apply ok_ret|].
    destruct (in_media _); [by apply play_pause_ok|by apply ok_ret].
Qed.

Lemma handle_page_key_ok ev now s : inv (ov s) -> ok (handle_page_key e ev now s).
Proof.
  intros Hs. unfold handle_page_key, media_key.
  destruct (ev_value ev =? 1); [|ok_steps].
  destruct (home_down (ks s)); [by apply chords_ok|].
  destruct (in_media s); [|ok_steps].
  destruct (ev_code ev =? 191); [ok_steps|]. destruct (ev_code ev =? 192); [ok_steps|].
  destruct (ev_code ev =? 193); [ok_steps|]. destruct (ev_code ev =? 194); [|ok_steps].
  by apply play_pause_ok.
Qed.

Lemma handle_event_ok ev now s : inv (ov s) -> ok (handle_event e ev now s).
Proof.
  intros Hs. unfold handle_event.
  cases_if; [apply ok_ret; unfold handle_power; by repeat cases_if|].
  cases_if; [by apply handle_home_ok|]. cases_if; [by apply handle_page_key_ok|].
  cases_if; [apply ok_ret; unfold handle_lid; by repeat cases_if|].
  cases_if; by apply ok_ret.
Qed.

Lemma timers_ok now s :
  inv (ov s) -> exists s' t, timers now s = Some (s', t) /\ inv (ov s').
Proof.
  intros Hs. unfold timers.
  assert (exists s1 t1, toast_timer now 1000 s = Some (s1, t1) /\ inv (ov s1)) as (s1 & t1 & -> & H1).
  { unfold toast_timer. repeat cases_if; eauto.
    destruct (ok_hide_toast e Hdev s Hs) as (s1 & -> & ?). simpl. eauto. }
  cbn [mbind option_bind].
  destruct (power_timer now t1 s1) as [s2 t2] eqn:E2.
  assert (inv (ov s2)) as H2
    by (revert E2; unfold power_timer; repeat cases_if; by intros [= <- <-]).
  destruct (long_press_timer now t2 s2) as [s3 t3] eqn:E3.
  assert (inv (ov s3)) as H3
    by (revert E3; unfold long_press_timer; repeat cases_if; by intros [= <- <-]).
  destruct (single_timer now t3 s3) as [s4 t4] eqn:E4.
  assert (inv (ov s4)) as H4
    by (revert E4; unfold single_timer; repeat cases_if; by intros [= <- <-]).
  eauto.
Qed.

(** The state a run ends in, by return or at the end of its input. *)
Definition end_state (r : bw + bw) : bw := match r with inl s | inr s => s end.

Lemma iteration_ok now a s :
  inv (ov s) -> exists r, iteration e now a s = Some r /\ inv (ov (end_state r)).
Proof.
  intros Hs. unfold iteration. destruct (timers_ok now s Hs) as (s1 & t & -> & H1).
  cbn [mbind option_bind].
  destruct a as [| | | |ev now']; try (by eexists).
  destruct (handle_event_ok ev now' s1 H1) as (s2 & -> & H2). by eexists.
Qed.

Lemma run_ok l s : inv (ov s) -> exists r, run e l s = Some r /\ inv (ov (end_state r)).
Proof.
  revert s. induction l as [|[now a] l IH]; intros s Hs; simpl; [by exists (inl s)|].
  destruct (iteration_ok now a s Hs) as ([s1|s1] & -> & H1); simpl; [by apply IH|by exists (inr s1)].
Qed.
End Runs.

(** C7: on a device whose backup buffers are allocated, the supervisor
    survives every sequence of timer instants, [select] results and input
    events: no drawing, save or restore leaves its memory object, and the
    panel stays the reader's screen with the active overlays painted on it. *)
Theorem supervisor_safe e l fs :
  dev_good (fbdev e) ->
  exists r, run e l (bw_init fs) = Some r /\ ov_inv (fbdev e) (ov (end_state r)).
Proof. intros Hd. apply run_ok; [done|]. by left. Qed.

Definition demo_env : env :=
  {| fbdev := demo_device; can_write := fun _ => true; touch_ok := true |}.

Lemma supervisor_safe_witness :
  exists r, run demo_env
      [(10, Read (mkev EV_KEY KEY_HOME 1) 10); (20, Read (mkev EV_KEY 192 1) 20);
       (30, ShortRead); (40, Read (mkev EV_KEY 194 1) 45); (3000, SelectTimeout)]
      (bw_init ∅) = Some r /\ ov_inv demo_device (ov (end_state r)).
Proof. apply (supervisor_safe demo_env). split; by eexists. Defined.
