(* ===== verification/BtnKeys.v ===== *)
(** * What the button supervisor's keys do

    The behaviour of the handlers of BtnWatcher.v, key by key: power, page
    keys, the lid, the record of the active reader, and the state of the
    virtual Home key over whole runs. *)

From Stdlib Require Import Ascii String.
From S2P Require Import Prelude CString Input Framebuffer Overlay BtnWatcher.

(** ** Power *)
Definition after_power (now : Z) (s : bw) : bw :=
  on_keys (fun k => k {{ power_pending := true; power_down_time := now }}) s.

(** The two clicks the supervisor emits. *)
Definition click (code : Z) : list effect :=
  [Emit (mkev EV_KEY code 1); Emit (mkev EV_SYN SYN_REPORT 0); Usleep 20000;
   Emit (mkev EV_KEY code 0); Emit (mkev EV_SYN SYN_REPORT 0)].

Lemma emit_key_click_out code s :
  is_u16 code -> emit_key_click code s = s {{ out := out s ++ click code }}.
Proof.
  intros Hc. unfold emit_key_click, emit_syn, emit_event, usleep, click. cbn.
  rewrite (u16_small code) by done. destruct s; cbn. by rewrite <- !app_assoc.
Qed.

(** [rem] is the true difference while it fits an [int]. *)
Lemma rem_small deadline now :
  -2147483648 <= deadline - now < 2147483648 -> rem deadline now = deadline - now.
Proof.
  intros H. unfold rem, i32, u64.
  rewrite (Z.mod_eq (deadline - now)) by lia.
  set (q := (deadline - now) / _).
  replace (deadline - now - 18446744073709551616 * q + 2147483648)
    with (deadline - now + 2147483648 + (- 4294967296 * q) * 4294967296) by lia.
  rewrite Z_mod_plus_full, Z.mod_small; lia.
Qed.

Lemma u64_small z : 0 <= z < 18446744073709551616 -> u64 z = z.
Proof. apply Z.mod_small. Qed.

(** The power button.  A press with nothing pending only starts the
    400 ms window.  A second press inside the window runs the frontlight
    toggle and emits no key; without one, the timer emits nothing before the
    window ends and exactly one POWER click when it has ended. *)
Theorem power_button_taps now now' t s :
  power_pending (ks s) = false -> 0 <= now <= now' -> now' < 9223372036854775808 ->
  now' - now < 2147483648 ->
  let s1 := handle_power 1 now s in
  out s1 = out s /\
  (if now' - now <? 400 then
     power_timer now' t s1 = (s1, shorten (400 - (now' - now)) t) /\
     out (handle_power 1 now' s1) = out s ++ [Sys "/opt/scripts/toggle_frontlight.sh &"] /\
     power_pending (ks (handle_power 1 now' s1)) = false
   else
     out (power_timer now' t s1).1 = out s ++ click KEY_POWER /\
     power_pending (ks (power_timer now' t s1).1) = false).
Proof.
  intros Hp Hn Hn' Hd s1.
  assert (s1 = after_power now s) as E by (subst s1; unfold handle_power; by rewrite Hp).
  clearbody s1. subst s1. set (s1 := after_power now s). split; [done|].
  assert (power_pending (ks s1) = true /\ power_down_time (ks s1) = now) as [E1 E2] by done.
  unfold power_timer. rewrite E1, E2. unfold POWER_DOUBLE_CLICK_MS.
  rewrite (u64_small (now + 400)) by lia. rewrite rem_small by lia.
  destruct (Z.ltb_spec (now' - now) 400).
  - rewrite (proj2 (Z.leb_gt (now + 400 - now') 0)) by lia.
    split; [do 2 f_equal; lia|].
    unfold handle_power. rewrite E1, E2, u64_small by lia. cbn [Z.eqb Pos.eqb].
    unfold POWER_DOUBLE_CLICK_MS. by rewrite (proj2 (Z.leb_le (now' - now) 400)) by lia.
  - rewrite (proj2 (Z.leb_le (now + 400 - now') 0)) by lia.
    rewrite emit_key_click_out by (unfold is_u16, KEY_POWER; lia). done.
Qed.

Lemma power_button_taps_witness :
  out (handle_power 1 1000 (bw_init ∅)) = [] /\
  out (handle_power 1 1300 (handle_power 1 1000 (bw_init ∅))) =
    [Sys "/opt/scripts/toggle_frontlight.sh &"] /\
  out (power_timer 1400 50 (handle_power 1 1000 (bw_init ∅))).1 = click KEY_POWER.
Proof.
  destruct (power_button_taps 1000 1300 50 (bw_init ∅)) as (H1 & _ & H2 & _);
    [done|lia|lia|lia|].
  destruct (power_button_taps 1000 1400 50 (bw_init ∅)) as (_ & H3 & _);
    [done|lia|lia|lia|].
  split_and!; [exact H1|exact H2|exact H3].
Defined.

(** ** Page keys *)
Definition is_page_key (ev : event) : Prop := ev_type ev = EV_KEY /\ 191 <= ev_code ev <= 194.

Lemma handle_event_page e ev now s :
  is_page_key ev -> handle_event e ev now s = handle_page_key e ev now s.
Proof.
  intros [Ht Hc]. unfold handle_event, KEY_POWER, KEY_HOME. rewrite Ht. cbn [Z.eqb EV_KEY].
  rewrite (proj2 (Z.eqb_neq (ev_code ev) 116)), (proj2 (Z.eqb_neq (ev_code ev) 102)) by lia.
  rewrite (proj2 (Z.leb_le 191 (ev_code ev))), (proj2 (Z.leb_le (ev_code ev) 194)) by lia.
  done.
Qed.

Lemma emit_page ev s :
  is_page_key ev -> is_i32 (ev_value ev) ->
  emit_event (ev_type ev) (ev_code ev) (ev_value ev) s = s {{ out := out s ++ [Emit ev] }}.
Proof.
  intros [Ht Hc] _. unfold emit_event. rewrite u16_small by (rewrite Ht; unfold is_u16, EV_KEY; lia).
  rewrite u16_small by (unfold is_u16; lia). by destruct ev.
Qed.

(** Outside media mode, with Home up, a page key reaches the reader
    exactly as the hardware sent it, press and release, and the supervisor
    does nothing else; autorepeat is dropped. *)
Theorem reading_mode_forwards e ev now s :
  is_page_key ev -> 0 <= ev_value ev <= 2 -> in_media s = false ->
  home_down (ks s) = false -> home_combo_consumed (ks s) = false ->
  handle_event e ev now s =
    Some (s {{ out := out s ++ (if ev_value ev =? 2 then [] else [Emit ev]) }}).
Proof.
  intros Hk Hv Hm Hh Hc. rewrite handle_event_page by done. unfold handle_page_key.
  rewrite Hm, Hh, Hc. rewrite emit_page by (first [done|unfold is_i32; lia]).
  assert (ev_value ev = 0 \/ ev_value ev = 1 \/ ev_value ev = 2) as [E|[E|E]] by lia; rewrite E; [done..|].
  cbn. rewrite app_nil_r. by destruct s.
Qed.

Lemma reading_mode_forwards_witness :
  handle_event demo_env (mkev EV_KEY 193 1) 77 (bw_init ∅) =
    Some ((bw_init ∅) {{ out := [Emit (mkev EV_KEY 193 1)] }}).
Proof. apply (reading_mode_forwards demo_env (mkev EV_KEY 193 1)); done. Defined.

(** No handler but the listed ones writes the trace. *)
Lemma card_out e st s s' : card e st s = Some s' -> out s' = out s /\ ks s' = ks s.
Proof.
  unfold card, on_ov. destruct (show_media_card _ _ _); simpl; [|done]. by intros [= <-].
Qed.

(** The command each side button runs in media mode. *)
Definition media_command (code : Z) : string :=
  if code =? 191 then "/opt/audiocontrol.sh prev 2>/dev/null &"
  else if code =? 192 then "/opt/audiocontrol.sh shuffle 2>/dev/null &"
  else if code =? 193 then "/opt/audiocontrol.sh next 2>/dev/null &"
  else "/opt/audiocontrol.sh pause 2>/dev/null &".

(** In media mode, with Home up, a side button never turns a page: its
    press runs the one audio command of its position, its release does
    nothing, and neither emits a key event. *)
Theorem media_mode_captures e ev now s s' :
  is_page_key ev -> 0 <= ev_value ev <= 1 -> in_media s = true -> home_down (ks s) = false ->
  handle_event e ev now s = Some s' ->
  out s' = out s ++ (if ev_value ev =? 1 then [Sys (media_command (ev_code ev))] else []) /\
  ks s' = ks s.
Proof.
  intros Hk Hv Hm Hh. rewrite handle_event_page by done. unfold handle_page_key.
  rewrite Hm, Hh, orb_true_r. destruct Hk as [_ Hc].
  assert (ev_value ev = 0 \/ ev_value ev = 1) as [E|E] by lia; rewrite E; cbn [Z.eqb Pos.eqb].
  - intros [= <-]. by rewrite app_nil_r.
  - unfold media_key, play_pause, media_command.
    assert (ev_code ev = 191 \/ ev_code ev = 192 \/ ev_code ev = 193 \/ ev_code ev = 194)
      as [Ec|[Ec|[Ec|Ec]]] by lia; rewrite Ec; cbn [Z.eqb Pos.eqb]; intros [-> ->]%card_out; done.
Qed.

Lemma media_mode_captures_witness :
  let s := set_media true (bw_init ∅) in
  exists s', handle_event (demo_env {{ fbdev := demo_device {{ dev_open := false }} }})
               (mkev EV_KEY 192 1) 77 s = Some s' /\
    out s' = [Sys "/opt/audiocontrol.sh shuffle 2>/dev/null &"] /\ ks s' = keys_init.
Proof.
  intros s. eexists. split; [vm_compute; reflexivity|].
  apply (media_mode_captures (demo_env {{ fbdev := demo_device {{ dev_open := false }} }})
           (mkev EV_KEY 192 1) 77 s); [done|done|done|done|vm_compute; reflexivity].
Defined.

(** ** The virtual Home key

    [vhome l]: whether the reader sees the virtual Home key down after the
    effects [l]. *)
Definition vhome_step (b : bool) (x : effect) : bool :=
  match x with
  | Emit ev => if (ev_type ev =? EV_KEY) && (ev_code ev =? KEY_HOME)
               then negb (ev_value ev =? 0) else b
  | _ => b
  end.
Definition vhome (l : list effect) : bool := fold_left vhome_step l false.
#[local] Arguments vhome : simpl never.

Lemma vhome_app l1 l2 : vhome (l1 ++ l2) = fold_left vhome_step l2 (vhome l1).
Proof. apply fold_left_app. Qed.

(** The inputs the balance needs: Home is not pressed twice without a
    release, and no side button goes down once the long press was sent. *)
Definition benign (ev : event) (s : bw) : bool :=
  negb ((ev_type ev =? EV_KEY) && (ev_value ev =? 1) && home_down (ks s) &&
        ((ev_code ev =? KEY_HOME) ||
         ((191 <=? ev_code ev) && (ev_code ev <=? 194) && home_long_sent (ks s)))).

Fixpoint run_benign (e : env) (l : list (Z * answer)) (s : bw) : bool :=
  match l with
  | [] => true
  | (now, a) :: l' =>
      match timers now s with
      | Some (s1, _) => match a with Read ev _ => benign ev s1 | _ => true end
      | None => true
      end &&
      match iteration e now a s with
      | Some (inl s') => run_benign e l' s'
      | _ => true
      end
  end.

(** The invariant: the virtual key is down exactly while a long press is
    reported, and a reported long press excludes the other Home states. *)
Record home_inv (s : bw) : Prop := {
  hi_virtual : vhome (out s) = home_long_sent (ks s);
  hi_long : home_long_sent (ks s) = true ->
    home_down (ks s) = true /\ home_combo_consumed (ks s) = false /\
    home_pending_single (ks s) = false }.

Definition keeps (r : option bw) : Prop := forall s', r = Some s' -> home_inv s'.

Lemma keeps_ret s : home_inv s -> keeps (Some s).
Proof. by intros H s' [= <-]. Qed.

Lemma keeps_bind r f :
  keeps r -> (forall s, r = Some s -> home_inv s -> keeps (f s)) -> keeps (r ≫= f).
Proof. intros Hr Hf s'. destruct r as [s|]; simpl; [|done]. apply Hf; [done|by apply Hr]. Qed.

(** Overlay calls change neither the keys nor the trace. *)
Lemma on_ov_keeps f s : home_inv s -> keeps (on_ov f s).
Proof.
  intros [H1 H2] s'. unfold on_ov. destruct (f (ov s)); simpl; [|done].
  intros [= <-]. by split.
Qed.

Lemma on_ov_same f s s' : on_ov f s = Some s' -> ks s' = ks s /\ out s' = out s.
Proof. unfold on_ov. destruct (f (ov s)); simpl; [|done]. by intros [= <-]. Qed.

(** Effects that are not about the virtual Home key. *)
Ltac flat s := destruct s as [so [pp pd hd hc hp hl ht hs h2] sf st]; cbn in *.

Lemma emit_inv s l :
  (forall b, fold_left vhome_step l b = b) -> home_inv s -> home_inv (s {{ out := out s ++ l }}).
Proof. intros Hl [H1 H2]. flat s. split; upd; [by rewrite vhome_app, Hl|done]. Qed.

(** With no long press reported, the key variables may change freely as long
    as they report none. *)
Lemma keys_inv f s :
  home_inv s -> home_long_sent (ks s) = false -> home_long_sent (f (ks s)) = false ->
  home_inv (on_keys f s).
Proof.
  intros [H1 H2] Hl Hf.
  split; change (ks (on_keys f s)) with (f (ks s)); change (out (on_keys f s)) with (out s);
    congruence.
Qed.

Lemma set_media_inv b s : home_inv s -> home_inv (set_media b s).
Proof. intros [H1 H2]. by split. Qed.

Lemma system_inv cmd s : home_inv s -> home_inv (system cmd s).
Proof. by apply emit_inv. Qed.

Lemma set_active_inv e name s : home_inv s -> home_inv (set_active_app e name s).
Proof. intros [H1 H2]. by split. Qed.

Lemma other_emit_inv ev s :
  (ev_type ev <> EV_KEY \/ ev_code ev <> KEY_HOME) -> is_u16 (ev_type ev) -> is_u16 (ev_code ev) ->
  home_inv s -> home_inv (emit_event (ev_type ev) (ev_code ev) (ev_value ev) s).
Proof.
  intros Hne Ht Hc. apply emit_inv. intros b. simpl. rewrite !u16_small by done.
  destruct (Z.eqb_spec (ev_type ev) EV_KEY), (Z.eqb_spec (ev_code ev) KEY_HOME); try done.
  by destruct Hne.
Qed.


Section Balance.
Context (e : env).

Lemma play_pause_keeps s : home_inv s -> keeps (play_pause e s).
Proof. intros. by apply on_ov_keeps, system_inv. Qed.

Lemma leave_media_keeps s : home_inv s -> keeps (leave_media s).
Proof.
  intros. unfold leave_media. destruct (in_media s); [|by apply keeps_ret].
  apply keeps_bind; [by apply on_ov_keeps|]. intros. by apply keeps_ret, set_media_inv.
Qed.

Lemma toast_keeps t sub now s : home_inv s -> keeps (toast e t sub now s).
Proof. apply on_ov_keeps. Qed.

(** Decides a handler none of whose own steps touch the virtual Home key. *)
Ltac home_steps :=
  cbv zeta;
  repeat match goal with
  | H : ?g |- ?g => exact H
  | |- keeps (mbind _ _) => apply keeps_bind; [|intros ? _ ?]
  | |- keeps (if ?b then _ else _) => destruct b
  | |- keeps (play_pause _ _) => apply play_pause_keeps
  | |- keeps (leave_media _) => apply leave_media_keeps
  | |- keeps (toast _ _ _ _ _) => apply toast_keeps
  | |- keeps (card _ _ _) => apply on_ov_keeps
  | |- keeps (on_ov _ _) => apply on_ov_keeps
  | |- keeps (Some _) => apply keeps_ret
  | |- home_inv (system _ _) => apply system_inv
  | |- home_inv (set_active_app _ _ _) => apply set_active_inv
  | |- home_inv (set_media _ _) => apply set_media_inv
  end.

Lemma leave_media_same s s' : leave_media s = Some s' -> ks s' = ks s /\ out s' = out s.
Proof.
  unfold leave_media. destruct (in_media s); [|by intros [= <-]].
  destruct (on_ov hide_media_card s) eqn:E; simpl; [|done].
  apply on_ov_same in E as [E1 E2]. by intros [= <-].
Qed.

(** The chord that opens KOReader's dialog presses and releases Home. *)
Lemma home_pulse_inv s :
  home_inv s -> home_long_sent (ks s) = false ->
  home_inv (on_keys (fun k => k {{ home_combo_consumed := false }})
    (emit_syn (emit_event EV_KEY KEY_HOME 0 (usleep 550000
      (emit_syn (emit_event EV_KEY KEY_HOME 1 s)))))).
Proof.
  intros [H1 H2] Hl. flat s. split; upd.
  - by rewrite !vhome_app.
  - congruence.
Qed.

Lemma chord_koreader_keeps now s :
  home_inv s -> home_long_sent (ks s) = false -> keeps (chord_koreader e now s).
Proof.
  intros Hs Hl. unfold chord_koreader. apply keeps_bind; [by apply leave_media_keeps|].
  intros s1 [E1 _]%leave_media_same H1. destruct (streq _ _).
  - apply keeps_bind; [by apply toast_keeps|]. intros s2 [E2 _]%on_ov_same H2.
    apply keeps_ret. apply home_pulse_inv; [done|congruence].
  - home_steps.
Qed.

Lemma handle_chord_keeps code now s :
  home_inv s -> home_long_sent (ks s) = false -> keeps (handle_chord e code now s).
Proof.
  intros Hi Hl. unfold handle_chord. set (s1 := on_keys _ s).
  assert (home_inv s1) as Hs by by apply keys_inv.
  assert (home_long_sent (ks s1) = false) as Hl1 by done. clearbody s1.
  destruct (code =? 191); [by apply chord_koreader_keeps|].
  destruct (code =? 192); [|destruct (code =? 193); [|destruct (code =? 194)]].
  - unfold chord_plato. home_steps. unfold inject_plato_frontlight.
    destruct (touch_ok e); [by apply emit_inv|done].
  - unfold chord_netsurf. home_steps.
  - unfold chord_media. home_steps.
  - by apply keeps_ret.
Qed.

Lemma media_key_keeps code s : home_inv s -> keeps (media_key e code s).
Proof.
  intros. unfold media_key. home_steps.
Qed.

Lemma home_press_keeps now s :
  home_inv s -> home_down (ks s) = false -> keeps (home_press e now s).
Proof.
  intros Hi Hd. unfold home_press.
  assert (home_long_sent (ks s) = false) as Hl.
  { destruct (home_long_sent (ks s)) eqn:E; [|done]. destruct (hi_long _ Hi E). congruence. }
  apply keeps_bind.
  - destruct (_ && _); [|by apply keeps_ret]. apply play_pause_keeps. by apply keys_inv.
  - intros s1 E H1. apply keeps_ret. apply keys_inv; [done| |done].
    destruct (_ && _) in E; [|by injection E as <-].
    apply on_ov_same in E as [-> _]. done.
Qed.

Lemma home_release_keeps now s : home_inv s -> keeps (home_release e now s).
Proof.
  intros Hi. unfold home_release. set (s1 := on_keys _ s).
  change (home_combo_consumed (ks s1)) with (home_combo_consumed (ks s)).
  change (home_long_sent (ks s1)) with (home_long_sent (ks s)).
  destruct (home_long_sent (ks s)) eqn:Hl.
  - destruct (hi_long _ Hi Hl) as (Hd & Hc & Hp).
    rewrite Hc. apply keeps_ret. destruct Hi as [H1 H2]. subst s1.
    flat s. split; upd; [by rewrite !vhome_app|done].
  - assert (home_inv s1) as Hs by by apply keys_inv.
    assert (home_long_sent (ks s1) = false) as Hl1 by done. clearbody s1.
    destruct (home_combo_consumed (ks s)); [by apply keeps_ret, keys_inv|].
    destruct (home_double_consumed (ks s1)); [by apply keeps_ret, keys_inv|].
    destruct (in_media s1); [by apply play_pause_keeps|by apply keeps_ret, keys_inv].
Qed.

Lemma page_event_inv ev s :
  is_page_key ev -> home_inv s ->
  home_inv (emit_event (ev_type ev) (ev_code ev) (ev_value ev) s).
Proof.
  intros [Ht Hc] Hi. apply other_emit_inv; [right; unfold KEY_HOME; lia| |unfold is_u16; lia|done].
  by rewrite Ht.
Qed.

Lemma handle_page_key_keeps ev now s :
  is_page_key ev -> benign ev s = true -> home_inv s -> keeps (handle_page_key e ev now s).
Proof.
  intros Hk Hb Hi. unfold handle_page_key.
  pose proof (page_event_inv ev s Hk Hi) as Hev.
  destruct (ev_value ev =? 1) eqn:Ev; [|home_steps].
  destruct (home_down (ks s)) eqn:Hd.
  - apply handle_chord_keeps; [done|]. destruct Hk as [Ht Hc]. revert Hb. unfold benign.
    rewrite Ht, Ev, Hd, (proj2 (Z.leb_le _ _)), (proj2 (Z.leb_le _ 194)) by lia.
    cbn. rewrite orb_comm. by destruct (home_long_sent (ks s)).
  - destruct (in_media s); [by apply media_key_keeps|by apply keeps_ret].
Qed.

Definition u16_event (ev : event) : Prop := is_u16 (ev_type ev) /\ is_u16 (ev_code ev).

Lemma handle_event_keeps ev now s :
  u16_event ev -> benign ev s = true -> home_inv s -> keeps (handle_event e ev now s).
Proof.
  intros [Ht Hc] Hb Hi. unfold handle_event.
  destruct ((ev_type ev =? EV_KEY) && (ev_code ev =? KEY_POWER)).
  { apply keeps_ret. unfold handle_power. destruct (ev_value ev =? 1); [|done].
    destruct Hi as [H1 H2]. destruct (_ && _); flat s; split; upd; by rewrite ?vhome_app. }
  destruct ((ev_type ev =? EV_KEY) && (ev_code ev =? KEY_HOME)) eqn:Eh.
  { unfold handle_home. apply andb_true_iff in Eh as [Et Ec].
    destruct (ev_value ev =? 1) eqn:Ev.
    - apply home_press_keeps; [done|]. revert Hb. unfold benign. rewrite Et, Ec, Ev. cbn.
      by destruct (home_down (ks s)).
    - destruct (ev_value ev =? 0); [by apply home_release_keeps|by apply keeps_ret]. }
  destruct ((ev_type ev =? EV_KEY) && (191 <=? ev_code ev) && (ev_code ev <=? 194)) eqn:Ep.
  { bprop. apply handle_page_key_keeps; [by split|done|done]. }
  assert (forall s, ev_type ev <> EV_KEY -> home_inv s ->
            home_inv (emit_event (ev_type ev) (ev_code ev) (ev_value ev) s)) as Hev
    by (intros; apply other_emit_inv; auto).
  destruct ((ev_type ev =? EV_SW) && (ev_code ev =? 0)) eqn:El.
  { apply keeps_ret. unfold handle_lid. bprop. apply Hev; [by rewrite H|].
    destruct (ev_value ev =? 1); [|done]. destruct (streq _ _); [done|by apply system_inv]. }
  destruct ((ev_type ev =? EV_SW) || (ev_type ev =? EV_SYN)) eqn:Es; [|by apply keeps_ret].
  apply keeps_ret, Hev; [|done]. apply orb_true_iff in Es as [E|E]; bprop; by rewrite E.
Qed.
End Balance.

Lemma timers_keeps now s s' t : timers now s = Some (s', t) -> home_inv s -> home_inv s'.
Proof.
  unfold timers. destruct (toast_timer now 1000 s) as [[s1 t1]|] eqn:E1; [|done].
  cbn [mbind option_bind]. intros E Hi.
  assert (home_inv s1) as H1.
  { revert E1. unfold toast_timer. repeat (cases_if; [|by intros [= <- _]]).
    destruct (on_ov hide_toast s) eqn:E2; simpl; [|done]. intros [= <- _].
    by apply (on_ov_keeps _ s Hi) in E2. }
  destruct (power_timer now t1 s1) as [s2 t2] eqn:E2.
  assert (home_inv s2) as H2.
  { revert E2. unfold power_timer. repeat (cases_if; [|by intros [= <- _]]). intros [= <- _].
    destruct H1 as [? ?]. flat s1. split; upd; by rewrite ?vhome_app. }
  destruct (long_press_timer now t2 s2) as [s3 t3] eqn:E3.
  assert (home_inv s3) as H3.
  { revert E3. unfold long_press_timer. repeat (cases_if; [|by intros [= <- _]]). intros [= <- _].
    destruct H2 as [? ?]. flat s2. bprop. split; upd; [by rewrite !vhome_app|done]. }
  revert E. unfold single_timer. repeat (cases_if; [|by intros [= <- _]]). intros [= <- _].
  destruct H3 as [? Hl]. flat s3. split; upd; [|naive_solver].
  rewrite !vhome_app; cbn. destruct hl; [naive_solver|done].
Qed.

Definition u16_answer (na : Z * answer) : Prop :=
  match na.2 with Read ev _ => u16_event ev | _ => True end.

Lemma run_keeps e l s r :
  Forall u16_answer l -> run_benign e l s = true -> home_inv s -> run e l s = Some r ->
  home_inv (end_state r).
Proof.
  revert s. induction l as [|[now a] l IH]; intros s Hu Hb Hi; simpl; [by intros [= <-]|].
  apply Forall_cons in Hu as [Ha Hu]. simpl in Hb. apply andb_true_iff in Hb as [Hb1 Hb2].
  destruct (iteration e now a s) as [r1|] eqn:Ei; [|done]. cbn [mbind option_bind].
  assert (home_inv (end_state r1)) as H1.
  { revert Ei. unfold iteration. destruct (timers now s) as [[s1 t]|] eqn:Et; [|done].
    pose proof (timers_keeps _ _ _ _ Et Hi) as Hi1. cbn [mbind option_bind].
    destruct a as [| | | |ev now']; try (by intros [= <-]).
    destruct (handle_event e ev now' s1) as [s2|] eqn:Eh; [|done]. intros [= <-].
    by apply (handle_event_keeps e ev now' s1 Ha Hb1 Hi1). }
  destruct r1 as [s1|s1]; [by apply IH|]. by intros [= <-].
Qed.

(** C9: the virtual Home key is balanced.  Over every run in which Home is not
    pressed twice without a release and no side button goes down during a
    reported long press, whatever the timing, the reader never keeps seeing
    Home down once the hardware key is up. *)
Theorem virtual_home_balanced e l fs r :
  Forall u16_answer l -> run_benign e l (bw_init fs) = true ->
  run e l (bw_init fs) = Some r -> home_down (ks (end_state r)) = false ->
  vhome (out (end_state r)) = false.
Proof.
  intros Hu Hb Hr Hd. assert (home_inv (bw_init fs)) as H0 by done.
  destruct (run_keeps e l _ r Hu Hb H0 Hr) as [-> Hl].
  destruct (home_long_sent (ks (end_state r))); [|done]. destruct Hl; [done|congruence].
Qed.

(** An environment without a panel, for concrete runs. *)
Definition blind_env : env :=
  {| fbdev := demo_device {{ dev_open := false }}; can_write := fun _ => true; touch_ok := true |}.

Lemma virtual_home_balanced_witness :
  let l := [(0, Read (mkev EV_KEY KEY_HOME 1) 0); (600, Read (mkev EV_KEY KEY_HOME 0) 650);
            (700, Read (mkev EV_KEY KEY_HOME 1) 700); (750, Read (mkev EV_KEY KEY_HOME 0) 750);
            (1200, SelectTimeout)] in
  exists r, run blind_env l (bw_init ∅) = Some r /\ vhome (out (end_state r)) = false.
Proof.
  intros l. eexists. split; [vm_compute; reflexivity|].
  apply (virtual_home_balanced blind_env l ∅); [|vm_compute; reflexivity|vm_compute; reflexivity|done].
  unfold l. repeat (apply Forall_cons_2; [try done; split; vm_compute; by split|]). by apply Forall_nil_2.
Defined.

(** The balance needs its hypothesis.  Home held for more than 500 ms and
    then a side button pressed under it: after both keys are released, and the
    timers have run, the reader still sees Home down. *)
Theorem home_stuck_after_late_chord :
  exists s, run blind_env
      [(0, Read (mkev EV_KEY KEY_HOME 1) 0); (600, Read (mkev EV_KEY 192 1) 650);
       (700, Read (mkev EV_KEY 192 0) 700); (800, Read (mkev EV_KEY KEY_HOME 0) 800);
       (5000, SelectTimeout)] (bw_init ∅) = Some (inl s) /\
    home_down (ks s) = false /\ home_long_sent (ks s) = true /\ vhome (out s) = true.
Proof. eexists. split; [vm_compute; reflexivity|]. split_and!; reflexivity. Qed.

(** A double tap of Home whose second press is held for 500 ms leaves
    [home_double_consumed] set, and the next single tap is lost: it produces no
    effect at all. *)
Theorem long_double_tap_loses_next_tap :
  let tap t d := [(t, Read (mkev EV_KEY KEY_HOME 1) t); (t + d, Read (mkev EV_KEY KEY_HOME 0) (t + d))] in
  exists s1 s2, run blind_env (tap 0 100 ++ tap 200 600) (bw_init ∅) = Some (inl s1) /\
    run blind_env (tap 3000 100 ++ [(6000, SelectTimeout)]) s1 = Some (inl s2) /\
    out s2 = out s1 /\ home_pending_single (ks s2) = false.
Proof.
  eexists _, _. split; [vm_compute; reflexivity|]. split; [vm_compute; reflexivity|].
  split; reflexivity.
Qed.

(** ** The active reader *)
Definition active (s : bw) : list Z := get_active_app 32 (files s).

Lemma write_file_eq e path c fs :
  can_write e path = true -> write_file e path c fs = <[path := c]> fs.
Proof. unfold write_file. by intros ->. Qed.

(** What [get_active_app] reads back is what [set_active_app] wrote. *)
Lemma set_active_round_trip e name s :
  can_write e "/tmp/current_app"%string = true -> can_write e "/tmp/active_reader"%string = true ->
  (name = "koreader" \/ name = "plato" \/ name = "netsurf")%string ->
  active (set_active_app e name s) = cstr name.
Proof.
  intros H1 H2 Hn. unfold active, set_active_app. cbn [files].
  rewrite !write_file_eq by done. unfold get_active_app. upd.
  rewrite lookup_insert_ne, lookup_insert_eq by done.
  destruct Hn as [-> | [-> | ->]]; vm_compute; reflexivity.
Qed.

Lemma on_ov_files f s s' : on_ov f s = Some s' -> files s' = files s.
Proof. unfold on_ov. destruct (f (ov s)); simpl; [|done]. by intros [= <-]. Qed.

Lemma leave_media_files s s' : leave_media s = Some s' -> files s' = files s.
Proof.
  unfold leave_media. destruct (in_media s); [|by intros [= <-]].
  destruct (on_ov hide_media_card s) eqn:E; simpl; [|done].
  apply on_ov_files in E. by intros [= <-].
Qed.

(** The reader each Home chord selects. *)
Definition chord_target (code : Z) (app : list Z) : string :=
  if code =? 191 then "koreader"
  else if code =? 192 then "plato"
  else if streq app (cstr "netsurf") then "koreader" else "netsurf".

(** Home with a side button selects a reader: whatever was active, the
    chord leaves the top-left button's reader, the bottom-left one's, or (top
    right) the browser or, from the browser, KOReader, recorded as active. *)
Theorem chord_selects_reader e code now s s' :
  can_write e "/tmp/current_app"%string = true -> can_write e "/tmp/active_reader"%string = true ->
  191 <= code <= 193 -> handle_chord e code now s = Some s' ->
  active s' = cstr (chord_target code (active s)).
Proof.
  intros H1 H2 Hc. unfold handle_chord. set (s1 := on_keys _ s).
  change (active s) with (active s1). clearbody s1. clear s.
  assert (code = 191 \/ code = 192 \/ code = 193) as [-> | [-> | ->]] by lia;
    cbn [Z.eqb Pos.eqb]; unfold chord_koreader, chord_plato, chord_netsurf, chord_target;
    (destruct (leave_media s1) as [s2|] eqn:El; [|done]); cbn [mbind option_bind];
    apply leave_media_files in El; fold (active s2);
    (assert (active s2 = active s1) as Ea by (unfold active; by rewrite El)); rewrite Ea;
    cbn [Z.eqb Pos.eqb];
    destruct (streq (active s1) _) eqn:Es;
    destruct (toast _ _ _ _ _) as [s3|] eqn:Et; cbn [mbind option_bind]; try done;
    apply on_ov_files in Et; intros [= <-];
    try (rewrite <- (set_active_round_trip e _ s3 H1 H2); [done|tauto]).
  all: apply streq_spec in Es; rewrite <- Es, <- Ea; unfold active, inject_plato_frontlight.
  - by change (files (on_keys _ _)) with (files s3); rewrite Et.
  - destruct (touch_ok e); [change (get_active_app 32 (files s3) = get_active_app 32 (files s2))|];
      by rewrite Et.
Qed.

Lemma chord_selects_reader_witness :
  exists s', handle_chord blind_env 193 50 (bw_init {["/tmp/active_reader"%string := cstr "netsurf"]})
               = Some s' /\ active s' = cstr "koreader".
Proof.
  eexists. split; [vm_compute; reflexivity|].
  etransitivity; [apply (chord_selects_reader blind_env 193 50
    (bw_init {["/tmp/active_reader"%string := cstr "netsurf"]}));
    [done|done|lia|vm_compute; reflexivity] | vm_compute; reflexivity].
Defined.

(** The lid switch is always passed on to the reader, unchanged and after
    anything else; closing it suspends the machine first exactly when the
    active program is not KOReader (which suspends by itself). *)
Theorem lid_event e val now s :
  handle_event e (mkev EV_SW 0 val) now s =
    Some (s {{ out := out s ++
      (if (val =? 1) && negb (streq (active s) (cstr "koreader"))
       then [Sys "echo mem > /sys/power/state 2>/dev/null"] else []) ++
      [Emit (mkev EV_SW 0 val)] }}).
Proof.
  unfold handle_event. cbn. unfold handle_lid. cbn [ev_value ev_type ev_code].
  unfold active, emit_event, system.
  destruct (val =? 1); cbn [andb]; [|by destruct s].
  destruct (streq _ _); cbn [negb]; [by destruct s|].
  destruct s; upd. by rewrite <- app_assoc.
Qed.
