(* ===== verification/BtnMain.v ===== *)
(** * [main] of the button supervisor: start-up and exit

    Opening and grabbing the button device, declaring and creating the virtual
    one, the loop of [BtnWatcher], and the release of everything at exit. *)

From Stdlib Require Import Ascii String.
From S2P Require Import Prelude CString Input Framebuffer Overlay BtnWatcher.

(** The descriptors of the process. *)
Inductive fd := EvFd | UinputFd | FbFd.
#[export] Instance fd_eq_dec : EqDecision fd.
Proof. solve_decision. Defined.

(** The system calls of start-up and exit that have an effect. *)
Inductive dev_op :=
  | Opened (f : fd) (path : string)
  | Grabbed (f : fd) (on : bool)
  | SetEvBit (type : Z)
  | SetKeyBit (code : Z)
  | SetSwBit (code : Z)
  | WriteUserDev (name : string) (vendor product version : Z)
  | DevCreate
  | DevDestroy
  | Shell (cmd : string)
  | Closed (f : fd)
  | Unmapped
  | FreedToast
  | FreedCard.

(** What the kernel answers at start-up: the argument given, whether the button
    device opens, the two uinput nodes, and whether the virtual device can be
    created. *)
Record startup := mkstartup {
  argv1 : option string; ev_opens : bool; grab_works : bool; uinput_opens : bool; uinput_alt : bool;
  write_works : bool; create_works : bool }.

(** A double quote. *)
Definition dq : string := String (ascii_of_nat 34) EmptyString.

(** The command that points the readers' paths at the virtual device. *)
Definition link_command : string :=
  "for f in /sys/class/input/event*/device/name; do   if [ " ++ dq ++ "$(cat $f 2>/dev/null)" ++ dq ++
  " = " ++ dq ++ "nook-virtual-keys" ++ dq ++ " ]; then     EV=$(basename $(dirname $(dirname $f)));" ++
  "     mkdir -p /dev/input/by-path;     ln -sfn /dev/input/$EV /dev/input/by-path/platform-gpio-keys-event;" ++
  "     if [ " ++ dq ++ "$EV" ++ dq ++ " != " ++ dq ++ "event2" ++ dq ++ " ] && [ ! -c /dev/input/event2 ]; then" ++
  "       ln -sfn /dev/input/$EV /dev/input/event2 2>/dev/null || true;     fi;     chmod 666 /dev/input/$EV;" ++
  "     break;   fi; done".

Definition declared_keys : list Z := [KEY_POWER; KEY_HOME; 191; 192; 193; 194].

Definition open_buttons (st : startup) : list dev_op :=
  Opened EvFd (default "/dev/input/event0"%string (argv1 st)) ::
  (if grab_works st then [Grabbed EvFd true] else []).

Definition open_uinput (st : startup) : list dev_op :=
  [Opened UinputFd (if uinput_opens st then "/dev/uinput" else "/dev/input/uinput")].

Definition declare_device : list dev_op :=
  [SetEvBit EV_KEY; SetEvBit EV_SW; SetEvBit EV_SYN] ++ map SetKeyBit declared_keys ++ [SetSwBit SW_LID].

(** The start-up: what was done, and the exit status when it fails. *)
Definition start (st : startup) : list dev_op * option Z :=
  if negb (ev_opens st) then ([], Some 1)
  else if negb (uinput_opens st || uinput_alt st) then (open_buttons st ++ [Closed EvFd], Some 1)
  else
    let up := open_buttons st ++ open_uinput st ++ declare_device in
    let up := if write_works st then up ++ [WriteUserDev "nook-virtual-keys" 1 1 1] else up in
    if write_works st && create_works st
    then (up ++ [DevCreate; Shell link_command], None)
    else (up ++ [Closed UinputFd; Closed EvFd], Some 1).

(** What [main] does after its loop. *)
Definition finish (o : overlay) : list dev_op :=
  [Grabbed EvFd false; DevDestroy; Closed UinputFd; Closed EvFd] ++
  match fb_mem o with Some _ => [Unmapped] | None => [] end ++
  (if fb_fd o then [Closed FbFd] else []) ++
  match toast_backup o with Some _ => [FreedToast] | None => [] end ++
  match card_backup o with Some _ => [FreedCard] | None => [] end.

Inductive ended :=
  | Failed (status : Z) (ops : list dev_op)
  | Stopped (status : Z) (ops : list dev_op) (s : bw)
  | Going (ops : list dev_op) (s : bw).

Definition main (st : startup) (e : env) (l : list (Z * answer)) (fs : gmap string (list Z)) : option ended :=
  match start st with
  | (ops, Some status) => Some (Failed status ops)
  | (ops, None) =>
      r ← run e l (bw_init fs);
      match r with
      | inl s => Some (Going ops s)
      | inr s => Some (Stopped 0 (ops ++ finish (ov s)) s)
      end
  end.

(** ** Nothing is kept open *)

(** The descriptors a sequence of calls leaves open, and whether the button
    device is grabbed and the virtual device exists. *)
Record held := mkheld { open_fds : list fd; grabbed : bool; created : bool }.
Definition after (h : held) (op : dev_op) : held :=
  match op with
  | Opened f _ => h {{ open_fds := f :: open_fds h }}
  | Closed f => {| open_fds := filter (fun g => g <> f) (open_fds h);
                   grabbed := if decide (f = EvFd) then false else grabbed h;
                   created := if decide (f = UinputFd) then false else created h |}
  | Grabbed _ b => h {{ grabbed := b }}
  | DevCreate => h {{ created := true }}
  | DevDestroy => h {{ created := false }}
  | _ => h
  end.
Definition holding (h : held) (ops : list dev_op) : held := fold_left after ops h.
Definition nothing : held := {| open_fds := []; grabbed := false; created := false |}.

Lemma holding_app h l1 l2 : holding h (l1 ++ l2) = holding (holding h l1) l2.
Proof. apply fold_left_app. Qed.

Lemma start_holds st :
  match start st with
  | (ops, Some _) => holding nothing ops = nothing
  | (ops, None) => exists g, holding nothing ops = {| open_fds := [UinputFd; EvFd]; grabbed := g; created := true |}
  end.
Proof.
  destruct st as [a ev g u1 u2 w c]. unfold start. cbn [ev_opens grab_works uinput_opens uinput_alt
    write_works create_works]. destruct ev; [|done]. cbn [negb].
  destruct (u1 || u2); cbn [negb]; [|by destruct g].
  destruct w, c, g; cbn; try done; by eexists.
Qed.

(** The descriptor [fb_init] opened, if it did. *)
Definition with_fb (o : overlay) (h : held) : held :=
  if fb_fd o then h {{ open_fds := FbFd :: open_fds h }} else h.

(** Every way [main] ends leaves no descriptor open, the button device not
    grabbed and no virtual device. *)
Theorem main_releases_devices st e l fs :
  match main st e l fs with
  | Some (Failed status ops) => status = 1 /\ holding nothing ops = nothing
  | Some (Stopped status ops s) =>
      status = 0 /\ exists up, ops = up ++ finish (ov s) /\
      holding (with_fb (ov s) (holding nothing up)) (finish (ov s)) = nothing
  | _ => True
  end.
Proof.
  unfold main. pose proof (start_holds st) as Hs. destruct (start st) as [ops [c|]] eqn:Es.
  - split; [|done]. revert Es. unfold start. cbv zeta. repeat cases_if; by intros [= <- <-].
  - destruct (run e l (bw_init fs)) as [[s|s]|]; cbn [mbind option_bind]; [done| |done].
    split; [done|]. exists ops. split; [done|]. destruct Hs as [g ->].
    unfold with_fb, finish. destruct (fb_fd (ov s)), (fb_mem (ov s)), (toast_backup (ov s)),
      (card_backup (ov s)); done.
Qed.

(** ** Only declared keys are emitted *)
Definition declared (x : effect) : Prop :=
  match x with
  | Emit ev => ev_type ev = EV_KEY -> ev_code ev ∈ declared_keys
  | _ => True
  end.
Definition says (r : option bw) : Prop := forall s', r = Some s' -> Forall declared (out s').

Lemma says_ret s : Forall declared (out s) -> says (Some s).
Proof. by intros H s' [= <-]. Qed.
Lemma says_bind r f :
  says r -> (forall s, Forall declared (out s) -> says (f s)) -> says (r ≫= f).
Proof. intros Hr Hf s'. destruct r as [s|]; [|done]. apply Hf. by apply Hr. Qed.
Lemma on_ov_says f s : Forall declared (out s) -> says (on_ov f s).
Proof. intros H s'. unfold on_ov. destruct (f (ov s)); [|done]. by intros [= <-]. Qed.

Lemma emit_says s x : Forall declared (out s) -> declared x -> Forall declared (out s ++ [x]).
Proof. intros Hs Hx. apply Forall_app. split; [done|]. apply Forall_cons_2; [done|apply Forall_nil_2]. Qed.

Lemma emit_key_says code v s :
  code ∈ declared_keys -> Forall declared (out s) -> Forall declared (out (emit_event EV_KEY code v s)).
Proof.
  intros Hc Hs. apply emit_says; [done|]. intros _. cbn.
  rewrite u16_small; [done|]. revert Hc. unfold declared_keys, KEY_POWER, KEY_HOME, is_u16.
  rewrite !elem_of_cons, elem_of_nil. lia.
Qed.
Lemma emit_other_says t c v s :
  u16 t <> EV_KEY -> Forall declared (out s) -> Forall declared (out (emit_event t c v s)).
Proof. intros Ht Hs. apply (emit_says s (Emit (mkev (u16 t) (u16 c) v)) Hs). by intros ?%Ht. Qed.
Lemma emit_syn_says s : Forall declared (out s) -> Forall declared (out (emit_syn s)).
Proof. intros Hs. apply emit_other_says; [vm_compute; discriminate|done]. Qed.
Lemma quiet_says s x : (match x with Emit _ => False | _ => True end) ->
  Forall declared (out s) -> Forall declared (out s ++ [x]).
Proof. intros Hx Hs. apply emit_says; [done|]. by destruct x. Qed.
Lemma usleep_says us s : Forall declared (out s) -> Forall declared (out (usleep us s)).
Proof. by apply (quiet_says s (Usleep us)). Qed.
Lemma system_says c s : Forall declared (out s) -> Forall declared (out (system c s)).
Proof. by apply (quiet_says s (Sys c)). Qed.
Lemma on_keys_says f s : Forall declared (out s) -> Forall declared (out (on_keys f s)).
Proof. done. Qed.
Lemma set_media_says b s : Forall declared (out s) -> Forall declared (out (set_media b s)).
Proof. done. Qed.
Lemma set_active_says e n s : Forall declared (out s) -> Forall declared (out (set_active_app e n s)).
Proof. done. Qed.
Lemma click_says code s :
  code ∈ declared_keys -> Forall declared (out s) -> Forall declared (out (emit_key_click code s)).
Proof.
  intros Hc Hs. unfold emit_key_click.
  by repeat first [apply emit_syn_says | apply usleep_says | apply emit_key_says; [done|]].
Qed.
Lemma inject_says e s : Forall declared (out s) -> Forall declared (out (inject_plato_frontlight e s)).
Proof.
  intros Hs. unfold inject_plato_frontlight. destruct (touch_ok e); [|done]. upd.
  apply Forall_app. split; [done|]. repeat (apply Forall_cons_2; [done|]). apply Forall_nil_2.
Qed.
Lemma home_declared : KEY_HOME ∈ declared_keys /\ KEY_POWER ∈ declared_keys.
Proof. unfold declared_keys. split; [right; left|left]. Qed.


(** One step of a handler. *)
Ltac says_step :=
  match goal with
  | H : ?g |- ?g => exact H
  | |- says (mbind _ _) => apply says_bind; [|intros ? ?]
  | |- says (if ?b then _ else _) => destruct b eqn:?
  | |- says (let _ := _ in _) => cbv zeta
  | |- says (Some _) => apply says_ret
  | |- says (on_ov _ _) => apply on_ov_says
  | |- says (toast _ _ _ _ _) => apply on_ov_says
  | |- says (card _ _ _) => apply on_ov_says
  | |- Forall declared (out (on_keys _ _)) => apply on_keys_says
  | |- Forall declared (out (set_media _ _)) => apply set_media_says
  | |- Forall declared (out (set_active_app _ _ _)) => apply set_active_says
  | |- Forall declared (out (emit_syn _)) => apply emit_syn_says
  | |- Forall declared (out (usleep _ _)) => apply usleep_says
  | |- Forall declared (out (system _ _)) => apply system_says
  | |- Forall declared (out (emit_key_click _ _)) => apply click_says
  | |- Forall declared (out (inject_plato_frontlight _ _)) => apply inject_says
  | |- Forall declared (out (emit_event EV_KEY _ _ _)) => apply emit_key_says
  | |- KEY_HOME ∈ declared_keys => apply home_declared
  | |- KEY_POWER ∈ declared_keys => apply home_declared
  end.
Ltac says_steps := repeat says_step.

Section Declared.
Context (e : env).

Lemma leave_media_says s : Forall declared (out s) -> says (leave_media s).
Proof. intros Hs. unfold leave_media. says_steps. Qed.

Lemma handle_chord_says code now s : Forall declared (out s) -> says (handle_chord e code now s).
Proof.
  intros Hs. unfold handle_chord, chord_koreader, chord_plato, chord_netsurf, chord_media. cbv zeta.
  pose proof leave_media_says. repeat first [says_step | apply leave_media_says].
Qed.

Lemma timers_says now s r : Forall declared (out s) -> timers now s = Some r -> Forall declared (out r.1).
Proof.
  intros Hs. unfold timers. destruct (toast_timer now 1000 s) as [[s1 t1]|] eqn:E1; [|done].
  cbn [mbind option_bind]. assert (Forall declared (out s1)) as H1.
  { revert E1. unfold toast_timer. destruct (toast_active _); [|by intros [= <- _]]. cbv zeta.
    destruct (_ <=? 0); [|by intros [= <- _]].
    destruct (on_ov hide_toast s) eqn:E; [|done]. cbn [mbind option_bind]. intros [= <- _].
    by eapply on_ov_says. }
  destruct (power_timer now t1 s1) as [s2 t2] eqn:E2. assert (Forall declared (out s2)) as H2.
  { revert E2. unfold power_timer. cbv zeta. repeat cases_if; intros [= <- _]; says_steps. }
  destruct (long_press_timer now t2 s2) as [s3 t3] eqn:E3. assert (Forall declared (out s3)) as H3.
  { revert E3. unfold long_press_timer. cbv zeta. repeat cases_if; intros [= <- _]; says_steps. }
  unfold single_timer. cbv zeta. repeat cases_if; intros [= <-]; cbn [fst]; says_steps.
Qed.

Lemma page_key_declared c : 191 <= c <= 194 -> c ∈ declared_keys.
Proof. unfold declared_keys. rewrite !elem_of_cons. lia. Qed.

Lemma handle_event_says ev now s :
  is_u16 (ev_type ev) -> Forall declared (out s) -> says (handle_event e ev now s).
Proof.
  intros Ht Hs. unfold handle_event.
  destruct (_ && (ev_code ev =? KEY_POWER)); [unfold handle_power; apply says_ret;
    repeat cases_if; says_steps|].
  destruct (_ && (ev_code ev =? KEY_HOME)).
  { unfold handle_home, home_press, home_release, play_pause. cbv zeta. says_steps. }
  destruct (_ && (191 <=? ev_code ev) && _) eqn:Ep.
  { bprop. pose proof (page_key_declared (ev_code ev)) as Hd.
    match goal with H : ev_type ev = _ |- _ => rename H into Et end.
    unfold handle_page_key, media_key, play_pause. rewrite Et.
    repeat first [says_step | apply handle_chord_says | apply Hd; lia]. }
  assert (forall s', ev_type ev <> EV_KEY -> Forall declared (out s') ->
    Forall declared (out (emit_event (ev_type ev) (ev_code ev) (ev_value ev) s'))) as He.
  { intros s' Hne H'. apply emit_other_says; [|done]. by rewrite u16_small. }
  destruct (_ && (ev_code ev =? 0)) eqn:El.
  { bprop. apply says_ret. unfold handle_lid. apply He; [by intros Hc; rewrite Hc in *|]. repeat cases_if; says_steps. }
  destruct (_ || _) eqn:Eo; [|by apply says_ret]. apply says_ret, He; [|done].
  intros Hc. rewrite Hc in Eo. done.
Qed.

Definition typed_answer (a : answer) : Prop :=
  match a with Read ev _ => is_u16 (ev_type ev) | _ => True end.

Lemma run_says l s r :
  Forall (fun x => typed_answer x.2) l -> Forall declared (out s) -> run e l s = Some r ->
  Forall declared (out (match r with inl s => s | inr s => s end)).
Proof.
  intros Hl. revert s r. induction Hl as [|[now a] l Ha Hl IH]; intros s r Hs; cbn [run].
  - by intros [= <-].
  - unfold iteration. destruct (timers now s) as [[s1 t]|] eqn:Et; [|done].
    apply (timers_says now s _ Hs) in Et. cbn [fst] in Et. cbn [mbind option_bind].
    destruct a as [| | | |ev now']; cbn [mbind option_bind]; try (by apply IH); [by intros [= <-]|].
    destruct (handle_event e ev now' s1) as [s2|] eqn:Eh; [|done]. cbn [mbind option_bind].
    apply IH. exact (handle_event_says ev now' s1 Ha Et s2 Eh).
Qed.
End Declared.


Lemma start_declares st ops :
  start st = (ops, None) -> forall k, k ∈ declared_keys -> SetKeyBit k ∈ ops.
Proof.
  destruct st as [a ev g u1 u2 w c]. unfold start.
  cbn [ev_opens grab_works uinput_opens uinput_alt write_works create_works].
  destruct ev; [|done]. destruct (u1 || u2); [|done]. destruct w; [|done]. destruct c; [|done].
  cbn [negb andb]. intros E%(f_equal fst) k Hk. cbn [fst] in E. rewrite <- E.
  rewrite !elem_of_app. left. left. right. right. unfold declare_device. rewrite !elem_of_app.
  right. left. by apply list_elem_of_fmap_2.
Qed.

Definition session_state (x : ended) : option (list dev_op * bw) :=
  match x with Failed _ _ => None | Stopped _ ops s | Going ops s => Some (ops, s) end.

(** The supervisor only reports keys it has declared.  Whatever the
    buttons, timers and devices do, every key event it writes to the virtual
    device has a code that start-up declared with [UI_SET_KEYBIT]; the kernel
    would drop any other. *)
Theorem emitted_keys_declared st e l fs x ops s ev :
  main st e l fs = Some x -> session_state x = Some (ops, s) ->
  Forall (fun a => typed_answer a.2) l ->
  Emit ev ∈ out s -> ev_type ev = EV_KEY -> SetKeyBit (ev_code ev) ∈ ops.
Proof.
  unfold main. intros Hm Hx Hl Hin Ht. destruct (start st) as [up [c|]] eqn:Es.
  { injection Hm as <-. done. }
  pose proof (start_declares st up Es) as Hd.
  destruct (run e l (bw_init fs)) as [r|] eqn:Er; [|done]. cbn [mbind option_bind] in Hm.
  apply (run_says e l _ _ Hl) in Er; [|apply Forall_nil_2].
  destruct r as [s'|s']; injection Hm as <-; injection Hx as <- <-; rewrite Forall_forall in Er;
    specialize (Er _ Hin Ht); [by apply Hd|apply elem_of_app; left; by apply Hd].
Qed.

Definition demo_startup : startup :=
  {| argv1 := None; ev_opens := true; grab_works := true; uinput_opens := false; uinput_alt := true;
     write_works := true; create_works := true |}.
Definition screenless : env :=
  {| fbdev := {| dev_open := false; dev_open_alt := false; dev_mmap := None; dev_toast := None;
                 dev_card := None |};
     can_write := fun _ => true; touch_ok := false |}.

Lemma emitted_keys_declared_witness :
  exists x ops s,
    main demo_startup screenless [(10, Read (mkev EV_KEY KEY_POWER 1) 10); (500, SelectFailed)] ∅ = Some x /\
    session_state x = Some (ops, s) /\ SetKeyBit 116 ∈ ops.
Proof.
  destruct (main demo_startup screenless [(10, Read (mkev EV_KEY KEY_POWER 1) 10); (500, SelectFailed)] ∅)
    as [x|] eqn:E; [|vm_compute in E; discriminate].
  destruct (session_state x) as [[ops s]|] eqn:Ex.
  - exists x, ops, s. split; [reflexivity|]. split; [exact Ex|].
    apply (emitted_keys_declared demo_startup screenless
      [(10, Read (mkev EV_KEY KEY_POWER 1) 10); (500, SelectFailed)] ∅ x ops s (mkev EV_KEY 116 1) E Ex).
    + repeat (apply Forall_cons_2; [vm_compute; by split || exact I|]). apply Forall_nil_2.
    + vm_compute in E. injection E as <-. vm_compute in Ex. injection Ex as <- <-.
      apply list_elem_of_here.
    + reflexivity.
  - vm_compute in E. injection E as <-. discriminate Ex.
Defined.
