(* ===== verification/PlatoShim.v ===== *)
(** * The interposer under the Plato reader, [plato_shim.c]

    A preloaded library that stands between the Plato binary and the kernel:
    it translates the display requests of other kernels into this one's,
    remaps the screen rotation, rewrites the touch protocol, and can log every
    display update.  The kernel calls it wraps ([real_ioctl] and so on) are
    parameters. *)

From Stdlib Require Import Ascii String.
From S2P Require Import Prelude CString Input Ring.

(** ** Display requests *)
Record mxcfb_rect := mkrect { rtop : Z; rleft : Z; rwidth : Z; rheight : Z }.

Record alt_buffer := mkalt { phys_addr : Z; awidth : Z; aheight : Z; alt_region : mxcfb_rect }.

Record update_v1 := mkv1 {
  region1 : mxcfb_rect; waveform1 : Z; mode1 : Z; marker1 : Z; temp1 : Z; flags1 : Z;
  alt1 : alt_buffer }.

Record update_v2 := mkv2 {
  region2 : mxcfb_rect; waveform2 : Z; mode2 : Z; marker2 : Z; temp2 : Z; flags2 : Z;
  dither_mode : Z; quant_bit : Z; alt2 : alt_buffer }.

Record alt_buffer_plato := mkpalt { virt_addr : Z; palt : alt_buffer }.

Record update_plato := mkvp {
  regionp : mxcfb_rect; waveformp : Z; modep : Z; markerp : Z; tempp : Z; flagsp : Z;
  altp : alt_buffer_plato }.

(** The fields of [struct fb_var_screeninfo] the shim reads. *)
Record screeninfo := mkvar {
  xres : Z; yres : Z; xres_virtual : Z; yres_virtual : Z; xoffset : Z; yoffset : Z;
  bits_per_pixel : Z; vmode : Z; rotate : Z }.

(** A request and the object its argument points to; [None] is a null pointer. *)
Inductive ioctl_call :=
  | SendUpdateV1 (u : update_v1)
  | SendUpdateV2 (u : update_v2)
  | SendUpdatePlato (u : update_plato)
  | WaitV2 (marker : option Z)
  | WaitV1 (marker collision : Z)
  | Pan (var : option screeninfo)
  | PutScreeninfo (var : option screeninfo)
  | GetScreeninfo (var : option screeninfo)
  | Grab (arg : Z)
  | OtherIoctl (request : Z) (arg : Z).

(** ** The log line

    [lbuf] is the text written so far; an append that would pass the 384 bytes
    of the buffer is dropped whole. *)
Definition LBUF_SIZE := 384.
Definition lbuf := list Z.

Definition lb_append (s : list Z) (l : lbuf) : lbuf :=
  if LBUF_SIZE <? strlen l + strlen s then l else l ++ s.
Definition lb_str (s : string) : lbuf -> lbuf := lb_append (cstr s).

(** The hexadecimal digits of [v] from bit [i] down, leading zeroes skipped. *)
Definition hex_digit (dgt : Z) : Z := if dgt <? 10 then 48 + dgt else u8 (97 + dgt).
Fixpoint hex_digits (n : nat) (started : bool) (v : Z) : list Z :=
  match n with
  | O => []
  | S n' =>
      let i := 4 * Z.of_nat n' in
      let dgt := Z.land (Z.shiftr v i) 15 in
      if negb started && (dgt =? 0) && (0 <? i) then hex_digits n' false v
      else hex_digit dgt :: hex_digits n' true v
  end.

Definition lb_u (v : Z) (hexa : bool) : lbuf -> lbuf :=
  lb_append (if hexa then cstr "0x" ++ hex_digits 8 false v else dec_string v).

Definition lb_i (v : Z) (l : lbuf) : lbuf :=
  if v <? 0 then lb_u (u32 (- v)) false (lb_str "-" l) else lb_u v false l.

(** A log line is built from a list of pieces by successive appends. *)
Inductive piece :=
  | Str (s : string)
  | U (v : Z)
  | X (v : Z)
  | I (v : Z).

Definition lb_piece (p : piece) : lbuf -> lbuf :=
  match p with
  | Str s => lb_str s
  | U v => lb_u v false
  | X v => lb_u v true
  | I v => lb_i v
  end.

Definition lb_all (ps : list piece) (l : lbuf) : lbuf := fold_left (fun l p => lb_piece p l) ps l.

Definition log_rect (tag : string) (r : mxcfb_rect) : list piece :=
  [ Str tag; U (rtop r); Str ","; U (rleft r); Str ","; U (rwidth r); Str "x"; U (rheight r); Str " " ].

Definition log_update (tag : string) (u : update_v1) : list piece :=
  [ Str tag ] ++ log_rect " dst=" (region1 u) ++
  [ Str "wf="; U (waveform1 u); Str " mode="; U (mode1 u); Str " flags="; X (flags1 u);
    Str " marker="; U (marker1 u) ].

(** [lb_flush]: what is written to the log, if logging is on. *)
Definition lb_flush (logging : bool) (l : lbuf) : list (list Z) :=
  if logging && (strlen l + 1 <? LBUF_SIZE) then [l ++ [10]] else [].

(** ** [ioctl]

    The kernel's answers: for each kind of request the return value and the
    pointed object afterwards. *)
Record kernel_ioctl := mkkernel {
  k_update : Z -> update_v1 -> Z * update_v1;
  k_wait : Z -> Z -> Z -> Z * (Z * Z);
  k_pan : Z -> option screeninfo -> Z * option screeninfo;
  k_put : Z -> option screeninfo -> Z * option screeninfo;
  k_get : Z -> option screeninfo -> Z * option screeninfo;
  k_other : Z -> Z -> Z -> Z }.

Definition v1_of_v2 (u : update_v2) : update_v1 :=
  {| region1 := region2 u; waveform1 := waveform2 u; mode1 := mode2 u; marker1 := marker2 u;
     temp1 := temp2 u; flags1 := flags2 u; alt1 := alt2 u |}.

Definition v1_of_plato (u : update_plato) : update_v1 :=
  {| region1 := regionp u; waveform1 := waveformp u; mode1 := modep u; marker1 := markerp u;
     temp1 := tempp u; flags1 := flagsp u; alt1 := palt (altp u) |}.

Definition remap_rotation (r : Z) : Z := u32 (r + 2) mod 4.

Definition remap (v : screeninfo) : screeninfo := v {{ rotate ::= remap_rotation }}.

(** One log line: a fresh buffer, the pieces, the flush. *)
Definition log_line (logging : bool) (ps : list piece) : list (list Z) :=
  lb_flush logging (lb_all ps []).

Definition alt_line (a : alt_buffer) : list piece :=
  log_rect "alt=" (alt_region a) ++
  [ Str "altw="; U (awidth a); Str " alth="; U (aheight a); Str " altpa="; X (phys_addr a) ].

Definition ret_line (ret : Z) : list piece := [ Str " -> "; I ret ].

Definition v2_line (u : update_v1) (ret : Z) : list piece :=
  log_update "SU2 " u ++ alt_line (alt1 u) ++ ret_line ret.

Definition plato_line (u : update_v1) (a : alt_buffer_plato) (ret : Z) : list piece :=
  log_update "SUP " u ++ alt_line (palt a) ++ [ Str " virt="; X (u32 (virt_addr a)) ] ++ ret_line ret.

Definition wait_line (marker collision ret : Z) : list piece :=
  [ Str "WU  marker="; U marker; Str " collide="; U collision ] ++ ret_line ret.

Definition pan_line (v : screeninfo) (ret : Z) : list piece :=
  [ Str "PAN xoff="; U (xoffset v); Str " yoff="; U (yoffset v); Str " mode="; X (vmode v) ] ++
  ret_line ret.

Definition var_line (tag : string) (v : screeninfo) : list piece :=
  [ Str tag; U (xres v); Str "x"; U (yres v); Str " virt="; U (xres_virtual v); Str "x";
    U (yres_virtual v); Str " off="; U (xoffset v); Str ","; U (yoffset v); Str " rot=";
    U (rotate v); Str " bpp="; U (bits_per_pixel v) ].

Section Ioctl.
Context (k : kernel_ioctl) (logging : bool).

(** The result: the return value, the caller's object after the call, and
    the lines logged. *)
Definition ioctl (fd : Z) (c : ioctl_call) : Z * ioctl_call * list (list Z) :=
  match c with
  | SendUpdateV2 u =>
      let '(ret, u1) := k_update k fd (v1_of_v2 u) in
      (ret, c, log_line logging (v2_line u1 ret))
  | SendUpdatePlato u =>
      let '(ret, u1) := k_update k fd (v1_of_plato u) in
      (ret, c, log_line logging (plato_line u1 (altp u) ret))
  | WaitV2 arg =>
      let marker := default 0 arg in
      let '(ret, (_, collision)) := k_wait k fd marker 0 in
      (ret, c, log_line logging (wait_line marker collision ret))
  | Pan var =>
      let '(ret, var') := k_pan k fd var in
      (ret, Pan var', match var' with
                      | Some v => log_line logging (pan_line v ret)
                      | None => [] end)
  | PutScreeninfo (Some v) =>
      let '(ret, v') := k_put k fd (Some (remap v)) in
      match v' with
      | Some v' => (ret, PutScreeninfo (Some (remap v')),
                    log_line logging (var_line "PUT v=" (remap v') ++ ret_line ret))
      | None => (ret, c, [])
      end
  | PutScreeninfo None => ((k_put k fd None).1, c, [])
  | GetScreeninfo var =>
      let '(ret, v') := k_get k fd var in
      match v' with
      | Some v' => if ret =? 0
                   then (ret, GetScreeninfo (Some (remap v')),
                         log_line logging (var_line "GET v=" (remap v')))
                   else (ret, GetScreeninfo (Some v'), [])
      | None => (ret, GetScreeninfo None, [])
      end
  | Grab _ => (0, c, [])
  | SendUpdateV1 u => let '(ret, u') := k_update k fd u in (ret, SendUpdateV1 u', [])
  | WaitV1 m col => let '(ret, (m', col')) := k_wait k fd m col in (ret, WaitV1 m' col', [])
  | OtherIoctl r a => (k_other k fd r a, c, [])
  end.
End Ioctl.

(** ** The rewritten touch protocol *)
Record plato_input_event := mkpev { pe_sec : Z; pe_usec : Z; pe_ev : event }.

Definition SHIM_QUEUE_SIZE := 128.

Definition no_event : plato_input_event :=
  {| pe_sec := 0; pe_usec := 0; pe_ev := mkev 0 0 0 |}.

Record shim := mkshim {
  queue : ring plato_input_event;
  s_touch_fd : Z;
  s_is_down : bool; s_new_down : bool;
  s_tracking_id : Z; s_last_x : Z; s_last_y : Z }.

Definition empty_queue : ring plato_input_event :=
  {| cells := replicate 128 no_event; head := 0; tail := 0 |}.

Definition shim_init : shim :=
  {| queue := empty_queue; s_touch_fd := -1; s_is_down := false; s_new_down := false;
     s_tracking_id := 0; s_last_x := 0; s_last_y := 0 |}.

Definition enqueue_event (type code val sec usec : Z) (s : shim) : shim :=
  s {{ queue ::= push_drop_oldest SHIM_QUEUE_SIZE
                   {| pe_sec := sec; pe_usec := usec; pe_ev := mkev type code val |} }}.

(** [is_touch_fd]; [link fd] is what [/proc/self/fd] says the descriptor is. *)
Definition is_touch_fd (link : Z -> option (list Z)) (fd : Z) (s : shim) : bool * shim :=
  if fd <? 0 then (false, s)
  else if fd =? s_touch_fd s then (true, s)
  else if 0 <=? s_touch_fd s then (false, s)
  else match link fd with
       | Some (c :: l) =>
           if has_sub (cstr "event1") (to_nul (take 127 (c :: l)))
           then (true, s {{ s_touch_fd := fd }}) else (false, s)
       | _ => (false, s)
       end.

(** The five events of one touch packet. *)
Definition enqueue_packet (major sec usec : Z) (s : shim) : shim :=
  enqueue_event EV_SYN SYN_REPORT 0 sec usec
    (enqueue_event EV_ABS ABS_MT_TOUCH_MAJOR major sec usec
      (enqueue_event EV_ABS ABS_MT_POSITION_Y (s_last_y s) sec usec
        (enqueue_event EV_ABS ABS_MT_POSITION_X (s_last_x s) sec usec
          (enqueue_event EV_ABS ABS_MT_TRACKING_ID (s_tracking_id s) sec usec s)))).

(** The body of the translation loop, for one raw event. *)
Definition translate_one (r : plato_input_event) (s : shim) : shim :=
  let ev := pe_ev r in
  if ev_type ev =? EV_ABS then
    if ev_code ev =? ABS_MT_TRACKING_ID then
      if 0 <=? ev_value ev then s {{ s_tracking_id := ev_value ev }} else s
    else if ev_code ev =? ABS_MT_POSITION_X then s {{ s_last_x := ev_value ev }}
    else if ev_code ev =? ABS_MT_POSITION_Y then s {{ s_last_y := ev_value ev }}
    else s
  else if ev_type ev =? EV_KEY then
    if ev_code ev =? BTN_TOUCH then s {{ s_new_down := negb (ev_value ev =? 0) }} else s
  else if (ev_type ev =? EV_SYN) && (ev_code ev =? SYN_REPORT) then
    if negb (s_is_down s) && s_new_down s then
      enqueue_packet 100 (pe_sec r) (pe_usec r) (s {{ s_is_down := true }})
    else if s_is_down s && s_new_down s then
      enqueue_packet 100 (pe_sec r) (pe_usec r) s
    else if s_is_down s && negb (s_new_down s) then
      enqueue_packet 0 (pe_sec r) (pe_usec r) (s {{ s_is_down := false }})
    else s
  else s.

Definition translate (rs : list plato_input_event) (s : shim) : shim :=
  fold_left (fun s r => translate_one r s) rs s.

(** What [real_read] answers on the touch device: a non-positive result, or
    whole events (a partial event at the end is ignored by the division). *)
Inductive kread :=
  | ReadFailed (n : Z)
  | ReadEvents (rs : list plato_input_event).

(** The refill loop.  It consumes the kernel's answers; [None] when they run
    out, the caller being still blocked in [real_read]. *)
Fixpoint refill (ks : list kread) (s : shim) : option (shim * list kread * option Z) :=
  if head (queue s) =? tail (queue s) then
    match ks with
    | [] => None
    | ReadFailed n :: ks' => Some (s, ks', Some n)
    | ReadEvents rs :: ks' => refill ks' (translate rs s)
    end
  else Some (s, ks, None).

(** The copy loop, at most [n] events. *)
Fixpoint copy_out (n : nat) (s : shim) : list plato_input_event * shim :=
  match n with
  | O => ([], s)
  | S n' =>
      match pop SHIM_QUEUE_SIZE no_event (queue s) with
      | None => ([], s)
      | Some (e, q) => let '(es, s') := copy_out n' (s {{ queue := q }}) in (e :: es, s')
      end
  end.

Inductive read_result :=
  | ReadError (n : Z)
  | ReadOut (es : list plato_input_event)
  | ReadReal.

(** [read] on the touch descriptor, with room for [count] bytes. *)
Definition read_touch (count : Z) (ks : list kread) (s : shim) :
    option (read_result * list kread * shim) :=
  '(s, ks, err) ← refill ks s;
  match err with
  | Some n => Some (ReadError n, ks, s)
  | None => let '(es, s) := copy_out (Z.to_nat (i32 (count / 16))) s in Some (ReadOut es, ks, s)
  end.

(** [read]: other descriptors go to the kernel. *)
Definition read (link : Z -> option (list Z)) (fd count : Z) (ks : list kread) (s : shim) :
    option (read_result * list kread * shim) :=
  let '(touch, s) := is_touch_fd link fd s in
  if touch then read_touch count ks s else Some (ReadReal, ks, s).

(** ** [open], [close] and [poll] *)
Definition forget_touch (fd : Z) (s : shim) : shim :=
  s {{ queue ::= fun q => {| cells := cells q; head := 0; tail := 0 |};
       s_touch_fd := fd; s_is_down := false; s_new_down := false }}.

(** [handle_open]; a null path is [None], [real_open] is the kernel's answer,
    and the result is the descriptor and whether the light-sensor file was
    written. *)
Definition path_has (p : string) (pathname : option (list Z)) : bool :=
  match pathname with Some s => has_sub (cstr p) s | None => false end.

Definition open_real (real_open : option (list Z) -> Z) (pathname : option (list Z)) (s : shim) :
    Z * bool * shim :=
  let ret := real_open pathname in
  if (ret <? 0) && path_has "rtc0" pathname then (real_open (Some (cstr "/dev/null")), false, s)
  else if (0 <=? ret) && path_has "event1" pathname then
    (ret, false, (forget_touch ret s) {{ s_tracking_id := 0; s_last_x := 0; s_last_y := 0 }})
  else (ret, false, s).

Definition handle_open (real_open : option (list Z) -> Z) (pathname : option (list Z)) (s : shim) :
    Z * bool * shim :=
  if path_has "als_vis_data" pathname then
    let fd_als := real_open (Some (cstr "/tmp/als_vis_data")) in
    if 0 <=? fd_als then (fd_als, true, s) else open_real real_open pathname s
  else open_real real_open pathname s.

Definition close (fd : Z) (s : shim) : shim :=
  if fd =? s_touch_fd s then forget_touch (-1) s else s.

Record pollfd := mkpoll { pfd : Z; pevents : Z; revents : Z }.
Definition POLLIN := 1.

Definition wants_touch (s : shim) (p : pollfd) : bool :=
  (pfd p =? s_touch_fd s) && negb (Z.land (pevents p) POLLIN =? 0).

Definition poll (real_poll : list pollfd -> Z * list pollfd) (fds : list pollfd) (s : shim) :
    Z * list pollfd :=
  if (0 <=? s_touch_fd s) && negb (head (queue s) =? tail (queue s)) then
    let fds' := map (fun p => if wants_touch s p then p {{ revents := POLLIN }}
                              else p {{ revents := 0 }}) fds in
    let found := Z.of_nat (length (List.filter (wants_touch s) fds)) in
    if 0 <? found then (found, fds') else real_poll fds'
  else real_poll fds.

(** ** The memory layout of the requests

    A request as the sequence of its 32-bit words, in the order of the C
    structures on the 32-bit target. *)
Definition rect_words (r : mxcfb_rect) : list Z := [rtop r; rleft r; rwidth r; rheight r].
Definition alt_words (a : alt_buffer) : list Z :=
  [phys_addr a; awidth a; aheight a] ++ rect_words (alt_region a).
Definition v1_words (u : update_v1) : list Z :=
  rect_words (region1 u) ++ [waveform1 u; mode1 u; marker1 u; temp1 u; flags1 u] ++ alt_words (alt1 u).
Definition v2_words (u : update_v2) : list Z :=
  rect_words (region2 u) ++ [waveform2 u; mode2 u; marker2 u; temp2 u; flags2 u;
                             dither_mode u; quant_bit u] ++ alt_words (alt2 u).
Definition plato_words (u : update_plato) : list Z :=
  rect_words (regionp u) ++ [waveformp u; modep u; markerp u; tempp u; flagsp u] ++
  [virt_addr (altp u)] ++ alt_words (palt (altp u)).

Definition MXCFB_SEND_UPDATE_V1 := 0x4040462e.
Definition MXCFB_SEND_UPDATE_PLATO_V1 := 0x4044462e.
Definition MXCFB_SEND_UPDATE_V2 := 0x4048462e.

(** The argument size an ioctl number carries (bits 16 to 29). *)
Definition ioctl_size (request : Z) : Z := Z.land (Z.shiftr request 16) 0x3fff.

(** The display requests are translated without loss.  Each request number
    carries the size of its structure, and the request the kernel receives is,
    word for word, the caller's structure without the words this kernel does
    not know: the dither words of V2, the virtual address of Plato's. *)
Theorem update_translation u w :
  Forall (fun '(n, l) => ioctl_size n = 4 * Z.of_nat (length l))
    [(MXCFB_SEND_UPDATE_V1, v1_words (v1_of_v2 u)); (MXCFB_SEND_UPDATE_V2, v2_words u);
     (MXCFB_SEND_UPDATE_PLATO_V1, plato_words w)] /\
  v1_words (v1_of_v2 u) = take 9 (v2_words u) ++ drop 11 (v2_words u) /\
  v1_words (v1_of_plato w) = take 9 (plato_words w) ++ drop 10 (plato_words w).
Proof. split_and!; [repeat (apply Forall_cons_2; [reflexivity|]); apply Forall_nil_2|done|done]. Qed.

(** ** Rotation *)
Lemma remap_rotation_range r : 0 <= remap_rotation r < 4.
Proof. unfold remap_rotation. apply Z.mod_pos_bound. lia. Qed.

Lemma remap_involutive v : 0 <= rotate v < 4 -> remap (remap v) = v.
Proof.
  intros Hr. destruct v as [a b c d e f g h r]. unfold remap. cbn in *.
  assert (r = 0 \/ r = 1 \/ r = 2 \/ r = 3) as [->|[->|[->| ->]]] by lia; reflexivity.
Qed.

(** The half-turn between the panel and Plato is invisible to Plato.  The
    kernel is given the rotation turned by 180 degrees and nothing else
    changed; if it accepts that object and reports it back later, Plato gets
    its own object back from both calls. *)
Theorem rotation_round_trip k logging fd v w :
  0 <= rotate v < 4 ->
  k_put k fd (Some (remap v)) = (0, Some (remap v)) ->
  k_get k fd (Some w) = (0, Some (remap v)) ->
  rotate (remap v) = (rotate v + 2) mod 4 /\ (remap v) {{ rotate := rotate v }} = v /\
  (ioctl k logging fd (PutScreeninfo (Some v))).1 = (0, PutScreeninfo (Some v)) /\
  (ioctl k logging fd (GetScreeninfo (Some w))).1 = (0, GetScreeninfo (Some v)).
Proof.
  intros Hr Hp Hg. split_and!.
  - change (rotate (remap v)) with (remap_rotation (rotate v)). unfold remap_rotation.
    by rewrite u32_small by (unfold is_u32; lia).
  - by destruct v.
  - unfold ioctl. rewrite Hp. cbn [fst]. by rewrite remap_involutive.
  - unfold ioctl. rewrite Hg. cbn [fst Z.eqb]. by rewrite remap_involutive.
Qed.

Definition demo_kernel (st : screeninfo) : kernel_ioctl :=
  {| k_update := fun _ u => (0, u); k_wait := fun _ m c => (0, (m, c));
     k_pan := fun _ v => (0, v); k_put := fun _ v => (0, v);
     k_get := fun _ _ => (0, Some st); k_other := fun _ _ _ => -1 |}.

Definition demo_screen (r : Z) : screeninfo :=
  {| xres := 1404; yres := 1872; xres_virtual := 1408; yres_virtual := 3840; xoffset := 0;
     yoffset := 0; bits_per_pixel := 16; vmode := 0; rotate := r |}.

Lemma rotation_round_trip_witness :
  (ioctl (demo_kernel (demo_screen 1)) true 3 (GetScreeninfo (Some (demo_screen 0)))).1 =
    (0, GetScreeninfo (Some (demo_screen 3))).
Proof.
  apply (rotation_round_trip (demo_kernel (demo_screen 1)) true 3 (demo_screen 3) (demo_screen 0));
    [cbn; lia|reflexivity|reflexivity].
Defined.

(** ** Log lines are never truncated *)
Definition piece_text (p : piece) : list Z :=
  match p with
  | Str s => cstr s
  | U v => dec_string v
  | X v => cstr "0x" ++ hex_digits 8 false v
  | I v => if v <? 0 then cstr "-" ++ dec_string (u32 (- v)) else dec_string v
  end.

Definition line_text (ps : list piece) : list Z := concat (map piece_text ps).

(** An upper bound of the length of a piece of 32-bit data. *)
Definition piece_max (p : piece) : nat :=
  match p with Str s => length (cstr s) | U _ => 10 | X _ => 10 | I _ => 11 end.

Definition piece_ok (p : piece) : Prop :=
  match p with Str _ => True | U v | X v => is_u32 v | I v => is_i32 v end.

Lemma hex_digits_length n b v : (length (hex_digits n b v) <= n)%nat.
Proof.
  revert b. induction n as [|n IH]; intros b; cbn [hex_digits]; [done|].
  cases_if; [|cbn [length]]; [pose proof (IH false)|pose proof (IH true)]; lia.
Qed.

#[local] Arguments hex_digits : simpl never.
#[local] Arguments dec_string : simpl never.

Lemma dec_string_u32 v : is_u32 v -> (length (dec_string v) <= 10)%nat.
Proof. intros Hv. apply (dec_string_length 10); [lia|]. unfold is_u32 in Hv. lia. Qed.

Lemma piece_text_length p : piece_ok p -> (length (piece_text p) <= piece_max p)%nat.
Proof.
  destruct p as [s|v|v|v]; cbn [piece_ok piece_text piece_max]; [done|apply dec_string_u32|..].
  - intros _. rewrite length_app. pose proof (hex_digits_length 8 false v).
    change (length (cstr "0x")) with 2%nat. lia.
  - intros Hv. destruct (Z.ltb_spec v 0).
    + rewrite length_app. pose proof (dec_string_u32 (u32 (- v)) (u32_range _)).
      change (length (cstr "-")) with 1%nat. lia.
    + enough (length (dec_string v) <= 10)%nat by lia. apply dec_string_u32.
      unfold is_i32, is_u32 in *. lia.
Qed.

Lemma lb_append_fits s l :
  (length l + length s <= 384)%nat -> lb_append s l = l ++ s.
Proof.
  intros H. unfold lb_append, LBUF_SIZE, strlen. by rewrite (proj2 (Z.ltb_ge _ _)) by lia.
Qed.

Lemma lb_piece_fits p l :
  (length l + length (piece_text p) <= 384)%nat -> lb_piece p l = l ++ piece_text p.
Proof.
  destruct p as [s|v|v|v]; cbn [lb_piece piece_text]; intros H.
  - by apply lb_append_fits.
  - by apply lb_append_fits.
  - by apply lb_append_fits.
  - unfold lb_i, lb_str, lb_u. destruct (v <? 0); [|by apply lb_append_fits].
    rewrite length_app in H. rewrite (lb_append_fits (cstr "-")) by lia.
    rewrite lb_append_fits by (rewrite length_app; lia). by rewrite <- app_assoc.
Qed.

Lemma lb_all_fits ps l :
  (length l + length (line_text ps) <= 384)%nat -> lb_all ps l = l ++ line_text ps.
Proof.
  unfold lb_all, line_text. revert l. induction ps as [|p ps IH]; intros l; cbn [map concat fold_left].
  - by rewrite app_nil_r.
  - rewrite length_app. intros H. rewrite lb_piece_fits by lia.
    rewrite IH by (rewrite length_app; lia). by rewrite app_assoc.
Qed.

Lemma line_text_length ps :
  Forall piece_ok ps -> (length (line_text ps) <= sum_list (map piece_max ps))%nat.
Proof.
  unfold line_text. induction 1 as [|p ps Hp Hps IH]; cbn [map concat sum_list sum_list_with]; [done|].
  rewrite length_app. apply piece_text_length in Hp. cbn in IH |- *. lia.
Qed.

Lemma log_line_complete ps :
  Forall piece_ok ps -> (sum_list (map piece_max ps) < 383)%nat ->
  log_line true ps = [line_text ps ++ [10]].
Proof.
  intros Hp Hs. pose proof (line_text_length ps Hp). unfold log_line.
  rewrite lb_all_fits by (cbn; lia). cbn [app]. unfold lb_flush, LBUF_SIZE, strlen.
  by rewrite (proj2 (Z.ltb_lt _ _)) by lia.
Qed.

(** The fields of the logged structures are 32-bit unsigned integers. *)
Definition rect_u32 (r : mxcfb_rect) : Prop := Forall is_u32 (rect_words r).
Definition alt_u32 (a : alt_buffer) : Prop := Forall is_u32 (alt_words a).
Definition v1_u32 (u : update_v1) : Prop :=
  rect_u32 (region1 u) /\ Forall is_u32 [waveform1 u; mode1 u; marker1 u; flags1 u] /\ alt_u32 (alt1 u).
Definition screen_u32 (v : screeninfo) : Prop :=
  Forall is_u32 [xres v; yres v; xres_virtual v; yres_virtual v; xoffset v; yoffset v;
                 bits_per_pixel v; vmode v; rotate v].

Ltac pieces_ok :=
  repeat match goal with
  | H : Forall _ (_ :: _) |- _ => apply Forall_cons in H as [? ?]
  end;
  repeat first [apply Forall_cons_2 | apply Forall_nil_2]; cbn [piece_ok];
  first [done | assumption | apply u32_range].

Lemma rect_pieces_ok tag r : rect_u32 r -> Forall piece_ok (log_rect tag r).
Proof. unfold rect_u32, rect_words, log_rect. intros. pieces_ok. Qed.

Lemma update_pieces_ok tag u : v1_u32 u -> Forall piece_ok (log_update tag u).
Proof.
  intros (Hr & Hf & _). unfold log_update. rewrite !Forall_app.
  split_and!; [pieces_ok|by apply rect_pieces_ok|pieces_ok].
Qed.

Lemma alt_pieces_ok a : alt_u32 a -> Forall piece_ok (alt_line a).
Proof.
  unfold alt_u32, alt_words. rewrite Forall_app. intros [Ha Hr]. unfold alt_line.
  rewrite Forall_app. split; [by apply rect_pieces_ok|pieces_ok].
Qed.

Lemma var_pieces_ok tag v : screen_u32 v -> Forall piece_ok (var_line tag v).
Proof. unfold screen_u32, var_line. intros. pieces_ok. Qed.

(** No log line is ever cut.  Whatever the 32-bit values in a request and
    the kernel's answer, the text of each kind of line, with its newline, fits
    the 384-byte buffer, so what is written is every piece of it in order. *)
Theorem log_lines_complete u a v marker collision ret :
  v1_u32 u -> alt_u32 (palt a) -> screen_u32 v -> is_u32 marker -> is_u32 collision -> is_i32 ret ->
  Forall (fun ps => log_line true ps = [line_text ps ++ [10]])
    [v2_line u ret; plato_line u a ret; wait_line marker collision ret; pan_line v ret;
     var_line "PUT v=" (remap v) ++ ret_line ret; var_line "GET v=" (remap v)].
Proof.
  intros Hu Ha Hv Hm Hc Hret.
  assert (Forall piece_ok (ret_line ret)) as Hr by pieces_ok.
  assert (screen_u32 (remap v)) as Hv'.
  { unfold screen_u32 in *. destruct v. cbn in *.
    repeat (apply Forall_cons in Hv as [? Hv]). repeat (apply Forall_cons_2; [done|]).
    apply Forall_cons_2; [|done]. pose proof (remap_rotation_range rotate0).
    unfold is_u32. lia. }
  repeat apply Forall_cons_2; [..|done]; (apply log_line_complete; [|vm_compute; lia]);
    unfold v2_line, plato_line, wait_line, pan_line; rewrite ?Forall_app; split_and?; try done.
  - by apply update_pieces_ok.
  - apply alt_pieces_ok. by destruct Hu as (_ & _ & ?).
  - by apply update_pieces_ok.
  - by apply alt_pieces_ok.
  - pieces_ok.
  - pieces_ok.
  - unfold screen_u32 in Hv. pieces_ok.
  - by apply var_pieces_ok.
  - by apply var_pieces_ok.
Qed.

Definition demo_rect : mxcfb_rect := {| rtop := 4294967295; rleft := 0; rwidth := 1404; rheight := 1872 |}.
Definition demo_alt : alt_buffer :=
  {| phys_addr := 0; awidth := 0; aheight := 0; alt_region := demo_rect |}.
Definition demo_v1 : update_v1 :=
  {| region1 := demo_rect; waveform1 := 2; mode1 := 1; marker1 := 17; temp1 := 4097; flags1 := 0;
     alt1 := demo_alt |}.

Lemma log_lines_complete_witness :
  log_line true (wait_line 17 0 (-1)) = [cstr "WU  marker=17 collide=0 -> -1" ++ [10]].
Proof.
  assert (line_text (wait_line 17 0 (-1)) = cstr "WU  marker=17 collide=0 -> -1") as <-
    by (vm_compute; reflexivity).
  assert (rect_u32 demo_rect) as Hr.
  { unfold rect_u32. repeat (apply Forall_cons_2; [unfold is_u32; cbn; lia|]). done. }
  assert (alt_u32 demo_alt) as Ha.
  { unfold alt_u32, alt_words. apply Forall_app. split; [|done].
    repeat (apply Forall_cons_2; [unfold is_u32; cbn; lia|]). done. }
  assert (v1_u32 demo_v1) as H1.
  { split_and!; [done| |done]. repeat (apply Forall_cons_2; [unfold is_u32; cbn; lia|]). done. }
  assert (screen_u32 (demo_screen 1)) as Hs.
  { unfold screen_u32. repeat (apply Forall_cons_2; [unfold is_u32; cbn; lia|]). done. }
  exact (Forall_inv (Forall_inv_tail (Forall_inv_tail
    (log_lines_complete demo_v1 (mkpalt 0 demo_alt) (demo_screen 1) 17 0 (-1) H1 Ha Hs
       ltac:(unfold is_u32; lia) ltac:(unfold is_u32; lia) ltac:(unfold is_i32; lia))))).
Defined.

(** The hexadecimal digits above nine are wrong.  The letter is offset
    from [a] by the digit itself, so ten prints as [k] and the flags value 255
    as [0xpp]. *)
Theorem hex_letters_are_shifted :
  lb_u 10 true [] = cstr "0xk" /\ lb_u 255 true [] = cstr "0xpp" /\
  forall v, 0 <= v < 10 -> lb_u v true [] = cstr "0x" ++ dec_string v.
Proof.
  split_and!; [reflexivity..|]. intros v Hv.
  assert (v = 0 \/ v = 1 \/ v = 2 \/ v = 3 \/ v = 4 \/ v = 5 \/ v = 6 \/ v = 7 \/ v = 8 \/ v = 9)
    as Hc by lia.
  repeat (destruct Hc as [->|Hc]; [reflexivity|]). by subst.
Qed.
