(* ===== verification/PlatoTouch.v ===== *)
(** * The touch stream Plato reads

    The reading side of PlatoShim.v against its specification: the queue of the
    shim is invisible, the reader gets the translation of the raw events the
    kernel delivered, in order and without loss. *)

From Stdlib Require Import Ascii String.
From S2P Require Import Prelude CString Input Ring PlatoShim.

(** ** The specification: a stream translator without a queue *)
Record touch := mktouch {
  t_down : bool; t_new : bool; t_id : Z; t_x : Z; t_y : Z }.

Definition touch_of (s : shim) : touch :=
  {| t_down := s_is_down s; t_new := s_new_down s; t_id := s_tracking_id s;
     t_x := s_last_x s; t_y := s_last_y s |}.

Definition is_report (ev : event) : bool :=
  (ev_type ev =? EV_SYN) && (ev_code ev =? SYN_REPORT).

(** The state after a raw event; a report makes the new contact current. *)
Definition touch_step (t : touch) (ev : event) : touch :=
  if is_report ev then t {{ t_down := t_new t }}
  else if ev_type ev =? EV_ABS then
    if ev_code ev =? ABS_MT_TRACKING_ID then
      if 0 <=? ev_value ev then t {{ t_id := ev_value ev }} else t
    else if ev_code ev =? ABS_MT_POSITION_X then t {{ t_x := ev_value ev }}
    else if ev_code ev =? ABS_MT_POSITION_Y then t {{ t_y := ev_value ev }}
    else t
  else if (ev_type ev =? EV_KEY) && (ev_code ev =? BTN_TOUCH) then
    t {{ t_new := negb (ev_value ev =? 0) }}
  else t.

(** The packet a report produces while the finger is down, or leaves. *)
Definition packet (t : touch) (r : plato_input_event) : list plato_input_event :=
  (fun ev => {| pe_sec := pe_sec r; pe_usec := pe_usec r; pe_ev := ev |}) <$>
    [ mkev EV_ABS ABS_MT_TRACKING_ID (t_id t); mkev EV_ABS ABS_MT_POSITION_X (t_x t);
      mkev EV_ABS ABS_MT_POSITION_Y (t_y t);
      mkev EV_ABS ABS_MT_TOUCH_MAJOR (if t_new t then 100 else 0); mkev EV_SYN SYN_REPORT 0 ].

Definition emits (t : touch) (r : plato_input_event) : list plato_input_event :=
  if is_report (pe_ev r) && (t_down t || t_new t) then packet t r else [].

Fixpoint stream (t : touch) (rs : list plato_input_event) : list plato_input_event :=
  match rs with
  | [] => []
  | r :: rs' => emits t r ++ stream (touch_step t (pe_ev r)) rs'
  end.

Definition touch_after (t : touch) (rs : list plato_input_event) : touch :=
  fold_left (fun t r => touch_step t (pe_ev r)) rs t.

Lemma stream_app t rs1 rs2 :
  stream t (rs1 ++ rs2) = stream t rs1 ++ stream (touch_after t rs1) rs2.
Proof.
  revert t. induction rs1 as [|r rs1 IH]; intros t; [done|]. cbn. by rewrite IH, app_assoc.
Qed.

Lemma stream_length t rs : (length (stream t rs) <= 5 * length rs)%nat.
Proof.
  revert t. induction rs as [|r rs IH]; intros t; [done|]. cbn [stream length].
  rewrite length_app. specialize (IH (touch_step t (pe_ev r))).
  assert (length (emits t r) <= 5)%nat by (unfold emits; case_match; cbn; lia). lia.
Qed.

(** ** The queue of the shim *)
Definition queued (s : shim) : list plato_input_event := contents SHIM_QUEUE_SIZE no_event (queue s).
Abbreviation queue_ok s := (ring_ok SHIM_QUEUE_SIZE (queue s)).

Lemma enqueue_spec type code val sec usec s :
  queue_ok s -> (length (queued s) < 127)%nat ->
  let s' := enqueue_event type code val sec usec s in
  queue_ok s' /\ touch_of s' = touch_of s /\ s_touch_fd s' = s_touch_fd s /\
  length (queued s') = S (length (queued s)) /\
  queued s' = queued s ++ [ {| pe_sec := sec; pe_usec := usec; pe_ev := mkev type code val |} ].
Proof.
  intros Hq Hl s'.
  enough (queued s' = queued s ++
            [ {| pe_sec := sec; pe_usec := usec; pe_ev := mkev type code val |} ]) as E.
  { split_and!; [by apply push_oldest_ok|done..| |done]. rewrite E, length_app. cbn. lia. }
  change (queued s') with (contents SHIM_QUEUE_SIZE no_event
    (push_drop_oldest SHIM_QUEUE_SIZE
       {| pe_sec := sec; pe_usec := usec; pe_ev := mkev type code val |} (queue s))).
  rewrite push_oldest_contents by done. fold (queued s).
  by rewrite (proj2 (Z.ltb_lt _ _)) by (unfold SHIM_QUEUE_SIZE; lia).
Qed.

Lemma enqueue_packet_spec major r s :
  queue_ok s -> (length (queued s) < 123)%nat ->
  let s' := enqueue_packet major (pe_sec r) (pe_usec r) s in
  queue_ok s' /\ touch_of s' = touch_of s /\ s_touch_fd s' = s_touch_fd s /\
  queued s' = queued s ++
    ((fun ev => {| pe_sec := pe_sec r; pe_usec := pe_usec r; pe_ev := ev |}) <$>
       [ mkev EV_ABS ABS_MT_TRACKING_ID (s_tracking_id s); mkev EV_ABS ABS_MT_POSITION_X (s_last_x s);
         mkev EV_ABS ABS_MT_POSITION_Y (s_last_y s); mkev EV_ABS ABS_MT_TOUCH_MAJOR major;
         mkev EV_SYN SYN_REPORT 0 ]).
Proof.
  intros Hq Hl. unfold enqueue_packet.
  repeat match goal with
  | |- context [enqueue_event ?t ?c ?v ?a ?b ?s0] =>
      lazymatch s0 with
      | enqueue_event _ _ _ _ _ _ => fail
      | _ => destruct (enqueue_spec t c v a b s0) as (? & ? & ? & ? & ?);
             [assumption|lia|];
             set (enqueue_event t c v a b s0) in *
      end
  end.
  split_and!; [done|congruence|congruence|].
  repeat match goal with H : queued ?s = _ |- context [queued ?s] => rewrite H end.
  by rewrite <- !app_assoc.
Qed.

(** One iteration of the translation loop refines one step of the stream. *)
Lemma translate_one_spec r s :
  queue_ok s -> (length (queued s) < 123)%nat ->
  let s' := translate_one r s in
  queue_ok s' /\ touch_of s' = touch_step (touch_of s) (pe_ev r) /\
  s_touch_fd s' = s_touch_fd s /\ queued s' = queued s ++ emits (touch_of s) r.
Proof.
  intros Hq Hl. unfold translate_one, touch_step, emits, is_report.
  destruct (Z.eqb_spec (ev_type (pe_ev r)) EV_ABS) as [Ea|Ea].
  { rewrite Ea. change (EV_ABS =? EV_SYN) with false. cbn [andb]. rewrite app_nil_r.
    repeat case_match; by split_and!. }
  destruct (Z.eqb_spec (ev_type (pe_ev r)) EV_KEY) as [Ek|Ek].
  { rewrite Ek. change (EV_KEY =? EV_SYN) with false. cbn [andb]. rewrite app_nil_r.
    repeat case_match; by split_and!. }
  cbn [andb]. destruct ((ev_type (pe_ev r) =? EV_SYN) && (ev_code (pe_ev r) =? SYN_REPORT));
    cbn [andb]; [|by rewrite app_nil_r].
  destruct s as [q fd dn nw i x y]. cbn [s_is_down s_new_down].
  destruct dn, nw; cbn [andb negb orb touch_of t_down t_new s_is_down s_new_down];
    lazymatch goal with
    | |- context [enqueue_packet ?m _ _ ?s0] =>
        destruct (enqueue_packet_spec m r s0) as (? & Ht & ? & E); [done..|];
        rewrite Ht, E; by split_and!
    | |- _ => by rewrite app_nil_r
    end.
Qed.

Lemma translate_spec rs s :
  queue_ok s -> (length (queued s) + 5 * length rs <= 127)%nat ->
  queue_ok (translate rs s) /\ touch_of (translate rs s) = touch_after (touch_of s) rs /\
  s_touch_fd (translate rs s) = s_touch_fd s /\
  queued (translate rs s) = queued s ++ stream (touch_of s) rs.
Proof.
  revert s. induction rs as [|r rs IH]; intros s Hq Hl; cbn [translate fold_left stream length] in *.
  - split_and!; [done..|]. by rewrite app_nil_r.
  - destruct (translate_one_spec r s) as (H1 & H2 & H3 & H4); [done|lia|].
    assert (length (emits (touch_of s) r) <= 5)%nat by (unfold emits; case_match; cbn; lia).
    destruct (IH (translate_one r s)) as (? & Ht & ? & Eq); [done|rewrite H4, length_app; lia|].
    fold (translate rs (translate_one r s)).
    split_and!; [done|by rewrite Ht, H2|congruence|]. rewrite Eq, H4, H2. by rewrite <- app_assoc.
Qed.

(** ** Reading *)

(** The raw events a prefix of the kernel's answers delivers. *)
Definition events_of (k : kread) : list plato_input_event :=
  match k with ReadEvents rs => rs | ReadFailed _ => [] end.
Definition raw_events (ks : list kread) : list plato_input_event := concat (map events_of ks).

(** The kernel never returns more than the 16 events asked for. *)
Definition batch_ok (k : kread) : Prop := (length (events_of k) <= 16)%nat.

Lemma refill_spec ks s s' ks' err :
  queue_ok s -> Forall batch_ok ks -> refill ks s = Some (s', ks', err) ->
  exists used, ks = used ++ ks' /\ queue_ok s' /\
    touch_of s' = touch_after (touch_of s) (raw_events used) /\
    queued s' = queued s ++ stream (touch_of s) (raw_events used) /\
    match err with Some _ => queued s' = [] | None => queued s' <> [] end.
Proof.
  intros Hq Hk. revert s Hq. induction Hk as [|k ks Hb Hk IH]; intros s Hq; cbn [refill];
    destruct (Z.eqb_spec (head (queue s)) (tail (queue s))) as [E|E]; try done;
    try (intros [= <- <- <-]; exists []; cbn; rewrite app_nil_r; split_and!; try done;
         intros Hn; apply E; apply (ring_len_empty SHIM_QUEUE_SIZE); [done|];
         rewrite <- (contents_length _ no_event); by fold (queued s); rewrite Hn).
  assert (queued s = []) as Hempty.
  { apply nil_length_inv. unfold queued. rewrite contents_length. by apply ring_len_empty. }
  destruct k as [n|rs].
  - intros [= <- <- <-]. exists [ReadFailed n]. cbn. rewrite app_nil_r. by split_and!.
  - intros Hr. unfold batch_ok in Hb. cbn in Hb.
    destruct (translate_spec rs s Hq) as (H1 & H2 & _ & H4); [rewrite Hempty; cbn; lia|].
    destruct (IH (translate rs s) H1 Hr) as (used & -> & ? & Ht & Hs & He).
    exists (ReadEvents rs :: used). unfold raw_events in *. cbn [map concat events_of].
    split_and!; [done|done| |  |done].
    + rewrite Ht, H2. unfold touch_after. by rewrite fold_left_app.
    + rewrite Hs, H4, H2, stream_app. by rewrite <- app_assoc.
Qed.

Lemma copy_out_spec n s :
  queue_ok s ->
  let '(es, s') := copy_out n s in
  queue_ok s' /\ touch_of s' = touch_of s /\ queued s = es ++ queued s' /\
  length es = Nat.min n (length (queued s)).
Proof.
  revert s. induction n as [|n IH]; intros s Hq; cbn [copy_out]; [by split_and!|].
  pose proof (pop_contents SHIM_QUEUE_SIZE no_event (queue s) Hq) as Hp. fold (queued s) in Hp.
  destruct (pop _ _ (queue s)) as [[e q]|] eqn:E; [|split_and!; try done; by rewrite Hp].
  apply pop_ok in E; [|done].
  specialize (IH (s {{ queue := q }}) E). destruct (copy_out n (s {{ queue := q }})) as [es s'].
  destruct IH as (H1 & H2 & H3 & H4). change (queued (s {{ queue := q }})) with
    (contents SHIM_QUEUE_SIZE no_event q) in *.
  split_and!; [done|done|by rewrite Hp, H3|]. rewrite Hp. cbn [length]. by rewrite H4.
Qed.

(** A sequence of reads on the touch device, each with room for [count] bytes:
    what they return, as long as none blocks for ever. *)
Fixpoint reads (counts : list Z) (ks : list kread) (s : shim) :
    option (list read_result * list kread * shim) :=
  match counts with
  | [] => Some ([], ks, s)
  | c :: counts' =>
      '(r, ks, s) ← read_touch c ks s;
      '(rs, ks, s) ← reads counts' ks s;
      Some (r :: rs, ks, s)
  end.

Definition out_events (r : read_result) : list plato_input_event :=
  match r with ReadOut es => es | _ => [] end.
Definition read_out (rs : list read_result) : list plato_input_event := concat (map out_events rs).

Lemma read_touch_spec c ks s r ks' s' :
  queue_ok s -> Forall batch_ok ks -> read_touch c ks s = Some (r, ks', s') ->
  exists used, ks = used ++ ks' /\ queue_ok s' /\
    touch_of s' = touch_after (touch_of s) (raw_events used) /\
    queued s ++ stream (touch_of s) (raw_events used) = out_events r ++ queued s'.
Proof.
  intros Hq Hk. unfold read_touch. destruct (refill ks s) as [[[s1 ks1] err]|] eqn:E; [|done].
  apply refill_spec in E as (used & -> & H1 & Ht & Hs & He); [|done..]. cbn [mbind option_bind].
  destruct err as [n|].
  - intros [= <- <- <-]. exists used. split_and!; [done..|]. cbn. by rewrite Hs.
  - pose proof (copy_out_spec (Z.to_nat (i32 (c / 16))) s1 H1) as Hc. destruct (copy_out _ s1) as [es s2].
    destruct Hc as (H2 & Ht2 & Hs2 & _). intros [= <- <- <-]. exists used.
    split_and!; [done|done|congruence|]. by rewrite <- Hs, Hs2.
Qed.

Lemma reads_spec counts ks s rs ks' s' :
  queue_ok s -> Forall batch_ok ks -> reads counts ks s = Some (rs, ks', s') ->
  exists used, ks = used ++ ks' /\ queue_ok s' /\
    read_out rs ++ queued s' = queued s ++ stream (touch_of s) (raw_events used).
Proof.
  revert ks s rs. induction counts as [|c counts IH]; intros ks s rs Hq Hk; cbn [reads].
  - intros [= <- <- <-]. exists []. cbn. by rewrite app_nil_r.
  - destruct (read_touch c ks s) as [[[r ks1] s1]|] eqn:E; [|done]. cbn [mbind option_bind].
    destruct (reads counts ks1 s1) as [[[rs1 ks2] s2]|] eqn:E2; [|done]. intros [= <- -> ->].
    apply read_touch_spec in E as (u1 & -> & H1 & Ht & Hs); [|done..].
    apply Forall_app in Hk as [_ Hk].
    destruct (IH ks1 s1 rs1 H1 Hk E2) as (u2 & -> & ? & Hs2). exists (u1 ++ u2).
    rewrite <- app_assoc. split; [done|]. unfold read_out, raw_events in *.
    cbn [map concat]. rewrite map_app, concat_app, stream_app, <- Ht, <- app_assoc, Hs2.
    by rewrite !app_assoc, Hs.
Qed.

(** C4: the queue of the shim is invisible and loses nothing.  After any
    sequence of reads, of any sizes, over any kernel answers of at most 16
    events, what Plato got followed by what is still queued is exactly the
    translation of the raw events consumed, in order. *)
Theorem touch_stream_lossless counts ks s rs ks' s' :
  queue_ok s -> queued s = [] -> Forall batch_ok ks -> reads counts ks s = Some (rs, ks', s') ->
  exists used, ks = used ++ ks' /\
    read_out rs ++ queued s' = stream (touch_of s) (raw_events used).
Proof.
  intros Hq He Hk Hr. destruct (reads_spec counts ks s rs ks' s') as (used & ? & _ & E); [done..|].
  exists used. by rewrite E, He.
Qed.

(** A tap reported in two kernel reads. *)
Definition raw (ev : event) : plato_input_event := {| pe_sec := 7; pe_usec := 9; pe_ev := ev |}.
Definition demo_reads : list kread :=
  [ ReadEvents (raw <$> [mkev EV_ABS ABS_MT_TRACKING_ID 4; mkev EV_ABS ABS_MT_POSITION_X 300;
                         mkev EV_ABS ABS_MT_POSITION_Y 200]);
    ReadEvents (raw <$> [mkev EV_KEY BTN_TOUCH 1; mkev EV_SYN SYN_REPORT 0;
                         mkev EV_KEY BTN_TOUCH 0; mkev EV_SYN SYN_REPORT 0]) ].

Lemma queue_ok_init fd : queue_ok (forget_touch fd shim_init).
Proof. split; cbn; unfold SHIM_QUEUE_SIZE; lia. Qed.

Lemma demo_batches : Forall batch_ok demo_reads.
Proof. repeat (apply Forall_cons_2; [unfold batch_ok; cbn; lia|]). by apply Forall_nil_2. Qed.

Lemma touch_stream_lossless_witness :
  exists rs ks' s' used, reads [48; 160] demo_reads (forget_touch 5 shim_init) = Some (rs, ks', s') /\
    demo_reads = used ++ ks' /\
    read_out rs ++ queued s' = stream (touch_of (forget_touch 5 shim_init)) (raw_events used) /\
    length (read_out rs) = 10%nat.
Proof.
  destruct (reads [48; 160] demo_reads (forget_touch 5 shim_init)) as [[[rs ks'] s']|] eqn:E;
    [|exfalso; revert E; vm_compute; discriminate].
  exists rs, ks', s'.
  destruct (touch_stream_lossless [48; 160] demo_reads (forget_touch 5 shim_init) rs ks' s'
              (queue_ok_init 5) eq_refl demo_batches E) as (used & H1 & H2).
  exists used. split_and!; [done|exact H1|exact H2|].
  revert E. vm_compute. by intros [= <- _ _].
Defined.

(** ** The protocol Plato sees *)
Definition majors (l : list plato_input_event) : list Z :=
  omap (fun r => if (ev_type (pe_ev r) =? EV_ABS) && (ev_code (pe_ev r) =? ABS_MT_TOUCH_MAJOR)
                 then Some (ev_value (pe_ev r)) else None) l.

(** [contacts down l]: the contact sizes [l] start from a finger down or up,
    and every release (size 0) ends a contact. *)
Fixpoint contacts (down : bool) (l : list Z) : bool :=
  match l with
  | [] => true
  | m :: l' => if m =? 0 then down && contacts false l' else (m =? 100) && contacts true l'
  end.

Lemma majors_app l1 l2 : majors (l1 ++ l2) = majors l1 ++ majors l2.
Proof. apply omap_app. Qed.

Lemma contacts_prefix d l1 l2 : contacts d (l1 ++ l2) = true -> contacts d l1 = true.
Proof.
  revert d. induction l1 as [|m l1 IH]; intros d; [done|]. cbn.
  destruct (m =? 0); intros [? ?]%andb_true_iff; apply andb_true_iff; split; auto.
Qed.

Lemma stream_contacts t rs : contacts (t_down t) (majors (stream t rs)) = true.
Proof.
  revert t. induction rs as [|r rs IH]; intros t; [done|]. cbn [stream]. rewrite majors_app.
  specialize (IH (touch_step t (pe_ev r))). unfold emits, touch_step in *.
  destruct (is_report (pe_ev r)); cbn [andb].
  - destruct (t_down t) eqn:Ed, (t_new t) eqn:En; cbn [orb]; unfold packet; rewrite ?En; cbn in *;
      rewrite ?En in *; done.
  - cbn. revert IH. repeat case_match; done.
Qed.

(** Plato sees a well-formed touch protocol.  In everything it reads from
    a freshly opened device, however the kernel interleaves key, position and
    report events and however the reads are sized, the contact size is 100 or
    0 and a release always ends a contact it was shown before. *)
Theorem touch_releases_end_contacts counts ks s rs ks' s' fd :
  s = forget_touch fd shim_init -> Forall batch_ok ks ->
  reads counts ks s = Some (rs, ks', s') -> contacts false (majors (read_out rs)) = true.
Proof.
  intros -> Hk Hr. destruct (reads_spec _ _ _ _ _ _ (queue_ok_init fd) Hk Hr) as (used & _ & _ & E).
  apply (contacts_prefix _ _ (majors (queued s'))). rewrite <- majors_app, E.
  rewrite majors_app. apply (stream_contacts (touch_of (forget_touch fd shim_init))).
Qed.

Lemma touch_releases_end_contacts_witness :
  exists rs ks' s', reads [160] demo_reads (forget_touch 5 shim_init) = Some (rs, ks', s') /\
    contacts false (majors (read_out rs)) = true /\ majors (read_out rs) = [100; 0].
Proof.
  destruct (reads [160] demo_reads (forget_touch 5 shim_init)) as [[[rs ks'] s']|] eqn:E;
    [|exfalso; revert E; vm_compute; discriminate].
  exists rs, ks', s'. split_and!; [done| |].
  - exact (touch_releases_end_contacts [160] demo_reads _ rs ks' s' 5 eq_refl demo_batches E).
  - revert E. vm_compute. by intros [= <- _ _].
Defined.

(** C37: [poll] and [read] agree.  When [poll] answers from the queue it asks the
    kernel nothing and marks the touch entry readable; a read with room for an
    event then returns at once, without the kernel, and with at least one event
    and no more than fit. *)
Theorem poll_then_read real_poll fds s count ks :
  queue_ok s -> 0 <= s_touch_fd s -> queued s <> [] -> existsb (wants_touch s) fds = true ->
  16 <= count < 34359738368 ->
  (exists n fds', poll real_poll fds s = (n, fds') /\ 0 < n <= Z.of_nat (length fds) /\
    Forall2 (fun p p' => revents p' = if wants_touch s p then POLLIN else 0) fds fds') /\
  exists es s', read_touch count ks s = Some (ReadOut es, ks, s') /\
    queued s = es ++ queued s' /\ es <> [] /\ 16 * Z.of_nat (length es) <= count.
Proof.
  intros Hq Hfd Hne Hw Hc.
  assert ((head (queue s) =? tail (queue s)) = false) as Hht.
  { apply Z.eqb_neq. intros E. apply Hne, nil_length_inv. unfold queued.
    rewrite contents_length. by apply ring_len_empty. }
  split.
  - unfold poll. rewrite Hht, (proj2 (Z.leb_le _ _)) by lia. cbn [andb negb].
    assert (0 < length (List.filter (wants_touch s) fds) <= length fds)%nat as Hn.
    { split; [|apply List.filter_length_le]. apply existsb_exists in Hw as (p & Hp & Hw).
      destruct (List.filter (wants_touch s) fds) as [|q l] eqn:E; [|cbn; lia].
      exfalso. eapply (in_nil (a := p)). rewrite <- E. by apply filter_In. }
    rewrite (proj2 (Z.ltb_lt _ _)) by lia. eexists _, _. split_and!; [done|lia|lia|].
    clear. induction fds as [|p fds IH]; cbn; constructor; [|done]. by destruct (wants_touch s p).
  - unfold read_touch, refill. destruct ks; rewrite Hht; cbn [mbind option_bind];
      pose proof (copy_out_spec (Z.to_nat (i32 (count / 16))) s Hq) as Hcp;
      destruct (copy_out _ s) as [es s'] eqn:Eco; destruct Hcp as (_ & _ & E & Hlen);
      exists es, s'; split_and!; try done.
    all: rewrite i32_small in Hlen by (unfold is_i32; Z.to_euclidean_division_equations; lia).
    all: try (intros ->; cbn in Hlen; apply Hne, nil_length_inv;
              Z.to_euclidean_division_equations; lia).
    all: Z.to_euclidean_division_equations; lia.
Qed.

Lemma poll_then_read_witness :
  let s := translate (raw <$> [mkev EV_KEY BTN_TOUCH 1; mkev EV_SYN SYN_REPORT 0])
             (forget_touch 5 shim_init) in
  exists es s', read_touch 16 [] s = Some (ReadOut es, [], s') /\ length es = 1%nat.
Proof.
  intros s.
  destruct (poll_then_read (fun l => (-1, l)) [mkpoll 5 1 0] s 16 []) as [_ (es & s' & H1 & H2 & H3 & H4)].
  - split; vm_compute; [reflexivity|split; congruence..].
  - vm_compute. congruence.
  - vm_compute. congruence.
  - reflexivity.
  - lia.
  - exists es, s'. split; [exact H1|]. destruct es as [|? [|? ?]]; [done|done|]. cbn in H4. lia.
Defined.
