(* ===== verification/SdlText.v ===== *)
(** * Text of the browser shim, [sdl_fb0_shim.c]

    The UTF-8 reader and the text drawing built on it.  A [char *] is the list
    of the bytes from the pointer to the end of its object, so a string that
    is read past its object gets stuck ([None]) instead of reading on. *)

From Stdlib Require Import Ascii String.
From S2P Require Import Prelude CString Font Framebuffer.

(** [utf8_next]: [Some None] at the terminator, otherwise the code point and
    the pointer after it. *)
Definition utf8_next (s : list Z) : option (option (Z * list Z)) :=
  match s with
  | [] => None
  | c :: r =>
      if c =? 0 then Some None
      else if c <? 0x80 then Some (Some (c, r))
      else if Z.land c 0xE0 =? 0xC0 then
        match r with
        | b :: r => Some (Some (Z.lor (Z.shiftl (Z.land c 0x1F) 6) (Z.land b 0x3F), r))
        | [] => None
        end
      else if Z.land c 0xF0 =? 0xE0 then
        match r with
        | b1 :: b2 :: r =>
            Some (Some (Z.lor (Z.lor (Z.shiftl (Z.land c 0x0F) 12) (Z.shiftl (Z.land b1 0x3F) 6))
                              (Z.land b2 0x3F), r))
        | _ => None
        end
      else Some (Some (c, r))
  end.

(** The loops [while ((p = utf8_next(p, &cp)))]: a fold over the code points.
    Each step consumes a byte, so the length of the object is enough fuel. *)
Fixpoint utf8_loop {A} (fuel : nat) (f : A -> Z -> option A) (s : list Z) (a : A) : option A :=
  match fuel with
  | O => None
  | S n =>
      match utf8_next s with
      | None => None
      | Some None => Some a
      | Some (Some (cp, r)) => a' ← f a cp; utf8_loop n f r a'
      end
  end.

Definition utf8_iter {A} (f : A -> Z -> option A) (s : list Z) (a : A) : option A :=
  utf8_loop (S (length s)) f s a.

Definition utf8_string_len (s : list Z) : option Z := utf8_iter (fun n _ => Some (n + 1)) s 0.

Definition utf8_glyph (cp : Z) : option (list Z) :=
  if (32 <=? cp) && (cp <=? 126) then font8x16 !! Z.to_nat (cp - 32)
  else if 0 <=? get_cyrillic_font_index cp
       then font8x16_cyrillic !! Z.to_nat (get_cyrillic_font_index cp)
       else font8x16 !! Z.to_nat (63 - 32).

Definition fb_draw_utf8_char (x y cp scale fg bg : Z) (m : fbmem) : option fbmem :=
  g ← utf8_glyph cp; draw_glyph panel x y g scale fg bg m.

Definition fb_draw_utf8_string (x y : Z) (str : list Z) (scale fg bg : Z) (m : fbmem) :
    option fbmem :=
  r ← utf8_iter (fun '(m, cx) cp => m' ← fb_draw_utf8_char cx y cp scale fg bg m;
                                    Some (m', cx + 8 * scale)) str (m, x);
  Some r.1.

Definition fb_draw_utf8_string_centered (box_x box_y box_w box_h : Z) (str : list Z)
    (scale fg bg : Z) (m : fbmem) : option fbmem :=
  len ← utf8_string_len str;
  let str_w := len * 8 * scale in
  let str_h := 16 * scale in
  fb_draw_utf8_string (box_x + Z.quot (box_w - str_w) 2) (box_y + Z.quot (box_h - str_h) 2)
    str scale fg bg m.

(** The bytes the keyboard appends for a code point ([ACT_CHAR]). *)
Definition encode_cp (cp : Z) : list Z :=
  if cp <? 128 then [cp]
  else if cp <? 0x800 then [Z.lor 0xC0 (Z.shiftr cp 6); Z.lor 0x80 (Z.land cp 0x3F)]
  else [].

(** ** Decoding

    [decodes s cps]: from [s] the reader sees the code points [cps] and then a
    terminator inside the object. *)
Fixpoint decodes (s : list Z) (cps : list Z) : Prop :=
  match cps with
  | [] => utf8_next s = Some None
  | cp :: cps' => exists r, utf8_next s = Some (Some (cp, r)) /\ decodes r cps'
  end.

Lemma utf8_next_shorter s cp r : utf8_next s = Some (Some (cp, r)) -> (length r < length s)%nat.
Proof.
  unfold utf8_next. destruct s as [|c s]; [done|].
  repeat case_match; intros H'; simplify_eq; cbn; lia.
Qed.

Lemma decodes_length s cps : decodes s cps -> (length cps < length s)%nat.
Proof.
  revert s. induction cps as [|cp cps IH]; intros s; cbn.
  - destruct s; [done|cbn; lia].
  - intros (r & E%utf8_next_shorter & H%IH). lia.
Qed.

Lemma utf8_loop_decodes {A} (f : A -> Z -> option A) fuel s cps a :
  decodes s cps -> (length cps < fuel)%nat -> utf8_loop fuel f s a = foldM f cps a.
Proof.
  revert s cps a. induction fuel as [|n IH]; intros s cps a Hd Hl; [lia|]. cbn [utf8_loop].
  destruct cps as [|cp cps]; cbn in Hd.
  - by rewrite Hd.
  - destruct Hd as (r & -> & Hd). cbn [foldM length] in *. destruct (f a cp); [|done].
    apply IH; [done|lia].
Qed.

(** A loop over a string that decodes is the fold over its code points. *)
Lemma utf8_iter_decodes {A} (f : A -> Z -> option A) s cps a :
  decodes s cps -> utf8_iter f s a = foldM f cps a.
Proof. intros Hd. pose proof (decodes_length s cps Hd). apply utf8_loop_decodes; [done|lia]. Qed.

Lemma foldM_total {A B} (f : A -> B -> A) l a :
  foldM (fun a b => Some (f a b)) l a = Some (fold_left f l a).
Proof. revert a. induction l as [|b l IH]; intros a; [done|]. cbn. apply IH. Qed.

Lemma fold_count {A} (l : list A) n : fold_left (fun n _ => n + 1) l n = n + Z.of_nat (length l).
Proof. revert n. induction l as [|x l IH]; intros n; cbn [fold_left length]; [lia|]. rewrite IH. lia. Qed.

Lemma utf8_string_len_decodes s cps :
  decodes s cps -> utf8_string_len s = Some (Z.of_nat (length cps)).
Proof.
  intros Hd. unfold utf8_string_len. rewrite (utf8_iter_decodes _ _ _ _ Hd).
  rewrite (foldM_total (fun n (_ : Z) => n + 1)). by rewrite fold_count.
Qed.

(** A code point below 0x800, encoded, is read back. *)
Lemma utf8_next_encode cp r :
  0 < cp < 0x800 -> utf8_next (encode_cp cp ++ r) = Some (Some (cp, r)).
Proof.
  intros Hc. unfold encode_cp. destruct (Z.ltb_spec cp 128).
  - cbn. rewrite (proj2 (Z.eqb_neq cp 0)), (proj2 (Z.ltb_lt cp 128)) by lia. done.
  - rewrite (proj2 (Z.ltb_lt cp 0x800)) by lia. cbn [app].
    assert (Z.land cp 0x3F = cp mod 64) as Em by (change 0x3F with (Z.ones 6); by rewrite Z.land_ones).
    assert (Z.shiftr cp 6 = cp / 64) as Ed by (by rewrite Z.shiftr_div_pow2).
    rewrite Em, Ed.
    assert (0 <= cp mod 64 < 64) by (apply Z.mod_pos_bound; lia).
    assert (2 <= cp / 64 < 32) by (split; [apply Z.div_le_lower_bound|apply Z.div_lt_upper_bound]; lia).
    pose proof (Z.div_mod cp 64).
    assert (exists h l, cp / 64 = Z.of_nat h /\ (h < 32)%nat /\ cp mod 64 = Z.of_nat l /\ (l < 64)%nat)
      as (h & l & Eh & Hh & El & Hl) by (exists (Z.to_nat (cp / 64)), (Z.to_nat (cp mod 64)); lia).
    rewrite Eh, El in *.
    assert (cp = Z.of_nat h * 64 + Z.of_nat l) as -> by lia. clear Em Ed.
    assert (forallb (fun h => forallb (fun l =>
      implb (2 <=? Z.of_nat h)
      (match utf8_next [Z.lor 0xC0 (Z.of_nat h); Z.lor 0x80 (Z.of_nat l)] with
       | Some (Some (c, [])) => c =? Z.of_nat h * 64 + Z.of_nat l
       | _ => false end)) (seq 0 64)) (seq 0 32) = true) as Hall by (vm_compute; reflexivity).
    rewrite forallb_forall in Hall. specialize (Hall h). rewrite forallb_forall in Hall.
    specialize (Hall ltac:(apply in_seq; lia) l ltac:(apply in_seq; lia)).
    rewrite (proj2 (Z.leb_le 2 _)) in Hall by lia. cbn [implb] in Hall.
    revert Hall. set (a := Z.lor 0xC0 _). set (b := Z.lor 0x80 _). unfold utf8_next.
    destruct (a =? 0); [done|]. destruct (a <? 128); [done|].
    destruct (Z.land a 0xE0 =? 0xC0); [by intros ->%Z.eqb_eq|]. by destruct (Z.land a 0xF0 =? 0xE0).
Qed.

(** The text of a list of code points, and the terminated buffer holding it. *)
Definition encode (cps : list Z) : list Z := concat (map encode_cp cps).

(** UTF-8 text survives the encoder and the reader.  The bytes the keyboard
    appends for any sequence of code points below 0x800, terminated and
    followed by anything, are read back as exactly that sequence. *)
Theorem utf8_round_trip cps rest :
  Forall (fun cp => 0 < cp < 0x800) cps -> decodes (encode cps ++ 0 :: rest) cps.
Proof.
  unfold encode. induction 1 as [|cp cps Hc Hcs IH]; cbn [map concat decodes]; [done|].
  exists (concat (map encode_cp cps) ++ 0 :: rest). split; [|done].
  rewrite <- app_assoc. by apply utf8_next_encode.
Qed.

Lemma utf8_round_trip_witness : decodes (encode [0x41; 0x439; 0x451; 0x2E] ++ [0]) [0x41; 0x439; 0x451; 0x2E].
Proof.
  apply utf8_round_trip. repeat (apply Forall_cons_2; [lia|]). by apply Forall_nil_2.
Defined.

(** ASCII text reads as its bytes. *)
Definition ascii (s : list Z) : Prop := Forall (fun c => 0 < c < 128) s.

Lemma decodes_ascii s rest : ascii s -> decodes (s ++ 0 :: rest) s.
Proof.
  induction 1 as [|c s Hc Hs IH]; cbn [app decodes]; [done|].
  exists (s ++ 0 :: rest). split; [|done]. unfold utf8_next.
  by rewrite (proj2 (Z.eqb_neq c 0)), (proj2 (Z.ltb_lt c 128)) by lia.
Qed.

(** ** Drawing text *)
Lemma utf8_glyph_ok cp : exists g, utf8_glyph cp = Some g /\ glyph_ok g = true.
Proof.
  assert (forall k, 0 <= k < 95 -> exists g, font8x16 !! Z.to_nat k = Some g /\ glyph_ok g = true) as Ha.
  { intros k Hk. destruct (lookup_lt_is_Some_2 font8x16 (Z.to_nat k)) as [g E];
      [rewrite font8x16_length; lia|].
    exists g. split; [done|]. apply (forallb_In _ _ _ font8x16_glyphs). by eapply list_elem_of_lookup_2. }
  unfold utf8_glyph. cases_if; [bprop; apply Ha; lia|]. cases_if; [|apply Ha; lia].
  bprop. pose proof (cyrillic_index_range cp).
  destruct (lookup_lt_is_Some_2 font8x16_cyrillic (Z.to_nat (get_cyrillic_font_index cp))) as [g E];
    [rewrite font8x16_cyrillic_length; lia|].
  exists g. split; [done|]. apply (forallb_In _ _ _ font8x16_cyrillic_glyphs).
  by eapply list_elem_of_lookup_2.
Qed.

Lemma confined_utf8_char x y cp scale fg bg :
  1 <= scale ->
  confined panel x y (8 * scale) (16 * scale) (fb_draw_utf8_char x y cp scale fg bg).
Proof.
  intros Hs. unfold fb_draw_utf8_char. destruct (utf8_glyph_ok cp) as (g & -> & Hg).
  by apply confined_glyph.
Qed.

(** A string of [n] characters is drawn in a row of [n] cells. *)
Lemma confined_utf8_string x y str cps scale fg bg :
  1 <= scale -> decodes str cps ->
  confined panel x y (Z.of_nat (length cps) * 8 * scale) (16 * scale)
    (fb_draw_utf8_string x y str scale fg bg).
Proof.
  intros Hs Hd m Hm. unfold fb_draw_utf8_string. rewrite (utf8_iter_decodes _ _ _ _ Hd).
  clear Hd str. revert x m Hm. induction cps as [|cp cps IH]; intros x m Hm; cbn [foldM length].
  - by exists m.
  - destruct (confined_utf8_char x y cp scale fg bg Hs m Hm) as (m1 & E1 & Hn1 & Hi1).
    rewrite E1. cbn [mbind option_bind].
    destruct (IH (x + 8 * scale) m1) as (m2 & E2 & Hn2 & Hi2); [by eapply geom_ok_nwords|].
    exists m2. split_and!; [done|congruence|]. intros i Hi.
    rewrite Hi2, Hi1; [done|..]; intros Hin; apply Hi; unfold in_box in *; nia.
Qed.

Lemma confined_utf8_centered bx by_ bw bh str cps scale fg bg :
  1 <= scale -> decodes str cps -> Z.of_nat (length cps) * 8 * scale <= bw -> 16 * scale <= bh ->
  confined panel bx by_ bw bh (fb_draw_utf8_string_centered bx by_ bw bh str scale fg bg).
Proof.
  intros Hs Hd Hw Hh. unfold fb_draw_utf8_string_centered.
  rewrite (utf8_string_len_decodes _ _ Hd). cbn [mbind option_bind].
  eapply confined_weaken; [..|by apply (confined_utf8_string _ _ _ cps)];
    rewrite !Z.quot_div_nonneg by lia;
    set (a := Z.of_nat (length cps) * 8 * scale) in *;
    Z.to_euclidean_division_equations; lia.
Qed.

Lemma two_byte_lead lead : 0xC0 <= lead < 0xE0 -> (Z.land lead 0xE0 =? 0xC0) = true.
Proof.
  intros Hl.
  assert (forallb (fun k => Z.land (0xC0 + Z.of_nat k) 0xE0 =? 0xC0) (seq 0 32) = true) as Hall
    by (vm_compute; reflexivity).
  rewrite forallb_forall in Hall. specialize (Hall (Z.to_nat (lead - 0xC0))).
  rewrite Z2Nat.id in Hall by lia. replace (0xC0 + (lead - 0xC0)) with lead in Hall by lia.
  apply Hall, in_seq. lia.
Qed.

(** The reader trusts the lead byte.  A two-byte lead right before the
    terminator, what is left after Backspace over a Cyrillic letter, makes it
    step over the terminator: past the end of an exact-size buffer, or into
    whatever follows, which it then decodes as text. *)
Theorem truncated_lead_reads_past_nul lead after cps :
  0xC0 <= lead < 0xE0 -> decodes after cps ->
  utf8_string_len [lead; 0] = None /\
  decodes (lead :: 0 :: after) (Z.shiftl (Z.land lead 0x1F) 6 :: cps).
Proof.
  intros Hl Hd.
  assert (forall t, utf8_next (lead :: 0 :: t) = Some (Some (Z.shiftl (Z.land lead 0x1F) 6, t))) as Hn.
  { intros t. unfold utf8_next.
    rewrite (proj2 (Z.eqb_neq lead 0)), (proj2 (Z.ltb_ge lead 0x80)) by lia.
    rewrite two_byte_lead by done. by rewrite Z.land_0_l, Z.lor_0_r. }
  split.
  - unfold utf8_string_len, utf8_iter. cbn [utf8_loop length]. rewrite Hn. reflexivity.
  - exists after. by rewrite Hn.
Qed.

Lemma truncated_lead_reads_past_nul_witness :
  utf8_string_len [0xD0; 0] = None /\ decodes [0xD0; 0; 0x78; 0] [0x400; 0x78].
Proof.
  apply (truncated_lead_reads_past_nul 0xD0 [0x78; 0] [0x78]); [lia|].
  exists [0]. by split.
Defined.
