(* ===== verification/SdlOsk.v ===== *)
(** * The on-screen keyboard's layouts

    The key tables of [sdl_fb0_shim.c], English and Russian, as the code
    builds them, and what makes them usable: keys that lie in the keyboard
    area and do not overlap, and labels that fit their keys. *)

From Stdlib Require Import Ascii String.
From S2P Require Import Prelude CString Font Framebuffer SdlText.

Definition OSK_Y := 1272.
Definition OSK_H := 600.
Definition OSK_W := 1404.
Definition COLOR_WHITE := 0xFFFF.
Definition COLOR_BLACK := 0x0000.
Definition COLOR_BG := 0xEF7D.
Definition COLOR_KEY_BG := 0xFFFF.
Definition COLOR_SPECIAL_BG := 0xDEFB.
Definition COLOR_BORDER := 0x0000.
Definition COLOR_PRESSED_BG := 0x0000.
Definition COLOR_PRESSED_FG := 0xFFFF.

Definition SDLK_BACKSPACE := 8.
Definition SDLK_TAB := 9.
Definition SDLK_RETURN := 13.
Definition SDLK_ESCAPE := 27.
Definition SDLK_SPACE := 32.
Definition SDLK_u := 117.
Definition SDLK_RIGHT := 275.
Definition SDLK_HOME := 278.
Definition SDLK_END := 279.
Definition SDLK_PAGEUP := 280.
Definition SDLK_PAGEDOWN := 281.
Definition SDLK_LCTRL := 306.

Inductive KeyAction :=
  | ACT_CHAR | ACT_BACKSPACE | ACT_ENTER | ACT_SPACE | ACT_SHIFT | ACT_SYMBOLS | ACT_LANG
  | ACT_HIDE | ACT_CLEAR | ACT_DOTCOM.

Record OSKKey := mkkey {
  kx : Z; ky : Z; kw : Z; kh : Z;
  normal_label : list Z; shift_label : list Z; sym_label : list Z;
  action : KeyAction; sym : Z;
  unicode_norm : Z; unicode_shift : Z; unicode_sym : Z; kbg : Z; kfg : Z }.

Definition MAX_OSK_KEYS := 64.

(** A key with one label in each mode, no code points, as the designated
    initialisers leave it. *)
Definition plain_key (x y w h : Z) (n s m : string) (a : KeyAction) (bg : Z) : OSKKey :=
  {| kx := x; ky := y; kw := w; kh := h; normal_label := cstr n; shift_label := cstr s;
     sym_label := cstr m; action := a; sym := 0; unicode_norm := 0; unicode_shift := 0;
     unicode_sym := 0; kbg := bg; kfg := COLOR_BLACK |}.

Definition special_key x y w h (l : string) a : OSKKey :=
  plain_key x y w h l l l a COLOR_SPECIAL_BG.

Definition first_char (s : string) : Z := default 0 (head (cstr s)).

(** The keys of a loop over three label arrays, ASCII: the code points are the
    first characters of the labels. *)
Fixpoint ascii_row (x step y w : Z) (norm shift syms : list string) : list OSKKey :=
  match norm, shift, syms with
  | n :: norm', s :: shift', m :: syms' =>
      (plain_key x y w 98 n s m ACT_CHAR COLOR_KEY_BG)
        {{ unicode_norm := first_char n; unicode_shift := first_char s;
           unicode_sym := first_char m; sym := first_char n }}
      :: ascii_row (x + step) step y w norm' shift' syms'
  | _, _, _ => []
  end.

(** The keys of a loop over Russian labels and code points. *)
Fixpoint russian_row (x step y w : Z) (norm shift : list string) (cpn cps : list Z) : list OSKKey :=
  match norm, shift, cpn, cps with
  | n :: norm', s :: shift', cn :: cpn', cs :: cps' =>
      (plain_key x y w 98 n s n ACT_CHAR COLOR_KEY_BG)
        {{ unicode_norm := cn; unicode_shift := cs; unicode_sym := cn; sym := cn }}
      :: russian_row (x + step) step y w norm' shift' cpn' cps'
  | _, _, _, _ => []
  end.

Definition nums : list string := ["1"; "2"; "3"; "4"; "5"; "6"; "7"; "8"; "9"; "0"]%string.

Definition header_keys : list OSKKey :=
  [ special_key 12 1275 180 46 "Hide Kbd" ACT_HIDE; special_key 1212 1275 180 46 "Clear" ACT_CLEAR ].

Definition backspace_key : OSKKey :=
  (special_key 1172 1328 220 98 "Backsp" ACT_BACKSPACE)
    {{ sym := SDLK_BACKSPACE; unicode_norm := 8 }}.

Definition space_key (l : string) : OSKKey :=
  (plain_key 338 1744 540 104 l l l ACT_SPACE COLOR_KEY_BG) {{ sym := SDLK_SPACE; unicode_norm := 32 }}.

Definition enter_key (l : string) : OSKKey :=
  (special_key 1084 1744 308 104 l ACT_ENTER) {{ sym := SDLK_RETURN; unicode_norm := 13 }}.

Definition punct_key (x : Z) (n s m : string) : OSKKey :=
  (plain_key x 1640 126 98 n s m ACT_CHAR COLOR_KEY_BG)
    {{ unicode_norm := first_char n; unicode_shift := first_char s; unicode_sym := first_char m;
       sym := first_char n }}.

Definition english_layout : list OSKKey :=
  ascii_row 12 116 1328 110 nums
    ["!"; "@"; "#"; "$"; "%"; "^"; "&"; "*"; "("; ")"]%string
    ["["; "]"; "{"; "}"; "#"; "%"; "^"; "*"; "+"; "="]%string ++
  [ backspace_key ] ++
  ascii_row 12 138 1432 130
    ["q"; "w"; "e"; "r"; "t"; "y"; "u"; "i"; "o"; "p"]%string
    ["Q"; "W"; "E"; "R"; "T"; "Y"; "U"; "I"; "O"; "P"]%string
    ["~"; "-"; "_"; "="; "+"; "\"; "|"; "<"; ">"; "/"]%string ++
  ascii_row 80 138 1536 130
    ["a"; "s"; "d"; "f"; "g"; "h"; "j"; "k"; "l"]%string
    ["A"; "S"; "D"; "F"; "G"; "H"; "J"; "K"; "L"]%string
    [":"; ";"; String (ascii_of_nat 34) EmptyString; "'"; "?"; "!"; "@"; "$"; "&"]%string ++
  [ plain_key 12 1640 170 98 "Shift" "SHIFT" "Shift" ACT_SHIFT COLOR_SPECIAL_BG ] ++
  ascii_row 192 134 1640 126
    ["z"; "x"; "c"; "v"; "b"; "n"; "m"]%string
    ["Z"; "X"; "C"; "V"; "B"; "N"; "M"]%string
    ["("; ")"; "["; "]"; "{"; "}"; "_"]%string ++
  [ punct_key 1130 "." "," "."; punct_key 1266 "/" "?" "/";
    plain_key 12 1744 170 104 "?123" "?123" "ABC" ACT_SYMBOLS COLOR_SPECIAL_BG;
    special_key 190 1744 140 104 "EN" ACT_LANG;
    space_key "Space";
    special_key 886 1744 190 104 ".com" ACT_DOTCOM;
    enter_key "Go / Enter" ].

Definition russian_layout : list OSKKey :=
  ascii_row 12 116 1328 110 nums nums nums ++
  [ backspace_key ] ++
  russian_row 12 125 1432 118
    ["й"; "ц"; "у"; "к"; "е"; "н"; "г"; "ш"; "щ"; "з"; "х"]%string
    ["Й"; "Ц"; "У"; "К"; "Е"; "Н"; "Г"; "Ш"; "Щ"; "З"; "Х"]%string
    [0x0439; 0x0446; 0x0443; 0x043A; 0x0435; 0x043D; 0x0433; 0x0448; 0x0449; 0x0437; 0x0445]
    [0x0419; 0x0426; 0x0423; 0x041A; 0x0415; 0x041D; 0x0413; 0x0428; 0x0429; 0x0417; 0x0425] ++
  russian_row 12 125 1536 118
    ["ф"; "ы"; "в"; "а"; "п"; "р"; "о"; "л"; "д"; "ж"; "э"]%string
    ["Ф"; "Ы"; "В"; "А"; "П"; "Р"; "О"; "Л"; "Д"; "Ж"; "Э"]%string
    [0x0444; 0x044B; 0x0432; 0x0430; 0x043F; 0x0440; 0x043E; 0x043B; 0x0434; 0x0436; 0x044D]
    [0x0424; 0x042B; 0x0412; 0x0410; 0x041F; 0x0420; 0x041E; 0x041B; 0x0414; 0x0416; 0x042D] ++
  [ plain_key 12 1640 140 98 "Shift" "SHIFT" "Shift" ACT_SHIFT COLOR_SPECIAL_BG ] ++
  russian_row 160 123 1640 116
    ["я"; "ч"; "с"; "м"; "и"; "т"; "ь"; "б"; "ю"; "ё"]%string
    ["Я"; "Ч"; "С"; "М"; "И"; "Т"; "Ь"; "Б"; "Ю"; "Ё"]%string
    [0x044F; 0x0447; 0x0441; 0x043C; 0x0438; 0x0442; 0x044C; 0x0431; 0x044E; 0x0451]
    [0x042F; 0x0427; 0x0421; 0x041C; 0x0418; 0x0422; 0x042C; 0x0411; 0x042E; 0x0401] ++
  [ plain_key 12 1744 170 104 "?123" "?123" "АБВ" ACT_SYMBOLS COLOR_SPECIAL_BG;
    special_key 190 1744 140 104 "RU" ACT_LANG;
    space_key "Пробел";
    special_key 886 1744 190 104 ".ru" ACT_DOTCOM;
    enter_key "Ввод" ].

(** [build_osk_layout]; [russian] is [osk_lang != 0]. *)
Definition build_osk_layout (russian : bool) : list OSKKey :=
  header_keys ++ (if russian then russian_layout else english_layout).

(** The label a key shows, and its text size. *)
Definition key_label (symbols shift : bool) (k : OSKKey) : list Z :=
  if symbols then sym_label k else if shift then shift_label k else normal_label k.

Definition label_scale (label : list Z) : Z :=
  if 7 <? strlen label then 1 else if 3 <? strlen label then 2 else 3.

(** A label is a [char[16]], zero padded. *)
Definition label_buf (label : list Z) : list Z := label ++ replicate (16 - length label) 0.

Definition draw_osk_key (symbols shift : bool) (k : OSKKey) (pressed : bool) (m : fbmem) :
    option fbmem :=
  let bg := if pressed then COLOR_PRESSED_BG else kbg k in
  let fg := if pressed then COLOR_PRESSED_FG else kfg k in
  let label := key_label symbols shift k in
  draws [ draw_rect panel (kx k) (ky k) (kw k) (kh k) bg;
          draw_rect_outline panel (kx k) (ky k) (kw k) (kh k) 2 COLOR_BORDER;
          fb_draw_utf8_string_centered (kx k) (ky k) (kw k) (kh k) (label_buf label)
            (label_scale label) fg bg ] m.

(** The key at a point: the first whose rectangle contains it. *)
Definition in_key (x y : Z) (k : OSKKey) : bool :=
  (kx k <=? x) && (x <? kx k + kw k) && (ky k <=? y) && (y <? ky k + kh k).

Definition key_at (x y : Z) (keys : list OSKKey) : option OSKKey := List.find (in_key x y) keys.

(** ** The layouts are well formed *)
Definition key_inside (k : OSKKey) : bool :=
  (0 <=? kx k) && (4 <=? kw k) && (kx k + kw k <=? OSK_W) &&
  (OSK_Y <=? ky k) && (4 <=? kh k) && (ky k + kh k <=? OSK_Y + OSK_H).

Definition disjoint_keys (k1 k2 : OSKKey) : bool :=
  (kx k1 + kw k1 <=? kx k2) || (kx k2 + kw k2 <=? kx k1) ||
  (ky k1 + kh k1 <=? ky k2) || (ky k2 + kh k2 <=? ky k1).

Fixpoint pairwise_disjoint (ks : list OSKKey) : bool :=
  match ks with
  | [] => true
  | k :: ks' => forallb (disjoint_keys k) ks' && pairwise_disjoint ks'
  end.

(** A reference decoder for a label: bytes to code points. *)
Definition decode_label (l : list Z) : option (list Z) :=
  utf8_iter (fun acc cp => Some (acc ++ [cp])) (label_buf l) [].

(** The label decodes inside its array and its cells fit the key. *)
Definition label_fits (k : OSKKey) (l : list Z) : bool :=
  (Nat.leb (length l) 15) &&
  match decode_label l with
  | Some cps => (Z.of_nat (length cps) * 8 * label_scale l <=? kw k) && (16 * label_scale l <=? kh k)
  | None => false
  end.

(** A character key shows the code point it types, in each mode. *)
Definition label_types (k : OSKKey) : bool :=
  match action k with
  | ACT_CHAR =>
      bool_decide (decode_label (normal_label k) = Some [unicode_norm k]) &&
      bool_decide (decode_label (shift_label k) = Some [unicode_shift k]) &&
      bool_decide (decode_label (sym_label k) = Some [unicode_sym k])
  | _ => true
  end.

Definition key_ok (k : OSKKey) : bool :=
  key_inside k && label_fits k (normal_label k) && label_fits k (shift_label k) &&
  label_fits k (sym_label k).

Lemma layout_ok russian :
  forallb key_ok (build_osk_layout russian) = true /\
  pairwise_disjoint (build_osk_layout russian) = true /\
  forallb label_types (build_osk_layout russian) = true.
Proof. destruct russian; vm_compute; by split_and!. Qed.

Lemma pairwise_disjoint_unique ks x y k1 k2 :
  pairwise_disjoint ks = true -> k1 ∈ ks -> k2 ∈ ks ->
  in_key x y k1 = true -> in_key x y k2 = true -> k1 = k2.
Proof.
  assert (forall k k', disjoint_keys k k' = true -> in_key x y k = true -> in_key x y k' = true -> False)
    as Hd.
  { intros k k'. unfold disjoint_keys, in_key. rewrite !orb_true_iff, !andb_true_iff.
    rewrite !Z.leb_le, !Z.ltb_lt. lia. }
  induction ks as [|k ks IH]; cbn; intros Hp H1 H2 Hi1 Hi2; [by apply not_elem_of_nil in H1|].
  apply andb_true_iff in Hp as [Hk Hp].
  apply elem_of_cons in H1 as [->|H1], H2 as [->|H2]; [done|..].
  - exfalso. by apply (Hd k k2 (forallb_In _ _ _ Hk H2)).
  - exfalso. by apply (Hd k k1 (forallb_In _ _ _ Hk H1)).
  - by apply IH.
Qed.

(** C22: in both layouts at most one key is under any point, every key lies in
    the keyboard's area, there is room for all of them in the key table, and a
    character key types in each mode the character it shows. *)
Theorem osk_layout_sound russian x y k k' :
  let ks := build_osk_layout russian in
  k ∈ ks -> in_key x y k = true ->
  key_at x y ks = Some k /\
  (k' ∈ ks -> in_key x y k' = true -> k' = k) /\
  0 <= x < OSK_W /\ OSK_Y <= y < OSK_Y + OSK_H /\
  Z.of_nat (length ks) <= MAX_OSK_KEYS /\
  (action k = ACT_CHAR -> forall symbols shift,
     decode_label (key_label symbols shift k) =
       Some [if symbols then unicode_sym k else if shift then unicode_shift k else unicode_norm k]).
Proof.
  intros ks Hk Hi. destruct (layout_ok russian) as (Hok & Hd & Ht). fold ks in Hok, Hd, Ht.
  pose proof (forallb_In _ _ _ Hok Hk) as Hko. pose proof (forallb_In _ _ _ Ht Hk) as Htk.
  assert (key_inside k = true) as Hin by (unfold key_ok in Hko; by bprop).
  split_and!.
  - unfold key_at. destruct (List.find (in_key x y) ks) as [k1|] eqn:E.
    + apply find_some in E as [H1 H2]. f_equal. eapply pairwise_disjoint_unique; try done.
      by apply list_elem_of_In.
    + rewrite (find_none _ _ E k) in Hi; [done|]. by apply list_elem_of_In.
  - intros H1 H2. by apply (pairwise_disjoint_unique ks x y).
  - unfold key_inside, in_key in *. bprop. lia.
  - unfold key_inside, in_key in *. bprop. lia.
  - unfold key_inside, in_key in *. bprop. lia.
  - unfold key_inside, in_key in *. bprop. lia.
  - unfold ks. destruct russian; vm_compute; discriminate.
  - intros Ha symbols shift. unfold label_types in Htk. rewrite Ha in Htk.
    apply andb_true_iff in Htk as [[H1 H2]%andb_true_iff H3].
    apply bool_decide_eq_true in H1, H2, H3. unfold key_label.
    destruct symbols; [done|]. by destruct shift.
Qed.

Lemma osk_layout_sound_witness :
  exists k, k ∈ build_osk_layout true /\ in_key 20 1440 k = true /\
    key_at 20 1440 (build_osk_layout true) = Some k /\ unicode_norm k = 0x439.
Proof.
  destruct (nth_error (build_osk_layout true) 13) as [k|] eqn:E; [|vm_compute in E; discriminate].
  assert (k ∈ build_osk_layout true) as Hk by (apply list_elem_of_In; by eapply nth_error_In).
  assert (in_key 20 1440 k = true /\ unicode_norm k = 0x439) as [Hi Hu].
  { vm_compute in E. injection E as <-. by vm_compute. }
  exists k. split_and!; [done|done| |done]. by apply (osk_layout_sound true 20 1440 k k Hk Hi).
Defined.

(** ** Keys are drawn inside their rectangles *)
Lemma utf8_loop_collect fuel s acc r :
  utf8_loop fuel (fun acc cp => Some (acc ++ [cp])) s acc = Some r ->
  exists cps, r = acc ++ cps /\ decodes s cps.
Proof.
  revert s acc. induction fuel as [|n IH]; intros s acc; cbn [utf8_loop]; [done|].
  destruct (utf8_next s) as [[[cp s']|]|] eqn:E; [|intros [= <-]|done].
  - intros (cps & -> & Hd)%IH. exists (cp :: cps). rewrite <- app_assoc. split; [done|].
    cbn. eauto.
  - exists []. by rewrite app_nil_r.
Qed.

Lemma label_fits_decodes k l :
  label_fits k l = true ->
  exists cps, decodes (label_buf l) cps /\
    Z.of_nat (length cps) * 8 * label_scale l <= kw k /\ 16 * label_scale l <= kh k.
Proof.
  unfold label_fits, decode_label. intros [_ H]%andb_true_iff.
  destruct (utf8_iter _ _ _) as [cps|] eqn:E; [|done].
  apply utf8_loop_collect in E as (cps' & -> & Hd). exists cps'. bprop. done.
Qed.

Lemma label_scale_pos l : 1 <= label_scale l.
Proof. unfold label_scale. repeat cases_if; lia. Qed.

Lemma confined_key symbols shift k pressed :
  key_ok k = true ->
  confined panel (kx k) (ky k) (kw k) (kh k) (draw_osk_key symbols shift k pressed).
Proof.
  intros Hk. unfold key_ok in Hk. apply andb_true_iff in Hk as [[[Hin Hn]%andb_true_iff Hs]%andb_true_iff Hm].
  unfold key_inside in Hin. bprop. unfold draw_osk_key.
  assert (label_fits k (key_label symbols shift k) = true) as Hl
    by (unfold key_label; destruct symbols, shift; done).
  destruct (label_fits_decodes _ _ Hl) as (cps & Hd & Hw & Hh).
  apply confined_draws.
  apply Forall_cons_2; [apply confined_rect|].
  apply Forall_cons_2; [apply confined_outline; lia|].
  apply Forall_cons_2; [|apply Forall_nil_2].
  apply (confined_utf8_centered _ _ _ _ _ cps); [apply label_scale_pos|done|lia|lia].
Qed.

Lemma layout_key_ok russian k : k ∈ build_osk_layout russian -> key_ok k = true.
Proof. destruct (layout_ok russian) as (H & _ & _). by apply forallb_In. Qed.

(** Inside the keyboard area. *)
Abbreviation osk_confined := (confined panel 0 OSK_Y OSK_W OSK_H).

Lemma osk_confined_key russian symbols shift k pressed :
  k ∈ build_osk_layout russian -> osk_confined (draw_osk_key symbols shift k pressed).
Proof.
  intros Hk%layout_key_ok. eapply confined_weaken; [..|by apply confined_key];
    unfold key_ok, key_inside in Hk; bprop; lia.
Qed.
