(* ===== verification/SdlQueue.v ===== *)
(** * Events the browser shim queues

    The SDL events of [sdl_fb0_shim.c], its bounded queue, and the helpers that
    synthesise keys and clicks. *)

From Stdlib Require Import Ascii String.
From S2P Require Import Prelude CString Ring SdlOsk.

Definition SDL_PRESSED := 1.
Definition SDL_RELEASED := 0.
Definition SDL_BUTTON_LEFT := 1.
Definition MAX_EVENTS := 2048.

(** [SDL_Event]: the variants the shim builds, and the others
    ([SDL_PushEvent] takes any). *)
Inductive sdl_event :=
  | KeyDown (scancode sym unicode : Z)
  | KeyUp (scancode sym unicode : Z)
  | MouseMotion (state x y xrel yrel : Z)
  | ButtonDown (button x y : Z)
  | ButtonUp (button x y : Z)
  | OtherEvent (type : Z) (code : Z).

Definition no_sdl_event : sdl_event := OtherEvent 0 0.

Abbreviation equeue := (ring sdl_event).

Definition empty_events : equeue :=
  {| cells := replicate 2048 no_sdl_event; head := 0; tail := 0 |}.

Definition queue_event (ev : sdl_event) (q : equeue) : equeue := push_drop_newest MAX_EVENTS ev q.
Definition dequeue_event (q : equeue) : option (sdl_event * equeue) := pop MAX_EVENTS no_sdl_event q.

(** What the worker thread does besides drawing: it queues events and sleeps. *)
Inductive action_out :=
  | Queue (ev : sdl_event)
  | Sleep (us : Z).

Definition osk_inject_key (sym unicode : Z) : list action_out :=
  [ Queue (KeyDown (u8 sym) sym (u16 unicode)); Queue (KeyUp (u8 sym) sym (u16 unicode)) ].

Definition send_ctrl_key (sym unicode : Z) : list action_out :=
  let code := u8 (if sym <? 256 then sym else 0) in
  [ Queue (KeyDown 0 SDLK_LCTRL 0); Queue (KeyDown code sym (u16 unicode));
    Queue (KeyUp code sym (u16 unicode)); Queue (KeyUp 0 SDLK_LCTRL 0) ].

Definition simulate_click (x y : Z) : list action_out :=
  [ Queue (MouseMotion 0 (u16 x) (u16 y) 0 0); Sleep 10000;
    Queue (ButtonDown SDL_BUTTON_LEFT (u16 x) (u16 y)); Sleep 25000;
    Queue (ButtonUp SDL_BUTTON_LEFT (u16 x) (u16 y)) ].

Definition queue_touch_motion (last_x last_y x y : Z) : list action_out :=
  [ Queue (MouseMotion 0 (u16 x) (u16 y) (i16 (x - last_x)) (i16 (y - last_y))) ].

(** [for (i = 0; i < n; i++) ...]. *)
Definition times (n : nat) (l : list action_out) : list action_out := concat (replicate n l).

Definition clear_browser_url_bar : list action_out :=
  osk_inject_key SDLK_END 0 ++ times 15 (osk_inject_key SDLK_RIGHT 0) ++
  send_ctrl_key SDLK_u 117 ++ times 50 (osk_inject_key SDLK_BACKSPACE 8) ++
  send_ctrl_key SDLK_u 117.

(** Running the outputs on the queue. *)
Definition run_out (a : action_out) (q : equeue) : equeue :=
  match a with Queue ev => queue_event ev q | Sleep _ => q end.
Definition run_outs (l : list action_out) (q : equeue) : equeue :=
  fold_left (fun q a => run_out a q) l q.

(** The SDL calls of the browser. *)
Definition SDL_PollEvent (q : equeue) : option sdl_event * Z * equeue :=
  match dequeue_event q with Some (ev, q') => (Some ev, 1, q') | None => (None, 0, q) end.
Definition SDL_PushEvent (ev : option sdl_event) (q : equeue) : Z * equeue :=
  match ev with Some ev => (0, queue_event ev q) | None => (-1, q) end.

(** ** The queue as a bounded list *)
Definition pending (q : equeue) : list sdl_event := contents MAX_EVENTS no_sdl_event q.
Abbreviation events_ok q := (ring_ok MAX_EVENTS q).

Lemma empty_events_ok : events_ok empty_events.
Proof. split; vm_compute; by split. Qed.

Lemma queue_event_spec ev q :
  events_ok q ->
  events_ok (queue_event ev q) /\
  pending (queue_event ev q) =
    if Z.of_nat (length (pending q)) <? 2047 then pending q ++ [ev] else pending q.
Proof. intros Hq. split; [by apply push_newest_ok|]. by apply push_newest_contents. Qed.

(** The producer's and the consumer's atomic steps, in any interleaving. *)
Inductive queue_step :=
  | Produce (ev : sdl_event)
  | Consume.

(** The implementation: the events the browser got, and the queue. *)
Definition do_step (s : list sdl_event * equeue) (st : queue_step) : list sdl_event * equeue :=
  match st with
  | Produce ev => (s.1, queue_event ev s.2)
  | Consume => match SDL_PollEvent s.2 with
               | (Some ev, _, q) => (s.1 ++ [ev], q)
               | (None, _, q) => (s.1, q)
               end
  end.

(** The specification: a list of at most 2047 events. *)
Definition spec_step (s : list sdl_event * list sdl_event) (st : queue_step) :
    list sdl_event * list sdl_event :=
  match st with
  | Produce ev => (s.1, if Z.of_nat (length s.2) <? 2047 then s.2 ++ [ev] else s.2)
  | Consume => match s.2 with ev :: l => (s.1 ++ [ev], l) | [] => s end
  end.

Lemma do_step_refines g q st :
  events_ok q ->
  let '(g', q') := do_step (g, q) st in
  events_ok q' /\ spec_step (g, pending q) st = (g', pending q').
Proof.
  intros Hq. destruct st as [ev|]; cbn [do_step spec_step fst snd].
  - destruct (queue_event_spec ev q Hq) as [H1 H2]. split; [done|]. by rewrite H2.
  - unfold SDL_PollEvent, dequeue_event. pose proof (pop_contents _ no_sdl_event q Hq) as Hp.
    fold (pending q) in Hp. destruct (pop _ _ q) as [[ev q']|] eqn:E; rewrite Hp; [|done].
    split; [by eapply pop_ok|done].
Qed.

(** C11: whatever the interleaving of the input thread's queuing and the
    browser's polling, the 2048-cell ring behaves as a list of at most 2047
    events: events arrive in order, none twice, and only an event that finds
    2047 waiting is dropped. *)
Theorem event_queue_refines_list sts g q :
  events_ok q ->
  let '(g', q') := fold_left do_step sts (g, q) in
  events_ok q' /\ fold_left spec_step sts (g, pending q) = (g', pending q') /\
  (length (pending q') <= 2047)%nat.
Proof.
  revert g q. induction sts as [|st sts IH]; intros g q Hq; cbn [fold_left].
  - split_and!; [done..|]. pose proof (ring_len_bound MAX_EVENTS q Hq).
    unfold pending. rewrite contents_length. unfold MAX_EVENTS in *. lia.
  - pose proof (do_step_refines g q st Hq) as Hs. destruct (do_step (g, q) st) as [g1 q1].
    destruct Hs as [H1 ->]. by apply IH.
Qed.

Lemma event_queue_refines_list_witness :
  let '(g', q') := fold_left do_step
    [Consume; Produce (ButtonDown 1 5 6); Produce (ButtonUp 1 5 6); Consume] ([], empty_events) in
  events_ok q' /\
  fold_left spec_step [Consume; Produce (ButtonDown 1 5 6); Produce (ButtonUp 1 5 6); Consume]
    ([], pending empty_events) = (g', pending q') /\ (length (pending q') <= 2047)%nat.
Proof. apply event_queue_refines_list. apply empty_events_ok. Defined.

(** Outputs of at most the free room are all queued, in order. *)
Definition queued_events (l : list action_out) : list sdl_event :=
  omap (fun a => match a with Queue ev => Some ev | Sleep _ => None end) l.

Lemma run_outs_spec l q :
  events_ok q -> (length (pending q) + length (queued_events l) <= 2047)%nat ->
  events_ok (run_outs l q) /\ pending (run_outs l q) = pending q ++ queued_events l.
Proof.
  unfold run_outs, queued_events. revert q. induction l as [|a l IH]; intros q Hq Hl; cbn [fold_left omap list_omap].
  - by rewrite app_nil_r.
  - destruct a as [ev|us]; cbn [run_out omap list_omap length] in *; [|by apply IH].
    destruct (queue_event_spec ev q Hq) as [H1 H2].
    rewrite (proj2 (Z.ltb_lt _ _)) in H2 by lia.
    destruct (IH (queue_event ev q) H1) as [H3 H4]; [rewrite H2, length_app; cbn; lia|].
    split; [done|]. rewrite H4, H2. by rewrite <- app_assoc.
Qed.
