(* ===== verification/SdlShim.v ===== *)
(** * The browser shim's screen, keyboard and input thread

    The state of [sdl_fb0_shim.c] and its operations: the display requests,
    the URL bar, the on-screen keyboard, the control FIFO, the touch and key
    events, and the browser's [SDL_UpdateRect]. *)

From Stdlib Require Import Ascii String.
From S2P Require Import Prelude CString Input Framebuffer SdlText SdlOsk SdlQueue.

Definition WAVEFORM_MODE_DU := 1.
Definition WAVEFORM_MODE_GC16 := 2.
Definition UPDATE_MODE_PARTIAL := 0.
Definition UPDATE_MODE_FULL := 1.
Definition EPDC_FLAG_FORCE_MONOCHROME := 2.

(** An update request (the fields not zeroed; the temperature is fixed). *)
Record area := mkarea {
  a_left : Z; a_top : Z; a_width : Z; a_height : Z;
  a_waveform : Z; a_mode : Z; a_flags : Z }.

(** The file-scope variables.  [url] is the string in [g_current_url], a
    zero-padded [char[1024]]; [requests] and [outs] are the traces of display
    requests and of queued events and sleeps. *)
Record sdl := mksdl {
  fb_open : bool;
  fb : option fbmem;
  osk_active : bool; russian : bool; osk_shift : bool; osk_symbols : bool;
  osk_backup : option fbmem;
  osk_keys : list OSKKey;
  url : list Z; url_bar_focused : bool;
  last_touch_x : Z; last_touch_y : Z; touch_down : bool;
  clip_h : Z; first_full_frame : bool;
  requests : list area;
  outs : list action_out }.

Definition URL_SIZE := 1024.

Definition sdl_init : sdl :=
  {| fb_open := false; fb := None; osk_active := false; russian := false; osk_shift := false;
     osk_symbols := false; osk_backup := None; osk_keys := [];
     url := cstr "https://lite.duckduckgo.com"; url_bar_focused := true; last_touch_x := 0;
     last_touch_y := 0; touch_down := false; clip_h := 0; first_full_frame := true;
     requests := []; outs := [] |}.

(** The heap: whether [malloc] of the backup succeeds, and its contents. *)
Section Shim.
Context (heap : option (Z -> Z)).

(** ** Display requests *)
Definition align_down (z : Z) : Z := Z.land z (Z.lnot 7).

Definition epdc_refresh_area (left top width height waveform mode flags : Z) (s : sdl) : sdl :=
  if fb_open s then
    let aligned_left := align_down left in
    let aligned_top := align_down top in
    let r := align_down (left + width + 7) in
    let b := align_down (top + height + 7) in
    let aligned_right := if 1404 <? r then 1404 else r in
    let aligned_bottom := if 1872 <? b then 1872 else b in
    if (aligned_right <=? aligned_left) || (aligned_bottom <=? aligned_top) then s
    else s {{ requests := requests s ++
           [ {| a_left := u32 aligned_left; a_top := u32 aligned_top;
                a_width := aligned_right - aligned_left; a_height := aligned_bottom - aligned_top;
                a_waveform := waveform; a_mode := mode; a_flags := flags |} ] }}
  else s.

Definition epdc_refresh_fast l t w h :=
  epdc_refresh_area l t w h WAVEFORM_MODE_DU UPDATE_MODE_PARTIAL EPDC_FLAG_FORCE_MONOCHROME.
Definition epdc_refresh_gray l t w h :=
  epdc_refresh_area l t w h WAVEFORM_MODE_GC16 UPDATE_MODE_PARTIAL 0.
Definition epdc_refresh_full l t w h :=
  epdc_refresh_area l t w h WAVEFORM_MODE_GC16 UPDATE_MODE_FULL 0.

(** A drawing on the framebuffer, if it is mapped. *)
Definition draw (f : fbmem -> option fbmem) (s : sdl) : option sdl :=
  match fb s with
  | None => Some s
  | Some m => m' ← f m; Some (s {{ fb := Some m' }})
  end.

Definition out (l : list action_out) (s : sdl) : sdl := s {{ outs := outs s ++ l }}.

(** ** The URL *)

(** [snprintf(buf, size, "%s", ...)] of a string: what the buffer holds. *)
Definition snprintf (size : nat) (text : list Z) : list Z := take (size - 1) text ++ [0].

Definition url_bar_text (u : list Z) : list Z :=
  let buf := snprintf 80 (cstr "URL: " ++ u) in
  if 64 <? strlen (to_nul buf)
  then take 61 buf ++ cstr "..." ++ 0 :: drop 65 buf
  else buf.

Definition draw_url_bar_overlay (s : sdl) : option sdl :=
  draw (draws [ draw_rect panel 145 6 1175 58 COLOR_WHITE;
                draw_rect_outline panel 145 6 1175 58 2 COLOR_BLACK;
                fb_draw_utf8_string 160 19 (url_bar_text (url s)) 2 COLOR_BLACK COLOR_WHITE ]) s.

Definition preview_hint (focused ru : bool) : list Z :=
  (if focused
   then if ru then cstr "Введите адрес или поисковый запрос..."
        else cstr "Tap keys to type URL / Search query..."
   else if ru then cstr "Введите текст в поле страницы..."
        else cstr "Tap keys to type in the page field...") ++ [0].

(** The last 58 bytes of the URL's first 127. *)
Definition preview_text (u : list Z) : list Z :=
  let buf := snprintf 128 u in
  let len := length (to_nul buf) in
  if Nat.ltb 58 len then drop (len - 58) buf else buf.

Definition preview_drawing (s : sdl) : fbmem -> option fbmem :=
  if negb (url_bar_focused s) || (strlen (url s) =? 0)
  then fb_draw_utf8_string 216 1282 (preview_hint (url_bar_focused s) (russian s)) 2
         COLOR_SPECIAL_BG COLOR_WHITE
  else fb_draw_utf8_string 216 1282 (preview_text (url s)) 2 COLOR_BLACK COLOR_WHITE.

Definition draw_osk_input_preview (s : sdl) : option sdl :=
  draw (draws [ draw_rect panel 202 1275 1000 46 COLOR_WHITE;
                draw_rect_outline panel 202 1275 1000 46 2 COLOR_BLACK;
                preview_drawing s ]) s.

(** [strcat(g_current_url, t)]; writing past the 1024 bytes gets stuck. *)
Definition url_cat (t : list Z) (s : sdl) : option sdl :=
  if strlen (url s) + strlen t <? URL_SIZE then Some (s {{ url := url s ++ t }}) else None.

(** [strncpy(g_current_url, t, sizeof - 1)]. *)
Definition url_copy (t : list Z) (s : sdl) : sdl := s {{ url := take 1023 t }}.

(** The redraw of both views of the URL after a key. *)
Definition redraw_url_bar (s : sdl) : option sdl :=
  s ← draw_url_bar_overlay s; Some (epdc_refresh_fast 145 6 1175 58 s).
Definition redraw_preview (s : sdl) : option sdl :=
  s ← draw_osk_input_preview s; Some (epdc_refresh_fast 202 1275 1000 46 s).
Definition redraw_url (s : sdl) : option sdl :=
  s ← redraw_preview s; redraw_url_bar s.

(** ** The keyboard *)
Definition draw_keys (s : sdl) : option sdl :=
  draw (foldM (fun m k => draw_osk_key (osk_symbols s) (osk_shift s) k false m) (osk_keys s)) s.

Definition draw_osk (s : sdl) : option sdl :=
  let s := s {{ osk_keys := build_osk_layout (russian s) }} in
  s ← draw (draws [ draw_rect panel 0 OSK_Y OSK_W OSK_H COLOR_BG;
                    draw_rect panel 0 OSK_Y OSK_W 3 COLOR_BLACK ]) s;
  s ← draw_osk_input_preview s;
  draw_keys s.

(** The redraw of the whole keyboard. *)
Definition refresh_osk (s : sdl) : option sdl :=
  s ← draw_osk s; Some (epdc_refresh_gray 0 OSK_Y OSK_W OSK_H s).

Definition backup_words : Z := 1408 * OSK_H.

Definition alloc_backup (s : sdl) : sdl :=
  match osk_backup s with
  | Some _ => s
  | None => s {{ osk_backup := (fun ws => {| words := ws; nwords := backup_words |}) <$> heap }}
  end.

Definition show_osk (s : sdl) : option sdl :=
  match osk_active s, fb s with
  | false, Some m =>
      let s := alloc_backup s in
      s ← match osk_backup s with
          | Some bk => bk' ← save_rows panel 0 OSK_Y 1408 OSK_H m bk;
                       Some (s {{ osk_backup := Some bk' }})
          | None => Some s
          end;
      refresh_osk (s {{ osk_active := true; clip_h := OSK_Y }})
  | _, _ => Some s
  end.

Definition SDL_ShowKeyboardForTextInput (s : sdl) : option sdl :=
  show_osk (s {{ url_bar_focused := false }}).

Definition hide_osk (s : sdl) : option sdl :=
  match osk_active s, fb s with
  | true, Some m =>
      let s := s {{ clip_h := 1872 }} in
      s ← match osk_backup s with
          | Some bk => m' ← restore_rows panel 0 OSK_Y 1408 OSK_H bk m;
                       Some (s {{ fb := Some m' }})
          | None => Some s
          end;
      Some (epdc_refresh_full 0 OSK_Y OSK_W OSK_H (s {{ osk_active := false }}))
  | _, _ => Some s
  end.

Definition toggle_osk (s : sdl) : option sdl :=
  if osk_active s then hide_osk s else show_osk s.

(** ** Typing *)
Definition tolower (c : Z) : Z := if (65 <=? c) && (c <=? 90) then c + 32 else c.
Definition cp_sym (cp : Z) : Z := if cp <? 128 then tolower cp else cp.

(** The loops that type a text as keys, with a pause after each. *)
Definition type_text (pause : Z) (buf : list Z) : option (list action_out) :=
  utf8_iter (fun acc cp =>
    if (cp =? 10) || (cp =? 13) then Some acc
    else Some (acc ++ osk_inject_key (cp_sym cp) cp ++ [Sleep pause])) buf [].

(** The search address of the Enter key: spaces become [+]. *)
Fixpoint skip_spaces (u : list Z) : list Z :=
  match u with c :: u' => if c =? 32 then skip_spaces u' else u | [] => [] end.

Definition enter_target (u : list Z) : list Z :=
  let trimmed := skip_spaces u in
  if has_char 32 trimmed || (negb (has_sub (cstr "://") trimmed) && negb (has_char 46 trimmed))
  then let query := map (fun c => if c =? 32 then 43 else c) (take 1022 trimmed) in
       snprintf 1024 (cstr "https://lite.duckduckgo.com/lite/?q=" ++ query)
  else snprintf 1024 trimmed.

(** ** A touch on the keyboard

    The action of each key.  The result says whether the handler returns at
    once ([true]) or goes on to redraw the key unpressed. *)
Definition key_clear (s : sdl) : option (sdl * bool) :=
  let s := if url_bar_focused s then s {{ url := [] }} else s in
  s ← redraw_preview s;
  if url_bar_focused s then
    s ← redraw_url_bar s;
    Some (out (simulate_click 300 35 ++ clear_browser_url_bar) s, false)
  else Some (out (send_ctrl_key SDLK_u 117 ++ times 50 (osk_inject_key SDLK_BACKSPACE 8)) s, false).

Definition key_redraw (s : sdl) : option (sdl * bool) := s ← refresh_osk s; Some (s, true).

Definition key_backspace (s : sdl) : option (sdl * bool) :=
  s ← (if url_bar_focused s && (0 <? strlen (url s))
       then redraw_url (s {{ url := removelast (url s) }}) else Some s);
  Some (out (osk_inject_key SDLK_BACKSPACE 8) s, false).

Definition key_space (s : sdl) : option (sdl * bool) :=
  s ← (if url_bar_focused s && (strlen (url s) <? URL_SIZE - 2)
       then s ← url_cat (cstr " ") s; redraw_url s else Some s);
  Some (out (osk_inject_key SDLK_SPACE 32) s, false).

Definition key_enter (s : sdl) : option (sdl * bool) :=
  s ← (if url_bar_focused s && (0 <? strlen (url s)) then
         let target := enter_target (url s) in
         s ← redraw_url_bar (url_copy (to_nul target) s);
         typed ← type_text 800 target;
         Some (out (simulate_click 300 35 ++ [Sleep 15000] ++ clear_browser_url_bar ++
                    [Sleep 10000] ++ typed ++ [Sleep 15000]) s)
       else Some s);
  s ← hide_osk (out (osk_inject_key SDLK_RETURN 13) s);
  Some (s, true).

Definition key_dotcom (s : sdl) : option (sdl * bool) :=
  let ext := if russian s then cstr ".ru" else cstr ".com" in
  s ← (if url_bar_focused s && (strlen (url s) <? URL_SIZE - 6)
       then s ← url_cat ext s; redraw_url s else Some s);
  Some (out (concat (map (fun c => osk_inject_key c c ++ [Sleep 2000]) ext)) s, false).

Definition key_char (k : OSKKey) (s : sdl) : option (sdl * bool) :=
  let cp := if osk_symbols s then unicode_sym k
            else if osk_shift s then unicode_shift k else unicode_norm k in
  s ← (if url_bar_focused s && (strlen (url s) <? URL_SIZE - 6)
       then s ← url_cat (to_nul (encode_cp cp)) s; redraw_url s else Some s);
  let s := out (osk_inject_key (cp_sym cp) cp) s in
  if osk_shift s then key_redraw (s {{ osk_shift := false }}) else Some (s, false).

Definition key_action (k : OSKKey) (s : sdl) : option (sdl * bool) :=
  match action k with
  | ACT_HIDE => s ← hide_osk s; Some (s, true)
  | ACT_CLEAR => key_clear s
  | ACT_SHIFT => key_redraw (s {{ osk_shift ::= negb }})
  | ACT_SYMBOLS => key_redraw (s {{ osk_symbols ::= negb }})
  | ACT_LANG => key_redraw (s {{ russian ::= negb }})
  | ACT_BACKSPACE => key_backspace s
  | ACT_SPACE => key_space s
  | ACT_ENTER => key_enter s
  | ACT_DOTCOM => key_dotcom s
  | ACT_CHAR => key_char k s
  end.

Definition draw_one_key (k : OSKKey) (pressed : bool) (s : sdl) : option sdl :=
  s ← draw (draw_osk_key (osk_symbols s) (osk_shift s) k pressed) s;
  Some (epdc_refresh_fast (kx k) (ky k) (kw k) (kh k) s).

Definition handle_osk_touch (x y : Z) (s : sdl) : option sdl :=
  match key_at x y (osk_keys s) with
  | None => Some s
  | Some k =>
      s ← draw_one_key k true s;
      '(s, done) ← key_action k s;
      if done : bool then Some s else draw_one_key k false (out [Sleep 40000] s)
  end.

(** ** The control FIFO *)
Definition redraw_if_active (s : sdl) : option sdl :=
  if osk_active s then refresh_osk s else Some s.

Definition focus_url (s : sdl) : option sdl :=
  show_osk (out (simulate_click 300 35 ++ osk_inject_key SDLK_END 0) (s {{ url_bar_focused := true }})).

Definition fifo_key (k : list Z) (s : sdl) : option sdl :=
  let key (name : string) := streq k (cstr name) in
  if key "enter" then Some (out (osk_inject_key SDLK_RETURN 13) s)
  else if key "backspace" then Some (out (osk_inject_key SDLK_BACKSPACE 8) s)
  else if key "escape" then Some (out (osk_inject_key SDLK_ESCAPE 27) s)
  else if key "tab" then Some (out (osk_inject_key SDLK_TAB 9) s)
  else if key "pageup" then Some (out (osk_inject_key SDLK_PAGEUP 0) s)
  else if key "pagedown" then Some (out (osk_inject_key SDLK_PAGEDOWN 0) s)
  else if key "home" then Some (out (osk_inject_key SDLK_HOME 0) s)
  else if key "osk" then toggle_osk s
  else if key "lang" then redraw_if_active (s {{ russian ::= negb }})
  else if key "shift" then redraw_if_active (s {{ osk_shift ::= negb }})
  else if key "sym" then redraw_if_active (s {{ osk_symbols ::= negb }})
  else if key "back" then Some (out (simulate_click 25 48) s)
  else if key "focus_url" then focus_url s
  else Some s.

Definition fifo_text (p : list Z) (s : sdl) : option sdl :=
  s ← (if strlen (url s) + strlen (to_nul p) <? URL_SIZE - 1
       then s ← url_cat (to_nul p) s; redraw_url_bar s else Some s);
  typed ← type_text 2000 p;
  Some (out typed s).

Definition fifo_url (u : list Z) (s : sdl) : option sdl :=
  s ← redraw_url_bar (url_copy (to_nul u) s);
  typed ← type_text 800 u;
  Some (out (simulate_click 300 35 ++ [Sleep 25000] ++ clear_browser_url_bar ++ [Sleep 10000] ++
             typed ++ [Sleep 20000] ++ osk_inject_key SDLK_RETURN 13) s).

(** [sscanf(s, "%d,%d", ...) == 2]. *)
Definition scan_two (s : list Z) : option (Z * Z) :=
  '(a, r) ← scan_int s;
  match r with
  | 44 :: r => '(b, _) ← scan_int r; Some (a, b)
  | _ => None
  end.

Definition fifo_click (arg : list Z) (s : sdl) : option sdl :=
  match scan_two arg with
  | Some (cx, cy) =>
      let s := if 75 <=? cy then s {{ url_bar_focused := false }} else s in
      Some (out (simulate_click cx cy) s)
  | None => Some s
  end.

(** One command; [cmd] runs from its first byte to the end of the read
    buffer. *)
Definition handle_fifo_command (cmd : list Z) (s : sdl) : option sdl :=
  if starts_with (cstr "KEY:") cmd then fifo_key (to_nul (drop 4 cmd)) s
  else if starts_with (cstr "TEXT:") cmd then fifo_text (drop 5 cmd) s
  else if starts_with (cstr "URL:") cmd then fifo_url (drop 4 cmd) s
  else if starts_with (cstr "CLICK:") cmd then fifo_click (to_nul (drop 6 cmd)) s
  else Some s.

(** [strtok] over the buffer: each token with what follows it there, the
    delimiter that ends it overwritten by a NUL. *)
Definition is_newline (c : Z) : bool := (c =? 13) || (c =? 10).
Fixpoint end_token (buf : list Z) : list Z :=
  match buf with
  | c :: rest => if is_newline c then 0 :: rest else if c =? 0 then buf else c :: end_token rest
  | [] => []
  end.
Fixpoint fifo_lines (skipping : bool) (buf : list Z) : list (list Z) :=
  match buf with
  | [] => []
  | c :: rest =>
      if c =? 0 then []
      else if is_newline c then fifo_lines true rest
      else if skipping then end_token buf :: fifo_lines false rest
      else fifo_lines false rest
  end.

(** What a read of [n > 0] bytes from the FIFO does. *)
Definition handle_fifo (data : list Z) (s : sdl) : option sdl :=
  foldM (fun s cmd => handle_fifo_command cmd s) (fifo_lines true (take 255 data ++ [0])) s.

(** ** Hardware keys *)
Definition handle_key (ev : event) (s : sdl) : option sdl :=
  if (ev_type ev =? EV_KEY) && (ev_value ev =? 1) then
    if ev_code ev =? 191 then Some (out (osk_inject_key SDLK_PAGEUP 0) s)
    else if ev_code ev =? 192 then Some (out (osk_inject_key SDLK_PAGEDOWN 0) s)
    else if ev_code ev =? 193 then
      if osk_active s then hide_osk s else Some (out (simulate_click 13 35) s)
    else if ev_code ev =? 194 then toggle_osk s
    else if ev_code ev =? 102 then focus_url s
    else Some s
  else Some s.

(** ** The touch screen

    The local variables of the worker. *)
Record worker := mkworker { cur_x : Z; cur_y : Z; cur_down : bool }.

Definition clamp (hi z : Z) : Z := let z := if z <? 0 then 0 else z in if hi <=? z then hi - 1 else z.

(** A report.  The Boolean is [true] when the loop [continue]s. *)
Definition browser_touch (down : bool) (x y : Z) (s : sdl) : sdl :=
  let s := if 75 <=? y then s {{ url_bar_focused := false }} else s in
  let s :=
    if down && negb (touch_down s) then
      out (queue_touch_motion (last_touch_x s) (last_touch_y s) x y ++
           [Queue (ButtonDown SDL_BUTTON_LEFT (u16 x) (u16 y))]) (s {{ touch_down := true }})
    else if negb down && touch_down s then
      out [Queue (ButtonUp SDL_BUTTON_LEFT (u16 x) (u16 y))] (s {{ touch_down := false }})
    else if touch_down s && (negb (x =? last_touch_x s) || negb (y =? last_touch_y s)) then
      out [Queue (MouseMotion SDL_PRESSED (u16 x) (u16 y)
                    (i16 (x - last_touch_x s)) (i16 (y - last_touch_y s)))] s
    else s in
  s {{ last_touch_x := x; last_touch_y := y }}.

Definition osk_touch (down : bool) (x y : Z) (s : sdl) : option (sdl * bool) :=
  if OSK_Y <=? y then
    if down && negb (touch_down s) then
      s ← handle_osk_touch x y (s {{ touch_down := true }}); Some (s, true)
    else if negb down && touch_down s then Some (s {{ touch_down := false }}, true)
    else Some (s, true)
  else if down && negb (touch_down s) then
    s ← hide_osk s;
    let s := s {{ touch_down := true }} in
    Some (if 75 <=? y then out (simulate_click x y) s else s, true)
  else if negb down && touch_down s then Some (s {{ touch_down := false }}, true)
  else Some (browser_touch down x y s, false).

Definition page_touch (down : bool) (x y : Z) (s : sdl) : option (sdl * bool) :=
  if (y <? 75) && (140 <=? x) && down && negb (touch_down s) then
    s ← focus_url (s {{ touch_down := true }}); Some (s, true)
  else if (1320 <=? x) && (1800 <=? y) && down && negb (touch_down s) then
    s ← show_osk (s {{ touch_down := true }}); Some (s, true)
  else Some (browser_touch down x y s, false).

Definition handle_report (w : worker) (s : sdl) : option (sdl * bool) :=
  let x := clamp 1404 (1403 - cur_y w) in
  let y := clamp 1872 (cur_x w) in
  if osk_active s then osk_touch (cur_down w) x y s else page_touch (cur_down w) x y s.

Definition handle_touch (ev : event) (w : worker) (s : sdl) : option (worker * sdl * bool) :=
  if ev_type ev =? EV_ABS then
    if (ev_code ev =? ABS_MT_POSITION_X) || (ev_code ev =? ABS_X) then
      Some (w {{ cur_x := ev_value ev }}, s, false)
    else if (ev_code ev =? ABS_MT_POSITION_Y) || (ev_code ev =? ABS_Y) then
      Some (w {{ cur_y := ev_value ev }}, s, false)
    else Some (w, s, false)
  else if (ev_type ev =? EV_KEY) && (ev_code ev =? BTN_TOUCH) then
    Some (w {{ cur_down := negb (ev_value ev =? 0) }}, s, false)
  else if (ev_type ev =? EV_SYN) && (ev_code ev =? SYN_REPORT) then
    '(s, c) ← handle_report w s; Some (w, s, c)
  else Some (w, s, false).

(** One round of the worker's loop: what each of the three descriptors has. *)
Definition input_step (t k : option event) (f : option (list Z)) (w : worker) (s : sdl) :
    option (worker * sdl) :=
  '(w, s, c) ← match t with Some ev => handle_touch ev w s | None => Some (w, s, false) end;
  if c : bool then Some (w, s) else
  s ← match k with Some ev => handle_key ev s | None => Some s end;
  s ← match f with Some data => handle_fifo data s | None => Some s end;
  Some (w, s).

(** ** The browser's side *)

(** [SDL_UpdateRect]: the rectangle clipped to the panel; [w] and [h] are
    unsigned. *)
Definition clip_rect (x y w h : Z) : option (Z * Z * Z * Z) :=
  let '(x, y, w, h) := if (w =? 0) || (h =? 0) then (0, 0, 1404, 1872) else (x, y, w, h) in
  let '(x, w) := if x <? 0 then (0, u32 (w + x)) else (x, w) in
  let '(y, h) := if y <? 0 then (0, u32 (h + y)) else (y, h) in
  if (1404 <=? x) || (1872 <=? y) || (w =? 0) || (h =? 0) then None
  else let w := if 1404 <? u32 (x + w) then 1404 - x else w in
       let h := if 1872 <? u32 (y + h) then 1872 - y else h in
       Some (x, y, w, h).

(** The rows of the page drawn over the keyboard go to the backup. *)
Definition save_overdrawn (y h : Z) (s : sdl) : option sdl :=
  match osk_backup s, fb s with
  | Some bk, Some m =>
      let start_y := if OSK_Y <? y then y else OSK_Y in
      let end_y := if y + h <? 1872 then y + h else 1872 in
      bk' ← foldM (fun bk cy => fb_memcpy bk ((cy - OSK_Y) * 1408) m (cy * 1408) 1408)
                  (seqZ start_y (end_y - start_y)) bk;
      Some (s {{ osk_backup := Some bk' }})
  | _, _ => Some s
  end.

Definition refresh_page (x y w h : Z) (s : sdl) : sdl :=
  if first_full_frame s && (1000 <=? w) && (1000 <=? h)
  then (epdc_refresh_full x y (i32 w) (i32 h) s) {{ first_full_frame := false }}
  else epdc_refresh_gray x y (i32 w) (i32 h) s.

Definition SDL_UpdateRect (x y w h : Z) (s : sdl) : option sdl :=
  if fb_open s then
    match clip_rect x y w h with
    | None => Some s
    | Some (x, y, w, h) =>
        s ← (if (y <? 75) && (140 <? x + i32 w) then draw_url_bar_overlay s else Some s);
        if osk_active s && (OSK_Y <? y + i32 h) then
          s ← save_overdrawn y (i32 h) s;
          s ← draw_osk s;
          if OSK_Y <=? y then Some s else Some (refresh_page x y w (OSK_Y - y) s)
        else Some (refresh_page x y w h s)
    end
  else Some s.

Definition SDL_Flip (s : sdl) : option sdl := SDL_UpdateRect 0 0 0 0 s.

(** [init_current_url]: the first argument of [/proc/self/cmdline] that is a
    web address; the arguments are separated by NULs. *)
Fixpoint find_url (fuel : nat) (args : list Z) : option (list Z) :=
  match fuel, args with
  | S n, _ :: _ =>
      let a := to_nul args in
      if starts_with (cstr "http://") a || starts_with (cstr "https://") a then Some a
      else find_url n (drop (S (length a)) args)
  | _, _ => None
  end.

Definition init_current_url (cmdline : list Z) (s : sdl) : sdl :=
  match find_url (length (take 2047 cmdline)) (take 2047 cmdline) with
  | Some u => url_copy u s
  | None => s
  end.

(** [SDL_SetVideoMode]: [opened] and [mapped] are the kernel's answers.  The
    result is the new state, and whether a surface is returned.  When [mmap]
    fails [fb_mem] keeps [MAP_FAILED], a pointer to no memory at all that is
    not [NULL]. *)
Definition SDL_SetVideoMode (opened mapped : bool) (cmdline : list Z) (s : sdl) : option (sdl * bool) :=
  if fb_open s || opened then
    if mapped then
      let s := s {{ fb_open := true;
                    fb := Some {| words := fun _ => 0xFFFF; nwords := panel_words |};
                    clip_h := 1872 }} in
      s ← draw_url_bar_overlay (init_current_url cmdline s);
      Some (epdc_refresh_full 0 0 1404 1872 s, true)
    else Some (s {{ fb_open := false; fb := Some {| words := fun _ => 0; nwords := 0 |} }}, false)
  else Some (s, false).
End Shim.
