(* ===== verification/SdlDisplay.v ===== *)
(** * Display requests of the browser shim

    What the requests of SdlShim.v ask the display controller to refresh. *)

From Stdlib Require Import Ascii String.
From S2P Require Import Prelude CString Framebuffer SdlText SdlOsk SdlQueue SdlShim.

Lemma align_down_spec z : align_down z = z - z mod 8.
Proof.
  unfold align_down. rewrite <- Z.ldiff_land. change 7 with (Z.ones 3).
  rewrite Z.ldiff_ones_r by lia. rewrite Z.shiftl_mul_pow2, Z.shiftr_div_pow2 by lia.
  change (2 ^ 3) with 8. pose proof (Z.div_mod z 8). lia.
Qed.

(** The region of a request, and a pixel of it. *)
Definition covers (a : area) (px py : Z) : Prop :=
  a_left a <= px < a_left a + a_width a /\ a_top a <= py < a_top a + a_height a.

Definition area_ok (a : area) : Prop :=
  (a_left a) mod 8 = 0 /\ (a_top a) mod 8 = 0 /\
  0 <= a_left a /\ 0 < a_width a /\ a_left a + a_width a <= 1404 /\
  0 <= a_top a /\ 0 < a_height a /\ a_top a + a_height a <= 1872.

Lemma refresh_area_cases l t w h wf md fl s :
  let s' := epdc_refresh_area l t w h wf md fl s in
  0 <= l -> 0 <= t -> l < 4294967296 -> t < 4294967296 ->
  (requests s' = requests s /\
     (fb_open s = false \/ forall px py, 0 <= px < 1404 -> 0 <= py < 1872 ->
        ~ (l <= px < l + w /\ t <= py < t + h))) \/
  (exists a, requests s' = requests s ++ [a] /\ area_ok a /\ a_waveform a = wf /\ a_mode a = md /\
     a_flags a = fl /\ a_left a = l - l mod 8 /\ a_top a = t - t mod 8 /\
     a_top a + a_height a = Z.min 1872 (t + h + 7 - (t + h + 7) mod 8) /\
     a_left a + a_width a = Z.min 1404 (l + w + 7 - (l + w + 7) mod 8)).
Proof.
  intros s' Hl Ht Hl2 Ht2. unfold s', epdc_refresh_area. destruct (fb_open s) eqn:Eo; [|left; by split; [|left]].
  rewrite !align_down_spec.
  destruct (_ || _) eqn:E.
  - left. split; [done|]. right. intros px py Hpx Hpy [H1 H2].
    apply orb_true_iff in E as [E|E]; bprop;
      revert E; cases_if; bprop; Z.to_euclidean_division_equations; lia.
  - right. eexists. split; [reflexivity|]. unfold area_ok. cbn. bprop.
    rewrite !u32_small by (unfold is_u32; Z.to_euclidean_division_equations; lia).
    assert (forall b x, (if b <? x then b else x) = Z.min b x) as Hmin by (intros; bdestr; lia).
    rewrite !Hmin in *.
    split_and!; try done; Z.to_euclidean_division_equations; lia.
Qed.

(** A refresh asks for an 8-aligned region inside the panel that covers
    every visible pixel of the rectangle it was given; a rectangle with no
    visible pixel may be skipped, and nothing else is. *)
Theorem refresh_covers_rectangle l t w h wf md fl s px py :
  0 <= l < 4294967296 -> 0 <= t < 4294967296 -> fb_open s = true ->
  0 <= px < 1404 -> 0 <= py < 1872 -> l <= px < l + w -> t <= py < t + h ->
  exists a, requests (epdc_refresh_area l t w h wf md fl s) = requests s ++ [a] /\
    area_ok a /\ covers a px py /\ a_waveform a = wf /\ a_mode a = md /\ a_flags a = fl.
Proof.
  intros Hl Ht Ho Hpx Hpy Hx Hy.
  destruct (refresh_area_cases l t w h wf md fl s) as
    [[_ [Hf|Hn]]|(a & E & Ha & Hwf & Hmd & Hfl & H1 & H2 & H3 & H4)]; [lia..|congruence| |].
  - exfalso. by apply (Hn px py).
  - exists a. split_and!; try done. unfold covers.
    Z.to_euclidean_division_equations; lia.
Qed.

Lemma refresh_covers_rectangle_witness :
  exists a, requests (epdc_refresh_area 202 1275 1000 46 1 0 2 (sdl_init {{ fb_open := true }})) = [a] /\
    area_ok a /\ covers a 700 1300 /\ a_left a = 200 /\ a_top a = 1272 /\ a_width a = 1008.
Proof.
  destruct (refresh_covers_rectangle 202 1275 1000 46 1 0 2 (sdl_init {{ fb_open := true }}) 700 1300)
    as (a & E & Ha & Hc & _); [lia|lia|done|lia|lia|lia|lia|].
  exists a. split_and!; [exact E|exact Ha|exact Hc|..];
    vm_compute in E; by injection E as <-.
Defined.

(** The clipping of [SDL_UpdateRect] is unsigned.  A rectangle entirely to
    the left of the panel, whose width becomes negative, is not skipped: it
    wraps to the whole width and refreshes a full-width strip. *)
Theorem update_left_of_panel_wraps x y w h :
  -1404 < x < 0 -> 0 < w < - x -> 0 <= y -> 0 < h -> y + h <= 1872 ->
  clip_rect x y w h = Some (0, y, 1404, h).
Proof.
  intros Hx Hw Hy Hh Hyh. unfold clip_rect.
  rewrite (proj2 (Z.eqb_neq w 0)), (proj2 (Z.eqb_neq h 0)) by lia. cbn [orb].
  rewrite (proj2 (Z.ltb_lt x 0)), (proj2 (Z.ltb_ge y 0)) by lia.
  assert (u32 (w + x) = w + x + 4294967296) as Eu.
  { unfold u32. rewrite <- (Z_mod_plus_full (w + x) 1), Z.mod_small; lia. }
  rewrite Eu. rewrite (u32_small (0 + _)) by (unfold is_u32; lia).
  rewrite (u32_small (y + h)) by (unfold is_u32; lia).
  rewrite (proj2 (Z.eqb_neq (w + x + 4294967296) 0)), (proj2 (Z.eqb_neq h 0)) by lia.
  rewrite (proj2 (Z.leb_gt 1872 y)) by lia. cbn [Z.leb Z.compare orb].
  rewrite (proj2 (Z.ltb_lt 1404 _)), (proj2 (Z.ltb_ge 1872 _)) by lia. done.
Qed.

Lemma update_left_of_panel_wraps_witness : clip_rect (-100) 200 50 30 = Some (0, 200, 1404, 30).
Proof. apply update_left_of_panel_wraps; lia. Defined.
