(* ===== verification/SdlSafety.v ===== *)
(** * The keyboard gives the page back

    Safety of the browser shim's input side: no touch, key or FIFO command of a
    session in English makes a drawing, copy or string operation leave its
    object, and hiding the keyboard restores the page under it. *)

From Stdlib Require Import Ascii String.
From S2P Require Import Prelude CString Input Font Framebuffer SdlText SdlOsk SdlQueue SdlShim.

(** ** Text buffers of ASCII strings *)
Lemma to_nul_ascii s t : ascii s -> to_nul (s ++ 0 :: t) = s.
Proof.
  induction 1 as [|c s Hc Hs IH]; cbn [app to_nul]; [done|].
  rewrite (proj2 (Z.eqb_neq c 0)) by lia. by rewrite IH.
Qed.

Lemma ascii_app s t : ascii (s ++ t) <-> ascii s /\ ascii t.
Proof. apply Forall_app. Qed.
Lemma ascii_take n s : ascii s -> ascii (take n s).
Proof. apply Forall_take. Qed.
Lemma ascii_drop n s : ascii s -> ascii (drop n s).
Proof. apply Forall_drop. Qed.

Lemma ascii_compute s : forallb (fun c => (0 <? c) && (c <? 128)) s = true -> ascii s.
Proof.
  intros H. apply Forall_forall. intros c Hc. pose proof (forallb_In _ _ _ H Hc) as Hb.
  cbn in Hb. bprop. lia.
Qed.

Lemma snprintf_ascii n s : ascii s -> decodes (snprintf n s) (take (n - 1) s).
Proof. intros Hs. apply decodes_ascii. by apply ascii_take. Qed.

Lemma url_bar_text_decodes u :
  ascii u -> exists cps, decodes (url_bar_text u) cps /\ (length cps <= 64)%nat.
Proof.
  intros Hu. unfold url_bar_text, snprintf. set (t := cstr "URL: " ++ u).
  assert (ascii t) as Ht by (apply ascii_app; split; [by apply ascii_compute|done]).
  rewrite (to_nul_ascii (take _ t) []) by by apply ascii_take.
  destruct (Z.ltb_spec 64 (strlen (take (80 - 1) t))) as [Hl|Hl].
  - set (b := take (80 - 1) t ++ [0]).
    exists (take 61 b ++ cstr "..."). split.
    + rewrite (app_assoc (take 61 b) (cstr "...")). apply decodes_ascii.
      apply ascii_app. split; [|by apply ascii_compute].
      unfold b, strlen in *. rewrite take_app_le by lia. by do 2 apply ascii_take.
    + rewrite length_app, length_take. change (length (cstr "...")) with 3%nat. lia.
  - exists (take (80 - 1) t). split; [by apply decodes_ascii, ascii_take|].
    unfold strlen in Hl. lia.
Qed.

Lemma preview_text_decodes u :
  ascii u -> exists cps, decodes (preview_text u) cps /\ (length cps <= 58)%nat.
Proof.
  intros Hu. unfold preview_text, snprintf.
  assert (ascii (take (128 - 1) u)) as Ht by by apply ascii_take.
  set (t := take (128 - 1) u) in *.
  rewrite (to_nul_ascii t []) by done. destruct (Nat.ltb_spec 58 (length t)).
  - rewrite drop_app_le by lia. exists (drop (length t - 58) t).
    split; [by apply decodes_ascii, ascii_drop|]. rewrite length_drop. lia.
  - exists t. split; [by apply decodes_ascii|lia].
Qed.

Lemma preview_hint_decodes f ru :
  exists cps, decodes (preview_hint f ru) cps /\ (length cps <= 58)%nat.
Proof.
  assert (exists cps, utf8_iter (fun acc cp => Some (acc ++ [cp])) (preview_hint f ru) [] = Some cps /\
            (length cps <= 58)%nat) as (cps & E & Hl)
    by (destruct f, ru; eexists; (split; [vm_compute; reflexivity|cbn; lia])).
  apply utf8_loop_collect in E as (cps' & -> & Hd). by exists cps'.
Qed.

(** ** Where the drawings go *)
Lemma confined_url_bar s :
  ascii (url s) ->
  confined panel 145 6 1175 58
    (draws [ draw_rect panel 145 6 1175 58 COLOR_WHITE;
             draw_rect_outline panel 145 6 1175 58 2 COLOR_BLACK;
             fb_draw_utf8_string 160 19 (url_bar_text (url s)) 2 COLOR_BLACK COLOR_WHITE ]).
Proof.
  intros Hu. destruct (url_bar_text_decodes _ Hu) as (cps & Hd & Hl). apply confined_draws.
  apply Forall_cons_2; [apply confined_rect|].
  apply Forall_cons_2; [apply confined_outline; lia|].
  apply Forall_cons_2; [|apply Forall_nil_2].
  eapply confined_weaken; [..|by apply (confined_utf8_string _ _ _ cps)]; lia.
Qed.

Lemma confined_preview s :
  ascii (url s) ->
  osk_confined
    (draws [ draw_rect panel 202 1275 1000 46 COLOR_WHITE;
             draw_rect_outline panel 202 1275 1000 46 2 COLOR_BLACK; preview_drawing s ]).
Proof.
  intros Hu. apply confined_draws. unfold OSK_Y, OSK_H, OSK_W.
  apply Forall_cons_2; [confine|]. apply Forall_cons_2; [confine|].
  apply Forall_cons_2; [|apply Forall_nil_2]. unfold preview_drawing.
  destruct (_ || _).
  - destruct (preview_hint_decodes (url_bar_focused s) (russian s)) as (cps & Hd & Hl).
    eapply confined_weaken; [..|by apply (confined_utf8_string _ _ _ cps)]; lia.
  - destruct (preview_text_decodes _ Hu) as (cps & Hd & Hl).
    eapply confined_weaken; [..|by apply (confined_utf8_string _ _ _ cps)]; lia.
Qed.

Lemma confined_keys symbols shift ru :
  osk_confined (foldM (fun m k => draw_osk_key symbols shift k false m) (build_osk_layout ru)).
Proof. apply confined_foldM. intros k Hk. by eapply osk_confined_key. Qed.

(** ** The invariant

    [core m0 s]: [m0] is the page.  While the keyboard is hidden its rows show
    the page; while it is up the backup holds them. *)
Abbreviation in_osk_rows := (in_box panel 0 OSK_Y 1408 OSK_H).

Record core (m0 : fbmem) (s : sdl) : Prop := {
  g_fb : match fb s with
         | None => osk_active s = false
         | Some m => nwords m = panel_words /\
             (osk_active s = false -> forall i, in_osk_rows i -> words m i = words m0 i)
         end;
  g_backup : match osk_backup s with
             | None => osk_active s = false
             | Some bk => nwords bk = backup_words /\
                 (osk_active s = true -> holds_box panel 0 OSK_Y 1408 OSK_H m0 bk)
             end;
  g_url : ascii (url s) /\ strlen (url s) <= 1023 }.

(** While the keyboard is up the key table is that of the current language. *)
Definition keyed (s : sdl) : Prop :=
  osk_active s = true -> osk_keys s = build_osk_layout (russian s).

Definition good (m0 : fbmem) (s : sdl) : Prop := core m0 s /\ keyed s.

(** A result that keeps the invariant. *)
Definition fine (m0 : fbmem) (r : option sdl) : Prop := exists s', r = Some s' /\ good m0 s'.

(** A step that also leaves a few variables alone. *)
Record same_mode (s s' : sdl) : Prop := {
  sm_active : osk_active s' = osk_active s; sm_russian : russian s' = russian s;
  sm_shift : osk_shift s' = osk_shift s; sm_symbols : osk_symbols s' = osk_symbols s;
  sm_focus : url_bar_focused s' = url_bar_focused s; sm_url : url s' = url s;
  sm_outs : outs s' = outs s; sm_touch : touch_down s' = touch_down s;
  sm_keys : osk_keys s' = osk_keys s }.

Definition quiet (m0 : fbmem) (s : sdl) (r : option sdl) : Prop :=
  exists s', r = Some s' /\ core m0 s' /\ same_mode s s'.

#[export] Instance same_mode_refl : Reflexive same_mode.
Proof. by split. Qed.
#[export] Instance same_mode_trans : Transitive same_mode.
Proof. intros s1 s2 s3 [] []. split; congruence. Qed.

Section Safe.
Context (m0 : fbmem) (heap : option (Z -> Z)) (Hheap : is_Some heap).

Lemma fine_ret s : good m0 s -> fine m0 (Some s).
Proof. intros H. by exists s. Qed.

Lemma fine_bind r f : fine m0 r -> (forall s, r = Some s -> good m0 s -> fine m0 (f s)) -> fine m0 (r ≫= f).
Proof. intros (s & -> & Hs) Hf. by apply Hf. Qed.

Lemma quiet_ret s s' : core m0 s' -> same_mode s s' -> quiet m0 s (Some s').
Proof. intros H H'. by exists s'. Qed.

Lemma quiet_bind s r f :
  quiet m0 s r -> (forall s', core m0 s' -> same_mode s s' -> quiet m0 s (f s')) ->
  quiet m0 s (r ≫= f).
Proof. intros (s' & -> & Hs & Hm) Hf. by apply Hf. Qed.

Lemma same_keyed s s' : same_mode s s' -> keyed s -> keyed s'.
Proof. intros [H1 H2 _ _ _ _ _ _ H3] Hk. unfold keyed. by rewrite H1, H2, H3. Qed.

Lemma quiet_fine s r : good m0 s -> quiet m0 s r -> fine m0 r.
Proof.
  intros [_ Hk] (s' & -> & Hs & Hm). exists s'. split; [done|]. split; [done|].
  by eapply same_keyed.
Qed.

(** The pieces of the state the invariant does not mention. *)
Lemma refresh_good l t w h wf md fl s :
  core m0 s -> core m0 (epdc_refresh_area l t w h wf md fl s) /\
  same_mode s (epdc_refresh_area l t w h wf md fl s).
Proof.
  intros Hg. pose proof Hg as [? ? ?]. unfold epdc_refresh_area.
  destruct (fb_open s); [|by split]. cbv zeta. destruct (_ || _); [by split|]. by split; split.
Qed.

Lemma out_good l s : good m0 s -> good m0 (out l s).
Proof. intros [[? ? ?] ?]. split; [by split|done]. Qed.

Lemma draw_quiet x y w h f s :
  confined panel x y w h f ->
  (osk_active s = false -> forall i, in_box panel x y w h i -> ~ in_osk_rows i) ->
  core m0 s -> quiet m0 s (draw f s).
Proof.
  intros Hf Hout Hg. pose proof Hg as [Hfb Hbk Hu]. unfold draw.
  destruct (fb s) as [m|] eqn:Em; [|by apply quiet_ret].
  destruct Hfb as [Hn Hrows].
  destruct (Hf m) as (m' & -> & Hn' & Hi); [unfold geom_ok, panel, panel_words in *; cbn; lia|].
  cbn [mbind option_bind]. apply quiet_ret; [|by split]. split; cbn; [|done|done].
  split; [congruence|]. intros Ha i Hin. rewrite Hi; [by apply Hrows|].
  intros Hbox. by apply (Hout Ha i).
Qed.

Lemma redraw_url_bar_quiet s : core m0 s -> quiet m0 s (redraw_url_bar s).
Proof.
  intros Hg. unfold redraw_url_bar, draw_url_bar_overlay. apply quiet_bind.
  - eapply draw_quiet; [apply confined_url_bar; by destruct (g_url _ _ Hg)| |done].
    intros _ i. unfold in_box, OSK_Y. lia.
  - intros s' Hg' Hm. destruct (refresh_good 145 6 1175 58 WAVEFORM_MODE_DU UPDATE_MODE_PARTIAL
      EPDC_FLAG_FORCE_MONOCHROME s' Hg'). apply quiet_ret; [done|by etransitivity].
Qed.

(** The preview is only drawn while the keyboard is up. *)
Lemma preview_quiet s : core m0 s -> osk_active s = true -> quiet m0 s (draw_osk_input_preview s).
Proof.
  intros Hg Ha. eapply draw_quiet; [apply confined_preview; by destruct (g_url _ _ Hg)| |done].
  by rewrite Ha.
Qed.

(** ** The keyboard *)
Abbreviation rekeyed s := (s {{ osk_keys := build_osk_layout (russian s) }}).

Lemma draw_osk_quiet s : core m0 s -> osk_active s = true -> quiet m0 (rekeyed s) (draw_osk s).
Proof.
  intros Hg Ha. unfold draw_osk. cbv zeta. set (s1 := rekeyed s).
  assert (core m0 s1) as Hg1 by by destruct Hg.
  assert (osk_keys s1 = build_osk_layout (russian s)) as Hks by done.
  assert (osk_active s1 = true) as Ha1 by done. clearbody s1.
  assert (forall f s2, core m0 s2 -> same_mode s1 s2 -> osk_confined f -> quiet m0 s1 (draw f s2))
    as Hstep.
  { intros f s2 Hg2 Hm2 Hf. destruct (draw_quiet 0 OSK_Y OSK_W OSK_H f s2 Hf) as (s3 & -> & Hg3 & Hm3);
      [by rewrite (sm_active _ _ Hm2), Ha1|done|]. apply quiet_ret; [done|by etransitivity]. }
  apply quiet_bind.
  { apply Hstep; [done|done|]. apply confined_draws. unfold OSK_Y, OSK_W, OSK_H. confines. }
  intros s2 Hg2 Hm2. apply quiet_bind.
  { unfold draw_osk_input_preview. apply Hstep; [done|done|]. apply confined_preview. by destruct Hg2 as [_ _ []]. }
  intros s3 Hg3 Hm3. unfold draw_keys. apply Hstep; [done|done|].
  rewrite (sm_keys _ _ Hm3), Hks. apply confined_keys.
Qed.

Lemma refresh_osk_quiet s : core m0 s -> osk_active s = true -> quiet m0 (rekeyed s) (refresh_osk s).
Proof.
  intros Hg Ha. unfold refresh_osk. apply quiet_bind; [by apply draw_osk_quiet|].
  intros s' Hg' Hm. destruct (refresh_good 0 OSK_Y OSK_W OSK_H WAVEFORM_MODE_GC16
    UPDATE_MODE_PARTIAL 0 s' Hg'). apply quiet_ret; [done|by etransitivity].
Qed.

Lemma rekeyed_fine s r : quiet m0 (rekeyed s) r -> fine m0 r.
Proof.
  intros (s' & -> & Hs & [H1 H2 _ _ _ _ _ _ H3]). exists s'. split; [done|]. split; [done|].
  intros _. by rewrite H3, H2.
Qed.

Lemma osk_box_ok : box_ok panel 0 OSK_Y 1408 OSK_H.
Proof. unfold box_ok, OSK_Y, OSK_H. cbn. lia. Qed.

Lemma panel_ok m : nwords m = panel_words -> geom_ok panel m.
Proof. unfold geom_ok, panel_words. cbn. lia. Qed.

Lemma holds_agree m bk :
  (forall i, in_osk_rows i -> words m i = words m0 i) ->
  holds_box panel 0 OSK_Y 1408 OSK_H m bk -> holds_box panel 0 OSK_Y 1408 OSK_H m0 bk.
Proof.
  intros Ha Hh r c Hr Hc. rewrite Hh by done. apply Ha.
  destruct (pixel_index panel c (OSK_Y + r)) as [E1 E2]; [cbn; lia|cbn; lia|].
  unfold in_box. rewrite <- Z.add_assoc, Z.add_0_l, E1, E2. lia.
Qed.

(** Showing succeeds and keeps the page in the backup. *)
Lemma show_osk_fine s : good m0 s ->
  exists s', show_osk heap s = Some s' /\ good m0 s' /\ russian s' = russian s /\ url s' = url s /\
    url_bar_focused s' = url_bar_focused s /\ outs s' = outs s /\ touch_down s' = touch_down s /\
    (fb s <> None -> osk_active s' = true).
Proof.
  intros Hg. pose proof Hg as [[Hfb Hbk Hu] Hk]. unfold show_osk.
  destruct (osk_active s) eqn:Ha; [by exists s|]. destruct (fb s) as [m|] eqn:Em; [|by exists s].
  destruct Hfb as [Hn Hrows].
  set (s1 := alloc_backup heap s).
  assert (exists bk, osk_backup s1 = Some bk /\ nwords bk = backup_words /\
            s1 = s {{ osk_backup := Some bk }}) as (bk & Eb & Hbn & E1).
  { unfold s1, alloc_backup. destruct (osk_backup s) as [bk|] eqn:Eb.
    - exists bk. destruct s; cbn in *; subst. by destruct Hbk.
    - destruct Hheap as [ws ->]. by eexists. }
  rewrite Eb. clearbody s1. subst s1.
  destruct (save_rows_spec panel 0 OSK_Y 1408 OSK_H m bk) as (bk' & -> & Hbn' & Hh);
    [by apply panel_ok|apply osk_box_ok|rewrite Hbn; unfold backup_words; lia|].
  cbn [mbind option_bind].
  set (s2 := _ {{ osk_active := true; clip_h := OSK_Y }}).
  assert (core m0 s2) as Hg2.
  { split.
    - change (fb s2) with (fb s). rewrite Em. split; [done|]. by change (osk_active s2) with true.
    - change (osk_backup s2) with (Some bk'). split; [congruence|]. intros _.
      apply (holds_agree m); [by apply Hrows|done].
    - done. }
  destruct (refresh_osk_quiet s2 Hg2 eq_refl) as (s3 & E & Hg3 & Hm3). exists s3.
  destruct Hm3 as [H1 H2 _ _ H3 H4 H5 H6 H7].
  split_and!; [exact E|split; [done|intros _; by rewrite H7, H2]|by rewrite H2|by rewrite H4|by rewrite H3|by rewrite H5|by rewrite H6|].
  intros _. by rewrite H1.
Qed.

Lemma hide_osk_fine s : good m0 s ->
  exists s', hide_osk s = Some s' /\ good m0 s' /\ osk_active s' = false /\ russian s' = russian s /\
    url s' = url s /\ url_bar_focused s' = url_bar_focused s /\ outs s' = outs s /\
    touch_down s' = touch_down s.
Proof.
  intros Hg. pose proof Hg as [[Hfb Hbk Hu] Hk]. unfold hide_osk.
  destruct (osk_active s) eqn:Ha; [|by exists s].
  destruct (fb s) as [m|] eqn:Em; [|congruence]. destruct Hfb as [Hn _].
  change (osk_backup (s {{ clip_h := 1872 }})) with (osk_backup s).
  destruct (osk_backup s) as [bk|] eqn:Eb; [|congruence]. destruct Hbk as [Hbn Hh].
  destruct (restore_holds panel 0 OSK_Y 1408 OSK_H m0 m bk) as (m' & -> & Hn' & Hi);
    [by apply panel_ok|apply osk_box_ok|rewrite Hbn; unfold backup_words; lia|by apply Hh|].
  cbn [mbind option_bind]. set (s2 := _ {{ osk_active := false }}).
  assert (core m0 s2) as Hg2.
  { split.
    - change (fb s2) with (Some m'). split; [congruence|]. intros _ i Hin. rewrite Hi.
      by rewrite decide_True.
    - change (osk_backup s2) with (osk_backup s). rewrite Eb. split; [done|].
      by change (osk_active s2) with false.
    - done. }
  destruct (refresh_good 0 OSK_Y OSK_W OSK_H WAVEFORM_MODE_GC16 UPDATE_MODE_FULL 0 s2 Hg2)
    as [Hg3 [H1 H2 _ _ H3 H4 H5 H6 _]].
  exists (epdc_refresh_area 0 OSK_Y OSK_W OSK_H WAVEFORM_MODE_GC16 UPDATE_MODE_FULL 0 s2).
  split; [reflexivity|].
  split_and!; [split; [exact Hg3|intros Hx; by rewrite H1 in Hx]|by rewrite H1|by rewrite H2|by rewrite H4|by rewrite H3|by rewrite H5|by rewrite H6].
Qed.

(** ** Keys of the English layout *)
Definition fine2 (r : option (sdl * bool)) : Prop :=
  exists s' b, r = Some (s', b) /\ good m0 s' /\ (b = false -> osk_active s' = true).

Lemma fine2_bind r f : fine m0 r -> (forall s, good m0 s -> fine2 (f s)) -> fine2 (r ≫= f).
Proof. intros (s & -> & Hs) Hf. by apply Hf. Qed.

Lemma set_url_good u s : good m0 s -> ascii u -> strlen u <= 1023 -> good m0 (s {{ url := u }}).
Proof. intros [[? ? ?] ?] Ha Hl. split; [by split|done]. Qed.

Lemma redraw_preview_quiet s : core m0 s -> osk_active s = true -> quiet m0 s (redraw_preview s).
Proof.
  intros Hg Ha. unfold redraw_preview. apply quiet_bind; [by apply preview_quiet|].
  intros s' Hg' Hm. destruct (refresh_good 202 1275 1000 46 WAVEFORM_MODE_DU UPDATE_MODE_PARTIAL
    EPDC_FLAG_FORCE_MONOCHROME s' Hg'). apply quiet_ret; [done|by etransitivity].
Qed.

Lemma redraw_url_quiet s : core m0 s -> osk_active s = true -> quiet m0 s (redraw_url s).
Proof.
  intros Hg Ha. unfold redraw_url. apply quiet_bind; [by apply redraw_preview_quiet|].
  intros s' Hg' Hm. destruct (redraw_url_bar_quiet s' Hg') as (s2 & -> & Hg2 & Hm2).
  apply quiet_ret; [done|by etransitivity].
Qed.

(** A quiet step from an updated state keeps the invariant and the mode. *)
Lemma quiet_good s r :
  quiet m0 s r -> keyed s ->
  exists s', r = Some s' /\ good m0 s' /\ osk_active s' = osk_active s /\ russian s' = russian s.
Proof.
  intros (s' & -> & Hs & Hm) Hk. exists s'. split_and!; [done|split; [done|by eapply same_keyed]|..];
    by destruct Hm.
Qed.

Lemma key_redraw_fine s : core m0 s -> osk_active s = true -> fine2 (key_redraw s).
Proof.
  intros Hg Ha. unfold key_redraw. destruct (rekeyed_fine s _ (refresh_osk_quiet s Hg Ha)) as (s' & -> & Hg').
  by exists s', true.
Qed.

(** Appending to the URL and showing it. *)
Lemma url_append_fine t s :
  good m0 s -> osk_active s = true -> ascii t -> strlen (url s) + strlen t <= 1023 ->
  exists s', (s1 ← url_cat t s; redraw_url s1) = Some s' /\ good m0 s' /\ osk_active s' = true /\
    russian s' = russian s.
Proof.
  intros Hg Ha Ht Hl. unfold url_cat, URL_SIZE. rewrite (proj2 (Z.ltb_lt _ _)) by lia.
  cbn [mbind option_bind].
  assert (good m0 (s {{ url := url s ++ t }})) as [Hc Hk].
  { apply set_url_good; [done| |].
    - apply ascii_app. split; [|done]. by destruct Hg as [[_ _ []] _].
    - unfold strlen in *. rewrite length_app. lia. }
  destruct (quiet_good _ _ (redraw_url_quiet _ Hc Ha) Hk) as (s' & -> & Hg' & Ha' & Hr').
  exists s'. split_and!; [done|done|by rewrite Ha'|done].
Qed.

Lemma foldM_some {A B} (f : A -> B -> option A) l a :
  (forall a b, exists a', f a b = Some a') -> exists a', foldM f l a = Some a'.
Proof.
  intros Hf. revert a. induction l as [|b l IH]; intros a; [by exists a|]. cbn.
  destruct (Hf a b) as [a' ->]. apply IH.
Qed.

(** Typing an ASCII text always works. *)
Lemma type_text_ascii p t rest : ascii t -> exists l, type_text p (t ++ 0 :: rest) = Some l.
Proof.
  intros Ht. unfold type_text. rewrite (utf8_iter_decodes _ _ _ _ (decodes_ascii t rest Ht)).
  apply foldM_some. intros l c. destruct (_ || _); by eexists.
Qed.

Lemma skip_spaces_ascii u : ascii u -> ascii (skip_spaces u).
Proof. induction 1 as [|c u Hc Hu IH]; cbn; [by apply Forall_nil_2|]. destruct (c =? 32); [done|]. by apply Forall_cons_2. Qed.

Lemma enter_target_ascii u :
  ascii u -> exists t, enter_target u = t ++ [0] /\ ascii t /\ strlen t <= 1023.
Proof.
  intros Hu%skip_spaces_ascii. unfold enter_target, snprintf.
  set (v := skip_spaces u) in *.
  set (q := map (fun c => if c =? 32 then 43 else c) (take 1022 v)).
  assert (ascii q) as Hq.
  { unfold q, ascii. rewrite Forall_map. apply (Forall_impl _ _ _ (ascii_take 1022 v Hu)).
    intros c Hc. cbn. destruct (c =? 32); lia. }
  destruct (_ || _); eexists; (split; [reflexivity|]).
  - split; [|unfold strlen; rewrite length_take; lia].
    apply ascii_take, ascii_app. split; [by apply ascii_compute|done].
  - split; [by apply ascii_take|]. unfold strlen. rewrite length_take. lia.
Qed.

Lemma ascii_removelast u : ascii u -> ascii (removelast u).
Proof.
  induction 1 as [|c u Hc Hu IH]; [by apply Forall_nil_2|]. cbn.
  destruct u; [by apply Forall_nil_2|]. by apply Forall_cons_2.
Qed.

Lemma removelast_length {A} (l : list A) : (length (removelast l) <= length l)%nat.
Proof. induction l as [|a [|b l] IH]; cbn in *; lia. Qed.

Definition ascii_key (k : OSKKey) : bool :=
  match action k with
  | ACT_CHAR => forallb (fun c => (0 <? c) && (c <? 128)) [unicode_norm k; unicode_shift k; unicode_sym k]
  | _ => true
  end.

Lemma english_keys k : k ∈ build_osk_layout false -> ascii_key k = true.
Proof.
  assert (forallb ascii_key (build_osk_layout false) = true) as H by (vm_compute; reflexivity).
  by apply forallb_In.
Qed.

(** A key that appends text and then only queues events. *)
Lemma key_append_fine (c : bool) t l s :
  good m0 s -> osk_active s = true -> ascii t ->
  (c = true -> strlen (url s) + strlen t <= 1023) ->
  exists s', (s ← (if c then s ← url_cat t s; redraw_url s else Some s);
              Some (out l s, false)) = Some (s', false) /\ good m0 s' /\ osk_active s' = true.
Proof.
  intros Hg Ha Ht Hl. destruct c.
  - destruct (url_append_fine t s Hg Ha Ht (Hl eq_refl)) as (s' & E & Hg' & Ha' & _).
    rewrite E. exists (out l s'). split_and!; [done|by apply out_good|done].
  - exists (out l s). split_and!; [done|by apply out_good|done].
Qed.

Lemma key_clear_fine s : good m0 s -> osk_active s = true -> fine2 (key_clear s).
Proof.
  intros Hg Ha. unfold key_clear. cbv zeta.
  set (s1 := if url_bar_focused s then s {{ url := [] }} else s).
  assert (good m0 s1 /\ osk_active s1 = true /\ url_bar_focused s1 = url_bar_focused s) as (Hg1 & Ha1 & Hf1).
  { unfold s1. destruct (url_bar_focused s) eqn:E; [|done]. split_and!; [|done..].
    apply set_url_good; [done|by apply Forall_nil_2|done]. }
  clearbody s1. destruct Hg1 as [Hc1 Hk1].
  destruct (quiet_good _ _ (redraw_preview_quiet s1 Hc1 Ha1) Hk1) as (s2 & -> & Hg2 & Ha2 & _).
  cbn [mbind option_bind]. destruct (url_bar_focused s2).
  - destruct (quiet_good _ _ (redraw_url_bar_quiet s2 (proj1 Hg2)) (proj2 Hg2)) as (s3 & -> & Hg3 & Ha3 & _).
    eexists _, _. split; [reflexivity|]. split; [by apply out_good|]. intros _.
    change (osk_active s3 = true). congruence.
  - eexists _, _. split; [reflexivity|]. split; [by apply out_good|]. intros _.
    change (osk_active s2 = true). congruence.
Qed.

Lemma key_backspace_fine s : good m0 s -> osk_active s = true -> fine2 (key_backspace s).
Proof.
  intros Hg Ha. unfold key_backspace. destruct (_ && _).
  - assert (good m0 (s {{ url := removelast (url s) }})) as [Hc Hk].
    { destruct (g_url _ _ (proj1 Hg)) as [Hu Hl]. apply set_url_good; [done|by apply ascii_removelast|].
      unfold strlen in *. pose proof (removelast_length (url s)). lia. }
    destruct (quiet_good _ _ (redraw_url_quiet _ Hc Ha) Hk) as (s' & -> & Hg' & Ha' & _).
    eexists _, _. split; [reflexivity|]. split; [by apply out_good|]. intros _.
    change (osk_active s' = true). by rewrite Ha'.
  - eexists _, _. split; [reflexivity|]. split; [by apply out_good|done].
Qed.

Lemma key_enter_fine s : good m0 s -> fine2 (key_enter s).
Proof.
  intros Hg. unfold key_enter. apply fine2_bind.
  - destruct (_ && _); [|by apply fine_ret]. cbv zeta.
    destruct (enter_target_ascii (url s)) as (t & -> & Ht & Hl); [by destruct (g_url _ _ (proj1 Hg))|].
    rewrite (to_nul_ascii t []) by done. unfold url_copy.
    assert (good m0 (s {{ url := take 1023 t }})) as [Hc Hk].
    { apply set_url_good; [done|by apply ascii_take|]. unfold strlen. rewrite length_take. lia. }
    destruct (quiet_good _ _ (redraw_url_bar_quiet _ Hc) Hk) as (s1 & -> & Hg1 & _).
    cbn [mbind option_bind]. destruct (type_text_ascii 800 t [] Ht) as [l ->].
    eexists. split; [reflexivity|]. by apply out_good.
  - intros s1 Hg1. destruct (hide_osk_fine (out (osk_inject_key SDLK_RETURN 13) s1))
      as (s2 & -> & Hg2 & _); [by apply out_good|]. by exists s2, true.
Qed.

Lemma key_char_fine k s :
  good m0 s -> osk_active s = true -> ascii_key k = true -> action k = ACT_CHAR -> fine2 (key_char k s).
Proof.
  intros Hg Ha Hk Hact. unfold key_char. cbv zeta.
  set (cp := if osk_symbols s then _ else _).
  assert (0 < cp < 128) as Hcp.
  { unfold ascii_key in Hk. rewrite Hact in Hk. cbn in Hk. unfold cp.
    destruct (osk_symbols s), (osk_shift s); bprop; lia. }
  assert (to_nul (encode_cp cp) = [cp]) as ->.
  { unfold encode_cp. rewrite (proj2 (Z.ltb_lt _ _)) by lia. cbn.
    by rewrite (proj2 (Z.eqb_neq _ _)) by lia. }
  clearbody cp. set (l := osk_inject_key _ cp).
  destruct (key_append_fine (url_bar_focused s && (strlen (url s) <? URL_SIZE - 6)) [cp] l s Hg Ha)
    as (s1 & E & Hg1 & Ha1).
  { by apply Forall_cons_2. }
  { intros Hb. bprop. unfold URL_SIZE, strlen in *. cbn. lia. }
  destruct (if _ : bool then _ else _) as [s0|] eqn:E0 in E |- *; [|done]. cbn [mbind option_bind] in *.
  injection E as <-. destruct (osk_shift _).
  - apply key_redraw_fine; [|done]. destruct Hg1 as [[? ? ?] ?]. by split.
  - eexists _, _. split; [reflexivity|]. by split.
Qed.

Lemma key_action_fine k s :
  good m0 s -> osk_active s = true -> k ∈ build_osk_layout false -> fine2 (key_action k s).
Proof.
  intros Hg Ha Hk%english_keys. unfold key_action. destruct (action k) eqn:E.
  - by apply key_char_fine.
  - by apply key_backspace_fine.
  - by apply key_enter_fine.
  - unfold key_space. destruct (key_append_fine (url_bar_focused s && (strlen (url s) <? URL_SIZE - 2))
      (cstr " ") (osk_inject_key SDLK_SPACE 32) s Hg Ha) as (s' & -> & Hg' & Ha').
    + by apply ascii_compute.
    + intros Hb. bprop. unfold URL_SIZE, strlen in *. cbn. lia.
    + by exists s', false.
  - apply key_redraw_fine; [|done]. destruct Hg as [[? ? ?] _]. by split.
  - apply key_redraw_fine; [|done]. destruct Hg as [[? ? ?] _]. by split.
  - apply key_redraw_fine; [|done]. destruct Hg as [[? ? ?] _]. by split.
  - destruct (hide_osk_fine s Hg) as (s' & -> & Hg' & _). by exists s', true.
  - by apply key_clear_fine.
  - unfold key_dotcom. cbv zeta. set (ext := if russian s then cstr ".ru" else cstr ".com").
    destruct (key_append_fine (url_bar_focused s && (strlen (url s) <? URL_SIZE - 6)) ext
      (concat (map (fun c => osk_inject_key c c ++ [Sleep 2000]) ext)) s Hg Ha) as (s' & -> & Hg' & Ha').
    + unfold ext. destruct (russian s); by apply ascii_compute.
    + intros Hb. bprop. unfold URL_SIZE, strlen, ext in *. destruct (russian s); cbn; lia.
    + by exists s', false.
Qed.

Lemma draw_one_key_quiet k p ru s :
  core m0 s -> osk_active s = true -> k ∈ build_osk_layout ru -> quiet m0 s (draw_one_key k p s).
Proof.
  intros Hg Ha Hk. unfold draw_one_key. apply quiet_bind.
  - eapply draw_quiet; [by eapply osk_confined_key|by rewrite Ha|done].
  - intros s' Hg' Hm. destruct (refresh_good (kx k) (ky k) (kw k) (kh k) WAVEFORM_MODE_DU
      UPDATE_MODE_PARTIAL EPDC_FLAG_FORCE_MONOCHROME s' Hg'). apply quiet_ret; [done|by etransitivity].
Qed.

Lemma handle_osk_touch_fine x y s :
  good m0 s -> osk_active s = true -> russian s = false -> fine m0 (handle_osk_touch x y s).
Proof.
  intros Hg Ha Hr. unfold handle_osk_touch.
  destruct (key_at x y (osk_keys s)) as [k|] eqn:Ek; [|by apply fine_ret].
  assert (k ∈ build_osk_layout false) as Hk.
  { apply find_some in Ek as [Hin _]. apply list_elem_of_In in Hin.
    by rewrite (proj2 Hg Ha), Hr in Hin. }
  destruct (quiet_good _ _ (draw_one_key_quiet k true false s (proj1 Hg) Ha Hk) (proj2 Hg))
    as (s1 & -> & Hg1 & Ha1 & Hr1). cbn [mbind option_bind].
  destruct (key_action_fine k s1 Hg1) as (s2 & b & -> & Hg2 & Hb); [congruence|done|].
  cbn [mbind option_bind]. destruct b; [by apply fine_ret|].
  specialize (Hb eq_refl). pose proof (out_good [Sleep 40000] s2 Hg2) as [Hc3 Hk3].
  eapply quiet_fine; [split; done|]. by eapply draw_one_key_quiet.
Qed.

(** ** FIFO commands *)
Lemma end_token_ascii l : ascii l -> exists t rest, end_token (l ++ [0]) = t ++ 0 :: rest /\ ascii t.
Proof.
  induction 1 as [|c l Hc Hl IH]; cbn [app end_token].
  - exists [], []. split; [done|by apply Forall_nil_2].
  - destruct (is_newline c); [exists [], (l ++ [0]); split; [done|by apply Forall_nil_2]|].
    rewrite (proj2 (Z.eqb_neq c 0)) by lia. destruct IH as (t & rest & -> & Ht).
    exists (c :: t), rest. split; [done|by apply Forall_cons_2].
Qed.

Lemma fifo_lines_ascii skip l cmd :
  ascii l -> cmd ∈ fifo_lines skip (l ++ [0]) -> exists t rest, cmd = t ++ 0 :: rest /\ ascii t.
Proof.
  intros Hl. revert skip. induction Hl as [|c l Hc Hl IH]; intros skip; cbn [app fifo_lines].
  - by intros ?%not_elem_of_nil.
  - rewrite (proj2 (Z.eqb_neq c 0)) by lia. destruct (is_newline c); [apply IH|].
    destruct skip; [|apply IH]. intros [->|H]%elem_of_cons; [|by eapply IH].
    apply (end_token_ascii (c :: l)). by apply Forall_cons_2.
Qed.

Lemma starts_with_token p t rest :
  forallb (fun c => negb (c =? 0)) p = true -> starts_with p (t ++ 0 :: rest) = true ->
  exists t', t = p ++ t'.
Proof.
  revert t. induction p as [|a p IH]; intros t; cbn; [by exists t|].
  intros [Ha Hp]%andb_true_iff. destruct t as [|b t]; cbn [app].
  - apply negb_true_iff in Ha. by rewrite Ha.
  - intros [->%Z.eqb_eq H]%andb_true_iff. destruct (IH t Hp H) as [t' ->]. by exists t'.
Qed.

Lemma focus_url_fine s : good m0 s -> fine m0 (focus_url heap s).
Proof.
  intros Hg. unfold focus_url.
  destruct (show_osk_fine (out (simulate_click 300 35 ++ osk_inject_key SDLK_END 0)
              (s {{ url_bar_focused := true }}))) as (s' & E & Hg' & _); [|by exists s'].
  apply out_good. destruct Hg as [[? ? ?] ?]. split; [by split|done].
Qed.

Lemma toggle_osk_fine s : good m0 s -> fine m0 (toggle_osk heap s).
Proof.
  intros Hg. unfold toggle_osk. destruct (osk_active s).
  - destruct (hide_osk_fine s Hg) as (s' & E & Hg' & _). by exists s'.
  - destruct (show_osk_fine s Hg) as (s' & E & Hg' & _). by exists s'.
Qed.

(** A mode change, redrawn if the keyboard is up. *)
Lemma redraw_if_active_fine s s1 :
  good m0 s -> core m0 s1 -> osk_active s1 = osk_active s -> fine m0 (redraw_if_active s1).
Proof.
  intros Hg Hc Ha. unfold redraw_if_active. destruct (osk_active s1) eqn:E.
  - apply (rekeyed_fine s1). by apply refresh_osk_quiet.
  - exists s1. split; [done|]. split; [done|]. unfold keyed. by rewrite E.
Qed.

Lemma fifo_key_fine k s : good m0 s -> fine m0 (fifo_key heap k s).
Proof.
  intros Hg. unfold fifo_key. cbv zeta.
  do 7 (match goal with |- fine _ (if ?b then _ else _) => destruct b end;
        [by apply fine_ret, out_good|]).
  match goal with |- fine _ (if ?b then _ else _) => destruct b end; [by apply toggle_osk_fine|].
  do 3 (match goal with |- fine _ (if ?b then _ else _) => destruct b end;
        [apply (redraw_if_active_fine s); [done| |done]; destruct Hg as [[? ? ?] _]; by split|]).
  match goal with |- fine _ (if ?b then _ else _) => destruct b end; [by apply fine_ret, out_good|].
  match goal with |- fine _ (if ?b then _ else _) => destruct b end; [by apply focus_url_fine|].
  by apply fine_ret.
Qed.

Lemma fifo_text_fine t rest s : good m0 s -> ascii t -> fine m0 (fifo_text (t ++ 0 :: rest) s).
Proof.
  intros Hg Ht. unfold fifo_text. rewrite (to_nul_ascii t rest Ht).
  destruct (type_text_ascii 2000 t rest Ht) as [l El].
  apply fine_bind.
  - destruct (Z.ltb_spec (strlen (url s) + strlen t) (URL_SIZE - 1)); [|by apply fine_ret].
    unfold url_cat, URL_SIZE in *. rewrite (proj2 (Z.ltb_lt _ _)) by lia. cbn [mbind option_bind].
    assert (good m0 (s {{ url := url s ++ t }})) as [Hc Hk].
    { apply set_url_good; [done| |unfold strlen in *; rewrite length_app; lia].
      apply ascii_app. split; [|done]. by destruct (g_url _ _ (proj1 Hg)). }
    eapply quiet_fine; [by split|]. by apply redraw_url_bar_quiet.
  - intros s1 _ Hg1. rewrite El. by apply fine_ret, out_good.
Qed.

Lemma fifo_url_fine t rest s : good m0 s -> ascii t -> fine m0 (fifo_url (t ++ 0 :: rest) s).
Proof.
  intros Hg Ht. unfold fifo_url. rewrite (to_nul_ascii t rest Ht). unfold url_copy.
  destruct (type_text_ascii 800 t rest Ht) as [l El].
  apply fine_bind; [|intros s1 _ Hg1; rewrite El; by apply fine_ret, out_good].
  assert (good m0 (s {{ url := take 1023 t }})) as [Hc Hk].
  { apply set_url_good; [done|by apply ascii_take|]. unfold strlen. rewrite length_take. lia. }
  eapply quiet_fine; [by split|]. by apply redraw_url_bar_quiet.
Qed.

Lemma handle_fifo_command_fine t rest s :
  good m0 s -> ascii t -> fine m0 (handle_fifo_command heap (t ++ 0 :: rest) s).
Proof.
  intros Hg Ht. unfold handle_fifo_command.
  destruct (starts_with (cstr "KEY:") _); [by apply fifo_key_fine|].
  destruct (starts_with (cstr "TEXT:") _) eqn:E1.
  { destruct (starts_with_token (cstr "TEXT:") t rest eq_refl E1) as [t' ->].
    apply ascii_app in Ht as [_ Ht]. change (drop 5 _) with (t' ++ 0 :: rest). by apply fifo_text_fine. }
  destruct (starts_with (cstr "URL:") _) eqn:E2.
  { destruct (starts_with_token (cstr "URL:") t rest eq_refl E2) as [t' ->].
    apply ascii_app in Ht as [_ Ht]. change (drop 4 _) with (t' ++ 0 :: rest). by apply fifo_url_fine. }
  destruct (starts_with (cstr "CLICK:") _); [|by apply fine_ret].
  unfold fifo_click. destruct (scan_two _) as [[cx cy]|]; [|by apply fine_ret].
  apply fine_ret, out_good. destruct (75 <=? cy); [|done]. destruct Hg as [[? ? ?] ?]. split; [by split|done].
Qed.

Lemma handle_fifo_fine data s : good m0 s -> ascii data -> fine m0 (handle_fifo heap data s).
Proof.
  intros Hg Hd. unfold handle_fifo.
  assert (forall cmd, cmd ∈ fifo_lines true (take 255 data ++ [0]) ->
            exists t rest, cmd = t ++ 0 :: rest /\ ascii t) as Hc
    by (intros cmd; apply fifo_lines_ascii; by apply ascii_take).
  revert s Hg. induction (fifo_lines true (take 255 data ++ [0])) as [|cmd l IH]; intros s Hg;
    [by apply fine_ret|]. cbn [foldM].
  destruct (Hc cmd) as (t & rest & -> & Ht); [by left|].
  destruct (handle_fifo_command_fine t rest s Hg Ht) as (s1 & -> & Hg1). apply IH; [|done].
  intros c Hin. apply Hc. by right.
Qed.

(** ** Keys and touches *)
Lemma handle_key_fine ev s : good m0 s -> fine m0 (handle_key heap ev s).
Proof.
  intros Hg. unfold handle_key. destruct (_ && _); [|by apply fine_ret].
  destruct (ev_code ev =? 191); [by apply fine_ret, out_good|].
  destruct (ev_code ev =? 192); [by apply fine_ret, out_good|].
  destruct (ev_code ev =? 193).
  { destruct (osk_active s); [|by apply fine_ret, out_good].
    destruct (hide_osk_fine s Hg) as (s' & E & Hg' & _). by exists s'. }
  destruct (ev_code ev =? 194); [by apply toggle_osk_fine|].
  destruct (ev_code ev =? 102); [by apply focus_url_fine|by apply fine_ret].
Qed.

Lemma set_touch_good b s : good m0 s -> good m0 (s {{ touch_down := b }}).
Proof. intros [[? ? ?] ?]. split; [by split|done]. Qed.

Lemma set_last_good x y s : good m0 s -> good m0 (s {{ last_touch_x := x; last_touch_y := y }}).
Proof. intros [[? ? ?] ?]. split; [by split|done]. Qed.

Lemma browser_touch_good d x y s : good m0 s -> good m0 (browser_touch d x y s).
Proof.
  intros Hg. unfold browser_touch. cbv zeta.
  set (s1 := if 75 <=? y then _ else s).
  assert (good m0 s1) as Hg1.
  { unfold s1. destruct (75 <=? y); [|done]. destruct Hg as [[? ? ?] ?]. split; [by split|done]. }
  clearbody s1.
  apply set_last_good. destruct (_ && _); [by apply out_good, set_touch_good|].
  destruct (_ && _); [by apply out_good, set_touch_good|].
  destruct (_ && _); [by apply out_good|done].
Qed.

(** A touch report: the state, whatever the loop does next. *)
Lemma handle_report_fine w s :
  good m0 s -> (osk_active s = true -> russian s = false) ->
  exists s' c, handle_report heap w s = Some (s', c) /\ good m0 s'.
Proof.
  intros Hg Hr. unfold handle_report. cbv zeta.
  set (x := clamp 1404 _). set (y := clamp 1872 _). destruct (osk_active s) eqn:Ha.
  - unfold osk_touch. destruct (OSK_Y <=? y).
    + destruct (_ && _).
      * destruct (handle_osk_touch_fine x y (s {{ touch_down := true }})) as (s' & -> & Hg');
          [by apply set_touch_good|done|by apply Hr|]. by exists s', true.
      * destruct (_ && _); eexists _, _; (split; [reflexivity|]); [by apply set_touch_good|done].
    + destruct (_ && _).
      * destruct (hide_osk_fine s Hg) as (s' & -> & Hg' & _). cbn [mbind option_bind].
        eexists _, _. split; [reflexivity|]. destruct (75 <=? y); [apply out_good|]; by apply set_touch_good.
      * destruct (_ && _); eexists _, _; (split; [reflexivity|]);
          [by apply set_touch_good|by apply browser_touch_good].
  - unfold page_touch. destruct (_ && _ && _ && _).
    + destruct (focus_url_fine (s {{ touch_down := true }})) as (s' & -> & Hg'); [by apply set_touch_good|].
      by exists s', true.
    + destruct (_ && _ && _ && _).
      * destruct (show_osk_fine (s {{ touch_down := true }})) as (s' & -> & Hg' & _);
          [by apply set_touch_good|]. by exists s', true.
      * eexists _, _. split; [reflexivity|]. by apply browser_touch_good.
Qed.

Lemma handle_touch_fine ev w s :
  good m0 s -> (osk_active s = true -> russian s = false) ->
  exists w' s' c, handle_touch heap ev w s = Some (w', s', c) /\ good m0 s'.
Proof.
  intros Hg Hr. unfold handle_touch.
  destruct (ev_type ev =? EV_ABS); [repeat (case_match; try (by do 3 eexists))|].
  destruct (_ && _); [by do 3 eexists|]. destruct (_ && _); [|by do 3 eexists].
  destruct (handle_report_fine w s Hg Hr) as (s' & c & -> & Hg'). cbn. by do 3 eexists.
Qed.

Lemma input_step_fine t k f w s :
  good m0 s -> (osk_active s = true -> russian s = false) ->
  (forall data, f = Some data -> ascii data) ->
  exists w' s', input_step heap t k f w s = Some (w', s') /\ good m0 s'.
Proof.
  intros Hg Hr Hf. unfold input_step.
  assert (exists w1 s1 c, match t with Some ev => handle_touch heap ev w s | None => Some (w, s, false) end
            = Some (w1, s1, c) /\ good m0 s1) as (w1 & s1 & c & -> & Hg1).
  { destruct t as [ev|]; [by apply handle_touch_fine|by do 3 eexists]. }
  cbn [mbind option_bind]. destruct c; [by do 2 eexists|].
  assert (fine m0 match k with Some ev => handle_key heap ev s1 | None => Some s1 end) as (s2 & -> & Hg2).
  { destruct k; [by apply handle_key_fine|by apply fine_ret]. }
  cbn [mbind option_bind].
  assert (fine m0 match f with Some d => handle_fifo heap d s2 | None => Some s2 end) as (s3 & -> & Hg3).
  { destruct f as [d|]; [apply handle_fifo_fine; auto|by apply fine_ret]. }
  cbn [mbind option_bind]. by do 2 eexists.
Qed.
End Safe.

(** ** Sessions *)
Definition round : Type := option event * option event * option (list Z).

Fixpoint session (heap : option (Z -> Z)) (l : list round) (w : worker) (s : sdl) :
    option (worker * sdl) :=
  match l with
  | [] => Some (w, s)
  | (t, k, f) :: l' => '(w, s) ← input_step heap t k f w s; session heap l' w s
  end.

(** The keyboard is never up in Russian when a round begins. *)
Fixpoint english (heap : option (Z -> Z)) (l : list round) (w : worker) (s : sdl) : Prop :=
  match l with
  | [] => True
  | (t, k, f) :: l' =>
      (osk_active s = true -> russian s = false) /\
      match input_step heap t k f w s with Some (w, s) => english heap l' w s | None => True end
  end.

Definition ascii_round (r : round) : Prop := forall data, r.2 = Some data -> ascii data.

(** C2: a browsing session in English never goes wrong, and the keyboard gives
    the page back.  Over any interleaving of touches, hardware keys and ASCII
    FIFO commands, no drawing, backup copy, label or URL operation leaves its
    object; the URL stays within its buffer; and whenever the keyboard ends
    hidden, every word of the screen under it is the page's. *)
Theorem keyboard_session_safe heap l w s m0 m :
  is_Some heap -> nwords m0 = panel_words -> fb s = Some m0 -> osk_active s = false ->
  osk_backup s = None -> ascii (url s) -> strlen (url s) <= 1023 ->
  Forall ascii_round l -> english heap l w s ->
  exists w' s', session heap l w s = Some (w', s') /\ strlen (url s') <= 1023 /\
    (osk_active s' = false -> fb s' = Some m -> forall i, in_osk_rows i -> words m i = words m0 i).
Proof.
  intros Hh Hm0 Hfb Ha Hbk Hu Hl Hr He.
  assert (good m0 s) as Hg.
  { split; [split|].
    - rewrite Hfb. by split.
    - by rewrite Hbk.
    - done.
    - unfold keyed. by rewrite Ha. }
  clear Hfb Ha Hbk Hu Hl. revert w s Hg He.
  induction Hr as [|[[t k] f] l Hf Hr IH]; intros w s Hg He; cbn [session].
  - exists w, s. split; [done|]. destruct Hg as [[Hfb _ [_ Hl]] _]. split; [done|].
    intros Ha E. rewrite E in Hfb. by destruct Hfb as [_ Hrows]; apply Hrows.
  - cbn in He. destruct He as [He1 He2].
    destruct (input_step_fine m0 heap Hh t k f w s Hg He1 Hf) as (w1 & s1 & E & Hg1).
    rewrite E in *. cbn [mbind option_bind]. by apply IH.
Qed.

Definition blank_page : fbmem := {| words := fun i => i mod 65536; nwords := panel_words |}.

Lemma keyboard_session_safe_witness :
  let l := [(Some (mkev EV_KEY BTN_TOUCH 1), Some (mkev EV_KEY 194 1), Some (cstr "TEXT:abc"))] in
  exists w' s', session (Some (fun _ => 0)) l (mkworker 0 0 false)
      (sdl_init {{ fb := Some blank_page }}) = Some (w', s') /\ strlen (url s') <= 1023 /\
    (osk_active s' = false -> fb s' = Some blank_page -> forall i, in_osk_rows i ->
       words blank_page i = words blank_page i).
Proof.
  intros l. apply (keyboard_session_safe (Some (fun _ => 0)) l (mkworker 0 0 false)
    (sdl_init {{ fb := Some blank_page }}) blank_page blank_page);
    [by eexists|done|done|done|done|by apply ascii_compute|vm_compute; discriminate| |].
  - apply Forall_cons_2; [|by apply Forall_nil_2]. intros data [= <-]. by apply ascii_compute.
  - split; [done|]. by destruct (input_step _ _ _ _ _ _) as [[? ?]|].
Defined.
