(* ===== verification/SdlBehaviour.v ===== *)
(** * Behaviour of the browser shim

    What the FIFO types, how the browser's updates meet the keyboard, and the
    cases where the shim does something else than it means to. *)

From Stdlib Require Import Ascii String.
From S2P Require Import Prelude CString Input Font Framebuffer SdlText SdlOsk SdlQueue SdlShim.
From S2P Require Import SdlDisplay SdlSafety.

(** ** Typed text *)

(** The key presses of an ASCII text: one down and one up for each character,
    line breaks skipped. *)
Definition typed (pause : Z) (t : list Z) : list action_out :=
  concat (map (fun c => if (c =? 10) || (c =? 13) then []
                        else osk_inject_key (cp_sym c) c ++ [Sleep pause]) t).

Lemma type_text_typed p t rest : ascii t -> type_text p (t ++ 0 :: rest) = Some (typed p t).
Proof.
  intros Ht. unfold type_text. rewrite (utf8_iter_decodes _ _ _ _ (decodes_ascii t rest Ht)).
  assert (forall acc, foldM (fun acc cp => if (cp =? 10) || (cp =? 13) then Some acc
            else Some (acc ++ osk_inject_key (cp_sym cp) cp ++ [Sleep p])) t acc =
            Some (acc ++ typed p t)) as G; [|by rewrite G].
  clear Ht. induction t as [|c t IH]; intros acc; cbn [foldM].
  - by rewrite app_nil_r.
  - unfold typed. cbn [map concat]. destruct (_ || _); rewrite IH; [done|]. by rewrite <- app_assoc.
Qed.

(** The characters the queued key presses carry. *)
Definition unicodes (l : list action_out) : list Z :=
  omap (fun a => match a with Queue (KeyDown _ _ u) => Some u | _ => None end) l.

Lemma unicodes_app l1 l2 : unicodes (l1 ++ l2) = unicodes l1 ++ unicodes l2.
Proof. apply omap_app. Qed.

Lemma unicodes_typed p t :
  ascii t -> Forall (fun c => c <> 10 /\ c <> 13) t -> unicodes (typed p t) = t.
Proof.
  induction 1 as [|c t Hc Ht IH]; intros Hn; [done|]. apply Forall_cons in Hn as [[H1 H2] Hn].
  unfold typed. cbn [map concat]. rewrite (proj2 (Z.eqb_neq c 10)), (proj2 (Z.eqb_neq c 13)) by done.
  cbn [orb]. rewrite unicodes_app. fold (typed p t). rewrite IH by done.
  unfold osk_inject_key. cbn. by rewrite u16_small by (unfold is_u16; lia).
Qed.

(** What a TEXT command does, character by character. *)
Lemma text_command heap m0 t rest s :
  good m0 s -> ascii t -> Forall (fun c => c <> 10 /\ c <> 13) t ->
  exists s' l, handle_fifo_command heap (cstr "TEXT:" ++ t ++ 0 :: rest) s = Some s' /\
    outs s' = outs s ++ l /\ unicodes l = t /\
    length (queued_events l) = (2 * length t)%nat /\
    url s' = (if strlen (url s) + strlen t <? 1023 then url s ++ t else url s).
Proof.
  intros Hg Ht Hn. unfold handle_fifo_command. cbn [starts_with cstr app].
  change (starts_with (cstr "KEY:") (cstr "TEXT:" ++ t ++ 0 :: rest)) with false.
  change (starts_with (cstr "TEXT:") (cstr "TEXT:" ++ t ++ 0 :: rest)) with true.
  change (drop 5 (cstr "TEXT:" ++ t ++ 0 :: rest)) with (t ++ 0 :: rest). cbn [andb].
  unfold fifo_text. rewrite (to_nul_ascii t rest Ht), (type_text_typed 2000 t rest Ht).
  change (URL_SIZE - 1) with 1023.
  assert (exists s1, (if strlen (url s) + strlen t <? 1023 then s1 ← url_cat t s; redraw_url_bar s1 else Some s)
            = Some s1 /\ outs s1 = outs s /\
            url s1 = if strlen (url s) + strlen t <? 1023 then url s ++ t else url s)
    as (s1 & -> & Ho & Hu).
  { destruct (Z.ltb_spec (strlen (url s) + strlen t) 1023); [|by exists s].
    unfold url_cat, URL_SIZE. rewrite (proj2 (Z.ltb_lt _ _)) by lia. cbn [mbind option_bind].
    assert (good m0 (s {{ url := url s ++ t }})) as [Hc _].
    { apply set_url_good; [done| |unfold strlen in *; rewrite length_app; lia].
      apply Forall_app. split; [|done]. by destruct (g_url _ _ (proj1 Hg)). }
    destruct (redraw_url_bar_quiet m0 _ Hc) as (s1 & -> & _ & Hm).
    exists s1. destruct Hm. by split_and!. }
  cbn [mbind option_bind]. exists (out (typed 2000 t) s1), (typed 2000 t).
  split_and!; [done|by cbn; rewrite Ho|by apply unicodes_typed| |done].
  clear -Hn. induction t as [|c t IH]; [done|]. apply Forall_cons in Hn as [[H1 H2] Hn].
  unfold typed, queued_events. cbn [map concat].
  rewrite (proj2 (Z.eqb_neq c 10)), (proj2 (Z.eqb_neq c 13)) by done. cbn [orb].
  rewrite omap_app, length_app. specialize (IH Hn). unfold typed, queued_events in IH. rewrite IH. cbn. lia.
Qed.


(** Text sent through the FIFO is typed exactly.  A TEXT command with ASCII
    text and no line break, on a screen that is not mapped or shows a page,
    queues one press and one release per character, carrying the characters
    of the text in order, and appends the text to the URL if it fits there. *)
Theorem fifo_text_typed_exactly heap m0 t rest s :
  good m0 s -> ascii t -> Forall (fun c => c <> 10 /\ c <> 13) t ->
  exists s' l, handle_fifo_command heap (cstr "TEXT:" ++ t ++ 0 :: rest) s = Some s' /\
    outs s' = outs s ++ l /\ unicodes l = t /\
    length (queued_events l) = (2 * length t)%nat /\
    url s' = (if strlen (url s) + strlen t <? 1023 then url s ++ t else url s).
Proof. apply text_command. Qed.

Lemma fifo_text_typed_exactly_witness :
  exists s' l, handle_fifo_command None (cstr "TEXT:" ++ cstr "Hi.fr" ++ [0]) sdl_init = Some s' /\
    outs s' = [] ++ l /\ unicodes l = cstr "Hi.fr" /\ length (queued_events l) = 10%nat /\
    url s' = cstr "https://lite.duckduckgo.comHi.fr".
Proof.
  apply (fifo_text_typed_exactly None blank_page (cstr "Hi.fr") [] sdl_init).
  - split; [split|done]; [done|done|]. split; [by apply ascii_compute|vm_compute; discriminate].
  - by apply ascii_compute.
  - repeat (apply Forall_cons_2; [cbn; lia|]). by apply Forall_nil_2.
Defined.

(** ** Updates of the browser *)
Lemma draw_same f s s' :
  draw f s = Some s' ->
  requests s' = requests s /\ osk_active s' = osk_active s /\ osk_backup s' = osk_backup s /\
  fb_open s' = fb_open s.
Proof.
  unfold draw. destruct (fb s); [|by intros [= <-]]. destruct (f _); cbn; [|done]. by intros [= <-].
Qed.

Lemma draw_osk_same s s' :
  draw_osk s = Some s' ->
  requests s' = requests s /\ osk_active s' = osk_active s /\ osk_backup s' = osk_backup s.
Proof.
  unfold draw_osk, draw_osk_input_preview, draw_keys. cbv zeta.
  destruct (draw _ (s {{ osk_keys := _ }})) as [s1|] eqn:E1; [|done]. cbn [mbind option_bind].
  destruct (draw _ s1) as [s2|] eqn:E2; [|done]. cbn [mbind option_bind]. intros E3.
  apply draw_same in E1 as (H1 & H1' & H1'' & _), E2 as (H2 & H2' & H2'' & _), E3 as (H3 & H3' & H3'' & _).
  split_and!; [rewrite H3, H2, H1|rewrite H3', H2', H1'|rewrite H3'', H2'', H1'']; done.
Qed.

Lemma save_overdrawn_same y h s s' :
  save_overdrawn y h s = Some s' -> requests s' = requests s /\ fb s' = fb s.
Proof.
  unfold save_overdrawn. destruct (osk_backup s); [|by intros [= <-]].
  destruct (fb s) eqn:E; [|by intros [= <-]]. destruct (foldM _ _ _); cbn; [|done]. by intros [= <-].
Qed.

Lemma clip_rect_range x y w h x' y' w' h' :
  clip_rect x y w h = Some (x', y', w', h') -> 0 <= x' < 1404 /\ 0 <= y' < 1872.
Proof.
  unfold clip_rect. intros Hc. repeat case_match; simplify_eq; bprop; lia.
Qed.

(** A refresh of rows above 1272 stays above 1272. *)
Lemma refresh_above x y w h wf md fl s a :
  0 <= x < 1404 -> 0 <= y < 1872 -> y + h <= 1272 ->
  a ∈ drop (length (requests s)) (requests (epdc_refresh_area x y w h wf md fl s)) ->
  a_top a + a_height a <= 1272.
Proof.
  intros Hx Hy Hh. destruct (refresh_area_cases x y w h wf md fl s) as
    [[-> _]|(a' & -> & _ & _ & _ & _ & _ & _ & Hb & _)]; [lia..| |].
  - rewrite drop_all. by intros ?%not_elem_of_nil.
  - rewrite drop_app_length. intros ->%list_elem_of_singleton. rewrite Hb.
    Z.to_euclidean_division_equations; lia.
Qed.

(** While the keyboard is up, whatever rectangle the browser updates, no
    display request it causes reaches the keyboard's rows. *)
Theorem update_spares_keyboard x y w h s s' a :
  osk_active s = true -> SDL_UpdateRect x y w h s = Some s' ->
  a ∈ drop (length (requests s)) (requests s') -> a_top a + a_height a <= OSK_Y.
Proof.
  intros Ha. unfold SDL_UpdateRect, OSK_Y. destruct (fb_open s); [|intros [= <-]; rewrite drop_all; by intros ?%not_elem_of_nil].
  destruct (clip_rect x y w h) as [[[[x1 y1] w1] h1]|] eqn:Ec;
    [|intros [= <-]; rewrite drop_all; by intros ?%not_elem_of_nil].
  apply clip_rect_range in Ec as [Hx Hy].
  destruct (if _ && _ then draw_url_bar_overlay s else Some s) as [s1|] eqn:E1; [|done]. cbn [mbind option_bind].
  assert (requests s1 = requests s /\ osk_active s1 = true) as [Hr1 Ha1].
  { destruct ((y1 <? 75) && _) in E1; [|by injection E1 as <-]. apply draw_same in E1 as (-> & -> & _). done. }
  assert (forall h' s2, requests s2 = requests s -> y1 + i32 h' <= 1272 ->
            a ∈ drop (length (requests s)) (requests (refresh_page x1 y1 w1 h' s2)) ->
            a_top a + a_height a <= 1272) as Hp.
  { intros h' s2 Hr2 Hb. rewrite <- Hr2. unfold refresh_page.
    destruct (first_full_frame s2 && _ && _); by apply refresh_above. }
  rewrite Ha1. destruct (Z.ltb_spec 1272 (y1 + i32 h1)); cbn [andb].
  - destruct (save_overdrawn y1 (i32 h1) s1) as [s2|] eqn:E2; [|done]. cbn [mbind option_bind].
    destruct (draw_osk s2) as [s3|] eqn:E3; [|done]. cbn [mbind option_bind].
    apply save_overdrawn_same in E2 as [Hr2 _]. apply draw_osk_same in E3 as (Hr3 & _).
    destruct (Z.leb_spec 1272 y1); intros [= <-].
    + rewrite Hr3, Hr2, Hr1, drop_all. by intros ?%not_elem_of_nil.
    + apply Hp; [congruence|]. rewrite i32_small by (unfold is_i32; lia). lia.
  - intros [= <-]. by apply Hp.
Qed.

Lemma update_spares_keyboard_witness :
  let s := sdl_init {{ fb_open := true; osk_active := true }} in
  exists s' a, SDL_UpdateRect 100 900 500 800 s = Some s' /\ requests s' = [a] /\
    a_top a + a_height a <= OSK_Y.
Proof.
  intros s. eexists _, _. split; [vm_compute; reflexivity|]. split; [reflexivity|].
  apply (update_spares_keyboard 100 900 500 800 s _ _ eq_refl ltac:(vm_compute; reflexivity)).
  vm_compute. left.
Defined.

(** ** Where the shim goes wrong *)

(** What the keyboard saves from a browser update is whole rows.  After an
    update that reaches below row 1272 the backup of each such row is the row
    as it is on the screen, in every column, so also outside the updated
    rectangle, where the screen shows the keyboard: hiding the keyboard then
    paints keyboard pixels on the page. *)
Theorem update_saves_keyboard_pixels y h s m bk r c :
  fb s = Some m -> osk_backup s = Some bk -> nwords m = panel_words -> nwords bk = backup_words ->
  0 <= y -> 0 < h -> y + h <= 1872 -> OSK_Y <= r -> y <= r < y + h -> 0 <= c < 1408 ->
  exists s' bk', save_overdrawn y h s = Some s' /\ osk_backup s' = Some bk' /\
    words bk' ((r - OSK_Y) * 1408 + c) = words m (r * 1408 + c).
Proof.
  intros Em Eb Hm Hbk Hy Hh Hyh Hr Hry Hc. unfold save_overdrawn. rewrite Em, Eb.
  unfold OSK_Y, panel_words, backup_words, OSK_H in *. cbv zeta.
  set (a := if 1272 <? y then y else 1272). set (b := if y + h <? 1872 then y + h else 1872).
  assert (a = Z.max 1272 y /\ b = Z.min 1872 (y + h)) as [Ea Eb'] by (unfold a, b; bdestr; lia).
  destruct (foldM_inv
    (fun pre bk' => nwords bk' = 1408 * 600 /\
       forall cy, cy ∈ pre -> words bk' ((cy - 1272) * 1408 + c) = words m (cy * 1408 + c))
    (fun bk cy => fb_memcpy bk ((cy - 1272) * 1408) m (cy * 1408) 1408) (seqZ a (b - a)) bk)
    as (bk' & E & Hn & Hw).
  - split; [lia|]. by intros cy ?%elem_of_nil.
  - intros pre cy s0 Hcy%elem_of_seqZ [Hn Hw].
    destruct (fb_memcpy_ok s0 ((cy - 1272) * 1408) m (cy * 1408) 1408) as (s1 & E & Hn1 & Hi); [lia..|].
    exists s1. split; [done|]. split; [congruence|]. intros cy' Hin. rewrite Hi.
    destruct (decide (cy' = cy)) as [->|Hne].
    + replace (_ && _) with true by (symmetry; apply andb_true_iff; lia). f_equal. lia.
    + replace (_ && _) with false.
      * apply Hw. apply elem_of_app in Hin as [?|Hin]; [done|]. by apply list_elem_of_singleton in Hin.
      * symmetry. apply andb_false_iff. destruct (decide (cy' < cy)); [left|right]; bdestr; lia.
  - rewrite E. cbn [mbind option_bind]. eexists _, bk'. split_and!; [done|done|].
    apply Hw. apply elem_of_seqZ. lia.
Qed.

Lemma update_saves_keyboard_pixels_witness :
  exists s' bk', save_overdrawn 1300 10
      (sdl_init {{ fb := Some blank_page;
                   osk_backup := Some {| words := fun _ => 0; nwords := backup_words |} }}) = Some s' /\
    osk_backup s' = Some bk' /\ words bk' ((1305 - OSK_Y) * 1408 + 1200) = words blank_page (1305 * 1408 + 1200).
Proof.
  apply (update_saves_keyboard_pixels 1300 10 _ blank_page {| words := fun _ => 0; nwords := backup_words |});
    try done; unfold OSK_Y; lia.
Defined.

(** A keyboard shown under a finger swallows the release.  A finger goes
    down on the page (the browser gets the button press), the lower right
    button shows the keyboard, the finger lifts: the shim forgets the touch
    without queuing a button release, so the browser keeps the button down. *)
Theorem keyboard_swallows_release heap m0 w s :
  is_Some heap -> nwords m0 = panel_words -> good m0 s -> fb s = Some m0 -> osk_active s = false ->
  touch_down s = false -> cur_down w = true -> 75 <= clamp 1872 (cur_x w) < OSK_Y ->
  let report := Some (mkev EV_SYN SYN_REPORT 0) in
  let x := u16 (clamp 1404 (1403 - cur_y w)) in
  let y := u16 (clamp 1872 (cur_x w)) in
  exists s1 s2 s3 l,
    input_step heap report None None w s = Some (w, s1) /\
    outs s1 = outs s ++ l ++ [Queue (ButtonDown SDL_BUTTON_LEFT x y)] /\
    input_step heap None (Some (mkev EV_KEY 194 1)) None w s1 = Some (w, s2) /\
    osk_active s2 = true /\
    input_step heap report None None (w {{ cur_down := false }}) s2 =
      Some (w {{ cur_down := false }}, s3) /\
    touch_down s3 = false /\ outs s3 = outs s1.
Proof.
  intros Hh Hm0 Hg Hfb Ha Ht Hd Hy report x y.
  set (px := clamp 1404 (1403 - cur_y w)) in *. set (py := clamp 1872 (cur_x w)) in *.
  set (s1 := browser_touch true px py s).
  assert (input_step heap report None None w s = Some (w, s1)) as E1.
  { unfold input_step, handle_touch, report. cbn [ev_type ev_code Z.eqb EV_SYN EV_ABS EV_KEY SYN_REPORT andb].
    unfold handle_report. fold px py. rewrite Ha, Hd. unfold page_touch, OSK_Y in *.
    rewrite Ht. rewrite (proj2 (Z.ltb_ge py 75)), (proj2 (Z.leb_gt 1800 py)) by lia.
    rewrite andb_false_r. done. }
  assert (good m0 s1) as Hg1 by by apply browser_touch_good.
  assert (fb s1 = Some m0 /\ osk_active s1 = false /\ touch_down s1 = true /\
          outs s1 = outs s ++ queue_touch_motion (last_touch_x s) (last_touch_y s) px py ++
                    [Queue (ButtonDown SDL_BUTTON_LEFT x y)]) as (Hf1 & Ha1 & Ht1 & Ho1).
  { unfold s1, browser_touch. rewrite (proj2 (Z.leb_le 75 py)) by lia. cbv zeta.
    change (touch_down (s {{ url_bar_focused := false }})) with (touch_down s). rewrite Ht. by split_and!. }
  clearbody s1.
  destruct (show_osk_fine m0 heap Hh s1 Hg1) as (s2 & E2 & Hg2 & _ & _ & _ & Ho2 & Ht2 & Ha2).
  specialize (Ha2 ltac:(by rewrite Hf1)).
  exists s1, s2. unfold input_step at 2. cbn [mbind option_bind].
  assert (handle_key heap (mkev EV_KEY 194 1) s1 = Some s2) as ->.
  { unfold handle_key. cbn [ev_type ev_value ev_code Z.eqb Pos.eqb EV_KEY andb].
    unfold toggle_osk. by rewrite Ha1. }
  cbn [mbind option_bind].
  exists (s2 {{ touch_down := false }}), (queue_touch_motion (last_touch_x s) (last_touch_y s) px py).
  split_and!; [done|done|done|done| |done|by rewrite <- Ho2].
  unfold input_step, handle_touch, report. cbn [ev_type ev_code Z.eqb EV_SYN EV_ABS EV_KEY SYN_REPORT andb].
  unfold handle_report. change (cur_x (w {{ cur_down := false }})) with (cur_x w).
  change (cur_y (w {{ cur_down := false }})) with (cur_y w). fold px py. rewrite Ha2.
  change (cur_down (w {{ cur_down := false }})) with false.
  unfold osk_touch. rewrite (proj2 (Z.leb_gt OSK_Y py)) by lia. by rewrite Ht2, Ht1.
Qed.

Lemma keyboard_swallows_release_witness :
  let w := mkworker 600 500 true in
  let s := sdl_init {{ fb := Some blank_page }} in
  exists s1 s2 s3 l,
    input_step (Some (fun _ => 0)) (Some (mkev EV_SYN SYN_REPORT 0)) None None w s = Some (w, s1) /\
    outs s1 = [] ++ l ++ [Queue (ButtonDown SDL_BUTTON_LEFT 903 600)] /\
    input_step (Some (fun _ => 0)) None (Some (mkev EV_KEY 194 1)) None w s1 = Some (w, s2) /\
    osk_active s2 = true /\
    input_step (Some (fun _ => 0)) (Some (mkev EV_SYN SYN_REPORT 0)) None None
      (w {{ cur_down := false }}) s2 = Some (w {{ cur_down := false }}, s3) /\
    touch_down s3 = false /\ outs s3 = outs s1.
Proof.
  intros w s. apply (keyboard_swallows_release (Some (fun _ => 0)) blank_page w s);
    [by eexists|done| |done|done|done|done|vm_compute; by split].
  split; [split|done]; [by split|done|split; [by apply ascii_compute|vm_compute; discriminate]].
Defined.

(** An access to an object of no words is stuck. *)
Lemma draw_rect_empty x y w h c m :
  nwords m = 0 -> 0 <= x < 1404 -> 0 <= y < 1872 -> 0 < w -> 0 < h -> draw_rect panel x y w h c m = None.
Proof.
  intros Hm Hx Hy Hw Hh. unfold draw_rect. rewrite (seqZ_cons y h) by lia. cbn [foldM].
  change (height panel) with 1872. change (stride panel) with 1408.
  rewrite (proj2 (Z.ltb_ge y 0)), (proj2 (Z.leb_gt 1872 y)) by lia. cbn [orb].
  unfold draw_row. rewrite (seqZ_cons x w) by lia. cbn [foldM]. change (width panel) with 1404.
  rewrite (proj2 (Z.leb_le 0 x)), (proj2 (Z.ltb_lt x 1404)) by lia. cbn [andb].
  unfold fb_store. rewrite Hm, (proj2 (Z.ltb_ge _ 0)) by (cbn; lia). by rewrite andb_false_r.
Qed.

Lemma save_rows_empty m bk : nwords m = 0 -> save_rows panel 0 OSK_Y 1408 OSK_H m bk = None.
Proof.
  intros Hm. unfold save_rows, OSK_H. rewrite (seqZ_cons 0 600) by lia. cbn [foldM].
  unfold fb_memcpy. rewrite Hm. unfold OSK_Y. cbn [Z.leb Z.compare stride panel].
  change ((1272 + 0) * 1408 + 0 + 1408 <=? 0) with false. by rewrite andb_false_r.
Qed.

Lemma show_osk_empty heap s m :
  osk_active s = false -> fb s = Some m -> nwords m = 0 -> show_osk heap s = None.
Proof.
  intros Ha Hf Hm. unfold show_osk. rewrite Ha, Hf. cbv zeta.
  assert (fb (alloc_backup heap s) = Some m) as Hf1
    by (unfold alloc_backup; by destruct (osk_backup s)).
  destruct (osk_backup (alloc_backup heap s)); [by rewrite save_rows_empty|].
  cbn [mbind option_bind]. set (s1 := _ {{ osk_active := true; clip_h := OSK_Y }}).
  assert (fb s1 = Some m) as Hf2 by done. clearbody s1.
  unfold refresh_osk, draw_osk. cbv zeta. set (s2 := s1 {{ osk_keys := build_osk_layout (russian s1) }}).
  assert (fb s2 = Some m) as Hf3 by done. clearbody s2.
  unfold draw at 1. rewrite Hf3. unfold draws. cbn [foldM].
  rewrite (draw_rect_empty 0 OSK_Y OSK_W OSK_H COLOR_BG m); [done|done|unfold OSK_Y; lia..|done|done].
Qed.

(** A failed [mmap] leaves a pointer that is used.  After
    [SDL_SetVideoMode] has returned no surface because the mapping failed, the
    Home key, which shows the keyboard, accesses memory outside every object. *)
Theorem failed_mapping_is_used heap cmdline s :
  osk_active s = false ->
  exists s', SDL_SetVideoMode true false cmdline s = Some (s', false) /\
    handle_key heap (mkev EV_KEY 102 1) s' = None.
Proof.
  intros Ha. unfold SDL_SetVideoMode. rewrite orb_true_r. eexists. split; [reflexivity|].
  unfold handle_key. cbn [ev_type ev_value ev_code Z.eqb Pos.eqb EV_KEY andb]. unfold focus_url.
  eapply show_osk_empty; [exact Ha|reflexivity|reflexivity].
Qed.

Lemma failed_mapping_is_used_witness :
  exists s', SDL_SetVideoMode true false [] sdl_init = Some (s', false) /\
    handle_key None (mkev EV_KEY 102 1) s' = None.
Proof. by apply failed_mapping_is_used. Defined.

(** The reader on an ASCII prefix. *)
Lemma utf8_loop_prefix {A} (f : A -> Z -> option A) u t n a :
  ascii u -> utf8_loop (length u + n) f (u ++ t) a = foldM f u a ≫= utf8_loop n f t.
Proof.
  intros Hu. revert a. induction Hu as [|c u Hc Hu IH]; intros a; [done|].
  cbn [length Nat.add app utf8_loop foldM utf8_next].
  rewrite (proj2 (Z.eqb_neq c 0)), (proj2 (Z.ltb_lt c 0x80)) by lia.
  destruct (f a c); [apply IH|done].
Qed.

Lemma truncated_lead_stuck {A} (f : A -> Z -> option A) u lead a :
  ascii u -> 0xC0 <= lead < 0xE0 -> utf8_iter f (u ++ [lead; 0]) a = None.
Proof.
  intros Hu Hl. unfold utf8_iter. rewrite length_app. cbn [length].
  replace (S (length u + 2)) with (length u + 3)%nat by lia. rewrite utf8_loop_prefix by done.
  destruct (foldM f u a) as [a1|]; [|done]. cbn [mbind option_bind utf8_loop].
  assert (forall t, utf8_next (lead :: 0 :: t) = Some (Some (Z.shiftl (Z.land lead 0x1F) 6, t))) as ->.
  { intros t. unfold utf8_next.
    rewrite (proj2 (Z.eqb_neq lead 0)), (proj2 (Z.ltb_ge lead 0x80)) by lia.
    rewrite two_byte_lead by done. by rewrite Z.land_0_l, Z.lor_0_r. }
  by destruct (f a1 _).
Qed.

Lemma encode_two_bytes cp :
  0x80 <= cp < 0x800 ->
  exists lead b, encode_cp cp = [lead; b] /\ 0xC0 <= lead < 0xE0.
Proof.
  intros Hc. unfold encode_cp.
  rewrite (proj2 (Z.ltb_ge cp 128)), (proj2 (Z.ltb_lt cp 0x800)) by lia.
  eexists _, _. split; [reflexivity|].
  rewrite Z.shiftr_div_pow2 by lia. change (2 ^ 6) with 64.
  assert (2 <= cp / 64 < 32) by (Z.to_euclidean_division_equations; lia).
  assert (forallb (fun k => (0xC0 <=? Z.lor 0xC0 (Z.of_nat k)) && (Z.lor 0xC0 (Z.of_nat k) <? 0xE0))
            (seq 0 32) = true) as Hall by (vm_compute; reflexivity).
  rewrite forallb_forall in Hall. specialize (Hall (Z.to_nat (cp / 64))).
  rewrite Z2Nat.id in Hall by lia. specialize (Hall ltac:(apply in_seq; lia)). bprop. lia.
Qed.

(** Backspace cuts a Cyrillic letter in half.  With the address bar focused
    and an address that ends in a two-byte letter, Backspace removes one byte,
    and the redraw of the address then reads past the end of its text. *)
Theorem backspace_splits_letter m s u cp :
  fb s = Some m -> url_bar_focused s = true -> url s = u ++ encode_cp cp ->
  ascii u -> strlen u <= 50 -> 0x80 <= cp < 0x800 ->
  key_backspace s = None.
Proof.
  intros Hf Hfoc Hurl Hu Hl Hc. destruct (encode_two_bytes cp Hc) as (lead & b & Ec & Hlead).
  unfold key_backspace. rewrite Hfoc, Hurl, Ec.
  assert (0 < strlen (u ++ [lead; b])) by (unfold strlen; rewrite length_app; cbn; lia).
  rewrite (proj2 (Z.ltb_lt 0 _)) by done. cbn [andb].
  replace (removelast (u ++ [lead; b])) with (u ++ [lead])
    by (change [lead; b] with ([lead] ++ [b]); by rewrite app_assoc, removelast_last).
  unfold redraw_url, redraw_preview, draw_osk_input_preview, draw.
  change (fb (s {{ url := u ++ [lead] }})) with (fb s). rewrite Hf. unfold draws. cbn [foldM].
  destruct (draw_rect _ _ _ _ _ _ m) as [m1|]; [|done].
  destruct (draw_rect_outline _ _ _ _ _ _ _ m1) as [m2|]; [|done].
  unfold preview_drawing. change (url_bar_focused (s {{ url := u ++ [lead] }})) with (url_bar_focused s).
  change (url (s {{ url := u ++ [lead] }})) with (u ++ [lead]). rewrite Hfoc. cbn [negb orb].
  rewrite (proj2 (Z.eqb_neq _ 0)) by (unfold strlen; rewrite length_app; cbn; lia).
  assert (preview_text (u ++ [lead]) = u ++ [lead; 0]) as ->.
  { unfold preview_text, snprintf, strlen in *.
    rewrite take_ge by (rewrite length_app; cbn; lia). rewrite <- app_assoc. cbn [app].
    assert (to_nul (u ++ [lead; 0]) = u ++ [lead]) as ->.
    { clear -Hu Hlead. induction Hu as [|c u Hc Hu IH]; cbn.
      - by rewrite (proj2 (Z.eqb_neq lead 0)) by lia.
      - rewrite (proj2 (Z.eqb_neq c 0)) by lia. by rewrite IH. }
    rewrite (proj2 (Nat.ltb_ge _ _)); [done|]. rewrite length_app. cbn. lia. }
  unfold fb_draw_utf8_string. by rewrite truncated_lead_stuck.
Qed.

Lemma backspace_splits_letter_witness :
  key_backspace (sdl_init {{ fb := Some blank_page; url := cstr "abc" ++ encode_cp 0x439 }}) = None.
Proof.
  apply (backspace_splits_letter blank_page _ (cstr "abc") 0x439);
    [done|done|done|by apply ascii_compute|vm_compute; discriminate|lia].
Defined.
