(* ===== verification/SdlTimers.v ===== *)
(** * The timers of the browser shim

    The sixteen timer slots of [sdl_fb0_shim.c] under the calls of the browser
    and the timer thread.  Each call holds the mutex, so it is one atomic step;
    the thread releases the mutex around a callback, so its visit of a slot is
    two steps with anything in between. *)

From S2P Require Import Prelude.

Definition MAX_TIMERS := 16.

(** [SDL_TimerID_t]; a callback is named by an address, 0 for [NULL]. *)
Record timer := mktimer {
  active : bool; interval_ms : Z; next_expire_ms : Z; cb : Z; param : Z }.

Definition no_timer : timer :=
  {| active := false; interval_ms := 0; next_expire_ms := 0; cb := 0; param := 0 |}.

Abbreviation timers := (list timer).
Definition timers_init : timers := replicate 16 no_timer.

Definition u64 (z : Z) : Z := z mod 18446744073709551616.

(** The first slot that is not active. *)
Fixpoint free_slot (ts : timers) : option nat :=
  match ts with
  | [] => None
  | t :: ts' => if active t then S <$> free_slot ts' else Some 0%nat
  end.

(** [SDL_AddTimer] at time [now]: the slot, or [None] for a null result. *)
Definition SDL_AddTimer (now interval callback prm : Z) (ts : timers) : option nat * timers :=
  if callback =? 0 then (None, ts)
  else match free_slot ts with
       | None => (None, ts)
       | Some i => (Some i, <[i := {| active := true; interval_ms := interval;
                                      next_expire_ms := u64 (now + interval);
                                      cb := callback; param := prm |}]> ts)
       end.

(** [SDL_RemoveTimer]; [None] is a null id. *)
Definition SDL_RemoveTimer (id : option nat) (ts : timers) : bool * timers :=
  match id with
  | None => (false, ts)
  | Some i => match ts !! i with
              | Some t => (true, <[i := t {{ active := false; cb := 0 }}]> ts)
              | None => (false, ts)
              end
  end.

(** The test of the timer thread, and what it does after the callback. *)
Definition due (now : Z) (t : timer) : bool :=
  active t && negb (cb t =? 0) && (next_expire_ms t <=? now).

Definition after_callback (now next : Z) (t : timer) : timer :=
  if active t then
    if next =? 0 then t {{ active := false; cb := 0 }}
    else t {{ interval_ms := next; next_expire_ms := u64 (now + next) }}
  else t.

Definition finish (i : nat) (now next : Z) (ts : timers) : timers := alter (after_callback now next) i ts.

(** ** The thread among the other calls *)
Inductive phase :=
  | Idle
  | Scan (now : Z) (i : nat)
  | Calling (now : Z) (i : nat).

Inductive tstep : timers * phase -> timers * phase -> Prop :=
  | step_add ts p now interval callback prm :
      tstep (ts, p) ((SDL_AddTimer now interval callback prm ts).2, p)
  | step_remove ts p id : tstep (ts, p) ((SDL_RemoveTimer id ts).2, p)
  | step_wake ts now : tstep (ts, Idle) (ts, Scan now 0)
  | step_fire ts now i t :
      ts !! i = Some t -> due now t = true -> tstep (ts, Scan now i) (ts, Calling now i)
  | step_skip ts now i t :
      ts !! i = Some t -> due now t = false -> tstep (ts, Scan now i) (ts, Scan now (S i))
  | step_return ts now i next now' :
      tstep (ts, Calling now i) (finish i now' next ts, Scan now (S i))
  | step_done ts now i : ts !! i = None -> tstep (ts, Scan now i) (ts, Idle).

(** Every active slot has a callback, and the slots stay sixteen. *)
Record timers_ok (ts : timers) : Prop := {
  slots : length ts = 16%nat;
  callbacks : forall i t, ts !! i = Some t -> active t = true -> cb t <> 0 }.

Definition phase_ok (p : phase) : Prop :=
  match p with Idle => True | Scan _ i => (i <= 16)%nat | Calling _ i => (i < 16)%nat end.

Lemma free_slot_spec ts i :
  free_slot ts = Some i ->
  (exists t, ts !! i = Some t /\ active t = false) /\
  forall j t, (j < i)%nat -> ts !! j = Some t -> active t = true.
Proof.
  revert i. induction ts as [|t ts IH]; intros i; cbn; [done|].
  destruct (active t) eqn:E; [|intros [= <-]; split; [by exists t|lia]].
  destruct (free_slot ts) as [j|]; [|done]. intros [= <-].
  destruct (IH j eq_refl) as [H1 H2]. split; [done|].
  intros [|k] t' Hk Hl; cbn in Hl; [by injection Hl as <-|]. by apply (H2 k); [lia|].
Qed.

Lemma free_slot_none ts i t : free_slot ts = None -> ts !! i = Some t -> active t = true.
Proof.
  revert i. induction ts as [|t' ts IH]; intros i; cbn; [done|].
  destruct (active t') eqn:E; [|done]. destruct (free_slot ts); [done|]. intros _.
  destruct i as [|i]; cbn; [by intros [= <-]|]. by apply IH.
Qed.

Lemma insert_ok ts i t :
  timers_ok ts -> (active t = true -> cb t <> 0) -> timers_ok (<[i := t]> ts).
Proof.
  intros [Hs Hc] Ht. split; [by rewrite length_insert|]. intros j t' Hj Ha.
  destruct (decide (i = j)) as [<-|Hne].
  - destruct (decide (i < length ts)%nat).
    + rewrite list_lookup_insert_eq in Hj by done. injection Hj as <-. auto.
    + rewrite list_insert_ge in Hj by lia. eauto.
  - rewrite list_lookup_insert_ne in Hj by done. eauto.
Qed.

Lemma finish_ok ts i now next : timers_ok ts -> timers_ok (finish i now next ts).
Proof.
  intros [Hs Hc]. unfold finish. split; [by rewrite length_alter|]. intros j t Hj Ha.
  destruct (decide (i = j)) as [<-|Hne].
  - rewrite list_lookup_alter_eq in Hj. apply fmap_Some in Hj as (t0 & Ht0 & ->).
    revert Ha. unfold after_callback. destruct (active t0) eqn:Ea; [|by rewrite Ea].
    destruct (next =? 0); cbn; [done|]. intros _. by eapply Hc.
  - rewrite list_lookup_alter_ne in Hj by done. eauto.
Qed.

(** C30: the timer table is well formed in every reachable state, whatever the
    interleaving of adds, removes, wake-ups and callback returns: sixteen
    slots, every active one with a callback to call, and the thread always at
    a slot of the table. *)
Theorem timer_table_invariant s s' :
  timers_ok s.1 /\ phase_ok s.2 -> rtc tstep s s' -> timers_ok s'.1 /\ phase_ok s'.2.
Proof.
  intros H0 Hr. induction Hr as [|s1 s2 s3 Hs Hr IH]; [done|]. apply IH. clear IH Hr.
  destruct H0 as [Hok Hp]. inversion Hs; subst; cbn in *.
  - split; [|done]. unfold SDL_AddTimer. destruct (callback =? 0) eqn:E; [done|].
    destruct (free_slot ts); [|done]. cbn. apply insert_ok; [done|]. cbn. by bprop.
  - split; [|done]. unfold SDL_RemoveTimer. destruct id as [i|]; [|done].
    destruct (ts !! i); [|done]. by apply insert_ok.
  - split; [done|lia].
  - split; [done|]. apply lookup_lt_Some in H. destruct Hok as [Hl _]. lia.
  - split; [done|]. apply lookup_lt_Some in H. destruct Hok as [Hl _]. lia.
  - split; [by apply finish_ok|lia].
  - done.
Qed.

Lemma timers_init_ok : timers_ok timers_init.
Proof.
  split; [done|]. intros i t Hl. apply lookup_replicate in Hl as [-> _]. done.
Qed.

Lemma timer_table_invariant_witness :
  timers_ok ((SDL_AddTimer 5 20 77 0 timers_init).2, Calling 30 0).1 /\
  phase_ok ((SDL_AddTimer 5 20 77 0 timers_init).2, Calling 30 0).2.
Proof.
  apply (timer_table_invariant (timers_init, Idle)).
  - split; [apply timers_init_ok|done].
  - eapply rtc_l; [apply (step_add _ _ 5 20 77 0)|]. eapply rtc_l; [apply (step_wake _ 30)|].
    eapply rtc_l; [eapply step_fire; reflexivity|]. apply rtc_refl.
Defined.

(** Adding a timer takes a free slot and touches no other: the id is a slot
    that was inactive and now holds the new timer, the other slots are as
    before, and a null id means that there is no callback or that all slots
    are taken. *)
Theorem add_timer_spec now interval callback prm ts :
  match SDL_AddTimer now interval callback prm ts with
  | (Some i, ts') =>
      (exists t, ts !! i = Some t /\ active t = false) /\
      ts' !! i = Some {| active := true; interval_ms := interval;
                         next_expire_ms := u64 (now + interval); cb := callback; param := prm |} /\
      forall j, j <> i -> ts' !! j = ts !! j
  | (None, ts') => ts' = ts /\
      (callback = 0 \/ forall i t, ts !! i = Some t -> active t = true)
  end.
Proof.
  unfold SDL_AddTimer. destruct (Z.eqb_spec callback 0); [by split; [|left]|].
  destruct (free_slot ts) as [i|] eqn:E.
  - apply free_slot_spec in E as [(t & Ht & Ha) _]. split_and!; [by exists t| |].
    + apply list_lookup_insert_eq. by eapply lookup_lt_Some.
    + intros j Hj. by rewrite list_lookup_insert_ne.
  - split; [done|]. right. intros i t. by apply free_slot_none.
Qed.

(** A timer added while a callback runs can be lost.  The thread is inside
    the callback of slot [i]; that timer is removed and a new one added, which
    gets the same slot; when the old callback returns 0, the new timer is
    switched off, although its id was returned and it was never removed. *)
Theorem callback_return_kills_new_timer ts i t now now1 now2 interval callback prm :
  ts !! i = Some t -> callback <> 0 ->
  (forall j t', (j < i)%nat -> ts !! j = Some t' -> active t' = true) ->
  let ts1 := (SDL_RemoveTimer (Some i) ts).2 in
  exists ts2, SDL_AddTimer now1 interval callback prm ts1 = (Some i, ts2) /\
    rtc tstep (ts, Calling now i) (finish i now2 0 ts2, Scan now (S i)) /\
    exists t', finish i now2 0 ts2 !! i = Some t' /\ active t' = false /\ param t' = prm.
Proof.
  intros Hi Hc Hbelow ts1.
  assert (free_slot ts1 = Some i) as Hf.
  { unfold ts1, SDL_RemoveTimer. rewrite Hi. cbn. clear -Hi Hbelow. revert i Hi Hbelow.
    induction ts as [|t0 ts IH]; intros [|i] Hi Hbelow; try done.
    cbn. rewrite (Hbelow 0%nat t0) by (done || lia). rewrite IH; [done..|].
    intros j t' Hj Ht'. apply (Hbelow (S j)); [lia|done]. }
  assert (i < length ts1)%nat as Hl.
  { apply free_slot_spec in Hf as [(t' & Ht' & _) _]. by eapply lookup_lt_Some. }
  unfold SDL_AddTimer. rewrite (proj2 (Z.eqb_neq _ _)) by done. rewrite Hf.
  eexists. split; [reflexivity|]. split.
  - eapply rtc_l; [apply (step_remove ts _ (Some i))|]. fold ts1.
    eapply rtc_l; [apply (step_add ts1 _ now1 interval callback prm)|].
    unfold SDL_AddTimer. rewrite (proj2 (Z.eqb_neq _ _)), Hf by done.
    apply rtc_once. apply step_return.
  - unfold finish. rewrite list_lookup_alter_eq, list_lookup_insert_eq by done.
    eexists. by split_and!.
Qed.

Lemma callback_return_kills_new_timer_witness :
  exists ts2, SDL_AddTimer 31 500 78 9 (SDL_RemoveTimer (Some 0%nat) (SDL_AddTimer 5 20 77 0 timers_init).2).2
      = (Some 0%nat, ts2) /\
    exists t', finish 0 40 0 ts2 !! 0%nat = Some t' /\ active t' = false /\ param t' = 9.
Proof.
  destruct (callback_return_kills_new_timer (SDL_AddTimer 5 20 77 0 timers_init).2 0
    {| active := true; interval_ms := 20; next_expire_ms := 25; cb := 77; param := 0 |}
    30 31 40 500 78 9) as (ts2 & H1 & _ & H3); [reflexivity|lia|intros; lia|].
  exists ts2. by split.
Defined.
