(* ===== verification/SdlLife.v ===== *)
(** * Starting and ending the browser shim

    [SDL_Init], [SDL_SetVideoMode] and [SDL_Quit] of [sdl_fb0_shim.c] with the
    descriptors, the mapping and the threads they take and give back; the
    surface, the clock and the call that waits for an event. *)

From Stdlib Require Import Ascii String.
From S2P Require Import Prelude CString Framebuffer Ring SdlText SdlOsk SdlQueue SdlShim SdlDisplay SdlSafety.

(** ** The surface *)
Definition PANEL_WIDTH : Z := 1404.
Definition PANEL_HEIGHT : Z := 1872.
Definition PANEL_STRIDE : Z := 1408.
Definition PANEL_BPP : Z := 16.
Definition FB_PATH : list Z := cstr "/dev/fb0".
Definition TOUCH_PATH : list Z := cstr "/dev/input/event1".
Definition KEYS_PATH : list Z := cstr "/dev/input/event2".
Definition KEYS_BY_PATH : list Z := cstr "/dev/input/by-path/platform-gpio-keys-event".
Definition FIFO_PATH : list Z := cstr "/tmp/netsurf_input.fifo".

(** One colour of a [SDL_PixelFormat]: its loss, its shift and its mask. *)
Record channel := mkchannel { loss : Z; shift : Z; cmask : Z }.
Record SDL_PixelFormat := mkformat { BitsPerPixel : Z; BytesPerPixel : Z; red : channel; green : channel; blue : channel }.
Record SDL_Surface := mksurface { sf_flags : Z; sf_format : SDL_PixelFormat; sf_w : Z; sf_h : Z; pitch : Z; sf_clip : Z * Z * Z * Z; refcount : Z }.

Definition main_format : SDL_PixelFormat :=
  mkformat 16 2 (mkchannel 3 11 0xF800) (mkchannel 2 5 0x07E0) (mkchannel 3 0 0x001F).
Definition main_surface (flags : Z) : SDL_Surface :=
  mksurface flags main_format PANEL_WIDTH PANEL_HEIGHT (PANEL_STRIDE * 2) (0, 0, PANEL_WIDTH, PANEL_HEIGHT) 1.
Definition fb_size : Z := PANEL_STRIDE * PANEL_HEIGHT * (PANEL_BPP / 8).

(** What a client makes of a format: the pixel of a colour, and back. *)
Definition pack (f : SDL_PixelFormat) (r g b : Z) : Z :=
  Z.lor (Z.shiftl (Z.shiftr r (loss (red f))) (shift (red f)))
    (Z.lor (Z.shiftl (Z.shiftr g (loss (green f))) (shift (green f))) (Z.shiftl (Z.shiftr b (loss (blue f))) (shift (blue f)))).
Definition unpack (c : channel) (pixel : Z) : Z := Z.shiftl (Z.shiftr (Z.land pixel (cmask c)) (shift c)) (loss c).

(** ** Descriptors, the mapping and threads *)

(** The variables of the file, the descriptors the input thread keeps for
    itself, the threads that run, and what the process has of the system: its
    descriptors, the next one, the mappings and the calls of [open] so far. *)
Record process := mkproc {
  shim : sdl; fb_fd : Z; touch_fd : Z; keys_fd : Z; fifo_fd : Z; worker_fds : list Z;
  input_thread_running : bool; g_timer_thread_running : bool; input_thread : bool; g_timer_thread : bool;
  fds : list Z; next_fd : Z; mappings : Z; calls : nat }.

Section Life.
(** Whether each [open] succeeds, and each [pthread_create]. *)
Context (openable : nat -> list Z -> bool) (created : bool -> bool).

Definition sys_open (path : list Z) (p : process) : Z * process :=
  let p := p {{ calls := S (calls p) }} in
  if openable (calls p) path then (next_fd p, p {{ fds := next_fd p :: fds p; next_fd := next_fd p + 1 }}) else (-1, p).

(** A descriptor that is not open is not closed: [None]. *)
Definition sys_close (fd : Z) (p : process) : option process :=
  if bool_decide (fd ∈ fds p) then Some (p {{ fds := List.filter (fun x => negb (x =? fd)) (fds p) }}) else None.

(** The start of [input_worker]. *)
Definition input_worker_start (p : process) : process :=
  let '(touch, p) := sys_open TOUCH_PATH p in
  let '(keys, p) := sys_open KEYS_PATH p in
  let '(fifo, p) := sys_open FIFO_PATH p in
  p {{ worker_fds := List.filter (Z.leb 0) [touch; keys; fifo] ++ worker_fds p }}.

(** The keys, by their number or by their path. *)
Definition open_keys (p : process) : Z * process :=
  let '(fd, p) := sys_open KEYS_PATH p in if fd <? 0 then sys_open KEYS_BY_PATH p else (fd, p).

(** The results of [pthread_create] are not looked at; [created true] is that
    of the input thread. *)
Definition SDL_Init (p : process) : Z * process :=
  let '(fd, p) := sys_open TOUCH_PATH p in
  let p := p {{ touch_fd := fd }} in
  let '(fd, p) := open_keys p in
  let p := p {{ keys_fd := fd }} in
  let '(fd, p) := sys_open FIFO_PATH p in
  let p := p {{ fifo_fd := fd; input_thread_running := true }} in
  let p := if created true then input_worker_start (p {{ input_thread := true }}) else p in
  (0, p {{ g_timer_thread_running := true; g_timer_thread := created false }}).

(** The framebuffer is opened once and mapped each time. *)
Definition set_video_mode (mapped : bool) (cmdline : list Z) (flags : Z) (p : process) : option (option SDL_Surface * process) :=
  let '(fd, p) := if fb_fd p <? 0 then sys_open FB_PATH p else (fb_fd p, p) in
  let p := p {{ fb_fd := fd }} in
  '(s, surface) ← SDL_SetVideoMode (0 <=? fd) mapped cmdline (shim p);
  let p := p {{ shim := s }} in
  if fd <? 0 then Some (None, p)
  else if mapped then Some (if surface : bool then Some (main_surface flags) else None, p {{ mappings := mappings p + 1 }})
  else p ← sys_close fd p; Some (None, p {{ fb_fd := -1 }}).

(** [pthread_join] of a thread that was not created is undefined. *)
Definition join (running : bool) (p : process) (ended : process -> process) : option process :=
  if running then Some (ended p) else None.

Definition no_touch (p : process) : process := p {{ touch_fd := -1 }}.
Definition no_keys (p : process) : process := p {{ keys_fd := -1 }}.
Definition no_fifo (p : process) : process := p {{ fifo_fd := -1 }}.
Definition no_fb (p : process) : process := p {{ fb_fd := -1; shim := (shim p) {{ fb_open := false }} }}.

Definition close_fd (fd : Z) (reset : process -> process) (p : process) : option process :=
  if 0 <=? fd then p ← sys_close fd p; Some (reset p) else Some p.

(** [fb_mem] is [MAP_FAILED] when it points to no word. *)
Definition mapped_words (s : sdl) : Z := match fb s with Some m => nwords m | None => 0 end.

Definition unmap_fb (p : process) : process :=
  if 0 <? mapped_words (shim p) then p {{ shim := (shim p) {{ fb := None }}; mappings := mappings p - 1 }} else p.

Definition SDL_Quit (p : process) : option process :=
  p ← (if g_timer_thread_running p
       then join (g_timer_thread p) (p {{ g_timer_thread_running := false }}) (fun p => p {{ g_timer_thread := false }}) else Some p);
  p ← (if input_thread_running p
       then join (input_thread p) (p {{ input_thread_running := false }}) (fun p => p {{ input_thread := false }}) else Some p);
  p ← close_fd (touch_fd p) no_touch p;
  p ← close_fd (keys_fd p) no_keys p;
  p ← close_fd (fifo_fd p) no_fifo p;
  let p := unmap_fb (p {{ shim := (shim p) {{ osk_backup := None }} }}) in
  close_fd (fb_fd p) no_fb p.
End Life.

(** ** Calls that wait, and those that do nothing *)

(** [event] is not null; [arrivals] are the events that the other thread queues
    during each sleep of 5 ms. *)
Fixpoint SDL_WaitEvent (arrivals : list (list sdl_event)) (q : equeue) : option (sdl_event * equeue) :=
  match dequeue_event q with
  | Some r => Some r
  | None =>
      match arrivals with
      | [] => None
      | evs :: arrivals => SDL_WaitEvent arrivals (foldl (fun q ev => queue_event ev q) q evs)
      end
  end.

(** The monotonic clock in milliseconds, a [uint64_t]. *)
Definition get_time_ms (tv_sec tv_nsec : Z) : Z := (tv_sec * 1000 + Z.quot tv_nsec 1000000) mod 2 ^ 64.

Definition SDL_EnableKeyRepeat (delay interval : Z) : Z := 0.
Definition SDL_ShowCursor (toggle : Z) : Z := 0.
Definition SDL_GetError : list Z := [].
Definition SDL_UpperBlit (src dst : SDL_Surface) (srcrect dstrect : option (Z * Z * Z * Z)) : Z := 0.
Definition SDL_SetColors (surface : SDL_Surface) (colors : list Z) (firstcolor ncolors : Z) : Z := 1.

(** ** The surface is what the panel shows *)
Lemma channels_disjoint : forallb (fun v =>
    (unpack (red main_format) (Z.shiftl (Z.shiftr v 3) 11) =? Z.land v 0xF8) && (unpack (green main_format) (Z.shiftl (Z.shiftr v 3) 11) =? 0) &&
    (unpack (blue main_format) (Z.shiftl (Z.shiftr v 3) 11) =? 0) && (unpack (red main_format) (Z.shiftl (Z.shiftr v 2) 5) =? 0) &&
    (unpack (green main_format) (Z.shiftl (Z.shiftr v 2) 5) =? Z.land v 0xFC) && (unpack (blue main_format) (Z.shiftl (Z.shiftr v 2) 5) =? 0) &&
    (unpack (red main_format) (Z.shiftl (Z.shiftr v 3) 0) =? 0) && (unpack (green main_format) (Z.shiftl (Z.shiftr v 3) 0) =? 0) &&
    (unpack (blue main_format) (Z.shiftl (Z.shiftr v 3) 0) =? Z.land v 0xF8)) (seqZ 0 256) = true.
Proof. vm_compute. reflexivity. Qed.

Lemma unpack_lor c x y : unpack c (Z.lor x y) = Z.lor (unpack c x) (unpack c y).
Proof. unfold unpack. by rewrite Z.land_lor_distr_l, Z.shiftr_lor, Z.shiftl_lor. Qed.

(** A pixel keeps the high bits of its three colours, and every row of the
    surface lies in the mapping. *)
Theorem surface_faithful flags r g b x y : 0 <= r < 256 -> 0 <= g < 256 -> 0 <= b < 256 ->
  0 <= x < sf_w (main_surface flags) -> 0 <= y < sf_h (main_surface flags) ->
  let p := pack (sf_format (main_surface flags)) r g b in
  unpack (red main_format) p = Z.land r 0xF8 /\ unpack (green main_format) p = Z.land g 0xFC /\ unpack (blue main_format) p = Z.land b 0xF8 /\
  0 <= y * pitch (main_surface flags) + x * 2 /\ y * pitch (main_surface flags) + x * 2 + 2 <= fb_size.
Proof.
  intros Hr Hg Hb Hx Hy. pose proof (proj1 (forallb_forall _ _) channels_disjoint) as T.
  assert (forall v, 0 <= v < 256 -> In v (seqZ 0 256)) as I by (intros v Hv; apply list_elem_of_In, elem_of_seqZ; lia).
  pose proof (T r (I r Hr)) as Tr. pose proof (T g (I g Hg)) as Tg. pose proof (T b (I b Hb)) as Tb. cbv beta in Tr, Tg, Tb. bprop.
  cbv zeta. unfold pack. cbn [sf_format main_surface main_format red green blue loss shift]. rewrite !unpack_lor.
  change (mkchannel 3 11 0xF800) with (red main_format) in *.
  change (mkchannel 2 5 0x07E0) with (green main_format). change (mkchannel 3 0 0x001F) with (blue main_format).
  repeat match goal with H : unpack ?c ?x = _ |- context [unpack ?c ?x] => rewrite H end. rewrite ?Z.lor_0_l, ?Z.lor_0_r.
  unfold fb_size, PANEL_STRIDE, PANEL_HEIGHT, PANEL_BPP in *. cbn in Hx, Hy. cbn. unfold PANEL_WIDTH, PANEL_HEIGHT, PANEL_STRIDE in *.
  change (16 / 8) with 2. split_and!; [done..|lia|lia].
Qed.

(** ** What the shim takes it gives back *)
Definition own (fd : Z) : list Z := if 0 <=? fd then [fd] else [].

(** The descriptors of the process are those in [l]. *)
Definition owns (l : list Z) (p : process) : Prop := fds p ≡ₚ l /\ NoDup (fds p) /\ Forall (fun fd => 0 <= fd < next_fd p) (fds p) /\ 0 <= next_fd p.

Section Ledger.
Context (openable : nat -> list Z -> bool) (created : bool -> bool).

Lemma open_owns path l p : owns l p -> exists fd q n c, sys_open openable path p = (fd, p {{ fds := q; next_fd := n; calls := c }}) /\
  owns (own fd ++ l) (p {{ fds := q; next_fd := n; calls := c }}) /\ -1 <= fd.
Proof.
  intros (P & N & F & Z0). unfold sys_open. destruct p as [s f t k i w ir tr it tt q n m c]. upd. cbn in *. destruct (openable (Datatypes.S c) path).
  - exists n, (n :: q), (n + 1), (Datatypes.S c). split; [done|]. unfold own. rewrite (proj2 (Z.leb_le 0 n)) by done. split; [|lia]. split_and!; cbn.
    + by rewrite P.
    + apply NoDup_cons. split; [|done]. intros Hin. rewrite Forall_forall in F. specialize (F n Hin). lia.
    + apply Forall_cons_2; [lia|]. eapply Forall_impl; [exact F|]. intros x Hx. cbn in *. lia.
    + lia.
  - exists (-1), q, n, (Datatypes.S c). split; [done|]. split; [|lia]. change (own (-1) ++ l) with l. by split_and!.
Qed.

Lemma close_owns fd l p : owns (fd :: l) p -> exists q, sys_close fd p = Some (p {{ fds := q }}) /\ owns l (p {{ fds := q }}).
Proof.
  intros (P & N & F & Z0). unfold sys_close. rewrite bool_decide_true by (rewrite P; left). eexists. split; [done|].
  assert (forall x, x ∈ List.filter (fun x => negb (x =? fd)) (fds p) <-> x ∈ fds p /\ x <> fd) as M.
  { intros x. rewrite !list_elem_of_In, filter_In, negb_true_iff, Z.eqb_neq. done. }
  split_and!; destruct p; cbn in *.
  - apply NoDup_Permutation; [apply NoDup_ListNoDup, List.NoDup_filter, NoDup_ListNoDup, N| |].
    + rewrite P in N. by apply NoDup_cons in N as [_ N].
    + intros x. rewrite M, P, elem_of_cons. rewrite P in N. apply NoDup_cons in N as [N _]. split; [tauto|]. intros Hx. split; [by right|]. by intros ->.
  - apply NoDup_ListNoDup, List.NoDup_filter, NoDup_ListNoDup, N.
  - rewrite Forall_forall in *. intros x [Hx _]%M. by apply F.
  - done.
Qed.

Lemma close_fd_owns fd reset l p : -1 <= fd -> (fd = -1 -> reset p = p) -> owns (own fd ++ l) p ->
  exists q, close_fd fd reset p = Some (reset (p {{ fds := q }})) /\ owns l (p {{ fds := q }}).
Proof.
  intros Hf Hr. unfold close_fd, own. destruct (Z.leb_spec 0 fd) as [H|H].
  - intros O. destruct (close_owns fd l p O) as (q & -> & O'). by exists q.
  - intros O. exists (fds p). assert (p {{ fds := fds p }} = p) as -> by (by destruct p). by rewrite Hr by lia.
Qed.

#[local] Opaque TOUCH_PATH KEYS_PATH KEYS_BY_PATH FIFO_PATH FB_PATH.
#[local] Arguments sys_open : simpl never.
#[local] Arguments own : simpl never.
#[local] Arguments close_fd : simpl never.
#[local] Arguments unmap_fb : simpl never.
#[local] Arguments mapped_words : simpl never.
#[local] Arguments List.filter : simpl never.

Lemma owns_perm l l' p : l ≡ₚ l' -> owns l p -> owns l' p.
Proof. intros E (P & N & F & Z0). split; [by rewrite <- E|done]. Qed.

Lemma own_none fd : fd < 0 -> own fd = [].
Proof. intros H. unfold own. by rewrite (proj2 (Z.leb_gt 0 fd)). Qed.

(** The next [open] of a goal about [owns]. *)
Ltac opens H :=
  match type of H with owns ?l ?p =>
    match goal with |- context [sys_open openable ?path p] =>
      let fd := fresh "fd" in let q := fresh "q" in let n := fresh "n" in let c := fresh "c" in
      destruct (open_owns path l p H) as (fd & q & n & c & -> & H' & ?); clear H; rename H' into H; cbv [apply_update constant] in H; cbn in H; upd
    end
  end.

Lemma worker_owns l p : owns l p -> exists ws q n c, (length ws <= 3)%nat /\
  input_worker_start openable p = p {{ worker_fds := ws ++ worker_fds p; fds := q; next_fd := n; calls := c }} /\
  owns (ws ++ l) (p {{ worker_fds := ws ++ worker_fds p; fds := q; next_fd := n; calls := c }}).
Proof.
  intros H. destruct p as [s f t k i w ir tr it tt fs nx m c]. unfold input_worker_start. opens H. opens H. opens H.
  assert (List.filter (Z.leb 0) [fd; fd0; fd1] = own fd ++ own fd0 ++ own fd1) as E.
  { unfold own, List.filter. by destruct (0 <=? fd), (0 <=? fd0), (0 <=? fd1). }
  exists (own fd ++ own fd0 ++ own fd1), q1, n1, c2. rewrite E. split; [|split; [done|]].
  - unfold own. destruct (0 <=? fd), (0 <=? fd0), (0 <=? fd1); cbn; lia.
  - destruct H as (P & R). split; [|done]. cbn in *. rewrite P. rewrite <- !app_assoc. solve_Permutation.
Qed.

Hypothesis threads : forall b, created b = true.

(** After [SDL_Init], of a process that owned [l]. *)
Record started (l ws : list Z) (p p1 : process) : Prop := {
  st_owns : owns (own (touch_fd p1) ++ own (keys_fd p1) ++ own (fifo_fd p1) ++ ws ++ l) p1;
  st_worker : worker_fds p1 = ws ++ worker_fds p; st_few : (length ws <= 3)%nat;
  st_range : Forall (Z.le (-1)) [touch_fd p1; keys_fd p1; fifo_fd p1];
  st_fb : fb_fd p1 = fb_fd p; st_shim : shim p1 = shim p; st_maps : mappings p1 = mappings p;
  st_flags : input_thread_running p1 && g_timer_thread_running p1 && input_thread p1 && g_timer_thread p1 = true }.

Lemma keys_owns l p : owns l p -> exists fd q n c, open_keys openable p = (fd, p {{ fds := q; next_fd := n; calls := c }}) /\
  owns (own fd ++ l) (p {{ fds := q; next_fd := n; calls := c }}) /\ -1 <= fd.
Proof.
  intros H. destruct p as [s f t k i w ir tr it tt fs nx m c]. unfold open_keys. opens H. destruct (Z.ltb_spec fd 0) as [Hn|Hn].
  - rewrite own_none in H by done. cbn [app] in H. opens H. by eexists _, _, _, _.
  - by eexists _, _, _, _.
Qed.

Lemma init_owns l p : owns l p -> exists ws p1, SDL_Init openable created p = (0, p1) /\ started l ws p p1.
Proof.
  intros H. unfold SDL_Init. destruct (open_owns TOUCH_PATH l p H) as (fd & q & n & c & -> & H1 & F1). clear H.
  set (p1 := (p {{ fds := _; next_fd := _; calls := _ }}) {{ touch_fd := fd }}).
  destruct (keys_owns _ p1 H1) as (fd1 & q1 & n1 & c1 & -> & H2 & F2).
  set (p2 := (p1 {{ fds := _; next_fd := _; calls := _ }}) {{ keys_fd := fd1 }}).
  destruct (open_owns FIFO_PATH _ p2 H2) as (fd2 & q2 & n2 & c2 & -> & H3 & F3). cbv zeta. rewrite threads.
  set (p3 := ((p2 {{ fds := _; next_fd := _; calls := _ }}) {{ fifo_fd := fd2; input_thread_running := true }}) {{ input_thread := true }}).
  destruct (worker_owns _ p3 H3) as (ws & q3 & n3 & c3 & Hl & -> & H4). rewrite threads. eexists ws, _. split; [reflexivity|].
  destruct p. unfold p3, p2, p1 in *. upd. split; cbn; try done; [|by repeat apply Forall_cons_2].
  destruct H4 as (P & R). split; [|done]. cbn in *. rewrite P. solve_Permutation.
Qed.

Lemma mode_owns mapped cmdline flags l p surface p2 : owns l p -> fb_fd p = -1 -> fb_open (shim p) = false ->
  set_video_mode openable mapped cmdline flags p = Some (surface, p2) ->
  exists fd q n c s, p2 = p {{ fb_fd := fd; fds := q; next_fd := n; calls := c; shim := s; mappings := mappings p + match surface with Some _ => 1 | None => 0 end }} /\
    -1 <= fd /\ owns (own fd ++ l) p2 /\ (fd = -1 -> fb_open s = false).
Proof.
  intros H Hf Ho. unfold set_video_mode. rewrite Hf. cbn [Z.ltb Z.compare]. destruct (open_owns FB_PATH l p H) as (fd & q & n & c & -> & H1 & F).
  clear H. cbn zeta. destruct (SDL_SetVideoMode _ _ _ _) as [[s ok]|] eqn:E; cbn [mbind option_bind]; [|done]. destruct (Z.ltb_spec fd 0) as [Hn|Hn].
  - intros [= <- <-]. exists fd, q, n, c, s. unfold SDL_SetVideoMode in E. rewrite (proj2 (Z.leb_gt 0 fd)) in E by done.
    assert (shim (p {{ fds := q; next_fd := n; calls := c; fb_fd := fd }}) = shim p) as Es by (by destruct p).
    destruct p. upd. rewrite Z.add_0_r. cbn in *. rewrite Ho in E. cbn in E. injection E as <- _. done.
  - destruct mapped.
    + assert (ok = true) as ->.
      { unfold SDL_SetVideoMode in E. rewrite (proj2 (Z.leb_le 0 fd)) in E by done. rewrite orb_true_r in E.
        destruct (draw_url_bar_overlay _); cbn [mbind option_bind] in E; [|done]. by injection E as _ <-. }
      intros [= <- <-]. exists fd, q, n, c, s. destruct p. split; [done|]. split; [done|]. split; [done|lia].
    + set (p1 := (p {{ fds := q; next_fd := n; calls := c }}) {{ fb_fd := fd }}).
      assert (owns (fd :: l) (p1 {{ shim := s }})) as H2.
      { unfold own in H1. rewrite (proj2 (Z.leb_le 0 fd)) in H1 by done. by destruct p. }
      destruct (close_owns fd l _ H2) as (q2 & -> & H3). cbn [mbind option_bind]. intros [= <- <-].
      exists (-1), q2, n, c, s. assert (fb_open s = false) as Eo.
      { unfold SDL_SetVideoMode in E. destruct (_ || _); cbn in E; injection E as <- _; [done|by destruct p]. }
      unfold p1 in *. destruct p. upd. rewrite Z.add_0_r. done.
Qed.

(** What [SDL_Quit] leaves of a process that owned [l] and the rest. *)
Record quitted (l : list Z) (p p' : process) : Prop := {
  qt_fds : fds p' ≡ₚ l; qt_maps : mappings p' = mappings p - (if 0 <? mapped_words (shim p) then 1 else 0);
  qt_vars : (fb_fd p', touch_fd p', keys_fd p', fifo_fd p') = (-1, -1, -1, -1);
  qt_threads : (input_thread_running p', g_timer_thread_running p', input_thread p', g_timer_thread p') = (false, false, false, false);
  qt_worker : worker_fds p' = worker_fds p; qt_backup : osk_backup (shim p') = None; qt_fb : mapped_words (shim p') <= 0 }.

Lemma unmap_spec p : exists s, unmap_fb p = p {{ shim := s; mappings := mappings p - (if 0 <? mapped_words (shim p) then 1 else 0) }} /\
  osk_backup s = osk_backup (shim p) /\ mapped_words s <= 0 /\ fb_open s = fb_open (shim p).
Proof.
  unfold unmap_fb. destruct p as [s f t k i w ir tr it tt fs n m c]. cbn [shim mappings]. destruct (Z.ltb_spec 0 (mapped_words s)).
  - eexists. split; [reflexivity|]. by split_and!.
  - exists s. rewrite Z.sub_0_r. by split_and!.
Qed.

Lemma quit_owns l p : owns (own (touch_fd p) ++ own (keys_fd p) ++ own (fifo_fd p) ++ own (fb_fd p) ++ l) p ->
  Forall (Z.le (-1)) [touch_fd p; keys_fd p; fifo_fd p; fb_fd p] ->
  input_thread_running p && g_timer_thread_running p && input_thread p && g_timer_thread p = true ->
  (fb_fd p = -1 -> fb_open (shim p) = false) ->
  exists p', SDL_Quit p = Some p' /\ quitted l p p'.
Proof.
  destruct p as [s f t k i w ir tr it tt fs n m c]. cbn [touch_fd keys_fd fifo_fd fb_fd input_thread_running g_timer_thread_running input_thread g_timer_thread shim].
  intros H F T Hb. rewrite !Forall_cons in F. destruct F as (Ft & Fk & Fi & Ff & _). bprop. subst. unfold SDL_Quit, join. upd.
  set (p1 := mkproc s f t k i w false false false false fs n m c).
  destruct (close_fd_owns t no_touch (own k ++ own i ++ own f ++ l) p1 Ft) as (q1 & -> & H1); [by intros ->|done|]. cbn [mbind option_bind].
  unfold p1, no_touch in *. upd. set (p2 := mkproc s f (-1) k i w false false false false q1 n m c).
  destruct (close_fd_owns k no_keys (own i ++ own f ++ l) p2 Fk) as (q2 & -> & H2); [by intros ->|done|]. cbn [mbind option_bind].
  unfold p2, no_keys in *. upd. set (p3 := mkproc s f (-1) (-1) i w false false false false q2 n m c).
  destruct (close_fd_owns i no_fifo (own f ++ l) p3 Fi) as (q3 & -> & H3); [by intros ->|done|]. cbn [mbind option_bind].
  unfold p3, no_fifo in *. cbv [apply_update constant]. cbn [shim osk_backup fb_fd].
  match goal with |- context [unmap_fb ?x] => set (p4 := x); destruct (unmap_spec p4) as (s2 & E1 & E2 & E3 & E4) end.
  assert (fb_fd (unmap_fb p4) = f) as -> by (by rewrite E1).
  destruct (close_fd_owns f no_fb l (unmap_fb p4) Ff) as (q4 & -> & H4).
  - intros ->. rewrite E1. unfold no_fb. upd. do 2 f_equal. specialize (Hb eq_refl). assert (fb_open s2 = false) as Eo by (rewrite E4; exact Hb). destruct s2. cbn in *. by rewrite Eo.
  - rewrite E1. done.
  - eexists. split; [reflexivity|]. destruct H4 as (P & _). rewrite E1 in *. by split.
Qed.

(** What the shim takes it gives back, but for the descriptors of its input
    thread.  Whatever the files that open and the mapping, and whatever happens
    while the browser runs: after [SDL_Quit] both threads are joined, no
    descriptor was closed that was not open, the process has the mappings it
    had before [SDL_Init] and its descriptors, and besides them those that
    [input_worker] opened for itself (at most three), the backup of the
    keyboard is freed and no variable names a descriptor. *)
Theorem shim_gives_back mapped cmdline flags l p surface p2 s :
  owns l p -> fb_fd p = -1 -> fb_open (shim p) = false ->
  set_video_mode openable mapped cmdline flags (snd (SDL_Init openable created p)) = Some (surface, p2) ->
  (0 <? mapped_words s) = (match surface with Some _ => true | None => false end) -> fb_open s = fb_open (shim p2) ->
  exists ws p3, SDL_Quit (p2 {{ shim := s }}) = Some p3 /\ (length ws <= 3)%nat /\ worker_fds p3 = ws ++ worker_fds p /\
    fds p3 ≡ₚ ws ++ l /\ mappings p3 = mappings p /\
    (fb_fd p3, touch_fd p3, keys_fd p3, fifo_fd p3) = (-1, -1, -1, -1) /\
    (input_thread_running p3, g_timer_thread_running p3, input_thread p3, g_timer_thread p3) = (false, false, false, false) /\
    osk_backup (shim p3) = None /\ mapped_words (shim p3) <= 0.
Proof.
  intros H Hf Ho E Hm Hs. destruct (init_owns l p H) as (ws & p1 & E1 & [S1 S2 S3 S4 S5 S6 S7 S8]). rewrite E1 in E. cbn [snd] in E.
  destruct (mode_owns _ _ _ _ _ _ _ S1 ltac:(by rewrite S5) ltac:(by rewrite S6) E) as (fd & q & n & c & s2 & -> & Hfd & O & Hn).
  set (p2 := p1 {{ fb_fd := fd; fds := q; next_fd := n; calls := c; shim := s2; mappings := mappings p1 + match surface with Some _ => 1 | None => 0 end }}) in *.
  destruct (quit_owns (ws ++ l) (p2 {{ shim := s }})) as (p3 & E3 & [Q1 Q2 Q3 Q4 Q5 Q6 Q7]).

  - destruct O as (P & R). unfold p2 in *. destruct p1. split; [|exact R]. cbn in *. rewrite P. solve_Permutation.
  - rewrite !Forall_cons in S4. destruct S4 as (? & ? & ? & _). unfold p2. destruct p1. by repeat apply Forall_cons_2.
  - unfold p2. by destruct p1.
  - intros Ef. assert (fd = -1) as Efd by (unfold p2 in Ef; by destruct p1).
    assert (shim (p2 {{ shim := s }}) = s /\ shim p2 = s2) as [-> Es2] by (unfold p2; by destruct p1). rewrite Hs, Es2. by apply Hn.
  - exists ws, p3. split; [done|]. split; [done|]. assert (shim (p2 {{ shim := s }}) = s /\ mappings (p2 {{ shim := s }}) = mappings p + match surface with Some _ => 1 | None => 0 end /\
      worker_fds (p2 {{ shim := s }}) = worker_fds p1) as (Es & Em & Ew) by (rewrite <- S7; unfold p2; by destruct p1).
    rewrite Q5, Q2, Es, Em, Ew, Hm. split_and!; try done. destruct surface; lia.
Qed.
End Ledger.

(** A browser that starts, shows a page and quits. *)
Definition demo_process : process := mkproc sdl_init (-1) (-1) (-1) (-1) [] false false false false [2; 1; 0] 3 0 0.
Definition opens_all (k : nat) (path : list Z) : bool := true.
Definition both_threads (b : bool) : bool := true.

Lemma demo_owns : owns [2; 1; 0] demo_process.
Proof.
  split; [reflexivity|]. split; [|split; [|done]].
  - apply (bool_decide_unpack _). vm_compute. exact I.
  - repeat (apply Forall_cons_2; [cbn; lia|]). apply Forall_nil_2.
Qed.

(** With a page address in ASCII the first page is drawn. *)
Lemma first_page_drawn s : ascii (url s) ->
  exists s', SDL_SetVideoMode true true [] s = Some (s', true) /\ mapped_words s' = panel_words.
Proof.
  intros Hu. unfold SDL_SetVideoMode. rewrite orb_true_r. set (m0 := {| words := fun _ => 0xFFFF; nwords := panel_words |}).
  set (s0 := s {{ fb_open := true; fb := Some m0; clip_h := 1872 }}). change (init_current_url [] s0) with s0.
  assert (ascii (url s0)) as Hu0 by (unfold s0; by destruct s).
  destruct (confined_url_bar s0 Hu0 m0) as (m' & E & Hn & _); [by apply panel_ok|].
  unfold draw_url_bar_overlay, draw. change (fb s0) with (Some m0). cbn iota. rewrite E. cbn [mbind option_bind].
  eexists. split; [reflexivity|]. unfold epdc_refresh_full, epdc_refresh_area, mapped_words.
  destruct (fb_open _); [|exact Hn]. cbv zeta. by destruct (_ || _).
Qed.

Lemma mode_shown openable flags p : openable (S (calls p)) FB_PATH = true -> fb_fd p = -1 -> 0 <= next_fd p -> ascii (url (shim p)) ->
  exists p2, set_video_mode openable true [] flags p = Some (Some (main_surface flags), p2) /\ mapped_words (shim p2) = panel_words.
Proof.
  intros Ho Hf Hn Hu. destruct (first_page_drawn (shim p) Hu) as (s & E & M). unfold set_video_mode, sys_open. rewrite Hf.
  destruct p as [s0 f t k i w ir tr it tt fs n m c]. cbn in Ho, Hn. upd. rewrite Ho. upd. rewrite (proj2 (Z.leb_le 0 n)), (proj2 (Z.ltb_ge n 0)) by done.
  cbn in E. rewrite E. eexists. by split.
Qed.

Lemma shim_gives_back_witness : exists p2 p3 ws, SDL_Quit p2 = Some p3 /\ fds p3 ≡ₚ ws ++ [2; 1; 0] /\ (length ws <= 3)%nat /\ mappings p3 = 0.
Proof.
  destruct (mode_shown opens_all 0 (snd (SDL_Init opens_all both_threads demo_process))) as (p2 & E & M).
  - reflexivity.
  - vm_compute. reflexivity.
  - vm_compute. discriminate.
  - apply (bool_decide_unpack _). vm_compute. exact I.
  - destruct (shim_gives_back opens_all both_threads (fun _ => eq_refl) true [] 0 [2; 1; 0] demo_process _ p2 (shim p2) demo_owns eq_refl eq_refl E)
      as (ws & p3 & Q & L & _ & P & Mp & _).
    + rewrite M. reflexivity.
    + reflexivity.
    + exists (p2 {{ shim := shim p2 }}), p3, ws. split; [exact Q|]. split; [exact P|]. split; [exact L|exact Mp].
Defined.

(** ** Behaviours at the edges *)

(** The descriptors of the input thread are never closed: three more for each
    start and end of the library. *)
Definition start_and_quit (p : process) : option process := SDL_Quit (snd (SDL_Init opens_all both_threads p)).
Lemma each_start_leaks : (fun p => length (fds p)) <$> start_and_quit demo_process = Some 6%nat /\
  (fun p => length (fds p)) <$> (start_and_quit demo_process ≫= start_and_quit) = Some 9%nat.
Proof. split; vm_compute; reflexivity. Qed.

(** A thread that could not be created is joined. *)
Lemma missing_thread_joined openable created p : created false = false -> SDL_Quit (snd (SDL_Init openable created p)) = None.
Proof.
  intros H. unfold SDL_Init. destruct (sys_open _ _ p) as [fd p1]. destruct (open_keys _ _) as [fd1 p2]. destruct (sys_open _ FIFO_PATH _) as [fd2 p3].
  rewrite H. cbv zeta. unfold SDL_Quit. destruct (if created true then _ else _) as []. reflexivity.
Qed.

(** Another [SDL_SetVideoMode] maps the framebuffer again and forgets the first
    mapping. *)
(** ** Waiting and the clock *)

Lemma arrivals_head evs q ev l : events_ok q -> pending q = ev :: l ->
  exists l', let q' := foldl (fun q ev => queue_event ev q) q evs in events_ok q' /\ pending q' = ev :: l'.
Proof.
  revert q l. induction evs as [|e evs IH]; intros q l H P; cbn [foldl]; [by exists l|].
  pose proof (push_newest_contents MAX_EVENTS no_sdl_event e q H) as C. fold (pending q) in C. rewrite P in C.
  destruct (_ <? _); (eapply IH; [by apply push_newest_ok|exact C]).
Qed.

(** The call returns the first event that is queued, after any number of empty
    sleeps. *)
Theorem wait_event_first q n ev evs rest : events_ok q -> pending q = [] ->
  exists q', SDL_WaitEvent (replicate n [] ++ (ev :: evs) :: rest) q = Some (ev, q') /\ events_ok q'.
Proof.
  intros H P. pose proof (pop_contents MAX_EVENTS no_sdl_event q H) as D. fold (pending q) (dequeue_event q) in D.
  assert (dequeue_event q = None) as E by (destruct (dequeue_event q) as [[x r]|]; [congruence|done]).
  induction n as [|n IH]; cbn [replicate app SDL_WaitEvent]; rewrite E; [|exact IH]. cbn [foldl].
  pose proof (push_newest_contents MAX_EVENTS no_sdl_event ev q H) as C. fold (pending q) (queue_event ev q) in C. rewrite P in C.
  destruct (arrivals_head evs (queue_event ev q) ev []) as (l & H2 & P2); [by apply push_newest_ok|exact C|].
  cbv zeta in *. set (q2 := foldl _ _ evs) in *. pose proof (pop_contents MAX_EVENTS no_sdl_event q2 H2) as D2. fold (pending q2) (dequeue_event q2) in D2.
  assert (exists q3, dequeue_event q2 = Some (ev, q3)) as [q3 E3].
  { destruct (dequeue_event q2) as [[x r]|]; [|congruence]. exists r. rewrite P2 in D2. congruence. }
  exists q3. split; [|by eapply pop_ok]. by destruct rest; cbn [SDL_WaitEvent]; rewrite E3.
Qed.

(** The clock does not go back where the system's does not and the result fits. *)
Theorem time_monotone s ns s' ns' : 0 <= s -> 0 <= ns < 1000000000 -> 0 <= ns' < 1000000000 -> s < s' \/ s = s' /\ ns <= ns' ->
  s' * 1000 + 1000 < 2 ^ 64 -> get_time_ms s ns <= get_time_ms s' ns'.
Proof.
  intros Hs Hn Hn' Hl Hb. unfold get_time_ms. rewrite !Z.quot_div_nonneg by lia.
  pose proof (Z.div_pos ns 1000000). pose proof (Z.div_pos ns' 1000000). pose proof (Z.div_lt_upper_bound ns 1000000 1000).
  pose proof (Z.div_lt_upper_bound ns' 1000000 1000). pose proof (Z.div_le_mono ns ns' 1000000). rewrite !Z.mod_small by lia. lia.
Qed.
