(* ===== verification/AppSwitcher.v ===== *)
(** * The application switcher, [app-switcher.c]

    The modal dialog that suspends the running program, shows nine buttons and
    switches to another program, drives the music player or closes.  The
    definitions follow [main] from its set-up to its exit: drawing is on the
    mapped framebuffer of [Framebuffer], the touch loop is a function of the
    sequence of [select] results and events it reads, and what the program
    does to the rest of the system is a trace. *)

From Stdlib Require Import Ascii String.
From S2P Require Import Prelude CString Input Framebuffer Overlay.

Definition DLG_X := 132.
Definition DLG_Y := 200.
Definition DLG_W := 1140.
Definition DLG_H := 1470.
Definition COLOR_WHITE := 0xFFFF.
Definition COLOR_BLACK := 0x0000.
Definition COLOR_GRAY_LT := 0xDEFB.
Definition COLOR_GRAY_DK := 0x4208.

(** ** The buttons *)
Record button := mkbutton {
  b_id : Z; b_x : Z; b_y : Z; b_w : Z; b_h : Z;
  b_text : list Z; b_subtext : list Z; b_primary : bool }.

Definition BTN_KOREADER := 1.
Definition BTN_PLATO := 2.
Definition BTN_NETSURF := 3.
Definition BTN_MUSIC_PREV := 4.
Definition BTN_MUSIC_PLAY := 5.
Definition BTN_MUSIC_NEXT := 6.
Definition BTN_MUSIC_SHUFFLE := 7.
Definition BTN_FRONTLIGHT := 8.
Definition BTN_CLOSE := 9.

(** The [buttons] array; [draw_music_section] rewrites the texts of two of its
    entries, the arguments. *)
Definition button_table (play shuffle : list Z) : list button :=
  [ mkbutton BTN_KOREADER 202 360 1000 120 (cstr "KOReader") (cstr "PDF, EPUB, MOBI Document Viewer") false;
    mkbutton BTN_PLATO 202 500 1000 120 (cstr "Plato Reader") (cstr "Fast Touch-Driven Rust Reader") false;
    mkbutton BTN_NETSURF 202 640 1000 120 (cstr "NetSurf Web Browser") (cstr "Lightweight Web Browsing") false;
    mkbutton BTN_MUSIC_PREV 202 980 230 100 (cstr "|<< Prev") [] false;
    mkbutton BTN_MUSIC_PLAY 452 980 270 100 play [] true;
    mkbutton BTN_MUSIC_NEXT 742 980 230 100 (cstr "Next >>|") [] false;
    mkbutton BTN_MUSIC_SHUFFLE 992 980 210 100 shuffle [] false;
    mkbutton BTN_FRONTLIGHT 202 1160 1000 110 (cstr "Toggle Frontlight (Cool/Warm)") (cstr "Switch Frontlight On / Off") false;
    mkbutton BTN_CLOSE 202 1290 1000 110 (cstr "Close / Keep Reading") (cstr "Resume current book or page") true ].

Definition buttons_init : list button := button_table (cstr "Play / Pause") (cstr "Shuffle").

(** ** State, environment and trace *)
Inductive sw_effect :=
  | Update (u : epdc_update)
  | Run (cmd : string)
  | Grab (on : bool)
  | TouchDown (raw_x raw_y x y : Z)
  | TouchUp (raw_x raw_y x y : Z).

(** The file-scope variables and the locals of [main]; [tmp] is the files of
    [/tmp], [nquery] counts the runs of the status script. *)
Record sw := mksw {
  screen : option fbmem; backup_mem : option fbmem;
  active_app : list Z; buttons : list button;
  last_raw_x : Z; last_raw_y : Z;
  is_contact_down : bool; was_contact_down : bool;
  active_pressed_btn : option nat; chosen_action : Z; g_running : bool;
  tmp : gmap string (list Z); nquery : nat; log : list sw_effect }.

(** What the program meets: the framebuffer nodes and mapping, the [malloc]ed
    backup, whether the touch device opens and can be grabbed, the output of
    each run of [audiocontrol.sh status] ([None]: [popen] fails), the two
    battery files, and which paths open for writing. *)
Record swenv := mkswenv {
  sw_open : bool; sw_open_alt : bool; sw_mmap : option (Z -> Z);
  sw_malloc : option (Z -> Z); sw_touch : bool;
  sw_player : nat -> option (list Z);
  sw_capacity : option (list Z); sw_power : option (list Z);
  sw_can_write : string -> bool }.

Section Switcher.
Context (e : swenv).

Definition sw_log (x : sw_effect) (s : sw) : sw := s {{ log := log s ++ [x] }}.
Definition run_cmd (cmd : string) (s : sw) : sw := sw_log (Run cmd) s.

Definition refresh (left top width height mode : Z) (s : sw) : sw :=
  sw_log (Update (epdc_request left top width height mode)) s.

(** A sequence of drawing calls on the mapping. *)
Definition paint (l : list (fbmem -> option fbmem)) (s : sw) : option sw :=
  m ← screen s; m' ← draws l m; Some (s {{ screen := Some m' }}).

(** ** The music player's state *)

(** What a string function sees in a buffer of [n] bytes filled by
    [snprintf], or by [strncpy] with [n - 1] over zeros. *)
Definition buffered (n : nat) (s : list Z) : list Z := take (n - 1) s.

(** The lines a [fgets] loop with a buffer of [len] reads. *)
Fixpoint fgets_lines (fuel : nat) (len : Z) (s : list Z) : list (list Z) :=
  match fuel, fgets len s with
  | S f, Some l => l :: fgets_lines f len (drop (length l) s)
  | _, _ => []
  end.

(** The text after the last [/] ([strrchr]). *)
Fixpoint after_last_slash (t s : list Z) : list Z :=
  match s with
  | [] => t
  | c :: s' => if c =? 47 then after_last_slash s' s' else after_last_slash t s'
  end.
Definition basename (t : list Z) : list Z := after_last_slash t t.

Record music := mkmusic { mu_status : list Z; mu_track : list Z; mu_shuffle : bool }.

Definition music_line (q : music) (raw : list Z) : music :=
  let line := cut_at [13; 10] (to_nul raw) in
  if starts_with (cstr "STATUS:") line then q {{ mu_status := buffered 32 (drop 7 line) }}
  else if starts_with (cstr "TRACK:") line then
    q {{ mu_track := buffered 256 (basename (drop 6 line)) }}
  else if starts_with (cstr "SHUFFLE:1") line then q {{ mu_shuffle := true }}
  else q.

Definition query_music_status (output : option (list Z)) : music :=
  let q := {| mu_status := cstr "STOPPED"; mu_track := []; mu_shuffle := false |} in
  match output with
  | None => q
  | Some text => fold_left music_line (fgets_lines (S (length text)) 512 text) q
  end.

(** ** The battery *)
Definition battery_tag (status : list Z) : list Z :=
  if streq status (cstr "Charging") then cstr "CHG"
  else if streq status (cstr "Discharging") then cstr "DIS"
  else if streq status (cstr "Full") then cstr "FULL"
  else if streq status (cstr "Not charging") then cstr "-"
  else cstr "?".

Definition query_battery_status (len : nat) : list Z :=
  let cap := match sw_capacity e ≫= scan_int with Some (cap, _) => cap | None => -1 end in
  if (cap <? 0) || (100 <? cap) then buffered len (cstr "BAT n/a")
  else
    let status := match sw_power e ≫= fgets 32 with
                  | Some l => cut_at [13; 10] (to_nul l) | None => [] end in
    buffered len (cstr "BAT " ++ int_string cap ++ cstr "% " ++ battery_tag status).

(** ** Drawing the dialog *)
Definition button_label (app : list Z) (b : button) : list Z :=
  if ((b_id b =? BTN_KOREADER) && streq app (cstr "koreader")) ||
     ((b_id b =? BTN_PLATO) && streq app (cstr "plato")) ||
     ((b_id b =? BTN_NETSURF) && streq app (cstr "netsurf"))
  then buffered 128 (b_text b ++ cstr "  [Running]")
  else buffered 128 (b_text b).

Definition draw_button_widget (app : list Z) (b : button) (pressed : bool) :=
  let bg := if pressed then COLOR_BLACK else COLOR_WHITE in
  let fg := if pressed then COLOR_WHITE else COLOR_BLACK in
  let label := button_label app b in
  [ draw_rect panel (b_x b) (b_y b) (b_w b) (b_h b) bg;
    draw_rect_outline panel (b_x b) (b_y b) (b_w b) (b_h b) 4 COLOR_BLACK ] ++
  if negb (bool_decide (b_subtext b = [])) then
    [ draw_string_centered panel (b_x b) (b_y b + 16) (b_w b) 36 label 2 fg bg;
      draw_string_centered panel (b_x b) (b_y b + 60) (b_w b) 24 (b_subtext b) 1 fg bg ]
  else
    let scale := if 90 <=? b_h b then 2 else 1 in
    [ draw_string_centered panel (b_x b) (b_y b) (b_w b) (b_h b) label scale fg bg ].

(** [draw_button_widget(&buttons[i], pressed)]. *)
Definition widget (app : list Z) (bs : list button) (pressed : bool) (i : nat) :=
  match bs !! i with Some b => draw_button_widget app b pressed | None => [fun _ => None] end.

Definition pad_right (n : nat) (s : list Z) : list Z := s ++ repeat 32 (n - length s).

Definition music_info (q : music) : list Z :=
  buffered 256 (cstr "Track: " ++ if bool_decide (mu_track q = []) then cstr "(No track loaded)"
                                  else take 45 (mu_track q)).
Definition music_state (q : music) : list Z :=
  buffered 128 (cstr "Status: " ++ pad_right 8 (mu_status q) ++ cstr "  |  Shuffle: " ++
                pad_right 3 (if mu_shuffle q then cstr "ON" else cstr "OFF")).

Definition music_box (q : music) :=
  [ draw_rect panel 202 800 1000 160 COLOR_WHITE;
    draw_rect_outline panel 202 800 1000 160 3 COLOR_GRAY_DK;
    draw_rect panel 202 800 1000 36 COLOR_GRAY_LT;
    draw_string panel (202 + 20) (800 + 8) (cstr "BACKGROUND MUSIC PLAYER (3.5mm & BLUETOOTH)") 1
      COLOR_BLACK COLOR_GRAY_LT;
    draw_string panel (202 + 20) (800 + 50) (music_info q) 2 COLOR_BLACK COLOR_WHITE;
    draw_string panel (202 + 20) (800 + 98) (music_state q) 2 COLOR_GRAY_DK COLOR_WHITE ].

(** The loop that updates the Play/Pause and Shuffle texts. *)
Definition music_labels (q : music) : list button -> list button :=
  map (fun b =>
    let b := if b_id b =? BTN_MUSIC_PLAY
             then b {{ b_text := if streq (mu_status q) (cstr "PLAYING")
                                 then cstr "Pause [||]" else cstr "Play [>]" }} else b in
    if b_id b =? BTN_MUSIC_SHUFFLE
    then b {{ b_text := if mu_shuffle q then cstr "Shuf: ON" else cstr "Shuf: OFF" }} else b).

Definition draw_music_section (s : sw) : option sw :=
  let q := query_music_status (sw_player e (nquery s)) in
  s ← paint (music_box q) (s {{ nquery := S (nquery s) }});
  let s := s {{ buttons := music_labels q (buttons s) }} in
  paint (concat (map (widget (active_app s) (buttons s) false) [3; 4; 5; 6]%nat)) s.

Definition dialog_frame :=
  let batt := query_battery_status 48 in
  [ draw_rect panel DLG_X DLG_Y DLG_W DLG_H COLOR_WHITE;
    draw_rect_outline panel DLG_X DLG_Y DLG_W DLG_H 6 COLOR_BLACK;
    draw_rect panel DLG_X DLG_Y DLG_W 90 COLOR_BLACK;
    draw_string_centered panel DLG_X DLG_Y DLG_W 90 (cstr "NOOK APPLICATION SWITCHER") 2
      COLOR_WHITE COLOR_BLACK;
    draw_string panel (DLG_X + DLG_W - strlen batt * 16 - 24) (DLG_Y + 29) batt 2
      COLOR_WHITE COLOR_BLACK;
    draw_string panel 202 315 (cstr "SELECT APPLICATION TO RUN:") 2 COLOR_GRAY_DK COLOR_WHITE ].

Definition draw_dialog (s : sw) : option sw :=
  s ← paint dialog_frame s;
  s ← paint (concat (map (widget (active_app s) (buttons s) false) [0; 1; 2]%nat)) s;
  s ← draw_music_section s;
  paint (concat (map (widget (active_app s) (buttons s) false) [7; 8]%nat)) s.

(** ** The active program *)
Definition find_active_app (fs : gmap string (list Z)) : list Z :=
  let f := match fs !! "/tmp/current_app"%string with
           | Some c => Some c | None => fs !! "/tmp/active_reader"%string end in
  let buf := match f with
             | Some c => match fgets 32 c with
                         | Some l => cut_at [13; 10] (to_nul l) | None => [] end
             | None => [] end in
  if bool_decide (buf = []) then cstr "koreader" else buf.

(** The processes of a program, and the two signals sent to them. *)
Definition suspend_active_app (s : sw) : sw :=
  if streq (active_app s) (cstr "koreader") then
    run_cmd "killall -STOP luajit 2>/dev/null || true" s
  else if streq (active_app s) (cstr "plato") then
    run_cmd "killall -STOP ld-2.19.so 2>/dev/null; killall -STOP plato 2>/dev/null || true" s
  else if streq (active_app s) (cstr "netsurf") then
    run_cmd "killall -STOP netsurf-fb 2>/dev/null || true" s
  else s.

Definition resume_active_app (s : sw) : sw :=
  if streq (active_app s) (cstr "koreader") then
    run_cmd "killall -CONT luajit 2>/dev/null || true" s
  else if streq (active_app s) (cstr "plato") then
    run_cmd "killall -CONT ld-2.19.so 2>/dev/null; killall -CONT plato 2>/dev/null || true" s
  else if streq (active_app s) (cstr "netsurf") then
    run_cmd "killall -CONT netsurf-fb 2>/dev/null || true" s
  else s.

(** ** Touch handling *)
Definition PAD_X := 35.
Definition PAD_Y := 15.

Definition hits (x y : Z) (b : button) : bool :=
  (b_x b - PAD_X <=? x) && (x <=? b_x b + b_w b + PAD_X) &&
  (b_y b - PAD_Y <=? y) && (y <=? b_y b + b_h b + PAD_Y).

(** The first button whose padded box holds the point. *)
Fixpoint hit_test (x y : Z) (bs : list button) : option nat :=
  match bs with
  | [] => None
  | b :: bs' => if hits x y b then Some O else S <$> hit_test x y bs'
  end.

Definition clamp_axis (v n : Z) : Z :=
  let v := if v <? 0 then 0 else v in if n <=? v then n - 1 else v.
(** The digitizer is mounted rotated. *)
Definition screen_x (s : sw) : Z := clamp_axis (1403 - last_raw_y s) 1404.
Definition screen_y (s : sw) : Z := clamp_axis (last_raw_x s) 1872.

Definition positioned (s : sw) : bool := (0 <=? last_raw_x s) && (0 <=? last_raw_y s).

(** Drawing the pressed or released look of [buttons[i]]. *)
Definition show_button (pressed : bool) (i : nat) (s : sw) : option sw :=
  b ← buttons s !! i;
  s ← paint (widget (active_app s) (buttons s) pressed i) s;
  Some (refresh (b_x b) (b_y b) (b_w b) (b_h b) 1 s).

Definition touch_press (s : sw) : option sw :=
  let s := s {{ was_contact_down := true }} in
  if positioned s then
    let x := screen_x s in
    let y := screen_y s in
    let s := sw_log (TouchDown (last_raw_x s) (last_raw_y s) x y) s in
    s ← paint [draw_rect panel (x - 6) (y - 6) 12 12 COLOR_BLACK] s;
    let s := refresh (x - 8) (y - 8) 16 16 1 s in
    let s := s {{ active_pressed_btn := hit_test x y (buttons s) }} in
    match active_pressed_btn s with
    | Some i => show_button true i s
    | None => Some s
    end
  else Some s.

Definition outside_dialog (x y : Z) : bool :=
  (x <? DLG_X - 20) || (DLG_X + DLG_W + 20 <? x) ||
  (y <? DLG_Y - 20) || (DLG_Y + DLG_H + 20 <? y).

Definition music_action (cmd : string) (s : sw) : option sw :=
  s ← draw_music_section (run_cmd cmd s);
  Some (refresh 202 800 1000 300 1 s).

(** The [switch] on the target's id. *)
Definition button_action (id : Z) (s : sw) : option sw :=
  if id =? BTN_MUSIC_PREV then music_action "/opt/audiocontrol.sh prev 2>/dev/null" s
  else if id =? BTN_MUSIC_PLAY then music_action "/opt/audiocontrol.sh pause 2>/dev/null" s
  else if id =? BTN_MUSIC_NEXT then music_action "/opt/audiocontrol.sh next 2>/dev/null" s
  else if id =? BTN_MUSIC_SHUFFLE then music_action "/opt/audiocontrol.sh shuffle 2>/dev/null" s
  else if id =? BTN_FRONTLIGHT then Some (run_cmd "/opt/scripts/toggle_frontlight.sh &" s)
  else Some (s {{ chosen_action := id; g_running := false }}).

(** The release; the flag is [break] out of the reading loop. *)
Definition touch_release (s : sw) : option (sw * bool) :=
  let s := s {{ was_contact_down := false }} in
  if positioned s then
    let x := screen_x s in
    let y := screen_y s in
    let s := sw_log (TouchUp (last_raw_x s) (last_raw_y s) x y) s in
    s ← match active_pressed_btn s with Some i => show_button false i s | None => Some s end;
    if outside_dialog x y then
      Some (s {{ chosen_action := BTN_CLOSE; g_running := false }}, true)
    else
      let target := match active_pressed_btn s with
                    | Some i => Some i | None => hit_test x y (buttons s) end in
      s ← match target with
          | Some i => b ← buttons s !! i; button_action (b_id b) s
          | None => Some s
          end;
      let s := s {{ active_pressed_btn := None }} in
      Some (s, negb (g_running s))
  else Some (s, false).

(** One event: the position and contact it carries, and at [SYN_REPORT] the
    state transition. *)
Definition touch_decode (ev : event) (s : sw) : sw :=
  if ev_type ev =? EV_ABS then
    if (ev_code ev =? 53) || (ev_code ev =? 0) then s {{ last_raw_x := ev_value ev }}
    else if (ev_code ev =? 54) || (ev_code ev =? 1) then s {{ last_raw_y := ev_value ev }}
    else if ev_code ev =? 57 then
      if ev_value ev =? -1 then s {{ is_contact_down := false }}
      else if 0 <=? ev_value ev then s {{ is_contact_down := true }}
      else s
    else s
  else if (ev_type ev =? EV_KEY) && (ev_code ev =? 330) then
    s {{ is_contact_down := negb (ev_value ev =? 0) }}
  else s.

Definition touch_event (ev : event) (s : sw) : option (sw * bool) :=
  let s := touch_decode ev s in
  if (ev_type ev =? EV_SYN) && (ev_code ev =? 0) then
    if negb (was_contact_down s) && is_contact_down s then
      s ← touch_press s; Some (s, false)
    else if was_contact_down s && negb (is_contact_down s) then touch_release s
    else Some (s, false)
  else Some (s, false).

(** ** The loop

    The reading loop meets events and, in between, termination signals. *)
Inductive arrival := Ev (ev : event) | Term.

Fixpoint read_events (l : list arrival) (s : sw) : option sw :=
  match l with
  | [] => Some s
  | Term :: l' => read_events l' (s {{ g_running := false }})
  | Ev ev :: l' =>
      '(s, brk) ← touch_event ev s;
      if brk : bool then Some s else read_events l' s
  end.

(** What [select] returns; each comes with whether a signal was handled since
    the loop test. *)
Inductive select_result := SelReady (l : list arrival) | SelTimeout | SelIntr | SelError.

Inductive progress := Waiting (s : sw) | Left (s : sw).

Fixpoint event_loop (l : list (bool * select_result)) (s : sw) : option progress :=
  if negb (g_running s) then Some (Left s) else
  match l with
  | [] => Some (Waiting s)
  | (sig, r) :: l' =>
      let s := if sig : bool then s {{ g_running := false }} else s in
      match r with
      | SelError => Some (Left s)
      | SelIntr | SelTimeout => event_loop l' s
      | SelReady evs =>
          if sw_touch e then s ← read_events evs s; event_loop l' s else event_loop l' s
      end
  end.

(** ** Set-up and exit *)
Definition put_file (path : string) (c : list Z) (s : sw) : sw :=
  if sw_can_write e path then s {{ tmp := <[path := c]> (tmp s) }} else s.
Definition unlink (path : string) (s : sw) : sw := s {{ tmp := delete path (tmp s) }}.

(** Putting the saved words back and waking the program up. *)
Definition restore_dialog (s : sw) : option sw :=
  match backup_mem s with
  | Some bk =>
      m ← screen s;
      m' ← restore_rows panel DLG_X DLG_Y DLG_W DLG_H bk m;
      Some (s {{ screen := Some m' }})
  | None => Some s
  end.
Definition back_to_app (s : sw) : option sw :=
  s ← restore_dialog s;
  Some (resume_active_app (refresh DLG_X DLG_Y DLG_W DLG_H 1 s)).

Definition dispatch (s : sw) : option sw :=
  if chosen_action s =? BTN_KOREADER then
    if streq (active_app s) (cstr "koreader") then back_to_app s
    else
      Some (run_cmd "killall -9 ld-2.19.so 2>/dev/null; killall -9 plato 2>/dev/null; killall -9 netsurf-fb 2>/dev/null || true"
        (put_file "/tmp/active_reader" (cstr "koreader" ++ [10])
          (put_file "/tmp/current_app" (cstr "koreader" ++ [10]) s)))
  else if chosen_action s =? BTN_PLATO then
    if streq (active_app s) (cstr "plato") then back_to_app s
    else
      Some (run_cmd "killall -9 luajit 2>/dev/null; killall -9 netsurf-fb 2>/dev/null || true"
        (put_file "/tmp/active_reader" (cstr "plato" ++ [10])
          (put_file "/tmp/current_app" (cstr "plato" ++ [10]) s)))
  else if chosen_action s =? BTN_NETSURF then
    Some (run_cmd "/opt/start_browser.sh &"
      (run_cmd "killall -9 ld-2.19.so 2>/dev/null; killall -9 plato 2>/dev/null; killall -9 luajit 2>/dev/null || true"
        (put_file "/tmp/current_app" (cstr "netsurf" ++ [10]) s)))
  else back_to_app s.

Definition sw_init (fs : gmap string (list Z)) : sw :=
  {| screen := None; backup_mem := None; active_app := cstr "koreader";
     buttons := buttons_init; last_raw_x := -1; last_raw_y := -1;
     is_contact_down := false; was_contact_down := false; active_pressed_btn := None;
     chosen_action := 0; g_running := true; tmp := fs; nquery := 0; log := [] |}.

(** Marking the switcher active and stopping the program under it. *)
Definition sw_start (fs : gmap string (list Z)) : sw :=
  let s := put_file "/tmp/switcher_active" [] (sw_init fs) in
  suspend_active_app (s {{ active_app := find_active_app (tmp s) }}).

(** [main] returns a status, or is still waiting for input. *)
Inductive outcome := Exited (status : Z) (s : sw) | Blocked (s : sw).

Definition setup_failed (s : sw) : outcome :=
  Exited 1 (unlink "/tmp/switcher_active" (resume_active_app s)).

(** Saving the area behind the dialog. *)
Definition save_dialog (m : fbmem) : option (option fbmem) :=
  match sw_malloc e with
  | None => Some None
  | Some junk =>
      bk ← save_rows panel DLG_X DLG_Y DLG_W DLG_H m {| words := junk; nwords := DLG_W * DLG_H |};
      Some (Some bk)
  end.

Definition open_dialog (ws : Z -> Z) (s : sw) : option sw :=
  let m := {| words := ws; nwords := panel_words |} in
  bk ← save_dialog m;
  s ← draw_dialog (s {{ screen := Some m; backup_mem := bk }});
  let s := refresh DLG_X DLG_Y DLG_W DLG_H 1 s in
  Some (if sw_touch e then sw_log (Grab true) s else s).

Definition close_dialog (s : sw) : option sw :=
  s ← dispatch (if sw_touch e then sw_log (Grab false) s else s);
  Some (unlink "/tmp/switcher_active" s).

Definition main (fs : gmap string (list Z)) (inputs : list (bool * select_result)) : option outcome :=
  let s := sw_start fs in
  if negb (sw_open e || sw_open_alt e) then Some (setup_failed s)
  else
    match sw_mmap e with
    | None => Some (setup_failed s)
    | Some ws =>
        s ← open_dialog ws s;
        p ← event_loop inputs s;
        match p with
        | Waiting s => Some (Blocked s)
        | Left s => s ← close_dialog s; Some (Exited 0 s)
        end
    end.
End Switcher.
