(* ===== verification/AppSwitcherProps.v ===== *)
(** * Properties of the application switcher

    The invariant of a dialog session (what it may have written to the screen,
    what its backup holds, which program commands it has run), that every step
    keeps it, and what follows for [main]: no access leaves the mapping, the
    screen comes back, no program is left stopped, and which button a gesture
    selects. *)

From Stdlib Require Import Ascii String.
From S2P Require Import Prelude CString Input Framebuffer Overlay AppSwitcher.

Abbreviation in_dialog := (in_box panel DLG_X DLG_Y DLG_W DLG_H).
Abbreviation in_dlg_confined := (confined panel DLG_X DLG_Y DLG_W DLG_H).

(** The words under the 12 x 12 mark of a touch the trace records. *)
Definition marked (l : list sw_effect) (i : Z) : Prop :=
  exists rx ry x y, TouchDown rx ry x y ∈ l /\ in_box panel (x - 6) (y - 6) 12 12 i.

Lemma marked_app l l' i : marked l i -> marked (l ++ l') i.
Proof. intros (rx & ry & x & y & Hin & Hi). exists rx, ry, x, y. rewrite elem_of_app. tauto. Qed.

(** ** The commands sent to other programs *)
Inductive killsig := SigStop | SigCont | SigKill.

(** The words of a command line. *)
Fixpoint cmd_words (cur s : list Z) : list (list Z) :=
  match s with
  | [] => [cur]
  | c :: s' => if c =? 32 then cur :: cmd_words [] s' else cmd_words (cur ++ [c]) s'
  end.

(** What the [killall] invocations of a command line send: a signal word, then
    names up to a redirection. *)
Inductive kstate := KIdle | KSignal | KNames (sg : killsig).
Fixpoint kills (k : kstate) (ws : list (list Z)) : list (killsig * list Z) :=
  match ws with
  | [] => []
  | w :: ws' =>
      match k with
      | KIdle => kills (if streq w (cstr "killall") then KSignal else KIdle) ws'
      | KSignal => kills (KNames (if streq w (cstr "-STOP") then SigStop
                                  else if streq w (cstr "-CONT") then SigCont else SigKill)) ws'
      | KNames sg => if starts_with (cstr "2>") w then kills KIdle ws'
                     else (sg, w) :: kills k ws'
      end
  end.

(** The process table: the names of the programs that run, and whether each is
    stopped. *)
Abbreviation proc_table := (gmap (list Z) bool).
Definition signal (ps : proc_table) (k : killsig * list Z) : proc_table :=
  match k with
  | (SigStop, n) => alter (fun _ => true) n ps
  | (SigCont, n) => alter (fun _ => false) n ps
  | (SigKill, n) => delete n ps
  end.
Definition effect_kills (x : sw_effect) : list (killsig * list Z) :=
  match x with Run cmd => kills KIdle (cmd_words [] (cstr cmd)) | _ => [] end.
Definition sent (l : list sw_effect) : list (killsig * list Z) := concat (map effect_kills l).
Definition processes (l : list sw_effect) (ps : proc_table) : proc_table :=
  fold_left signal (sent l) ps.

Lemma sent_app l l' : sent (l ++ l') = sent l ++ sent l'.
Proof. unfold sent. by rewrite map_app, concat_app. Qed.
Lemma sent_quiet l x : effect_kills x = [] -> sent (l ++ [x]) = sent l.
Proof. intros E. rewrite sent_app. unfold sent at 2. cbn. by rewrite E, !app_nil_r. Qed.

(** ** Buttons *)
Definition labels_fit (play shuffle : list Z) : Prop :=
  (length play <= 12)%nat /\ (length shuffle <= 9)%nat.

Definition box_inside (b : button) : Prop :=
  DLG_X <= b_x b /\ b_x b + b_w b <= DLG_X + DLG_W /\
  DLG_Y <= b_y b /\ b_y b + b_h b <= DLG_Y + DLG_H /\ 100 <= b_w b /\ 100 <= b_h b.

Lemma button_label_length app b :
  (length (button_label app b) <= length (b_text b) + 11)%nat.
Proof.
  unfold button_label, buffered. destruct (_ || _); rewrite length_take; [|lia].
  rewrite length_app. change (length (cstr "  [Running]")) with 11%nat. lia.
Qed.

(** Only the three program buttons get the [Running] tag. *)
Lemma button_label_plain app b :
  3 < b_id b -> (length (button_label app b) <= length (b_text b))%nat.
Proof.
  intros Hid. unfold button_label, BTN_KOREADER, BTN_PLATO, BTN_NETSURF.
  rewrite !(proj2 (Z.eqb_neq (b_id b) _)) by lia. cbn [andb orb].
  unfold buffered. rewrite length_take. lia.
Qed.

Lemma widget_confined app b p :
  box_inside b ->
  Z.of_nat (length (button_label app b)) * 16 <= b_w b ->
  Z.of_nat (length (b_subtext b)) * 8 <= b_w b ->
  Forall in_dlg_confined (draw_button_widget app b p).
Proof.
  intros (H1 & H2 & H3 & H4 & H5 & H6) Hl Hs. unfold draw_button_widget.
  apply Forall_app. split.
  - apply Forall_cons_2; [eapply confined_weaken; [..|apply confined_rect]; lia|].
    apply Forall_cons_2; [|apply Forall_nil_2].
    eapply confined_weaken; [..|apply confined_outline]; lia.
  - destruct (negb _).
    + apply Forall_cons_2; [eapply confined_weaken; [..|apply confined_centered]; lia|].
      apply Forall_cons_2; [eapply confined_weaken; [..|apply confined_centered]; lia|].
      apply Forall_nil_2.
    + rewrite (proj2 (Z.leb_le 90 (b_h b))) by lia.
      apply Forall_cons_2; [eapply confined_weaken; [..|apply confined_centered]; lia|].
      apply Forall_nil_2.
Qed.

Ltac strlens :=
  repeat match goal with
  | |- context [length (cstr ?s)] =>
      let n := eval vm_compute in (length (cstr s)) in change (length (cstr s)) with n
  end.

(** Every button of the table draws inside the dialog. *)
Lemma table_widget_confined app play shuffle p i :
  labels_fit play shuffle -> (i < 9)%nat ->
  Forall in_dlg_confined (widget app (button_table play shuffle) p i).
Proof.
  intros [Hp Hs] Hi. unfold widget.
  do 9 (destruct i as [|i];
    [cbn [lookup list_lookup button_table];
     match goal with |- Forall _ (draw_button_widget _ ?b _) =>
       pose proof (button_label_length app b); pose proof (button_label_plain app b) end;
     apply widget_confined; unfold box_inside, DLG_X, DLG_Y, DLG_W, DLG_H;
     unfold BTN_KOREADER, BTN_PLATO, BTN_NETSURF, BTN_MUSIC_PREV, BTN_MUSIC_PLAY, BTN_MUSIC_NEXT,
       BTN_MUSIC_SHUFFLE, BTN_FRONTLIGHT, BTN_CLOSE in *;
     cbn [b_id b_x b_y b_w b_h b_text b_subtext length] in *;
     repeat match goal with H : context [length (cstr ?s)] |- _ =>
       let n := eval vm_compute in (length (cstr s)) in change (length (cstr s)) with n in H end;
     strlens; lia|]).
  lia.
Qed.

Lemma table_length play shuffle : length (button_table play shuffle) = 9%nat.
Proof. done. Qed.

Lemma table_id play shuffle i b :
  button_table play shuffle !! i = Some b -> b_id b = Z.of_nat i + 1.
Proof. do 9 (destruct i as [|i]; [by intros [= <-]|]). done. Qed.

Lemma music_labels_table q play shuffle :
  exists play' shuffle', labels_fit play' shuffle' /\
    music_labels q (button_table play shuffle) = button_table play' shuffle'.
Proof.
  exists (if streq (mu_status q) (cstr "PLAYING") then cstr "Pause [||]" else cstr "Play [>]"),
         (if mu_shuffle q then cstr "Shuf: ON" else cstr "Shuf: OFF").
  split; [split; cases_if; strlens; lia|done].
Qed.

Lemma hit_test_range x y bs i : hit_test x y bs = Some i -> (i < length bs)%nat.
Proof.
  revert i. induction bs as [|b bs IH]; intros i; cbn [hit_test length]; [done|].
  destruct (hits x y b); [intros [= <-]; lia|].
  destruct (hit_test x y bs) as [j|]; [|done]. intros [= <-]. specialize (IH j eq_refl). lia.
Qed.

(** ** The texts fit the dialog *)
Lemma buffered_length n s : (length (buffered n s) <= n - 1)%nat.
Proof. unfold buffered. rewrite length_take. lia. Qed.

Lemma music_line_status q raw :
  (length (mu_status q) <= 31)%nat -> (length (mu_status (music_line q raw)) <= 31)%nat.
Proof.
  intros Hq. unfold music_line. repeat case_match; try done.
  upd. apply (buffered_length 32).
Qed.

Lemma query_status_length output :
  (length (mu_status (query_music_status output)) <= 31)%nat.
Proof.
  unfold query_music_status. destruct output as [text|]; [|vm_compute; lia].
  generalize (fgets_lines (S (length text)) 512 text) as ls. intros ls.
  assert (forall q, (length (mu_status q) <= 31)%nat ->
            (length (mu_status (fold_left music_line ls q)) <= 31)%nat) as G.
  { induction ls as [|l ls IH]; intros q Hq; [done|]. cbn [fold_left]. apply IH.
    by apply music_line_status. }
  apply G. vm_compute. lia.
Qed.

Lemma music_box_confined output :
  Forall in_dlg_confined (music_box (query_music_status output)).
Proof.
  pose proof (query_status_length output) as Hs.
  set (q := query_music_status output) in *. clearbody q.
  assert (length (music_info q) <= 52)%nat.
  { unfold music_info, buffered. rewrite length_take, length_app. strlens.
    cases_if; strlens; rewrite ?length_take; lia. }
  assert (length (music_state q) <= 56)%nat.
  { unfold music_state, buffered, pad_right. rewrite length_take, !length_app, !repeat_length.
    cases_if; strlens; lia. }
  unfold music_box, DLG_X, DLG_Y, DLG_W, DLG_H. confines.
Qed.

Lemma dialog_frame_confined e : Forall in_dlg_confined (dialog_frame e).
Proof.
  unfold dialog_frame, strlen. set (batt := query_battery_status e 48).
  assert (length batt <= 47)%nat.
  { unfold batt, query_battery_status. cases_if; apply buffered_length. }
  clearbody batt. unfold DLG_X, DLG_Y, DLG_W, DLG_H. confines.
Qed.

(** ** The invariant of a session

    The screen differs from [m0] only in the dialog and under the marks of the
    touches; the backup holds what the dialog covers; the program under the
    dialog, the files and the programs stopped are as at the start. *)
Section Session.
Context (e : swenv) (m0 : fbmem) (start : sw).

Record session (s : sw) : Prop := {
  se_mem : exists m, screen s = Some m /\ nwords m = panel_words /\
    forall i, ~ in_dialog i -> ~ marked (log s) i -> words m i = words m0 i;
  se_backup : match backup_mem s with
              | Some bk => nwords bk = DLG_W * DLG_H /\ holds_box panel DLG_X DLG_Y DLG_W DLG_H m0 bk
              | None => sw_malloc e = None
              end;
  se_buttons : exists play shuffle, labels_fit play shuffle /\ buttons s = button_table play shuffle;
  se_pressed : match active_pressed_btn s with Some i => (i < 9)%nat | None => True end;
  se_app : active_app s = active_app start;
  se_tmp : tmp s = tmp start;
  se_sent : sent (log s) = sent (log start) }.

(** A step that only changes the listed fields keeps the session. *)
Lemma session_frame s s' :
  session s ->
  screen s' = screen s -> backup_mem s' = backup_mem s -> buttons s' = buttons s ->
  active_app s' = active_app s -> tmp s' = tmp s ->
  (exists l, log s' = log s ++ l /\ sent l = []) ->
  match active_pressed_btn s' with Some i => (i < 9)%nat | None => True end ->
  session s'.
Proof.
  intros [(m & Em & Hn & Hm) Hb Hbt Hp Ha Ht Hs] E1 E2 E3 E4 E5 (l & E6 & Hl) Hp'.
  split; rewrite ?E1, ?E2, ?E3, ?E4, ?E5; try done.
  - exists m. repeat split; [done..|]. intros i Hi Hk. apply Hm; [done|].
    intros Hmk. apply Hk. rewrite E6. by apply marked_app.
  - by rewrite E6, sent_app, Hl, app_nil_r.
Qed.

Lemma session_log s x : session s -> effect_kills x = [] -> session (sw_log x s).
Proof.
  intros Hs Hx. apply (session_frame s); try done; [|apply (se_pressed _ Hs)].
  exists [x]. split; [done|]. unfold sent. cbn. by rewrite Hx.
Qed.

Lemma session_refresh l t w h k s : session s -> session (refresh l t w h k s).
Proof. intros Hs. by apply session_log. Qed.

(** Painting inside the dialog. *)
Lemma paint_session l s :
  session s -> Forall in_dlg_confined l ->
  exists m', paint l s = Some (s {{ screen := Some m' }}) /\ session (s {{ screen := Some m' }}).
Proof.
  intros Hse Hl. destruct (se_mem _ Hse) as (m & Em & Hn & Hm).
  destruct (confined_draws panel _ _ _ _ l Hl m) as (m' & E & Hn' & Hi); [by apply panel_geom_ok|].
  exists m'. unfold paint. rewrite Em. cbn [mbind option_bind]. rewrite E.
  split; [done|]. destruct Hse. split; try done.
  exists m'. repeat split; [congruence|]. intros i Hd Hk. rewrite Hi by done. by apply Hm.
Qed.

Lemma widget_confined_in s p i :
  session s -> (i < 9)%nat -> Forall in_dlg_confined (widget (active_app s) (buttons s) p i).
Proof.
  intros Hs Hi. destruct (se_buttons _ Hs) as (play & shuffle & Hl & ->).
  by apply table_widget_confined.
Qed.

Lemma widgets_confined s p l :
  session s -> Forall (fun i => i < 9)%nat l ->
  Forall in_dlg_confined (concat (map (widget (active_app s) (buttons s) p) l)).
Proof.
  intros Hs Hl. apply Forall_concat, Forall_map. eapply Forall_impl; [exact Hl|].
  intros i Hi. by apply widget_confined_in.
Qed.

(** [only_screen s s']: [s'] is [s] with another picture and perhaps other
    button texts. *)
Definition redrawn (s s' : sw) : Prop :=
  exists m bs n, s' = s {{ screen := m; buttons := bs; nquery := n }}.

Lemma redrawn_refl s : redrawn s s.
Proof. exists (screen s), (buttons s), (nquery s). by destruct s. Qed.
Lemma redrawn_trans s1 s2 s3 : redrawn s1 s2 -> redrawn s2 s3 -> redrawn s1 s3.
Proof. intros (m & bs & n & ->) (m' & bs' & n' & ->). by exists m', bs', n'. Qed.

Lemma paint_redrawn l s :
  session s -> Forall in_dlg_confined l ->
  exists s', paint l s = Some s' /\ session s' /\ redrawn s s' /\ buttons s' = buttons s.
Proof.
  intros Hs Hl. destruct (paint_session l s Hs Hl) as (m' & E & Hs').
  eexists. split; [exact E|]. split; [done|]. split; [|done].
  exists (Some m'), (buttons s), (nquery s). by destruct s.
Qed.

Lemma draw_music_redrawn s :
  session s -> exists s', draw_music_section e s = Some s' /\ session s' /\ redrawn s s'.
Proof.
  intros Hs. unfold draw_music_section.
  set (q := query_music_status _). set (s1 := s {{ nquery := _ }}).
  assert (session s1) as H1 by (apply (session_frame s); try done;
    [by exists []; rewrite app_nil_r|apply (se_pressed _ Hs)]).
  destruct (paint_redrawn (music_box q) s1 H1) as (s2 & E2 & H2 & R2 & _);
    [apply music_box_confined|].
  rewrite E2. cbn [mbind option_bind]. set (s3 := s2 {{ buttons := _ }}).
  assert (session s3) as H3.
  { destruct H2 as [Hm Hb (play & shuffle & Hl & Eb) Hp Ha Ht Hse]. split; try done.
    destruct (music_labels_table q play shuffle) as (play' & shuffle' & Hl' & El).
    exists play', shuffle'. split; [done|]. unfold s3. cbn. by rewrite Eb, El. }
  destruct (paint_redrawn (concat (map (widget (active_app s3) (buttons s3) false) [3;4;5;6]%nat)) s3 H3)
    as (s4 & E4 & H4 & R4 & _).
  { apply widgets_confined; [done|]. repeat (apply Forall_cons_2; [lia|]). apply Forall_nil_2. }
  exists s4. split; [exact E4|]. split; [done|].
  destruct R2 as (m & bs & n & ->). destruct R4 as (m' & bs' & n' & ->). by exists m', bs', n'.
Qed.

Lemma draw_dialog_session s :
  session s -> exists s', draw_dialog e s = Some s' /\ session s' /\ redrawn s s'.
Proof.
  intros Hs. unfold draw_dialog.
  destruct (paint_redrawn _ s Hs (dialog_frame_confined e)) as (s1 & E1 & H1 & R1 & _).
  rewrite E1. cbn [mbind option_bind].
  destruct (paint_redrawn (concat (map (widget (active_app s1) (buttons s1) false) [0;1;2]%nat)) s1 H1)
    as (s2 & E2 & H2 & R2 & _).
  { apply widgets_confined; [done|]. repeat (apply Forall_cons_2; [lia|]). apply Forall_nil_2. }
  rewrite E2. cbn [mbind option_bind].
  destruct (draw_music_redrawn s2 H2) as (s3 & E3 & H3 & R3).
  rewrite E3. cbn [mbind option_bind].
  destruct (paint_redrawn (concat (map (widget (active_app s3) (buttons s3) false) [7;8]%nat)) s3 H3)
    as (s4 & E4 & H4 & R4 & _).
  { apply widgets_confined; [done|]. repeat (apply Forall_cons_2; [lia|]). apply Forall_nil_2. }
  exists s4. split; [exact E4|]. split; [done|].
  eauto using redrawn_trans.
Qed.
End Session.
