(* ===== verification/AppSwitcherTouch.v ===== *)
(** * The switcher's touch handling: presses, releases and the event loop

    Every step of the reading loop keeps the session invariant of
    [AppSwitcherProps]; what it decides is a function of the two points of the
    gesture. *)

From Stdlib Require Import Ascii String.
From S2P Require Import Prelude CString Input Framebuffer Overlay AppSwitcher AppSwitcherProps.

(** The shell commands of a trace. *)
Definition runs (l : list sw_effect) : list string :=
  omap (fun x => match x with Run c => Some c | _ => None end) l.

Lemma runs_app l l' : runs (l ++ l') = runs l ++ runs l'.
Proof. apply omap_app. Qed.

(** What a step decides: the outcome chosen so far, whether the loop goes on,
    the touch state, and the commands run. *)
Record view := mkview {
  v_chosen : Z; v_running : bool; v_raw_x : Z; v_raw_y : Z; v_down : bool; v_was : bool;
  v_pressed : option nat; v_runs : list string }.
Definition view_of (s : sw) : view :=
  {| v_chosen := chosen_action s; v_running := g_running s; v_raw_x := last_raw_x s;
     v_raw_y := last_raw_y s; v_down := is_contact_down s; v_was := was_contact_down s;
     v_pressed := active_pressed_btn s; v_runs := runs (log s) |}.

Lemma redrawn_view s s' : redrawn s s' -> view_of s' = view_of s.
Proof. by intros (m & bs & n & ->). Qed.

Lemma log_view x s : runs [x] = [] -> view_of (sw_log x s) = view_of s.
Proof.
  intros Hx. unfold view_of, sw_log. cbn [log chosen_action g_running last_raw_x last_raw_y
    is_contact_down was_contact_down active_pressed_btn]. upd. by rewrite runs_app, Hx, app_nil_r.
Qed.

(** The texts of the buttons do not matter to the hit test. *)
Definition hit (x y : Z) : option nat := hit_test x y buttons_init.

Section Touch.
Context (e : swenv) (m0 : fbmem) (start : sw).
Abbreviation session := (session e m0 start).

Lemma session_hit s x y : session s -> hit_test x y (buttons s) = hit x y.
Proof. intros Hs. destruct (se_buttons _ _ _ _ Hs) as (play & shuffle & _ & ->). done. Qed.

Lemma hit_range x y i : hit x y = Some i -> (i < 9)%nat.
Proof. intros H. by apply hit_test_range in H. Qed.

Lemma session_button s i :
  session s -> (i < 9)%nat -> exists b, buttons s !! i = Some b /\ b_id b = Z.of_nat i + 1.
Proof.
  intros Hs Hi. destruct (se_buttons _ _ _ _ Hs) as (play & shuffle & _ & ->).
  destruct (lookup_lt_is_Some_2 (button_table play shuffle) i) as [b Hb]; [done|].
  exists b. split; [done|]. by eapply table_id.
Qed.

Lemma show_button_session s p i :
  session s -> (i < 9)%nat ->
  exists s', show_button p i s = Some s' /\ session s' /\ view_of s' = view_of s.
Proof.
  intros Hs Hi. destruct (session_button s i Hs Hi) as (b & Eb & _).
  unfold show_button. rewrite Eb. cbn [mbind option_bind].
  destruct (paint_redrawn e m0 start _ s Hs (widget_confined_in e m0 start s p i Hs Hi))
    as (s' & E & H & R & _).
  rewrite E. eexists. split; [reflexivity|]. split; [by apply session_refresh|].
  rewrite <- (redrawn_view s s' R). by apply log_view.
Qed.

(** The 12 x 12 mark: recorded in the trace, so the session allows it. *)
Lemma mark_session s rx ry x y :
  session s -> TouchDown rx ry x y ∈ log s ->
  exists s', paint [draw_rect panel (x - 6) (y - 6) 12 12 COLOR_BLACK] s = Some s' /\
    session s' /\ view_of s' = view_of s /\ buttons s' = buttons s.
Proof.
  intros Hs Hin. destruct (se_mem _ _ _ _ Hs) as (m & Em & Hn & Hm).
  destruct (confined_rect panel (x - 6) (y - 6) 12 12 COLOR_BLACK m) as (m' & E & Hn' & Hi);
    [by apply panel_geom_ok|].
  unfold paint, draws. rewrite Em. cbn [mbind option_bind foldM]. rewrite E.
  eexists. split; [reflexivity|]. split; [|done].
  destruct Hs. split; try done. exists m'. repeat split; [congruence|].
  intros i Hd Hk. upd. rewrite Hi; [by apply Hm|].
  intros Hb. apply Hk. by exists rx, ry, x, y.
Qed.

Definition at_press (s : sw) : view :=
  (view_of s) {{ v_was := true;
                 v_pressed := if positioned s then hit (screen_x s) (screen_y s)
                              else active_pressed_btn s }}.

Lemma touch_press_session s :
  session s -> exists s', touch_press s = Some s' /\ session s' /\ view_of s' = at_press s.
Proof.
  intros Hs. unfold touch_press, at_press. set (s1 := s {{ was_contact_down := true }}).
  assert (session s1) as H1 by (apply (session_frame e m0 start s); try done;
    [exists []; by rewrite app_nil_r|apply (se_pressed _ _ _ _ Hs)]).
  change (positioned s1) with (positioned s). destruct (positioned s); [|by exists s1].
  change (screen_x s1) with (screen_x s). change (screen_y s1) with (screen_y s).
  set (x := screen_x s). set (y := screen_y s).
  set (td := TouchDown _ _ _ _). set (s2 := sw_log td s1).
  assert (session s2) as H2 by (by apply session_log).
  destruct (mark_session s2 (last_raw_x s1) (last_raw_y s1) x y H2) as (s3 & E3 & H3 & V3 & B3).
  { unfold s2, sw_log, td. upd. rewrite elem_of_app, list_elem_of_singleton. by right. }
  rewrite E3. cbn [mbind option_bind].
  set (s4 := refresh _ _ _ _ _ s3).
  assert (session s4) as H4 by (by apply session_refresh).
  assert (hit_test x y (buttons s4) = hit x y) as Eh by (by apply session_hit).
  rewrite Eh. set (s5 := s4 {{ active_pressed_btn := hit x y }}).
  assert (session s5) as H5.
  { apply (session_frame e m0 start s4); try done; [exists []; by rewrite app_nil_r|].
    change (match hit x y with Some i => (i < 9)%nat | None => True end).
    destruct (hit x y) eqn:Eq; [exact (hit_range _ _ _ Eq)|done]. }
  assert (view_of s5 = (view_of s) {{ v_was := true; v_pressed := hit x y }}) as V5.
  { change (view_of s5) with ((view_of s4) {{ v_pressed := hit x y }}). unfold s4, refresh.
    rewrite log_view, V3 by done. unfold s2. by rewrite log_view. }
  change (active_pressed_btn s5) with (hit x y).
  destruct (hit x y) as [i|] eqn:Eq; [|by exists s5].
  destruct (show_button_session s5 true i H5 (hit_range _ _ _ Eq)) as (s6 & E6 & H6 & V6).
  exists s6. split; [done|]. split; [done|]. by rewrite V6.
Qed.

(** ** The release *)

(** The commands and the outcome of each button. *)
Definition action_runs (id : Z) : list string :=
  if id =? BTN_MUSIC_PREV then ["/opt/audiocontrol.sh prev 2>/dev/null"%string]
  else if id =? BTN_MUSIC_PLAY then ["/opt/audiocontrol.sh pause 2>/dev/null"%string]
  else if id =? BTN_MUSIC_NEXT then ["/opt/audiocontrol.sh next 2>/dev/null"%string]
  else if id =? BTN_MUSIC_SHUFFLE then ["/opt/audiocontrol.sh shuffle 2>/dev/null"%string]
  else if id =? BTN_FRONTLIGHT then ["/opt/scripts/toggle_frontlight.sh &"%string]
  else [].
Definition stays (id : Z) : bool := (BTN_MUSIC_PREV <=? id) && (id <=? BTN_FRONTLIGHT).

Definition after_action (id : Z) (v : view) : view :=
  if stays id then v {{ v_runs := v_runs v ++ action_runs id }}
  else v {{ v_chosen := id; v_running := false }}.

Lemma music_action_session s cmd :
  session s -> effect_kills (Run cmd) = [] ->
  exists s', music_action e cmd s = Some s' /\ session s' /\
    view_of s' = (view_of s) {{ v_runs := runs (log s) ++ [cmd] }}.
Proof.
  intros Hs Hc. unfold music_action, run_cmd.
  assert (session (sw_log (Run cmd) s)) as H1 by (by apply session_log).
  destruct (draw_music_redrawn e m0 start _ H1) as (s2 & E2 & H2 & R2).
  rewrite E2. eexists. split; [reflexivity|]. split; [by apply session_refresh|].
  unfold refresh. rewrite log_view by done. rewrite (redrawn_view _ _ R2).
  unfold view_of, sw_log. upd. by rewrite runs_app.
Qed.

Lemma button_action_session s id :
  session s -> 1 <= id <= 9 ->
  exists s', button_action e id s = Some s' /\ session s' /\ view_of s' = after_action id (view_of s).
Proof.
  intros Hs Hid. unfold button_action, after_action, stays, action_runs.
  unfold BTN_MUSIC_PREV, BTN_MUSIC_PLAY, BTN_MUSIC_NEXT, BTN_MUSIC_SHUFFLE, BTN_FRONTLIGHT.
  assert (id = 4 \/ id = 5 \/ id = 6 \/ id = 7 \/ id = 8 \/ (id < 4 \/ id = 9))
    as [-> | [-> | [-> | [-> | [-> | Hne]]]]] by lia.
  1-4: cbn [Z.eqb Pos.eqb Z.leb Z.compare Pos.compare Pos.compare_cont andb];
       apply music_action_session; [done|vm_compute; reflexivity].
  - eexists. split; [reflexivity|]. split; [apply session_log; [done|vm_compute; reflexivity]|].
    unfold run_cmd, view_of, sw_log. cbn. upd. by rewrite runs_app.
  - rewrite !(proj2 (Z.eqb_neq id _)) by lia.
    replace ((4 <=? id) && (id <=? 8)) with false by (symmetry; apply andb_false_iff; lia).
    eexists. split; [reflexivity|]. split; [|done].
    apply (session_frame e m0 start s); try done; [exists []; by rewrite app_nil_r|].
    apply (se_pressed _ _ _ _ Hs).
Qed.

(** What a release at a point decides, given the button pressed before. *)
Definition target_id (pressed : option nat) (x y : Z) : option Z :=
  if outside_dialog x y then Some BTN_CLOSE
  else (fun i => Z.of_nat i + 1) <$>
       match pressed with Some i => Some i | None => hit x y end.

Definition at_release (s : sw) : view :=
  let v := (view_of s) {{ v_was := false }} in
  if positioned s then
    let x := screen_x s in
    let y := screen_y s in
    let v := match target_id (active_pressed_btn s) x y with
             | Some id => after_action id v | None => v end in
    if outside_dialog x y then v else v {{ v_pressed := None }}
  else v.

Lemma touch_release_session s :
  session s ->
  exists s' brk, touch_release e s = Some (s', brk) /\ session s' /\
    view_of s' = at_release s /\ (g_running s = true -> brk = negb (g_running s')).
Proof.
  intros Hs. unfold touch_release, at_release, target_id.
  set (s1 := s {{ was_contact_down := false }}).
  assert (session s1) as H1 by (apply (session_frame e m0 start s); try done;
    [exists []; by rewrite app_nil_r|apply (se_pressed _ _ _ _ Hs)]).
  change (positioned s1) with (positioned s).
  destruct (positioned s); [|by exists s1, false; do 3 (split; [done|]); intros Hg; change (false = negb (g_running s)); rewrite Hg].
  change (screen_x s1) with (screen_x s). change (screen_y s1) with (screen_y s).
  set (x := screen_x s). set (y := screen_y s).
  set (tu := TouchUp _ _ _ _). set (s2 := sw_log tu s1).
  assert (session s2) as H2 by (by apply session_log).
  change (active_pressed_btn s2) with (active_pressed_btn s).
  assert (exists s3, match active_pressed_btn s with
            | Some i => show_button false i s2 | None => Some s2 end = Some s3 /\ session s3 /\
            view_of s3 = (view_of s) {{ v_was := false }}) as (s3 & E3 & H3 & V3).
  { pose proof (se_pressed _ _ _ _ Hs) as Hp.
    assert (view_of s2 = (view_of s) {{ v_was := false }}) as V2 by (unfold s2; by rewrite log_view).
    destruct (active_pressed_btn s) as [i|]; [|by exists s2].
    destruct (show_button_session s2 false i H2 Hp) as (s3 & E3 & H3 & V3).
    exists s3. by rewrite V3. }
  rewrite E3. cbn [mbind option_bind].
  assert (active_pressed_btn s3 = active_pressed_btn s) as Ep.
  { change (v_pressed (view_of s3) = v_pressed (view_of s)). by rewrite V3. }
  destruct (outside_dialog x y).
  - eexists _, true. split; [reflexivity|]. split.
    + apply (session_frame e m0 start s3); try done; [exists []; by rewrite app_nil_r|].
      apply (se_pressed _ _ _ _ H3).
    + by rewrite <- V3.
  - rewrite Ep, (session_hit s3) by done.
    assert (forall i, match active_pressed_btn s with Some i => Some i | None => hit x y end = Some i ->
              (i < 9)%nat) as Hr.
    { intros i. pose proof (se_pressed _ _ _ _ Hs) as Hp.
      destruct (active_pressed_btn s); [by intros [= <-]|]. apply hit_range. }
    destruct (match active_pressed_btn s with Some i => Some i | None => hit x y end) as [i|].
    + destruct (session_button s3 i H3 (Hr i eq_refl)) as (b & -> & Hb).
      cbn [mbind option_bind fmap option_fmap option_map].
      destruct (button_action_session s3 (b_id b)) as (s4 & E4 & H4 & V4); [done|..].
      { specialize (Hr i eq_refl). lia. }
      rewrite E4. cbn [mbind option_bind]. eexists _, _. split; [reflexivity|].
      split; [apply (session_frame e m0 start s4); try done; exists []; by rewrite app_nil_r|].
      by rewrite <- Hb, <- V3, <- V4.
    + cbn [mbind option_bind fmap option_fmap option_map]. eexists _, _. split; [reflexivity|].
      split; [apply (session_frame e m0 start s3); try done; exists []; by rewrite app_nil_r|].
      by rewrite <- V3.
Qed.
End Touch.
