(* ===== verification/AppSwitcherMain.v ===== *)
(** * The switcher as a whole: gestures, the loop and [main]

    What a press and a release select, and what [main] leaves behind: the
    screen, the programs that run, and the files the button supervisor reads. *)

From Stdlib Require Import Ascii String.
From S2P Require Import Prelude CString Input Framebuffer Overlay.
From S2P Require Import AppSwitcher AppSwitcherProps AppSwitcherTouch.

(** ** Hit testing *)

(** A touch on a visible button selects it, except in the leftmost sixteen
    columns of the Play, Next and Shuffle buttons. *)
Definition left_strip (k : nat) (b : button) (x : Z) : bool :=
  bool_decide (k ∈ [4; 5; 6]%nat) && (x <? b_x b + 16).

(** [hit_test] on the whole table: a point of a visible button box selects
    that button, except that the padding of its left neighbour takes the
    leftmost sixteen columns of Play, Next and Shuffle, and no point selects a
    button whose padded box does not hold it. *)
Theorem visible_button_hit play shuffle k b x y :
  button_table play shuffle !! k = Some b ->
  b_x b <= x < b_x b + b_w b -> b_y b <= y < b_y b + b_h b ->
  hit_test x y (button_table play shuffle) =
    Some (if left_strip k b x then (k - 1)%nat else k).
Proof.
  intros Hk Hx Hy.
  do 9 (destruct k as [|k];
    [injection Hk as <-; unfold left_strip, button_table, hit_test, hits, PAD_X, PAD_Y in *;
     cbn [b_id b_x b_y b_w b_h] in *;
     repeat match goal with
     | |- context [?a <=? ?c] => first
         [ rewrite (proj2 (Z.leb_le a c)) by lia | rewrite (proj2 (Z.leb_gt a c)) by lia
         | destruct (Z.leb_spec a c) ]
     | |- context [?a <? ?c] => first
         [ rewrite (proj2 (Z.ltb_lt a c)) by lia | rewrite (proj2 (Z.ltb_ge a c)) by lia
         | destruct (Z.ltb_spec a c) ]
     end; try lia; reflexivity|]).
  done.
Qed.

Lemma visible_button_hit_witness :
  hit_test 460 1000 buttons_init = Some 3%nat /\ hit_test 500 1000 buttons_init = Some 4%nat.
Proof.
  split.
  - refine (eq_trans (visible_button_hit _ _ 4 (mkbutton 5 452 980 270 100 _ [] true) 460 1000
      eq_refl _ _) _); cbn; [lia|lia|reflexivity].
  - refine (eq_trans (visible_button_hit _ _ 4 (mkbutton 5 452 980 270 100 _ [] true) 500 1000
      eq_refl _ _) _); cbn; [lia|lia|reflexivity].
Defined.

Section Loop.
Context (e : swenv) (m0 : fbmem) (start : sw).
Abbreviation session := (session e m0 start).

Lemma decode_session ev s : session s -> session (touch_decode ev s).
Proof.
  intros Hs. pose proof (se_pressed _ _ _ _ Hs) as Hp.
  unfold touch_decode. repeat cases_if; try done;
  (apply (session_frame e m0 start s); try done; exists []; by rewrite app_nil_r).
Qed.

Lemma touch_event_session ev s :
  session s -> exists s' brk, touch_event e ev s = Some (s', brk) /\ session s'.
Proof.
  intros Hs%(decode_session ev). unfold touch_event. set (s1 := touch_decode ev s) in *.
  destruct (_ && _); [|by exists s1, false].
  destruct (negb (was_contact_down s1) && is_contact_down s1).
  - destruct (touch_press_session e m0 start s1 Hs) as (s2 & E & H & _). rewrite E. by exists s2, false.
  - destruct (was_contact_down s1 && negb (is_contact_down s1)); [|by exists s1, false].
    destruct (touch_release_session e m0 start s1 Hs) as (s2 & brk & E & H & _). by exists s2, brk.
Qed.

Lemma stop_session s : session s -> session (s {{ g_running := false }}).
Proof.
  intros Hs. apply (session_frame e m0 start s); try done; [exists []; by rewrite app_nil_r|].
  apply (se_pressed _ _ _ _ Hs).
Qed.

Lemma read_events_session l s :
  session s -> exists s', read_events e l s = Some s' /\ session s'.
Proof.
  revert s. induction l as [|[ev|] l IH]; intros s Hs; cbn [read_events]; [by exists s| |].
  - destruct (touch_event_session ev s Hs) as (s1 & brk & E & H1). rewrite E.
    cbn [mbind option_bind]. destruct brk; [by exists s1|]. by apply IH.
  - by apply IH, stop_session.
Qed.

Lemma event_loop_session l s :
  session s -> exists s', session s' /\
    (event_loop e l s = Some (Waiting s') \/ event_loop e l s = Some (Left s')).
Proof.
  revert s. induction l as [|[sig r] l IH]; intros s Hs; cbn [event_loop];
    (destruct (negb (g_running s)); [exists s; split; [done|by right]|]).
  - exists s. split; [done|by left].
  - set (s1 := if sig then _ else s).
    assert (session s1) as H1 by (unfold s1; destruct sig; [by apply stop_session|done]).
    destruct r as [evs| | |]; [|by apply IH..|exists s1; split; [done|by right]].
    destruct (sw_touch e); [|by apply IH].
    destruct (read_events_session evs s1 H1) as (s2 & E & H2). rewrite E. by apply IH.
Qed.

(** The four events of a contact report, and of a touch that goes down at one
    point and up at another. *)
Definition report (rx ry v : Z) : list arrival :=
  map Ev [ mkev EV_ABS 53 rx; mkev EV_ABS 54 ry; mkev EV_KEY 330 v; mkev EV_SYN 0 0 ].
Definition gesture (rx ry rx' ry' : Z) : list arrival := report rx ry 1 ++ report rx' ry' 0.

Definition reported (rx ry v : Z) (s : sw) : sw :=
  s {{ last_raw_x := rx; last_raw_y := ry; is_contact_down := negb (v =? 0) }}.

Lemma read_report rx ry v l s :
  read_events e (report rx ry v ++ l) s =
    ('(s, brk) ← touch_event e (mkev EV_SYN 0 0) (reported rx ry v s);
     if brk : bool then Some s else read_events e l s).
Proof. reflexivity. Qed.

Lemma reported_session rx ry v s : session s -> session (reported rx ry v s).
Proof.
  intros Hs. apply (session_frame e m0 start s); try done; [exists []; by rewrite app_nil_r|].
  apply (se_pressed _ _ _ _ Hs).
Qed.

Definition idle (s : sw) : Prop :=
  g_running s = true /\ was_contact_down s = false.

Lemma press_report rx ry l s :
  session s -> idle s -> 0 <= rx -> 0 <= ry ->
  exists s', read_events e (report rx ry 1 ++ l) s = read_events e l s' /\ session s' /\
    g_running s' = true /\ was_contact_down s' = true /\ chosen_action s' = chosen_action s /\
    active_pressed_btn s' = hit (clamp_axis (1403 - ry) 1404) (clamp_axis rx 1872) /\
    runs (log s') = runs (log s).
Proof.
  intros Hs [Hg Hw] Hx Hy. rewrite read_report. set (s1 := reported rx ry 1 s).
  destruct (touch_press_session e m0 start s1) as (s2 & E & H2 & V).
  { by apply reported_session. }
  assert (positioned s1 = true) as Hp.
  { change (positioned s1) with ((0 <=? rx) && (0 <=? ry)). apply andb_true_iff. lia. }
  unfold at_press in V. rewrite Hp in V.
  exists s2. split; [|split; [done|]].
  - unfold touch_event. change (touch_decode _ s1) with s1. cbn [ev_type ev_code Z.eqb EV_SYN andb].
    change (was_contact_down s1) with (was_contact_down s). rewrite Hw.
    change (is_contact_down s1) with true. cbn [negb andb]. by rewrite E.
  - split_and!.
    + exact (eq_trans (f_equal v_running V) Hg).
    + exact (f_equal v_was V).
    + exact (f_equal v_chosen V).
    + exact (f_equal v_pressed V).
    + exact (f_equal v_runs V).
Qed.

(** What a touch does, in terms of the view before its release. *)
Lemma gesture_step rx ry rx' ry' s :
  session s -> idle s -> 0 <= rx -> 0 <= ry -> 0 <= rx' -> 0 <= ry' ->
  exists s' v, read_events e (gesture rx ry rx' ry') s = Some s' /\ session s' /\
    v_running v = true /\ v_chosen v = chosen_action s /\ v_runs v = runs (log s) /\
    let w := match target_id (hit (clamp_axis (1403 - ry) 1404) (clamp_axis rx 1872))
                             (clamp_axis (1403 - ry') 1404) (clamp_axis rx' 1872) with
             | Some id => after_action id v | None => v end in
    g_running s' = v_running w /\ chosen_action s' = v_chosen w /\ runs (log s') = v_runs w.
Proof.
  intros Hs Hi Hx Hy Hx' Hy'. unfold gesture.
  destruct (press_report rx ry (report rx' ry' 0) s Hs Hi Hx Hy)
    as (s1 & -> & H1 & Hg1 & Hw1 & Hc1 & Hp1 & Hr1).
  rewrite <- (app_nil_r (report rx' ry' 0)), read_report. set (s2 := reported rx' ry' 0 s1).
  destruct (touch_release_session e m0 start s2) as (s3 & brk & E & H3 & V & _).
  { by apply reported_session. }
  assert (positioned s2 = true) as Hp.
  { change (positioned s2) with ((0 <=? rx') && (0 <=? ry')). apply andb_true_iff. lia. }
  unfold at_release in V. rewrite Hp in V.
  change (active_pressed_btn s2) with (active_pressed_btn s1) in V. rewrite Hp1 in V.
  change (screen_x s2) with (clamp_axis (1403 - ry') 1404) in V.
  change (screen_y s2) with (clamp_axis rx' 1872) in V.
  exists s3, ((view_of s2) {{ v_was := false }}). split; [|split; [done|]].
  - unfold touch_event. change (touch_decode _ s2) with s2. cbn [ev_type ev_code Z.eqb EV_SYN andb].
    change (was_contact_down s2) with (was_contact_down s1). rewrite Hw1.
    change (is_contact_down s2) with false. cbn [negb andb]. rewrite E. by destruct brk.
  - do 3 (split; [done|]). cbv zeta. set (t := target_id _ _ _) in *. clearbody t.
    pose proof (f_equal v_running V) as Er. pose proof (f_equal v_chosen V) as Ec.
    pose proof (f_equal v_runs V) as Eu. clear V E.
    destruct (outside_dialog _ _); (split; [exact Er|split; [exact Ec|exact Eu]]).
Qed.

(** C31: what a touch selects.  A release more than twenty pixels outside the
    dialog closes it whatever was pressed; otherwise the button under the
    press decides, and the one under the release only if the press hit none.
    Music and frontlight buttons run their command and keep the dialog open;
    the other buttons end the loop with their number; a touch on no button
    does nothing. *)
Theorem gesture_decides rx ry rx' ry' s :
  session s -> idle s -> 0 <= rx -> 0 <= ry -> 0 <= rx' -> 0 <= ry' ->
  exists s', read_events e (gesture rx ry rx' ry') s = Some s' /\
    match target_id (hit (clamp_axis (1403 - ry) 1404) (clamp_axis rx 1872))
                    (clamp_axis (1403 - ry') 1404) (clamp_axis rx' 1872) with
    | None => g_running s' = true /\ chosen_action s' = chosen_action s /\
              runs (log s') = runs (log s)
    | Some id =>
        if stays id
        then g_running s' = true /\ chosen_action s' = chosen_action s /\
             runs (log s') = runs (log s) ++ action_runs id
        else g_running s' = false /\ chosen_action s' = id /\ runs (log s') = runs (log s)
    end.
Proof.
  intros Hs Hi Hx Hy Hx' Hy'.
  destruct (gesture_step rx ry rx' ry' s Hs Hi Hx Hy Hx' Hy')
    as (s' & v & E & _ & V1 & V2 & V3 & W).
  exists s'. split; [done|]. rewrite <- V2, <- V3. cbv zeta in W.
  destruct (target_id _ _ _) as [id|]; [|by rewrite <- V1].
  unfold after_action in W. destruct (stays id); [|exact W]. rewrite <- V1. exact W.
Qed.
End Loop.

(** ** Leaving the dialog *)

(** The program a choice switches to, if it does not go back to the one under
    the dialog. *)
Definition switch_target (app : list Z) (choice : Z) : option string :=
  if choice =? BTN_KOREADER then
    if streq app (cstr "koreader") then None else Some "koreader"%string
  else if choice =? BTN_PLATO then
    if streq app (cstr "plato") then None else Some "plato"%string
  else if choice =? BTN_NETSURF then Some "netsurf"%string
  else None.

(** The signals of each way out. *)
Definition app_names (app : list Z) : list (list Z) :=
  if streq app (cstr "koreader") then [cstr "luajit"]
  else if streq app (cstr "plato") then [cstr "ld-2.19.so"; cstr "plato"]
  else if streq app (cstr "netsurf") then [cstr "netsurf-fb"]
  else [].
Definition rivals (target : string) : list (list Z) :=
  if String.eqb target "koreader" then [cstr "ld-2.19.so"; cstr "plato"; cstr "netsurf-fb"]
  else if String.eqb target "plato" then [cstr "luajit"; cstr "netsurf-fb"]
  else [cstr "ld-2.19.so"; cstr "plato"; cstr "luajit"].

Definition sends (sg : killsig) (ns : list (list Z)) : list (killsig * list Z) := map (pair sg) ns.

Lemma run_sent c s : sent (log (run_cmd c s)) = sent (log s) ++ effect_kills (Run c).
Proof.
  change (log (run_cmd c s)) with (log s ++ [Run c]). rewrite sent_app. f_equal.
  apply app_nil_r.
Qed.

Lemma suspend_sent s :
  sent (log (suspend_active_app s)) = sent (log s) ++ sends SigStop (app_names (active_app s)) /\
  screen (suspend_active_app s) = screen s.
Proof.
  unfold suspend_active_app, app_names.
  repeat cases_if; (split; [|done]); rewrite ?run_sent, ?app_nil_r; reflexivity.
Qed.

Lemma in_run x y rx ry c s :
  TouchDown rx ry x y ∈ log (run_cmd c s) <-> TouchDown rx ry x y ∈ log s.
Proof.
  change (log (run_cmd c s)) with (log s ++ [Run c]).
  rewrite elem_of_app, list_elem_of_singleton. intuition congruence.
Qed.

Lemma resume_sent s :
  sent (log (resume_active_app s)) = sent (log s) ++ sends SigCont (app_names (active_app s)) /\
  screen (resume_active_app s) = screen s /\ tmp (resume_active_app s) = tmp s /\
  active_app (resume_active_app s) = active_app s /\
  chosen_action (resume_active_app s) = chosen_action s /\
  (forall x y rx ry, TouchDown rx ry x y ∈ log (resume_active_app s) <->
                     TouchDown rx ry x y ∈ log s).
Proof.
  unfold resume_active_app, app_names.
  repeat cases_if; (split; [rewrite ?run_sent, ?app_nil_r; reflexivity|]);
    (do 4 (split; [done|])); intros x y rx ry; rewrite ?in_run; done.
Qed.

(** Restoring the dialog's area. *)
Lemma restore_dialog_session e m0 start s :
  session e m0 start s ->
  exists m', restore_dialog s = Some (s {{ screen := Some m' }}) /\ nwords m' = panel_words /\
    forall i, ((in_dialog i /\ sw_malloc e <> None) \/ (~ in_dialog i /\ ~ marked (log s) i)) ->
    words m' i = words m0 i.
Proof.
  intros [(m & Em & Hn & Hm) Hb _ _ _ _ _]. unfold restore_dialog.
  destruct (backup_mem s) as [bk|] eqn:Eb.
  - destruct Hb as [Hbk Hh].
    destruct (restore_holds panel DLG_X DLG_Y DLG_W DLG_H m0 m bk) as (m' & E & Hn' & Hi);
      [by apply panel_geom_ok|unfold box_ok, DLG_X, DLG_Y, DLG_W, DLG_H; cbn; lia|lia|done|].
    rewrite Em. cbn [mbind option_bind]. rewrite E. exists m'. repeat split; [congruence|].
    intros i Hor. rewrite Hi. case_decide; [done|]. apply Hm; tauto.
  - exists m. repeat split; [by destruct s; cbn in *; subst|done|].
    intros i [[_ Hc]|[Hd Hk]]; [done|]. by apply Hm.
Qed.

(** What [close_dialog] leaves, for each choice. *)
Definition recorded (e : swenv) (t : string) (s : sw) : sw :=
  (if String.eqb t "netsurf" then fun s => s else put_file e "/tmp/active_reader" (cstr t ++ [10]))
    (put_file e "/tmp/current_app" (cstr t ++ [10]) s).

Record closed (e : swenv) (m0 : fbmem) (s s' : sw) : Prop := {
  cl_choice : chosen_action s' = chosen_action s;
  cl_app : active_app s' = active_app s;
  cl_marks : forall i, marked (log s') i <-> marked (log s) i;
  cl_out : match switch_target (active_app s) (chosen_action s) with
    | Some t => screen s' = screen s /\ sent (log s') = sent (log s) ++ sends SigKill (rivals t) /\
                tmp s' = delete "/tmp/switcher_active"%string (tmp (recorded e t s))
    | None => (exists m', screen s' = Some m' /\ nwords m' = panel_words /\
        forall i, ((in_dialog i /\ sw_malloc e <> None) \/ (~ in_dialog i /\ ~ marked (log s) i)) ->
                  words m' i = words m0 i) /\
        sent (log s') = sent (log s) ++ sends SigCont (app_names (active_app s)) /\
        tmp s' = delete "/tmp/switcher_active"%string (tmp s)
    end }.

Lemma marked_iff l l' :
  (forall x y rx ry, TouchDown rx ry x y ∈ l' <-> TouchDown rx ry x y ∈ l) ->
  forall i, marked l' i <-> marked l i.
Proof.
  intros H i. split; intros (rx & ry & x & y & Hin & Hi); exists rx, ry, x, y;
    (split; [by apply H|done]).
Qed.

Lemma put_file_frame e path c s :
  let s' := put_file e path c s in
  log s' = log s /\ screen s' = screen s /\ active_app s' = active_app s /\
  chosen_action s' = chosen_action s.
Proof. unfold put_file. by destruct (sw_can_write e path). Qed.

Lemma back_to_app_closed e m0 start s :
  session e m0 start s -> switch_target (active_app s) (chosen_action s) = None ->
  exists s', back_to_app s = Some s' /\ closed e m0 s (unlink "/tmp/switcher_active" s').
Proof.
  intros Hs Ht. destruct (restore_dialog_session e m0 start s Hs) as (m' & E & Hn & Hi).
  unfold back_to_app. rewrite E. cbn [mbind option_bind].
  set (s1 := refresh _ _ _ _ _ _). destruct (resume_sent s1) as (R1 & R2 & R3 & R4 & R5 & R6).
  eexists. split; [reflexivity|]. split.
  - exact R5.
  - exact R4.
  - apply marked_iff. intros x y rx ry. change (log (unlink _ _)) with (log (resume_active_app s1)).
    rewrite R6. unfold s1, refresh, sw_log. upd. rewrite elem_of_app, list_elem_of_singleton.
    intuition congruence.
  - rewrite Ht. split; [exists m'; split; [exact R2|done]|]. split.
    + change (log (unlink _ _)) with (log (resume_active_app s1)). rewrite R1. f_equal.
      by apply sent_quiet.
    + exact (f_equal (delete "/tmp/switcher_active"%string) R3).
Qed.

(** Running a list of commands. *)
Definition run_all (cmds : list string) (s : sw) : sw := fold_left (fun s c => run_cmd c s) cmds s.

Lemma run_all_frame cmds s :
  let s' := run_all cmds s in
  chosen_action s' = chosen_action s /\ active_app s' = active_app s /\ screen s' = screen s /\
  tmp s' = tmp s /\ sent (log s') = sent (log s) ++ concat (map (fun c => effect_kills (Run c)) cmds) /\
  (forall x y rx ry, TouchDown rx ry x y ∈ log s' <-> TouchDown rx ry x y ∈ log s).
Proof.
  revert s. induction cmds as [|c cmds IH]; intros s; cbn [run_all fold_left map concat].
  - by rewrite app_nil_r.
  - destruct (IH (run_cmd c s)) as (E1 & E2 & E3 & E4 & E5 & E6). fold (run_all cmds (run_cmd c s)).
    split_and!; [done..| |].
    + by rewrite E5, run_sent, app_assoc.
    + intros x y rx ry. by rewrite E6, in_run.
Qed.

(** The three switches write their files and kill the other programs. *)
Lemma switched_closed e m0 s t cmds :
  switch_target (active_app s) (chosen_action s) = Some t ->
  concat (map (fun c => effect_kills (Run c)) cmds) = sends SigKill (rivals t) ->
  closed e m0 s (unlink "/tmp/switcher_active" (run_all cmds (recorded e t s))).
Proof.
  intros Ht Hk.
  destruct (run_all_frame cmds (recorded e t s)) as (E1 & E2 & E3 & E4 & E5 & E6).
  assert (log (recorded e t s) = log s /\ screen (recorded e t s) = screen s /\
          active_app (recorded e t s) = active_app s /\
          chosen_action (recorded e t s) = chosen_action s) as (L & Sc & Ap & Ch).
  { unfold recorded. destruct (String.eqb t "netsurf"); [apply put_file_frame|].
    destruct (put_file_frame e "/tmp/active_reader" (cstr t ++ [10])
      (put_file e "/tmp/current_app" (cstr t ++ [10]) s)) as (-> & -> & -> & ->).
    apply put_file_frame. }
  set (s1 := run_all cmds (recorded e t s)) in *.
  split; [exact (eq_trans E1 Ch)|exact (eq_trans E2 Ap)| |].
  - apply marked_iff. intros x y rx ry. rewrite <- L. apply E6.
  - rewrite Ht. split; [exact (eq_trans E3 Sc)|]. split.
    + change (sent (log s1) = sent (log s) ++ sends SigKill (rivals t)). by rewrite E5, L, Hk.
    + exact (f_equal (delete "/tmp/switcher_active"%string) E4).
Qed.

Lemma dispatch_closed e m0 start s :
  session e m0 start s ->
  exists s', dispatch e s = Some s' /\ closed e m0 s (unlink "/tmp/switcher_active" s').
Proof.
  intros Hs. pose proof (back_to_app_closed e m0 start s Hs) as Hb.
  pose proof (switched_closed e m0 s) as Hk. unfold dispatch.
  unfold switch_target in Hb, Hk.
  destruct (chosen_action s =? BTN_KOREADER).
  - destruct (streq (active_app s) (cstr "koreader")); [by apply Hb|].
    eexists. split; [reflexivity|]. by apply (Hk "koreader"%string [_]).
  - destruct (chosen_action s =? BTN_PLATO).
    + destruct (streq (active_app s) (cstr "plato")); [by apply Hb|].
      eexists. split; [reflexivity|]. by apply (Hk "plato"%string [_]).
    + destruct (chosen_action s =? BTN_NETSURF); [|by apply Hb].
      eexists. split; [reflexivity|]. by apply (Hk "netsurf"%string [_; _]).
Qed.

(** Unfolding [≫=] by rewriting, so that the drawing is not evaluated. *)
Lemma bind_some {A B} (x : A) (f : A -> option B) : Some x ≫= f = f x.
Proof. reflexivity. Qed.

(** ** From start to exit *)
Definition fb_of (ws : Z -> Z) : fbmem := {| words := ws; nwords := panel_words |}.

Lemma dialog_box_ok : box_ok panel DLG_X DLG_Y DLG_W DLG_H.
Proof. unfold box_ok, DLG_X, DLG_Y, DLG_W, DLG_H; cbn; lia. Qed.

Lemma save_dialog_holds e m :
  nwords m = panel_words ->
  exists bk, save_dialog e m = Some bk /\
    match bk with
    | Some bk => nwords bk = DLG_W * DLG_H /\ holds_box panel DLG_X DLG_Y DLG_W DLG_H m bk
    | None => sw_malloc e = None
    end.
Proof.
  intros Hm. unfold save_dialog. destruct (sw_malloc e) as [junk|]; [|by exists None].
  destruct (save_rows_spec panel DLG_X DLG_Y DLG_W DLG_H m (mkfb junk (DLG_W * DLG_H)))
    as (bk & E & Hn & Hh); [by apply panel_geom_ok|apply dialog_box_ok|reflexivity|].
  exists (Some bk). rewrite E. split; [reflexivity|]. split; [exact Hn|exact Hh].
Qed.

(** A state just before the dialog is drawn. *)
Definition fresh (s : sw) : Prop :=
  idle s /\ buttons s = buttons_init /\ active_pressed_btn s = None /\ chosen_action s = 0.

Lemma session_fresh e m s bk :
  fresh s -> nwords m = panel_words ->
  match bk with
  | Some bk => nwords bk = DLG_W * DLG_H /\ holds_box panel DLG_X DLG_Y DLG_W DLG_H m bk
  | None => sw_malloc e = None
  end ->
  session e m s (s {{ screen := Some m; backup_mem := bk }}).
Proof.
  intros (Hi & Hb & Hp & Hc) Hm Hbk. split; try done.
  - exists m. split; [done|]. by split.
  - exists (cstr "Play / Pause"), (cstr "Shuffle"). split; [split; strlens; lia|exact Hb].
  - change (active_pressed_btn _) with (active_pressed_btn s). by rewrite Hp.
Qed.

Lemma open_dialog_eq e ws s :
  open_dialog e ws s =
    (bk ← save_dialog e (fb_of ws);
     s ← draw_dialog e (s {{ screen := Some (fb_of ws); backup_mem := bk }});
     let s := refresh DLG_X DLG_Y DLG_W DLG_H 1 s in
     Some (if sw_touch e then sw_log (Grab true) s else s)).
Proof. reflexivity. Qed.

Lemma opened_session e m start s1 s2 :
  session e m start s2 -> redrawn s1 s2 -> idle s1 -> chosen_action s1 = 0 ->
  let s := refresh DLG_X DLG_Y DLG_W DLG_H 1 s2 in
  let s := if sw_touch e then sw_log (Grab true) s else s in
  session e m start s /\ idle s /\ chosen_action s = 0.
Proof.
  intros H2 (mm & bs & n & ->) Hi Hc. cbv zeta. destruct (sw_touch e); (split; [|done]).
  - apply session_log; [by apply session_refresh|done].
  - by apply session_refresh.
Qed.

Lemma open_dialog_session e ws s0 :
  fresh s0 ->
  exists s, open_dialog e ws s0 = Some s /\ session e (fb_of ws) s0 s /\ idle s /\
    chosen_action s = 0.
Proof.
  intros Hf. rewrite open_dialog_eq.
  destruct (save_dialog_holds e (fb_of ws) eq_refl) as (bk & Ebk & Hbk).
  rewrite Ebk. rewrite bind_some.
  destruct (draw_dialog_session e (fb_of ws) s0 _ (session_fresh e (fb_of ws) s0 bk Hf eq_refl Hbk))
    as (s2 & E2 & H2 & R2).
  rewrite E2. rewrite bind_some. eexists. split; [reflexivity|].
  apply (opened_session e _ _ _ s2 H2 R2); apply Hf.
Qed.

Lemma start_fresh e fs : fresh (sw_start e fs).
Proof.
  unfold sw_start, suspend_active_app, put_file. destruct (sw_can_write e _); repeat cases_if; done.
Qed.

(** Releasing the touch device does not matter to the exit. *)
Lemma closed_grab e m0 b s s' : closed e m0 (sw_log (Grab b) s) s' -> closed e m0 s s'.
Proof.
  assert (forall i, marked (log s ++ [Grab b]) i <-> marked (log s) i) as Hm.
  { apply marked_iff. intros x y rx ry. rewrite elem_of_app, list_elem_of_singleton.
    intuition congruence. }
  intros [C1 C2 C4 C5]. split; [done|done| |].
  - intros i. rewrite C4. apply Hm.
  - change (active_app (sw_log (Grab b) s)) with (active_app s) in C5.
    change (chosen_action (sw_log (Grab b) s)) with (chosen_action s) in C5.
    change (sent (log (sw_log (Grab b) s))) with (sent (log s ++ [Grab b])) in C5.
    rewrite sent_quiet in C5 by done.
    destruct (switch_target _ _) as [t|].
    + destruct C5 as (A & B & C). split; [done|]. split; [done|]. rewrite C. f_equal.
      unfold recorded, put_file. destruct (String.eqb _ _); repeat cases_if; done.
    + destruct C5 as ((m' & A1 & A2 & A3) & B & C). split; [|done].
      exists m'. split; [done|]. split; [done|]. intros i Hi. apply A3.
      rewrite <- Hm in Hi. exact Hi.
Qed.

Lemma close_dialog_closed e m0 start s :
  session e m0 start s -> exists s', close_dialog e s = Some s' /\ closed e m0 s s'.
Proof.
  intros Hs. unfold close_dialog.
  destruct (dispatch_closed e m0 start (if sw_touch e then sw_log (Grab false) s else s))
    as (s3 & E3 & C3).
  { destruct (sw_touch e); [by apply session_log|done]. }
  rewrite E3, bind_some. eexists. split; [reflexivity|].
  destruct (sw_touch e); [by eapply closed_grab|done].
Qed.

(** The ways [main] can end. *)
Lemma main_cases e fs inputs :
  main e fs inputs = Some (setup_failed (sw_start e fs)) \/
  (exists ws s, session e (fb_of ws) (sw_start e fs) s /\ sw_mmap e = Some ws /\
     (main e fs inputs = Some (Blocked s) \/
      exists s', closed e (fb_of ws) s s' /\ main e fs inputs = Some (Exited 0 s'))).
Proof.
  unfold main. destruct (negb _); [by left|].
  destruct (sw_mmap e) as [ws|]; [|by left].
  right. destruct (open_dialog_session e ws _ (start_fresh e fs)) as (s1 & E1 & H1 & _).
  rewrite E1. rewrite bind_some.
  destruct (event_loop_session e (fb_of ws) _ inputs s1 H1) as (s2 & H2 & E2).
  exists ws, s2. split; [done|]. split; [done|].
  destruct E2 as [-> | ->]; rewrite ?bind_some; [by left|right].
  destruct (close_dialog_closed e _ _ s2 H2) as (s3 & E3 & C3).
  exists s3. by rewrite E3, bind_some.
Qed.

(** A run of [main] that ends with one touch. *)
Lemma main_touch e fs ws rx ry rx' ry' id :
  sw_open e || sw_open_alt e = true -> sw_mmap e = Some ws -> sw_touch e = true ->
  0 <= rx -> 0 <= ry -> 0 <= rx' -> 0 <= ry' ->
  target_id (hit (clamp_axis (1403 - ry) 1404) (clamp_axis rx 1872))
            (clamp_axis (1403 - ry') 1404) (clamp_axis rx' 1872) = Some id -> stays id = false ->
  exists s, main e fs [(false, SelReady (gesture rx ry rx' ry'))] = Some (Exited 0 s) /\
    chosen_action s = id /\ active_app s = active_app (sw_start e fs).
Proof.
  intros Ho Hws Ht Hx Hy Hx' Hy' Hid Hst. unfold main. rewrite Ho, Hws. cbn [negb].
  destruct (open_dialog_session e ws _ (start_fresh e fs)) as (s1 & E1 & H1 & Hi & Hc).
  rewrite E1, bind_some. cbn [event_loop]. rewrite (proj1 Hi), Ht. cbn [negb].
  destruct (gesture_step e _ _ rx ry rx' ry' s1 H1 Hi Hx Hy Hx' Hy')
    as (s2 & v & E2 & H2 & _ & _ & _ & W).
  rewrite E2, bind_some. cbv zeta in W. rewrite Hid in W. unfold after_action in W.
  rewrite Hst in W. destruct W as (W1 & W2 & _).
  assert (g_running s2 = false) as Hg by exact W1.
  assert (chosen_action s2 = id) as Hch by exact W2.
  cbn [event_loop]. rewrite Hg. cbn [negb]. rewrite bind_some.
  destruct (close_dialog_closed e _ _ s2 H2) as (s3 & E3 & [C1 C2 _ _]).
  exists s3. rewrite E3, bind_some. split; [done|]. split; [congruence|].
  rewrite C2. exact (se_app _ _ _ _ H2).
Qed.

(** ** A concrete touch *)
Definition bare_switcher : swenv :=
  {| sw_open := true; sw_open_alt := false; sw_mmap := Some (fun _ => 0xFFFF);
     sw_malloc := None; sw_touch := true; sw_player := fun _ => None;
     sw_capacity := None; sw_power := None; sw_can_write := fun _ => true |}.
Definition bare_state : sw :=
  (sw_init ∅) {{ screen := Some (fb_of (fun _ => 0xFFFF)); backup_mem := None }}.

Lemma gesture_decides_witness :
  exists s', read_events bare_switcher (gesture 1010 800 1320 600) bare_state = Some s' /\
    g_running s' = true /\ runs (log s') = ["/opt/audiocontrol.sh pause 2>/dev/null"%string].
Proof.
  destruct (gesture_decides bare_switcher (fb_of (fun _ => 0xFFFF)) (sw_init ∅)
    1010 800 1320 600 bare_state) as (s' & E & H).
  - apply session_fresh; [by split|done|done].
  - by split.
  - lia.
  - lia.
  - lia.
  - lia.
  - exists s'. split; [exact E|]. destruct H as (H1 & _ & H2). split; [exact H1|exact H2].
Defined.
