(* ===== verification/AppSwitcherExit.v ===== *)
(** * What a session of the switcher leaves behind

    The theorems about [main]: memory safety and the extent of its drawing,
    the screen after it goes back to the program, the programs that are left
    running, and the files by which the button supervisor learns the choice. *)

From Stdlib Require Import Ascii String.
From S2P Require Import Prelude CString Input Framebuffer Overlay BtnWatcher.
From S2P Require Import AppSwitcher AppSwitcherProps AppSwitcherTouch AppSwitcherMain.

Definition outcome_state (o : outcome) : sw := match o with Exited _ s => s | Blocked s => s end.

(** C16: whatever the devices and files hold and whatever is touched, [main]
    makes no access outside the framebuffer mapping, the backup buffer or the
    button table; and the words it changes are words of the dialog or of the
    12 x 12 mark of a touch. *)
Theorem switcher_safe e fs inputs :
  exists o, main e fs inputs = Some o /\
    forall m, screen (outcome_state o) = Some m ->
    exists ws, sw_mmap e = Some ws /\ nwords m = panel_words /\
    forall i, ~ in_dialog i -> ~ marked (log (outcome_state o)) i -> words m i = ws i.
Proof.
  destruct (main_cases e fs inputs) as [E|(ws & s & Hs & Ews & [E|(s' & Hc & E)])]; rewrite E;
    eexists; (split; [reflexivity|]); cbn [outcome_state]; intros m Hm.
  - exfalso. unfold setup_failed, outcome_state in Hm.
    change (screen (resume_active_app (sw_start e fs)) = Some m) in Hm.
    destruct (resume_sent (sw_start e fs)) as (_ & E2 & _). rewrite E2 in Hm.
    unfold sw_start in Hm. rewrite (proj2 (suspend_sent _)) in Hm.
    change (screen (put_file e "/tmp/switcher_active" [] (sw_init fs)) = Some m) in Hm.
    by rewrite (proj1 (proj2 (put_file_frame _ _ _ _))) in Hm.
  - destruct (se_mem _ _ _ _ Hs) as (m1 & Em & Hn & Hw). exists ws.
    rewrite Em in Hm. by injection Hm as <-.
  - exists ws. split; [done|]. destruct Hc as [_ _ Hk Ho].
    destruct (switch_target _ _) as [t|].
    + destruct Ho as (Es & _). destruct (se_mem _ _ _ _ Hs) as (m1 & Em & Hn & Hw).
      rewrite Es, Em in Hm. injection Hm as <-. split; [done|]. intros i Hd Hmk.
      apply Hw; [done|]. by rewrite <- Hk.
    + destruct Ho as ((m' & Em & Hn & Hw) & _). rewrite Em in Hm. injection Hm as <-.
      split; [done|]. intros i Hd Hmk. apply Hw. right. by rewrite <- Hk.
Qed.

(** C34: when the switcher goes back to the program under it (any button of
    that program, Close, a touch outside, a signal) and its backup could be
    allocated, every word of the dialog's area is as before, and outside it
    only the marks of touches remain. *)
Theorem switcher_returns_screen e fs inputs s ws :
  main e fs inputs = Some (Exited 0 s) -> sw_mmap e = Some ws -> sw_malloc e <> None ->
  switch_target (active_app s) (chosen_action s) = None ->
  exists m, screen s = Some m /\
    forall i, in_dialog i \/ ~ marked (log s) i -> words m i = ws i.
Proof.
  intros Hm Hws Hb Ht.
  destruct (main_cases e fs inputs) as [E|(ws' & s0 & Hs & Ews & [E|(s' & Hc & E)])];
    rewrite E in Hm; try done.
  injection Hm as <-. rewrite Hws in Ews. injection Ews as <-.
  destruct Hc as [Hch Ha Hk Ho]. rewrite Hch, Ha in Ht. rewrite Ht in Ho.
  destruct Ho as ((m' & Em & Hn & Hw) & _). exists m'. split; [done|]. intros i Hi.
  apply Hw. destruct (decide (in_dialog i)); [by left|right].
  split; [done|]. rewrite <- Hk. tauto.
Qed.

(** ** The programs *)
Definition last_signal (l : list (killsig * list Z)) (p : list Z) (st : option bool) : option bool :=
  fold_left (fun st k => if bool_decide (k.2 = p)
                         then match k.1 with
                              | SigStop => (fun _ => true) <$> st
                              | SigCont => (fun _ => false) <$> st
                              | SigKill => None end
                         else st) l st.

Lemma processes_lookup l ps p :
  fold_left signal l ps !! p = last_signal l p (ps !! p).
Proof.
  revert ps. induction l as [|[sg n] l IH]; intros ps; [done|].
  cbn [fold_left last_signal]. rewrite IH. unfold last_signal. f_equal. cbn [fst snd].
  destruct (bool_decide_reflect (n = p)) as [->|Hne]; destruct sg; cbn [signal];
    rewrite ?lookup_alter_eq, ?lookup_delete_eq, ?lookup_alter_ne, ?lookup_delete_ne by done;
    cbn [fst snd]; rewrite ?bool_decide_eq_true_2, ?bool_decide_eq_false_2 by done.
  all: try done.
Qed.

Lemma start_sent e fs :
  sent (log (sw_start e fs)) = sends SigStop (app_names (active_app (sw_start e fs))) /\
  active_app (sw_start e fs) =
    find_active_app (tmp (put_file e "/tmp/switcher_active" [] (sw_init fs))) /\
  tmp (sw_start e fs) = tmp (put_file e "/tmp/switcher_active" [] (sw_init fs)) /\
  chosen_action (sw_start e fs) = 0.
Proof.
  unfold sw_start. set (s0 := put_file _ _ _ _).
  assert (log s0 = []) as El by apply put_file_frame.
  assert (chosen_action s0 = 0) as Ec by apply put_file_frame.
  set (s1 := s0 {{ active_app := _ }}).
  destruct (suspend_sent s1) as [E1 _].
  assert (active_app (suspend_active_app s1) = active_app s1 /\ tmp (suspend_active_app s1) = tmp s1
    /\ chosen_action (suspend_active_app s1) = chosen_action s1) as (-> & -> & ->)
    by (unfold suspend_active_app; by repeat cases_if).
  rewrite E1. change (log s1) with (log s0). by rewrite El.
Qed.

(** All the signals of a finished run. *)
Lemma exit_sent e fs inputs st s :
  main e fs inputs = Some (Exited st s) ->
  sent (log s) = sends SigStop (app_names (active_app s)) ++
    match switch_target (active_app s) (chosen_action s) with
    | Some t => sends SigKill (rivals t)
    | None => sends SigCont (app_names (active_app s))
    end.
Proof.
  intros Hm. destruct (start_sent e fs) as (Es & _ & _ & Ec).
  destruct (main_cases e fs inputs) as [E|(ws & s0 & Hs & Ews & [E|(s' & Hc & E)])];
    rewrite E in Hm; try done.
  - unfold setup_failed in Hm. injection Hm as <- <-.
    destruct (resume_sent (sw_start e fs)) as (R1 & _ & _ & R4 & R5 & _).
    set (s1 := resume_active_app _) in *.
    change (log (unlink _ s1)) with (log s1). change (active_app (unlink _ s1)) with (active_app s1).
    change (chosen_action (unlink _ s1)) with (chosen_action s1).
    by rewrite R1, R4, R5, Es, Ec.
  - injection Hm as <- <-. destruct Hc as [Hch Ha _ Ho].
    pose proof (se_sent _ _ _ _ Hs) as Hse. pose proof (se_app _ _ _ _ Hs) as Hap.
    rewrite Hch, Ha. rewrite Es, <- Hap in Hse. rewrite <- Hse.
    destruct (switch_target _ _); [by destruct Ho as (_ & -> & _)|by destruct Ho as (_ & -> & _)].
Qed.

(** C6: no program is left stopped.  If none was stopped before, none is when
    the switcher exits, whatever was touched and even if the display could not
    be opened, except when NetSurf is chosen while NetSurf runs. *)
Theorem no_program_left_stopped e fs inputs st s ps p b :
  main e fs inputs = Some (Exited st s) ->
  ~ (active_app s = cstr "netsurf" /\ chosen_action s = BTN_NETSURF) ->
  (forall p b, ps !! p = Some b -> b = false) ->
  processes (log s) ps !! p = Some b -> b = false.
Proof.
  intros Hm Hn Hps. unfold processes. rewrite processes_lookup, (exit_sent _ _ _ _ _ Hm).
  specialize (Hps p). revert Hps. generalize (ps !! p) as st0. intros st0 Hps.
  unfold switch_target, app_names.
  repeat match goal with
  | |- context [streq (active_app s) ?c] => destruct (streq (active_app s) c) eqn:?
  | |- context [chosen_action s =? ?c] => destruct (chosen_action s =? c) eqn:?
  end;
  try (exfalso; apply Hn; split; [by apply streq_spec|by apply Z.eqb_eq]);
  unfold last_signal, sends; cbn [rivals String.eqb Ascii.eqb Bool.eqb map app fold_left fst snd];
  repeat case_bool_decide; destruct st0 as [b0|]; cbn [fmap option_fmap option_map];
  try (by intros [= <-]); try done; try (by apply Hps).
Qed.

(** ** The files the button supervisor reads *)
Lemma find_active_app_ext fs fs' :
  fs !! "/tmp/current_app"%string = fs' !! "/tmp/current_app"%string ->
  fs !! "/tmp/active_reader"%string = fs' !! "/tmp/active_reader"%string ->
  find_active_app fs = find_active_app fs'.
Proof. unfold find_active_app. by intros -> ->. Qed.

Lemma active_app_file fs t :
  (t = "koreader" \/ t = "plato" \/ t = "netsurf")%string ->
  fs !! "/tmp/current_app"%string = Some (cstr t ++ [10]) -> find_active_app fs = cstr t.
Proof. unfold find_active_app. intros Ht ->. destruct Ht as [-> | [-> | ->]]; reflexivity. Qed.

Lemma switch_target_name app c t :
  switch_target app c = Some t -> (t = "koreader" \/ t = "plato" \/ t = "netsurf")%string.
Proof. unfold switch_target. repeat case_match; intros [= <-]; tauto. Qed.

Lemma recorded_current e t s :
  sw_can_write e "/tmp/current_app" = true ->
  tmp (recorded e t s) !! "/tmp/current_app"%string = Some (cstr t ++ [10]).
Proof.
  intros Hw. unfold recorded, put_file. rewrite Hw.
  destruct (String.eqb t "netsurf"); [upd; by rewrite lookup_insert_eq|].
  destruct (sw_can_write e "/tmp/active_reader"); upd;
    rewrite ?lookup_insert_ne by done; by rewrite lookup_insert_eq.
Qed.

(** The files at the start, for the program under the dialog. *)
Lemma start_files e fs :
  find_active_app (delete "/tmp/switcher_active"%string (tmp (sw_start e fs))) =
  active_app (sw_start e fs).
Proof.
  destruct (start_sent e fs) as (_ & -> & -> & _).
  apply find_active_app_ext; by rewrite lookup_delete_ne.
Qed.

(** The switcher and the button supervisor agree.  When the switcher
    exits, its marker file is gone and [get_active_app] of [btn-watcher.c]
    reads the program chosen; the one under the dialog when none is. *)
Theorem supervisor_sees_choice e fs inputs st s :
  main e fs inputs = Some (Exited st s) ->
  sw_can_write e "/tmp/current_app" = true ->
  tmp s !! "/tmp/switcher_active"%string = None /\
  get_active_app 32 (tmp s) =
    match switch_target (active_app s) (chosen_action s) with
    | Some t => cstr t
    | None => active_app s
    end.
Proof.
  intros Hm Hw. change (get_active_app 32) with find_active_app.
  destruct (main_cases e fs inputs) as [E|(ws & s0 & Hs & Ews & [E|(s' & Hc & E)])];
    rewrite E in Hm; try done.
  - unfold setup_failed in Hm. injection Hm as <- <-.
    destruct (resume_sent (sw_start e fs)) as (_ & _ & R3 & R4 & R5 & _).
    destruct (start_sent e fs) as (_ & _ & _ & Ec).
    set (s1 := resume_active_app _) in *.
    change (tmp (unlink _ s1)) with (delete "/tmp/switcher_active"%string (tmp s1)).
    change (active_app (unlink _ s1)) with (active_app s1).
    change (chosen_action (unlink _ s1)) with (chosen_action s1).
    rewrite R3, R4, R5, Ec. split; [apply lookup_delete_eq|apply start_files].
  - injection Hm as <- <-. destruct Hc as [Hch Ha _ Ho]. rewrite Hch, Ha.
    destruct (switch_target _ _) as [t|] eqn:Et; [destruct Ho as (_ & _ & ->)|destruct Ho as (_ & _ & ->)];
      (split; [apply lookup_delete_eq|]).
    + apply active_app_file; [by eapply switch_target_name|].
      rewrite lookup_delete_ne by done. by apply recorded_current.
    + rewrite (se_tmp _ _ _ _ Hs), (se_app _ _ _ _ Hs). apply start_files.
Qed.

(** ** Concrete sessions *)
Definition demo_switcher : swenv :=
  {| sw_open := true; sw_open_alt := false; sw_mmap := Some (fun _ => 0xFFFF);
     sw_malloc := Some (fun _ => 0); sw_touch := true; sw_player := fun _ => None;
     sw_capacity := None; sw_power := None; sw_can_write := fun _ => true |}.
Definition running_app (app : string) : gmap string (list Z) :=
  {["/tmp/current_app"%string := cstr app ++ [10]]}.
Definition one_touch (x y : Z) : list (bool * select_result) :=
  [(false, SelReady (gesture y (1403 - x) y (1403 - x)))].

Lemma demo_touch app x y id :
  0 <= x < 1404 -> 0 <= y < 1872 -> target_id (hit x y) x y = Some id -> stays id = false ->
  exists s, main demo_switcher (running_app app) (one_touch x y) = Some (Exited 0 s) /\
    chosen_action s = id /\ active_app s = active_app (sw_start demo_switcher (running_app app)).
Proof.
  intros Hx Hy Hid Hst.
  assert (clamp_axis (1403 - (1403 - x)) 1404 = x /\ clamp_axis y 1872 = y) as [Ex Ey]
    by (unfold clamp_axis; split; bdestr; lia).
  apply (main_touch demo_switcher (running_app app) (fun _ => 0xFFFF)); try reflexivity; try lia; try exact Hst.
  rewrite Ex, Ey. exact Hid.
Qed.

Lemma switcher_returns_screen_witness :
  exists s m, main demo_switcher (running_app "plato") (one_touch 50 100) = Some (Exited 0 s) /\
    screen s = Some m /\ forall i, in_dialog i \/ ~ marked (log s) i -> words m i = 0xFFFF.
Proof.
  destruct (demo_touch "plato" 50 100 9) as (s & E & Ec & _); [lia|lia|reflexivity|reflexivity|].
  destruct (switcher_returns_screen demo_switcher _ _ s _ E eq_refl) as (m & Em & Hm).
  - done.
  - by rewrite Ec.
  - exists s, m. split; [exact E|]. split; [exact Em|exact Hm].
Defined.

Lemma no_program_left_stopped_witness :
  exists s, main demo_switcher (running_app "plato") (one_touch 700 400) = Some (Exited 0 s) /\
    processes (log s) {[cstr "plato" := false]} !! cstr "netsurf-fb" <> Some true.
Proof.
  destruct (demo_touch "plato" 700 400 1) as (s & E & Ec & _); [lia|lia|reflexivity|reflexivity|].
  exists s. split; [exact E|]. intros Hp.
  assert (true = false); [|done].
  apply (no_program_left_stopped demo_switcher _ _ 0 s {[cstr "plato" := false]} (cstr "netsurf-fb") true E).
  - rewrite Ec. by intros [_ ?].
  - intros p b [_ <-]%lookup_singleton_Some. done.
  - done.
Defined.

Lemma supervisor_sees_choice_witness :
  exists s, main demo_switcher (running_app "plato") (one_touch 700 400) = Some (Exited 0 s) /\
    get_active_app 32 (tmp s) = cstr "koreader".
Proof.
  destruct (demo_touch "plato" 700 400 1) as (s & E & Ec & Ea); [lia|lia|reflexivity|reflexivity|].
  exists s. split; [exact E|].
  destruct (supervisor_sees_choice demo_switcher _ _ 0 s E eq_refl) as [_ ->].
  rewrite Ec, Ea. reflexivity.
Defined.

(** Choosing NetSurf while NetSurf runs leaves it stopped: the switcher kills
    the other programs, starts a second browser and never wakes the first. *)
Theorem netsurf_chosen_twice_stays_stopped :
  exists s, main demo_switcher (running_app "netsurf") (one_touch 700 700) = Some (Exited 0 s) /\
    processes (log s) {[cstr "netsurf-fb" := false]} !! cstr "netsurf-fb" = Some true.
Proof.
  destruct (demo_touch "netsurf" 700 700 3) as (s & E & Ec & Ea); [lia|lia|reflexivity|reflexivity|].
  exists s. split; [exact E|]. unfold processes. rewrite processes_lookup, (exit_sent _ _ _ _ _ E).
  rewrite Ec, Ea. reflexivity.
Qed.
