(* ===== verification/AppSwitcherVariant.v ===== *)
(** * The switcher without the battery

    [patches/app-switcher-dialog.c] is [app-switcher.c] without the battery text
    in the header bar; every other function is the same text.  Its [draw_dialog]
    and [main], over the shared definitions of [AppSwitcher], and the proof that
    the text is all that tells the two programs apart. *)

From Stdlib Require Import Ascii String.
From S2P Require Import Prelude CString Font Input Framebuffer Overlay AppSwitcher AppSwitcherProps AppSwitcherMain.

(** ** The variant *)
Section Variant.
Context (e : swenv).

Definition dialog_frame : list (fbmem -> option fbmem) :=
  [ draw_rect panel DLG_X DLG_Y DLG_W DLG_H COLOR_WHITE;
    draw_rect_outline panel DLG_X DLG_Y DLG_W DLG_H 6 COLOR_BLACK;
    draw_rect panel DLG_X DLG_Y DLG_W 90 COLOR_BLACK;
    draw_string_centered panel DLG_X DLG_Y DLG_W 90 (cstr "NOOK APPLICATION SWITCHER") 2
      COLOR_WHITE COLOR_BLACK;
    draw_string panel 202 315 (cstr "SELECT APPLICATION TO RUN:") 2 COLOR_GRAY_DK COLOR_WHITE ].

Definition draw_dialog (s : sw) : option sw :=
  s ← paint dialog_frame s;
  s ← paint (concat (map (widget (active_app s) (buttons s) false) [0; 1; 2]%nat)) s;
  s ← draw_music_section e s;
  paint (concat (map (widget (active_app s) (buttons s) false) [7; 8]%nat)) s.

Definition open_dialog (ws : Z -> Z) (s : sw) : option sw :=
  let m := {| words := ws; nwords := panel_words |} in
  bk ← save_dialog e m;
  s ← draw_dialog (s {{ screen := Some m; backup_mem := bk }});
  let s := refresh DLG_X DLG_Y DLG_W DLG_H 1 s in
  Some (if sw_touch e then sw_log (Grab true) s else s).

Definition main (fs : gmap string (list Z)) (inputs : list (bool * select_result)) : option outcome :=
  let s := sw_start e fs in
  if negb (sw_open e || sw_open_alt e) then Some (setup_failed s)
  else
    match sw_mmap e with
    | None => Some (setup_failed s)
    | Some ws =>
        s ← open_dialog ws s;
        p ← event_loop e inputs s;
        match p with
        | Waiting s => Some (Blocked s)
        | Left s => s ← close_dialog e s; Some (Exited 0 s)
        end
    end.
End Variant.

(** ** Screens that differ in the header bar *)

(** The words outside the header bar. *)
Definition outside_header (i : Z) : Prop := ~ in_box panel DLG_X DLG_Y DLG_W 90 i.

Definition agree (m m' : fbmem) : Prop :=
  nwords m = nwords m' /\ forall i, outside_header i -> words m i = words m' i.

Lemma agree_refl m : agree m m.
Proof. by split. Qed.

(** A drawing that does not look at what it draws over. *)
Definition oblivious (f : fbmem -> option fbmem) : Prop :=
  forall m m', agree m m' -> option_Forall2 agree (f m) (f m').

Lemma oblivious_id : oblivious Some.
Proof. intros m m' H. by constructor. Qed.

Lemma oblivious_store i v : oblivious (fun m => fb_store m i v).
Proof.
  intros m m' [Hn Hw]. unfold fb_store. rewrite <- Hn. destruct (_ && _); constructor.
  split; [done|]. intros j Hj. cbn. by destruct (j =? i); [|apply Hw].
Qed.

Lemma oblivious_if (b : bool) f g : oblivious f -> oblivious g -> oblivious (fun m => if b then f m else g m).
Proof. by destruct b. Qed.

Lemma oblivious_bind f g : oblivious f -> oblivious g -> oblivious (fun m => m ← f m; g m).
Proof. intros Hf Hg m m' H. destruct (Hf m m' H) as [x y Hxy|]; cbn; [by apply Hg|constructor]. Qed.

Lemma oblivious_foldM {B} (f : fbmem -> B -> option fbmem) l :
  (forall b, oblivious (fun m => f m b)) -> oblivious (foldM f l).
Proof.
  intros Hf. induction l as [|b l IH]; [apply oblivious_id|]. intros m m' H. cbn.
  destruct (Hf b m m' H) as [x y Hxy|]; [by apply IH|constructor].
Qed.

#[local] Hint Resolve oblivious_id oblivious_store oblivious_if oblivious_bind oblivious_foldM : core.

Lemma oblivious_row y x w c : oblivious (draw_row panel y x w c).
Proof. apply oblivious_foldM. intros b. by apply oblivious_if. Qed.
Lemma oblivious_rect x y w h c : oblivious (draw_rect panel x y w h c).
Proof. apply oblivious_foldM. intros b. apply oblivious_if; [done|apply oblivious_row]. Qed.
Lemma oblivious_outline x y w h t c : oblivious (draw_rect_outline panel x y w h t c).
Proof. unfold draw_rect_outline. repeat (apply oblivious_bind; [apply oblivious_rect|]). apply oblivious_rect. Qed.
Lemma oblivious_pixel x y c : oblivious (fun m => set_pixel panel m x y c).
Proof. by apply oblivious_if. Qed.
Lemma oblivious_glyph_bit x y row col line scale fg bg : oblivious (draw_glyph_bit panel x y row col line scale fg bg).
Proof.
  apply oblivious_if; [apply oblivious_if; [apply oblivious_pixel|done]|].
  apply oblivious_foldM. intros sy. apply oblivious_foldM. intros sx. apply oblivious_pixel.
Qed.
Lemma oblivious_char x y ch scale fg bg : oblivious (draw_char panel x y ch scale fg bg).
Proof.
  unfold draw_char. destruct (font8x16 !! _) as [glyph|]; [|by intros m m' _; constructor]. cbn [mbind option_bind].
  apply oblivious_foldM. intros row. destruct (glyph !! _); [|by intros m m' _; constructor]. cbn [mbind option_bind].
  apply oblivious_foldM. intros col. apply oblivious_glyph_bit.
Qed.
Lemma oblivious_string x y s scale fg bg : oblivious (draw_string panel x y s scale fg bg).
Proof.
  revert x. induction s as [|ch s IH]; intros x; [apply oblivious_id|].
  apply (oblivious_bind (draw_char panel x y ch scale fg bg) (draw_string panel (x + 8 * scale) y s scale fg bg)); [apply oblivious_char|apply IH].
Qed.
Lemma oblivious_centered x y w h s scale fg bg : oblivious (draw_string_centered panel x y w h s scale fg bg).
Proof. apply oblivious_string. Qed.

Lemma oblivious_restore x y w h bk : oblivious (restore_rows panel x y w h bk).
Proof.
  apply oblivious_foldM. intros r m m' [Hn Hw]. unfold fb_memcpy. rewrite <- Hn. destruct (_ && _); constructor.
  split; [done|]. intros j Hj. cbn. destruct (_ && _); [done|by apply Hw].
Qed.

Lemma oblivious_draws l : Forall oblivious l -> oblivious (draws l).
Proof.
  intros H m m' Hm. unfold draws. revert m m' Hm. induction H as [|f l Hf Hl IH]; intros m m' Hm; [by constructor|]. cbn.
  destruct (Hf m m' Hm) as [x y Hxy|]; [by apply IH|constructor].
Qed.

(** ** Runs that differ in the header bar *)

(** The same state but for the words of the header bar. *)
Definition alike (s s' : sw) : Prop :=
  s' = s {{ screen := screen s' }} /\ option_Forall2 agree (screen s) (screen s').

Abbreviation alike_opt := (option_Forall2 alike).

Lemma alike_refl s : alike s s.
Proof. split; [by destruct s|]. destruct (screen s); constructor. apply agree_refl. Qed.

(** An update of the other fields keeps two states alike. *)
Lemma alike_update (f : sw -> sw) s s' :
  (forall s m, f (s {{ screen := m }}) = (f s) {{ screen := m }}) -> (forall s, screen (f s) = screen s) ->
  alike s s' -> alike (f s) (f s').
Proof. intros H1 H2 [E A]. split; rewrite !H2; [rewrite <- H1; by f_equal|done]. Qed.

(** Binding related results. *)
Lemma bind_related {A A' B B'} (P : A -> A' -> Prop) (Q : B -> B' -> Prop) x x' (g : A -> option B) (g' : A' -> option B') :
  option_Forall2 P x x' -> (forall a a', P a a' -> option_Forall2 Q (g a) (g' a')) ->
  option_Forall2 Q (x ≫= g) (x' ≫= g').
Proof. intros H Hg. destruct H; cbn; [by apply Hg|constructor]. Qed.

Ltac alike_field f := apply (alike_update f); [by intros []|by intros []|done].

Lemma paint_alike l s s' : Forall oblivious l -> alike s s' -> alike_opt (paint l s) (paint l s').
Proof.
  intros Hl [E A]. unfold paint. destruct A as [m m' A|]; [|constructor]. cbn [mbind option_bind].
  destruct (oblivious_draws l Hl m m' A) as [x y Hxy|]; [|constructor]. cbn [mbind option_bind]. constructor.
  split; [rewrite E; by destruct s|by constructor].
Qed.

Lemma refresh_alike l t w h k s s' : alike s s' -> alike (refresh l t w h k s) (refresh l t w h k s').
Proof. intros H. alike_field (refresh l t w h k). Qed.

(** The drawings of a dialog do not depend on the screen. *)
Ltac drawings := repeat first
  [ apply Forall_app; split | apply Forall_cons_2 | apply Forall_nil_2
  | apply oblivious_rect | apply oblivious_outline | apply oblivious_string | apply oblivious_centered ].

Lemma widget_oblivious app bs p i : Forall oblivious (widget app bs p i).
Proof.
  unfold widget. destruct (bs !! i) as [b|]; [|apply Forall_singleton; by intros m m' _; constructor].
  unfold draw_button_widget. cbn zeta. destruct (negb _); drawings.
Qed.

Lemma widgets_oblivious app bs p l : Forall oblivious (concat (map (widget app bs p) l)).
Proof. induction l as [|i l IH]; [apply Forall_nil_2|]. cbn. apply Forall_app. split; [apply widget_oblivious|done]. Qed.

Section Alike.
Context (e : swenv).

(** What the two states share. *)
Lemma alike_fields s s' :
  alike s s' -> active_app s' = active_app s /\ buttons s' = buttons s /\ backup_mem s' = backup_mem s /\
    nquery s' = nquery s /\ positioned s' = positioned s /\ screen_x s' = screen_x s /\ screen_y s' = screen_y s /\
    last_raw_x s' = last_raw_x s /\ last_raw_y s' = last_raw_y s /\
    is_contact_down s' = is_contact_down s /\ was_contact_down s' = was_contact_down s /\
    active_pressed_btn s' = active_pressed_btn s /\ chosen_action s' = chosen_action s /\
    g_running s' = g_running s /\ tmp s' = tmp s /\ log s' = log s.
Proof. intros [-> _]. by destruct s. Qed.

Lemma music_alike s s' : alike s s' -> alike_opt (draw_music_section e s) (draw_music_section e s').
Proof.
  intros H. unfold draw_music_section. pose proof (alike_fields _ _ H) as (_ & _ & _ & -> & _). apply (bind_related alike).
  - apply paint_alike; [unfold music_box; drawings|]. alike_field (fun s1 : sw => s1 {{ nquery := S (nquery s) }}).
  - intros t t' Ht. set (q := query_music_status _).
    assert (alike (t {{ buttons := music_labels q (buttons t) }}) (t' {{ buttons := music_labels q (buttons t') }})) as Hu
      by alike_field (fun s : sw => s {{ buttons := music_labels q (buttons s) }}).
    pose proof (alike_fields _ _ Hu) as (-> & -> & _). apply paint_alike; [apply widgets_oblivious|done].
Qed.

Lemma show_button_alike p i s s' : alike s s' -> alike_opt (show_button p i s) (show_button p i s').
Proof.
  intros H. unfold show_button. pose proof (alike_fields _ _ H) as (-> & -> & _).
  destruct (buttons s !! i) as [b|]; [|constructor]. cbn [mbind option_bind].
  apply (bind_related alike); [by apply paint_alike; [apply widget_oblivious|]|].
  intros t t' Ht. constructor. by apply refresh_alike.
Qed.

Lemma press_alike s s' : alike s s' -> alike_opt (touch_press s) (touch_press s').
Proof.
  intros H. unfold touch_press. set (s1 := s {{ was_contact_down := true }}). set (s1' := s' {{ was_contact_down := true }}).
  assert (alike s1 s1') as H1 by alike_field (fun s : sw => s {{ was_contact_down := true }}). clearbody s1 s1'. clear s s' H.
  pose proof (alike_fields _ _ H1) as (_ & _ & _ & _ & -> & -> & -> & -> & -> & _). destruct (positioned s1); [|by constructor].
  cbn zeta. apply (bind_related alike).
  { apply paint_alike; [drawings|]. by alike_field (sw_log (TouchDown (last_raw_x s1) (last_raw_y s1) (screen_x s1) (screen_y s1))). }
  intros t t' Ht. apply (refresh_alike (screen_x s1 - 8) (screen_y s1 - 8) 16 16 1) in Ht.
  pose proof (alike_fields _ _ Ht) as (_ & -> & _). set (hit := hit_test _ _ _).
  change (active_pressed_btn (?s {{ active_pressed_btn := hit }})) with hit.
  assert (forall t t', alike t t' -> alike (t {{ active_pressed_btn := hit }}) (t' {{ active_pressed_btn := hit }})) as G
    by (intros; alike_field (fun s : sw => s {{ active_pressed_btn := hit }})).
  destruct hit as [i|]; [apply show_button_alike|constructor]; by apply G.
Qed.

Lemma action_alike id s s' : alike s s' -> alike_opt (button_action e id s) (button_action e id s').
Proof.
  intros H. unfold button_action.
  assert (forall c, alike (run_cmd c s) (run_cmd c s')) as R by (intros c; alike_field (run_cmd c)).
  assert (forall c, alike_opt (music_action e c s) (music_action e c s')) as M.
  { intros c. unfold music_action. apply (bind_related alike); [by apply music_alike|]. intros t t' Ht. constructor. by apply refresh_alike. }
  repeat (destruct (id =? _); [by auto using option_Forall2|]).
  constructor. alike_field (fun s : sw => s {{ chosen_action := id; g_running := false }}).
Qed.

(** Results with a second component. *)
Definition alike_with {A} (p p' : sw * A) : Prop := alike p.1 p'.1 /\ p.2 = p'.2.

Lemma release_alike s s' : alike s s' -> option_Forall2 alike_with (touch_release e s) (touch_release e s').
Proof.
  intros H. unfold touch_release. set (s1 := s {{ was_contact_down := false }}). set (s1' := s' {{ was_contact_down := false }}).
  assert (alike s1 s1') as H1 by alike_field (fun s : sw => s {{ was_contact_down := false }}). clearbody s1 s1'. clear s s' H.
  pose proof (alike_fields _ _ H1) as (_ & _ & _ & _ & -> & -> & -> & -> & -> & _). destruct (positioned s1); [|by constructor].
  cbn zeta. set (x := screen_x s1). set (y := screen_y s1). set (up := TouchUp _ _ _ _).
  assert (alike (sw_log up s1) (sw_log up s1')) as H2 by alike_field (sw_log up). clear H1.
  set (s2 := sw_log up s1) in *. set (s2' := sw_log up s1') in *. clearbody x y s2 s2'. clear up s1 s1'.
  apply (bind_related alike).
  { pose proof (alike_fields _ _ H2) as (_ & _ & _ & _ & _ & _ & _ & _ & _ & _ & _ & -> & _).
    destruct (active_pressed_btn s2); [by apply show_button_alike|by constructor]. }
  intros t t' Ht. destruct (outside_dialog x y).
  { constructor. split; [|done]. alike_field (fun s : sw => s {{ chosen_action := BTN_CLOSE; g_running := false }}). }
  pose proof (alike_fields _ _ Ht) as (_ & -> & _ & _ & _ & _ & _ & _ & _ & _ & _ & -> & _).
  set (target := match active_pressed_btn t with Some i => Some i | None => _ end). apply (bind_related alike).
  { destruct target as [i|]; [|by constructor].
    destruct (buttons t !! i) as [b|]; [by apply action_alike|constructor]. }
  intros u u' Hu. assert (alike (u {{ active_pressed_btn := None }}) (u' {{ active_pressed_btn := None }})) as Hn
    by alike_field (fun s : sw => s {{ active_pressed_btn := None }}).
  constructor. split; [exact Hn|]. cbn [snd]. f_equal. symmetry. apply (alike_fields _ _ Hn).
Qed.

Lemma decode_alike ev s s' : alike s s' -> alike (touch_decode ev s) (touch_decode ev s').
Proof.
  intros H. unfold touch_decode.
  repeat match goal with |- context [if ?b then _ else _] => destruct b end; try done.
  - alike_field (fun s : sw => s {{ last_raw_x := ev_value ev }}).
  - alike_field (fun s : sw => s {{ last_raw_y := ev_value ev }}).
  - alike_field (fun s : sw => s {{ is_contact_down := false }}).
  - alike_field (fun s : sw => s {{ is_contact_down := true }}).
  - alike_field (fun s : sw => s {{ is_contact_down := negb (ev_value ev =? 0) }}).
Qed.

Lemma event_alike ev s s' : alike s s' -> option_Forall2 alike_with (touch_event e ev s) (touch_event e ev s').
Proof.
  intros H. unfold touch_event. apply (decode_alike ev) in H. cbn zeta.
  pose proof (alike_fields _ _ H) as (_ & _ & _ & _ & _ & _ & _ & _ & _ & -> & -> & _).
  destruct (_ && _); [|by constructor]. destruct (_ && _).
  - apply (bind_related alike); [by apply press_alike|]. intros t t' Ht. by constructor.
  - destruct (_ && _); [by apply release_alike|by constructor].
Qed.

Lemma stopped_alike s s' : alike s s' -> alike (s {{ g_running := false }}) (s' {{ g_running := false }}).
Proof. intros H. alike_field (fun s : sw => s {{ g_running := false }}). Qed.

Lemma read_events_alike l s s' : alike s s' -> alike_opt (read_events e l s) (read_events e l s').
Proof.
  revert s s'. induction l as [|[ev|] l IH]; intros s s' H; cbn; [by constructor| |by apply IH, stopped_alike].
  apply (bind_related alike_with); [by apply event_alike|]. intros [t b] [t' b'] [Ht Hb]. cbn in Ht, Hb. subst b'.
  destruct b; [by constructor|by apply IH].
Qed.

Definition progress_alike (p p' : progress) : Prop :=
  match p, p' with Waiting s, Waiting s' | Left s, Left s' => alike s s' | _, _ => False end.

Lemma loop_alike l s s' : alike s s' -> option_Forall2 progress_alike (event_loop e l s) (event_loop e l s').
Proof.
  revert s s'. induction l as [|[sig r] l IH]; intros s s' H; cbn [event_loop];
    (assert (g_running s' = g_running s) as -> by apply (alike_fields _ _ H)); (destruct (negb _); [by constructor|]); [by constructor|].
  assert (alike (if sig : bool then s {{ g_running := false }} else s) (if sig then s' {{ g_running := false }} else s')) as Hg
    by (destruct sig; [by apply stopped_alike|done]).
  cbn zeta. destruct r as [evs| | |]; [|by apply IH..|by constructor].
  destruct (sw_touch e); [|by apply IH]. apply (bind_related alike); [by apply read_events_alike|]. intros t t' Ht. by apply IH.
Qed.

Lemma back_alike s s' : alike s s' -> alike_opt (back_to_app s) (back_to_app s').
Proof.
  intros H. unfold back_to_app. apply (bind_related alike).
  - unfold restore_dialog. pose proof (alike_fields _ _ H) as (_ & _ & -> & _).
    destruct (backup_mem s) as [bk|]; [|by constructor]. destruct H as [E A]. destruct A as [m m' A|]; [|constructor].
    cbn [mbind option_bind]. destruct (oblivious_restore DLG_X DLG_Y DLG_W DLG_H bk m m' A) as [x y Hxy|]; [|constructor].
    cbn [mbind option_bind]. constructor. split; [rewrite E; by destruct s|by constructor].
  - intros t t' Ht. constructor. apply (refresh_alike DLG_X DLG_Y DLG_W DLG_H 1) in Ht.
    unfold resume_active_app. pose proof (alike_fields _ _ Ht) as (-> & _).
    repeat (destruct (streq _ _); [match goal with |- alike (run_cmd ?c _) _ => by alike_field (run_cmd c) end|]). done.
Qed.

Lemma dispatch_alike s s' : alike s s' -> alike_opt (dispatch e s) (dispatch e s').
Proof.
  intros H. unfold dispatch. pose proof (alike_fields _ _ H) as (-> & _ & _ & _ & _ & _ & _ & _ & _ & _ & _ & _ & -> & _).
  assert (forall c p v (s s' : sw), alike s s' -> alike (run_cmd c s) (run_cmd c s') /\ alike (put_file e p v s) (put_file e p v s')) as G.
  { intros c p v t t' Ht. split; [by alike_field (run_cmd c)|].
    unfold put_file. destruct (sw_can_write e p); [|done]. by alike_field (fun s : sw => s {{ tmp := <[p := v]> (tmp s) }}). }
  assert (forall c (s s' : sw), alike s s' -> alike (run_cmd c s) (run_cmd c s')) as G1 by (intros; by apply (G _ ""%string [])).
  assert (forall p v (s s' : sw), alike s s' -> alike (put_file e p v s) (put_file e p v s')) as G2 by (intros; by apply (G ""%string)).
  repeat (destruct (_ =? _); [try (destruct (streq _ _); [by apply back_alike|]); constructor; by auto|]). by apply back_alike.
Qed.

(** ** The two programs *)
Definition common : list (fbmem -> option fbmem) :=
  [ draw_rect panel DLG_X DLG_Y DLG_W DLG_H COLOR_WHITE;
    draw_rect_outline panel DLG_X DLG_Y DLG_W DLG_H 6 COLOR_BLACK;
    draw_rect panel DLG_X DLG_Y DLG_W 90 COLOR_BLACK;
    draw_string_centered panel DLG_X DLG_Y DLG_W 90 (cstr "NOOK APPLICATION SWITCHER") 2 COLOR_WHITE COLOR_BLACK ].
Definition subtitle : fbmem -> option fbmem :=
  draw_string panel 202 315 (cstr "SELECT APPLICATION TO RUN:") 2 COLOR_GRAY_DK COLOR_WHITE.
Definition battery : fbmem -> option fbmem :=
  let batt := query_battery_status e 48 in
  draw_string panel (DLG_X + DLG_W - strlen batt * 16 - 24) (DLG_Y + 29) batt 2 COLOR_WHITE COLOR_BLACK.

(** The battery text stays in the header bar. *)
Lemma battery_confined : confined panel DLG_X DLG_Y DLG_W 90 battery.
Proof.
  unfold battery. cbn zeta. set (batt := query_battery_status e 48).
  assert (length batt <= 47)%nat as L by (unfold batt, query_battery_status; cases_if; apply buffered_length).
  clearbody batt. unfold DLG_X, DLG_Y, DLG_W, strlen.
  eapply confined_weaken; [..|by apply confined_string]; lia.
Qed.

Lemma battery_agrees m : nwords m = panel_words -> exists m', battery m = Some m' /\ agree m' m.
Proof.
  intros Hn. destruct (battery_confined m) as (m' & E & En & Ew); [by split_and!; cbn; rewrite ?Hn|].
  exists m'. split; [done|]. split; [done|]. by intros i Hi; apply Ew.
Qed.

Lemma common_words m m' : nwords m = panel_words -> draws common m = Some m' -> nwords m' = panel_words.
Proof.
  intros Hn E. assert (confined panel DLG_X DLG_Y DLG_W DLG_H (draws common)) as C.
  { apply confined_draws. pose proof (dialog_frame_confined e) as F. unfold AppSwitcher.dialog_frame in F. cbn zeta in F.
    do 4 (apply Forall_cons in F as [? F]). unfold common. do 4 (apply Forall_cons_2; [assumption|]). apply Forall_nil_2. }
  destruct (C m) as (m1 & E1 & Hm & _); [by split_and!; cbn; rewrite ?Hn|]. rewrite E in E1. injection E1 as <-. congruence.
Qed.

Lemma frame_alike s m :
  screen s = Some m -> nwords m = panel_words -> alike_opt (paint (AppSwitcher.dialog_frame e) s) (paint dialog_frame s).
Proof.
  intros Es Hn. unfold paint. rewrite Es. cbn [mbind option_bind].
  change (draws (AppSwitcher.dialog_frame e) m) with (draws (common ++ [battery; subtitle]) m).
  change (draws dialog_frame m) with (draws (common ++ [subtitle]) m).
  unfold draws. rewrite !foldM_app. fold (draws common m).
  destruct (draws common m) as [m1|] eqn:E1; [|constructor]. cbn [mbind option_bind foldM].
  destruct (battery_agrees m1) as (m2 & -> & A); [by eapply common_words|].
  assert (option_Forall2 agree (subtitle m2) (subtitle m1)) as O by by apply oblivious_string.
  destruct O as [x y Hxy|]; cbn [mbind option_bind]; constructor.
  split; [by destruct s|]. by constructor.
Qed.

Lemma draw_dialog_alike s m :
  screen s = Some m -> nwords m = panel_words -> alike_opt (AppSwitcher.draw_dialog e s) (draw_dialog e s).
Proof.
  intros Es Hn. unfold AppSwitcher.draw_dialog, draw_dialog.
  apply (bind_related alike); [by eapply frame_alike|]. intros t t' Ht. pose proof (alike_fields _ _ Ht) as (-> & -> & _).
  apply (bind_related alike); [by apply paint_alike; [apply widgets_oblivious|]|]. intros u u' Hu.
  apply (bind_related alike); [by apply music_alike|]. intros v v' Hv. pose proof (alike_fields _ _ Hv) as (-> & -> & _).
  by apply paint_alike; [apply widgets_oblivious|].
Qed.

Lemma open_dialog_alike ws s : alike_opt (AppSwitcher.open_dialog e ws s) (open_dialog e ws s).
Proof.
  unfold AppSwitcher.open_dialog, open_dialog. cbn zeta. apply (bind_related eq); [by destruct (save_dialog _ _); constructor|].
  intros bk bk' <-. apply (bind_related alike); [by eapply draw_dialog_alike|]. intros t t' Ht. constructor.
  apply (refresh_alike DLG_X DLG_Y DLG_W DLG_H 1) in Ht. destruct (sw_touch e); [|done]. by alike_field (sw_log (Grab true)).
Qed.

Definition outcome_alike (o o' : outcome) : Prop :=
  match o, o' with
  | Exited c s, Exited c' s' => c = c' /\ alike s s'
  | Blocked s, Blocked s' => alike s s'
  | _, _ => False
  end.

Lemma close_dialog_alike s s' : alike s s' -> alike_opt (close_dialog e s) (close_dialog e s').
Proof.
  intros H. unfold close_dialog. apply (bind_related alike).
  - apply dispatch_alike. destruct (sw_touch e); [|done]. by alike_field (sw_log (Grab false)).
  - intros t t' Ht. constructor. by alike_field (unlink "/tmp/switcher_active").
Qed.

(** The battery text is all there is between the two programs: with the same
    environment, files and inputs both come to the same end, with the same exit
    status, choice, commands, requests, files and button texts, and screens that
    differ only in the header bar of the dialog. *)
Theorem battery_text_only fs inputs :
  exists o o', AppSwitcher.main e fs inputs = Some o /\ main e fs inputs = Some o' /\ outcome_alike o o'.
Proof.
  assert (option_Forall2 outcome_alike (AppSwitcher.main e fs inputs) (main e fs inputs)) as H.
  { unfold AppSwitcher.main, main. destruct (negb _); [constructor; by split; [|apply alike_refl]|].
    destruct (sw_mmap e) as [ws|]; [|constructor; by split; [|apply alike_refl]].
    apply (bind_related alike); [apply open_dialog_alike|]. intros t t' Ht.
    apply (bind_related progress_alike); [by apply loop_alike|]. intros [u|u] [u'|u'] Hu; try done; [by constructor|].
    apply (bind_related alike); [by apply close_dialog_alike|]. intros v v' Hv. constructor. by split. }
  destruct (main_cases e fs inputs) as [E|(ws & s & _ & _ & [E|(s' & _ & E)])]; rewrite E in H |- *;
    inversion H; subst; eauto.
Qed.
End Alike.
