(* ===== verification/WebKey.v ===== *)
(** * The remote keyboard, [nook-webkey.c]

    The web server a phone types into: each request is decoded into at most
    one command of the browser shim's FIFO.  The page it serves is a parameter
    (its text is static), and so are the answers of [accept] and whether the
    FIFO opens. *)

From Stdlib Require Import Ascii String.
From S2P Require Import Prelude CString.

(** What a request does. *)
Inductive web_effect := Fifo (cmd : list Z) | Reply (bytes : list Z) | CloseClient.

(** ** Percent decoding *)
Definition is_xdigit (c : Z) : bool :=
  is_digit c || ((65 <=? c) && (c <=? 70)) || ((97 <=? c) && (c <=? 102)).
Definition xvalue (c : Z) : Z :=
  if is_digit c then c - 48 else if c <=? 70 then c - 55 else c - 87.

(** [url_decode]: the bytes written to [dst] before the NUL; [room] is
    [max_len - 1 - d]. *)
Fixpoint url_decode (room : nat) (src : list Z) : list Z :=
  match room with
  | O => []
  | S room' =>
      match src with
      | [] => []
      | c :: src1 =>
          if c =? 37 then
            match src1 with
            | a :: b :: src3 =>
                if is_xdigit a && is_xdigit b
                then u8 (16 * xvalue a + xvalue b) :: url_decode room' src3
                else c :: url_decode room' src1
            | _ => c :: url_decode room' src1
            end
          else if c =? 43 then 32 :: url_decode room' src1
          else c :: url_decode room' src1
      end
  end.

(** A parameter decoded into a buffer of [max_len] bytes, as a string. *)
Definition decoded (max_len : nat) (src : list Z) : list Z := to_nul (url_decode (max_len - 1) src).

(** ** Parsing the request *)

(** [sscanf]'s [%<n>s]: the word and the rest of the text; [None] when there
    is no word. *)
Fixpoint word (n : nat) (s : list Z) : list Z * list Z :=
  match n, s with
  | S n', c :: s' => if is_space c then ([], s) else let '(w, r) := word n' s' in (c :: w, r)
  | _, _ => ([], s)
  end.
Definition scan_word (n : nat) (s : list Z) : option (list Z * list Z) :=
  match skip_white s with [] => None | s => Some (word n s) end.

(** The [path] of [sscanf(buf, "%15s %1023s", method, path)]. *)
Definition request_path (buf : list Z) : list Z :=
  match scan_word 15 buf with
  | Some (_, r) => match scan_word 1023 r with Some (path, _) => path | None => [] end
  | None => []
  end.

(** [snprintf] into a buffer of [size] bytes, as a string. *)
Definition printed (size : nat) (s : list Z) : list Z := take (size - 1) s.

Section Server.
Context (HTML_PAGE : list Z) (fifo_opens : bool).

Definition crlf : list Z := [13; 10].
Definition ok_reply : list Z :=
  cstr "HTTP/1.1 200 OK" ++ crlf ++ cstr "Content-Type: text/plain" ++ crlf ++
  cstr "Content-Length: 2" ++ crlf ++ cstr "Connection: close" ++ crlf ++ crlf ++ cstr "OK".
Definition page_header : list Z :=
  printed 256
    (cstr "HTTP/1.1 200 OK" ++ crlf ++ cstr "Content-Type: text/html; charset=UTF-8" ++ crlf ++
     cstr "Content-Length: " ++ int_string (strlen HTML_PAGE) ++ crlf ++
     cstr "Connection: close" ++ crlf ++ crlf).
Definition not_found : list Z :=
  cstr "HTTP/1.1 404 Not Found" ++ crlf ++ cstr "Content-Length: 9" ++ crlf ++
  cstr "Connection: close" ++ crlf ++ crlf ++ cstr "Not Found".

Definition fifo_write (cmd : list Z) : list web_effect := if fifo_opens then [Fifo cmd] else [].

(** The command of a path that has one. *)
Definition click_at (axis : string) (path : list Z) : Z :=
  match strstr (cstr axis) path with Some p => atoi (drop 2 p) | None => 0 end.

Definition command (path : list Z) : option (list Z) :=
  if starts_with (cstr "/cmd?k=") path then
    Some (printed 128 (cstr "KEY:" ++ decoded 64 (drop 7 path) ++ [10]))
  else if starts_with (cstr "/key?c=") path then
    Some (printed 64 (cstr "TEXT:" ++ decoded 32 (drop 7 path) ++ [10]))
  else if starts_with (cstr "/text?s=") path then
    Some (printed 600 (cstr "TEXT:" ++ decoded 512 (drop 8 path) ++ [10]))
  else if starts_with (cstr "/url?u=") path then
    Some (printed 600 (cstr "URL:" ++ decoded 512 (drop 7 path) ++ [10]))
  else if starts_with (cstr "/click?") path then
    Some (printed 64 (cstr "CLICK:" ++ int_string (click_at "x=" path) ++ cstr "," ++
                      int_string (click_at "y=" path) ++ [10]))
  else None.

Definition respond (path : list Z) : list web_effect :=
  if streq path (cstr "/") || streq path (cstr "/index.html") then [Reply page_header; Reply HTML_PAGE]
  else match command path with
       | Some cmd => fifo_write cmd ++ [Reply ok_reply]
       | None => [Reply not_found]
       end.

(** [handle_client]: [data] is what the client has sent, of which one [read]
    takes at most 2047 bytes; [None] is a failed [read]. *)
Definition handle_client (data : option (list Z)) : list web_effect :=
  match data with
  | None | Some [] => [CloseClient]
  | Some data => respond (request_path (to_nul (take 2047 data))) ++ [CloseClient]
  end.

(** [main]: whether each set-up call succeeds, and the results of [accept]. *)
Inductive accepted := Client (data : option (list Z)) | AcceptIntr | AcceptError.

Fixpoint serve (l : list accepted) : list web_effect * bool :=
  match l with
  | [] => ([], true)
  | Client d :: l' => let '(out, going) := serve l' in (handle_client d ++ out, going)
  | AcceptIntr :: l' => serve l'
  | AcceptError :: _ => ([], false)
  end.

(** The trace, and the exit status when [main] returns. *)
Definition main (socket_ok bind_ok listen_ok : bool) (l : list accepted) :
    list web_effect * option Z :=
  if negb (socket_ok && bind_ok && listen_ok) then ([], Some 1)
  else let '(out, going) := serve l in (out, if going : bool then None else Some 0).
End Server.

(** ** Decoding undoes encoding *)

(** The browser's [encodeURIComponent] on bytes: the unreserved characters
    stand for themselves, the others are percent-encoded. *)
Definition unreserved (c : Z) : bool :=
  is_digit c || ((65 <=? c) && (c <=? 90)) || ((97 <=? c) && (c <=? 122)) ||
  existsb (Z.eqb c) (cstr "-_.!~*'()").
Definition hex_char (n : Z) : Z := if n <? 10 then 48 + n else 55 + n.
Definition encode_byte (c : Z) : list Z :=
  if unreserved c then [c] else [37; hex_char (c / 16); hex_char (c mod 16)].
Definition encode_uri (t : list Z) : list Z := concat (map encode_byte t).

Lemma decode_byte room c rest :
  is_u8 c -> url_decode (S room) (encode_byte c ++ rest) = c :: url_decode room rest.
Proof.
  intros Hc. unfold encode_byte. destruct (unreserved c) eqn:U; cbn [app url_decode].
  - pose proof (byte_cases (fun c => negb (unreserved c) || (negb (c =? 37) && negb (c =? 43)))
      ltac:(vm_compute; reflexivity) c Hc) as G. cbv beta in G. rewrite U in G. cbn [negb orb] in G.
    apply andb_true_iff in G as [G1%negb_true_iff G2%negb_true_iff]. by rewrite G1, G2.
  - pose proof (byte_cases (fun c => is_xdigit (hex_char (c / 16)) && is_xdigit (hex_char (c mod 16)) &&
      (u8 (16 * xvalue (hex_char (c / 16)) + xvalue (hex_char (c mod 16))) =? c))
      ltac:(vm_compute; reflexivity) c Hc) as G. cbv beta in G.
    apply andb_true_iff in G as [G1 G2%Z.eqb_eq]. by rewrite G1, G2.
Qed.

Lemma decode_encoded t room : Forall is_u8 t -> url_decode room (encode_uri t) = take room t.
Proof.
  intros Ht. revert room. induction Ht as [|c t Hc Ht IH]; intros [|room]; try done.
  unfold encode_uri. cbn [map concat]. rewrite decode_byte by done. cbn [take]. f_equal. apply IH.
Qed.

(** Percent decoding is the inverse of the browser's encoding: whatever
    bytes the phone encodes, the server gets them back, cut to the size of its
    buffer. *)
Theorem url_decode_inverts_encoding t max_len :
  Forall is_u8 t -> (0 < max_len)%nat ->
  url_decode (max_len - 1) (encode_uri t) = take (max_len - 1) t /\
  (length (url_decode (max_len - 1) (encode_uri t)) < max_len)%nat.
Proof. intros Ht Hm. rewrite decode_encoded by done. rewrite length_take. split; [done|lia]. Qed.

Lemma url_decode_inverts_encoding_witness :
  url_decode 63 (cstr "100%25%2Ba%20b") = cstr "100%+a b".
Proof.
  apply (url_decode_inverts_encoding (cstr "100%+a b") 64); [|lia].
  repeat (apply Forall_cons_2; [unfold is_u8; cbn; lia|]). apply Forall_nil_2.
Defined.

(** ** Commands are complete lines *)
Lemma url_decode_length room s : (length (url_decode room s) <= room)%nat.
Proof.
  revert s. induction room as [|room IH]; intros s; cbn [url_decode]; [cbn; lia|].
  repeat case_match; cbn [length]; try lia; (eapply le_n_S, IH).
Qed.

Lemma to_nul_length s : (length (to_nul s) <= length s)%nat.
Proof. induction s as [|c s IH]; cbn; [lia|]. destruct (c =? 0); cbn; lia. Qed.

Lemma decoded_length n s : (0 < n)%nat -> (length (decoded n s) < n)%nat.
Proof.
  intros Hn. unfold decoded. pose proof (to_nul_length (url_decode (n - 1) s)).
  pose proof (url_decode_length (n - 1) s). lia.
Qed.

Lemma printed_fits size s : (length s < size)%nat -> printed size s = s.
Proof. intros H. unfold printed. apply take_ge. lia. Qed.

Lemma int_string_length z : is_i32 z -> (length (int_string z) <= 11)%nat.
Proof.
  intros Hz. unfold is_i32 in Hz. unfold int_string. destruct (Z.ltb_spec z 0); cbn [length].
  - pose proof (dec_string_length 10 (- z)). change (10 ^ Z.of_nat 10) with 10000000000 in *. lia.
  - pose proof (dec_string_length 10 z). change (10 ^ Z.of_nat 10) with 10000000000 in *. lia.
Qed.

(** A command and its buffer: the size always suffices. *)
Definition complete_line (cmd : list Z) : Prop :=
  exists body, cmd = body ++ [10] /\ (length body < 517)%nat.

Lemma printed_line size body cmd :
  (length body + 1 < size)%nat -> (length body < 517)%nat ->
  Some (printed size (body ++ [10])) = Some cmd -> complete_line cmd.
Proof.
  intros Hs Hl [= <-]. rewrite printed_fits by (rewrite length_app; cbn [length]; lia).
  by exists body.
Qed.

Lemma command_complete path cmd : command path = Some cmd -> complete_line cmd.
Proof.
  unfold command. pose proof (decoded_length 64 (drop 7 path)). pose proof (decoded_length 32 (drop 7 path)).
  pose proof (decoded_length 512 (drop 8 path)). pose proof (decoded_length 512 (drop 7 path)).
  assert (forall a, is_i32 (click_at a path)) as Hr
    by (intros a; unfold click_at; destruct (strstr _ _); [apply atoi_range|unfold is_i32; lia]).
  pose proof (int_string_length _ (Hr "x="%string)). pose proof (int_string_length _ (Hr "y="%string)).
  rewrite !app_assoc.
  repeat (destruct (starts_with _ path); [apply printed_line; rewrite ?length_app; strlit; lia|]).
  done.
Qed.

(** Each request gets one answer and is closed, and sends the browser at
    most one command, always a complete line: none of the buffers the command
    is built in ever cuts it, and its 517 bytes at most are one atomic write. *)
Theorem request_sends_complete_line page fifo_opens data :
  exists cmds replies,
    handle_client page fifo_opens data = cmds ++ replies ++ [CloseClient] /\
    (length cmds <= 1)%nat /\ Forall (fun x => exists r, x = Reply r) replies /\
    Forall (fun x => exists line, x = Fifo line /\ complete_line line) cmds.
Proof.
  unfold handle_client. 
  assert (exists cmds replies, [CloseClient] = cmds ++ replies ++ [CloseClient] /\
    (length cmds <= 1)%nat /\ Forall (fun x => exists r, x = Reply r) replies /\
    Forall (fun x => exists line, x = Fifo line /\ complete_line line) cmds) as Hclose.
  { exists [], []. split; [done|]. split; [cbn; lia|]. split; apply Forall_nil_2. }
  destruct data as [[|c data]|]; [exact Hclose| |exact Hclose]. clear Hclose.
  set (path := request_path _). clearbody path. unfold respond.
  destruct (_ || _).
  { exists [], [Reply (page_header page); Reply page]. split; [done|]. split; [cbn; lia|].
    split; [|apply Forall_nil_2]. repeat (apply Forall_cons_2; [by eexists|]). apply Forall_nil_2. }
  destruct (command path) as [cmd|] eqn:E.
  - destruct (command_complete path cmd E) as (body & -> & Hl).
    exists (fifo_write fifo_opens (body ++ [10])), [Reply ok_reply].
    split; [by rewrite <- !app_assoc|]. unfold fifo_write. destruct fifo_opens; cbn [length].
    + split; [lia|]. split; apply Forall_cons_2; try apply Forall_nil_2; [by eexists|].
      eexists. split; [done|]. by exists body.
    + split; [lia|]. split; [apply Forall_cons_2; [by eexists|apply Forall_nil_2]|apply Forall_nil_2].
  - exists [], [Reply not_found]. split; [done|]. split; [cbn; lia|].
    split; [|apply Forall_nil_2]. apply Forall_cons_2; [by eexists|apply Forall_nil_2].
Qed.
