(* ===== verification/WebKeyTyping.v ===== *)
(** * From the phone to the browser

    What [nook-webkey.c] writes to the FIFO is what [sdl_fb0_shim.c] reads:
    the theorems here join the two programs. *)

From Stdlib Require Import Ascii String.
From S2P Require Import Prelude CString Input Font Framebuffer SdlText SdlOsk SdlQueue SdlShim.
From S2P Require Import SdlSafety SdlBehaviour WebKey.

(** ** Scanning the request *)
Lemma word_all n w s rest :
  Forall (fun c => is_space c = false) w -> is_space s = true -> (length w <= n)%nat ->
  word n (w ++ s :: rest) = (w, s :: rest).
Proof.
  intros Hw Hs. revert n. induction Hw as [|c w Hc Hw IH]; intros n Hn; cbn [app length] in *.
  - destruct n; cbn [word]; [done|]. by rewrite Hs.
  - destruct n as [|n]; [lia|]. cbn [word]. rewrite Hc, IH by lia. done.
Qed.

(** The request line a browser sends for a path. *)
Definition get_request (path rest : list Z) : list Z := cstr "GET " ++ path ++ cstr " HTTP/1.1" ++ rest.

Definition path_char (c : Z) : Prop := is_space c = false /\ c <> 0 /\ is_u8 c.

Lemma to_nul_app t rest :
  Forall path_char t -> to_nul (t ++ rest) = t ++ to_nul rest.
Proof.
  induction 1 as [|c t (_ & Hc & _) Ht IH]; [done|]. cbn [app to_nul].
  rewrite (proj2 (Z.eqb_neq c 0)) by done. by rewrite IH.
Qed.

Lemma get_request_path path rest :
  Forall path_char path -> path <> [] -> (length path <= 1023)%nat ->
  request_path (to_nul (take 2047 (get_request path rest))) = path.
Proof.
  intros Hp Hne Hl. unfold get_request. change (cstr "GET ") with [71; 69; 84; 32].
  change (cstr " HTTP/1.1") with (32 :: cstr "HTTP/1.1").
  assert (forall k, (length path + 5 <= k)%nat -> exists r,
    take k ([71; 69; 84; 32] ++ path ++ (32 :: cstr "HTTP/1.1") ++ rest) = [71; 69; 84; 32] ++ path ++ 32 :: r)
    as Ht.
  { intros k Hk. do 5 (destruct k as [|k]; [lia|]). cbn [app firstn take].
    rewrite firstn_app, firstn_all2 by lia.
    replace (S k - length path)%nat with (S (k - length path)) by lia. cbn [firstn].
    by eexists. }
  destruct (Ht 2047%nat) as [r Er]; [lia|]. clear Ht.
  rewrite Er. change (to_nul ([71; 69; 84; 32] ++ path ++ 32 :: r)) with
    ([71; 69; 84; 32] ++ to_nul (path ++ 32 :: r)).
  rewrite to_nul_app by done. cbn [to_nul Z.eqb Pos.eqb].
  unfold request_path.
  assert (scan_word 15 ([71; 69; 84; 32] ++ path ++ 32 :: to_nul r) =
          Some ([71; 69; 84], 32 :: path ++ 32 :: to_nul r)) as -> by reflexivity.
  destruct path as [|c path]; [done|].
  assert (is_space c = false) as Hc by (by apply Forall_cons in Hp as [[? _] _]).
  assert (skip_white (32 :: (c :: path) ++ 32 :: to_nul r) = (c :: path) ++ 32 :: to_nul r) as Esk.
  { change (skip_white (c :: path ++ 32 :: to_nul r) = c :: path ++ 32 :: to_nul r).
    cbn [skip_white]. by rewrite Hc. }
  unfold scan_word. rewrite Esk.
  change (match Some (word 1023 ((c :: path) ++ 32 :: to_nul r)) with
          | Some (path0, _) => path0 | None => [] end = c :: path).
  rewrite (word_all 1023 (c :: path) 32 (to_nul r)); [done| |done|done].
  eapply Forall_impl; [exact Hp|]. by intros x [? _].
Qed.

(** Encoded text is made of path characters. *)
Lemma encode_path_chars t : Forall is_u8 t -> Forall path_char (encode_uri t).
Proof.
  intros Ht. unfold encode_uri. apply Forall_concat, Forall_map.
  eapply Forall_impl; [exact Ht|]. intros c Hc. apply Forall_forall. intros d Hd.
  pose proof (byte_cases (fun c => forallb (fun d => negb (is_space d) && negb (d =? 0) &&
      (0 <=? d) && (d <? 256)) (encode_byte c)) ltac:(vm_compute; reflexivity) c Hc) as G.
  cbv beta in G. apply (forallb_In _ _ d) in G; [|done].
  cbv beta in G. bprop. split_and!; [done|done|unfold is_u8; lia..].
Qed.

Lemma encode_length t : (length (encode_uri t) <= 3 * length t)%nat.
Proof.
  induction t as [|c t IH]; [done|]. unfold encode_uri in *. cbn [map concat].
  rewrite length_app. unfold encode_byte at 1. destruct (unreserved c); cbn [length]; lia.
Qed.

Lemma to_nul_bytes t : Forall (fun c => c <> 0) t -> to_nul t = t.
Proof.
  induction 1 as [|c t Hc Ht IH]; [done|]. cbn. rewrite (proj2 (Z.eqb_neq c 0)) by done. by rewrite IH.
Qed.

(** The line the server writes for a text. *)
Lemma text_request_line page t rest :
  Forall (fun c => 0 < c < 256) t -> (length t <= 300)%nat ->
  handle_client page true (Some (get_request (cstr "/text?s=" ++ encode_uri t) rest)) =
    [Fifo (cstr "TEXT:" ++ t ++ [10]); Reply ok_reply; CloseClient].
Proof.
  intros Ht Hl. assert (Forall is_u8 t) as Hu
    by (eapply Forall_impl; [exact Ht|]; unfold is_u8; cbn; lia).
  unfold handle_client. change (get_request ?p rest) with (71 :: drop 1 (get_request p rest)).
  cbv iota beta. change (71 :: drop 1 (get_request ?p rest)) with (get_request p rest).
  rewrite get_request_path.
  - unfold respond. set (path := cstr "/text?s=" ++ encode_uri t).
    change (streq path (cstr "/")) with (streq (47 :: cstr "text?s=" ++ encode_uri t) (cstr "/")).
    replace (streq _ _ || streq _ _) with false.
    2:{ symmetry. apply orb_false_iff. unfold streq. split; apply bool_decide_eq_false; discriminate. }
    change (command path) with (Some (printed 600 (cstr "TEXT:" ++ decoded 512 (encode_uri t) ++ [10]))).
    unfold decoded. rewrite decode_encoded by done. rewrite take_ge by lia.
    rewrite to_nul_bytes by (eapply Forall_impl; [exact Ht|]; cbn; lia).
    rewrite printed_fits by (rewrite !length_app; strlit; cbn [length]; lia). done.
  - apply Forall_app. split; [|by apply encode_path_chars].
    repeat (apply Forall_cons_2; [split; [done|split; [done|unfold is_u8; cbn; lia]]|]). apply Forall_nil_2.
  - done.
  - rewrite length_app. strlit. pose proof (encode_length t). lia.
Qed.

(** Reading the line back in the shim. *)
Lemma end_token_line c t rest :
  Forall (fun c => c <> 0 /\ c <> 10 /\ c <> 13) (c :: t) ->
  end_token ((c :: t) ++ 10 :: rest) = (c :: t) ++ 0 :: rest.
Proof.
  generalize (c :: t). intros l. induction 1 as [|d l (H0 & H1 & H2) Hl IH]; [done|].
  cbn [app end_token]. unfold is_newline at 1.
  rewrite (proj2 (Z.eqb_neq d 0)), (proj2 (Z.eqb_neq d 10)), (proj2 (Z.eqb_neq d 13)) by done.
  cbn [orb]. by rewrite IH.
Qed.

Lemma fifo_one_line c t :
  Forall (fun c => c <> 0 /\ c <> 10 /\ c <> 13) (c :: t) ->
  fifo_lines true ((c :: t) ++ [10; 0]) = [(c :: t) ++ [0; 0]].
Proof.
  intros H. pose proof (end_token_line c t [0] H) as E.
  apply Forall_cons in H as [(H0 & H1 & H2) Ht].
  cbn [app fifo_lines]. unfold is_newline at 1.
  rewrite (proj2 (Z.eqb_neq c 0)), (proj2 (Z.eqb_neq c 10)), (proj2 (Z.eqb_neq c 13)) by done.
  cbn [orb]. cbn [app] in E. rewrite E. f_equal.
  clear -Ht. induction Ht as [|d t (H0 & H1 & H2) Ht IH]; [done|]. cbn [app fifo_lines].
  unfold is_newline at 1.
  rewrite (proj2 (Z.eqb_neq d 0)), (proj2 (Z.eqb_neq d 10)), (proj2 (Z.eqb_neq d 13)) by done.
  cbn [orb]. exact IH.
Qed.

(** C23: a text sent from the phone is typed in the browser.  For ASCII text of
    at most 249 characters with no line break, the request the page makes for
    it leads the server to write one command, and the shim, reading it,
    queues one press and one release for each character, in order. *)
Theorem phone_text_is_typed page heap m0 t rest s :
  good m0 s -> ascii t -> Forall (fun c => c <> 10 /\ c <> 13) t -> (length t <= 249)%nat ->
  exists cmd s' l,
    handle_client page true (Some (get_request (cstr "/text?s=" ++ encode_uri t) rest)) =
      [Fifo cmd; Reply ok_reply; CloseClient] /\
    handle_fifo heap cmd s = Some s' /\ outs s' = outs s ++ l /\ unicodes l = t /\
    length (queued_events l) = (2 * length t)%nat.
Proof.
  intros Hg Ha Hn Hl.
  destruct (text_command heap m0 t [0] s Hg Ha Hn) as (s' & l & E & Ho & Hu & Hq & _).
  exists (cstr "TEXT:" ++ t ++ [10]), s', l. split; [|split; [|done]].
  - apply text_request_line; [|lia]. eapply Forall_impl; [exact Ha|]. cbn. lia.
  - unfold handle_fifo. rewrite take_ge by (rewrite !length_app; strlit; cbn [length]; lia).
    replace ((cstr "TEXT:" ++ t ++ [10]) ++ [0]) with (cstr "TEXT:" ++ t ++ [10; 0])
      by (rewrite <- !app_assoc; done).
    change (cstr "TEXT:" ++ t ++ [10; 0]) with ((84 :: cstr "EXT:" ++ t) ++ [10; 0]).
    rewrite fifo_one_line; [cbn [foldM]|].
    + change ((84 :: cstr "EXT:" ++ t) ++ [0; 0]) with (cstr "TEXT:" ++ t ++ 0 :: [0]). by rewrite E.
    + change (84 :: cstr "EXT:" ++ t) with (cstr "TEXT:" ++ t). apply Forall_app. split.
      * repeat (apply Forall_cons_2; [cbn; lia|]). apply Forall_nil_2.
      * apply Forall_forall. intros c Hc. rewrite Forall_forall in Hn.
        unfold ascii in Ha. rewrite Forall_forall in Ha.
        specialize (Hn c Hc). specialize (Ha c Hc). cbn in *. lia.
Qed.

Lemma phone_text_is_typed_witness :
  exists cmd s' l,
    handle_client [] true (Some (get_request (cstr "/text?s=" ++ encode_uri (cstr "e-ink 100%")) [13; 10])) =
      [Fifo cmd; Reply ok_reply; CloseClient] /\
    handle_fifo None cmd sdl_init = Some s' /\ outs s' = [] ++ l /\ unicodes l = cstr "e-ink 100%" /\
    length (queued_events l) = 20%nat.
Proof.
  apply (phone_text_is_typed [] None blank_page (cstr "e-ink 100%") [13; 10] sdl_init).
  - split; [split|done]; [done|done|]. split; [by apply ascii_compute|vm_compute; discriminate].
  - by apply ascii_compute.
  - repeat (apply Forall_cons_2; [cbn; lia|]). apply Forall_nil_2.
  - vm_compute. lia.
Defined.
