(* ===== verification/MtpName.v ===== *)
(** * File names from the host, [mtp_sanitize.c]

    The check every name an MTP host sends goes through before it becomes part
    of a path on the device.  A string is the list of its bytes before the
    NUL; the function works in place, so its result is the string left in the
    buffer and the return value. *)

From Stdlib Require Import Ascii String.
From S2P Require Import Prelude CString.

(** ** UTF-8 validation *)
Definition is_cont (b : Z) : bool := Z.land b 0xC0 =? 0x80.
Definition add_cont (cp b : Z) : Z := Z.lor (Z.shiftl cp 6) (Z.land b 0x3F).

(** The tests on a decoded code point of [bytes] bytes. *)
Definition cp_valid (bytes cp : Z) : bool :=
  negb (((bytes =? 2) && (cp <? 0x80)) || ((bytes =? 3) && (cp <? 0x800)) ||
        ((bytes =? 4) && (cp <? 0x10000)) || ((0xD800 <=? cp) && (cp <=? 0xDFFF)) ||
        (0x10FFFF <? cp)).

Fixpoint utf8_validate (s : list Z) : bool :=
  match s with
  | [] => true
  | c :: s1 =>
      if c <? 0x80 then utf8_validate s1
      else if Z.land c 0xE0 =? 0xC0 then
        match s1 with
        | b1 :: s2 => is_cont b1 && cp_valid 2 (add_cont (Z.land c 0x1F) b1) && utf8_validate s2
        | _ => false
        end
      else if Z.land c 0xF0 =? 0xE0 then
        match s1 with
        | b1 :: b2 :: s3 =>
            is_cont b1 && is_cont b2 && cp_valid 3 (add_cont (add_cont (Z.land c 0x0F) b1) b2) &&
            utf8_validate s3
        | _ => false
        end
      else if Z.land c 0xF8 =? 0xF0 then
        match s1 with
        | b1 :: b2 :: b3 :: s4 =>
            is_cont b1 && is_cont b2 && is_cont b3 &&
            cp_valid 4 (add_cont (add_cont (add_cont (Z.land c 0x07) b1) b2) b3) && utf8_validate s4
        | _ => false
        end
      else false
  end.

(** ** [sanitize_name] *)
Definition is_forbidden_ascii (c : Z) : bool :=
  (c <? 0x20) || (c =? 0x7F) || existsb (Z.eqb c) (34 :: cstr "/\:*?<>|;").

Definition replace_char (c : Z) : Z :=
  if 0x80 <=? c then c else if is_forbidden_ascii c then 95 else c.

(** Step 2: [wi] bytes are written; [None] is the truncation. *)
Fixpoint replace_loop (max_len wi : Z) (s : list Z) : option (list Z) :=
  match s with
  | [] => Some []
  | c :: s' =>
      if (0 <? max_len) && (max_len <=? wi) then None
      else cons (replace_char c) <$> replace_loop max_len (wi + 1) s'
  end.

Fixpoint strip_leading (s : list Z) : list Z :=
  match s with c :: s' => if (c =? 32) || (c =? 47) then strip_leading s' else s | [] => [] end.

(** Step 4, from the end of the string. *)
Fixpoint strip_trailing (s : list Z) : list Z :=
  match s with
  | [] => []
  | c :: s' =>
      match strip_trailing s' with
      | [] => if (c =? 46) || (c =? 32) then [] else [c]
      | t => c :: t
      end
  end.

Definition sanitize_name (str : option (list Z)) (max_len : Z) : list Z * Z :=
  match str with
  | None => ([], -1)
  | Some s =>
      if has_sub (cstr "..") s then (s, -1)
      else if negb (utf8_validate s) then (s, -1)
      else match replace_loop max_len 0 s with
           | None => (take (Z.to_nat (max_len - 1)) (map replace_char s), -1)
           | Some s =>
               let s := strip_trailing (strip_leading s) in
               if bool_decide (s = []) then (s, -1) else (s, 1)
           end
  end.

(** [check_realpath]: [realp] is the answer of [realpath], not empty when
    there is one; the loop is run for at most [fuel] rounds. *)
Fixpoint root_loop (fuel : nat) (rootpath realp : list Z) (i : nat) : option Z :=
  match fuel with
  | O => None
  | S f =>
      match rootpath !! i with
      | None => Some 1
      | Some c => if bool_decide (realp !! i = Some c) then root_loop f rootpath realp i else Some 0
      end
  end.
Definition check_realpath (fuel : nat) (rootpath : list Z) (realp : option (list Z)) : option Z :=
  match realp with None => Some 0 | Some p => root_loop fuel rootpath p 0 end.

(** ** What an accepted name is *)
Lemma replace_loop_spec max_len wi s t :
  replace_loop max_len wi s = Some t -> t = map replace_char s.
Proof.
  revert wi t. induction s as [|c s IH]; intros wi t; cbn; [by intros [= <-]|].
  destruct (_ && _); [done|]. destruct (replace_loop max_len (wi + 1) s) eqn:E; [|done].
  cbn. intros [= <-]. f_equal. by eapply IH.
Qed.

Lemma replace_loop_none max_len wi s :
  0 <= wi -> replace_loop max_len wi s = None -> 0 < max_len < wi + strlen s.
Proof.
  unfold strlen. revert wi. induction s as [|c s IH]; intros wi Hw; cbn [replace_loop length]; [done|].
  destruct (_ && _) eqn:E; [intros _; bprop; lia|].
  destruct (replace_loop max_len (wi + 1) s) eqn:E2; [done|]. intros _.
  specialize (IH (wi + 1) ltac:(lia) E2). lia.
Qed.

Lemma strip_leading_suffix s : exists p, s = p ++ strip_leading s /\ Forall (fun c => c = 32 \/ c = 47) p.
Proof.
  induction s as [|c s (p & E & Hp)]; [by exists []|]. cbn.
  destruct (_ || _) eqn:Ec; [|by exists []].
  exists (c :: p). split; [cbn; by rewrite <- E|]. apply Forall_cons_2; [|done].
  apply orb_true_iff in Ec as [?|?]; bprop; tauto.
Qed.

Lemma strip_trailing_prefix s : exists p, s = strip_trailing s ++ p /\ Forall (fun c => c = 46 \/ c = 32) p.
Proof.
  induction s as [|c s (p & E & Hp)]; [by exists []|]. cbn.
  destruct (strip_trailing s) as [|d t].
  - destruct (_ || _) eqn:Ec.
    + exists (c :: p). split; [cbn; by rewrite E at 1|]. apply Forall_cons_2; [|done].
      apply orb_true_iff in Ec as [?|?]; bprop; tauto.
    + exists p. split; [cbn; by rewrite E at 1|done].
  - exists p. split; [cbn; by rewrite E at 1|done].
Qed.

Lemma strip_trailing_last s c : last (strip_trailing s) = Some c -> c <> 46 /\ c <> 32.
Proof.
  revert c. induction s as [|d s IH]; intros c; cbn; [done|].
  destruct (strip_trailing s) as [|e t].
  - destruct (_ || _) eqn:Ec; [done|]. cbn. intros [= <-]. by bprop.
  - intros H. apply IH. exact H.
Qed.

Lemma strip_leading_head s c : head (strip_leading s) = Some c -> c <> 32 /\ c <> 47.
Proof.
  induction s as [|d s IH]; cbn; [done|]. destruct (_ || _) eqn:Ec; [done|]. cbn. intros [= <-]. by bprop.
Qed.

(** Replacing forbidden characters keeps the string valid: they are all ASCII
    and so is what replaces them. *)
Lemma replace_char_high c : 0x80 <= c -> replace_char c = c.
Proof. intros H. unfold replace_char. by rewrite (proj2 (Z.leb_le _ _)). Qed.
Lemma replace_char_low c : c < 0x80 -> replace_char c < 0x80.
Proof.
  intros H. unfold replace_char. rewrite (proj2 (Z.leb_gt _ _)) by done. cases_if; [lia|done].
Qed.

Lemma cont_high b : is_u8 b -> is_cont b = true -> 0x80 <= b.
Proof.
  intros Hb Hc. pose proof (byte_cases (fun b => negb (is_cont b) || (0x80 <=? b))
    ltac:(vm_compute; reflexivity) b Hb) as H. cbv beta in H. rewrite Hc in H. cbn [negb orb] in H. by apply Z.leb_le.
Qed.

Lemma replace_cont b : is_u8 b -> is_cont (replace_char b) = is_cont b.
Proof.
  intros Hb. pose proof (byte_cases (fun b => Bool.eqb (is_cont (replace_char b)) (is_cont b))
    ltac:(vm_compute; reflexivity) b Hb) as H. by apply Bool.eqb_prop in H.
Qed.

(** Induction on the length of a string. *)
Lemma string_ind (P : list Z -> Prop) :
  (forall s, (forall t, (length t < length s)%nat -> P t) -> P s) -> forall s, P s.
Proof.
  intros H s. remember (length s) as n eqn:E. revert s E.
  induction n as [n IH] using lt_wf_ind. intros s ->. apply H. intros t Ht. by eapply IH.
Qed.

Ltac bytes :=
  repeat match goal with H : Forall is_u8 (_ :: _) |- _ => apply Forall_cons in H as [? H] end.

Lemma validate_replaced s : Forall is_u8 s -> utf8_validate (map replace_char s) = utf8_validate s.
Proof.
  induction s as [s IH] using string_ind. destruct s as [|c s]; [done|]. intros Hs. bytes.
  cbn [map utf8_validate]. destruct (Z.ltb_spec c 0x80) as [Hc|Hc].
  - rewrite (proj2 (Z.ltb_lt _ _)) by by apply replace_char_low. apply IH; [cbn; lia|done].
  - rewrite replace_char_high, (proj2 (Z.ltb_ge _ _)) by done.
    destruct (_ =? 0xC0); [|destruct (_ =? 0xE0); [|destruct (_ =? 0xF0); [|done]]].
    + destruct s as [|b1 s]; [done|]. bytes. cbn [map]. rewrite replace_cont by done.
      destruct (is_cont b1) eqn:E1; [|done]. rewrite replace_char_high by by apply cont_high.
      by rewrite IH by (done || (cbn; lia)).
    + destruct s as [|b1 [|b2 s]]; [done..|]. bytes. cbn [map]. rewrite !replace_cont by done.
      destruct (is_cont b1) eqn:E1; [|done]. destruct (is_cont b2) eqn:E2; [|done].
      rewrite !replace_char_high by by apply cont_high. by rewrite IH by (done || (cbn; lia)).
    + destruct s as [|b1 [|b2 [|b3 s]]]; [done..|]. bytes. cbn [map]. rewrite !replace_cont by done.
      destruct (is_cont b1) eqn:E1; [|done]. destruct (is_cont b2) eqn:E2; [|done].
      destruct (is_cont b3) eqn:E3; [|done].
      rewrite !replace_char_high by by apply cont_high. by rewrite IH by (done || (cbn; lia)).
Qed.

(** Cutting ASCII characters off the end keeps it valid too. *)
Lemma ascii_no_cont c : c < 0x80 -> 0 <= c -> is_cont c = false.
Proof.
  intros H1 H0. destruct (is_cont c) eqn:E; [|done].
  pose proof (cont_high c ltac:(unfold is_u8; lia) E). lia.
Qed.

Lemma validate_snoc s c : 0 <= c < 0x80 -> utf8_validate (s ++ [c]) = true -> utf8_validate s = true.
Proof.
  intros Hc. pose proof (ascii_no_cont c ltac:(lia) ltac:(lia)) as Hn.
  induction s as [s IH] using string_ind. destruct s as [|a s]; [done|].
  cbn [app utf8_validate]. destruct (a <? 0x80); [apply IH; cbn; lia|].
  destruct (_ =? 0xC0); [|destruct (_ =? 0xE0); [|destruct (_ =? 0xF0); [|done]]].
  - destruct s as [|b1 s]; cbn [app]; [by rewrite Hn|].
    rewrite !andb_true_iff. intros [[? ?] ?]. split_and!; try done. apply IH; [cbn; lia|done].
  - destruct s as [|b1 [|b2 s]]; cbn [app]; [done|by rewrite Hn, andb_false_r|].
    rewrite !andb_true_iff. intros [[[? ?] ?] ?]. split_and!; try done. apply IH; [cbn; lia|done].
  - destruct s as [|b1 [|b2 [|b3 s]]]; cbn [app]; [done|done|by rewrite Hn, !andb_false_r|].
    rewrite !andb_true_iff. intros [[[[? ?] ?] ?] ?]. split_and!; try done. apply IH; [cbn; lia|done].
Qed.

Lemma validate_prefix s p :
  Forall (fun c => c = 46 \/ c = 32) p -> utf8_validate (s ++ p) = true -> utf8_validate s = true.
Proof.
  intros Hp. revert s. induction Hp as [|c p Hc Hp IH]; intros s; [by rewrite app_nil_r|].
  intros H. replace (s ++ c :: p) with ((s ++ [c]) ++ p) in H by by rewrite <- app_assoc.
  apply IH in H. apply (validate_snoc s c); [lia|done].
Qed.

Lemma validate_suffix p s :
  Forall (fun c => c = 32 \/ c = 47) p -> utf8_validate (p ++ s) = utf8_validate s.
Proof.
  induction 1 as [|c p Hc Hp IH]; [done|]. cbn [app utf8_validate].
  rewrite (proj2 (Z.ltb_lt c 0x80)) by lia. exact IH.
Qed.

(** ** No ".." *)
Definition no_dotdot (s : list Z) : Prop := forall p q, s <> p ++ [46; 46] ++ q.

Lemma has_sub_spec p s : has_sub p s = true <-> exists a b, s = a ++ p ++ b.
Proof.
  induction s as [|c s IH]; cbn [has_sub]; rewrite orb_true_iff, starts_with_spec.
  - split; [intros [[t ->]|?]; [by exists [], t|done]|].
    intros (a & b & E). left. exists b. destruct a; [done|discriminate].
  - rewrite IH. split.
    + intros [[t ->]|(a & b & ->)]; [by exists [], t|by exists (c :: a), b].
    + intros ([|d a] & b & E); [left; by exists b|right]. injection E as -> ->. by exists a, b.
Qed.

Lemma no_dotdot_infix p s q : no_dotdot (p ++ s ++ q) -> no_dotdot s.
Proof. intros H a b ->. apply (H (p ++ a) (b ++ q)). by rewrite <- !app_assoc. Qed.

Lemma replace_dot c : replace_char c = 46 -> c = 46.
Proof.
  unfold replace_char. cases_if; [done|]. destruct (is_forbidden_ascii c); [discriminate|done].
Qed.

Lemma no_dotdot_replaced s : no_dotdot s -> no_dotdot (map replace_char s).
Proof.
  intros H a b E. apply map_eq_app in E as (s1 & s2 & -> & <- & E2).
  apply map_eq_app in E2 as (s3 & s4 & -> & E3 & <-).
  destruct s3 as [|x [|y [|z s3]]]; try discriminate. injection E3 as Ex Ey.
  apply replace_dot in Ex as ->, Ey as ->. by apply (H s1 s4).
Qed.

(** ** The theorem *)
Lemma replaced_allowed s : Forall (fun c => is_forbidden_ascii c = false) (map replace_char s).
Proof.
  apply Forall_map, Forall_forall. intros c _. unfold replace_char. cbn.
  destruct (Z.leb_spec 0x80 c).
  - unfold is_forbidden_ascii. cbn. repeat (rewrite (proj2 (Z.eqb_neq c _)) by lia).
    by rewrite (proj2 (Z.ltb_ge _ _)) by lia.
  - destruct (is_forbidden_ascii c) eqn:E; [done|done].
Qed.

Lemma replace_allowed s : Forall (fun c => is_forbidden_ascii c = false) s -> map replace_char s = s.
Proof.
  induction 1 as [|c s Hc Hs IH]; [done|]. cbn [map]. rewrite IH. f_equal.
  unfold replace_char. cases_if; [done|]. by rewrite Hc.
Qed.

Lemma replace_loop_length max_len wi s t :
  0 < max_len -> wi <= max_len -> replace_loop max_len wi s = Some t -> wi + strlen s <= max_len.
Proof.
  unfold strlen. intros Hm. revert wi t. induction s as [|c s IH]; intros wi t Hw; cbn [replace_loop length]; [lia|].
  rewrite (proj2 (Z.ltb_lt _ _)) by done. cbn [andb]. destruct (Z.leb_spec max_len wi); [done|].
  destruct (replace_loop max_len (wi + 1) s) eqn:E; [|done]. intros _.
  specialize (IH (wi + 1) _ ltac:(lia) E). lia.
Qed.

Lemma replace_loop_fits max_len s :
  0 < max_len -> strlen s <= max_len -> replace_loop max_len 0 s = Some (map replace_char s).
Proof.
  intros Hm Hl. destruct (replace_loop max_len 0 s) eqn:E.
  - f_equal. by eapply replace_loop_spec.
  - apply replace_loop_none in E; [|lia]. lia.
Qed.

Lemma strip_leading_id s : head s <> Some 32 -> head s <> Some 47 -> strip_leading s = s.
Proof.
  destruct s as [|c s]; [done|]. cbn. intros H1 H2.
  rewrite (proj2 (Z.eqb_neq c 32)), (proj2 (Z.eqb_neq c 47)) by congruence. done.
Qed.

Lemma strip_trailing_id s : last s <> Some 46 -> last s <> Some 32 -> strip_trailing s = s.
Proof.
  induction s as [|c s IH]; [done|]. intros H1 H2. cbn [strip_trailing]. destruct s as [|d s].
  - cbn in *. rewrite (proj2 (Z.eqb_neq c 46)), (proj2 (Z.eqb_neq c 32)) by congruence. done.
  - by rewrite IH.
Qed.

(** The parts of an accepted name: [replaced = p ++ t ++ q]. *)
Lemma sanitize_accepts s max_len t :
  sanitize_name (Some s) max_len = (t, 1) ->
  has_sub (cstr "..") s = false /\ utf8_validate s = true /\ t <> [] /\
  replace_loop max_len 0 s = Some (map replace_char s) /\
  t = strip_trailing (strip_leading (map replace_char s)).
Proof.
  unfold sanitize_name. destruct (has_sub _ s); [done|]. destruct (utf8_validate s); [|done].
  cbn [negb]. destruct (replace_loop max_len 0 s) as [r|] eqn:E; [|done].
  rewrite (replace_loop_spec _ _ _ _ E) in *. cbv zeta. case_bool_decide; [done|].
  by intros [= <-].
Qed.

(** C39: a name the check accepts is a safe path component: it is not empty,
    holds no separator, control or shell character and no "..", does not start
    with a space nor end in a dot or a space, is valid UTF-8 within the
    length limit, and checking it again changes nothing. *)
Theorem sanitize_name_safe s max_len t :
  Forall is_u8 s -> 0 < max_len -> sanitize_name (Some s) max_len = (t, 1) ->
  t <> [] /\ Forall (fun c => is_forbidden_ascii c = false) t /\ no_dotdot t /\
  head t <> Some 32 /\ last t <> Some 46 /\ last t <> Some 32 /\
  utf8_validate t = true /\ strlen t <= max_len /\
  sanitize_name (Some t) max_len = (t, 1).
Proof.
  intros Hs Hm Hsan. apply sanitize_accepts in Hsan as (Hd & Hv & Hne & Hr & Ht).
  set (r := map replace_char s) in *.
  destruct (strip_leading_suffix r) as (p & Ep & Hp).
  destruct (strip_trailing_prefix (strip_leading r)) as (q & Eq & Hq). rewrite <- Ht in Eq.
  assert (r = p ++ t ++ q) as Er by congruence.
  assert (Forall (fun c => is_forbidden_ascii c = false) t) as Ha.
  { pose proof (replaced_allowed s) as H. fold r in H. rewrite Er in H.
    apply Forall_app in H as [_ [H _]%Forall_app]. done. }
  assert (no_dotdot t) as Hdd.
  { apply (no_dotdot_infix p t q). rewrite <- Er. apply no_dotdot_replaced. intros a b E.
    assert (has_sub (cstr "..") s = true); [|congruence]. apply has_sub_spec. by exists a, b. }
  assert (head t <> Some 32 /\ head t <> Some 47) as [Hh Hh'].
  { assert (forall c, head t = Some c -> c <> 32 /\ c <> 47) as H.
    { intros c Hc. apply (strip_leading_head r). rewrite Eq. by destruct t. }
    split; intros Hc; by destruct (H _ Hc). }
  assert (last t <> Some 46 /\ last t <> Some 32) as [Hl Hl'].
  { split; intros Hc; rewrite Ht in Hc; apply strip_trailing_last in Hc; tauto. }
  assert (utf8_validate t = true) as Hvt.
  { apply (validate_prefix t q Hq). rewrite <- (validate_suffix p) by done. rewrite <- Er.
    unfold r. by rewrite validate_replaced. }
  assert (strlen t <= max_len) as Hlen.
  { assert (strlen r <= max_len).
    { unfold r, strlen. rewrite length_map.
      pose proof (replace_loop_length max_len 0 s _ Hm (Z.lt_le_incl _ _ Hm) Hr). unfold strlen in *. lia. }
    unfold strlen in *. rewrite Er, !length_app in *. lia. }
  split_and!; try done.
  unfold sanitize_name. destruct (has_sub (cstr "..") t) eqn:E.
  { apply has_sub_spec in E as (a & b & E). by destruct (Hdd a b). }
  rewrite Hvt. cbn [negb]. rewrite replace_loop_fits by done. cbv zeta.
  rewrite (replace_allowed t Ha), (strip_leading_id t), (strip_trailing_id t) by done.
  by rewrite bool_decide_eq_false_2.
Qed.

Lemma sanitize_name_safe_witness :
  sanitize_name (Some (cstr "  My:Book?.epub. ")) 256 = (cstr "My_Book_.epub", 1) /\
  no_dotdot (cstr "My_Book_.epub").
Proof.
  split; [vm_compute; reflexivity|].
  apply (sanitize_name_safe (cstr "  My:Book?.epub. ") 256).
  - repeat (apply Forall_cons_2; [unfold is_u8; cbn; lia|]). apply Forall_nil_2.
  - lia.
  - vm_compute. reflexivity.
Defined.

(** [check_realpath] never confirms a path: its loop does not advance, so for
    a non-empty root it answers 0 or does not end. *)
Theorem check_realpath_never_confirms fuel rootpath realp :
  rootpath <> [] -> check_realpath fuel rootpath realp <> Some 1.
Proof.
  intros Hr. unfold check_realpath. destruct realp as [p|]; [|done].
  induction fuel as [|f IH]; [done|]. cbn [root_loop].
  destruct rootpath as [|c r]; [done|]. cbn [lookup list_lookup]. case_bool_decide; [exact IH|done].
Qed.
