(* ===== verification/MtpData.v ===== *)
(** * MTP data encoding, [mtp_helpers.c] and [usbstring.c]

    The functions that put little-endian numbers, strings and arrays into a
    packet buffer and take them out again.  A buffer is the list of its bytes;
    an access outside it is [None].  Each [poke] returns the buffer and the
    next index, or -1 when it refuses; a negative index is passed through, so
    that a chain of them fails as a whole. *)

From Stdlib Require Import Ascii String.
From S2P Require Import Prelude CString.

Definition byte_at (b : list Z) (i : Z) : option Z := if i <? 0 then None else b !! Z.to_nat i.

(** Consecutive stores at an index. *)
Definition put_bytes (b : list Z) (i : Z) (bs : list Z) : option (list Z) :=
  if (0 <=? i) && (i + strlen bs <=? strlen b)
  then Some (take (Z.to_nat i) b ++ bs ++ drop (Z.to_nat (i + strlen bs)) b)
  else None.

(** The low [n] bytes of a number, least significant first. *)
Fixpoint le_bytes (n : nat) (v : Z) : list Z :=
  match n with O => [] | S n' => Z.land v 0xFF :: le_bytes n' (Z.shiftr v 8) end.

(** ** Numbers *)
Definition poke (n : nat) (b : list Z) (index maxsize data : Z) : option (list Z * Z) :=
  if index <? 0 then Some (b, index)
  else if maxsize <=? index + Z.of_nat n then Some (b, -1)
  else b' ← put_bytes b index (le_bytes n data); Some (b', index + Z.of_nat n).

Definition poke32 (b : list Z) (index maxsize data : Z) := poke 4 b index maxsize (u32 data).
Definition poke16 (b : list Z) (index maxsize data : Z) := poke 2 b index maxsize (u16 data).
Definition poke08 (b : list Z) (index maxsize data : Z) := poke 1 b index maxsize (u8 data).

(** [peek] and [peek64]: [typesize] bytes, at least one (the loop tests at its
    end), accumulated in a word of [word] bits. *)
Fixpoint peek_loop (word : Z) (b : list Z) (index : Z) (typesize : nat) (shift data : Z) : option Z :=
  match typesize with
  | O => Some data
  | S n =>
      v ← byte_at b index;
      peek_loop word b (index + 1) n (shift + 8) (Z.lor data (Z.shiftl v shift mod 2 ^ word))
  end.
Definition peek (b : list Z) (index : Z) (typesize : nat) : option Z := peek_loop 32 b index typesize 0 0.
Definition peek64 (b : list Z) (index : Z) (typesize : nat) : option Z := peek_loop 64 b index typesize 0 0.

(** ** UTF-8 and UTF-16 *)

(** [utf8_size]: the leading ones of the first byte, at least 1; eight shifts
    at most. *)
Fixpoint leading_ones (fuel : nat) (c : Z) : Z :=
  match fuel with
  | O => 0
  | S f => if Z.land c 0x80 =? 0 then 0 else 1 + leading_ones f (u8 (Z.shiftl c 1))
  end.
Definition utf8_size (c : Z) : Z := let count := leading_ones 8 c in if count =? 0 then 1 else count.

Definition cont_byte (b : Z) : bool := Z.land b 0xC0 =? 0x80.

(** [utf2unicode]: the code unit and the bytes read; [s] is the rest of the
    memory that holds the string, its NUL included. *)
Definition utf2unicode (s : list Z) : option (Z * Z) :=
  c ← s !! 0%nat;
  let size := utf8_size c in
  if size =? 1 then Some (c, 1)
  else if size =? 2 then
    b2 ← s !! 1%nat;
    if cont_byte b2 then
      Some (Z.lor (Z.land (Z.lor (Z.shiftl (Z.land c 0x1F) 6) (Z.land b2 0x3F)) 0xFF)
                  (Z.shiftl (Z.shiftr (Z.land c 0x1F) 2) 8), 2)
    else Some (0, 0)
  else if size =? 3 then
    b2 ← s !! 1%nat;
    b3 ← s !! 2%nat;
    if cont_byte b2 && cont_byte b3 then
      Some (Z.lor (Z.land (Z.lor (Z.shiftl (Z.land b2 0x3F) 6) (Z.land b3 0x3F)) 0x00FF)
                  (Z.shiftl (Z.land (Z.lor (Z.shiftl (Z.land c 0xF) 4)
                                           (Z.shiftr (Z.land b2 0x3F) 2)) 0xFF) 8), 3)
    else Some (0, 0)
  else Some (0, 0).

(** The [do] loop of [char2unicodestring]: the buffer, the next index and the
    units written, or [inr] for the refusal.  [fuel] counts units: at most 255
    are written. *)
Fixpoint unit_loop (fuel : nat) (b : list Z) (index maxsize : Z) (s : list Z) (len limit : Z) :
    option ((list Z * Z) + list Z) :=
  match fuel with
  | O => None
  | S f =>
      '(unicode, ofs) ← utf2unicode s;
      if maxsize <=? index + 2 then Some (inr b)
      else
        b ← put_bytes b index [Z.land unicode 0xFF; Z.land (Z.shiftr unicode 8) 0xFF];
        let len := len + 1 in
        if negb (unicode =? 0) && negb (ofs =? 0) && (2 * len <? limit * 2) && (2 * len <? 255 * 2)
        then unit_loop f b (index + 2) maxsize (drop (Z.to_nat ofs) s) len limit
        else Some (inl (b, len))
  end.

Definition char2unicodestring (b : list Z) (index maxsize : Z) (str : list Z) (unicodestrsize : Z) :
    option (list Z * Z) :=
  r ← unit_loop 256 b index maxsize str 0 unicodestrsize;
  match r with
  | inr b => Some (b, -1)
  | inl (b, len) =>
      if 255 * 2 <=? 2 * len then
        if maxsize <=? index + (unicodestrsize * 2 - 2) then Some (b, -1)
        else b ← put_bytes b (index + (255 * 2 - 2)) [0; 0]; Some (b, 255)
      else Some (b, len)
  end.

(** [poke_string]; [str] is the string with its NUL and what follows. *)
Definition poke_string (b : list Z) (index maxsize : Z) (str : list Z) : option (list Z * Z) :=
  if index <? 0 then Some (b, index)
  else if maxsize <=? index + 1 then Some (b, -1)
  else
    b1 ← put_bytes b index [0];
    c ← str !! 0%nat;
    if c =? 0 then Some (b1, index + 1)
    else
      '(b2, len) ← char2unicodestring b1 (index + 1) maxsize str 255;
      if len <? 0 then Some (b2, -1)
      else b3 ← put_bytes b2 index [u8 len]; Some (b3, index + 1 + len * 2).

(** [poke_array]: [prefixed] is 0 or 1; the element size is positive. *)
Definition poke_array (b : list Z) (index maxsize size elementsize : Z) (bufferin : list Z) (prefixed : Z) :
    option (list Z * Z) :=
  if index <? 0 then Some (b, index)
  else if maxsize <=? index + (size + prefixed * 4) then Some (b, -1)
  else
    let nbelement := Z.quot size elementsize in
    '(b, index) ← (if prefixed =? 0 then Some (b, index)
                   else b ← put_bytes b index (le_bytes 4 nbelement); Some (b, index + 4));
    if strlen bufferin <? size then None
    else b ← put_bytes b index (take (Z.to_nat size) bufferin); Some (b, index + Z.max 0 size).

(** [utf8_encode]: the bytes of a code unit, and how many. *)
Definition utf8_encode (u : Z) : list Z :=
  let byte v := u8 v in
  if u <=? 0x7F then [byte u]
  else if u <=? 0x07FF then
    [byte (Z.lor (Z.land (Z.shiftr u 6) 0x1F) 0xC0); byte (Z.lor (Z.land u 0x3F) 0x80)]
  else if u <=? 0xFFFF then
    [byte (Z.lor (Z.land (Z.shiftr u 12) 0x0F) 0xE0); byte (Z.lor (Z.land (Z.shiftr u 6) 0x3F) 0x80);
     byte (Z.lor (Z.land u 0x3F) 0x80)]
  else if u <=? 0x10FFFF then
    [byte (Z.lor (Z.land (Z.shiftr u 18) 0x07) 0xF0); byte (Z.lor (Z.land (Z.shiftr u 12) 0x3F) 0x80);
     byte (Z.lor (Z.land (Z.shiftr u 6) 0x3F) 0x80); byte (Z.lor (Z.land u 0x3F) 0x80)]
  else [].

(** The loop of [unicode2charstring]: the bytes written before the final NUL,
    and the return value; [i] of them are there already. *)
Fixpoint char_loop (fuel : nat) (units : list Z) (i maxstrsize : Z) : option (list Z * Z) :=
  match fuel with
  | O => None
  | S f =>
      lo ← units !! 0%nat;
      hi ← units !! 1%nat;
      if (lo =? 0) && (hi =? 0) then Some ([], 0)
      else
        let chunk := match utf8_encode (Z.lor (Z.shiftl hi 8) lo) with [] => [63] | c => c end in
        if i + strlen chunk <? maxstrsize then
          '(r, ret) ← char_loop f (drop 2 units) (i + strlen chunk) maxstrsize; Some (chunk ++ r, ret)
        else Some ([], 1)
  end.
(** The string in [str] afterwards, and the return value, for a buffer of at
    least one byte. *)
Definition unicode2charstring (units : list Z) (maxstrsize : Z) : option (list Z * Z) :=
  char_loop (S (length units)) units 0 maxstrsize.

(** ** Little-endian round trip *)
Lemma put_bytes_ok b i bs :
  0 <= i -> i + strlen bs <= strlen b ->
  exists b', put_bytes b i bs = Some b' /\ strlen b' = strlen b /\
    (forall j, byte_at b' j = if (i <=? j) && (j <? i + strlen bs) then byte_at bs (j - i) else byte_at b j).
Proof.
  unfold strlen. intros Hi Hl. unfold put_bytes, strlen.
  rewrite (proj2 (Z.leb_le 0 i)), (proj2 (Z.leb_le (i + _) _)) by lia. cbn [andb].
  eexists. split; [reflexivity|]. split.
  - rewrite !length_app, length_take, length_drop. lia.
  - intros j. unfold byte_at. destruct (Z.ltb_spec j 0).
    { rewrite (proj2 (Z.leb_gt i j)) by lia. done. }
    destruct (Z.leb_spec i j); cbn [andb].
    + rewrite lookup_app_r by (rewrite length_take; lia). rewrite length_take, Nat.min_l by lia.
      destruct (Z.ltb_spec j (i + Z.of_nat (length bs))).
      * rewrite lookup_app_l by lia. rewrite (proj2 (Z.ltb_ge (j - i) 0)) by lia. f_equal. lia.
      * rewrite lookup_app_r by lia. rewrite lookup_drop. f_equal. lia.
    + rewrite lookup_app_l by (rewrite length_take; lia). apply lookup_take_lt. lia.
Qed.

Lemma le_bytes_length n v : length (le_bytes n v) = n.
Proof. revert v. induction n as [|n IH]; intros v; cbn; [done|]. by rewrite IH. Qed.

Lemma le_bytes_range n v : Forall is_u8 (le_bytes n v).
Proof.
  revert v. induction n as [|n IH]; intros v; cbn; [apply Forall_nil_2|]. apply Forall_cons_2; [|apply IH].
  change 0xFF with (Z.ones 8). rewrite Z.land_ones by lia. apply Z.mod_pos_bound. lia.
Qed.

(** Or-ing above the bits of a number adds. *)
Lemma lor_above data a s :
  0 <= s -> 0 <= data < 2 ^ s -> 0 <= a -> Z.lor data (Z.shiftl a s) = data + 2 ^ s * a.
Proof.
  intros Hs Hd Ha.
  assert (Z.land data (Z.shiftl a s) = 0) as E.
  { apply Z.bits_inj'. intros n Hn. rewrite Z.land_spec, Z.bits_0.
    destruct (Z.lt_ge_cases n s).
    - rewrite Z.shiftl_spec_low by done. apply andb_false_r.
    - rewrite <- (Z.mod_small data (2 ^ s)), Z.mod_pow2_bits_high by lia. done. }
  rewrite <- Z.add_nocarry_lor by done. by rewrite Z.shiftl_mul_pow2, (Z.mul_comm a) by done.
Qed.

(** What [peek] reads back: the bytes at [index], whatever the loop has
    accumulated below [shift]. *)
Lemma peek_loop_le word b index n v shift data :
  0 <= shift -> shift + 8 * Z.of_nat n <= word -> 0 <= data < 2 ^ shift -> 0 <= v ->
  (forall k, (k < n)%nat -> byte_at b (index + Z.of_nat k) = le_bytes n v !! k) ->
  peek_loop word b index n shift data = Some (data + 2 ^ shift * (v mod 2 ^ (8 * Z.of_nat n))).
Proof.
  revert index v shift data. induction n as [|n IH]; intros index v shift data Hs Hw Hd Hv Hb.
  - cbn [peek_loop]. f_equal. change (8 * Z.of_nat 0) with 0. rewrite Z.mod_1_r. lia.
  - cbn [peek_loop]. pose proof (Hb 0%nat ltac:(lia)) as H0. rewrite Z.add_0_r in H0. rewrite H0.
    cbn [le_bytes lookup list_lookup mbind option_bind].
    change 0xFF with (Z.ones 8). rewrite Z.land_ones by lia.
    pose proof (Z.mod_pos_bound v (2 ^ 8) ltac:(lia)) as Hm.
    assert (0 < 2 ^ shift) by (apply Z.pow_pos_nonneg; lia).
    assert (2 ^ (shift + 8) = 2 ^ shift * 2 ^ 8) as Ep by (apply Z.pow_add_r; lia).
    assert (Z.shiftl (v mod 2 ^ 8) shift mod 2 ^ word = Z.shiftl (v mod 2 ^ 8) shift) as ->.
    { apply Z.mod_small. rewrite Z.shiftl_mul_pow2 by lia. split; [nia|].
      apply Z.lt_le_trans with (2 ^ (shift + 8)); [nia|]. apply Z.pow_le_mono_r; lia. }
    rewrite lor_above by (done || lia).
    rewrite (IH _ (Z.shiftr v 8)); [|lia|lia|nia|by apply Z.shiftr_nonneg|].
    + f_equal. rewrite Z.shiftr_div_pow2 by lia. rewrite Ep.
      replace (8 * Z.of_nat (S n)) with (8 + 8 * Z.of_nat n) by lia.
      rewrite (Z.pow_add_r 2 8) by lia. rewrite (Z.rem_mul_r v) by (try apply Z.pow_pos_nonneg; lia).
      lia.
    + intros k Hk. specialize (Hb (S k) ltac:(lia)).
      replace (index + 1 + Z.of_nat k) with (index + Z.of_nat (S k)) by lia. rewrite Hb. done.
Qed.

(** Numbers survive the trip through a packet: what [poke] stores, [peek]
    reads back, for every width up to four bytes, and the other bytes of the
    buffer are untouched.  [poke] refuses only when the number would reach the
    last byte of the buffer. *)
Theorem poke_peek n b index maxsize v b' next :
  (1 <= n <= 4)%nat -> 0 <= index -> 0 <= v < 2 ^ (8 * Z.of_nat n) -> maxsize <= strlen b ->
  poke n b index maxsize v = Some (b', next) ->
  (next = -1 /\ b' = b /\ maxsize <= index + Z.of_nat n) \/
  (next = index + Z.of_nat n /\ next < maxsize /\ strlen b' = strlen b /\
   peek b' index n = Some v /\ peek64 b' index n = Some v /\
   forall j, ~ (index <= j < next) -> byte_at b' j = byte_at b j).
Proof.
  intros Hn Hi Hv Hm. unfold poke. rewrite (proj2 (Z.ltb_ge index 0)) by done.
  destruct (Z.leb_spec maxsize (index + Z.of_nat n)); [intros [= <- <-]; by left|].
  assert (strlen (le_bytes n v) = Z.of_nat n) as El by (unfold strlen; by rewrite le_bytes_length).
  destruct (put_bytes_ok b index (le_bytes n v)) as (b1 & E & Hl & Hb); [done|lia|].
  rewrite E. cbn [mbind option_bind]. intros [= <- <-]. right. rewrite El in Hb.
  assert (forall k, (k < n)%nat -> byte_at b1 (index + Z.of_nat k) = le_bytes n v !! k) as Hr.
  { intros k Hk. rewrite Hb. rewrite (proj2 (Z.leb_le index _)), (proj2 (Z.ltb_lt _ (index + _))) by lia.
    cbn [andb]. unfold byte_at. rewrite (proj2 (Z.ltb_ge _ 0)) by lia. f_equal. lia. }
  split_and!; [done|lia|done| | |].
  - unfold peek. rewrite (peek_loop_le 32 b1 index n v) by (done || lia).
    by rewrite Z.mul_1_l, Z.mod_small.
  - unfold peek64. rewrite (peek_loop_le 64 b1 index n v) by (done || lia).
    by rewrite Z.mul_1_l, Z.mod_small.
  - intros j Hj. rewrite Hb. destruct (Z.leb_spec index j), (Z.ltb_spec j (index + Z.of_nat n)); try done.
    lia.
Qed.

Lemma poke_peek_witness :
  peek [0; 0; 0x78; 0x56; 0x34; 0x12; 0; 0] 2 4 = Some 0x12345678.
Proof.
  destruct (poke_peek 4 (replicate 8 0) 2 8 0x12345678 [0; 0; 0x78; 0x56; 0x34; 0x12; 0; 0] 6)
    as [(H & _)|(_ & _ & _ & H & _)]; [lia|lia|lia|vm_compute; discriminate|reflexivity|discriminate H|exact H].
Defined.

(** ** Strings: from UTF-8 to UTF-16 and back *)
Definition utf8_text (us : list Z) : list Z := concat (map utf8_encode us).
Definition unit_bytes (u : Z) : list Z := [Z.land u 0xFF; Z.land (Z.shiftr u 8) 0xFF].
Definition units_le (us : list Z) : list Z := concat (map unit_bytes us).

(** The characters of the basic plane, NUL excluded. *)
Definition unit_ok (u : Z) : Prop := 0 < u < 0x10000.

Lemma range_cases n (P : Z -> bool) :
  forallb P (map Z.of_nat (seq 0 n)) = true -> forall x, 0 <= x < Z.of_nat n -> P x = true.
Proof.
  rewrite forallb_forall. intros H x Hx. apply H, in_map_iff. exists (Z.to_nat x).
  split; [lia|]. apply in_seq. lia.
Qed.

Lemma range_cases2 n k (P : Z -> Z -> bool) :
  forallb (fun x => forallb (P x) (map Z.of_nat (seq 0 k))) (map Z.of_nat (seq 0 n)) = true ->
  forall x y, 0 <= x < Z.of_nat n -> 0 <= y < Z.of_nat k -> P x y = true.
Proof.
  intros H x y Hx Hy. apply (range_cases k); [|done]. apply (range_cases n _ H). done.
Qed.

(** [land] with a mask of ones is a remainder, [shiftr] a quotient. *)
Lemma split_unit u : 0 <= u < 0x10000 ->
  u = 4096 * Z.shiftr u 12 + 64 * Z.land (Z.shiftr u 6) 0x3F + Z.land u 0x3F /\
  0 <= Z.shiftr u 12 < 16 /\ 0 <= Z.land (Z.shiftr u 6) 0x3F < 64 /\ 0 <= Z.land u 0x3F < 64.
Proof.
  intros Hu. change 0x3F with (Z.ones 6). rewrite !Z.land_ones, !Z.shiftr_div_pow2 by lia.
  change (2 ^ 12) with 4096. change (2 ^ 6) with 64. Z.to_euclidean_division_equations. lia.
Qed.

Lemma low_bits m l : 0 <= m < 64 -> 0 <= l < 64 ->
  Z.land (Z.lor (Z.shiftl m 6) l) 0xFF = 64 * (m mod 4) + l.
Proof.
  intros Hm Hl. apply Z.eqb_eq.
  apply (range_cases2 64 64 (fun m l => Z.land (Z.lor (Z.shiftl m 6) l) 0xFF =? 64 * (m mod 4) + l)
    ltac:(vm_compute; reflexivity) m l Hm Hl).
Qed.

Lemma high_bits h m : 0 <= h < 16 -> 0 <= m < 64 ->
  Z.land (Z.lor (Z.shiftl h 4) (Z.shiftr m 2)) 0xFF = 16 * h + m / 4.
Proof.
  intros Hh Hm. apply Z.eqb_eq.
  apply (range_cases2 16 64 (fun h m => Z.land (Z.lor (Z.shiftl h 4) (Z.shiftr m 2)) 0xFF =? 16 * h + m / 4)
    ltac:(vm_compute; reflexivity) h m Hh Hm).
Qed.

(** The bytes [utf8_encode] makes, as [utf2unicode] sees them. *)
Lemma cont_spec m : 0 <= m < 64 ->
  cont_byte (u8 (Z.lor m 0x80)) = true /\ Z.land (u8 (Z.lor m 0x80)) 0x3F = m.
Proof.
  intros Hm. pose proof (range_cases 64 (fun m => cont_byte (u8 (Z.lor m 0x80)) &&
    (Z.land (u8 (Z.lor m 0x80)) 0x3F =? m)) ltac:(vm_compute; reflexivity) m Hm) as H.
  cbv beta in H. apply andb_true_iff in H as [? ?%Z.eqb_eq]. done.
Qed.
Lemma lead2_spec h : 0 <= h < 32 ->
  utf8_size (u8 (Z.lor (Z.land h 0x1F) 0xC0)) = 2 /\ Z.land (u8 (Z.lor (Z.land h 0x1F) 0xC0)) 0x1F = h /\
  Z.shiftr h 2 = h / 4.
Proof.
  intros Hh. pose proof (range_cases 32 (fun h => (utf8_size (u8 (Z.lor (Z.land h 0x1F) 0xC0)) =? 2) &&
    (Z.land (u8 (Z.lor (Z.land h 0x1F) 0xC0)) 0x1F =? h) && (Z.shiftr h 2 =? h / 4))
    ltac:(vm_compute; reflexivity) h Hh) as H. cbv beta in H. bprop. done.
Qed.
Lemma lead3_spec h : 0 <= h < 16 ->
  utf8_size (u8 (Z.lor (Z.land h 0x0F) 0xE0)) = 3 /\ Z.land (u8 (Z.lor (Z.land h 0x0F) 0xE0)) 0xF = h.
Proof.
  intros Hh. pose proof (range_cases 16 (fun h => (utf8_size (u8 (Z.lor (Z.land h 0x0F) 0xE0)) =? 3) &&
    (Z.land (u8 (Z.lor (Z.land h 0x0F) 0xE0)) 0xF =? h))
    ltac:(vm_compute; reflexivity) h Hh) as H. cbv beta in H. bprop. done.
Qed.
Lemma ascii_size u : 0 <= u <= 0x7F -> utf8_size (u8 u) = 1 /\ u8 u = u.
Proof.
  intros Hu. pose proof (range_cases 128 (fun u => (utf8_size (u8 u) =? 1) && (u8 u =? u))
    ltac:(vm_compute; reflexivity) u ltac:(lia)) as H. cbv beta in H. bprop. done.
Qed.

Lemma utf2unicode_encode u rest :
  0 <= u < 0x10000 -> utf2unicode (utf8_encode u ++ rest) = Some (u, strlen (utf8_encode u)).
Proof.
  intros Hu. destruct (split_unit u Hu) as (Es & Hh & Hm & Hl). unfold utf8_encode. cbv zeta.
  set (h := Z.shiftr u 12) in *. set (m := Z.land (Z.shiftr u 6) 0x3F) in *. set (l := Z.land u 0x3F) in *.
  destruct (Z.leb_spec u 0x7F).
  { destruct (ascii_size u) as [E1 E2]; [lia|]. unfold utf2unicode. cbn [app lookup list_lookup mbind option_bind].
    rewrite E1, E2. done. }
  destruct (Z.leb_spec u 0x7FF).
  { assert (Z.shiftr u 6 = m) as Em.
    { unfold m. change 0x3F with (Z.ones 6). rewrite Z.land_ones, Z.shiftr_div_pow2 by lia.
      rewrite Z.mod_small; [done|]. change (2 ^ 6) with 64. split; [apply Z.div_pos; lia|].
      apply Z.div_lt_upper_bound; lia. }
    assert (0 <= m < 32) as Hm'. { assert (h = 0) by lia. lia. }
    rewrite Em. destruct (lead2_spec m Hm') as (S1 & S2 & S3). destruct (cont_spec l Hl) as [C1 C2].
    unfold utf2unicode. cbn [app lookup list_lookup mbind option_bind]. rewrite S1.
    cbn [Z.eqb Pos.eqb]. rewrite C1, S2, C2, S3, low_bits by lia. cbn [strlen length].
    rewrite lor_above; [|lia|change (2 ^ 8) with 256; pose proof (Z.mod_pos_bound m 4); lia|apply Z.div_pos; lia].
    f_equal. f_equal. assert (h = 0) by lia. pose proof (Z.div_mod m 4). change (2 ^ 8) with 256. lia. }
  rewrite (proj2 (Z.leb_le u 0xFFFF)) by lia.
  destruct (lead3_spec h Hh) as [S1 S2]. destruct (cont_spec m Hm) as [M1 M2]. destruct (cont_spec l Hl) as [C1 C2].
  unfold utf2unicode. cbn [app lookup list_lookup mbind option_bind]. rewrite S1. cbn [Z.eqb Pos.eqb].
  rewrite M1, C1, S2, M2, C2, low_bits, high_bits by done. cbn [andb strlen length].
  rewrite lor_above; [|lia|change (2 ^ 8) with 256; pose proof (Z.mod_pos_bound m 4); lia|
    pose proof (Z.div_pos m 4); lia].
  f_equal. f_equal. pose proof (Z.div_mod m 4). change (2 ^ 8) with 256. lia.
Qed.

(** A store right after a prefix. *)
Lemma put_after pre post bs :
  (length bs <= length post)%nat ->
  put_bytes (pre ++ post) (strlen pre) bs = Some (pre ++ bs ++ drop (length bs) post).
Proof.
  intros H. unfold put_bytes, strlen. rewrite length_app.
  rewrite (proj2 (Z.leb_le 0 _)), (proj2 (Z.leb_le _ _)) by lia. cbn [andb].
  rewrite Nat2Z.id, take_app_length. do 3 f_equal.
  rewrite drop_app_ge by lia. f_equal. lia.
Qed.

Lemma encode_drop u rest : drop (Z.to_nat (strlen (utf8_encode u))) (utf8_encode u ++ rest) = rest.
Proof. unfold strlen. by rewrite Nat2Z.id, drop_app_length. Qed.

Lemma encode_size u : 0 < u < 0x10000 -> 1 <= strlen (utf8_encode u) <= 3.
Proof. intros Hu. unfold utf8_encode. cbv zeta. repeat cases_if; bprop; unfold strlen; cbn [length]; lia. Qed.

Lemma encode_head u : 0 < u < 0x10000 -> exists c enc, utf8_encode u = c :: enc /\ c <> 0.
Proof.
  intros Hu. unfold utf8_encode. cbv zeta. destruct (Z.leb_spec u 0x7F).
  - eexists _, _. split; [reflexivity|]. rewrite (proj2 (ascii_size u ltac:(lia))). lia.
  - destruct (Z.leb_spec u 0x7FF).
    + eexists _, _. split; [reflexivity|].
      destruct (lead2_spec (Z.land (Z.shiftr u 6) 0x1F)) as [H1 _].
      { change 0x1F with (Z.ones 5). rewrite Z.land_ones by lia. apply Z.mod_pos_bound. lia. }
      rewrite <- Z.land_assoc, (Z.land_diag 0x1F) in H1. intros E. by rewrite E in H1.
    + rewrite (proj2 (Z.leb_le u 0xFFFF)) by lia. eexists _, _. split; [reflexivity|].
      destruct (lead3_spec (Z.land (Z.shiftr u 12) 0x0F)) as [H1 _].
      { change 0x0F with (Z.ones 4). rewrite Z.land_ones by lia. apply Z.mod_pos_bound. lia. }
      rewrite <- Z.land_assoc, (Z.land_diag 0x0F) in H1. intros E. by rewrite E in H1.
Qed.

Lemma unit_loop_text fuel pre post maxsize us rest len :
  Forall unit_ok us -> (length us < fuel)%nat -> 0 <= len -> len + strlen us <= 254 ->
  strlen pre + 2 * (strlen us + 1) < maxsize -> maxsize <= strlen (pre ++ post) ->
  unit_loop fuel (pre ++ post) (strlen pre) maxsize (utf8_text us ++ 0 :: rest) len 255 =
    Some (inl (pre ++ units_le (us ++ [0]) ++ drop (2 * (length us + 1)) post, len + strlen us + 1)).
Proof.
  intros Hus. revert fuel pre post len. induction Hus as [|u us Hu Hus IH]; intros fuel pre post len Hf Hl Hn Hr Hm.
  - destruct fuel as [|fuel]; [lia|]. unfold strlen in Hr, Hm |- *. rewrite length_app in Hm. cbn [length] in *.
    cbn [utf8_text map concat app unit_loop]. change (utf2unicode (0 :: rest)) with (Some (0, 1)).
    cbn [mbind option_bind]. rewrite (proj2 (Z.leb_gt _ _)) by lia. fold (strlen pre).
    rewrite put_after by (cbn; lia). cbn [mbind option_bind Z.eqb negb andb]. do 4 f_equal. lia.
  - destruct fuel as [|fuel]; [lia|]. pose proof (encode_size u Hu) as Hsz.
    assert (strlen (u :: us) = strlen us + 1) as El by (unfold strlen; cbn [length]; lia). rewrite El in *.
    unfold utf8_text. cbn [map concat]. rewrite <- app_assoc. fold (utf8_text us).
    cbn [unit_loop]. rewrite utf2unicode_encode by (unfold unit_ok in Hu; lia).
    cbn [mbind option_bind]. rewrite (proj2 (Z.leb_gt _ _)) by (unfold strlen in *; lia).
    assert (2 <= length post)%nat by (unfold strlen in *; rewrite length_app in Hm; lia).
    rewrite put_after by (cbn; lia). cbn [mbind option_bind].
    rewrite (proj2 (Z.eqb_neq u 0)), (proj2 (Z.eqb_neq (strlen (utf8_encode u)) 0)) by (unfold unit_ok in Hu; lia).
    assert (0 <= strlen us) by (unfold strlen; lia).
    rewrite (proj2 (Z.ltb_lt _ (255 * 2))) by lia. cbn [negb andb].
    rewrite encode_drop. rewrite app_assoc.
    replace (strlen pre + 2) with (strlen (pre ++ unit_bytes u)) by (unfold strlen; rewrite length_app; cbn; lia).
    change [Z.land u 0xFF; Z.land (Z.shiftr u 8) 0xFF] with (unit_bytes u).
    rewrite IH.
    + rewrite drop_drop. unfold units_le at 2. cbn [app map concat]. fold (units_le (us ++ [0])).
      rewrite <- !app_assoc. do 4 f_equal; [|lia]. do 3 f_equal. cbn [unit_bytes length]. lia.
    + cbn [length] in Hf. lia.
    + lia.
    + lia.
    + unfold strlen in *. rewrite length_app. cbn [unit_bytes length] in *. lia.
    + unfold strlen in *. rewrite !length_app in *. rewrite length_drop. cbn [unit_bytes length] in *. lia.
Qed.

(** ** Reading the string back *)
Lemma unit_bytes_back u : 0 <= u < 0x10000 ->
  Z.lor (Z.shiftl (Z.land (Z.shiftr u 8) 0xFF) 8) (Z.land u 0xFF) = u /\
  ((Z.land u 0xFF =? 0) && (Z.land (Z.shiftr u 8) 0xFF =? 0)) = (u =? 0).
Proof.
  intros Hu. change 0xFF with (Z.ones 8). rewrite !Z.land_ones, Z.shiftr_div_pow2 by lia.
  change (2 ^ 8) with 256.
  assert ((u / 256) mod 256 = u / 256) as ->
    by (apply Z.mod_small; split; [apply Z.div_pos; lia|apply Z.div_lt_upper_bound; lia]).
  pose proof (Z.div_mod u 256). pose proof (Z.mod_pos_bound u 256). split.
  - rewrite Z.lor_comm, lor_above; [change (2 ^ 8) with 256; lia|lia|change (2 ^ 8) with 256; lia|].
    apply Z.div_pos; lia.
  - apply Bool.eq_iff_eq_true. rewrite andb_true_iff, !Z.eqb_eq. split; lia.
Qed.

Lemma unit_bytes_lookup u x :
  (unit_bytes u ++ x) !! 0%nat = Some (Z.land u 0xFF) /\
  (unit_bytes u ++ x) !! 1%nat = Some (Z.land (Z.shiftr u 8) 0xFF) /\ drop 2 (unit_bytes u ++ x) = x.
Proof. done. Qed.

Lemma encode_nonempty u : 0 < u < 0x10000 -> match utf8_encode u with [] => [63] | c => c end = utf8_encode u.
Proof.
  intros Hu. pose proof (encode_size u Hu) as H. destruct (utf8_encode u); [|done]. unfold strlen in H. cbn [length] in H. lia.
Qed.

Lemma utf8_text_cons u us : utf8_text (u :: us) = utf8_encode u ++ utf8_text us.
Proof. done. Qed.
Lemma units_le_cons u us : units_le (u :: us) = unit_bytes u ++ units_le us.
Proof. done. Qed.
Lemma units_le_length us : length (units_le us) = (2 * length us)%nat.
Proof. induction us as [|u us IH]; [done|]. rewrite units_le_cons, length_app, IH. cbn. lia. Qed.
Lemma units_le_snoc us u : units_le (us ++ [u]) = units_le us ++ unit_bytes u.
Proof. unfold units_le. rewrite map_app, concat_app. done. Qed.

Lemma char_loop_text fuel us rest i maxstrsize :
  Forall unit_ok us -> (length us < fuel)%nat -> i + strlen (utf8_text us) < maxstrsize ->
  char_loop fuel (units_le (us ++ [0]) ++ rest) i maxstrsize = Some (utf8_text us, 0).
Proof.
  intros Hus. revert fuel i. induction Hus as [|u us Hu Hus IH]; intros fuel i Hf Hl.
  - destruct fuel; [lia|]. done.
  - destruct fuel as [|fuel]; [lia|]. cbn [app]. rewrite units_le_cons, <- app_assoc. cbn [char_loop].
    destruct (unit_bytes_lookup u (units_le (us ++ [0]) ++ rest)) as (-> & -> & ->). cbn [mbind option_bind].
    unfold unit_ok in Hu. destruct (unit_bytes_back u) as [E1 E2]; [lia|]. rewrite E2, E1.
    rewrite (proj2 (Z.eqb_neq u 0)) by lia. cbv zeta. rewrite (encode_nonempty u Hu).
    rewrite utf8_text_cons in Hl |- *. unfold strlen in Hl. rewrite length_app in Hl.
    rewrite (proj2 (Z.ltb_lt _ _)) by (unfold strlen; lia).
    rewrite IH; [done|cbn [length] in Hf; lia|unfold strlen; lia].
Qed.

(** The terminator that is written again after 255 units is there already. *)
Lemma rewrite_terminator pre us post :
  put_bytes (pre ++ units_le (us ++ [0]) ++ post) (strlen pre + 2 * strlen us) [0; 0] =
    Some (pre ++ units_le (us ++ [0]) ++ post).
Proof.
  rewrite units_le_snoc. change (unit_bytes 0) with [0; 0]. rewrite <- !app_assoc. rewrite app_assoc.
  replace (strlen pre + 2 * strlen us) with (strlen (pre ++ units_le us))
    by (unfold strlen; rewrite length_app, units_le_length; lia).
  rewrite (put_after _ ([0; 0] ++ post)) by (rewrite length_app; cbn; lia). done.
Qed.

(** What [char2unicodestring] leaves: the units and the terminator. *)
Lemma char2unicode_text pre post maxsize us rest :
  Forall unit_ok us -> strlen us <= 254 ->
  strlen pre + 2 * (strlen us + 1) < maxsize -> maxsize <= strlen (pre ++ post) ->
  char2unicodestring (pre ++ post) (strlen pre) maxsize (utf8_text us ++ 0 :: rest) 255 =
    Some (pre ++ units_le (us ++ [0]) ++ drop (2 * (length us + 1)) post, strlen us + 1).
Proof.
  intros Hus Hn Hr Hm. unfold char2unicodestring.
  rewrite unit_loop_text by (done || (unfold strlen in *; lia)). cbn [mbind option_bind].
  rewrite Z.add_0_l. destruct (Z.leb_spec (255 * 2) (2 * (strlen us + 1))); [|done].
  assert (strlen us = 254) as E by lia. rewrite (proj2 (Z.leb_gt _ _)) by lia.
  replace (strlen pre + (255 * 2 - 2)) with (strlen pre + 2 * strlen us) by lia.
  rewrite rewrite_terminator, E. done.
Qed.

Lemma string_stored us pre post rest maxsize :
  Forall unit_ok us -> us <> [] -> strlen us <= 254 ->
  strlen pre + 1 + 2 * (strlen us + 1) < maxsize -> maxsize <= strlen (pre ++ post) ->
  let units := units_le (us ++ [0]) in
  poke_string (pre ++ post) (strlen pre) maxsize (utf8_text us ++ 0 :: rest) =
      Some (pre ++ (strlen us + 1) :: units ++ drop (1 + length units) post,
            strlen pre + 1 + 2 * (strlen us + 1)) /\
    strlen units = 2 * (strlen us + 1).
Proof.
  intros Hus Hne Hn Hr Hm. cbv zeta. unfold poke_string.
  assert (0 < strlen us) as Hu0 by (unfold strlen; destruct us; [done|cbn [length]; lia]).
  assert (0 <= strlen pre) by (unfold strlen; lia).
  rewrite (proj2 (Z.ltb_ge _ 0)), (proj2 (Z.leb_gt _ _)) by lia.
  destruct post as [|p0 post]; [unfold strlen in *; rewrite app_nil_r in Hm; lia|].
  rewrite (put_after pre (p0 :: post) [0]) by (cbn; lia). cbn [mbind option_bind].
  change (drop (length [0]) (p0 :: post)) with (drop 0 post). rewrite drop_0.
  assert (exists c, (utf8_text us ++ 0 :: rest) !! 0%nat = Some c /\ (c =? 0) = false) as (c & -> & Ec).
  { destruct us as [|u us]; [done|]. apply Forall_cons in Hus as [Hu _]. rewrite utf8_text_cons.
    apply encode_head in Hu as (c & enc & -> & Hc). exists c. split; [done|]. by apply Z.eqb_neq. }
  cbn [mbind option_bind]. rewrite Ec, app_assoc.
  replace (strlen pre + 1) with (strlen (pre ++ [0])) in * by (unfold strlen; rewrite length_app; cbn; lia).
  rewrite char2unicode_text; [|done|done|done|].
  2: { unfold strlen in Hm |- *. rewrite length_app in Hm. rewrite !length_app. cbn [length] in *. lia. }
  cbn [mbind option_bind]. rewrite (proj2 (Z.ltb_ge _ 0)) by lia. rewrite <- !app_assoc.
  rewrite (put_after pre) by (cbn; lia). cbn [mbind option_bind length].
  rewrite units_le_length, length_app. cbn [length].
  split_and!.
  - do 2 f_equal; [|lia]. do 2 f_equal. unfold u8. rewrite Z.mod_small by lia. done.
  - unfold strlen. rewrite units_le_length, length_app. cbn. lia.
Qed.

(** Strings survive the trip through a packet.  A string of at most 254
    characters of the basic plane that fits the buffer is stored as its length
    with the terminator and its UTF-16 units, without touching the bytes before
    and after it, and [unicode2charstring] gives the same UTF-8 back. *)
Theorem string_round_trip us pre post rest maxsize maxstrsize :
  Forall unit_ok us -> us <> [] -> strlen us <= 254 ->
  strlen pre + 1 + 2 * (strlen us + 1) < maxsize -> maxsize <= strlen (pre ++ post) ->
  strlen (utf8_text us) < maxstrsize ->
  exists units, poke_string (pre ++ post) (strlen pre) maxsize (utf8_text us ++ 0 :: rest) =
      Some (pre ++ (strlen us + 1) :: units ++ drop (1 + length units) post,
            strlen pre + 1 + 2 * (strlen us + 1)) /\
    strlen units = 2 * (strlen us + 1) /\
    unicode2charstring (units ++ drop (1 + length units) post) maxstrsize = Some (utf8_text us, 0).
Proof.
  intros Hus Hne Hn Hr Hm Hstr. exists (units_le (us ++ [0])).
  destruct (string_stored us pre post rest maxsize Hus Hne Hn Hr Hm) as [E L]. split; [exact E|]. split; [exact L|].
  unfold unicode2charstring. apply char_loop_text; [done| |done].
  rewrite length_app, units_le_length, length_app. lia.
Qed.

Lemma string_round_trip_witness :
  exists units, poke_string (replicate 13 7) 3 13 (utf8_text [0x41; 0x416; 0x20AC] ++ [0]) =
      Some (replicate 3 7 ++ 4 :: units ++ [7], 12) /\
    unicode2charstring (units ++ [7]) 20 = Some ([0x41; 0xD0; 0x96; 0xE2; 0x82; 0xAC], 0).
Proof.
  destruct (string_round_trip [0x41; 0x416; 0x20AC] (replicate 3 7) (replicate 10 7) [] 13 20)
    as (units & H & L & R);
    [repeat (apply Forall_cons_2; [vm_compute; split; reflexivity|]); apply Forall_nil_2
    |discriminate|vm_compute; discriminate|vm_compute; reflexivity|vm_compute; discriminate
    |vm_compute; reflexivity|].
  assert (length units = 8%nat) as E by (change (strlen units = 8) in L; unfold strlen in L; lia).
  rewrite E in H, R. exists units. split; [exact H|exact R].
Defined.
