(* ===== verification/MtpWriter.v ===== *)
(** * Datasets as sequences of writes

    The datasets of the MTP responder are chains of the stores of [MtpData]
    that pass the index on.  Here such a chain is a [writer]; the class
    [Writes] says which bytes it leaves, and that it refuses as a whole when
    they do not fit.  Instances compute the bytes of a dataset from its code. *)

From Stdlib Require Import Ascii String.
From S2P Require Import Prelude CString MtpData.

Definition writer : Type := list Z -> Z -> option (list Z * Z).

Definition then_write (f g : writer) : writer := fun buffer ofs => '(buffer, ofs) ← f buffer ofs; g buffer ofs.
Definition no_write : writer := fun buffer ofs => Some (buffer, ofs).
Infix "+>" := then_write (at level 60, right associativity).

Section Writers.
Context (maxsize : Z).

Definition put08 (v : Z) : writer := fun buffer ofs => poke08 buffer ofs maxsize v.
Definition put16 (v : Z) : writer := fun buffer ofs => poke16 buffer ofs maxsize v.
Definition put32 (v : Z) : writer := fun buffer ofs => poke32 buffer ofs maxsize v.
(** [mem] is the memory from the string on. *)
Definition put_string (mem : list Z) : writer := fun buffer ofs => poke_string buffer ofs maxsize mem.
(** A prefixed array of 16-bit words. *)
Definition put_array16 (l : list Z) : writer := fun buffer ofs =>
  poke_array buffer ofs maxsize (2 * strlen l) 2 (concat (map (fun v => le_bytes 2 (u16 v)) l)) 1.

(** [for] over a table. *)
Definition each {A} (f : A -> writer) (l : list A) : writer := foldr (fun x w => f x +> w) no_write l.

(** ** What a writer leaves *)

(** [bs] at the index when they fit, and otherwise -1 with the bytes before
    the index as they were; a negative index is handed on. *)
Class Writes (w : writer) (bs : list Z) : Prop := {
  writes_at pre post : strlen pre < maxsize -> maxsize <= strlen (pre ++ post) ->
    if strlen pre + strlen bs <? maxsize
    then w (pre ++ post) (strlen pre) = Some (pre ++ bs ++ drop (length bs) post, strlen pre + strlen bs)
    else exists post', w (pre ++ post) (strlen pre) = Some (pre ++ post', -1) /\ length post' = length post;
  writes_refused buffer ofs : ofs < 0 -> w buffer ofs = Some (buffer, ofs) }.

#[export] Instance no_write_writes : Writes no_write [].
Proof.
  split; [|done]. intros pre post Hp Hl. change (strlen []) with 0. rewrite Z.add_0_r, (proj2 (Z.ltb_lt _ _)) by done.
  done.
Qed.

#[export] Instance then_writes f g a b : Writes f a -> Writes g b -> Writes (f +> g) (a ++ b).
Proof.
  intros Hf Hg. split.
  - intros pre post Hp Hl. unfold then_write. pose proof (writes_at (Writes := Hf) pre post Hp Hl) as Ef.
    rewrite strlen_app. pose proof (strlen_nonneg b). destruct (Z.ltb_spec (strlen pre + strlen a) maxsize) as [H1|H1].
    + rewrite Ef. cbn [mbind option_bind].
      assert (length a <= length post)%nat as Ha by (unfold strlen in *; rewrite length_app in Hl; lia).
      pose proof (writes_at (Writes := Hg) (pre ++ a) (drop (length a) post)) as Eg. rewrite !strlen_app in Eg.
      assert (strlen (drop (length a) post) = strlen post - strlen a) as El by (unfold strlen; rewrite length_drop; lia).
      rewrite strlen_app in Hl. specialize (Eg ltac:(lia) ltac:(lia)).
      rewrite <- Z.add_assoc in Eg. rewrite <- !app_assoc in Eg. destruct (_ <? _).
      * by rewrite Eg, drop_drop, length_app, <- !app_assoc, ?Z.add_assoc.
      * destruct Eg as (post' & -> & E'). exists (a ++ post'). rewrite <- !app_assoc. split; [done|].
        rewrite length_app, E', length_drop. lia.
    + rewrite (proj2 (Z.ltb_ge _ _)) by lia. destruct Ef as (post' & -> & E'). cbn [mbind option_bind].
      rewrite (writes_refused (Writes := Hg)) by lia. by exists post'.
  - intros buffer ofs Ho. unfold then_write. rewrite (writes_refused (Writes := Hf)) by done. cbn [mbind option_bind].
    by apply (writes_refused (Writes := Hg)).
Qed.

(** A dataset is written at the start of its buffer. *)
Class Dataset (w : writer) (bs : list Z) : Prop :=
  dataset_at buffer : 0 < maxsize -> maxsize <= strlen buffer ->
    if strlen bs <? maxsize then w buffer 0 = Some (bs ++ drop (length bs) buffer, strlen bs)
    else exists buffer', w buffer 0 = Some (buffer', -1) /\ strlen buffer' = strlen buffer.

#[export] Instance writes_dataset w bs : Writes w bs -> Dataset w bs.
Proof.
  intros H buffer H0 Hl. pose proof (writes_at (Writes := H) [] buffer H0 Hl) as E. cbn [app] in E.
  change (strlen []) with 0 in E. rewrite Z.add_0_l in E. destruct (_ <? _); [exact E|].
  destruct E as (post' & E & El). exists post'. split; [exact E|]. unfold strlen. by rewrite El.
Qed.

(** ** Numbers and tables *)
Lemma poke_writes n v : Writes (fun buffer ofs => poke n buffer ofs maxsize v) (le_bytes n v).
Proof.
  split.
  - intros pre post Hp Hl. pose proof (le_bytes_length n v) as E. pose proof (strlen_nonneg pre).
    rewrite strlen_app in Hl. unfold poke. rewrite (proj2 (Z.ltb_ge _ 0)) by done.
    replace (strlen (le_bytes n v)) with (Z.of_nat n) by (unfold strlen; lia).
    destruct (Z.ltb_spec (strlen pre + Z.of_nat n) maxsize) as [H1|H1].
    + rewrite (proj2 (Z.leb_gt _ _)) by lia. rewrite put_after by (unfold strlen in *; lia). done.
    + rewrite (proj2 (Z.leb_le _ _)) by lia. by exists post.
  - intros buffer ofs Ho. unfold poke. by rewrite (proj2 (Z.ltb_lt _ 0)).
Qed.

#[export] Instance put08_writes v : Writes (put08 v) (le_bytes 1 (u8 v)).
Proof. apply poke_writes. Qed.
#[export] Instance put16_writes v : Writes (put16 v) (le_bytes 2 (u16 v)).
Proof. apply poke_writes. Qed.
#[export] Instance put32_writes v : Writes (put32 v) (le_bytes 4 (u32 v)).
Proof. apply poke_writes. Qed.

Lemma halves_length l : strlen (concat (map (fun v => le_bytes 2 (u16 v)) l)) = 2 * strlen l.
Proof.
  induction l as [|v l IH]; [done|]. cbn [map concat]. rewrite strlen_app, IH. unfold strlen.
  rewrite le_bytes_length. cbn [length]. lia.
Qed.

(** A prefixed array of [k]-byte elements. *)
Lemma array_writes k n bs : 0 < k -> 0 <= n -> strlen bs = k * n ->
  Writes (fun buffer ofs => poke_array buffer ofs maxsize (k * n) k bs 1) (le_bytes 4 n ++ bs).
Proof.
  intros Hk Hn Eb. assert (strlen (le_bytes 4 n) = 4) as E4 by (unfold strlen; by rewrite le_bytes_length).
  assert (0 <= k * n) by nia. split.
  - intros pre post Hp Hl. rewrite strlen_app, E4, Eb. rewrite strlen_app in Hl. pose proof (strlen_nonneg pre).
    unfold poke_array. rewrite (proj2 (Z.ltb_ge _ 0)) by done.
    replace (strlen pre + (k * n + 1 * 4)) with (strlen pre + (4 + k * n)) by lia.
    destruct (Z.ltb_spec (strlen pre + (4 + k * n)) maxsize) as [H1|H1].
    + rewrite (proj2 (Z.leb_gt _ _)) by lia. change (1 =? 0) with false. cbn iota zeta.
      replace (Z.quot (k * n) k) with n by (rewrite Z.mul_comm, Z.quot_mul; lia).
      unfold strlen in E4, Eb, Hl, H1. rewrite put_after by (unfold strlen; lia). cbn [mbind option_bind].
      rewrite (proj2 (Z.ltb_ge _ _)) by (unfold strlen; lia).
      replace (take _ bs) with bs by (symmetry; apply take_ge; unfold strlen; lia).
      rewrite app_assoc. replace (strlen pre + 4) with (strlen (pre ++ le_bytes 4 n))
        by (rewrite strlen_app; unfold strlen; lia).
      rewrite put_after by (rewrite length_drop; unfold strlen in *; lia). cbn [mbind option_bind].
      rewrite drop_drop, length_app, <- !app_assoc. do 2 f_equal. rewrite strlen_app. unfold strlen. lia.
    + rewrite (proj2 (Z.leb_le _ _)) by lia. by exists post.
  - intros buffer ofs Ho. unfold poke_array. by rewrite (proj2 (Z.ltb_lt _ 0)).
Qed.

#[export] Instance put_array16_writes l :
  Writes (put_array16 l) (le_bytes 4 (strlen l) ++ concat (map (fun v => le_bytes 2 (u16 v)) l)).
Proof. apply array_writes; [lia|apply strlen_nonneg|apply halves_length]. Qed.

#[export] Instance each_writes {A} (f : A -> writer) (g : A -> list Z) l :
  (forall x, Writes (f x) (g x)) -> Writes (each f l) (concat (map g l)).
Proof. intros H. induction l as [|x l IH]; [exact no_write_writes|]. exact (then_writes _ _ _ _ (H x) IH). Qed.

(** ** Strings *)

(** A string as a packet holds it: the number of its UTF-16 units with the NUL,
    and the units; nothing but the count for the empty one. *)
Definition mtp_string (us : list Z) : list Z :=
  match us with [] => [0] | _ => u8 (strlen us + 1) :: units_le (us ++ [0]) end.

Lemma mtp_string_length us : strlen (mtp_string us) = if bool_decide (us = []) then 1 else 1 + 2 * (strlen us + 1).
Proof.
  destruct us as [|u us]; [done|]. cbn [bool_decide]. rewrite bool_decide_false by done.
  unfold mtp_string, strlen. cbn [length]. rewrite units_le_length, length_app. cbn [length]. lia.
Qed.

Lemma unit_loop_refuses fuel pre post us rest len :
  Forall unit_ok us -> (length us < fuel)%nat -> 0 <= len -> len + strlen us <= 254 ->
  maxsize <= strlen pre + 2 * (strlen us + 1) -> strlen pre < maxsize -> maxsize <= strlen (pre ++ post) ->
  exists post', unit_loop fuel (pre ++ post) (strlen pre) maxsize (utf8_text us ++ 0 :: rest) len 255 =
    Some (inr (pre ++ post')) /\ length post' = length post.
Proof.
  intros Hus. revert fuel pre post len. induction Hus as [|u us Hu Hus IH]; intros fuel pre post len Hf Hl Hn Hr Hp Hm.
  - destruct fuel as [|fuel]; [lia|]. cbn [utf8_text map concat app unit_loop].
    change (utf2unicode (0 :: rest)) with (Some (0, 1)). cbn [mbind option_bind].
    change (strlen []) with 0 in *. rewrite (proj2 (Z.leb_le _ _)) by lia. by exists post.
  - destruct fuel as [|fuel]; [lia|]. pose proof (encode_size u Hu) as Hsz.
    assert (strlen (u :: us) = strlen us + 1) as El by (unfold strlen; cbn [length]; lia). rewrite El in *.
    rewrite utf8_text_cons, <- app_assoc. cbn [unit_loop]. rewrite utf2unicode_encode by (unfold unit_ok in Hu; lia).
    cbn [mbind option_bind]. destruct (Z.leb_spec maxsize (strlen pre + 2)) as [H2|H2]; [by exists post|].
    assert (2 <= length post)%nat by (unfold strlen in *; rewrite length_app in Hm; lia).
    rewrite put_after by (cbn; lia). cbn [mbind option_bind]. pose proof (strlen_nonneg us).
    rewrite (proj2 (Z.eqb_neq u 0)), (proj2 (Z.eqb_neq (strlen (utf8_encode u)) 0)) by (unfold unit_ok in Hu; lia).
    rewrite (proj2 (Z.ltb_lt _ (255 * 2))) by lia. cbn [negb andb].
    rewrite encode_drop, app_assoc. change [Z.land u 0xFF; Z.land (Z.shiftr u 8) 0xFF] with (unit_bytes u).
    assert (strlen (pre ++ unit_bytes u) = strlen pre + 2) as E2 by (rewrite strlen_app; done). rewrite <- E2.
    cbn [length] in Hf.
    destruct (IH fuel (pre ++ unit_bytes u) (drop 2 post) (len + 1)) as (post' & E & E'); [lia|lia|lia|lia|lia| |].
    + rewrite strlen_app, E2. rewrite strlen_app in Hm. unfold strlen in *. rewrite length_drop. lia.
    + exists (unit_bytes u ++ post'). rewrite app_assoc. split; [exact E|]. rewrite length_app, E', length_drop. cbn. lia.
Qed.

(** A string in memory that a packet can hold. *)
Class Text (mem us : list Z) : Prop := {
  text_eq : exists rest, mem = utf8_text us ++ 0 :: rest;
  text_units : Forall unit_ok us;
  text_short : strlen us <= 254 }.

Lemma text_head us : Forall unit_ok us -> us <> [] -> exists c s, utf8_text us = c :: s /\ (c =? 0) = false.
Proof.
  intros H. destruct H as [|u us Hu _]; [done|]. intros _. rewrite utf8_text_cons.
  destruct (encode_head u Hu) as (c & enc & -> & Hc). exists c. eexists. split; [reflexivity|]. by apply Z.eqb_neq.
Qed.

Lemma text_ascii s rest : forallb (fun c => (0 <? c) && (c <=? 0x7F)) s = true -> strlen s <= 254 -> Text (s ++ 0 :: rest) s.
Proof.
  intros H Hs. rewrite forallb_forall in H.
  split; [exists rest; f_equal| |done].
  - induction s as [|c s IH]; [done|]. rewrite utf8_text_cons.
    pose proof (H c (or_introl eq_refl)) as Hc. cbv beta in Hc. bprop. unfold strlen in *. cbn [length] in Hs.
    rewrite <- IH; [|by intros x Hx; apply H; right|lia].
    unfold utf8_encode. rewrite (proj2 (Z.leb_le c 0x7F)) by lia. cbn [app]. f_equal. unfold u8. by rewrite Z.mod_small by lia.
  - apply Forall_forall. intros c Hc. apply list_elem_of_In, H in Hc. bprop. unfold unit_ok. lia.
Qed.

#[export] Instance put_string_writes mem us : Text mem us -> Writes (put_string mem) (mtp_string us).
Proof.
  intros [[rest ->] Hus Hs]. split.
  2: { intros buffer ofs Ho. unfold put_string, poke_string. by rewrite (proj2 (Z.ltb_lt _ 0)). }
  intros pre post Hp Hl. rewrite mtp_string_length. pose proof (strlen_nonneg pre).
  assert (0 < length post)%nat by (unfold strlen in *; rewrite length_app in Hl; lia).
  unfold put_string, poke_string. rewrite (proj2 (Z.ltb_ge _ 0)) by done.
  case_bool_decide as Ene.
  - subst us. destruct (Z.ltb_spec (strlen pre + 1) maxsize) as [H1|H1].
    + rewrite (proj2 (Z.leb_gt _ _)), put_after by (cbn; lia). done.
    + rewrite (proj2 (Z.leb_le _ _)) by lia. by exists post.
  - pose proof (strlen_nonneg us) as Hn. destruct (text_head us Hus Ene) as (c & s & Es & Ec).
    destruct (Z.leb_spec maxsize (strlen pre + 1)) as [H1|H1].
    { rewrite (proj2 (Z.ltb_ge _ _)) by lia. by exists post. }
    destruct (Z.ltb_spec (strlen pre + (1 + 2 * (strlen us + 1))) maxsize) as [H2|H2].
    + destruct (string_stored us pre post rest maxsize Hus Ene Hs) as (E & _); [lia|done|].
      unfold poke_string in E. rewrite (proj2 (Z.ltb_ge _ 0)), (proj2 (Z.leb_gt _ _)) in E by lia. rewrite E.
      replace (mtp_string us) with ((strlen us + 1) :: units_le (us ++ [0])).
      2: { destruct us as [|u us]; [done|]. unfold mtp_string, u8. by rewrite Z.mod_small by lia. }
      cbn [length app]. do 2 f_equal. lia.
    + rewrite put_after by (cbn; lia). cbn [mbind option_bind length].
      assert ((utf8_text us ++ 0 :: rest) !! 0%nat = Some c) as -> by (rewrite Es; done).
      cbn [mbind option_bind]. rewrite Ec, app_assoc.
      assert (strlen (pre ++ [0]) = strlen pre + 1) as E1 by by rewrite strlen_app. rewrite <- E1.
      unfold char2unicodestring.
      destruct (unit_loop_refuses 256 (pre ++ [0]) (drop 1 post) us rest 0) as (post' & -> & E'); [done| |lia|lia|lia|lia| |].
      * unfold strlen in Hs. lia.
      * rewrite strlen_app, E1. rewrite strlen_app in Hl. unfold strlen in *. rewrite length_drop. lia.
      * cbn [mbind option_bind]. change (-1 <? 0) with true. cbn iota. exists (0 :: post'). rewrite <- app_assoc.
        split; [done|]. cbn [length]. rewrite E', length_drop. lia.
Qed.
End Writers.
