(* ===== verification/MtpUsb.v ===== *)
(** * USB descriptors and error codes of the MTP responder

    The string descriptors of [usbstring.c], and [posix_to_mtp_errcode] of
    [mtp_helpers.c]. *)

From S2P Require Import Prelude CString MtpData.

(** ** String descriptors *)

(** [utf8_to_utf16le]: the units stored and the return value, -1 for an
    encoding it refuses; [s] is the string with its NUL. *)
Fixpoint utf8_to_utf16le (len : nat) (s : list Z) : option (list Z * Z) :=
  match len with
  | O => Some ([], 0)
  | S len' =>
      c ← s !! 0%nat;
      let put uchar n :=
        '(us, r) ← utf8_to_utf16le len' (drop n s);
        Some (uchar :: us, if r <? 0 then -1 else r + 1) in
      if c =? 0 then Some ([], 0)
      else if Z.land c 0x80 =? 0 then put c 1%nat
      else if Z.land c 0xe0 =? 0xc0 then
        c2 ← s !! 1%nat;
        if negb (Z.land c2 0xc0 =? 0xc0) then Some ([], -1)
        else put (Z.lor (Z.shiftl (Z.land c 0x1f) 6) (Z.land c2 0x3f)) 2%nat
      else if Z.land c 0xf0 =? 0xe0 then
        c2 ← s !! 1%nat;
        if negb (Z.land c2 0xc0 =? 0xc0) then Some ([], -1)
        else
          c3 ← s !! 2%nat;
          if negb (Z.land c3 0xc0 =? 0xc0) then Some ([], -1)
          else
            let uchar := u16 (Z.lor (Z.lor (Z.shiftl (Z.land c 0x0f) 12) (Z.shiftl (Z.land c2 0x3f) 6))
                                    (Z.land c3 0x3f)) in
            if (0xd800 <=? uchar) && (uchar <=? 0xdfff) then Some ([], -1) else put uchar 3%nat
      else Some ([], -1)
  end.

Definition USB_DT_STRING : Z := 3.
Definition EINVAL : Z := 22.

(** [struct usb_gadget_strings]: the strings before the entry without one;
    a string is its bytes, NUL excluded. *)
Record gadget_strings := mkstrings { language : Z; strings : list (Z * list Z) }.

Definition usb_gadget_get_string (table : gadget_strings) (id : Z) (buf : list Z) : option (list Z * Z) :=
  if id =? 0 then
    b ← put_bytes buf 0 [4; USB_DT_STRING; u8 (language table); u8 (Z.shiftr (language table) 8)];
    Some (b, 4)
  else
    match find (fun s => fst s =? id) (strings table) with
    | None => Some (buf, - EINVAL)
    | Some (_, str) =>
        let len := Nat.min (length str) 126 in
        b ← put_bytes buf 2 (replicate (2 * len) 0);
        '(us, len) ← utf8_to_utf16le len (str ++ [0]);
        b ← put_bytes b 2 (units_le us);
        if len <? 0 then Some (b, - EINVAL)
        else b ← put_bytes b 0 [u8 ((len + 1) * 2); USB_DT_STRING]; Some (b, u8 ((len + 1) * 2))
    end.

(** ** Error codes *)
Definition MTP_RESPONSE_OK : Z := 0x2001.

(** The [errno] values of Linux. *)
Definition posix_to_mtp_errcode (err : Z) : Z :=
  match err with
  | 16 | 26 (* EBUSY ETXTBSY *) => 0x2019
  | 13 | 1 (* EACCES EPERM *) => 0x200F
  | 115 | 11 (* EINPROGRESS EAGAIN *) => 0x2019
  | 9 | 77 | 2 (* EBADF EBADFD ENOENT *) => 0x2009
  | 125 (* ECANCELED *) => 0x2007
  | 122 (* EDQUOT *) => 0x200C
  | 27 (* EFBIG *) => 0x200C
  | 22 (* EINVAL *) => 0x201D
  | 21 (* EISDIR *) => 0x201D
  | 40 (* ELOOP *) => 0x2007
  | 124 (* EMEDIUMTYPE *) => 0x2009
  | 24 | 31 | 28 (* EMFILE EMLINK ENOSPC *) => 0x200C
  | 36 (* ENAMETOOLONG *) => 0x201D
  | 19 (* ENODEV *) => 0x201D
  | 67 | 123 | 15 (* ENOLINK ENOMEDIUM ENOTBLK *) => 0x2009
  | 20 (* ENOTDIR *) => 0x200F
  | 39 (* ENOTEMPTY *) => 0x2012
  | 30 (* EROFS *) => 0x200E
  | 116 (* ESTALE *) => 0x2009
  | _ (* the others, EEXIST and EIO among them *) => 0x2002
  end.

(** An error never reads as success. *)
Lemma errcode_not_ok err : posix_to_mtp_errcode err <> MTP_RESPONSE_OK.
Proof. unfold posix_to_mtp_errcode, MTP_RESPONSE_OK. repeat case_match; discriminate. Qed.

(** ** String descriptors of ASCII text *)
Definition ascii_ok (c : Z) : Prop := 0 < c < 0x80.

Lemma ascii_high c : ascii_ok c -> (Z.land c 0x80 =? 0) = true /\ (c =? 0) = false.
Proof.
  intros Hc. unfold ascii_ok in Hc. pose proof (range_cases 128 (fun c => Z.land c 0x80 =? 0)
    ltac:(vm_compute; reflexivity) c ltac:(lia)) as H. cbv beta in H. split; [done|]. apply Z.eqb_neq. lia.
Qed.

Lemma utf16_ascii len s rest :
  Forall ascii_ok s -> utf8_to_utf16le len (s ++ 0 :: rest) =
    Some (take len s, Z.of_nat (length (take len s))).
Proof.
  intros Hs. revert s Hs. induction len as [|len IH]; intros s Hs; [done|].
  destruct Hs as [|c s Hc Hs]; [done|]. destruct (ascii_high c Hc) as [H1 H2].
  cbn [app utf8_to_utf16le lookup list_lookup mbind option_bind]. rewrite H2, H1.
  cbn [drop]. rewrite drop_0, IH by done. cbn [mbind option_bind take length].
  rewrite (proj2 (Z.ltb_ge _ 0)) by lia. do 2 f_equal. lia.
Qed.

(** What the tests of [utf8_to_utf16le] see of the bytes [utf8_encode] makes. *)
Lemma cont_top m : (Z.land (u8 (Z.lor (Z.land m 0x3F) 0x80)) 0xc0 =? 0xc0) = false.
Proof.
  assert (0 <= Z.land m 0x3F < 64) as H.
  { change 0x3F with (Z.ones 6). rewrite Z.land_ones by lia. apply Z.mod_pos_bound. lia. }
  apply negb_true_iff. exact (range_cases 64 (fun x => negb (Z.land (u8 (Z.lor x 0x80)) 0xc0 =? 0xc0))
    ltac:(vm_compute; reflexivity) _ H).
Qed.
Lemma lead2_top m : let c := u8 (Z.lor (Z.land m 0x1F) 0xC0) in
  (c =? 0) = false /\ (Z.land c 0x80 =? 0) = false /\ (Z.land c 0xe0 =? 0xc0) = true.
Proof.
  assert (0 <= Z.land m 0x1F < 32) as H.
  { change 0x1F with (Z.ones 5). rewrite Z.land_ones by lia. apply Z.mod_pos_bound. lia. }
  pose proof (range_cases 32 (fun x => let c := u8 (Z.lor x 0xC0) in
    negb (c =? 0) && negb (Z.land c 0x80 =? 0) && (Z.land c 0xe0 =? 0xc0))
    ltac:(vm_compute; reflexivity) _ H) as E. cbv beta zeta in E |- *.
  rewrite !andb_true_iff, !negb_true_iff in E. tauto.
Qed.
Lemma lead3_top m : let c := u8 (Z.lor (Z.land m 0x0F) 0xE0) in
  (c =? 0) = false /\ (Z.land c 0x80 =? 0) = false /\ (Z.land c 0xe0 =? 0xc0) = false /\
  (Z.land c 0xf0 =? 0xe0) = true.
Proof.
  assert (0 <= Z.land m 0x0F < 16) as H.
  { change 0x0F with (Z.ones 4). rewrite Z.land_ones by lia. apply Z.mod_pos_bound. lia. }
  pose proof (range_cases 16 (fun x => let c := u8 (Z.lor x 0xE0) in
    negb (c =? 0) && negb (Z.land c 0x80 =? 0) && negb (Z.land c 0xe0 =? 0xc0) && (Z.land c 0xf0 =? 0xe0))
    ltac:(vm_compute; reflexivity) _ H) as E. cbv beta zeta in E |- *.
  rewrite !andb_true_iff, !negb_true_iff in E. tauto.
Qed.

Lemma utf16_refuses len u rest :
  0x80 <= u < 0x10000 -> utf8_to_utf16le (S len) (utf8_encode u ++ rest) = Some ([], -1).
Proof.
  intros Hu. unfold utf8_encode. cbv zeta. rewrite (proj2 (Z.leb_gt u 0x7F)) by lia.
  destruct (Z.leb_spec u 0x7FF).
  - destruct (lead2_top (Z.shiftr u 6)) as (E1 & E2 & E3).
    cbn [app utf8_to_utf16le lookup list_lookup mbind option_bind]. rewrite E1, E2, E3, cont_top. done.
  - rewrite (proj2 (Z.leb_le u 0xFFFF)) by lia.
    destruct (lead3_top (Z.shiftr u 12)) as (E1 & E2 & E3 & E4).
    cbn [app utf8_to_utf16le lookup list_lookup mbind option_bind]. rewrite E1, E2, E3, E4, cont_top. done.
Qed.

(** The prefix before the letter does not help. *)
Lemma utf16_refuses_later len s u rest :
  Forall ascii_ok s -> (length s < len)%nat -> 0x80 <= u < 0x10000 ->
  exists us, utf8_to_utf16le len (s ++ utf8_encode u ++ rest) = Some (us, -1) /\ length us = length s.
Proof.
  intros Hs Hl Hu. revert len Hl. induction Hs as [|c s Hc Hs IH]; intros len Hl.
  - destruct len as [|len]; [cbn in Hl; lia|]. exists []. split; [by apply utf16_refuses|done].
  - destruct len as [|len]; [cbn in Hl; lia|]. destruct (ascii_high c Hc) as [H1 H2].
    destruct (IH len) as (us & E & El); [cbn in Hl; lia|]. exists (c :: us).
    cbn [app utf8_to_utf16le lookup list_lookup mbind option_bind]. rewrite H2, H1.
    cbn [drop]. rewrite drop_0, E. cbn [mbind option_bind length]. by rewrite El.
Qed.

(** [usb_gadget_get_string] on a known id: ASCII text of any length becomes a
    descriptor of at most 126 units, in place and with the right size byte, and
    the rest of the buffer is untouched. *)
Lemma get_string_ascii table id buf str :
  id <> 0 -> find (fun s => fst s =? id) (strings table) = Some (id, str) -> Forall ascii_ok str ->
  254 <= strlen buf ->
  let text := take 126 str in
  usb_gadget_get_string table id buf =
    Some ([2 * (strlen text + 1); USB_DT_STRING] ++ units_le text ++ drop (2 + 2 * length text) buf,
          2 * (strlen text + 1)).
Proof.
  intros Hid Hf Hs Hb text. unfold usb_gadget_get_string. rewrite (proj2 (Z.eqb_neq id 0)), Hf by done.
  assert (length text = Nat.min (length str) 126) as El by (unfold text; rewrite length_take; lia).
  rewrite <- El. destruct buf as [|b0 [|b1 buf]]; [unfold strlen in Hb; cbn [length] in Hb; lia..|].
  assert (2 * length text <= length buf)%nat as Hl by (unfold strlen in Hb; cbn [length] in Hb; lia).
  rewrite (put_after [b0; b1] buf) by (rewrite length_replicate; lia). cbn [mbind option_bind].
  rewrite length_replicate, utf16_ascii by done.
  assert (take (length text) str = text) as ->.
  { unfold text. rewrite length_take. destruct (Nat.le_ge_cases 126 (length str)).
    - by rewrite Nat.min_l.
    - rewrite Nat.min_r, !take_ge by lia. done. }
  cbn [mbind option_bind].
  rewrite (put_after [b0; b1]) by (rewrite length_app, length_replicate, units_le_length; lia).
  cbn [mbind option_bind]. rewrite (proj2 (Z.ltb_ge _ 0)) by lia.
  rewrite drop_app_ge, units_le_length, length_replicate, Nat.sub_diag, drop_0
    by (rewrite units_le_length, length_replicate; lia).
  assert (u8 ((Z.of_nat (length text) + 1) * 2) = 2 * (strlen text + 1)) as ->
    by (unfold u8, strlen; rewrite Z.mod_small; lia).
  match goal with |- context [put_bytes ([b0; b1] ++ ?l) 0 ?bs] =>
    change (put_bytes ([b0; b1] ++ l) 0 bs) with (put_bytes ([] ++ [b0; b1] ++ l) (strlen []) bs) end.
  rewrite put_after by (cbn; lia). done.
Qed.

(** A descriptor with a letter outside ASCII among its first characters is
    refused with [-EINVAL], though [utf8_encode] made it. *)
Lemma get_string_refuses table id buf s u rest :
  id <> 0 -> Forall ascii_ok s -> 0x80 <= u < 0x10000 -> (length s < 126)%nat ->
  find (fun e => fst e =? id) (strings table) = Some (id, s ++ utf8_encode u ++ rest) ->
  254 <= strlen buf ->
  exists b, usb_gadget_get_string table id buf = Some (b, - EINVAL).
Proof.
  intros Hid Hs Hu Hl Hf Hb. unfold usb_gadget_get_string. rewrite (proj2 (Z.eqb_neq id 0)), Hf by done.
  set (str := s ++ utf8_encode u ++ rest). set (n := Nat.min (length str) 126).
  assert (length s < n <= 126)%nat as Hn.
  { destruct (encode_head u) as (c & enc & E & _); [lia|].
    unfold n, str. rewrite E, !length_app. cbn [length]. lia. }
  destruct buf as [|b0 [|b1 buf]]; [unfold strlen in Hb; cbn [length] in Hb; lia..|].
  assert (2 * n <= length buf)%nat as Hbl by (unfold strlen in Hb; cbn [length] in Hb; lia).
  rewrite (put_after [b0; b1] buf) by (rewrite length_replicate; lia). cbn [mbind option_bind].
  destruct (utf16_refuses_later n s u (rest ++ [0]) Hs) as (us & E & El); [lia|done|].
  unfold str. rewrite <- !app_assoc, E. cbn [mbind option_bind].
  rewrite (put_after [b0; b1]).
  2: { rewrite length_app, length_drop, length_replicate, units_le_length. lia. }
  eexists. reflexivity.
Qed.
