(* ===== verification/MtpHash.v ===== *)
(** * The object table of the MTP responder: data and hash tables

    The structures of [fs_handles_db.h] and the functions of [hash_utils.c].
    A pointer to an entry is its position in the pool blocks, 1024 to a block;
    an access to an entry that was never handed out is [None].  Allocations
    are numbered and any of them may fail. *)

From S2P Require Import Prelude CString.

Definition HASH_TABLE_SIZE : Z := 1024.
Definition POOL_BLOCK_SIZE : Z := 1024.
Definition INITIAL_NODE_CAPACITY : Z := 4.
Definition NODE_GROWTH_FACTOR : Z := 2.
(** [sizeof(fs_entry * )] on the device. *)
Definition PTR_SIZE : Z := 4.

Definition ENTRY_IS_DIR : Z := 1.
Definition ENTRY_IS_DELETED : Z := 2.

(** [fs_entry]; the [date] is never used. *)
Record fs_entry := mkentry {
  e_handle : Z; e_parent : Z; e_storage : Z; e_name : list Z; e_flags : Z; e_size : Z;
  e_fd : Z; e_wd : Z; e_next : option Z }.

(** [hash_node]; its [size] is the length of the list, and its array is null
    when the capacity is 0. *)
Record hash_node := mknode { node_entries : list Z; node_capacity : Z }.
Definition no_node : hash_node := {| node_entries := []; node_capacity := 0 |}.

(** [fs_handles_db]: the list head, both tables, the search, and the pool
    (the entries handed out, the number of blocks, the free entries of the
    newest block); [d_mallocs] counts allocations. *)
Record fs_handles_db := mkdb {
  d_list : option Z; d_names : gmap Z hash_node; d_handles : gmap Z hash_node; d_next : Z;
  d_search : option Z; d_hsearch : Z; d_ssearch : Z;
  d_pool : gmap Z fs_entry; d_blocks : Z; d_free : Z; d_mallocs : nat }.

Definition flagged (f : Z) (e : fs_entry) : bool := negb (Z.land (e_flags e) f =? 0).
Definition live (e : fs_entry) : bool := negb (flagged ENTRY_IS_DELETED e).

(** The node of a table at an index. *)
Definition node_at (t : gmap Z hash_node) (i : Z) : hash_node := default no_node (t !! i).

(** ** Hash functions *)
Definition hash_function_name (s : list Z) : Z :=
  fold_left (fun h c => u32 (u32 (Z.shiftl h 5) + h + c)) s 5381 mod HASH_TABLE_SIZE.
Definition hash_function_handle (h : Z) : Z := h mod HASH_TABLE_SIZE.

(** ** Allocation *)
Section Mallocs.
Context (mal : nat -> bool).

(** [init_hash_node], [expand_hash_node]: the node and the allocations done,
    [None] for a failure. *)
Definition init_hash_node (n : nat) : option hash_node :=
  if mal n then Some {| node_entries := []; node_capacity := INITIAL_NODE_CAPACITY |} else None.

Definition expand_hash_node (node : hash_node) (n : nat) : option hash_node * nat :=
  if 0x80000000 / PTR_SIZE <=? node_capacity node then (None, n)
  else (if mal n then Some (node {{ node_capacity := u32 (node_capacity node * NODE_GROWTH_FACTOR) }})
        else None, S n).

Definition insert_entry_generic (node : hash_node) (entry : Z) (n : nat) : hash_node * nat :=
  let '(node, ok, n) :=
    if node_capacity node =? 0
    then match init_hash_node n with Some node => (node, true, S n) | None => (node, false, S n) end
    else (node, true, n) in
  if negb ok then (node, n)
  else
    let '(node, ok, n) :=
      if node_capacity node <=? Z.of_nat (length (node_entries node))
      then match expand_hash_node node n with
           | (Some node, n) => (node, true, n)
           | (None, n) => (node, false, n)
           end
      else (node, true, n) in
    if negb ok then (node, n) else (node {{ node_entries := node_entries node ++ [entry] }}, n).

(** [insert_entry] of the entry at [p]. *)
Definition insert_entry (p : Z) (d : fs_handles_db) : option fs_handles_db :=
  e ← d_pool d !! p;
  let index_name := hash_function_name (e_name e) mod HASH_TABLE_SIZE in
  let index_handle := hash_function_handle (e_handle e) mod HASH_TABLE_SIZE in
  let '(nh, n) := insert_entry_generic (node_at (d_handles d) index_handle) p (d_mallocs d) in
  let '(nn, n) := insert_entry_generic (node_at (d_names d) index_name) p n in
  Some (d {{ d_handles := <[index_handle := nh]> (d_handles d);
             d_names := <[index_name := nn]> (d_names d); d_mallocs := n }}).

(** [allocate_pool_block]. *)
Definition allocate_pool_block (d : fs_handles_db) : bool * fs_handles_db :=
  if mal (d_mallocs d)
  then (true, d {{ d_mallocs := S (d_mallocs d); d_blocks := d_blocks d + 1;
                   d_free := d_free d + POOL_BLOCK_SIZE }})
  else (false, d {{ d_mallocs := S (d_mallocs d) }}).
End Mallocs.

(** ** Lookup and removal *)

(** The scan of a node's array. *)
Fixpoint scan_node (pool : gmap Z fs_entry) (P : fs_entry -> bool) (l : list Z) : option (option Z) :=
  match l with
  | [] => Some None
  | p :: l => e ← pool !! p; if P e then Some (Some p) else scan_node pool P l
  end.

Definition named (name : list Z) (parent storage_id : Z) (e : fs_entry) : bool :=
  streq (e_name e) name && (e_parent e =? parent) && (e_storage e =? storage_id) && live e.

Definition find_entry (name : list Z) (parent storage_id : Z) (d : fs_handles_db) : option (option Z) :=
  scan_node (d_pool d) (named name parent storage_id)
    (node_entries (node_at (d_names d) (hash_function_name name mod HASH_TABLE_SIZE))).

(** [remove_entry_generic]: the first occurrence goes, the others move up. *)
Fixpoint remove_entry_generic (l : list Z) (p : Z) : list Z :=
  match l with
  | [] => []
  | q :: l => if q =? p then l else q :: remove_entry_generic l p
  end.

Definition remove_at (t : gmap Z hash_node) (i p : Z) : gmap Z hash_node :=
  let node := node_at t i in
  <[i := node {{ node_entries := remove_entry_generic (node_entries node) p }}]> t.

Definition remove_entry (p : Z) (d : fs_handles_db) : option fs_handles_db :=
  e ← d_pool d !! p;
  Some (d {{ d_names := remove_at (d_names d) (hash_function_name (e_name e) mod HASH_TABLE_SIZE) p;
             d_handles := remove_at (d_handles d) (hash_function_handle (e_handle e) mod HASH_TABLE_SIZE) p }}).
