(* ===== verification/MtpDb.v ===== *)
(** * The object table of the MTP responder: entries and searches

    The table functions of [fs_handles_db.c].  [fs_entry] values live in the
    pool and are linked through [e_next]; list walks take the number of
    entries as their fuel, and [walk_list] proves that it suffices in every
    reachable table. *)

From S2P Require Import Prelude CString MtpHash.

(** [filefoundinfo]. *)
Record filefoundinfo := mkfound { f_isdirectory : bool; f_filename : list Z; f_size : Z }.

(** [init_fs_db]. *)
Definition init_fs_db (mallocs : nat) : fs_handles_db :=
  {| d_list := None; d_names := ∅; d_handles := ∅; d_next := 1; d_search := None; d_hsearch := 0;
     d_ssearch := 0; d_pool := ∅; d_blocks := 0; d_free := 0; d_mallocs := mallocs |}.

(** The walk along [next]. *)
Fixpoint walk (fuel : nat) (pool : gmap Z fs_entry) (P : fs_entry -> bool) (p : option Z) : option (option Z) :=
  match p with
  | None => Some None
  | Some p =>
      match fuel with
      | O => None
      | S fuel => e ← pool !! p; if P e then Some (Some p) else walk fuel pool P (e_next e)
      end
  end.
Definition walk_db (P : fs_entry -> bool) (p : option Z) (d : fs_handles_db) : option (option Z) :=
  walk (size (d_pool d)) (d_pool d) P p.

Definition search_entry (f : filefoundinfo) (parent storage_id : Z) (d : fs_handles_db) : option (option Z) :=
  find_entry (f_filename f) parent storage_id d.

(** [&pool_head->entries[pool_free_count]], after the count went down. *)
Definition pool_slot (d : fs_handles_db) : Z := (d_blocks d - 1) * POOL_BLOCK_SIZE + (d_free d - 1).

Section Mallocs.
Context (mal : nat -> bool).

(** The pool part of [alloc_entry] and [alloc_root_entry]: the slot taken. *)
Definition take_slot (d : fs_handles_db) : option Z * fs_handles_db :=
  let '(ok, d) := if d_free d =? 0 then allocate_pool_block mal d else (true, d) in
  if ok then (Some (pool_slot d), d {{ d_free := d_free d - 1 }}) else (None, d).

(** Hashing and linking a new entry. *)
Definition link_entry (p : Z) (e : fs_entry) (d : fs_handles_db) : option fs_handles_db :=
  d ← insert_entry mal p (d {{ d_pool := <[p := e]> (d_pool d) }});
  Some (d {{ d_pool := <[p := e {{ e_next := d_list d }}]> (d_pool d); d_list := Some p }}).

Definition alloc_entry (f : filefoundinfo) (parent storage_id : Z) (d : fs_handles_db) : option (option Z * fs_handles_db) :=
  match take_slot d with
  | (None, d) => Some (None, d)
  | (Some p, d) =>
      if mal (d_mallocs d) then
        let e := {| e_handle := d_next d; e_parent := parent; e_storage := storage_id;
                    e_name := f_filename f; e_flags := if f_isdirectory f then ENTRY_IS_DIR else 0;
                    e_size := f_size f; e_fd := 0; e_wd := -1; e_next := None |} in
        d ← link_entry p e (d {{ d_next := u32 (d_next d + 1); d_mallocs := S (d_mallocs d) }});
        Some (Some p, d)
      else Some (None, d {{ d_free := d_free d + 1; d_mallocs := S (d_mallocs d) }})
  end.

Definition alloc_root_entry (storage_id : Z) (d : fs_handles_db) : option (option Z * fs_handles_db) :=
  match take_slot d with
  | (None, d) => Some (None, d)
  | (Some p, d) =>
      if mal (d_mallocs d) then
        let e := {| e_handle := 0; e_parent := 0; e_storage := storage_id; e_name := [47];
                    e_flags := ENTRY_IS_DIR; e_size := 1; e_fd := 0; e_wd := -1; e_next := None |} in
        d ← link_entry p e (d {{ d_mallocs := S (d_mallocs d) }});
        Some (Some p, d)
      else Some (None, d {{ d_mallocs := S (d_mallocs d) }})
  end.

Definition add_entry (f : filefoundinfo) (parent storage_id : Z) (d : fs_handles_db) : option (option Z * fs_handles_db) :=
  found ← search_entry f parent storage_id d;
  match found with
  | Some p => Some (Some p, d)
  | None => alloc_entry f parent storage_id d
  end.
End Mallocs.

(** ** Searches *)
Definition init_search_handle (parent storage_id : Z) (d : fs_handles_db) : fs_handles_db :=
  d {{ d_search := d_list d; d_hsearch := parent; d_ssearch := storage_id }}.

Definition child_of (parent storage_id : Z) (e : fs_entry) : bool :=
  live e && (e_parent e =? parent) && (e_storage e =? storage_id) && negb (e_handle e =? e_parent e).

Definition get_next_child_handle (d : fs_handles_db) : option (option Z * fs_handles_db) :=
  found ← walk_db (child_of (d_hsearch d) (d_ssearch d)) (d_search d) d;
  match found with
  | Some p => e ← d_pool d !! p; Some (Some p, d {{ d_search := e_next e }})
  | None => Some (None, d {{ d_search := None }})
  end.

(** [root_of] is [mtp_get_storage_root]. *)
Definition get_entry_by_handle (root_of : Z -> option (list Z)) (handle : Z) (d : fs_handles_db) : option (option Z) :=
  scan_node (d_pool d)
    (fun e => live e && (e_handle e =? handle) && match root_of (e_storage e) with Some _ => true | None => false end)
    (node_entries (node_at (d_handles d) (hash_function_handle handle mod HASH_TABLE_SIZE))).

Definition get_entry_by_handle_and_storageid (handle storage_id : Z) (d : fs_handles_db) : option (option Z) :=
  walk_db (fun e => live e && (e_handle e =? handle) && (e_storage e =? storage_id)) (d_list d) d.

(** The next two start at [from], or at the head of the list. *)
Definition get_entry_by_wd (wd : Z) (from : option Z) (d : fs_handles_db) : option (option Z) :=
  walk_db (fun e => live e && (e_wd e =? wd)) (match from with Some p => Some p | None => d_list d end) d.
Definition get_entry_by_storageid (storage_id : Z) (from : option Z) (d : fs_handles_db) : option (option Z) :=
  walk_db (fun e => live e && (e_storage e =? storage_id)) (match from with Some p => Some p | None => d_list d end) d.

(** ** Changes of an entry *)
Definition upd_entry (g : fs_entry -> fs_entry) (p : Z) (d : fs_handles_db) : option fs_handles_db :=
  e ← d_pool d !! p; Some (d {{ d_pool := <[p := g e]> (d_pool d) }}).

(** An object that is gone: the flag, and no watch. *)
Definition mark_deleted (e : fs_entry) : fs_entry :=
  e {{ e_flags := Z.lor (e_flags e) ENTRY_IS_DELETED; e_wd := -1 }}.

(** The table's part of a renaming in [setObjectPropValue]. *)
Definition rename_entry (mal : nat -> bool) (p : Z) (new_filename : list Z) (d : fs_handles_db) : option fs_handles_db :=
  d ← remove_entry p d;
  d ← upd_entry (fun e => e {{ e_name := new_filename }}) p d;
  insert_entry mal p d.

Lemma mark_deleted_dead e : live (mark_deleted e) = false.
Proof.
  unfold live, flagged, mark_deleted, ENTRY_IS_DELETED. destruct e. upd.
  apply negb_false_iff, negb_true_iff, Z.eqb_neq. rewrite Z.land_lor_distr_l. intros E.
  apply Z.lor_eq_0_iff in E as [_ E]. done.
Qed.

(** ** Walks *)

(** The list a chain of [next] pointers goes through. *)
Fixpoint linked (pool : gmap Z fs_entry) (p : option Z) (l : list Z) : Prop :=
  match l with
  | [] => p = None
  | q :: l => p = Some q /\ exists e, pool !! q = Some e /\ linked pool (e_next e) l
  end.

(** The first entry of a list of pointers with a property. *)
Fixpoint first_of (pool : gmap Z fs_entry) (P : fs_entry -> bool) (l : list Z) : option Z :=
  match l with
  | [] => None
  | p :: l => if from_option P false (pool !! p) then Some p else first_of pool P l
  end.

Lemma walk_first pool P fuel l p :
  linked pool p l -> (length l <= fuel)%nat -> walk fuel pool P p = Some (first_of pool P l).
Proof.
  revert l p. induction fuel as [|fuel IH]; intros [|q l] p; cbn [linked length].
  - by intros ->.
  - lia.
  - by intros ->.
  - intros (-> & e & E & Hl) Hf. cbn [walk first_of]. rewrite E. cbn.
    destruct (P e); [done|]. apply IH; [done|lia].
Qed.

Lemma scan_first pool P l :
  (forall p, p ∈ l -> is_Some (pool !! p)) -> scan_node pool P l = Some (first_of pool P l).
Proof.
  induction l as [|p l IH]; intros H; [done|]. cbn [scan_node first_of].
  destruct (H p) as [e E]; [left|]. rewrite E. cbn. destruct (P e); [done|]. apply IH. intros q Hq. apply H. by right.
Qed.

Lemma first_of_some pool P l p :
  first_of pool P l = Some p ->
  exists l1 l2 e, l = l1 ++ p :: l2 /\ pool !! p = Some e /\ P e = true /\
    (forall q e', q ∈ l1 -> pool !! q = Some e' -> P e' = false).
Proof.
  induction l as [|q l IH]; cbn; [done|]. destruct (pool !! q) as [e|] eqn:E; cbn.
  - destruct (P e) eqn:HP.
    + intros [= <-]. exists [], l, e. split_and!; [done..|]. intros ?? Hq. by apply elem_of_nil in Hq.
    + intros H. destruct (IH H) as (l1 & l2 & e' & -> & H1 & H2 & H3). exists (q :: l1), l2, e'.
      split_and!; [done..|]. intros r e'' Hr. apply elem_of_cons in Hr as [->|Hr]; [congruence|eauto].
  - intros H. destruct (IH H) as (l1 & l2 & e' & -> & H1 & H2 & H3). exists (q :: l1), l2, e'.
    split_and!; [done..|]. intros r e'' Hr. apply elem_of_cons in Hr as [->|Hr]; [congruence|eauto].
Qed.

Lemma first_of_none pool P l p e :
  first_of pool P l = None -> p ∈ l -> pool !! p = Some e -> P e = false.
Proof.
  induction l as [|q l IH]; cbn; [intros _ Hp; by apply elem_of_nil in Hp|].
  intros H Hp E. apply elem_of_cons in Hp as [->|Hp].
  - rewrite E in H. cbn in H. by destruct (P e).
  - destruct (from_option P false (pool !! q)); [done|]. by apply IH.
Qed.

Lemma linked_pool pool p l q : linked pool p l -> q ∈ l -> is_Some (pool !! q).
Proof.
  revert p. induction l as [|r l IH]; intros p; [by intros _ Hq; apply elem_of_nil in Hq|].
  cbn. intros (_ & e & E & Hl) Hq. apply elem_of_cons in Hq as [->|Hq]; [by eexists|eauto].
Qed.

(** Chains look at nothing but the [next] of their own entries. *)
Lemma linked_ext pool pool' p l :
  (forall q, q ∈ l -> e_next <$> pool' !! q = e_next <$> pool !! q) -> linked pool p l -> linked pool' p l.
Proof.
  revert p. induction l as [|q l IH]; intros p H; [done|]. cbn. intros (-> & e & E & Hl). split; [done|].
  pose proof (H q ltac:(left)) as Hq. rewrite E in Hq. destruct (pool' !! q) as [e'|]; [|done].
  injection Hq as Hq. exists e'. split; [done|]. rewrite Hq. apply IH; [|done]. intros r Hr. apply H. by right.
Qed.

Lemma linked_suffix pool p l1 l2 :
  linked pool p (l1 ++ l2) -> exists q, linked pool q l2.
Proof.
  revert p. induction l1 as [|r l1 IH]; intros p; cbn; [eauto|]. intros (_ & e & _ & Hl). eauto.
Qed.

(** ** The invariant *)

(** The index a pointer belongs to, in either table. *)
Definition name_index (e : fs_entry) : Z := hash_function_name (e_name e) mod HASH_TABLE_SIZE.
Definition handle_index (e : fs_entry) : Z := hash_function_handle (e_handle e) mod HASH_TABLE_SIZE.

(** A table whose nodes hold pointers to entries of their index only. *)
Definition table_ok (idx : fs_entry -> Z) (pool : gmap Z fs_entry) (t : gmap Z hash_node) : Prop :=
  forall i, Z.of_nat (length (node_entries (node_at t i))) <= node_capacity (node_at t i) /\
    NoDup (node_entries (node_at t i)) /\
    forall p, p ∈ node_entries (node_at t i) -> exists e, pool !! p = Some e /\ idx e = i.

(** The slots of the blocks that are not free. *)
Definition slot_used (d : fs_handles_db) (p : Z) : Prop :=
  0 <= p /\ (p < (d_blocks d - 1) * POOL_BLOCK_SIZE \/
            (d_blocks d - 1) * POOL_BLOCK_SIZE + d_free d <= p < d_blocks d * POOL_BLOCK_SIZE).

(** [l] is the list of all entries, newest first. *)
Record db_ok (d : fs_handles_db) (l : list Z) : Prop := {
  ok_list : linked (d_pool d) (d_list d) l;
  ok_nodup : NoDup l;
  ok_dom : forall p, is_Some (d_pool d !! p) -> p ∈ l;
  ok_search : exists l1 l2, l = l1 ++ l2 /\ linked (d_pool d) (d_search d) l2;
  ok_free : 0 <= d_free d <= POOL_BLOCK_SIZE /\ 0 <= d_blocks d /\ (d_blocks d = 0 -> d_free d = 0);
  ok_slots : forall p, p ∈ l -> slot_used d p;
  ok_names : table_ok name_index (d_pool d) (d_names d);
  ok_handles : table_ok handle_index (d_pool d) (d_handles d);
  ok_next : 1 <= d_next d < 2 ^ 32;
  ok_tree : forall p e, d_pool d !! p = Some e ->
    (e_handle e = 0 /\ e_parent e = 0) \/ (0 <= e_parent e < e_handle e /\ e_handle e < d_next d);
  ok_unique : forall p q e e', d_pool d !! p = Some e -> d_pool d !! q = Some e' ->
    e_handle e = e_handle e' -> e_handle e <> 0 -> p = q }.

(** With no failed allocation every entry is in both tables. *)
Definition indexed (d : fs_handles_db) : Prop :=
  forall p e, d_pool d !! p = Some e ->
    p ∈ node_entries (node_at (d_names d) (name_index e)) /\
    p ∈ node_entries (node_at (d_handles d) (handle_index e)).

Lemma init_ok n : db_ok (init_fs_db n) [].
Proof.
  split; cbn; try done.
  - apply NoDup_nil_2.
  - intros p [e E]. by rewrite lookup_empty in E.
  - by exists [], [].
  - intros p Hp. by apply elem_of_nil in Hp.
  - intros i. unfold node_at. rewrite lookup_empty. cbn.
    split_and!; [lia|apply NoDup_nil_2|]. intros p Hp. by apply elem_of_nil in Hp.
  - intros i. unfold node_at. rewrite lookup_empty. cbn.
    split_and!; [lia|apply NoDup_nil_2|]. intros p Hp. by apply elem_of_nil in Hp.
Qed.

Lemma pool_size d l : db_ok d l -> (length l <= size (d_pool d))%nat.
Proof.
  intros H. rewrite <- size_dom. rewrite <- (size_list_to_set (C := gset Z) l) by apply (ok_nodup _ _ H).
  apply subseteq_size. intros p Hp. apply elem_of_list_to_set in Hp. apply elem_of_dom.
  apply (linked_pool _ _ _ _ (ok_list _ _ H) Hp).
Qed.

(** Every walk ends, at the first entry with the property. *)
Lemma walk_list P d l l1 l2 p :
  db_ok d l -> l = l1 ++ l2 -> linked (d_pool d) p l2 ->
  walk_db P p d = Some (first_of (d_pool d) P l2).
Proof.
  intros H -> Hl. apply walk_first; [done|]. pose proof (pool_size _ _ H) as Hs. rewrite length_app in Hs. lia.
Qed.

(** ** The hash tables *)
Lemma insert_generic_spec mal node p n node' n' :
  insert_entry_generic mal node p n = (node', n') ->
  Z.of_nat (length (node_entries node)) <= node_capacity node ->
  (node_entries node' = node_entries node \/ node_entries node' = node_entries node ++ [p]) /\
  Z.of_nat (length (node_entries node')) <= node_capacity node' /\
  ((forall k, mal k = true) -> Z.of_nat (length (node_entries node)) < 2 ^ 29 ->
    node_entries node' = node_entries node ++ [p]).
Proof.
  destruct node as [l c]. unfold insert_entry_generic, init_hash_node, expand_hash_node, INITIAL_NODE_CAPACITY,
    NODE_GROWTH_FACTOR. cbn [node_entries node_capacity].
  change (0x80000000 / PTR_SIZE) with 536870912. change (2 ^ 29) with 536870912.
  intros H Hl. revert H. destruct (Z.eqb_spec c 0) as [->|Hc].
  - assert (l = []) as -> by (destruct l; [done|cbn [length] in Hl; lia]).
    destruct (mal n) eqn:M; cbn; intros [= <- <-]; cbn.
    + split_and!; [by right|lia|done].
    + split_and!; [by left|lia|]. intros Hm. by rewrite Hm in M.
  - cbn. destruct (Z.leb_spec c (Z.of_nat (length l))).
    2: { cbn. intros [= <- <-]. cbn. rewrite length_app. cbn. split_and!; [by right|lia|done]. }
    destruct (Z.leb_spec 536870912 c).
    { cbn. intros [= <- <-]. cbn. split_and!; [by left|lia|lia]. }
    destruct (mal n) eqn:M; cbn; intros [= <- <-]; cbn.
    + rewrite length_app. cbn [length]. unfold constant, u32. rewrite Z.mod_small by lia. split_and!; [by right|lia|done].
    + split_and!; [by left|lia|]. intros Hm. by rewrite Hm in M.
Qed.

Lemma node_insert t i j n : node_at (<[i := n]> t) j = if decide (i = j) then n else node_at t j.
Proof. unfold node_at. case_decide; [subst; by rewrite lookup_insert_eq|by rewrite lookup_insert_ne]. Qed.

Lemma table_insert mal idx pool t p e n node' n' :
  table_ok idx pool t -> pool !! p = Some e -> p ∉ node_entries (node_at t (idx e)) ->
  insert_entry_generic mal (node_at t (idx e)) p n = (node', n') ->
  table_ok idx pool (<[idx e := node']> t).
Proof.
  intros Ht E Hp Hi i. destruct (insert_generic_spec _ _ _ _ _ _ Hi) as (He & Hc & _); [apply Ht|].
  rewrite node_insert. case_decide as Hd; [|apply Ht]. subst i. split; [done|].
  destruct (Ht (idx e)) as (_ & Hn & Hq'). destruct He as [He|He]; rewrite He; [done|]. split.
  - apply NoDup_app. split_and!; [done| |apply NoDup_singleton].
    intros q Hq Hq2. apply list_elem_of_singleton in Hq2 as ->. done.
  - intros q Hq. apply elem_of_app in Hq as [Hq|Hq]; [by apply Hq'|].
    apply list_elem_of_singleton in Hq as ->. by exists e.
Qed.

(** The tables survive a change of the pool that keeps the index of every
    entry they hold. *)
Lemma table_pool idx pool pool' t :
  (forall p e, pool !! p = Some e -> exists e', pool' !! p = Some e' /\ idx e' = idx e) ->
  table_ok idx pool t -> table_ok idx pool' t.
Proof.
  intros H Ht i. destruct (Ht i) as (Hc & Hn & Hp). split_and!; [done..|]. intros p Hq.
  destruct (Hp p Hq) as (e & E & <-). destruct (H p e E) as (e' & E' & <-). by exists e'.
Qed.

Lemma remove_elem l p q : q ∈ remove_entry_generic l p -> q ∈ l.
Proof.
  induction l as [|r l IH]; cbn; [done|]. destruct (r =? p); intros Hq; [by right|].
  apply elem_of_cons in Hq as [->|Hq]; [left|right; auto].
Qed.
Lemma remove_other l p q : q ∈ l -> q <> p -> q ∈ remove_entry_generic l p.
Proof.
  induction l as [|r l IH]; cbn; [done|]. intros Hq Hn. destruct (Z.eqb_spec r p).
  - apply elem_of_cons in Hq as [->|Hq]; [done|done].
  - apply elem_of_cons in Hq as [->|Hq]; [left|right; auto].
Qed.
Lemma remove_length l p : (length (remove_entry_generic l p) <= length l)%nat.
Proof. induction l as [|r l IH]; cbn; [lia|]. destruct (r =? p); cbn; lia. Qed.
Lemma remove_gone l p : NoDup l -> p ∉ remove_entry_generic l p.
Proof.
  induction l as [|r l IH]; cbn; [intros _; apply not_elem_of_nil|]. intros Hn.
  apply NoDup_cons in Hn as [Hr Hn]. destruct (Z.eqb_spec r p); [by subst|].
  intros Hp. apply elem_of_cons in Hp as [->|Hp]; [done|]. by apply IH.
Qed.

Lemma remove_nodup l p : NoDup l -> NoDup (remove_entry_generic l p).
Proof.
  induction l as [|r l IH]; cbn; [done|]. intros Hn. apply NoDup_cons in Hn as [Hr Hn].
  destruct (r =? p); [done|]. apply NoDup_cons. split; [|by apply IH]. intros H. by apply remove_elem in H.
Qed.

Lemma table_remove idx pool t i p : table_ok idx pool t -> table_ok idx pool (remove_at t i p).
Proof.
  intros Ht j. unfold remove_at. rewrite node_insert. case_decide as Hd; [|apply Ht]. subst j.
  destruct (Ht i) as (Hc & Hn & Hp). destruct (node_at t i) as [ls c]. upd. split_and!.
  - pose proof (remove_length ls p). cbn in Hc. lia.
  - by apply remove_nodup.
  - intros q Hq. apply Hp. by apply remove_elem in Hq.
Qed.

(** A pointer [remove_at] took out of its node is in no node of the table. *)
Lemma removed_nowhere idx pool t p e :
  table_ok idx pool t -> pool !! p = Some e -> forall i, p ∉ node_entries (node_at (remove_at t (idx e) p) i).
Proof.
  intros Ht E i. unfold remove_at. rewrite node_insert. case_decide as Hd.
  - upd. apply remove_gone. apply Ht.
  - intros Hp. destruct (Ht i) as (_ & _ & H). destruct (H p Hp) as (e' & E' & Hi). congruence.
Qed.

(** ** One operation at a time *)

(** All but the tables. *)
Definition frame (d : fs_handles_db) :=
  (d_pool d, d_list d, d_next d, d_search d, (d_hsearch d, d_ssearch d, d_blocks d, d_free d)).

(** The pointers of a table stay, and [p] is one of them. *)
Definition extends (t t' : gmap Z hash_node) : Prop :=
  forall i q, q ∈ node_entries (node_at t i) -> q ∈ node_entries (node_at t' i).

Lemma insert_extends mal t i p n node' n' :
  Z.of_nat (length (node_entries (node_at t i))) <= node_capacity (node_at t i) ->
  insert_entry_generic mal (node_at t i) p n = (node', n') ->
  extends t (<[i := node']> t) /\
    ((forall k, mal k = true) -> Z.of_nat (length (node_entries (node_at t i))) < 2 ^ 29 ->
    p ∈ node_entries (node_at (<[i := node']> t) i)).
Proof.
  intros Hc Hi. destruct (insert_generic_spec _ _ _ _ _ _ Hi Hc) as (He & _ & Hm). split.
  - intros j q Hq. rewrite node_insert. case_decide; [subst j|done].
    destruct He as [->| ->]; [done|]. apply elem_of_app. by left.
  - intros Hmal Hl. rewrite node_insert, decide_True by done. rewrite Hm by done.
    apply elem_of_app. right. by left.
Qed.

Lemma insert_entry_spec mal p d e :
  table_ok name_index (d_pool d) (d_names d) -> table_ok handle_index (d_pool d) (d_handles d) ->
  d_pool d !! p = Some e -> (forall i, p ∉ node_entries (node_at (d_names d) i)) ->
  (forall i, p ∉ node_entries (node_at (d_handles d) i)) ->
  exists d', insert_entry mal p d = Some d' /\ frame d' = frame d /\
    table_ok name_index (d_pool d) (d_names d') /\ table_ok handle_index (d_pool d) (d_handles d') /\
    extends (d_names d) (d_names d') /\ extends (d_handles d) (d_handles d') /\
    ((forall k, mal k = true) ->
     Z.of_nat (length (node_entries (node_at (d_names d) (name_index e)))) < 2 ^ 29 ->
     Z.of_nat (length (node_entries (node_at (d_handles d) (handle_index e)))) < 2 ^ 29 ->
     p ∈ node_entries (node_at (d_names d') (name_index e)) /\
     p ∈ node_entries (node_at (d_handles d') (handle_index e))).
Proof.
  intros Tn Th E Pn Ph. unfold insert_entry. rewrite E. cbn [mbind option_bind].
  fold (name_index e) (handle_index e).
  destruct (insert_entry_generic mal (node_at (d_handles d) (handle_index e)) p (d_mallocs d)) as [nh n1] eqn:E1.
  destruct (insert_entry_generic mal (node_at (d_names d) (name_index e)) p n1) as [nn n2] eqn:E2.
  eexists. split; [reflexivity|]. split; [done|].
  destruct (insert_extends _ _ _ _ _ _ _ (proj1 (Tn _)) E2) as [X1 M1].
  destruct (insert_extends _ _ _ _ _ _ _ (proj1 (Th _)) E1) as [X2 M2].
  split_and!; upd.
  - by eapply table_insert.
  - by eapply table_insert.
  - done.
  - done.
  - intros Hm Hl1 Hl2. split; [by apply M1|by apply M2].
Qed.

(** The table next to the pool bookkeeping. *)
Definition content (d : fs_handles_db) :=
  (d_pool d, d_list d, d_names d, d_handles d, (d_next d, d_search d, d_hsearch d, d_ssearch d)).

(** What the invariant says about a table depends on its content and slots. *)
Lemma ok_content d d' l :
  db_ok d l -> content d' = content d ->
  0 <= d_free d' <= POOL_BLOCK_SIZE /\ 0 <= d_blocks d' /\ (d_blocks d' = 0 -> d_free d' = 0) ->
  (forall p, slot_used d p -> slot_used d' p) -> db_ok d' l.
Proof.
  intros [] E F S. destruct d, d'. cbn in *. injection E as -> -> -> -> -> -> -> ->. split; cbn; try done.
  intros p Hp. apply S. by apply ok_slots0.
Qed.

Lemma take_slot_spec mal d l :
  db_ok d l -> exists o d', take_slot mal d = (o, d') /\ db_ok d' l /\ content d' = content d /\
    (forall p, o = Some p -> (p ∉ l) /\ p = (d_blocks d' - 1) * POOL_BLOCK_SIZE + d_free d' /\
      0 <= d_free d' < POOL_BLOCK_SIZE /\ 1 <= d_blocks d') /\ ((forall k, mal k = true) -> o <> None).
Proof.
  intros H. pose proof (ok_free _ _ H) as (F1 & F2 & F3). pose proof (ok_slots _ _ H) as S.
  unfold take_slot, allocate_pool_block, pool_slot. destruct d as [dl dn dh dx ds dhs dss dp db df dm].
  unfold slot_used, POOL_BLOCK_SIZE in *. cbn in F1, F2, F3, S |- *.
  assert (forall d', content d' = content (mkdb dl dn dh dx ds dhs dss dp db df dm) ->
    0 <= d_free d' <= 1024 /\ 0 <= d_blocks d' /\ (d_blocks d' = 0 -> d_free d' = 0) ->
    (forall p, 0 <= p -> p < (db - 1) * 1024 \/ (db - 1) * 1024 + df <= p < db * 1024 ->
      p < (d_blocks d' - 1) * 1024 \/ (d_blocks d' - 1) * 1024 + d_free d' <= p < d_blocks d' * 1024) ->
    db_ok d' l) as G.
  { intros d' E F P. apply (ok_content _ _ _ H E F). intros p [Hp0 Hp]. split; [done|]. by apply P. }
  destruct (Z.eqb_spec df 0) as [E0|E0]; [destruct (mal dm) eqn:M|];
    (eexists _, _; split; [reflexivity|]; upd; split_and!;
      [apply G; upd; [done|lia|intros p; lia]|done| |]); upd.
  - intros p [= <-]. split; [|lia]. intros Hp. specialize (S _ Hp). lia.
  - done.
  - done.
  - intros Hm. by rewrite Hm in M.
  - intros p [= <-]. split; [|lia]. intros Hp. specialize (S _ Hp). lia.
  - done.
Qed.

(** ** Linking a new entry *)
Lemma node_small idx pool t l i :
  table_ok idx pool t -> (forall p, is_Some (pool !! p) -> p ∈ l) -> Z.of_nat (length l) < 2 ^ 29 ->
  Z.of_nat (length (node_entries (node_at t i))) < 2 ^ 29.
Proof.
  intros Ht Hd Hl. destruct (Ht i) as (_ & Hn & Hp).
  assert (length (node_entries (node_at t i)) <= length l)%nat; [|lia].
  apply submseteq_length, NoDup_submseteq; [done|]. intros p Hq. apply Hd.
  destruct (Hp p Hq) as (e & E & _). by exists e.
Qed.

(** The pool after a new entry: the old entries, and [p]. *)
Lemma pool_cons (pool : gmap Z fs_entry) p e q e1 :
  <[p := e]> pool !! q = Some e1 -> (q = p /\ e1 = e) \/ (q <> p /\ pool !! q = Some e1).
Proof.
  destruct (decide (q = p)) as [->|Hq].
  - rewrite lookup_insert_eq. intros [= <-]. by left.
  - rewrite lookup_insert_ne by done. by right.
Qed.

Lemma table_cons idx (pool : gmap Z fs_entry) t p e e' :
  table_ok idx (<[p := e]> pool) t -> (idx e' : Z) = idx e -> table_ok idx (<[p := e']> pool) t.
Proof.
  intros T E. apply (table_pool idx (<[p := e]> pool)); [|done]. intros q e1 [[-> ->]|[Hq E1]]%pool_cons.
  - exists e'. by rewrite lookup_insert_eq.
  - exists e1. by rewrite lookup_insert_ne.
Qed.

Lemma link_ok mal p e d l :
  db_ok d l -> p ∉ l -> slot_used d p ->
  (e_handle e = 0 /\ e_parent e = 0) \/ (0 <= e_parent e < e_handle e /\ e_handle e < d_next d) ->
  (forall q e', d_pool d !! q = Some e' -> e_handle e' = e_handle e -> e_handle e = 0) ->
  exists d', link_entry mal p e d = Some d' /\ db_ok d' (p :: l) /\
    d_pool d' = <[p := e {{ e_next := d_list d }}]> (d_pool d) /\ d_next d' = d_next d /\
    ((forall k, mal k = true) -> Z.of_nat (length l) < 2 ^ 29 -> indexed d -> indexed d').
Proof.
  intros H Hp Hs Ht Hu. unfold link_entry.
  assert (d_pool d !! p = None) as Efree.
  { destruct (d_pool d !! p) eqn:E; [|done]. destruct Hp. apply (ok_dom _ _ H). by eexists. }
  assert (forall idx t, table_ok idx (d_pool d) t ->
    table_ok idx (<[p := e]> (d_pool d)) t /\ forall i, p ∉ node_entries (node_at t i)) as Hold.
  { intros idx t T. split.
    - apply (table_pool _ (d_pool d)); [|done]. intros q e1 E1. exists e1. split; [|done].
      rewrite lookup_insert_ne by congruence. done.
    - intros i Hi. destruct (T i) as (_ & _ & G). destruct (G p Hi) as (e' & E' & _). congruence. }
  destruct (Hold _ _ (ok_names _ _ H)) as [Tn Pn]. destruct (Hold _ _ (ok_handles _ _ H)) as [Th Ph].
  destruct (insert_entry_spec mal p (d {{ d_pool := <[p := e]> (d_pool d) }}) e) as (d2 & E2 & Fr & T1 & T2 & X1 & X2 & M);
    [exact Tn|exact Th|exact (lookup_insert_eq _ _ _)|exact Pn|exact Ph|].
  rewrite E2. cbn [mbind option_bind]. eexists. split; [reflexivity|]. clear E2 Hold Tn Th Pn Ph.
  pose proof (fun idx t i T => node_small idx (d_pool d) t l i T (ok_dom _ _ H)) as Small.
  destruct H as [Hl Hn Hd Hse Hf Hsl Hna Hha Hx Htr Hun].
  destruct d as [dl dn dh dx ds dhs dss dp db df dm], d2 as [dl2 dn2 dh2 dx2 ds2 dhs2 dss2 dp2 db2 df2 dm2],
    e as [h par st nm fl sz fd wd nx].
  injection Fr as -> -> -> -> -> -> -> ->.
  revert Hl Hd Hse Hf Hsl Hna Hha Hx Htr Hun Hs Ht Hu Efree T1 T2 X1 X2 M Small. upd.
  intros Hl Hd Hse Hf Hsl Hna Hha Hx Htr Hun Hs Ht Hu Efree T1 T2 X1 X2 M Small.
  rewrite insert_insert_eq. set (e' := mkentry h par st nm fl sz fd wd dl).
  assert (forall q k, linked dp k q -> (forall r, r ∈ q -> r ∈ l) -> linked (<[p := e']> dp) k q) as Hlk.
  { intros q k Hk Hin. apply (linked_ext dp); [|done]. intros r Hr. rewrite lookup_insert_ne; [done|].
    intros <-. by apply Hp, Hin. }
  split_and!; [|done|done|].
  - split; upd.
    + split; [done|]. exists e'. rewrite lookup_insert_eq. split; [done|]. by apply Hlk.
    + by apply NoDup_cons.
    + intros q [e1 [[-> _]|[Hq E1]]%pool_cons]; [left|]. right. apply Hd. by eexists.
    + destruct Hse as (l1 & l2 & -> & Hl2). exists (p :: l1), l2. split; [done|]. apply Hlk; [done|].
      intros r Hr. apply elem_of_app. by right.
    + done.
    + intros q Hq. apply elem_of_cons in Hq as [->|Hq]; [done|]. by apply Hsl.
    + eapply table_cons; [exact T1|done].
    + eapply table_cons; [exact T2|done].
    + done.
    + intros q e1 [[-> ->]|[Hq E1]]%pool_cons; [done|by apply (Htr q)].
    + intros q r e1 e2 [[-> ->]|[Hq E1]]%pool_cons [[-> ->]|[Hr E3]]%pool_cons Eh Hz; [done|..].
      * destruct Hz. by apply (Hu r e2).
      * destruct Hz. rewrite Eh. by apply (Hu q e1).
      * by apply (Hun q r e1 e2).
  - intros Hm Hsm Hi q e1. upd. intros [[-> ->]|[Hq E1]]%pool_cons.
    + apply M; [done|by apply (Small name_index)|by apply (Small handle_index)].
    + destruct (Hi q e1 E1). split; [by apply X1|by apply X2].
Qed.

(** ** Allocation *)
Lemma indexed_content d d' : content d' = content d -> indexed d -> indexed d'.
Proof. destruct d, d'. unfold indexed. cbn. by intros [= -> -> -> -> -> -> -> ->]. Qed.

(** A larger [next_handle] and a different allocation count. *)
Lemma ok_next_up d l n m :
  db_ok d l -> d_next d <= n < 2 ^ 32 -> db_ok (d {{ d_next := n; d_mallocs := m }}) l.
Proof.
  intros [Hl Hn Hd Hse Hf Hsl Hna Hha Hx Htr Hun] Hle. destruct d. unfold slot_used in *. upd. cbn in *.
  split; cbn; try done; [lia|]. intros p e E. destruct (Htr p e E); [by left|right; lia].
Qed.

Definition new_entry (f : filefoundinfo) (handle parent storage_id : Z) (next : option Z) : fs_entry :=
  {| e_handle := handle; e_parent := parent; e_storage := storage_id; e_name := f_filename f;
     e_flags := if f_isdirectory f then ENTRY_IS_DIR else 0; e_size := f_size f; e_fd := 0; e_wd := -1;
     e_next := next |}.

Lemma handles_below d l q e : db_ok d l -> d_pool d !! q = Some e -> 0 <= e_handle e < d_next d.
Proof. intros H E. pose proof (ok_next _ _ H). destruct (ok_tree _ _ H q e E); lia. Qed.

Lemma slot_taken d p : p = (d_blocks d - 1) * POOL_BLOCK_SIZE + d_free d ->
  0 <= d_free d < POOL_BLOCK_SIZE -> 1 <= d_blocks d -> slot_used d p.
Proof. unfold slot_used, POOL_BLOCK_SIZE. lia. Qed.

(** [alloc_entry] gives the slot back when [strdup] fails. *)
Lemma slot_back d l p m :
  db_ok d l -> p ∉ l -> p = (d_blocks d - 1) * POOL_BLOCK_SIZE + d_free d ->
  0 <= d_free d < POOL_BLOCK_SIZE -> 1 <= d_blocks d ->
  db_ok (d {{ d_free := d_free d + 1; d_mallocs := m }}) l.
Proof.
  intros [Hl Hn Hd Hse Hf Hsl Hna Hha Hx Htr Hun] Hp Ep Hf' Hb. destruct d. unfold slot_used in *. upd. cbn in *.
  split; cbn; try done; [lia|]. intros q Hq. unfold slot_used. cbn.
  assert (q <> p) by (by intros ->). specialize (Hsl q Hq). lia.
Qed.

Lemma alloc_entry_spec mal f parent st d l :
  db_ok d l -> d_next d + 1 < 2 ^ 32 -> 0 <= parent < d_next d ->
  exists o d', alloc_entry mal f parent st d = Some (o, d') /\
    match o with
    | None => db_ok d' l /\ content d' = content d /\ ~ (forall k, mal k = true)
    | Some p => (p ∉ l) /\ db_ok d' (p :: l) /\ d_next d' = d_next d + 1 /\
        d_pool d' = <[p := new_entry f (d_next d) parent st (d_list d)]> (d_pool d) /\
        ((forall k, mal k = true) -> Z.of_nat (length l) < 2 ^ 29 -> indexed d -> indexed d')
    end.
Proof.
  intros H Hn Hpar. destruct (take_slot_spec mal d l H) as (o & d1 & E1 & H1 & C1 & Hp & Hm).
  unfold alloc_entry. rewrite E1. destruct o as [p|].
  2: { eexists None, d1. split_and!; [done..|]. by intros ?%Hm. }
  destruct (Hp p eq_refl) as (Hin & Hslot & Hf & Hb).
  destruct (mal (d_mallocs d1)) eqn:M.
  2: { eexists None, _. split; [reflexivity|]. split_and!; [by apply (slot_back _ _ p)|by destruct d1|].
       intros G. by rewrite G in M. }
  pose proof (indexed_content _ _ C1) as Hix. injection C1 as C1 C2 C3 C4 C5 C6 C7 C8. rewrite <- C5 in *.
  assert (u32 (d_next d1 + 1) = d_next d1 + 1) as Eu.
  { pose proof (ok_next _ _ H1). unfold u32. apply Z.mod_small. lia. }
  rewrite Eu. set (e := mkentry _ _ _ _ _ _ _ _ _).
  destruct (link_ok mal p e (d1 {{ d_next := d_next d1 + 1; d_mallocs := S (d_mallocs d1) }}) l)
    as (d' & E & H' & P' & N' & I').
  - apply ok_next_up; [done|lia].
  - done.
  - pose proof (slot_taken _ _ Hslot Hf Hb). by destruct d1.
  - right. upd. lia.
  - intros q e' E Eh. cbn in Eh. pose proof (handles_below d1 l q e' H1). destruct d1. cbn in *.
    specialize (H0 E). lia.
  - eexists (Some p), d'. split; [by rewrite E|]. split_and!; [done|done|by destruct d1| |].
    + rewrite P'. destruct d1. cbn in *. by rewrite C1, C2.
    + intros Hmal Hsm Hi. apply I'; [done..|]. apply Hix in Hi. destruct d1. exact Hi.
Qed.

Lemma alloc_root_spec mal st d l :
  db_ok d l -> exists o d', alloc_root_entry mal st d = Some (o, d') /\
    match o with
    | None => db_ok d' l /\ content d' = content d /\ ~ (forall k, mal k = true)
    | Some p => (p ∉ l) /\ db_ok d' (p :: l) /\ d_next d' = d_next d /\
        d_pool d' = <[p := mkentry 0 0 st [47] ENTRY_IS_DIR 1 0 (-1) (d_list d)]> (d_pool d) /\
        ((forall k, mal k = true) -> Z.of_nat (length l) < 2 ^ 29 -> indexed d -> indexed d')
    end.
Proof.
  intros H. destruct (take_slot_spec mal d l H) as (o & d1 & E1 & H1 & C1 & Hp & Hm).
  unfold alloc_root_entry. rewrite E1. destruct o as [p|].
  2: { eexists None, d1. split_and!; [done..|]. by intros ?%Hm. }
  destruct (Hp p eq_refl) as (Hin & Hslot & Hf & Hb). pose proof (ok_next _ _ H1) as Hn1.
  destruct (mal (d_mallocs d1)) eqn:M.
  2: { eexists None, _. split; [reflexivity|]. split_and!; [|by destruct d1|].
       - pose proof (ok_next_up d1 l (d_next d1) (S (d_mallocs d1)) H1 ltac:(lia)). by destruct d1.
       - intros G. by rewrite G in M. }
  pose proof (indexed_content _ _ C1) as Hix. injection C1 as C1 C2 C3 C4 C5 C6 C7 C8.
  set (e := mkentry _ _ _ _ _ _ _ _ _).
  destruct (link_ok mal p e (d1 {{ d_mallocs := S (d_mallocs d1) }}) l) as (d' & E & H' & P' & N' & I').
  - pose proof (ok_next_up d1 l (d_next d1) (S (d_mallocs d1)) H1 ltac:(lia)). by destruct d1.
  - done.
  - pose proof (slot_taken _ _ Hslot Hf Hb). by destruct d1.
  - by left.
  - done.
  - eexists (Some p), d'. split; [by rewrite E|]. split_and!; [done|done|destruct d1; cbn in *; congruence| |].
    + rewrite P'. destruct d1. cbn in *. by rewrite C1, C2.
    + intros Hmal Hsm Hi. apply I'; [done..|]. apply Hix in Hi. destruct d1. exact Hi.
Qed.

(** ** Changing an entry *)
Lemma linked_update pool p e e' k q :
  pool !! p = Some e -> e_next e' = e_next e -> linked pool k q -> linked (<[p := e']> pool) k q.
Proof.
  intros E En. apply linked_ext. intros r Hr. destruct (decide (r = p)) as [->|].
  - rewrite lookup_insert_eq, E. cbn. congruence.
  - by rewrite lookup_insert_ne.
Qed.

Lemma table_update idx (pool : gmap Z fs_entry) t p e e' :
  pool !! p = Some e -> (idx e' : Z) = idx e -> table_ok idx pool t -> table_ok idx (<[p := e']> pool) t.
Proof.
  intros E Ei. apply table_pool. intros q e1 E1. destruct (decide (q = p)) as [->|].
  - exists e'. rewrite lookup_insert_eq. split; [done|]. congruence.
  - exists e1. by rewrite lookup_insert_ne.
Qed.

(** What a change of an entry must leave alone. *)
Definition same_node (e e' : fs_entry) : Prop :=
  e_handle e' = e_handle e /\ e_parent e' = e_parent e /\ e_next e' = e_next e.

(** The parts of the invariant next to the tables. *)
Lemma ok_update_pool d l p e e' names handles m :
  db_ok d l -> d_pool d !! p = Some e -> same_node e e' ->
  table_ok name_index (<[p := e']> (d_pool d)) names ->
  table_ok handle_index (<[p := e']> (d_pool d)) handles ->
  db_ok (d {{ d_pool := <[p := e']> (d_pool d); d_names := names; d_handles := handles; d_mallocs := m }}) l.
Proof.
  intros [Hl Hn Hd Hse Hf Hsl Hna Hha Hx Htr Hun] E (Eh & Ep & En) T1 T2. destruct d.
  unfold slot_used in *. upd. cbn in *.
  assert (forall q e1, <[p := e']> d_pool !! q = Some e1 ->
    exists e0, d_pool !! q = Some e0 /\ e_handle e1 = e_handle e0 /\ e_parent e1 = e_parent e0) as Hold.
  { intros q e1 [[-> ->]|[Hq E1]]%pool_cons; eauto. }
  split; cbn; try done.
  - eapply linked_update; eauto.
  - intros q [e1 (e0 & E0 & _)%Hold]. apply Hd. by eexists.
  - destruct Hse as (l1 & l2 & -> & Hl2). exists l1, l2. split; [done|]. eapply linked_update; eauto.
  - intros q e1 (e0 & E0 & -> & ->)%Hold. by apply (Htr q).
  - intros q r e1 e2 (e0 & E0 & -> & _)%Hold (e3 & E3 & -> & _)%Hold. by apply Hun.
Qed.

Lemma upd_entry_ok d l p g :
  db_ok d l -> is_Some (d_pool d !! p) ->
  (forall e, d_pool d !! p = Some e -> same_node e (g e) /\ e_name (g e) = e_name e) ->
  exists d', upd_entry g p d = Some d' /\ db_ok d' l /\ (indexed d -> indexed d').
Proof.
  intros H [e E] Hg. destruct (Hg e E) as [Hs Hname]. unfold upd_entry. rewrite E. cbn [mbind option_bind].
  eexists. split; [reflexivity|]. destruct Hs as (Eh & Ep & En).
  assert (name_index (g e) = name_index e) as Ei by (unfold name_index; by rewrite Hname).
  assert (handle_index (g e) = handle_index e) as Ej by (unfold handle_index; by rewrite Eh). split.
  - pose proof (ok_update_pool d l p e (g e) (d_names d) (d_handles d) (d_mallocs d) H E) as G.
    destruct d. apply G; [done| |].
    + by eapply table_update; [|done|apply (ok_names _ _ H)].
    + by eapply table_update; [|done|apply (ok_handles _ _ H)].
  - intros Hi. destruct d. unfold indexed in *. upd. cbn in *.
    intros q e1 [[-> ->]|[Hq E1]]%pool_cons; [rewrite Ei, Ej|]; by apply Hi.
Qed.

Lemma table_absent idx (pool : gmap Z fs_entry) t p e' :
  table_ok idx pool t -> (forall i, p ∉ node_entries (node_at t i)) -> table_ok idx (<[p := e']> pool) t.
Proof.
  intros T Hp i. destruct (T i) as (Hc & Hn & Hq). split_and!; [done..|]. intros q Hqi.
  destruct (Hq q Hqi) as (e1 & E1 & Hi). exists e1. split; [|done]. rewrite lookup_insert_ne; [done|].
  intros <-. by apply (Hp i).
Qed.

Lemma remove_at_keeps t i p j q :
  q <> p -> q ∈ node_entries (node_at t j) -> q ∈ node_entries (node_at (remove_at t i p) j).
Proof.
  intros Hq Hin. unfold remove_at. rewrite node_insert. case_decide as Hd; [|done]. subst j. upd.
  by apply remove_other.
Qed.

Lemma rename_ok mal p new d l :
  db_ok d l -> is_Some (d_pool d !! p) ->
  exists d', rename_entry mal p new d = Some d' /\ db_ok d' l /\
    ((forall k, mal k = true) -> Z.of_nat (length l) < 2 ^ 29 -> indexed d -> indexed d').
Proof.
  intros H [e E]. unfold rename_entry, remove_entry. rewrite E. cbn [mbind option_bind].
  fold (name_index e) (handle_index e).
  set (tn := remove_at (d_names d) (name_index e) p). set (th := remove_at (d_handles d) (handle_index e) p).
  pose proof (removed_nowhere name_index _ _ p e (ok_names _ _ H) E) as Nn.
  pose proof (removed_nowhere handle_index _ _ p e (ok_handles _ _ H) E) as Nh.
  pose proof (table_remove name_index _ _ (name_index e) p (ok_names _ _ H)) as Tn.
  pose proof (table_remove handle_index _ _ (handle_index e) p (ok_handles _ _ H)) as Th.
  fold tn in Nn, Tn. fold th in Nh, Th.
  set (e' := mkentry (e_handle e) (e_parent e) (e_storage e) new (e_flags e) (e_size e) (e_fd e) (e_wd e) (e_next e)).
  set (d1 := d {{ d_pool := <[p := e']> (d_pool d); d_names := tn; d_handles := th }}).
  match goal with |- context [upd_entry ?g p ?d0] => assert (upd_entry g p d0 = Some d1) as -> end.
  { unfold upd_entry, d1. destruct d. upd. cbn in E |- *. rewrite E. by destruct e. }
  cbn [mbind option_bind].
  pose proof (table_absent _ _ _ p e' Tn Nn) as Tn'. pose proof (table_absent _ _ _ p e' Th Nh) as Th'.
  destruct (insert_entry_spec mal p d1 e') as (d2 & E2 & Fr & T1 & T2 & X1 & X2 & M);
    [by destruct d|by destruct d|unfold d1; destruct d; apply lookup_insert_eq|by destruct d|by destruct d|].
  exists d2. split; [done|]. split.
  - pose proof (ok_update_pool d l p e e' (d_names d2) (d_handles d2) (d_mallocs d2) H E) as G.
    destruct d, d2. injection Fr as -> -> -> -> -> -> -> ->. apply G; [by destruct e|done|done].
  - intros Hm Hl Hi.
    pose proof (node_small _ _ _ l (name_index e') (table_remove _ _ _ (name_index e) p (ok_names _ _ H)) (ok_dom _ _ H) Hl) as S1.
    pose proof (node_small _ _ _ l (handle_index e') (table_remove _ _ _ (handle_index e) p (ok_handles _ _ H)) (ok_dom _ _ H) Hl) as S2.
    fold tn in S1. fold th in S2. destruct d, d2. injection Fr as -> -> -> -> -> -> -> ->.
    intros q e1. cbn. intros [[-> ->]|[Hq E1]]%pool_cons; [by apply M|].
    destruct (Hi q e1 E1) as [I1 I2]. split; [apply X1|apply X2]; by apply remove_at_keeps.
Qed.
