(* ===== verification/MtpTable.v ===== *)
(** * What the object table guarantees

    The table under any sequence of operations, and each search and insertion
    against the set of live entries. *)

From S2P Require Import Prelude CString MtpHash MtpDb.

(** ** Reachable tables *)

(** The changes callers make: objects and roots are added, entries are
    deleted, resized, opened, watched and renamed, and children enumerated. *)
Inductive db_op :=
  | AddObject (f : filefoundinfo) (parent storage_id : Z)
  | AddRoot (storage_id : Z)
  | Delete (p : Z)
  | Resize (p size : Z)
  | SetDescriptor (p fd : Z)
  | SetWatch (p wd : Z)
  | Rename (p : Z) (new_filename : list Z)
  | StartSearch (parent storage_id : Z)
  | NextChild.

Definition run_op (mal : nat -> bool) (op : db_op) (d : fs_handles_db) : option fs_handles_db :=
  match op with
  | AddObject f parent st => snd <$> add_entry mal f parent st d
  | AddRoot st => snd <$> alloc_root_entry mal st d
  | Delete p => upd_entry mark_deleted p d
  | Resize p sz => upd_entry (fun e => e {{ e_size := sz }}) p d
  | SetDescriptor p fd => upd_entry (fun e => e {{ e_fd := fd }}) p d
  | SetWatch p wd => upd_entry (fun e => e {{ e_wd := wd }}) p d
  | Rename p name => rename_entry mal p name d
  | StartSearch parent st => Some (init_search_handle parent st d)
  | NextChild => snd <$> get_next_child_handle d
  end.

(** Callers pass entries of the table; a new object's parent is the root or an
    object; handles are not exhausted. *)
Definition op_allowed (op : db_op) (d : fs_handles_db) : Prop :=
  match op with
  | AddObject _ parent _ =>
      d_next d + 1 < 2 ^ 32 /\ (parent = 0 \/ exists p e, d_pool d !! p = Some e /\ e_handle e = parent)
  | Delete p | Resize p _ | SetDescriptor p _ | SetWatch p _ | Rename p _ => is_Some (d_pool d !! p)
  | AddRoot _ | StartSearch _ _ | NextChild => True
  end.

Inductive reachable (mal : nat -> bool) : fs_handles_db -> Prop :=
  | reach_init n : reachable mal (init_fs_db n)
  | reach_step d op d' : reachable mal d -> op_allowed op d -> run_op mal op d = Some d' -> reachable mal d'.

Lemma search_entry_first f parent st d l :
  db_ok d l -> search_entry f parent st d =
    Some (first_of (d_pool d) (named (f_filename f) parent st)
            (node_entries (node_at (d_names d) (hash_function_name (f_filename f) mod HASH_TABLE_SIZE)))).
Proof.
  intros H. apply scan_first. intros p Hp.
  destruct (ok_names _ _ H (hash_function_name (f_filename f) mod HASH_TABLE_SIZE)) as (_ & _ & G).
  destruct (G p Hp) as (e & E & _). by exists e.
Qed.

Lemma search_ok parent st d l : db_ok d l -> db_ok (init_search_handle parent st d) l.
Proof. intros []. destruct d. split; cbn in *; try done. by exists [], l. Qed.

(** The enumeration goes on behind the child it returns. *)
Lemma next_child_ok d l l1 l2 :
  db_ok d l -> l = l1 ++ l2 -> linked (d_pool d) (d_search d) l2 ->
  exists o d', get_next_child_handle d = Some (o, d') /\ db_ok d' l /\
    content (d' {{ d_search := d_search d }}) = content d /\
    o = first_of (d_pool d) (child_of (d_hsearch d) (d_ssearch d)) l2 /\
    match o with
    | Some p => exists l3 l4, l2 = l3 ++ p :: l4 /\ linked (d_pool d) (d_search d') l4 /\
        (forall q, q ∈ l3 -> from_option (child_of (d_hsearch d) (d_ssearch d)) false (d_pool d !! q) = false)
    | None => d_search d' = None
    end.
Proof.
  intros H El Hl2. unfold get_next_child_handle. rewrite (walk_list _ d l l1 l2) by done.
  cbn [mbind option_bind].
  destruct (first_of (d_pool d) (child_of (d_hsearch d) (d_ssearch d)) l2) as [p|] eqn:F.
  - destruct (first_of_some _ _ _ _ F) as (l3 & l4 & e & E2 & E & Pe & Hno). rewrite E. cbn [mbind option_bind].
    assert (linked (d_pool d) (e_next e) l4) as Hl4.
    { rewrite E2 in Hl2. apply linked_suffix in Hl2 as (q & Eq & e' & E' & Hl4). congruence. }
    eexists (Some p), _. split; [reflexivity|]. split_and!.
    + destruct H. destruct d. split; cbn in *; try done. exists (l1 ++ l3 ++ [p]), l4. split; [|done].
      rewrite El, E2, <- !app_assoc. done.
    + by destruct d.
    + done.
    + exists l3, l4. split_and!; [done|by destruct d|]. intros q Hq.
      destruct (d_pool d !! q) as [eq|] eqn:Eq; [|done]. by apply (Hno q eq).
  - eexists None, _. split; [reflexivity|]. split_and!; [|by destruct d|done|done].
    destruct H. destruct d. split; cbn in *; try done. exists l, []. by rewrite app_nil_r.
Qed.

Definition allocating (mal : nat -> bool) (d : fs_handles_db) (l : list Z) (d' : fs_handles_db) : Prop :=
  (forall k, mal k = true) -> Z.of_nat (length l) < 2 ^ 29 -> indexed d -> indexed d'.

Lemma run_op_ok mal op d l :
  db_ok d l -> op_allowed op d ->
  exists d' l', run_op mal op d = Some d' /\ db_ok d' l' /\ (l' = l \/ exists p, l' = p :: l) /\ allocating mal d l d'.
Proof.
  intros H Ha.
  assert (forall g p, is_Some (d_pool d !! p) ->
    (forall e, d_pool d !! p = Some e -> same_node e (g e) /\ e_name (g e) = e_name e) ->
    exists d' l', upd_entry g p d = Some d' /\ db_ok d' l' /\ (l' = l \/ exists p, l' = p :: l) /\
      allocating mal d l d') as U.
  { intros g p Hp Hg. destruct (upd_entry_ok d l p g H Hp Hg) as (d' & E & H' & I). exists d', l.
    split_and!; [done|done|by left|by intros _ _]. }
  destruct op as [f parent st|st|p|p sz|p fd|p wd|p name|parent st|]; cbn [run_op op_allowed] in *;
    try (apply U; [done|]; intros e _; by destruct e).
  - unfold add_entry. rewrite (search_entry_first f parent st d l H). cbn [mbind option_bind].
    destruct (first_of _ _ _) as [p|]; [exists d, l; split_and!; [done|done|by left|by intros _ _]|].
    destruct Ha as [Hn Hp]. destruct (alloc_entry_spec mal f parent st d l H Hn) as (o & d' & E & Ho).
    { pose proof (ok_next _ _ H). destruct Hp as [->|(p & e & E & <-)]; [lia|]. by apply (handles_below d l p). }
    rewrite E. destruct o as [p|].
    + destruct Ho as (Hin & H' & _ & _ & I). exists d', (p :: l). split_and!; [done|done|right; eauto|done].
    + destruct Ho as (H' & _ & Hm). exists d', l. split_and!; [done|done|by left|by intros ?].
  - destruct (alloc_root_spec mal st d l H) as (o & d' & E & Ho). rewrite E. destruct o as [p|].
    + destruct Ho as (Hin & H' & _ & _ & I). exists d', (p :: l). split_and!; [done|done|right; eauto|done].
    + destruct Ho as (H' & _ & Hm). exists d', l. split_and!; [done|done|by left|by intros ?].
  - destruct (rename_ok mal p name d l H Ha) as (d' & E & H' & I). exists d', l. split_and!; [done|done|by left|done].
  - exists (init_search_handle parent st d), l. split_and!; [done|by apply search_ok|by left|].
    intros _ _. by destruct d.
  - destruct (ok_search _ _ H) as (l1 & l2 & El & Hl2).
    destruct (next_child_ok d l l1 l2 H El Hl2) as (o & d' & E & H' & C & _). rewrite E. exists d', l.
    split_and!; [done|done|by left|]. intros _ _. destruct d, d'. unfold indexed. cbn in *. by injection C as -> -> -> -> -> -> ->.
Qed.

Lemma reachable_ok mal d :
  reachable mal d -> exists l, db_ok d l /\
    ((forall k, mal k = true) -> Z.of_nat (length l) < 2 ^ 29 -> indexed d).
Proof.
  induction 1 as [n|d op d' _ (l & H & I) Ha E].
  - exists []. split; [apply init_ok|]. intros _ _ p e E. unfold init_fs_db in E. cbn in E. by rewrite lookup_empty in E.
  - destruct (run_op_ok mal op d l H Ha) as (d1 & l' & E1 & H' & Hl & G).
    assert (d1 = d') as -> by congruence. exists l'. split; [done|]. intros Hm Hs.
    assert (Z.of_nat (length l) < 2 ^ 29) as Hs' by (destruct Hl as [->|[p ->]]; [done|cbn [length] in Hs; lia]).
    apply G; [done..|]. by apply I.
Qed.

(** C3: the object table is safe in every reachable state.  Whatever is added,
    deleted, renamed and searched, and whichever allocations fail: the list of
    entries is finite, without repetition, and holds every entry; object
    handles are unique and larger than their parent's, so paths to the root
    end; and no operation follows a dangling pointer or walks for ever. *)
Theorem table_safe mal d :
  reachable mal d ->
  (exists l, linked (d_pool d) (d_list d) l /\ NoDup l /\ forall p, is_Some (d_pool d !! p) <-> p ∈ l) /\
  (forall p q e e', d_pool d !! p = Some e -> d_pool d !! q = Some e' ->
     e_handle e = e_handle e' -> e_handle e <> 0 -> p = q) /\
  (forall p e, d_pool d !! p = Some e -> e_handle e <> 0 -> e_parent e < e_handle e) /\
  (forall op, op_allowed op d -> is_Some (run_op mal op d)).
Proof.
  intros (l & H & _)%reachable_ok. split_and!.
  - exists l. split_and!; [apply (ok_list _ _ H)|apply (ok_nodup _ _ H)|]. intros p. split; [apply (ok_dom _ _ H)|].
    apply (linked_pool _ _ _ _ (ok_list _ _ H)).
  - apply (ok_unique _ _ H).
  - intros p e E Hh. destruct (ok_tree _ _ H p e E) as [[Hz _]|[? ?]]; [done|lia].
  - intros op Ha. destruct (run_op_ok mal op d l H Ha) as (d' & _ & E & _). by exists d'.
Qed.

(** A table with a root and one folder in it. *)
Definition demo_ops : list db_op :=
  [AddRoot 0xFFFF0001; AddObject (mkfound true [98] 0) 0 0xFFFF0001; AddObject (mkfound false [99] 5) 1 0xFFFF0001;
   Delete 1021; Rename 1022 [100]; StartSearch 0 0xFFFF0001; NextChild].
Definition always (_ : nat) : bool := true.
Definition demo_db : option fs_handles_db := foldM (fun d op => run_op always op d) demo_ops (init_fs_db 0).

Fixpoint ok_ops (mal : nat -> bool) (ops : list db_op) (d : fs_handles_db) : Prop :=
  match ops with
  | [] => True
  | op :: ops => op_allowed op d /\ from_option (ok_ops mal ops) False (run_op mal op d)
  end.

Lemma reach_ops mal ops d :
  reachable mal d -> ok_ops mal ops d ->
  exists d', foldM (fun d op => run_op mal op d) ops d = Some d' /\ reachable mal d'.
Proof.
  revert d. induction ops as [|op ops IH]; intros d Hr; cbn [ok_ops foldM]; [eauto|].
  intros [Ha Ho]. destruct (run_op mal op d) as [d1|] eqn:E; [|done]. apply IH; [|done]. by eapply reach_step.
Qed.

Lemma demo_reachable : exists d, demo_db = Some d /\ reachable always d.
Proof.
  apply (reach_ops always demo_ops (init_fs_db 0)); [constructor|].
  vm_compute. repeat split; try (by left); try (by eexists); try (intros ?; discriminate).
  right. exists 1022. eexists. split; reflexivity.
Qed.

Lemma table_safe_witness : exists d, demo_db = Some d /\ is_Some (run_op always NextChild d).
Proof.
  destruct demo_reachable as (d & E & R). exists d. split; [exact E|].
  apply (table_safe always d R). exact I.
Defined.

(** ** Searches against the live entries *)

(** [p] is a live entry for the name in the folder. *)
Definition live_at (d : fs_handles_db) (name : list Z) (parent storage_id p : Z) : Prop :=
  exists e, d_pool d !! p = Some e /\ named name parent storage_id e = true.

Lemma named_spec name parent st e : named name parent st e = true ->
  e_name e = name /\ e_parent e = parent /\ e_storage e = st /\ live e = true.
Proof. unfold named. intros. bprop. rewrite streq_spec in *. done. Qed.

Lemma search_exact f parent st d l :
  db_ok d l -> indexed d ->
  exists o, search_entry f parent st d = Some o /\
    match o with
    | Some p => live_at d (f_filename f) parent st p
    | None => forall p, ~ live_at d (f_filename f) parent st p
    end.
Proof.
  intros H Hi. rewrite (search_entry_first f parent st d l H). eexists. split; [reflexivity|].
  destruct (first_of _ _ _) as [p|] eqn:F.
  - destruct (first_of_some _ _ _ _ F) as (_ & _ & e & _ & E & He & _). by exists e.
  - intros p (e & E & He). destruct (named_spec _ _ _ _ He) as (En & _).
    destruct (Hi p e E) as [Hin _]. unfold name_index in Hin. rewrite En in Hin.
    rewrite (first_of_none _ _ _ _ _ F Hin E) in He. done.
Qed.

Lemma new_entry_live f h parent st n : live (new_entry f h parent st n) = true.
Proof. unfold live, flagged, new_entry, ENTRY_IS_DIR, ENTRY_IS_DELETED. cbn. by destruct (f_isdirectory f). Qed.

Lemma by_handle_first root_of h d l :
  db_ok d l -> get_entry_by_handle root_of h d =
    Some (first_of (d_pool d)
      (fun e => live e && (e_handle e =? h) && match root_of (e_storage e) with Some _ => true | None => false end)
      (node_entries (node_at (d_handles d) (hash_function_handle h mod HASH_TABLE_SIZE)))).
Proof.
  intros H. apply scan_first. intros p Hp.
  destruct (ok_handles _ _ H (hash_function_handle h mod HASH_TABLE_SIZE)) as (_ & _ & G).
  destruct (G p Hp) as (e & E & _). by exists e.
Qed.

(** A live object is found by its handle. *)
Lemma by_handle_exact root_of d l p e :
  db_ok d l -> indexed d -> d_pool d !! p = Some e -> live e = true -> e_handle e <> 0 ->
  root_of (e_storage e) <> None -> get_entry_by_handle root_of (e_handle e) d = Some (Some p).
Proof.
  intros H Hi E Hl Hh Hr. rewrite (by_handle_first root_of _ d l H). f_equal.
  destruct (Hi p e E) as [_ Hin].
  destruct (first_of _ _ _) as [q|] eqn:F.
  - destruct (first_of_some _ _ _ _ F) as (_ & _ & e' & _ & E' & He & _). bprop. f_equal.
    apply (ok_unique _ _ H q p e' e); congruence.
  - pose proof (first_of_none _ _ _ _ _ F Hin E) as G. cbv beta in G. rewrite Hl, Z.eqb_refl in G.
    by destruct (root_of (e_storage e)).
Qed.

(** What [add_entry] does when every allocation succeeds. *)
Lemma add_entry_spec mal d f parent st root_of :
  reachable mal d -> (forall k, mal k = true) -> Z.of_nat (size (d_pool d)) < 2 ^ 29 - 1 ->
  op_allowed (AddObject f parent st) d -> root_of st <> None ->
  exists p d', add_entry mal f parent st d = Some (Some p, d') /\
    live_at d' (f_filename f) parent st p /\
    ((d' = d /\ live_at d (f_filename f) parent st p) \/
     (d_pool d !! p = None /\ d_next d' = d_next d + 1 /\ (forall q, ~ live_at d (f_filename f) parent st q) /\
      d_pool d' = <[p := new_entry f (d_next d) parent st (d_list d)]> (d_pool d) /\
      (forall q e, d_pool d !! q = Some e -> e_handle e < d_next d) /\
      search_entry f parent st d' = Some (Some p) /\ get_entry_by_handle root_of (d_next d) d' = Some (Some p))).
Proof.
  intros (l & H & Hi)%reachable_ok Hm Hs [Hn Hp] Hr. pose proof (pool_size d l H) as Hsz.
  assert (Z.of_nat (length l) < 2 ^ 29) as Hl by lia. specialize (Hi Hm Hl).
  unfold add_entry. destruct (search_exact f parent st d l H Hi) as (o & Es & Ho). rewrite Es. cbn [mbind option_bind].
  destruct o as [p|]; [exists p, d; split_and!; [done|done|by left]|].
  destruct (alloc_entry_spec mal f parent st d l H Hn) as (o & d' & E & Hspec).
  { pose proof (ok_next _ _ H). destruct Hp as [->|(p & e & E & <-)]; [lia|]. by apply (handles_below d l p). }
  destruct o as [p|]; [|by destruct Hspec as (_ & _ & []) ].
  destruct Hspec as (Hin & H' & Hnx & Ep & I). specialize (I Hm Hl Hi). rewrite E. exists p, d'.
  set (e := new_entry f (d_next d) parent st (d_list d)) in *.
  assert (d_pool d' !! p = Some e) as E1 by (rewrite Ep; apply lookup_insert_eq).
  assert (named (f_filename f) parent st e = true) as Hnm.
  { unfold named. rewrite streq_refl, !Z.eqb_refl. apply new_entry_live. }
  assert (d_pool d !! p = None) as Efree.
  { destruct (d_pool d !! p) eqn:E0; [|done]. destruct Hin. apply (ok_dom _ _ H). by eexists. }
  split; [done|]. split; [by exists e|]. right. split_and!; [done|done|done|done| | |].
  - intros q e0 E0. by apply (handles_below d l q).
  - destruct (search_exact f parent st d' _ H' I) as (o & Es' & Ho'). rewrite Es'.
    destruct o as [q|]; [|by destruct (Ho' p); exists e]. destruct Ho' as (e0 & E0 & He0).
    rewrite Ep in E0. apply pool_cons in E0 as [[-> _]|[Hq E0]]; [done|]. destruct (Ho q). by exists e0.
  - pose proof (ok_next _ _ H). change (d_next d) with (e_handle e).
    apply (by_handle_exact root_of d' (p :: l)); [done|done|done|apply new_entry_live| |done].
    unfold e. cbn. lia.
Qed.

(** C24: adding an object is idempotent and exact.  In a table whose
    allocations succeeded, [add_entry] leaves the table alone when the folder
    has a live object of that name, and then returns it; otherwise it adds
    exactly one object, live under the name, with a handle no object ever had,
    and both the name and the handle find it. *)
Theorem add_entry_exact mal d f parent st root_of :
  reachable mal d -> (forall k, mal k = true) -> Z.of_nat (size (d_pool d)) < 2 ^ 29 - 1 ->
  op_allowed (AddObject f parent st) d -> root_of st <> None ->
  exists p d', add_entry mal f parent st d = Some (Some p, d') /\
    live_at d' (f_filename f) parent st p /\
    ((d' = d /\ live_at d (f_filename f) parent st p) \/
     (d_pool d !! p = None /\ (forall q, ~ live_at d (f_filename f) parent st q) /\
      d_pool d' = <[p := new_entry f (d_next d) parent st (d_list d)]> (d_pool d) /\
      (forall q e, d_pool d !! q = Some e -> e_handle e < d_next d) /\
      search_entry f parent st d' = Some (Some p) /\ get_entry_by_handle root_of (d_next d) d' = Some (Some p))).
Proof.
  intros R Hm Hs Ha Hr. destruct (add_entry_spec mal d f parent st root_of R Hm Hs Ha Hr) as (p & d' & E & L & D).
  exists p, d'. split; [exact E|]. split; [exact L|]. destruct D as [D|(D1 & _ & D2)]; [by left|right; by split].
Qed.

Lemma add_entry_exact_witness : exists d p d', demo_db = Some d /\
  add_entry always (mkfound false [101] 7) 1 0xFFFF0001 d = Some (Some p, d') /\
  live_at d' [101] 1 0xFFFF0001 p.
Proof.
  destruct demo_reachable as (d & E & R). exists d. vm_compute in E. injection E as E.
  destruct (add_entry_exact always d (mkfound false [101] 7) 1 0xFFFF0001 (fun _ => Some [47]) R)
    as (p & d' & H & Hl & _).
  - reflexivity.
  - rewrite <- E. vm_compute. reflexivity.
  - rewrite <- E. split; [vm_compute; reflexivity|]. right. exists 1022. eexists. split; reflexivity.
  - discriminate.
  - exists p, d'. split; [rewrite <- E; vm_compute; reflexivity|]. split; [exact H|exact Hl].
Defined.

(** ** Enumerating the children of a folder *)

(** The callers' loop over [get_next_child_handle]. *)
Fixpoint collect (fuel : nat) (d : fs_handles_db) : option (list Z * fs_handles_db) :=
  match fuel with
  | O => None
  | S fuel =>
      '(o, d) ← get_next_child_handle d;
      match o with
      | None => Some ([], d)
      | Some p => '(ps, d) ← collect fuel d; Some (p :: ps, d)
      end
  end.

Definition is_child (d : fs_handles_db) (parent storage_id p : Z) : bool :=
  from_option (child_of parent storage_id) false (d_pool d !! p).

Lemma filter_none {A} (f : A -> bool) l : (forall x, x ∈ l -> f x = false) -> List.filter f l = [].
Proof.
  induction l as [|x l IH]; intros H; [done|]. cbn. rewrite (H x) by left. apply IH. intros y Hy. apply H. by right.
Qed.

(** The table but for the position of the search. *)
Definition same_table (d d' : fs_handles_db) : Prop := content (d' {{ d_search := d_search d }}) = content d.

Lemma same_table_eqs d d' : same_table d d' ->
  d_pool d' = d_pool d /\ d_hsearch d' = d_hsearch d /\ d_ssearch d' = d_ssearch d /\ d_list d' = d_list d.
Proof. destruct d, d'. unfold same_table. cbn. by intros [= -> -> -> -> -> -> ->]. Qed.

Lemma same_table_trans d d1 d2 : same_table d d1 -> same_table d1 d2 -> same_table d d2.
Proof.
  destruct d, d1, d2. unfold same_table. cbn. intros [= -> -> -> -> -> -> ->] [= -> -> -> -> -> -> ->]. done.
Qed.

Lemma collect_suffix d l l1 l2 fuel :
  db_ok d l -> l = l1 ++ l2 -> linked (d_pool d) (d_search d) l2 -> (length l2 < fuel)%nat ->
  exists d', collect fuel d = Some (List.filter (is_child d (d_hsearch d) (d_ssearch d)) l2, d') /\
    db_ok d' l /\ same_table d d' /\ d_search d' = None.
Proof.
  revert d l1 l2. induction fuel as [|fuel IH]; intros d l1 l2 H El Hl2 Hf; [lia|].
  destruct (next_child_ok d l l1 l2 H El Hl2) as (o & d1 & E & H1 & C1 & Eo & Hp).
  cbn [collect]. rewrite E. cbn [mbind option_bind]. destruct o as [p|].
  - destruct Hp as (l3 & l4 & -> & Hl4 & Hno). destruct (same_table_eqs d d1 C1) as (P1 & Q1 & R1 & _).
    destruct (IH d1 (l1 ++ l3 ++ [p]) l4 H1) as (d2 & E2 & H2 & C2 & N2).
    { rewrite El, <- !app_assoc. done. }
    { by rewrite P1. }
    { rewrite length_app in Hf. cbn [length] in Hf. lia. }
    rewrite E2. cbn [mbind option_bind]. exists d2. split_and!; [|done|by eapply same_table_trans|done].
    destruct (first_of_some _ _ _ _ (eq_sym Eo)) as (l5 & l6 & e & E5 & Ep & Pe & _).
    rewrite List.filter_app, (filter_none _ l3) by exact Hno. cbn [List.filter app].
    assert (is_child d (d_hsearch d) (d_ssearch d) p = true) as -> by (unfold is_child; by rewrite Ep).
    unfold is_child. by rewrite P1, Q1, R1.
  - exists d1. split_and!; [|done|done|done]. rewrite filter_none; [done|]. intros p Hq.
    unfold is_child. destruct (d_pool d !! p) as [e|] eqn:Ep; [|done]. by apply (first_of_none _ _ _ _ _ (eq_sym Eo) Hq Ep).
Qed.

(** The whole enumeration, from [init_search_handle]: the live children, newest
    first. *)
Lemma collect_children d l parent st fuel :
  db_ok d l -> (length l < fuel)%nat ->
  exists d', collect fuel (init_search_handle parent st d) = Some (List.filter (is_child d parent st) l, d') /\
    db_ok d' l /\ same_table (init_search_handle parent st d) d'.
Proof.
  intros H Hf. pose proof (search_ok parent st d l H) as H1.
  destruct (collect_suffix _ l [] l fuel H1 eq_refl) as (d' & E & H' & S & _); [|done|].
  - pose proof (ok_list _ _ H). by destruct d.
  - exists d'. split_and!; [|done|done]. rewrite E. by destruct d.
Qed.

(** Enumerating a folder lists its live children, each exactly once, and
    ends.  In every reachable table the loop over [get_next_child_handle] after
    [init_search_handle] returns after at most one round more than there are
    entries; what it returns has no repetition and is exactly the set of live
    objects whose parent and storage are the ones asked for. *)
Theorem children_enumerated mal d parent st fuel :
  reachable mal d -> (size (d_pool d) < fuel)%nat ->
  exists ps d', collect fuel (init_search_handle parent st d) = Some (ps, d') /\ NoDup ps /\
    (forall p, p ∈ ps <-> exists e, d_pool d !! p = Some e /\ child_of parent st e = true) /\
    d_pool d' = d_pool d.
Proof.
  intros (l & H & _)%reachable_ok Hf. pose proof (pool_size d l H) as Hs.
  destruct (collect_children d l parent st fuel H) as (d' & E & H' & S); [lia|].
  exists (List.filter (is_child d parent st) l), d'. split_and!; [done| | |].
  - apply NoDup_ListNoDup, List.NoDup_filter, NoDup_ListNoDup, (ok_nodup _ _ H).
  - intros p. rewrite list_elem_of_In, filter_In, <- list_elem_of_In. unfold is_child. split.
    + intros [_ Hc]. destruct (d_pool d !! p) as [e|]; [|done]. by exists e.
    + intros (e & Ep & Hc). rewrite Ep. split; [|done]. apply (ok_dom _ _ H). by exists e.
  - destruct (same_table_eqs _ _ S) as (-> & _). by destruct d.
Qed.

Lemma children_enumerated_witness : exists d ps d', demo_db = Some d /\
  collect 10 (init_search_handle 0 0xFFFF0001 d) = Some (ps, d') /\ NoDup ps /\ 1022 ∈ ps.
Proof.
  destruct demo_reachable as (d & E & R). exists d. vm_compute in E. injection E as E.
  destruct (children_enumerated always d 0 0xFFFF0001 10 R) as (ps & d' & H & Hn & Hp & _).
  - rewrite <- E. vm_compute. lia.
  - exists ps, d'. split; [rewrite <- E; vm_compute; reflexivity|]. split; [exact H|]. split; [exact Hn|].
    apply Hp. rewrite <- E. eexists. split; reflexivity.
Defined.
