(* ===== verification/MtpPath.v ===== *)
(** * The path of an object, [build_full_path] of [fs_handles_db.c]

    The buffer is filled from its end, one component per round, while the
    parents are followed upwards; then the path is resolved and compared with
    the storage root.  [realpath] is a parameter: the resolved path, or the
    [errno].  A null pointer given to [strncmp] is [None]. *)

From S2P Require Import Prelude CString MtpData MtpName MtpHash MtpDb MtpTable.

Definition ENOENT : Z := 2.
Definition NO_PARENT : Z := 0xFFFFFFFF.

Section Path.
Context (root_of : Z -> option (list Z)) (realpath : list Z -> list Z + Z).

(** The entry of the next round. *)
Definition parent_entry (e : fs_entry) (d : fs_handles_db) : option (option Z) :=
  if negb (e_parent e =? 0) && negb (e_parent e =? NO_PARENT)
  then get_entry_by_handle root_of (e_parent e) d
  else Some None.

(** The first loop: the length of the components from [p] upwards. *)
Fixpoint path_length (fuel : nat) (p : Z) (d : fs_handles_db) : option Z :=
  match fuel with
  | O => None
  | S fuel =>
      e ← d_pool d !! p;
      up ← parent_entry e d;
      match up with
      | None => Some (strlen (e_name e) + 1)
      | Some q => n ← path_length fuel q d; Some (strlen (e_name e) + 1 + n)
      end
  end.

(** The second loop: [full_path] is filled below [ofs]. *)
Fixpoint path_fill (fuel : nat) (p : Z) (d : fs_handles_db) (full_path : list Z) (ofs : Z) : option (list Z) :=
  match fuel with
  | O => None
  | S fuel =>
      e ← d_pool d !! p;
      let ofs := ofs - strlen (e_name e) in
      full_path ← put_bytes full_path ofs (e_name e);
      let ofs := ofs - 1 in
      full_path ← put_bytes full_path ofs [47];
      up ← parent_entry e d;
      match up with
      | None => Some full_path
      | Some q => path_fill fuel q d full_path ofs
      end
  end.

Definition path_fuel (d : fs_handles_db) : nat := S (size (d_pool d)).

(** The branch for a path that does not exist: its parent is resolved and the
    checked name appended; [None] when there is no result. *)
Definition missing_object (full_path name : list Z) : option (list Z) :=
  let idx := strlen full_path - strlen name in
  if 0 <=? idx then
    match realpath (take (Z.to_nat idx) full_path) with
    | inl realparentpath =>
        match sanitize_name (Some name) (strlen name) with
        | (s, ret) => if ret =? 1 then Some (realparentpath ++ [47] ++ s) else None
        end
    | inr _ => None
    end
  else None.

(** [None] is a crash, [Some None] a null result.  The allocations of the path
    and of the missing object's string succeed. *)
Definition build_full_path (root_path : option (list Z)) (p : Z) (d : fs_handles_db) : option (option (list Z)) :=
  e ← d_pool d !! p;
  n ← path_length (path_fuel d) p d;
  match root_path with
  | None =>
      full_path ← path_fill (path_fuel d) p d (replicate (Z.to_nat n) 0) n;
      Some (Some full_path)
  | Some root =>
      let total := n + strlen root in
      full_path ← path_fill (path_fuel d) p d (replicate (Z.to_nat total) 0) total;
      full_path ← put_bytes full_path 0 root;
      match realpath full_path with
      | inl ret => if starts_with root ret then Some (Some ret) else Some None
      | inr err =>
          if err =? ENOENT then
            ret ← missing_object full_path (e_name e);
            if starts_with root ret then Some (Some ret) else Some None
          else Some None
      end
  end.
End Path.

(** ** The reference: the components from the top *)
Fixpoint components (root_of : Z -> option (list Z)) (fuel : nat) (p : Z) (d : fs_handles_db) : option (list (list Z)) :=
  match fuel with
  | O => None
  | S fuel =>
      e ← d_pool d !! p;
      up ← parent_entry root_of e d;
      match up with
      | None => Some [e_name e]
      | Some q => above ← components root_of fuel q d; Some (above ++ [e_name e])
      end
  end.

Definition joined (l : list (list Z)) : list Z := concat (map (cons 47) l).

Lemma joined_snoc l s : joined (l ++ [s]) = joined l ++ 47 :: s.
Proof. unfold joined. rewrite map_app, concat_app. cbn. by rewrite app_nil_r. Qed.

Lemma path_length_components root_of fuel p d l :
  components root_of fuel p d = Some l -> path_length root_of fuel p d = Some (strlen (joined l)).
Proof.
  revert p l. induction fuel as [|fuel IH]; intros p l; cbn; [done|].
  destruct (d_pool d !! p) as [e|]; [|done]. cbn. destruct (parent_entry root_of e d) as [[q|]|]; [|cbn|done].
  - cbn. destruct (components root_of fuel q d) as [a|] eqn:E; [|done]. cbn. intros [= <-].
    rewrite (IH q a E). cbn. f_equal. rewrite joined_snoc. unfold strlen. rewrite length_app. cbn [length]. lia.
  - intros [= <-]. f_equal. unfold joined, strlen. cbn. rewrite app_nil_r. lia.
Qed.

(** A store that ends where the filled part begins. *)
Lemma put_before n bs post :
  put_bytes (replicate (n + length bs) 0 ++ post) (Z.of_nat n) bs = Some (replicate n 0 ++ bs ++ post).
Proof.
  rewrite replicate_add, <- app_assoc.
  replace (Z.of_nat n) with (strlen (replicate n 0)) by (unfold strlen; by rewrite length_replicate).
  rewrite put_after by (rewrite length_app, length_replicate; lia).
  rewrite drop_app_ge, length_replicate, Nat.sub_diag by (rewrite length_replicate; lia). done.
Qed.

Lemma path_fill_components root_of fuel p d l n post :
  components root_of fuel p d = Some l ->
  path_fill root_of fuel p d (replicate (n + length (joined l)) 0 ++ post) (Z.of_nat (n + length (joined l))) =
    Some (replicate n 0 ++ joined l ++ post).
Proof.
  revert p l post. induction fuel as [|fuel IH]; intros p l post; cbn [components path_fill]; [done|].
  destruct (d_pool d !! p) as [e|]; [|done]. cbn [mbind option_bind]. intros H.
  assert (exists above, l = above ++ [e_name e] /\
    match parent_entry root_of e d with
    | Some (Some q) => components root_of fuel q d = Some above
    | Some None => above = []
    | None => False
    end) as (above & -> & Hup).
  { destruct (parent_entry root_of e d) as [[q|]|]; [|by exists []; injection H as <-|done]. cbn in H.
    destruct (components root_of fuel q d) as [a|]; [|done]. injection H as <-. by exists a. }
  clear H. rewrite joined_snoc, length_app. cbn [length]. set (m := (n + length (joined above))%nat).
  replace (n + (length (joined above) + S (length (e_name e))))%nat with ((m + 1) + length (e_name e))%nat by lia.
  replace (Z.of_nat (m + 1 + length (e_name e)) - strlen (e_name e)) with (Z.of_nat (m + 1)) by (unfold strlen; lia).
  rewrite put_before. cbn [mbind option_bind].
  replace (Z.of_nat (m + 1) - 1) with (Z.of_nat m) by lia. change 1%nat with (length [47]).
  rewrite put_before. cbn [mbind option_bind].
  destruct (parent_entry root_of e d) as [[q|]|]; [|subst above|done]; cbn [mbind option_bind].
  - unfold m. rewrite (IH q above) by done. rewrite <- !app_assoc. done.
  - unfold m. cbn. by rewrite Nat.add_0_r.
Qed.

(** ** Going up ends *)

(** The entries with a smaller handle bound the rounds. *)
Definition below (d : fs_handles_db) (l : list Z) (h : Z) : nat :=
  length (List.filter (fun p => from_option (fun e => e_handle e <? h) false (d_pool d !! p)) l).

Lemma filter_le {A} (f g : A -> bool) l :
  (forall x, f x = true -> g x = true) -> (length (List.filter f l) <= length (List.filter g l))%nat.
Proof.
  intros H. induction l as [|x l IH]; cbn; [lia|]. destruct (f x) eqn:F.
  - rewrite (H x F). cbn. lia.
  - destruct (g x); cbn; lia.
Qed.

Lemma filter_lt {A} (f g : A -> bool) l y :
  (forall x, f x = true -> g x = true) -> y ∈ l -> f y = false -> g y = true ->
  (length (List.filter f l) < length (List.filter g l))%nat.
Proof.
  intros H Hy Fy Gy. induction l as [|x l IH]; [by apply elem_of_nil in Hy|]. cbn.
  apply elem_of_cons in Hy as [<-|Hy].
  - rewrite Fy, Gy. cbn. pose proof (filter_le f g l H). lia.
  - specialize (IH Hy). destruct (f x) eqn:F; [rewrite (H x F)|destruct (g x)]; cbn; lia.
Qed.

Lemma below_lt d l p e h : p ∈ l -> d_pool d !! p = Some e -> e_handle e < h -> (below d l (e_handle e) < below d l h)%nat.
Proof.
  intros Hp E Hh. apply (filter_lt _ _ _ p); [|done| |].
  - intros q. destruct (d_pool d !! q); cbn; [|done]. intros Hq. apply Z.ltb_lt in Hq. apply Z.ltb_lt. lia.
  - rewrite E. cbn. apply Z.ltb_irrefl.
  - rewrite E. cbn. by apply Z.ltb_lt.
Qed.

Lemma parent_entry_spec root_of e d l p :
  db_ok d l -> d_pool d !! p = Some e ->
  exists o, parent_entry root_of e d = Some o /\
    forall q, o = Some q -> q ∈ l /\ exists e', d_pool d !! q = Some e' /\ e_handle e' = e_parent e /\
      e_handle e' < e_handle e.
Proof.
  intros H E. unfold parent_entry. destruct (_ && _) eqn:Hc; [|by exists None].
  rewrite (by_handle_first root_of _ d l H). eexists. split; [reflexivity|]. intros q F.
  destruct (first_of_some _ _ _ _ F) as (_ & _ & e' & _ & E' & He & _). bprop.
  split; [apply (ok_dom _ _ H); by eexists|]. exists e'. split_and!; [done|done|].
  destruct (ok_tree _ _ H p e E) as [[_ Hz]|[? ?]]; [done|lia].
Qed.

Lemma components_total root_of d l p e fuel :
  db_ok d l -> d_pool d !! p = Some e -> (below d l (e_handle e) < fuel)%nat ->
  exists a, components root_of fuel p d = Some (a ++ [e_name e]).
Proof.
  intros H. revert p e. induction fuel as [|fuel IH]; intros p e E Hf; [lia|]. cbn [components]. rewrite E.
  cbn [mbind option_bind]. destruct (parent_entry_spec root_of e d l p H E) as (o & -> & Ho).
  cbn [mbind option_bind]. destruct o as [q|]; [|by exists []].
  destruct (Ho q eq_refl) as (Hq & e' & E' & _ & Hlt).
  destruct (IH q e' E') as [a ->]; [pose proof (below_lt d l q e' (e_handle e) Hq E' Hlt); lia|].
  cbn. by exists (a ++ [e_name e']).
Qed.

Lemma path_components root_of d l p e :
  db_ok d l -> d_pool d !! p = Some e ->
  exists a, components root_of (path_fuel d) p d = Some (a ++ [e_name e]).
Proof.
  intros H E. apply (components_total root_of d l p e); [done|done|]. unfold path_fuel.
  pose proof (pool_size d l H). assert (below d l (e_handle e) <= length l)%nat; [|lia].
  apply List.filter_length_le.
Qed.

(** ** What [build_full_path] computes *)

(** The decision about a resolved path. *)
Definition under_root (root ret : list Z) : option (list Z) := if starts_with root ret then Some ret else None.

Lemma full_path_spec root_of realpath d l p e :
  db_ok d l -> d_pool d !! p = Some e ->
  exists folders,
    components root_of (path_fuel d) p d = Some (folders ++ [e_name e]) /\
    build_full_path root_of realpath None p d = Some (Some (joined (folders ++ [e_name e]))) /\
    forall root, build_full_path root_of realpath (Some root) p d =
      match realpath (root ++ joined (folders ++ [e_name e])) with
      | inl ret => Some (under_root root ret)
      | inr err =>
          if err =? ENOENT then
            match realpath (root ++ joined folders ++ [47]), sanitize_name (Some (e_name e)) (strlen (e_name e)) with
            | inl folder, (name, 1) => Some (under_root root (folder ++ [47] ++ name))
            | _, _ => None
            end
          else Some None
      end.
Proof.
  intros H E. destruct (path_components root_of d l p e H E) as [a Ea]. exists a.
  pose proof (path_length_components _ _ _ _ _ Ea) as El.
  pose proof (path_fill_components root_of (path_fuel d) p d (a ++ [e_name e]) 0 [] Ea) as F0.
  split; [done|]. unfold build_full_path. rewrite E, El. cbn [mbind option_bind]. split.
  - rewrite app_nil_r in F0. cbn [Nat.add] in F0. unfold strlen. rewrite Nat2Z.id, F0. cbn. by rewrite app_nil_r.
  - intros root.
    pose proof (path_fill_components root_of (path_fuel d) p d (a ++ [e_name e]) (length root) [] Ea) as F.
    rewrite !app_nil_r in F. set (comps := joined (a ++ [e_name e])) in *.
    replace (strlen comps + strlen root) with (Z.of_nat (length root + length comps)) by (unfold strlen; lia).
    rewrite Nat2Z.id, F. cbn [mbind option_bind].
    pose proof (put_after [] (replicate (length root) 0 ++ comps) root) as P. cbn [app] in P.
    change (strlen []) with 0 in P. rewrite P by (rewrite length_app, length_replicate; lia). clear P.
    rewrite drop_app_ge, length_replicate, Nat.sub_diag by (rewrite length_replicate; lia). rewrite drop_0.
    cbn [mbind option_bind]. unfold under_root. destruct (realpath (root ++ comps)) as [ret|err].
    + by destruct (starts_with root ret).
    + destruct (err =? ENOENT); [|done]. unfold missing_object, comps. rewrite joined_snoc.
      replace (strlen (root ++ joined a ++ 47 :: e_name e) - strlen (e_name e)) with
        (strlen (root ++ joined a ++ [47])) by (unfold strlen; rewrite !length_app; cbn [length]; lia).
      rewrite (proj2 (Z.leb_le 0 _)) by (unfold strlen; lia).
      assert (root ++ joined a ++ 47 :: e_name e = (root ++ joined a ++ [47]) ++ e_name e) as ->
        by (rewrite <- !app_assoc; done).
      unfold strlen at 1. rewrite Nat2Z.id, take_app_length.
      destruct (realpath (root ++ joined a ++ [47])) as [folder|]; [|done].
      destruct (sanitize_name (Some (e_name e)) (strlen (e_name e))) as [name ret].
      destruct (Z.eqb_spec ret 1) as [->|Hr].
      * cbn [mbind option_bind]. by destruct (starts_with root (folder ++ [47] ++ name)).
      * cbn [mbind option_bind]. destruct ret as [|[]|]; try done. 
Qed.

(** C17: [build_full_path] ends and computes the path it means.  For every entry
    of a reachable table the climb to the root stops, the two loops agree on
    the length so that no byte is written outside the buffer, and the string is
    the root followed by the names of the enclosing folders and of the object,
    each after a slash.  The result is that path resolved, or, for an object
    that does not exist yet, its resolved folder and its checked name; and
    nothing is returned that does not start with the root. *)
Theorem build_full_path_correct mal root_of realpath d p e :
  reachable mal d -> d_pool d !! p = Some e ->
  exists folders,
    components root_of (path_fuel d) p d = Some (folders ++ [e_name e]) /\
    build_full_path root_of realpath None p d = Some (Some (joined (folders ++ [e_name e]))) /\
    forall root, build_full_path root_of realpath (Some root) p d =
      match realpath (root ++ joined (folders ++ [e_name e])) with
      | inl ret => Some (under_root root ret)
      | inr err =>
          if err =? ENOENT then
            match realpath (root ++ joined folders ++ [47]), sanitize_name (Some (e_name e)) (strlen (e_name e)) with
            | inl folder, (name, 1) => Some (under_root root (folder ++ [47] ++ name))
            | _, _ => None
            end
          else Some None
      end.
Proof. intros (l & H & _)%reachable_ok E. by apply (full_path_spec _ _ d l). Qed.

Lemma build_full_path_correct_witness : exists d, demo_db = Some d /\
  build_full_path (fun _ => Some [47; 115]) (fun s => inl s) (Some [47; 115]) 1021 d = Some (Some [47; 115; 47; 100; 47; 99]).
Proof.
  destruct demo_reachable as (d & E & R). exists d. split; [exact E|]. vm_compute in E. injection E as E.
  destruct (build_full_path_correct always (fun _ => Some [47; 115]) (fun s => inl s) d 1021
    (mkentry 2 1 0xFFFF0001 [99] 2 5 0 (-1) (Some 1022)) R) as (a & C & _ & F).
  - rewrite <- E. reflexivity.
  - rewrite F. rewrite <- E in C. vm_compute in C. destruct a as [|x [|y a]]; [discriminate C| |].
    + injection C as <-. vm_compute. reflexivity.
    + injection C as _ C2 C3. destruct a; discriminate C3.
Defined.

(** ** The objects of one folder *)

(** The text in front of the names of a folder's objects: the root, the folders
    above, the folder, and a slash. *)
Definition folder_path (root_of : Z -> option (list Z)) (parent st : Z) (d : fs_handles_db) : option (list Z) :=
  root ← root_of st;
  up ← (if negb (parent =? 0) && negb (parent =? NO_PARENT) then get_entry_by_handle root_of parent d else Some None);
  above ← match up with Some q => components root_of (path_fuel d) q d | None => Some [] end;
  Some (root ++ joined above ++ [47]).

(** A name does not crash [build_full_path]: when the folder has no file of that
    name, the folder itself is there and the name is one the check accepts. *)
Definition name_resolves (realpath : list Z -> list Z + Z) (folder name : list Z) : bool :=
  match realpath (folder ++ name) with
  | inl _ => true
  | inr err =>
      if err =? ENOENT then
        match realpath folder with inl _ => snd (sanitize_name (Some name) (strlen name)) =? 1 | inr _ => false end
      else true
  end.

(** More fuel than the climb takes does not change it. *)
Lemma components_more root_of fuel fuel' p d l :
  components root_of fuel p d = Some l -> (fuel <= fuel')%nat -> components root_of fuel' p d = Some l.
Proof.
  revert p l fuel'. induction fuel as [|fuel IH]; intros p l [|fuel'] E Hf; [done|done|lia|]. cbn [components] in *.
  destruct (d_pool d !! p) as [e|]; [|done]. cbn [mbind option_bind] in *.
  destruct (parent_entry root_of e d) as [[q|]|]; [|done..]. cbn [mbind option_bind] in *.
  destruct (components root_of fuel q d) as [a|] eqn:E1; [|done]. rewrite (IH q a fuel' E1) by lia. done.
Qed.

(** The path of an object of the folder, by its name. *)
Lemma child_path root_of realpath d l p e folder :
  db_ok d l -> d_pool d !! p = Some e -> folder_path root_of (e_parent e) (e_storage e) d = Some folder ->
  build_full_path root_of realpath (root_of (e_storage e)) p d = None <-> name_resolves realpath folder (e_name e) = false.
Proof.
  intros H E F. destruct (full_path_spec root_of realpath d l p e H E) as (a & C & _ & R).
  unfold folder_path in F. destruct (root_of (e_storage e)) as [root|]; [|done]. cbn [mbind option_bind] in F.
  rewrite R. clear R. assert (folder = root ++ joined a ++ [47]) as Ef.
  { unfold path_fuel in C. cbn [components] in C. rewrite E in C. cbn [mbind option_bind] in C. unfold parent_entry in C.
    destruct (if _ : bool then _ else _) as [[q|]|]; [| |done]; cbn [mbind option_bind] in C, F.
    - destruct (components root_of (size (d_pool d)) q d) as [a'|] eqn:E1; [|done]. cbn [mbind option_bind] in C.
      rewrite (components_more _ _ (path_fuel d) _ _ _ E1) in F by (unfold path_fuel; lia). cbn [mbind option_bind] in F.
      injection C as C. apply app_inj_tail in C as [-> _]. by injection F as <-.
    - injection C as C. destruct a as [|? []]; [|done..]. by injection F as <-. }
  assert (root ++ joined (a ++ [e_name e]) = folder ++ e_name e) as ->.
  { rewrite Ef, joined_snoc, <- !app_assoc. done. }
  rewrite <- Ef. unfold name_resolves. destruct (realpath (folder ++ e_name e)) as [ret|err]; [done|].
  destruct (err =? ENOENT); [|done]. destruct (realpath folder) as [s|err']; [|done].
  destruct (sanitize_name (Some (e_name e)) (strlen (e_name e))) as [name ret]. cbn [snd].
  destruct (Z.eqb_spec ret 1) as [->|Hr]; [done|]. by destruct ret as [|[]|].
Qed.

(** When the folder of an object is gone as well, [realpath] fails twice and
    the null result is compared with the root: the daemon crashes. *)
Lemma stale_folder_crashes mal root_of realpath d p e root :
  reachable mal d -> d_pool d !! p = Some e -> (forall s, realpath s = inr ENOENT) ->
  build_full_path root_of realpath (Some root) p d = None.
Proof.
  intros (l & H & _)%reachable_ok E Hr. destruct (full_path_spec root_of realpath d l p e H E) as (a & _ & _ & ->).
  by rewrite !Hr.
Qed.

(** The root is compared without the separator behind it, so a sibling folder
    whose name starts like the root passes. *)
Lemma sibling_passes root s : under_root root (root ++ s) = Some (root ++ s).
Proof. unfold under_root. by rewrite (proj2 (starts_with_spec root (root ++ s)) (ex_intro _ s eq_refl)). Qed.
