(* ===== verification/MtpStorage.v ===== *)
(** * Storages and sessions of the MTP responder

    The storage table of [mtp.c], the user ids files are opened with
    ([mtp_helpers.c]), the access check, and the mounting of storages
    ([mtp_ops_helpers.c], [msgqueue.c]) on the object table. *)

From Stdlib Require Import Ascii String.
From S2P Require Import Prelude CString MtpUsb MtpHash MtpDb MtpTable.

(** ** The storage table *)
Definition MAX_STORAGE_NB : nat := 16.

Definition UMTP_STORAGE_LOCKED : Z := 0x10.
Definition UMTP_STORAGE_LOCKABLE : Z := 0x08.
Definition UMTP_STORAGE_NOTMOUNTED : Z := 0x02.
Definition UMTP_STORAGE_READONLY : Z := 0x01.
Definition NO_STORAGE : Z := 0xFFFFFFFF.

(** [mtp_storage]; a slot without [root_path] is free. *)
Record storage := mkstorage {
  root_path : option (list Z); description : list Z; storage_id : Z; st_flags : Z; st_uid : Z; st_gid : Z }.
Definition no_storage : storage := mkstorage None [] 0 0 (-1) (-1).

(** [mtp_ctx], the fields of the components modelled here; [fs_db] is null
    without a session, [mallocs] counts the allocations of all sessions, and
    the last two record the events pushed and the watches removed. *)
Record mtp_ctx := mkctx {
  ctx_uid : Z; ctx_gid : Z; default_uid : Z; default_gid : Z; storages : list storage;
  fs_db : option fs_handles_db; session_id : Z; mallocs : nat; events : list (Z * Z); unwatched : list Z }.

(** The scan of the slots in use. *)
Fixpoint scan_storages (P : storage -> bool) (i : nat) (l : list storage) : option (nat * storage) :=
  match l with
  | [] => None
  | s :: l =>
      match root_path s with
      | Some _ => if P s then Some (i, s) else scan_storages P (S i) l
      | None => scan_storages P (S i) l
      end
  end.
Definition find_storage (P : storage -> bool) (ctx : mtp_ctx) : option (nat * storage) :=
  scan_storages P 0 (take MAX_STORAGE_NB (storages ctx)).

Definition by_id (id : Z) (s : storage) : bool := storage_id s =? id.
Definition by_name (name : list Z) (s : storage) : bool := streq (description s) name.

Definition mtp_get_storage_id_by_name (ctx : mtp_ctx) (name : list Z) : Z :=
  match find_storage (by_name name) ctx with Some (_, s) => storage_id s | None => NO_STORAGE end.
Definition mtp_get_storage_index_by_name (ctx : mtp_ctx) (name : list Z) : Z :=
  match find_storage (by_name name) ctx with Some (i, _) => Z.of_nat i | None => -1 end.
Definition mtp_get_storage_index_by_id (ctx : mtp_ctx) (id : Z) : Z :=
  match find_storage (by_id id) ctx with Some (i, _) => Z.of_nat i | None => -1 end.
Definition mtp_get_storage_root (ctx : mtp_ctx) (id : Z) : option (list Z) :=
  match find_storage (by_id id) ctx with Some (_, s) => root_path s | None => None end.
Definition mtp_get_storage_description (ctx : mtp_ctx) (id : Z) : option (list Z) :=
  match find_storage (by_id id) ctx with Some (_, s) => Some (description s) | None => None end.
Definition mtp_get_storage_flags (ctx : mtp_ctx) (id : Z) : Z :=
  match find_storage (by_id id) ctx with Some (_, s) => st_flags s | None => NO_STORAGE end.

(** The first free slot. *)
Fixpoint free_storage (l : list storage) : option nat :=
  match l with
  | [] => None
  | s :: l => match root_path s with None => Some O | Some _ => S <$> free_storage l end
  end.

(** [mtp_add_storage]; [real] is the answer of [realpath], [copied] whether
    the description could be allocated. *)
Definition mtp_add_storage (real : option (list Z)) (copied : bool) (name : list Z) (uid gid flags : Z)
    (ctx : mtp_ctx) : Z * mtp_ctx :=
  if negb (mtp_get_storage_id_by_name ctx name =? NO_STORAGE) then (0, ctx)
  else
    match free_storage (take MAX_STORAGE_NB (storages ctx)) with
    | None => (0, ctx)
    | Some i =>
        match real with
        | Some root =>
            if copied then
              let id := u32 (0xFFFF0000 + (Z.of_nat i + 1)) in
              (id, ctx {{ storages := <[i := mkstorage (Some root) name id flags uid gid]> (storages ctx) }})
            else (0, ctx {{ storages := <[i := no_storage]> (storages ctx) }})
        | None => (0, ctx {{ storages := <[i := no_storage]> (storages ctx) }})
        end
    end.

Definition mtp_remove_storage (name : list Z) (ctx : mtp_ctx) : Z * mtp_ctx :=
  let index := mtp_get_storage_index_by_name ctx name in
  if index <? 0 then (index, ctx)
  else (0, ctx {{ storages := <[Z.to_nat index := no_storage]> (storages ctx) }}).

(** ** The ids files are opened with *)

(** The process's file system ids. *)
Record fsids := mkids { fsuid : Z; fsgid : Z }.

Section Ids.
(** Which ids the kernel lets the process take. *)
Context (may_uid may_gid : Z -> bool).

(** The system calls: both return the previous id, also when they fail. *)
Definition setfsuid (u : Z) (s : fsids) : Z * fsids :=
  (fsuid s, if may_uid u then {| fsuid := u; fsgid := fsgid s |} else s).
Definition setfsgid (g : Z) (s : fsids) : Z * fsids :=
  (fsgid s, if may_gid g then {| fsuid := fsuid s; fsgid := g |} else s).

Definition set_giduid (uid gid : Z) (s : fsids) : Z * fsids :=
  let '(ret, s) := if 0 <=? uid then let '(r, s) := setfsuid uid s in (if r =? 0 then 0 else -1, s) else (0, s) in
  if 0 <=? gid then let '(r, s) := setfsgid gid s in (if r =? 0 then ret else -1, s) else (ret, s).

Definition restore_giduid (ctx : mtp_ctx) (s : fsids) : Z * fsids := set_giduid (ctx_uid ctx) (ctx_gid ctx) s.

Definition set_storage_giduid (ctx : mtp_ctx) (id : Z) (s : fsids) : Z * fsids :=
  let i := mtp_get_storage_index_by_id ctx id in
  match (if (0 <=? i) && (i <? Z.of_nat MAX_STORAGE_NB) then storages ctx !! Z.to_nat i else None) with
  | Some st =>
      let uid := if st_uid st =? -1 then default_uid ctx else st_uid st in
      let gid := if st_gid st =? -1 then default_gid ctx else st_uid st in
      set_giduid uid gid s
  | None => (-1, s)
  end.


(** *** What access under these ids means *)
Lemma set_giduid_ids uid gid s :
  snd (set_giduid uid gid s) =
    {| fsuid := if (0 <=? uid) && may_uid uid then uid else fsuid s;
       fsgid := if (0 <=? gid) && may_gid gid then gid else fsgid s |}.
Proof.
  unfold set_giduid, setfsuid, setfsgid. destruct s as [u g].
  destruct (0 <=? uid), (0 <=? gid); cbn [andb];
    destruct (may_uid uid); cbn; try destruct (may_gid gid); reflexivity.
Qed.

Lemma set_giduid_result uid gid s :
  fst (set_giduid uid gid s) =
    if ((0 <=? uid) && negb (fsuid s =? 0)) || ((0 <=? gid) && negb (fsgid s =? 0)) then -1 else 0.
Proof.
  unfold set_giduid, setfsuid, setfsgid. destruct s as [u g].
  destruct (0 <=? uid), (0 <=? gid); cbn; destruct (may_uid uid); cbn;
    destruct (u =? 0), (g =? 0); reflexivity.
Qed.

(** Every access ends with the process's own ids, whatever the storage. *)
Lemma ids_come_back ctx id s :
  0 <= ctx_uid ctx -> 0 <= ctx_gid ctx -> may_uid (ctx_uid ctx) = true -> may_gid (ctx_gid ctx) = true ->
  snd (restore_giduid ctx (snd (set_storage_giduid ctx id s))) =
    {| fsuid := ctx_uid ctx; fsgid := ctx_gid ctx |}.
Proof.
  intros Hu Hg Mu Mg. unfold restore_giduid. rewrite set_giduid_ids, Mu, Mg.
  by rewrite (proj2 (Z.leb_le _ _)), (proj2 (Z.leb_le _ _)) by done.
Qed.

(** The calls return the previous id, which [set_giduid] takes for an error
    code: a daemon that does not run as root is refused every file as soon as
    a user id is configured, also when it is its own. *)
Lemma only_root_has_access ctx id s :
  0 <= default_uid ctx -> fsuid s <> 0 ->
  Forall (fun st => st_uid st = -1) (storages ctx) ->
  fst (set_storage_giduid ctx id s) = -1.
Proof.
  intros Hd Hu Hall. unfold set_storage_giduid. case_match eqn:E; [|done].
  rewrite set_giduid_result.
  assert (st_uid s0 = -1) as -> by (destruct (_ && _); [|done]; exact (Forall_lookup_1 _ _ _ _ Hall E)).
  cbn [Z.eqb Pos.eqb]. rewrite (proj2 (Z.leb_le _ _)), (proj2 (Z.eqb_neq _ 0)) by done. done.
Qed.

(** A storage with a group and no user of its own gets neither. *)
Lemma storage_group_ignored ctx id s st :
  storages ctx !! Z.to_nat (mtp_get_storage_index_by_id ctx id) = Some st ->
  st_uid st = -1 -> 0 <= st_gid st ->
  fsgid (snd (set_storage_giduid ctx id s)) = fsgid s.
Proof.
  intros E Hu Hg. unfold set_storage_giduid. rewrite E.
  destruct (_ && _); [|done]. rewrite Hu. cbn [Z.eqb Pos.eqb]. rewrite (proj2 (Z.eqb_neq (st_gid st) (-1))) by lia.
  by rewrite set_giduid_ids.
Qed.
End Ids.

(** ** The access check *)
Definition INVALID_STORAGE_ID : Z := 0x2008.
Definition INVALID_OBJECT_HANDLE : Z := 0x2009.
Definition STORE_READ_ONLY : Z := 0x200E.
Definition STORE_NOT_AVAILABLE : Z := 0x2013.

(** The tests on an entry: the response code, or [None] for access. *)
Definition entry_access (ctx : mtp_ctx) (e : fs_entry) (wraccess : bool) : option Z :=
  let storage_flags := mtp_get_storage_flags ctx (e_storage e) in
  if storage_flags =? NO_STORAGE then Some INVALID_STORAGE_ID
  else if negb (Z.land storage_flags UMTP_STORAGE_LOCKED =? 0) then Some STORE_NOT_AVAILABLE
  else if negb (Z.land storage_flags UMTP_STORAGE_READONLY =? 0) && wraccess then Some STORE_READ_ONLY
  else None.

(** [check_handle_access] with an entry or a handle; the outer option is a
    dangling access. *)
Definition check_handle_access (ctx : mtp_ctx) (d : fs_handles_db) (entry : option Z) (handle : Z)
    (wraccess : bool) : option (option Z) :=
  o ← match entry with
      | Some p => Some (Some p)
      | None => get_entry_by_handle (mtp_get_storage_root ctx) handle d
      end;
  match o with
  | None => Some (Some INVALID_OBJECT_HANDLE)
  | Some p => e ← d_pool d !! p; Some (entry_access ctx e wraccess)
  end.

(** ** Mounting and unmounting *)

(** The loop of [umount_store], with the watches it removes. *)
Fixpoint umount_loop (fuel : nat) (id : Z) (from : option Z) (d : fs_handles_db) (rm : list Z) :
    option (fs_handles_db * list Z) :=
  match fuel with
  | O => None
  | S fuel =>
      o ← get_entry_by_storageid id from d;
      match o with
      | None => Some (d, rm)
      | Some p =>
          e ← d_pool d !! p;
          d ← upd_entry mark_deleted p d;
          let rm := if e_wd e =? -1 then rm else rm ++ [e_wd e] in
          match e_next e with
          | None => Some (d, rm)
          | Some q => umount_loop fuel id (Some q) d rm
          end
      end
  end.

Definition set_flags (i : nat) (f : Z -> Z) (ctx : mtp_ctx) : mtp_ctx :=
  ctx {{ storages := alter (fun s => s {{ st_flags := f (st_flags s) }}) i (storages ctx) }}.

(** The storage at an index with a root. *)
Definition used_storage (ctx : mtp_ctx) (i : Z) : option (nat * storage) :=
  if (0 <=? i) && (i <? Z.of_nat MAX_STORAGE_NB) then
    match storages ctx !! Z.to_nat i with
    | Some s => match root_path s with Some _ => Some (Z.to_nat i, s) | None => None end
    | None => None
    end
  else None.

Definition umount_store (store_index : Z) (update_flag : bool) (ctx : mtp_ctx) : option mtp_ctx :=
  match used_storage ctx store_index with
  | None => Some ctx
  | Some (i, s) =>
      ctx ← match fs_db ctx with
            | None => Some ctx
            | Some d =>
                '(d, rm) ← umount_loop (S (size (d_pool d))) (storage_id s) None d [];
                Some (ctx {{ fs_db := Some d; unwatched := unwatched ctx ++ rm }})
            end;
      Some (if update_flag then set_flags i (fun f => Z.lor f UMTP_STORAGE_NOTMOUNTED) ctx else ctx)
  end.

Section Mallocs.
Context (mal : nat -> bool).

(** [alloc_root_entry] on the session's table, if there is one. *)
Definition add_root (id : Z) (ctx : mtp_ctx) : option mtp_ctx :=
  match fs_db ctx with
  | None => Some ctx
  | Some d => '(_, d) ← alloc_root_entry mal id d; Some (ctx {{ fs_db := Some d }})
  end.

Definition mount_store (store_index : Z) (update_flag : bool) (ctx : mtp_ctx) : option mtp_ctx :=
  match used_storage ctx store_index with
  | None => Some ctx
  | Some (i, s) =>
      ctx ← (if negb (Z.land (st_flags s) UMTP_STORAGE_NOTMOUNTED =? 0) then add_root (storage_id s) ctx
             else Some ctx);
      Some (if update_flag then set_flags i (fun f => Z.ldiff f UMTP_STORAGE_NOTMOUNTED) ctx else ctx)
  end.

(** ** The message queue *)
Definition MTP_EVENT_STORE_ADDED : Z := 0x4004.
Definition MTP_EVENT_STORE_REMOVED : Z := 0x4005.

Definition mtp_push_event (event handle : Z) (ctx : mtp_ctx) : mtp_ctx :=
  ctx {{ events := events ctx ++ [(event, handle)] }}.

(** The event for the storage at an index. *)
Definition push_store (event store_index : Z) (ctx : mtp_ctx) : mtp_ctx :=
  match storages ctx !! Z.to_nat store_index with
  | Some s => mtp_push_event event (storage_id s) ctx
  | None => ctx
  end.

(** One round of the lock and of the unlock loop. *)
Definition lock_store (ctx : mtp_ctx) (i : Z) : option mtp_ctx :=
  match used_storage ctx i with
  | Some (n, s) =>
      if negb (Z.land (st_flags s) UMTP_STORAGE_LOCKABLE =? 0) && (Z.land (st_flags s) UMTP_STORAGE_LOCKED =? 0) then
        ctx ← umount_store i false ctx;
        Some (push_store MTP_EVENT_STORE_REMOVED i (set_flags n (fun f => Z.lor f UMTP_STORAGE_LOCKED) ctx))
      else Some ctx
  | None => Some ctx
  end.
Definition unlock_store (ctx : mtp_ctx) (i : Z) : option mtp_ctx :=
  match used_storage ctx i with
  | Some (n, s) =>
      if negb (Z.land (st_flags s) UMTP_STORAGE_LOCKABLE =? 0) && negb (Z.land (st_flags s) UMTP_STORAGE_LOCKED =? 0) then
        ctx ← mount_store i false ctx;
        Some (push_store MTP_EVENT_STORE_ADDED i (set_flags n (fun f => Z.ldiff f UMTP_STORAGE_LOCKED) ctx))
      else Some ctx
  | None => Some ctx
  end.
Definition store_indices : list Z := seqZ 0 (Z.of_nat MAX_STORAGE_NB).

(** The commands of [msgqueue_thread] that mount and lock; the tests are one
    after the other, as in the code. *)
Definition mount_command (message : list Z) (ctx : mtp_ctx) : option mtp_ctx :=
  if starts_with (cstr "mount:") message then
    let i := mtp_get_storage_index_by_name ctx (drop 6 message) in
    if 0 <=? i then ctx ← mount_store i true ctx; Some (push_store MTP_EVENT_STORE_ADDED i ctx) else Some ctx
  else Some ctx.
Definition unmount_command (message : list Z) (ctx : mtp_ctx) : option mtp_ctx :=
  if starts_with (cstr "unmount:") message then
    let i := mtp_get_storage_index_by_name ctx (drop 8 message) in
    if 0 <=? i then ctx ← umount_store i true ctx; Some (push_store MTP_EVENT_STORE_REMOVED i ctx) else Some ctx
  else Some ctx.
Definition lock_command (message : list Z) (ctx : mtp_ctx) : option mtp_ctx :=
  if starts_with (cstr "lock") message then foldM lock_store store_indices ctx else Some ctx.
Definition unlock_command (message : list Z) (ctx : mtp_ctx) : option mtp_ctx :=
  if starts_with (cstr "unlock") message then foldM unlock_store store_indices ctx else Some ctx.
Definition store_command (message : list Z) (ctx : mtp_ctx) : option mtp_ctx :=
  ctx ← mount_command message ctx;
  ctx ← unmount_command message ctx;
  ctx ← lock_command message ctx;
  unlock_command message ctx.

(** ** Sessions *)
Definition MTP_RESPONSE_GENERAL_ERROR : Z := 0x2002.
Definition MTP_RESPONSE_SESSION_NOT_OPEN : Z := 0x2003.
Definition MTP_RESPONSE_INVALID_PARAMETER : Z := 0x201D.
Definition MTP_RESPONSE_SESSION_ALREADY_OPEN : Z := 0x201E.

(** The roots of the storages before the first free slot. *)
Fixpoint open_roots (l : list storage) (ctx : mtp_ctx) : option mtp_ctx :=
  match l with
  | [] => Some ctx
  | s :: l =>
      match root_path s with
      | None => Some ctx
      | Some _ => ctx ← add_root (storage_id s) ctx; open_roots l ctx
      end
  end.

(** The response code and its parameter. *)
Definition mtp_op_OpenSession (id : Z) (ctx : mtp_ctx) : option (Z * list Z * mtp_ctx) :=
  if id =? 0 then Some (MTP_RESPONSE_INVALID_PARAMETER, [], ctx)
  else match fs_db ctx with
       | Some _ => Some (MTP_RESPONSE_SESSION_ALREADY_OPEN, [session_id ctx], ctx)
       | None =>
           let ctx := ctx {{ session_id := id }} in
           if mal (mallocs ctx) then
             let ctx := ctx {{ mallocs := S (mallocs ctx); fs_db := Some (init_fs_db (S (mallocs ctx))) }} in
             ctx ← open_roots (take MAX_STORAGE_NB (storages ctx)) ctx; Some (MTP_RESPONSE_OK, [], ctx)
           else Some (MTP_RESPONSE_GENERAL_ERROR, [], ctx {{ mallocs := S (mallocs ctx) }})
       end.
End Mallocs.

(** [deinit_fs_db]: the watches it removes, table by table, and the one
    descriptor it closes, that of the newest entry. *)
Fixpoint watches (pool : gmap Z fs_entry) (l : list Z) : option (list Z) :=
  match l with
  | [] => Some []
  | p :: l => e ← pool !! p; w ← watches pool l; Some (if e_wd e =? -1 then w else e_wd e :: w)
  end.

Definition deinit_fs_db (d : fs_handles_db) : option (list Z * option Z) :=
  rm ← foldM (fun rm i => w ← watches (d_pool d) (node_entries (node_at (d_names d) i)); Some (rm ++ w))
         (seqZ 0 HASH_TABLE_SIZE) [];
  fd ← match d_list d with
       | None => Some None
       | Some p => e ← d_pool d !! p; Some (if e_fd e =? -1 then None else Some (e_fd e))
       end;
  Some (rm, fd).

(** The response code, and the descriptor closed. *)
Definition mtp_op_CloseSession (ctx : mtp_ctx) : option (Z * option Z * mtp_ctx) :=
  match fs_db ctx with
  | None => Some (MTP_RESPONSE_SESSION_NOT_OPEN, None, ctx)
  | Some d =>
      '(rm, fd) ← deinit_fs_db d;
      Some (MTP_RESPONSE_OK, fd, ctx {{ fs_db := None; mallocs := d_mallocs d; unwatched := unwatched ctx ++ rm }})
  end.
