(* ===== verification/MtpMount.v ===== *)
(** * Mounting, locking and sessions: what they guarantee

    The session's object table stays reachable under every storage command, an
    unmounted or locked storage shows no object, and what the commands do to
    the roots. *)

From Stdlib Require Import Ascii String.
From S2P Require Import Prelude CString MtpUsb MtpHash MtpDb MtpTable MtpStorage.

(** ** Unmounting *)
Definition umounted (id : Z) (e : fs_entry) : fs_entry :=
  if live e && (e_storage e =? id) then mark_deleted e else e.

Lemma umounted_dead id e : e_storage e = id -> live (umounted id e) = false.
Proof.
  intros <-. unfold umounted. rewrite Z.eqb_refl, andb_true_r. destruct (live e) eqn:L; [|done].
  apply mark_deleted_dead.
Qed.

(** One deletion, as an operation of the table. *)
Lemma delete_step mal d l p e :
  reachable mal d -> db_ok d l -> d_pool d !! p = Some e ->
  exists d', upd_entry mark_deleted p d = Some d' /\ reachable mal d' /\ db_ok d' l /\
    d_pool d' = <[p := mark_deleted e]> (d_pool d) /\ d_list d' = d_list d.
Proof.
  intros R H E. destruct (upd_entry_ok d l p mark_deleted H) as (d' & E' & H' & _); [by eexists|by intros []|].
  exists d'. split; [done|]. split.
  - apply (reach_step mal d (Delete p)); [done|by eexists|done].
  - split; [done|]. unfold upd_entry in E'. rewrite E in E'. injection E' as <-. by destruct d.
Qed.

Lemma umount_loop_spec mal id fuel d l l1 l2 from rm :
  reachable mal d -> db_ok d l -> l = l1 ++ l2 ->
  linked (d_pool d) (match from with Some p => Some p | None => d_list d end) l2 ->
  (length l2 < fuel)%nat ->
  exists d' rm', umount_loop fuel id from d rm = Some (d', rm') /\ reachable mal d' /\ db_ok d' l /\
    d_list d' = d_list d /\
    (forall p, d_pool d' !! p = if decide (p ∈ l2) then umounted id <$> d_pool d !! p else d_pool d !! p).
Proof.
  revert d l1 l2 from rm. induction fuel as [|fuel IH]; intros d l1 l2 from rm R H El Hl Hf; [lia|].
  cbn [umount_loop]. unfold get_entry_by_storageid.
  rewrite (walk_list _ d l l1 l2) by done. cbn [mbind option_bind].
  destruct (first_of _ _ _) as [p|] eqn:F.
  2: { exists d, rm. split_and!; [done..|]. intros p. case_decide as Hp; [|done].
       destruct (d_pool d !! p) as [e|] eqn:E; [|done]. cbn. unfold umounted.
       by rewrite (first_of_none _ _ _ _ _ F Hp E). }
  destruct (first_of_some _ _ _ _ F) as (l3 & l4 & e & E2 & E & Pe & Hno). rewrite E. cbn [mbind option_bind].
  destruct (delete_step mal d l p e R H E) as (d1 & E1 & R1 & H1 & P1 & L1). rewrite E1. cbn [mbind option_bind].
  assert (linked (d_pool d) (e_next e) l4) as Hl4.
  { rewrite E2 in Hl. apply linked_suffix in Hl as (q & -> & e' & E' & Hl). congruence. }
  assert ((p ∉ l3) /\ (p ∉ l4)) as [Hp3 Hp4].
  { pose proof (ok_nodup _ _ H) as N. rewrite El, E2 in N. apply NoDup_app in N as (_ & _ & N).
    apply NoDup_app in N as (_ & N1 & N2). apply NoDup_cons in N2 as [N2 _]. split; [|done].
    intros Hp. apply (N1 p Hp). left. }
  assert (forall p0, p0 ∈ l3 -> umounted id <$> d_pool d !! p0 = d_pool d !! p0) as Hskip.
  { intros p0 Hp0. destruct (d_pool d !! p0) as [e0|] eqn:E0; [|done]. cbn. unfold umounted.
    by rewrite (Hno p0 e0 Hp0 E0). }
  assert (forall p0, <[p := mark_deleted e]> (d_pool d) !! p0 =
    if decide (p0 = p) then umounted id <$> d_pool d !! p0 else d_pool d !! p0) as Hone.
  { intros p0. case_decide as Hd; [subst; rewrite lookup_insert_eq, E; cbn; unfold umounted; by rewrite Pe|].
    by rewrite lookup_insert_ne. }
  assert (forall q (x y : option fs_entry), (if decide (q ∈ l3 ++ p :: l4) then x else y) =
    (if decide (q ∈ l3) then x else if decide (q = p) then x else if decide (q ∈ l4) then x else y)) as Hsplit.
  { intros q x y. repeat case_decide; try done; exfalso; revert H0;
      rewrite elem_of_app, elem_of_cons; tauto. }
  destruct (e_next e) as [q|] eqn:En.
  - rewrite E2 in *. destruct (IH d1 (l1 ++ l3 ++ [p]) l4 (Some q) (if e_wd e =? -1 then rm else rm ++ [e_wd e]) R1 H1)
      as (d2 & rm2 & EL & R2 & H2 & L2 & P2).
    { rewrite El, <- !app_assoc. done. }
    { rewrite P1. eapply linked_update; [exact E| |exact Hl4]. by destruct e. }
    { rewrite length_app in Hf. cbn [length] in Hf. lia. }
    exists d2, rm2. split_and!; [done|done|done|congruence|]. intros p0. rewrite P2, P1, Hsplit, Hone.
    destruct (decide (p0 ∈ l3)) as [Hi3|Hi3].
    { assert (p0 <> p) by (by intros ->). assert (p0 ∉ l4) as Hi4.
      { pose proof (ok_nodup _ _ H) as N. rewrite El in N. apply NoDup_app in N as (_ & _ & N).
        apply NoDup_app in N as (_ & N1 & _). intros Hi. apply (N1 p0 Hi3). by right. }
      rewrite !decide_False by done. symmetry. by apply Hskip. }
    destruct (decide (p0 = p)) as [->|]; [|done]. by rewrite decide_False.
  - assert (l4 = []) as -> by (destruct l4; [done|by destruct Hl4]).
    exists d1, (if e_wd e =? -1 then rm else rm ++ [e_wd e]). split_and!; [done|done|done|done|].
    intros p0. rewrite P1, E2, Hsplit, Hone.
    destruct (decide (p0 ∈ l3)) as [Hi3|Hi3].
    { assert (p0 <> p) by (by intros ->). rewrite decide_False by done. symmetry. by apply Hskip. }
    destruct (decide (p0 = p)) as [->|]; [done|]. rewrite decide_False; [done|]. apply not_elem_of_nil.
Qed.

(** ** The context *)
Definition session_ok (mal : nat -> bool) (ctx : mtp_ctx) : Prop :=
  match fs_db ctx with None => True | Some d => reachable mal d end.

Definition used (s : storage) : bool := match root_path s with Some _ => true | None => false end.

(** Sixteen slots, each with its own identifier. *)
Definition store_ok (ctx : mtp_ctx) : Prop :=
  length (storages ctx) = MAX_STORAGE_NB /\
  forall i s, storages ctx !! i = Some s -> used s = true -> storage_id s = 0xFFFF0001 + Z.of_nat i.

(** The live entries of the storages in [ids] are marked, nothing else. *)
Definition umounted_all (ids : list Z) (e : fs_entry) : fs_entry :=
  if live e && bool_decide (e_storage e ∈ ids) then mark_deleted e else e.

Definition shrinks (ids : list Z) (ctx ctx' : mtp_ctx) : Prop :=
  match fs_db ctx, fs_db ctx' with
  | None, None => True
  | Some d, Some d' => forall p, d_pool d' !! p = umounted_all ids <$> d_pool d !! p
  | _, _ => False
  end.

Lemma mark_storage e : e_storage (mark_deleted e) = e_storage e.
Proof. by destruct e. Qed.

Lemma umounted_all_app ids ids' e : umounted_all ids' (umounted_all ids e) = umounted_all (ids ++ ids') e.
Proof.
  unfold umounted_all. destruct (live e) eqn:L; cbn [andb].
  2: { by rewrite L. }
  rewrite (bool_decide_ext (e_storage e ∈ ids ++ ids') (e_storage e ∈ ids \/ e_storage e ∈ ids'))
    by apply elem_of_app.
  destruct (bool_decide (e_storage e ∈ ids)) eqn:B.
  - rewrite mark_deleted_dead. cbn [andb]. apply bool_decide_eq_true in B.
    by rewrite bool_decide_true by (by left).
  - rewrite L. cbn [andb]. apply bool_decide_eq_false in B.
    by rewrite (bool_decide_ext (e_storage e ∈ ids \/ e_storage e ∈ ids') (e_storage e ∈ ids')) by tauto.
Qed.

Lemma shrinks_refl ctx ctx' : fs_db ctx' = fs_db ctx -> shrinks [] ctx ctx'.
Proof.
  unfold shrinks. intros ->. destruct (fs_db ctx) as [d|]; [|done]. intros p.
  destruct (d_pool d !! p) as [e|]; [|done]. cbn. unfold umounted_all.
  rewrite bool_decide_false by apply not_elem_of_nil. by rewrite andb_false_r.
Qed.

Lemma shrinks_trans ids ids' ctx ctx1 ctx2 :
  shrinks ids ctx ctx1 -> shrinks ids' ctx1 ctx2 -> shrinks (ids ++ ids') ctx ctx2.
Proof.
  unfold shrinks. destruct (fs_db ctx) as [d|], (fs_db ctx1) as [d1|], (fs_db ctx2) as [d2|]; try done.
  intros H1 H2 p. rewrite H2, H1. destruct (d_pool d !! p) as [e|]; [|done]. cbn. by rewrite umounted_all_app.
Qed.

Lemma used_storage_spec ctx i n s :
  used_storage ctx i = Some (n, s) <->
  0 <= i < Z.of_nat MAX_STORAGE_NB /\ n = Z.to_nat i /\ storages ctx !! n = Some s /\ used s = true.
Proof.
  unfold used_storage, used. destruct (Z.leb_spec 0 i), (Z.ltb_spec i (Z.of_nat MAX_STORAGE_NB)); cbn [andb];
    try (split; [done|lia]).
  destruct (storages ctx !! Z.to_nat i) as [s'|] eqn:E.
  - destruct (root_path s') eqn:R; split.
    + intros [= <- <-]. rewrite E, R. done.
    + intros (_ & -> & E' & _). by rewrite E in E'; injection E' as <-.
    + done.
    + intros (_ & -> & E' & Hr). rewrite E in E'. injection E' as <-. by rewrite R in Hr.
  - split; [done|]. intros (_ & -> & E' & _). by rewrite E in E'.
Qed.

Lemma umount_store_spec mal ctx i n s fl :
  session_ok mal ctx -> used_storage ctx i = Some (n, s) ->
  exists ctx', umount_store i fl ctx = Some ctx' /\ session_ok mal ctx' /\
    storages ctx' = (if fl then alter (fun s => s {{ st_flags := Z.lor (st_flags s) UMTP_STORAGE_NOTMOUNTED }}) n
                                  (storages ctx) else storages ctx) /\
    shrinks [storage_id s] ctx ctx' /\ events ctx' = events ctx.
Proof.
  intros H U. unfold umount_store. rewrite U. unfold session_ok in H. destruct (fs_db ctx) as [d|] eqn:D.
  - destruct (reachable_ok mal d H) as (l & Hd & _).
    destruct (umount_loop_spec mal (storage_id s) (S (size (d_pool d))) d l [] l None [] H Hd eq_refl)
      as (d' & rm & E & R' & Hd' & L' & P).
    { apply (ok_list _ _ Hd). }
    { pose proof (pool_size d l Hd). lia. }
    rewrite E. cbn [mbind option_bind]. eexists. split; [reflexivity|]. split_and!.
    + destruct fl, ctx; done.
    + destruct fl, ctx; done.
    + unfold shrinks. rewrite D. assert (fs_db (if fl then set_flags n (fun f => Z.lor f UMTP_STORAGE_NOTMOUNTED)
        (ctx {{ fs_db := Some d'; unwatched := unwatched ctx ++ rm }}) else
        ctx {{ fs_db := Some d'; unwatched := unwatched ctx ++ rm }}) = Some d') as -> by (destruct fl, ctx; done).
      intros p. rewrite P. destruct (d_pool d !! p) as [e|] eqn:Ep; [|by case_decide].
      rewrite decide_True by (apply (ok_dom _ _ Hd); by eexists). cbn. unfold umounted, umounted_all. f_equal.
      assert ((e_storage e =? storage_id s) = bool_decide (e_storage e ∈ [storage_id s])) as ->; [|done].
      apply Bool.eq_iff_eq_true. rewrite Z.eqb_eq, bool_decide_eq_true. by rewrite list_elem_of_singleton.
    + destruct fl, ctx; done.
  - cbn [mbind option_bind]. eexists. split; [reflexivity|]. split_and!.
    + destruct fl, ctx; cbn in *; by rewrite D.
    + destruct fl, ctx; done.
    + unfold shrinks. rewrite D. destruct fl, ctx; cbn in *; by rewrite D.
    + destruct fl, ctx; done.
Qed.

(** ** Locking *)
Definition lockable_now (s : storage) : bool :=
  used s && (negb (Z.land (st_flags s) UMTP_STORAGE_LOCKABLE =? 0) && (Z.land (st_flags s) UMTP_STORAGE_LOCKED =? 0)).
Definition lock_one (s : storage) : storage :=
  if lockable_now s then s {{ st_flags := Z.lor (st_flags s) UMTP_STORAGE_LOCKED }} else s.
Definition locked_id (s : storage) : list Z := if lockable_now s then [storage_id s] else [].

(** What [ids] gives for the storage at an index. *)
Definition ids_at (ids : storage -> list Z) (l : list storage) (i : Z) : list Z :=
  match l !! Z.to_nat i with Some s => ids s | None => [] end.

Lemma push_store_same ev i ctx :
  storages (push_store ev i ctx) = storages ctx /\ fs_db (push_store ev i ctx) = fs_db ctx.
Proof. unfold push_store. destruct (storages ctx !! Z.to_nat i); by destruct ctx. Qed.

Lemma alter_id {A} (f : A -> A) (l : list A) (i : nat) : (forall x, l !! i = Some x -> f x = x) -> alter f i l = l.
Proof.
  intros H. apply list_eq. intros j. destruct (decide (i = j)) as [->|Hn].
  - rewrite list_lookup_alter_eq. destruct (l !! j) as [x|] eqn:E; [|done]. cbn. by rewrite H.
  - by rewrite list_lookup_alter_ne.
Qed.

Lemma unused_storage ctx i : 0 <= i < Z.of_nat MAX_STORAGE_NB -> used_storage ctx i = None ->
  forall s, storages ctx !! Z.to_nat i = Some s -> used s = false.
Proof.
  intros Hi U s E. destruct (used s) eqn:Us; [|done].
  assert (used_storage ctx i = Some (Z.to_nat i, s)) as G by (by apply used_storage_spec). congruence.
Qed.

Lemma lock_store_spec mal ctx i :
  session_ok mal ctx -> 0 <= i < Z.of_nat MAX_STORAGE_NB ->
  exists ctx', lock_store ctx i = Some ctx' /\ session_ok mal ctx' /\
    storages ctx' = alter lock_one (Z.to_nat i) (storages ctx) /\ shrinks (ids_at locked_id (storages ctx) i) ctx ctx'.
Proof.
  intros H Hi. unfold lock_store, ids_at, locked_id.
  destruct (used_storage ctx i) as [[n s]|] eqn:U.
  - pose proof (proj1 (used_storage_spec _ _ _ _) U) as (_ & -> & E & Us). rewrite E.
    assert (lockable_now s = (negb (Z.land (st_flags s) UMTP_STORAGE_LOCKABLE =? 0) &&
      (Z.land (st_flags s) UMTP_STORAGE_LOCKED =? 0))) as El by (unfold lockable_now; by rewrite Us).
    destruct (negb _ && _) eqn:B; rewrite El.
    + destruct (umount_store_spec mal ctx i _ s false H U) as (c1 & E1 & H1 & S1 & D1 & _). rewrite E1.
      cbn [mbind option_bind]. eexists. split; [reflexivity|].
      destruct (push_store_same MTP_EVENT_STORE_REMOVED i (set_flags (Z.to_nat i) (fun f => Z.lor f UMTP_STORAGE_LOCKED) c1)) as [PS PD].
      unfold session_ok, shrinks in *. rewrite PS, PD. split_and!.
      * by destruct c1.
      * transitivity (alter (fun s => s {{ st_flags := Z.lor (st_flags s) UMTP_STORAGE_LOCKED }}) (Z.to_nat i) (storages c1));
          [by destruct c1|]. rewrite S1. apply list_eq. intros j. destruct (decide (Z.to_nat i = j)) as [<-|].
        -- rewrite !list_lookup_alter_eq, E. cbn. unfold lock_one. by rewrite El.
        -- by rewrite !list_lookup_alter_ne.
      * by destruct c1.
    + exists ctx. split_and!; [done|done| |by apply shrinks_refl]. symmetry. apply alter_id.
      intros x Ex. rewrite E in Ex. injection Ex as <-. unfold lock_one. by rewrite El.
  - exists ctx. pose proof (unused_storage ctx i Hi U) as Hu. split_and!; [done|done| |].
    + symmetry. apply alter_id. intros x Ex. unfold lock_one, lockable_now. by rewrite (Hu x Ex).
    + destruct (storages ctx !! Z.to_nat i) as [s|]; [|by apply shrinks_refl].
      unfold lockable_now. rewrite (Hu s eq_refl). by apply shrinks_refl.
Qed.

Lemma store_index_in i : i ∈ store_indices <-> 0 <= i < Z.of_nat MAX_STORAGE_NB.
Proof. unfold store_indices. rewrite elem_of_seqZ_iff. lia. Qed.

Lemma store_indices_split pre i post : store_indices = pre ++ i :: post ->
  0 <= i < Z.of_nat MAX_STORAGE_NB /\ i ∉ pre.
Proof.
  intros E. split.
  - apply store_index_in. rewrite E. apply elem_of_app. right. left.
  - pose proof (NoDup_seqZ 0 (Z.of_nat MAX_STORAGE_NB)) as N. fold store_indices in N. rewrite E in N.
    apply NoDup_app in N as (_ & N & _). intros Hi. apply (N i Hi). left.
Qed.

(** A loop over the sixteen storages whose rounds change one storage each, and
    the objects of the storages [ids] names. *)
Section StoreLoop.
Context (mal : nat -> bool) (f : mtp_ctx -> Z -> option mtp_ctx) (one : storage -> storage).
Context (ids : storage -> list Z) (R : list Z -> mtp_ctx -> mtp_ctx -> Prop).

Hypothesis R_refl : forall ctx, R [] ctx ctx.
Hypothesis R_trans : forall l l' ctx ctx1 ctx2, R l ctx ctx1 -> R l' ctx1 ctx2 -> R (l ++ l') ctx ctx2.
Hypothesis f_spec : forall ctx i, session_ok mal ctx -> 0 <= i < Z.of_nat MAX_STORAGE_NB ->
  exists ctx', f ctx i = Some ctx' /\ session_ok mal ctx' /\
    storages ctx' = alter one (Z.to_nat i) (storages ctx) /\ R (ids_at ids (storages ctx) i) ctx ctx'.

Lemma ids_at_in l indices x :
  x ∈ concat (map (ids_at ids l) indices) <->
  exists i s, i ∈ indices /\ l !! Z.to_nat i = Some s /\ x ∈ ids s.
Proof.
  induction indices as [|i r IH].
  - split; [intros H; by apply not_elem_of_nil in H|]. intros (i & s & H & _). by apply not_elem_of_nil in H.
  - cbn [map concat]. rewrite elem_of_app, IH. unfold ids_at. split.
    + intros [Hx|(j & s & Hj & H)]; [|exists j, s; split; [by right|done]].
      destruct (l !! Z.to_nat i) as [s|] eqn:E; [|by apply not_elem_of_nil in Hx]. exists i, s. split; [left|done].
    + intros (j & s & Hj & E & Hx). apply elem_of_cons in Hj as [->|Hj]; [left|right; by exists j, s]. by rewrite E.
Qed.

Lemma store_loop ctx :
  session_ok mal ctx -> length (storages ctx) = MAX_STORAGE_NB ->
  exists ctx' l, foldM f store_indices ctx = Some ctx' /\ session_ok mal ctx' /\
    (forall j, storages ctx' !! j = one <$> storages ctx !! j) /\
    R l ctx ctx' /\
    forall x, x ∈ l <-> exists i s, storages ctx !! i = Some s /\ x ∈ ids s.
Proof.
  intros H Hlen.
  destruct (foldM_inv_at (fun pre c => session_ok mal c /\
    (forall j, storages c !! j = if decide (Z.of_nat j ∈ pre) then one <$> storages ctx !! j else storages ctx !! j) /\
    R (concat (map (ids_at ids (storages ctx)) pre)) ctx c) f store_indices ctx)
    as (ctx' & E & H' & S' & D').
  - split_and!; [done|done|apply R_refl].
  - intros pre i post c El (Hc & Sc & Dc). destruct (store_indices_split _ _ _ El) as [Hi Hn].
    destruct (f_spec c i Hc Hi) as (c1 & E1 & H1 & S1 & D1). exists c1. split_and!; [done|done| |].
    + intros j. rewrite S1. destruct (decide (Z.to_nat i = j)) as [<-|Hj].
      * rewrite list_lookup_alter_eq, Sc, Z2Nat.id, decide_False by (done || lia).
        rewrite decide_True; [done|]. apply elem_of_app. right. left.
      * rewrite list_lookup_alter_ne, Sc by done. apply decide_ext.
        rewrite elem_of_app, list_elem_of_singleton. split; [by left|]. intros [?|<-]; [done|lia].
    + rewrite map_app, concat_app. cbn [map concat]. rewrite app_nil_r. eapply R_trans; [exact Dc|].
      assert (ids_at ids (storages ctx) i = ids_at ids (storages c) i) as ->; [|done].
      unfold ids_at. by rewrite Sc, Z2Nat.id, decide_False by (done || lia).
  - assert (forall j s, storages ctx !! j = Some s -> Z.of_nat j ∈ store_indices) as Hin.
    { intros j s Ej. apply store_index_in. apply lookup_lt_Some in Ej. lia. }
    exists ctx', (concat (map (ids_at ids (storages ctx)) store_indices)). split_and!; [exact E|exact H'| |exact D'|].
    + intros j. rewrite S'. destruct (decide (Z.of_nat j ∈ store_indices)) as [|Hj]; [done|].
      destruct (storages ctx !! j) as [s|] eqn:Ej; [|done]. destruct Hj. by apply (Hin j s).
    + intros x. rewrite ids_at_in. split.
      * intros (i & s & _ & Es). by exists (Z.to_nat i), s.
      * intros (i & s & Es & Hx). exists (Z.of_nat i), s. rewrite Nat2Z.id. split; [by apply (Hin i s)|done].
Qed.
End StoreLoop.

Lemma lock_loop mal ctx :
  session_ok mal ctx -> length (storages ctx) = MAX_STORAGE_NB ->
  exists ctx' l, foldM lock_store store_indices ctx = Some ctx' /\ session_ok mal ctx' /\
    (forall j, storages ctx' !! j = lock_one <$> storages ctx !! j) /\ shrinks l ctx ctx' /\
    forall x, x ∈ l <-> exists i s, storages ctx !! i = Some s /\ x ∈ locked_id s.
Proof.
  apply store_loop; [by intros; apply shrinks_refl|apply shrinks_trans|apply lock_store_spec].
Qed.

(** ** Looking a storage up *)
Lemma scan_storages_some P i l n s :
  scan_storages P i l = Some (n, s) ->
  exists k, n = (i + k)%nat /\ l !! k = Some s /\ used s = true /\ P s = true /\
    forall j s', (j < k)%nat -> l !! j = Some s' -> used s' = true -> P s' = false.
Proof.
  revert i. induction l as [|t l IH]; intros i; cbn; [done|].
  assert (forall i', scan_storages P (S i) l = Some (n, s) -> (used t = true -> P t = false) -> i' = i ->
    exists k, n = (i + k)%nat /\ (t :: l) !! k = Some s /\ used s = true /\ P s = true /\
      forall j s', (j < k)%nat -> (t :: l) !! j = Some s' -> used s' = true -> P s' = false) as G.
  { intros _ H Ht _. destruct (IH (S i) H) as (k & -> & E & U & HP & Hno). exists (S k).
    split_and!; [lia|done|done|done|]. intros [|j] s' Hj E' U'; [injection E' as <-; auto|].
    apply (Hno j); [lia|done|done]. }
  unfold used in G. destruct (root_path t) eqn:R.
  - destruct (P t) eqn:HP.
    + intros [= <- <-]. exists O. split_and!; [lia|done|unfold used; by rewrite R|done|]. intros j s' Hj. lia.
    + intros H. by apply (G i H).
  - intros H. by apply (G i H).
Qed.

Lemma scan_storages_none P i l k s :
  scan_storages P i l = None -> l !! k = Some s -> used s = true -> P s = false.
Proof.
  revert i k. induction l as [|t l IH]; intros i k; cbn; [done|]. unfold used.
  destruct (root_path t) eqn:R.
  - destruct (P t) eqn:HP; [done|]. intros H. destruct k; [intros [= <-]; done|]. intros E U. by apply (IH (S i) k).
  - intros H. destruct k; [intros [= <-]; by rewrite R|]. intros E U. by apply (IH (S i) k).
Qed.

Lemma find_by_id ctx i s :
  store_ok ctx -> storages ctx !! i = Some s -> used s = true ->
  find_storage (by_id (storage_id s)) ctx = Some (i, s).
Proof.
  intros [Hlen Hid] E U. unfold find_storage. rewrite take_ge by (rewrite Hlen; done).
  destruct (scan_storages _ 0 _) as [[n s']|] eqn:F.
  - destruct (scan_storages_some _ _ _ _ _ F) as (k & -> & E' & U' & HP & _).
    unfold by_id in HP. apply Z.eqb_eq in HP. rewrite (Hid i s), (Hid k s') in HP by done.
    assert (k = i) as -> by lia. rewrite E' in E. injection E as ->. done.
  - pose proof (scan_storages_none _ _ _ _ _ F E U) as G. unfold by_id in G. by rewrite Z.eqb_refl in G.
Qed.

Lemma flags_by_id ctx i s :
  store_ok ctx -> storages ctx !! i = Some s -> used s = true ->
  mtp_get_storage_flags ctx (storage_id s) = st_flags s /\ mtp_get_storage_root ctx (storage_id s) = root_path s.
Proof.
  intros H E U. unfold mtp_get_storage_flags, mtp_get_storage_root. by rewrite (find_by_id ctx i s).
Qed.

Lemma lor_bit f b : b <> 0 -> Z.land (Z.lor f b) b <> 0.
Proof.
  intros Hb E. rewrite Z.land_lor_distr_l, Z.land_diag in E. by apply Z.lor_eq_0_iff in E as [_ E].
Qed.

Lemma lock_one_same s : storage_id (lock_one s) = storage_id s /\ used (lock_one s) = used s.
Proof. unfold lock_one. destruct (lockable_now s); by destruct s. Qed.

Lemma store_ok_map ctx ctx' f :
  store_ok ctx -> (forall j, storages ctx' !! j = f <$> storages ctx !! j) ->
  (forall s, storage_id (f s) = storage_id s /\ used (f s) = used s) -> store_ok ctx'.
Proof.
  intros [Hl Hid] Hf Hs. split.
  - rewrite <- Hl. rewrite <- (length_fmap f (storages ctx)). f_equal. apply list_eq. intros j.
    by rewrite Hf, list_lookup_fmap.
  - intros i s E U. rewrite Hf in E. destruct (storages ctx !! i) as [s0|] eqn:E0; [|done]. injection E as <-.
    destruct (Hs s0) as [-> Hu]. apply Hid; [done|]. congruence.
Qed.

Lemma lock_one_locked s :
  used s = true -> Z.land (st_flags s) UMTP_STORAGE_LOCKABLE <> 0 ->
  Z.land (st_flags (lock_one s)) UMTP_STORAGE_LOCKED <> 0.
Proof.
  intros U L. unfold lock_one, lockable_now. rewrite U, (proj2 (Z.eqb_neq _ 0)) by done. cbn [andb negb].
  destruct (Z.eqb_spec (Z.land (st_flags s) UMTP_STORAGE_LOCKED) 0) as [E|E]; [|done].
  destruct s. cbn in *. by apply lor_bit.
Qed.

Lemma access_locked ctx s e i w :
  store_ok ctx -> storages ctx !! i = Some s -> used s = true ->
  Z.land (st_flags s) UMTP_STORAGE_LOCKED <> 0 -> e_storage e = storage_id s -> entry_access ctx e w <> None.
Proof.
  intros H E U L Hs. unfold entry_access. rewrite Hs. destruct (flags_by_id ctx i s H E U) as [-> _].
  rewrite (proj2 (Z.eqb_neq _ 0)) by done. cbn [negb]. by destruct (_ =? NO_STORAGE).
Qed.

(** C25: what the message [lock] closes.  After it every lockable storage is
    locked and denies access to its objects.  Those that were not locked before
    show no object at all in the session; those that were are passed over, so
    objects they have (added since, see [locked_storage_takes_folders] in
    [MtpAccess]) are still shown, but not given access to.  The objects of the
    storages that cannot be locked are exactly as before. *)
Theorem locking_closes_storages mal ctx message :
  session_ok mal ctx -> store_ok ctx -> starts_with (cstr "lock") message = true ->
  exists ctx', lock_command message ctx = Some ctx' /\ session_ok mal ctx' /\ store_ok ctx' /\
    (forall i s e w, storages ctx !! i = Some s -> used s = true ->
       Z.land (st_flags s) UMTP_STORAGE_LOCKABLE <> 0 -> e_storage e = storage_id s ->
       entry_access ctx' e w <> None /\
       (Z.land (st_flags s) UMTP_STORAGE_LOCKED = 0 ->
        forall d p, fs_db ctx' = Some d -> d_pool d !! p = Some e -> live e = false)) /\
    (forall d d' p e, fs_db ctx = Some d -> fs_db ctx' = Some d' -> d_pool d !! p = Some e ->
       (forall i s, storages ctx !! i = Some s -> used s = true -> storage_id s = e_storage e ->
          Z.land (st_flags s) UMTP_STORAGE_LOCKABLE = 0) -> d_pool d' !! p = Some e).
Proof.
  intros H Hst Hm. unfold lock_command. rewrite Hm.
  destruct (lock_loop mal ctx H (proj1 Hst)) as (ctx' & ids & E & H' & S' & D' & Hids). exists ctx'.
  pose proof (store_ok_map ctx ctx' lock_one Hst S' lock_one_same) as Hst'.
  split_and!; [done|done|done| |].
  - intros i s e w Ei U L Hs. split.
    + apply (access_locked ctx' (lock_one s) e i); [done|by rewrite S', Ei| | |].
      * by destruct (lock_one_same s) as [_ ->].
      * by apply lock_one_locked.
      * by destruct (lock_one_same s) as [-> _].
    + intros Hun d' p Ed Ep. unfold shrinks in D'. rewrite Ed in D'. destruct (fs_db ctx) as [d|]; [|done].
      rewrite D' in Ep. destruct (d_pool d !! p) as [e0|]; [|done]. injection Ep as <-.
      assert (e_storage e0 = storage_id s) as Hs0.
      { revert Hs. unfold umounted_all. destruct (live e0 && _); [by rewrite mark_storage|done]. }
      unfold umounted_all. rewrite bool_decide_true.
      * rewrite andb_true_r. destruct (live e0) eqn:Lv; [apply mark_deleted_dead|done].
      * apply Hids. exists i, s. split; [exact Ei|]. unfold locked_id, lockable_now.
        rewrite U, Hun, (proj2 (Z.eqb_neq _ 0)) by exact L. cbn. rewrite Hs0. left.
  - intros d d' p e Ed Ed' Ep Hno. unfold shrinks in D'. rewrite Ed, Ed' in D'. rewrite D', Ep. cbn. f_equal.
    unfold umounted_all. rewrite bool_decide_false; [by rewrite andb_false_r|]. intros Hin.
    apply Hids in Hin as (i & s & Ei & Ls). unfold locked_id, lockable_now in Ls.
    destruct (_ && _) eqn:Lk in Ls; [|by apply not_elem_of_nil in Ls]. apply list_elem_of_singleton in Ls as Es.
    symmetry in Es. apply andb_prop in Lk as [U Ls1]. clear Ls. rename Ls1 into Ls. apply andb_prop in Ls as [L _]. rewrite (Hno i s Ei U Es) in L. discriminate L.
Qed.

(** A lockable storage with a folder, in an open session. *)
Definition demo_storage : storage := mkstorage (Some (cstr "/mnt")) (cstr "card") 0xFFFF0001 UMTP_STORAGE_LOCKABLE (-1) (-1).
Definition demo_ctx (d : option fs_handles_db) : mtp_ctx :=
  mkctx 0 0 (-1) (-1) (demo_storage :: repeat no_storage 15) d 1 0 [] [].

Lemma one_storage_ok ctx st : storages ctx = st :: repeat no_storage 15 -> storage_id st = 0xFFFF0001 -> store_ok ctx.
Proof.
  intros E Hid. split; [by rewrite E|]. rewrite E. intros [|i] s Es U; cbn in Es; [by injection Es as <-|].
  assert (s = no_storage) as -> by (do 15 (destruct i as [|i]; [by injection Es as <-|]); done). done.
Qed.

Lemma demo_store_ok d : store_ok (demo_ctx d).
Proof. by apply (one_storage_ok _ demo_storage). Qed.

Lemma locking_closes_storages_witness :
  exists d ctx', demo_db = Some d /\ lock_command (cstr "lock") (demo_ctx (Some d)) = Some ctx' /\
    entry_access ctx' (new_entry (mkfound true [98] 0) 1 0 0xFFFF0001 None) false <> None.
Proof.
  destruct demo_reachable as (d & E & R).
  destruct (locking_closes_storages always (demo_ctx (Some d)) (cstr "lock") R (demo_store_ok _) eq_refl)
    as (ctx' & E' & _ & _ & G & _).
  exists d, ctx'. split; [exact E|]. split; [exact E'|].
  apply (G O demo_storage); [reflexivity|reflexivity|discriminate|reflexivity].
Defined.
