(* ===== verification/MtpSession.v ===== *)
(** * Sessions of the MTP responder

    Every storage command, the opening and the closing of a session keep the
    context well formed, and what unlocking a locked storage leaves in the
    session. *)

From Stdlib Require Import Ascii String.
From S2P Require Import Prelude CString MtpUsb MtpHash MtpDb MtpTable MtpStorage MtpMount.

(** ** Mounting *)

(** The entries of the new table are those of the old one, and roots of the
    storages in [ids]. *)
Definition grows (ids : list Z) (ctx ctx' : mtp_ctx) : Prop :=
  match fs_db ctx, fs_db ctx' with
  | None, None => True
  | Some d, Some d' => forall p e, d_pool d' !! p = Some e -> d_pool d !! p = Some e \/ e_storage e ∈ ids
  | _, _ => False
  end.

Lemma grows_refl ctx ctx' : fs_db ctx' = fs_db ctx -> grows [] ctx ctx'.
Proof. unfold grows. intros ->. destruct (fs_db ctx); [|done]. intros p e E. by left. Qed.

Lemma grows_trans ids ids' ctx ctx1 ctx2 :
  grows ids ctx ctx1 -> grows ids' ctx1 ctx2 -> grows (ids ++ ids') ctx ctx2.
Proof.
  unfold grows. destruct (fs_db ctx) as [d|], (fs_db ctx1) as [d1|], (fs_db ctx2) as [d2|]; try done.
  intros H1 H2 p e [E|Hi]%H2; [destruct (H1 p e E) as [|Hi]; [by left|]|]; right; apply elem_of_app; auto.
Qed.

Lemma add_root_spec mal id ctx :
  session_ok mal ctx ->
  exists ctx', add_root mal id ctx = Some ctx' /\ session_ok mal ctx' /\ storages ctx' = storages ctx /\
    grows [id] ctx ctx'.
Proof.
  unfold session_ok, add_root, grows. destruct (fs_db ctx) as [d|] eqn:D.
  2: { intros _. exists ctx. by rewrite D. }
  intros R. destruct (reachable_ok mal d R) as (l & H & _).
  destruct (alloc_root_spec mal id d l H) as (o & d' & E & Ho).
  assert (reachable mal d') as R'.
  { apply (reach_step mal d (AddRoot id)); [done|done|]. cbn [run_op]. by rewrite E. }
  rewrite E. cbn [mbind option_bind]. eexists. split; [reflexivity|]. split_and!.
  - by destruct ctx.
  - by destruct ctx.
  - assert (fs_db (ctx {{ fs_db := Some d' }}) = Some d') as -> by (by destruct ctx).
    intros p e Ep. destruct o as [q|].
    + destruct Ho as (_ & _ & _ & P & _). rewrite P in Ep.
      apply pool_cons in Ep as [[-> ->]|[_ Ep]]; [right; by apply list_elem_of_singleton|by left].
    + destruct Ho as (_ & C & _). left. assert (d_pool d' = d_pool d) as <- by (unfold content in C; congruence). done.
Qed.

Definition unmounted (s : storage) : bool := negb (Z.land (st_flags s) UMTP_STORAGE_NOTMOUNTED =? 0).

Lemma mount_store_spec mal ctx i n s fl :
  session_ok mal ctx -> used_storage ctx i = Some (n, s) ->
  exists ctx', mount_store mal i fl ctx = Some ctx' /\ session_ok mal ctx' /\
    storages ctx' = (if fl then alter (fun s => s {{ st_flags := Z.ldiff (st_flags s) UMTP_STORAGE_NOTMOUNTED }}) n
                                  (storages ctx) else storages ctx) /\
    grows (if unmounted s then [storage_id s] else []) ctx ctx'.
Proof.
  intros H U. unfold mount_store. rewrite U. fold (unmounted s).
  assert (exists c, (if unmounted s then add_root mal (storage_id s) ctx else Some ctx) = Some c /\ session_ok mal c /\
    storages c = storages ctx /\ grows (if unmounted s then [storage_id s] else []) ctx c) as (c & -> & Hc & Sc & Gc).
  { destruct (unmounted s); [by apply add_root_spec|]. exists ctx. split_and!; [done..|by apply grows_refl]. }
  cbn [mbind option_bind]. eexists. split; [reflexivity|]. unfold session_ok, grows in *.
  destruct fl; [|done]. destruct c. cbn in *. by subst.
Qed.

(** ** Unlocking *)
Definition unlockable_now (s : storage) : bool :=
  used s && (negb (Z.land (st_flags s) UMTP_STORAGE_LOCKABLE =? 0) &&
             negb (Z.land (st_flags s) UMTP_STORAGE_LOCKED =? 0)).
Definition unlock_one (s : storage) : storage :=
  if unlockable_now s then s {{ st_flags := Z.ldiff (st_flags s) UMTP_STORAGE_LOCKED }} else s.
Definition unlocked_id (s : storage) : list Z :=
  if unlockable_now s && unmounted s then [storage_id s] else [].

Lemma unlock_store_spec mal ctx i :
  session_ok mal ctx -> 0 <= i < Z.of_nat MAX_STORAGE_NB ->
  exists ctx', unlock_store mal ctx i = Some ctx' /\ session_ok mal ctx' /\
    storages ctx' = alter unlock_one (Z.to_nat i) (storages ctx) /\ grows (ids_at unlocked_id (storages ctx) i) ctx ctx'.
Proof.
  intros H Hi. unfold unlock_store, ids_at, unlocked_id.
  destruct (used_storage ctx i) as [[n s]|] eqn:U.
  - pose proof (proj1 (used_storage_spec _ _ _ _) U) as (_ & -> & E & Us). rewrite E.
    assert (unlockable_now s = (negb (Z.land (st_flags s) UMTP_STORAGE_LOCKABLE =? 0) &&
      negb (Z.land (st_flags s) UMTP_STORAGE_LOCKED =? 0))) as El by (unfold unlockable_now; by rewrite Us).
    destruct (negb _ && _) eqn:B; rewrite El; cbn [andb].
    + destruct (mount_store_spec mal ctx i _ s false H U) as (c1 & E1 & H1 & S1 & D1). rewrite E1.
      cbn [mbind option_bind]. eexists. split; [reflexivity|].
      destruct (push_store_same MTP_EVENT_STORE_ADDED i (set_flags (Z.to_nat i) (fun f => Z.ldiff f UMTP_STORAGE_LOCKED) c1)) as [PS PD].
      unfold session_ok, grows in *. rewrite PS, PD. split_and!.
      * by destruct c1.
      * transitivity (alter (fun s => s {{ st_flags := Z.ldiff (st_flags s) UMTP_STORAGE_LOCKED }}) (Z.to_nat i) (storages c1));
          [by destruct c1|]. rewrite S1. apply list_eq. intros j. destruct (decide (Z.to_nat i = j)) as [<-|].
        -- rewrite !list_lookup_alter_eq, E. cbn. unfold unlock_one. by rewrite El.
        -- by rewrite !list_lookup_alter_ne.
      * by destruct c1.
    + exists ctx. split_and!; [done|done| |by apply grows_refl]. symmetry. apply alter_id.
      intros x Ex. rewrite E in Ex. injection Ex as <-. unfold unlock_one. by rewrite El.
  - exists ctx. pose proof (unused_storage ctx i Hi U) as Hu. split_and!; [done|done| |].
    + symmetry. apply alter_id. intros x Ex. unfold unlock_one, unlockable_now. by rewrite (Hu x Ex).
    + destruct (storages ctx !! Z.to_nat i) as [s|]; [|by apply grows_refl].
      unfold unlockable_now. rewrite (Hu s eq_refl). by apply grows_refl.
Qed.

Lemma unlock_loop mal ctx :
  session_ok mal ctx -> length (storages ctx) = MAX_STORAGE_NB ->
  exists ctx' l, foldM (unlock_store mal) store_indices ctx = Some ctx' /\ session_ok mal ctx' /\
    (forall j, storages ctx' !! j = unlock_one <$> storages ctx !! j) /\ grows l ctx ctx' /\
    forall x, x ∈ l <-> exists i s, storages ctx !! i = Some s /\ x ∈ unlocked_id s.
Proof.
  apply store_loop; [by intros; apply grows_refl|apply grows_trans|apply unlock_store_spec].
Qed.

(** The two messages, past the tests of the others. *)
Lemma store_lock mal ctx : store_command mal (cstr "lock") ctx = foldM lock_store store_indices ctx.
Proof.
  unfold store_command, mount_command, unmount_command, lock_command, unlock_command.
  change (starts_with (cstr "mount:") (cstr "lock")) with false.
  change (starts_with (cstr "unmount:") (cstr "lock")) with false.
  change (starts_with (cstr "lock") (cstr "lock")) with true.
  change (starts_with (cstr "unlock") (cstr "lock")) with false. cbn [mbind option_bind].
  by destruct (foldM _ _ _).
Qed.

Lemma store_unlock mal ctx : store_command mal (cstr "unlock") ctx = foldM (unlock_store mal) store_indices ctx.
Proof.
  unfold store_command, mount_command, unmount_command, lock_command, unlock_command.
  change (starts_with (cstr "mount:") (cstr "unlock")) with false.
  change (starts_with (cstr "unmount:") (cstr "unlock")) with false.
  change (starts_with (cstr "lock") (cstr "unlock")) with false.
  change (starts_with (cstr "unlock") (cstr "unlock")) with true. reflexivity.
Qed.

Lemma lock_unlock_one s : used s = true -> lockable_now s = true -> unlock_one (lock_one s) = s.
Proof.
  intros U L. unfold lock_one. rewrite L. unfold lockable_now in L. rewrite U in L. cbn [andb] in L.
  apply andb_prop in L as [L1%negb_true_iff%Z.eqb_neq L2%Z.eqb_eq]. unfold unlock_one, unlockable_now, used in *.
  destruct s as [r nm id f u g]. upd. cbn in *. rewrite U. cbn [andb].
  rewrite (proj2 (Z.eqb_neq (Z.land (Z.lor f UMTP_STORAGE_LOCKED) UMTP_STORAGE_LOCKED) 0)) by by apply lor_bit.
  rewrite (proj2 (Z.eqb_neq (Z.land (Z.lor f UMTP_STORAGE_LOCKED) UMTP_STORAGE_LOCKABLE) 0)).
  2: { rewrite Z.land_lor_distr_l. by intros [? _]%Z.lor_eq_0_iff. }
  cbn [negb andb]. f_equal. apply Z.bits_inj'. intros k Hk. rewrite Z.ldiff_spec, Z.lor_spec.
  assert (Z.testbit (Z.land f UMTP_STORAGE_LOCKED) k = false) as B by (rewrite L2; apply Z.testbit_0_l).
  rewrite Z.land_spec in B. by destruct (Z.testbit f k), (Z.testbit UMTP_STORAGE_LOCKED k).
Qed.

(** [mount_store] allocates the root of an unmounted storage only: a locked
    storage was not unmounted, so unlocking restores its flags, and its root
    and objects stay deleted until the session ends. *)
Theorem lock_unlock_hides mal ctx i s :
  session_ok mal ctx -> store_ok ctx -> storages ctx !! i = Some s -> used s = true ->
  lockable_now s = true -> unmounted s = false ->
  exists ctx1 ctx2, store_command mal (cstr "lock") ctx = Some ctx1 /\
    store_command mal (cstr "unlock") ctx1 = Some ctx2 /\ session_ok mal ctx2 /\ storages ctx2 !! i = Some s /\
    forall d p e, fs_db ctx2 = Some d -> d_pool d !! p = Some e -> e_storage e = storage_id s -> live e = false.
Proof.
  intros H Hst Ei U L Un. destruct Hst as [Hlen Hid].
  destruct (lock_loop mal ctx H Hlen) as (c1 & l1 & E1 & H1 & S1 & D1 & I1).
  pose proof (store_ok_map ctx c1 lock_one (conj Hlen Hid) S1 lock_one_same) as [Hlen1 Hid1].
  destruct (unlock_loop mal c1 H1 Hlen1) as (c2 & l2 & E2 & H2 & S2 & D2 & I2).
  exists c1, c2. rewrite store_lock, store_unlock. split_and!; [exact E1|exact E2|exact H2| |].
  - rewrite S2, S1, Ei. cbn. by rewrite lock_unlock_one.
  - intros d2 p e Ed Ep Es. unfold grows in D2. rewrite Ed in D2. unfold shrinks in D1.
    destruct (fs_db c1) as [d1|]; [|done]. destruct (fs_db ctx) as [d|]; [|done].
    destruct (D2 p e Ep) as [Ep1|Hin].
    + rewrite D1 in Ep1. destruct (d_pool d !! p) as [e0|]; [|done]. injection Ep1 as Ee.
      assert (e_storage e0 = storage_id s) as Es0.
      { rewrite <- Es, <- Ee. unfold umounted_all. destruct (_ && _); [by rewrite mark_storage|done]. }
      rewrite <- Ee. unfold umounted_all. rewrite bool_decide_true.
      * rewrite andb_true_r. destruct (live e0) eqn:Lv; [apply mark_deleted_dead|done].
      * apply I1. exists i, s. split; [exact Ei|]. unfold locked_id. rewrite L, Es0. left.
    + apply I2 in Hin as (j & t & Ej & Ht). unfold unlocked_id in Ht.
      destruct (unlockable_now t && unmounted t) eqn:B; [|by apply not_elem_of_nil in Ht].
      apply list_elem_of_singleton in Ht as Et. apply andb_prop in B as [Ul Um].
      unfold unlockable_now in Ul. apply andb_prop in Ul as [Ut _].
      assert (storages c1 !! i = Some (lock_one s)) as Ei1 by (by rewrite S1, Ei).
      destruct (lock_one_same s) as [Eid Eus]. rewrite U in Eus.
      pose proof (Hid1 i _ Ei1 Eus). pose proof (Hid1 j t Ej Ut). assert (j = i) as -> by lia.
      rewrite Ej in Ei1. injection Ei1 as ->. exfalso. revert Um Un. unfold lock_one, unmounted. rewrite L.
      destruct s as [r nm id f u g]. upd. cbn. rewrite Z.land_lor_distr_l. cbn.
      rewrite Z.lor_0_r. congruence.
Qed.

(** ** Every command *)

(** The changes of the context: the messages and the configuration add and
    remove storages, the messages mount and lock, the host opens and closes. *)
Inductive ctx_op :=
  | AddStorage (real : option (list Z)) (copied : bool) (name : list Z) (uid gid flags : Z)
  | RemoveStorage (name : list Z)
  | Message (message : list Z)
  | Open (id : Z)
  | Close.

Definition run_ctx (mal : nat -> bool) (op : ctx_op) (ctx : mtp_ctx) : option mtp_ctx :=
  match op with
  | AddStorage real copied name uid gid flags => Some (snd (mtp_add_storage real copied name uid gid flags ctx))
  | RemoveStorage name => Some (snd (mtp_remove_storage name ctx))
  | Message m => store_command mal m ctx
  | Open id => snd <$> mtp_op_OpenSession mal id ctx
  | Close => snd <$> mtp_op_CloseSession ctx
  end.

(** A command of the message queue or of the host that leaves the storages of
    the table where they are. *)
Definition keeps (mal : nat -> bool) (ctx ctx' : mtp_ctx) : Prop :=
  session_ok mal ctx' /\ exists f, (forall s, storage_id (f s) = storage_id s /\ used (f s) = used s) /\
    length (storages ctx') = length (storages ctx) /\
    forall j s', storages ctx' !! j = Some s' -> exists s, storages ctx !! j = Some s /\ (s' = s \/ s' = f s).

Lemma keeps_refl mal ctx : session_ok mal ctx -> keeps mal ctx ctx.
Proof. intros H. split; [done|]. exists id. split_and!; [done|done|]. intros j s' E. exists s'. split; [done|by left]. Qed.

Lemma keeps_ok mal ctx ctx' : store_ok ctx -> keeps mal ctx ctx' -> store_ok ctx'.
Proof.
  intros [Hl Hid] (_ & f & Hf & El & Hs). split; [congruence|]. intros i s' E U.
  destruct (Hs i s' E) as (s & Es & [->| ->]); [by apply Hid|]. destruct (Hf s) as [-> Hu]. apply Hid; congruence.
Qed.

Lemma keeps_push mal ctx c ev i : keeps mal ctx c -> keeps mal ctx (push_store ev i c).
Proof. destruct (push_store_same ev i c) as [S D]. unfold keeps, session_ok. by rewrite S, D. Qed.

Lemma keeps_alter mal ctx c (f : storage -> storage) n :
  session_ok mal c -> (forall s, storage_id (f s) = storage_id s /\ used (f s) = used s) ->
  storages c = alter f n (storages ctx) -> keeps mal ctx c.
Proof.
  intros H Hf E. split; [done|]. exists f. rewrite E, length_alter. split_and!; [done|done|].
  intros j s' Ej. destruct (decide (n = j)) as [->|Hn].
  - rewrite list_lookup_alter_eq in Ej. destruct (storages ctx !! j) as [s|]; [|done]. injection Ej as <-.
    exists s. split; [done|by right].
  - rewrite list_lookup_alter_ne in Ej by done. exists s'. split; [done|by left].
Qed.

Lemma keeps_map mal ctx c (f : storage -> storage) :
  session_ok mal c -> (forall s, storage_id (f s) = storage_id s /\ used (f s) = used s) ->
  (forall j, storages c !! j = f <$> storages ctx !! j) -> keeps mal ctx c.
Proof.
  intros H Hf E. split; [done|]. exists f. split_and!; [done| |].
  - rewrite <- (length_fmap f (storages ctx)). f_equal. apply list_eq. intros j. by rewrite E, list_lookup_fmap.
  - intros j s' Ej. rewrite E in Ej. destruct (storages ctx !! j) as [s|]; [|done]. injection Ej as <-.
    exists s. split; [done|by right].
Qed.

Lemma unlock_one_same s : storage_id (unlock_one s) = storage_id s /\ used (unlock_one s) = used s.
Proof. unfold unlock_one. destruct (unlockable_now s); by destruct s. Qed.

(** A mounting or unmounting message. *)
Lemma one_store mal ctx (g : mtp_ctx -> option mtp_ctx) i b :
  session_ok mal ctx ->
  (used_storage ctx i = None -> g ctx = Some ctx) ->
  (forall n s, used_storage ctx i = Some (n, s) -> exists c f, g ctx = Some c /\ session_ok mal c /\
     storages c = alter (fun s => s {{ st_flags := f (st_flags s) }}) n (storages ctx)) ->
  exists c, (if 0 <=? i then ctx ← g ctx; Some (push_store b i ctx) else Some ctx) = Some c /\ keeps mal ctx c.
Proof.
  intros H Hn Hs. destruct (0 <=? i); [|exists ctx; split; [done|by apply keeps_refl]].
  destruct (used_storage ctx i) as [[n s]|] eqn:U.
  - destruct (Hs n s eq_refl) as (c & f & -> & Hc & Sc). cbn [mbind option_bind]. eexists. split; [done|].
    apply keeps_push. eapply keeps_alter; [done| |exact Sc]. by intros [].
  - rewrite Hn by done. cbn [mbind option_bind]. eexists. split; [done|]. by apply keeps_push, keeps_refl.
Qed.

Lemma mount_keeps mal m ctx : session_ok mal ctx ->
  exists c, mount_command mal m ctx = Some c /\ keeps mal ctx c.
Proof.
  intros H. unfold mount_command. destruct (starts_with _ m); [|exists ctx; split; [done|by apply keeps_refl]].
  apply (one_store mal ctx (mount_store mal _ true)); [done| |].
  - unfold mount_store. by intros ->.
  - intros n s U. destruct (mount_store_spec mal ctx _ n s true H U) as (c & E & Hc & S & _). by exists c, (fun f => Z.ldiff f UMTP_STORAGE_NOTMOUNTED).
Qed.

Lemma unmount_keeps mal m ctx : session_ok mal ctx ->
  exists c, unmount_command m ctx = Some c /\ keeps mal ctx c.
Proof.
  intros H. unfold unmount_command. destruct (starts_with _ m); [|exists ctx; split; [done|by apply keeps_refl]].
  apply (one_store mal ctx (umount_store _ true)); [done| |].
  - unfold umount_store. by intros ->.
  - intros n s U. destruct (umount_store_spec mal ctx _ n s true H U) as (c & E & Hc & S & _). by exists c, (fun f => Z.lor f UMTP_STORAGE_NOTMOUNTED).
Qed.

Lemma lock_keeps mal m ctx : session_ok mal ctx -> store_ok ctx ->
  exists c, lock_command m ctx = Some c /\ keeps mal ctx c.
Proof.
  intros H [Hl _]. unfold lock_command. destruct (starts_with _ m); [|exists ctx; split; [done|by apply keeps_refl]].
  destruct (lock_loop mal ctx H Hl) as (c & l & E & Hc & S & _). exists c. split; [done|].
  apply (keeps_map mal ctx c lock_one); [done|apply lock_one_same|done].
Qed.

Lemma unlock_keeps mal m ctx : session_ok mal ctx -> store_ok ctx ->
  exists c, unlock_command mal m ctx = Some c /\ keeps mal ctx c.
Proof.
  intros H [Hl _]. unfold unlock_command. destruct (starts_with _ m); [|exists ctx; split; [done|by apply keeps_refl]].
  destruct (unlock_loop mal ctx H Hl) as (c & l & E & Hc & S & _). exists c. split; [done|].
  apply (keeps_map mal ctx c unlock_one); [done|apply unlock_one_same|done].
Qed.

Lemma message_safe mal m ctx : session_ok mal ctx -> store_ok ctx ->
  exists c, store_command mal m ctx = Some c /\ session_ok mal c /\ store_ok c.
Proof.
  intros H Hs. unfold store_command.
  destruct (mount_keeps mal m ctx H) as (c1 & -> & K1). pose proof (keeps_ok _ _ _ Hs K1) as Hs1. cbn [mbind option_bind].
  destruct (unmount_keeps mal m c1 (proj1 K1)) as (c2 & -> & K2). pose proof (keeps_ok _ _ _ Hs1 K2) as Hs2. cbn [mbind option_bind].
  destruct (lock_keeps mal m c2 (proj1 K2) Hs2) as (c3 & -> & K3). pose proof (keeps_ok _ _ _ Hs2 K3) as Hs3. cbn [mbind option_bind].
  destruct (unlock_keeps mal m c3 (proj1 K3) Hs3) as (c4 & -> & K4). exists c4.
  split; [done|]. split; [apply K4|by apply (keeps_ok mal c3)].
Qed.

(** *** Adding and removing storages *)
Lemma store_insert ctx i s :
  store_ok ctx -> (used s = true -> storage_id s = 0xFFFF0001 + Z.of_nat i) ->
  store_ok (ctx {{ storages := <[i := s]> (storages ctx) }}).
Proof.
  intros [Hl Hid] Hs. assert (storages (ctx {{ storages := <[i := s]> (storages ctx) }}) = <[i := s]> (storages ctx))
    as E by (by destruct ctx). unfold store_ok. rewrite E. split; [by rewrite length_insert|].
  intros j t Ej. destruct (decide (i = j)) as [->|Hn].
  - destruct (decide (j < length (storages ctx))%nat) as [Hj|Hj].
    + rewrite list_lookup_insert_eq in Ej by done. by injection Ej as <-.
    + apply lookup_lt_Some in Ej. rewrite length_insert in Ej. lia.
  - rewrite list_lookup_insert_ne in Ej by done. by apply Hid.
Qed.

Lemma free_storage_lt l i : free_storage l = Some i -> (i < length l)%nat.
Proof.
  revert i. induction l as [|s l IH]; intros i; cbn; [done|]. destruct (root_path s).
  - destruct (free_storage l) as [k|]; [|done]. intros [= <-]. specialize (IH k eq_refl). lia.
  - intros [= <-]. lia.
Qed.

Lemma add_storage_safe mal real copied name uid gid flags ctx :
  session_ok mal ctx -> store_ok ctx ->
  session_ok mal (snd (mtp_add_storage real copied name uid gid flags ctx)) /\
  store_ok (snd (mtp_add_storage real copied name uid gid flags ctx)).
Proof.
  intros H Hs. unfold mtp_add_storage. destruct (negb _); [done|].
  destruct (free_storage _) as [i|] eqn:F; [|done].
  assert (i < 16)%nat as Hi.
  { apply free_storage_lt in F. rewrite length_take in F. unfold MAX_STORAGE_NB in F. lia. }
  assert (forall s, session_ok mal (ctx {{ storages := <[i := s]> (storages ctx) }})) as G by (by destruct ctx).
  destruct real as [root|], copied; cbn [snd]; (split; [apply G|apply store_insert; [done|]]); try done.
  intros _. cbn. unfold u32. rewrite Z.mod_small; lia.
Qed.

Lemma remove_storage_safe mal name ctx :
  session_ok mal ctx -> store_ok ctx ->
  session_ok mal (snd (mtp_remove_storage name ctx)) /\ store_ok (snd (mtp_remove_storage name ctx)).
Proof.
  intros H Hs. unfold mtp_remove_storage. destruct (_ <? 0); [done|]. cbn [snd].
  split; [by destruct ctx|]. by apply store_insert.
Qed.

(** *** Opening and closing *)
Lemma open_roots_safe mal l ctx : session_ok mal ctx ->
  exists ctx', open_roots mal l ctx = Some ctx' /\ session_ok mal ctx' /\ storages ctx' = storages ctx.
Proof.
  revert ctx. induction l as [|s l IH]; intros ctx H; cbn [open_roots]; [by exists ctx|].
  destruct (root_path s); [|by exists ctx].
  destruct (add_root_spec mal (storage_id s) ctx H) as (c & -> & Hc & Sc & _). cbn [mbind option_bind].
  destruct (IH c Hc) as (c' & E & Hc' & Sc'). exists c'. split_and!; [done|done|congruence].
Qed.

Lemma open_safe mal id ctx : session_ok mal ctx -> store_ok ctx ->
  exists r ctx', mtp_op_OpenSession mal id ctx = Some (r, ctx') /\ session_ok mal ctx' /\ store_ok ctx'.
Proof.
  intros H Hs. unfold mtp_op_OpenSession. destruct (id =? 0); [by exists (MTP_RESPONSE_INVALID_PARAMETER, []), ctx|].
  destruct (fs_db ctx) as [d|] eqn:D; [by eexists _, ctx|].
  cbn zeta. destruct (mal _).
  - match goal with |- context [open_roots mal ?l ?c0] =>
      destruct (open_roots_safe mal l c0) as (c1 & E1 & H1 & S1); [|rewrite E1] end.
    + destruct ctx; cbn. constructor.
    + cbn [mbind option_bind]. eexists _, c1. split; [done|]. split; [done|].
      unfold store_ok. rewrite S1. by destruct ctx.
  - eexists _, _. split; [done|]. by destruct ctx.
Qed.

Lemma watches_total pool l : (forall p, p ∈ l -> is_Some (pool !! p)) -> is_Some (watches pool l).
Proof.
  induction l as [|p l IH]; intros H; cbn; [by eexists|]. destruct (H p) as [e ->]; [left|].
  destruct IH as [w ->]; [intros q Hq; apply H; by right|]. cbn. by eexists.
Qed.

Lemma deinit_total d l : db_ok d l -> is_Some (deinit_fs_db d).
Proof.
  intros H. unfold deinit_fs_db.
  destruct (foldM_inv (fun _ _ => True) (fun rm i => w ← watches (d_pool d) (node_entries (node_at (d_names d) i));
    Some (rm ++ w)) (seqZ 0 HASH_TABLE_SIZE) []) as (rm & -> & _); [done| |].
  - intros pre i rm _ _. destruct (watches_total (d_pool d) (node_entries (node_at (d_names d) i))) as [w ->].
    + intros p Hp. destruct (ok_names _ _ H i) as (_ & _ & G). destruct (G p Hp) as (e & E & _). by exists e.
    + cbn. by eexists.
  - cbn [mbind option_bind]. destruct (d_list d) as [p|] eqn:L; [|by eexists].
    pose proof (ok_list _ _ H) as Hl. rewrite L in Hl. destruct l as [|q l]; [done|].
    destruct Hl as ([= ->] & e & E & _). rewrite E. cbn. by eexists.
Qed.

Lemma close_safe mal ctx : session_ok mal ctx -> store_ok ctx ->
  exists r ctx', mtp_op_CloseSession ctx = Some (r, ctx') /\ session_ok mal ctx' /\ store_ok ctx' /\ fs_db ctx' = None.
Proof.
  intros H Hs. unfold mtp_op_CloseSession. unfold session_ok in H. destruct (fs_db ctx) as [d|] eqn:D.
  - destruct (reachable_ok mal d H) as (l & Hd & _). destruct (deinit_total d l Hd) as [[rm fd] ->].
    cbn [mbind option_bind]. eexists _, _. split; [done|]. by destruct ctx.
  - eexists _, ctx. split; [done|]. unfold session_ok. by rewrite D.
Qed.

(** The context stays well formed.  From any context whose table is
    reachable and whose storages carry the identifiers of their slots, every
    command (a storage added or removed, any message, a session opened or
    closed, with any allocations failing) ends, without a dangling access, in
    a context of the same kind: an open session's table is always one that the
    table's operations can reach. *)
Theorem sessions_safe mal ctx op :
  session_ok mal ctx -> store_ok ctx ->
  exists ctx', run_ctx mal op ctx = Some ctx' /\ session_ok mal ctx' /\ store_ok ctx'.
Proof.
  intros H Hs. destruct op as [real copied name uid gid flags|name|m|id|]; cbn [run_ctx].
  - eexists. split; [done|]. by apply add_storage_safe.
  - eexists. split; [done|]. by apply remove_storage_safe.
  - by apply message_safe.
  - destruct (open_safe mal id ctx H Hs) as ([c r] & c' & -> & ?). by exists c'.
  - destruct (close_safe mal ctx H Hs) as ([c r] & c' & -> & ? & ? & _). by exists c'.
Qed.

Lemma sessions_safe_witness :
  exists d ctx', demo_db = Some d /\ run_ctx always (Message (cstr "unmount:card")) (demo_ctx (Some d)) = Some ctx' /\
    session_ok always ctx'.
Proof.
  destruct demo_reachable as (d & E & R).
  destruct (sessions_safe always (demo_ctx (Some d)) (Message (cstr "unmount:card")) R (demo_store_ok _)) as (c & Ec & Hc & _).
  exists d, c. split; [exact E|]. split; [exact Ec|exact Hc].
Defined.
