(* ===== verification/MtpScan.v ===== *)
(** * Bringing a folder of the object table up to date

    The directory scan of [fs_handles_db.c]: [fs_entry_stat], the search for
    files and [scan_and_add_folder].  The file system is a parameter, frozen
    for the time of one scan: what [opendir] and [readdir] list, what [stat64]
    answers (a directory or not, and the size), and [realpath]. *)

From Stdlib Require Import Ascii String.
From S2P Require Import Prelude CString MtpHash MtpDb MtpName MtpTable MtpPath.

Definition FS_HANDLE_MAX_FILENAME_SIZE : nat := 256.

Section Files.
Context (stat64 : list Z -> option (bool * Z)) (opendir : list Z -> option (list (list Z))).

(** The index behind the last slash; a slash at index 0 is not seen. *)
Fixpoint name_start (path : list Z) (i : nat) : nat :=
  match i with
  | O => O
  | S j => if nth i path 0 =? 47 then S i else name_start path j
  end.

Definition fs_entry_stat (path : list Z) : option filefoundinfo :=
  match stat64 path with
  | Some (isdir, size) =>
      Some (mkfound isdir (take FS_HANDLE_MAX_FILENAME_SIZE (drop (name_start path (length path)) path)) size)
  | None => None
  end.

(** The next entry that exists, and the rest of the directory. *)
Fixpoint fs_find_next_file (folder : list Z) (dir : list (list Z)) : option (filefoundinfo * list (list Z)) :=
  match dir with
  | [] => None
  | d_name :: dir =>
      match fs_entry_stat (folder ++ [47] ++ d_name) with
      | Some fileinfo => Some (fileinfo, dir)
      | None => fs_find_next_file folder dir
      end
  end.
Definition fs_find_first_file (folder : list Z) : option (filefoundinfo * list (list Z)) :=
  dir ← opendir folder; fs_find_next_file folder dir.

Context (mal : nat -> bool) (show_hidden_files : bool).
Context (root_of : Z -> option (list Z)) (realpath : list Z -> list Z + Z).

(** The test on a file found. *)
Definition listed (f : filefoundinfo) : bool :=
  negb (streq (f_filename f) (cstr "..")) && negb (streq (f_filename f) (cstr ".")) &&
  (show_hidden_files || negb (nth 0 (f_filename f) 0 =? 46)).

(** The loop over the directory, once per file. *)
Fixpoint add_files (fuel : nat) (base : list Z) (parent storage_id : Z) (fileinfo : filefoundinfo)
    (dir : list (list Z)) (d : fs_handles_db) : option fs_handles_db :=
  match fuel with
  | O => None
  | S fuel =>
      d ← (if listed fileinfo then snd <$> add_entry mal fileinfo parent storage_id d else Some d);
      match fs_find_next_file base dir with
      | Some (fileinfo, dir) => add_files fuel base parent storage_id fileinfo dir d
      | None => Some d
      end
  end.

(** The check of one entry of the folder, and the loop over all of them, with
    the watches it removes. *)
Definition check_file (p : Z) (d : fs_handles_db) (rm : list Z) : option (fs_handles_db * list Z) :=
  e ← d_pool d !! p;
  path ← build_full_path root_of realpath (root_of (e_storage e)) p d;
  match path with
  | None => Some (d, rm)
  | Some path =>
      match stat64 path with
      | None => d ← upd_entry mark_deleted p d; Some (d, if e_wd e =? -1 then rm else rm ++ [e_wd e])
      | Some (_, size) => d ← upd_entry (fun e => e {{ e_size := size }}) p d; Some (d, rm)
      end
  end.
Fixpoint check_files (fuel : nat) (d : fs_handles_db) (rm : list Z) : option (fs_handles_db * list Z) :=
  match fuel with
  | O => None
  | S fuel =>
      '(o, d) ← get_next_child_handle d;
      match o with
      | None => Some (d, rm)
      | Some p => '(d, rm) ← check_file p d rm; check_files fuel d rm
      end
  end.

(** The result, the table and the watches removed. *)
Definition scan_and_add_folder (base : list Z) (parent storage_id : Z) (d : fs_handles_db) :
    option (Z * fs_handles_db * list Z) :=
  '(ret, d) ← match fs_find_first_file base with
              | Some (fileinfo, dir) => d ← add_files (S (length dir)) base parent storage_id fileinfo dir d; Some (0, d)
              | None => Some (-1, d)
              end;
  let d := init_search_handle parent storage_id d in
  '(d, rm) ← check_files (S (size (d_pool d))) d [];
  Some (ret, d, rm).
End Files.

(** ** Paths do not change when siblings do *)

(** [d'] is [d] with entries changed that are not above the folder [parent]. *)
Definition same_above (parent : Z) (d d' : fs_handles_db) : Prop :=
  d_handles d' = d_handles d /\ size (d_pool d') = size (d_pool d) /\
  (forall p, is_Some (d_pool d' !! p) <-> is_Some (d_pool d !! p)) /\
  (forall p e e', d_pool d !! p = Some e -> d_pool d' !! p = Some e' ->
     e_name e' = e_name e /\ same_node e e' /\ (e_handle e <= parent -> e' = e)).

Lemma same_above_refl parent d : same_above parent d d.
Proof. split_and!; [done..|]. intros p e e' -> [= ->]. done. Qed.

Lemma first_of_ext pool pool' P l :
  (forall p, p ∈ l -> match pool !! p, pool' !! p with
                      | Some e, Some e' => P e' = P e
                      | None, None => True
                      | _, _ => False
                      end) ->
  first_of pool' P l = first_of pool P l.
Proof.
  induction l as [|p l IH]; intros H; cbn; [done|]. pose proof (H p (list_elem_of_here _ _)) as Hp.
  destruct (pool !! p) as [e|], (pool' !! p) as [e'|]; try done.
  - cbn. rewrite Hp. destruct (P e); [done|]. apply IH. intros q Hq. apply H. by right.
  - cbn. apply IH. intros q Hq. apply H. by right.
Qed.

Lemma by_handle_same root_of h parent d d' l l' :
  db_ok d l -> db_ok d' l' -> same_above parent d d' -> h <= parent ->
  get_entry_by_handle root_of h d' = get_entry_by_handle root_of h d.
Proof.
  intros H H' (Hh & _ & Hd & He) Hle. rewrite (by_handle_first _ _ d l H), (by_handle_first _ _ d' l' H'), Hh.
  f_equal. apply first_of_ext. intros p _. pose proof (Hd p) as Hp.
  destruct (d_pool d !! p) as [e|] eqn:E, (d_pool d' !! p) as [e'|] eqn:E'.
  - destruct (He p e e' E E') as (_ & (Eh & _ & _) & Hs).
    destruct (Z.le_gt_cases (e_handle e) parent) as [Hl|Hl]; [by rewrite Hs|].
    rewrite Eh. rewrite (proj2 (Z.eqb_neq _ h)) by lia. by rewrite !andb_false_r.
  - destruct (proj2 Hp) as [? ?]; [by eexists|done].
  - destruct (proj1 Hp) as [? ?]; [by eexists|done].
  - done.
Qed.

Lemma components_above root_of parent d d' l l' fuel p e :
  db_ok d l -> db_ok d' l' -> same_above parent d d' ->
  d_pool d !! p = Some e -> e_handle e <= parent \/ e_parent e <= parent ->
  components root_of fuel p d' = components root_of fuel p d.
Proof.
  intros H H' S. revert p e. induction fuel as [|fuel IH]; intros p e E Hle; cbn [components]; [done|].
  rewrite E. destruct S as (Hh & Hsz & Hd & He).
  destruct (proj2 (Hd p)) as [e' E']; [by eexists|]. rewrite E'. cbn [mbind option_bind].
  destruct (He p e e' E E') as (En & (Eh & Ep & Ex) & _). rewrite En.
  assert (e_parent e <= parent) as Hpar.
  { destruct Hle as [Hle|Hle]; [|done]. pose proof (ok_tree _ _ H p e E) as Ht. lia. }
  assert (parent_entry root_of e' d' = parent_entry root_of e d) as ->.
  { unfold parent_entry. rewrite Ep. destruct (_ && _); [|done].
    apply (by_handle_same root_of _ parent d d' l l'); done. }
  destruct (parent_entry_spec root_of e d l p H E) as (o & -> & Ho). cbn [mbind option_bind].
  destruct o as [q|]; [|done]. destruct (Ho q eq_refl) as (_ & eq & Eq & Ehq & _).
  rewrite (IH q eq Eq); [done|]. left. lia.
Qed.

(** The path of a child of the folder. *)
Lemma path_same root_of realpath parent d d' l l' p e root :
  db_ok d l -> db_ok d' l' -> same_above parent d d' ->
  d_pool d !! p = Some e -> e_parent e <= parent ->
  build_full_path root_of realpath root p d' = build_full_path root_of realpath root p d.
Proof.
  intros H H' S E Hle. destruct (proj2 (proj1 (proj2 (proj2 S)) p)) as [e' E']; [by eexists|].
  destruct (proj2 (proj2 (proj2 S)) p e e' E E') as (En & _).
  destruct (full_path_spec root_of realpath d l p e H E) as (a & C & N & R).
  destruct (full_path_spec root_of realpath d' l' p e' H' E') as (a' & C' & N' & R').
  assert (path_fuel d' = path_fuel d) as F by (unfold path_fuel; by rewrite (proj1 (proj2 S))).
  rewrite F, (components_above root_of parent d d' l l' _ p e) in C' by (done || by right).
  rewrite C in C'. injection C' as C'. rewrite En in *. apply app_inj_tail in C' as [<- _].
  destruct root; [by rewrite R, R'|by rewrite N, N'].
Qed.

(** ** The second loop *)

(** What the loop does to an entry of the folder whose path is [path]. *)
Definition checked (stat64 : list Z -> option (bool * Z)) (path : option (option (list Z))) (e : fs_entry) : fs_entry :=
  match path with
  | Some (Some path) =>
      match stat64 path with Some (_, size) => e {{ e_size := size }} | None => mark_deleted e end
  | _ => e
  end.

Lemma checked_same stat64 path e : same_node e (checked stat64 path e) /\
  e_name (checked stat64 path e) = e_name e /\ e_storage (checked stat64 path e) = e_storage e.
Proof. unfold checked. destruct path as [[s|]|]; [destruct (stat64 s) as [[]|]|..]; by destruct e. Qed.

Lemma same_above_update parent d d' p e e' :
  d_pool d !! p = Some e -> d_pool d' = <[p := e']> (d_pool d) -> d_handles d' = d_handles d ->
  same_node e e' -> e_name e' = e_name e -> parent < e_handle e -> same_above parent d d'.
Proof.
  intros E P Hh Hs Hn Hlt. split_and!; [done| | |].
  - rewrite P, map_size_insert, E. done.
  - intros q. rewrite P. destruct (decide (q = p)) as [->|]; [rewrite lookup_insert_eq, E|by rewrite lookup_insert_ne].
    split; by eexists.
  - intros q e1 e2 E1 E2. rewrite P in E2. apply pool_cons in E2 as [[-> ->]|[Hq E2]].
    + rewrite E in E1. injection E1 as <-. split_and!; [done|done|]. lia.
    + rewrite E1 in E2. injection E2 as ->. done.
Qed.

(** One update of the loop, as an operation of the table. *)
Lemma check_update mal d l p e :
  reachable mal d -> db_ok d l -> d_pool d !! p = Some e ->
  forall op, op = Delete p \/ (exists sz, op = Resize p sz) ->
  exists d', run_op mal op d = Some d' /\ reachable mal d' /\ db_ok d' l /\
    d_pool d' = <[p := match op with Resize _ sz => e {{ e_size := sz }} | _ => mark_deleted e end]> (d_pool d) /\
    d_list d' = d_list d /\ d_search d' = d_search d /\ d_hsearch d' = d_hsearch d /\
    d_ssearch d' = d_ssearch d /\ d_handles d' = d_handles d.
Proof.
  intros R H E op Hop.
  assert (op_allowed op d) as Ha by (destruct Hop as [->|[sz ->]]; by eexists).
  destruct Hop as [->|[sz ->]]; cbn [run_op] in *.
  - destruct (upd_entry_ok d l p mark_deleted H) as (d' & E' & H' & _); [by eexists|by intros []|].
    exists d'. split; [done|]. split; [by apply (reach_step mal d (Delete p))|]. split; [done|].
    unfold upd_entry in E'. rewrite E in E'. injection E' as <-. by destruct d.
  - destruct (upd_entry_ok d l p (fun e => e {{ e_size := sz }}) H) as (d' & E' & H' & _); [by eexists|by intros []|].
    exists d'. split; [done|]. split; [by apply (reach_step mal d (Resize p sz))|]. split; [done|].
    unfold upd_entry in E'. rewrite E in E'. injection E' as <-. by destruct d.
Qed.

Section Check.
Context (mal : nat -> bool) (stat64 : list Z -> option (bool * Z)).
Context (root_of : Z -> option (list Z)) (realpath : list Z -> list Z + Z) (parent st : Z).

(** The path of an entry, and what the loop makes of it. *)
Definition path_of (d : fs_handles_db) (p : Z) (e : fs_entry) : option (option (list Z)) :=
  build_full_path root_of realpath (root_of (e_storage e)) p d.
Definition settled (d : fs_handles_db) (p : Z) (e : fs_entry) : fs_entry :=
  if child_of parent st e then checked stat64 (path_of d p e) e else e.

(** What the rounds leave alone. *)
Definition kept (d d' : fs_handles_db) : Prop :=
  d_list d' = d_list d /\ d_search d' = d_search d /\ d_hsearch d' = d_hsearch d /\
  d_ssearch d' = d_ssearch d /\ d_handles d' = d_handles d.

Lemma child_above d l p e : db_ok d l -> d_pool d !! p = Some e -> child_of parent st e = true ->
  e_parent e = parent /\ parent < e_handle e.
Proof.
  intros H E C. unfold child_of in C. bprop. destruct (ok_tree _ _ H p e E) as [[? ?]|[? ?]]; [congruence|]. lia.
Qed.

Lemma check_file_spec d l p e rm :
  reachable mal d -> db_ok d l -> d_pool d !! p = Some e -> child_of parent st e = true -> is_Some (path_of d p e) ->
  exists d' rm', check_file stat64 root_of realpath p d rm = Some (d', rm') /\ reachable mal d' /\ db_ok d' l /\
    kept d d' /\ d_pool d' = <[p := checked stat64 (path_of d p e) e]> (d_pool d).
Proof.
  intros R H E C [o Ep]. unfold check_file. rewrite E. cbn [mbind option_bind]. fold (path_of d p e). rewrite Ep.
  cbn [mbind option_bind]. destruct o as [path|].
  2: { exists d, rm. split_and!; [done|done|done|done|]. cbn [checked]. by rewrite insert_id. }
  cbn [checked]. destruct (stat64 path) as [[isdir sz]|].
  - destruct (check_update mal d l p e R H E (Resize p sz)) as (d' & E' & R' & H' & P & K); [by right; eexists|].
    cbn [run_op] in E'. rewrite E'. cbn [mbind option_bind]. exists d', rm. split_and!; [done|done|done| |done].
    unfold kept. tauto.
  - destruct (check_update mal d l p e R H E (Delete p)) as (d' & E' & R' & H' & P & K); [by left|].
    cbn [run_op] in E'. rewrite E'. cbn [mbind option_bind]. eexists d', _. split_and!; [done|done|done| |done].
    unfold kept. tauto.
Qed.

(** The children that are not checked yet keep their paths. *)
Lemma step_stable d d' l l' p e x :
  db_ok d l -> db_ok d' l' -> d_handles d' = d_handles d -> d_pool d !! p = Some e -> child_of parent st e = true ->
  same_node e x -> e_name x = e_name e -> d_pool d' = <[p := x]> (d_pool d) ->
  forall q eq, d_pool d !! q = Some eq -> child_of parent st eq = true -> path_of d' q eq = path_of d q eq.
Proof.
  intros H H' Hh E C Hs Hn P q eq Eq Cq. destruct (child_above d l p e H E C) as [_ Hlt].
  destruct (child_above d l q eq H Eq Cq) as [Hp _]. unfold path_of.
  apply (path_same root_of realpath parent d d' l l' q eq); [done|done| |done|lia].
  apply (same_above_update parent d d' p e x); [exact E|exact P|exact Hh|exact Hs|exact Hn|exact Hlt].
Qed.

Lemma path_of_table d d' l l' p e :
  db_ok d l -> db_ok d' l' -> d_handles d' = d_handles d -> d_pool d' = d_pool d -> d_pool d !! p = Some e ->
  path_of d' p e = path_of d p e.
Proof.
  intros H H' Hh P E. unfold path_of. apply (path_same root_of realpath (e_parent e) d d' l l' p e); [done|done| |done|lia].
  split_and!; [done|by rewrite P|by rewrite P|]. intros q e1 e2 E1 E2. rewrite P, E1 in E2. by injection E2 as ->.
Qed.

Lemma same_table_handles d d' : same_table d d' -> d_handles d' = d_handles d.
Proof. destruct d, d'. unfold same_table. cbn. by intros [= _ _ _ -> _ _ _]. Qed.

Lemma check_files_spec fuel d l l1 l2 rm :
  reachable mal d -> db_ok d l -> l = l1 ++ l2 -> linked (d_pool d) (d_search d) l2 ->
  d_hsearch d = parent -> d_ssearch d = st -> (length l2 < fuel)%nat ->
  (forall p e, p ∈ l2 -> d_pool d !! p = Some e -> child_of parent st e = true -> is_Some (path_of d p e)) ->
  exists d' rm', check_files stat64 root_of realpath fuel d rm = Some (d', rm') /\ reachable mal d' /\ db_ok d' l /\
    d_list d' = d_list d /\ d_handles d' = d_handles d /\
    forall p, d_pool d' !! p = if decide (p ∈ l2) then settled d p <$> d_pool d !! p else d_pool d !! p.
Proof.
  revert d l1 l2 rm. induction fuel as [|fuel IH]; intros d l1 l2 rm R H El Hl2 Hh Hst Hf Hp; [lia|].
  destruct (next_child_ok d l l1 l2 H El Hl2) as (o & d1 & E & H1 & C1 & Eo & Ho).
  assert (reachable mal d1) as R1.
  { apply (reach_step mal d NextChild); [done|done|]. cbn [run_op]. by rewrite E. }
  destruct (same_table_eqs d d1 C1) as (P1 & Q1 & S1 & L1). pose proof (same_table_handles d d1 C1) as K1.
  cbn [check_files]. rewrite E. cbn [mbind option_bind]. rewrite Hh, Hst in Eo. destruct o as [p|].
  2: { exists d1, rm. split_and!; [done|done|done|done|done|]. intros p. rewrite P1. case_decide as Hd; [|done].
       destruct (d_pool d !! p) as [e|] eqn:Ep; [|done]. cbn. unfold settled.
       by rewrite (first_of_none _ _ _ _ _ (eq_sym Eo) Hd Ep). }
  destruct (first_of_some _ _ _ _ (eq_sym Eo)) as (l5 & l6 & e & _ & Ep & Ce & _).
  destruct Ho as (l3 & l4 & E2 & Hl4 & Hno). rewrite Hh, Hst in Hno.
  assert (p ∈ l2) as Hpin by (rewrite E2; apply elem_of_app; right; left).
  assert (d_pool d1 !! p = Some e) as Ep1 by by rewrite P1.
  assert (path_of d1 p e = path_of d p e) as Epath by by apply (path_of_table d d1 l l).
  destruct (check_file_spec d1 l p e rm R1 H1 Ep1 Ce) as (d2 & rm2 & Ec & R2 & H2 & K2 & P2).
  { rewrite Epath. by apply Hp. }
  rewrite Ec. cbn [mbind option_bind]. rewrite Epath, P1 in P2. set (x := checked stat64 (path_of d p e) e) in *.
  destruct K2 as (KL & KS & KH & KT & KN).
  destruct (checked_same stat64 (path_of d p e) e) as (Hsame & Hname & _).
  assert (forall q eq, d_pool d !! q = Some eq -> child_of parent st eq = true -> path_of d2 q eq = path_of d q eq) as Hst2.
  { apply (step_stable d d2 l l p e x); [done|done|congruence|done|done|done|done|done]. }
  pose proof (ok_nodup _ _ H) as N. rewrite El, E2 in N. apply NoDup_app in N as (_ & _ & N).
  apply NoDup_app in N as (_ & N34 & N4). apply NoDup_cons in N4 as [Np4 _].
  assert (forall q, q ∈ l4 -> q <> p) as Hne by (intros q Hq ->; done).
  destruct (IH d2 (l1 ++ l3 ++ [p]) l4 rm2) as (d3 & rm3 & E3 & R3 & H3 & L3 & K3 & P3).
  - exact R2.
  - exact H2.
  - rewrite El, E2, <- !app_assoc. done.
  - rewrite P2, KS. eapply linked_update; [exact Ep|apply Hsame|exact Hl4].
  - congruence.
  - congruence.
  - rewrite E2, length_app in Hf. cbn [length] in Hf. lia.
  - intros q eq Hq Eq Cq. rewrite P2, lookup_insert_ne in Eq by (intros ->; by apply (Hne q)).
    rewrite (Hst2 q eq Eq Cq). apply Hp; [|done|done]. rewrite E2. apply elem_of_app. right. by right.
  - exists d3, rm3. split_and!; [done|done|done|congruence|congruence|]. intros q. rewrite P3, P2, E2.
    assert (forall q, q ∈ l3 -> settled d q <$> d_pool d !! q = d_pool d !! q) as H3s.
    { intros r Hr. specialize (Hno r Hr). destruct (d_pool d !! r) as [er|]; [|done]. cbn in Hno |- *.
      unfold settled. by rewrite Hno. }
    destruct (decide (q = p)) as [->|Hqp].
    + rewrite decide_False, lookup_insert_eq, decide_True, Ep by (done || (apply elem_of_app; right; left)).
      cbn. unfold settled. by rewrite Ce.
    + rewrite lookup_insert_ne by done. destruct (decide (q ∈ l4)) as [Hq4|Hq4].
      * rewrite decide_True by (apply elem_of_app; right; by right). destruct (d_pool d !! q) as [eq|] eqn:Eq; [|done].
        cbn. unfold settled. destruct (child_of parent st eq) eqn:Cq; [|done]. by rewrite (Hst2 q eq Eq Cq).
      * case_decide as Hd; [|done]. apply elem_of_app in Hd as [Hd|Hd]; [by rewrite H3s|].
        apply elem_of_cons in Hd as [->|Hd]; done.
Qed.
End Check.

(** ** The first loop *)

(** The files of a directory that exist, in its order. *)
Definition found (stat64 : list Z -> option (bool * Z)) (base : list Z) (dir : list (list Z)) : list filefoundinfo :=
  omap (fun d_name => fs_entry_stat stat64 (base ++ [47] ++ d_name)) dir.

Section Add.
Context (stat64 : list Z -> option (bool * Z)) (mal : nat -> bool) (show_hidden_files : bool).
Context (base : list Z) (parent st : Z).

Lemma find_next_spec dir :
  match fs_find_next_file stat64 base dir with
  | None => found stat64 base dir = []
  | Some (f, rest) => found stat64 base dir = f :: found stat64 base rest /\ (length rest < length dir)%nat
  end.
Proof.
  induction dir as [|n dir IH]; cbn [fs_find_next_file]; [done|]. unfold found in *. cbn [omap list_omap].
  destruct (fs_entry_stat stat64 (base ++ [47] ++ n)) as [f|]; [split; [done|cbn; lia]|].
  destruct (fs_find_next_file stat64 base dir) as [[f rest]|]; [|done]. destruct IH as [E L]. split; [done|cbn; lia].
Qed.

Definition add_listed (d : fs_handles_db) (f : filefoundinfo) : option fs_handles_db :=
  if listed show_hidden_files f then snd <$> add_entry mal f parent st d else Some d.

Lemma add_files_spec fuel f dir d :
  (length dir < fuel)%nat ->
  add_files stat64 mal show_hidden_files fuel base parent st f dir d = foldM add_listed (f :: found stat64 base dir) d.
Proof.
  revert f dir d. induction fuel as [|fuel IH]; intros f dir d Hf; [lia|]. cbn [add_files foldM].
  unfold add_listed at 1. destruct (if listed _ f then _ else _) as [d1|]; [|done]. cbn [mbind option_bind].
  pose proof (find_next_spec dir) as Hn. destruct (fs_find_next_file stat64 base dir) as [[g rest]|].
  - destruct Hn as [-> Hl]. apply IH. lia.
  - by rewrite Hn.
Qed.

(** What the loop has added after the files [pre]. *)
Record added (d : fs_handles_db) (pre : list filefoundinfo) (d' : fs_handles_db) : Prop := {
  added_reachable : reachable mal d';
  added_next : d_next d' <= d_next d + Z.of_nat (length pre);
  added_size : (size (d_pool d') <= size (d_pool d) + length pre)%nat;
  added_kept : forall p e, d_pool d !! p = Some e -> d_pool d' !! p = Some e;
  added_new : forall p e, d_pool d' !! p = Some e -> d_pool d !! p = Some e \/
    (child_of parent st e = true /\ d_next d <= e_handle e /\
     exists f, f ∈ pre /\ listed show_hidden_files f = true /\ e_name e = f_filename f);
  added_low : d_next d <= d_next d';
  added_live : forall f, f ∈ pre -> listed show_hidden_files f = true -> exists p, live_at d' (f_filename f) parent st p }.

Lemma added_same d pre f d' : added d pre d' -> (listed show_hidden_files f = true -> exists p, live_at d' (f_filename f) parent st p) ->
  added d (pre ++ [f]) d'.
Proof.
  intros [R N S K W Lo L] Hf. split; try done.
  - rewrite length_app. lia.
  - rewrite length_app. lia.
  - intros p e E. destruct (W p e E) as [?|(C & Hh & g & Hg & Hlg & Eg)]; [by left|right]. split_and!; [done|done|]. exists g.
    split_and!; try done. apply elem_of_app. by left.
  - intros g Hg. apply elem_of_app in Hg as [Hg|Hg]; [by apply L|]. by apply list_elem_of_singleton in Hg as ->.
Qed.

Lemma added_step (root_of : Z -> option (list Z)) d pre f d1 :
  (forall k, mal k = true) -> root_of st <> None -> parent = 0 \/ (exists p e, d_pool d !! p = Some e /\ e_handle e = parent) ->
  d_next d + Z.of_nat (length pre) + 1 < 2 ^ 32 -> Z.of_nat (size (d_pool d) + length pre) < 2 ^ 29 - 1 ->
  added d pre d1 -> exists d2, add_listed d1 f = Some d2 /\ added d (pre ++ [f]) d2.
Proof.
  intros Hm Hr Hp Hn Hs A. unfold add_listed. destruct (listed show_hidden_files f) eqn:Hl.
  2: { exists d1. split; [done|]. apply added_same; [done|congruence]. }
  pose proof A as [R N S K W Lo L].
  assert (op_allowed (AddObject f parent st) d1) as Ha.
  { split; [lia|]. destruct Hp as [->|(p & e & E & <-)]; [by left|]. right. exists p, e. split; [by apply K|done]. }
  destruct (add_entry_spec mal d1 f parent st root_of R Hm ltac:(lia) Ha Hr) as (p & d2 & E & Lv & D).
  exists d2. rewrite E. split; [done|].
  destruct D as [[-> _]|(Free & Nx & _ & P & Hh & _)]; [apply added_same; [done|by exists p]|].
  split.
  - apply (reach_step mal d1 (AddObject f parent st)); [done|done|]. cbn [run_op]. by rewrite E.
  - rewrite Nx, length_app. cbn. lia.
  - rewrite P, map_size_insert, Free, length_app. cbn. lia.
  - intros q e Eq. rewrite P. apply K in Eq. rewrite lookup_insert_ne; [done|]. intros ->. congruence.
  - intros q e Eq. rewrite P in Eq. apply pool_cons in Eq as [[-> ->]|[_ Eq]]; [right|].
    2: { destruct (W q e Eq) as [?|(C & Hq & g & Hg & Hlg & Eg)]; [by left|right]. split_and!; [done|done|]. exists g.
         split_and!; try done. apply elem_of_app. by left. }
    split_and!; [|done|exists f; split_and!; [apply elem_of_app; right; apply list_elem_of_here|done|done]].
    unfold child_of. rewrite new_entry_live. cbn. rewrite !Z.eqb_refl. cbn.
    apply negb_true_iff, Z.eqb_neq. destruct Ha as [_ [->|(r & er & Er & <-)]].
    + destruct (reachable_ok mal d1 R) as (l & Hok & _). pose proof (ok_next _ _ Hok). lia.
    + specialize (Hh r er Er). lia.
  - rewrite Nx. lia.
  - intros g Hg Hlg. apply elem_of_app in Hg as [Hg|Hg].
    + destruct (L g Hg Hlg) as (q & eq & Eq & Nq). exists q, eq. split; [|done]. rewrite P.
      rewrite lookup_insert_ne; [done|]. intros ->. congruence.
    + apply list_elem_of_singleton in Hg as ->. by exists p.
Qed.

Lemma add_loop (root_of : Z -> option (list Z)) d files :
  reachable mal d -> (forall k, mal k = true) -> root_of st <> None ->
  parent = 0 \/ (exists p e, d_pool d !! p = Some e /\ e_handle e = parent) ->
  d_next d + Z.of_nat (length files) < 2 ^ 32 -> Z.of_nat (size (d_pool d) + length files) < 2 ^ 29 ->
  exists d', foldM add_listed files d = Some d' /\ added d files d'.
Proof.
  intros R Hm Hr Hp Hn Hs. apply (foldM_inv_at (added d)).
  - split; [done|cbn; lia|cbn; lia|done|by intros; left|done|]. intros f Hf. by apply elem_of_nil in Hf.
  - intros pre f post d1 E A. subst files. rewrite length_app in Hn, Hs. cbn [length] in Hn, Hs.
    apply (added_step root_of d pre f d1); [done|done|done|lia|lia|done].
Qed.

(** The folders above keep their paths. *)
Lemma by_handle_grown (root_of : Z -> option (list Z)) d l d' l' pre h :
  db_ok d l -> indexed d -> db_ok d' l' -> indexed d' -> added d pre d' -> h <> 0 -> h < d_next d ->
  get_entry_by_handle root_of h d' = get_entry_by_handle root_of h d.
Proof.
  intros H Hi H' Hi' A H0 Hn. rewrite (by_handle_first root_of h d l H). destruct (first_of (d_pool d) _ _) as [p|] eqn:F.
  - destruct (first_of_some _ _ _ _ F) as (_ & _ & e & _ & E & Pe & _). bprop.
    match goal with Hh : e_handle e = h |- _ => rewrite <- Hh in * end.
    apply (by_handle_exact root_of d' l' p e); [done|done|by apply (added_kept _ _ _ A)|done|done|].
    intros Er. by rewrite Er in *.
  - rewrite (by_handle_first root_of h d' l' H'). f_equal. destruct (first_of (d_pool d') _ _) as [q|] eqn:F'; [|done].
    destruct (first_of_some _ _ _ _ F') as (_ & _ & e & _ & E & Pe & _). bprop.
    destruct (added_new _ _ _ A q e E) as [E0|(_ & Hge & _)]; [|lia].
    assert (root_of (e_storage e) <> None) as Hr by (intros Er; by rewrite Er in *).
    match goal with Hh : e_handle e = h |- _ => rewrite <- Hh in * end.
    pose proof (by_handle_exact root_of d l q e H Hi E0 ltac:(done) H0 Hr) as G.
    rewrite (by_handle_first root_of _ d l H), F in G. done.
Qed.

Lemma components_grown (root_of : Z -> option (list Z)) d l d' l' pre fuel p a :
  db_ok d l -> indexed d -> db_ok d' l' -> indexed d' -> added d pre d' ->
  components root_of fuel p d = Some a -> components root_of fuel p d' = Some a.
Proof.
  intros H Hi H' Hi' A. revert p a. induction fuel as [|fuel IH]; intros p a; cbn [components]; [done|].
  destruct (d_pool d !! p) as [e|] eqn:E; [|done]. rewrite (added_kept _ _ _ A p e E). cbn [mbind option_bind].
  assert (parent_entry root_of e d' = parent_entry root_of e d) as ->.
  { unfold parent_entry. destruct (negb (e_parent e =? 0) && negb (e_parent e =? NO_PARENT)) eqn:Hc; [|done]. bprop.
    apply (by_handle_grown root_of d l d' l' pre); [done..|]. destruct (ok_tree _ _ H p e E) as [[_ ?]|[? ?]]; [done|lia]. }
  destruct (parent_entry root_of e d) as [[q|]|]; [|done..]. cbn [mbind option_bind].
  destruct (components root_of fuel q d) as [b|] eqn:Eb; [|done]. by rewrite (IH q b Eb).
Qed.

Lemma folder_grown (root_of : Z -> option (list Z)) d l d' l' pre folder :
  db_ok d l -> indexed d -> db_ok d' l' -> indexed d' -> added d pre d' -> parent < d_next d ->
  folder_path root_of parent st d = Some folder -> folder_path root_of parent st d' = Some folder.
Proof.
  intros H Hi H' Hi' A Hp. unfold folder_path. destruct (root_of st) as [root|]; [|done]. cbn [mbind option_bind].
  assert ((if negb (parent =? 0) && negb (parent =? NO_PARENT) then get_entry_by_handle root_of parent d' else Some None) =
    (if negb (parent =? 0) && negb (parent =? NO_PARENT) then get_entry_by_handle root_of parent d else Some None)) as ->.
  { destruct (negb (parent =? 0) && negb (parent =? NO_PARENT)) eqn:Hc; [|done]. bprop.
    by apply (by_handle_grown root_of d l d' l' pre). }
  destruct (if _ : bool then _ else _) as [[q|]|]; [|done..]. cbn [mbind option_bind].
  destruct (components root_of (path_fuel d) q d) as [a|] eqn:E; [|done]. cbn [mbind option_bind].
  apply (components_grown root_of d l d' l' pre) in E; [|done..].
  assert (size (d_pool d) <= size (d_pool d'))%nat as Hs.
  { rewrite <- !size_dom. apply subseteq_size. intros r [e Er]%elem_of_dom. apply elem_of_dom. exists e.
    by apply (added_kept _ _ _ A). }
  rewrite (components_more _ _ (path_fuel d') _ _ _ E) by (unfold path_fuel; lia). done.
Qed.
End Add.

(** ** The whole scan *)

(** The folder's objects, those of the table and those of the listing, have paths:
    a name that nothing in the folder has any more is one [sanitize_name]
    accepts, and then the folder itself is there. *)
Definition folder_resolves (root_of : Z -> option (list Z)) (realpath : list Z -> list Z + Z) (show_hidden : bool)
    (parent st : Z) (files : list filefoundinfo) (d : fs_handles_db) : Prop :=
  exists folder, folder_path root_of parent st d = Some folder /\
    (forall p e, d_pool d !! p = Some e -> child_of parent st e = true -> name_resolves realpath folder (e_name e) = true) /\
    (forall f, f ∈ files -> listed show_hidden f = true -> name_resolves realpath folder (f_filename f) = true).

(** A folder that is there, with names the check accepts, is enough. *)
Lemma folder_resolves_if root_of realpath show_hidden parent st files d folder s :
  folder_path root_of parent st d = Some folder -> realpath folder = inl s ->
  (forall p e, d_pool d !! p = Some e -> child_of parent st e = true ->
     snd (sanitize_name (Some (e_name e)) (strlen (e_name e))) = 1) ->
  (forall f, f ∈ files -> listed show_hidden f = true ->
     snd (sanitize_name (Some (f_filename f)) (strlen (f_filename f))) = 1) ->
  folder_resolves root_of realpath show_hidden parent st files d.
Proof.
  intros F Hr Hd Hf. assert (forall name, snd (sanitize_name (Some name) (strlen name)) = 1 -> name_resolves realpath folder name = true) as G.
  { intros name Hn. unfold name_resolves. rewrite Hr, Hn. by repeat case_match. }
  exists folder. split_and!; [done| |]; intros; apply G; eauto.
Qed.

Lemma checked_child stat64 path parent st e :
  child_of parent st (checked stat64 path e) = true ->
  match path with
  | Some (Some s) => exists isdir, stat64 s = Some (isdir, e_size (checked stat64 path e))
  | _ => True
  end.
Proof.
  unfold checked. destruct path as [[s|]|]; [|done..]. destruct (stat64 s) as [[isdir sz]|].
  - intros _. exists isdir. by destruct e.
  - unfold child_of. by rewrite mark_deleted_dead.
Qed.


Section Whole.
Context (mal : nat -> bool) (stat64 : list Z -> option (bool * Z)) (opendir : list Z -> option (list (list Z))).
Context (show_hidden : bool) (root_of : Z -> option (list Z)) (realpath : list Z -> list Z + Z).
Context (base : list Z) (parent st : Z).

(** The first loop, with the result of the function. *)
Lemma scan_files_loop d :
  reachable mal d -> (forall k, mal k = true) -> root_of st <> None ->
  parent = 0 \/ (exists p e, d_pool d !! p = Some e /\ e_handle e = parent) ->
  let files := found stat64 base (default [] (opendir base)) in
  d_next d + Z.of_nat (length files) < 2 ^ 32 -> Z.of_nat (size (d_pool d) + length files) < 2 ^ 29 ->
  exists d1, (match fs_find_first_file stat64 opendir base with
      | Some (fileinfo, dir) =>
          d ← add_files stat64 mal show_hidden (S (length dir)) base parent st fileinfo dir d; Some (0, d)
      | None => Some (-1, d)
      end) = Some (match files with [] => -1 | _ => 0 end, d1) /\ added mal show_hidden parent st d files d1.
Proof.
  intros R Hm Hr Hp files Hn Hs. unfold fs_find_first_file, files in *.
  destruct (opendir base) as [dir|]; cbn [mbind option_bind].
  - pose proof (find_next_spec stat64 base dir) as Hf. change (default [] (Some dir)) with dir in *.
    destruct (fs_find_next_file stat64 base dir) as [[f rest]|].
    + destruct Hf as [Ef Hl]. rewrite Ef in *.
      destruct (add_loop mal show_hidden parent st root_of d (f :: found stat64 base rest)) as (d1 & E & A); try done.
      exists d1. rewrite add_files_spec by lia. by rewrite E.
    + rewrite Hf in *. exists d. split; [done|].
      by destruct (add_loop mal show_hidden parent st root_of d []) as (d1 & [= <-] & A).
  - exists d. split; [done|].
    by destruct (add_loop mal show_hidden parent st root_of d []) as (d1 & [= <-] & A).
Qed.

(** The second one. *)
Lemma scan_check_loop d1 :
  reachable mal d1 ->
  (forall p e, d_pool d1 !! p = Some e -> child_of parent st e = true -> is_Some (path_of root_of realpath d1 p e)) ->
  exists d3 rm,
    check_files stat64 root_of realpath (S (size (d_pool (init_search_handle parent st d1))))
      (init_search_handle parent st d1) [] = Some (d3, rm) /\ reachable mal d3 /\
    (forall p, d_pool d3 !! p = settled stat64 root_of realpath parent st d1 p <$> d_pool d1 !! p) /\
    (forall p e, d_pool d1 !! p = Some e -> child_of parent st e = true ->
       path_of root_of realpath d3 p (checked stat64 (path_of root_of realpath d1 p e) e) = path_of root_of realpath d1 p e).
Proof.
  intros R1 Hpe. destruct (reachable_ok mal _ R1) as (l & H1 & _). pose proof (search_ok parent st d1 l H1) as H2.
  assert (reachable mal (init_search_handle parent st d1)) as R2 by by apply (reach_step mal d1 (StartSearch parent st)).
  set (d2 := init_search_handle parent st d1) in *.
  assert (d_pool d2 = d_pool d1 /\ d_handles d2 = d_handles d1 /\ d_search d2 = d_list d1) as (P2 & N2 & S2) by (by destruct d1).
  destruct (check_files_spec mal stat64 root_of realpath parent st (S (size (d_pool d2))) d2 l [] l [] R2 H2 eq_refl)
    as (d3 & rm & E3 & R3 & H3 & _ & K3 & P3); try (by destruct d1).
  { rewrite S2, P2. apply (ok_list _ _ H1). }
  { pose proof (pool_size d2 l H2). lia. }
  { intros p e _ Ep Ce. rewrite P2 in Ep. rewrite (path_of_table root_of realpath d1 d2 l l p e H1 H2 N2 P2 Ep). by apply Hpe. }
  assert (forall p, d_pool d3 !! p = settled stat64 root_of realpath parent st d1 p <$> d_pool d1 !! p) as P.
  { intros p. rewrite P3, P2. destruct (d_pool d1 !! p) as [e|] eqn:Ep; [|by case_decide].
    rewrite decide_True by (apply (ok_dom _ _ H1); by eexists). cbn [fmap option_fmap option_map]. unfold settled.
    pose proof (path_of_table root_of realpath d1 d2 l l p e H1 H2 N2 P2 Ep) as ->. done. }
  exists d3, rm. split_and!; [done|done|exact P|]. intros p e Ep Ce. unfold path_of at 1.
  destruct (checked_same stat64 (path_of root_of realpath d1 p e) e) as (_ & _ & ->).
  apply (path_same root_of realpath parent d1 d3 l l p e); [done|done| |done|].
  - split_and!; [congruence| | |].
    + rewrite <- !size_dom. f_equal. apply set_eq. intros q. rewrite !elem_of_dom, P. by rewrite fmap_is_Some.
    + intros q. by rewrite P, fmap_is_Some.
    + intros q e1 e2 E1 E2. rewrite P, E1 in E2. injection E2 as <-. unfold settled.
      destruct (child_of parent st e1) eqn:C1; [|by split_and!].
      destruct (checked_same stat64 (path_of root_of realpath d1 q e1) e1) as (? & ? & _). split_and!; [done|done|].
      destruct (child_above parent st d1 l q e1 H1 E1 C1). lia.
  - destruct (child_above parent st d1 l p e H1 Ep Ce). lia.
Qed.

(** After the listing no object of the folder has a path that crashes. *)
Lemma listing_paths d files d1 :
  reachable mal d -> (forall k, mal k = true) -> parent = 0 \/ (exists p e, d_pool d !! p = Some e /\ e_handle e = parent) ->
  folder_resolves root_of realpath show_hidden parent st files d -> Z.of_nat (size (d_pool d) + length files) < 2 ^ 29 ->
  added mal show_hidden parent st d files d1 ->
  forall p e, d_pool d1 !! p = Some e -> child_of parent st e = true -> is_Some (path_of root_of realpath d1 p e).
Proof.
  intros R Hm Hp (folder & F & Hd & Hf) Hs A p e E C. destruct (reachable_ok mal d R) as (l & H & Hi).
  destruct (reachable_ok mal d1 (added_reachable _ _ _ _ _ _ _ A)) as (l1 & H1 & Hi1).
  pose proof (pool_size d l H). pose proof (pool_size d1 l1 H1). pose proof (added_size _ _ _ _ _ _ _ A).
  specialize (Hi Hm ltac:(lia)). specialize (Hi1 Hm ltac:(lia)).
  assert (parent < d_next d) as Hn.
  { destruct Hp as [->|(q & eq & Eq & <-)]; [pose proof (ok_next _ _ H); lia|]. by apply (handles_below d l q). }
  apply (folder_grown mal show_hidden parent st root_of d l d1 l1 files) in F; [|done..].
  assert (name_resolves realpath folder (e_name e) = true) as Hr.
  { destruct (added_new _ _ _ _ _ _ _ A p e E) as [E0|(_ & _ & f & Hin & Hl & ->)]; [by apply (Hd p e)|by apply Hf]. }
  assert (e_parent e = parent /\ e_storage e = st) as [<- <-] by (unfold child_of in C; bprop; done).
  unfold path_of. destruct (build_full_path _ _ _ _ _) eqn:Ep; [by eexists|].
  apply (child_path root_of realpath d1 l1 p e folder H1 E F) in Ep. congruence.
Qed.

(** The scan ends in a reachable table with all the entries it had. *)
Lemma scan_ends d :
  reachable mal d -> (forall k, mal k = true) -> root_of st <> None ->
  parent = 0 \/ (exists p e, d_pool d !! p = Some e /\ e_handle e = parent) ->
  let files := found stat64 base (default [] (opendir base)) in
  folder_resolves root_of realpath show_hidden parent st files d ->
  d_next d + Z.of_nat (length files) < 2 ^ 32 -> Z.of_nat (size (d_pool d) + length files) < 2 ^ 29 ->
  exists d' rm, scan_and_add_folder stat64 opendir mal show_hidden root_of realpath base parent st d =
      Some (match files with [] => -1 | _ => 0 end, d', rm) /\ reachable mal d' /\
    (forall p, is_Some (d_pool d !! p) -> is_Some (d_pool d' !! p)).
Proof.
  intros R Hm Hr Hp files Hf Hn Hs. unfold scan_and_add_folder.
  destruct (scan_files_loop d R Hm Hr Hp Hn Hs) as (d1 & -> & A). pose proof A as [R1 _ _ K1 _ _ _]. cbn [mbind option_bind].
  destruct (scan_check_loop d1 R1 (listing_paths d files d1 R Hm Hp Hf Hs A)) as (d3 & rm & -> & R3 & P & _). cbn [mbind option_bind].
  exists d3, rm. split_and!; [done|done|]. intros p [e E]. rewrite P, (K1 p e E). by eexists.
Qed.
End Whole.

(** C26: scanning a folder brings the table up to date with the file system.
    For a folder of any reachable table, when memory and handles suffice and
    the folder's objects have paths (it is enough that the folder is there and
    the names are accepted by the check, whether the files are there or not),
    the scan ends.  Afterwards every visible file of
    the directory has an object in the folder, live unless its own path has no
    file; every live object of the folder with a path in the storage stands for
    a file that exists and has the file's size; and the objects of other
    folders are as before.  The result is 0 exactly when the directory could be
    read and was not empty. *)
Theorem scan_updates_folder mal stat64 opendir show_hidden root_of realpath base parent st d :
  reachable mal d -> (forall k, mal k = true) -> root_of st <> None ->
  parent = 0 \/ (exists p e, d_pool d !! p = Some e /\ e_handle e = parent) ->
  let files := found stat64 base (default [] (opendir base)) in
  folder_resolves root_of realpath show_hidden parent st files d ->
  d_next d + Z.of_nat (length files) < 2 ^ 32 -> Z.of_nat (size (d_pool d) + length files) < 2 ^ 29 ->
  exists r d' rm,
    scan_and_add_folder stat64 opendir mal show_hidden root_of realpath base parent st d = Some (r, d', rm) /\
    reachable mal d' /\ r = (match files with [] => -1 | _ => 0 end) /\
    (forall f, f ∈ files -> listed show_hidden f = true -> exists p e,
       d_pool d' !! p = Some e /\ e_name e = f_filename f /\ e_parent e = parent /\ e_storage e = st /\
       (live e = true \/ exists s, path_of root_of realpath d' p e = Some (Some s) /\ stat64 s = None)) /\
    (forall p e, d_pool d' !! p = Some e -> child_of parent st e = true ->
       exists o, path_of root_of realpath d' p e = Some o /\
         forall s, o = Some s -> exists isdir, stat64 s = Some (isdir, e_size e)) /\
    (forall p e, d_pool d !! p = Some e -> child_of parent st e = false -> d_pool d' !! p = Some e).
Proof.
  intros R Hm Hr Hp files Hres Hn Hs. unfold scan_and_add_folder.
  destruct (scan_files_loop mal stat64 opendir show_hidden root_of base parent st d R Hm Hr Hp Hn Hs)
    as (d1 & -> & A). pose proof A as [R1 _ _ K1 W1 _ L1]. cbn [mbind option_bind].
  pose proof (listing_paths mal show_hidden root_of realpath parent st d files d1 R Hm Hp Hres Hs A) as Hpe.
  destruct (scan_check_loop mal stat64 root_of realpath parent st d1 R1 Hpe) as (d3 & rm & -> & R3 & P & Hpath).
  cbn [mbind option_bind]. eexists _, d3, rm. split_and!; [done|done|done| | |].
  - intros f Hf Hl. destruct (L1 f Hf Hl) as (p & e & Ep & Hnm). destruct (named_spec _ _ _ _ Hnm) as (En & Epar & Est & Lv).
    assert (child_of parent st e = true \/ settled stat64 root_of realpath parent st d1 p e = e) as Hc.
    { unfold settled. destruct (child_of parent st e); [by left|by right]. }
    exists p, (settled stat64 root_of realpath parent st d1 p e). rewrite P, Ep. split; [done|].
    destruct Hc as [Ce| ->]; [|by split_and!; try left]. unfold settled. rewrite Ce.
    destruct (checked_same stat64 (path_of root_of realpath d1 p e) e) as ((_ & Ep' & _) & En' & Es').
    split_and!; [congruence|congruence|congruence|]. rewrite (Hpath p e Ep Ce). unfold checked.
    destruct (path_of root_of realpath d1 p e) as [[s|]|]; [|by left..].
    destruct (stat64 s) as [[isdir sz]|] eqn:Es; [left; by destruct e|right; by exists s].
  - intros p e Ep Ce. rewrite P in Ep. destruct (d_pool d1 !! p) as [e1|] eqn:E1; [|done]. injection Ep as <-.
    unfold settled in *. destruct (child_of parent st e1) eqn:C1; [|change (child_of parent st e1 = true) in Ce; congruence]. rewrite (Hpath p e1 E1 C1).
    destruct (Hpe p e1 E1 C1) as [o Eo]. exists o. split; [done|]. intros s ->.
    pose proof (checked_child stat64 _ _ _ _ Ce) as G. rewrite Eo in G. rewrite Eo. exact G.
  - intros p e Ep Ce. rewrite P, (K1 p e Ep). cbn. unfold settled. by rewrite Ce.
Qed.

(** The scan of a folder with an object whose file is gone; the directory shows
    a new file, a hidden one, and one that is gone when it is looked at. *)
Definition demo_stat (path : list Z) : option (bool * Z) :=
  if streq path (cstr "/mnt/d/new") then Some (false, 7) else if streq path (cstr "/mnt/d/.hid") then Some (false, 1) else None.
Definition demo_dir (folder : list Z) : option (list (list Z)) :=
  if streq folder (cstr "/mnt/d") then Some [cstr "new"; cstr "odd"; cstr ".hid"] else None.
Definition demo_real (path : list Z) : list Z + Z :=
  if streq path (cstr "/mnt/d") || streq path (cstr "/mnt/d/") then inl (cstr "/mnt/d")
  else match demo_stat path with Some _ => inl path | None => inr ENOENT end.
Definition demo_old : option fs_handles_db :=
  d ← demo_db; snd <$> add_entry always (mkfound false (cstr "old") 5) 1 0xFFFF0001 d.
Definition demo_scan (d : fs_handles_db) : option (Z * fs_handles_db * list Z) :=
  scan_and_add_folder demo_stat demo_dir always false (fun _ => Some (cstr "/mnt")) demo_real (cstr "/mnt/d") 1 0xFFFF0001 d.

Lemma demo_old_reachable : exists d, demo_old = Some d /\ reachable always d /\ live_at d (cstr "old") 1 0xFFFF0001 1020.
Proof.
  destruct demo_reachable as (d & E & R). unfold demo_old. rewrite E. cbn [mbind option_bind].
  destruct (add_entry always (mkfound false (cstr "old") 5) 1 0xFFFF0001 d) as [[o d']|] eqn:A; cbn [fmap option_fmap option_map].
  - exists d'. split; [done|]. vm_compute in E. injection E as E. split.
    + apply (reach_step always d (AddObject (mkfound false (cstr "old") 5) 1 0xFFFF0001)); [exact R| |].
      * rewrite <- E. split; [vm_compute; reflexivity|]. right. exists 1022. eexists. split; reflexivity.
      * cbn [run_op]. by rewrite A.
    + rewrite <- E in A. vm_compute in A. injection A as _ <-. eexists. split; vm_compute; reflexivity.
  - exfalso. vm_compute in E. injection E as E. rewrite <- E in A. vm_compute in A. discriminate A.
Qed.

Lemma pool_check (P : Z -> fs_entry -> bool) (m : gmap Z fs_entry) :
  forallb (fun x => P (fst x) (snd x)) (map_to_list m) = true -> forall p e, m !! p = Some e -> P p e = true.
Proof. intros H p e E. apply elem_of_map_to_list, list_elem_of_In in E. rewrite forallb_forall in H. exact (H _ E). Qed.

Lemma demo_resolves root_of d : root_of 0xFFFF0001 = Some (cstr "/mnt") -> demo_old = Some d \/ demo_db = Some d ->
  folder_resolves root_of demo_real false 1 0xFFFF0001 (found demo_stat (cstr "/mnt/d") (default [] (demo_dir (cstr "/mnt/d")))) d.
Proof.
  intros Hr E. assert (exists d0, (demo_old = Some d0 \/ demo_db = Some d0) /\ d0 = d) as (d0 & E0 & <-) by by exists d.
  exists (cstr "/mnt/d/"). split_and!.
  - unfold folder_path. rewrite Hr. cbn [mbind option_bind].
    assert (get_entry_by_handle root_of 1 d0 = Some (Some 1022) /\ components root_of (path_fuel d0) 1022 d0 = Some [[100]]) as [G C].
    { vm_compute in Hr. destruct E0 as [E0|E0]; vm_compute in E0; injection E0 as <-; vm_compute; rewrite Hr; split; reflexivity. }
    change (negb (1 =? 0) && negb (1 =? NO_PARENT)) with true. cbn iota. rewrite G. cbn [mbind option_bind]. rewrite C. reflexivity.
  - assert (forall p e, d_pool d0 !! p = Some e -> negb (child_of 1 0xFFFF0001 e) || name_resolves demo_real (cstr "/mnt/d/") (e_name e) = true) as G.
    { apply pool_check. destruct E0 as [E0|E0]; vm_compute in E0; injection E0 as <-; vm_compute; reflexivity. }
    intros p e Ep C. specialize (G p e Ep). by rewrite C in G.
  - intros f Hf _. assert (forallb (fun f => name_resolves demo_real (cstr "/mnt/d/") (f_filename f))
      (found demo_stat (cstr "/mnt/d") (default [] (demo_dir (cstr "/mnt/d")))) = true) as G by (vm_compute; reflexivity).
    rewrite forallb_forall in G. by apply G, list_elem_of_In.
Qed.

Lemma scan_updates_folder_witness : exists d d' rm, demo_old = Some d /\ demo_scan d = Some (0, d', rm) /\
  (exists p e, d_pool d' !! p = Some e /\ e_name e = cstr "new" /\ e_parent e = 1) /\
  (forall e, d_pool d' !! 1020 = Some e -> e_name e = cstr "old" /\ child_of 1 0xFFFF0001 e = false).
Proof.
  destruct demo_old_reachable as (d & E & R & _). exists d. pose proof (demo_resolves (fun _ => Some (cstr "/mnt")) d eq_refl (or_introl E)) as Hres. vm_compute in E. injection E as E.
  destruct (scan_updates_folder always demo_stat demo_dir false (fun _ => Some (cstr "/mnt")) demo_real (cstr "/mnt/d") 1 0xFFFF0001 d R)
    as (r & d' & rm & H & _ & Hr & Hf & _).
  - reflexivity.
  - discriminate.
  - right. rewrite <- E. exists 1022. eexists. split; reflexivity.
  - exact Hres.
  - rewrite <- E. vm_compute. reflexivity.
  - rewrite <- E. vm_compute. reflexivity.
  - vm_compute in Hr. subst r. exists d', rm. split; [rewrite <- E; vm_compute; reflexivity|]. split; [exact H|]. split.
    + destruct (Hf (mkfound false (cstr "new") 7)) as (p & e & Ep & En & Epar & _).
      * vm_compute. apply list_elem_of_here.
      * vm_compute. reflexivity.
      * exists p, e. split; [exact Ep|]. split; [exact En|exact Epar].
    + rewrite <- E in H. vm_compute in H. injection H as <- _. intros e Ee. vm_compute in Ee. injection Ee as <-. split; vm_compute; reflexivity.
Defined.
