(* ===== verification/MtpFile.v ===== *)
(** * Opening objects and sending their data

    [entry_open], [entry_read] and [entry_close] of [fs_handles_db.c],
    [send_file_data] of [mtp_ops_helpers.c] and the zero-length packet of
    [mtp.c].  The file system's [open] and [read] are parameters. *)

From Stdlib Require Import Ascii String.
From S2P Require Import Prelude CString MtpData MtpHash MtpDb MtpTable MtpPath MtpStorage MtpMount.

(** [n] bytes read at [i]; outside the buffer the access is undefined. *)
Definition get_bytes (b : list Z) (i n : Z) : option (list Z) :=
  if (0 <=? i) && (0 <=? n) && (i + n <=? strlen b) then Some (take (Z.to_nat n) (drop (Z.to_nat i) b)) else None.

Section Open.
Context (may_uid may_gid : Z -> bool) (realpath : list Z -> list Z + Z).
(** The answer of [open]: a descriptor or -1. *)
Context (open : list Z -> Z).

(** The descriptor, the table and the ids after the call. *)
Definition entry_open (ctx : mtp_ctx) (ids : fsids) (p : Z) (d : fs_handles_db) :
    option (Z * fs_handles_db * fsids) :=
  e ← d_pool d !! p;
  if 0 <? e_fd e then Some (e_fd e, d, ids)
  else
    full_path ← build_full_path (mtp_get_storage_root ctx) realpath (mtp_get_storage_root ctx (e_storage e)) p d;
    '(d, ids) ← match full_path with
                | None => Some (d, ids)
                | Some full_path =>
                    let '(ret, ids) := set_storage_giduid may_uid may_gid ctx (e_storage e) ids in
                    d ← (if ret =? 0 then upd_entry (fun e => e {{ e_fd := open full_path }}) p d else Some d);
                    Some (d, snd (restore_giduid may_uid may_gid ctx ids))
                end;
    e ← d_pool d !! p;
    Some (e_fd e, d, ids).
End Open.

(** The descriptors closed are the second part. *)
Definition entry_close (p : Z) (d : fs_handles_db) : option (fs_handles_db * list Z) :=
  e ← d_pool d !! p;
  d ← upd_entry (fun e => e {{ e_fd := -1 }}) p d;
  Some (d, if e_fd e =? -1 then [] else [e_fd e]).

(** ** Sending a file *)
Definition HEADER_SIZE : Z := 12.

(** The packet that ends a transfer, if it is needed. *)
Definition check_and_send_USB_ZLP (max_packet_size size : Z) : list (list Z) :=
  if (max_packet_size <=? size) && (size mod max_packet_size =? 0) then [[]] else [].

Definition usable_size (offset maxsize size : Z) : Z :=
  if size <=? offset then 0 else if size <? offset + maxsize then size - offset else maxsize.
Definition container_length (actualsize : Z) : Z :=
  if 0x100000000 <=? HEADER_SIZE + actualsize then 0xFFFFFFFF else HEADER_SIZE + actualsize.

(** The variables of the loop, the packets written and the number of times
    [cancel_req] was tested. *)
Record transfer := mktransfer {
  t_j : Z; t_ofs : Z; t_index : Z; t_buf : list Z; t_wr : list Z; t_sent : list (list Z); t_tests : nat }.

Section Send.
(** The buffer sizes; [read offset size] is the answer of [lseek64] and
    [read], the bytes or an error; [cancel k] is the value of [cancel_req] at
    its k-th test. *)
Context (wr_size rd_size : Z) (read : Z -> Z -> option (list Z)) (cancel : nat -> bool).

Definition page (x : Z) : Z := Z.land x (Z.lnot (rd_size - 1)).

(** A read over the file buffer; the bytes behind a short read stay. *)
Definition entry_read (fd : Z) (buf : list Z) (offset : Z) : option (option (list Z)) :=
  if fd =? -1 then Some (Some buf)
  else match read offset rd_size with
       | Some bytes => buf ← put_bytes buf 0 bytes; Some (Some buf)
       | None => Some None
       end.

(** The copies of one block.  The result is the file buffer, its index, the
    write buffer, and where the packet starts in the file buffer if it is sent
    from there; [Some None] is a read error. *)
Definition load_block (fd offset blocksize : Z) (t : transfer) :
    option (option (list Z * Z * list Z * option Z)) :=
  let pos := offset + t_j t in
  loaded ← (if t_index t =? page pos then Some (Some (t_buf t)) else entry_read fd (t_buf t) (page pos));
  match loaded with
  | None => Some None
  | Some buf =>
      let index := if t_index t =? page pos then t_index t else page pos in
      let io := Z.land pos (rd_size - 1) in
      if io + blocksize <? rd_size then
        if t_ofs t =? 0 then Some (Some (buf, index, t_wr t, Some io))
        else
          bytes ← get_bytes buf io blocksize;
          wr ← put_bytes (t_wr t) (t_ofs t) bytes;
          Some (Some (buf, index, wr, None))
      else
        let first := blocksize - (io + blocksize - rd_size) in
        bytes ← get_bytes buf io first;
        wr ← put_bytes (t_wr t) (t_ofs t) bytes;
        let index := index + rd_size in
        loaded ← entry_read fd buf index;
        match loaded with
        | None => Some None
        | Some buf =>
            bytes ← get_bytes buf 0 (blocksize - first);
            wr ← put_bytes wr (t_ofs t + first) bytes;
            Some (Some (buf, index, wr, None))
        end
  end.

(** One round of the loop up to its condition. *)
Definition send_block (fd offset actualsize : Z) (t : transfer) : option (option transfer) :=
  let blocksize := if t_j t + (wr_size - t_ofs t) <? actualsize then wr_size - t_ofs t else actualsize - t_j t in
  loaded ← load_block fd offset blocksize t;
  match loaded with
  | None => Some None
  | Some (buf, index, wr, direct) =>
      let ofs := t_ofs t + blocksize in
      sent ← (if cancel (t_tests t) then Some (t_sent t)
              else
                packet ← match direct with Some io => get_bytes buf io ofs | None => get_bytes wr 0 ofs end;
                Some (t_sent t ++ [packet]));
      Some (Some (mktransfer (t_j t + blocksize) 0 index buf wr sent (S (t_tests t))))
  end.

Fixpoint send_loop (fuel : nat) (fd offset actualsize : Z) (t : transfer) : option (option transfer) :=
  match fuel with
  | O => None
  | S fuel =>
      round ← send_block fd offset actualsize t;
      match round with
      | None => Some None
      | Some t =>
          if t_j t <? actualsize then
            let stop := cancel (t_tests t) in
            let t := t {{ t_tests := S (t_tests t) }} in
            if stop then Some (Some t) else send_loop fuel fd offset actualsize t
          else Some (Some t)
      end
  end.
End Send.

(** What [send_file_data] leaves behind: its result, the packets, the two
    buffers, [transferring_file_data], the table, the ids and the descriptors
    closed. *)
Record sent := mksent {
  s_result : Z; s_packets : list (list Z); s_transferring : bool; s_db : fs_handles_db; s_ids : fsids;
  s_closed : list Z }.

(** [buffer] is [read_file_buffer], null if it could not be allocated; the
    descriptor is given to [read]. *)
Definition send_file_data (may_uid may_gid : Z -> bool) (realpath : list Z -> list Z + Z) (open : list Z -> Z)
    (read : Z -> Z -> Z -> option (list Z)) (cancel : nat -> bool) (wr_size rd_size max_packet_size : Z)
    (ctx : mtp_ctx) (ids : fsids) (wrbuffer : list Z) (buffer : option (list Z)) (p offset maxsize : Z)
    (d : fs_handles_db) : option sent :=
  match buffer with
  | None => Some (mksent 0 [] false d ids [])
  | Some buf =>
      e ← d_pool d !! p;
      let actualsize := usable_size offset maxsize (e_size e) in
      '(wrbuffer, _) ← poke32 wrbuffer 0 wr_size (container_length actualsize);
      '(file, d, ids) ← entry_open may_uid may_gid realpath open ctx ids p d;
      if file =? -1 then Some (mksent (-1) [] false d ids [])
      else
        loop ← send_loop wr_size rd_size (read file) cancel (S (Z.to_nat actualsize)) file offset actualsize
                 (mktransfer 0 HEADER_SIZE (-1) buf wrbuffer [] O);
        '(d, closed) ← entry_close p d;
        match loop with
        | None => Some (mksent (-1) [] true d ids closed)
        | Some t =>
            if cancel (t_tests t) then Some (mksent (-2) (t_sent t) false d ids closed)
            else Some (mksent actualsize
                         (t_sent t ++ check_and_send_USB_ZLP max_packet_size (HEADER_SIZE + actualsize)) false d ids closed)
        end
  end.

(** ** Segments *)
Definition seg (b : list Z) (i n : Z) : list Z := take (Z.to_nat n) (drop (Z.to_nat i) b).

Lemma seg_length b i n : 0 <= i -> 0 <= n -> i + n <= strlen b -> strlen (seg b i n) = n.
Proof. unfold strlen, seg. intros. rewrite length_take, length_drop. lia. Qed.

Lemma seg_nil b i : seg b i 0 = [].
Proof. done. Qed.

Lemma seg_app b i m n : 0 <= i -> 0 <= m -> 0 <= n -> seg b i m ++ seg b (i + m) n = seg b i (m + n).
Proof.
  intros. unfold seg. rewrite !Z2Nat.inj_add by done. rewrite <- drop_drop.
  apply list_eq. intros k. destruct (decide (k < Z.to_nat m)%nat) as [Hk|Hk].
  - destruct (decide (k < length (take (Z.to_nat m) (drop (Z.to_nat i) b)))%nat) as [Hl|Hl].
    + rewrite lookup_app_l by done. rewrite !lookup_take_lt by lia. done.
    + rewrite length_take in Hl. rewrite lookup_app_r by (rewrite length_take; lia).
      rewrite !lookup_ge_None_2; [done| |]; rewrite ?length_take, ?length_drop; rewrite ?length_take, ?length_drop in *; lia.
  - rewrite lookup_app_r by (rewrite length_take; lia). destruct (decide (Z.to_nat m <= length (drop (Z.to_nat i) b))%nat) as [Hl|Hl].
    + rewrite length_take, Nat.min_l by done. destruct (decide (k < Z.to_nat m + Z.to_nat n)%nat).
      * rewrite !lookup_take_lt by lia. rewrite !lookup_drop. f_equal. lia.
      * rewrite !lookup_take_ge by lia. done.
    + rewrite !lookup_ge_None_2; [done| |]; rewrite ?length_take, ?length_drop in *; lia.
Qed.

Lemma get_bytes_seg b i n : 0 <= i -> 0 <= n -> i + n <= strlen b -> get_bytes b i n = Some (seg b i n).
Proof. intros. unfold get_bytes. by rewrite !(proj2 (Z.leb_le _ _)) by done. Qed.

(** A segment inside a segment. *)
Lemma seg_seg b i n j m : 0 <= i -> 0 <= j -> 0 <= m -> j + m <= n -> seg (seg b i n) j m = seg b (i + j) m.
Proof.
  intros. unfold seg. rewrite Z2Nat.inj_add by done. rewrite <- drop_drop, skipn_firstn_comm, take_take.
  f_equal. lia.
Qed.

Lemma seg_app_l a b i n : 0 <= i -> 0 <= n -> i + n <= strlen a -> seg (a ++ b) i n = seg a i n.
Proof.
  unfold strlen. intros. unfold seg. rewrite drop_app_le by lia. apply take_app_le. rewrite length_drop. lia.
Qed.

Lemma put_seg b i bs : 0 <= i -> i + strlen bs <= strlen b ->
  exists b', put_bytes b i bs = Some b' /\ strlen b' = strlen b /\ seg b' 0 (i + strlen bs) = seg b 0 i ++ bs.
Proof.
  unfold strlen. intros Hi Hl. unfold put_bytes, strlen. rewrite !(proj2 (Z.leb_le _ _)) by lia. cbn [andb].
  eexists. split; [reflexivity|]. split.
  - rewrite !length_app, length_take, length_drop. lia.
  - unfold seg. change (Z.to_nat 0) with O. rewrite !drop_0, app_assoc.
    rewrite take_app_length'; [done|]. rewrite length_app, length_take. lia.
Qed.

(** ** The pages of a file *)
Section Pages.
Context (k rd_size wr_size : Z) (file : list Z) (read : Z -> Z -> option (list Z)).
Hypothesis k_pos : 0 <= k.
Hypothesis rd_pow : rd_size = 2 ^ k.
Hypothesis read_file : forall off n, 0 <= off -> 0 <= n -> read off n = Some (seg file off n).

Lemma rd_pos : 0 < rd_size.
Proof. rewrite rd_pow. apply Z.pow_pos_nonneg; lia. Qed.

Lemma page_of x : page rd_size x = x - x mod rd_size.
Proof.
  unfold page. rewrite rd_pow, <- Z.ldiff_land. replace (2 ^ k - 1) with (Z.ones k) by (rewrite Z.ones_equiv; lia).
  rewrite Z.ldiff_ones_r, Z.shiftl_mul_pow2, Z.shiftr_div_pow2 by lia.
  pose proof (Z.div_mod x (2 ^ k) ltac:(apply Z.pow_nonzero; lia)). lia.
Qed.

Lemma io_of x : Z.land x (rd_size - 1) = x mod rd_size.
Proof. rewrite rd_pow. replace (2 ^ k - 1) with (Z.ones k) by (rewrite Z.ones_equiv; lia). by apply Z.land_ones. Qed.

(** The buffer holds the page at [index]. *)
Definition holds (index : Z) (buf : list Z) : Prop :=
  strlen buf = rd_size /\ 0 <= index /\ exists rest, buf = seg file index rd_size ++ rest.

Lemma read_page fd buf off : fd <> -1 -> strlen buf = rd_size -> 0 <= off ->
  exists buf', entry_read rd_size read fd buf off = Some (Some buf') /\ holds off buf'.
Proof.
  intros Hfd Hl Ho. pose proof rd_pos. unfold entry_read. rewrite (proj2 (Z.eqb_neq _ _)) by done.
  rewrite read_file by lia. pose proof (put_after [] buf (seg file off rd_size)) as P. cbn [app] in P.
  assert (length (seg file off rd_size) <= length buf)%nat as Hle.
  { unfold seg, strlen in *. rewrite length_take. lia. }
  change (strlen []) with 0 in P. rewrite P by done. cbn [mbind option_bind]. eexists. split; [done|].
  split; [|split; [done|by eexists]]. unfold strlen in *. rewrite length_app, length_drop. lia.
Qed.

Lemma holds_seg index buf io n : holds index buf -> 0 <= io -> 0 <= n -> io + n <= rd_size ->
  n = 0 \/ index + io + n <= strlen file -> get_bytes buf io n = Some (seg file (index + io) n).
Proof.
  intros (Hl & Hi & rest & E) Hio Hn Hle Hf. rewrite get_bytes_seg by lia. f_equal.
  destruct Hf as [->|Hf]; [done|]. rewrite E, seg_app_l; [apply seg_seg; lia|lia|lia|].
  unfold seg, strlen in *. rewrite length_take, length_drop. lia.
Qed.

(** ** The loop *)
Section Loop.
Context (cancel : nat -> bool) (fd offset : Z).
Hypothesis fd_open : fd <> -1.
Hypothesis sizes : HEADER_SIZE < wr_size <= rd_size.
Hypothesis offset_pos : 0 <= offset.

Definition loaded (index : Z) (buf : list Z) : Prop :=
  strlen buf = rd_size /\ (index = -1 \/ holds index buf).

(** One block: what the packet is made of. *)
Lemma load_block_spec t b :
  loaded (t_index t) (t_buf t) -> strlen (t_wr t) = wr_size -> 0 <= t_j t -> 0 <= t_ofs t -> 0 <= b ->
  t_ofs t + b <= wr_size -> b = 0 \/ offset + t_j t + b <= strlen file ->
  exists buf index wr direct, load_block rd_size read fd offset b t = Some (Some (buf, index, wr, direct)) /\
    loaded index buf /\ strlen wr = wr_size /\
    match direct with Some io => get_bytes buf io (t_ofs t + b) | None => get_bytes wr 0 (t_ofs t + b) end =
      Some (seg (t_wr t) 0 (t_ofs t) ++ seg file (offset + t_j t) b).
Proof.
  intros [Hbl Hidx] Hwr Hj Hofs Hb Hfit Hf. pose proof rd_pos as Hrd. unfold load_block.
  set (pos := offset + t_j t) in *. assert (0 <= pos) as Hpos by (unfold pos; lia).
  rewrite io_of, page_of. pose proof (Z.mod_pos_bound pos rd_size Hrd) as Hio.
  assert (0 <= pos - pos mod rd_size) as Hpg by (pose proof (Z.mod_le pos rd_size); lia).
  assert (exists buf, (if t_index t =? pos - pos mod rd_size then Some (Some (t_buf t))
      else entry_read rd_size read fd (t_buf t) (pos - pos mod rd_size)) = Some (Some buf) /\
      holds (pos - pos mod rd_size) buf) as (buf & -> & Hbuf).
  { destruct (Z.eqb_spec (t_index t) (pos - pos mod rd_size)) as [E|_]; [|by apply read_page].
    exists (t_buf t). split; [done|]. destruct Hidx as [E'|Hh]; [lia|]. by rewrite <- E. }
  cbn [mbind option_bind].
  assert ((if t_index t =? pos - pos mod rd_size then t_index t else pos - pos mod rd_size) = pos - pos mod rd_size) as ->.
  { by destruct (Z.eqb_spec (t_index t) (pos - pos mod rd_size)). }
  destruct (Z.ltb_spec (pos mod rd_size + b) rd_size) as [Hin|Hcross].
  - assert (get_bytes buf (pos mod rd_size) b = Some (seg file pos b)) as Hget.
    { rewrite (holds_seg _ _ _ _ Hbuf) by lia. do 2 f_equal. lia. }
    destruct (Z.eqb_spec (t_ofs t) 0) as [E0|E0].
    + exists buf, (pos - pos mod rd_size), (t_wr t), (Some (pos mod rd_size)). split; [done|].
      split; [split; [apply Hbuf|by right]|]. split; [done|]. by rewrite E0.
    + rewrite Hget. cbn [mbind option_bind].
      assert (strlen (seg file pos b) = b) as Hsl by (destruct Hf as [->|Hf]; [done|apply seg_length; lia]).
      destruct (put_seg (t_wr t) (t_ofs t) (seg file pos b)) as (wr & -> & Hw & Hs); [lia|lia|].
      cbn [mbind option_bind]. eexists _, _, wr, None. split; [done|]. split; [split; [apply Hbuf|by right]|].
      split; [lia|]. rewrite Hsl in Hs. rewrite get_bytes_seg by lia. by rewrite Hs.
  - set (first := b - (pos mod rd_size + b - rd_size)). assert (first = rd_size - pos mod rd_size) as Ef by (unfold first; lia).
    destruct Hf as [Hf|Hf]; [lia|].
    rewrite (holds_seg _ _ (pos mod rd_size) first Hbuf) by lia. cbn [mbind option_bind].
    replace (pos - pos mod rd_size + pos mod rd_size) with pos by lia.
    assert (strlen (seg file pos first) = first) as Hs1 by (apply seg_length; lia).
    destruct (put_seg (t_wr t) (t_ofs t) (seg file pos first)) as (wr1 & -> & Hw1 & Hg1); [lia|lia|].
    cbn [mbind option_bind].
    destruct (read_page fd buf (pos - pos mod rd_size + rd_size) fd_open) as (buf2 & -> & Hbuf2); [apply Hbuf|lia|].
    cbn [mbind option_bind]. rewrite (holds_seg _ _ 0 (b - first) Hbuf2) by lia. cbn [mbind option_bind].
    replace (pos - pos mod rd_size + rd_size + 0) with (pos + first) by lia.
    assert (strlen (seg file (pos + first) (b - first)) = b - first) as Hs2 by (apply seg_length; lia).
    destruct (put_seg wr1 (t_ofs t + first) (seg file (pos + first) (b - first))) as (wr2 & -> & Hw2 & Hg2); [lia|lia|].
    cbn [mbind option_bind]. eexists _, _, wr2, None. split; [done|]. split; [split; [apply Hbuf2|by right]|].
    split; [lia|]. rewrite get_bytes_seg by lia. f_equal. rewrite Hs2 in Hg2.
    replace (t_ofs t + first + (b - first)) with (t_ofs t + b) in Hg2 by lia. rewrite Hg2.
    rewrite Hs1 in Hg1. rewrite Hg1, <- app_assoc. f_equal. rewrite seg_app by lia. f_equal. lia.
Qed.

Hypothesis not_cancelled : forall n, cancel n = false.

(** The variables at the head of the loop. *)
Definition at_head (actualsize : Z) (t : transfer) : Prop :=
  loaded (t_index t) (t_buf t) /\ strlen (t_wr t) = wr_size /\ 0 <= t_j t <= actualsize /\
  0 <= t_ofs t < wr_size /\ (actualsize = 0 \/ offset + actualsize <= strlen file).

Lemma send_block_spec actualsize t :
  at_head actualsize t ->
  exists t' packet, send_block wr_size rd_size read cancel fd offset actualsize t = Some (Some t') /\
    t_sent t' = t_sent t ++ [packet] /\ at_head actualsize t' /\ t_ofs t' = 0 /\
    packet = seg (t_wr t) 0 (t_ofs t) ++ seg file (offset + t_j t) (t_j t' - t_j t) /\
    (t_j t' = actualsize \/ (t_j t < t_j t' < actualsize /\ strlen packet = wr_size)).
Proof.
  intros (Hl & Hw & Hj & Ho & Hf). unfold send_block.
  set (b := if t_j t + (wr_size - t_ofs t) <? actualsize then wr_size - t_ofs t else actualsize - t_j t).
  assert (0 <= b <= wr_size - t_ofs t /\ t_j t + b <= actualsize /\
    (t_j t + b = actualsize \/ (b = wr_size - t_ofs t /\ t_j t + b < actualsize))) as (Hb & Hja & Hlast).
  { unfold b. destruct (Z.ltb_spec (t_j t + (wr_size - t_ofs t)) actualsize); lia. }
  destruct (load_block_spec t b Hl Hw) as (buf & index & wr & direct & -> & Hl' & Hw' & Hp); try lia.
  cbn [mbind option_bind]. rewrite not_cancelled, Hp. cbn [mbind option_bind]. eexists _, _. split; [done|].
  cbn [t_sent t_j t_ofs t_index t_buf t_wr]. split_and!; [done| |done| |].
  - unfold at_head. cbn [t_sent t_j t_ofs t_index t_buf t_wr]. unfold HEADER_SIZE in sizes. split_and!; try done; lia.
  - do 2 f_equal. lia.
  - destruct Hlast as [|[Eb Hlt]]; [by left|]. right. split; [lia|].
    unfold strlen in *. rewrite length_app, Nat2Z.inj_add. fold (strlen (seg (t_wr t) 0 (t_ofs t))).
    fold (strlen (seg file (offset + t_j t) b)). rewrite !seg_length; unfold strlen; lia.
Qed.

Lemma send_loop_spec fuel actualsize t :
  at_head actualsize t -> (Z.to_nat (actualsize - t_j t) < fuel)%nat ->
  exists t' chunks, send_loop wr_size rd_size read cancel fuel fd offset actualsize t = Some (Some t') /\
    t_sent t' = t_sent t ++ chunks /\
    concat chunks = seg (t_wr t) 0 (t_ofs t) ++ seg file (offset + t_j t) (actualsize - t_j t) /\
    Forall (fun packet => strlen packet = wr_size) (removelast chunks) /\ chunks <> [].
Proof.
  revert t. induction fuel as [|fuel IH]; intros t H Hf; [lia|]. cbn [send_loop].
  destruct (send_block_spec actualsize t H) as (t1 & packet & -> & S1 & H1 & O1 & Ep & Hn). cbn [mbind option_bind].
  pose proof H as (_ & _ & Hj & _). pose proof H1 as (_ & _ & Hj1 & _).
  destruct Hn as [E|[Hlt Hfull]].
  - rewrite (proj2 (Z.ltb_ge _ _)) by lia. exists t1, [packet]. split_and!; [done|done| |by constructor|done].
    cbn [concat]. rewrite app_nil_r, Ep. by rewrite E.
  - rewrite (proj2 (Z.ltb_lt _ _)) by lia. rewrite not_cancelled.
    destruct (IH (t1 {{ t_tests := S (t_tests t1) }})) as (t2 & chunks & E2 & S2 & C2 & F2 & N2).
    + by destruct t1.
    + destruct t1. cbn in *. lia.
    + rewrite E2. exists t2, (packet :: chunks). split_and!; [done| | | |done].
      * rewrite S2. destruct t1. cbn in *. rewrite S1, <- app_assoc. done.
      * cbn [concat]. rewrite C2. destruct t1 as [j1 o1 i1 b1 w1 s1 n1]. cbn in *. subst o1.
        rewrite Ep, seg_nil, <- app_assoc. cbn [app]. f_equal.
        replace (offset + j1) with (offset + t_j t + (j1 - t_j t)) by lia. rewrite seg_app by lia. f_equal. lia.
      * destruct chunks as [|c chunks]; [done|]. cbn [removelast]. by constructor.
Qed.
End Loop.
End Pages.

(** ** What is sent *)
Section Sending.
Context (may_uid may_gid : Z -> bool) (realpath : list Z -> list Z + Z) (open : list Z -> Z).
Context (read : Z -> Z -> Z -> option (list Z)) (cancel : nat -> bool) (k wr_size rd_size max_packet_size : Z).

Lemma entry_open_fd ctx ids p d fd d1 ids1 :
  entry_open may_uid may_gid realpath open ctx ids p d = Some (fd, d1, ids1) ->
  exists e1, d_pool d1 !! p = Some e1 /\ e_fd e1 = fd.
Proof.
  unfold entry_open. destruct (d_pool d !! p) as [e|] eqn:E; [|done]. cbn [mbind option_bind].
  destruct (0 <? e_fd e); [intros [= <- <- <-]; eauto|].
  destruct (build_full_path _ _ _ _ _) as [path|]; [|done]. cbn [mbind option_bind].
  match goal with |- context [match path with Some _ => _ | None => _ end] =>
    destruct (match path with Some _ => _ | None => _ end) as [[d2 ids2]|] end; [|done].
  cbn [mbind option_bind]. destruct (d_pool d2 !! p) as [e2|] eqn:E2; [|done]. intros [= <- <- <-]. eauto.
Qed.

Lemma put_header wrbuffer n : strlen wrbuffer = wr_size -> HEADER_SIZE < wr_size ->
  exists wr next, poke32 wrbuffer 0 wr_size n = Some (wr, next) /\ strlen wr = wr_size /\
    seg wr 0 HEADER_SIZE = le_bytes 4 (u32 n) ++ seg wrbuffer 4 8.
Proof.
  unfold HEADER_SIZE. intros Hw Hs. unfold poke32, poke. rewrite (proj2 (Z.leb_gt wr_size (0 + Z.of_nat 4))) by lia.
  change (0 <? 0) with false. cbn iota. pose proof (put_after [] wrbuffer (le_bytes 4 (u32 n))) as P.
  rewrite le_bytes_length in P. change (strlen []) with 0 in P. cbn [app] in P.
  rewrite P by (unfold strlen in Hw; lia). cbn [mbind option_bind]. eexists _, _. split; [done|]. split.
  - unfold strlen in *. rewrite length_app, length_drop, le_bytes_length. lia.
  - unfold seg. change (Z.to_nat 0) with O. rewrite drop_0, take_app_ge by (rewrite le_bytes_length; cbn; lia).
    by rewrite le_bytes_length.
Qed.

(** C27: a file is sent exactly.  With buffers as the configuration demands (the
    file buffer a power of two, the packets no larger), an open file that is at
    least as long as the object's size, and no cancellation, the transfer ends;
    what goes out is the header with the length of the container and then the
    bytes of the file from the offset on, as many as asked for or as there are,
    whatever the alignment of the offset to the pages of the buffer.  Every
    packet but the last is full, a zero-length packet follows exactly when the
    length is a multiple of the packet size, and the descriptor is closed. *)
Theorem send_file_data_exact ctx ids wrbuffer buf p offset maxsize d e fd d1 ids1 file :
  0 <= k -> rd_size = 2 ^ k -> HEADER_SIZE < wr_size <= rd_size -> strlen wrbuffer = wr_size -> strlen buf = rd_size ->
  d_pool d !! p = Some e -> e_size e <= strlen file -> 0 <= offset -> 0 <= maxsize ->
  entry_open may_uid may_gid realpath open ctx ids p d = Some (fd, d1, ids1) -> fd <> -1 ->
  (forall off n, 0 <= off -> 0 <= n -> read fd off n = Some (seg file off n)) -> (forall n, cancel n = false) ->
  let actualsize := usable_size offset maxsize (e_size e) in
  exists r chunks,
    send_file_data may_uid may_gid realpath open read cancel wr_size rd_size max_packet_size ctx ids wrbuffer
      (Some buf) p offset maxsize d = Some r /\
    s_result r = actualsize /\ s_transferring r = false /\ s_closed r = [fd] /\
    s_packets r = chunks ++ check_and_send_USB_ZLP max_packet_size (HEADER_SIZE + actualsize) /\
    concat chunks = le_bytes 4 (container_length actualsize) ++ seg wrbuffer 4 8 ++ seg file offset actualsize /\
    Forall (fun packet => strlen packet = wr_size) (removelast chunks).
Proof.
  intros Hk Hrd Hsz Hw Hb E Hes Hoff Hmax Eo Hfd Hread Hc actualsize. unfold send_file_data. rewrite E.
  cbn [mbind option_bind]. fold actualsize.
  assert (0 <= actualsize /\ (actualsize = 0 \/ offset + actualsize <= strlen file)) as [Ha Hfit].
  { unfold actualsize, usable_size. destruct (Z.leb_spec (e_size e) offset); [lia|].
    destruct (Z.ltb_spec (e_size e) (offset + maxsize)); lia. }
  assert (u32 (container_length actualsize) = container_length actualsize) as Eu.
  { unfold u32, container_length, HEADER_SIZE. destruct (Z.leb_spec 0x100000000 (12 + actualsize)); apply Z.mod_small; lia. }
  destruct (put_header wrbuffer (container_length actualsize) Hw (proj1 Hsz)) as (wr & next & -> & Hwl & Hws).
  cbn [mbind option_bind]. rewrite Eo. cbn [mbind option_bind]. rewrite (proj2 (Z.eqb_neq fd (-1))) by done.
  destruct (send_loop_spec k rd_size wr_size file (read fd) Hk Hrd Hread cancel fd offset Hfd Hsz Hoff Hc
    (S (Z.to_nat actualsize)) actualsize (mktransfer 0 HEADER_SIZE (-1) buf wr [] 0)) as (t & chunks & -> & St & Ct & Ft & _).
  - unfold at_head, loaded, HEADER_SIZE in *. cbn [t_index t_buf t_wr t_j t_ofs]. split_and!; try done; try lia.
  - cbn [t_j]. rewrite Z.sub_0_r. lia.
  - destruct (entry_open_fd _ _ _ _ _ _ _ Eo) as (e1 & E1 & F1). cbn [mbind option_bind].
    unfold entry_close, upd_entry. rewrite E1. cbn [mbind option_bind]. rewrite Hc, F1, (proj2 (Z.eqb_neq fd (-1))) by done.
    eexists _, chunks. split; [done|]. cbn [s_result s_transferring s_closed s_packets t_sent t_wr t_ofs t_j] in *.
    rewrite St. split_and!; [done|done|done|done| |done].
    rewrite Ct, Hws, Eu, <- app_assoc, Z.sub_0_r, Z.add_0_r. done.
Qed.

(** A negative size goes through all tests and becomes the length of the first
    copy: the access leaves the buffer. *)
Lemma negative_size_overruns ctx ids wrbuffer buf p offset maxsize d e fd d1 ids1 file :
  0 <= k -> rd_size = 2 ^ k -> HEADER_SIZE < wr_size <= rd_size -> strlen wrbuffer = wr_size -> strlen buf = rd_size ->
  d_pool d !! p = Some e -> 0 <= offset < e_size e -> maxsize < 0 ->
  entry_open may_uid may_gid realpath open ctx ids p d = Some (fd, d1, ids1) -> fd <> -1 ->
  (forall off n, 0 <= off -> 0 <= n -> read fd off n = Some (seg file off n)) ->
  send_file_data may_uid may_gid realpath open read cancel wr_size rd_size max_packet_size ctx ids wrbuffer
    (Some buf) p offset maxsize d = None.
Proof.
  intros Hk Hrd Hsz Hw Hb E Hoff Hmax Eo Hfd Hread. unfold send_file_data. rewrite E. cbn [mbind option_bind].
  assert (usable_size offset maxsize (e_size e) = maxsize) as ->.
  { unfold usable_size. rewrite (proj2 (Z.leb_gt _ _)), (proj2 (Z.ltb_ge _ _)) by lia. done. }
  destruct (put_header wrbuffer (container_length maxsize) Hw (proj1 Hsz)) as (wr & next & -> & Hwl & _).
  cbn [mbind option_bind]. rewrite Eo. cbn [mbind option_bind]. rewrite (proj2 (Z.eqb_neq fd (-1))) by done.
  cbn [send_loop]. unfold send_block, load_block. cbn [t_j t_ofs t_index t_buf t_wr].
  unfold HEADER_SIZE in *. rewrite (proj2 (Z.ltb_ge (0 + (wr_size - 12)) maxsize)), Z.sub_0_r, Z.add_0_r by lia.
  pose proof (rd_pos k rd_size Hk Hrd) as Hp. pose proof (Z.mod_pos_bound offset rd_size Hp) as Hio.
  rewrite (page_of k rd_size Hk Hrd), (io_of k rd_size Hk Hrd).
  assert (0 <= offset - offset mod rd_size) as Hpg by (pose proof (Z.mod_le offset rd_size); lia).
  rewrite (proj2 (Z.eqb_neq (-1) _)) by lia.
  destruct (read_page k rd_size file (read fd) Hk Hrd Hread fd buf (offset - offset mod rd_size) Hfd Hb Hpg) as (buf' & -> & _).
  cbn [mbind option_bind]. rewrite (proj2 (Z.ltb_lt _ rd_size)) by lia. change (12 =? 0) with false. cbn iota.
  assert (get_bytes buf' (offset mod rd_size) maxsize = None) as ->; [|done].
  unfold get_bytes. rewrite (proj2 (Z.leb_gt 0 maxsize)) by lia. by rewrite andb_false_r.
Qed.
End Sending.

(** A small object, in three packets over two pages. *)
Definition demo_file : list Z := map Z.of_nat (seq 65 40).
Definition demo_send (d : fs_handles_db) (offset maxsize : Z) : option sent :=
  send_file_data (fun _ => true) (fun _ => true) inl (fun _ => 7) (fun _ off n => Some (seg demo_file off n))
    (fun _ => false) 16 16 8 (demo_ctx None) (mkids 0 0) (replicate 16 0) (Some (replicate 16 0)) 1022 offset maxsize d.
Definition demo_sized : option fs_handles_db := d ← demo_db; upd_entry (fun e => e {{ e_size := 40 }}) 1022 d.

Lemma send_file_data_exact_witness : exists d r chunks, demo_sized = Some d /\ demo_send d 10 20 = Some r /\
  s_packets r = chunks ++ [[]] /\ concat chunks = le_bytes 4 32 ++ replicate 8 0 ++ map Z.of_nat (seq 75 20).
Proof.
  destruct demo_sized as [d|] eqn:E; [|vm_compute in E; discriminate E].
  vm_compute in E. injection E as E. exists d.
  destruct (send_file_data_exact (fun _ => true) (fun _ => true) inl (fun _ => 7) (fun _ off n => Some (seg demo_file off n))
    (fun _ => false) 4 16 16 8 (demo_ctx None) (mkids 0 0) (replicate 16 0) (replicate 16 0) 1022 10 20 d
    (default (new_entry (mkfound false [] 0) 0 0 0 None) (d_pool d !! 1022)) 7
    (default d (upd_entry (fun e => e {{ e_fd := 7 }}) 1022 d)) (mkids 0 0) demo_file)
    as (r & chunks & H & _ & _ & _ & Hp & Hc & _).
  - lia.
  - reflexivity.
  - unfold HEADER_SIZE. lia.
  - reflexivity.
  - reflexivity.
  - rewrite <- E. reflexivity.
  - rewrite <- E. vm_compute. discriminate.
  - lia.
  - lia.
  - rewrite <- E. vm_compute. reflexivity.
  - discriminate.
  - reflexivity.
  - reflexivity.
  - exists r, chunks. split; [rewrite <- E; vm_compute; reflexivity|]. split; [exact H|].
    rewrite <- E in Hp, Hc. split; [exact Hp|exact Hc].
Defined.
