(* ===== verification/MtpHandles.v ===== *)
(** * Listing a folder to the host

    The packet headers of [mtp.c] ([build_response]) and
    [mtp_op_GetObjectHandles]: the folder is scanned, its objects are counted
    and their handles sent. *)

From Stdlib Require Import Ascii String.
From S2P Require Import Prelude CString MtpUsb MtpData MtpHash MtpDb MtpTable MtpPath MtpStorage MtpMount MtpScan MtpFile.

(** ** Headers *)
Definition MTP_CONTAINER_TYPE_COMMAND : Z := 1.
Definition MTP_CONTAINER_TYPE_DATA : Z := 2.
Definition MTP_CONTAINER_TYPE_RESPONSE : Z := 3.

(** [MTP_PACKET_HEADER], packed. *)
Definition packet_header (length operation code tx_id : Z) : list Z :=
  le_bytes 4 (u32 length) ++ le_bytes 2 (u16 operation) ++ le_bytes 2 (u16 code) ++ le_bytes 4 (u32 tx_id).

Definition build_response (tx_id type status : Z) (buffer : list Z) (maxsize : Z) (datain : list Z) :
    option (list Z * Z) :=
  let size := strlen datain in
  '(buffer, ofs) ← poke_array buffer 0 maxsize HEADER_SIZE 1 (packet_header (HEADER_SIZE + size) type status tx_id) 0;
  if size =? 0 then Some (buffer, ofs) else poke_array buffer ofs maxsize size 1 datain 0.

Definition MTP_RESPONSE_INVALID_STORAGE_ID : Z := 0x2008.
Definition MTP_RESPONSE_ACCESS_DENIED : Z := 0x200F.

(** What an operation leaves behind: the response code, its parameters, the
    packets sent before the response, the context and the ids. *)
Record outcome := mkout {
  o_code : Z; o_params : list Z; o_packets : list (list Z); o_ctx : mtp_ctx; o_ids : fsids }.

(** ** The handles *)
Section Packets.
Context (wr_size max_packet_size nb_of_handles : Z).

(** The inner loop: one packet. *)
Fixpoint fill_packet (fuel : nat) (d : fs_handles_db) (wr : list Z) (ofs handle_index : Z) :
    option (fs_handles_db * list Z * Z * Z) :=
  match fuel with
  | O => None
  | S fuel =>
      '(entry, d) ← get_next_child_handle d;
      '(wr, ofs, handle_index) ←
        match entry with
        | Some p =>
            e ← d_pool d !! p;
            '(wr, ofs) ← poke32 wr ofs wr_size (e_handle e);
            Some (wr, ofs, handle_index + 1)
        | None => Some (wr, ofs, handle_index)
        end;
      if (0 <=? ofs) && (ofs <? max_packet_size) && (handle_index <? nb_of_handles)
      then fill_packet fuel d wr ofs handle_index
      else Some (d, wr, ofs, handle_index)
  end.

(** The outer loop; the flag is false when a packet could not be built. *)
Fixpoint send_handles (fuel : nat) (d : fs_handles_db) (wr : list Z) (ofs handle_index : Z) (sent : list (list Z)) :
    option (bool * fs_handles_db * list Z * list (list Z)) :=
  match fuel with
  | O => None
  | S fuel =>
      '(d, wr, ofs, handle_index) ← fill_packet (S (size (d_pool d))) d wr ofs handle_index;
      if ofs <? 0 then Some (false, d, wr, sent)
      else
        packet ← get_bytes wr 0 ofs;
        if handle_index <? nb_of_handles then send_handles fuel d wr 0 handle_index (sent ++ [packet])
        else Some (true, d, wr, sent ++ [packet])
  end.
End Packets.

(** The loop that counts. *)
Fixpoint count_children (fuel : nat) (d : fs_handles_db) (nb_of_handles : Z) : option (Z * fs_handles_db) :=
  match fuel with
  | O => None
  | S fuel =>
      '(o, d) ← get_next_child_handle d;
      match o with None => Some (nb_of_handles, d) | Some _ => count_children fuel d (nb_of_handles + 1) end
  end.

Section Handles.
Context (mal : nat -> bool) (may_uid may_gid : Z -> bool) (realpath : list Z -> list Z + Z).
Context (stat64 : list Z -> option (bool * Z)) (opendir : list Z -> option (list (list Z))).
(** [addwatch path] is the watch descriptor of [inotify_handler_addwatch]. *)
Context (show_hidden : bool) (addwatch : list Z -> Z) (wr_size max_packet_size : Z).

(** The folder: its handle, its path and its entry. *)
Definition find_folder (ctx : mtp_ctx) (d : fs_handles_db) (storageid parent_handle : Z) :
    option (Z * option (list Z) * option Z) :=
  if negb (parent_handle =? 0) && negb (parent_handle =? 0xFFFFFFFF) then
    entry ← get_entry_by_handle (mtp_get_storage_root ctx) parent_handle d;
    match entry with
    | Some p =>
        e ← d_pool d !! p;
        full_path ← build_full_path (mtp_get_storage_root ctx) realpath (mtp_get_storage_root ctx (e_storage e)) p d;
        Some (parent_handle, full_path, Some p)
    | None => Some (parent_handle, None, None)
    end
  else
    entry ← get_entry_by_handle_and_storageid 0 storageid d;
    Some (0, mtp_get_storage_root ctx storageid, entry).

(** The watch on a folder that was listed. *)
Definition watch_folder (full_path : list Z) (entry : option Z) (d : fs_handles_db) : option fs_handles_db :=
  match entry with
  | None => Some d
  | Some p =>
      e ← d_pool d !! p;
      if flagged ENTRY_IS_DIR e then upd_entry (fun e => e {{ e_wd := addwatch full_path }}) p d else Some d
  end.

(** The scan and the count; [None] inside is a folder that cannot be read. *)
Definition list_folder (ctx : mtp_ctx) (ids : fsids) (storageid parent_handle : Z) (full_path : list Z) (entry : option Z)
    (d : fs_handles_db) : option (option Z * fs_handles_db * list Z * fsids) :=
  let '(access, ids) := set_storage_giduid may_uid may_gid ctx storageid ids in
  '(ret, d, rm) ←
    (if access =? 0
     then scan_and_add_folder stat64 opendir mal show_hidden (mtp_get_storage_root ctx) realpath full_path
            parent_handle storageid d
     else Some (-1, d, []));
  let ids := snd (restore_giduid may_uid may_gid ctx ids) in
  if ret <? 0 then Some (None, d, rm, ids)
  else
    '(nb, d) ← count_children (S (size (d_pool d))) (init_search_handle parent_handle storageid d) 0;
    d ← watch_folder full_path entry (init_search_handle parent_handle storageid d);
    Some (Some nb, d, rm, ids).

(** [tx_id], [code] and the parameters are those of the packet. *)
Definition mtp_op_GetObjectHandles (tx_id code storageid parent_handle : Z) (wrbuffer : list Z) (ctx : mtp_ctx)
    (ids : fsids) : option outcome :=
  match fs_db ctx with
  | None => Some (mkout MTP_RESPONSE_SESSION_NOT_OPEN [] [] ctx ids)
  | Some d =>
      '(wr, sz) ← build_response tx_id MTP_CONTAINER_TYPE_DATA code wrbuffer wr_size [];
      if sz <? 0 then Some (mkout MTP_RESPONSE_GENERAL_ERROR [] [] ctx ids)
      else
        match mtp_get_storage_root ctx storageid with
        | None => Some (mkout MTP_RESPONSE_INVALID_STORAGE_ID [] [] ctx ids)
        | Some _ =>
            '(parent_handle, full_path, entry) ← find_folder ctx d storageid parent_handle;
            '(listed, d, rm, ids) ←
              match full_path with
              | Some full_path => list_folder ctx ids storageid parent_handle full_path entry d
              | None => Some (Some 0, d, [], ids)
              end;
            let ctx := ctx {{ fs_db := Some d; unwatched := unwatched ctx ++ rm }} in
            match listed with
            | None => Some (mkout MTP_RESPONSE_ACCESS_DENIED [] [] ctx ids)
            | Some nb =>
                '(wr, _) ← poke32 wr 0 wr_size (HEADER_SIZE + (1 + nb) * 4);
                '(wr, ofs) ← poke32 wr HEADER_SIZE wr_size nb;
                '(ok, d, wr, packets) ← send_handles wr_size max_packet_size nb (S (Z.to_nat nb)) d wr ofs 0 [];
                let ctx := ctx {{ fs_db := Some d }} in
                if ok : bool then
                  Some (mkout MTP_RESPONSE_OK []
                          (packets ++ check_and_send_USB_ZLP max_packet_size (HEADER_SIZE + 4 + nb * 4)) ctx ids)
                else Some (mkout MTP_RESPONSE_GENERAL_ERROR [] packets ctx ids)
            end
        end
  end.
End Handles.

(** ** The handles that are still to come *)
Definition handle_of (d : fs_handles_db) (p : Z) : Z := from_option e_handle 0 (d_pool d !! p).

(** The enumeration of [d] goes on with the objects of handles [hs]. *)
Definition pending (d : fs_handles_db) (hs : list Z) : Prop :=
  exists l l1 l2, db_ok d l /\ l = l1 ++ l2 /\ linked (d_pool d) (d_search d) l2 /\
    hs = map (handle_of d) (List.filter (is_child d (d_hsearch d) (d_ssearch d)) l2).

Lemma is_child_same d d' p : same_table d d' -> is_child d' (d_hsearch d') (d_ssearch d') p = is_child d (d_hsearch d) (d_ssearch d) p.
Proof. intros S. destruct (same_table_eqs d d' S) as (P & Q & R & _). unfold is_child. by rewrite P, Q, R. Qed.

Lemma handle_same d d' : same_table d d' -> forall p, handle_of d' p = handle_of d p.
Proof. intros S p. unfold handle_of. by rewrite (proj1 (same_table_eqs d d' S)). Qed.

(** One step of the enumeration. *)
Lemma pending_step d hs :
  pending d hs ->
  exists o d', get_next_child_handle d = Some (o, d') /\ same_table d d' /\
    match hs with
    | [] => o = None /\ pending d' []
    | h :: hs => exists p e, o = Some p /\ d_pool d' !! p = Some e /\ e_handle e = h /\ pending d' hs
    end.
Proof.
  intros (l & l1 & l2 & H & El & Hl2 & ->).
  destruct (next_child_ok d l l1 l2 H El Hl2) as (o & d' & E & H' & C & Eo & Hp). exists o, d'.
  split; [done|]. split; [exact C|]. destruct (same_table_eqs d d' C) as (P & Q & R & _).
  assert (forall x, is_child d' (d_hsearch d') (d_ssearch d') x = is_child d (d_hsearch d) (d_ssearch d) x) as Hc
    by (intros x; by apply is_child_same).
  assert (forall m, map (handle_of d') (List.filter (is_child d' (d_hsearch d') (d_ssearch d')) m) =
                    map (handle_of d) (List.filter (is_child d (d_hsearch d) (d_ssearch d)) m)) as Hm.
  { intros m. rewrite (filter_ext _ _ Hc). apply map_ext. intros x. by apply handle_same. }
  destruct o as [p|].
  - destruct Hp as (l3 & l4 & -> & Hl4 & Hno).
    destruct (first_of_some _ _ _ _ (eq_sym Eo)) as (_ & _ & e & _ & Ep & Pe & _).
    rewrite List.filter_app, (filter_none _ l3) by exact Hno. cbn [List.filter app].
    assert (is_child d (d_hsearch d) (d_ssearch d) p = true) as -> by (unfold is_child; by rewrite Ep).
    cbn [map]. exists p, e. split; [done|]. split; [by rewrite P|]. split; [unfold handle_of; by rewrite Ep|].
    exists l, (l1 ++ l3 ++ [p]), l4. split; [done|]. split; [by rewrite El, <- !app_assoc|]. split; [by rewrite P|].
    by rewrite Hm.
  - rewrite (filter_none _ l2); [|].
    + split; [done|]. exists l, l, []. split; [done|]. split; [by rewrite app_nil_r|]. by rewrite Hp.
    + intros x Hx. unfold is_child. destruct (d_pool d !! x) as [e|] eqn:Ex; [|done].
      by apply (first_of_none _ _ _ _ _ (eq_sym Eo) Hx Ex).
Qed.

Lemma pending_init d l parent st : db_ok d l ->
  pending (init_search_handle parent st d) (map (handle_of d) (List.filter (is_child d parent st) l)).
Proof.
  intros H. exists l, [], l. split; [by apply search_ok|]. split; [done|]. pose proof (ok_list _ _ H).
  split; [by destruct d|]. by destruct d.
Qed.

(** The count. *)
Lemma count_children_spec fuel d hs n :
  pending d hs -> (length hs < fuel)%nat ->
  exists d', count_children fuel d n = Some (n + Z.of_nat (length hs), d') /\ same_table d d'.
Proof.
  revert d hs n. induction fuel as [|fuel IH]; intros d hs n H Hf; [lia|]. cbn [count_children].
  destruct (pending_step d hs H) as (o & d1 & -> & S & Ho). cbn [mbind option_bind]. destruct hs as [|h hs].
  - destruct Ho as [-> _]. exists d1. split; [|done]. do 2 f_equal. cbn. lia.
  - destruct Ho as (p & e & -> & _ & _ & H1). cbn [length] in Hf. destruct (IH d1 hs (n + 1) H1) as (d2 & -> & S2); [lia|].
    exists d2. split; [|by eapply same_table_trans]. do 2 f_equal. cbn [length]. lia.
Qed.

(** ** The packets *)
Section Sending.
Context (wr_size max_packet_size nb : Z).
Hypothesis packet_words : max_packet_size mod 4 = 0 /\ 16 < max_packet_size < wr_size.

Definition words (hs : list Z) : list Z := concat (map (fun h => le_bytes 4 (u32 h)) hs).

Lemma words_length hs : strlen (words hs) = 4 * Z.of_nat (length hs).
Proof.
  unfold words, strlen. induction hs as [|h hs IH]; [done|]. cbn [map concat length]. rewrite length_app, le_bytes_length. lia.
Qed.

Lemma words_app a b : words (a ++ b) = words a ++ words b.
Proof. unfold words. by rewrite map_app, concat_app. Qed.

Lemma poke_word wr ofs v : strlen wr = wr_size -> 0 <= ofs -> ofs + 4 < wr_size ->
  exists wr', poke32 wr ofs wr_size v = Some (wr', ofs + 4) /\ strlen wr' = wr_size /\
    seg wr' 0 (ofs + 4) = seg wr 0 ofs ++ le_bytes 4 (u32 v).
Proof.
  intros Hw Ho Hl. unfold poke32, poke. rewrite (proj2 (Z.ltb_ge ofs 0)), (proj2 (Z.leb_gt wr_size _)) by lia.
  assert (strlen (le_bytes 4 (u32 v)) = 4) as E by (unfold strlen; by rewrite le_bytes_length).
  destruct (put_seg wr ofs (le_bytes 4 (u32 v))) as (wr' & -> & Hl' & Hs); [done|lia|]. rewrite E in Hs.
  cbn [mbind option_bind]. exists wr'. split; [done|]. split; [lia|done].
Qed.

Lemma fill_packet_spec fuel d hs wr ofs i :
  pending d hs -> strlen wr = wr_size -> 0 <= ofs < max_packet_size -> ofs mod 4 = 0 ->
  i + Z.of_nat (length hs) = nb -> (length hs < fuel)%nat ->
  exists d' wr' ofs' now later, fill_packet wr_size max_packet_size nb fuel d wr ofs i =
      Some (d', wr', ofs', i + Z.of_nat (length now)) /\
    hs = now ++ later /\ pending d' later /\ strlen wr' = wr_size /\ same_table d d' /\
    ofs' = ofs + 4 * Z.of_nat (length now) /\ ofs' <= max_packet_size /\
    seg wr' 0 ofs' = seg wr 0 ofs ++ words now /\
    ((later = [] /\ (hs = [] -> now = [])) \/ (ofs' = max_packet_size /\ now <> [])).
Proof.
  revert d hs wr ofs i. induction fuel as [|fuel IH]; intros d hs wr ofs i H Hw Ho Hm Hi Hf; [lia|]. cbn [fill_packet].
  destruct (pending_step d hs H) as (o & d1 & -> & S & Hp). cbn [mbind option_bind]. destruct hs as [|h hs].
  - destruct Hp as [-> Hp]. cbn [length] in Hi. cbn [mbind option_bind]. rewrite (proj2 (Z.ltb_ge i nb)), andb_false_r by lia.
    exists d1, wr, ofs, [], []. cbn [length]. rewrite !Z.add_0_r. split_and!; try done; try lia.
    { by rewrite app_nil_r. } by left.
  - destruct Hp as (p & e & -> & Ep & Eh & H1). cbn [mbind option_bind]. rewrite Ep. cbn [mbind option_bind]. rewrite Eh.
    assert (ofs + 4 <= max_packet_size) as Hfit.
    { pose proof (Z.div_mod ofs 4). pose proof (Z.div_mod max_packet_size 4). lia. }
    destruct (poke_word wr ofs h Hw) as (wr1 & -> & Hw1 & Hs1); [lia|lia|]. cbn [mbind option_bind].
    cbn [length] in Hi, Hf. rewrite (proj2 (Z.leb_le 0 _)) by lia. cbn [andb].
    destruct (Z.ltb_spec (ofs + 4) max_packet_size) as [Hlt|Hge]; [destruct hs as [|h' hs]|].
    + cbn [length] in Hi. rewrite (proj2 (Z.ltb_ge (i + 1) nb)) by lia. cbn [andb].
      exists d1, wr1, (ofs + 4), [h], []. cbn [length]. split_and!; try done; try lia.
      by left.
    + rewrite (proj2 (Z.ltb_lt (i + 1) nb)) by (cbn [length] in Hi; lia). cbn [andb].
      destruct (IH d1 (h' :: hs) wr1 (ofs + 4) (i + 1) H1 Hw1) as (d2 & wr2 & ofs2 & now & later & E & Eh' & H2 & Hw2 & S2 & Eo & Hle & Hs2 & Hend).
      * lia.
      * pose proof (Z.div_mod ofs 4). replace (ofs + 4) with (ofs + 1 * 4) by lia. by rewrite Z.mod_add.
      * lia.
      * lia.
      * exists d2, wr2, ofs2, (h :: now), later. cbn [length]. rewrite E, Eh'. split_and!; try done; try lia.
        -- do 2 f_equal. lia.
        -- by eapply same_table_trans.
        -- rewrite Hs2, Hs1, <- app_assoc. done.
        -- destruct Hend as [[? _]|[? _]]; [by left|by right].
    + cbn [andb]. exists d1, wr1, (ofs + 4), [h], hs. cbn [length]. split_and!; try done; try lia.
      right. split; [lia|done].
Qed.

Lemma pending_size d hs : pending d hs -> (length hs <= size (d_pool d))%nat.
Proof.
  intros (l & l1 & l2 & H & -> & _ & ->). pose proof (pool_size d _ H) as Hs. rewrite length_app in Hs.
  rewrite length_map. pose proof (List.filter_length_le (is_child d (d_hsearch d) (d_ssearch d)) l2). lia.
Qed.

Lemma send_handles_spec fuel d hs wr ofs i sent :
  pending d hs -> strlen wr = wr_size -> 0 <= ofs < max_packet_size -> ofs mod 4 = 0 ->
  i + Z.of_nat (length hs) = nb -> (length hs < fuel)%nat ->
  exists d' wr' packets, send_handles wr_size max_packet_size nb fuel d wr ofs i sent = Some (true, d', wr', sent ++ packets) /\
    same_table d d' /\ concat packets = seg wr 0 ofs ++ words hs /\
    Forall (fun packet => strlen packet = max_packet_size) (removelast packets) /\ packets <> [].
Proof.
  revert d hs wr ofs i sent. induction fuel as [|fuel IH]; intros d hs wr ofs i sent H Hw Ho Hm Hi Hf; [lia|].
  cbn [send_handles]. pose proof (pending_size d hs H) as Hps.
  destruct (fill_packet_spec (S (size (d_pool d))) d hs wr ofs i H Hw Ho Hm Hi) as
    (d1 & wr1 & ofs1 & now & later & -> & -> & H1 & Hw1 & S1 & Eo & Hle & Hs1 & Hend); [lia|].
  cbn [mbind option_bind]. rewrite (proj2 (Z.ltb_ge ofs1 0)) by lia. rewrite get_bytes_seg by lia.
  cbn [mbind option_bind]. rewrite length_app in Hi, Hf. destruct later as [|h later].
  - cbn [length] in Hi. rewrite (proj2 (Z.ltb_ge _ nb)) by lia. exists d1, wr1, [seg wr1 0 ofs1].
    split_and!; [done|done| |by constructor|done]. cbn [concat]. by rewrite !app_nil_r.
  - destruct Hend as [[? _]|[Efull Hnow]]; [done|]. cbn [length] in Hi, Hf.
    rewrite (proj2 (Z.ltb_lt _ nb)) by lia.
    assert (length now <> 0)%nat by (by destruct now).
    destruct (IH d1 (h :: later) wr1 0 (i + Z.of_nat (length now)) (sent ++ [seg wr1 0 ofs1]) H1 Hw1)
      as (d2 & wr2 & packets & -> & S2 & C2 & F2 & N2); [lia|done|cbn [length]; lia|cbn [length]; lia|].
    exists d2, wr2, (seg wr1 0 ofs1 :: packets). rewrite <- app_assoc. split_and!; [done|by eapply same_table_trans| | |done].
    + cbn [concat]. rewrite C2, Hs1, seg_nil, words_app, <- !app_assoc. done.
    + destruct packets as [|q packets]; [done|]. cbn [removelast]. constructor; [|done].
      rewrite Efull in *. apply seg_length; lia.
Qed.

(** The header and the count in front of the handles. *)
Lemma build_header tx_id code wr0 : strlen wr0 = wr_size ->
  exists wr, build_response tx_id MTP_CONTAINER_TYPE_DATA code wr0 wr_size [] = Some (wr, HEADER_SIZE) /\
    strlen wr = wr_size /\ seg wr 0 HEADER_SIZE = packet_header HEADER_SIZE MTP_CONTAINER_TYPE_DATA code tx_id.
Proof.
  intros Hw. unfold build_response, poke_array. change (strlen []) with 0. change (0 <? 0) with false. cbn iota.
  unfold HEADER_SIZE. rewrite (proj2 (Z.leb_gt wr_size _)) by lia. cbn [mbind option_bind]. change (0 =? 0) with true.
  cbn iota. cbn [mbind option_bind]. change (12 + 0) with 12. set (h := packet_header _ _ _ _).
  assert (strlen h = 12) as Eh by (unfold strlen, h, packet_header; rewrite !length_app, !le_bytes_length; done).
  rewrite Eh. change (12 <? 12) with false. cbn iota.
  assert (take (Z.to_nat 12) h = h) as -> by (apply take_ge; unfold strlen in Eh; lia).
  destruct (put_seg wr0 0 h) as (wr' & -> & Hl & Hs); [lia|lia|]. cbn [mbind option_bind]. exists wr'.
  split; [done|]. split; [lia|]. rewrite Eh in Hs. exact Hs.
Qed.

Lemma counted_header tx_id code wr0 n : strlen wr0 = wr_size ->
  exists wr wr1 wr2 next, build_response tx_id MTP_CONTAINER_TYPE_DATA code wr0 wr_size [] = Some (wr, HEADER_SIZE) /\
    poke32 wr 0 wr_size (HEADER_SIZE + (1 + n) * 4) = Some (wr1, next) /\
    poke32 wr1 HEADER_SIZE wr_size n = Some (wr2, 16) /\ strlen wr2 = wr_size /\
    seg wr2 0 16 = packet_header (HEADER_SIZE + (1 + n) * 4) MTP_CONTAINER_TYPE_DATA code tx_id ++ le_bytes 4 (u32 n).
Proof.
  intros Hw. destruct (build_header tx_id code wr0 Hw) as (wr & E & Hl & Hs).
  destruct (put_header wr_size wr (HEADER_SIZE + (1 + n) * 4) Hl) as (wr1 & next & E1 & Hl1 & Hs1); [unfold HEADER_SIZE; lia|].
  destruct (poke_word wr1 HEADER_SIZE n Hl1) as (wr2 & E2 & Hl2 & Hs2); [by unfold HEADER_SIZE|unfold HEADER_SIZE; lia|].
  exists wr, wr1, wr2, next. split_and!; [done|done|done|done|]. change (HEADER_SIZE + 4) with 16 in Hs2. rewrite Hs2, Hs1. f_equal.
  assert (seg wr 4 8 = seg (seg wr 0 HEADER_SIZE) 4 8) as -> by (by rewrite seg_seg by (unfold HEADER_SIZE; lia)).
  rewrite Hs. reflexivity.
Qed.
End Sending.

(** ** The whole operation *)
Lemma find_folder_ok realpath mal ctx d storageid parent_handle h path entry :
  reachable mal d -> find_folder realpath ctx d storageid parent_handle = Some (h, Some path, entry) ->
  (h = 0 \/ exists p e, d_pool d !! p = Some e /\ e_handle e = h) /\
  (forall p, entry = Some p -> is_Some (d_pool d !! p)).
Proof.
  intros (l & H & _)%reachable_ok. unfold find_folder. destruct (negb (parent_handle =? 0) && _).
  - rewrite (by_handle_first _ _ d l H). cbn [mbind option_bind].
    destruct (first_of _ _ _) as [p|] eqn:F; [|done]. destruct (first_of_some _ _ _ _ F) as (_ & _ & e & _ & E & Hp & _).
    rewrite E. cbn [mbind option_bind]. destruct (build_full_path _ _ _ _ _); [|done]. cbn [mbind option_bind].
    intros [= <- _ <-]. bprop. split; [right; by exists p, e|]. intros q [= <-]. by eexists.
  - unfold get_entry_by_handle_and_storageid. rewrite (walk_list _ d l [] l) by (done || apply (ok_list _ _ H)).
    cbn [mbind option_bind]. intros [= <- _ <-]. split; [by left|]. intros p F.
    destruct (first_of_some _ _ _ _ F) as (_ & _ & e & _ & E & _). by eexists.
Qed.

(** The handles of the children of a folder. *)
Definition child_handles (d : fs_handles_db) (l : list Z) (parent st : Z) : list Z :=
  map (handle_of d) (List.filter (is_child d parent st) l).

Lemma child_handles_in d l parent st h : db_ok d l ->
  h ∈ child_handles d l parent st <-> exists p e, d_pool d !! p = Some e /\ child_of parent st e = true /\ e_handle e = h.
Proof.
  intros H. unfold child_handles. rewrite list_elem_of_In, in_map_iff. split.
  - intros (p & <- & [Hp C]%filter_In). unfold is_child, handle_of in *.
    destruct (d_pool d !! p) as [e|] eqn:E; [|done]. by exists p, e.
  - intros (p & e & E & C & <-). exists p. unfold handle_of. rewrite E. split; [done|]. apply filter_In.
    unfold is_child. rewrite E. split; [|done]. apply list_elem_of_In, (ok_dom _ _ H). by eexists.
Qed.

Lemma child_handles_nodup d l parent st : db_ok d l -> NoDup (child_handles d l parent st).
Proof.
  intros H. unfold child_handles.
  apply NoDup_fmap_2_strong.
  - intros p q Hp Hq. apply list_elem_of_In, filter_In in Hp as [_ Cp]. apply list_elem_of_In, filter_In in Hq as [_ Cq].
    unfold is_child, handle_of in *. destruct (d_pool d !! p) as [e|] eqn:E; [|done].
    destruct (d_pool d !! q) as [e'|] eqn:E'; [|done]. cbn in *. intros Eh. apply (ok_unique _ _ H p q e e'); [done|done|done|].
    destruct (child_above parent st d l p e H E Cp) as [Hpar Hlt].
    destruct (ok_tree _ _ H p e E) as [[Hz Hz']|[Hz _]]; lia.
  - apply NoDup_ListNoDup, List.NoDup_filter, NoDup_ListNoDup, (ok_nodup _ _ H).
Qed.

Lemma next_child_search d o d' : get_next_child_handle d = Some (o, d') -> exists s, d' = d {{ d_search := s }}.
Proof.
  unfold get_next_child_handle. destruct (walk_db _ _ _) as [[p|]|]; cbn [mbind option_bind]; [| |done].
  - destruct (d_pool d !! p); [|done]. intros [= _ <-]. by eexists.
  - intros [= _ <-]. by eexists.
Qed.

Lemma count_search fuel d n m d' : count_children fuel d n = Some (m, d') -> exists s, d' = d {{ d_search := s }}.
Proof.
  revert d n. induction fuel as [|fuel IH]; intros d n; cbn [count_children]; [done|].
  destruct (get_next_child_handle d) as [[o d1]|] eqn:E; [|done]. cbn [mbind option_bind].
  destruct (next_child_search d o d1 E) as [s ->]. destruct o.
  - intros G. destruct (IH _ _ G) as [s' ->]. exists s'. by destruct d.
  - intros [= _ <-]. by exists s.
Qed.

(** Counting, and starting again. *)
Lemma count_ready d l parent st : db_ok d l ->
  exists d1, count_children (S (size (d_pool d))) (init_search_handle parent st d) 0 =
      Some (Z.of_nat (length (child_handles d l parent st)), d1) /\
    init_search_handle parent st d1 = init_search_handle parent st d.
Proof.
  intros H. pose proof (pending_init d l parent st H) as P. fold (child_handles d l parent st) in P.
  pose proof (pending_size _ _ P) as Hs.
  assert (d_pool (init_search_handle parent st d) = d_pool d) as Ep by by destruct d. rewrite Ep in Hs.
  destruct (count_children_spec (S (size (d_pool d))) _ _ 0 P) as (d1 & E & _); [lia|].
  rewrite E. exists d1. split; [done|]. destruct (count_search _ _ _ _ _ E) as [s ->]. by destruct d.
Qed.

(** Setting the watch leaves the enumeration as it is. *)
Lemma watch_ready mal addwatch path entry d l parent st :
  reachable mal d -> db_ok d l -> (forall p, entry = Some p -> is_Some (d_pool d !! p)) ->
  exists d', watch_folder addwatch path entry (init_search_handle parent st d) = Some d' /\ reachable mal d' /\
    db_ok d' l /\ pending d' (child_handles d' l parent st) /\ child_handles d' l parent st = child_handles d l parent st.
Proof.
  intros R H He. set (d2 := init_search_handle parent st d).
  assert (reachable mal d2) as R2 by by apply (reach_step mal d (StartSearch parent st)).
  pose proof (search_ok parent st d l H) as H2. fold d2 in H2.
  assert (pending d2 (child_handles d2 l parent st) /\ child_handles d2 l parent st = child_handles d l parent st) as [P2 E2].
  { pose proof (pending_init d l parent st H) as P. unfold d2, child_handles in *. by destruct d. }
  assert (d_pool d2 = d_pool d) as Pl
    by by destruct d.
  unfold watch_folder. destruct entry as [p|]; [|by exists d2]. destruct (He p eq_refl) as [e Ee]. rewrite Pl, Ee.
  cbn [mbind option_bind]. destruct (flagged ENTRY_IS_DIR e); [|by exists d2].
  set (g := fun e => e {{ e_wd := addwatch path }}).
  destruct (upd_entry_ok d2 l p g H2) as (d' & Eu & H' & _); [rewrite Pl; by eexists|intros e0 _; by destruct e0|].
  rewrite Eu. exists d'. split; [done|].
  assert (reachable mal d') as R'.
  { apply (reach_step mal d2 (SetWatch p (addwatch path))); [done|unfold op_allowed; rewrite Pl; by eexists|done]. }
  assert (d_pool d' = <[p := g e]> (d_pool d2) /\ d_search d' = d_list d' /\ d_hsearch d' = parent /\ d_ssearch d' = st)
    as (P' & S' & Q' & T').
  { unfold upd_entry in Eu. rewrite Pl, Ee in Eu. injection Eu as <-. by destruct d. }
  assert (forall q, handle_of d' q = handle_of d2 q /\ is_child d' parent st q = is_child d2 parent st q) as Hq.
  { intros q. unfold handle_of, is_child. rewrite P'. destruct (decide (p = q)) as [<-|].
    - rewrite lookup_insert_eq, Pl, Ee. by destruct e.
    - by rewrite lookup_insert_ne. }
  assert (child_handles d' l parent st = child_handles d2 l parent st) as Ec.
  { unfold child_handles. rewrite (filter_ext _ (is_child d2 parent st)) by apply Hq. apply map_ext. apply Hq. }
  split_and!; [done|done| |congruence]. exists l, [], l. rewrite Q', T', S'.
  split_and!; [done|done|apply (ok_list _ _ H')|done].
Qed.

(** C18: a folder is listed exactly.  For a folder of a reachable table that can
    be read and is not empty, when memory and handles suffice and the folder's
    objects have paths (whether their files are there or not), with packets of
    whole words, [GetObjectHandles] answers OK, and the
    data phase is the header with the total length, the number of objects and
    the handles: each live object of the folder after the scan once, and no
    other.  Every packet but the last is full, and a zero-length packet ends
    the phase when the last one is full as well. *)
Theorem object_handles_exact mal may_uid may_gid realpath stat64 opendir show_hidden addwatch wr_size max_packet_size
    tx_id code storageid parent_handle wrbuffer ctx ids d h path entry :
  fs_db ctx = Some d -> reachable mal d -> (forall k, mal k = true) ->
  mtp_get_storage_root ctx storageid <> None ->
  find_folder realpath ctx d storageid parent_handle = Some (h, Some path, entry) ->
  fst (set_storage_giduid may_uid may_gid ctx storageid ids) = 0 ->
  let files := found stat64 path (default [] (opendir path)) in
  files <> [] -> folder_resolves (mtp_get_storage_root ctx) realpath show_hidden h storageid files d ->
  d_next d + Z.of_nat (length files) < 2 ^ 32 -> Z.of_nat (size (d_pool d) + length files) < 2 ^ 29 ->
  max_packet_size mod 4 = 0 /\ 16 < max_packet_size < wr_size -> strlen wrbuffer = wr_size ->
  exists out d' hs chunks,
    mtp_op_GetObjectHandles mal may_uid may_gid realpath stat64 opendir show_hidden addwatch wr_size max_packet_size
      tx_id code storageid parent_handle wrbuffer ctx ids = Some out /\
    o_code out = MTP_RESPONSE_OK /\ fs_db (o_ctx out) = Some d' /\ NoDup hs /\
    (forall x, x ∈ hs <-> exists p e, d_pool d' !! p = Some e /\ child_of h storageid e = true /\ e_handle e = x) /\
    let n := Z.of_nat (length hs) in
    o_packets out = chunks ++ check_and_send_USB_ZLP max_packet_size (HEADER_SIZE + 4 + n * 4) /\
    concat chunks = packet_header (HEADER_SIZE + (1 + n) * 4) MTP_CONTAINER_TYPE_DATA code tx_id ++
      le_bytes 4 (u32 n) ++ words hs /\
    Forall (fun packet => strlen packet = max_packet_size) (removelast chunks).
Proof.
  intros Edb R Hm Hroot Ef Hid files Hfiles Hres Hn Hs Hps Hw. unfold mtp_op_GetObjectHandles. rewrite Edb.
  destruct (find_folder_ok _ _ _ _ _ _ _ _ _ R Ef) as [Hh Hentry].
  destruct (scan_ends mal stat64 opendir show_hidden (mtp_get_storage_root ctx) realpath path h storageid d R Hm Hroot Hh Hres Hn Hs)
    as (d1 & rm & Es & R1 & K1). fold files in Es.
  assert ((match files with [] => -1 | _ => 0 end) = 0) as Ez by by destruct files. rewrite Ez in Es.
  destruct (reachable_ok mal d1 R1) as (l & H1 & _).
  destruct (count_ready d1 l h storageid H1) as (d2 & Ec & Ei).
  destruct (watch_ready mal addwatch path entry d1 l h storageid R1 H1) as (d3 & Ew & R3 & H3 & P3 & E3).
  { intros p Ep. apply K1. by apply Hentry. }
  set (hs := child_handles d3 l h storageid) in *. set (n := Z.of_nat (length hs)).
  destruct (counted_header wr_size max_packet_size Hps tx_id code wrbuffer n Hw) as (wr & wr1 & wr2 & next & -> & E1 & E2 & Hl2 & Hs2).
  cbn [mbind option_bind]. change (HEADER_SIZE <? 0) with false. cbn iota.
  destruct (mtp_get_storage_root ctx storageid) as [root|]; [|done]. rewrite Ef. cbn [mbind option_bind].
  unfold list_folder. destruct (set_storage_giduid may_uid may_gid ctx storageid ids) as [access ids1]. cbn [fst] in Hid. subst access.
  change (0 =? 0) with true. cbn iota. rewrite Es. cbn [mbind option_bind]. change (0 <? 0) with false. cbn iota.
  rewrite Ec. cbn [mbind option_bind]. rewrite Ei, Ew. cbn [mbind option_bind]. rewrite <- E3. fold hs n. rewrite E1. cbn [mbind option_bind].
  rewrite E2. cbn [mbind option_bind].
  destruct (send_handles_spec wr_size max_packet_size n Hps (S (Z.to_nat n)) d3 hs wr2 16 0 [] P3 Hl2)
    as (d4 & wr4 & chunks & -> & S4 & C4 & F4 & _); [lia|done|unfold n; lia|unfold n; lia|].
  cbn [mbind option_bind]. eexists _, d4, hs, chunks. split; [done|]. cbn [o_code o_ctx o_packets app].
  split_and!; [done|by destruct ctx|by apply child_handles_nodup| |done| |done].
  - intros x. rewrite (proj1 (same_table_eqs d3 d4 S4)). by apply child_handles_in.
  - by rewrite C4, Hs2, <- app_assoc.
Qed.

(** A handle that is not in the table leaves the last enumeration as it was:
    the count is zero, and an object of the folder listed before may follow. *)
Lemma unknown_folder_goes_on mal may_uid may_gid realpath stat64 opendir show_hidden addwatch wr_size max_packet_size
    tx_id code storageid parent_handle wrbuffer ctx ids d x hs entry h :
  fs_db ctx = Some d -> pending d (x :: hs) -> mtp_get_storage_root ctx storageid <> None ->
  find_folder realpath ctx d storageid parent_handle = Some (h, None, entry) ->
  max_packet_size mod 4 = 0 /\ 16 < max_packet_size < wr_size -> strlen wrbuffer = wr_size ->
  exists out,
    mtp_op_GetObjectHandles mal may_uid may_gid realpath stat64 opendir show_hidden addwatch wr_size max_packet_size
      tx_id code storageid parent_handle wrbuffer ctx ids = Some out /\
    o_code out = MTP_RESPONSE_OK /\
    concat (o_packets out) = packet_header 16 MTP_CONTAINER_TYPE_DATA code tx_id ++ le_bytes 4 0 ++ le_bytes 4 (u32 x).
Proof.
  intros Edb P Hroot Ef Hps Hw. unfold mtp_op_GetObjectHandles. rewrite Edb.
  assert (20 <= max_packet_size) as H20 by (pose proof (Z.div_mod max_packet_size 4); lia).
  destruct (counted_header wr_size max_packet_size Hps tx_id code wrbuffer 0 Hw) as (wr & wr1 & wr2 & next & -> & E1 & E2 & Hl2 & Hs2).
  cbn [mbind option_bind]. change (HEADER_SIZE <? 0) with false. cbn iota.
  destruct (mtp_get_storage_root ctx storageid) as [root|]; [|done]. rewrite Ef. cbn [mbind option_bind].
  rewrite E1. cbn [mbind option_bind]. rewrite E2. cbn [mbind option_bind].
  change (S (Z.to_nat 0)) with 1%nat. cbn [send_handles fill_packet].
  destruct (pending_step d (x :: hs) P) as (o & d1 & -> & _ & p & e & -> & Ep & Ee & _).
  cbn [mbind option_bind]. rewrite Ep. cbn [mbind option_bind]. rewrite Ee.
  destruct (poke_word wr_size wr2 16 x Hl2) as (wr3 & -> & Hl3 & Hs3); [lia|lia|].
  cbn [mbind option_bind]. change (0 + 1 <? 0) with false. rewrite andb_false_r.
  cbn [mbind option_bind]. change (16 + 4 <? 0) with false. cbn iota. rewrite get_bytes_seg by lia. cbn [mbind option_bind]. eexists. split; [done|]. cbn [o_code o_packets app]. split; [done|].
  unfold check_and_send_USB_ZLP. change (HEADER_SIZE + 4 + 0 * 4) with 16.
  rewrite (proj2 (Z.leb_gt _ 16)) by lia. cbn [andb concat]. rewrite app_nil_r, Hs3, Hs2, <- app_assoc. done.
Qed.

(** The listing of a folder with an object whose file is gone: the handles of the
    new file are sent, those of the other are not. *)
Definition demo_list (d : fs_handles_db) : option outcome :=
  mtp_op_GetObjectHandles always (fun _ => true) (fun _ => true) demo_real demo_stat demo_dir false (fun _ => 3) 64 20
    5 0x1007 0xFFFF0001 1 (replicate 64 0) (demo_ctx (Some d)) (mkids 0 0).

Lemma object_handles_exact_witness : exists d out hs chunks, demo_old = Some d /\ demo_list d = Some out /\
  o_code out = MTP_RESPONSE_OK /\ NoDup hs /\
  concat chunks = packet_header (16 + 4 * Z.of_nat (length hs)) 2 0x1007 5 ++ le_bytes 4 (u32 (Z.of_nat (length hs))) ++ words hs.
Proof.
  destruct demo_old_reachable as (d & E & R & _). exists d.
  pose proof (demo_resolves (mtp_get_storage_root (demo_ctx (Some d))) d eq_refl (or_introl E)) as Hres.
  vm_compute in E. injection E as E.
  destruct (object_handles_exact always (fun _ => true) (fun _ => true) demo_real demo_stat demo_dir false (fun _ => 3) 64 20
    5 0x1007 0xFFFF0001 1 (replicate 64 0) (demo_ctx (Some d)) (mkids 0 0) d 1 (cstr "/mnt/d") (Some 1022))
    as (out & d' & hs & chunks & H & Hc & _ & Hn & _ & _ & Hp & _).
  - reflexivity.
  - exact R.
  - reflexivity.
  - discriminate.
  - rewrite <- E. vm_compute. reflexivity.
  - reflexivity.
  - discriminate.
  - exact Hres.
  - rewrite <- E. vm_compute. reflexivity.
  - rewrite <- E. vm_compute. reflexivity.
  - split; [reflexivity|lia].
  - reflexivity.
  - exists out, hs, chunks. split; [rewrite <- E; vm_compute; reflexivity|]. split; [exact H|]. split; [exact Hc|].
    split; [exact Hn|]. rewrite Hp. f_equal. unfold HEADER_SIZE, MTP_CONTAINER_TYPE_DATA. f_equal. lia.
Defined.
