(* ===== verification/MtpOps.v ===== *)
(** * Operations on objects

    Deleting, truncating, opening for edit and reading an object
    ([mtp_op_*.c], [delete_tree] of [mtp_ops_helpers.c], [fs_remove_tree] of
    [fs_handles_db.c]).  The file system is an interface: a state with the
    system calls the program makes on it. *)

From Stdlib Require Import Ascii String.
From S2P Require Import Prelude CString MtpUsb MtpData MtpHash MtpDb MtpTable MtpPath MtpStorage MtpMount MtpScan MtpFile MtpHandles.

(** ** The file system *)

(** Paths and names are strings; a Boolean result is success.  [fs_write] has no
    result, since the program ignores it; [fs_statvfs] gives [f_bsize],
    [f_blocks] and [f_bavail], and [fs_mtime] is [st_mtime] where [fs_stat]
    succeeds. *)
Class FileSystem (S : Type) := {
  fs_realpath : S -> list Z -> list Z + Z;
  fs_stat : S -> list Z -> option (bool * Z);
  fs_mtime : S -> list Z -> Z;
  fs_statvfs : S -> list Z -> option (Z * Z * Z);
  fs_rename : list Z -> list Z -> S -> bool * S;
  fs_lstat : S -> list Z -> option bool;
  fs_list : S -> list Z -> option (list (list Z));
  fs_remove : list Z -> S -> bool * S;
  fs_mkdir : list Z -> S -> bool * S;
  fs_create : list Z -> S -> bool * S;
  fs_truncate : list Z -> Z -> S -> Z * S;
  fs_open_read : S -> list Z -> Z;
  fs_open : bool -> list Z -> S -> Z * S;
  fs_seek : Z -> Z -> S -> S;
  fs_write : Z -> list Z -> S -> S;
  fs_end : S -> Z -> Z;
  fs_read : S -> Z -> Z -> Z -> option (list Z) }.

Definition MTP_RESPONSE_OPERATION_NOT_SUPPORTED : Z := 0x2005.
Definition MTP_RESPONSE_INCOMPLETE_TRANSFER : Z := 0x2007.
Definition MTP_RESPONSE_INVALID_OBJECT_HANDLE : Z := 0x2009.
Definition MTP_RESPONSE_OBJECT_WRITE_PROTECTED : Z := 0x200D.
(** Not a code of the protocol: no response is sent. *)
Definition MTP_RESPONSE_NO_RESPONSE : Z := 0xFFFF.

Section Ops.
Context {S : Type} {FS : FileSystem S}.
Context (mal : nat -> bool) (may_uid may_gid : Z -> bool) (show_hidden : bool).

(** ** Removing a tree *)

(** True is a failure.  The directory is what [readdir] lists when it is
    opened; the allocation of a name's string succeeds. *)
Fixpoint fs_remove_tree (fuel : nat) (folder : list Z) (s : S) : option (bool * S) :=
  match fuel with
  | O => None
  | Datatypes.S fuel =>
      match fs_list s folder with
      | None => Some (true, s)
      | Some dir =>
          '(del_fail, s) ←
            foldM (fun '(del_fail, s) d_name =>
                     let tmpstr := folder ++ [47] ++ d_name in
                     match fs_lstat s tmpstr with
                     | Some true =>
                         if negb (streq d_name (cstr "..")) && negb (streq d_name (cstr ".")) then
                           '(failed, s) ← fs_remove_tree fuel tmpstr s;
                           Some (if failed : bool then true else del_fail, s)
                         else Some (del_fail, s)
                     | Some false =>
                         let '(done, s) := fs_remove tmpstr s in Some (if done then del_fail else true, s)
                     | None => Some (del_fail, s)
                     end) dir (false, s);
          let '(done, s) := fs_remove folder s in
          Some (if done then del_fail else true, s)
      end
  end.

(** ** Deleting an object *)

(** The state of an operation: the context, the ids and the file system. *)
Record world := mkworld { w_ctx : mtp_ctx; w_ids : fsids; w_fs : S }.

(** The table of the open session, and the watches removed, put back. *)
Definition put_db (d : fs_handles_db) (rm : list Z) (w : world) : world :=
  w {{ w_ctx := (w_ctx w) {{ fs_db := Some d; unwatched := unwatched (w_ctx w) ++ rm }} }}.

Definition root_of (w : world) : Z -> option (list Z) := mtp_get_storage_root (w_ctx w).
Definition full_path (w : world) (p : Z) (d : fs_handles_db) : option (option (list Z)) :=
  e ← d_pool d !! p; build_full_path (root_of w) (fs_realpath (w_fs w)) (root_of w (e_storage e)) p d.

(** The entry of an object that was removed. *)
Definition drop_entry (p : Z) (d : fs_handles_db) (w : world) : option world :=
  e ← d_pool d !! p;
  d ← upd_entry mark_deleted p d;
  Some (put_db d (if e_wd e =? -1 then [] else [e_wd e]) w).

(** True is success. *)
Definition delete_tree (fuel : nat) (handle : Z) (d : fs_handles_db) (w : world) : option (bool * world) :=
  entry ← get_entry_by_handle (root_of w) handle d;
  match entry with
  | None => Some (false, w)
  | Some p =>
      e ← d_pool d !! p;
      path ← full_path w p d;
      match path with
      | None => Some (false, w)
      | Some path =>
          if flagged ENTRY_IS_DIR e then
            '(failed, s) ← fs_remove_tree fuel path (w_fs w);
            let w := w {{ w_fs := s }} in
            if failed : bool then
              '(_, d, rm) ← scan_and_add_folder (fs_stat s) (fs_list s) mal show_hidden (root_of w) (fs_realpath s)
                              path handle (e_storage e) d;
              Some (false, put_db d rm w)
            else w ← drop_entry p d w; Some (true, w)
          else
            let '(done, s) := fs_remove path (w_fs w) in
            let w := w {{ w_fs := s }} in
            if done then w ← drop_entry p d w; Some (true, w) else Some (false, w)
      end
  end.

Definition set_ids (ids : fsids) (w : world) : world := w {{ w_ids := ids }}.

Definition mtp_op_DeleteObject (fuel : nat) (handle : Z) (w : world) : option (Z * world) :=
  match fs_db (w_ctx w) with
  | None => Some (MTP_RESPONSE_SESSION_NOT_OPEN, w)
  | Some d =>
      denied ← check_handle_access (w_ctx w) d None handle true;
      match denied with
      | Some response_code => Some (response_code, w)
      | None =>
          entry ← get_entry_by_handle (root_of w) handle d;
          '(response_code, w) ←
            match entry with
            | None => Some (MTP_RESPONSE_INVALID_OBJECT_HANDLE, w)
            | Some p =>
                e ← d_pool d !! p;
                let '(access, ids) := set_storage_giduid may_uid may_gid (w_ctx w) (e_storage e) (w_ids w) in
                let w := set_ids ids w in
                if access =? 0 then
                  '(deleted, w) ← delete_tree fuel handle d w;
                  Some (if deleted : bool then MTP_RESPONSE_OK else MTP_RESPONSE_OBJECT_WRITE_PROTECTED, w)
                else Some (MTP_RESPONSE_OBJECT_WRITE_PROTECTED, w)
            end;
          Some (response_code, set_ids (snd (restore_giduid may_uid may_gid (w_ctx w) (w_ids w))) w)
      end
  end.

(** ** Editing *)
Definition mtp_op_BeginEditObject (handle : Z) (w : world) : option (Z * world) :=
  match fs_db (w_ctx w) with
  | None => Some (MTP_RESPONSE_SESSION_NOT_OPEN, w)
  | Some d =>
      denied ← check_handle_access (w_ctx w) d None handle true;
      Some (match denied with Some code => code | None => MTP_RESPONSE_OK end, w)
  end.

(** The descriptor is closed whatever the check says. *)
Definition mtp_op_EndEditObject (handle : Z) (w : world) : option (Z * list Z * world) :=
  match fs_db (w_ctx w) with
  | None => Some (MTP_RESPONSE_SESSION_NOT_OPEN, [], w)
  | Some d =>
      denied ← check_handle_access (w_ctx w) d None handle true;
      let code := match denied with Some code => code | None => MTP_RESPONSE_OK end in
      entry ← get_entry_by_handle (root_of w) handle d;
      match entry with
      | None => Some (code, [], w)
      | Some p => '(d, closed) ← entry_close p d; Some (code, closed, put_db d [] w)
      end
  end.

(** [offset] is [peek64] of the packet, taken as an [int64_t]. *)
Definition mtp_op_TruncateObject (handle offset : Z) (w : world) : option (Z * world) :=
  match fs_db (w_ctx w) with
  | None => Some (MTP_RESPONSE_SESSION_NOT_OPEN, w)
  | Some d =>
      entry ← get_entry_by_handle (root_of w) handle d;
      match entry with
      | None => Some (MTP_RESPONSE_INVALID_OBJECT_HANDLE, w)
      | Some p =>
          denied ← check_handle_access (w_ctx w) d (Some p) handle true;
          match denied with
          | Some response_code => Some (response_code, w)
          | None =>
              path ← full_path w p d;
              match path with
              | None => Some (MTP_RESPONSE_GENERAL_ERROR, w)
              | Some path =>
                  let '(err, s) := fs_truncate path offset (w_fs w) in
                  Some (if err =? 0 then MTP_RESPONSE_OK else posix_to_mtp_errcode err, w {{ w_fs := s }})
              end
          end
      end
  end.

(** ** Reading *)

(** The buffers, the size of a packet, and [cancel_req] at each test. *)
Context (wr_size rd_size max_packet_size : Z) (cancel : nat -> bool).

Definition send_object (p offset maxsize : Z) (wrbuffer : list Z) (buffer : option (list Z)) (d : fs_handles_db) (w : world) :
    option sent :=
  send_file_data may_uid may_gid (fs_realpath (w_fs w)) (fs_open_read (w_fs w)) (fs_read (w_fs w)) cancel wr_size rd_size
    max_packet_size (w_ctx w) (w_ids w) wrbuffer buffer p offset maxsize d.

(** The outcome of a transfer. *)
Definition after_transfer (code : Z) (params : list Z) (r : sent) (w : world) : outcome :=
  mkout code params (s_packets r) (w_ctx (put_db (s_db r) [] w)) (s_ids r).

Definition mtp_op_GetObject (tx_id code handle : Z) (wrbuffer : list Z) (buffer : option (list Z)) (w : world) :
    option outcome :=
  let refused code := mkout code [] [] (w_ctx w) (w_ids w) in
  match fs_db (w_ctx w) with
  | None => Some (refused MTP_RESPONSE_SESSION_NOT_OPEN)
  | Some d =>
      entry ← get_entry_by_handle (root_of w) handle d;
      match entry with
      | None => Some (refused MTP_RESPONSE_INVALID_OBJECT_HANDLE)
      | Some p =>
          denied ← check_handle_access (w_ctx w) d (Some p) handle false;
          match denied with
          | Some response_code => Some (refused response_code)
          | None =>
              '(wrbuffer, sz) ← build_response tx_id MTP_CONTAINER_TYPE_DATA code wrbuffer wr_size [];
              if sz <? 0 then Some (refused MTP_RESPONSE_GENERAL_ERROR)
              else
                e ← d_pool d !! p;
                r ← send_object p 0 (e_size e) wrbuffer buffer d w;
                let response_code :=
                  if 0 <=? s_result r then MTP_RESPONSE_OK
                  else if s_result r =? -2 then MTP_RESPONSE_NO_RESPONSE else MTP_RESPONSE_INCOMPLETE_TRANSFER in
                Some (after_transfer response_code [] r w)
          end
      end
  end.

(** [param2] and [param3] are read with [peek] and [peek64]; the size is kept
    in an [int]. *)
Definition mtp_op_GetPartialObject (tx_id code handle offset param_size : Z) (wrbuffer : list Z)
    (buffer : option (list Z)) (w : world) : option outcome :=
  let refused code := mkout code [] [] (w_ctx w) (w_ids w) in
  match fs_db (w_ctx w) with
  | None => Some (refused MTP_RESPONSE_SESSION_NOT_OPEN)
  | Some d =>
      let maxsize := i32 param_size in
      entry ← get_entry_by_handle (root_of w) handle d;
      denied ← check_handle_access (w_ctx w) d entry handle false;
      match denied with
      | Some response_code => Some (refused response_code)
      | None =>
          match entry with
          | None => Some (refused MTP_RESPONSE_INVALID_OBJECT_HANDLE)
          | Some p =>
              '(wrbuffer, sz) ← build_response tx_id MTP_CONTAINER_TYPE_DATA code wrbuffer wr_size [];
              if sz <? 0 then Some (refused MTP_RESPONSE_GENERAL_ERROR)
              else
                r ← send_object p offset maxsize wrbuffer buffer d w;
                if 0 <=? s_result r then
                  Some (after_transfer MTP_RESPONSE_OK [Z.land (s_result r) 0xFFFFFFFF] r w)
                else if s_result r =? -2 then Some (after_transfer MTP_RESPONSE_NO_RESPONSE [] r w)
                else Some (after_transfer MTP_RESPONSE_OK [] r w)
          end
      end
  end.
End Ops.

Arguments world S : clear implicits.
