(* ===== verification/MtpDisk.v ===== *)
(** * A small file system

    An instance of the interface of [MtpOps], for the examples: a set of paths,
    one file that can be open, and a limit of 64 bytes on paths. *)

From Stdlib Require Import Ascii String.
From S2P Require Import Prelude CString MtpFile MtpOps.

(** The paths with their kind (true is a folder), and the content of the file. *)
Record disk := mkdisk { paths : list (list Z * bool); content : list Z }.

Definition PATH_LIMIT : nat := 64.

Definition kind (q : list Z) (s : disk) : option bool :=
  match List.find (fun '(path, _) => streq path q) (paths s) with Some (_, isdir) => Some isdir | None => None end.

Definition ends_with (suffix q : list Z) : bool := starts_with (rev suffix) (rev q).
Definition is_dots (q : list Z) : bool := ends_with (cstr "/..") q || ends_with (cstr "/.") q.

(** The name of [q] in the folder, without further slashes. *)
Definition child_name (folder q : list Z) : option (list Z) :=
  if starts_with (folder ++ [47]) q then
    let name := drop (length folder + 1) q in if bool_decide (47 ∈ name) then None else Some name
  else None.

Definition disk_lstat (s : disk) (q : list Z) : option bool :=
  if (length q <? PATH_LIMIT)%nat then if is_dots q then Some true else kind q s else None.

Definition disk_list (s : disk) (folder : list Z) : option (list (list Z)) :=
  match kind folder s with
  | Some true => Some (cstr "." :: cstr ".." :: omap (fun '(path, _) => child_name folder path) (paths s))
  | _ => None
  end.

(** A folder with something in it is not removed. *)
Definition disk_remove (q : list Z) (s : disk) : bool * disk :=
  match kind q s with
  | None => (false, s)
  | Some _ =>
      if existsb (fun '(path, _) => starts_with (q ++ [47]) path) (paths s) then (false, s)
      else (true, s {{ paths := List.filter (fun '(path, _) => negb (streq path q)) (paths s) }})
  end.

(** The slashes at the end of a path mean nothing. *)
Fixpoint strip_slashes (q : list Z) : list Z :=
  match q with
  | [] => []
  | c :: q => match strip_slashes q with [] => if c =? 47 then [] else [c] | q => c :: q end
  end.

#[export] Instance disk_fs : FileSystem disk := {|
  fs_realpath _ q := inl (strip_slashes q);
  fs_stat s q := option_map (fun isdir => (isdir, strlen (content s))) (disk_lstat s q);
  fs_mtime _ _ := 0;
  fs_statvfs _ _ := Some (4096, 100, 10);
  fs_rename p q s :=
    (true, s {{ paths := map (fun '(path, kd) => (if streq path p then q else path, kd)) (paths s) }});
  fs_lstat := disk_lstat;
  fs_list := disk_list;
  fs_remove := disk_remove;
  fs_mkdir q s := (true, s {{ paths := (q, true) :: paths s }});
  fs_create q s := (true, mkdisk ((q, false) :: paths s) []);
  fs_truncate _ n s := (0, s {{ content := take (Z.to_nat n) (content s) }});
  fs_open_read _ _ := 7;
  fs_open partial _ s := (7, if partial : bool then s else s {{ content := [] }});
  fs_seek _ off s := s {{ content := take (Z.to_nat off) (content s) }};
  fs_write _ data s := s {{ content := content s ++ data }};
  fs_end s _ := strlen (content s);
  fs_read s _ off n := Some (seg (content s) off n) |}.

Definition demo_disk : disk :=
  mkdisk [(cstr "/mnt", true); (cstr "/mnt/d", true); (cstr "/mnt/d/a", true); (cstr "/mnt/d/a/x", false);
          (cstr "/mnt/d/c", false); (cstr "/mnt/keep", false)] [].

(** The tree goes, the rest stays. *)
Lemma demo_removed : fs_remove_tree 8 (cstr "/mnt/d") demo_disk =
  Some (false, mkdisk [(cstr "/mnt", true); (cstr "/mnt/keep", false)] []).
Proof. vm_compute. reflexivity. Qed.

Lemma disk_dots s folder name : name = cstr ".." \/ name = cstr "." ->
  disk_lstat s (folder ++ [47] ++ name) <> Some false.
Proof.
  intros H. unfold disk_lstat. destruct (_ <? _)%nat; [|done].
  assert (is_dots (folder ++ [47] ++ name) = true) as ->; [|done].
  unfold is_dots, ends_with. rewrite !rev_app_distr.
  destruct H as [->| ->]; apply orb_true_iff; [left|right]; apply starts_with_spec; exists (rev folder); reflexivity.
Qed.

Lemma disk_kept p kd q s : p <> q -> (p, kd) ∈ paths s -> (p, kd) ∈ paths (snd (disk_remove q s)).
Proof.
  intros Hp Hin. unfold disk_remove. destruct (kind q s); [|done]. destruct (existsb _ _); [done|].
  cbn [snd]. destruct s as [ps c]. cbn in *. apply list_elem_of_In, filter_In. split; [by apply list_elem_of_In|].
  destruct (streq p q) eqn:E; [|done]. by apply streq_spec in E.
Qed.
