(* ===== verification/MtpSend.v ===== *)
(** * Receiving objects from the host

    [parse_incoming_dataset] of [mtp.c], which creates the folder or the file,
    and [mtp_op_SendObjectInfo] and [mtp_op_SendObject]. *)

From Stdlib Require Import Ascii String.
From S2P Require Import Prelude CString MtpUsb MtpData MtpName MtpHash MtpDb MtpTable MtpPath MtpStorage MtpMount MtpScan MtpFile MtpHandles MtpOps.

Definition MTP_OPERATION_SEND_OBJECT_INFO : Z := 0x100C.
Definition MTP_OPERATION_SEND_OBJECT : Z := 0x100D.
Definition MTP_OPERATION_SEND_PARTIAL_OBJECT : Z := 0x95C2.
Definition MTP_FORMAT_ASSOCIATION : Z := 0x3001.
Definition MTP_RESPONSE_INVALID_DATASET : Z := 0xA806.
Definition NO_HANDLE : Z := 0xFFFFFFFF.

(** [SendObjInfoHandle], [SendObjInfoSize] and [SendObjInfoOffset]. *)
Record send_info := mkinfo { si_handle : Z; si_size : Z; si_offset : Z }.

(** ** The name in a dataset *)

(** The code units at [index], as they are in memory. *)
Fixpoint read_units (dataset : list Z) (n : nat) (index : Z) : option (list Z) :=
  match n with
  | O => Some []
  | S n => v ← peek dataset index 2; us ← read_units dataset n (index + 2); Some (le_bytes 2 v ++ us)
  end.

(** The checked name; [None] inside is a malformed one. *)
Definition object_name (dataset : list Z) : option (option (list Z)) :=
  string_len ← peek dataset 0x34 1;
  units ← read_units dataset (Z.to_nat string_len) 0x35;
  '(tmp_str, _) ← unicode2charstring (units ++ replicate (2 * (257 - Z.to_nat string_len)) 0) 257;
  let '(name, ret) := sanitize_name (Some tmp_str) 257 in
  Some (if ret =? 1 then Some name else None).

Section Receive.
Context {S : Type} {FS : FileSystem S}.
Context (mal : nat -> bool) (may_uid may_gid : Z -> bool).

(** The path of a new object; the outer [None] is a crash, [None] inside a
    parent that is no folder or has no path. *)
Definition new_path (storage_id parent_handle : Z) (name : list Z) (d : fs_handles_db) (w : world S) :
    option (option (Z * option (list Z))) :=
  entry ← get_entry_by_handle_and_storageid parent_handle storage_id d;
  match entry with
  | None => Some None
  | Some p =>
      e ← d_pool d !! p;
      if flagged ENTRY_IS_DIR e then
        parent_folder ← full_path w p d;
        Some (Some (e_storage e, option_map (fun folder => folder ++ [47] ++ name) parent_folder))
      else Some None
  end.

(** A call made with the ids of a storage; without access it is not made. *)
Definition as_storage (storage_id : Z) (call : S -> bool * S) (w : world S) : bool * world S :=
  let '(access, ids) := set_storage_giduid may_uid may_gid (w_ctx w) storage_id (w_ids w) in
  let '(done, s) := if access =? 0 then call (w_fs w) else (false, w_fs w) in
  (done, mkworld (w_ctx w) (snd (restore_giduid may_uid may_gid (w_ctx w) ids)) s).

(** The new object in the table, and its handle. *)
Definition enter (f : filefoundinfo) (parent_handle storage_id : Z) (d : fs_handles_db) (w : world S) :
    option (option Z * world S) :=
  '(entry, d) ← add_entry mal f parent_handle storage_id d;
  match entry with
  | Some p => e ← d_pool d !! p; Some (Some (e_handle e), put_db d [] w)
  | None => Some (None, put_db d [] w)
  end.

(** A result: the response code, the new handle if one was written, what
    [SendObject] is told, and the world. *)
Definition receive_folder (parent_handle storage_id : Z) (name : list Z) (d : fs_handles_db) (si : send_info)
    (w : world S) : option (Z * option Z * send_info * world S) :=
  target ← new_path storage_id parent_handle name d w;
  match target with
  | Some (st, Some path) =>
      let '(done, w) := as_storage st (fs_mkdir path) w in
      if done : bool then
        '(handle, w) ← enter (mkfound true name 0) parent_handle storage_id d w;
        Some (MTP_RESPONSE_OK, handle, si, w)
      else Some (MTP_RESPONSE_ACCESS_DENIED, None, si, w)
  | _ => Some (MTP_RESPONSE_OK, None, si, w)
  end.

Definition receive_file (parent_handle storage_id objectsize : Z) (name : list Z) (d : fs_handles_db)
    (si : send_info) (w : world S) : option (Z * option Z * send_info * world S) :=
  target ← new_path storage_id parent_handle name d w;
  match target with
  | Some (_, Some path) =>
      let '(done, w) := as_storage storage_id (fs_create path) w in
      if done : bool then
        '(handle, w) ← enter (mkfound false name objectsize) parent_handle storage_id d w;
        match handle with
        | Some h => Some (MTP_RESPONSE_OK, Some h, mkinfo h objectsize 0, w)
        | None => Some (MTP_RESPONSE_OK, None, mkinfo NO_HANDLE 0 0, w)
        end
      else Some (MTP_RESPONSE_ACCESS_DENIED, None, si, w)
  | Some (_, None) => Some (MTP_RESPONSE_OK, None, mkinfo NO_HANDLE 0 0, w)
  | None => Some (MTP_RESPONSE_OK, None, si, w)
  end.

(** [code] is that of the header in [datain]; the handle is [newhandle] where
    it is written. *)
Definition parse_incoming_dataset (datain : list Z) (parent_handle storage_id : Z) (d : fs_handles_db)
    (si : send_info) (w : world S) : option (Z * option Z * send_info * world S) :=
  let parent_handle := if parent_handle =? 0xFFFFFFFF then 0 else parent_handle in
  let storage_flags := mtp_get_storage_flags (w_ctx w) storage_id in
  if storage_flags =? NO_STORAGE then Some (MTP_RESPONSE_INVALID_STORAGE_ID, None, si, w)
  else if negb (Z.land storage_flags UMTP_STORAGE_READONLY =? 0) then Some (STORE_READ_ONLY, None, si, w)
  else
    code ← peek datain 6 2;
    if code =? MTP_OPERATION_SEND_OBJECT_INFO then
      let dataset := drop (Z.to_nat HEADER_SIZE) datain in
      objectformat ← peek dataset 0x04 2;
      objectsize ← peek dataset 0x08 4;
      name ← object_name dataset;
      match name with
      | None => Some (MTP_RESPONSE_INVALID_DATASET, None, si, w)
      | Some name =>
          if objectformat =? MTP_FORMAT_ASSOCIATION then receive_folder parent_handle storage_id name d si w
          else receive_file parent_handle storage_id objectsize name d si w
      end
    else Some (MTP_RESPONSE_OK, None, si, w).

(** [dataset] is [rdbuffer2] after [read_usb]; the parameters of the response
    are the second part. *)
Definition mtp_op_SendObjectInfo (storageid parent_handle : Z) (dataset : list Z) (si : send_info) (w : world S) :
    option (Z * list Z * send_info * world S) :=
  match fs_db (w_ctx w) with
  | None => Some (MTP_RESPONSE_SESSION_NOT_OPEN, [], si, w)
  | Some d =>
      '(response_code, new_handle, si, w) ← parse_incoming_dataset dataset parent_handle storageid d si w;
      let params := if response_code =? MTP_RESPONSE_OK
                    then [storageid; parent_handle; default NO_HANDLE new_handle] else [] in
      Some (response_code, params, si, w)
  end.

(** ** The data of an object *)

(** [rd_size] is the size of the buffers; the host's transfers come one per
    [read_usb], an error when there is none; [cancel k] is [cancel_req] at its
    k-th test. *)
Context (rd_size : Z) (cancel : nat -> bool).

(** The loop over the transfers: the state, the bytes still expected, the
    transfers left and the tests made. *)
Fixpoint receive_loop (usb : list (list Z)) (file sz : Z) (s : S) (size : Z) (tests : nat) :
    S * Z * list (list Z) * nat :=
  if sz =? rd_size then
    if cancel tests then (s, size, usb, Datatypes.S tests)
    else
      match usb with
      | [] => (s, size, [], Datatypes.S tests)
      | data :: usb => receive_loop usb file (strlen data) (fs_write file data s) (size - strlen data) (Datatypes.S tests)
      end
  else (s, size, usb, tests).

(** The data phase into an open file: [packet] is the whole first transfer. *)
Definition receive_data (partial : bool) (packet : list Z) (usb : list (list Z)) (file : Z) (si : send_info) (s : S) :
    S * Z * list (list Z) * nat :=
  let s := fs_seek file (si_offset si) s in
  let data := drop (Z.to_nat HEADER_SIZE) packet in
  let sz := strlen packet - HEADER_SIZE in
  let '(s, size) := if 0 <? sz then (fs_write file data s, si_size si - sz) else (s, si_size si) in
  let sz := if sz =? rd_size - HEADER_SIZE then rd_size else sz in
  let sz := if partial && negb (size =? 0) then rd_size else sz in
  receive_loop usb file sz s size O.

(** What is left behind: the response code, what [SendObject] is told, the
    transfers not read, the descriptors closed, [transferring_file_data] and
    the world. *)
Record received := mkrecv {
  r_code : Z; r_info : send_info; r_usb : list (list Z); r_closed : list Z; r_world : world S }.

Definition open_entry (p : Z) (partial : bool) (d : fs_handles_db) (w : world S) : option (Z * fs_handles_db * world S) :=
  e ← d_pool d !! p;
  if 0 <? e_fd e then Some (e_fd e, d, w)
  else
    path ← full_path w p d;
    match path with
    | None => Some (e_fd e, d, w)
    | Some path =>
        let '(access, ids) := set_storage_giduid may_uid may_gid (w_ctx w) (e_storage e) (w_ids w) in
        let '(fd, s) := if access =? 0 then fs_open partial path (w_fs w) else (e_fd e, w_fs w) in
        d ← upd_entry (fun e => e {{ e_fd := fd }}) p d;
        Some (fd, d, mkworld (w_ctx w) (snd (restore_giduid may_uid may_gid (w_ctx w) ids)) s)
    end.

Definition receive_object (partial : bool) (packet : list Z) (usb : list (list Z)) (p : Z) (si : send_info)
    (d : fs_handles_db) (w : world S) : option received :=
  '(file, d, w) ← open_entry p partial d w;
  if file =? -1 then Some (mkrecv MTP_RESPONSE_GENERAL_ERROR si usb [] (put_db d [] w))
  else
    let '(s, size, usb, tests) := receive_data partial packet usb file si (w_fs w) in
    d ← upd_entry (fun e => e {{ e_size := fs_end s file }}) p d;
    '(d, closed) ← (if partial then Some (d, []) else entry_close p d);
    let w := put_db d [] (w {{ w_fs := s }}) in
    Some (mkrecv (if cancel tests then MTP_RESPONSE_NO_RESPONSE else MTP_RESPONSE_OK)
            (mkinfo (si_handle si) size (si_offset si)) usb closed w).

(** [operation] and [code] are those of the header; [packet] is the transfer at
    the start of [rdbuffer]. *)
Definition mtp_op_SendObject (operation code : Z) (rdbuffer packet : list Z) (usb : list (list Z)) (si : send_info) (w : world S) :
    option received :=
  match fs_db (w_ctx w) with
  | None => Some (mkrecv MTP_RESPONSE_SESSION_NOT_OPEN si usb [] w)
  | Some d =>
      let partial := code =? MTP_OPERATION_SEND_PARTIAL_OBJECT in
      si ← (if partial && (operation =? MTP_CONTAINER_TYPE_COMMAND) then
              handle ← peek rdbuffer 12 4; offset ← peek64 rdbuffer 16 8; size ← peek rdbuffer 24 4;
              Some (mkinfo handle size (i64 offset))
            else Some si);
      if si_handle si =? NO_HANDLE then Some (mkrecv MTP_RESPONSE_INVALID_OBJECT_HANDLE si usb [] w)
      else if operation =? MTP_CONTAINER_TYPE_DATA then
        entry ← get_entry_by_handle (root_of w) (si_handle si) d;
        match entry with
        | None => Some (mkrecv MTP_RESPONSE_INVALID_OBJECT_HANDLE si usb [] w)
        | Some p =>
            denied ← check_handle_access (w_ctx w) d (Some p) 0 true;
            match denied with
            | Some response_code => Some (mkrecv response_code si usb [] w)
            | None => receive_object partial packet usb p si d w
            end
        end
      else if operation =? MTP_CONTAINER_TYPE_COMMAND then
        denied ← check_handle_access (w_ctx w) d None (si_handle si) true;
        Some (mkrecv (match denied with Some code => code | None => MTP_RESPONSE_NO_RESPONSE end) si usb [] w)
      else Some (mkrecv MTP_RESPONSE_GENERAL_ERROR si usb [] w)
  end.
End Receive.
