(* ===== verification/MtpProps.v ===== *)
(** * Object and device properties, [mtp_properties.c]

    The tables of properties and formats, and the datasets that describe a
    property and give its value.  A dataset is a [writer]; a pointer to a value
    is the memory it points to. *)

From Stdlib Require Import Ascii String.
From S2P Require Import Prelude CString MtpData MtpWriter MtpHash MtpDb MtpTable MtpStorage MtpSend.

Definition MTP_TYPE_UINT8 : Z := 0x0002.
Definition MTP_TYPE_UINT16 : Z := 0x0004.
Definition MTP_TYPE_UINT32 : Z := 0x0006.
Definition MTP_TYPE_UINT64 : Z := 0x0008.
Definition MTP_TYPE_UINT128 : Z := 0x000A.
Definition MTP_TYPE_STR : Z := 0xFFFF.
Definition MTP_FORMAT_UNDEFINED : Z := 0x3000.
Definition MTP_FORMAT_TEXT : Z := 0x3004.
Definition MTP_FORMAT_HTML : Z := 0x3005.
Definition MTP_FORMAT_AIFF : Z := 0x3007.
Definition MTP_FORMAT_WAV : Z := 0x3008.
Definition MTP_FORMAT_MP3 : Z := 0x3009.
Definition MTP_FORMAT_AVI : Z := 0x300A.
Definition MTP_FORMAT_MPEG : Z := 0x300B.
Definition MTP_FORMAT_ASF : Z := 0x300C.
Definition MTP_FORMAT_EXIF_JPEG : Z := 0x3801.
Definition MTP_FORMAT_BMP : Z := 0x3804.
Definition MTP_FORMAT_WMA : Z := 0xB901.
Definition MTP_FORMAT_OGG : Z := 0xB902.
Definition MTP_FORMAT_AAC : Z := 0xB903.
Definition MTP_FORMAT_FLAC : Z := 0xB906.
Definition MTP_FORMAT_MP4_CONTAINER : Z := 0xB982.
Definition MTP_FORMAT_3GP_CONTAINER : Z := 0xB984.
Definition MTP_FORMAT_ABSTRACT_AV_PLAYLIST : Z := 0xBA05.
Definition MTP_FORMAT_WPL_PLAYLIST : Z := 0xBA10.
Definition MTP_FORMAT_M3U_PLAYLIST : Z := 0xBA11.
Definition MTP_FORMAT_PLS_PLAYLIST : Z := 0xBA14.
Definition MTP_FORMAT_XML_DOCUMENT : Z := 0xBA82.
Definition MTP_FORMAT_MS_WORD_DOCUMENT : Z := 0xBA83.
Definition MTP_FORMAT_MS_EXCEL_SPREADSHEET : Z := 0xBA85.
Definition MTP_FORMAT_MS_POWERPOINT_PRESENTATION : Z := 0xBA86.
Definition MTP_PROPERTY_STORAGE_ID : Z := 0xDC01.
Definition MTP_PROPERTY_OBJECT_FORMAT : Z := 0xDC02.
Definition MTP_PROPERTY_PROTECTION_STATUS : Z := 0xDC03.
Definition MTP_PROPERTY_OBJECT_SIZE : Z := 0xDC04.
Definition MTP_PROPERTY_ASSOCIATION_TYPE : Z := 0xDC05.
Definition MTP_PROPERTY_ASSOCIATION_DESC : Z := 0xDC06.
Definition MTP_PROPERTY_OBJECT_FILE_NAME : Z := 0xDC07.
Definition MTP_PROPERTY_DATE_CREATED : Z := 0xDC08.
Definition MTP_PROPERTY_DATE_MODIFIED : Z := 0xDC09.
Definition MTP_PROPERTY_PARENT_OBJECT : Z := 0xDC0B.
Definition MTP_PROPERTY_HIDDEN : Z := 0xDC0D.
Definition MTP_PROPERTY_SYSTEM_OBJECT : Z := 0xDC0E.
Definition MTP_PROPERTY_PERSISTENT_UID : Z := 0xDC41.
Definition MTP_PROPERTY_NAME : Z := 0xDC44.
Definition MTP_PROPERTY_DISPLAY_NAME : Z := 0xDCE0.
Definition MTP_DEVICE_PROPERTY_BATTERY_LEVEL : Z := 0x5001.
Definition MTP_DEVICE_PROPERTY_DEVICE_FRIENDLY_NAME : Z := 0xD402.
Definition MTP_ASSOCIATION_TYPE_GENERIC_FOLDER : Z := 0x0001.

(** ** The tables *)
Record profile_property := mkprop {
  prop_code : Z; data_type : Z; getset : Z; default_value : Z; group_code : Z; form_flag : Z; format_id : Z }.

(** The last line of both tables; the lists below end before it. *)
Definition end_property : profile_property := mkprop 0xFFFF MTP_TYPE_UINT32 0 0 0 0 0.

Definition properties : list profile_property := [
  mkprop MTP_PROPERTY_STORAGE_ID MTP_TYPE_UINT32 0 0 1 0 0xFFFF;
  mkprop MTP_PROPERTY_OBJECT_FORMAT MTP_TYPE_UINT16 0 MTP_FORMAT_UNDEFINED 0 0 MTP_FORMAT_UNDEFINED;
  mkprop MTP_PROPERTY_OBJECT_FORMAT MTP_TYPE_UINT16 0 MTP_FORMAT_ASSOCIATION 0 0 MTP_FORMAT_ASSOCIATION;
  mkprop MTP_PROPERTY_OBJECT_FORMAT MTP_TYPE_UINT16 0 MTP_FORMAT_TEXT 0 0 MTP_FORMAT_TEXT;
  mkprop MTP_PROPERTY_OBJECT_FORMAT MTP_TYPE_UINT16 0 MTP_FORMAT_HTML 0 0 MTP_FORMAT_HTML;
  mkprop MTP_PROPERTY_OBJECT_FORMAT MTP_TYPE_UINT16 0 MTP_FORMAT_WAV 0 0 MTP_FORMAT_WAV;
  mkprop MTP_PROPERTY_OBJECT_FORMAT MTP_TYPE_UINT16 0 MTP_FORMAT_MP3 0 0 MTP_FORMAT_MP3;
  mkprop MTP_PROPERTY_OBJECT_FORMAT MTP_TYPE_UINT16 0 MTP_FORMAT_MPEG 0 0 MTP_FORMAT_MPEG;
  mkprop MTP_PROPERTY_OBJECT_FORMAT MTP_TYPE_UINT16 0 MTP_FORMAT_EXIF_JPEG 0 0 MTP_FORMAT_EXIF_JPEG;
  mkprop MTP_PROPERTY_OBJECT_FORMAT MTP_TYPE_UINT16 0 MTP_FORMAT_BMP 0 0 MTP_FORMAT_BMP;
  mkprop MTP_PROPERTY_OBJECT_FORMAT MTP_TYPE_UINT16 0 MTP_FORMAT_AIFF 0 0 MTP_FORMAT_AIFF;
  mkprop MTP_PROPERTY_OBJECT_FORMAT MTP_TYPE_UINT16 0 MTP_FORMAT_MPEG 0 0 MTP_FORMAT_MPEG;
  mkprop MTP_PROPERTY_OBJECT_FORMAT MTP_TYPE_UINT16 0 MTP_FORMAT_WMA 0 0 MTP_FORMAT_WMA;
  mkprop MTP_PROPERTY_OBJECT_FORMAT MTP_TYPE_UINT16 0 MTP_FORMAT_OGG 0 0 MTP_FORMAT_OGG;
  mkprop MTP_PROPERTY_OBJECT_FORMAT MTP_TYPE_UINT16 0 MTP_FORMAT_AAC 0 0 MTP_FORMAT_AAC;
  mkprop MTP_PROPERTY_OBJECT_FORMAT MTP_TYPE_UINT16 0 MTP_FORMAT_MP4_CONTAINER 0 0 MTP_FORMAT_MP4_CONTAINER;
  mkprop MTP_PROPERTY_OBJECT_FORMAT MTP_TYPE_UINT16 0 MTP_FORMAT_3GP_CONTAINER 0 0 MTP_FORMAT_3GP_CONTAINER;
  mkprop MTP_PROPERTY_OBJECT_FORMAT MTP_TYPE_UINT16 0 MTP_FORMAT_ABSTRACT_AV_PLAYLIST 0 0 MTP_FORMAT_ABSTRACT_AV_PLAYLIST;
  mkprop MTP_PROPERTY_OBJECT_FORMAT MTP_TYPE_UINT16 0 MTP_FORMAT_WPL_PLAYLIST 0 0 MTP_FORMAT_WPL_PLAYLIST;
  mkprop MTP_PROPERTY_OBJECT_FORMAT MTP_TYPE_UINT16 0 MTP_FORMAT_M3U_PLAYLIST 0 0 MTP_FORMAT_M3U_PLAYLIST;
  mkprop MTP_PROPERTY_OBJECT_FORMAT MTP_TYPE_UINT16 0 MTP_FORMAT_PLS_PLAYLIST 0 0 MTP_FORMAT_PLS_PLAYLIST;
  mkprop MTP_PROPERTY_OBJECT_FORMAT MTP_TYPE_UINT16 0 MTP_FORMAT_XML_DOCUMENT 0 0 MTP_FORMAT_XML_DOCUMENT;
  mkprop MTP_PROPERTY_OBJECT_FORMAT MTP_TYPE_UINT16 0 MTP_FORMAT_FLAC 0 0 MTP_FORMAT_FLAC;
  mkprop MTP_PROPERTY_OBJECT_FORMAT MTP_TYPE_UINT16 0 MTP_FORMAT_AVI 0 0 MTP_FORMAT_AVI;
  mkprop MTP_PROPERTY_OBJECT_FORMAT MTP_TYPE_UINT16 0 MTP_FORMAT_ASF 0 0 MTP_FORMAT_ASF;
  mkprop MTP_PROPERTY_OBJECT_FORMAT MTP_TYPE_UINT16 0 MTP_FORMAT_MS_WORD_DOCUMENT 0 0 MTP_FORMAT_MS_WORD_DOCUMENT;
  mkprop MTP_PROPERTY_OBJECT_FORMAT MTP_TYPE_UINT16 0 MTP_FORMAT_MS_EXCEL_SPREADSHEET 0 0 MTP_FORMAT_MS_EXCEL_SPREADSHEET;
  mkprop MTP_PROPERTY_OBJECT_FORMAT MTP_TYPE_UINT16 0 MTP_FORMAT_MS_POWERPOINT_PRESENTATION 0 0 MTP_FORMAT_MS_POWERPOINT_PRESENTATION;
  mkprop MTP_PROPERTY_OBJECT_SIZE MTP_TYPE_UINT64 0 0 0 0 MTP_FORMAT_ASSOCIATION;
  mkprop MTP_PROPERTY_STORAGE_ID MTP_TYPE_UINT32 0 0 0 0 MTP_FORMAT_ASSOCIATION;
  mkprop MTP_PROPERTY_PROTECTION_STATUS MTP_TYPE_UINT16 0 0 0 0 MTP_FORMAT_ASSOCIATION;
  mkprop MTP_PROPERTY_DISPLAY_NAME MTP_TYPE_STR 0 0 0 0 MTP_FORMAT_ASSOCIATION;
  mkprop MTP_PROPERTY_OBJECT_FILE_NAME MTP_TYPE_STR 1 0 0 0 MTP_FORMAT_ASSOCIATION;
  mkprop MTP_PROPERTY_DATE_CREATED MTP_TYPE_STR 0 0 0 0 MTP_FORMAT_ASSOCIATION;
  mkprop MTP_PROPERTY_DATE_MODIFIED MTP_TYPE_STR 0 0 0 0 MTP_FORMAT_ASSOCIATION;
  mkprop MTP_PROPERTY_PARENT_OBJECT MTP_TYPE_UINT32 0 0 0 0 MTP_FORMAT_ASSOCIATION;
  mkprop MTP_PROPERTY_PERSISTENT_UID MTP_TYPE_UINT128 0 0 0 0 MTP_FORMAT_ASSOCIATION;
  mkprop MTP_PROPERTY_NAME MTP_TYPE_STR 0 0 0 0 MTP_FORMAT_ASSOCIATION;
  mkprop MTP_PROPERTY_OBJECT_SIZE MTP_TYPE_UINT64 0 0 0 0 MTP_FORMAT_UNDEFINED;
  mkprop MTP_PROPERTY_STORAGE_ID MTP_TYPE_UINT32 0 0 0 0 MTP_FORMAT_UNDEFINED;
  mkprop MTP_PROPERTY_PROTECTION_STATUS MTP_TYPE_UINT16 0 0 0 0 MTP_FORMAT_UNDEFINED;
  mkprop MTP_PROPERTY_DISPLAY_NAME MTP_TYPE_STR 0 0 0 0 MTP_FORMAT_UNDEFINED;
  mkprop MTP_PROPERTY_OBJECT_FILE_NAME MTP_TYPE_STR 1 0 0 0 MTP_FORMAT_UNDEFINED;
  mkprop MTP_PROPERTY_DATE_CREATED MTP_TYPE_STR 0 0 0 0 MTP_FORMAT_UNDEFINED;
  mkprop MTP_PROPERTY_DATE_MODIFIED MTP_TYPE_STR 0 0 0 0 MTP_FORMAT_UNDEFINED;
  mkprop MTP_PROPERTY_PARENT_OBJECT MTP_TYPE_UINT32 0 0 0 0 MTP_FORMAT_UNDEFINED;
  mkprop MTP_PROPERTY_PERSISTENT_UID MTP_TYPE_UINT128 0 0 0 0 MTP_FORMAT_UNDEFINED;
  mkprop MTP_PROPERTY_NAME MTP_TYPE_STR 0 0 0 0 MTP_FORMAT_UNDEFINED;
  mkprop MTP_PROPERTY_ASSOCIATION_DESC MTP_TYPE_UINT32 0 0 0 0 0xFFFF;
  mkprop MTP_PROPERTY_PROTECTION_STATUS MTP_TYPE_UINT16 0 0 0 0 0xFFFF;
  mkprop MTP_PROPERTY_HIDDEN MTP_TYPE_UINT16 0 0 0 0 0xFFFF ].

Definition dev_properties : list profile_property := [
  mkprop MTP_DEVICE_PROPERTY_BATTERY_LEVEL MTP_TYPE_UINT16 0 0 0 0 0;
  mkprop MTP_DEVICE_PROPERTY_DEVICE_FRIENDLY_NAME MTP_TYPE_STR 0 0 0 0 0 ].

(** The two formats have the same properties. *)
Definition object_properties : list Z := [
  MTP_PROPERTY_STORAGE_ID; MTP_PROPERTY_OBJECT_FORMAT; MTP_PROPERTY_PROTECTION_STATUS; MTP_PROPERTY_OBJECT_SIZE;
  MTP_PROPERTY_OBJECT_FILE_NAME; MTP_PROPERTY_DATE_MODIFIED; MTP_PROPERTY_PARENT_OBJECT; MTP_PROPERTY_PERSISTENT_UID;
  MTP_PROPERTY_NAME; MTP_PROPERTY_DISPLAY_NAME; MTP_PROPERTY_DATE_CREATED ].
Definition fmt_properties : list (Z * list Z) :=
  [(MTP_FORMAT_UNDEFINED, object_properties); (MTP_FORMAT_ASSOCIATION, object_properties)].

(** The loops over a table stop at the first property that fits, or at the
    last line. *)
Fixpoint find_property (P : profile_property -> bool) (l : list profile_property) : profile_property :=
  match l with [] => end_property | p :: l => if P p then p else find_property P l end.

Section Datasets.
Context (maxsize : Z).
Abbreviation put08 := (put08 maxsize).
Abbreviation put16 := (put16 maxsize).
Abbreviation put32 := (put32 maxsize).
Abbreviation put_string := (put_string maxsize).

(** ** Descriptions *)

(** The fields before and after the default value. *)
Definition put_property (i : profile_property) (value : writer) : writer :=
  put16 (prop_code i) +> put16 (data_type i) +> put08 (getset i) +> value +> put32 (group_code i) +> put08 (form_flag i).

Definition put_default (i : profile_property) : writer :=
  if (data_type i =? MTP_TYPE_STR) || (data_type i =? MTP_TYPE_UINT8) then put08 (default_value i)
  else if data_type i =? MTP_TYPE_UINT16 then put16 (default_value i)
  else if data_type i =? MTP_TYPE_UINT32 then put32 (default_value i)
  else if data_type i =? MTP_TYPE_UINT64 then
    put32 (Z.land (default_value i) 0xFFFFFFFF) +> put32 (Z.shiftr (default_value i) 32)
  else if data_type i =? MTP_TYPE_UINT128 then each (fun _ => put32 (default_value i)) (seq 0 4)
  else no_write.

Definition described_property (property_id format : Z) : profile_property :=
  let i := find_property (fun p => (prop_code p =? property_id) && (format_id p =? format)) properties in
  if prop_code i =? 0xFFFF
  then find_property (fun p => (prop_code p =? property_id) && (format_id p =? 0xFFFF)) properties else i.

Definition build_properties_dataset (property_id format : Z) : writer :=
  let i := described_property property_id format in
  if prop_code i =? property_id then put_property i (put_default i) else no_write.

(** [None] is the [return 0] of an unsupported type. *)
Definition device_default (i : profile_property) : option writer :=
  let twice w := Some (w +> w) in
  if (data_type i =? MTP_TYPE_STR) || (data_type i =? MTP_TYPE_UINT8) then twice (put08 (default_value i))
  else if data_type i =? MTP_TYPE_UINT16 then twice (put16 (default_value i))
  else if data_type i =? MTP_TYPE_UINT32 then twice (put32 (default_value i))
  else if data_type i =? MTP_TYPE_UINT64 then
    Some (put32 (Z.land (default_value i) 0xFFFFFFFF) +> put32 (Z.shiftr (default_value i) 32) +>
          put32 (Z.land (default_value i) 0xFFFFFFFF) +> put32 (Z.shiftr (default_value i) 32))
  else None.

Definition build_device_properties_dataset (property_id : Z) : writer :=
  let i := find_property (fun p => prop_code p =? property_id) dev_properties in
  if prop_code i =? property_id then
    match device_default i with
    | Some value => put_property i value
    | None => fun buffer ofs =>
        '(buffer, _) ← (put16 (prop_code i) +> put16 (data_type i) +> put08 (getset i)) buffer ofs; Some (buffer, 0)
    end
  else no_write.

Definition build_properties_supported_dataset (format : Z) : writer :=
  match List.find (fun f => fst f =? format) fmt_properties with
  | None => no_write
  | Some (_, codes) => put32 (strlen codes) +> each put16 codes
  end.

(** ** Values *)

(** The constant date of [GetObjectPropValue]. *)
Definition fixed_date : list Z := cstr "20100102T101112" ++ [0].

(** [None] is the [return 0] of an unsupported property. *)
Definition property_value (e : fs_entry) (code : Z) : option writer :=
  if code =? MTP_PROPERTY_OBJECT_FORMAT then
    Some (put16 (if flagged ENTRY_IS_DIR e then MTP_FORMAT_ASSOCIATION else MTP_FORMAT_UNDEFINED))
  else if code =? MTP_PROPERTY_OBJECT_SIZE then
    Some (put32 (Z.land (e_size e) 0xFFFFFFFF) +> put32 (Z.shiftr (e_size e) 32))
  else if code =? MTP_PROPERTY_DISPLAY_NAME then Some (put08 0)
  else if (code =? MTP_PROPERTY_NAME) || (code =? MTP_PROPERTY_OBJECT_FILE_NAME) then Some (put_string (e_name e ++ [0]))
  else if code =? MTP_PROPERTY_STORAGE_ID then Some (put32 (e_storage e))
  else if code =? MTP_PROPERTY_PARENT_OBJECT then Some (put32 (e_parent e))
  else if (code =? MTP_PROPERTY_HIDDEN) || (code =? MTP_PROPERTY_SYSTEM_OBJECT) || (code =? MTP_PROPERTY_PROTECTION_STATUS)
  then Some (put16 0)
  else if code =? MTP_PROPERTY_ASSOCIATION_TYPE then Some (put16 (if flagged ENTRY_IS_DIR e then 1 else 0))
  else if code =? MTP_PROPERTY_ASSOCIATION_DESC then Some (put32 0)
  else if (code =? MTP_PROPERTY_DATE_CREATED) || (code =? MTP_PROPERTY_DATE_MODIFIED) then Some (put_string fixed_date)
  else if code =? MTP_PROPERTY_PERSISTENT_UID then
    Some (put32 (e_handle e) +> put32 (e_parent e) +> put32 (e_storage e) +> put32 0)
  else None.

Definition build_ObjectPropValue_dataset (root_of : Z -> option (list Z)) (d : fs_handles_db) (handle code : Z) :
    option writer :=
  entry ← get_entry_by_handle root_of handle d;
  match entry with
  | None => Some no_write
  | Some p => e ← d_pool d !! p; Some (default no_write (property_value e code))
  end.

Definition build_DevicePropValue_dataset (product : list Z) (code : Z) : writer :=
  if code =? MTP_DEVICE_PROPERTY_BATTERY_LEVEL then put16 0x8000
  else if code =? MTP_DEVICE_PROPERTY_DEVICE_FRIENDLY_NAME then put_string (product ++ [0])
  else no_write.

(** ** Lists of properties *)

(** The value an element of type [ty] takes from memory. *)
Definition element_value (ty : Z) (mem : list Z) : option writer :=
  if ty =? MTP_TYPE_STR then Some (put_string mem)
  else if ty =? MTP_TYPE_UINT8 then v ← peek mem 0 1; Some (put08 v)
  else if ty =? MTP_TYPE_UINT16 then v ← peek mem 0 2; Some (put16 v)
  else if ty =? MTP_TYPE_UINT32 then v ← peek mem 0 4; Some (put32 v)
  else if ty =? MTP_TYPE_UINT64 then v ← peek64 mem 0 8; Some (put32 (Z.land v 0xFFFFFFFF) +> put32 (Z.shiftr v 32))
  else if ty =? MTP_TYPE_UINT128 then v ← peek mem 0 4; Some (each (fun i => put32 (v + i)) (seqZ 0 4))
  else Some no_write.

(** The stores of one element; [None] inside where there is none.  [data] is
    null for a zero value. *)
Definition list_element (code handle : Z) (data : option (list Z)) (param : Z) : option (option writer) :=
  let mem := default (replicate 16 0) data in
  if negb (code =? param) && negb (param =? 0xFFFFFFFF) then Some None
  else
    let i := find_property (fun p => prop_code p =? code) properties in
    if prop_code i =? code then
      value ← element_value (data_type i) mem;
      Some (Some (put32 handle +> put16 (prop_code i) +> put16 (data_type i) +> value))
    else Some None.

(** The elements written so far and their number. *)
Definition objectproplist_element (code handle : Z) (data : option (list Z)) (param : Z) (l : writer * Z) :
    option (writer * Z) :=
  let '(w, n) := l in
  element ← list_element code handle data param;
  Some (match element with Some element => (w +> element, n + 1) | None => (w, n) end).
End Datasets.

(** ** Types *)

(** The bytes of a value of a type. *)
Definition value_fits (ty : Z) (bs : list Z) : Prop :=
  if ty =? MTP_TYPE_STR then exists us, bs = mtp_string us /\ Forall unit_ok us /\ strlen us <= 254
  else (ty = MTP_TYPE_UINT16 /\ strlen bs = 2) \/ (ty = MTP_TYPE_UINT32 /\ strlen bs = 4) \/
       (ty = MTP_TYPE_UINT64 /\ strlen bs = 8) \/ (ty = MTP_TYPE_UINT128 /\ strlen bs = 16).

(** A description of the property [code] of type [ty]. *)
Definition describes (code ty : Z) (bs : list Z) : Prop :=
  exists rest, bs = le_bytes 2 (u16 code) ++ le_bytes 2 (u16 ty) ++ rest.

Definition entry_format (e : fs_entry) : Z :=
  if flagged ENTRY_IS_DIR e then MTP_FORMAT_ASSOCIATION else MTP_FORMAT_UNDEFINED.

Section Typed.
Context (maxsize : Z).

Lemma put_property_writes i value bs : Writes maxsize value bs ->
  exists ds, Writes maxsize (put_property maxsize i value) ds /\ describes (prop_code i) (data_type i) ds.
Proof. intros H. eexists. split; [apply _|]. eexists. reflexivity. Qed.

Lemma put_default_writes i : exists bs, Writes maxsize (put_default maxsize i) bs.
Proof.
  unfold put_default. repeat case_match; eexists; apply _.
Qed.

Lemma description_writes code format : prop_code (described_property code format) = code ->
  exists ds, Writes maxsize (build_properties_dataset maxsize code format) ds /\
    describes code (data_type (described_property code format)) ds.
Proof.
  intros E. unfold build_properties_dataset. rewrite (proj2 (Z.eqb_eq _ _) E).
  destruct (put_default_writes (described_property code format)) as [bs H].
  destruct (put_property_writes (described_property code format) _ bs H) as (ds & Hw & Hd). exists ds. split; [exact Hw|]. by rewrite E in Hd.
Qed.

Lemma string_fits us : Forall unit_ok us -> strlen us <= 254 -> value_fits MTP_TYPE_STR (mtp_string us).
Proof. intros H1 H2. exists us. done. Qed.

Lemma value_typed e code us : Text (e_name e ++ [0]) us -> code ∈ object_properties ->
  exists w bs, property_value maxsize e code = Some w /\ Writes maxsize w bs /\
    value_fits (data_type (described_property code (entry_format e))) bs.
Proof.
  intros Ht Hc. assert (Text fixed_date (cstr "20100102T101112")) as Hd by by apply text_ascii.
  unfold object_properties in Hc. rewrite !elem_of_cons, elem_of_nil in Hc. unfold entry_format.
  destruct Hc as [->|[->|[->|[->|[->|[->|[->|[->|[->|[->|[->|[]]]]]]]]]]]];
    (eexists _, _; split; [reflexivity|]; split; [apply _|]);
    destruct (flagged ENTRY_IS_DIR e);
    first [ apply string_fits; [apply Ht|apply Ht]
          | apply string_fits; [apply Hd|apply Hd]
          | exists []; split; [reflexivity|split; [constructor|vm_compute; discriminate]]
          | unfold value_fits; vm_compute; tauto ].
Qed.

Lemma supported_writes e : Writes maxsize (build_properties_supported_dataset maxsize (entry_format e))
  (le_bytes 4 (u32 (strlen object_properties)) ++ concat (map (fun c => le_bytes 2 (u16 c)) object_properties)).
Proof. unfold entry_format. destruct (flagged ENTRY_IS_DIR e); unfold build_properties_supported_dataset; apply _. Qed.

(** C13: the properties are typed.  For every object, and every property that
    [GetObjectPropsSupported] announces for its format, [GetObjectPropDesc] has a
    description of that property with some type, and [GetObjectPropValue] answers
    with a value of that type. *)
Theorem property_values_typed root_of d handle p e us code :
  get_entry_by_handle root_of handle d = Some (Some p) -> d_pool d !! p = Some e -> Text (e_name e ++ [0]) us ->
  code ∈ object_properties ->
  Writes maxsize (build_properties_supported_dataset maxsize (entry_format e))
    (le_bytes 4 (u32 (strlen object_properties)) ++ concat (map (fun c => le_bytes 2 (u16 c)) object_properties)) /\
  exists ty desc w value,
    Writes maxsize (build_properties_dataset maxsize code (entry_format e)) desc /\ describes code ty desc /\
    build_ObjectPropValue_dataset maxsize root_of d handle code = Some w /\
    Writes maxsize w value /\ value_fits ty value.
Proof.
  intros H E Ht Hc. split; [apply supported_writes|].
  destruct (value_typed e code us Ht Hc) as (w & value & Ew & Hw & Hf).
  destruct (description_writes code (entry_format e)) as (desc & Hd & Hds).
  { unfold object_properties in Hc. rewrite !elem_of_cons, elem_of_nil in Hc. unfold entry_format.
    destruct (flagged ENTRY_IS_DIR e);
      destruct Hc as [->|[->|[->|[->|[->|[->|[->|[->|[->|[->|[->|[]]]]]]]]]]]]; reflexivity. }
  exists (data_type (described_property code (entry_format e))), desc, w, value.
  do 2 (split; [done|]). split; [|done]. unfold build_ObjectPropValue_dataset. rewrite H. cbn [mbind option_bind].
  rewrite E. cbn [mbind option_bind]. by rewrite Ew.
Qed.
End Typed.

Lemma property_values_typed_witness : exists d w value ty, demo_db = Some d /\
  build_ObjectPropValue_dataset 500 (fun _ => Some [47]) d 1 MTP_PROPERTY_NAME = Some w /\
  Writes 500 w value /\ value_fits ty value.
Proof.
  destruct demo_db as [d|] eqn:E; [|vm_compute in E; discriminate E]. vm_compute in E. injection E as E.
  assert (exists e, d_pool d !! 1022 = Some e /\ e_name e = [100]) as (e & Ep & En)
    by (rewrite <- E; eexists; split; vm_compute; reflexivity).
  destruct (property_values_typed 500 (fun _ => Some [47]) d 1 1022 e [100] MTP_PROPERTY_NAME)
    as (_ & ty & desc & w & value & _ & _ & Hw & Hv & Ht).
  - rewrite <- E. vm_compute. reflexivity.
  - exact Ep.
  - rewrite En. apply (text_ascii [100] []); [reflexivity|vm_compute; discriminate].
  - do 8 (apply elem_of_cons; right). apply elem_of_cons. left. reflexivity.
  - exists d, w, value, ty. split; [reflexivity|]. split; [exact Hw|]. split; [exact Hv|exact Ht].
Defined.
