(* ===== verification/MtpDataset.v ===== *)
(** * Datasets, [mtp_datasets.c]

    What the MTP responder says of itself, of a storage, of an object and of
    its properties ([build_objectproplist_dataset] of [mtp_properties.c]).  The
    system calls are those of [FileSystem]; [localtime_r] is a parameter, since
    it depends on the time zone of the device. *)

From Stdlib Require Import Ascii String.
From S2P Require Import Prelude CString MtpName MtpData MtpWriter MtpHash MtpDb MtpTable MtpPath MtpStorage MtpHandles MtpOps MtpSend MtpProps.

Definition MTP_VERSION : Z := 100.
Definition MTP_STORAGE_FIXED_RAM : Z := 0x0003.
Definition MTP_STORAGE_REMOVABLE_RAM : Z := 0x0004.
Definition MTP_STORAGE_FILESYSTEM_HIERARCHICAL : Z := 0x0002.
Definition MTP_STORAGE_READ_WRITE : Z := 0x0000.
Definition MTP_STORAGE_READ_ONLY_WITHOUT_DELETE : Z := 0x0001.
Definition UMTP_STORAGE_REMOVABLE : Z := 0x04.

(** ** Dates *)
Record tm := mktm { tm_year : Z; tm_mon : Z; tm_mday : Z; tm_hour : Z; tm_min : Z; tm_sec : Z }.
Definition set_default_date : tm := mktm 110 0 0 0 0 0.

(** [%.nd]. *)
Definition int_prec (n : nat) (v : Z) : list Z :=
  let digits := dec_string (Z.abs v) in
  (if v <? 0 then [45] else []) ++ replicate (n - length digits) 48 ++ digits.

(** [timestr] after [snprintf], with its NUL. *)
Definition time_string (lt : tm) : list Z :=
  take 31 (int_prec 4 (1900 + tm_year lt) ++ int_prec 2 (tm_mon lt + 1) ++ int_prec 2 (tm_mday lt) ++ [84] ++
           int_prec 2 (tm_hour lt) ++ int_prec 2 (tm_min lt) ++ int_prec 2 (tm_sec lt)).

(** [%.8X]. *)
Definition hex_upper (n : Z) : Z := if n <? 10 then 48 + n else 55 + n.
Definition hex8 (v : Z) : list Z := map (fun i => hex_upper (Z.land (Z.shiftr v (4 * i)) 0xF)) [7; 6; 5; 4; 3; 2; 1; 0].

(** ** The device *)

(** The strings of [mtp_usb_cfg]. *)
Record usb_strings := mkusb {
  usb_manufacturer : list Z; usb_product : list Z; usb_serial : list Z; usb_version : list Z; usb_mtp_extensions : list Z }.

Definition supported_op : list Z :=
  [0x1001; 0x1002; 0x1003; 0x1004; 0x1005; 0x1007; 0x1008; 0x1009; 0x100B; 0x100C; 0x100D; 0x1014; 0x1015; 0x1016;
   0x101B; 0x9801; 0x9802; 0x9803; 0x9804; 0x9805; 0x95C1; 0x95C2; 0x95C3; 0x95C4; 0x95C5].
Definition supported_event : list Z := [0x4002; 0x4003; 0x4004; 0x4005; 0x400C; 0x4007; 0x4006; 0xC801].

Section Datasets.
Context {S : Type} {FS : FileSystem S} (localtime : Z -> option tm) (maxsize : Z).
Abbreviation put08 := (put08 maxsize).
Abbreviation put16 := (put16 maxsize).
Abbreviation put32 := (put32 maxsize).
Abbreviation put_string := (put_string maxsize).
Abbreviation put_array16 := (put_array16 maxsize).

Definition build_deviceinfo_dataset (usb_cfg : usb_strings) : writer :=
  put16 MTP_VERSION +> put32 6 +> put16 MTP_VERSION +> put_string (usb_mtp_extensions usb_cfg ++ [0]) +> put16 0 +>
  put_array16 supported_op +> put_array16 supported_event +>
  put32 (strlen (map prop_code dev_properties)) +> each put16 (map prop_code dev_properties) +>
  put32 0 +>
  put32 (strlen (map fst fmt_properties)) +> each put16 (map fst fmt_properties) +>
  put_string (usb_manufacturer usb_cfg ++ [0]) +> put_string (usb_product usb_cfg ++ [0]) +>
  put_string (usb_version usb_cfg ++ [0]) +> put_string (usb_serial usb_cfg ++ [0]).

(** ** A storage *)
Definition put64 (v : Z) : writer := put32 (Z.land v 0xFFFFFFFF) +> put32 (Z.shiftr v 32).

(** Total and free space. *)
Definition storage_space (s : S) (path : list Z) : Z * Z :=
  match fs_statvfs s path with
  | Some (f_bsize, f_blocks, f_bavail) => (u64 (u64 f_bsize * u64 f_blocks), u64 (u64 f_bsize * u64 f_bavail))
  | None => (0x8000000000000000, 0x4000000000000000)
  end.

Definition build_storageinfo_dataset (w : world S) (storageid : Z) : writer :=
  let storage_flags := mtp_get_storage_flags (w_ctx w) storageid in
  let storage_type := if Z.land storage_flags UMTP_STORAGE_REMOVABLE =? 0 then MTP_STORAGE_FIXED_RAM
                      else MTP_STORAGE_REMOVABLE_RAM in
  match mtp_get_storage_description (w_ctx w) storageid, mtp_get_storage_root (w_ctx w) storageid with
  | Some storage_description, Some storage_path =>
      let '(totalspace, freespace) := storage_space (w_fs w) storage_path in
      put16 storage_type +> put16 MTP_STORAGE_FILESYSTEM_HIERARCHICAL +>
      put16 (if Z.land storage_flags UMTP_STORAGE_READONLY =? 0 then MTP_STORAGE_READ_WRITE
             else MTP_STORAGE_READ_ONLY_WITHOUT_DELETE) +>
      put64 totalspace +> put64 freespace +> put32 0x40000000 +>
      put_string (storage_description ++ [0]) +> put_string (cstr "UMTPRD_" ++ hex8 storageid ++ [0])
  | _, _ => no_write
  end.

(** ** An object *)

(** The start of both datasets: the size of the file, which becomes that of
    the entry, and its date; [None] inside is the [return 0]. *)
Definition stat_object (p : Z) (d : fs_handles_db) (w : world S) : option (option (Z * list Z * fs_handles_db)) :=
  path ← full_path w p d;
  match path with
  | None => Some None
  | Some path =>
      match fs_stat (w_fs w) path with
      | None => Some None
      | Some (_, st_size) =>
          d ← upd_entry (fun e => e {{ e_size := st_size }}) p d;
          Some (Some (st_size, time_string (default set_default_date (localtime (fs_mtime (w_fs w) path))) ++ [0], d))
      end
  end.

(** The fields of the dataset, from the entry with its new size. *)
Definition objectinfo_fields (e : fs_entry) (timestr : list Z) : writer :=
  put32 (e_storage e) +>
  put16 (if flagged ENTRY_IS_DIR e then MTP_FORMAT_ASSOCIATION else MTP_FORMAT_UNDEFINED) +>
  put16 0 +>
  put32 (if 0x100000000 <=? e_size e then 0xFFFFFFFF else e_size e) +>
  put16 0 +> put32 0 +> put32 0 +> put32 0 +> put32 0 +> put32 0 +> put32 0 +>
  put32 (e_parent e) +>
  put16 (if flagged ENTRY_IS_DIR e then MTP_ASSOCIATION_TYPE_GENERIC_FOLDER else 0) +>
  put32 0 +> put32 0 +>
  put_string (e_name e ++ [0]) +> put_string timestr +> put_string timestr +> put08 0.

Definition build_objectinfo_dataset (p : Z) (d : fs_handles_db) (w : world S) : option (writer * fs_handles_db) :=
  found ← stat_object p d w;
  match found with
  | None => Some (no_write, d)
  | Some (_, timestr, d) => e ← d_pool d !! p; Some (objectinfo_fields e timestr, d)
  end.

(** ** The properties of an object *)

(** A word and a field of 64 bits in memory. *)
Definition mem32 (v : Z) : list Z := le_bytes 4 (u32 v).
Definition mem64 (v : Z) : list Z := le_bytes 8 (u64 v).

(** The elements in their order, with the memory each is taken from. *)
Definition proplist_data (e : fs_entry) (timestr : list Z) : list (Z * option (list Z)) :=
  let isdir := flagged ENTRY_IS_DIR e in
  [ (MTP_PROPERTY_STORAGE_ID, Some (mem32 (e_storage e)));
    (MTP_PROPERTY_OBJECT_FORMAT, Some (mem32 (if isdir then MTP_FORMAT_ASSOCIATION else MTP_FORMAT_UNDEFINED)));
    (MTP_PROPERTY_ASSOCIATION_TYPE, Some (mem32 (if isdir then MTP_ASSOCIATION_TYPE_GENERIC_FOLDER else 0)));
    (MTP_PROPERTY_PARENT_OBJECT, Some (mem32 (e_parent e)));
    (MTP_PROPERTY_OBJECT_SIZE, Some (mem64 (e_size e)));
    (MTP_PROPERTY_PROTECTION_STATUS, Some (mem32 0));
    (MTP_PROPERTY_OBJECT_FILE_NAME, Some (e_name e ++ [0]));
    (MTP_PROPERTY_NAME, Some (e_name e ++ [0]));
    (MTP_PROPERTY_DISPLAY_NAME, None);
    (MTP_PROPERTY_DATE_CREATED, Some timestr);
    (MTP_PROPERTY_DATE_MODIFIED, Some timestr);
    (MTP_PROPERTY_PERSISTENT_UID, Some (mem32 (e_handle e) ++ mem32 (e_parent e) ++ mem32 (e_storage e) ++ mem32 0)) ].

(** The number of elements is first written as zero and then put in its place,
    whatever the elements did. *)
Definition proplist_fields (e : fs_entry) (timestr : list Z) (handle code : Z) : option writer :=
  '(elements, numberofelements) ←
    foldM (fun l '(prop, data) => objectproplist_element maxsize prop handle data code l)
      (proplist_data e timestr) (put32 0, 0);
  Some (fun buffer ofs =>
    '(buffer, ofs) ← elements buffer ofs;
    '(buffer, _) ← put32 numberofelements buffer 0;
    Some (buffer, ofs)).

Definition build_objectproplist_dataset (p handle code : Z) (d : fs_handles_db) (w : world S) :
    option (writer * fs_handles_db) :=
  found ← stat_object p d w;
  match found with
  | None => Some (no_write, d)
  | Some (_, timestr, d) =>
      e ← d_pool d !! p; fields ← proplist_fields e timestr handle code; Some (fields, d)
  end.
End Datasets.

(** ** Memory *)
Lemma byte_at_nat b k : byte_at b (0 + Z.of_nat k) = b !! k.
Proof. unfold byte_at. rewrite (proj2 (Z.ltb_ge _ 0)), Z.add_0_l, Nat2Z.id by lia. done. Qed.

Lemma peek_mem32 v rest : peek (mem32 v ++ rest) 0 4 = Some (u32 v).
Proof.
  unfold peek, mem32. pose proof (u32_range v) as [? ?].
  rewrite (peek_loop_le 32 _ 0 4 (u32 v)); [|lia|lia|lia|lia|].
  - f_equal. change (2 ^ 0) with 1. change (2 ^ (8 * Z.of_nat 4)) with 4294967296. rewrite Z.mod_small; lia.
  - intros k Hk. rewrite byte_at_nat. by apply lookup_app_l.
Qed.

Lemma peek_mem16 v : 0 <= v < 65536 -> peek (mem32 v) 0 2 = Some v.
Proof.
  intros Hv. unfold peek, mem32. rewrite (peek_loop_le 32 _ 0 2 (u32 v)); [|lia|lia|lia|rewrite u32_small by (unfold is_u32; lia); lia|].
  - f_equal. change (2 ^ 0) with 1. change (2 ^ (8 * Z.of_nat 2)) with 65536. rewrite u32_small by (unfold is_u32; lia).
    rewrite Z.mod_small; lia.
  - intros [|[|k]] Hk; [done|done|lia].
Qed.

Lemma peek_mem64 v : peek64 (mem64 v) 0 8 = Some (u64 v).
Proof.
  unfold peek64, mem64, u64. pose proof (Z.mod_pos_bound v 18446744073709551616 ltac:(lia)).
  rewrite (peek_loop_le 64 _ 0 8 (v mod 18446744073709551616)); [|lia|lia|lia|lia|].
  - f_equal. change (2 ^ 0) with 1. change (2 ^ (8 * Z.of_nat 8)) with 18446744073709551616.
    rewrite Z.mod_small by done. lia.
  - intros k Hk. by rewrite byte_at_nat.
Qed.

Lemma u32_idem v : u32 (u32 v) = u32 v.
Proof. unfold u32. apply Z.mod_mod. lia. Qed.
Lemma u32_low v : u32 (Z.land (u64 v) 0xFFFFFFFF) = u32 (Z.land v 0xFFFFFFFF).
Proof.
  unfold u32, u64. change 0xFFFFFFFF with (Z.ones 32). rewrite !Z.land_ones by lia. change (2 ^ 32) with 4294967296.
  change 18446744073709551616 with (4294967296 * 4294967296). rewrite !Z.mod_mod by lia.
  rewrite Z.rem_mul_r by lia. rewrite Z.mul_comm, Z.mod_add by lia. apply Z.mod_mod. lia.
Qed.
Lemma u32_high v : u32 (Z.shiftr (u64 v) 32) = u32 (Z.shiftr v 32).
Proof.
  unfold u32, u64. rewrite !Z.shiftr_div_pow2 by lia. change (2 ^ 32) with 4294967296.
  change 18446744073709551616 with (4294967296 * 4294967296).
  rewrite Z.rem_mul_r by lia. rewrite Z.mul_comm, Z.div_add by lia.
  rewrite Z.div_small by (apply Z.mod_pos_bound; lia). rewrite Z.add_0_l. apply Z.mod_mod. lia.
Qed.

(** ** The list of properties *)

(** An element of the list. *)
Definition element_bytes (handle code ty : Z) (value : list Z) : list Z :=
  le_bytes 4 (u32 handle) ++ le_bytes 2 (u16 code) ++ le_bytes 2 (u16 ty) ++ value.

Definition listed_type (code : Z) : Z := data_type (find_property (fun p => prop_code p =? code) properties).

Definition words32 (l : list Z) : list Z := concat (map (fun v => le_bytes 4 (u32 v)) l).

(** The values of the list; the last one is what the loop over the persistent
    identifier makes of it. *)
Definition listed_values (e : fs_entry) (us date : list Z) : list (Z * list Z) := [
  (MTP_PROPERTY_STORAGE_ID, words32 [e_storage e]);
  (MTP_PROPERTY_OBJECT_FORMAT, le_bytes 2 (entry_format e));
  (MTP_PROPERTY_PARENT_OBJECT, words32 [e_parent e]);
  (MTP_PROPERTY_OBJECT_SIZE, words32 [Z.land (e_size e) 0xFFFFFFFF; Z.shiftr (e_size e) 32]);
  (MTP_PROPERTY_PROTECTION_STATUS, le_bytes 2 0);
  (MTP_PROPERTY_OBJECT_FILE_NAME, mtp_string us); (MTP_PROPERTY_NAME, mtp_string us);
  (MTP_PROPERTY_DISPLAY_NAME, mtp_string []);
  (MTP_PROPERTY_DATE_CREATED, mtp_string date); (MTP_PROPERTY_DATE_MODIFIED, mtp_string date);
  (MTP_PROPERTY_PERSISTENT_UID, words32 [e_handle e; e_handle e + 1; e_handle e + 2; e_handle e + 3]) ].

Definition asked (code : Z) (x : Z * list Z) : bool := (fst x =? code) || (code =? 0xFFFFFFFF).

Definition list_bytes (e : fs_entry) (us date : list Z) (handle code : Z) : list Z :=
  let l := List.filter (asked code) (listed_values e us date) in
  le_bytes 4 (u32 (Z.of_nat (length l))) ++
  concat (map (fun '(prop, value) => element_bytes handle prop (listed_type prop) value) l).

Section Lists.
Context (maxsize : Z).

(** A count put at the start of what was written. *)
Lemma counted_dataset w n bs : Writes maxsize w (le_bytes 4 0 ++ bs) ->
  Dataset maxsize (fun buffer ofs => '(buffer, ofs) ← w buffer ofs; '(buffer, _) ← put32 maxsize n buffer 0; Some (buffer, ofs))
    (le_bytes 4 (u32 n) ++ bs).
Proof.
  intros Hw buffer H0 Hl. pose proof (dataset_at maxsize (Dataset := writes_dataset maxsize w _ Hw) buffer H0 Hl) as E1.
  pose proof (strlen_nonneg bs). rewrite strlen_app in E1 |- *. change (strlen (le_bytes 4 _)) with 4 in E1 |- *.
  pose proof (dataset_at maxsize (Dataset := writes_dataset maxsize _ _ (put32_writes maxsize n))) as E2.
  change (strlen (le_bytes 4 _)) with 4 in E2. destruct (Z.ltb_spec (4 + strlen bs) maxsize) as [Hf|Hf].
  - rewrite E1. cbn [mbind option_bind]. rewrite (proj2 (Z.ltb_lt 4 maxsize)) in E2 by lia. rewrite E2; [|done|].
    + cbn [mbind option_bind]. rewrite !length_app, !le_bytes_length, <- !app_assoc. done.
    + rewrite !strlen_app. change (strlen (le_bytes 4 0)) with 4. unfold strlen in *. rewrite length_drop, length_app.
      rewrite le_bytes_length. lia.
  - destruct E1 as (b1 & -> & L1). cbn [mbind option_bind]. specialize (E2 b1 H0 ltac:(lia)).
    destruct (Z.ltb_spec 4 maxsize).
    + rewrite E2. cbn [mbind option_bind]. eexists. split; [reflexivity|]. unfold strlen in *.
      rewrite length_app, length_drop, le_bytes_length. lia.
    + destruct E2 as (b2 & -> & L2). cbn [mbind option_bind]. eexists. split; [reflexivity|]. lia.
Qed.

(** What the loop over the elements leaves, from what each one does. *)
Definition element_does (handle code : Z) (x : Z * option (list Z)) (o : option (list Z)) : Prop :=
  exists element, list_element maxsize (fst x) handle (snd x) code = Some element /\
    match element, o with
    | None, None => True
    | Some t, Some bs => Writes maxsize t bs
    | _, _ => False
    end.

Lemma fold_elements handle code data spec w n bs :
  Forall2 (element_does handle code) data spec -> Writes maxsize w bs ->
  exists w', foldM (fun l '(prop, mem) => objectproplist_element maxsize prop handle mem code l) data (w, n) =
      Some (w', n + Z.of_nat (length (omap id spec))) /\
    Writes maxsize w' (bs ++ concat (omap id spec)).
Proof.
  intros H. revert w n bs. induction H as [|[prop mem] o data spec (element & E & Ho) _ IH]; intros w n bs Hw.
  - exists w. cbn. rewrite Z.add_0_r, app_nil_r. done.
  - cbn [foldM fst snd] in *. unfold objectproplist_element at 1. rewrite E. cbn [mbind option_bind].
    destruct element as [t|], o as [b|]; try done.
    + destruct (IH (w +> t) (n + 1) (bs ++ b) (then_writes maxsize _ _ _ _ Hw Ho)) as (w' & -> & Hw').
      exists w'. cbn [omap list_omap id length concat]. rewrite <- app_assoc in Hw'. split; [|done]. do 2 f_equal. lia.
    + destruct (IH w n bs Hw) as (w' & -> & Hw'). by exists w'.
Qed.

Lemma omap_asked {A} (P : A -> bool) (f : A -> list Z) l :
  omap id (map (fun x => if P x then Some (f x) else None) l) = map f (List.filter P l).
Proof. induction l as [|x l IH]; [done|]. cbn [map List.filter omap list_omap]. destruct (P x); cbn; by rewrite IH. Qed.

Definition list_entry (handle : Z) (x : Z * list Z) : list Z := element_bytes handle (fst x) (listed_type (fst x)) (snd x).

(** An element of the table. *)
Lemma listed_does handle code prop mem value :
  prop_code (find_property (fun p => prop_code p =? prop) properties) = prop ->
  (exists t, element_value maxsize (listed_type prop) (default (replicate 16 0) mem) = Some t /\ Writes maxsize t value) ->
  element_does handle code (prop, mem) (if asked code (prop, value) then Some (list_entry handle (prop, value)) else None).
Proof.
  intros Hp (t & Et & Ht). unfold element_does, list_element, asked. cbn [fst snd].
  rewrite <- negb_orb. destruct ((prop =? code) || (code =? 0xFFFFFFFF)); cbn [negb]; [|by exists None].
  rewrite (proj2 (Z.eqb_eq _ _) Hp). fold (listed_type prop). rewrite Et. cbn [mbind option_bind].
  eexists. split; [reflexivity|]. unfold list_entry, element_bytes. cbn [fst snd]. rewrite Hp. apply _.
Qed.

Lemma unlisted_does handle code mem : element_does handle code (MTP_PROPERTY_ASSOCIATION_TYPE, mem) None.
Proof. unfold element_does, list_element. cbn [fst snd]. destruct (negb _ && _); by exists None. Qed.

(** The values the memory of the elements holds. *)
Lemma word_value v : exists t, element_value maxsize MTP_TYPE_UINT32 (mem32 v) = Some t /\ Writes maxsize t (words32 [v]).
Proof.
  change (element_value maxsize MTP_TYPE_UINT32 (mem32 v)) with (v ← peek (mem32 v) 0 4; Some (put32 maxsize v)).
  pose proof (peek_mem32 v []) as E. rewrite app_nil_r in E. rewrite E. cbn [mbind option_bind].
  eexists. split; [reflexivity|]. unfold words32. cbn [map concat]. rewrite app_nil_r.
  replace (le_bytes 4 (u32 v)) with (le_bytes 4 (u32 (u32 v))) by (by rewrite u32_idem). apply _.
Qed.

Lemma half_value v : 0 <= v < 65536 ->
  exists t, element_value maxsize MTP_TYPE_UINT16 (mem32 v) = Some t /\ Writes maxsize t (le_bytes 2 v).
Proof.
  intros Hv. change (element_value maxsize MTP_TYPE_UINT16 (mem32 v)) with (v ← peek (mem32 v) 0 2; Some (put16 maxsize v)).
  rewrite peek_mem16 by done. cbn [mbind option_bind]. eexists. split; [reflexivity|].
  replace (le_bytes 2 v) with (le_bytes 2 (u16 v)) by (by rewrite u16_small). apply _.
Qed.

Lemma size_value v : exists t, element_value maxsize MTP_TYPE_UINT64 (mem64 v) = Some t /\
  Writes maxsize t (words32 [Z.land v 0xFFFFFFFF; Z.shiftr v 32]).
Proof.
  change (element_value maxsize MTP_TYPE_UINT64 (mem64 v)) with
    (v ← peek64 (mem64 v) 0 8; Some (put32 maxsize (Z.land v 0xFFFFFFFF) +> put32 maxsize (Z.shiftr v 32))).
  rewrite peek_mem64. cbn [mbind option_bind]. eexists. split; [reflexivity|].
  unfold words32. cbn [map concat]. rewrite app_nil_r, <- u32_low, <- u32_high. apply _.
Qed.

Lemma string_value mem us : Text mem us ->
  exists t, element_value maxsize MTP_TYPE_STR mem = Some t /\ Writes maxsize t (mtp_string us).
Proof. intros H. eexists. split; [reflexivity|]. apply _. Qed.

(** Four words from the first one on: the index is added to the value. *)
Lemma uid_value v rest : exists t, element_value maxsize MTP_TYPE_UINT128 (mem32 v ++ rest) = Some t /\
  Writes maxsize t (words32 [v; v + 1; v + 2; v + 3]).
Proof.
  change (element_value maxsize MTP_TYPE_UINT128 (mem32 v ++ rest)) with
    (v ← peek (mem32 v ++ rest) 0 4; Some (each (fun i => put32 maxsize (v + i)) (seqZ 0 4))).
  rewrite peek_mem32. cbn [mbind option_bind]. eexists. split; [reflexivity|].
  assert (forall i, u32 (u32 v + i) = u32 (v + i)) as Ei by (intros i; unfold u32; apply Z.add_mod_idemp_l; lia).
  replace (words32 _) with (concat (map (fun i => le_bytes 4 (u32 (u32 v + i))) (seqZ 0 4))); [apply _|].
  change (seqZ 0 4) with [0; 1; 2; 3]. unfold words32. cbn [map concat]. by rewrite !Ei, Z.add_0_r.
Qed.

Lemma empty_text mem : Text (0 :: mem) [].
Proof. split; [by exists mem|constructor|done]. Qed.

Lemma elements_do e us timestr date handle code :
  Text (e_name e ++ [0]) us -> Text timestr date ->
  Forall2 (element_does handle code) (proplist_data e timestr)
    (map (fun x => if asked code x then Some (list_entry handle x) else None) (take 2 (listed_values e us date)) ++ None ::
     map (fun x => if asked code x then Some (list_entry handle x) else None) (drop 2 (listed_values e us date))).
Proof.
  intros Ht Hd. unfold proplist_data, listed_values. cbn [take drop map app].
  assert (0 <= entry_format e < 65536) as Hf by (unfold entry_format; destruct (flagged _ _); done).
  pose proof (word_value (e_storage e)) as V1. pose proof (half_value _ Hf) as V2.
  pose proof (word_value (e_parent e)) as V3. pose proof (size_value (e_size e)) as V4.
  pose proof (half_value 0 ltac:(lia)) as V5. pose proof (string_value _ _ Ht) as V6. pose proof (string_value _ _ Hd) as V7.
  pose proof (string_value _ _ (empty_text (replicate 15 0))) as V8.
  pose proof (uid_value (e_handle e) (mem32 (e_parent e) ++ mem32 (e_storage e) ++ mem32 0)) as V9.
  repeat apply Forall2_cons_2; try apply Forall2_nil_2; try apply unlisted_does; apply listed_does; try reflexivity; assumption.
Qed.

(** The properties of the list that [GetObjectPropValue] answers with the same
    value: all but the dates and the persistent identifier. *)
Definition same_value (code : Z) : bool :=
  negb (existsb (Z.eqb code) [MTP_PROPERTY_DATE_CREATED; MTP_PROPERTY_DATE_MODIFIED; MTP_PROPERTY_PERSISTENT_UID]).

Lemma listed_agrees e us date prop value : Text (e_name e ++ [0]) us ->
  (prop, value) ∈ listed_values e us date -> same_value prop = true ->
  exists w, property_value maxsize e prop = Some w /\ Writes maxsize w value.
Proof.
  intros Ht. unfold listed_values. rewrite !elem_of_cons, elem_of_nil. unfold words32. cbn [map concat].
  assert (le_bytes 2 (entry_format e) = le_bytes 2 (u16 (entry_format e))) as Ef
    by (unfold entry_format; destruct (flagged _ _); reflexivity).
  intros H Hs. repeat (destruct H as [H|H]); try (by inversion H); apply pair_equal_spec in H as [-> ->];
    try discriminate Hs; (eexists; split; [reflexivity|]); rewrite ?app_nil_r, ?Ef;
    first [exact (put08_writes maxsize 0)|exact (put16_writes maxsize 0)|apply _].
Qed.

Lemma proplist_dataset e us timestr date handle code :
  Text (e_name e ++ [0]) us -> Text timestr date ->
  exists w, proplist_fields maxsize e timestr handle code = Some w /\
    Dataset maxsize w (list_bytes e us date handle code).
Proof.
  intros Ht Hd.
  destruct (fold_elements handle code _ _ (put32 maxsize 0) 0 (le_bytes 4 0) (elements_do e us timestr date handle code Ht Hd))
    as (w & E & Hw); [exact (put32_writes maxsize 0)|].
  unfold proplist_fields. rewrite E. cbn [mbind option_bind]. eexists. split; [reflexivity|].
  unfold list_bytes. rewrite omap_app in Hw |- *. cbn [omap list_omap id] in Hw |- *.
  rewrite !omap_asked, <- map_app, <- List.filter_app, take_drop in Hw |- *. rewrite Z.add_0_l, length_map.
  apply counted_dataset. unfold list_entry in Hw. erewrite map_ext; [exact Hw|]. by intros [prop value].
Qed.

(** C20: [GetObjectPropList] is exact.  The dataset is the number of the
    properties asked for (one of them, or all), and for each the handle, its
    code, its type and its value; and except for the dates and the persistent
    identifier the value is the one that [GetObjectPropValue] gives. *)
Theorem property_list_exact e us timestr date handle code :
  Text (e_name e ++ [0]) us -> Text timestr date ->
  (exists w, proplist_fields maxsize e timestr handle code = Some w /\
     Dataset maxsize w (list_bytes e us date handle code)) /\
  forall prop value, (prop, value) ∈ listed_values e us date -> same_value prop = true ->
    exists w, property_value maxsize e prop = Some w /\ Writes maxsize w value.
Proof. intros Ht Hd. split; [by apply proplist_dataset|]. intros prop value. by apply listed_agrees. Qed.
End Lists.

Definition demo_entry : fs_entry := mkentry 5 1 0xFFFF0001 (cstr "a") 0 10 0 (-1) None.

Lemma property_list_exact_witness : exists w buffer,
  proplist_fields 500 demo_entry (cstr "20240102T030405" ++ [0]) 5 MTP_PROPERTY_OBJECT_SIZE = Some w /\
  w (replicate 500 0) 0 = Some (buffer, 20) /\
  take 20 buffer = le_bytes 4 1 ++ le_bytes 4 5 ++ le_bytes 2 MTP_PROPERTY_OBJECT_SIZE ++ le_bytes 2 MTP_TYPE_UINT64 ++
                   le_bytes 8 10.
Proof.
  destruct (property_list_exact 500 demo_entry (cstr "a") (cstr "20240102T030405" ++ [0]) (cstr "20240102T030405") 5
    MTP_PROPERTY_OBJECT_SIZE) as [(w & E & D) _].
  - apply (text_ascii (cstr "a") []); [reflexivity|vm_compute; discriminate].
  - apply (text_ascii (cstr "20240102T030405") []); [reflexivity|vm_compute; discriminate].
  - exists w. pose proof (D (replicate 500 0) ltac:(lia) ltac:(vm_compute; discriminate)) as H. vm_compute in H.
    eexists. split; [exact E|]. split; [exact H|vm_compute; reflexivity].
Defined.

(** The loop adds the index to the first word instead of to the pointer: the
    identifier in the list is not that of [GetObjectPropValue]. *)
Lemma persistent_uid_differs maxsize us date :
  exists w value, property_value maxsize demo_entry MTP_PROPERTY_PERSISTENT_UID = Some w /\
    Writes maxsize w (words32 [5; 1; 0xFFFF0001; 0]) /\
    (MTP_PROPERTY_PERSISTENT_UID, value) ∈ listed_values demo_entry us date /\ value = words32 [5; 6; 7; 8].
Proof.
  eexists _, _. split; [reflexivity|]. split; [unfold words32; cbn [map concat]; rewrite app_nil_r; apply _|].
  split; [|reflexivity]. unfold listed_values. do 10 (apply elem_of_cons; right). apply elem_of_cons. by left.
Qed.

(** ** The dataset of an object goes both ways *)
Definition objectinfo_head (e : fs_entry) : list Z :=
  le_bytes 4 (u32 (e_storage e)) ++ le_bytes 2 (u16 (entry_format e)) ++ le_bytes 2 (u16 0) ++
  le_bytes 4 (u32 (if 0x100000000 <=? e_size e then 0xFFFFFFFF else e_size e)) ++ le_bytes 2 (u16 0) ++
  concat (replicate 6 (le_bytes 4 (u32 0))) ++ le_bytes 4 (u32 (e_parent e)) ++
  le_bytes 2 (u16 (if flagged ENTRY_IS_DIR e then MTP_ASSOCIATION_TYPE_GENERIC_FOLDER else 0)) ++
  le_bytes 4 (u32 0) ++ le_bytes 4 (u32 0).
Definition objectinfo_bytes (e : fs_entry) (us date : list Z) : list Z :=
  objectinfo_head e ++ mtp_string us ++ mtp_string date ++ mtp_string date ++ [0].

Lemma objectinfo_writes maxsize e us timestr date : Text (e_name e ++ [0]) us -> Text timestr date ->
  Writes maxsize (objectinfo_fields maxsize e timestr) (objectinfo_bytes e us date).
Proof.
  intros Ht Hd. unfold objectinfo_bytes, objectinfo_head. cbn [replicate concat]. rewrite <- !app_assoc.
  change ([] ++ ?l) with l. unfold objectinfo_fields. fold (entry_format e).
  change [0] with (le_bytes 1 (u8 0)). cbn [app]. apply _.
Qed.

(** Reading a number out of a dataset. *)
Lemma peek_at pre n v rest : (n <= 4)%nat -> 0 <= v < 2 ^ (8 * Z.of_nat n) ->
  peek (pre ++ le_bytes n v ++ rest) (strlen pre) n = Some v.
Proof.
  intros Hn Hv. unfold peek. rewrite (peek_loop_le 32 _ _ n v); [|lia|lia|lia|lia|].
  - f_equal. change (2 ^ 0) with 1. rewrite Z.mod_small; lia.
  - intros k Hk. unfold byte_at, strlen. rewrite (proj2 (Z.ltb_ge _ 0)) by lia.
    replace (Z.to_nat _) with (length pre + k)%nat by lia. rewrite lookup_app_r by lia.
    replace (length pre + k - length pre)%nat with k by lia. apply lookup_app_l. by rewrite le_bytes_length.
Qed.

Lemma read_units_at pre us rest : Forall (fun u => 0 <= u < 65536) us ->
  read_units (pre ++ units_le us ++ rest) (length us) (strlen pre) = Some (units_le us).
Proof.
  intros H. revert pre. induction H as [|u us Hu _ IH]; intros pre; [done|]. cbn [length read_units].
  rewrite units_le_cons, <- app_assoc.
  assert (unit_bytes u = le_bytes 2 u) as E by (unfold unit_bytes; cbn [le_bytes]; done). rewrite E.
  rewrite peek_at; [|lia|change (2 ^ _) with 65536; lia]. cbn [mbind option_bind]. rewrite app_assoc.
  replace (strlen pre + 2) with (strlen (pre ++ le_bytes 2 u)) by (rewrite strlen_app; done).
  by rewrite IH.
Qed.

Lemma object_name_at pre us rest : strlen pre = 0x34 -> Forall unit_ok us -> strlen us <= 254 ->
  strlen (utf8_text us) < 257 ->
  object_name (pre ++ mtp_string us ++ rest) =
    Some (let '(name, ret) := sanitize_name (Some (utf8_text us)) 257 in if ret =? 1 then Some name else None).
Proof.
  intros Hp Hus Hs Hn. pose proof (strlen_nonneg us). unfold object_name. rewrite <- Hp. destruct us as [|u us].
  - change (mtp_string []) with (le_bytes 1 0). rewrite peek_at; [|lia|split; [lia|reflexivity]]. cbn [mbind option_bind Z.to_nat read_units]. vm_compute. done.
  - replace (mtp_string (u :: us)) with (le_bytes 1 (strlen (u :: us) + 1) ++ units_le ((u :: us) ++ [0])).
    2: { unfold mtp_string, u8. rewrite Z.mod_small by lia. cbn [le_bytes app]. f_equal.
         change 0xFF with (Z.ones 8). rewrite Z.land_ones by lia. apply Z.mod_small. lia. }
    rewrite <- app_assoc, peek_at; [|lia|change (2 ^ _) with 256; lia]. cbn [mbind option_bind].
    assert (Z.to_nat (strlen (u :: us) + 1) = length ((u :: us) ++ [0])) as ->
      by (rewrite length_app; unfold strlen; cbn [length]; lia).
    rewrite app_assoc. change 0x35 with (0x34 + 1). rewrite <- Hp.
    replace (strlen pre + 1) with (strlen (pre ++ le_bytes 1 (strlen (u :: us) + 1))) by (rewrite strlen_app; done).
    rewrite read_units_at.
    + cbn [mbind option_bind]. unfold unicode2charstring. rewrite char_loop_text; [|done| |done].
      * cbn [mbind option_bind]. by destruct (sanitize_name _ _).
      * rewrite length_app, units_le_length, length_app. lia.
    + apply Forall_app. split; [|by repeat constructor]. eapply Forall_impl; [exact Hus|]. intros x Hx. unfold unit_ok in Hx. lia.
Qed.

(** C14: what [GetObjectInfo] says of an object [SendObjectInfo] understands.
    When the dataset of an object is sent back, the fields at the offsets of the
    standard are the object's storage, format, size (all ones from 4 GiB on) and
    parent, and the name that the parser of [SendObjectInfo] takes out of it is
    the object's, after its check. *)
Theorem object_info_round_trip maxsize e us timestr date rest :
  e_name e = utf8_text us -> Forall unit_ok us -> strlen us <= 254 -> strlen (e_name e) < 257 ->
  Text timestr date -> 0 <= e_size e ->
  exists ds, Dataset maxsize (objectinfo_fields maxsize e timestr) ds /\
    peek (ds ++ rest) 0x00 4 = Some (u32 (e_storage e)) /\
    peek (ds ++ rest) 0x26 4 = Some (u32 (e_parent e)) /\
    peek (ds ++ rest) 0x04 2 = Some (entry_format e) /\
    peek (ds ++ rest) 0x08 4 = Some (Z.min (e_size e) 0xFFFFFFFF) /\
    object_name (ds ++ rest) =
      Some (let '(name, ret) := sanitize_name (Some (e_name e)) 257 in if ret =? 1 then Some name else None).
Proof.
  intros En Hus Hs Hn Hd Hsz. exists (objectinfo_bytes e us date). split.
  { apply writes_dataset, objectinfo_writes; [|done]. split; [|done|done]. exists []. by rewrite En. }
  unfold objectinfo_bytes. split_and!.
  - unfold objectinfo_head. rewrite <- !app_assoc. apply (peek_at []); [lia|apply u32_range].
  - unfold objectinfo_head. set (v := u32 (if _ : bool then _ else _)).
    epose proof (peek_at (le_bytes 4 (u32 (e_storage e)) ++ le_bytes 2 (u16 (entry_format e)) ++ le_bytes 2 (u16 0) ++
      le_bytes 4 v ++ le_bytes 2 (u16 0) ++ concat (replicate 6 (le_bytes 4 (u32 0)))) 4 (u32 (e_parent e)) _ ltac:(lia)
      (u32_range (e_parent e))) as P.
    rewrite <- !app_assoc in *. exact P.
  - unfold objectinfo_head. rewrite <- !app_assoc. rewrite (peek_at (le_bytes 4 (u32 (e_storage e))) 2); [|lia|apply u16_range].
    f_equal. unfold entry_format. by destruct (flagged _ _).
  - unfold objectinfo_head. set (v := if _ <=? _ then _ else _).
    assert (u32 v = Z.min (e_size e) 0xFFFFFFFF) as Ev
      by (unfold v; destruct (Z.leb_spec 0x100000000 (e_size e)); rewrite u32_small; unfold is_u32; lia).
    rewrite <- Ev, <- !app_assoc.
    epose proof (peek_at (le_bytes 4 (u32 (e_storage e)) ++ le_bytes 2 (u16 (entry_format e)) ++ le_bytes 2 (u16 0)) 4
      (u32 v) _ ltac:(lia) (u32_range v)) as P.
    rewrite <- !app_assoc in P. exact P.
  - rewrite <- app_assoc, En, <- app_assoc. apply object_name_at; [reflexivity|done|done|by rewrite <- En].
Qed.

Lemma object_info_round_trip_witness : exists ds,
  Dataset 500 (objectinfo_fields 500 demo_entry (cstr "20240102T030405" ++ [0])) ds /\
  peek (ds ++ []) 0x00 4 = Some 0xFFFF0001 /\ peek (ds ++ []) 0x08 4 = Some 10 /\ object_name (ds ++ []) = Some (Some (cstr "a")).
Proof.
  destruct (object_info_round_trip 500 demo_entry (cstr "a") (cstr "20240102T030405" ++ [0]) (cstr "20240102T030405") [])
    as (ds & D & Hst & _ & _ & Hs & Hn).
  - reflexivity.
  - repeat constructor.
  - vm_compute. discriminate.
  - vm_compute. reflexivity.
  - apply (text_ascii (cstr "20240102T030405") []); [reflexivity|vm_compute; discriminate].
  - vm_compute. discriminate.
  - exists ds. split; [exact D|]. split; [exact Hst|]. split; [exact Hs|exact Hn].
Defined.
