(* ===== verification/MtpAccess.v ===== *)
(** * What the operations on objects guarantee

    Protected storages are not touched, a deletion stays in its folder, and an
    object is received exactly. *)

From Stdlib Require Import Ascii String.
From S2P Require Import Prelude CString MtpUsb MtpData MtpHash MtpDb MtpTable MtpPath MtpStorage MtpMount MtpScan MtpFile MtpHandles MtpOps MtpDisk MtpSend.

(** ** Protected storages *)
Section Protected.
Context {S : Type} {FS : FileSystem S}.
Context (mal : nat -> bool) (may_uid may_gid : Z -> bool) (show_hidden : bool) (rd_size : Z) (cancel : nat -> bool).

Definition protected_storage (ctx : mtp_ctx) (id : Z) : Prop :=
  let flags := mtp_get_storage_flags ctx id in
  Z.land flags UMTP_STORAGE_LOCKED <> 0 \/ Z.land flags UMTP_STORAGE_READONLY <> 0.

Lemma protected_denied ctx e : protected_storage ctx (e_storage e) ->
  exists code, entry_access ctx e true = Some code /\
    (code = INVALID_STORAGE_ID \/ code = STORE_NOT_AVAILABLE \/ code = STORE_READ_ONLY).
Proof.
  unfold protected_storage, entry_access. intros Hf. destruct (_ =? NO_STORAGE); [eauto|].
  destruct (Z.eqb_spec (Z.land (mtp_get_storage_flags ctx (e_storage e)) UMTP_STORAGE_LOCKED) 0) as [E|E]; cbn [negb]; [|eauto].
  destruct Hf as [Hf|Hf]; [done|]. rewrite (proj2 (Z.eqb_neq _ 0)) by done. cbn. eauto.
Qed.

Lemma handle_denied ctx d handle p e code :
  get_entry_by_handle (mtp_get_storage_root ctx) handle d = Some (Some p) -> d_pool d !! p = Some e ->
  entry_access ctx e true = Some code ->
  check_handle_access ctx d None handle true = Some (Some code) /\
  forall h, check_handle_access ctx d (Some p) h true = Some (Some code).
Proof.
  intros H E A. unfold check_handle_access. rewrite H. cbn [mbind option_bind]. rewrite E. cbn [mbind option_bind].
  rewrite A. split; [done|]. intros h. reflexivity.
Qed.

(** C12: a locked or read-only storage is not changed through the protocol.
    For an object of such a storage, deleting it, truncating it and sending
    data to it, with SendObject and with SendPartialObject, in the command
    phase and in the data phase, are refused with the storage's code, and
    neither the file system, nor the object table, nor the ids change; and a new
    object is refused on a read-only storage before its dataset is looked at.
    (A merely locked storage takes new objects: [locked_storage_takes_folders].) *)
Theorem protected_untouched (w : world S) d handle p e :
  fs_db (w_ctx w) = Some d -> get_entry_by_handle (root_of w) handle d = Some (Some p) -> d_pool d !! p = Some e ->
  protected_storage (w_ctx w) (e_storage e) ->
  exists code, (code = INVALID_STORAGE_ID \/ code = STORE_NOT_AVAILABLE \/ code = STORE_READ_ONLY) /\
    (forall fuel, mtp_op_DeleteObject mal may_uid may_gid show_hidden fuel handle w = Some (code, w)) /\
    (forall offset, mtp_op_TruncateObject handle offset w = Some (code, w)) /\
    (forall rdbuffer packet usb size offset opcode, handle <> NO_HANDLE ->
       let si := mkinfo handle size offset in
       mtp_op_SendObject may_uid may_gid rd_size cancel MTP_CONTAINER_TYPE_DATA opcode rdbuffer packet usb si w =
         Some (mkrecv code si usb [] w) /\
       (opcode <> MTP_OPERATION_SEND_PARTIAL_OBJECT ->
        mtp_op_SendObject may_uid may_gid rd_size cancel MTP_CONTAINER_TYPE_COMMAND opcode rdbuffer packet usb si w =
          Some (mkrecv code si usb [] w))) /\
    (forall rdbuffer packet usb si size offset, handle <> NO_HANDLE ->
       peek rdbuffer 12 4 = Some handle -> peek64 rdbuffer 16 8 = Some offset -> peek rdbuffer 24 4 = Some size ->
       mtp_op_SendObject may_uid may_gid rd_size cancel MTP_CONTAINER_TYPE_COMMAND MTP_OPERATION_SEND_PARTIAL_OBJECT
         rdbuffer packet usb si w = Some (mkrecv code (mkinfo handle size (i64 offset)) usb [] w)) /\
    (forall dataset parent si,
       Z.land (mtp_get_storage_flags (w_ctx w) (e_storage e)) UMTP_STORAGE_READONLY <> 0 ->
       exists code', mtp_op_SendObjectInfo mal may_uid may_gid (e_storage e) parent dataset si w = Some (code', [], si, w)).
Proof.
  intros Ed Eh Ep Hprot. destruct (protected_denied (w_ctx w) e Hprot) as (code & A & Hc).
  destruct (handle_denied (w_ctx w) d handle p e code Eh Ep A) as [C1 C2]. exists code. split; [done|].
  split_and!.
  - intros fuel. unfold mtp_op_DeleteObject. rewrite Ed, C1. done.
  - intros offset. unfold mtp_op_TruncateObject. rewrite Ed, Eh. cbn [mbind option_bind]. by rewrite C2.
  - intros rdbuffer packet usb size offset opcode Hh. cbn zeta. unfold mtp_op_SendObject. rewrite Ed.
    change (MTP_CONTAINER_TYPE_DATA =? MTP_CONTAINER_TYPE_COMMAND) with false. rewrite andb_false_r. cbn [mbind option_bind si_handle].
    rewrite (proj2 (Z.eqb_neq handle _)) by done. change (MTP_CONTAINER_TYPE_DATA =? MTP_CONTAINER_TYPE_DATA) with true.
    change (MTP_CONTAINER_TYPE_COMMAND =? MTP_CONTAINER_TYPE_DATA) with false.
    change (MTP_CONTAINER_TYPE_COMMAND =? MTP_CONTAINER_TYPE_COMMAND) with true. cbn iota. split.
    + rewrite Eh. cbn [mbind option_bind]. by rewrite C2.
    + intros Hop. rewrite (proj2 (Z.eqb_neq opcode _)) by done. cbn [andb mbind option_bind si_handle].
      rewrite (proj2 (Z.eqb_neq handle _)) by done. by rewrite C1.
  - intros rdbuffer packet usb si size offset Hh E1 E2 E3. unfold mtp_op_SendObject. rewrite Ed, E1, E2, E3.
    rewrite Z.eqb_refl. change (MTP_CONTAINER_TYPE_COMMAND =? MTP_CONTAINER_TYPE_DATA) with false.
    change (MTP_CONTAINER_TYPE_COMMAND =? MTP_CONTAINER_TYPE_COMMAND) with true. cbn [andb mbind option_bind si_handle].
    rewrite (proj2 (Z.eqb_neq handle _)) by done. by rewrite C1.
  - intros dataset parent si Hro. unfold mtp_op_SendObjectInfo, parse_incoming_dataset. rewrite Ed. cbn zeta.
    destruct (_ =? NO_STORAGE); [by eexists|]. rewrite (proj2 (Z.eqb_neq _ 0)) by done. cbn. by eexists.
Qed.

(** ** Deleting a tree *)

(** A path made of [folder] and names below it. *)
Definition inside (folder q : list Z) : Prop :=
  exists names, q = folder ++ joined names /\ Forall (fun n => n <> cstr ".." /\ n <> cstr ".") names.

Lemma inside_refl folder : inside folder folder.
Proof. exists []. split; [by rewrite app_nil_r|constructor]. Qed.

Lemma inside_child folder name q : name <> cstr ".." -> name <> cstr "." ->
  inside (folder ++ [47] ++ name) q -> inside folder q.
Proof.
  intros H1 H2 (names & -> & Hn). exists (name :: names). split; [|by constructor].
  unfold joined. cbn [map concat]. by rewrite <- !app_assoc.
Qed.

(** What removing files of the folder can do. *)
Definition removes_inside (folder : list Z) (I : S -> Prop) : Prop :=
  forall q s, inside folder q -> I s -> I (snd (fs_remove q s)).

(** The system's limit on paths, and "." and ".." are folders. *)
Definition path_limit (n : nat) : Prop :=
  (forall s q kind, fs_lstat s q = Some kind -> (length q < n)%nat) /\
  (forall s folder name, name = cstr ".." \/ name = cstr "." -> fs_lstat s (folder ++ [47] ++ name) <> Some false).

Lemma remove_tree_inside n I fuel folder s :
  path_limit n -> removes_inside folder I -> I s -> (n - length folder < fuel)%nat ->
  exists failed s', fs_remove_tree fuel folder s = Some (failed, s') /\ I s'.
Proof.
  intros [Hlim Hdots]. revert folder s. induction fuel as [|fuel IH]; intros folder s HI Hs Hf; [lia|].
  cbn [fs_remove_tree]. destruct (fs_list s folder) as [dir|]; [|by exists true, s].
  match goal with |- context [foldM ?f dir (false, s)] =>
    destruct (foldM_inv (fun _ (st : bool * S) => I (snd st)) f dir (false, s)) as ([del_fail s1] & -> & H1); [done| |] end.
  - intros pre name [del_fail s1] _ H1. cbn [snd] in H1. destruct (fs_lstat s1 (folder ++ [47] ++ name)) as [[]|] eqn:L.
    + destruct (negb (streq name (cstr "..")) && negb (streq name (cstr "."))) eqn:Hn; [|by eexists].
      apply andb_prop in Hn as [N1%negb_true_iff N2%negb_true_iff].
      assert (name <> cstr "..") as D1 by (intros ->; by rewrite streq_refl in N1).
      assert (name <> cstr ".") as D2 by (intros ->; by rewrite streq_refl in N2).
      destruct (IH (folder ++ [47] ++ name) s1) as (failed & s2 & -> & H2).
      * intros q t Hq. apply HI. by apply (inside_child folder name).
      * done.
      * pose proof (Hlim s1 _ _ L) as Hl. rewrite !length_app in *. cbn [length] in *. lia.
      * cbn [mbind option_bind]. by eexists.
    + assert (name <> cstr ".." /\ name <> cstr ".") as [D1 D2].
      { split; intros ->; [by apply (Hdots s1 folder (cstr "..") (or_introl eq_refl))|by apply (Hdots s1 folder (cstr ".") (or_intror eq_refl))]. }
      pose proof (HI (folder ++ [47] ++ name) s1 (inside_child _ _ _ D1 D2 (inside_refl _)) H1) as H2.
      destruct (fs_remove (folder ++ [47] ++ name) s1) as [done s2]. by eexists.
    + by eexists.
  - cbn [mbind option_bind snd] in *. pose proof (HI folder s1 (inside_refl folder) H1) as H2.
    destruct (fs_remove folder s1) as [done s2]. by eexists _, s2.
Qed.

(** C28: deleting a folder ends, and removes nothing outside it.  On any file
    system with a limit on paths, [fs_remove_tree] ends with a result, and
    every file or folder it asks the system to remove is the folder itself or
    a path of names below it, none of them "." or "..": whatever the removal of
    such paths keeps, the deletion keeps.  (Links are removed, not followed:
    the program asks for the kind of the name itself.) *)
Theorem remove_tree_stays_inside n I folder s :
  path_limit n -> removes_inside folder I -> I s ->
  exists failed s', fs_remove_tree (Datatypes.S n) folder s = Some (failed, s') /\ I s'.
Proof. intros Hl HI Hs. apply (remove_tree_inside n I); [done|done|done|lia]. Qed.
End Protected.

(** The demo session on the demo disk; the storage's flags are a parameter. *)
Definition demo_world (flags : Z) (d : fs_handles_db) : world disk :=
  mkworld ((demo_ctx (Some d)) {{ storages := (demo_storage {{ st_flags := flags }}) :: repeat no_storage 15 }}) (mkids 0 0) demo_disk.
Definition demo_folder : fs_entry := mkentry 1 0 0xFFFF0001 [100] ENTRY_IS_DIR 0 0 (-1) (Some 1023).

Lemma demo_folder_in d : demo_db = Some d -> d_pool d !! 1022 = Some demo_folder /\
  forall root, root 0xFFFF0001 <> None -> get_entry_by_handle root 1 d = Some (Some 1022).
Proof.
  intros E. vm_compute in E. injection E as E. rewrite <- E. split; [vm_compute; reflexivity|].
  intros root Hr. vm_compute. vm_compute in Hr. destruct (root 4294901761) as [r|]; [reflexivity|].
  destruct Hr. reflexivity.
Qed.

Lemma protected_untouched_witness : exists d code, demo_db = Some d /\
  mtp_op_DeleteObject always (fun _ => true) (fun _ => true) false 8 1 (demo_world UMTP_STORAGE_READONLY d) =
    Some (code, demo_world UMTP_STORAGE_READONLY d).
Proof.
  destruct demo_reachable as (d & E & R). destruct (demo_folder_in d E) as [Ep Eh].
  destruct (protected_untouched always (fun _ => true) (fun _ => true) false 512 (fun _ => false)
    (demo_world UMTP_STORAGE_READONLY d) d 1 1022 demo_folder) as (code & _ & H & _).
  - reflexivity.
  - apply Eh. discriminate.
  - exact Ep.
  - right. vm_compute. discriminate.
  - exists d, code. split; [exact E|]. apply H.
Defined.

Lemma remove_tree_stays_inside_witness : exists failed s, fs_remove_tree 65 (cstr "/mnt/d") demo_disk = Some (failed, s) /\
  (cstr "/mnt/keep", false) ∈ paths s.
Proof.
  apply (remove_tree_stays_inside 64 (fun s => (cstr "/mnt/keep", false) ∈ paths s)).
  - split; [|exact disk_dots]. intros s q kd H. unfold fs_lstat, disk_fs, disk_lstat, PATH_LIMIT in H.
    destruct (Nat.ltb_spec (length q) 64); [done|discriminate H].
  - intros q s (names & -> & _) Hin. apply disk_kept; [discriminate|exact Hin].
  - vm_compute. do 5 right. left.
Defined.

(** ** What is not protected *)

(** The check of [SendObjectInfo] looks at the read-only flag alone: a locked
    storage takes new folders. *)
Definition demo_dataset : list Z :=
  replicate 6 0 ++ [0x0C; 0x10] ++ replicate 4 0 ++ replicate 4 0 ++ [0x01; 0x30] ++ replicate 46 0 ++ [2; 110; 0; 0; 0].
Lemma locked_storage_takes_folders : exists d r, demo_db = Some d /\
  mtp_op_SendObjectInfo always (fun _ => true) (fun _ => true) 0xFFFF0001 1 demo_dataset (mkinfo 0 0 0)
    (demo_world (Z.lor UMTP_STORAGE_LOCKABLE UMTP_STORAGE_LOCKED) d) = Some r /\
  fst (fst (fst r)) = MTP_RESPONSE_OK /\ (cstr "/mnt/d/n", true) ∈ paths (w_fs (snd r)).
Proof.
  destruct demo_db as [d|] eqn:E; [|vm_compute in E; discriminate E]. vm_compute in E. injection E as E.
  exists d. eexists. split; [done|]. split; [rewrite <- E; vm_compute; reflexivity|]. split; [reflexivity|].
  vm_compute. left.
Qed.

(** A parent that is not there is answered with OK and no handle. *)
Lemma missing_parent_accepted {S : Type} {FS : FileSystem S} mal may_uid may_gid parent storage_id objectsize name d si (w : world S) :
  get_entry_by_handle_and_storageid parent storage_id d = Some None ->
  receive_file mal may_uid may_gid parent storage_id objectsize name d si w = Some (MTP_RESPONSE_OK, None, si, w).
Proof. intros H. unfold receive_file, new_path. by rewrite H. Qed.

(** A size above 2^31 is negative as an [int]: [GetPartialObject] reaches the
    access of [negative_size_overruns]. *)
Lemma partial_object_overruns {S : Type} {FS : FileSystem S} may_uid may_gid wr_size rd_size max_packet_size cancel k
    tx_id code handle offset size wrbuffer buf (w : world S) d p e fd d1 ids1 file :
  0 <= k -> rd_size = 2 ^ k -> 20 < wr_size <= rd_size -> strlen wrbuffer = wr_size -> strlen buf = rd_size ->
  fs_db (w_ctx w) = Some d -> get_entry_by_handle (root_of w) handle d = Some (Some p) -> d_pool d !! p = Some e ->
  entry_access (w_ctx w) e false = None -> 0 <= offset < e_size e -> 2 ^ 31 <= size < 2 ^ 32 ->
  entry_open may_uid may_gid (fs_realpath (w_fs w)) (fs_open_read (w_fs w)) (w_ctx w) (w_ids w) p d = Some (fd, d1, ids1) ->
  fd <> -1 -> (forall off n, 0 <= off -> 0 <= n -> fs_read (w_fs w) fd off n = Some (seg file off n)) ->
  mtp_op_GetPartialObject may_uid may_gid wr_size rd_size max_packet_size cancel tx_id code handle offset size wrbuffer
    (Some buf) w = None.
Proof.
  intros Hk Hrd Hsz Hw Hb Ed Eh Ep A Hoff Hs Eo Hfd Hread. unfold mtp_op_GetPartialObject. rewrite Ed. cbn zeta. rewrite Eh.
  cbn [mbind option_bind]. unfold check_handle_access. cbn [mbind option_bind]. rewrite Ep. cbn [mbind option_bind]. rewrite A.
  destruct (build_header wr_size 20 ltac:(split; [reflexivity|lia]) tx_id code wrbuffer Hw) as (wr & -> & Hl & _).
  cbn [mbind option_bind]. change (HEADER_SIZE <? 0) with false. cbn iota. unfold send_object.
  rewrite (negative_size_overruns may_uid may_gid _ _ _ _ k wr_size rd_size max_packet_size _ _ wr buf p offset _ d e fd d1 ids1 file);
    [done|done|done|unfold HEADER_SIZE; lia|done|done|done|done| |done|done|done].
  unfold i32. rewrite <- (Z.mod_unique (size + 2147483648) 4294967296 1 (size - 2147483648)) by lia. lia.
Qed.

(** Handle 0 is that of the root entries: deleting it empties the storage. *)
Lemma delete_handle_zero_empties_storage : exists d w, demo_db = Some d /\ paths (w_fs (demo_world 0 d)) <> [] /\
  mtp_op_DeleteObject always (fun _ => true) (fun _ => true) false 65 0 (demo_world 0 d) = Some (MTP_RESPONSE_OK, w) /\
  paths (w_fs w) = [].
Proof.
  destruct demo_db as [d|] eqn:E; [|vm_compute in E; discriminate E]. vm_compute in E. injection E as E.
  exists d. eexists. split; [reflexivity|]. split; [discriminate|]. rewrite <- E. split; vm_compute; reflexivity.
Qed.
