(* ===== verification/MtpAnswer.v ===== *)
(** * Operations that answer with a dataset, and renaming

    The operations of the MTP responder that send one data packet
    ([mtp_op_get*.c]), and [SetObjectPropValue] ([setObjectPropValue] of
    [mtp_properties.c]).  All of them build the header, put a dataset behind it
    and correct the length; the file [MtpDispatch] calls them. *)

From Stdlib Require Import Ascii String.
From S2P Require Import Prelude CString MtpName MtpUsb MtpData MtpWriter MtpHash MtpDb MtpTable MtpPath MtpStorage MtpMount MtpScan MtpFile MtpHandles MtpOps MtpDisk MtpSend MtpProps MtpDataset MtpAccess.

Definition MTP_RESPONSE_PARAMETER_NOT_SUPPORTED : Z := 0x2006.
Definition MTP_RESPONSE_DEVICE_PROP_NOT_SUPPORTED : Z := 0x200A.
Definition MTP_RESPONSE_INVALID_OBJECT_PROP_CODE : Z := 0xA801.
Definition MTP_CONTAINER_TYPE_EVENT : Z := 0x0004.

Section Answers.
Context {S : Type} {FS : FileSystem S}.
Context (localtime : Z -> option tm) (mal : nat -> bool) (may_uid may_gid : Z -> bool) (usb_cfg : usb_strings).
Context (wr_size max_packet_size : Z).

(** ** One data packet *)

(** The room for a dataset. *)
Definition room : Z := wr_size - HEADER_SIZE.

(** The length is put in its place; the packet, and the empty one after it. *)
Definition send_packet (wrbuffer : list Z) (sz : Z) : option (list (list Z)) :=
  '(wrbuffer, _) ← poke32 wrbuffer 0 wr_size sz;
  packet ← get_bytes wrbuffer 0 sz;
  Some (packet :: check_and_send_USB_ZLP max_packet_size sz).

(** The header, the dataset behind it and the packet: the code, the packets and
    the state after the dataset was built.  [unsupported] is the code of the
    operations that do not send an empty dataset. *)
Definition answer (tx_id code : Z) (build : option (writer * world S)) (unsupported : option Z) (wrbuffer : list Z)
    (w : world S) : option (Z * list (list Z) * world S) :=
  '(wrbuffer, sz) ← build_response tx_id MTP_CONTAINER_TYPE_DATA code wrbuffer wr_size [];
  if sz <? 0 then Some (MTP_RESPONSE_GENERAL_ERROR, [], w)
  else
    '(dataset, w) ← build;
    '(buffer, tmp_sz) ← dataset (drop (Z.to_nat HEADER_SIZE) wrbuffer) 0;
    if tmp_sz <? 0 then Some (MTP_RESPONSE_GENERAL_ERROR, [], w)
    else
      let sz := sz + tmp_sz in
      match unsupported with
      | Some response_code =>
          if HEADER_SIZE <? sz then
            packets ← send_packet (take (Z.to_nat HEADER_SIZE) wrbuffer ++ buffer) sz; Some (MTP_RESPONSE_OK, packets, w)
          else Some (response_code, [], w)
      | None =>
          packets ← send_packet (take (Z.to_nat HEADER_SIZE) wrbuffer ++ buffer) sz; Some (MTP_RESPONSE_OK, packets, w)
      end.

(** ** Events *)

(** [build_event_dataset]; the transaction id it is given is not used. *)
Definition build_event_dataset (buffer : list Z) (maxsize session event : Z) (parameters : list Z) : option (list Z * Z) :=
  '(buffer, ofs) ← (put32 maxsize 0 +> put16 maxsize MTP_CONTAINER_TYPE_EVENT +> put16 maxsize event +>
                    put32 maxsize session +> each (put32 maxsize) parameters) buffer 0;
  if 0 <=? ofs then '(buffer, _) ← poke32 buffer 0 maxsize ofs; Some (buffer, ofs) else Some (buffer, ofs).

(** What [mtp_push_event] writes, from what its buffer of 64 bytes holds. *)
Definition event_packet (event_buffer : list Z) (session event : Z) (parameters : list Z) : option (option (list Z)) :=
  '(buffer, size) ← build_event_dataset event_buffer 64 session event parameters;
  if size <? 0 then Some None else packet ← get_bytes buffer 0 size; Some (Some packet).

(** ** The device and the storages *)
Definition mtp_op_GetDeviceInfos (tx_id code : Z) (wrbuffer : list Z) (w : world S) : option (Z * list (list Z) * world S) :=
  answer tx_id code (Some (build_deviceinfo_dataset room usb_cfg, w)) None wrbuffer w.

(** The storages before the first free slot. *)
Fixpoint available_ids (l : list storage) : list Z :=
  match l with
  | [] => []
  | s :: l =>
      match root_path s with
      | None => []
      | Some _ =>
          if (Z.land (st_flags s) UMTP_STORAGE_NOTMOUNTED =? 0) && (Z.land (st_flags s) UMTP_STORAGE_LOCKED =? 0)
          then storage_id s :: available_ids l else available_ids l
      end
  end.

Definition mtp_op_GetStorageIDs (tx_id code : Z) (wrbuffer : list Z) (w : world S) : option (Z * list (list Z) * world S) :=
  match fs_db (w_ctx w) with
  | None => Some (MTP_RESPONSE_SESSION_NOT_OPEN, [], w)
  | Some _ =>
      '(wrbuffer, ofs) ← build_response tx_id MTP_CONTAINER_TYPE_DATA code wrbuffer wr_size [];
      if ofs <? 0 then Some (MTP_RESPONSE_GENERAL_ERROR, [], w)
      else
        let ids := available_ids (take MAX_STORAGE_NB (storages (w_ctx w))) in
        '(wrbuffer, ofs) ← poke_array wrbuffer ofs wr_size (4 * strlen ids) 4 (concat (map mem32 ids)) 1;
        if ofs <? 0 then Some (MTP_RESPONSE_GENERAL_ERROR, [], w)
        else packets ← send_packet wrbuffer ofs; Some (MTP_RESPONSE_OK, packets, w)
  end.

(** What the other operations start with. *)
Definition in_session (w : world S) (op : fs_handles_db -> option (Z * list (list Z) * world S)) :
    option (Z * list (list Z) * world S) :=
  match fs_db (w_ctx w) with None => Some (MTP_RESPONSE_SESSION_NOT_OPEN, [], w) | Some d => op d end.

Definition mtp_op_GetStorageInfo (tx_id code storageid : Z) (wrbuffer : list Z) (w : world S) :
    option (Z * list (list Z) * world S) :=
  in_session w (fun _ =>
    match mtp_get_storage_root (w_ctx w) storageid with
    | None => Some (MTP_RESPONSE_INVALID_STORAGE_ID, [], w)
    | Some _ =>
        answer tx_id code (Some (build_storageinfo_dataset room w storageid, w)) None wrbuffer w
    end).

Definition mtp_op_GetDevicePropDesc (tx_id code property_id : Z) (wrbuffer : list Z) (w : world S) :
    option (Z * list (list Z) * world S) :=
  in_session w (fun _ =>
    answer tx_id code (Some (build_device_properties_dataset room property_id, w))
      (Some MTP_RESPONSE_OPERATION_NOT_SUPPORTED) wrbuffer w).

Definition mtp_op_GetDevicePropValue (tx_id code prop_code : Z) (wrbuffer : list Z) (w : world S) :
    option (Z * list (list Z) * world S) :=
  in_session w (fun _ =>
    answer tx_id code (Some (build_DevicePropValue_dataset room (usb_product usb_cfg) prop_code, w))
      (Some MTP_RESPONSE_DEVICE_PROP_NOT_SUPPORTED) wrbuffer w).

(** ** The properties of formats *)
Definition mtp_op_GetObjectPropsSupported (tx_id code format_id : Z) (wrbuffer : list Z) (w : world S) :
    option (Z * list (list Z) * world S) :=
  in_session w (fun _ =>
    answer tx_id code (Some (build_properties_supported_dataset room format_id, w)) None wrbuffer w).

Definition mtp_op_GetObjectPropDesc (tx_id code property_id format_id : Z) (wrbuffer : list Z) (w : world S) :
    option (Z * list (list Z) * world S) :=
  in_session w (fun _ =>
    answer tx_id code (Some (build_properties_dataset room property_id format_id, w))
      (Some MTP_RESPONSE_OPERATION_NOT_SUPPORTED) wrbuffer w).

(** ** Objects *)

(** The object of a handle. *)
Definition on_object (handle : Z) (d : fs_handles_db) (w : world S) (op : Z -> option (Z * list (list Z) * world S)) :
    option (Z * list (list Z) * world S) :=
  entry ← get_entry_by_handle (root_of w) handle d;
  match entry with
  | None => Some (MTP_RESPONSE_INVALID_OBJECT_HANDLE, [], w)
  | Some p => op p
  end.

Definition mtp_op_GetObjectInfo (tx_id code handle : Z) (wrbuffer : list Z) (w : world S) :
    option (Z * list (list Z) * world S) :=
  in_session w (fun d => on_object handle d w (fun p =>
    answer tx_id code
      ('(dataset, d) ← build_objectinfo_dataset localtime room p d w; Some (dataset, put_db d [] w)) None wrbuffer w)).

Definition mtp_op_GetObjectPropValue (tx_id code handle prop_code : Z) (wrbuffer : list Z) (w : world S) :
    option (Z * list (list Z) * world S) :=
  in_session w (fun d => on_object handle d w (fun _ =>
    answer tx_id code
      (dataset ← build_ObjectPropValue_dataset room (root_of w) d handle prop_code; Some (dataset, w)) None wrbuffer w)).

(** The format and the depth have no effect. *)
Definition mtp_op_GetObjectPropList (tx_id code handle prop_code prop_group_code : Z) (wrbuffer : list Z) (w : world S) :
    option (Z * list (list Z) * world S) :=
  in_session w (fun d =>
    if (prop_code =? 0) && (prop_group_code =? 0) then Some (MTP_RESPONSE_PARAMETER_NOT_SUPPORTED, [], w)
    else on_object handle d w (fun p =>
      answer tx_id code
        ('(dataset, d) ← build_objectproplist_dataset localtime room p handle prop_code d w;
         Some (dataset, put_db d [] w)) None wrbuffer w)).

(** A failed header and a failed word are one error here. *)
Definition mtp_op_GetObjectReferences (tx_id code handle : Z) (wrbuffer : list Z) (w : world S) :
    option (Z * list (list Z) * world S) :=
  in_session w (fun d => on_object handle d w (fun _ =>
    '(wrbuffer, sz) ← build_response tx_id MTP_CONTAINER_TYPE_DATA code wrbuffer wr_size [];
    '(wrbuffer, sz) ← poke32 wrbuffer sz wr_size 0;
    if sz <? 0 then Some (MTP_RESPONSE_GENERAL_ERROR, [], w)
    else packets ← send_packet wrbuffer sz; Some (MTP_RESPONSE_OK, packets, w))).

(** ** Renaming *)

(** [packet] is the receive buffer; the outer option is an access behind it. *)
Definition getObjectPropFilename (packet : list Z) : option (option (list Z)) :=
  _ ← peek packet HEADER_SIZE 1;
  '(filename, _) ← unicode2charstring (drop (Z.to_nat (HEADER_SIZE + 1)) packet) (Z.of_nat FS_HANDLE_MAX_FILENAME_SIZE + 1);
  let '(name, ret) := sanitize_name (Some filename) (Z.of_nat FS_HANDLE_MAX_FILENAME_SIZE + 1) in
  Some (if ret =? 1 then Some name else None).

(** The case [MTP_PROPERTY_OBJECT_FILE_NAME] for an entry that may be written. *)
Definition rename_object (packet : list Z) (p : Z) (d : fs_handles_db) (w : world S) : option (Z * world S) :=
  path ← full_path w p d;
  match path with
  | None => Some (MTP_RESPONSE_GENERAL_ERROR, w)
  | Some path =>
      new_filename ← getObjectPropFilename packet;
      match new_filename with
      | None => Some (MTP_RESPONSE_GENERAL_ERROR, w)
      | Some new_filename =>
          e ← d_pool d !! p;
          renamed ← upd_entry (fun e => e {{ e_name := new_filename }}) p d;
          path2 ← full_path w p renamed;
          match path2 with
          | None => Some (MTP_RESPONSE_GENERAL_ERROR, w)
          | Some path2 =>
              let '(access, ids) := set_storage_giduid may_uid may_gid (w_ctx w) (e_storage e) (w_ids w) in
              let '(done, s) := if access =? 0 then fs_rename path path2 (w_fs w) else (false, w_fs w) in
              let w := mkworld (w_ctx w) (snd (restore_giduid may_uid may_gid (w_ctx w) ids)) s in
              if done then d ← rename_entry mal p new_filename d; Some (MTP_RESPONSE_OK, put_db d [] w)
              else Some (MTP_RESPONSE_GENERAL_ERROR, w)
          end
      end
  end.

Definition setObjectPropValue (packet : list Z) (handle prop_code : Z) (d : fs_handles_db) (w : world S) :
    option (Z * world S) :=
  if handle =? 0xFFFFFFFF then Some (MTP_RESPONSE_INVALID_OBJECT_HANDLE, w)
  else if prop_code =? MTP_PROPERTY_OBJECT_FILE_NAME then
    entry ← get_entry_by_handle (root_of w) handle d;
    match entry with
    | None => Some (MTP_RESPONSE_GENERAL_ERROR, w)
    | Some p =>
        denied ← check_handle_access (w_ctx w) d (Some p) 0 true;
        match denied with
        | Some response_code => Some (response_code, w)
        | None => rename_object packet p d w
        end
    end
  else Some (MTP_RESPONSE_INVALID_OBJECT_PROP_CODE, w).

(** [SetObjectPropValue_Handle] and [SetObjectPropValue_PropCode] are kept
    between the command and its data. *)
Definition mtp_op_SetObjectPropValue (operation : Z) (packet : list Z) (prop : Z * Z) (w : world S) :
    option (Z * (Z * Z) * world S) :=
  match fs_db (w_ctx w) with
  | None => Some (MTP_RESPONSE_SESSION_NOT_OPEN, prop, w)
  | Some d =>
      if operation =? MTP_CONTAINER_TYPE_COMMAND then
        handle ← peek packet HEADER_SIZE 4; prop_code ← peek packet (HEADER_SIZE + 4) 4;
        Some (MTP_RESPONSE_NO_RESPONSE, (handle, prop_code), w)
      else if operation =? MTP_CONTAINER_TYPE_DATA then
        '(response_code, w) ← setObjectPropValue packet (fst prop) (snd prop) d w;
        Some (response_code, (0xFFFFFFFF, snd prop), w)
      else Some (MTP_RESPONSE_OPERATION_NOT_SUPPORTED, prop, w)
  end.
End Answers.

(** ** What the packets hold *)
Lemma header_length length operation code tx_id : strlen (packet_header length operation code tx_id) = HEADER_SIZE.
Proof. unfold packet_header. rewrite !strlen_app. unfold strlen. by rewrite !le_bytes_length. Qed.

(** A plain array right after a prefix. *)
Lemma poke_plain pre post bs maxsize : strlen pre + strlen bs < maxsize -> maxsize <= strlen (pre ++ post) ->
  poke_array (pre ++ post) (strlen pre) maxsize (strlen bs) 1 bs 0 =
    Some (pre ++ bs ++ drop (length bs) post, strlen pre + strlen bs).
Proof.
  intros Hf Hl. pose proof (strlen_nonneg pre). pose proof (strlen_nonneg bs). rewrite strlen_app in Hl. unfold poke_array.
  rewrite (proj2 (Z.ltb_ge _ 0)), (proj2 (Z.leb_gt _ _)) by lia. change (0 =? 0) with true. cbn iota zeta.
  cbn [mbind option_bind]. rewrite Z.ltb_irrefl. rewrite (take_ge bs) by (unfold strlen; lia).
  rewrite put_after by (unfold strlen in *; lia). cbn [mbind option_bind]. by rewrite Z.max_r.
Qed.

Lemma build_response_exact tx_id type status wr_size wrbuffer datain :
  HEADER_SIZE + strlen datain < wr_size -> strlen wrbuffer = wr_size ->
  build_response tx_id type status wrbuffer wr_size datain =
    Some (packet_header (HEADER_SIZE + strlen datain) type status tx_id ++ datain ++
            drop (length datain) (drop (Z.to_nat HEADER_SIZE) wrbuffer), HEADER_SIZE + strlen datain).
Proof.
  intros Hf Hl. unfold build_response. pose proof (strlen_nonneg datain). set (h := packet_header _ _ _ _).
  assert (strlen h = HEADER_SIZE) as Eh by apply header_length.
  assert (length h = Z.to_nat HEADER_SIZE) as Eh' by (unfold strlen in Eh; lia).
  pose proof (poke_plain [] wrbuffer h wr_size) as P. cbn [app] in P. change (strlen []) with 0 in P. rewrite Eh, Z.add_0_l in P.
  rewrite P by lia. cbn [mbind option_bind]. rewrite Eh'. destruct (Z.eqb_spec (strlen datain) 0) as [E0|E0].
  - destruct datain; [|unfold strlen in E0; cbn [length] in E0; lia]. cbn [app length]. change (strlen []) with 0.
    by rewrite drop_0, Z.add_0_r.
  - rewrite <- Eh at 1. rewrite poke_plain; [by rewrite Eh|lia|].
    rewrite strlen_app, Eh. unfold strlen in *. rewrite length_drop. lia.
Qed.

Section Exact.
Context {S : Type} (wr_size max_packet_size : Z).

(** The packet of a dataset. *)
Definition data_packets (tx_id code : Z) (bs : list Z) : list (list Z) :=
  (packet_header (HEADER_SIZE + strlen bs) MTP_CONTAINER_TYPE_DATA code tx_id ++ bs)
    :: check_and_send_USB_ZLP max_packet_size (HEADER_SIZE + strlen bs).

Lemma get_bytes_prefix a rest n : n = strlen a -> get_bytes (a ++ rest) 0 n = Some a.
Proof.
  intros ->. rewrite get_bytes_seg; [|lia|apply strlen_nonneg|rewrite strlen_app; pose proof (strlen_nonneg rest); lia].
  unfold seg, strlen. by rewrite Nat2Z.id, drop_0, take_app_length.
Qed.

(** The length of a packet is put in its place. *)
Lemma size_updated sz0 sz type code tx_id rest :
  4 < wr_size -> wr_size <= HEADER_SIZE + strlen rest ->
  poke32 (packet_header sz0 type code tx_id ++ rest) 0 wr_size sz = Some (packet_header sz type code tx_id ++ rest, 4).
Proof.
  intros Hw Hl. set (b := _ ++ rest).
  pose proof (dataset_at wr_size (Dataset := writes_dataset wr_size _ _ (put32_writes wr_size sz)) b) as P.
  change (strlen (le_bytes 4 _)) with 4 in P. rewrite (proj2 (Z.ltb_lt 4 wr_size)) in P by done.
  unfold put32 in P. rewrite P by (unfold b; rewrite ?strlen_app, ?header_length; lia). done.
Qed.

Lemma send_packet_exact tx_id code bs rest :
  let sz := HEADER_SIZE + strlen bs in
  sz < wr_size -> wr_size <= sz + strlen rest ->
  send_packet wr_size max_packet_size (packet_header HEADER_SIZE MTP_CONTAINER_TYPE_DATA code tx_id ++ bs ++ rest) sz =
    Some (data_packets tx_id code bs).
Proof.
  intros sz Hf Hl. pose proof (strlen_nonneg bs). unfold send_packet.
  rewrite size_updated by (rewrite ?strlen_app; unfold sz, HEADER_SIZE in *; lia). cbn [mbind option_bind].
  rewrite app_assoc. by rewrite get_bytes_prefix by (rewrite strlen_app, header_length; done).
Qed.

(** The result of an operation that answers with the dataset [bs]. *)
Definition answered (tx_id code : Z) (bs : list Z) (unsupported : option Z) (w : world S) : Z * list (list Z) * world S :=
  if strlen bs <? room wr_size then
    match unsupported with
    | Some response_code => if bool_decide (bs = []) then (response_code, [], w)
                            else (MTP_RESPONSE_OK, data_packets tx_id code bs, w)
    | None => (MTP_RESPONSE_OK, data_packets tx_id code bs, w)
    end
  else (MTP_RESPONSE_GENERAL_ERROR, [], w).

Lemma answer_exact tx_id code dataset bs unsupported wrbuffer (w w' : world S) :
  Dataset (room wr_size) dataset bs -> strlen wrbuffer = wr_size -> HEADER_SIZE < wr_size ->
  answer wr_size max_packet_size tx_id code (Some (dataset, w')) unsupported wrbuffer w =
    Some (answered tx_id code bs unsupported w').
Proof.
  intros Hd Hl Hw. unfold answer, answered. rewrite build_response_exact by (done || (change (strlen []) with 0; lia)).
  change (strlen []) with 0. rewrite Z.add_0_r. cbn [mbind option_bind length app drop].
  change (HEADER_SIZE <? 0) with false. cbn iota. set (h := packet_header _ _ _ _).
  assert (length h = Z.to_nat HEADER_SIZE) as Eh by (unfold h; pose proof (header_length HEADER_SIZE MTP_CONTAINER_TYPE_DATA code tx_id) as P; unfold strlen in P; lia).
  rewrite <- Eh, drop_app_length, take_app_length. unfold room in *. pose proof (strlen_nonneg bs).
  pose proof (Hd (drop (length h) wrbuffer)) as P. rewrite drop_0.
  assert (strlen (drop (length h) wrbuffer) = wr_size - HEADER_SIZE) as Er
    by (rewrite Eh; unfold strlen in *; rewrite length_drop; unfold HEADER_SIZE in *; lia).
  specialize (P ltac:(lia) ltac:(lia)). destruct (Z.ltb_spec (strlen bs) (wr_size - HEADER_SIZE)) as [Hf|Hf].
  - rewrite P. cbn [mbind option_bind]. rewrite (proj2 (Z.ltb_ge _ 0)) by lia.
    assert (send_packet wr_size max_packet_size (h ++ bs ++ drop (length bs) (drop (length h) wrbuffer)) (HEADER_SIZE + strlen bs) =
      Some (data_packets tx_id code bs)) as Es.
    { apply send_packet_exact; [lia|]. unfold strlen in *. rewrite (length_drop _ (length bs)). lia. }
    destruct unsupported as [c|]; [|by rewrite Es]. case_bool_decide as Eb.
    + subst bs. by rewrite (proj2 (Z.ltb_ge _ _)) by (change (strlen []) with 0; lia).
    + rewrite (proj2 (Z.ltb_lt _ _)); [by rewrite Es|]. destruct bs; [done|]. unfold strlen. cbn [length]. lia.
  - destruct P as (b' & -> & _). done.
Qed.
End Exact.

Lemma params_length l : strlen (concat (map mem32 l)) = 4 * strlen l.
Proof.
  induction l as [|v l IH]; [done|]. cbn [map concat]. rewrite strlen_app, IH. unfold strlen, mem32. rewrite le_bytes_length.
  cbn [length]. lia.
Qed.

(** An event with at most twelve parameters is one packet with all of them;
    there is no room for a thirteenth. *)
Lemma event_packet_exact event_buffer session event parameters : strlen event_buffer = 64 ->
  event_packet event_buffer session event parameters =
    Some (if strlen parameters <=? 12
          then Some (packet_header (HEADER_SIZE + 4 * strlen parameters) MTP_CONTAINER_TYPE_EVENT event session ++
                     concat (map mem32 parameters))
          else None).
Proof.
  intros Hl. unfold event_packet, build_event_dataset. set (w := _ +> _).
  assert (Writes 64 w (packet_header 0 MTP_CONTAINER_TYPE_EVENT event session ++ concat (map mem32 parameters))) as H.
  { unfold packet_header, mem32. rewrite <- !app_assoc. unfold w. apply _. }
  pose proof (dataset_at 64 (Dataset := writes_dataset 64 _ _ H) event_buffer ltac:(lia) ltac:(lia)) as P.
  rewrite strlen_app, header_length, params_length in P. unfold strlen, HEADER_SIZE in P |- *.
  destruct (Z.leb_spec (Z.of_nat (length parameters)) 12) as [Hn|Hn].
  - rewrite (proj2 (Z.ltb_lt _ _)) in P by lia. rewrite P. cbn [mbind option_bind]. rewrite (proj2 (Z.leb_le 0 _)) by lia.
    rewrite <- app_assoc. rewrite size_updated; [|lia|].
    + cbn [mbind option_bind]. rewrite (proj2 (Z.ltb_ge _ 0)) by lia. rewrite app_assoc.
      by rewrite get_bytes_prefix by (rewrite strlen_app, header_length, params_length; reflexivity).
    + pose proof (params_length parameters) as E. unfold strlen in *. rewrite !length_app, length_drop, ?length_app.
      pose proof (header_length 0 MTP_CONTAINER_TYPE_EVENT event session) as E'. unfold strlen, HEADER_SIZE in *. lia.
  - rewrite (proj2 (Z.ltb_ge _ _)) in P by lia. by destruct P as (b & -> & _).
Qed.
