(* ===== verification/MtpRename.v ===== *)
(** * Renaming an object

    What [SetObjectPropValue] guarantees, from the bytes of the packet to the
    object table. *)

From Stdlib Require Import Ascii String.
From S2P Require Import Prelude CString MtpName MtpUsb MtpData MtpWriter MtpHash MtpDb MtpTable MtpPath MtpStorage MtpMount MtpScan MtpFile MtpHandles MtpOps MtpDisk MtpSend MtpProps MtpDataset MtpAccess MtpAnswer.

(** ** The name in the packet *)
Lemma filename_in_packet header us rest : strlen header = HEADER_SIZE -> Forall unit_ok us -> us <> [] -> strlen us <= 254 ->
  strlen (utf8_text us) <= Z.of_nat FS_HANDLE_MAX_FILENAME_SIZE ->
  getObjectPropFilename (header ++ mtp_string us ++ rest) =
    Some (let '(name, ret) := sanitize_name (Some (utf8_text us)) (Z.of_nat FS_HANDLE_MAX_FILENAME_SIZE + 1) in
          if ret =? 1 then Some name else None).
Proof.
  intros Hh Hus Hne Hs Hn. unfold getObjectPropFilename.
  destruct us as [|u us]; [done|]. pose proof (strlen_nonneg us).
  assert (mtp_string (u :: us) = le_bytes 1 (u8 (strlen (u :: us) + 1)) ++ units_le ((u :: us) ++ [0])) as ->.
  { unfold mtp_string. cbn [le_bytes app]. f_equal. change 0xFF with (Z.ones 8). rewrite Z.land_ones by lia.
    symmetry. apply Z.mod_small. change (2 ^ 8) with 256. apply (u8_range (strlen (u :: us) + 1)). }
  rewrite <- (app_assoc (le_bytes 1 _)). rewrite <- Hh at 1. rewrite peek_at; [|lia|change (2 ^ _) with 256; apply u8_range]. cbn [mbind option_bind].
  replace (Z.to_nat (HEADER_SIZE + 1)) with (length (header ++ le_bytes 1 (u8 (strlen (u :: us) + 1))))
    by (rewrite length_app, le_bytes_length; unfold strlen in Hh; unfold HEADER_SIZE in *; lia).
  rewrite (app_assoc header (le_bytes 1 _)), drop_app_length. unfold unicode2charstring. rewrite char_loop_text; [|done| |lia].
  - cbn [mbind option_bind]. by destruct (sanitize_name _ _).
  - rewrite length_app, units_le_length, length_app. lia.
Qed.

(** ** The table *)
Definition renamed (new : list Z) (e : fs_entry) : fs_entry := e {{ e_name := new }}.

Lemma rename_pool mal p new d d' e : rename_entry mal p new d = Some d' -> d_pool d !! p = Some e ->
  d_pool d' = <[p := renamed new e]> (d_pool d).
Proof.
  unfold rename_entry, remove_entry, upd_entry, insert_entry. intros H E. revert H. rewrite E. cbn [mbind option_bind].
  destruct d as [dl dn dh nx se hs ss pool bl fr ma]. upd. cbn in E. rewrite E. upd. rewrite lookup_insert_eq. upd.
  destruct (insert_entry_generic _ _ _ _) as [nh n1]. destruct (insert_entry_generic _ _ _ _) as [nn n2].
  intros [= <-]. done.
Qed.

Lemma rename_found mal d p e new d' root_of : reachable mal d -> (forall k, mal k = true) ->
  Z.of_nat (size (d_pool d)) < 2 ^ 29 -> d_pool d !! p = Some e -> rename_entry mal p new d = Some d' -> live e = true ->
  e_handle e <> 0 -> root_of (e_storage e) <> None ->
  get_entry_by_handle root_of (e_handle e) d' = Some (Some p) /\
  exists q, search_entry (mkfound false new 0) (e_parent e) (e_storage e) d' = Some (Some q) /\
            live_at d' new (e_parent e) (e_storage e) q.
Proof.
  intros (l & H & Hi0)%reachable_ok Hm Hs E Er Hlive Hh Hroot. pose proof (pool_size d l H) as Hsz.
  assert (Z.of_nat (length l) < 2 ^ 29) as Hl by lia.
  destruct (rename_ok mal p new d l H ltac:(by eexists)) as (d1 & E1 & H1 & I1).
  rewrite Er in E1. injection E1 as <-. pose proof (I1 Hm Hl (Hi0 Hm Hl)) as Hi.
  pose proof (rename_pool mal p new d d' e Er E) as Ep.
  assert (d_pool d' !! p = Some (renamed new e)) as E' by (rewrite Ep; apply lookup_insert_eq).
  split; [apply (by_handle_exact root_of d' l p (renamed new e)); try (by destruct e)|].
  destruct (search_exact (mkfound false new 0) (e_parent e) (e_storage e) d' l H1 Hi) as ([q|] & Es & Ho).
  - by exists q.
  - destruct (Ho p). exists (renamed new e). split; [done|]. unfold named, renamed. destruct e. cbn in *.
    rewrite streq_refl, !Z.eqb_refl. done.
Qed.

Lemma op_reachable mal op d : reachable mal d -> op_allowed op d -> exists d', run_op mal op d = Some d' /\ reachable mal d'.
Proof.
  intros R Ha. destruct (reachable_ok mal d R) as (l & H & _). destruct (run_op_ok mal op d l H Ha) as (d' & _ & E & _).
  exists d'. split; [done|]. by eapply reach_step.
Qed.

(** ** The operation *)
Section Renaming.
Context {S : Type} {FS : FileSystem S} (mal : nat -> bool) (may_uid may_gid : Z -> bool).

(** The identity the call is made under, and whether it may be. *)
Definition as_owner (w : world S) (e : fs_entry) : Z * fsids :=
  set_storage_giduid may_uid may_gid (w_ctx w) (e_storage e) (w_ids w).

(** C15: renaming is exact.  When the host sends a new name that passes the check
    for an object it may write, one [rename] is made, from the path of the
    object to that of its new name, under the ids of the storage.  If it fails
    the answer is an error and the table is as before; if it succeeds exactly
    the name of that entry changes, the table keeps its invariant, and, when no
    allocation fails, the object is found by its handle and by its new name. *)
Theorem rename_exact header us rest handle (w : world S) d d2 p e path new path2 :
  fs_db (w_ctx w) = Some d -> reachable mal d -> handle <> 0xFFFFFFFF ->
  get_entry_by_handle (root_of w) handle d = Some (Some p) -> d_pool d !! p = Some e ->
  entry_access (w_ctx w) e true = None ->
  strlen header = HEADER_SIZE -> Forall unit_ok us -> us <> [] -> strlen us <= 254 ->
  strlen (utf8_text us) <= Z.of_nat FS_HANDLE_MAX_FILENAME_SIZE ->
  sanitize_name (Some (utf8_text us)) (Z.of_nat FS_HANDLE_MAX_FILENAME_SIZE + 1) = (new, 1) ->
  full_path w p d = Some (Some path) ->
  upd_entry (renamed new) p d = Some d2 -> full_path w p d2 = Some (Some path2) ->
  exists code w', mtp_op_SetObjectPropValue mal may_uid may_gid MTP_CONTAINER_TYPE_DATA (header ++ mtp_string us ++ rest)
      (handle, MTP_PROPERTY_OBJECT_FILE_NAME) w = Some (code, (0xFFFFFFFF, MTP_PROPERTY_OBJECT_FILE_NAME), w') /\
    let '(done, s) := if fst (as_owner w e) =? 0 then fs_rename path path2 (w_fs w) else (false, w_fs w) in
    w_fs w' = s /\ storages (w_ctx w') = storages (w_ctx w) /\
    if done then
      code = MTP_RESPONSE_OK /\ exists d', fs_db (w_ctx w') = Some d' /\ reachable mal d' /\
        d_pool d' = <[p := renamed new e]> (d_pool d) /\
        ((forall k, mal k = true) -> Z.of_nat (size (d_pool d)) < 2 ^ 29 -> live e = true -> e_handle e <> 0 ->
         get_entry_by_handle (root_of w) (e_handle e) d' = Some (Some p) /\
         exists q, search_entry (mkfound false new 0) (e_parent e) (e_storage e) d' = Some (Some q) /\
                   live_at d' new (e_parent e) (e_storage e) q)
    else code = MTP_RESPONSE_GENERAL_ERROR /\ w_ctx w' = w_ctx w.
Proof.
  intros Ed Hr Hh Eh Ep A Hhd Hus Hne Hs Hn Hsan Epath E2 Epath2.
  assert (root_of w (e_storage e) <> None) as Hroot.
  { revert A. unfold entry_access, root_of, mtp_get_storage_flags, mtp_get_storage_root.
    destruct (find_storage _ _) as [[i st]|] eqn:F; [|done]. intros _.
    apply scan_storages_some in F as (k & _ & _ & U & _). unfold used in U. by destruct (root_path st). }
  unfold mtp_op_SetObjectPropValue. rewrite Ed. cbn [fst snd].
  change (MTP_CONTAINER_TYPE_DATA =? MTP_CONTAINER_TYPE_COMMAND) with false.
  change (MTP_CONTAINER_TYPE_DATA =? MTP_CONTAINER_TYPE_DATA) with true. cbn iota.
  unfold setObjectPropValue. rewrite (proj2 (Z.eqb_neq handle _)) by done.
  change (MTP_PROPERTY_OBJECT_FILE_NAME =? MTP_PROPERTY_OBJECT_FILE_NAME) with true. cbn iota.
  rewrite Eh. cbn [mbind option_bind]. unfold check_handle_access. cbn [mbind option_bind]. rewrite Ep.
  cbn [mbind option_bind]. rewrite A. unfold rename_object. rewrite Epath. cbn [mbind option_bind].
  rewrite filename_in_packet by done. rewrite Hsan. change (1 =? 1) with true. cbn iota. cbn [mbind option_bind].
  rewrite Ep. cbn [mbind option_bind]. fold (renamed new). rewrite E2. cbn [mbind option_bind]. rewrite Epath2.
  cbn [mbind option_bind]. fold (as_owner w e). destruct (as_owner w e) as [access ids]. cbn [fst].
  destruct (if access =? 0 then _ else _) as [[|] s]; [|by eexists _, _].
  destruct (op_reachable mal (Rename p new) d Hr ltac:(by eexists)) as (d' & E' & R'). cbn [run_op] in E'.
  rewrite E'. cbn [mbind option_bind]. eexists _, _. split; [reflexivity|].
  destruct w as [[]]. cbn. split; [done|]. split; [done|]. split; [done|]. exists d'. split; [done|]. split; [exact R'|].
  split; [by apply (rename_pool mal p new d d' e)|]. intros Hm Hsz Hl Hhz.
  by apply (rename_found mal d p e new d').
Qed.
End Renaming.

Lemma rename_exact_witness : exists d w d', demo_db = Some d /\
  mtp_op_SetObjectPropValue always (fun _ => true) (fun _ => true) MTP_CONTAINER_TYPE_DATA
    (replicate 12 0 ++ mtp_string (cstr "e") ++ []) (1, MTP_PROPERTY_OBJECT_FILE_NAME) (demo_world 0 d) =
      Some (MTP_RESPONSE_OK, (0xFFFFFFFF, MTP_PROPERTY_OBJECT_FILE_NAME), w) /\
  (cstr "/mnt/e", true) ∈ paths (w_fs w) /\
  fs_db (w_ctx w) = Some d' /\ d_pool d' = <[1022 := renamed (cstr "e") demo_folder]> (d_pool d).
Proof.
  destruct demo_reachable as (d & E & R). destruct (demo_folder_in d E) as [Ep Eh]. vm_compute in E. injection E as E.
  destruct (rename_exact always (fun _ => true) (fun _ => true) (replicate 12 0) (cstr "e") [] 1 (demo_world 0 d) d
    (default d (upd_entry (renamed (cstr "e")) 1022 d)) 1022 demo_folder (cstr "/mnt/d") (cstr "e") (cstr "/mnt/e"))
    as (code & w & H & Hw).
  - reflexivity.
  - exact R.
  - discriminate.
  - apply Eh. discriminate.
  - exact Ep.
  - reflexivity.
  - reflexivity.
  - repeat constructor.
  - discriminate.
  - vm_compute. discriminate.
  - vm_compute. discriminate.
  - vm_compute. reflexivity.
  - rewrite <- E. vm_compute. reflexivity.
  - rewrite <- E. vm_compute. reflexivity.
  - rewrite <- E. vm_compute. reflexivity.
  - cbn in Hw. destruct Hw as (Hs & _ & Hc & d' & Ed & _ & Hp & _). exists d, w, d'. split; [rewrite <- E; reflexivity|].
    split; [rewrite <- Hc; exact H|]. split; [|split; [exact Ed|exact Hp]].
    rewrite Hs. vm_compute. apply elem_of_cons. right. apply elem_of_cons. left. reflexivity.
Defined.
