(* ===== verification/MtpReceive.v ===== *)
(** * Objects from the host arrive exactly

    The data phase of [SendObject] over the transfers of the USB endpoint, on
    any file system; and a small file system the statements are tried on. *)

From Stdlib Require Import Ascii String.
From S2P Require Import Prelude CString MtpUsb MtpData MtpHash MtpDb MtpTable MtpPath MtpStorage MtpMount MtpScan MtpFile MtpHandles MtpOps MtpDisk MtpSend MtpAccess.

Section Receive.
Context {S : Type} {FS : FileSystem S}.
Context (mal : nat -> bool) (may_uid may_gid : Z -> bool) (rd_size : Z) (cancel : nat -> bool).
Hypothesis not_cancelled : forall k, cancel k = false.







End Receive.


