(* ===== verification/MtpDispatch.v ===== *)
(** * Packets in and responses out

    [process_in_packet] and [mtp_incoming_packet] of [mtp.c]: the parameters are
    taken from the receive buffer, the operation is called, and its code goes
    back in a response.  The receive buffer keeps what earlier packets left in
    it, and is part of the state. *)

From Stdlib Require Import Ascii String.
From S2P Require Import Prelude CString MtpUsb MtpData MtpWriter MtpHash MtpDb MtpTable MtpPath MtpStorage MtpMount MtpSession MtpFile MtpHandles MtpOps MtpDisk MtpSend MtpProps MtpDataset MtpAccess MtpAnswer MtpRename.

Definition MTP_OPERATION_GET_DEVICE_INFO : Z := 0x1001.
Definition MTP_OPERATION_OPEN_SESSION : Z := 0x1002.
Definition MTP_OPERATION_CLOSE_SESSION : Z := 0x1003.
Definition MTP_OPERATION_GET_STORAGE_IDS : Z := 0x1004.
Definition MTP_OPERATION_GET_STORAGE_INFO : Z := 0x1005.
Definition MTP_OPERATION_GET_OBJECT_HANDLES : Z := 0x1007.
Definition MTP_OPERATION_GET_OBJECT_INFO : Z := 0x1008.
Definition MTP_OPERATION_GET_OBJECT : Z := 0x1009.
Definition MTP_OPERATION_DELETE_OBJECT : Z := 0x100B.
Definition MTP_OPERATION_GET_DEVICE_PROP_DESC : Z := 0x1014.
Definition MTP_OPERATION_GET_DEVICE_PROP_VALUE : Z := 0x1015.
Definition MTP_OPERATION_SET_DEVICE_PROP_VALUE : Z := 0x1016.
Definition MTP_OPERATION_GET_PARTIAL_OBJECT : Z := 0x101B.
Definition MTP_OPERATION_GET_OBJECT_PROPS_SUPPORTED : Z := 0x9801.
Definition MTP_OPERATION_GET_OBJECT_PROP_DESC : Z := 0x9802.
Definition MTP_OPERATION_GET_OBJECT_PROP_VALUE : Z := 0x9803.
Definition MTP_OPERATION_SET_OBJECT_PROP_VALUE : Z := 0x9804.
Definition MTP_OPERATION_GET_OBJECT_PROP_LIST : Z := 0x9805.
Definition MTP_OPERATION_GET_OBJECT_REFERENCES : Z := 0x9810.
Definition MTP_OPERATION_GET_PARTIAL_OBJECT_64 : Z := 0x95C1.
Definition MTP_OPERATION_TRUNCATE_OBJECT : Z := 0x95C3.
Definition MTP_OPERATION_BEGIN_EDIT_OBJECT : Z := 0x95C4.
Definition MTP_OPERATION_END_EDIT_OBJECT : Z := 0x95C5.

Section Dispatch.
Context {S : Type} {FS : FileSystem S}.
Context (localtime : Z -> option tm) (mal : nat -> bool) (may_uid may_gid : Z -> bool) (usb_cfg : usb_strings).
Context (show_hidden : bool) (addwatch : list Z -> Z) (wr_size rd_size max_packet_size : Z).

(** The responder between two packets: the operations' state, [rdbuffer], the
    transfers of the host that are still to be read, and the packets sent. *)
Record responder := mkresp {
  h_world : world S; h_info : send_info; h_prop : Z * Z; h_rd : list Z; h_in : list (list Z); h_out : list (list Z) }.

(** What an operation gives to the switch: the code, the parameters, the packets
    it sent and the state. *)
Record reply := mkreply { a_code : Z; a_params : list Z; a_packets : list (list Z); a_next : responder }.

(** What is left in the write buffer before the operation and before the
    response, in [rdbuffer2] and in [read_file_buffer], [cancel_req] at each of
    its tests, and the fuel of [fs_remove_tree]. *)
Context (wrbuffer wrbuffer' rdbuffer2 : list Z) (read_file_buffer : option (list Z)) (cancel : nat -> bool) (fuel : nat).

Definition with_world (w : world S) (h : responder) : responder := h {{ h_world := w }}.

(** The shapes of the operations. *)
Definition of_answer (h : responder) (r : option (Z * list (list Z) * world S)) : option reply :=
  '(code, packets, w) ← r; Some (mkreply code [] packets (with_world w h)).
Definition of_code (h : responder) (r : option (Z * world S)) : option reply :=
  '(code, w) ← r; Some (mkreply code [] [] (with_world w h)).
Definition of_outcome (h : responder) (r : option outcome) : option reply :=
  o ← r;
  Some (mkreply (o_code o) (o_params o) (o_packets o)
          (with_world (mkworld (o_ctx o) (o_ids o) (w_fs (h_world h))) h)).
Definition put_ctx (ctx : mtp_ctx) (h : responder) : responder := with_world ((h_world h) {{ w_ctx := ctx }}) h.

(** Parameter [k] of the packet, from 0. *)
Definition param (k : Z) (rd : list Z) : option Z := peek rd (HEADER_SIZE + 4 * k) 4.

(** The switch; [size] is that of the transfer. *)
Definition dispatch (operation code tx_id size : Z) (h : responder) : option reply :=
  let rd := h_rd h in
  let w := h_world h in
  if code =? MTP_OPERATION_OPEN_SESSION then
    id ← param 0 rd;
    '(code, params, ctx) ← mtp_op_OpenSession mal id (w_ctx w); Some (mkreply code params [] (put_ctx ctx h))
  else if code =? MTP_OPERATION_CLOSE_SESSION then
    '(code, _, ctx) ← mtp_op_CloseSession (w_ctx w); Some (mkreply code [] [] (put_ctx ctx h))
  else if code =? MTP_OPERATION_GET_DEVICE_INFO then
    of_answer h (mtp_op_GetDeviceInfos usb_cfg wr_size max_packet_size tx_id code wrbuffer w)
  else if code =? MTP_OPERATION_GET_STORAGE_IDS then
    of_answer h (mtp_op_GetStorageIDs wr_size max_packet_size tx_id code wrbuffer w)
  else if code =? MTP_OPERATION_GET_STORAGE_INFO then
    storageid ← param 0 rd;
    of_answer h (mtp_op_GetStorageInfo wr_size max_packet_size tx_id code storageid wrbuffer w)
  else if code =? MTP_OPERATION_GET_DEVICE_PROP_DESC then
    property_id ← param 0 rd;
    of_answer h (mtp_op_GetDevicePropDesc wr_size max_packet_size tx_id code property_id wrbuffer w)
  else if code =? MTP_OPERATION_GET_DEVICE_PROP_VALUE then
    prop_code ← param 0 rd;
    of_answer h (mtp_op_GetDevicePropValue usb_cfg wr_size max_packet_size tx_id code prop_code wrbuffer w)
  else if code =? MTP_OPERATION_GET_OBJECT_HANDLES then
    storageid ← param 0 rd; parent_handle ← param 2 rd;
    of_outcome h (mtp_op_GetObjectHandles mal may_uid may_gid (fs_realpath (w_fs w)) (fs_stat (w_fs w)) (fs_list (w_fs w))
                    show_hidden addwatch wr_size max_packet_size tx_id code storageid parent_handle wrbuffer (w_ctx w) (w_ids w))
  else if code =? MTP_OPERATION_GET_OBJECT_INFO then
    handle ← param 0 rd;
    of_answer h (mtp_op_GetObjectInfo localtime wr_size max_packet_size tx_id code handle wrbuffer w)
  else if code =? MTP_OPERATION_GET_PARTIAL_OBJECT_64 then
    handle ← param 0 rd; offset ← peek64 rd (HEADER_SIZE + 4) 8; maxsize ← param 3 rd;
    of_outcome h (mtp_op_GetPartialObject may_uid may_gid wr_size rd_size max_packet_size cancel tx_id code handle
                    (i64 offset) maxsize wrbuffer read_file_buffer w)
  else if code =? MTP_OPERATION_GET_PARTIAL_OBJECT then
    handle ← param 0 rd; offset ← param 1 rd; maxsize ← param 2 rd;
    of_outcome h (mtp_op_GetPartialObject may_uid may_gid wr_size rd_size max_packet_size cancel tx_id code handle
                    offset maxsize wrbuffer read_file_buffer w)
  else if code =? MTP_OPERATION_GET_OBJECT then
    handle ← param 0 rd;
    of_outcome h (mtp_op_GetObject may_uid may_gid wr_size rd_size max_packet_size cancel tx_id code handle
                    wrbuffer read_file_buffer w)
  else if code =? MTP_OPERATION_SEND_OBJECT_INFO then
    storageid ← param 0 rd; parent_handle ← param 1 rd;
    let '(dataset, usb) := match h_in h with
                           | data :: usb => (data ++ drop (length data) rdbuffer2, usb)
                           | [] => (rdbuffer2, [])
                           end in
    '(code, params, si, w) ← mtp_op_SendObjectInfo mal may_uid may_gid storageid parent_handle dataset (h_info h) w;
    Some (mkreply code params [] ((with_world w h) {{ h_info := si; h_in := usb }}))
  else if (code =? MTP_OPERATION_SEND_PARTIAL_OBJECT) || (code =? MTP_OPERATION_SEND_OBJECT) then
    r ← mtp_op_SendObject may_uid may_gid rd_size cancel operation code rd (take (Z.to_nat size) rd) (h_in h) (h_info h) w;
    Some (mkreply (r_code r) [] [] ((with_world (r_world r) h) {{ h_info := r_info r; h_in := r_usb r }}))
  else if code =? MTP_OPERATION_DELETE_OBJECT then
    handle ← param 0 rd;
    of_code h (mtp_op_DeleteObject mal may_uid may_gid show_hidden fuel handle w)
  else if code =? MTP_OPERATION_GET_OBJECT_PROPS_SUPPORTED then
    format_id ← param 0 rd;
    of_answer h (mtp_op_GetObjectPropsSupported wr_size max_packet_size tx_id code format_id wrbuffer w)
  else if code =? MTP_OPERATION_GET_OBJECT_PROP_DESC then
    property_id ← param 0 rd; format_id ← param 1 rd;
    of_answer h (mtp_op_GetObjectPropDesc wr_size max_packet_size tx_id code property_id format_id wrbuffer w)
  else if code =? MTP_OPERATION_GET_OBJECT_PROP_VALUE then
    handle ← param 0 rd; prop_code ← param 1 rd;
    of_answer h (mtp_op_GetObjectPropValue wr_size max_packet_size tx_id code handle prop_code wrbuffer w)
  else if code =? MTP_OPERATION_SET_OBJECT_PROP_VALUE then
    '(code, prop, w) ← mtp_op_SetObjectPropValue mal may_uid may_gid operation rd (h_prop h) w;
    Some (mkreply code [] [] ((with_world w h) {{ h_prop := prop }}))
  else if code =? MTP_OPERATION_GET_OBJECT_PROP_LIST then
    handle ← param 0 rd; prop_code ← param 2 rd; prop_group_code ← param 3 rd;
    of_answer h (mtp_op_GetObjectPropList localtime wr_size max_packet_size tx_id code handle prop_code prop_group_code wrbuffer w)
  else if code =? MTP_OPERATION_GET_OBJECT_REFERENCES then
    handle ← param 0 rd;
    of_answer h (mtp_op_GetObjectReferences wr_size max_packet_size tx_id code handle wrbuffer w)
  else if code =? MTP_OPERATION_BEGIN_EDIT_OBJECT then
    handle ← param 0 rd; of_code h (mtp_op_BeginEditObject handle w)
  else if code =? MTP_OPERATION_END_EDIT_OBJECT then
    handle ← param 0 rd;
    '(code, _, w) ← mtp_op_EndEditObject handle w; Some (mkreply code [] [] (with_world w h))
  else if code =? MTP_OPERATION_TRUNCATE_OBJECT then
    handle ← param 0 rd; offset ← peek64 rd (HEADER_SIZE + 4) 8;
    of_code h (mtp_op_TruncateObject handle (i64 offset) w)
  else Some (mkreply MTP_RESPONSE_OPERATION_NOT_SUPPORTED [] [] h).

(** The response of a reply, if one is due. *)
Definition response (tx_id : Z) (a : reply) : option (list (list Z)) :=
  if a_code a =? MTP_RESPONSE_NO_RESPONSE then Some []
  else
    '(buffer, size) ← build_response tx_id MTP_CONTAINER_TYPE_RESPONSE (a_code a) wrbuffer' wr_size
                        (concat (map mem32 (a_params a)));
    if 0 <=? size then packet ← get_bytes buffer 0 size; Some [packet] else Some [].

Definition process_in_packet (size : Z) (h : responder) : option responder :=
  operation ← peek (h_rd h) 4 2;
  code ← peek (h_rd h) 6 2;
  tx_id ← peek (h_rd h) 8 4;
  a ← dispatch operation code tx_id size h;
  packets ← response tx_id a;
  Some ((a_next a) {{ h_out := h_out (a_next a) ++ a_packets a ++ packets }}).

(** -1 is a read error; a transfer is at most as long as the buffer. *)
Definition mtp_incoming_packet (h : responder) : option (Z * responder) :=
  match h_in h with
  | [] => Some (-1, h)
  | data :: usb =>
      let h := h {{ h_rd := data ++ drop (length data) (h_rd h); h_in := usb }} in
      if strlen data =? 0 then Some (0, h) else h ← process_in_packet (strlen data) h; Some (0, h)
  end.
End Dispatch.

Arguments responder S : clear implicits.
Arguments reply S : clear implicits.
