(* ===== verification/MtpCommands.v ===== *)
(** * What the commands guarantee

    The commands that answer with a dataset or only change the session: each is
    answered once, in the order of the protocol, leaves the files alone and
    keeps the invariants of the session. *)

From Stdlib Require Import Ascii String.
From S2P Require Import Prelude CString MtpUsb MtpData MtpWriter MtpHash MtpDb MtpTable MtpPath MtpStorage MtpMount MtpSession MtpFile MtpHandles MtpOps MtpDisk MtpSend MtpProps MtpDataset MtpAccess MtpAnswer MtpRename MtpDispatch.

(** ** Texts the program makes *)
Definition ascii (s : list Z) : Prop := Forall (fun c => 0 < c <= 0x7F) s.

Lemma ascii_text s rest : ascii s -> strlen s <= 254 -> Text (s ++ 0 :: rest) s.
Proof.
  intros H. apply text_ascii. rewrite forallb_forall. intros c Hc. unfold ascii in H. rewrite Forall_forall in H.
  specialize (H c ltac:(by apply list_elem_of_In)). apply andb_true_iff. rewrite Z.ltb_lt, Z.leb_le. lia.
Qed.

Lemma dec_digits_ascii fuel n acc : ascii acc -> ascii (dec_digits fuel n acc).
Proof.
  revert n acc. induction fuel as [|fuel IH]; intros n acc H; cbn [dec_digits]; [done|].
  assert (ascii ((48 + n mod 10) :: acc)) by (constructor; [pose proof (Z.mod_pos_bound n 10); lia|done]).
  destruct (_ =? _); [done|by apply IH].
Qed.

Lemma int_prec_ascii n v : ascii (int_prec n v).
Proof.
  unfold int_prec. apply Forall_app. split; [destruct (v <? 0); repeat constructor; lia|]. apply Forall_app. split.
  - apply Forall_replicate. lia.
  - apply dec_digits_ascii. constructor.
Qed.

Lemma time_text lt : Text (time_string lt ++ [0]) (time_string lt).
Proof.
  unfold time_string. apply ascii_text; [|unfold strlen; rewrite length_take; lia].
  apply Forall_take. repeat (apply Forall_app; split; try apply int_prec_ascii). repeat constructor; lia.
Qed.

Lemma hex8_ascii v : ascii (hex8 v).
Proof.
  unfold hex8, ascii. apply Forall_map, Forall_forall. intros i _. unfold hex_upper. change 0xF with (Z.ones 4).
  rewrite Z.land_ones by lia. pose proof (Z.mod_pos_bound (Z.shiftr v (4 * i)) (2 ^ 4) ltac:(lia)).
  change (2 ^ 4) with 16 in *. bdestr; lia.
Qed.

(** ** Datasets *)
Definition is_text (s : list Z) : Prop := exists us, Text (s ++ [0]) us.
Definition usb_ok (usb_cfg : usb_strings) : Prop :=
  Forall is_text [usb_manufacturer usb_cfg; usb_product usb_cfg; usb_serial usb_cfg; usb_version usb_cfg;
                  usb_mtp_extensions usb_cfg].

Section Datasets.
Context {S : Type} {FS : FileSystem S} (maxsize : Z).

Definition has_bytes (w : writer) : Prop := exists bs, Dataset maxsize w bs.

Lemma writes_has w bs : Writes maxsize w bs -> has_bytes w.
Proof. intros H. exists bs. by apply writes_dataset. Qed.

Lemma deviceinfo_has usb_cfg : usb_ok usb_cfg -> has_bytes (build_deviceinfo_dataset maxsize usb_cfg).
Proof.
  unfold usb_ok. rewrite !Forall_cons. intros ([u1 T1] & [u2 T2] & [u3 T3] & [u4 T4] & [u5 T5] & _).
  eapply writes_has. unfold build_deviceinfo_dataset. apply _.
Qed.

Lemma storageinfo_has (w : world S) id : (forall desc, mtp_get_storage_description (w_ctx w) id = Some desc -> is_text desc) ->
  has_bytes (build_storageinfo_dataset maxsize w id).
Proof.
  intros H. unfold build_storageinfo_dataset.
  destruct (mtp_get_storage_description (w_ctx w) id) as [desc|]; [|by eapply writes_has, no_write_writes].
  destruct (mtp_get_storage_root (w_ctx w) id) as [root|]; [|by eapply writes_has, no_write_writes].
  destruct (storage_space (w_fs w) root) as [total free].
  destruct (H desc eq_refl) as [us T].
  assert (Text (cstr "UMTPRD_" ++ hex8 id ++ [0]) (cstr "UMTPRD_" ++ hex8 id)) as T'.
  { rewrite app_assoc. apply ascii_text; [|vm_compute; discriminate].
    apply Forall_app. split; [|apply hex8_ascii].
    change (cstr "UMTPRD_") with [85; 77; 84; 80; 82; 68; 95]. repeat (apply Forall_cons_2; [lia|]). apply Forall_nil_2. }
  eapply writes_has. unfold put64. apply _.
Qed.

Lemma device_properties_has id : has_bytes (build_device_properties_dataset maxsize id).
Proof.
  unfold build_device_properties_dataset, dev_properties, find_property. cbn [prop_code].
  destruct (MTP_DEVICE_PROPERTY_BATTERY_LEVEL =? id) eqn:E1; [|destruct (MTP_DEVICE_PROPERTY_DEVICE_FRIENDLY_NAME =? id) eqn:E2].
  - cbn [prop_code]. rewrite E1. unfold device_default. cbn [data_type default_value].
    eapply writes_has. unfold put_property. apply _.
  - cbn [prop_code]. rewrite E2. eapply writes_has. unfold put_property. apply _.
  - destruct (prop_code end_property =? id); [|eapply writes_has; apply no_write_writes].
    eapply writes_has. unfold put_property. apply _.
Qed.

Lemma supported_has fmt : has_bytes (build_properties_supported_dataset maxsize fmt).
Proof.
  unfold build_properties_supported_dataset. destruct (List.find _ _) as [[f codes]|]; eapply writes_has; apply _.
Qed.

Lemma properties_has code fmt : has_bytes (build_properties_dataset maxsize code fmt).
Proof.
  unfold build_properties_dataset. destruct (_ =? code); [|eapply writes_has; apply no_write_writes].
  destruct (put_default_writes maxsize (described_property code fmt)) as [bs H].
  destruct (put_property_writes maxsize (described_property code fmt) _ bs H) as (ds & Hd & _). by eapply writes_has.
Qed.

Lemma device_value_has product code : is_text product -> has_bytes (build_DevicePropValue_dataset maxsize product code).
Proof.
  intros [us T]. unfold build_DevicePropValue_dataset. repeat case_match; eapply writes_has; apply _.
Qed.

Lemma value_has e code : is_text (e_name e) -> has_bytes (default no_write (property_value maxsize e code)).
Proof.
  intros [us T]. assert (Text fixed_date (cstr "20100102T101112")) as Hd by by apply text_ascii.
  unfold property_value. repeat case_match; eapply writes_has; cbn [default]; apply _.
Qed.
End Datasets.

(** ** Operations *)
Section Quiet.
Context {S : Type} {FS : FileSystem S} (localtime : Z -> option tm) (mal : nat -> bool) (usb_cfg : usb_strings).
Context (wr_size max_packet_size : Z) (wrbuffer : list Z).
Hypothesis wr_length : strlen wrbuffer = wr_size.
Hypothesis wr_room : HEADER_SIZE + 20 < wr_size.

(** What a command asks about by its first parameter can be told: the
    description of the storage with this number and the name of the object with
    this handle can be put into packets, and the path of that object does not
    crash [build_full_path]. *)
Definition asked_ok (w : world S) (id : Z) : Prop :=
  (forall desc, mtp_get_storage_description (w_ctx w) id = Some desc -> is_text desc) /\
  forall d p e, fs_db (w_ctx w) = Some d -> get_entry_by_handle (root_of w) id d = Some (Some p) -> d_pool d !! p = Some e ->
    is_text (e_name e) /\ is_Some (full_path w p d).

Definition session_kept (w w' : world S) : Prop :=
  w_fs w' = w_fs w /\ w_ids w' = w_ids w /\ session_ok mal (w_ctx w') /\ store_ok (w_ctx w').

(** The operation ends with a code that is sent, and at most one data packet. *)
Definition quiet (tx_id code : Z) (w : world S) (r : option (Z * list (list Z) * world S)) : Prop :=
  exists code' packets w', r = Some (code', packets, w') /\ code' <> MTP_RESPONSE_NO_RESPONSE /\
    (packets = [] \/ exists bs, packets = data_packets max_packet_size tx_id code bs) /\ session_kept w w'.

Section Session.
Context (tx_id code : Z) (w : world S).
Hypothesis session : session_ok mal (w_ctx w).
Hypothesis stores : store_ok (w_ctx w).

Lemma quiet_refuse code' : code' <> MTP_RESPONSE_NO_RESPONSE -> quiet tx_id code w (Some (code', [], w)).
Proof. intros H. exists code', [], w. split_and!; [done|done|by left|done..]. Qed.

Lemma quiet_answer dataset unsupported w' : has_bytes (room wr_size) dataset -> session_kept w w' ->
  unsupported <> Some MTP_RESPONSE_NO_RESPONSE ->
  quiet tx_id code w (answer wr_size max_packet_size tx_id code (Some (dataset, w')) unsupported wrbuffer w).
Proof.
  intros [bs Hd] Hk Hu. rewrite (answer_exact wr_size max_packet_size tx_id code dataset bs) by (done || lia). unfold answered.
  destruct (_ <? _); [|exists MTP_RESPONSE_GENERAL_ERROR, [], w'; split_and!; [done|done|by left|apply Hk..]].
  destruct unsupported as [c|]; [destruct (bool_decide _); [exists c, [], w'; split_and!; [done|congruence|by left|apply Hk..]|]|];
    (exists MTP_RESPONSE_OK; eexists _, w'; split_and!; [done|done|right; by eexists|apply Hk..]).
Qed.

Lemma kept_refl : session_kept w w.
Proof. done. Qed.

Lemma quiet_session op : (forall d, fs_db (w_ctx w) = Some d -> quiet tx_id code w (op d)) -> quiet tx_id code w (in_session w op).
Proof. intros H. unfold in_session. destruct (fs_db (w_ctx w)) as [d|]; [by apply H|by apply quiet_refuse]. Qed.

Lemma handle_lookup handle d : fs_db (w_ctx w) = Some d ->
  get_entry_by_handle (root_of w) handle d = Some None \/
  exists p e, get_entry_by_handle (root_of w) handle d = Some (Some p) /\ d_pool d !! p = Some e.
Proof.
  intros Ed. pose proof session as R. unfold session_ok in R. rewrite Ed in R. apply reachable_ok in R as (l & H & _).
  rewrite (by_handle_first _ _ d l H). destruct (first_of _ _ _) as [p|] eqn:F; [right|by left].
  destruct (first_of_some _ _ _ _ F) as (_ & _ & e & _ & E & _). by exists p, e.
Qed.

Lemma quiet_object handle d op : fs_db (w_ctx w) = Some d ->
  (forall p e, get_entry_by_handle (root_of w) handle d = Some (Some p) -> d_pool d !! p = Some e -> quiet tx_id code w (op p)) ->
  quiet tx_id code w (on_object handle d w op).
Proof.
  intros Ed H. unfold on_object. destruct (handle_lookup handle d Ed) as [->|(p & e & E & Ep)]; cbn [mbind option_bind].
  - by apply quiet_refuse.
  - rewrite E. by apply (H p e).
Qed.

(** The size of an entry brought up to date. *)
Lemma resize_kept d p e sz : fs_db (w_ctx w) = Some d -> d_pool d !! p = Some e ->
  exists d', upd_entry (fun e => e {{ e_size := sz }}) p d = Some d' /\ d_pool d' !! p = Some (e {{ e_size := sz }}) /\
    session_kept w (put_db d' [] w).
Proof.
  intros Ed Ep. pose proof session as R. unfold session_ok in R. rewrite Ed in R.
  destruct (op_reachable mal (Resize p sz) d R ltac:(by eexists)) as (d' & E' & R'). cbn [run_op] in E'. exists d'.
  split; [exact E'|]. split.
  - unfold upd_entry in E'. rewrite Ep in E'. injection E' as <-. destruct d. apply lookup_insert_eq.
  - destruct w as [ctx ids fs]. split_and!; [done|done| |]; cbn; [by destruct ctx|]. destruct ctx. exact stores.
Qed.

Lemma kept_put d : fs_db (w_ctx w) = Some d -> session_kept w (put_db d [] w).
Proof.
  intros Ed. pose proof session as R. destruct w as [ctx ids fs]. destruct ctx. cbn in *. rewrite Ed in *.
  split_and!; [done|done|exact R|exact stores].
Qed.

Lemma stat_object_kept d p e : fs_db (w_ctx w) = Some d -> d_pool d !! p = Some e -> is_Some (full_path w p d) ->
  stat_object localtime p d w = Some None \/
  exists sz timestr date d', stat_object localtime p d w = Some (Some (sz, timestr, d')) /\
    Text timestr date /\ d_pool d' !! p = Some (e {{ e_size := sz }}) /\ session_kept w (put_db d' [] w).
Proof.
  intros Ed Ep [path E]. unfold stat_object. rewrite E. cbn [mbind option_bind].
  destruct path as [path|]; [|by left]. destruct (fs_stat (w_fs w) path) as [[isdir sz]|]; [right|by left].
  destruct (resize_kept d p e sz Ed Ep) as (d' & -> & Ep' & K). cbn [mbind option_bind].
  eexists sz, _, _, d'. split; [reflexivity|]. split; [apply time_text|done].
Qed.

Abbreviation is_quiet := (quiet tx_id code w).

Lemma quiet_device_infos : usb_ok usb_cfg -> is_quiet (mtp_op_GetDeviceInfos usb_cfg wr_size max_packet_size tx_id code wrbuffer w).
Proof. intros H. apply quiet_answer; [by apply deviceinfo_has|done|done]. Qed.

Lemma available_length l : (length (available_ids l) <= length l)%nat.
Proof. induction l as [|s l IH]; [done|]. cbn [available_ids length]. repeat case_match; cbn [length]; lia. Qed.

Lemma words_bytes ids : strlen (concat (map mem32 ids)) = 4 * strlen ids.
Proof.
  induction ids as [|v ids IH]; [done|]. cbn [map concat]. rewrite strlen_app, IH. unfold strlen, mem32.
  rewrite le_bytes_length. cbn [length]. lia.
Qed.

(** What follows a header, when it is written at its place. *)
Lemma written_after dataset bs : Writes wr_size dataset bs ->
  exists buffer ofs, ('(wrbuffer, ofs) ← build_response tx_id MTP_CONTAINER_TYPE_DATA code wrbuffer wr_size [];
                     dataset wrbuffer ofs) = Some (buffer, ofs) /\
    (ofs = -1 \/ send_packet wr_size max_packet_size buffer ofs = Some (data_packets max_packet_size tx_id code bs) /\ 0 <= ofs).
Proof.
  intros Hd. rewrite build_response_exact by (done || (change (strlen []) with 0; lia)). cbn [mbind option_bind].
  change (strlen []) with 0. rewrite Z.add_0_r. cbn [length app]. rewrite drop_0. set (h := packet_header _ _ _ _).
  assert (strlen h = HEADER_SIZE) as Eh by apply header_length. pose proof (strlen_nonneg bs).
  set (rest := drop _ wrbuffer).
  assert (strlen rest = wr_size - HEADER_SIZE) as Er by (unfold rest, strlen in *; rewrite length_drop; unfold HEADER_SIZE in *; lia).
  pose proof (writes_at wr_size (Writes := Hd) h rest) as P. rewrite strlen_app, Eh, Er in P. specialize (P ltac:(lia) ltac:(lia)).
  destruct (Z.ltb_spec (HEADER_SIZE + strlen bs) wr_size) as [Hf|Hf].
  - rewrite P. eexists _, _. split; [reflexivity|]. right. split; [|unfold HEADER_SIZE; lia].
    apply send_packet_exact; [done|]. unfold strlen in *. rewrite length_drop. lia.
  - destruct P as (post' & -> & _). eexists _, _. split; [reflexivity|by left].
Qed.

Lemma quiet_storage_ids : is_quiet (mtp_op_GetStorageIDs wr_size max_packet_size tx_id code wrbuffer w).
Proof.
  unfold mtp_op_GetStorageIDs. destruct (fs_db (w_ctx w)) as [d|]; [|by apply quiet_refuse].
  set (ids := available_ids _).
  destruct (written_after _ _ (array_writes wr_size 4 (strlen ids) (concat (map mem32 ids)) ltac:(lia) (strlen_nonneg ids)
    (words_bytes ids))) as (buffer & ofs & E & Ho).
  destruct (build_response _ _ _ _ _ _) as [[wr0 ofs0]|] eqn:Eb; [|done]. cbn [mbind option_bind] in E |- *.
  rewrite build_response_exact in Eb by (done || (change (strlen []) with 0; lia)). injection Eb as <- <-.
  change (HEADER_SIZE + strlen [] <? 0) with false. cbn iota zeta. rewrite E. cbn [mbind option_bind].
  destruct Ho as [->|[Hs Ho]]; [by apply quiet_refuse|]. rewrite (proj2 (Z.ltb_ge _ 0)) by done. rewrite Hs.
  cbn [mbind option_bind]. exists MTP_RESPONSE_OK. eexists _, w. split_and!; [done|done|right; by eexists|done..].
Qed.

Lemma quiet_references handle :
  is_quiet (mtp_op_GetObjectReferences wr_size max_packet_size tx_id code handle wrbuffer w).
Proof.
  apply quiet_session. intros d Ed. apply quiet_object; [done|]. intros p e _ _.
  destruct (written_after _ _ (put32_writes wr_size 0)) as (buffer & ofs & E & Ho).
  destruct (build_response _ _ _ _ _ _) as [[wr0 ofs0]|] eqn:Eb; [|done]. cbn [mbind option_bind] in E |- *.
  unfold put32 in E. rewrite E. cbn [mbind option_bind].
  destruct Ho as [->|[Hs Ho]]; [by apply quiet_refuse|]. rewrite (proj2 (Z.ltb_ge _ 0)) by done. rewrite Hs.
  cbn [mbind option_bind]. exists MTP_RESPONSE_OK. eexists _, w. split_and!; [done|done|right; by eexists|done..].
Qed.

Lemma quiet_storage_info id : asked_ok w id ->
  is_quiet (mtp_op_GetStorageInfo wr_size max_packet_size tx_id code id wrbuffer w).
Proof.
  intros [Hs _]. apply quiet_session. intros d Ed. destruct (mtp_get_storage_root (w_ctx w) id); [|by apply quiet_refuse].
  apply quiet_answer; [by apply storageinfo_has|done|done].
Qed.

Lemma quiet_device_prop_desc id : is_quiet (mtp_op_GetDevicePropDesc wr_size max_packet_size tx_id code id wrbuffer w).
Proof. apply quiet_session. intros d Ed. apply quiet_answer; [apply device_properties_has|done|done]. Qed.

Lemma quiet_device_prop_value id : usb_ok usb_cfg ->
  is_quiet (mtp_op_GetDevicePropValue usb_cfg wr_size max_packet_size tx_id code id wrbuffer w).
Proof.
  unfold usb_ok. rewrite !Forall_cons. intros (_ & H & _). apply quiet_session. intros d Ed.
  apply quiet_answer; [by apply device_value_has|done|done].
Qed.

Lemma quiet_props_supported fmt : is_quiet (mtp_op_GetObjectPropsSupported wr_size max_packet_size tx_id code fmt wrbuffer w).
Proof. apply quiet_session. intros d Ed. apply quiet_answer; [apply supported_has|done|done]. Qed.

Lemma quiet_prop_desc id fmt : is_quiet (mtp_op_GetObjectPropDesc wr_size max_packet_size tx_id code id fmt wrbuffer w).
Proof. apply quiet_session. intros d Ed. apply quiet_answer; [apply properties_has|done|done]. Qed.

Lemma quiet_prop_value handle prop : asked_ok w handle ->
  is_quiet (mtp_op_GetObjectPropValue wr_size max_packet_size tx_id code handle prop wrbuffer w).
Proof.
  intros Hn. apply quiet_session. intros d Ed. apply quiet_object; [done|]. intros p e Eh Ep.
  unfold build_ObjectPropValue_dataset. rewrite Eh. cbn [mbind option_bind]. rewrite Ep. cbn [mbind option_bind].
  apply quiet_answer; [apply value_has, (proj2 Hn d p e Ed Eh Ep)|done|done].
Qed.

Lemma quiet_object_info handle : asked_ok w handle ->
  is_quiet (mtp_op_GetObjectInfo localtime wr_size max_packet_size tx_id code handle wrbuffer w).
Proof.
  intros Hn. apply quiet_session. intros d Ed. apply quiet_object; [done|]. intros p e Eh Ep. unfold build_objectinfo_dataset.
  destruct (proj2 Hn d p e Ed Eh Ep) as [[us Tn] Hpath].
  destruct (stat_object_kept d p e Ed Ep Hpath) as [->|(sz & ts & date & d' & -> & T & Ep' & K)]; cbn [mbind option_bind].
  - apply quiet_answer; [by eapply writes_has, no_write_writes|by apply (kept_put d)|done].
  - rewrite Ep'. cbn [mbind option_bind]. apply quiet_answer; [|done|done].
    eapply writes_has, objectinfo_writes; [|done]. by destruct e.
Qed.

Lemma quiet_prop_list handle prop group : asked_ok w handle ->
  is_quiet (mtp_op_GetObjectPropList localtime wr_size max_packet_size tx_id code handle prop group wrbuffer w).
Proof.
  intros Hn. apply quiet_session. intros d Ed. destruct (_ && _); [by apply quiet_refuse|].
  apply quiet_object; [done|]. intros p e Eh Ep. unfold build_objectproplist_dataset.
  destruct (proj2 Hn d p e Ed Eh Ep) as [[us Tn] Hpath].
  destruct (stat_object_kept d p e Ed Ep Hpath) as [->|(sz & ts & date & d' & -> & T & Ep' & K)]; cbn [mbind option_bind].
  - apply quiet_answer; [by eapply writes_has, no_write_writes|by apply (kept_put d)|done].
  - rewrite Ep'. cbn [mbind option_bind].
    destruct (proplist_dataset (room wr_size) (e {{ e_size := sz }}) us ts date handle prop) as (fields & -> & Hf); [by destruct e|done|].
    cbn [mbind option_bind]. apply quiet_answer; [by eexists|done|done].
Qed.
End Session.
End Quiet.

(** ** The switch *)
Section Commands.
Context {S : Type} {FS : FileSystem S} (localtime : Z -> option tm) (mal : nat -> bool) (may_uid may_gid : Z -> bool).
Context (usb_cfg : usb_strings) (show_hidden : bool) (addwatch : list Z -> Z) (wr_size rd_size max_packet_size : Z).
Context (wrbuffer wrbuffer' rdbuffer2 : list Z) (read_file_buffer : option (list Z)) (cancel : nat -> bool) (fuel : nat).
Hypothesis wr_length : strlen wrbuffer = wr_size.
Hypothesis wr_length' : strlen wrbuffer' = wr_size.
Hypothesis wr_room : HEADER_SIZE + 20 < wr_size.
Hypothesis usb : usb_ok usb_cfg.

(** The commands that read or write files, and those with a data phase from
    the host, have theorems of their own. *)
Definition plain_command (code : Z) : bool :=
  negb (existsb (Z.eqb code)
    [MTP_OPERATION_GET_OBJECT_HANDLES; MTP_OPERATION_GET_OBJECT; MTP_OPERATION_GET_PARTIAL_OBJECT;
     MTP_OPERATION_GET_PARTIAL_OBJECT_64; MTP_OPERATION_SEND_OBJECT_INFO; MTP_OPERATION_SEND_OBJECT;
     MTP_OPERATION_SEND_PARTIAL_OBJECT; MTP_OPERATION_DELETE_OBJECT; MTP_OPERATION_SET_OBJECT_PROP_VALUE;
     MTP_OPERATION_TRUNCATE_OBJECT]).

(** Those that tell about a storage or an object. *)
Definition describes (code : Z) : bool :=
  existsb (Z.eqb code)
    [MTP_OPERATION_GET_STORAGE_INFO; MTP_OPERATION_GET_OBJECT_INFO; MTP_OPERATION_GET_OBJECT_PROP_VALUE;
     MTP_OPERATION_GET_OBJECT_PROP_LIST].

Abbreviation dispatch := (dispatch localtime mal may_uid may_gid usb_cfg show_hidden addwatch wr_size rd_size max_packet_size
  wrbuffer rdbuffer2 read_file_buffer cancel fuel).
Abbreviation process_in_packet := (process_in_packet localtime mal may_uid may_gid usb_cfg show_hidden addwatch wr_size
  rd_size max_packet_size wrbuffer wrbuffer' rdbuffer2 read_file_buffer cancel fuel).

(** The reply to a plain command. *)
Definition plain_reply (tx_id code : Z) (h : responder S) (r : option (reply S)) : Prop :=
  exists a, r = Some a /\ a_code a <> MTP_RESPONSE_NO_RESPONSE /\ (length (a_params a) <= 1)%nat /\
    (a_packets a = [] \/ exists bs, a_packets a = data_packets max_packet_size tx_id code bs) /\
    session_kept mal (h_world h) (h_world (a_next a)) /\ h_in (a_next a) = h_in h /\ h_out (a_next a) = h_out h.

Lemma peek_total b index n : 0 <= index -> index + Z.of_nat n <= strlen b -> is_Some (peek b index n).
Proof.
  unfold peek. generalize 0 at 2 3. revert index. 
  enough (forall index shift data, 0 <= index -> index + Z.of_nat n <= strlen b -> is_Some (peek_loop 32 b index n shift data)) by eauto.
  induction n as [|n IH]; intros index shift data Hi Hl; cbn [peek_loop]; [done|].
  unfold byte_at. rewrite (proj2 (Z.ltb_ge index 0)) by done.
  destruct (lookup_lt_is_Some_2 b (Z.to_nat index)) as [v ->]; [unfold strlen in Hl; lia|]. cbn [mbind option_bind].
  apply IH; lia.
Qed.

Section One.
Context (tx_id code : Z) (h : responder S).
Hypothesis session : session_ok mal (w_ctx (h_world h)).
Hypothesis stores : store_ok (w_ctx (h_world h)).

Lemma plain_answer r : quiet mal max_packet_size tx_id code (h_world h) r -> plain_reply tx_id code h (of_answer h r).
Proof.
  intros (c & packets & w' & -> & Hc & Hp & K). unfold of_answer. cbn [mbind option_bind]. eexists. split; [reflexivity|].
  destruct h. cbn in *. split_and!; [done|lia|done|apply K..|done|done].
Qed.

Lemma plain_open id : plain_reply tx_id code h
  ('(code, params, ctx) ← mtp_op_OpenSession mal id (w_ctx (h_world h)); Some (mkreply code params [] (put_ctx ctx h))).
Proof.
  destruct (open_safe mal id (w_ctx (h_world h)) session stores) as ([c params] & ctx & E & R & Hs). rewrite E.
  cbn [mbind option_bind]. eexists. split; [reflexivity|]. unfold put_ctx, with_world.
  assert (c <> MTP_RESPONSE_NO_RESPONSE /\ (length params <= 1)%nat) as [Hc Hp].
  { revert E. unfold mtp_op_OpenSession. destruct (id =? 0); [intros [= <- <- _]; split; [discriminate|cbn; lia]|].
    destruct (fs_db _); [intros [= <- <- _]; split; [discriminate|cbn; lia]|]. cbn zeta.
    destruct (mal _); [|intros [= <- <- _]; split; [discriminate|cbn; lia]].
    destruct (open_roots _ _ _); [|done]. cbn [mbind option_bind]. intros [= <- <- _]; split; [discriminate|cbn; lia]. }
  destruct h as [[]]. cbn in *. split_and!; [done|done|by left|done..].
Qed.

Lemma plain_close : plain_reply tx_id code h
  ('(code, _, ctx) ← mtp_op_CloseSession (w_ctx (h_world h)); Some (mkreply code [] [] (put_ctx ctx h))).
Proof.
  destruct (close_safe mal (w_ctx (h_world h)) session stores) as ([c fd] & ctx & E & R & Hs & _). rewrite E.
  cbn [mbind option_bind]. eexists. split; [reflexivity|]. unfold put_ctx, with_world.
  assert (c <> MTP_RESPONSE_NO_RESPONSE) as Hc.
  { revert E. unfold mtp_op_CloseSession. destruct (fs_db _); [|intros [= <- _ _]; discriminate].
    destruct (deinit_fs_db _) as [[rm fd']|]; [|done]. cbn [mbind option_bind]. intros [= <- _ _]; discriminate. }
  destruct h as [[]]. cbn in *. split_and!; [done|lia|by left|done..].
Qed.

(** The check of the editing commands. *)
Lemma denied_code d handle : fs_db (w_ctx (h_world h)) = Some d -> exists denied,
  check_handle_access (w_ctx (h_world h)) d None handle true = Some denied /\
  (match denied with Some code => code | None => MTP_RESPONSE_OK end) <> MTP_RESPONSE_NO_RESPONSE.
Proof.
  intros Ed. unfold check_handle_access. fold (root_of (h_world h)).
  destruct (handle_lookup mal (h_world h) session handle d Ed) as [->|(p & e & -> & Ep)]; cbn [mbind option_bind].
  - by eexists.
  - rewrite Ep. cbn [mbind option_bind]. eexists. split; [reflexivity|]. unfold entry_access. cbv zeta.
    destruct (_ =? NO_STORAGE); [discriminate|]. destruct (negb _); [discriminate|]. by destruct (negb _ && _).
Qed.

Lemma plain_begin handle : plain_reply tx_id code h (of_code h (mtp_op_BeginEditObject handle (h_world h))).
Proof.
  unfold mtp_op_BeginEditObject. destruct (fs_db (w_ctx (h_world h))) as [d|] eqn:Ed.
  - destruct (denied_code d handle Ed) as (denied & -> & Hc). cbn [mbind option_bind]. unfold of_code. cbn [mbind option_bind].
    eexists. split; [reflexivity|]. destruct h. cbn in *. split_and!; [done|lia|by left|done..].
  - unfold of_code. cbn [mbind option_bind]. eexists. split; [reflexivity|]. destruct h. cbn in *.
    split_and!; [done|lia|by left|done..].
Qed.

Lemma plain_end handle : plain_reply tx_id code h
  ('(code, _, w) ← mtp_op_EndEditObject handle (h_world h); Some (mkreply code [] [] (with_world w h))).
Proof.
  unfold mtp_op_EndEditObject. destruct (fs_db (w_ctx (h_world h))) as [d|] eqn:Ed.
  2: { cbn [mbind option_bind]. eexists. split; [reflexivity|]. destruct h. cbn in *. split_and!; [done|lia|by left|done..]. }
  destruct (denied_code d handle Ed) as (denied & -> & Hc). cbn [mbind option_bind].
  destruct (handle_lookup mal (h_world h) session handle d Ed) as [->|(p & e & -> & Ep)]; cbn [mbind option_bind].
  - eexists. split; [reflexivity|]. destruct h. cbn in *. split_and!; [done|lia|by left|done..].
  - pose proof session as R. unfold session_ok in R. rewrite Ed in R.
    assert (exists d' closed, entry_close p d = Some (d', closed) /\ reachable mal d') as (d' & closed & -> & R').
    { unfold entry_close. rewrite Ep. cbn [mbind option_bind].
      destruct (op_reachable mal (SetDescriptor p (-1)) d R ltac:(by eexists)) as (d' & E' & R'). cbn [run_op] in E'.
      rewrite E'. cbn [mbind option_bind]. by eexists _, _. }
    cbn [mbind option_bind]. eexists. split; [reflexivity|]. destruct h as [[[]]]. cbn in *.
    split_and!; [done|lia|by left|done..].
Qed.

Lemma dispatch_plain operation size : plain_command code = true -> 32 <= strlen (h_rd h) ->
  (describes code = true -> exists id, param 0 (h_rd h) = Some id /\ asked_ok (h_world h) id) ->
  plain_reply tx_id code h (dispatch operation code tx_id size h).
Proof.
  intros Hc Hrd Hn. unfold plain_command in Hc. apply negb_true_iff in Hc. cbn [existsb] in Hc.
  repeat match type of Hc with (_ || _)%bool = false => apply orb_false_iff in Hc as [? Hc] end. clear Hc.
  assert (forall k, 0 <= k <= 4 -> exists v, param k (h_rd h) = Some v) as P.
  { intros k Hk. unfold param. destruct (peek_total (h_rd h) (HEADER_SIZE + 4 * k) 4) as [v ->];
      [unfold HEADER_SIZE; lia|unfold HEADER_SIZE; lia|by exists v]. }
  destruct (P 0 ltac:(lia)) as [p0 E0]. destruct (P 1 ltac:(lia)) as [p1 E1]. destruct (P 2 ltac:(lia)) as [p2 E2].
  destruct (P 3 ltac:(lia)) as [p3 E3].
  assert (describes code = true -> asked_ok (h_world h) p0) as Ha.
  { intros D. destruct (Hn D) as (id & Ei & A). congruence. }
  unfold MtpDispatch.dispatch. cbv zeta. rewrite E0, E1, E2, E3. cbn [mbind option_bind].
  repeat match goal with H : (code =? ?x) = false |- _ => rewrite H; clear H end. cbn [orb].
  destruct (code =? MTP_OPERATION_OPEN_SESSION); [apply plain_open|].
  destruct (code =? MTP_OPERATION_CLOSE_SESSION); [apply plain_close|].
  destruct (code =? MTP_OPERATION_GET_DEVICE_INFO); [by apply plain_answer, quiet_device_infos|].
  destruct (code =? MTP_OPERATION_GET_STORAGE_IDS); [by apply plain_answer, quiet_storage_ids|].
  destruct (code =? MTP_OPERATION_GET_STORAGE_INFO) eqn:Ec_quiet_storage_info; [apply plain_answer, quiet_storage_info; [done..|apply Ha; unfold describes; cbn [existsb]; rewrite Ec_quiet_storage_info, ?orb_true_r; done]|].
  destruct (code =? MTP_OPERATION_GET_DEVICE_PROP_DESC); [by apply plain_answer, quiet_device_prop_desc|].
  destruct (code =? MTP_OPERATION_GET_DEVICE_PROP_VALUE); [by apply plain_answer, quiet_device_prop_value|].
  destruct (code =? MTP_OPERATION_GET_OBJECT_INFO) eqn:Ec_quiet_object_info; [apply plain_answer, quiet_object_info; [done..|apply Ha; unfold describes; cbn [existsb]; rewrite Ec_quiet_object_info, ?orb_true_r; done]|].
  destruct (code =? MTP_OPERATION_GET_OBJECT_PROPS_SUPPORTED); [by apply plain_answer, quiet_props_supported|].
  destruct (code =? MTP_OPERATION_GET_OBJECT_PROP_DESC); [by apply plain_answer, quiet_prop_desc|].
  destruct (code =? MTP_OPERATION_GET_OBJECT_PROP_VALUE) eqn:Ec_quiet_prop_value; [apply plain_answer, quiet_prop_value; [done..|apply Ha; unfold describes; cbn [existsb]; rewrite Ec_quiet_prop_value, ?orb_true_r; done]|].
  destruct (code =? MTP_OPERATION_GET_OBJECT_PROP_LIST) eqn:Ec_quiet_prop_list; [apply plain_answer, quiet_prop_list; [done..|apply Ha; unfold describes; cbn [existsb]; rewrite Ec_quiet_prop_list, ?orb_true_r; done]|].
  destruct (code =? MTP_OPERATION_GET_OBJECT_REFERENCES); [by apply plain_answer, quiet_references|].
  destruct (code =? MTP_OPERATION_BEGIN_EDIT_OBJECT); [apply plain_begin|].
  destruct (code =? MTP_OPERATION_END_EDIT_OBJECT); [apply plain_end|].
  eexists. split; [reflexivity|]. cbn. split_and!; [done|lia|by left|done..].
Qed.
End One.

(** The packets of a plain command. *)
Lemma process_plain size h operation code tx_id :
  session_ok mal (w_ctx (h_world h)) -> store_ok (w_ctx (h_world h)) -> 32 <= strlen (h_rd h) ->
  (describes code = true -> exists id, param 0 (h_rd h) = Some id /\ asked_ok (h_world h) id) ->
  peek (h_rd h) 4 2 = Some operation -> peek (h_rd h) 6 2 = Some code -> peek (h_rd h) 8 4 = Some tx_id ->
  plain_command code = true ->
  exists h' data result params, process_in_packet size h = Some h' /\
    (data = [] \/ exists bs, data = data_packets max_packet_size tx_id code bs) /\ (length params <= 1)%nat /\
    h_out h' = h_out h ++ data ++
      [packet_header (12 + 4 * Z.of_nat (length params)) MTP_CONTAINER_TYPE_RESPONSE result tx_id ++ concat (map mem32 params)] /\
    session_kept mal (h_world h) (h_world h') /\ h_in h' = h_in h.
Proof.
  intros Hs Ht Hrd Hn Eo Ec Ei Hc. unfold MtpDispatch.process_in_packet. rewrite Eo, Ec, Ei. cbn [mbind option_bind].
  destruct (dispatch_plain tx_id code h Hs Ht operation size Hc Hrd Hn) as (a & -> & Hr & Hp & Hd & K & Hi & Ho).
  cbn [mbind option_bind]. unfold response. rewrite (proj2 (Z.eqb_neq _ _)) by done.
  assert (strlen (concat (map mem32 (a_params a))) = 4 * Z.of_nat (length (a_params a))) as El.
  { by rewrite params_length. }
  rewrite build_response_exact by (rewrite ?El; lia). cbn [mbind option_bind].
  rewrite El. rewrite (proj2 (Z.leb_le 0 _)) by (unfold HEADER_SIZE; lia). rewrite app_assoc.
  rewrite (get_bytes_prefix _ (drop _ _)) by (rewrite strlen_app, header_length, El; unfold HEADER_SIZE; lia).
  cbn [mbind option_bind]. eexists _, (a_packets a), (a_code a), (a_params a). split; [reflexivity|].
  destruct (a_next a). cbn in *. split_and!; [done|done|by rewrite Ho|done|done].
Qed.

(** C10: a command that takes no data from the host and touches no file (opening
    and closing the session, the device, storage, object and property
    descriptions, the object information and the property list, the edit
    commands, and every code the responder does not know) is answered to the end,
    exactly once and in the order of the protocol: the packets sent are those
    of at most one dataset, under the command's code and transaction id, and
    then one response of 12 bytes and 4 for each parameter, of which there is
    at most one.  The files, the user and the transfers still to be read are
    left alone and the session keeps its invariants.  The four commands that
    tell about a storage or an object ([describes]) need, for the one they ask
    about, that its description or its name can be converted and that its path
    does not crash [build_full_path]; about the others of the table and for the
    other commands nothing is assumed. *)
Theorem commands_answered size h operation code tx_id :
  session_ok mal (w_ctx (h_world h)) -> store_ok (w_ctx (h_world h)) -> 32 <= strlen (h_rd h) ->
  (describes code = true -> exists id, param 0 (h_rd h) = Some id /\ asked_ok (h_world h) id) ->
  peek (h_rd h) 4 2 = Some operation -> peek (h_rd h) 6 2 = Some code -> peek (h_rd h) 8 4 = Some tx_id ->
  plain_command code = true ->
  exists h' data result params, process_in_packet size h = Some h' /\
    (data = [] \/ exists bs, data = data_packets max_packet_size tx_id code bs) /\ (length params <= 1)%nat /\
    h_out h' = h_out h ++ data ++
      [packet_header (12 + 4 * Z.of_nat (length params)) MTP_CONTAINER_TYPE_RESPONSE result tx_id ++ concat (map mem32 params)] /\
    session_kept mal (h_world h) (h_world h') /\ h_in h' = h_in h.
Proof. apply process_plain. Qed.
End Commands.

(** A command for the demo session: the object information of its folder. *)
Definition demo_usb : usb_strings := mkusb (cstr "Kobo") (cstr "Clara") (cstr "01") (cstr "1.0") (cstr "microsoft.com: 1.0;").
Definition demo_get_info : list Z :=
  le_bytes 4 16 ++ le_bytes 2 MTP_CONTAINER_TYPE_COMMAND ++ le_bytes 2 MTP_OPERATION_GET_OBJECT_INFO ++ le_bytes 4 7 ++
    le_bytes 4 1 ++ replicate 16 0.

Lemma is_text_ascii s : forallb (fun c => (0 <? c) && (c <=? 0x7F)) s = true -> strlen s <= 254 -> is_text s.
Proof. intros H Hs. exists s. by apply text_ascii. Qed.

Lemma demo_usb_ok : usb_ok demo_usb.
Proof. repeat apply Forall_cons_2; try apply Forall_nil_2; (apply is_text_ascii; [reflexivity|vm_compute; discriminate]). Qed.

Lemma demo_asked_ok d : demo_db = Some d -> asked_ok (demo_world 0 d) 1.
Proof.
  intros E. split; [by intros desc|]. intros d' p e [= <-] Eh Ep.
  destruct (demo_folder_in d E) as [Ef G]. assert (root_of (demo_world 0 d) 0xFFFF0001 <> None) as Hr by done.
  specialize (G _ Hr). rewrite Eh in G. injection G as ->. rewrite Ef in Ep. injection Ep as <-.
  split; [apply is_text_ascii; [reflexivity|vm_compute; discriminate]|].
  vm_compute in E. injection E as <-. vm_compute. by eexists.
Qed.

Lemma commands_answered_witness : exists d h' data result params, demo_db = Some d /\
  process_in_packet (fun _ => None) always (fun _ => true) (fun _ => true) demo_usb false (fun _ => -1) 512 512 64
    (replicate 512 0) (replicate 512 0) [] None (fun _ => false) 8 16
    (mkresp (demo_world 0 d) (mkinfo 0 0 0) (0, 0) demo_get_info [] []) = Some h' /\
  h_out h' = data ++ [packet_header (12 + 4 * Z.of_nat (length params)) MTP_CONTAINER_TYPE_RESPONSE result 7 ++
                       concat (map mem32 params)].
Proof.
  destruct demo_reachable as (d & E & R).
  destruct (commands_answered (fun _ => None) always (fun _ => true) (fun _ => true) demo_usb false (fun _ => -1) 512 512 64
    (replicate 512 0) (replicate 512 0) [] None (fun _ => false) 8 eq_refl eq_refl eq_refl demo_usb_ok 16
    (mkresp (demo_world 0 d) (mkinfo 0 0 0) (0, 0) demo_get_info [] []) 1 MTP_OPERATION_GET_OBJECT_INFO 7)
    as (h' & data & result & params & H & _ & _ & Ho & _).
  - exact R.
  - by apply (one_storage_ok _ (demo_storage {{ st_flags := 0 }})).
  - discriminate.
  - intros _. exists 1. split; [reflexivity|]. apply demo_asked_ok, E.
  - reflexivity.
  - reflexivity.
  - reflexivity.
  - reflexivity.
  - exists d, h', data, result, params. split; [exact E|]. split; [exact H|exact Ho].
Defined.

(** ** Behaviours at the edges *)

(** SetDevicePropValue is announced in the device information, and no case of
    the switch answers it. *)
Lemma set_device_prop_unsupported {S : Type} {FS : FileSystem S} localtime mal may_uid may_gid usb_cfg show_hidden addwatch
    wr_size rd_size max_packet_size wrbuffer rdbuffer2 read_file_buffer cancel fuel operation tx_id size (h : responder S) :
  MTP_OPERATION_SET_DEVICE_PROP_VALUE ∈ supported_op /\
  dispatch localtime mal may_uid may_gid usb_cfg show_hidden addwatch wr_size rd_size max_packet_size wrbuffer rdbuffer2
    read_file_buffer cancel fuel operation MTP_OPERATION_SET_DEVICE_PROP_VALUE tx_id size h =
    Some (mkreply MTP_RESPONSE_OPERATION_NOT_SUPPORTED [] [] h).
Proof. split; [apply list_elem_of_In; cbv; tauto|reflexivity]. Qed.

(** The parameters are read from the buffer whatever the length of the packet: a
    DeleteObject of 12 bytes, without the handle, deletes the object the packet
    before it asked about. *)
Definition demo_bare_delete : list Z :=
  le_bytes 4 12 ++ le_bytes 2 MTP_CONTAINER_TYPE_COMMAND ++ le_bytes 2 MTP_OPERATION_DELETE_OBJECT ++ le_bytes 4 8.

Lemma short_packet_reuses_parameter : exists d h', demo_db = Some d /\ kind (cstr "/mnt/d") (w_fs (demo_world 0 d)) = Some true /\
  mtp_incoming_packet (fun _ => None) always (fun _ => true) (fun _ => true) demo_usb false (fun _ => -1) 512 512 64
    (replicate 512 0) (replicate 512 0) [] None (fun _ => false) 65
    (mkresp (demo_world 0 d) (mkinfo 0 0 0) (0, 0) demo_get_info [demo_bare_delete] []) = Some (0, h') /\
  kind (cstr "/mnt/d") (w_fs (h_world h')) = None /\
  h_out h' = [packet_header 12 MTP_CONTAINER_TYPE_RESPONSE MTP_RESPONSE_OK 8].
Proof.
  destruct demo_db as [d|] eqn:E; [|vm_compute in E; discriminate E]. vm_compute in E. injection E as E.
  eexists d, _. split; [reflexivity|]. split; [reflexivity|].
  split; [rewrite <- E; vm_compute; reflexivity|]. split; reflexivity.
Qed.

(** The enumeration of the storages stops at the first free slot: removing the
    first storage hides the second from the host. *)
Lemma removed_storage_hides_others uid gid ctx :
  storages ctx = repeat no_storage 16 ->
  let ctx1 := snd (mtp_add_storage (Some (cstr "/a")) true (cstr "a") uid gid 0 ctx) in
  let ctx2 := snd (mtp_add_storage (Some (cstr "/b")) true (cstr "b") uid gid 0 ctx1) in
  let ctx3 := snd (mtp_remove_storage (cstr "a") ctx2) in
  mtp_get_storage_root ctx3 0xFFFF0002 = Some (cstr "/b") /\ available_ids (take MAX_STORAGE_NB (storages ctx3)) = [].
Proof.
  intros E. destruct ctx; cbn in E. subst. vm_compute. done.
Qed.

(** A name that ends in the first byte of a three-byte character is read past
    its terminator. *)
Lemma name_reads_past_nul b : 4 <= strlen b -> poke_string b 0 512 [0xE2; 0] = None.
Proof.
  intros H. unfold strlen in H. destruct b as [|x0 [|x1 [|x2 b]]]; cbn [length] in H; [lia..|].
  unfold poke_string, put_bytes. cbn [Z.ltb Z.leb Z.compare]. change (0 <? 0) with false. cbn iota.
  change (512 <=? 0 + 1) with false. cbn iota.
  destruct (_ && _); reflexivity.
Qed.
