(* ===== verification/MtpConfig.v ===== *)
(** * The configuration of the MTP responder

    [mtp_cfg.c] of [umtprd]: the words of a line, the options of a storage, the
    keywords and the loading of the file, and the messages of [msgqueue.c] that
    add and remove a storage with the same words.

    An offset into a line is the rest of the line from there; the end of the
    list is its NUL, where every scan stops. *)

From Stdlib Require Import Ascii String.
From S2P Require Import Prelude CString MtpHash MtpDb MtpTable MtpStorage MtpDataset.

Definition MAX_CFG_STRING_SIZE : Z := 512.

Inductive cfg_cmd :=
| STORAGE_CMD | USBVENDORID_CMD | USBPRODUCTID_CMD | USBCLASS_CMD | USBSUBCLASS_CMD | USBPROTOCOL_CMD
| USBDEVVERSION_CMD | USBMAXPACKETSIZE_CMD | USBFUNCTIONFSMODE_CMD | USBMAXRDBUFFERSIZE_CMD | USBMAXWRBUFFERSIZE_CMD
| READBUFFERSIZE_CMD | USB_DEV_PATH_CMD | USB_EPIN_PATH_CMD | USB_EPOUT_PATH_CMD | USB_EPINT_PATH_CMD
| MANUFACTURER_STRING_CMD | PRODUCT_STRING_CMD | SERIAL_STRING_CMD | VERSION_STRING_CMD | MTP_EXTENSIONS_STRING_CMD
| INTERFACE_STRING_CMD | WAIT_CONNECTION | LOOP_ON_DISCONNECT | SHOW_HIDDEN_FILES | UMASK | DEFAULT_UID_CMD
| DEFAULT_GID_CMD | NO_INOTIFY | SYNC_WHEN_CLOSE.

(** ** Words *)
Definition is_end_line (c : Z) : bool := (c =? 0) || (c =? 35) || (c =? 13) || (c =? 10).
Definition is_space (c : Z) : bool := (c =? 32) || (c =? 9).

(** Only the space is skipped, not the tab. *)
Fixpoint get_next_word (line : list Z) : list Z :=
  match line with
  | c :: rest => if negb (is_end_line c) && (c =? 32) then get_next_word rest else line
  | [] => []
  end.

(** The parameter and what follows it; [room] is what [dest] still takes. *)
Fixpoint copy_loop (room : Z) (insidequote : bool) (line : list Z) : list Z * list Z :=
  match line with
  | c :: rest =>
      if negb (is_end_line c) && (insidequote || negb (is_space c)) && (0 <? room) then
        if c =? 34 then copy_loop room (negb insidequote) rest
        else let '(param, rest) := copy_loop (room - 1) insidequote rest in (c :: param, rest)
      else ([], line)
  | [] => ([], [])
  end.
Definition copy_param (line : list Z) : list Z * list Z := copy_loop (MAX_CFG_STRING_SIZE - 1) false line.

(** [line[offs] == 0 || line[offs] == '#']: the end of a line of the file is a
    newline, and is not among them. *)
Definition no_param (line : list Z) : bool := match line with [] => true | c :: _ => (c =? 0) || (c =? 35) end.

Fixpoint skip_params (param : nat) (line : list Z) : option (list Z) :=
  match param with
  | O => Some line
  | S n => let line := get_next_word (snd (copy_param line)) in if no_param line then None else skip_params n line
  end.
Definition get_param_offset (line : list Z) (param : nat) : option (list Z) := skip_params param (get_next_word line).

(** [None] is -1. *)
Definition get_param (line : list Z) (param_offset : nat) : option (list Z) :=
  (fun rest => fst (copy_param rest)) <$> get_param_offset line param_offset.

(** The command; empty where 0 is returned. *)
Fixpoint command_loop (room : Z) (line : list Z) : list Z :=
  match line with
  | c :: rest => if negb (is_end_line c) && negb (is_space c) && (0 <? room) then c :: command_loop (room - 1) rest else []
  | [] => []
  end.
Definition extract_cmd (line : list Z) : list Z := command_loop (MAX_CFG_STRING_SIZE - 1) (get_next_word line).

(** ** Options *)

(** The value after the sign [=]. *)
Fixpoint flag_param (room : Z) (str : list Z) : list Z :=
  match str with
  | c :: rest => if negb (c =? 0) && negb (c =? 44) && negb (c =? 32) && (0 <? room) then c :: flag_param (room - 1) rest else []
  | [] => []
  end.

(** Where the flag is found: its value if it has one, else what [param] holds
    stays there. *)
Fixpoint flag_loop (previous_char : Z) (str flag : list Z) : option (option (list Z)) :=
  match str with
  | [] => None
  | c :: rest =>
      if starts_with flag str && ((previous_char =? 0) || (previous_char =? 44)) &&
         match drop (length flag) str with [] => true | x :: _ => (x =? 44) || (x =? 61) end
      then Some (match drop (length flag) str with
                 | x :: value => if x =? 61 then Some (flag_param (MAX_CFG_STRING_SIZE - 1) value) else None
                 | [] => None
                 end)
      else flag_loop c rest flag
  end.
Definition test_flag (str flag : list Z) : option (option (list Z)) := flag_loop 0 str flag.
Definition has_flag (str flag : list Z) : bool := match test_flag str flag with Some _ => true | None => false end.

(** ** Numbers *)
Definition digit_of (c : Z) : Z :=
  if (48 <=? c) && (c <=? 57) then c - 48
  else if (97 <=? c) && (c <=? 122) then c - 87
  else if (65 <=? c) && (c <=? 90) then c - 55 else 36.
Fixpoint digits_value (base : Z) (s : list Z) (v : Z) : Z :=
  match s with
  | c :: s => if digit_of c <? base then digits_value base s (v * base + digit_of c) else v
  | [] => v
  end.

(** [strtoul] with a 32-bit [unsigned long]: blanks, a sign, [0x] for base 16,
    digits; too large a value is the largest one. *)
Definition strtoul (text : list Z) (base : Z) : Z :=
  let s := skip_white text in
  let '(neg, s) := match s with
                   | c :: s' => if c =? 45 then (true, s') else if c =? 43 then (false, s') else (false, s)
                   | [] => (false, [])
                   end in
  let s := match s with
           | c :: x :: s' => if (base =? 16) && (c =? 48) && ((x =? 120) || (x =? 88)) then s' else s
           | _ => s
           end in
  let v := digits_value base s 0 in
  if 2 ^ 32 <=? v then 2 ^ 32 - 1 else if neg : bool then u32 (- v) else v.

(** ** The configuration *)
Record mtp_usb_cfg := mkcfg {
  usb_vendor_id : Z; usb_product_id : Z; usb_class : Z; usb_subclass : Z; usb_protocol : Z; usb_dev_version : Z;
  usb_max_packet_size : Z; usb_functionfs_mode : Z;
  usb_device_path : list Z; usb_endpoint_in : list Z; usb_endpoint_out : list Z; usb_endpoint_intin : list Z;
  usb_string_manufacturer : list Z; usb_string_product : list Z; usb_string_serial : list Z; usb_string_version : list Z;
  usb_string_mtp_extensions : list Z; usb_string_interface : list Z;
  wait_connection : Z; loop_on_disconnect : Z; show_hidden_files : Z; val_umask : Z }.

(** [mtp_ctx]: the fields of [MtpStorage] and the ones set here. *)
Record daemon := mkdaemon {
  usb_cfg : mtp_usb_cfg; usb_wr_buffer_max_size : Z; usb_rd_buffer_max_size : Z; read_file_buffer_size : Z;
  no_inotify : Z; sync_when_close : Z; d_ctx : mtp_ctx }.

Definition MAX_PACKET_SIZE : Z := 512.
Definition USB_FFS_MODE : Z := 1.
Definition USB_DEV_VENDOR_ID : Z := 0x1D6B.
Definition USB_DEV_PRODUCT_ID : Z := 0x0100.
Definition USB_DEV_CLASS : Z := 0x6.
Definition USB_DEV_SUBCLASS : Z := 0x1.
Definition USB_DEV_PROTOCOL : Z := 0x1.
Definition USB_DEV_VERSION : Z := 0x3008.

Definition default_cfg : mtp_usb_cfg :=
  mkcfg USB_DEV_VENDOR_ID USB_DEV_PRODUCT_ID USB_DEV_CLASS USB_DEV_SUBCLASS USB_DEV_PROTOCOL USB_DEV_VERSION MAX_PACKET_SIZE
    USB_FFS_MODE (cstr "/dev/ffs-mtp/ep0") (cstr "/dev/ffs-mtp/ep1") (cstr "/dev/ffs-mtp/ep2") (cstr "/dev/ffs-mtp/ep3")
    (cstr "Viveris Technologies") (cstr "The Viveris Product !") (cstr "01234567") (cstr "Rev A") [] (cstr "MTP")
    0 0 1 (-1).

Definition on_cfg (f : mtp_usb_cfg -> mtp_usb_cfg) (d : daemon) : daemon := d {{ usb_cfg := f (usb_cfg d) }}.

Section Config.
(** The allocations of the object table, what [realpath] answers, whether the
    copies in [mtp_add_storage] can be allocated, and what the buffer for the
    value of a flag holds before. *)
Context (mal : nat -> bool) (real : list Z -> option (list Z)) (copied : bool) (tmpstr : list Z).

(** ** Storages *)
Definition mtp_remove_storage_from_line (name : list Z) (idx : nat) (ctx : mtp_ctx) : Z * mtp_ctx :=
  match get_param name idx with None => (-1, ctx) | Some storagename => mtp_remove_storage storagename ctx end.

(** The flags, the user and the group of the options. *)
Definition storage_options (options : list Z) : Z * Z * Z :=
  let flags := 0 in
  let flags := if has_flag options (cstr "ro") then Z.lor flags UMTP_STORAGE_READONLY else flags in
  let flags := if has_flag options (cstr "rw") then Z.lor flags 0 else flags in
  let flags := if has_flag options (cstr "notmounted") then Z.lor flags UMTP_STORAGE_NOTMOUNTED else flags in
  let flags := if has_flag options (cstr "removable") then Z.lor flags UMTP_STORAGE_REMOVABLE else flags in
  let flags := if has_flag options (cstr "locked")
               then Z.lor flags (Z.lor UMTP_STORAGE_LOCKABLE UMTP_STORAGE_LOCKED) else flags in
  let '(uid, tmpstr) := match test_flag options (cstr "uid") with
                        | Some value => let tmpstr := default tmpstr value in (atoi tmpstr, tmpstr)
                        | None => (-1, tmpstr)
                        end in
  let gid := match test_flag options (cstr "gid") with Some value => atoi (default tmpstr value) | None => -1 end in
  (flags, uid, gid).

Definition mtp_add_storage_from_line (line : list Z) (idx : nat) (ctx : mtp_ctx) : mtp_ctx :=
  match get_param line (idx + 1), get_param line idx with
  | Some storagename, Some storagepath =>
      let '(flags, uid, gid) := match get_param line (idx + 2) with
                                | Some options => storage_options options
                                | None => (0, -1, -1)
                                end in
      snd (mtp_add_storage (real storagepath) copied storagename uid gid flags ctx)
  | _, _ => ctx
  end.

(** The messages of [msgqueue_thread]. *)
Definition queue_message (message : list Z) (ctx : mtp_ctx) : option mtp_ctx :=
  let ctx := if starts_with (cstr "addstorage:") message
             then mtp_add_storage_from_line (drop 11 message) 0 ctx else ctx in
  let ctx := if starts_with (cstr "rmstorage:") message
             then snd (mtp_remove_storage_from_line (drop 10 message) 0 ctx) else ctx in
  store_command mal message ctx.

(** ** Keywords *)
Definition get_storage_params (line : list Z) (cmd : cfg_cmd) (d : daemon) : daemon :=
  d {{ d_ctx := mtp_add_storage_from_line line 1 (d_ctx d) }}.

Definition get_hex_param (line : list Z) (cmd : cfg_cmd) (d : daemon) : daemon :=
  match get_param line 1 with
  | None => d
  | Some tmp_txt =>
      let v := strtoul tmp_txt 16 in
      match cmd with
      | USBVENDORID_CMD => if v <? 0x10000 then on_cfg (fun c => c {{ usb_vendor_id := v }}) d else d
      | USBPRODUCTID_CMD => if v <? 0x10000 then on_cfg (fun c => c {{ usb_product_id := v }}) d else d
      | USBCLASS_CMD => if v <? 256 then on_cfg (fun c => c {{ usb_class := v }}) d else d
      | USBSUBCLASS_CMD => if v <? 256 then on_cfg (fun c => c {{ usb_subclass := v }}) d else d
      | USBPROTOCOL_CMD => if v <? 256 then on_cfg (fun c => c {{ usb_protocol := v }}) d else d
      | USBDEVVERSION_CMD => if v <? 0x10000 then on_cfg (fun c => c {{ usb_dev_version := v }}) d else d
      | USBMAXPACKETSIZE_CMD =>
          on_cfg (fun c => c {{ usb_max_packet_size := if v <? 0x10000 then v else MAX_PACKET_SIZE }}) d
      | USBMAXRDBUFFERSIZE_CMD => d {{ usb_rd_buffer_max_size := i32 (Z.land v 0xFFFFFE00) }}
      | USBMAXWRBUFFERSIZE_CMD => d {{ usb_wr_buffer_max_size := i32 (Z.land v 0xFFFFFE00) }}
      | READBUFFERSIZE_CMD => d {{ read_file_buffer_size := i32 v }}
      | USBFUNCTIONFSMODE_CMD => on_cfg (fun c => c {{ usb_functionfs_mode := if v =? 0 then 0 else USB_FFS_MODE }}) d
      | WAIT_CONNECTION => on_cfg (fun c => c {{ wait_connection := i32 v }}) d
      | LOOP_ON_DISCONNECT => on_cfg (fun c => c {{ loop_on_disconnect := i32 v }}) d
      | SHOW_HIDDEN_FILES => on_cfg (fun c => c {{ show_hidden_files := i32 v }}) d
      | NO_INOTIFY => d {{ no_inotify := i32 v }}
      | SYNC_WHEN_CLOSE => d {{ sync_when_close := i32 v }}
      | _ => d
      end
  end.

Definition get_str_param (line : list Z) (cmd : cfg_cmd) (d : daemon) : daemon :=
  match get_param line 1 with
  | None => d
  | Some tmp_txt =>
      match cmd with
      | USB_DEV_PATH_CMD => on_cfg (fun c => c {{ usb_device_path := tmp_txt }}) d
      | USB_EPIN_PATH_CMD => on_cfg (fun c => c {{ usb_endpoint_in := tmp_txt }}) d
      | USB_EPOUT_PATH_CMD => on_cfg (fun c => c {{ usb_endpoint_out := tmp_txt }}) d
      | USB_EPINT_PATH_CMD => on_cfg (fun c => c {{ usb_endpoint_intin := tmp_txt }}) d
      | MANUFACTURER_STRING_CMD => on_cfg (fun c => c {{ usb_string_manufacturer := tmp_txt }}) d
      | PRODUCT_STRING_CMD => on_cfg (fun c => c {{ usb_string_product := tmp_txt }}) d
      | SERIAL_STRING_CMD => on_cfg (fun c => c {{ usb_string_serial := tmp_txt }}) d
      | VERSION_STRING_CMD => on_cfg (fun c => c {{ usb_string_version := tmp_txt }}) d
      | MTP_EXTENSIONS_STRING_CMD => on_cfg (fun c => c {{ usb_string_mtp_extensions := tmp_txt }}) d
      | INTERFACE_STRING_CMD => on_cfg (fun c => c {{ usb_string_interface := tmp_txt }}) d
      | _ => d
      end
  end.

Definition get_oct_param (line : list Z) (cmd : cfg_cmd) (d : daemon) : daemon :=
  match get_param line 1, cmd with
  | Some tmp_txt, UMASK => on_cfg (fun c => c {{ val_umask := i32 (strtoul tmp_txt 8) }}) d
  | _, _ => d
  end.

Definition get_dec_param (line : list Z) (cmd : cfg_cmd) (d : daemon) : daemon :=
  match get_param line 1, cmd with
  | Some tmp_txt, DEFAULT_UID_CMD => d {{ d_ctx := (d_ctx d) {{ default_uid := i32 (strtoul tmp_txt 10) }} }}
  | Some tmp_txt, DEFAULT_GID_CMD => d {{ d_ctx := (d_ctx d) {{ default_gid := i32 (strtoul tmp_txt 10) }} }}
  | _, _ => d
  end.

Definition kwlist : list (list Z * (list Z -> cfg_cmd -> daemon -> daemon) * cfg_cmd) := [
  (cstr "storage", get_storage_params, STORAGE_CMD);
  (cstr "usb_vendor_id", get_hex_param, USBVENDORID_CMD);
  (cstr "usb_product_id", get_hex_param, USBPRODUCTID_CMD);
  (cstr "usb_class", get_hex_param, USBCLASS_CMD);
  (cstr "usb_subclass", get_hex_param, USBSUBCLASS_CMD);
  (cstr "usb_protocol", get_hex_param, USBPROTOCOL_CMD);
  (cstr "usb_dev_version", get_hex_param, USBDEVVERSION_CMD);
  (cstr "usb_max_packet_size", get_hex_param, USBMAXPACKETSIZE_CMD);
  (cstr "usb_max_rd_buffer_size", get_hex_param, USBMAXRDBUFFERSIZE_CMD);
  (cstr "usb_max_wr_buffer_size", get_hex_param, USBMAXWRBUFFERSIZE_CMD);
  (cstr "read_buffer_cache_size", get_hex_param, READBUFFERSIZE_CMD);
  (cstr "usb_functionfs_mode", get_hex_param, USBFUNCTIONFSMODE_CMD);
  (cstr "usb_dev_path", get_str_param, USB_DEV_PATH_CMD);
  (cstr "usb_epin_path", get_str_param, USB_EPIN_PATH_CMD);
  (cstr "usb_epout_path", get_str_param, USB_EPOUT_PATH_CMD);
  (cstr "usb_epint_path", get_str_param, USB_EPINT_PATH_CMD);
  (cstr "manufacturer", get_str_param, MANUFACTURER_STRING_CMD);
  (cstr "product", get_str_param, PRODUCT_STRING_CMD);
  (cstr "serial", get_str_param, SERIAL_STRING_CMD);
  (cstr "firmware_version", get_str_param, VERSION_STRING_CMD);
  (cstr "interface", get_str_param, INTERFACE_STRING_CMD);
  (cstr "mtp_extensions", get_str_param, MTP_EXTENSIONS_STRING_CMD);
  (cstr "wait", get_hex_param, WAIT_CONNECTION);
  (cstr "loop_on_disconnect", get_hex_param, LOOP_ON_DISCONNECT);
  (cstr "show_hidden_files", get_hex_param, SHOW_HIDDEN_FILES);
  (cstr "umask", get_oct_param, UMASK);
  (cstr "default_uid", get_dec_param, DEFAULT_UID_CMD);
  (cstr "default_gid", get_dec_param, DEFAULT_GID_CMD);
  (cstr "no_inotify", get_hex_param, NO_INOTIFY);
  (cstr "sync_when_close", get_hex_param, SYNC_WHEN_CLOSE) ].

(** [None] is the 0 of an unknown command. *)
Definition exec_cmd (command line : list Z) (d : daemon) : option daemon :=
  match List.find (fun k => streq (fst (fst k)) command) kwlist with
  | Some (_, func, cmd) => Some (func line cmd d)
  | None => None
  end.

Definition execute_line (line : list Z) (d : daemon) : Z * daemon :=
  match extract_cmd line with
  | [] => (0, d)
  | command => match exec_cmd command line d with Some d => (1, d) | None => (0, d) end
  end.

(** ** The file *)

(** [feof] after a line was read: it ends the file without a newline. *)
Definition at_eof (line : list Z) : bool :=
  negb (bool_decide (last line = Some 10)) && (strlen line <? MAX_CFG_STRING_SIZE - 1).

Fixpoint load_lines (fuel : nat) (text : list Z) (d : daemon) : daemon :=
  match fuel, fgets MAX_CFG_STRING_SIZE text with
  | S fuel, Some line =>
      if at_eof line then d
      else load_lines fuel (drop (length line) text) (snd (execute_line (to_nul line) d))
  | _, _ => d
  end.

Definition with_defaults (d : daemon) : daemon :=
  d {{ usb_cfg := default_cfg; no_inotify := 0; sync_when_close := 0;
       d_ctx := (d_ctx d) {{ default_gid := -1; default_uid := -1 }} }}.

(** The configuration and the argument of [umask], if it is called.  [conffile]
    is [None] when it cannot be opened. *)
Definition mtp_load_config_file (conffile : option (list Z)) (d : daemon) : daemon * option Z :=
  let d := with_defaults d in
  let d := match conffile with Some text => load_lines (S (length text)) text d | None => d end in
  (d, if 0 <=? val_umask (usb_cfg d) then Some (val_umask (usb_cfg d)) else None).
End Config.

(** The texts of the device information ([MtpDataset]). *)
Definition strings_of (c : mtp_usb_cfg) : usb_strings :=
  mkusb (usb_string_manufacturer c) (usb_string_product c) (usb_string_serial c) (usb_string_version c)
    (usb_string_mtp_extensions c).
