(* ===== verification/MtpConfigProps.v ===== *)
(** * What the configuration parser reads

    A file is written as a list of settings; loading its text gives exactly
    those settings.  Whatever else a file holds, the configuration stays well
    formed. *)

From Stdlib Require Import Ascii String.
From S2P Require Import Prelude CString MtpHash MtpDb MtpTable MtpStorage MtpMount MtpSession MtpDataset MtpConfig.

(** ** Words of a line *)

(** Characters of a bare word and of a quoted one. *)
Definition bare (c : Z) : Prop := is_end_line c = false /\ is_space c = false /\ c <> 34.
Definition quotable (c : Z) : Prop := is_end_line c = false /\ c <> 34.
Definition quoted (v : list Z) : list Z := 34 :: v ++ [34].

(** What stops a parameter outside quotes. *)
Definition stops (rest : list Z) : Prop := match rest with [] => True | c :: _ => is_end_line c || is_space c = true end.

Lemma copy_stop room rest : stops rest -> copy_loop room false rest = ([], rest).
Proof.
  destruct rest as [|c rest]; [done|]. cbn [stops copy_loop]. intros H.
  by destruct (is_end_line c), (is_space c).
Qed.

Lemma copy_word w rest room : Forall bare w -> strlen w <= room -> stops rest -> copy_loop room false (w ++ rest) = (w, rest).
Proof.
  revert room. induction w as [|c w IH]; intros room Hw Hl Hr; [by apply copy_stop|].
  apply Forall_cons in Hw as [(He & Hs & Hq) Hw]. unfold strlen in *. cbn [length app copy_loop] in *. rewrite He, Hs.
  rewrite (proj2 (Z.ltb_lt 0 room)), (proj2 (Z.eqb_neq c 34)) by (done || lia). cbn [negb andb orb].
  by rewrite IH by (done || lia).
Qed.

Lemma copy_inside v rest room : Forall quotable v -> strlen v < room -> stops rest ->
  copy_loop room true (v ++ 34 :: rest) = (v, rest).
Proof.
  revert room. induction v as [|c v IH]; intros room Hv Hl Hr; unfold strlen in *; cbn [length app copy_loop] in *.
  - change (is_end_line 34) with false. rewrite (proj2 (Z.ltb_lt 0 room)) by lia. cbn [negb andb orb].
    change (34 =? 34) with true. cbn iota. by apply copy_stop.
  - apply Forall_cons in Hv as [(He & Hq) Hv]. rewrite He.
    rewrite (proj2 (Z.ltb_lt 0 room)), (proj2 (Z.eqb_neq c 34)) by (done || lia). cbn [negb andb orb].
    by rewrite IH by (done || lia).
Qed.

(** A parameter of a line, between quotes or not. *)
Definition shown (p : bool * list Z) : list Z := if fst p then quoted (snd p) else snd p.
Definition param_ok (p : bool * list Z) : Prop :=
  if fst p then Forall quotable (snd p) /\ strlen (snd p) < 511
  else Forall bare (snd p) /\ 0 < strlen (snd p) <= 511.

Lemma copy_shown p rest : param_ok p -> stops rest -> copy_param (shown p ++ rest) = (snd p, rest).
Proof.
  destruct p as [[|] v]; unfold param_ok, shown, copy_param; cbn [fst snd]; intros [Hv Hl] Hr.
  - unfold quoted. rewrite <- app_comm_cons, <- app_assoc. cbn [copy_loop app].
    change (is_end_line 34) with false. change (0 <? MAX_CFG_STRING_SIZE - 1) with true. cbn [negb andb orb].
    change (34 =? 34) with true. cbn iota. by apply copy_inside.
  - apply copy_word; [done|unfold MAX_CFG_STRING_SIZE; lia|done].
Qed.

(** It starts with a character that is neither a space nor the end. *)
Lemma shown_start p rest : param_ok p ->
  get_next_word (shown p ++ rest) = shown p ++ rest /\ no_param (shown p ++ rest) = false.
Proof.
  destruct p as [[|] v]; unfold param_ok, shown; cbn [fst snd]; intros [Hv Hl]; [done|].
  destruct Hv as [|c v (He & Hs & _) Hv]; [destruct Hl as [Hl _]; discriminate Hl|]. cbn [app get_next_word no_param]. rewrite He.
  unfold is_space in Hs. apply orb_false_iff in Hs as [-> _]. split; [done|].
  unfold is_end_line in He. repeat (apply orb_false_iff in He as [He ?]). by rewrite He, orb_false_l.
Qed.

(** ** Lines *)

(** The parameters after the keyword, and the end of the line. *)
Definition params_text (ps : list (bool * list Z)) : list Z := concat (map (fun p => 32 :: shown p) ps) ++ [10].
Definition config_line (keyword : list Z) (ps : list (bool * list Z)) : list Z := keyword ++ params_text ps.
Definition keyword_ok (keyword : list Z) : Prop := Forall bare keyword /\ 0 < strlen keyword <= 511.

Lemma params_cons p ps : params_text (p :: ps) = 32 :: shown p ++ params_text ps.
Proof. unfold params_text. cbn [map concat]. by rewrite <- app_assoc. Qed.

Lemma params_stop ps : stops (params_text ps).
Proof. destruct ps; [done|]. by rewrite params_cons. Qed.

Lemma params_next ps : Forall param_ok ps ->
  get_next_word (params_text ps) = match ps with [] => [10] | p :: ps => shown p ++ params_text ps end.
Proof.
  intros [|p l Hp _]; [done|]. rewrite params_cons. cbn [get_next_word]. change (is_end_line 32) with false. cbn.
  by apply shown_start.
Qed.

Lemma params_more ps : Forall param_ok ps -> no_param (get_next_word (params_text ps)) = false.
Proof. intros H. rewrite params_next by done. destruct H as [|p l Hp _]; [done|]. by apply shown_start. Qed.

Lemma params_there k ps : Forall param_ok ps -> exists rest,
  skip_params k (get_next_word (params_text ps)) = Some rest /\ fst (copy_param rest) = nth k (map snd ps) [].
Proof.
  revert ps. induction k as [|k IH]; intros ps Hp.
  - eexists. split; [reflexivity|]. rewrite params_next by done.
    destruct Hp as [|p ps Hp Hps]; [done|]. rewrite copy_shown; [done|done|apply params_stop].
  - rewrite params_next by done. cbn [skip_params]. destruct Hp as [|p ps Hp Hps].
    + destruct (IH [] (Forall_nil_2 _)) as (rest & E & Hr). exists rest. split; [exact E|]. rewrite Hr. by destruct k.
    + rewrite copy_shown; [|done|apply params_stop]. cbn [snd]. rewrite params_more by done. by apply IH.
Qed.

Lemma keyword_start keyword rest : keyword_ok keyword -> get_next_word (keyword ++ rest) = keyword ++ rest.
Proof. apply (shown_start (false, keyword)). Qed.

(** The parameter after a missing one at the end of a line is read as empty. *)
Lemma line_param keyword ps k : keyword_ok keyword -> Forall param_ok ps ->
  get_param (config_line keyword ps) (S k) = Some (nth k (map snd ps) []).
Proof.
  intros Hk Hp. unfold get_param, get_param_offset, config_line. rewrite keyword_start by done. cbn [skip_params].
  assert (copy_param (keyword ++ params_text ps) = (keyword, params_text ps)) as ->
    by (apply (copy_shown (false, keyword)); [done|apply params_stop]).
  cbn [snd]. destruct (params_there k ps Hp) as (rest & E & Hr). rewrite params_more, E by done. cbn. by rewrite Hr.
Qed.

Lemma command_word w rest room : Forall bare w -> strlen w <= room -> stops rest -> command_loop room (w ++ rest) = w.
Proof.
  revert room. induction w as [|c w IH]; intros room Hw Hl Hr.
  - destruct rest as [|c rest]; [done|]. cbn [stops app command_loop] in *. by destruct (is_end_line c), (is_space c).
  - apply Forall_cons in Hw as [(He & Hs & _) Hw]. unfold strlen in *. cbn [length app command_loop] in *. rewrite He, Hs.
    rewrite (proj2 (Z.ltb_lt 0 room)) by lia. cbn [negb andb]. by rewrite IH by (done || lia).
Qed.

Lemma line_command keyword ps : keyword_ok keyword -> extract_cmd (config_line keyword ps) = keyword.
Proof.
  intros Hk. unfold extract_cmd, config_line. rewrite keyword_start by done. destruct Hk as [Hk Hl].
  apply command_word; [done|unfold MAX_CFG_STRING_SIZE; lia|apply params_stop].
Qed.

(** ** Numbers *)
Lemma digit_of_dec c : is_digit c = true -> digit_of c = c - 48.
Proof. unfold is_digit, digit_of. by intros ->. Qed.

Lemma digits_value_dec s v : Forall (fun c => is_digit c = true) s ->
  digits_value 10 s v = fold_left (fun v c => v * 10 + (c - 48)) s v.
Proof.
  intros H. revert v. induction H as [|c s Hc Hs IH]; intros v; [done|]. cbn [digits_value fold_left].
  rewrite digit_of_dec by done. rewrite (proj2 (Z.ltb_lt _ 10)); [apply IH|].
  unfold is_digit in Hc. apply andb_true_iff in Hc as [Hc1 Hc2]. rewrite Z.leb_le in Hc1, Hc2. lia.
Qed.

(** A text that starts with a digit has no blank and no sign. *)
Lemma digit_start c : is_digit c = true -> CString.is_space c = false /\ c <> 45 /\ c <> 43.
Proof.
  unfold is_digit, CString.is_space. intros H. apply andb_true_iff in H as [H1 H2]. rewrite Z.leb_le in H1, H2.
  split; [|lia]. rewrite (proj2 (Z.eqb_neq c 32)), (proj2 (Z.leb_gt c 13)) by lia. by rewrite andb_false_r.
Qed.

Lemma strtoul_dec n : 0 <= n < 2 ^ 32 -> strtoul (dec_string n) 10 = n.
Proof.
  intros Hn. destruct (dec_string_digits n) as [Hd He]. pose proof (digits_value_dec (dec_string n) 0 Hd) as V.
  pose proof (dec_value_string n ltac:(lia)) as E. unfold dec_value in E. rewrite E in V. clear E.
  destruct (dec_string n) as [|c s]; [done|]. apply Forall_cons in Hd as [Hc _]. unfold strtoul.
  destruct (digit_start c Hc) as (Hs & H1 & H2). cbn [skip_white]. rewrite Hs, (proj2 (Z.eqb_neq c 45)), (proj2 (Z.eqb_neq c 43)) by done.
  change (10 =? 16) with false. cbn [andb].
  assert (match s with [] => c :: s | _ :: _ => c :: s end = c :: s) as -> by (by destruct s).
  rewrite V. by rewrite (proj2 (Z.leb_gt _ _)) by lia.
Qed.

Lemma atoi_dec n : 0 <= n < 2 ^ 31 -> atoi (dec_string n) = n.
Proof.
  intros Hn. destruct (dec_string_digits n) as [Hd He]. pose proof (scan_all_digits _ Hd) as V.
  pose proof (dec_value_string n ltac:(lia)) as E. destruct (dec_string n) as [|c s] eqn:D; [done|].
  apply Forall_cons in Hd as [Hc _]. unfold atoi, scan_int.
  destruct (digit_start c Hc) as (Hs & _). cbn [skip_white]. rewrite Hs.
  assert (c ∈ seqZ 48 10) as Hin by (apply elem_of_seqZ; unfold is_digit in Hc; bprop; lia).
  change (seqZ 48 10) with [48; 49; 50; 51; 52; 53; 54; 55; 56; 57] in Hin.
  repeat (apply elem_of_cons in Hin as [->|Hin]; [rewrite V, E; lia|]). by apply elem_of_nil in Hin.
Qed.

Lemma digit_of_hex n : 0 <= n < 16 -> digit_of (hex_upper n) = n.
Proof.
  intros H. apply Z.eqb_eq. apply (forallb_In (fun n => digit_of (hex_upper n) =? n) (seqZ 0 16)); [reflexivity|].
  apply elem_of_seqZ. lia.
Qed.

Lemma hex8_value v : 0 <= v < 2 ^ 32 -> digits_value 16 (hex8 v) 0 = v.
Proof.
  intros Hv.
  assert (forall i, 0 <= i -> Z.land (Z.shiftr v (4 * i)) 0xF = v / 16 ^ i - 16 * (v / 16 ^ (i + 1))) as N.
  { intros i Hi. change 0xF with (Z.ones 4). rewrite Z.land_ones, Z.shiftr_div_pow2 by lia. rewrite Z.pow_mul_r by lia.
    change (2 ^ 4) with 16. rewrite Z.pow_add_r by lia. change (16 ^ 1) with 16. rewrite <- Z.div_div by lia.
    pose proof (Z.div_mod (v / 16 ^ i) 16). lia. }
  assert (forall i, 0 <= i -> 0 <= Z.land (Z.shiftr v (4 * i)) 0xF < 16) as B.
  { intros i Hi. change 0xF with (Z.ones 4). rewrite Z.land_ones by lia. apply Z.mod_pos_bound. lia. }
  unfold hex8. cbn [map digits_value].
  rewrite !digit_of_hex by (apply B; lia).
  repeat match goal with |- context [Z.land (Z.shiftr v (4 * ?i)) 0xF <? 16] =>
    rewrite (proj2 (Z.ltb_lt (Z.land (Z.shiftr v (4 * i)) 0xF) 16)) by (apply B; lia) end.
  rewrite !N by lia. repeat match goal with |- context [16 ^ (?i + 1)] =>
    let k := eval vm_compute in (i + 1) in change (i + 1) with k end. change (16 ^ 0) with 1. rewrite Z.div_1_r.
  rewrite (Z.div_small v (16 ^ 8)) by lia. ring.
Qed.

(** The digits of a number without its leading zeros, with [0x] or not. *)
Fixpoint no_zeros (s : list Z) : list Z :=
  match s with c :: s' => if c =? 48 then no_zeros s' else s | [] => [] end.
Definition hex_text (prefixed : bool) (v : Z) : list Z :=
  (if prefixed then cstr "0x" else []) ++ match no_zeros (hex8 v) with [] => [48] | s => s end.

Lemma no_zeros_value s : digits_value 16 (no_zeros s) 0 = digits_value 16 s 0.
Proof. induction s as [|c s IH]; [done|]. cbn [no_zeros]. by destruct (Z.eqb_spec c 48) as [->|]. Qed.

Lemma hex8_upper v : Forall (fun c => exists n, 0 <= n < 16 /\ c = hex_upper n) (hex8 v).
Proof.
  unfold hex8. apply Forall_map, Forall_forall. intros i _. exists (Z.land (Z.shiftr v (4 * i)) 0xF).
  split; [|done]. change 0xF with (Z.ones 4). rewrite Z.land_ones by lia. apply Z.mod_pos_bound. lia.
Qed.

Lemma no_zeros_upper (P : Z -> Prop) s : Forall P s -> Forall P (no_zeros s).
Proof. induction 1 as [|c s Hc Hs IH]; [constructor|]. cbn [no_zeros]. destruct (c =? 48); [done|by constructor]. Qed.

Lemma hex_char (f : Z -> bool) n : forallb (fun n => f (hex_upper n)) (seqZ 0 16) = true -> 0 <= n < 16 -> f (hex_upper n) = true.
Proof. intros H Hn. apply (forallb_In _ _ n H), elem_of_seqZ. lia. Qed.

Lemma strtoul_hex prefixed v : 0 <= v < 2 ^ 32 -> strtoul (hex_text prefixed v) 16 = v.
Proof.
  intros Hv. unfold hex_text. set (ds := match no_zeros (hex8 v) with [] => [48] | s => s end).
  assert (digits_value 16 ds 0 = v) as V.
  { transitivity (digits_value 16 (no_zeros (hex8 v)) 0); [|by rewrite no_zeros_value, hex8_value].
    unfold ds. by destruct (no_zeros (hex8 v)). }
  assert (Forall (fun c => exists n, 0 <= n < 16 /\ c = hex_upper n) ds /\ ds <> []) as [Hd Hn].
  { pose proof (no_zeros_upper _ _ (hex8_upper v)) as H. unfold ds. destruct (no_zeros (hex8 v)); [|by split].
    split; [|done]. constructor; [|done]. exists 0. split; [lia|done]. }
  clearbody ds. assert ((if 2 ^ 32 <=? v then 2 ^ 32 - 1 else v) = v) as L by (by rewrite (proj2 (Z.leb_gt _ _)) by lia).
  destruct prefixed.
  - change (cstr "0x" ++ ds) with (48 :: 120 :: ds). unfold strtoul. cbn [skip_white].
    change (CString.is_space 48) with false. cbn iota. change (48 =? 45) with false. change (48 =? 43) with false.
    cbn iota zeta beta. change ((16 =? 16) && (48 =? 48) && ((120 =? 120) || (120 =? 88))) with true. cbn iota. by rewrite V.
  - cbn [app]. destruct ds as [|c ds]; [done|]. apply Forall_cons in Hd as [(n & Hn' & Ec) Hd].
    assert (negb (CString.is_space c) && negb (c =? 45) && negb (c =? 43) = true) as Hc 
      by (rewrite Ec; by apply (hex_char (fun c => negb (CString.is_space c) && negb (c =? 45) && negb (c =? 43)))).
    rewrite !andb_true_iff, !negb_true_iff in Hc. destruct Hc as [[Hs H1] H2].
    unfold strtoul. cbn [skip_white]. rewrite Hs, H1, H2.
    assert (match ds with [] => c :: ds | x :: s' => if (16 =? 16) && (c =? 48) && ((x =? 120) || (x =? 88)) then s' else c :: ds end = c :: ds) as ->.
    { destruct ds as [|x ds]; [done|]. apply Forall_cons in Hd as [(m & Hm & ->) _].
      assert (negb (hex_upper m =? 120) && negb (hex_upper m =? 88) = true) as Hx
        by (by apply (hex_char (fun c => negb (c =? 120) && negb (c =? 88)))).
      rewrite andb_true_iff, !negb_true_iff in Hx. destruct Hx as [-> ->]. by rewrite andb_false_r. }
    by rewrite V.
Qed.

(** Three octal digits. *)
Definition oct3 (v : Z) : list Z := [48 + v / 64; 48 + v / 8 mod 8; 48 + v mod 8].

Lemma strtoul_oct v : 0 <= v < 512 -> strtoul (oct3 v) 8 = v.
Proof.
  intros H. apply Z.eqb_eq. apply (forallb_In (fun v => strtoul (oct3 v) 8 =? v) (seqZ 0 512)); [vm_compute; reflexivity|].
  apply elem_of_seqZ. lia.
Qed.

(** ** Options *)

(** An option: a name and a value. *)
Definition flag_word (w : list Z * option (list Z)) : list Z :=
  fst w ++ match snd w with Some value => 61 :: value | None => [] end.
Definition more_words (ws : list (list Z * option (list Z))) : list Z := concat (map (fun w => 44 :: flag_word w) ws).
Definition options_text (ws : list (list Z * option (list Z))) : list Z :=
  match ws with [] => [] | w :: ws => flag_word w ++ more_words ws end.

Definition letter (c : Z) : Prop := 97 <= c <= 122.
Definition name_ok (n : list Z) : Prop := Forall letter n /\ n <> [].
Definition word_ok (w : list Z * option (list Z)) : Prop :=
  name_ok (fst w) /\ forall v, snd w = Some v -> Forall (fun c => is_digit c = true) v /\ strlen v <= 511.

(** What can follow a name. *)
Definition after_name (s : list Z) : Prop := match s with [] => True | x :: _ => x = 44 \/ x = 61 end.

Lemma name_unique n m s t : Forall letter n -> Forall letter m -> after_name s -> after_name t -> n ++ s = m ++ t -> n = m.
Proof.
  revert m. induction n as [|c n IH]; intros [|c' m] Hn Hm Hs Ht E; cbn in E; [done| | |].
  - apply Forall_cons in Hm as [Hc _]. destruct s as [|x s]; [done|]. injection E as -> _. unfold letter in Hc. destruct Hs; lia.
  - apply Forall_cons in Hn as [Hc _]. destruct t as [|x t]; [done|]. injection E as -> _. unfold letter in Hc. destruct Ht; lia.
  - apply Forall_cons in Hn as [_ Hn]. apply Forall_cons in Hm as [_ Hm]. injection E as -> E. f_equal. by apply (IH m).
Qed.

Lemma more_after ws : after_name (more_words ws).
Proof. destruct ws; [done|]. by left. Qed.

(** Inside a word nothing matches. *)
Lemma flag_inside p s ws f : p <> 0 -> p <> 44 -> Forall (fun c => c <> 0 /\ c <> 44) s -> name_ok f ->
  flag_loop p (s ++ more_words ws) f = match ws with [] => None | _ => flag_loop 44 (options_text ws) f end.
Proof.
  intros Hp0 Hp Hs [Hf Hne]. revert p Hp0 Hp. induction Hs as [|c s [Hc0 Hc] Hs IH]; intros p Hp0 Hp.
  - destruct ws as [|w ws]; [done|]. unfold more_words. cbn [map concat app flag_loop].
    rewrite (proj2 (Z.eqb_neq p 0)), (proj2 (Z.eqb_neq p 44)) by done. cbn [orb]. rewrite andb_false_r. done.
  - cbn [app flag_loop]. rewrite (proj2 (Z.eqb_neq p 0)), (proj2 (Z.eqb_neq p 44)) by done. cbn [orb].
    rewrite andb_false_r. cbn [andb]. by apply IH.
Qed.

Lemma value_param v rest room : Forall (fun c => is_digit c = true) v -> strlen v <= room -> after_name rest ->
  match rest with 61 :: _ => False | _ => True end -> flag_param room (v ++ rest) = v.
Proof.
  intros Hv. revert room. induction Hv as [|c v Hc Hv IH]; intros room Hl Ha Hr.
  - destruct rest as [|x rest]; [done|]. destruct Ha as [-> | ->]; [done|done].
  - unfold strlen in *. cbn [length app flag_param] in *. unfold is_digit in Hc. apply andb_true_iff in Hc as [H1 H2].
    rewrite Z.leb_le in H1, H2. rewrite (proj2 (Z.eqb_neq c 0)), (proj2 (Z.eqb_neq c 44)), (proj2 (Z.eqb_neq c 32)),
      (proj2 (Z.ltb_lt 0 room)) by lia. cbn [negb andb]. by rewrite IH by (done || lia).
Qed.

(** The flag is found exactly where an option has its name. *)
Lemma flag_found p ws f : p = 0 \/ p = 44 -> Forall word_ok ws -> name_ok f ->
  flag_loop p (options_text ws) f = snd <$> List.find (fun w => streq (fst w) f) ws.
Proof.
  intros Hp Hws Hf. revert p Hp. induction Hws as [|[n v] ws [[Hn Hnn] Hv] Hws IH]; intros p Hp; [done|].
  cbn [fst snd] in *. cbn [options_text List.find fst]. destruct n as [|c n]; [done|].
  set (tl := match v with Some value => 61 :: value | None => [] end ++ more_words ws).
  assert (flag_word (c :: n, v) ++ more_words ws = (c :: n) ++ tl) as -> by (unfold flag_word, tl; cbn [fst snd]; by rewrite <- app_assoc).
  assert (after_name tl) as Ht by (unfold tl; destruct v; [by right|apply more_after]).
  assert ((p =? 0) || (p =? 44) = true) as Hpp by (destruct Hp as [-> | ->]; done).
  assert (flag_loop p ((c :: n) ++ tl) f =
    if streq (c :: n) f then Some v else flag_loop c (n ++ tl) f) as ->.
  { cbn [app flag_loop]. rewrite Hpp, andb_true_r. destruct (streq (c :: n) f) eqn:E.
    - apply streq_spec in E as <-. assert (starts_with (c :: n) (c :: n ++ tl) = true) as -> by (apply starts_with_spec; by exists tl).
      change (c :: n ++ tl) with ((c :: n) ++ tl). rewrite drop_app_length. cbn [andb].
      unfold tl. destruct v as [v|].
      + cbn [app]. change (61 =? 44) with false. change (61 =? 61) with true. cbn [orb]. destruct (Hv v eq_refl) as [Hd Hl].
        rewrite value_param; [done|done|unfold MAX_CFG_STRING_SIZE; lia|apply more_after|by destruct ws].
      + cbn [app]. destruct ws as [|w ws']; [done|]. unfold more_words. cbn [map concat app]. done.
    - destruct (starts_with f (c :: n ++ tl)) eqn:Es; [|done]. cbn [andb].
      apply starts_with_spec in Es as [t Et]. rewrite Et, drop_app_length.
      destruct (match t with [] => true | x :: _ => (x =? 44) || (x =? 61) end) eqn:Ea; [|done].
      exfalso. assert (after_name t) by (destruct t as [|x t]; [done|]; apply orb_true_iff in Ea; rewrite !Z.eqb_eq in Ea; done).
      assert (c :: n = f) as <- by (by apply (name_unique _ _ tl t); [|apply Hf|..]). by rewrite streq_refl in E. }
  destruct (streq (c :: n) f); [done|]. unfold tl. rewrite app_assoc.
  apply Forall_cons in Hn as [Hc Hn]. rewrite flag_inside; [|unfold letter in Hc; lia..| |done].
  - destruct ws as [|w ws']; [done|]. by apply IH; [right|..].
  - apply Forall_app. split; [eapply Forall_impl; [exact Hn|]; unfold letter; cbn; lia|].
    destruct v as [v|]; [|constructor]. constructor; [done|]. destruct (Hv v eq_refl) as [Hd _].
    eapply Forall_impl; [exact Hd|]. cbn. unfold is_digit. intros x Hx. apply andb_true_iff in Hx as [H1 H2].
    rewrite Z.leb_le in H1, H2. lia.
Qed.

(** The options of a storage. *)
Record storage_opts := mkopts {
  o_ro : bool; o_notmounted : bool; o_removable : bool; o_locked : bool; o_uid : option Z; o_gid : option Z }.
Definition opts_words (o : storage_opts) : list (list Z * option (list Z)) :=
  (if o_ro o then [(cstr "ro", None)] else [(cstr "rw", None)]) ++
  (if o_notmounted o then [(cstr "notmounted", None)] else []) ++
  (if o_removable o then [(cstr "removable", None)] else []) ++
  (if o_locked o then [(cstr "locked", None)] else []) ++
  (match o_uid o with Some u => [(cstr "uid", Some (dec_string u))] | None => [] end) ++
  (match o_gid o with Some g => [(cstr "gid", Some (dec_string g))] | None => [] end).
Definition opts_flags (o : storage_opts) : Z :=
  Z.lor (Z.lor (if o_ro o then UMTP_STORAGE_READONLY else 0) (if o_notmounted o then UMTP_STORAGE_NOTMOUNTED else 0))
        (Z.lor (if o_removable o then UMTP_STORAGE_REMOVABLE else 0)
               (if o_locked o then Z.lor UMTP_STORAGE_LOCKABLE UMTP_STORAGE_LOCKED else 0)).
Definition id_ok (id : option Z) : Prop := forall n, id = Some n -> 0 <= n < 2 ^ 31.
Definition opts_ok (o : storage_opts) : Prop := id_ok (o_uid o) /\ id_ok (o_gid o).

Lemma word_some n u : name_ok n -> 0 <= u < 2 ^ 31 -> word_ok (n, Some (dec_string u)).
Proof.
  intros Hn Hu. split; [done|]. intros v [= <-]. split; [apply dec_string_digits|].
  pose proof (dec_string_length 10 u ltac:(lia) ltac:(lia)). unfold strlen. lia.
Qed.

Lemma name_check n : forallb (fun c => (97 <=? c) && (c <=? 122)) n && negb (strlen n =? 0) = true -> name_ok n.
Proof.
  intros H. apply andb_true_iff in H as [Hl Hn]. split; [|by destruct n].
  apply Forall_forall. intros c Hc. pose proof (forallb_In _ _ _ Hl Hc) as H. apply andb_true_iff in H as [H1 H2].
  rewrite Z.leb_le in H1, H2. done.
Qed.

Lemma word_alone n : name_ok n -> Forall word_ok [(n, None)].
Proof. intros Hn. apply Forall_cons_2; [by split|apply Forall_nil_2]. Qed.

Lemma opts_words_ok o : opts_ok o -> Forall word_ok (opts_words o).
Proof.
  intros [Hu Hg]. unfold opts_words. repeat (apply Forall_app; split).
  - destruct (o_ro o); by apply word_alone, name_check.
  - destruct (o_notmounted o); [by apply word_alone, name_check|apply Forall_nil_2].
  - destruct (o_removable o); [by apply word_alone, name_check|apply Forall_nil_2].
  - destruct (o_locked o); [by apply word_alone, name_check|apply Forall_nil_2].
  - destruct (o_uid o); constructor; [|constructor]. apply word_some; [by apply name_check|by apply Hu].
  - destruct (o_gid o); constructor; [|constructor]. apply word_some; [by apply name_check|by apply Hg].
Qed.

Lemma opts_read tmpstr o : opts_ok o ->
  storage_options tmpstr (options_text (opts_words o)) = (opts_flags o, default (-1) (o_uid o), default (-1) (o_gid o)).
Proof.
  intros Ho. pose proof (opts_words_ok o Ho) as Hw. unfold storage_options, has_flag, test_flag.
  rewrite !(flag_found 0 _ _ (or_introl eq_refl) Hw) by by apply name_check.
  destruct Ho as [Hu Hg]. unfold id_ok in *. destruct o as [ro nm rm lk uid gid]. cbn [o_uid o_gid] in *.
  assert (forall u, uid = Some u -> atoi (dec_string u) = u) as Eu by (intros; apply atoi_dec, Hu; done).
  assert (forall g, gid = Some g -> atoi (dec_string g) = g) as Eg by (intros; apply atoi_dec, Hg; done).
  unfold opts_words. cbn [o_uid o_gid o_ro o_notmounted o_removable o_locked].
  destruct uid as [u|]; [pose proof (Eu u eq_refl) as Eu'; revert Eu'; generalize (dec_string u); intros su Eu'|];
  (destruct gid as [g|]; [pose proof (Eg g eq_refl) as Eg'; revert Eg'; generalize (dec_string g); intros sg Eg'|]);
  destruct ro, nm, rm, lk; cbn [app List.find fst]; strcomp;
    cbn [fmap option_fmap option_map snd default from_option id]; try rewrite Eu'; try rewrite Eg'; reflexivity.
Qed.
