(* ===== verification/MtpConfigFile.v ===== *)
(** * The configuration file

    A file written as a list of settings is loaded as exactly these settings;
    any file and any messages afterwards leave a well-formed daemon. *)

From Stdlib Require Import Ascii String.
From S2P Require Import Prelude CString MtpHash MtpDb MtpTable MtpStorage MtpMount MtpSession MtpDataset MtpConfig MtpConfigProps.

(** ** Settings *)
Definition keyword (cmd : cfg_cmd) : list Z :=
  cstr match cmd with
  | STORAGE_CMD => "storage"
  | USBVENDORID_CMD => "usb_vendor_id" | USBPRODUCTID_CMD => "usb_product_id" | USBCLASS_CMD => "usb_class"
  | USBSUBCLASS_CMD => "usb_subclass" | USBPROTOCOL_CMD => "usb_protocol" | USBDEVVERSION_CMD => "usb_dev_version"
  | USBMAXPACKETSIZE_CMD => "usb_max_packet_size" | USBFUNCTIONFSMODE_CMD => "usb_functionfs_mode"
  | USBMAXRDBUFFERSIZE_CMD => "usb_max_rd_buffer_size" | USBMAXWRBUFFERSIZE_CMD => "usb_max_wr_buffer_size"
  | READBUFFERSIZE_CMD => "read_buffer_cache_size" | USB_DEV_PATH_CMD => "usb_dev_path"
  | USB_EPIN_PATH_CMD => "usb_epin_path" | USB_EPOUT_PATH_CMD => "usb_epout_path" | USB_EPINT_PATH_CMD => "usb_epint_path"
  | MANUFACTURER_STRING_CMD => "manufacturer" | PRODUCT_STRING_CMD => "product" | SERIAL_STRING_CMD => "serial"
  | VERSION_STRING_CMD => "firmware_version" | MTP_EXTENSIONS_STRING_CMD => "mtp_extensions"
  | INTERFACE_STRING_CMD => "interface" | WAIT_CONNECTION => "wait" | LOOP_ON_DISCONNECT => "loop_on_disconnect"
  | SHOW_HIDDEN_FILES => "show_hidden_files" | UMASK => "umask" | DEFAULT_UID_CMD => "default_uid"
  | DEFAULT_GID_CMD => "default_gid" | NO_INOTIFY => "no_inotify" | SYNC_WHEN_CLOSE => "sync_when_close"
  end%string.

(** A line of the file; the booleans are whether a value is in quotes and
    whether a number has its [0x]. *)
Inductive setting :=
| Blank
| Comment (text : list Z)
| Number (cmd : cfg_cmd) (quotes prefixed : bool) (v : Z)
| Text (cmd : cfg_cmd) (quotes : bool) (text : list Z)
| Mask (quotes : bool) (v : Z)
| User (quotes : bool) (v : Z)
| Group (quotes : bool) (v : Z)
| Storage (path name : list Z) (options : option storage_opts).

Definition line_of (s : setting) : list Z :=
  match s with
  | Blank => [10]
  | Comment text => 35 :: text ++ [10]
  | Number cmd q p v => config_line (keyword cmd) [(q, hex_text p v)]
  | Text cmd q text => config_line (keyword cmd) [(q, text)]
  | Mask q v => config_line (keyword UMASK) [(q, oct3 v)]
  | User q v => config_line (keyword DEFAULT_UID_CMD) [(q, dec_string v)]
  | Group q v => config_line (keyword DEFAULT_GID_CMD) [(q, dec_string v)]
  | Storage path name o =>
      config_line (keyword STORAGE_CMD)
        ([(true, path); (true, name)] ++ match o with Some o => [(true, options_text (opts_words o))] | None => [] end)
  end.

(** What a setting means. *)
Definition set_number (cmd : cfg_cmd) (v : Z) (d : daemon) : daemon :=
  match cmd with
  | USBVENDORID_CMD => on_cfg (fun c => c {{ usb_vendor_id := v }}) d
  | USBPRODUCTID_CMD => on_cfg (fun c => c {{ usb_product_id := v }}) d
  | USBCLASS_CMD => on_cfg (fun c => c {{ usb_class := v }}) d
  | USBSUBCLASS_CMD => on_cfg (fun c => c {{ usb_subclass := v }}) d
  | USBPROTOCOL_CMD => on_cfg (fun c => c {{ usb_protocol := v }}) d
  | USBDEVVERSION_CMD => on_cfg (fun c => c {{ usb_dev_version := v }}) d
  | USBMAXPACKETSIZE_CMD => on_cfg (fun c => c {{ usb_max_packet_size := v }}) d
  | USBFUNCTIONFSMODE_CMD => on_cfg (fun c => c {{ usb_functionfs_mode := v }}) d
  | USBMAXRDBUFFERSIZE_CMD => d {{ usb_rd_buffer_max_size := v }}
  | USBMAXWRBUFFERSIZE_CMD => d {{ usb_wr_buffer_max_size := v }}
  | READBUFFERSIZE_CMD => d {{ read_file_buffer_size := v }}
  | WAIT_CONNECTION => on_cfg (fun c => c {{ wait_connection := v }}) d
  | LOOP_ON_DISCONNECT => on_cfg (fun c => c {{ loop_on_disconnect := v }}) d
  | SHOW_HIDDEN_FILES => on_cfg (fun c => c {{ show_hidden_files := v }}) d
  | NO_INOTIFY => d {{ no_inotify := v }}
  | SYNC_WHEN_CLOSE => d {{ sync_when_close := v }}
  | _ => d
  end.
Definition set_text (cmd : cfg_cmd) (t : list Z) (d : daemon) : daemon :=
  match cmd with
  | USB_DEV_PATH_CMD => on_cfg (fun c => c {{ usb_device_path := t }}) d
  | USB_EPIN_PATH_CMD => on_cfg (fun c => c {{ usb_endpoint_in := t }}) d
  | USB_EPOUT_PATH_CMD => on_cfg (fun c => c {{ usb_endpoint_out := t }}) d
  | USB_EPINT_PATH_CMD => on_cfg (fun c => c {{ usb_endpoint_intin := t }}) d
  | MANUFACTURER_STRING_CMD => on_cfg (fun c => c {{ usb_string_manufacturer := t }}) d
  | PRODUCT_STRING_CMD => on_cfg (fun c => c {{ usb_string_product := t }}) d
  | SERIAL_STRING_CMD => on_cfg (fun c => c {{ usb_string_serial := t }}) d
  | VERSION_STRING_CMD => on_cfg (fun c => c {{ usb_string_version := t }}) d
  | MTP_EXTENSIONS_STRING_CMD => on_cfg (fun c => c {{ usb_string_mtp_extensions := t }}) d
  | INTERFACE_STRING_CMD => on_cfg (fun c => c {{ usb_string_interface := t }}) d
  | _ => d
  end.
Definition on_ctx (f : mtp_ctx -> mtp_ctx) (d : daemon) : daemon := d {{ d_ctx := f (d_ctx d) }}.

(** The numbers a command takes. *)
Definition number_ok (cmd : cfg_cmd) (v : Z) : Prop :=
  match cmd with
  | USBVENDORID_CMD | USBPRODUCTID_CMD | USBDEVVERSION_CMD | USBMAXPACKETSIZE_CMD => 0 <= v < 0x10000
  | USBCLASS_CMD | USBSUBCLASS_CMD | USBPROTOCOL_CMD => 0 <= v < 256
  | USBFUNCTIONFSMODE_CMD => v = 0 \/ v = 1
  | USBMAXRDBUFFERSIZE_CMD | USBMAXWRBUFFERSIZE_CMD => 0 <= v < 2 ^ 31 /\ v mod 512 = 0
  | READBUFFERSIZE_CMD | WAIT_CONNECTION | LOOP_ON_DISCONNECT | SHOW_HIDDEN_FILES | NO_INOTIFY | SYNC_WHEN_CLOSE =>
      0 <= v < 2 ^ 31
  | _ => False
  end.
Definition text_cmd (cmd : cfg_cmd) : bool :=
  match cmd with
  | USB_DEV_PATH_CMD | USB_EPIN_PATH_CMD | USB_EPOUT_PATH_CMD | USB_EPINT_PATH_CMD | MANUFACTURER_STRING_CMD
  | PRODUCT_STRING_CMD | SERIAL_STRING_CMD | VERSION_STRING_CMD | MTP_EXTENSIONS_STRING_CMD | INTERFACE_STRING_CMD => true
  | _ => false
  end.
Definition setting_ok (s : setting) : Prop :=
  strlen (line_of s) <= 511 /\
  match s with
  | Blank => True
  | Comment text => Forall (fun c => c <> 0 /\ c <> 10) text
  | Number cmd _ _ v => number_ok cmd v
  | Text cmd q text => text_cmd cmd = true /\ param_ok (q, text)
  | Mask _ v => 0 <= v < 512
  | User _ v | Group _ v => 0 <= v < 2 ^ 31
  | Storage path name o =>
      param_ok (true, path) /\ param_ok (true, name) /\ match o with Some o => opts_ok o | None => True end
  end.

Lemma keyword_fine cmd : keyword_ok (keyword cmd).
Proof.
  assert (forallb (fun c => negb (is_end_line c) && negb (is_space c) && negb (c =? 34)) (keyword cmd) &&
          (0 <? strlen (keyword cmd)) && (strlen (keyword cmd) <=? 511) = true) as H by (destruct cmd; reflexivity).
  rewrite !andb_true_iff, Z.ltb_lt, Z.leb_le in H. destruct H as [[H Hl] Hu]. split; [|done].
  apply Forall_forall. intros c Hc. pose proof (forallb_In _ _ _ H Hc) as B. cbv beta in B.
  rewrite !andb_true_iff, !negb_true_iff, Z.eqb_neq in B. by destruct B as [[? ?] ?].
Qed.

(** A parameter of bare characters can be shown either way. *)
Lemma bare_param q v : Forall bare v -> 0 < strlen v < 511 -> param_ok (q, v).
Proof.
  intros Hv Hl. destruct q; unfold param_ok; cbn [fst snd]; [|split; [done|lia]]. split; [|lia].
  eapply Forall_impl; [exact Hv|]. intros c (He & _ & Hq). done.
Qed.

Lemma bare_check v : forallb (fun c => negb (is_end_line c) && negb (is_space c) && negb (c =? 34)) v = true -> Forall bare v.
Proof.
  intros H. apply Forall_forall. intros c Hc. pose proof (forallb_In _ _ _ H Hc) as B. cbv beta in B.
  rewrite !andb_true_iff, !negb_true_iff, Z.eqb_neq in B. by destruct B as [[? ?] ?].
Qed.

Lemma hex_upper_bare n : 0 <= n < 16 -> bare (hex_upper n).
Proof.
  intros Hn. pose proof (hex_char (fun c => negb (is_end_line c) && negb (is_space c) && negb (c =? 34)) n eq_refl Hn) as B.
  cbv beta in B. rewrite !andb_true_iff, !negb_true_iff, Z.eqb_neq in B. by destruct B as [[? ?] ?].
Qed.

Lemma no_zeros_length s : (length (no_zeros s) <= length s)%nat.
Proof. induction s as [|c s IH]; [done|]. cbn [no_zeros length]. destruct (c =? 48); cbn [length]; lia. Qed.

Lemma hex_param q p v : param_ok (q, hex_text p v).
Proof.
  apply bare_param.
  - unfold hex_text. apply Forall_app. split; [destruct p; [by apply bare_check|apply Forall_nil_2]|].
    pose proof (no_zeros_upper _ _ (hex8_upper v)) as H. destruct (no_zeros (hex8 v)); [by apply bare_check|].
    eapply Forall_impl; [exact H|]. intros c (n & Hn & ->). by apply hex_upper_bare.
  - unfold hex_text, strlen. rewrite length_app. pose proof (no_zeros_length (hex8 v)) as L.
    change (length (hex8 v)) with 8%nat in L. destruct p, (no_zeros (hex8 v)); cbn [length] in *; strlit; lia.
Qed.

Lemma digits_bare s : Forall (fun c => is_digit c = true) s -> Forall bare s.
Proof.
  intros H. eapply Forall_impl; [exact H|]. intros c Hc. unfold is_digit in Hc. bprop.
  unfold bare, is_end_line, is_space. split_and!; [| |lia]; repeat (rewrite (proj2 (Z.eqb_neq c _)) by lia); done.
Qed.

Lemma dec_param q v : 0 <= v < 2 ^ 31 -> param_ok (q, dec_string v).
Proof.
  intros Hv. destruct (dec_string_digits v) as [Hd Hn]. apply bare_param; [by apply digits_bare|].
  pose proof (dec_string_length 10 v ltac:(lia) ltac:(lia)). unfold strlen. destruct (dec_string v); [done|]. cbn [length] in *. lia.
Qed.

Lemma oct_param q v : 0 <= v < 512 -> param_ok (q, oct3 v).
Proof.
  intros Hv. apply bare_param; [|done]. apply digits_bare. unfold oct3. pose proof (Z.div_lt_upper_bound v 64 8).
  pose proof (Z.div_pos v 64). pose proof (Z.mod_pos_bound v 8). pose proof (Z.mod_pos_bound (v / 8) 8).
  repeat apply Forall_cons_2; try apply Forall_nil_2; unfold is_digit; apply andb_true_iff; split; apply Z.leb_le; lia.
Qed.

Lemma options_quotable ws : Forall word_ok ws -> Forall quotable (options_text ws).
Proof.
  assert (forall w, word_ok w -> Forall quotable (flag_word w)) as W.
  { intros [n v] [[Hn _] Hv]. unfold flag_word. cbn [fst snd] in *. apply Forall_app. split.
    - eapply Forall_impl; [exact Hn|]. intros c Hc. unfold letter in Hc. unfold quotable, is_end_line.
      split; [|lia]. by repeat (rewrite (proj2 (Z.eqb_neq c _)) by lia).
    - destruct v as [v|]; [|apply Forall_nil_2]. apply Forall_cons_2; [done|]. destruct (Hv v eq_refl) as [Hd _].
      eapply Forall_impl; [apply digits_bare, Hd|]. intros c (He & _ & Hq). done. }
  intros H. destruct H as [|w ws Hw Hws]; [apply Forall_nil_2|]. cbn [options_text]. apply Forall_app. split; [by apply W|].
  induction Hws as [|w' ws Hw' Hws IH]; [apply Forall_nil_2|]. unfold more_words. cbn [map concat].
  apply Forall_app. split; [apply Forall_cons_2; [done|by apply W]|exact IH].
Qed.

Lemma options_param path name o : opts_ok o -> strlen (line_of (Storage path name (Some o))) <= 511 ->
  param_ok (true, options_text (opts_words o)).
Proof.
  intros Ho Hl. split; [by apply options_quotable, opts_words_ok|]. cbn [fst snd].
  revert Hl. cbn [line_of]. unfold config_line, params_text, strlen. cbn [app map concat]. unfold shown, quoted. cbn [fst snd].
  repeat progress (rewrite ?length_app; cbn [length app map concat fst snd]). lia.
Qed.

(** ** Lines are read as what they mean *)
Section File.
Context (mal : nat -> bool) (real : list Z -> option (list Z)) (copied : bool) (tmpstr : list Z).
Abbreviation execute_line := (execute_line real copied tmpstr).
Abbreviation exec_cmd := (exec_cmd real copied tmpstr).

Definition apply_setting (s : setting) (d : daemon) : daemon :=
  match s with
  | Blank | Comment _ => d
  | Number cmd _ _ v => set_number cmd v d
  | Text cmd _ t => set_text cmd t d
  | Mask _ v => on_cfg (fun c => c {{ val_umask := v }}) d
  | User _ v => on_ctx (fun c => c {{ default_uid := v }}) d
  | Group _ v => on_ctx (fun c => c {{ default_gid := v }}) d
  | Storage path name o =>
      let '(flags, uid, gid) := match o with
                                | Some o => (opts_flags o, default (-1) (o_uid o), default (-1) (o_gid o))
                                | None => (0, -1, -1)
                                end in
      on_ctx (fun c => snd (mtp_add_storage (real path) copied name uid gid flags c)) d
  end.

Lemma line_runs cmd ps d : execute_line (config_line (keyword cmd) ps) d =
  match exec_cmd (keyword cmd) (config_line (keyword cmd) ps) d with Some d => (1, d) | None => (0, d) end.
Proof. unfold MtpConfig.execute_line. rewrite line_command by apply keyword_fine. by destruct cmd. Qed.

Definition function_of (cmd : cfg_cmd) : list Z -> cfg_cmd -> daemon -> daemon :=
  match cmd with
  | STORAGE_CMD => get_storage_params real copied tmpstr
  | UMASK => get_oct_param
  | DEFAULT_UID_CMD | DEFAULT_GID_CMD => get_dec_param
  | cmd => if text_cmd cmd then get_str_param else get_hex_param
  end.

Lemma keyword_function cmd line d : exec_cmd (keyword cmd) line d = Some (function_of cmd line cmd d).
Proof. unfold MtpConfig.exec_cmd, kwlist. destruct cmd; cbn [List.find fst keyword]; strcomp; reflexivity. Qed.

Lemma align_down v : 0 <= v < 2 ^ 31 -> v mod 512 = 0 -> i32 (Z.land v 0xFFFFFE00) = v.
Proof.
  intros Hv Hm. assert (Z.land v 0xFFFFFE00 = v) as ->; [|apply i32_small; unfold is_i32; lia].
  assert (v = Z.shiftl (v / 512) 9) as E by (rewrite Z.shiftl_mul_pow2 by lia; change (2 ^ 9) with 512; pose proof (Z.div_mod v 512); lia).
  rewrite E at 1. change 0xFFFFFE00 with (Z.shiftl (Z.ones 23) 9). rewrite <- Z.shiftl_land, Z.land_ones by lia.
  rewrite Z.mod_small; [done|]. split; [apply Z.div_pos; lia|]. apply Z.div_lt_upper_bound; lia.
Qed.

Lemma number_read cmd v line d text : number_ok cmd v -> get_param line 1 = Some text -> strtoul text 16 = v ->
  function_of cmd line cmd d = set_number cmd v d.
Proof.
  intros Hv Hp Ht. destruct cmd; cbn [number_ok] in Hv; try done; cbn [function_of text_cmd set_number]; unfold get_hex_param;
    rewrite Hp, Ht; try (rewrite (proj2 (Z.ltb_lt v _)) by lia; done).
  - destruct Hv as [-> | ->]; reflexivity.
  - by rewrite align_down by apply Hv.
  - by rewrite align_down by apply Hv.
  - by rewrite i32_small by (unfold is_i32; lia).
  - by rewrite i32_small by (unfold is_i32; lia).
  - by rewrite i32_small by (unfold is_i32; lia).
  - by rewrite i32_small by (unfold is_i32; lia).
  - by rewrite i32_small by (unfold is_i32; lia).
  - by rewrite i32_small by (unfold is_i32; lia).
Qed.

Lemma number_range cmd v : number_ok cmd v -> 0 <= v < 2 ^ 32.
Proof. destruct cmd; cbn [number_ok]; try done; lia. Qed.

Lemma one_param cmd p : param_ok p -> get_param (config_line (keyword cmd) [p]) 1 = Some (snd p).
Proof. intros Hp. rewrite line_param; [done|apply keyword_fine|by apply Forall_cons_2; [|apply Forall_nil_2]]. Qed.

Lemma setting_read s d : setting_ok s -> snd (execute_line (line_of s) d) = apply_setting s d.
Proof.
  intros [Hl Hs]. destruct s as [|text|cmd q p v|cmd q text|q v|q v|q v|path name o]; cbn [line_of apply_setting] in *; [done|done|..].
  - rewrite line_runs, keyword_function. cbn [snd]. eapply number_read; [done|by apply one_param, hex_param|].
    by apply strtoul_hex, (number_range cmd).
  - rewrite line_runs, keyword_function. cbn [snd]. destruct Hs as [Hc Hp].
    pose proof (one_param cmd _ Hp) as E. cbn [snd] in E.
    destruct cmd; cbn [text_cmd] in Hc; try done; cbn [function_of text_cmd]; unfold get_str_param; by rewrite E.
  - rewrite line_runs, keyword_function. cbn [snd function_of]. unfold get_oct_param.
    rewrite one_param by by apply oct_param. cbn [snd]. rewrite strtoul_oct by done. by rewrite i32_small by (unfold is_i32; lia).
  - rewrite line_runs, keyword_function. cbn [snd function_of]. unfold get_dec_param.
    rewrite one_param by by apply dec_param. cbn [snd]. rewrite strtoul_dec by lia. by rewrite i32_small by (unfold is_i32; lia).
  - rewrite line_runs, keyword_function. cbn [snd function_of]. unfold get_dec_param.
    rewrite one_param by by apply dec_param. cbn [snd]. rewrite strtoul_dec by lia. by rewrite i32_small by (unfold is_i32; lia).
  - rewrite line_runs, keyword_function. cbn [snd function_of]. destruct Hs as (Hp & Hn & Ho).
    unfold get_storage_params, mtp_add_storage_from_line, on_ctx. change (1 + 1)%nat with 2%nat. change (1 + 2)%nat with 3%nat.
    assert (Forall param_ok ([(true, path); (true, name)] ++ match o with Some o => [(true, options_text (opts_words o))] | None => [] end)) as Hps.
    { apply Forall_app. split; [by repeat apply Forall_cons_2; try apply Forall_nil_2|].
      destruct o as [o|]; [|apply Forall_nil_2]. apply Forall_cons_2; [|apply Forall_nil_2]. by apply (options_param path name). }
    rewrite !line_param by (done || apply keyword_fine). rewrite map_app. cbn [map snd app nth].
    destruct o as [o|]; cbn [map snd nth]; [by rewrite opts_read|done].
Qed.

(** ** The file is read line by line *)
Definition clean (c : Z) : Prop := c <> 0 /\ c <> 10.

Lemma end_clean c : is_end_line c = false -> clean c.
Proof. unfold is_end_line, clean. intros H. rewrite !orb_false_iff, !Z.eqb_neq in H. by destruct H as [[[? ?] ?] ?]. Qed.

Lemma shown_clean p : param_ok p -> Forall clean (shown p).
Proof.
  destruct p as [[|] v]; unfold param_ok, shown, quoted; cbn [fst snd]; intros [Hv _].
  - apply Forall_cons_2; [done|]. apply Forall_app. split; [|by apply Forall_cons_2; [|apply Forall_nil_2]].
    eapply Forall_impl; [exact Hv|]. intros c [He _]. by apply end_clean.
  - eapply Forall_impl; [exact Hv|]. intros c (He & _). by apply end_clean.
Qed.

Lemma config_clean cmd ps : Forall param_ok ps -> exists body, config_line (keyword cmd) ps = body ++ [10] /\ Forall clean body.
Proof.
  intros Hps. unfold config_line, params_text. rewrite app_assoc. eexists. split; [done|]. apply Forall_app. split.
  - destruct (keyword_fine cmd) as [Hk _]. eapply Forall_impl; [exact Hk|]. intros c (He & _). by apply end_clean.
  - induction Hps as [|p ps Hp Hps IH]; [apply Forall_nil_2|]. cbn [map concat]. apply Forall_app.
    split; [apply Forall_cons_2; [done|by apply shown_clean]|exact IH].
Qed.

Lemma line_body s : setting_ok s -> exists body, line_of s = body ++ [10] /\ Forall clean body.
Proof.
  assert (forall p, param_ok p -> Forall param_ok [p]) as One by (intros p Hp; by apply Forall_cons_2; [|apply Forall_nil_2]).
  intros [Hl Hs]. destruct s as [|text|cmd q p v|cmd q text|q v|q v|q v|path name o]; cbn [line_of] in *.
  - exists []. split; [done|apply Forall_nil_2].
  - exists (35 :: text). split; [done|]. by apply Forall_cons_2.
  - apply config_clean, One, hex_param.
  - apply config_clean, One, Hs.
  - by apply config_clean, One, oct_param.
  - by apply config_clean, One, dec_param.
  - by apply config_clean, One, dec_param.
  - destruct Hs as (Hp & Hn & Ho). apply config_clean. apply Forall_app. split; [by repeat apply Forall_cons_2; try apply Forall_nil_2|].
    destruct o as [o|]; [|apply Forall_nil_2]. by apply One, (options_param path name).
Qed.

Lemma take_line_body n body rest : Forall clean body -> (length body < n)%nat -> take_line n (body ++ 10 :: rest) = body ++ [10].
Proof.
  intros Hb. revert n. induction Hb as [|c body [_ Hc] Hb IH]; intros n Hn; (destruct n as [|n]; [lia|]); [done|].
  cbn [app take_line length] in *. rewrite (proj2 (Z.eqb_neq c 10)) by done. by rewrite IH by lia.
Qed.

Lemma to_nul_clean body : Forall clean body -> to_nul (body ++ [10]) = body ++ [10].
Proof.
  induction 1 as [|c body [Hc _] Hb IH]; [done|]. cbn [app to_nul]. by rewrite (proj2 (Z.eqb_neq c 0)), IH by done.
Qed.

Lemma line_loaded body rest fuel d : Forall clean body -> strlen (body ++ [10]) <= 511 ->
  load_lines real copied tmpstr (S fuel) (body ++ 10 :: rest) d =
  load_lines real copied tmpstr fuel rest (snd (execute_line (body ++ [10]) d)).
Proof.
  intros Hb Hl. cbn [load_lines]. unfold fgets. unfold strlen in Hl. rewrite length_app in Hl. cbn [length] in Hl.
  assert (take_line (Z.to_nat (MAX_CFG_STRING_SIZE - 1)) (body ++ 10 :: rest) = body ++ [10]) as E
    by (apply take_line_body; [done|unfold MAX_CFG_STRING_SIZE; lia]).
  destruct (body ++ 10 :: rest) as [|c t] eqn:Et; [by destruct body|]. rewrite <- Et in E |- *. rewrite E.
  unfold at_eof. rewrite last_snoc, bool_decide_true by done. cbn [negb andb]. rewrite to_nul_clean by done. f_equal.
  change (10 :: rest) with ([10] ++ rest). by rewrite app_assoc, drop_app_length.
Qed.

Lemma settings_loaded settings fuel d : Forall setting_ok settings -> (length settings < fuel)%nat ->
  load_lines real copied tmpstr fuel (concat (map line_of settings)) d = fold_left (fun d s => apply_setting s d) settings d.
Proof.
  intros Hs. revert fuel d. induction Hs as [|s settings Hs Hss IH]; intros fuel d Hf; [by destruct fuel|].
  destruct fuel as [|fuel]; [lia|]. destruct (line_body s Hs) as (body & E & Hb). cbn [map concat fold_left length] in *.
  rewrite E, <- app_assoc. cbn [app]. destruct Hs as [Hl Hs]. rewrite line_loaded by (done || (by rewrite <- E)).
  rewrite <- E, setting_read by done. apply IH. lia.
Qed.

(** C32: a configuration file written as any list of settings, with the values in
    quotes or not and the numbers with [0x] or not, is loaded as exactly those
    settings, one after the other, from the defaults: every number and text
    goes to its own field, every storage is added with its path, name, flags,
    user and group, comments and blank lines change nothing, and the mask for
    new files is the one set. *)
Theorem config_file_exact settings d : Forall setting_ok settings ->
  mtp_load_config_file real copied tmpstr (Some (concat (map line_of settings))) d =
    let d := fold_left (fun d s => apply_setting s d) settings (with_defaults d) in
    (d, if 0 <=? val_umask (usb_cfg d) then Some (val_umask (usb_cfg d)) else None).
Proof.
  intros Hs. unfold mtp_load_config_file. rewrite settings_loaded; [done|done|].
  clear -Hs. induction Hs as [|s settings Hs Hss IH]; [cbn; lia|]. destruct (line_body s Hs) as (body & E & _).
  cbn [map concat length] in *. rewrite E, !length_app. cbn [length]. lia.
Qed.
End File.

(** The file of the repository. *)
Definition umtprd_conf : list setting := [
  Comment (cstr " /etc/umtprd/umtprd.conf - uMTP-Responder configuration for BNRV700");
  Comment (cstr " Exposes /data/media/0 (internal user storage: Books, Downloads) over USB MTP");
  Blank;
  Comment (cstr " Loop daemon to stay alive across USB disconnects/reconnects");
  Number LOOP_ON_DISCONNECT false false 1;
  Blank;
  Comment (cstr " Shared storage mapping");
  Storage (cstr "/data/media/0") (cstr "NOOK Internal Storage") (Some (mkopts false false false false None None));
  Blank;
  Comment (cstr " USB Device Descriptors");
  Text MANUFACTURER_STRING_CMD true (cstr "Barnes & Noble");
  Text PRODUCT_STRING_CMD true (cstr "NOOK GlowLight Plus");
  Text SERIAL_STRING_CMD true (cstr "BNRV700");
  Text VERSION_STRING_CMD true (cstr "4.4.2");
  Text INTERFACE_STRING_CMD true (cstr "MTP");
  Blank;
  Comment (cstr " USB Character Device node on Android Linux kernel (GadgetFS mode)");
  Number USBFUNCTIONFSMODE_CMD false false 0;
  Text USB_DEV_PATH_CMD true (cstr "/dev/mtp_usb") ].

Lemma quotable_check v : forallb (fun c => negb (is_end_line c) && negb (c =? 34)) v = true -> Forall quotable v.
Proof.
  intros H. apply Forall_forall. intros c Hc. pose proof (forallb_In _ _ _ H Hc) as B. cbv beta in B.
  by rewrite andb_true_iff, !negb_true_iff, Z.eqb_neq in B.
Qed.

Lemma clean_check v : forallb (fun c => negb (c =? 0) && negb (c =? 10)) v = true -> Forall (fun c => c <> 0 /\ c <> 10) v.
Proof.
  intros H. apply Forall_forall. intros c Hc. pose proof (forallb_In _ _ _ H Hc) as B. cbv beta in B.
  by rewrite andb_true_iff, !negb_true_iff, !Z.eqb_neq in B.
Qed.

Lemma umtprd_conf_ok : Forall setting_ok umtprd_conf.
Proof.
  unfold umtprd_conf. repeat apply Forall_cons_2; try apply Forall_nil_2;
    (split; [vm_compute; discriminate|]); cbn [number_ok]; try done; try lia;
    try (apply clean_check; reflexivity);
    try (split; [reflexivity|split; [by apply quotable_check|vm_compute; reflexivity]]).
  split_and!; try (split; [by apply quotable_check|vm_compute; reflexivity]). by split.
Qed.

Definition demo_daemon : daemon := mkdaemon default_cfg 0 0 0 0 0 (mkctx 0 0 (-1) (-1) (repeat no_storage 16) None 0 0 [] []).

Lemma config_file_exact_witness : exists d, mtp_load_config_file Some true [] (Some (concat (map line_of umtprd_conf))) demo_daemon = (d, None) /\
  usb_string_product (usb_cfg d) = cstr "NOOK GlowLight Plus" /\ loop_on_disconnect (usb_cfg d) = 1 /\
  mtp_get_storage_root (d_ctx d) 0xFFFF0001 = Some (cstr "/data/media/0").
Proof.
  pose proof (config_file_exact Some true [] umtprd_conf demo_daemon umtprd_conf_ok) as E. eexists.
  split; [etransitivity; [exact E|]; vm_compute; reflexivity|]. vm_compute. repeat split; reflexivity.
Defined.
