(* ===== verification/MtpDaemon.v ===== *)
(** * The daemon between its configuration and its sessions

    Whatever the configuration file holds, and whatever the message queue and
    the host then ask, the daemon stays well formed; and where the parser reads
    a line otherwise than it was meant. *)

From Stdlib Require Import Ascii String.
From S2P Require Import Prelude CString MtpHash MtpDb MtpTable MtpStorage MtpMount MtpSession MtpDataset MtpConfig MtpConfigProps MtpConfigFile.

(** ** A well-formed configuration *)

(** A C string of a [MAX_CFG_STRING_SIZE + 1] array. *)
Definition text_ok (t : list Z) : Prop := Forall (fun c => c <> 0) t /\ strlen t <= 511.

Record cfg_ok (c : mtp_usb_cfg) : Prop := {
  ok_ids : 0 <= usb_vendor_id c < 0x10000 /\ 0 <= usb_product_id c < 0x10000 /\ 0 <= usb_dev_version c < 0x10000;
  ok_class : 0 <= usb_class c < 256 /\ 0 <= usb_subclass c < 256 /\ 0 <= usb_protocol c < 256;
  ok_packet : 0 <= usb_max_packet_size c < 0x10000;
  ok_mode : usb_functionfs_mode c = 0 \/ usb_functionfs_mode c = 1;
  ok_paths : text_ok (usb_device_path c) /\ text_ok (usb_endpoint_in c) /\ text_ok (usb_endpoint_out c) /\
    text_ok (usb_endpoint_intin c);
  ok_strings : text_ok (usb_string_manufacturer c) /\ text_ok (usb_string_product c) /\ text_ok (usb_string_serial c) /\
    text_ok (usb_string_version c) /\ text_ok (usb_string_mtp_extensions c) /\ text_ok (usb_string_interface c);
  ok_ints : is_i32 (wait_connection c) /\ is_i32 (loop_on_disconnect c) /\ is_i32 (show_hidden_files c) /\
    is_i32 (val_umask c) }.

Definition buffer_ok (n : Z) : Prop := is_i32 n /\ n mod 512 = 0.

Record daemon_ok (mal : nat -> bool) (d : daemon) : Prop := {
  ok_cfg : cfg_ok (usb_cfg d);
  ok_buffers : buffer_ok (usb_wr_buffer_max_size d) /\ buffer_ok (usb_rd_buffer_max_size d) /\ is_i32 (read_file_buffer_size d);
  ok_switches : is_i32 (no_inotify d) /\ is_i32 (sync_when_close d);
  ok_defaults : is_i32 (default_uid (d_ctx d)) /\ is_i32 (default_gid (d_ctx d));
  ok_session : session_ok mal (d_ctx d);
  ok_stores : store_ok (d_ctx d) }.

(** ** What a line can change *)
Lemma copy_text room q line : 0 <= room ->
  Forall (fun c => c <> 0) (fst (copy_loop room q line)) /\ strlen (fst (copy_loop room q line)) <= room.
Proof.
  revert room q. induction line as [|c line IH]; intros room q Hr; cbn [copy_loop]; [split; [apply Forall_nil_2|done]|].
  destruct (_ && _ && _) eqn:B; [|split; [apply Forall_nil_2|done]].
  rewrite !andb_true_iff, negb_true_iff, Z.ltb_lt in B. destruct B as [[He _] Hp]. destruct (c =? 34); [by apply IH|].
  destruct (IH (room - 1) q ltac:(lia)) as [Hf Hl]. destruct (copy_loop (room - 1) q line) as [w r]. cbn [fst] in *. split.
  - apply Forall_cons_2; [|done]. unfold is_end_line in He. rewrite !orb_false_iff, Z.eqb_neq in He. by destruct He as [[[? ?] ?] ?].
  - unfold strlen in *. cbn [length]. lia.
Qed.

Lemma param_text line k t : get_param line k = Some t -> text_ok t.
Proof.
  unfold get_param, copy_param. destruct (get_param_offset line k) as [rest|]; cbn; [|done]. intros [= <-].
  by apply (copy_text (MAX_CFG_STRING_SIZE - 1) false rest).
Qed.

Lemma digits_value_nonneg base s v : 0 <= base -> 0 <= v -> 0 <= digits_value base s v.
Proof.
  intros Hb. revert v. induction s as [|c s IH]; intros v Hv; cbn [digits_value]; [done|]. destruct (digit_of c <? base); [|done].
  apply IH. assert (0 <= digit_of c); [|nia]. unfold digit_of. destruct (_ && _) eqn:B; [bprop; lia|].
  destruct ((97 <=? c) && _) eqn:B1; [bprop; lia|]. destruct ((65 <=? c) && _) eqn:B2; bprop; lia.
Qed.

Lemma strtoul_range text base : 0 <= base -> 0 <= strtoul text base < 2 ^ 32.
Proof.
  intros Hb. unfold strtoul. destruct (match skip_white text with [] => _ | _ => _ end) as [neg s].
  match goal with |- context [digits_value base ?s 0] => pose proof (digits_value_nonneg base s 0 Hb ltac:(lia)) as G;
    generalize dependent (digits_value base s 0) end.
  intros v Hv. cbv zeta. destruct (Z.leb_spec (2 ^ 32) v); [lia|]. destruct neg; [|lia].
  pose proof (Z.mod_pos_bound (- v) 4294967296). unfold u32. lia.
Qed.

Lemma land_low_bits a b n : 0 <= n -> b mod 2 ^ n = 0 -> Z.land a b mod 2 ^ n = 0.
Proof.
  intros Hn Hb. rewrite <- Z.land_ones in * by done. by rewrite <- Z.land_assoc, Hb, Z.land_0_r.
Qed.

Lemma masked_buffer v : buffer_ok (i32 (Z.land v 0xFFFFFE00)).
Proof.
  split; [apply i32_range|]. pose proof (land_low_bits v 0xFFFFFE00 9 ltac:(lia) eq_refl) as H.
  change (2 ^ 9) with 512 in H. unfold i32. Z.to_euclidean_division_equations. lia.
Qed.

Section Daemon.
Context (mal : nat -> bool) (real : list Z -> option (list Z)) (copied : bool) (tmpstr : list Z).
Abbreviation daemon_ok := (daemon_ok mal).

Lemma on_cfg_ok (f : mtp_usb_cfg -> mtp_usb_cfg) d : daemon_ok d -> (cfg_ok (usb_cfg d) -> cfg_ok (f (usb_cfg d))) -> daemon_ok (on_cfg f d).
Proof. intros [Hc Hb Hs Hd Ho Ht] Hf. destruct d. split; try done. by apply Hf. Qed.

Lemma defaults_kept real' copied' name uid gid flags ctx :
  default_uid (snd (mtp_add_storage real' copied' name uid gid flags ctx)) = default_uid ctx /\
  default_gid (snd (mtp_add_storage real' copied' name uid gid flags ctx)) = default_gid ctx.
Proof.
  unfold mtp_add_storage. destruct (negb _); [done|]. destruct (free_storage _); [|done].
  destruct ctx, real', copied'; done.
Qed.

Lemma storage_line_ok line idx ctx : session_ok mal ctx -> store_ok ctx ->
  let ctx' := mtp_add_storage_from_line real copied tmpstr line idx ctx in
  session_ok mal ctx' /\ store_ok ctx' /\ default_uid ctx' = default_uid ctx /\ default_gid ctx' = default_gid ctx.
Proof.
  intros H Hs. cbv zeta. unfold mtp_add_storage_from_line.
  destruct (get_param line (idx + 1)) as [name|], (get_param line idx) as [path|]; try done.
  destruct (match get_param line (idx + 2) with Some _ => _ | None => _ end) as [[flags uid] gid].
  destruct (add_storage_safe mal (real path) copied name uid gid flags ctx H Hs).
  destruct (defaults_kept (real path) copied name uid gid flags ctx). done.
Qed.

Lemma hex_param_ok line cmd d : daemon_ok d -> daemon_ok (get_hex_param line cmd d).
Proof.
  intros H. unfold get_hex_param. destruct (get_param line 1) as [t|]; [|done].
  pose proof (strtoul_range t 16 ltac:(lia)) as R. cbv zeta. generalize dependent (strtoul t 16). intros v R.
  pose proof (masked_buffer v) as B. pose proof (i32_range v) as V.
  destruct cmd; try done;
    try (destruct (Z.ltb_spec v 0x10000); [|done]); try (destruct (Z.ltb_spec v 256); [|done]);
    try (apply on_cfg_ok; [done|]; intros [? ? ? ? ? ? (? & ? & ? & ?)]; destruct (usb_cfg d); split; upd; cbn in *; try done; lia);
    try (destruct H as [? (? & ? & ?) (? & ?) ? ? ?], d; split; upd; cbn in *; done).
  - apply on_cfg_ok; [done|]. intros []. destruct (usb_cfg d). split; upd; cbn in *; try done.
    destruct (Z.ltb_spec v 0x10000); [lia|]. unfold MAX_PACKET_SIZE. lia.
  - apply on_cfg_ok; [done|]. intros []. destruct (usb_cfg d). split; upd; cbn in *; try done.
    destruct (v =? 0); [by left|by right].
Qed.

Lemma str_param_ok line cmd d : daemon_ok d -> daemon_ok (get_str_param line cmd d).
Proof.
  intros H. unfold get_str_param. destruct (get_param line 1) as [t|] eqn:E; [|done]. pose proof (param_text _ _ _ E) as T.
  destruct cmd; try done; (apply on_cfg_ok; [done|]; intros [? ? ? ? (? & ? & ? & ?) (? & ? & ? & ? & ? & ?) ?];
    destruct (usb_cfg d); split; upd; cbn in *; done).
Qed.

Lemma command_ok command line d d' : daemon_ok d -> exec_cmd real copied tmpstr command line d = Some d' -> daemon_ok d'.
Proof.
  intros H. unfold exec_cmd. destruct (List.find _ _) as [[[k func] cmd]|] eqn:F; [|done]. intros [= <-].
  apply List.find_some in F as [F _]. unfold kwlist in F.
  repeat (destruct F as [[= <- <- <-]|F]); [..|by destruct F]; try (by apply hex_param_ok); try (by apply str_param_ok).
  - unfold get_storage_params. destruct H as [? ? ? [? ?] H1 H2].
    destruct (storage_line_ok line 1 (d_ctx d) H1 H2) as (? & ? & E1 & E2). destruct d. split; upd; cbn in *; try done.
    by rewrite E1, E2.
  - unfold get_oct_param. destruct (get_param line 1) as [t|]; [|done]. pose proof (i32_range (strtoul t 8)).
    apply on_cfg_ok; [done|]. intros [? ? ? ? ? ? (? & ? & ? & ?)]. destruct (usb_cfg d). by split.
  - unfold get_dec_param. destruct (get_param line 1) as [t|]; [|done]. pose proof (i32_range (strtoul t 10)).
    destruct H as [? ? ? [? ?] ? ?], d as [? ? ? ? ? ? []]. by split.
  - unfold get_dec_param. destruct (get_param line 1) as [t|]; [|done]. pose proof (i32_range (strtoul t 10)).
    destruct H as [? ? ? [? ?] ? ?], d as [? ? ? ? ? ? []]. by split.
Qed.

Lemma execute_ok line d : daemon_ok d -> daemon_ok (snd (execute_line real copied tmpstr line d)).
Proof.
  intros H. unfold execute_line. destruct (extract_cmd line) as [|c w]; [done|].
  destruct (exec_cmd _ _ _ _ line d) as [d'|] eqn:E; [|done]. by apply (command_ok _ _ _ _ H E).
Qed.

Lemma file_ok fuel text d : daemon_ok d -> daemon_ok (load_lines real copied tmpstr fuel text d).
Proof.
  revert text d. induction fuel as [|fuel IH]; intros text d H; [done|]. cbn [load_lines].
  destruct (fgets _ text) as [line|]; [|done]. destruct (at_eof line); [done|]. by apply IH, execute_ok.
Qed.

Lemma default_ok : cfg_ok default_cfg.
Proof.
  assert (forall t, forallb (fun c => negb (c =? 0)) t && (strlen t <=? 511) = true -> text_ok t) as T.
  { intros t H. apply andb_true_iff in H as [Hf Hl]. split; [|by apply Z.leb_le].
    apply Forall_forall. intros c Hc. pose proof (forallb_In _ _ _ Hf Hc) as B. cbv beta in B.
    by rewrite negb_true_iff, Z.eqb_neq in B. }
  split; try (by right); try (split_and!; apply T; reflexivity); unfold is_i32, default_cfg; cbn; unfold USB_DEV_VENDOR_ID, USB_DEV_PRODUCT_ID, USB_DEV_VERSION, USB_DEV_CLASS, USB_DEV_SUBCLASS, USB_DEV_PROTOCOL, MAX_PACKET_SIZE; lia.
Qed.

(** ** Running *)

(** What changes the context once the configuration is loaded: the lines of
    the message queue and the sessions of the host. *)
Inductive daemon_event := Queued (message : list Z) | Opened (id : Z) | Closed.

Definition run_event (d : daemon) (ev : daemon_event) : option daemon :=
  ctx ← match ev with
        | Queued m => queue_message mal real copied tmpstr m (d_ctx d)
        | Opened id => snd <$> mtp_op_OpenSession mal id (d_ctx d)
        | Closed => snd <$> mtp_op_CloseSession (d_ctx d)
        end;
  Some (d {{ d_ctx := ctx }}).

Lemma queued_ok m ctx : session_ok mal ctx -> store_ok ctx ->
  exists ctx', queue_message mal real copied tmpstr m ctx = Some ctx' /\ session_ok mal ctx' /\ store_ok ctx'.
Proof.
  intros H Hs. unfold queue_message.
  set (c1 := if starts_with (cstr "addstorage:") m then _ else ctx).
  assert (session_ok mal c1 /\ store_ok c1) as [H1 Hs1].
  { unfold c1. destruct (starts_with _ m); [|done]. by destruct (storage_line_ok (drop 11 m) 0 ctx H Hs) as (? & ? & _). }
  set (c2 := if starts_with (cstr "rmstorage:") m then _ else c1).
  assert (session_ok mal c2 /\ store_ok c2) as [H2 Hs2].
  { unfold c2. destruct (starts_with (cstr "rmstorage:") m); [|done]. unfold mtp_remove_storage_from_line.
    destruct (get_param _ 0) as [name|]; [|done]. by apply remove_storage_safe. }
  by apply message_safe.
Qed.

(** The events that touch the context only. *)
Definition context_ok (d0 d : daemon) : Prop :=
  d = d0 {{ d_ctx := d_ctx d }} /\ session_ok mal (d_ctx d) /\ store_ok (d_ctx d).

Lemma event_ok d0 d ev : context_ok d0 d -> exists d', run_event d ev = Some d' /\ context_ok d0 d'.
Proof.
  intros (E & H & Hs). unfold run_event.
  assert (exists ctx, match ev with
        | Queued m => queue_message mal real copied tmpstr m (d_ctx d)
        | Opened id => snd <$> mtp_op_OpenSession mal id (d_ctx d)
        | Closed => snd <$> mtp_op_CloseSession (d_ctx d)
        end = Some ctx /\ session_ok mal ctx /\ store_ok ctx) as (ctx & -> & Hc).
  { destruct ev as [m|id|].
    - by apply queued_ok.
    - destruct (open_safe mal id (d_ctx d) H Hs) as ([c r] & c' & -> & ?). by exists c'.
    - destruct (close_safe mal (d_ctx d) H Hs) as ([c r] & c' & -> & ? & ? & _). by exists c'. }
  cbn [mbind option_bind]. eexists. split; [done|]. rewrite E. by destruct d0.
Qed.

(** C21: the daemon is well formed whatever it reads.  Any bytes in the
    configuration file, or no file at all, leave every number in its field's
    range, every text a string of its array without NUL, both USB buffers
    multiples of the packet, the mask a usable one, the storages on their
    identifiers; and then any sequence of messages of the queue and of sessions
    opened and closed, with any allocations failing, runs to its end without a
    dangling access, leaves the configuration alone and every table of an open
    session reachable. *)
Theorem daemon_well_formed conffile d events :
  buffer_ok (usb_wr_buffer_max_size d) -> buffer_ok (usb_rd_buffer_max_size d) -> is_i32 (read_file_buffer_size d) ->
  session_ok mal (d_ctx d) -> store_ok (d_ctx d) ->
  exists d' mask d'', mtp_load_config_file real copied tmpstr conffile d = (d', mask) /\ daemon_ok d' /\
    (forall m, mask = Some m -> 0 <= m < 2 ^ 31) /\
    foldM run_event events d' = Some d'' /\ context_ok d' d''.
Proof.
  intros Hw Hr Hb H Hs. unfold mtp_load_config_file.
  assert (daemon_ok (with_defaults d)) as H0.
  { pose proof default_ok. destruct d as [? ? ? ? ? ? []]. by split. }
  set (d' := match conffile with Some text => _ | None => with_defaults d end).
  assert (daemon_ok d') as Hd by (unfold d'; destruct conffile; [by apply file_ok|done]).
  destruct (foldM_inv (fun _ => context_ok d') run_event events d') as (d'' & E & Hc).
  - destruct Hd. split; [by destruct d'|done].
  - intros pre ev d1 _. apply event_ok.
  - exists d', (if 0 <=? val_umask (usb_cfg d') then Some (val_umask (usb_cfg d')) else None), d''.
    split_and!; [done|done| |done|done]. destruct (Z.leb_spec 0 (val_umask (usb_cfg d'))); [|done]. intros m [= <-].
    destruct (ok_ints _ (ok_cfg _ _ Hd)) as (_ & _ & _ & V). unfold is_i32 in V. lia.
Qed.
End Daemon.

Lemma daemon_well_formed_witness : exists d' mask d'',
  mtp_load_config_file Some true [] (Some (cstr "umask 27 # mask" ++ [10; 255; 0; 10] ++ cstr "storage /a")) demo_daemon = (d', mask) /\
  daemon_ok always d' /\ foldM (run_event always Some true []) [Queued (cstr "addstorage:/b b rw"); Opened 1; Queued (cstr "lock"); Closed] d' = Some d''.
Proof.
  destruct (daemon_well_formed always Some true [] (Some (cstr "umask 27 # mask" ++ [10; 255; 0; 10] ++ cstr "storage /a")) demo_daemon
    [Queued (cstr "addstorage:/b b rw"); Opened 1; Queued (cstr "lock"); Closed]) as (d' & m & d'' & E & Hd & _ & Ef & _).
  - by split; [unfold is_i32; cbn; lia|].
  - by split; [unfold is_i32; cbn; lia|].
  - unfold is_i32. cbn. lia.
  - done.
  - split; [done|]. intros i s Ei. apply (lookup_replicate_1 16 no_storage) in Ei. by destruct Ei as [-> _].
  - exists d', m, d''. done.
Defined.

(** ** Lines read otherwise than meant *)

(** [feof] is set by the last line when it has no newline, and the line is then
    not executed. *)
Lemma last_line_lost real copied tmpstr line d : Forall clean line -> strlen line < 511 ->
  load_lines real copied tmpstr (S (length line)) line d = d.
Proof.
  intros Hc Hl. cbn [load_lines]. destruct line as [|c line]; [done|]. unfold fgets.
  assert (forall n l, Forall clean l -> (length l <= n)%nat -> take_line n l = l) as T.
  { clear. induction n as [|n IH]; intros l Hl Hn; destruct Hl as [|c l [_ Hc] Hl]; try done; [cbn in Hn; lia|].
    cbn [take_line length] in *. rewrite (proj2 (Z.eqb_neq c 10)), IH by (done || lia). done. }
  rewrite T by (done || (unfold MAX_CFG_STRING_SIZE, strlen in *; lia)). unfold at_eof. rewrite bool_decide_false.
  - rewrite (proj2 (Z.ltb_lt _ _)) by (unfold MAX_CFG_STRING_SIZE; lia). done.
  - intros [l E]%last_Some. rewrite E in Hc. apply Forall_app in Hc as [_ Hc]. apply Forall_cons in Hc as [[_ Hc] _]. done.
Qed.

(** [get_param_offset] tests for the NUL and the [#], not for the newline: a
    keyword alone on its line sets an empty value, or 0. *)
Lemma missing_value_sets_zero real copied tmpstr d :
  usb_vendor_id (usb_cfg (snd (execute_line real copied tmpstr (cstr "usb_vendor_id" ++ [10]) d))) = 0 /\
  usb_string_product (usb_cfg (snd (execute_line real copied tmpstr (cstr "product" ++ [10]) d))) = [].
Proof. by destruct d as [[]]. Qed.

(** A tab ends the keyword but is not skipped before the value. *)
Lemma tab_hides_value real copied tmpstr d :
  usb_string_product (usb_cfg (snd (execute_line real copied tmpstr (cstr "product" ++ [9] ++ cstr "NOOK" ++ [10]) d))) = [].
Proof. by destruct d as [[]]. Qed.

(** A [#] ends a value even between quotes. *)
Lemma hash_cuts_quotes real copied tmpstr d :
  usb_string_product (usb_cfg (snd (execute_line real copied tmpstr (cstr "product " ++ quoted (cstr "Reader #1") ++ [10]) d))) =
  cstr "Reader ".
Proof. by destruct d as [[]]. Qed.

(** The user of an option without a value is read from whatever the buffer
    held. *)
Lemma uid_without_value tmpstr : storage_options tmpstr (cstr "rw,uid") = (0, atoi tmpstr, -1).
Proof. reflexivity. Qed.
