(* ===== verification/MtpInotify.v ===== *)
(** * The file watcher of the MTP responder

    [inotify.c]: the events of the kernel, and the objects the thread adds to,
    looks up in and removes from the table of the open session.  The thread
    holds [inotify_mutex] for one round of a loop at a time: a round is a step,
    and other threads may run between two rounds. *)

From Stdlib Require Import Ascii String.
From S2P Require Import Prelude CString MtpHash MtpDb MtpTable MtpPath MtpScan MtpStorage MtpMount MtpData.

Definition INOTIFY_RD_BUF_SIZE : Z := 32 * 1024.

(** The masks and the header of the kernel's [struct inotify_event]. *)
Definition IN_MODIFY : Z := 0x2.
Definition IN_MOVED_FROM : Z := 0x40.
Definition IN_MOVED_TO : Z := 0x80.
Definition IN_CREATE : Z := 0x100.
Definition IN_DELETE : Z := 0x200.
Definition EVENT_SIZE : Z := 16.

Definition MTP_EVENT_OBJECT_ADDED : Z := 0x4002.
Definition MTP_EVENT_OBJECT_REMOVED : Z := 0x4003.
Definition MTP_EVENT_OBJECT_INFO_CHANGED : Z := 0x4007.

(** [name] is the memory from [event->name] on. *)
Record inotify_event := mkevent { wd : Z; mask : Z; len : Z; name : list Z }.

Definition masked (ev : inotify_event) (bit : Z) : bool := negb (Z.land (mask ev) bit =? 0).

Section Watch.
(** The allocations of the object table, what [stat64] and [realpath] answer,
    and whether the copy of a path can be allocated. *)
Context (mal : nat -> bool) (stat64 : list Z -> option (bool * Z)) (realpath : list Z -> list Z + Z).
Context (allocated : list Z -> bool).

(** [get_entry_by_wd] on the session's table: without a session a null [entry]
    is not followed, any other one is freed memory. *)
Definition entry_by_wd (w : Z) (entry : option Z) (ctx : mtp_ctx) : option (option Z) :=
  match fs_db ctx, entry with
  | Some d, _ => get_entry_by_wd w entry d
  | None, None => Some None
  | None, Some _ => None
  end.

(** The result and [fileinfo], which keeps what the last event left in it; a
    file that [stat64] does not find has no name and no size. *)
Definition get_file_info (ev : inotify_event) (entry : option Z) (fileinfo : filefoundinfo) (deleted : bool)
    (ctx : mtp_ctx) : option (bool * filefoundinfo) :=
  match entry, fs_db ctx with
  | None, _ => Some (false, fileinfo)
  | Some _, None => None
  | Some p, Some d =>
      e ← d_pool d !! p;
      path ← build_full_path (mtp_get_storage_root ctx) realpath (mtp_get_storage_root ctx (e_storage e)) p d;
      match path with
      | None => Some (false, fileinfo)
      | Some path =>
          let tmp_path := path ++ [47] ++ to_nul (take (Z.to_nat (len ev)) (name ev)) in
          if allocated tmp_path then
            Some (true, if deleted then mkfound false (take FS_HANDLE_MAX_FILENAME_SIZE (to_nul (name ev))) 0
                        else default (mkfound (f_isdirectory fileinfo) [] 0) (fs_entry_stat stat64 tmp_path))
          else Some (false, fileinfo)
      end
  end.

(** The three bodies: the context, and the event to push with its handle. *)
Definition created (p : Z) (fileinfo : filefoundinfo) (d : fs_handles_db) (ctx : mtp_ctx) : option (mtp_ctx * option (Z * Z)) :=
  e ← d_pool d !! p;
  old_entry ← search_entry fileinfo (e_handle e) (e_storage e) d;
  match old_entry with
  | Some _ => Some (ctx, None)
  | None =>
      '(new_entry, d) ← add_entry mal fileinfo (e_handle e) (e_storage e) d;
      let ctx := ctx {{ fs_db := Some d }} in
      match new_entry with
      | Some q => e ← d_pool d !! q; Some (ctx, Some (MTP_EVENT_OBJECT_ADDED, e_handle e))
      | None => Some (ctx, None)
      end
  end.

Definition modified (p : Z) (fileinfo : filefoundinfo) (d : fs_handles_db) (ctx : mtp_ctx) : option (mtp_ctx * option (Z * Z)) :=
  e ← d_pool d !! p;
  modified_entry ← search_entry fileinfo (e_handle e) (e_storage e) d;
  match modified_entry with
  | Some q => e ← d_pool d !! q; Some (ctx, Some (MTP_EVENT_OBJECT_INFO_CHANGED, e_handle e))
  | None => Some (ctx, None)
  end.

Definition removed (p : Z) (fileinfo : filefoundinfo) (d : fs_handles_db) (ctx : mtp_ctx) : option (mtp_ctx * option (Z * Z)) :=
  e ← d_pool d !! p;
  deleted_entry ← search_entry fileinfo (e_handle e) (e_storage e) d;
  match deleted_entry with
  | Some q =>
      e ← d_pool d !! q;
      d ← upd_entry mark_deleted q d;
      Some (ctx {{ fs_db := Some d; unwatched := unwatched ctx ++ (if e_wd e =? -1 then [] else [e_wd e]) }},
            Some (MTP_EVENT_OBJECT_REMOVED, e_handle e))
  | None => Some (ctx, None)
  end.

Inductive kind := Creation | Modification | Deletion.
Definition body_of (k : kind) : Z -> filefoundinfo -> fs_handles_db -> mtp_ctx -> option (mtp_ctx * option (Z * Z)) :=
  match k with Creation => created | Modification => modified | Deletion => removed end.
Definition gone (k : kind) : bool := match k with Creation => false | _ => true end.

(** One round, from the lock to the event pushed after the unlock: the context,
    [entry->next] and [fileinfo]. *)
Definition round (k : kind) (ev : inotify_event) (ctx : mtp_ctx) (entry : option Z) (fileinfo : filefoundinfo) :
    option (mtp_ctx * option Z * filefoundinfo) :=
  entry ← entry_by_wd (wd ev) entry ctx;
  '(found, fileinfo) ← get_file_info ev entry fileinfo (gone k) ctx;
  '(ctx, send_event) ← match entry, fs_db ctx with
                       | Some p, Some d => if found : bool then body_of k p fileinfo d ctx else Some (ctx, None)
                       | _, _ => Some (ctx, None)
                       end;
  entry ← match entry, fs_db ctx with
          | Some p, Some d => e ← d_pool d !! p; Some (e_next e)
          | _, _ => Some None
          end;
  Some (match send_event with Some (event, handle) => mtp_push_event event handle ctx | None => ctx end, entry, fileinfo).

(** [do ... while (entry)]. *)
Fixpoint rounds (fuel : nat) (k : kind) (ev : inotify_event) (ctx : mtp_ctx) (entry : option Z) (fileinfo : filefoundinfo) :
    option (mtp_ctx * filefoundinfo) :=
  match fuel with
  | O => None
  | S fuel =>
      '(ctx, entry, fileinfo) ← round k ev ctx entry fileinfo;
      match entry with
      | None => Some (ctx, fileinfo)
      | Some p => rounds fuel k ev ctx (Some p) fileinfo
      end
  end.
Definition loop_fuel (ctx : mtp_ctx) : nat := match fs_db ctx with Some d => S (size (d_pool d)) | None => 1 end.
Definition run_loop (k : kind) (ev : inotify_event) (s : mtp_ctx * filefoundinfo) : option (mtp_ctx * filefoundinfo) :=
  rounds (loop_fuel (fst s)) k ev (fst s) None (snd s).

Definition handle_event (s : mtp_ctx * filefoundinfo) (ev : inotify_event) : option (mtp_ctx * filefoundinfo) :=
  s ← (if masked ev IN_CREATE || masked ev IN_MOVED_TO then run_loop Creation ev s else Some s);
  s ← (if masked ev IN_MODIFY then run_loop Modification ev s else Some s);
  if masked ev IN_DELETE || masked ev IN_MOVED_FROM then run_loop Deletion ev s else Some s.

(** ** The buffer *)
Definition event_at (buf : list Z) (i : Z) : option inotify_event :=
  w ← peek buf i 4;
  m ← peek buf (i + 4) 4;
  n ← peek buf (i + 12) 4;
  Some (mkevent (i32 w) m n (drop (Z.to_nat (i + EVENT_SIZE)) buf)).

(** The sanity check, in [size_t]. *)
Definition event_fits (i : Z) (ev : inotify_event) : bool :=
  negb (len ev =? 0) && (u32 (i + u32 (EVENT_SIZE + len ev)) <? INOTIFY_RD_BUF_SIZE).

Fixpoint handle_events (fuel : nat) (buf : list Z) (length i : Z) (s : mtp_ctx * filefoundinfo) :
    option (mtp_ctx * filefoundinfo) :=
  match fuel with
  | O => None
  | S fuel =>
      if (i <? length) && (i <? INOTIFY_RD_BUF_SIZE) then
        ev ← event_at buf i;
        s ← (if event_fits i ev then handle_event s ev else Some s);
        handle_events fuel buf length (i32 (i + u32 (EVENT_SIZE + len ev))) s
      else Some s
  end.

(** An event has at least 16 bytes: more rounds than bytes suffice. *)
Definition events_fuel : nat := S (Z.to_nat INOTIFY_RD_BUF_SIZE).

(** The thread on what its reads return, [None] being an error: the buffer is
    cleared before each of them. *)
Definition buffer_of (bytes : list Z) : list Z := bytes ++ replicate (Z.to_nat INOTIFY_RD_BUF_SIZE - length bytes) 0.
Fixpoint inotify_thread (reads : list (option (list Z))) (s : mtp_ctx * filefoundinfo) : option (mtp_ctx * filefoundinfo) :=
  match reads with
  | Some bytes :: reads =>
      s ← handle_events events_fuel (buffer_of bytes) (strlen bytes) 0 s;
      inotify_thread reads s
  | _ => Some s
  end.
End Watch.

(** ** Watches *)
Definition inotify_handler_addwatch (inotify_fd no_inotify : Z) (inotify_add_watch : list Z -> Z) (path : list Z) : Z :=
  if negb (inotify_fd =? -1) then if no_inotify =? 0 then inotify_add_watch path else -1 else -1.
Definition inotify_handler_rmwatch (inotify_fd : Z) (inotify_rm_watch : Z -> Z) (wd : Z) : Z :=
  if negb (inotify_fd =? -1) && negb (wd =? -1) then inotify_rm_watch wd else -1.
