(* ===== verification/MtpInotifyProps.v ===== *)
(** * What the file watcher does to the object table

    A round crashes exactly when the path of the folder it finds does; every
    other round is safe and keeps the table reachable, whatever other threads do
    in between as long as the session stays open; and one event announces and
    changes exactly the object it is about. *)

From Stdlib Require Import Ascii String.
From S2P Require Import Prelude CString MtpHash MtpDb MtpTable MtpPath MtpScan MtpStorage MtpMount MtpData MtpInotify.

(** ** One round *)

(** A reachable table that grew by at most one entry, at its head. *)
Definition step_ok (mal : nat -> bool) (d d' : fs_handles_db) : Prop :=
  reachable mal d' /\ d_next d' <= d_next d + 1 /\
  forall q e, d_pool d !! q = Some e -> exists e', d_pool d' !! q = Some e' /\ e_next e' = e_next e.

Lemma step_refl mal d : reachable mal d -> step_ok mal d d.
Proof. intros R. split_and!; [done|lia|]. intros q e E. by exists e. Qed.

Lemma add_step mal f parent st d : reachable mal d -> op_allowed (AddObject f parent st) d ->
  exists o d', add_entry mal f parent st d = Some (o, d') /\ step_ok mal d d' /\
    (forall p, o = Some p -> is_Some (d_pool d' !! p)).
Proof.
  intros R Ha. destruct (reachable_ok mal d R) as (l & H & _).
  assert (forall o d', add_entry mal f parent st d = Some (o, d') -> reachable mal d') as R'.
  { intros o d' E. apply (reach_step mal d (AddObject f parent st)); [done|done|]. cbn [run_op]. by rewrite E. }
  unfold add_entry in *. rewrite (search_entry_first f parent st d l H) in *. cbn [mbind option_bind] in *.
  destruct (first_of _ _ _) as [p|] eqn:F.
  - exists (Some p), d. split_and!; [done|by apply step_refl|]. intros q [= <-].
    destruct (first_of_some _ _ _ _ F) as (_ & _ & e & _ & E & _). by exists e.
  - destruct Ha as [Hn Hp]. destruct (alloc_entry_spec mal f parent st d l H Hn) as (o & d' & E & Ho).
    { pose proof (ok_next _ _ H). destruct Hp as [->|(p & e & E & <-)]; [lia|]. by apply (handles_below d l p). }
    exists o, d'. specialize (R' o d' E). split; [done|]. destruct o as [p|].
    + destruct Ho as (Hin & _ & En & Ep & _). split; [|intros q [= <-]; rewrite Ep, lookup_insert_eq; by eexists].
      split_and!; [done|lia|]. intros q e Eq. exists e. split; [|done]. rewrite Ep, lookup_insert_ne; [done|].
      intros <-. apply Hin, (ok_dom _ _ H). by eexists.
    + destruct Ho as (_ & C & _). split; [|done].
      assert (d_next d' = d_next d /\ d_pool d' = d_pool d) as [En Ep] by (unfold content in C; split; congruence).
      split_and!; [done|lia|]. intros q e Eq. rewrite Ep. by exists e.
Qed.

Lemma mark_step mal p d : reachable mal d -> is_Some (d_pool d !! p) ->
  exists d', upd_entry mark_deleted p d = Some d' /\ step_ok mal d d' /\ d_pool d' = alter mark_deleted p (d_pool d) /\
    d_list d' = d_list d.
Proof.
  intros R [e E]. assert (upd_entry mark_deleted p d = Some (d {{ d_pool := <[p := mark_deleted e]> (d_pool d) }})) as U
    by (unfold upd_entry; by rewrite E).
  eexists. split; [exact U|].
  assert (reachable mal (d {{ d_pool := <[p := mark_deleted e]> (d_pool d) }})) as R'.
  { apply (reach_step mal d (Delete p)); [done|by eexists|exact U]. }
  assert (d_pool (d {{ d_pool := <[p := mark_deleted e]> (d_pool d) }}) = <[p := mark_deleted e]> (d_pool d)) as Ep by (by destruct d).
  split_and!.
  - split; [done|]. split; [destruct d; cbn; lia|]. intros q e0 E0. rewrite Ep. destruct (decide (p = q)) as [<-|Hq].
    + rewrite lookup_insert_eq. exists (mark_deleted e). split; [done|]. rewrite E in E0. injection E0 as <-. by destruct e.
    + rewrite lookup_insert_ne by done. by exists e0.
  - rewrite Ep. apply map_eq. intros q. destruct (decide (p = q)) as [<-|Hq].
    + by rewrite lookup_insert_eq, lookup_alter_eq, E.
    + by rewrite lookup_insert_ne, lookup_alter_ne.
  - by destruct d.
Qed.

Lemma search_some f parent st d : (exists l, db_ok d l) ->
  exists o, search_entry f parent st d = Some o /\ (forall p, o = Some p -> is_Some (d_pool d !! p)).
Proof.
  intros [l H]. rewrite (search_entry_first f parent st d l H). eexists. split; [done|]. intros p F.
  destruct (first_of_some _ _ _ _ F) as (_ & _ & e & _ & E & _). by exists e.
Qed.

(** The entries from a cursor on. *)
Lemma cursor_suffix d l p : db_ok d l -> is_Some (d_pool d !! p) ->
  exists l1 l2, l = l1 ++ p :: l2 /\ linked (d_pool d) (Some p) (p :: l2).
Proof.
  intros H Hp. pose proof (ok_dom _ _ H p Hp) as Hin. apply list_elem_of_split in Hin as (l1 & l2 & ->).
  exists l1, l2. split; [done|]. destruct (linked_suffix _ _ _ _ (ok_list _ _ H)) as [q Hq].
  destruct Hq as (Eq & Hq). by split.
Qed.

Lemma linked_step mal d d' p l : step_ok mal d d' -> linked (d_pool d) p l -> linked (d_pool d') p l.
Proof.
  intros (_ & _ & K) Hl. revert p Hl. induction l as [|q l IH]; intros p; [done|]. cbn [linked].
  intros (-> & e & E & Hl). destruct (K q e E) as (e' & E' & En). split; [done|]. exists e'. split; [done|].
  rewrite En. by apply IH.
Qed.

Lemma linked_same pool p l l' : linked pool p l -> linked pool p l' -> l = l'.
Proof.
  revert p l'. induction l as [|q l IH]; intros p [|q' l']; cbn [linked]; try done; [by intros -> [[=] _]|by intros [-> _] [=]|].
  intros (-> & e & E & Hl) ([= <-] & e' & E' & Hl'). f_equal. assert (e' = e) as -> by congruence. by eapply IH.
Qed.

Section Round.
Context (mal : nat -> bool) (stat64 : list Z -> option (bool * Z)) (realpath : list Z -> list Z + Z).
Context (allocated : list Z -> bool).
Abbreviation round := (round mal stat64 realpath allocated).
Abbreviation rounds := (rounds mal stat64 realpath allocated).

(** What an event can announce: an object of the table. *)
Definition announced (k : kind) (d : fs_handles_db) (send : option (Z * Z)) : Prop :=
  forall m h, send = Some (m, h) ->
    m = match k with Creation => MTP_EVENT_OBJECT_ADDED | Modification => MTP_EVENT_OBJECT_INFO_CHANGED
        | Deletion => MTP_EVENT_OBJECT_REMOVED end /\
    exists q e, d_pool d !! q = Some e /\ e_handle e = h.

Lemma body_spec k p f d ctx : fs_db ctx = Some d -> reachable mal d -> d_next d + 1 < 2 ^ 32 -> is_Some (d_pool d !! p) ->
  exists ctx' send d', body_of mal k p f d ctx = Some (ctx', send) /\ fs_db ctx' = Some d' /\ step_ok mal d d' /\
    storages ctx' = storages ctx /\ events ctx' = events ctx /\ announced k d' send.
Proof.
  intros Hd R Hn [e E]. pose proof (reachable_ok mal d R) as (l & H & _).
  destruct (search_some f (e_handle e) (e_storage e) d) as (o & Es & Ho); [by exists l|].
  destruct k; cbn [body_of]; unfold created, modified, removed; rewrite E; cbn [mbind option_bind]; rewrite Es; cbn [mbind option_bind].
  - destruct o as [q|]; [by exists ctx, None, d; split_and!; try done; apply step_refl|].
    destruct (add_step mal f (e_handle e) (e_storage e) d R) as (n & d' & -> & S & Hq).
    { split; [done|]. right. by exists p, e. }
    cbn [mbind option_bind]. destruct n as [q|].
    + destruct (Hq q eq_refl) as [e' E']. rewrite E'. cbn [mbind option_bind].
      eexists _, _, d'. split; [done|]. destruct ctx; cbn in *. split_and!; try done.
      intros m h [= <- <-]. split; [done|]. by exists q, e'.
    + eexists _, None, d'. split; [done|]. by destruct ctx.
  - destruct o as [q|]; [|by exists ctx, None, d; split_and!; try done; apply step_refl].
    destruct (Ho q eq_refl) as [e' E']. rewrite E'. cbn [mbind option_bind]. eexists ctx, _, d. split_and!; try done; [by apply step_refl|].
    intros m h [= <- <-]. split; [done|]. by exists q, e'.
  - destruct o as [q|]; [|by exists ctx, None, d; split_and!; try done; apply step_refl].
    destruct (Ho q eq_refl) as [e' E']. rewrite E'. cbn [mbind option_bind].
    destruct (mark_step mal q d R) as (d' & -> & S & Ep & _); [by eexists|]. cbn [mbind option_bind].
    eexists _, _, d'. split; [done|]. destruct ctx; cbn in *. split_and!; try done.
    intros m h [= <- <-]. split; [done|]. exists q, (mark_deleted e'). rewrite Ep, lookup_alter_eq, E'. by destruct e'.
Qed.

(** The entries a loop still goes through. *)
Definition ahead (d : fs_handles_db) (entry : option Z) (l : list Z) : Prop :=
  exists l1, db_ok d (l1 ++ l) /\ linked (d_pool d) (match entry with Some p => Some p | None => d_list d end) l.

Lemma ahead_ok d entry : reachable mal d -> (forall p, entry = Some p -> is_Some (d_pool d !! p)) ->
  exists l, ahead d entry l /\ (length l <= size (d_pool d))%nat.
Proof.
  intros (l & H & _)%reachable_ok Hc. pose proof (pool_size d l H) as Hsz. destruct entry as [p|].
  - destruct (cursor_suffix d l p H (Hc p eq_refl)) as (l1 & l2 & -> & Hl). rewrite length_app in Hsz. exists (p :: l2).
    split; [by exists l1|lia].
  - exists l. split; [|done]. exists []. split; [done|apply (ok_list _ _ H)].
Qed.

(** The path of the folder that a round has found. *)
Definition found_path (ctx : mtp_ctx) (d : fs_handles_db) (p : Z) : option (option (list Z)) :=
  e ← d_pool d !! p; path_of (mtp_get_storage_root ctx) realpath d p e.

Lemma info_spec ev p f deleted ctx d : fs_db ctx = Some d -> is_Some (d_pool d !! p) ->
  get_file_info stat64 realpath allocated ev (Some p) f deleted ctx = None <-> found_path ctx d p = None.
Proof.
  intros Hd [e E]. unfold get_file_info, found_path, path_of. rewrite Hd, E. cbn [mbind option_bind].
  destruct (build_full_path _ _ _ _ _) as [[path|]|]; cbn [mbind option_bind]; [|done..]. by destruct (allocated _).
Qed.

(** What a round leaves: a context of the same kind, its table one step on, at
    most one event announced. *)
Definition round_ok (k : kind) (ctx ctx' : mtp_ctx) (d d' : fs_handles_db) : Prop :=
  fs_db ctx' = Some d' /\ step_ok mal d d' /\ storages ctx' = storages ctx /\
  exists send, events ctx' = events ctx ++ send /\ (length send <= 1)%nat /\ Forall (fun s => announced k d' (Some s)) send.

(** A round fails in [build_full_path] for the folder it has found, and nowhere
    else. *)
Definition round_crashes (ev : inotify_event) (ctx : mtp_ctx) (d : fs_handles_db) (entry : option Z) : Prop :=
  exists p, entry_by_wd (wd ev) entry ctx = Some (Some p) /\ is_Some (d_pool d !! p) /\ found_path ctx d p = None.

Lemma round_spec k ev ctx d entry f l : fs_db ctx = Some d -> reachable mal d -> ahead d entry l -> d_next d + 1 < 2 ^ 32 ->
  (round_crashes ev ctx d entry /\ round k ev ctx entry f = None) \/
  (~ round_crashes ev ctx d entry /\
   exists ctx' d' entry' f', round k ev ctx entry f = Some (ctx', entry', f') /\ round_ok k ctx ctx' d d' /\
    forall p, entry' = Some p -> exists l', ahead d' (Some p) l' /\ (length l' < length l)%nat).
Proof.
  intros Hd R (l1 & H & Hl) Hn. unfold round_crashes, MtpInotify.round, entry_by_wd. rewrite Hd. unfold get_entry_by_wd.
  rewrite (walk_list _ d _ l1 l _ H eq_refl Hl). cbn [mbind option_bind].
  destruct (first_of _ _ l) as [p|] eqn:F; cbn [mbind option_bind].
  2: { right. split; [by intros (? & ? & _)|]. exists ctx, d, None, f. split; [done|]. split; [|done].
       split_and!; [done|by apply step_refl|done|].
       exists []. rewrite app_nil_r. split_and!; [done|cbn; lia|apply Forall_nil_2]. }
  destruct (first_of_some _ _ _ _ F) as (l2 & l3 & e & -> & E & _ & _).
  pose proof (info_spec ev p f (gone k) ctx d Hd ltac:(by eexists)) as Hi.
  destruct (get_file_info _ _ _ _ _ _ _ _) as [[found f']|] eqn:Ei; cbn [mbind option_bind].
  2: { left. split; [|done]. exists p. split_and!; [done|by eexists|by apply Hi]. }
  right. split; [intros (? & [= <-] & _ & B); by apply Hi in B|].
  assert (exists ctx' send d', (if found then body_of mal k p f' d ctx else Some (ctx, None)) = Some (ctx', send) /\
    fs_db ctx' = Some d' /\ step_ok mal d d' /\ storages ctx' = storages ctx /\ events ctx' = events ctx /\
    announced k d' send) as (ctx' & send & d' & -> & Hd' & S & St & Ev & An).
  { destruct found; [by apply body_spec|]. exists ctx, None, d. split_and!; try done. by apply step_refl. }
  cbn [mbind option_bind]. rewrite Hd'. pose proof S as (R' & _ & K). destruct (K p e E) as (e' & E' & En). rewrite E'.
  cbn [mbind option_bind]. eexists _, d', _, f'. split; [done|]. split.
  - unfold round_ok. destruct send as [[m h]|].
    + unfold mtp_push_event. split_and!; [by destruct ctx'|done|by destruct ctx'|]. exists [(m, h)].
      split_and!; [destruct ctx'; cbn in *; by rewrite Ev|done|]. apply Forall_cons_2; [done|apply Forall_nil_2].
    + split_and!; try done. exists []. rewrite app_nil_r. split_and!; [done|cbn; lia|apply Forall_nil_2].
  - intros q Hq. rewrite En in Hq. apply linked_suffix in Hl as (o & _ & e0 & E0 & Hl3).
    assert (e0 = e) as -> by congruence. pose proof (linked_step mal d d' _ _ S Hl3) as Hl'. rewrite Hq in Hl'.
    destruct l3 as [|r l4]; [done|]. assert (r = q) as -> by (destruct Hl' as ([= ->] & _); done).
    destruct (reachable_ok mal d' R') as (l' & H' & _).
    destruct (cursor_suffix d' l' q H') as (l5 & l6 & -> & H6); [by destruct Hl' as (_ & e1 & -> & _)|].
    exists (q :: l4). split; [|rewrite length_app; cbn [length]; lia]. exists l5.
    assert (q :: l6 = q :: l4) as [= ->] by by eapply linked_same. by split.
Qed.

(** ** Rounds between the steps of other threads *)

(** A loop over [n] rounds that started with [total] entries in the table:
    between two rounds, with the mutex free, the table and the storages may
    change in any way the other threads change them in an open session. *)
Inductive watching (k : kind) (ev : inotify_event) (total : nat) : nat -> mtp_ctx -> option Z -> filefoundinfo -> Prop :=
  | watch_start ctx d f : fs_db ctx = Some d -> reachable mal d -> size (d_pool d) = total -> watching k ev total 0 ctx None f
  | watch_round n ctx d entry f ctx' p f' : watching k ev total n ctx entry f -> fs_db ctx = Some d ->
      d_next d + 1 < 2 ^ 32 -> round k ev ctx entry f = Some (ctx', Some p, f') -> watching k ev total (S n) ctx' (Some p) f'
  | watch_table n ctx d op d' p f : watching k ev total n ctx (Some p) f -> fs_db ctx = Some d -> op_allowed op d ->
      run_op mal op d = Some d' -> watching k ev total n (ctx {{ fs_db := Some d' }}) (Some p) f
  | watch_context n ctx ctx' p f : watching k ev total n ctx (Some p) f -> fs_db ctx' = fs_db ctx ->
      watching k ev total n ctx' (Some p) f.

Lemma ahead_op d op d' p l : reachable mal d -> op_allowed op d -> run_op mal op d = Some d' ->
  ahead d (Some p) l -> ahead d' (Some p) l.
Proof.
  intros R Ha E (l1 & H & Hl). destruct (run_op_ok mal op d (l1 ++ l) H Ha) as (d1 & l' & E1 & H' & Hl' & _).
  assert (d1 = d') as -> by congruence. assert (exists l2, l' = l2 ++ l) as (l2 & ->).
  { destruct Hl' as [->|[q ->]]; [by exists l1|by exists (q :: l1)]. }
  exists l2. split; [done|]. destruct (linked_suffix _ _ _ _ (ok_list _ _ H')) as [o Ho].
  destruct l as [|q l]; [done|]. destruct Hl as ([= <-] & _). destruct Ho as (-> & Ho). by split.
Qed.

Lemma watching_ok k ev total n ctx entry f : watching k ev total n ctx entry f ->
  exists d l, fs_db ctx = Some d /\ reachable mal d /\ ahead d entry l /\ (n + length l <= total)%nat.
Proof.
  induction 1 as [ctx d f Hd R Hs|n ctx d entry f ctx' p f' _ IH Hd Hn E|n ctx d op d' p f _ IH Hd Ha E|
    n ctx ctx' p f _ IH E].
  - destruct (ahead_ok d None R) as (l & Ha & Hl); [done|]. exists d, l. split_and!; [done|done|done|lia].
  - destruct IH as (d0 & l & Hd0 & R & Ha & Hl). assert (d0 = d) as -> by congruence.
    destruct (round_spec k ev ctx d entry f l Hd R Ha Hn) as [[_ E1]|(_ & c1 & d1 & en & f1 & E1 & (D1 & S1 & _) & Hnext)]; [congruence|].
    rewrite E1 in E. injection E as -> -> ->. destruct (Hnext p eq_refl) as (l' & Ha' & Hl').
    exists d1, l'. split_and!; [done|apply S1|done|lia].
  - destruct IH as (d0 & l & Hd0 & R & Hah & Hl). assert (d0 = d) as -> by congruence. exists d', l.
    split_and!; [by destruct ctx|by apply (reach_step mal d op)|by apply (ahead_op d op)|done].
  - destruct IH as (d0 & l & Hd0 & R & Hah & Hl). exists d0, l. split_and!; [congruence|done|done|done].
Qed.

(** C29: the watcher between the other threads.  From the first round of an
    event on, whatever the others do to the table and the storages of the open
    session while the mutex is free: a further round crashes exactly when it
    finds a watched folder whose path crashes [build_full_path] (the folder and
    the one above it are gone).  In every other case it follows only
    pointers to entries of the table, leaves a table that its operations can
    reach and the storages alone, announces at most one change, of an object
    that is in the table; and the loop is over after as many rounds as the
    table had entries when the event came, also when others add entries. *)
Theorem watcher_safe k ev total n ctx d entry f :
  watching k ev total n ctx entry f -> fs_db ctx = Some d -> d_next d + 1 < 2 ^ 32 ->
  (n <= total)%nat /\
  (round k ev ctx entry f = None <-> round_crashes ev ctx d entry) /\
  (~ round_crashes ev ctx d entry ->
   exists ctx' d' entry' f', round k ev ctx entry f = Some (ctx', entry', f') /\ round_ok k ctx ctx' d d' /\
     (n = total -> entry' = None)).
Proof.
  intros W Hd Hn. destruct (watching_ok k ev total n ctx entry f W) as (d0 & l & Hd0 & R & Ha & Hl).
  assert (d0 = d) as -> by congruence. split; [lia|].
  destruct (round_spec k ev ctx d entry f l Hd R Ha Hn) as [[C E1]|(C & c1 & d1 & en & f1 & E1 & Ok & Hnext)].
  - split; [by split|done].
  - split; [split; [congruence|done]|]. intros _. exists c1, d1, en, f1. split_and!; [done|done|]. intros ->.
    destruct en as [p|]; [|done]. destruct (Hnext p eq_refl) as (l' & _ & Hl'). lia.
Qed.
End Round.

(** A thread that has found a watched folder keeps its pointer across the
    unlocked time; [CloseSession] takes no lock and frees the table in it. *)
Lemma close_between_rounds mal stat64 realpath allocated k ev ctx p f ctx' r :
  mtp_op_CloseSession ctx = Some (r, ctx') -> fs_db ctx <> None ->
  round mal stat64 realpath allocated k ev ctx' (Some p) f = None.
Proof.
  intros E Hd. assert (fs_db ctx' = None) as D.
  { unfold mtp_op_CloseSession in E. destruct (fs_db ctx) as [d|]; [|done]. destruct (deinit_fs_db d) as [[rm fd]|]; [|done].
    cbn [mbind option_bind] in E. injection E as _ <-. by destruct ctx. }
  unfold round, entry_by_wd. by rewrite D.
Qed.

(** ** What one event does *)

Lemma name_after_slash pre nm i : pre <> [] -> Forall (fun c => c <> 47) nm -> (i <= length nm)%nat ->
  name_start (pre ++ 47 :: nm) (S (length pre) + i) = S (length pre).
Proof.
  intros Hp Hn. induction i as [|i IH]; intros Hi.
  - rewrite Nat.add_0_r. cbn [name_start]. destruct (nth (S (length pre)) (pre ++ 47 :: nm) 0 =? 47) eqn:E.
    { rewrite app_nth2 in E by lia. replace (S (length pre) - length pre)%nat with 1%nat in E by lia. cbn [nth] in E.
      destruct Hn as [|c nm Hc]; [done|]. apply Z.eqb_eq in E. by subst. }
    destruct pre as [|c pre]; [done|]. cbn [length name_start]. rewrite app_nth2 by (cbn; lia).
    cbn [length]. rewrite Nat.sub_diag. done.
  - replace (S (length pre) + S i)%nat with (S (S (length pre) + i)) by lia. cbn [name_start].
    rewrite (proj2 (Z.eqb_neq _ 47)); [apply IH; lia|]. rewrite app_nth2 by lia.
    replace (S (S (length pre) + i) - length pre)%nat with (S (S i)) by lia. cbn [nth].
    destruct (nth_in_or_default (S i) nm 0) as [Hin| ->]; [|done].
    rewrite Forall_forall in Hn. by apply Hn, list_elem_of_In.
Qed.

(** The name and the answer of [stat64] for a file of a folder. *)
Lemma stat_file stat64 path nm isdir size : path <> [] -> Forall (fun c => c <> 47) nm -> (length nm <= 256)%nat ->
  stat64 (path ++ [47] ++ nm) = Some (isdir, size) ->
  fs_entry_stat stat64 (path ++ [47] ++ nm) = Some (mkfound isdir nm size).
Proof.
  intros Hp Hn Hl E. unfold fs_entry_stat. rewrite E. do 2 f_equal. rewrite length_app. cbn [app length].
  replace (length path + S (length nm))%nat with (S (length path) + length nm)%nat by lia.
  rewrite name_after_slash by done. change (path ++ 47 :: nm) with (path ++ [47] ++ nm). rewrite app_assoc.
  rewrite drop_app_length' by (rewrite length_app; cbn; lia). by rewrite take_ge.
Qed.

Section Exact.
Context (mal : nat -> bool) (stat64 : list Z -> option (bool * Z)) (realpath : list Z -> list Z + Z).
Context (allocated : list Z -> bool).

(** A file of the watched folder [p], and the kernel's event about it. *)
Record about (ctx : mtp_ctx) (d : fs_handles_db) (p : Z) (e : fs_entry) (path nm : list Z) (ev : inotify_event) : Prop := {
  ab_session : fs_db ctx = Some d /\ reachable mal d;
  ab_entry : d_pool d !! p = Some e /\ live e = true;
  ab_watch : wd ev <> -1 /\ e_wd e = wd ev;
  ab_only : forall q e', d_pool d !! q = Some e' -> live e' = true -> e_wd e' = wd ev -> q = p;
  ab_path : path <> [] /\ build_full_path (mtp_get_storage_root ctx) realpath (mtp_get_storage_root ctx (e_storage e)) p d = Some (Some path);
  ab_storage : mtp_get_storage_root ctx (e_storage e) <> None;
  ab_name : to_nul (name ev) = nm /\ to_nul (take (Z.to_nat (len ev)) (name ev)) = nm;
  ab_text : Forall (fun c => c <> 47) nm /\ (length nm <= 256)%nat;
  ab_memory : (forall k, mal k = true) /\ allocated (path ++ [47] ++ nm) = true /\
    Z.of_nat (size (d_pool d)) < 2 ^ 29 - 1 /\ d_next d + 1 < 2 ^ 32 }.

Definition found_as (isdir : bool) (size : Z) (k : kind) (nm : list Z) : filefoundinfo :=
  match k with Creation => mkfound isdir nm size | _ => mkfound false nm 0 end.

(** The change of the context: [q] is the object of that name in the folder. *)
Definition known (k : kind) (d : fs_handles_db) (ctx : mtp_ctx) (q : Z) (eq : fs_entry) (ctx' : mtp_ctx) : Prop :=
  match k with
  | Creation => ctx' = ctx
  | Modification => ctx' = mtp_push_event MTP_EVENT_OBJECT_INFO_CHANGED (e_handle eq) ctx
  | Deletion => exists d', upd_entry mark_deleted q d = Some d' /\
      ctx' = mtp_push_event MTP_EVENT_OBJECT_REMOVED (e_handle eq)
        (ctx {{ fs_db := Some d'; unwatched := unwatched ctx ++ (if e_wd eq =? -1 then [] else [e_wd eq]) }})
  end.
Definition unknown (k : kind) (isdir : bool) (size : Z) (nm : list Z) (d : fs_handles_db) (e : fs_entry) (ctx ctx' : mtp_ctx) : Prop :=
  match k with
  | Creation => exists q d', d_pool d !! q = None /\
      d_pool d' = <[q := new_entry (mkfound isdir nm size) (d_next d) (e_handle e) (e_storage e) (d_list d)]> (d_pool d) /\
      reachable mal d' /\
      get_entry_by_handle (mtp_get_storage_root ctx) (d_next d) d' = Some (Some q) /\
      ctx' = mtp_push_event MTP_EVENT_OBJECT_ADDED (d_next d) (ctx {{ fs_db := Some d' }})
  | _ => ctx' = ctx
  end.
Definition outcome (k : kind) (isdir : bool) (size : Z) (nm : list Z) (d : fs_handles_db) (e : fs_entry) (ctx ctx' : mtp_ctx) : Prop :=
  (exists q eq, d_pool d !! q = Some eq /\ named nm (e_handle e) (e_storage e) eq = true /\ known k d ctx q eq ctx') \/
  ((forall q, ~ live_at d nm (e_handle e) (e_storage e) q) /\ unknown k isdir size nm d e ctx ctx').

Lemma body_exact k isdir size ctx d p e path nm ev : about ctx d p e path nm ev ->
  exists c send, body_of mal k p (found_as isdir size k nm) d ctx = Some (c, send) /\
    outcome k isdir size nm d e ctx (match send with Some (m, h) => mtp_push_event m h c | None => c end).
Proof.
  intros [[Hd R] [E Lv] _ _ _ Hr _ _ (Hm & _ & Hs & Hn)].
  destruct (reachable_ok mal d R) as (l & H & Hi). pose proof (pool_size d l H) as Hsz. specialize (Hi Hm ltac:(lia)).
  assert (f_filename (found_as isdir size k nm) = nm) as En by (by destruct k).
  destruct (search_exact (found_as isdir size k nm) (e_handle e) (e_storage e) d l H Hi) as (o & Es & Ho). rewrite En in Ho.
  destruct k; cbn [body_of]; unfold created, modified, removed; rewrite E; cbn [mbind option_bind]; rewrite Es; cbn [mbind option_bind].
  - destruct o as [q|].
    + exists ctx, None. split; [done|]. left. destruct Ho as (eq & Eq & Nq). by exists q, eq.
    + destruct (add_entry_spec mal d (found_as isdir size Creation nm) (e_handle e) (e_storage e) (mtp_get_storage_root ctx) R Hm ltac:(lia))
        as (q & d' & Ea & _ & [[_ Hl]|(Hq & Hnx & _ & Ep & _ & _ & Hh)]); [split; [done|right; by exists p, e]|done| |].
      { by destruct (Ho q). }
      rewrite Ea. cbn [mbind option_bind]. rewrite Ep, lookup_insert_eq. cbn [mbind option_bind]. eexists _, _. split; [done|].
      right. split; [done|]. exists q, d'. split_and!; [done|done| |done|done].
      apply (reach_step mal d (AddObject (found_as isdir size Creation nm) (e_handle e) (e_storage e))); [done| |].
      * split; [done|]. right. by exists p, e.
      * cbn [run_op]. by rewrite Ea.
  - destruct o as [q|].
    + destruct Ho as (eq & Eq & Nq). rewrite Eq. eexists ctx, _. split; [done|]. left. by exists q, eq.
    + exists ctx, None. split; [done|]. by right.
  - destruct o as [q|].
    + destruct Ho as (eq & Eq & Nq). rewrite Eq. cbn [mbind option_bind].
      destruct (mark_step mal q d R) as (d' & U & _); [by eexists|]. rewrite U. cbn [mbind option_bind].
      eexists _, _. split; [done|]. left. exists q, eq. split_and!; [done|done|]. by exists d'.
    + exists ctx, None. split; [done|]. by right.
Qed.

(** No entry but the folder watches, also afterwards. *)
Lemma outcome_only k isdir size ctx d p e path nm ev ctx' d' : about ctx d p e path nm ev ->
  outcome k isdir size nm d e ctx ctx' -> fs_db ctx' = Some d' ->
  forall q e', d_pool d' !! q = Some e' -> live e' = true -> e_wd e' = wd ev -> q = p.
Proof.
  intros [[Hd _] _ [Hw _] Only _ _ _ _ _] O Hd' q e' E' L W.
  assert (d' = d \/ (exists r f h par st n, d_pool d' = <[r := new_entry f h par st n]> (d_pool d)) \/
          exists r er, d_pool d' = <[r := mark_deleted er]> (d_pool d)) as [->|[(r & f & h & par & st & n & Ep)|(r & er & Ep)]].
  - destruct O as [(r & er & Er & _ & K)|(_ & U)]; destruct k; cbn [known unknown] in *.
    + left. congruence.
    + left. subst. destruct ctx; cbn in *. congruence.
    + right. right. destruct K as (d2 & Um & ->). unfold upd_entry in Um. rewrite Er in Um. cbn [mbind option_bind] in Um.
      exists r, er. destruct ctx; cbn in Hd'. injection Hd' as <-. injection Um as <-. by destruct d.
    + right. left. destruct U as (r & d2 & _ & Ep & _ & _ & ->). destruct ctx; cbn in Hd'. injection Hd' as <-. rewrite Ep. eauto 10.
    + left. congruence.
    + left. congruence.
  - by apply (Only q e').
  - rewrite Ep in E'. apply pool_cons in E' as [[-> ->]|[_ E']]; [by cbn in W|by apply (Only q e')].
  - rewrite Ep in E'. apply pool_cons in E' as [[-> ->]|[_ E']]; [by rewrite mark_deleted_dead in L|by apply (Only q e')].
Qed.

Lemma round_over k ev ctx d q f l : fs_db ctx = Some d -> ahead d (Some q) l ->
  (forall r e', r ∈ l -> d_pool d !! r = Some e' -> live e' && (e_wd e' =? wd ev) = false) ->
  round mal stat64 realpath allocated k ev ctx (Some q) f = Some (ctx, None, f).
Proof.
  intros Hd (l1 & H & Hl) No. unfold round, entry_by_wd. rewrite Hd. unfold get_entry_by_wd.
  rewrite (walk_list _ d _ l1 l _ H eq_refl Hl). destruct (first_of _ _ l) as [r|] eqn:F; [|done].
  destruct (first_of_some _ _ _ _ F) as (l2 & l3 & e & -> & E & P & _). exfalso.
  rewrite (No r e) in P; [done| |done]. apply elem_of_app. right. left.
Qed.

Lemma info_exact k isdir size ctx d p e path nm ev f : about ctx d p e path nm ev ->
  (k = Creation -> stat64 (path ++ [47] ++ nm) = Some (isdir, size)) ->
  get_file_info stat64 realpath allocated ev (Some p) f (gone k) ctx = Some (true, found_as isdir size k nm).
Proof.
  intros [[Hd _] [E _] _ _ [Pne Hp] _ [N1 N2] [Hn Hl] (_ & Ha & _)] Hs. unfold get_file_info. rewrite Hd, E.
  cbn [mbind option_bind]. rewrite Hp. cbn [mbind option_bind]. rewrite N2, Ha, N1. do 2 f_equal.
  destruct k; cbn [gone found_as]; [|by rewrite take_ge by (unfold FS_HANDLE_MAX_FILENAME_SIZE; lia)..].
  by rewrite (stat_file stat64 path nm isdir size) by auto.
Qed.

Lemma round_exact k isdir size ctx d p e path nm ev f l1 l3 : about ctx d p e path nm ev ->
  (k = Creation -> stat64 (path ++ [47] ++ nm) = Some (isdir, size)) -> db_ok d (l1 ++ p :: l3) ->
  exists ctx' d' f', round mal stat64 realpath allocated k ev ctx None f = Some (ctx', e_next e, f') /\
    outcome k isdir size nm d e ctx ctx' /\ fs_db ctx' = Some d' /\ step_ok mal d d'.
Proof.
  intros A Hs H. destruct (body_exact k isdir size ctx d p e path nm ev A) as (c & send & Eb & O).
  pose proof A as [[Hd R] [E Lv] [_ Hw] Only _ _ _ _ (_ & _ & _ & Hn)].
  destruct (body_spec mal k p (found_as isdir size k nm) d ctx Hd R Hn) as (c1 & s1 & d1 & Eb1 & Hd1 & S & _); [by eexists|].
  rewrite Eb in Eb1. injection Eb1 as <- <-.
  unfold round, entry_by_wd. rewrite Hd. unfold get_entry_by_wd.
  rewrite (walk_list _ d _ [] _ _ H eq_refl (ok_list _ _ H)). cbn [mbind option_bind].
  assert (first_of (d_pool d) (fun e => live e && (e_wd e =? wd ev)) (l1 ++ p :: l3) = Some p) as ->.
  { destruct (first_of _ _ _) as [q|] eqn:F.
    - destruct (first_of_some _ _ _ _ F) as (_ & _ & e' & _ & E' & P & _). bprop. f_equal. by apply (Only q e').
    - assert (p ∈ l1 ++ p :: l3) as Hin by (apply elem_of_app; right; left).
      pose proof (first_of_none _ _ _ _ _ F Hin E) as P. cbv beta in P. by rewrite Lv, Hw, Z.eqb_refl in P. }
  rewrite (info_exact k isdir size ctx d p e path nm ev f A Hs). cbn [mbind option_bind]. rewrite Eb. cbn [mbind option_bind].
  rewrite Hd1. destruct S as (R1 & N1 & K). destruct (K p e E) as (e' & E' & En). rewrite E'. cbn [mbind option_bind].
  eexists _, d1, _. rewrite En. split; [done|]. split; [exact O|]. split; [|done].
  destruct send as [[m h]|]; [by destruct c|done].
Qed.

(** C35: one event changes and announces exactly the object it is about.  For a
    watched folder of an open session, a file whose name holds no slash, and
    enough memory: a creation leaves everything alone when the folder has a
    live object of that name (as when the host sent it), and otherwise adds
    exactly one object of that name, kind and size under the folder, found by
    its handle, and announces that handle; a modification announces the object
    of that name and changes nothing; a deletion marks that object, removes its
    watch and announces it; and an unknown name changes nothing. *)
Theorem event_exact k isdir sz ctx d p e path nm ev f : about ctx d p e path nm ev ->
  (k = Creation -> stat64 (path ++ [47] ++ nm) = Some (isdir, sz)) ->
  exists ctx' f', run_loop mal stat64 realpath allocated k ev (ctx, f) = Some (ctx', f') /\
    outcome k isdir sz nm d e ctx ctx'.
Proof.
  intros A Hs. pose proof A as [[Hd R] [E Lv] _ _ _ _ _ _ _]. destruct (reachable_ok mal d R) as (l & H & _).
  assert (p ∈ l) as Hin by (apply (ok_dom _ _ H); by eexists). apply list_elem_of_split in Hin as (l1 & l3 & ->).
  destruct (round_exact k isdir sz ctx d p e path nm ev f l1 l3 A Hs H) as (ctx' & d' & f' & Er & O & Hd' & S).
  exists ctx', f'. split; [|done]. unfold run_loop, loop_fuel. cbn [fst snd]. rewrite Hd.
  cbn [rounds]. rewrite Er. cbn [mbind option_bind]. destruct (e_next e) as [q|] eqn:En; [|done].
  pose proof (linked_suffix _ _ _ _ (ok_list _ _ H)) as [o (Eo & e0 & E0 & Hl3)].
  assert (e0 = e) as -> by congruence. rewrite En in Hl3. pose proof (linked_step mal d d' _ _ S Hl3) as Hl'.
  assert (ahead d' (Some q) l3) as Ha.
  { destruct S as (R' & _). destruct (reachable_ok mal d' R') as (l' & H' & _). destruct l3 as [|r l4]; [done|].
    assert (r = q) as -> by (destruct Hl' as ([= ->] & _); done).
    destruct (cursor_suffix d' l' q H') as (l5 & l6 & -> & H6); [by destruct Hl' as (_ & e1 & -> & _)|].
    assert (q :: l6 = q :: l4) as [= ->] by by eapply linked_same. by exists l5. }
  assert (size (d_pool d) <> 0)%nat as Hz.
  { pose proof (pool_size d _ H) as Hz. rewrite length_app in Hz. cbn [length] in Hz. lia. }
  destruct (size (d_pool d)) as [|n]; [done|]. cbn [rounds].
  rewrite (round_over k ev ctx' d' q f' l3 Hd' Ha); [done|]. intros r e' Hr Er'.
  destruct (live e' && (e_wd e' =? wd ev)) eqn:W; [|done]. apply andb_true_iff in W as [W1 W2%Z.eqb_eq].
  pose proof (outcome_only k isdir sz ctx d p e path nm ev ctx' d' A O Hd' r e' Er' W1 W2) as ->.
  pose proof (ok_nodup _ _ H) as Nd. apply NoDup_app in Nd as (_ & _ & Nd). by apply NoDup_cons in Nd as [? _].
Qed.
End Exact.

(** The folder of [demo_db], watched. *)
Definition watched_db : option fs_handles_db := demo_db ≫= run_op always (SetWatch 1022 5).
Definition demo_event (mask : Z) (nm : list Z) : inotify_event := mkevent 5 mask 16 (nm ++ replicate (16 - length nm) 0).

Lemma watched_reachable : exists d, watched_db = Some d /\ reachable always d.
Proof.
  destruct demo_reachable as (d & E & R). unfold watched_db. rewrite E. cbn [mbind option_bind].
  destruct (run_op always (SetWatch 1022 5) d) as [d'|] eqn:E'.
  - exists d'. split; [done|]. apply (reach_step always d (SetWatch 1022 5)); [done| |done].
    vm_compute in E. injection E as <-. by eexists.
  - vm_compute in E. injection E as <-. vm_compute in E'. discriminate E'.
Qed.

Lemma demo_about d nm mask : watched_db = Some d -> reachable always d -> Forall (fun c => 47 < c) nm -> (length nm < 16)%nat ->
  about always inl (fun _ => true) (demo_ctx (Some d)) d 1022 (mkentry 1 0 0xFFFF0001 [100] 1 0 0 5 (Some 1023))
    (cstr "/mnt/d") nm (demo_event mask nm).
Proof.
  intros E R Hn Hl. vm_compute in E. injection E as E.
  assert (forall n k, to_nul (take n (nm ++ replicate k 0)) = take n nm) as T.
  { intros n k. revert n. clear -Hn. induction Hn as [|c nm Hc Hn IH]; intros n; [by destruct n, k|].
    destruct n as [|n]; [done|]. cbn [app take to_nul]. rewrite (proj2 (Z.eqb_neq c 0)) by lia. by rewrite IH. }
  split.
  - done.
  - rewrite <- E. by split.
  - done.
  - intros q e' Eq Lv Ew.
    assert (negb (live e' && (e_wd e' =? 5)) || (q =? 1022) = true) as M.
    { apply (pool_check (fun q e => negb (live e && (e_wd e =? 5)) || (q =? 1022)) (d_pool d)); [|done].
      rewrite <- E. vm_compute. reflexivity. }
    rewrite Lv, Ew in M. by apply Z.eqb_eq.
  - split; [done|]. rewrite <- E. vm_compute. reflexivity.
  - done.
  - unfold demo_event. cbn [len name]. split.
    + rewrite <- (take_ge (nm ++ replicate (16 - length nm) 0) 16) by (rewrite length_app, length_replicate; lia).
      rewrite T, take_ge by lia. done.
    + change (Z.to_nat 16) with 16%nat. rewrite T, take_ge by lia. done.
  - split; [|lia]. eapply Forall_impl; [exact Hn|]. intros c Hc Ec. subst. lia.
  - split_and!; [done|done|rewrite <- E; vm_compute; reflexivity|rewrite <- E; vm_compute; reflexivity].
Qed.

Lemma event_exact_witness : exists d ctx' f', watched_db = Some d /\
  run_loop always (fun _ => Some (false, 7)) inl (fun _ => true) Creation (demo_event IN_CREATE [97]) (demo_ctx (Some d), mkfound false [] 0) =
    Some (ctx', f') /\ events ctx' = [(MTP_EVENT_OBJECT_ADDED, 3)].
Proof.
  destruct watched_reachable as (d & E & R). exists d.
  destruct (event_exact always (fun _ => Some (false, 7)) inl (fun _ => true) Creation false 7 (demo_ctx (Some d)) d 1022 _ (cstr "/mnt/d")
    [97] (demo_event IN_CREATE [97]) (mkfound false [] 0) (demo_about d [97] IN_CREATE E R ltac:(by repeat constructor) ltac:(cbn; lia)))
    as (ctx' & f' & Er & O); [done|].
  exists ctx', f'. split; [exact E|]. split; [exact Er|]. vm_compute in E. injection E as E.
  destruct O as [(q & eq & Eq & Nq & _)|(_ & q & d' & _ & _ & _ & _ & ->)].
  - exfalso. cbn [e_handle e_storage] in Nq.
    assert (negb (named [97] 1 0xFFFF0001 eq) = true) as M; [|by rewrite Nq in M].
    apply (pool_check (fun _ e => negb (named [97] 1 0xFFFF0001 e)) (d_pool d) ltac:(rewrite <- E; vm_compute; reflexivity) q). done.
  - rewrite <- E. reflexivity.
Defined.

(** A folder that is there, in a file system whose other names are missing. *)
Lemma watcher_safe_witness : exists d ctx' entry' f', watched_db = Some d /\
  round always demo_stat demo_real (fun _ => true) Creation (demo_event IN_CREATE (cstr "new")) (demo_ctx (Some d)) None (mkfound false [] 0) =
    Some (ctx', entry', f') /\ (length (events ctx') <= 1)%nat.
Proof.
  destruct watched_reachable as (d & E & R).
  destruct (watcher_safe always demo_stat demo_real (fun _ => true) Creation (demo_event IN_CREATE (cstr "new")) (size (d_pool d)) 0
    (demo_ctx (Some d)) d None (mkfound false [] 0)) as (_ & _ & Hs).
  - by apply (watch_start _ _ _ _ _ _ _ _ d).
  - done.
  - vm_compute in E. injection E as <-. vm_compute. reflexivity.
  - destruct Hs as (ctx' & d' & en & f' & Er & (_ & _ & _ & send & Ev & Hl & _) & _).
    + intros (p & Ep & _ & Cr). vm_compute in E. injection E as <-. vm_compute in Ep. injection Ep as <-. vm_compute in Cr. discriminate Cr.
    + exists d, ctx', en, f'. split; [exact E|]. split; [exact Er|]. rewrite Ev. exact Hl.
Defined.
