(* ===== verification/MtpInotifyBuffer.v ===== *)
(** * The events of one read

    The buffer the kernel fills is taken apart into its events, in order; and
    the places where the watcher is not what it should be. *)

From Stdlib Require Import Ascii String.
From S2P Require Import Prelude CString MtpHash MtpDb MtpTable MtpPath MtpScan MtpStorage MtpMount MtpData MtpDataset MtpInotify MtpInotifyProps.

(** ** What the kernel writes *)

(** An event: its name is padded with zeros, at least one, or absent. *)
Record kernel_event := mkkernel { k_wd : Z; k_mask : Z; k_cookie : Z; k_name : list Z; k_pad : nat }.
Definition k_text (k : kernel_event) : list Z := k_name k ++ replicate (k_pad k) 0.
Definition k_bytes (k : kernel_event) : list Z :=
  le_bytes 4 (u32 (k_wd k)) ++ le_bytes 4 (k_mask k) ++ le_bytes 4 (k_cookie k) ++ le_bytes 4 (strlen (k_text k)) ++ k_text k.
Definition kernel_ok (k : kernel_event) : Prop :=
  is_i32 (k_wd k) /\ is_u32 (k_mask k) /\ is_u32 (k_cookie k) /\ Forall (fun c => c <> 0) (k_name k) /\
  (k_name k = [] <-> k_pad k = O).
Definition event_of (k : kernel_event) : inotify_event := mkevent (k_wd k) (k_mask k) (strlen (k_text k)) (k_text k).

(** The events that pass the sanity check, from a position on: those with a
    name that end before the end of the buffer. *)
Fixpoint delivered (pos : Z) (ks : list kernel_event) : list kernel_event :=
  match ks with
  | [] => []
  | k :: ks =>
      let pos := pos + strlen (k_bytes k) in
      (if negb (strlen (k_text k) =? 0) && (pos <? INOTIFY_RD_BUF_SIZE) then [k] else []) ++ delivered pos ks
  end.

Lemma k_size k : strlen (k_bytes k) = EVENT_SIZE + strlen (k_text k).
Proof. unfold k_bytes, EVENT_SIZE, strlen. rewrite !length_app, !le_bytes_length. lia. Qed.

(** ** Events are read by what they say *)
Definition same_event (a b : inotify_event) : Prop :=
  wd a = wd b /\ mask a = mask b /\ len a = len b /\ to_nul (name a) = to_nul (name b) /\
  to_nul (take (Z.to_nat (len a)) (name a)) = to_nul (take (Z.to_nat (len b)) (name b)).

Section Same.
Context (mal : nat -> bool) (stat64 : list Z -> option (bool * Z)) (realpath : list Z -> list Z + Z).
Context (allocated : list Z -> bool).

Lemma round_same k a b ctx entry f : same_event a b ->
  round mal stat64 realpath allocated k a ctx entry f = round mal stat64 realpath allocated k b ctx entry f.
Proof.
  intros (Ew & _ & _ & En & Et). unfold round. rewrite Ew. destruct (entry_by_wd (wd b) entry ctx) as [o|]; [|done].
  cbn [mbind option_bind].
  assert (get_file_info stat64 realpath allocated a o f (gone k) ctx = get_file_info stat64 realpath allocated b o f (gone k) ctx) as ->;
    [|done]. unfold get_file_info. by rewrite En, Et.
Qed.

Lemma loop_same k a b s : same_event a b ->
  run_loop mal stat64 realpath allocated k a s = run_loop mal stat64 realpath allocated k b s.
Proof.
  intros E. unfold run_loop. generalize (loop_fuel (fst s)) as n. generalize (fst s) as ctx, (snd s) as f, (@None Z) as entry.
  intros ctx f entry n. revert ctx f entry. induction n as [|n IH]; intros ctx f entry; [done|]. cbn [rounds]. rewrite (round_same k a b) by done.
  destruct (round _ _ _ _ k b ctx entry f) as [[[c [p|]] f']|]; [apply IH|done|done].
Qed.

Lemma event_same a b s : same_event a b ->
  handle_event mal stat64 realpath allocated s a = handle_event mal stat64 realpath allocated s b.
Proof.
  intros E. pose proof E as (_ & Em & _). unfold handle_event, masked. rewrite Em.
  rewrite (loop_same Creation a b s) by done. destruct (if _ || _ then _ else _) as [s1|]; [|done]. cbn [mbind option_bind].
  rewrite (loop_same Modification a b s1) by done. destruct (if negb _ then _ else _) as [s2|]; [|done]. cbn [mbind option_bind].
  by rewrite (loop_same Deletion a b s2).
Qed.

(** ** The buffer *)
Lemma to_nul_padded nm pad rest : Forall (fun c => c <> 0) nm -> pad <> O -> to_nul ((nm ++ replicate pad 0) ++ rest) = nm.
Proof.
  intros Hn Hp. rewrite <- app_assoc. induction Hn as [|c nm Hc Hn IH]; [by destruct pad|].
  cbn [app to_nul]. rewrite (proj2 (Z.eqb_neq c 0)) by done. by rewrite IH.
Qed.

Lemma event_read pre k rest : kernel_ok k -> strlen (k_text k) < 2 ^ 31 ->
  event_at (pre ++ k_bytes k ++ rest) (strlen pre) =
    Some (mkevent (k_wd k) (k_mask k) (strlen (k_text k)) (k_text k ++ rest)).
Proof.
  intros (Hw & Hm & Hc & _) Hl. unfold event_at, k_bytes. rewrite <- !app_assoc.
  pose proof (u32_range (k_wd k)) as Hu. unfold is_u32, is_i32 in *.
  rewrite peek_at by (change (2 ^ (8 * Z.of_nat 4)) with 4294967296; lia). cbn [mbind option_bind].
  replace (strlen pre + 4) with (strlen (pre ++ le_bytes 4 (u32 (k_wd k)))) by (rewrite strlen_app; unfold strlen; rewrite le_bytes_length; lia).
  rewrite (app_assoc pre). rewrite peek_at by (change (2 ^ (8 * Z.of_nat 4)) with 4294967296; lia). cbn [mbind option_bind].
  replace (strlen pre + 12) with (strlen (((pre ++ le_bytes 4 (u32 (k_wd k))) ++ le_bytes 4 (k_mask k)) ++ le_bytes 4 (k_cookie k)))
    by (rewrite !strlen_app; unfold strlen; rewrite !le_bytes_length; lia).
  rewrite (app_assoc (pre ++ _)), (app_assoc ((pre ++ _) ++ _)).
  rewrite peek_at by (change (2 ^ (8 * Z.of_nat 4)) with 4294967296; unfold strlen in *; lia). cbn [mbind option_bind]. f_equal.
  f_equal; [unfold i32, u32; Z.to_euclidean_division_equations; lia|].
  rewrite app_assoc. apply drop_app_length'. rewrite !length_app, !le_bytes_length. unfold EVENT_SIZE, strlen. lia.
Qed.

Lemma read_same k rest : kernel_ok k -> strlen (k_text k) <> 0 ->
  same_event (mkevent (k_wd k) (k_mask k) (strlen (k_text k)) (k_text k ++ rest)) (event_of k).
Proof.
  intros (_ & _ & _ & Hn & Hp) Hl. assert (k_pad k <> O) as Hpad.
  { intros E. apply Hl. unfold k_text. by rewrite (proj2 Hp E), E. }
  unfold event_of, same_event. cbn [wd mask len name]. split_and!; try done.
  - pose proof (to_nul_padded _ _ [] Hn Hpad) as E. rewrite app_nil_r in E. unfold k_text.
    by rewrite E, to_nul_padded.
  - unfold strlen. rewrite Nat2Z.id. by rewrite take_app_length, take_ge by lia.
Qed.

Lemma events_run fuel ks pre pad s : Forall kernel_ok ks ->
  strlen (pre ++ concat (map k_bytes ks)) <= INOTIFY_RD_BUF_SIZE -> (length ks < fuel)%nat ->
  handle_events mal stat64 realpath allocated fuel (pre ++ concat (map k_bytes ks) ++ pad)
    (strlen (pre ++ concat (map k_bytes ks))) (strlen pre) s =
  foldM (handle_event mal stat64 realpath allocated) (map event_of (delivered (strlen pre) ks)) s.
Proof.
  intros Hk. revert pre s fuel. induction Hk as [|k ks Hk Hks IH]; intros pre s fuel Hl Hf; (destruct fuel as [|fuel]; [lia|]).
  - cbn [handle_events]. cbn [map concat app]. rewrite app_nil_r. by rewrite Z.ltb_irrefl.
  - cbn [map concat handle_events] in *. pose proof (k_size k) as Es. unfold EVENT_SIZE in Es.
    assert (strlen (pre ++ k_bytes k ++ concat (map k_bytes ks)) = strlen pre + strlen (k_bytes k) + strlen (concat (map k_bytes ks))) as El
      by (rewrite !strlen_app; lia).
    assert (0 <= strlen pre /\ 0 <= strlen (k_text k) /\ 0 <= strlen (concat (map k_bytes ks))) as (P1 & P2 & P3) by (unfold strlen; lia).
    unfold INOTIFY_RD_BUF_SIZE in *. rewrite (proj2 (Z.ltb_lt (strlen pre) (strlen (pre ++ _)))) by lia.
    rewrite (proj2 (Z.ltb_lt (strlen pre) (32 * 1024))) by lia. cbn [andb].
    rewrite <- app_assoc. rewrite (event_read pre k (concat (map k_bytes ks) ++ pad)) by (done || lia). cbn [mbind option_bind].
    cbn [len]. unfold event_fits, EVENT_SIZE, INOTIFY_RD_BUF_SIZE. cbn [len].
    rewrite (u32_small (16 + strlen (k_text k))) by (unfold is_u32; lia).
    rewrite (u32_small (strlen pre + _)) by (unfold is_u32; lia). rewrite i32_small by (unfold is_i32; lia).
    cbn [delivered]. unfold INOTIFY_RD_BUF_SIZE. rewrite <- Es.
    assert (forall s1, handle_events mal stat64 realpath allocated fuel (pre ++ k_bytes k ++ concat (map k_bytes ks) ++ pad)
        (strlen (pre ++ k_bytes k ++ concat (map k_bytes ks))) (strlen pre + strlen (k_bytes k)) s1 =
      foldM (handle_event mal stat64 realpath allocated) (map event_of (delivered (strlen pre + strlen (k_bytes k)) ks)) s1) as G.
    { intros s1. specialize (IH (pre ++ k_bytes k) s1 fuel). rewrite <- !app_assoc in IH.
      rewrite (strlen_app pre (k_bytes k)) in IH. apply IH; [lia|cbn [length] in Hf; lia]. }
    destruct (Z.eqb_spec (strlen (k_text k)) 0) as [Ez|Ez]; cbn [negb andb app map foldM]; [apply G|].
    destruct (strlen pre + strlen (k_bytes k) <? 32 * 1024); cbn [app map foldM]; [|apply G].
    rewrite (event_same _ (event_of k)) by by apply read_same.
    destruct (handle_event _ _ _ _ s (event_of k)) as [s1|]; [apply G|done].
Qed.

(** Nothing is left out of a read of named events that does not fill the
    buffer. *)
Lemma delivered_all pos ks : Forall (fun k => k_text k <> []) ks -> pos + strlen (concat (map k_bytes ks)) < INOTIFY_RD_BUF_SIZE ->
  delivered pos ks = ks.
Proof.
  intros H. revert pos. induction H as [|k ks Hk _ IH]; intros pos; [done|]. cbn [map concat delivered]. rewrite strlen_app.
  intros Hl. pose proof (strlen_nonneg (concat (map k_bytes ks))). rewrite IH by lia.
  rewrite (proj2 (Z.eqb_neq _ 0)) by (intros E; destruct (k_text k); [done|unfold strlen in E; cbn [length] in E; lia]). rewrite (proj2 (Z.ltb_lt _ _)) by lia. done.
Qed.

(** C36: one read handles the kernel's events, in their order.  For any events
    that fit the buffer, the loop over the bytes they are written in ends and
    is the handling of the delivered ones, each once, one after the other.
    Delivered are all but those without a name, which are about the watched
    folder itself, and one that ends exactly at the last byte of the buffer;
    when every event has a name and the read does not fill the buffer, these
    are all of them. *)
Theorem read_handles_events ks reads s : Forall kernel_ok ks -> strlen (concat (map k_bytes ks)) <= INOTIFY_RD_BUF_SIZE ->
  inotify_thread mal stat64 realpath allocated (Some (concat (map k_bytes ks)) :: reads) s =
    (s ← foldM (handle_event mal stat64 realpath allocated) (map event_of (delivered 0 ks)) s;
     inotify_thread mal stat64 realpath allocated reads s) /\
  (Forall (fun k => k_text k <> []) ks -> strlen (concat (map k_bytes ks)) < INOTIFY_RD_BUF_SIZE -> delivered 0 ks = ks).
Proof.
  intros Hk Hl. split; [|by intros; apply delivered_all]. cbn [inotify_thread]. unfold buffer_of.
  assert (length ks < events_fuel)%nat as Hf.
  { enough (length ks <= length (concat (map k_bytes ks)))%nat by (unfold strlen in Hl; unfold events_fuel; lia).
    clear. induction ks as [|k ks IH]; [done|]. cbn [map concat length]. rewrite length_app.
    pose proof (k_size k). unfold EVENT_SIZE, strlen in *. lia. }
  pose proof (events_run events_fuel ks [] (replicate (Z.to_nat INOTIFY_RD_BUF_SIZE - length (concat (map k_bytes ks))) 0) s Hk Hl Hf) as E.
  rewrite !app_nil_l in E. assert (strlen [] = 0) as Z0 by done. rewrite Z0 in E. by rewrite E.
Qed.
End Same.

Lemma kernel_check k : (-2147483648 <=? k_wd k) && (k_wd k <? 2147483648) && (0 <=? k_mask k) && (k_mask k <? 4294967296) &&
  (0 <=? k_cookie k) && (k_cookie k <? 4294967296) && forallb (fun c => negb (c =? 0)) (k_name k) &&
  Bool.eqb (strlen (k_name k) =? 0) (Z.of_nat (k_pad k) =? 0) = true -> kernel_ok k.
Proof.
  rewrite !andb_true_iff, !Z.leb_le, !Z.ltb_lt. intros [[[[[[[? ?] ?] ?] ?] ?] Hn] He]. unfold kernel_ok, is_i32, is_u32.
  split_and!; try lia.
  - apply Forall_forall. intros c Hc. pose proof (forallb_In _ _ _ Hn Hc) as B. cbv beta in B. by rewrite negb_true_iff, Z.eqb_neq in B.
  - apply Bool.eqb_prop in He. unfold strlen in He. destruct (k_name k), (k_pad k); cbn in *; try done; by split.
Qed.

Lemma read_handles_events_witness : exists d s', watched_db = Some d /\
  inotify_thread always (fun _ => Some (false, 7)) inl (fun _ => true)
    [Some (concat (map k_bytes [mkkernel 5 IN_CREATE 0 [97] 15; mkkernel 9 0x8000 0 [] 0; mkkernel 5 IN_DELETE 0 [97] 15]))]
    (demo_ctx (Some d), mkfound false [] 0) = Some s' /\
  events (fst s') = [(MTP_EVENT_OBJECT_ADDED, 3); (MTP_EVENT_OBJECT_REMOVED, 3)].
Proof.
  destruct watched_reachable as (d & E & _). exists d. eexists. split; [exact E|].
  rewrite (fun A B => proj1 (read_handles_events _ _ _ _ _ _ _ A B)).
  - vm_compute in E. injection E as <-. split; vm_compute; reflexivity.
  - repeat apply Forall_cons_2; try apply Forall_nil_2; apply kernel_check; vm_compute; reflexivity.
  - vm_compute. discriminate.
Defined.

(** ** Where the watcher falls short *)

(** The sanity check compares with [<]: the event that fills the buffer to its
    last byte is dropped. *)
Lemma last_of_full_buffer_lost ks k : strlen (concat (map k_bytes (ks ++ [k]))) = INOTIFY_RD_BUF_SIZE ->
  delivered 0 (ks ++ [k]) = delivered 0 ks.
Proof.
  intros H. assert (forall pos, pos + strlen (concat (map k_bytes (ks ++ [k]))) = INOTIFY_RD_BUF_SIZE ->
    delivered pos (ks ++ [k]) = delivered pos ks) as G; [|by apply G].
  clear H. induction ks as [|j ks IH]; intros pos; cbn [app map concat delivered].
  - rewrite app_nil_r. intros ->. by rewrite Z.ltb_irrefl, andb_false_r.
  - rewrite strlen_app. intros H. rewrite IH by lia. done.
Qed.

(** A file that is gone when [stat64] looks (a temporary file) has no name: an
    object without a name is added and announced. *)
Lemma vanished_file_announced : exists s', (d ← watched_db;
    handle_event always (fun _ => None) inl (fun _ => true) (demo_ctx (Some d), mkfound false [] 0) (demo_event IN_CREATE (cstr "tmp"))) = Some s' /\
  events (fst s') = [(MTP_EVENT_OBJECT_ADDED, 3)] /\
  (d ← fs_db (fst s'); e_name <$> d_pool d !! 1020) = Some [].
Proof. eexists. split; [vm_compute; reflexivity|]. split; vm_compute; reflexivity. Qed.

(** The scan of a folder leaves hidden files out, the watcher does not. *)
Lemma hidden_file_announced : listed false (mkfound false (cstr ".cache") 7) = false /\ exists s', (d ← watched_db;
    handle_event always (fun _ => Some (false, 7)) inl (fun _ => true) (demo_ctx (Some d), mkfound false [] 0)
      (demo_event IN_CREATE (cstr ".cache"))) = Some s' /\ events (fst s') = [(MTP_EVENT_OBJECT_ADDED, 3)].
Proof. split; [reflexivity|]. eexists. split; vm_compute; reflexivity. Qed.

(** When a watched folder was removed together with the folder above it, the
    event of its last file crashes in [build_full_path]. *)
Lemma removed_tree_crashes : (d ← watched_db;
    handle_event always (fun _ => None) (fun _ => inr ENOENT) (fun _ => true) (demo_ctx (Some d), mkfound false [] 0)
      (demo_event IN_DELETE [99])) = None.
Proof. vm_compute. reflexivity. Qed.

(** Without [inotify], or with it switched off, nothing is watched. *)
Lemma no_watch_added inotify_fd no_inotify add path :
  inotify_fd = -1 \/ no_inotify <> 0 -> inotify_handler_addwatch inotify_fd no_inotify add path = -1.
Proof.
  unfold inotify_handler_addwatch. intros [->|H]; [done|]. rewrite (proj2 (Z.eqb_neq no_inotify 0)) by done.
  by destruct (negb _).
Qed.
