(* ===== verification/MtpDescriptors.v ===== *)
(** * USB descriptors of the MTP gadget

    What [usb_gadget.c] describes itself with to the kernel and the host: the
    descriptor structures, the blocks written in GadgetFS and in FunctionFS
    mode, and the table of strings.  The build is the one of [buildconf.h]: full
    and high speed, kernels with the second FunctionFS format. *)

From Stdlib Require Import Ascii String.
From S2P Require Import Prelude CString MtpData MtpUsb MtpHash MtpDb MtpTable MtpStorage MtpDataset MtpConfig MtpConfigProps MtpConfigFile MtpDaemon.

(** ** Structures and constants *)
Definition USB_DT_DEVICE : Z := 1.
Definition USB_DT_CONFIG : Z := 2.
Definition USB_DT_INTERFACE : Z := 4.
Definition USB_DT_ENDPOINT : Z := 5.
Definition USB_DIR_OUT : Z := 0.
Definition USB_DIR_IN : Z := 0x80.
Definition USB_CONFIG_ATT_ONE : Z := 0x80.
Definition USB_ENDPOINT_XFER_BULK : Z := 2.
Definition USB_ENDPOINT_XFER_INT : Z := 3.

Definition EP_INT_MODE : Z := 0.
Definition EP_BULK_MODE : Z := 1.
Definition EP_IN_DIR : Z := 0.
Definition EP_OUT_DIR : Z := 2.
Definition EP_HS_MODE : Z := 4.
Definition EP_SS_MODE : Z := 8.
Definition CONFIG_VALUE : Z := 1.

Definition STRINGID_MANUFACTURER : Z := 1.
Definition STRINGID_PRODUCT : Z := 2.
Definition STRINGID_SERIAL : Z := 3.
Definition STRINGID_CONFIG_HS : Z := 4.
Definition STRINGID_CONFIG_LS : Z := 5.
Definition STRINGID_INTERFACE : Z := 6.
Definition STRINGID_MAX : Z := 7.

Record usb_config_descriptor := mkconfig {
  c_bLength : Z; c_bDescriptorType : Z; wTotalLength : Z; bNumInterfaces : Z; bConfigurationValue : Z; iConfiguration : Z;
  c_bmAttributes : Z; bMaxPower : Z }.
Record usb_device_descriptor := mkdevice {
  d_bLength : Z; d_bDescriptorType : Z; bcdUSB : Z; bDeviceClass : Z; bDeviceSubClass : Z; bDeviceProtocol : Z;
  bMaxPacketSize0 : Z; idVendor : Z; idProduct : Z; bcdDevice : Z; iManufacturer : Z; iProduct : Z; iSerialNumber : Z;
  bNumConfigurations : Z }.
Record usb_interface_descriptor := mkinterface {
  i_bLength : Z; i_bDescriptorType : Z; bInterfaceNumber : Z; bAlternateSetting : Z; bNumEndpoints : Z;
  bInterfaceClass : Z; bInterfaceSubClass : Z; bInterfaceProtocol : Z; iInterface : Z }.
Record usb_endpoint_descriptor := mkendpoint {
  e_bLength : Z; e_bDescriptorType : Z; bEndpointAddress : Z; e_bmAttributes : Z; wMaxPacketSize : Z; bInterval : Z }.

(** The structures in memory, packed. *)
Definition le16 (v : Z) : list Z := [Z.land v 0xFF; Z.land (Z.shiftr v 8) 0xFF].
Definition config_bytes (c : usb_config_descriptor) : list Z :=
  [c_bLength c; c_bDescriptorType c] ++ le16 (wTotalLength c) ++
  [bNumInterfaces c; bConfigurationValue c; iConfiguration c; c_bmAttributes c; bMaxPower c].
Definition device_bytes (d : usb_device_descriptor) : list Z :=
  [d_bLength d; d_bDescriptorType d] ++ le16 (bcdUSB d) ++ [bDeviceClass d; bDeviceSubClass d; bDeviceProtocol d; bMaxPacketSize0 d] ++
  le16 (idVendor d) ++ le16 (idProduct d) ++ le16 (bcdDevice d) ++ [iManufacturer d; iProduct d; iSerialNumber d; bNumConfigurations d].
Definition interface_bytes (i : usb_interface_descriptor) : list Z :=
  [i_bLength i; i_bDescriptorType i; bInterfaceNumber i; bAlternateSetting i; bNumEndpoints i; bInterfaceClass i;
   bInterfaceSubClass i; bInterfaceProtocol i; iInterface i].
Definition endpoint_bytes (e : usb_endpoint_descriptor) : list Z :=
  [e_bLength e; e_bDescriptorType e; bEndpointAddress e; e_bmAttributes e] ++ le16 (wMaxPacketSize e) ++ [bInterval e].

(** ** The descriptors *)
Definition fill_config_descriptor (total_size : Z) (hs : bool) : usb_config_descriptor :=
  mkconfig 9 USB_DT_CONFIG (u16 (9 + total_size)) 1 CONFIG_VALUE (if hs then STRINGID_CONFIG_HS else STRINGID_CONFIG_LS)
    USB_CONFIG_ATT_ONE 1.

Definition fill_dev_descriptor (c : mtp_usb_cfg) : usb_device_descriptor :=
  mkdevice 18 USB_DT_DEVICE 0 (usb_class c) (usb_subclass c) (usb_protocol c) 0 (usb_vendor_id c) (usb_product_id c)
    (usb_dev_version c) STRINGID_MANUFACTURER STRINGID_PRODUCT STRINGID_SERIAL 1.

Definition fill_if_descriptor (c : mtp_usb_cfg) : usb_interface_descriptor :=
  mkinterface 9 USB_DT_INTERFACE 0 0 3 (usb_class c) (usb_subclass c) (usb_protocol c)
    (if negb (usb_functionfs_mode c =? 0) then 1 else STRINGID_INTERFACE).

Definition flag (flags bit : Z) : bool := negb (Z.land flags bit =? 0).
Definition fill_ep_descriptor (index flags : Z) : usb_endpoint_descriptor :=
  let bEndpointAddress := if flag flags EP_OUT_DIR then Z.lor USB_DIR_OUT index else Z.lor USB_DIR_IN index in
  if flag flags EP_BULK_MODE then
    let size := 64 in
    let size := if flag flags EP_HS_MODE then 512 else size in
    let size := if flag flags EP_SS_MODE then 1024 else size in
    mkendpoint 7 USB_DT_ENDPOINT bEndpointAddress USB_ENDPOINT_XFER_BULK size 0
  else mkendpoint 7 USB_DT_ENDPOINT bEndpointAddress USB_ENDPOINT_XFER_INT 28 6.

(** [EndPointsDesc] of one speed. *)
Record EndPointsDesc := mkendpoints {
  if_desc : usb_interface_descriptor; ep_desc_in : usb_endpoint_descriptor; ep_desc_out : usb_endpoint_descriptor;
  ep_desc_int_in : usb_endpoint_descriptor }.
Definition endpoints_bytes (e : EndPointsDesc) : list Z :=
  interface_bytes (if_desc e) ++ endpoint_bytes (ep_desc_in e) ++ endpoint_bytes (ep_desc_out e) ++ endpoint_bytes (ep_desc_int_in e).
Definition fill_endpoints (c : mtp_usb_cfg) (speed : Z) : EndPointsDesc :=
  mkendpoints (fill_if_descriptor c) (fill_ep_descriptor 1 (Z.lor (Z.lor EP_BULK_MODE EP_IN_DIR) speed))
    (fill_ep_descriptor 2 (Z.lor (Z.lor EP_BULK_MODE EP_OUT_DIR) speed))
    (fill_ep_descriptor 3 (Z.lor (Z.lor EP_INT_MODE EP_IN_DIR) speed)).

(** [usb_cfg], written in GadgetFS mode. *)
Record gadget_block := mkblock {
  cfg_head : Z; cfg_fs : usb_config_descriptor; ep_desc_fs : EndPointsDesc; cfg_hs : usb_config_descriptor;
  ep_desc_hs : EndPointsDesc; dev_desc : usb_device_descriptor }.
Definition cfg_size : Z := 9 + 7 * 3.
Definition usb_config_of (c : mtp_usb_cfg) : gadget_block :=
  mkblock 0 (fill_config_descriptor cfg_size false) (fill_endpoints c 0) (fill_config_descriptor cfg_size true)
    (fill_endpoints c EP_HS_MODE) (fill_dev_descriptor c).
Definition block_bytes (b : gadget_block) : list Z :=
  le_bytes 4 (cfg_head b) ++ config_bytes (cfg_fs b) ++ endpoints_bytes (ep_desc_fs b) ++ config_bytes (cfg_hs b) ++
  endpoints_bytes (ep_desc_hs b) ++ device_bytes (dev_desc b).

(** [usb_ffs_cfg] and [ffs_strings], written in FunctionFS mode. *)
Definition FUNCTIONFS_STRINGS_MAGIC : Z := 2.
Definition FUNCTIONFS_DESCRIPTORS_MAGIC_V2 : Z := 3.
Definition FUNCTIONFS_HAS_FS_DESC : Z := 1.
Definition FUNCTIONFS_HAS_HS_DESC : Z := 2.
Record usb_ffs_cfg := mkffs {
  ffs_magic : Z; ffs_length : Z; ffs_flags : Z; fs_count : Z; hs_count : Z; ffs_desc_fs : EndPointsDesc; ffs_desc_hs : EndPointsDesc }.
Definition usb_ffs_config_of (c : mtp_usb_cfg) : usb_ffs_cfg :=
  mkffs FUNCTIONFS_DESCRIPTORS_MAGIC_V2 80 (Z.lor (Z.lor 0 FUNCTIONFS_HAS_FS_DESC) FUNCTIONFS_HAS_HS_DESC) (1 + 3) (1 + 3)
    (fill_endpoints c 0) (fill_endpoints c EP_HS_MODE).
Definition ffs_bytes (f : usb_ffs_cfg) : list Z :=
  le_bytes 4 (ffs_magic f) ++ le_bytes 4 (ffs_length f) ++ le_bytes 4 (ffs_flags f) ++ le_bytes 4 (fs_count f) ++ le_bytes 4 (hs_count f) ++
  endpoints_bytes (ffs_desc_fs f) ++ endpoints_bytes (ffs_desc_hs f).

(** The header and the code are 18 bytes; [strcpy] into the array of 128 after
    them: [None] when it writes past it. *)
Definition ffs_strings_of (c : mtp_usb_cfg) : option (list Z) :=
  let text := usb_string_interface c ++ [0] in
  let header_length := 16 + 2 + strlen (usb_string_interface c) + 1 in
  string_data ← put_bytes (replicate 128 0) 0 text;
  Some (le_bytes 4 FUNCTIONFS_STRINGS_MAGIC ++ le_bytes 4 header_length ++ le_bytes 4 1 ++ le_bytes 4 1 ++ le_bytes 2 0x0409 ++
        take (length text) string_data).

(** ** Strings *)
Definition MAX_USB_STRING : nat := 16.

(** A slot: its id and its string; [alloc] is whether memory is left. *)
Definition no_string : Z * option (list Z) := (0, None).
Fixpoint add_usb_string (alloc : bool) (i id : Z) (str : option (list Z)) (stringtab : list (Z * option (list Z))) :
    Z * list (Z * option (list Z)) :=
  match stringtab with
  | [] => (-1, [])
  | slot :: rest =>
      if fst slot =? 0 then
        match str with
        | Some s => if alloc then (i, (id, Some s) :: rest) else (-2, (0, None) :: rest)
        | None => (i, (id, snd slot) :: rest)
        end
      else let '(r, rest) := add_usb_string alloc (i + 1) id str rest in (r, slot :: rest)
  end.

(** The strings of [init_usb_mtp_gadget]; [alloc] answers each [malloc]. *)
Definition gadget_strings_of (c : mtp_usb_cfg) : list (Z * option (list Z)) := [
  (STRINGID_MANUFACTURER, Some (usb_string_manufacturer c)); (STRINGID_PRODUCT, Some (usb_string_product c));
  (STRINGID_SERIAL, Some (usb_string_serial c)); (STRINGID_CONFIG_HS, Some (cstr "High speed configuration"));
  (STRINGID_CONFIG_LS, Some (cstr "Low speed configuration")); (STRINGID_INTERFACE, Some (usb_string_interface c));
  (STRINGID_MAX, None) ].
Definition fill_stringtab (alloc : Z -> bool) (c : mtp_usb_cfg) : list (Z * option (list Z)) :=
  fold_left (fun tab s => snd (add_usb_string (alloc (fst s)) 0 (fst s) (snd s) tab)) (gadget_strings_of c)
    (replicate MAX_USB_STRING no_string).

(** The strings before the first slot without one. *)
Fixpoint table_strings (stringtab : list (Z * option (list Z))) : list (Z * list Z) :=
  match stringtab with
  | (id, Some s) :: rest => (id, s) :: table_strings rest
  | _ => []
  end.
Definition string_table (stringtab : list (Z * option (list Z))) : gadget_strings := mkstrings 0x0409 (table_strings stringtab).

(** ** What a host reads *)

(** The descriptors of a text, cut by the length each starts with. *)
Fixpoint cut_descriptors (fuel : nat) (bs : list Z) : option (list (list Z)) :=
  match fuel, bs with
  | _, [] => Some []
  | S fuel, n :: _ =>
      if (2 <=? n) && (n <=? strlen bs) then
        rest ← cut_descriptors fuel (drop (Z.to_nat n) bs); Some (take (Z.to_nat n) bs :: rest)
      else None
  | O, _ => None
  end.

Definition word (lo hi : Z) : Z := lo + 256 * hi.
Definition read_endpoint (bs : list Z) : option usb_endpoint_descriptor :=
  match bs with [l; t; a; m; p0; p1; i] => if t =? USB_DT_ENDPOINT then Some (mkendpoint l t a m (word p0 p1) i) else None | _ => None end.
Definition read_interface (bs : list Z) : option usb_interface_descriptor :=
  match bs with
  | [l; t; n; a; e; c; s; p; i] => if t =? USB_DT_INTERFACE then Some (mkinterface l t n a e c s p i) else None
  | _ => None
  end.
Definition read_config (bs : list Z) : option usb_config_descriptor :=
  match bs with
  | [l; t; w0; w1; n; v; i; m; p] => if t =? USB_DT_CONFIG then Some (mkconfig l t (word w0 w1) n v i m p) else None
  | _ => None
  end.
Definition read_device (bs : list Z) : option usb_device_descriptor :=
  match bs with
  | [l; t; u0; u1; c; s; p; m; v0; v1; r0; r1; b0; b1; im; ip; isn; n] =>
      if t =? USB_DT_DEVICE then Some (mkdevice l t (word u0 u1) c s p m (word v0 v1) (word r0 r1) (word b0 b1) im ip isn n) else None
  | _ => None
  end.

(** A configuration: its interface and the endpoints the interface counts, in
    as many bytes as the configuration says. *)
Definition read_configuration (bs : list Z) : option (usb_config_descriptor * usb_interface_descriptor * list usb_endpoint_descriptor) :=
  ds ← cut_descriptors (length bs) bs;
  match ds with
  | c :: i :: es =>
      c ← read_config c; i ← read_interface i; es ← mapM read_endpoint es;
      if (wTotalLength c =? strlen bs) && (bNumEndpoints i =? Z.of_nat (length es)) then Some (c, i, es) else None
  | _ => None
  end.

(** The block of GadgetFS: a zero, one configuration per speed as long as it
    says, and the device. *)
Definition read_block (bs : list Z) :
    option (list (usb_config_descriptor * usb_interface_descriptor * list usb_endpoint_descriptor) * usb_device_descriptor) :=
  match drop 4 bs with
  | (_ :: _ :: w0 :: w1 :: _) as fs =>
      let n := Z.to_nat (word w0 w1) in
      match drop n fs with
      | (_ :: _ :: v0 :: v1 :: _) as hs =>
          let m := Z.to_nat (word v0 v1) in
          c1 ← read_configuration (take n fs); c2 ← read_configuration (take m hs); d ← read_device (drop m hs);
          if forallb (Z.eqb 0) (take 4 bs) then Some ([c1; c2], d) else None
      | _ => None
      end
  | _ => None
  end.

Lemma word_le16 v : 0 <= v < 65536 -> exists lo hi, le16 v = [lo; hi] /\ word lo hi = v.
Proof.
  intros Hv. eexists _, _. split; [reflexivity|]. unfold word. change 0xFF with (Z.ones 8).
  rewrite !Z.land_ones, Z.shiftr_div_pow2 by lia. change (2 ^ 8) with 256. Z.to_euclidean_division_equations. lia.
Qed.

(** The endpoints of an interface: bulk in and out at the speed's packet size,
    and the interrupt endpoint for the events. *)
Definition endpoints_at (packet : Z) : list usb_endpoint_descriptor :=
  [mkendpoint 7 5 0x81 2 packet 0; mkendpoint 7 5 0x02 2 packet 0; mkendpoint 7 5 0x83 3 28 6].

(** C40: what is written to GadgetFS reads back as the configuration.  For every
    configuration the loader can leave, a host that cuts the block by the
    lengths in it finds the zero, one configuration for full and one for high
    speed, each exactly as long as it says with one interface and the three
    endpoints it counts, on different addresses and with the packet size of its
    speed, and the device with the configured class, vendor, product and
    version. *)
Theorem gadget_block_read c : cfg_ok c ->
  let interface := mkinterface 9 4 0 0 3 (usb_class c) (usb_subclass c) (usb_protocol c)
                     (if negb (usb_functionfs_mode c =? 0) then 1 else 6) in
  read_block (block_bytes (usb_config_of c)) =
    Some ([(mkconfig 9 2 39 1 1 5 0x80 1, interface, endpoints_at 64); (mkconfig 9 2 39 1 1 4 0x80 1, interface, endpoints_at 512)],
          mkdevice 18 1 0 (usb_class c) (usb_subclass c) (usb_protocol c) 0 (usb_vendor_id c) (usb_product_id c) (usb_dev_version c) 1 2 3 1).
Proof.
  intros [(Hv & Hp & Hd) (Hc & Hs & Ho) _ _ _ _ _] interface.
  destruct (word_le16 _ Hv) as (v0 & v1 & Ev & Wv), (word_le16 _ Hp) as (p0 & p1 & Ep & Wp), (word_le16 _ Hd) as (d0 & d1 & Ed & Wd).
  assert (device_bytes (fill_dev_descriptor c) =
    [18; 1; 0; 0; usb_class c; usb_subclass c; usb_protocol c; 0; v0; v1; p0; p1; d0; d1; 1; 2; 3; 1]) as Eb.
  { unfold device_bytes, fill_dev_descriptor. cbn [idVendor idProduct bcdDevice]. by rewrite Ev, Ep, Ed. }
  unfold block_bytes, usb_config_of. cbn [cfg_head cfg_fs ep_desc_fs cfg_hs ep_desc_hs dev_desc]. rewrite Eb, <- Wv, <- Wp, <- Wd.
  unfold interface, fill_endpoints, fill_if_descriptor. destruct (negb _); vm_compute; reflexivity.
Qed.

Lemma gadget_block_read_witness : read_block (block_bytes (usb_config_of default_cfg)) =
  Some ([(mkconfig 9 2 39 1 1 5 0x80 1, mkinterface 9 4 0 0 3 6 1 1 1, endpoints_at 64);
         (mkconfig 9 2 39 1 1 4 0x80 1, mkinterface 9 4 0 0 3 6 1 1 1, endpoints_at 512)],
        mkdevice 18 1 0 6 1 1 0 0x1D6B 0x0100 0x3008 1 2 3 1).
Proof. exact (gadget_block_read default_cfg default_ok). Defined.

(** The FunctionFS block is as long as it says, its counts are those of its
    descriptors, and its flags name the two speeds that are in it. *)
Lemma ffs_block_read c : let f := usb_ffs_config_of c in
  strlen (ffs_bytes f) = ffs_length f /\ ffs_flags f = 3 /\
  (ds ← cut_descriptors 8 (drop 20 (ffs_bytes f)); Some (Z.of_nat (length ds))) = Some (fs_count f + hs_count f) /\
  map (mapM read_endpoint) [map endpoint_bytes [ep_desc_in (ffs_desc_fs f); ep_desc_out (ffs_desc_fs f); ep_desc_int_in (ffs_desc_fs f)];
    map endpoint_bytes [ep_desc_in (ffs_desc_hs f); ep_desc_out (ffs_desc_hs f); ep_desc_int_in (ffs_desc_hs f)]] =
  [Some (endpoints_at 64); Some (endpoints_at 512)].
Proof.
  unfold usb_ffs_config_of, fill_endpoints, fill_if_descriptor. cbv zeta. destruct (negb _); split_and!; vm_compute; reflexivity.
Qed.

(** The interface string of FunctionFS has room for 127 characters; a longer
    one, which the configuration accepts, is copied past the array. *)
Lemma ffs_strings_size c : strlen (usb_string_interface c) <= 127 ->
  let bytes := le_bytes 4 FUNCTIONFS_STRINGS_MAGIC ++ le_bytes 4 (16 + 2 + strlen (usb_string_interface c) + 1) ++ le_bytes 4 1 ++
    le_bytes 4 1 ++ le_bytes 2 0x0409 ++ usb_string_interface c ++ [0] in
  ffs_strings_of c = Some bytes /\ strlen bytes = 16 + 2 + strlen (usb_string_interface c) + 1.
Proof.
  intros Hl. cbv zeta. unfold ffs_strings_of. set (text := usb_string_interface c) in *.
  unfold put_bytes. rewrite (proj2 (Z.leb_le 0 0)), (proj2 (Z.leb_le _ _)) by (rewrite ?strlen_app; unfold strlen in *; cbn [length] in *; rewrite ?length_replicate; lia).
  cbn [andb mbind option_bind]. change (Z.to_nat 0) with 0%nat. rewrite take_0, app_nil_l, take_app_length. split; [done|].
  rewrite !strlen_app. unfold strlen. rewrite !le_bytes_length. cbn [length]. lia.
Qed.

Lemma long_interface_overflows c : 128 <= strlen (usb_string_interface c) -> ffs_strings_of c = None.
Proof.
  intros Hl. unfold ffs_strings_of, put_bytes. change (0 <=? 0) with true. cbn [andb].
  rewrite (proj2 (Z.leb_gt _ _)); [done|]. rewrite strlen_app. unfold strlen in *. rewrite length_replicate. cbn [length]. lia.
Qed.

(** ** The strings the descriptors name *)

(** A string whose copy failed leaves its slot to the next one: the others are
    all in the table, in their order, under their own ids. *)
Lemma string_slots alloc c :
  table_strings (fill_stringtab alloc c) =
  omap (fun s => match s with (id, Some str) => if alloc id then Some (id, str) else None | _ => None end) (gadget_strings_of c).
Proof.
  unfold fill_stringtab, gadget_strings_of, STRINGID_MANUFACTURER, STRINGID_PRODUCT, STRINGID_SERIAL, STRINGID_CONFIG_HS,
    STRINGID_CONFIG_LS, STRINGID_INTERFACE. cbn [fold_left fst snd omap list_omap].
  destruct (alloc 1), (alloc 2), (alloc 3), (alloc 4), (alloc 5), (alloc 6); reflexivity.
Qed.

Lemma ascii_check s : forallb (fun c => (0 <? c) && (c <? 0x80)) s = true -> Forall ascii_ok s.
Proof.
  intros H. apply Forall_forall. intros x Hx. pose proof (forallb_In _ _ _ H Hx) as B. cbv beta in B.
  rewrite andb_true_iff, !Z.ltb_lt in B. exact B.
Qed.

(** Every string a descriptor names is answered.  In GadgetFS mode, with
    memory for the copies and texts in ASCII, the indexes in the device, in both
    configurations and in the interface (and the language at index 0) are all
    known to [usb_gadget_get_string], which answers each with a descriptor of
    the configured text, cut at 126 characters, and of the right length; other
    indexes are refused. *)
Theorem descriptor_strings_answered c buf id : usb_functionfs_mode c = 0 -> 254 <= strlen buf ->
  Forall (Forall ascii_ok) [usb_string_manufacturer c; usb_string_product c; usb_string_serial c; usb_string_interface c] ->
  let table := string_table (fill_stringtab (fun _ => true) c) in
  let d := fill_dev_descriptor c in
  (id ∈ [iManufacturer d; iProduct d; iSerialNumber d; iConfiguration (fill_config_descriptor cfg_size true);
         iConfiguration (fill_config_descriptor cfg_size false); iInterface (fill_if_descriptor c)] ->
   exists str, (id, Some str) ∈ gadget_strings_of c /\
     let text := take 126 str in
     usb_gadget_get_string table id buf =
       Some ([2 * (strlen text + 1); USB_DT_STRING] ++ units_le text ++ drop (2 + 2 * length text) buf, 2 * (strlen text + 1))) /\
  (id <> 0 -> (forall str, (id, Some str) ∉ gadget_strings_of c) -> usb_gadget_get_string table id buf = Some (buf, - EINVAL)).
Proof.
  intros Hm Hb Ht. cbv zeta. set (table := string_table _).
  assert (strings table = [(STRINGID_MANUFACTURER, usb_string_manufacturer c); (STRINGID_PRODUCT, usb_string_product c);
    (STRINGID_SERIAL, usb_string_serial c); (STRINGID_CONFIG_HS, cstr "High speed configuration");
    (STRINGID_CONFIG_LS, cstr "Low speed configuration"); (STRINGID_INTERFACE, usb_string_interface c)]) as Es by exact (string_slots (fun _ => true) c).
  split.
  - intros Hid.
    assert (exists str, (id, Some str) ∈ gadget_strings_of c /\ find (fun s => fst s =? id) (strings table) = Some (id, str) /\
      Forall ascii_ok str /\ id <> 0) as (str & Hin & Hf & Ha & Hz).
    { rewrite !Forall_cons in Ht. destruct Ht as (H1 & H2 & H3 & H4 & _). rewrite Es.
      unfold fill_dev_descriptor, fill_config_descriptor, fill_if_descriptor in Hid. rewrite Hm in Hid. cbn in Hid.
      rewrite !elem_of_cons, elem_of_nil in Hid. unfold gadget_strings_of.
      destruct Hid as [->|[->|[->|[->|[->|[->|[]]]]]]]; eexists; (split; [|split; [reflexivity|split; [first [done|by apply ascii_check]|done]]]);
        rewrite !elem_of_cons; auto 10. }
    exists str. split; [done|]. by apply get_string_ascii.
  - intros Hz Hno. unfold usb_gadget_get_string. rewrite (proj2 (Z.eqb_neq id 0)) by done.
    destruct (find _ (strings table)) as [[i str]|] eqn:F; [|done]. exfalso. apply find_some in F as [Hin Hi].
    cbn [fst] in Hi. apply Z.eqb_eq in Hi as ->. apply (Hno str). rewrite Es, <- list_elem_of_In in Hin. unfold gadget_strings_of.
    rewrite !elem_of_cons, elem_of_nil in Hin. rewrite !elem_of_cons.
    destruct Hin as [[= -> ->]|[[= -> ->]|[[= -> ->]|[[= -> ->]|[[= -> ->]|[[= -> ->]|[]]]]]]]; auto 10.
Qed.

Definition gadget_cfg : mtp_usb_cfg := default_cfg {{ usb_functionfs_mode := 0 }}.
Lemma descriptor_strings_answered_witness :
  fst <$> usb_gadget_get_string (string_table (fill_stringtab (fun _ => true) gadget_cfg)) (iInterface (fill_if_descriptor gadget_cfg))
    (replicate 254 0) = Some ([8; 3; 77; 0; 84; 0; 80; 0] ++ replicate 246 0).
Proof.
  destruct (descriptor_strings_answered gadget_cfg (replicate 254 0) (iInterface (fill_if_descriptor gadget_cfg))) as [H _].
  - reflexivity.
  - vm_compute. discriminate.
  - do 4 (apply Forall_cons_2; [apply ascii_check; reflexivity|]); apply Forall_nil_2.
  - assert (6 ∈ [1; 2; 3; 4; 5; 6]) as Hid by (rewrite !elem_of_cons; auto 10). specialize (H Hid). destruct H as (str & Hin & E).
    rewrite E. unfold gadget_strings_of in Hin. rewrite !elem_of_cons, elem_of_nil in Hin.
    assert (str = cstr "MTP") as ->; [|vm_compute; reflexivity].
    destruct Hin as [Hin|[Hin|[Hin|[Hin|[Hin|[Hin|[Hin|[]]]]]]]]; apply (f_equal fst) in Hin as Hi; try discriminate Hi;
      apply (f_equal snd) in Hin; by injection Hin as ->.
Defined.
