(* ===== verification/MtpGadget.v ===== *)
(** * The USB gadget of the MTP responder

    [usb_gadget.c]: setting the gadget up, the requests on endpoint 0, the
    event loops of the two kernel interfaces, and taking it down.

    The system is what it was asked: the descriptors that are open, the blocks
    allocated and not freed, and the list of actions.  The answers of its calls
    are functions of how many calls were made before ([o_time]). *)

From Stdlib Require Import Ascii String.
From S2P Require Import Prelude CString MtpData MtpUsb MtpHash MtpDb MtpTable MtpStorage MtpDataset MtpConfig MtpDescriptors.

(** ** The system *)
Inductive action :=
| Opened (path : list Z) (fd : Z)
| Closed (fd : Z)
| Written (fd : Z) (bytes : list Z)
| Acked
| Stalled
| ClearedHalt (fd : Z)
| ThreadStarted
| ThreadCancelled
| ThreadJoined
| ThreadSignalled.

Record system := mksystem { o_fds : list Z; o_next : Z; o_live : Z; o_time : nat; o_trace : list action }.

(** ** The gadget *)
Definition EP_DESCRIPTOR_IN : nat := 0.
Definition EP_DESCRIPTOR_OUT : nat := 1.
Definition EP_DESCRIPTOR_INT_IN : nat := 2.
Definition EP_NB_OF_DESCRIPTORS : nat := 3.

(** [ep_config] holds the bytes of the [ep_cfg] blocks. *)
Record usb_gadget := mkgadget {
  usb_device : Z; usb_config : option gadget_block; usb_ffs_config : option usb_ffs_cfg; ep_config : list (option (list Z));
  ep_handles : list Z; ep_path : list (list Z); stop : bool; stringtab : list (Z * option (list Z)); g_wait_connection : Z;
  thread_not_started : Z }.

(** The gadget with what it shares with the transfers ([cancel_req],
    [transferring_file_data], the three buffers of [mtp_ctx]), the context and
    the system. *)
Record gstate := mkgstate {
  gadget : usb_gadget; cancel_req : Z; transferring_file_data : bool; wrbuffer : bool; rdbuffer : bool; rdbuffer2 : bool;
  g_ctx : mtp_ctx; sys : system }.

Definition on_sys (f : system -> system) (s : gstate) : gstate := s {{ sys := f (sys s) }}.
Definition on_gadget (f : usb_gadget -> usb_gadget) (s : gstate) : gstate := s {{ gadget := f (gadget s) }}.
Definition log (a : action) (o : system) : system := o {{ o_trace := o_trace o ++ [a]; o_time := S (o_time o) }}.

Definition drop_fd (fd : Z) (l : list Z) : list Z := List.filter (fun x => negb (x =? fd)) l.
Definition sys_close (fd : Z) (o : system) : system := log (Closed fd) (o {{ o_fds := drop_fd fd (o_fds o) }}).
Definition sys_free (o : system) : system := o {{ o_live := o_live o - 1 }}.

Section Gadget.
(** The configuration, and the answers: which paths can be opened, what a write
    returns, whether a [malloc] succeeds, and what [pthread_create] returns. *)
Context (c : mtp_usb_cfg) (openable : nat -> list Z -> bool) (write_result : nat -> Z -> list Z -> Z).
Context (memory : nat -> bool) (thread_result : nat -> Z).

Definition sys_open (path : list Z) (o : system) : Z * system :=
  if openable (o_time o) path
  then (o_next o, log (Opened path (o_next o)) (o {{ o_fds := o_next o :: o_fds o; o_next := o_next o + 1 }}))
  else (-1, o {{ o_time := S (o_time o) }}).
Definition sys_write (fd : Z) (bytes : list Z) (o : system) : Z * system :=
  (write_result (o_time o) fd bytes, log (Written fd bytes) o).
Definition sys_malloc (o : system) : bool * system :=
  if memory (o_time o) then (true, o {{ o_live := o_live o + 1; o_time := S (o_time o) }})
  else (false, o {{ o_time := S (o_time o) }}).

(** ** Reading and writing *)
Definition is_usb_up (g : usb_gadget) : bool := negb (stop g).

(** [read_answer] is what [read] would return. *)
Definition read_usb (g : usb_gadget) (read_answer : Z) (maxsize : Z) : Z :=
  if (0 <=? nth EP_DESCRIPTOR_OUT (ep_handles g) (-1)) && negb (maxsize =? 0) then read_answer else -1.

(** The build writes blocking. *)
Definition write_usb (channel : nat) (buffer : list Z) (s : gstate) : Z * gstate :=
  if (channel <? EP_NB_OF_DESCRIPTORS)%nat then
    let fd := nth channel (ep_handles (gadget s)) (-1) in
    if (0 <=? fd) && (cancel_req s =? 0) then
      if negb (is_usb_up (gadget s)) then (-1, s)
      else let '(ret, o) := sys_write fd buffer (sys s) in (ret, s {{ sys := o }})
    else (-1, s)
  else (-1, s).

(** ** Endpoints *)

(** [ep_cfg] with the descriptor twice; its size is 18. *)
Definition EP_CFG_SIZE : Z := 18.
Definition ep_cfg_bytes (desc : usb_endpoint_descriptor) : list Z := le_bytes 4 1 ++ endpoint_bytes desc ++ endpoint_bytes desc.

(** The high-speed descriptors of the mode; [None] follows a null pointer. *)
Definition speed_descriptors (g : usb_gadget) : option EndPointsDesc :=
  match usb_ffs_config g with Some f => Some (ffs_desc_hs f) | None => ep_desc_hs <$> usb_config g end.
Definition endpoint_of (index : nat) (d : EndPointsDesc) : usb_endpoint_descriptor :=
  match index with O => ep_desc_in d | 1%nat => ep_desc_out d | _ => ep_desc_int_in d end.

Definition init_ep (index : nat) (ffs_mode : bool) (s : gstate) : option (Z * gstate) :=
  path ← ep_path (gadget s) !! index;
  let '(fd, o) := sys_open path (sys s) in
  let s := s {{ sys := o }} in
  if fd <? 0 then Some (-1, s)
  else
    d ← speed_descriptors (gadget s);
    config ← ep_config (gadget s) !! index;
    _ ← config;
    let block := ep_cfg_bytes (endpoint_of index d) in
    let s := on_gadget (fun g => g {{ ep_handles := <[index := fd]> (ep_handles g); ep_config := <[index := Some block]> (ep_config g) }}) s in
    if ffs_mode then Some (fd, s)
    else
      let '(ret, o) := sys_write fd block (sys s) in
      let s := s {{ sys := o }} in
      if negb (ret =? EP_CFG_SIZE) then Some (-1, on_sys (sys_close fd) s) else Some (fd, s).

(** 0 is success. *)
Definition init_eps (ffs_mode : bool) (s : gstate) : option (Z * gstate) :=
  '(r, s) ← init_ep EP_DESCRIPTOR_IN ffs_mode s;
  if r <? 0 then Some (1, s)
  else
    '(r, s) ← init_ep EP_DESCRIPTOR_OUT ffs_mode s;
    if r <? 0 then Some (1, s)
    else
      '(r, s) ← init_ep EP_DESCRIPTOR_INT_IN ffs_mode s;
      if r <? 0 then Some (1, s) else Some (0, s).

(** The common steps of a host that selects the configuration. *)
Definition start_io (ffs_mode : bool) (s : gstate) : option gstate :=
  '(status, s) ← (if nth EP_DESCRIPTOR_IN (ep_handles (gadget s)) (-1) <=? 0 then init_eps ffs_mode s else Some (0, s));
  if negb (status =? 0) then Some s
  else
    let s := on_gadget (fun g => g {{ stop := false }}) s in
    if thread_not_started (gadget s) =? 0 then Some s
    else
      let r := thread_result (o_time (sys s)) in
      let o := if r =? 0 then log ThreadStarted (sys s) else (sys s) {{ o_time := S (o_time (sys s)) }} in
      Some (on_gadget (fun g => g {{ thread_not_started := r }}) (s {{ sys := o }})).

(** ** Requests *)
Record usb_ctrlrequest := mkrequest { bRequestType : Z; bRequest : Z; wValue : Z; wIndex : Z; wLength : Z }.

Definition USB_REQ_GET_DESCRIPTOR : Z := 6.
Definition USB_REQ_SET_CONFIGURATION : Z := 9.
Definition USB_REQ_GET_INTERFACE : Z := 10.
Definition USB_REQ_SET_INTERFACE : Z := 11.
Definition MTP_REQ_CANCEL : Z := 0x64.
Definition MTP_REQ_RESET : Z := 0x66.
Definition MTP_REQ_GET_DEVICE_STATUS : Z := 0x67.
Definition MTP_RESPONSE_DEVICE_BUSY : Z := 0x2019.

(** A read or write of nothing in the direction that is not asked for. *)
Definition stall (s : gstate) : gstate := on_sys (log Stalled) s.

(** Writing an answer; a failure breaks out to the stall. *)
Definition answer (bytes : list Z) (s : gstate) : gstate :=
  let '(ret, o) := sys_write (usb_device (gadget s)) bytes (sys s) in
  let s := s {{ sys := o }} in
  if ret <? 0 then stall s else s.

(** Interrupting a transfer; the lock is always given. *)
Definition cancel_transfer (s : gstate) : gstate :=
  if transferring_file_data s then on_sys (log ThreadSignalled) (s {{ cancel_req := 2 }}) else s {{ cancel_req := 0 }}.

Definition mtp_device_status (wCode : Z) : list Z := le_bytes 2 4 ++ le_bytes 2 wCode.

Definition handle_setup_request (setup : usb_ctrlrequest) (s : gstate) : option gstate :=
  if bRequest setup =? USB_REQ_GET_DESCRIPTOR then
    if negb (bRequestType setup =? USB_DIR_IN) then Some (stall s)
    else if Z.shiftr (wValue setup) 8 =? USB_DT_STRING then
      '(buffer, status) ← usb_gadget_get_string (string_table (stringtab (gadget s))) (Z.land (wValue setup) 0xff) (replicate 512 0);
      if status <? 0 then Some (stall s) else Some (answer (take (Z.to_nat status) buffer) s)
    else Some (stall s)
  else if bRequest setup =? USB_REQ_SET_CONFIGURATION then
    if negb (bRequestType setup =? USB_DIR_OUT) then Some (stall s)
    else
      s ← (if wValue setup =? CONFIG_VALUE then start_io false s
           else if wValue setup =? 0 then Some (on_gadget (fun g => g {{ stop := true }}) s)
           else Some s);
      Some (on_sys (log Acked) s)
  else if bRequest setup =? USB_REQ_GET_INTERFACE then Some (answer [0] s)
  else if bRequest setup =? USB_REQ_SET_INTERFACE then
    Some (on_sys (log Acked) (fold_left (fun s fd => on_sys (log (ClearedHalt fd)) s) (ep_handles (gadget s)) s))
  else if bRequest setup =? MTP_REQ_CANCEL then Some (cancel_transfer s)
  else if bRequest setup =? MTP_REQ_RESET then Some (on_sys (log Acked) s)
  else if bRequest setup =? MTP_REQ_GET_DEVICE_STATUS then
    if negb (cancel_req s =? 2) then
      Some (answer (mtp_device_status MTP_RESPONSE_OK) (if transferring_file_data s then s else s {{ cancel_req := 0 }}))
    else Some (answer (mtp_device_status MTP_RESPONSE_DEVICE_BUSY) (s {{ cancel_req := 1 }}))
  else Some (stall s).

(** ** The event loops *)

(** What the transfer thread does to the shared state on its own. *)
Inductive io_effect := IoStops | IoTransfers (on : bool) | IoClears | IoContext (ctx : mtp_ctx).
Definition io_run (e : io_effect) (s : gstate) : gstate :=
  match e with
  | IoStops => on_gadget (fun g => g {{ stop := true }}) s
  | IoTransfers on => s {{ transferring_file_data := on }}
  | IoClears => s {{ cancel_req := 0 }}
  | IoContext ctx => s {{ g_ctx := ctx }}
  end.

(** GadgetFS events; a suspension comes with the number of milliseconds until
    the transfer thread has cleared the request, if it does. *)
Inductive gadgetfs_event := Connect | Disconnect | Setup (setup : usb_ctrlrequest) | Nop | Suspend (cleared : option nat) | UnknownEvent.

Fixpoint suspend_wait (fuel : nat) (cleared : option nat) (cnt : nat) (s : gstate) : gstate :=
  match fuel with
  | O => s
  | S fuel =>
      if match cleared with Some n => (n <=? cnt)%nat | None => false end then s {{ cancel_req := 0 }}
      else if (250 <? cnt)%nat then on_sys (log ThreadSignalled) s
      else suspend_wait fuel cleared (S cnt) s
  end.

(** The state and the seconds of [timeout]. *)
Definition gadgetfs_step (ts : Z * gstate) (ev : gadgetfs_event) : option (Z * gstate) :=
  let '(timeout, s) := ts in
  match ev with
  | Disconnect =>
      let s := on_gadget (fun g => g {{ stop := true }}) s in
      Some (1, if thread_not_started (gadget s) =? 0
               then on_gadget (fun g => g {{ thread_not_started := 1 }}) (on_sys (log ThreadJoined) (on_sys (log ThreadCancelled) s))
               else s)
  | Setup setup => s ← handle_setup_request setup s; Some (timeout, s)
  | Suspend cleared =>
      Some (timeout, if transferring_file_data s then suspend_wait 252 cleared 0 (cancel_transfer s) else s)
  | Connect | Nop | UnknownEvent => Some (timeout, s)
  end.

(** What [select] and [read] bring, [None] being a read error; an interrupted
    [select] leaves the time that remained. *)
Inductive poll (event : Type) :=
| TimedOut
| Interrupted (shutdown : bool) (remaining : Z)
| Ready (events : option (list event))
| Meanwhile (e : io_effect).
Arguments TimedOut {event}.
Arguments Interrupted {event}.
Arguments Ready {event}.
Arguments Meanwhile {event}.

(** The loop both handlers are; the result is [None] while it waits for more. *)
Fixpoint ep0_loop {event : Type} (step : Z * gstate -> event -> option (Z * gstate)) (polls : list (poll event)) (timeout : Z)
    (s : gstate) : option (option Z * gstate) :=
  if stop (gadget s) then Some (Some 1, s)
  else
    match polls with
    | [] => Some (None, s)
    | Meanwhile e :: polls => ep0_loop step polls timeout (io_run e s)
    | TimedOut :: polls =>
        if timeout =? 0 then ep0_loop step polls timeout s
        else if negb (g_wait_connection (gadget s) =? 0) then ep0_loop step polls 0 s
        else Some (Some 0, s)
    | Interrupted shutdown remaining :: polls =>
        if shutdown then Some (Some 1, on_gadget (fun g => g {{ stop := true }}) s)
        else ep0_loop step polls (if timeout =? 0 then 0 else remaining) s
    | Ready None :: _ => Some (Some 1, s)
    | Ready (Some events) :: polls => '(timeout, s) ← foldM step events (0, s); ep0_loop step polls timeout s
    end.

Definition handle_ep0 (polls : list (poll gadgetfs_event)) (s : gstate) : option (option Z * gstate) :=
  ep0_loop gadgetfs_step polls 4 s.

(** FunctionFS events. *)
Inductive functionfs_event := FfsEnable | FfsDisable | FfsSetup (setup : usb_ctrlrequest) | FfsOther.

(** Dropping the table, under the lock. *)
Definition drop_table (ctx : mtp_ctx) : option mtp_ctx :=
  match fs_db ctx with
  | None => Some ctx
  | Some d => '(rm, _) ← deinit_fs_db d; Some (ctx {{ fs_db := None; mallocs := d_mallocs d; unwatched := unwatched ctx ++ rm }})
  end.

Definition functionfs_step (ts : Z * gstate) (ev : functionfs_event) : option (Z * gstate) :=
  let '(timeout, s) := ts in
  match ev with
  | FfsEnable => s ← start_io true s; Some (timeout, s)
  | FfsDisable =>
      let s := on_gadget (fun g => g {{ stop := true }}) s in
      let s := if thread_not_started (gadget s) =? 0 then
                 let s := if transferring_file_data s then on_sys (log ThreadSignalled) (s {{ cancel_req := 2 }}) else s in
                 on_gadget (fun g => g {{ thread_not_started := 1 }}) (on_sys (log ThreadJoined) s)
               else s in
      let s := on_gadget (fun g => g {{ stop := false }}) s in
      ctx ← drop_table (g_ctx s);
      Some (0, s {{ g_ctx := ctx }})
  | FfsSetup setup => s ← handle_setup_request setup s; Some (timeout, s)
  | FfsOther => Some (timeout, s)
  end.

(** One event per read. *)
Definition handle_ffs_ep0 (polls : list (poll functionfs_event)) (s : gstate) : option (option Z * gstate) :=
  ep0_loop functionfs_step polls 40 s.

(** ** Taking down *)
Definition mtp_usb_mode : bool := has_sub (cstr "mtp_usb") (usb_device_path c) || (usb_functionfs_mode c =? 2).

(** A block that is freed when it is there. *)
Definition free_if (b : bool) (s : gstate) : gstate := if b then on_sys sys_free s else s.
Definition present {A} (o : option A) : bool := match o with Some _ => true | None => false end.

(** The three buffers. *)
Definition free_buffers (s : gstate) : gstate :=
  let s := (free_if (wrbuffer s) s) {{ wrbuffer := false }} in
  let s := (free_if (rdbuffer s) s) {{ rdbuffer := false }} in
  (free_if (rdbuffer2 s) s) {{ rdbuffer2 := false }}.

(** [usbctx] is whether the pointer is not null. *)
Definition deinit_usb_mtp_gadget (usbctx : bool) (s : gstate) : gstate :=
  if usbctx then
    if (0 <=? usb_device (gadget s)) && mtp_usb_mode then
      let s := on_gadget (fun g => g {{ stop := true }}) s in
      let s := on_sys (sys_close (usb_device (gadget s))) s in
      on_gadget (fun g => g {{ usb_device := -1; ep_handles := [-1; -1; -1] }}) s
    else
      let s := on_gadget (fun g => g {{ stop := true }}) s in
      let s := fold_left (fun s fd => if 0 <=? fd then on_sys (sys_close fd) s else s) (ep_handles (gadget s)) s in
      let s := if 0 <=? usb_device (gadget s)
               then on_gadget (fun g => g {{ usb_device := -1 }}) (on_sys (sys_close (usb_device (gadget s))) s) else s in
      let s := if thread_not_started (gadget s) =? 0
               then on_gadget (fun g => g {{ thread_not_started := 1 }}) (on_sys (log ThreadJoined) (on_sys (log ThreadCancelled) s))
               else s in
      let s := free_if (present (usb_config (gadget s))) s in
      let s := free_if (present (usb_ffs_config (gadget s))) s in
      let s := fold_left (fun s e => free_if (present e) s) (ep_config (gadget s)) s in
      let s := fold_left (fun s e => free_if (present (snd e)) s) (stringtab (gadget s)) s in
      free_buffers (on_sys sys_free s)
  else free_buffers s.

(** ** Setting up *)

(** A buffer that replaces the one that was there. *)
Definition new_buffer (old : bool) (s : gstate) : bool * gstate :=
  let '(ok, o) := sys_malloc (sys (free_if old s)) in (ok, s {{ sys := o }}).

(** [add_usb_string] with its allocation, made when a slot is free. *)
Definition add_string (id : Z) (str : option (list Z)) (s : gstate) : gstate :=
  if present str && existsb (fun slot => fst slot =? 0) (stringtab (gadget s)) then
    let '(ok, o) := sys_malloc (sys s) in
    on_gadget (fun g => g {{ stringtab := snd (add_usb_string ok 0 id str (stringtab g)) }}) (s {{ sys := o }})
  else on_gadget (fun g => g {{ stringtab := snd (add_usb_string true 0 id str (stringtab g)) }}) s.

(** The three [ep_cfg] blocks, zeroed; false is a failed allocation. *)
Fixpoint alloc_configs (n : nat) (i : nat) (s : gstate) : bool * gstate :=
  match n with
  | O => (true, s)
  | S n =>
      let '(ok, o) := sys_malloc (sys s) in
      let s := s {{ sys := o }} in
      if ok then alloc_configs n (S i) (on_gadget (fun g => g {{ ep_config := <[i := Some (replicate 18 0)]> (ep_config g) }}) s)
      else (false, s)
  end.

Definition empty_gadget : usb_gadget :=
  mkgadget (-1) None None [None; None; None] [-1; -1; -1] [[]; []; []] false (replicate MAX_USB_STRING no_string) 0 1.

(** The descriptors of the FunctionFS mode; true is success. *)
Definition write_functionfs (s : gstate) : option (bool * gstate) :=
  let '(ok, o) := sys_malloc (sys s) in
  let s := s {{ sys := o }} in
  if negb ok then Some (false, s)
  else
    let f := usb_ffs_config_of c in
    let s := on_gadget (fun g => g {{ usb_ffs_config := Some f }}) s in
    let '(ret, o) := sys_write (usb_device (gadget s)) (ffs_bytes f) (sys s) in
    let s := s {{ sys := o }} in
    if negb (ret =? strlen (ffs_bytes f)) then Some (false, s)
    else
      bytes ← ffs_strings_of c;
      let '(ret, o) := sys_write (usb_device (gadget s)) bytes (sys s) in
      Some (ret =? strlen bytes, s {{ sys := o }}).

Definition write_gadgetfs (s : gstate) : bool * gstate :=
  let '(ok, o) := sys_malloc (sys s) in
  let s := s {{ sys := o }} in
  if negb ok then (false, s)
  else
    let b := usb_config_of c in
    let s := on_gadget (fun g => g {{ usb_config := Some b }}) s in
    let '(ret, o) := sys_write (usb_device (gadget s)) (block_bytes b) (sys s) in
    (ret =? strlen (block_bytes b), s {{ sys := o }}).

(** What follows the allocation of the gadget. *)
Definition setup_gadget (s : gstate) : option (bool * gstate) :=
  let s := s {{ gadget := empty_gadget }} in
  let s := fold_left (fun s x => add_string (fst x) (snd x) s) (gadget_strings_of c) s in
  let s := on_gadget (fun g => g {{ g_wait_connection := wait_connection c }}) s in
  let '(ok, s) := alloc_configs 3 0 s in
  if negb ok then Some (false, s)
  else
    let s := on_gadget (fun g => g {{ ep_path := [usb_endpoint_in c; usb_endpoint_out c; usb_endpoint_intin c] }}) s in
    let '(fd, o) := sys_open (usb_device_path c) (sys s) in
    let s := on_gadget (fun g => g {{ usb_device := fd }}) (s {{ sys := o }}) in
    if (0 <=? fd) && mtp_usb_mode then Some (true, on_gadget (fun g => g {{ ep_handles := [fd; fd; fd] }}) s)
    else if fd <? 0 then Some (false, s)
    else if negb (usb_functionfs_mode c =? 0) then write_functionfs s
    else Some (write_gadgetfs s).

(** True is a gadget; false is the null of [init_error], after the release. *)
Definition init_usb_mtp_gadget (s : gstate) : option (bool * gstate) :=
  let '(ok, s) := new_buffer (wrbuffer s) s in
  let s := s {{ wrbuffer := ok }} in
  if negb ok then Some (false, deinit_usb_mtp_gadget false s)
  else
    let '(ok, s) := new_buffer (rdbuffer s) s in
    let s := s {{ rdbuffer := ok }} in
    if negb ok then Some (false, deinit_usb_mtp_gadget false s)
    else
      let '(ok, s) := new_buffer (rdbuffer2 s) s in
      let s := s {{ rdbuffer2 := ok }} in
      if negb ok then Some (false, deinit_usb_mtp_gadget false s)
      else
        let '(ok, o) := sys_malloc (sys s) in
        let s := s {{ sys := o }} in
        if negb ok then Some (false, deinit_usb_mtp_gadget false s)
        else
          '(ok, s) ← setup_gadget s;
          Some (if ok : bool then (true, s) else (false, deinit_usb_mtp_gadget true s)).
End Gadget.

Arguments TimedOut {event}.
Arguments Interrupted {event}.
Arguments Ready {event}.
Arguments Meanwhile {event}.
