(* ===== verification/MtpGadgetProps.v ===== *)
(** * The gadget owns what it opens

    From its set-up to its release, whatever the host and the kernel send: no
    descriptor is opened twice or closed twice, at most one transfer thread
    runs, and in the end everything is given back. *)

From Stdlib Require Import Ascii String.
From S2P Require Import Prelude CString MtpData MtpUsb MtpHash MtpDb MtpTable MtpStorage MtpMount MtpSession MtpDataset MtpConfig MtpConfigProps MtpConfigFile MtpDaemon MtpDescriptors MtpGadget.

(** ** The ledger *)

(** The open descriptors and whether a transfer thread runs, along the actions;
    [None] is an action that is not allowed: a descriptor opened while it is
    open or closed while it is not, a second thread, a thread cancelled or
    joined that does not run. *)
Definition ledger_step (l : list Z * bool) (a : action) : option (list Z * bool) :=
  let '(fds, running) := l in
  match a with
  | Opened _ fd => if bool_decide (fd ∈ fds) then None else Some (fd :: fds, running)
  | Closed fd => if bool_decide (fd ∈ fds) then Some (drop_fd fd fds, running) else None
  | ThreadStarted => if running then None else Some (fds, true)
  | ThreadCancelled => if running then Some (fds, true) else None
  | ThreadJoined => if running then Some (fds, false) else None
  | Written _ _ | Acked | Stalled | ClearedHalt _ | ThreadSignalled => Some l
  end.

Definition quiet (a : action) : Prop :=
  match a with Written _ _ | Acked | Stalled | ClearedHalt _ | ThreadSignalled => True | _ => False end.

(** The endpoints that are open. *)
Definition owned (l : list Z) : list Z := List.filter (fun fd => 0 <=? fd) l.

(** The blocks of the gadget. *)
Definition count {A} (l : list (option A)) : Z := strlen (omap (fun o => match o with Some _ => Some 1 | None => None end) l).
Definition one (b : bool) : Z := if b then 1 else 0.
Definition buffers (s : gstate) : Z := one (wrbuffer s) + one (rdbuffer s) + one (rdbuffer2 s).
Definition blocks (s : gstate) : Z :=
  1 + count (map snd (stringtab (gadget s))) + count (ep_config (gadget s)) + one (present (usb_config (gadget s))) +
  one (present (usb_ffs_config (gadget s))) + buffers s.

(** A gadget between set-up and release: [fds0] and [live0] are the open
    descriptors and the allocated blocks of before. *)
Record good (mal : nat -> bool) (fds0 : list Z) (live0 : Z) (s : gstate) : Prop := {
  gd_ledger : foldM ledger_step (o_trace (sys s)) (fds0, false) = Some (o_fds (sys s), thread_not_started (gadget s) =? 0);
  gd_fds : o_fds (sys s) ≡ₚ usb_device (gadget s) :: owned (ep_handles (gadget s)) ++ fds0;
  gd_fresh : NoDup (o_fds (sys s)) /\ Forall (fun fd => fd < o_next (sys s)) (o_fds (sys s)) /\ 0 < o_next (sys s);
  gd_handles : 0 <= usb_device (gadget s) /\ length (ep_handles (gadget s)) = 3%nat /\
    (nth 0 (ep_handles (gadget s)) (-1) <= 0 -> owned (ep_handles (gadget s)) = []);
  gd_blocks : o_live (sys s) = live0 + blocks s;
  gd_parts : speed_descriptors (gadget s) <> None /\ length (ep_config (gadget s)) = 3%nat /\
    Forall (fun e => e <> None) (ep_config (gadget s)) /\ length (ep_path (gadget s)) = 3%nat;
  gd_table : session_ok mal (g_ctx s) }.

Section Good.
Context (mal : nat -> bool) (fds0 : list Z) (live0 : Z).
Abbreviation good := (good mal fds0 live0).

(** What [good] looks at. *)
Definition core (s : gstate) :=
  (usb_device (gadget s), usb_config (gadget s), usb_ffs_config (gadget s), ep_config (gadget s), ep_handles (gadget s),
   ep_path (gadget s), stringtab (gadget s), thread_not_started (gadget s), (wrbuffer s, rdbuffer s, rdbuffer2 s), fs_db (g_ctx s),
   (o_fds (sys s), o_next (sys s), o_live (sys s), o_trace (sys s))).

Lemma good_core s s' : core s' = core s -> good s -> good s'.
Proof.
  unfold core. intros E []. injection E as E1 E2 E3 E4 E5 E6 E7 E8 E9 E10 E11 E12 E13 E14 E15 E16. 
  split; unfold blocks, buffers, speed_descriptors, session_ok in *;
    rewrite ?E1, ?E2, ?E3, ?E4, ?E5, ?E6, ?E7, ?E8, ?E9, ?E10, ?E11, ?E12, ?E13, ?E14, ?E15, ?E16; done.
Qed.

Lemma ledger_snoc l a fds r : foldM ledger_step l (fds0, false) = Some (fds, r) ->
  foldM ledger_step (l ++ [a]) (fds0, false) = ledger_step (fds, r) a.
Proof. intros E. rewrite foldM_app, E. cbn [mbind option_bind foldM]. by destruct (ledger_step (fds, r) a) as [[]|]. Qed.

Lemma good_quiet a s : quiet a -> good s -> good (on_sys (log a) s).
Proof.
  intros Q H. assert (foldM ledger_step (o_trace (sys s) ++ [a]) (fds0, false) = Some (o_fds (sys s), thread_not_started (gadget s) =? 0)) as L.
  { rewrite (ledger_snoc _ _ _ _ (gd_ledger _ _ _ _ H)). by destruct a. }
  destruct H, s as [[] ? ? ? ? ? ? []]. split; upd; done.
Qed.

Lemma good_stop b s : good s -> good (on_gadget (fun g => g {{ stop := b }}) s).
Proof. apply good_core. by destruct s as [[]]. Qed.
Lemma good_cancel n s : good s -> good (s {{ cancel_req := n }}).
Proof. apply good_core. by destruct s. Qed.
Lemma good_transfer b s : good s -> good (s {{ transferring_file_data := b }}).
Proof. apply good_core. by destruct s. Qed.

(** A quiet step changes nothing that [good] looks at but the trace. *)
Lemma good_written fd bytes write_result s : good s -> good (s {{ sys := snd (sys_write write_result fd bytes (sys s)) }}).
Proof. intros H. pose proof (good_quiet (Written fd bytes) s I H) as G. by destruct s. Qed.

(** The thread started, and ended. *)
Lemma good_started s : good s -> thread_not_started (gadget s) <> 0 ->
  good (on_gadget (fun g => g {{ thread_not_started := 0 }}) (on_sys (log ThreadStarted) s)).
Proof.
  intros H Ht. pose proof (ledger_snoc _ ThreadStarted _ _ (gd_ledger _ _ _ _ H)) as L.
  rewrite (proj2 (Z.eqb_neq _ _)) in L by done. destruct H, s as [[] ? ? ? ? ? ? []]. split; upd; done.
Qed.

Lemma good_not_started r s : good s -> thread_not_started (gadget s) <> 0 -> r <> 0 ->
  good (on_gadget (fun g => g {{ thread_not_started := r }}) s).
Proof.
  intros H Ht Hr. pose proof (gd_ledger _ _ _ _ H) as L. rewrite (proj2 (Z.eqb_neq _ _)) in L by done.
  destruct H, s as [[] ? ? ? ? ? ? []]. split; upd; cbn in *; try done. by rewrite (proj2 (Z.eqb_neq _ _)).
Qed.

Lemma good_joined s : good s -> thread_not_started (gadget s) = 0 ->
  good (on_gadget (fun g => g {{ thread_not_started := 1 }}) (on_sys (log ThreadJoined) s)).
Proof.
  intros H Ht. pose proof (ledger_snoc _ ThreadJoined _ _ (gd_ledger _ _ _ _ H)) as L. rewrite Ht in L.
  destruct H, s as [[] ? ? ? ? ? ? []]. split; upd; done.
Qed.

Lemma good_cancelled s : good s -> thread_not_started (gadget s) = 0 -> good (on_sys (log ThreadCancelled) s).
Proof.
  intros H Ht. pose proof (ledger_snoc _ ThreadCancelled _ _ (gd_ledger _ _ _ _ H)) as L. rewrite Ht in L.
  destruct H, s as [[] ? ? ? ? ? ? []]. cbn in Ht. subst. split; upd; done.
Qed.

(** ** Endpoints *)
Context (openable : nat -> list Z -> bool) (write_result : nat -> Z -> list Z -> Z) (thread_result : nat -> Z).
Hypothesis endpoint_written : forall t fd desc, write_result t fd (ep_cfg_bytes desc) = EP_CFG_SIZE.

Lemma owned_cons x l : owned (x :: l) = if 0 <=? x then x :: owned l else owned l.
Proof. reflexivity. Qed.

Lemma owned_insert l i fd : (i < length l)%nat -> nth i l (-1) < 0 -> 0 <= fd -> owned (<[i := fd]> l) ≡ₚ fd :: owned l.
Proof.
  intros Hi Hn Hf. revert i Hi Hn. induction l as [|a l IH]; intros i Hi Hn; [cbn in Hi; lia|].
  destruct i as [|i]; cbn [insert list_insert nth length] in *; rewrite !owned_cons.
  - by rewrite (proj2 (Z.leb_le 0 fd)), (proj2 (Z.leb_gt 0 a)).
  - specialize (IH i ltac:(lia) Hn). destruct (0 <=? a); [|done]. rewrite IH. apply Permutation_swap.
Qed.

Lemma owned_none l i : owned l = [] -> nth i l (-1) < 0.
Proof.
  intros H. destruct (nth_in_or_default i l (-1)) as [Hin| ->]; [|done]. apply Z.nle_gt. intros Hle.
  assert (nth i l (-1) ∈ owned l) as E; [|by rewrite H in E; apply elem_of_nil in E].
  apply list_elem_of_In, filter_In. split; [done|by apply Z.leb_le].
Qed.

Lemma good_opened path s i block : good s -> (i < 3)%nat -> nth i (ep_handles (gadget s)) (-1) < 0 ->
  (i = O \/ 0 < nth 0 (ep_handles (gadget s)) (-1)) ->
  good (on_gadget (fun g => g {{ ep_handles := <[i := o_next (sys s)]> (ep_handles g); ep_config := <[i := Some block]> (ep_config g) }})
    (on_sys (fun o => log (Opened path (o_next o)) (o {{ o_fds := o_next o :: o_fds o; o_next := o_next o + 1 }})) s)).
Proof.
  intros H Hi Hn H0. pose proof (gd_fresh _ _ _ _ H) as (Nd & Fr & Pos). pose proof (gd_handles _ _ _ _ H) as (Hd & Hl & Hz).
  assert (o_next (sys s) ∉ o_fds (sys s)) as Hin by (intros Hin; rewrite Forall_forall in Fr; specialize (Fr _ Hin); lia).
  pose proof (ledger_snoc _ (Opened path (o_next (sys s))) _ _ (gd_ledger _ _ _ _ H)) as L. cbn [ledger_step] in L.
  rewrite bool_decide_false in L by done.
  pose proof (owned_insert (ep_handles (gadget s)) i (o_next (sys s)) ltac:(lia) Hn ltac:(lia)) as Ow. pose proof (gd_parts _ _ _ _ H) as (Sp & Lc & Fc & Lp).
  assert (count (<[i := Some block]> (ep_config (gadget s))) = count (ep_config (gadget s)) /\
    Forall (fun e => e <> None) (<[i := Some block]> (ep_config (gadget s)))) as [Ec Fc'].
  { destruct (ep_config (gadget s)) as [|a [|b [|c [|]]]]; try done. rewrite !Forall_cons in Fc. destruct Fc as (Fa & Fb & Fcc & _).
    destruct a, b, c, i as [|[|[|i]]]; try done; try lia; (split; [done|cbn; by repeat (apply Forall_cons_2; [done|]); apply Forall_nil_2]). }
  destruct H as [_ Pf _ _ Bl _ Tb], s as [[] ? ? ? ? ? ? []]. cbn in *. split; upd; cbn in *.
  - exact L.
  - rewrite Ow, Pf. apply Permutation_swap.
  - split; [by apply NoDup_cons|]. split; [|lia]. apply Forall_cons_2; [lia|]. eapply Forall_impl; [exact Fr|]. cbn. lia.
  - split; [done|]. split; [by rewrite length_insert|]. intros Hnn. exfalso. destruct i as [|i].
    + destruct ep_handles; [done|]. cbn in Hnn. lia.
    + destruct H0 as [|H0]; [done|]. destruct ep_handles; [done|]. cbn in Hnn, H0. lia.
  - unfold blocks, buffers in *. cbn in *. rewrite Ec. lia.
  - by rewrite length_insert.
  - done.
Qed.

Lemma init_ep_ok i ffs s : good s -> (i < 3)%nat -> nth i (ep_handles (gadget s)) (-1) < 0 ->
  (i = O \/ 0 < nth 0 (ep_handles (gadget s)) (-1)) ->
  exists r s', init_ep openable write_result i ffs s = Some (r, s') /\ good s' /\
    thread_not_started (gadget s') = thread_not_started (gadget s) /\
    (r < 0 \/ 0 < r /\ ep_handles (gadget s') = <[i := r]> (ep_handles (gadget s))).
Proof.
  intros H Hi Hn H0. pose proof (gd_parts _ _ _ _ H) as (Sp & Lc & Fc & Lp). unfold init_ep.
  destruct (lookup_lt_is_Some_2 (ep_path (gadget s)) i) as [path ->]; [lia|]. cbn [mbind option_bind]. unfold sys_open.
  destruct (openable (o_time (sys s)) path).
  2: { cbn. eexists (-1), _. split; [done|]. split; [|split; [by destruct s|by left]].
       apply (good_core s); [by destruct s as [? ? ? ? ? ? ? []]|done]. }
  pose proof (gd_fresh _ _ _ _ H) as (_ & _ & Pos). rewrite (proj2 (Z.ltb_ge _ 0)) by lia.
  assert (forall o, gadget (s {{ sys := o }}) = gadget s) as Eg by (by destruct s). rewrite !Eg.
  destruct (speed_descriptors (gadget s)) as [d|]; [|done]. cbn [mbind option_bind].
  destruct (lookup_lt_is_Some_2 (ep_config (gadget s)) i) as [e E]; [lia|]. rewrite E. cbn [mbind option_bind].
  rewrite Forall_lookup in Fc. specialize (Fc i e E). destruct e as [e|]; [|done]. cbn [mbind option_bind].
  pose proof (good_opened path s i (ep_cfg_bytes (endpoint_of i d)) H Hi Hn H0) as G.
  match type of G with good ?x => set (s1 := x) in G end.
  match goal with |- context [sys_write write_result _ _ (sys ?x)] => assert (x = s1) as -> by (unfold s1; by destruct s) end.
  assert (thread_not_started (gadget s1) = thread_not_started (gadget s)) as Et by (unfold s1; by destruct s as [[]]).
  assert (ep_handles (gadget s1) = <[i := o_next (sys s)]> (ep_handles (gadget s))) as Eh by (unfold s1; by destruct s as [[]]).
  destruct ffs; [exists (o_next (sys s)), s1; split_and!; auto|].
  unfold sys_write. rewrite endpoint_written. rewrite Z.eqb_refl. cbn [negb].
  eexists _, _. split; [done|]. split; [by apply (good_written _ _ write_result)|].
  split; [rewrite <- Et; by destruct s1|]. right. split; [lia|]. rewrite <- Eh. by destruct s1.
Qed.

Lemma init_eps_ok ffs s : good s -> nth 0 (ep_handles (gadget s)) (-1) <= 0 ->
  exists r s', init_eps openable write_result ffs s = Some (r, s') /\ good s' /\
    thread_not_started (gadget s') = thread_not_started (gadget s).
Proof.
  intros H H0. pose proof (gd_handles _ _ _ _ H) as (_ & Hl & Hz). specialize (Hz H0).
  unfold init_eps, EP_DESCRIPTOR_IN, EP_DESCRIPTOR_OUT, EP_DESCRIPTOR_INT_IN.
  destruct (init_ep_ok 0 ffs s H) as (r & s1 & -> & H1 & T1 & Hr1); [lia|by apply owned_none|by left|]. cbn [mbind option_bind].
  destruct (Z.ltb_spec r 0) as [Hr|Hr]; [by exists 1, s1|]. destruct Hr1 as [|[Hr1 E1]]; [lia|].
  assert (forall i, i <> O -> nth i (<[0%nat := r]> (ep_handles (gadget s))) (-1) < 0) as N.
  { intros i Hi. pose proof (owned_none _ i Hz). destruct (ep_handles (gadget s)), i; done. }
  assert (0 < nth 0 (ep_handles (gadget s1)) (-1)) as P1 by (rewrite E1; by destruct (ep_handles (gadget s))).
  destruct (init_ep_ok 1 ffs s1 H1) as (r2 & s2 & -> & H2 & T2 & Hr2); [lia|rewrite E1; by apply N|by right|]. cbn [mbind option_bind].
  destruct (Z.ltb_spec r2 0) as [Hn2|Hn2]; [exists 1, s2; by rewrite <- T1|]. destruct Hr2 as [|[Hr2 E2]]; [lia|].
  destruct (init_ep_ok 2 ffs s2 H2) as (r3 & s3 & -> & H3 & T3 & _); [lia| | |].
  { rewrite E2, E1. pose proof (N 2%nat ltac:(lia)). destruct (ep_handles (gadget s)) as [|a [|b [|d l]]]; done. }
  { right. rewrite E2, E1. destruct (ep_handles (gadget s)) as [|a [|b l]]; done. }
  cbn [mbind option_bind]. destruct (r3 <? 0); eexists _, s3; (split; [done|]); (split; [done|congruence]).
Qed.

Lemma start_io_ok ffs s : good s -> exists s', start_io openable write_result thread_result ffs s = Some s' /\ good s'.
Proof.
  intros H. unfold start_io.
  assert (exists r s1, (if nth EP_DESCRIPTOR_IN (ep_handles (gadget s)) (-1) <=? 0 then init_eps openable write_result ffs s else Some (0, s)) =
    Some (r, s1) /\ good s1) as (r & s1 & -> & H1).
  { destruct (Z.leb_spec (nth EP_DESCRIPTOR_IN (ep_handles (gadget s)) (-1)) 0) as [Hn|Hn]; [|by exists 0, s].
    destruct (init_eps_ok ffs s H Hn) as (r & s1 & -> & H1 & _). by exists r, s1. }
  cbn [mbind option_bind]. destruct (negb (r =? 0)); [by exists s1|]. apply (good_stop false) in H1.
  set (s2 := on_gadget _ s1) in *. clearbody s2. destruct (Z.eqb_spec (thread_not_started (gadget s2)) 0) as [Et|Et]; [by exists s2|].
  eexists. split; [done|]. destruct (Z.eqb_spec (thread_result (o_time (sys s2))) 0) as [E|E].
  - rewrite E. apply (good_core (on_gadget (fun g => g {{ thread_not_started := 0 }}) (on_sys (log ThreadStarted) s2))); [by destruct s2|].
    by apply good_started.
  - apply (good_core (on_gadget (fun g => g {{ thread_not_started := thread_result (o_time (sys s2)) }}) s2)).
    + by destruct s2 as [[] ? ? ? ? ? ? []].
    + by apply good_not_started.
Qed.

(** ** Requests *)
Lemma answer_ok bytes s : good s -> good (answer write_result bytes s).
Proof.
  intros H. unfold answer, sys_write. pose proof (good_written (usb_device (gadget s)) bytes write_result s H) as G.
  unfold sys_write in G. cbn [snd] in G. destruct (_ <? 0); [by apply good_quiet|done].
Qed.

Lemma cancel_ok s : good s -> good (cancel_transfer s).
Proof. intros H. unfold cancel_transfer. destruct (transferring_file_data s); [apply good_quiet; [done|]|]; by apply good_cancel. Qed.

Lemma units_total n t : is_Some (utf8_to_utf16le n (t ++ [0])).
Proof.
  revert t. induction n as [|n IH]; intros t; [by eexists|]. cbn [utf8_to_utf16le].
  assert (forall k uchar, (k <= length t)%nat -> is_Some ('(us, r) ← utf8_to_utf16le n (drop k (t ++ [0]));
    Some (uchar :: us, if r <? 0 then -1 else r + 1))) as G.
  { intros k uchar Hk. rewrite drop_app_le by done. destruct (IH (drop k t)) as [[us r] ->]. by eexists. }
  destruct t as [|c t]; [by eexists|]. cbn [app lookup list_lookup mbind option_bind].
  destruct (c =? 0); [by eexists|]. destruct (Z.land c 0x80 =? 0); [apply (G 1%nat); cbn; lia|].
  destruct (Z.land c 0xe0 =? 0xc0).
  { destruct t as [|c2 t]; [by eexists|]. cbn [app lookup list_lookup mbind option_bind].
    destruct (negb _); [by eexists|]. apply (G 2%nat). cbn. lia. }
  destruct (Z.land c 0xf0 =? 0xe0); [|by eexists].
  destruct t as [|c2 t]; [by eexists|]. cbn [app lookup list_lookup mbind option_bind]. destruct (negb _); [by eexists|].
  destruct t as [|c3 t]; [by eexists|]. cbn [app lookup list_lookup mbind option_bind]. destruct (negb _); [by eexists|].
  destruct (_ && _); [by eexists|]. apply (G 3%nat). cbn. lia.
Qed.

Lemma units_length n s us r : utf8_to_utf16le n s = Some (us, r) -> (length us <= n)%nat.
Proof.
  revert s us r. induction n as [|n IH]; intros s us r; cbn [utf8_to_utf16le]; [intros [= <- <-]; done|].
  assert (forall s' uchar us r, ('(us, r) ← utf8_to_utf16le n s'; Some (uchar :: us, if r <? 0 then -1 else r + 1)) = Some (us, r) ->
    (length us <= S n)%nat) as G.
  { intros s' uchar us' r'. destruct (utf8_to_utf16le n s') as [[us1 r1]|] eqn:E; [|done]. cbn [mbind option_bind].
    intros [= <- <-]. specialize (IH _ _ _ E). cbn. lia. }
  destruct (s !! 0%nat) as [c|]; [|done]. cbn [mbind option_bind].
  destruct (c =? 0); [intros [= <- <-]; cbn; lia|]. destruct (Z.land c 0x80 =? 0); [apply G|].
  destruct (Z.land c 0xe0 =? 0xc0).
  { destruct (s !! 1%nat); [|done]. cbn [mbind option_bind]. destruct (negb _); [intros [= <- <-]; cbn; lia|apply G]. }
  destruct (Z.land c 0xf0 =? 0xe0); [|intros [= <- <-]; cbn; lia].
  destruct (s !! 1%nat); [|done]. cbn [mbind option_bind]. destruct (negb _); [intros [= <- <-]; cbn; lia|].
  destruct (s !! 2%nat); [|done]. cbn [mbind option_bind]. destruct (negb _); [intros [= <- <-]; cbn; lia|].
  destruct (_ && _); [intros [= <- <-]; cbn; lia|apply G].
Qed.

Lemma put_total b i bs : 0 <= i -> i + strlen bs <= strlen b -> exists b', put_bytes b i bs = Some b' /\ strlen b' = strlen b.
Proof.
  intros Hi Hl. unfold put_bytes. rewrite (proj2 (Z.leb_le 0 i)), (proj2 (Z.leb_le _ _)) by done. eexists. split; [done|].
  unfold strlen in *. rewrite !length_app, length_take, length_drop. lia.
Qed.

Lemma get_string_total table id buf : 254 <= strlen buf -> is_Some (usb_gadget_get_string table id buf).
Proof.
  intros Hb. unfold usb_gadget_get_string. destruct (id =? 0).
  { destruct (put_total buf 0 [4; USB_DT_STRING; u8 (language table); u8 (Z.shiftr (language table) 8)]) as (b & -> & _);
      [lia|unfold strlen at 1; cbn; lia|by eexists]. }
  destruct (find _ _) as [[i str]|]; [|by eexists].
  destruct (put_total buf 2 (replicate (2 * Nat.min (length str) 126) 0)) as (b1 & -> & L1);
    [lia|unfold strlen in *; rewrite length_replicate; lia|]. cbn [mbind option_bind].
  destruct (units_total (Nat.min (length str) 126) str) as [[us r] E]. rewrite E. cbn [mbind option_bind].
  apply units_length in E. assert (strlen (units_le us) <= 252) as Lu by (unfold strlen; rewrite units_le_length; lia).
  destruct (put_total b1 2 (units_le us)) as (b2 & -> & L2); [lia|lia|]. cbn [mbind option_bind].
  destruct (r <? 0); [by eexists|].
  destruct (put_total b2 0 [u8 ((r + 1) * 2); USB_DT_STRING]) as (b3 & -> & _); [lia|unfold strlen at 1; cbn; lia|by eexists].
Qed.

Lemma setup_ok setup s : good s -> exists s', handle_setup_request openable write_result thread_result setup s = Some s' /\ good s'.
Proof.
  intros H. pose proof (good_quiet Stalled s I H) as Hst. unfold handle_setup_request.
  destruct (bRequest setup =? USB_REQ_GET_DESCRIPTOR).
  { destruct (negb _); [by exists (stall s)|]. destruct (_ =? USB_DT_STRING); [|by exists (stall s)].
    destruct (get_string_total (string_table (stringtab (gadget s))) (Z.land (wValue setup) 0xff) (replicate 512 0)) as [[b r] ->];
      [vm_compute; discriminate|]. cbn [mbind option_bind]. destruct (r <? 0); [by exists (stall s)|].
    eexists. split; [done|by apply answer_ok]. }
  destruct (bRequest setup =? USB_REQ_SET_CONFIGURATION).
  { destruct (negb _); [by exists (stall s)|].
    assert (exists s1, (if wValue setup =? CONFIG_VALUE then start_io openable write_result thread_result false s
      else if wValue setup =? 0 then Some (on_gadget (fun g => g {{ stop := true }}) s) else Some s) = Some s1 /\ good s1) as (s1 & -> & H1).
    { destruct (_ =? CONFIG_VALUE); [by apply start_io_ok|]. destruct (_ =? 0); [|by exists s]. eexists. split; [done|by apply good_stop]. }
    cbn [mbind option_bind]. eexists. split; [done|by apply good_quiet]. }
  destruct (bRequest setup =? USB_REQ_GET_INTERFACE); [eexists; split; [done|by apply answer_ok]|].
  destruct (bRequest setup =? USB_REQ_SET_INTERFACE).
  { eexists. split; [done|]. apply good_quiet; [done|]. generalize (ep_handles (gadget s)). clear Hst. intros l. revert s H.
    induction l as [|fd l IH]; intros s H; [done|]. cbn [fold_left]. by apply IH, good_quiet. }
  destruct (bRequest setup =? MTP_REQ_CANCEL); [eexists; split; [done|by apply cancel_ok]|].
  destruct (bRequest setup =? MTP_REQ_RESET); [eexists; split; [done|by apply good_quiet]|].
  destruct (bRequest setup =? MTP_REQ_GET_DEVICE_STATUS); [|by exists (stall s)].
  destruct (negb _); (eexists; split; [done|apply answer_ok]); [|by apply good_cancel].
  destruct (transferring_file_data s); [done|by apply good_cancel].
Qed.

(** ** Events *)
Lemma suspend_ok fuel cleared cnt s : good s -> good (suspend_wait fuel cleared cnt s).
Proof.
  revert cnt. induction fuel as [|fuel IH]; intros cnt H; [done|]. cbn [suspend_wait].
  destruct (match cleared with Some _ => _ | None => _ end); [by apply good_cancel|].
  destruct (250 <? cnt)%nat; [by apply good_quiet|by apply IH].
Qed.

Lemma gadgetfs_ok t s ev : good s ->
  exists t' s', gadgetfs_step openable write_result thread_result (t, s) ev = Some (t', s') /\ good s'.
Proof.
  intros H. destruct ev as [| |setup| |cleared|]; cbn [gadgetfs_step]; try by exists t, s.
  - apply (good_stop true) in H. set (s1 := on_gadget _ s) in *. clearbody s1. eexists _, _. split; [done|].
    destruct (Z.eqb_spec (thread_not_started (gadget s1)) 0) as [E|E]; [|done].
    apply good_joined; [by apply good_cancelled|by destruct s1].
  - destruct (setup_ok setup s H) as (s' & -> & H'). by exists t, s'.
  - eexists _, _. split; [done|]. destruct (transferring_file_data s); [by apply suspend_ok, cancel_ok|done].
Qed.

Lemma drop_table_ok ctx : session_ok mal ctx -> exists ctx', drop_table ctx = Some ctx' /\ session_ok mal ctx'.
Proof.
  unfold drop_table, session_ok. destruct (fs_db ctx) as [d|] eqn:E; [|intros _; exists ctx; by rewrite E].
  intros (l & H & _)%reachable_ok. destruct (deinit_total d l H) as [[rm fd] ->]. cbn [mbind option_bind]. eexists. split; [done|].
  by destruct ctx.
Qed.

Lemma functionfs_ok t s ev : good s ->
  exists t' s', functionfs_step openable write_result thread_result (t, s) ev = Some (t', s') /\ good s'.
Proof.
  intros H. destruct ev as [| |setup|]; cbn [functionfs_step].
  - destruct (start_io_ok true s H) as (s' & -> & H'). by exists t, s'.
  - apply (good_stop true) in H. set (s1 := on_gadget _ s) in *. clearbody s1.
    set (s2 := if thread_not_started (gadget s1) =? 0 then _ else s1).
    assert (good s2) as H2.
    { unfold s2. destruct (Z.eqb_spec (thread_not_started (gadget s1)) 0) as [E|E]; [|done]. cbv zeta.
      destruct (transferring_file_data s1); [|by apply good_joined].
      apply good_joined; [apply good_quiet; [done|by apply good_cancel]|by destruct s1]. }
    apply (good_stop false) in H2. set (s3 := on_gadget _ s2) in *. clearbody s3.
    destruct (drop_table_ok (g_ctx s3) (gd_table _ _ _ _ H2)) as (ctx & -> & Hc). cbn [mbind option_bind]. eexists _, _. split; [done|].
    destruct H2, s3 as [[] ? ? ? ? ? ? []]. by split.
  - destruct (setup_ok setup s H) as (s' & -> & H'). by exists t, s'.
  - by exists t, s.
Qed.

(** The transfer thread keeps the session as its commands do. *)
Definition effect_ok (e : io_effect) : Prop := match e with IoContext ctx => session_ok mal ctx | _ => True end.
Definition poll_ok {event} (p : poll event) : Prop := match p with Meanwhile e => effect_ok e | _ => True end.

Lemma io_ok e s : effect_ok e -> good s -> good (io_run e s).
Proof.
  destruct e as [| | |ctx]; intros He; [apply good_stop|apply good_transfer|apply good_cancel|].
  intros []. destruct s. by split.
Qed.

(** The loop runs to the end of its polls or returns; it never gets stuck. *)
Lemma loop_ok {event} (step : Z * gstate -> event -> option (Z * gstate)) polls t s :
  (forall t s ev, good s -> exists t' s', step (t, s) ev = Some (t', s') /\ good s') -> Forall poll_ok polls -> good s ->
  exists r s', ep0_loop step polls t s = Some (r, s') /\ good s'.
Proof.
  intros Hstep. revert t s. induction polls as [|p polls IH]; intros t s Hp H; cbn [ep0_loop].
  - destruct (stop (gadget s)); by eexists _, s.
  - rewrite Forall_cons in Hp. destruct Hp as [He Hp]. destruct (stop (gadget s)); [by eexists _, s|]. destruct p as [|shutdown remaining|[events|]|e].
    + destruct (t =? 0); [by apply IH|]. destruct (negb _); [by apply IH|by eexists _, s].
    + destruct shutdown; [|by apply IH]. eexists _, _. split; [done|by apply good_stop].
    + assert (exists t' s', foldM step events (0, s) = Some (t', s') /\ good s') as (t' & s' & -> & H').
      { generalize 0 as z. revert s H. induction events as [|ev events IHe]; intros s H z; [by exists z, s|]. cbn [foldM].
        destruct (Hstep z s ev H) as (t' & s' & -> & H'). by apply IHe. }
      cbn [mbind option_bind]. by apply IH.
    + by eexists _, s.
    + by apply IH, io_ok.
Qed.
End Good.

(** ** Release *)

(** What a gadget, set up or not, owes: its descriptors and its blocks. *)
Record owes (fds0 : list Z) (live0 : Z) (s : gstate) : Prop := {
  ow_ledger : foldM ledger_step (o_trace (sys s)) (fds0, false) = Some (o_fds (sys s), thread_not_started (gadget s) =? 0);
  ow_fds : o_fds (sys s) ≡ₚ owned (ep_handles (gadget s)) ++ owned [usb_device (gadget s)] ++ fds0;
  ow_nodup : NoDup (o_fds (sys s));
  ow_blocks : o_live (sys s) = live0 + blocks s }.

(** The system as it was. *)
Definition released (fds0 : list Z) (live0 : Z) (s : gstate) : Prop :=
  o_fds (sys s) ≡ₚ fds0 /\ o_live (sys s) = live0 /\ buffers s = 0 /\
  foldM ledger_step (o_trace (sys s)) (fds0, false) = Some (o_fds (sys s), false).

Lemma good_owes mal fds0 live0 s : good mal fds0 live0 s -> owes fds0 live0 s.
Proof.
  intros []. split; try done; [|by destruct gd_fresh0]. destruct gd_handles0 as [Hd _].
  rewrite gd_fds0. rewrite owned_cons, (proj2 (Z.leb_le _ _) Hd). cbn [owned List.filter app]. apply Permutation_middle.
Qed.

Definition pay (n : Z) (s : gstate) : gstate := on_sys (fun o => o {{ o_live := o_live o - n }}) s.

Lemma pay_pay a b s : pay a (pay b s) = pay (b + a) s.
Proof. destruct s as [? ? ? ? ? ? ? []]. unfold pay, on_sys. upd. do 2 f_equal. lia. Qed.
Lemma pay_zero s : pay 0 s = s.
Proof. destruct s as [? ? ? ? ? ? ? []]. unfold pay, on_sys. upd. do 2 f_equal. lia. Qed.
Lemma free_pays b s : free_if b s = pay (one b) s.
Proof. destruct b; [by destruct s as [? ? ? ? ? ? ? []]|by rewrite pay_zero]. Qed.
Lemma count_cons {A} (o : option A) l : count (o :: l) = one (present o) + count l.
Proof. unfold count. destruct o; cbn [omap list_omap present one]; unfold strlen; cbn [length]; lia. Qed.
Lemma frees_pay {A B} (f : A -> option B) l s : fold_left (fun s e => free_if (present (f e)) s) l s = pay (count (map f l)) s.
Proof.
  revert s. induction l as [|e l IH]; intros s; cbn [fold_left map]; [by rewrite pay_zero|].
  by rewrite IH, free_pays, pay_pay, count_cons.
Qed.

Lemma drop_fd_perm fd l l' : l ≡ₚ fd :: l' -> NoDup l -> drop_fd fd l ≡ₚ l'.
Proof.
  intros P N. assert (NoDup (fd :: l')) as N' by (by rewrite <- P). apply NoDup_cons in N' as [Hn N'].
  apply NoDup_Permutation; [apply NoDup_ListNoDup, List.NoDup_filter, NoDup_ListNoDup, N|done|].
  intros x. unfold drop_fd. rewrite list_elem_of_In, filter_In, <- list_elem_of_In, P, elem_of_cons, negb_true_iff, Z.eqb_neq.
  split; [by intros [[?|?] ?]|]. intros Hx. split; [by right|]. by intros ->.
Qed.

(** Closing the descriptors of a list. *)
Lemma closes fds0 l rest s r : foldM ledger_step (o_trace (sys s)) (fds0, false) = Some (o_fds (sys s), r) ->
  o_fds (sys s) ≡ₚ owned l ++ rest -> NoDup (o_fds (sys s)) ->
  let s' := fold_left (fun s fd => if 0 <=? fd then on_sys (sys_close fd) s else s) l s in
  foldM ledger_step (o_trace (sys s')) (fds0, false) = Some (o_fds (sys s'), r) /\ o_fds (sys s') ≡ₚ rest /\ NoDup (o_fds (sys s')) /\
  o_live (sys s') = o_live (sys s) /\ gadget s' = gadget s /\
  (wrbuffer s', rdbuffer s', rdbuffer2 s') = (wrbuffer s, rdbuffer s, rdbuffer2 s).
Proof.
  revert s. induction l as [|fd l IH]; intros s L P N; cbn [fold_left]; [by split_and!|]. rewrite owned_cons in P.
  destruct (0 <=? fd); [|by apply IH].
  destruct (IH (on_sys (sys_close fd) s)) as (L' & P' & N' & Lv & G & B).
  - replace (o_trace (sys (on_sys (sys_close fd) s))) with (o_trace (sys s) ++ [Closed fd]) by (by destruct s as [? ? ? ? ? ? ? []]).
    rewrite (ledger_snoc _ _ _ _ _ L). cbn [ledger_step]. rewrite bool_decide_true by (rewrite P; left). by destruct s as [? ? ? ? ? ? ? []].
  - replace (o_fds (sys (on_sys (sys_close fd) s))) with (drop_fd fd (o_fds (sys s))) by (by destruct s as [? ? ? ? ? ? ? []]).
    by apply drop_fd_perm.
  - replace (o_fds (sys (on_sys (sys_close fd) s))) with (drop_fd fd (o_fds (sys s))) by (by destruct s as [? ? ? ? ? ? ? []]).
    apply NoDup_ListNoDup, List.NoDup_filter, NoDup_ListNoDup, N.
  - cbv zeta in *. rewrite Lv, G, B. split_and!; try done; by destruct s as [? ? ? ? ? ? ? []].
Qed.

Lemma buffers_freed fds0 live0 s :
  o_fds (sys s) ≡ₚ fds0 -> o_live (sys s) = live0 + buffers s ->
  foldM ledger_step (o_trace (sys s)) (fds0, false) = Some (o_fds (sys s), false) -> released fds0 live0 (free_buffers s).
Proof.
  intros P L T. unfold free_buffers, released. rewrite !free_pays.
  destruct s as [? ? ? w r r2 ? []]. unfold pay, on_sys, buffers in *. upd. cbn in *. split_and!; [done|lia|done|done].
Qed.

(** Outside the mode of Android's own driver, the release gives everything
    back. *)
Lemma deinit_released c fds0 live0 s : mtp_usb_mode c = false -> owes fds0 live0 s ->
  released fds0 live0 (deinit_usb_mtp_gadget c true s).
Proof.
  intros Hm [L P N B]. unfold deinit_usb_mtp_gadget. rewrite Hm, andb_false_r. cbv zeta.
  set (s1 := on_gadget (fun g => g {{ stop := true }}) s).
  assert (sys s1 = sys s /\ ep_handles (gadget s1) = ep_handles (gadget s) /\ usb_device (gadget s1) = usb_device (gadget s) /\
    thread_not_started (gadget s1) = thread_not_started (gadget s) /\ blocks s1 = blocks s) as (Es & Eh & Eu & Et & Eb) by (by destruct s as [[]]).
  rewrite <- Es, <- ?Eh, <- ?Eu, <- ?Et, <- ?Eb in *. clearbody s1. clear Es Eh Eu Et Eb.
  destruct (closes fds0 (ep_handles (gadget s1)) _ s1 _ L P N) as (L2 & P2 & N2 & V2 & G2 & B2).
  set (s2 := fold_left _ (ep_handles (gadget s1)) s1) in *. clearbody s2.
  set (s3 := if 0 <=? usb_device (gadget s2) then _ else s2).
  assert (foldM ledger_step (o_trace (sys s3)) (fds0, false) = Some (o_fds (sys s3), thread_not_started (gadget s1) =? 0) /\
    o_fds (sys s3) ≡ₚ fds0 /\ o_live (sys s3) = o_live (sys s1) /\ blocks s3 = blocks s1 /\
    thread_not_started (gadget s3) = thread_not_started (gadget s1)) as (L3 & P3 & V3 & B3 & T3).
  { unfold blocks, buffers. injection B2 as <- <- <-. rewrite <- V2. rewrite <- G2 in P2, L2 |- *. clear L P N B G2 V2.
    pose proof (closes fds0 [usb_device (gadget s2)] fds0 s2 _ L2 P2 N2) as C. cbn [fold_left] in C. unfold s3. revert C. clear.
    destruct (0 <=? usb_device (gadget s2)); intros (L3 & P3 & _ & V3 & _); [|done].
    destruct s2 as [[] ? ? ? ? ? ? []]. done. }
  clearbody s3. clear s2 L2 P2 N2 V2 G2 B2.
  set (s4 := if thread_not_started (gadget s3) =? 0 then _ else s3).
  assert (foldM ledger_step (o_trace (sys s4)) (fds0, false) = Some (o_fds (sys s4), false) /\ o_fds (sys s4) ≡ₚ fds0 /\
    o_live (sys s4) = live0 + blocks s4) as (L4 & P4 & V4).
  { rewrite <- B3 in B. rewrite <- T3 in L3. rewrite <- V3 in B. unfold s4.
    destruct (Z.eqb_spec (thread_not_started (gadget s3)) 0) as [E|E]; [|by rewrite L3].
    pose proof (ledger_snoc _ _ ThreadCancelled _ _ L3) as LC. cbn [ledger_step] in LC.
    pose proof (ledger_snoc _ _ ThreadJoined _ _ LC) as LJ. cbn [ledger_step] in LJ. by destruct s3 as [[] ? ? ? ? ? ? []]. }
  clearbody s4. clear s3 L3 P3 V3 B3 T3.
  rewrite !free_pays.
  assert (forall n s, gadget (pay n s) = gadget s) as Gp by (by intros ? []). rewrite !Gp.
  rewrite (frees_pay (fun e => e)), !pay_pay, Gp. rewrite (frees_pay snd), !pay_pay. rewrite map_id.
  match goal with |- context [pay ?n s4] => set (paid := n) end.
  assert (on_sys sys_free (pay paid s4) = pay (paid + 1) s4) as ->.
  { rewrite <- pay_pay. by destruct s4 as [? ? ? ? ? ? ? []]. }
  apply buffers_freed; [by destruct s4 as [? ? ? ? ? ? ? []]| |by destruct s4 as [? ? ? ? ? ? ? []]].
  assert (o_live (sys (pay (paid + 1) s4)) = o_live (sys s4) - (paid + 1)) as -> by (by destruct s4 as [? ? ? ? ? ? ? []]).
  assert (buffers (pay (paid + 1) s4) = buffers s4) as -> by (by destruct s4). rewrite V4. unfold blocks, paid. lia.
Qed.
