(* ===== verification/MtpGadgetRounds.v ===== *)
(** * A round of the gadget: set up, served, released

    The set-up builds a gadget that owns what it opened and allocated, or
    releases all of it; with [MtpGadgetProps] a whole round gives the system
    back as it was. *)

From Stdlib Require Import Ascii String.
From S2P Require Import Prelude CString MtpData MtpUsb MtpHash MtpDb MtpTable MtpStorage MtpMount MtpSession MtpDataset MtpConfig MtpConfigProps MtpConfigFile MtpDaemon MtpDescriptors MtpGadget MtpGadgetProps.

(** Between two rounds. *)
Record idle (mal : nat -> bool) (fds0 : list Z) (live0 : Z) (s : gstate) : Prop := {
  id_ledger : foldM ledger_step (o_trace (sys s)) (fds0, false) = Some (o_fds (sys s), false);
  id_fds : o_fds (sys s) ≡ₚ fds0;
  id_fresh : NoDup (o_fds (sys s)) /\ Forall (fun fd => fd < o_next (sys s)) (o_fds (sys s)) /\ 0 < o_next (sys s);
  id_blocks : o_live (sys s) = live0 + buffers s;
  id_table : session_ok mal (g_ctx s) }.

Section Rounds.
Context (mal : nat -> bool) (fds0 : list Z) (live0 : Z).
Context (c : mtp_usb_cfg) (openable : nat -> list Z -> bool) (write_result : nat -> Z -> list Z -> Z).
Context (memory : nat -> bool) (thread_result : nat -> Z).
Abbreviation good := (good mal fds0 live0).
Abbreviation idle := (idle mal fds0 live0).

(** ** What set-up keeps *)

(** A gadget that is being built. *)
Definition fresh (o : system) : Prop := Forall (fun fd => fd < o_next o) (o_fds o) /\ 0 < o_next o.
Definition base (s : gstate) : Prop := owes fds0 live0 s /\ fresh (sys s) /\ session_ok mal (g_ctx s).

(** What of a state [base] looks at, its blocks and allocations apart. *)
Definition outline (s : gstate) :=
  (ep_handles (gadget s), usb_device (gadget s), thread_not_started (gadget s), o_fds (sys s), o_next (sys s), o_trace (sys s),
   fs_db (g_ctx s)).

Lemma base_same s s' d : base s -> outline s' = outline s -> o_live (sys s') = o_live (sys s) + d -> blocks s' = blocks s + d -> base s'.
Proof.
  unfold base, outline, fresh, session_ok. intros ([L P N B] & F & T) E Ev Eb. injection E as E1 E2 E3 E4 E5 E6 E7.
  rewrite E4, E5, E7. split; [|done]. split; rewrite ?E1, ?E2, ?E3, ?E4, ?E6; try done. lia.
Qed.

Lemma base_written s fd bytes : base s -> base (s {{ sys := snd (sys_write write_result fd bytes (sys s)) }}).
Proof.
  intros ([L P N B] & F & T). pose proof (ledger_snoc fds0 _ (Written fd bytes) _ _ L) as L'. cbn [ledger_step] in L'.
  destruct s as [? ? ? ? ? ? ? []]. split; [|done]. split; done.
Qed.

Lemma malloc_outline s s' ok o : sys_malloc memory (sys s) = (ok, o) -> sys s' = o ->
  (o_fds (sys s'), o_next (sys s'), o_trace (sys s'), o_live (sys s')) = (o_fds (sys s), o_next (sys s), o_trace (sys s), o_live (sys s) + one ok).
Proof. unfold sys_malloc. intros E ->. destruct (sys s), (memory _); injection E as <- <-; cbn; [done|]. by rewrite Z.add_0_r. Qed.

Lemma base_malloc s s' ok o : base s -> sys_malloc memory (sys s) = (ok, o) -> sys s' = o -> fs_db (g_ctx s') = fs_db (g_ctx s) ->
  (ep_handles (gadget s'), usb_device (gadget s'), thread_not_started (gadget s')) =
  (ep_handles (gadget s), usb_device (gadget s), thread_not_started (gadget s)) ->
  blocks s' = blocks s + one ok -> base s'.
Proof.
  intros H E Es Ef Eg Eb. pose proof (malloc_outline _ _ _ _ E Es) as Eo. injection Eo as E1 E2 E3 E4. injection Eg as G1 G2 G3.
  apply (base_same s s' (one ok) H); [|done|done]. unfold outline. by rewrite E1, E2, E3, G1, G2, G3, Ef.
Qed.

(** ** Strings *)
Definition slot_ok (slot : Z * option (list Z)) : Prop := fst slot = 0 -> snd slot = None.

Lemma add_usb_string_count ok i id str tab : id <> 0 -> Forall slot_ok tab ->
  let tab' := snd (add_usb_string ok i id str tab) in
  Forall slot_ok tab' /\
  count (map snd tab') = count (map snd tab) + one (present str && existsb (fun slot => fst slot =? 0) tab && ok).
Proof.
  intros Hi. revert i. induction tab as [|[k t] tab IH]; intros i H; cbn [add_usb_string snd fst map existsb].
  { split; [done|]. by destruct str. }
  rewrite Forall_cons in H. destruct H as [Hk H]. destruct (Z.eqb_spec k 0) as [->|Hz].
  - cbv [slot_ok] in Hk. cbn [fst snd] in Hk. rewrite (Hk eq_refl). cbn [snd orb]. destruct str as [t'|]; [destruct ok|]; cbn [snd map present andb one]; rewrite ?count_cons; cbn [present one];
      (split; [apply Forall_cons_2; [|done]; by intros ?|lia]).
  - specialize (IH (i + 1) H). destruct (add_usb_string ok (i + 1) id str tab) as [r rest]. cbn [snd map orb] in *. destruct IH as [IH1 IH2].
    split; [by apply Forall_cons_2|]. rewrite !count_cons, IH2. lia.
Qed.

(** A gadget whose endpoints are not open. *)
Definition unopened (s : gstate) : Prop :=
  ep_handles (gadget s) = [-1; -1; -1] /\ usb_device (gadget s) = -1 /\ thread_not_started (gadget s) = 1 /\
  usb_config (gadget s) = None /\ usb_ffs_config (gadget s) = None.

Lemma add_string_ok id str s : id <> 0 -> base s -> unopened s -> Forall slot_ok (stringtab (gadget s)) ->
  ep_config (gadget s) = [None; None; None] ->
  let s' := add_string memory id str s in
  base s' /\ unopened s' /\ Forall slot_ok (stringtab (gadget s')) /\ ep_config (gadget s') = [None; None; None].
Proof.
  intros Hi H U Ht Hc. cbv zeta. unfold add_string.
  destruct (present str && existsb (fun slot => fst slot =? 0) (stringtab (gadget s))) eqn:E.
  - destruct (sys_malloc memory (sys s)) as [ok o] eqn:M. destruct (add_usb_string_count ok 0 id str _ Hi Ht) as [H1 H2].
    rewrite E in H2. cbn [andb] in H2. split_and!; [|by destruct s as [[]]..].
    apply (base_malloc s _ ok o H M); [by destruct s|by destruct s|by destruct s as [[]]|].
    destruct s as [[]]. unfold blocks, buffers in *. upd. cbn in *. lia.
  - destruct (add_usb_string_count true 0 id str _ Hi Ht) as [H1 H2]. rewrite E in H2. cbn [andb one] in H2.
    split_and!; [|by destruct s as [[]]..].
    apply (base_same s _ 0 H); [by destruct s as [[]]|destruct s; cbn; lia|]. destruct s as [[]]. unfold blocks, buffers in *. upd. cbn in *. lia.
Qed.

Lemma add_strings_ok l s : Forall (fun x => fst x <> 0) l -> base s -> unopened s -> Forall slot_ok (stringtab (gadget s)) ->
  ep_config (gadget s) = [None; None; None] ->
  let s' := fold_left (fun s x => add_string memory (fst x) (snd x) s) l s in
  base s' /\ unopened s' /\ ep_config (gadget s') = [None; None; None].
Proof.
  revert s. induction l as [|x l IH]; intros s Hl H U Ht Hc; cbn [fold_left]; [done|]. rewrite Forall_cons in Hl. destruct Hl as [Hx Hl].
  destruct (add_string_ok (fst x) (snd x) s Hx H U Ht Hc) as (? & ? & ? & ?). by apply IH.
Qed.

(** ** The endpoint blocks *)
Definition zeroed (i n : nat) : list (option (list Z)) := replicate i (Some (replicate 18 0)) ++ replicate n None.

Lemma zeroed_count i n : count (zeroed i n) = Z.of_nat i.
Proof.
  unfold zeroed. generalize (replicate 18 0). intros z. induction i as [|i IH]; cbn [replicate app].
  - induction n as [|n IH]; [done|]. cbn [replicate]. rewrite count_cons. cbn [present one]. lia.
  - rewrite count_cons. cbn [present one]. rewrite Nat2Z.inj_succ, <- IH. lia.
Qed.

Lemma zeroed_next i n : <[i := Some (replicate 18 0)]> (zeroed i (S n)) = zeroed (S i) n.
Proof.
  unfold zeroed. generalize (replicate 18 0). intros z. rewrite insert_app_r_alt by (rewrite length_replicate; lia). rewrite length_replicate, Nat.sub_diag.
  rewrite (replicate_S_end i), <- app_assoc. done.
Qed.

Lemma alloc_configs_ok n i s : base s -> unopened s -> ep_config (gadget s) = zeroed i n ->
  exists ok s', alloc_configs memory n i s = (ok, s') /\ base s' /\ unopened s' /\
    (ok = true -> ep_config (gadget s') = zeroed (i + n) 0).
Proof.
  revert i s. induction n as [|n IH]; intros i s H U Hc; cbn [alloc_configs].
  { exists true, s. rewrite Nat.add_0_r. done. }
  destruct (sys_malloc memory (sys s)) as [[] o] eqn:M.
  - rewrite <- Nat.add_succ_comm. apply IH; [|by destruct s as [[]]|by destruct s as [[]]; cbn in *; rewrite Hc, zeroed_next].
    apply (base_malloc s _ true o H M); [by destruct s|by destruct s|by destruct s as [[]]|].
    pose proof (zeroed_count i (S n)) as Z1. pose proof (zeroed_count (S i) n) as Z2. rewrite <- zeroed_next in Z2. rewrite <- Hc in Z1, Z2.
    destruct s as [[]]. unfold blocks, buffers in *. upd. cbn in *. lia.
  - eexists false, _. split_and!; [done| |by destruct s|done]. apply (base_malloc s _ false o H M); [by destruct s..|].
    destruct s. unfold blocks, buffers. cbn. lia.
Qed.

(** ** The set-up *)

(** A gadget whose device is open is [good] once its descriptors are there. *)
Lemma base_good s : base s -> 0 <= usb_device (gadget s) -> ep_handles (gadget s) = [-1; -1; -1] ->
  speed_descriptors (gadget s) <> None -> ep_config (gadget s) = zeroed 3 0 -> length (ep_path (gadget s)) = 3%nat -> good s.
Proof.
  intros ([L P N B] & F & T) Hd He Hs Hc Hp. destruct F as [F1 F2]. split; try done.
  - rewrite P, He, (owned_cons (usb_device (gadget s))), (proj2 (Z.leb_le _ _) Hd). done.
  - rewrite He. done.
  - rewrite Hc. split_and!; try done. by repeat (apply Forall_cons_2; [done|]).
Qed.

Lemma opened_ok path s : base s -> unopened s ->
  let '(fd, o) := sys_open openable path (sys s) in
  let s' := on_gadget (fun g => g {{ usb_device := fd }}) (s {{ sys := o }}) in
  base s' /\ (0 <= fd \/ fd = -1).
Proof.
  intros ([L P N B] & F & T) (Eh & Ed & Et & _). unfold sys_open. destruct (openable _ path); cbv zeta.
  - pose proof (ledger_snoc fds0 _ (Opened path (o_next (sys s))) _ _ L) as L'. cbn [ledger_step] in L'. destruct F as [F1 F2].
    assert (o_next (sys s) ∉ o_fds (sys s)) as Hin by (intros Hin; rewrite Forall_forall in F1; specialize (F1 _ Hin); lia).
    rewrite bool_decide_false in L' by done. rewrite Eh, Ed in P. cbn [owned List.filter app Z.leb] in P.
    split; [|left; lia]. destruct s as [[] ? ? ? ? ? ? []]. cbn in *. subst. split; [split|split; [|done]]; upd; cbn; try done.
    + rewrite P, (proj2 (Z.leb_le 0 o_next)) by lia. done.
    + by apply NoDup_cons.
    + split; upd; cbn; [|lia]. apply Forall_cons_2; [lia|]. eapply Forall_impl; [exact F1|]. cbn. lia.
  - split; [|by right]. apply (base_same s _ 0); [done| |by destruct s as [? ? ? ? ? ? ? []]; cbn; lia|].
    + unfold outline. destruct s as [[] ? ? ? ? ? ? []]. cbn in *. by subst.
    + destruct s as [[]]. unfold blocks, buffers. cbn. lia.
Qed.

Hypothesis own_driver : mtp_usb_mode c = false.
Hypothesis interface_short : strlen (usb_string_interface c) <= 127.

Lemma written_step fd bytes s : let s' := s {{ sys := snd (sys_write write_result fd bytes (sys s)) }} in gadget s' = gadget s.
Proof. by destruct s. Qed.

Lemma write_functionfs_ok s : base s -> usb_ffs_config (gadget s) = None -> 0 <= usb_device (gadget s) ->
  ep_handles (gadget s) = [-1; -1; -1] -> ep_config (gadget s) = zeroed 3 0 -> length (ep_path (gadget s)) = 3%nat ->
  exists ok s', write_functionfs c write_result memory s = Some (ok, s') /\ base s' /\ (ok = true -> good s').
Proof.
  intros H Hn Hd Hh Hc Hp. unfold write_functionfs. destruct (sys_malloc memory (sys s)) as [[] o] eqn:M; cbn [negb].
  2: { eexists false, _. split_and!; [done| |done]. apply (base_malloc s _ false o H M); [by destruct s..|].
       destruct s. unfold blocks, buffers. cbn. lia. }
  set (s1 := on_gadget _ (s {{ sys := o }})).
  assert (base s1) as H1.
  { apply (base_malloc s _ true o H M); [by destruct s|by destruct s|by destruct s as [[]]|].
    destruct s as [[]]. unfold blocks, buffers, s1 in *. cbn in *. subst. cbn. lia. }
  assert (gadget s1 = (gadget s) {{ usb_ffs_config := Some (usb_ffs_config_of c) }}) as G1 by (unfold s1; by destruct s).
  assert (0 <= usb_device (gadget s1) /\ ep_handles (gadget s1) = [-1; -1; -1] /\ ep_config (gadget s1) = zeroed 3 0 /\
    length (ep_path (gadget s1)) = 3%nat /\ speed_descriptors (gadget s1) <> None) as (D1 & E1 & C1 & P1 & S1)
    by (rewrite G1; by destruct (gadget s)).
  clearbody s1. clear G1.
  pose proof (base_written s1 (usb_device (gadget s1)) (ffs_bytes (usb_ffs_config_of c)) H1) as H2.
  pose proof (written_step (usb_device (gadget s1)) (ffs_bytes (usb_ffs_config_of c)) s1) as G2. cbv zeta in G2.
  unfold sys_write in H2, G2 |- *. cbn [snd] in H2, G2. set (s2 := s1 {{ sys := _ }}) in *. clearbody s2.
  destruct (negb _); [by exists false, s2|]. destruct (ffs_strings_size c interface_short) as [-> _]. cbn [mbind option_bind].
  eexists _, _. split; [done|].
  pose proof (base_written s2 (usb_device (gadget s2)) (le_bytes 4 FUNCTIONFS_STRINGS_MAGIC ++ le_bytes 4 (16 + 2 + strlen (usb_string_interface c) + 1) ++ le_bytes 4 1 ++
    le_bytes 4 1 ++ le_bytes 2 0x0409 ++ usb_string_interface c ++ [0]) H2) as H3. unfold sys_write in H3. cbn [snd] in H3.
  split; [exact H3|]. intros _. apply base_good; [exact H3|..]; replace (gadget (s2 {{ sys := _ }})) with (gadget s2) by (by destruct s2); by rewrite G2.
Qed.

Lemma write_gadgetfs_ok s : base s -> usb_config (gadget s) = None -> usb_ffs_config (gadget s) = None -> 0 <= usb_device (gadget s) ->
  ep_handles (gadget s) = [-1; -1; -1] -> ep_config (gadget s) = zeroed 3 0 -> length (ep_path (gadget s)) = 3%nat ->
  exists ok s', write_gadgetfs c write_result memory s = (ok, s') /\ base s' /\ (ok = true -> good s').
Proof.
  intros H Hn Hf Hd Hh Hc Hp. unfold write_gadgetfs. destruct (sys_malloc memory (sys s)) as [[] o] eqn:M; cbn [negb].
  2: { eexists false, _. split_and!; [done| |done]. apply (base_malloc s _ false o H M); [by destruct s..|].
       destruct s. unfold blocks, buffers. cbn. lia. }
  set (s1 := on_gadget _ (s {{ sys := o }})).
  assert (base s1) as H1.
  { apply (base_malloc s _ true o H M); [by destruct s|by destruct s|by destruct s as [[]]|].
    destruct s as [[]]. unfold blocks, buffers, s1 in *. cbn in *. subst. cbn. lia. }
  assert (gadget s1 = (gadget s) {{ usb_config := Some (usb_config_of c) }}) as G1 by (unfold s1; by destruct s).
  pose proof (base_written s1 (usb_device (gadget s1)) (block_bytes (usb_config_of c)) H1) as H2.
  pose proof (written_step (usb_device (gadget s1)) (block_bytes (usb_config_of c)) s1) as G2. cbv zeta in G2.
  unfold sys_write in H2, G2 |- *. cbn [snd] in H2, G2.
  eexists _, _. split; [done|]. split; [exact H2|]. intros _. apply base_good; [exact H2|..]; rewrite G2, G1; clear - Hd Hh Hc Hp Hf;
    destruct (gadget s); cbn in *; try done. by subst.
Qed.

Lemma setup_gadget_ok s : idle (s {{ sys := (sys s) {{ o_live := o_live (sys s) - 1 }} }}) ->
  exists ok s', setup_gadget c openable write_result memory s = Some (ok, s') /\ base s' /\ (ok = true -> good s').
Proof.
  intros H. unfold setup_gadget.
  set (s1 := s {{ gadget := empty_gadget }}).
  assert (base s1 /\ unopened s1 /\ ep_config (gadget s1) = zeroed 0 3 /\ Forall slot_ok (stringtab (gadget s1))) as (B1 & U1 & C1 & T1).
  { destruct H as [L P F B T]. unfold s1. destruct s as [? ? ? ? ? ? ? []]. unfold base, fresh, blocks, buffers in *. cbn in *. destruct F as (F0 & F1 & F2).
    split_and!; [|done|done|done..|].
    - split; try done. unfold blocks, buffers. cbn. match goal with |- context [count ?l] => change (count l) with 0 end. change (count [None; None; None]) with 0. cbv [constant] in B. lia.
    - by repeat (apply Forall_cons_2; [done|]). }
  clearbody s1. clear H s.
  assert (Forall (fun x => fst x <> 0) (gadget_strings_of c)) as Hs by (unfold gadget_strings_of; repeat (apply Forall_cons_2; [done|]); apply Forall_nil_2).
  destruct (add_strings_ok (gadget_strings_of c) s1 Hs B1 U1 T1 C1) as (B2 & U2 & C2). cbv zeta in *.
  set (s2 := fold_left _ (gadget_strings_of c) s1) in *. clearbody s2.
  assert (forall s, base s -> base (on_gadget (fun g => g {{ g_wait_connection := wait_connection c }}) s)) as Bw.
  { intros s H. apply (base_same s _ 0 H); [by destruct s as [[]]|destruct s; cbn; lia|]. destruct s as [[]]. unfold blocks, buffers. cbn. lia. }
  specialize (Bw s2 B2). set (s3 := on_gadget _ s2) in *.
  assert (unopened s3) as U3 by (unfold s3; by destruct s2 as [[]]). assert (ep_config (gadget s3) = zeroed 0 3) as C3 by (unfold s3; by destruct s2 as [[]]).
  clearbody s3. clear s1 B1 U1 C1 T1 s2 B2 U2 C2.
  destruct (alloc_configs_ok 3 0 s3 Bw U3 C3) as (ok & s4 & -> & B4 & U4 & C4).
  destruct ok; cbn [negb]; [|by exists false, s4]. specialize (C4 eq_refl). cbn [Nat.add] in C4.
  set (s5 := on_gadget _ s4).
  assert (base s5 /\ unopened s5 /\ ep_config (gadget s5) = zeroed 3 0 /\ length (ep_path (gadget s5)) = 3%nat) as (B5 & U5 & C5 & P5).
  { unfold s5. split_and!; [|by destruct s4 as [[]]..]. apply (base_same s4 _ 0 B4); [by destruct s4 as [[]]|destruct s4; cbn; lia|].
    destruct s4 as [[]]. unfold blocks, buffers. cbn. lia. }
  clearbody s5. clear s3 Bw U3 C3 s4 B4 U4 C4.
  pose proof (opened_ok (usb_device_path c) s5 B5 U5) as O. destruct (sys_open _ _ _) as [fd o]. cbv zeta in O. destruct O as [B6 Hf].
  set (s6 := on_gadget _ (s5 {{ sys := o }})) in *.
  assert (ep_handles (gadget s6) = [-1; -1; -1] /\ usb_device (gadget s6) = fd /\ usb_config (gadget s6) = None /\ usb_ffs_config (gadget s6) = None /\
    ep_config (gadget s6) = zeroed 3 0 /\ length (ep_path (gadget s6)) = 3%nat) as (E6 & D6 & N6 & M6 & C6 & P6).
  { clear - U5 C5 P5. destruct U5 as (? & ? & ? & ? & ?). unfold s6. by destruct s5 as [[]]. }
  clearbody s6. rewrite own_driver, andb_false_r. destruct (Z.ltb_spec fd 0) as [Hn|Hn]; [by exists false, s6|].
  destruct (negb _).
  - apply write_functionfs_ok; try done. lia.
  - destruct (write_gadgetfs_ok s6 B6 N6 M6 ltac:(lia) E6 C6 P6) as (ok & s' & -> & H1 & H2). by exists ok, s'.
Qed.

(** ** The release *)
Lemma release_keeps (P : gstate -> Prop) usbctx s : (forall s f, P s -> P (on_gadget f s)) ->
  (forall s o, o_next o = o_next (sys s) -> P s -> P (s {{ sys := o }})) -> (forall s, P s -> P (s {{ wrbuffer := false }})) ->
  (forall s, P s -> P (s {{ rdbuffer := false }})) -> (forall s, P s -> P (s {{ rdbuffer2 := false }})) ->
  P s -> P (deinit_usb_mtp_gadget c usbctx s).
Proof.
  intros Hg Hs H1 H2 H3 H.
  assert (forall s f, (forall o, o_next (f o) = o_next o) -> P s -> P (on_sys f s)) as Ho by (intros ? f Hf ?; by apply Hs).
  assert (forall b s, P s -> P (free_if b s)) as Hf by (intros [] ? ?; [by apply Ho|done]).
  assert (forall s, P s -> P (free_buffers s)) as Hb by (intros ? ?; unfold free_buffers; apply H3, Hf, H2, Hf, H1, Hf; done).
  assert (forall A (f : gstate -> A -> gstate) l s, (forall s a, P s -> P (f s a)) -> P s -> P (fold_left f l s)) as Hl.
  { intros A f l. induction l as [|a l IH]; cbn [fold_left]; auto. }
  unfold deinit_usb_mtp_gadget. destruct usbctx; [|by apply Hb]. rewrite own_driver, andb_false_r. cbv zeta.
  apply Hb, Ho; [done|]. apply Hl; [intros; by apply Hf|]. apply Hl; [intros; by apply Hf|]. apply Hf, Hf.
  match goal with |- P (if _ then _ else ?s) => assert (P s) as H5 end.
  { match goal with |- P (if _ then _ else ?s) => assert (P s) as H4 end.
    { apply Hl; [|by apply Hg]. intros ? a ?. destruct (0 <=? a); [|done]. by apply Ho. }
    destruct (0 <=? _); [|done]. by apply Hg, Ho. }
  destruct (_ =? 0); [|done]. by apply Hg, Ho, Ho.
Qed.

Lemma deinit_idle s : base s -> let s' := deinit_usb_mtp_gadget c true s in idle s' /\ buffers s' = 0.
Proof.
  intros (H & F & T). pose proof (deinit_released c fds0 live0 s own_driver H) as (P & L & B & G). cbv zeta.
  assert (o_next (sys (deinit_usb_mtp_gadget c true s)) = o_next (sys s) /\ g_ctx (deinit_usb_mtp_gadget c true s) = g_ctx s) as [En Ec].
  { apply (release_keeps (fun s' => o_next (sys s') = o_next (sys s) /\ g_ctx s' = g_ctx s)); try (by intros []); [|done].
    intros s1 o E [E1 E2]. split; [|by destruct s1]. rewrite <- E1, <- E. by destruct s1. }
  split; [|done]. destruct H as [_ P0 N0 _], F as [F1 F2].
  split; [done|done| |lia|by rewrite Ec]. rewrite En. rewrite P0 in F1, N0.
  rewrite !Forall_app in F1. apply NoDup_app in N0 as (_ & _ & N0). apply NoDup_app in N0 as (_ & _ & N0). destruct F1 as (_ & _ & F1). rewrite P. by split_and!.
Qed.

Lemma buffers_idle s : idle s -> let s' := deinit_usb_mtp_gadget c false s in idle s' /\ buffers s' = 0.
Proof.
  intros [L P F B T]. cbv zeta. cbn [deinit_usb_mtp_gadget]. unfold free_buffers. rewrite !free_pays.
  destruct s as [? ? ? w r r2 ? []]. unfold pay, on_sys, buffers in *. upd. cbn in *. split; [|done]. split; try done. unfold buffers. cbn. lia.
Qed.

(** ** The three buffers *)
Definition take_block (k : Z) (s : gstate) : gstate := s {{ sys := (sys s) {{ o_live := o_live (sys s) - k }} }}.

Lemma buffer_step (old : bool) (s : gstate) : let '(ok, s1) := new_buffer memory old s in
  s1 = s {{ sys := sys s1 }} /\ o_fds (sys s1) = o_fds (sys s) /\ o_next (sys s1) = o_next (sys s) /\ o_trace (sys s1) = o_trace (sys s) /\
  o_live (sys s1) = o_live (sys s) - one old + one ok.
Proof.
  unfold new_buffer, sys_malloc. destruct s as [? ? ? ? ? ? ? []], old; cbn [free_if]; unfold on_sys, sys_free; upd;
    match goal with |- context [memory ?t] => destruct (memory t) end; cbn; split_and!; try done; lia.
Qed.

Lemma idle_same s s' : idle s -> o_fds (sys s') = o_fds (sys s) -> o_next (sys s') = o_next (sys s) -> o_trace (sys s') = o_trace (sys s) ->
  g_ctx s' = g_ctx s -> o_live (sys s') = live0 + buffers s' -> idle s'.
Proof. intros [L P F B T] E1 E2 E3 E4 E5. split; rewrite ?E1, ?E2, ?E3, ?E4; done. Qed.

(** One buffer, replaced. *)
Lemma buffer_ok (old : bool) (put : bool -> gstate -> gstate) s : idle s ->
  (forall b o, let s' := put b (s {{ sys := o }}) in
     sys s' = o /\ g_ctx s' = g_ctx s /\ buffers s' = buffers s - one old + one b) ->
  let '(ok, t) := new_buffer memory old s in idle (put ok t).
Proof.
  intros H Hp. pose proof (id_blocks _ _ _ _ H) as B. pose proof (buffer_step old s) as S1.
  destruct (new_buffer memory old s) as [ok t]. destruct S1 as (E & F & N & T & L). rewrite E. destruct (Hp ok (sys t)) as (P1 & P2 & P3).
  apply (idle_same s); try done; rewrite P1; try done. rewrite P3. lia.
Qed.

Lemma init_gadget_ok s : idle s -> exists ok s', init_usb_mtp_gadget c openable write_result memory s = Some (ok, s') /\
  (if ok then good s' else idle s' /\ buffers s' = 0).
Proof.
  intros H. unfold init_usb_mtp_gadget.
  pose proof (buffer_ok (wrbuffer s) (fun b s => s {{ wrbuffer := b }}) s H) as H1. destruct (new_buffer memory (wrbuffer s) s) as [ok1 t1].
  specialize (H1 ltac:(intros ? ?; unfold buffers; destruct s; upd; cbn; split_and!; [done|done|lia])). cbv beta in H1. set (s1 := t1 {{ wrbuffer := ok1 }}) in *. clearbody s1.
  destruct ok1; cbn [negb]; [|eexists false, _; split; [done|by apply buffers_idle]].
  pose proof (buffer_ok (rdbuffer s1) (fun b s => s {{ rdbuffer := b }}) s1 H1) as H2. destruct (new_buffer memory (rdbuffer s1) s1) as [ok1 t2].
  specialize (H2 ltac:(intros ? ?; unfold buffers; destruct s1; upd; cbn; split_and!; [done|done|lia])). cbv beta in H2. set (s2 := t2 {{ rdbuffer := ok1 }}) in *. clearbody s2.
  destruct ok1; cbn [negb]; [|eexists false, _; split; [done|by apply buffers_idle]].
  pose proof (buffer_ok (rdbuffer2 s2) (fun b s => s {{ rdbuffer2 := b }}) s2 H2) as H3. destruct (new_buffer memory (rdbuffer2 s2) s2) as [ok1 t3].
  specialize (H3 ltac:(intros ? ?; unfold buffers; destruct s2; upd; cbn; split_and!; [done|done|lia])). cbv beta in H3. set (s3 := t3 {{ rdbuffer2 := ok1 }}) in *. clearbody s3.
  destruct ok1; cbn [negb]; [|eexists false, _; split; [done|by apply buffers_idle]].
  destruct (sys_malloc memory (sys s3)) as [ok4 o] eqn:M. unfold sys_malloc in M. destruct (memory _); injection M as <- <-; cbn [negb].
  - edestruct (setup_gadget_ok) as (ok & s' & -> & H5 & H6); cycle 1; [cbn [mbind option_bind]; destruct ok|].
    + exists true, s'. split; [done|by apply H6].
    + eexists false, _. split; [done|by apply deinit_idle].
    + apply (idle_same s3); [done|..]; destruct H3 as [L P F B T], s3 as [? ? ? ? ? ? ? []]; unfold buffers in *; upd; cbn in *; try done. lia.
  - eexists false, _. split; [done|]. apply buffers_idle. apply (idle_same s3); [done|..]; destruct H3 as [L P F B T], s3 as [? ? ? ? ? ? ? []]; done.
Qed.
End Rounds.
