(* ===== verification/MtpMain.v ===== *)
(** * The program: starting, serving, leaving

    [umtprd.c], the life of the context in [mtp.c] and the queue of
    [msgqueue.c]: the arguments of [main], the test for another instance, the
    rounds of [main_thread] and its three ways to serve. *)

From Stdlib Require Import Ascii String.
From S2P Require Import Prelude CString MtpData MtpUsb MtpHash MtpDb MtpTable MtpPath MtpStorage MtpMount MtpSession MtpFile MtpHandles MtpOps MtpDisk MtpSend MtpDataset MtpDispatch MtpConfig MtpDescriptors MtpGadget.

(** ** The message queue *)

(** The queue of the system: whether it exists, and the process that holds its
    lock. *)
Record queue := mkqueue { q_exists : bool; q_holder : option nat }.

Definition get_message_queue (create : bool) (q : queue) : bool * queue :=
  if q_exists q then (true, q) else if create then (true, q {{ q_exists := true }}) else (false, q).

(** [sent] is whether [mq_send] takes the message. *)
Definition send_message_queue (sent : bool) (q : queue) : Z * queue :=
  let '(found, q) := get_message_queue false q in ((if found && sent then 0 else -1), q).

(** [created] is whether the thread could be created. *)
Definition msgqueue_handler_init (created : bool) (q : queue) : Z * queue :=
  let '(found, q) := get_message_queue true q in ((if found then if created then 0 else -1 else -2), q).

(** The queue is left locked by a process that runs on. *)
Definition check_running (pid : nat) (q : queue) : bool * queue :=
  let '(found, q) := get_message_queue false q in
  if negb found then (false, q)
  else match q_holder q with Some _ => (true, q) | None => (false, q {{ q_holder := Some pid }}) end.

(** What [mq_receive] gives, and [shutdown_requested] at the end of the turn. *)
Definition MAX_MSG_SIZE : Z := 128.
Record receipt := mkreceipt { m_received : option (list Z); m_shutdown : bool }.

Section Queue.
Context (mal : nat -> bool) (real : list Z -> option (list Z)) (copied : bool) (tmpstr : list Z).

Fixpoint msgqueue_thread (receipts : list receipt) (ctx : mtp_ctx) : option mtp_ctx :=
  match receipts with
  | [] => Some ctx
  | r :: receipts =>
      ctx ← match m_received r with
            | Some message => if strlen message <=? MAX_MSG_SIZE then queue_message mal real copied tmpstr (to_nul message) ctx else Some ctx
            | None => Some ctx
            end;
      if m_shutdown r then Some ctx else msgqueue_thread receipts ctx
  end.
End Queue.

(** ** The arguments *)
Inductive ending := Exits (status : Z) | Serves (conffile : list Z).

Definition UMTPR_CONF_FILE : list Z := cstr "/etc/umtprd/umtprd.conf".
Definition PARAMETER_IPCCMD : list Z := cstr "-cmd:".
Definition PARAMETER_CONF : list Z := cstr "-conf".

(** The loop on the arguments: the commands sent, and how [main] goes on;
    [send] is what [send_message_queue] returns. *)
Fixpoint arguments (send : list Z -> Z) (already_running : bool) (argv : list (list Z)) (conffile : list Z) (cmd_sent : bool) :
    list (list Z) * ending :=
  match argv with
  | [] => ([], if negb cmd_sent && negb already_running then Serves conffile else Exits 0)
  | arg :: argv =>
      if starts_with PARAMETER_IPCCMD arg then
        let cmd := drop 5 arg in
        let retcode := send cmd in
        if negb (retcode =? 0) then ([cmd], Exits retcode)
        else let '(cmds, e) := arguments send already_running argv conffile true in (cmd :: cmds, e)
      else if streq arg PARAMETER_CONF then
        if already_running then ([], Exits 1)
        else match argv with
             | [] => ([], Exits 1)
             | file :: argv => arguments send already_running argv file cmd_sent
             end
      else ([], Exits 1)
  end.

(** [argv] without the name of the program. *)
Definition main (send : list Z -> Z) (already_running : bool) (argv : list (list Z)) : list (list Z) * ending :=
  match argv with
  | [] => if already_running then ([], Exits 0) else arguments send already_running argv UMTPR_CONF_FILE false
  | _ => arguments send already_running argv UMTPR_CONF_FILE false
  end.

(** What the daemon returns once it has served; the status of the process is
    its low byte. *)
Definition exit_status (retcode : Z) : Z := u8 (- retcode).

(** ** The context *)
Definition CONFIG_MAX_TX_USB_BUFFER_SIZE : Z := 16 * 512.
Definition CONFIG_MAX_RX_USB_BUFFER_SIZE : Z := 16 * 512.
Definition CONFIG_READ_FILE_BUFFER_SIZE : Z := 1024 * 1024.

Definition responder_context (uid gid : Z) : daemon :=
  mkdaemon (mkcfg 0 0 0 0 0 0 0 0 [] [] [] [] [] [] [] [] [] [] 0 0 0 0) CONFIG_MAX_TX_USB_BUFFER_SIZE CONFIG_MAX_RX_USB_BUFFER_SIZE
    CONFIG_READ_FILE_BUFFER_SIZE 0 0 (mkctx uid gid (-1) (-1) (replicate MAX_STORAGE_NB no_storage) None 0 0 [] []).

Section Daemon.
Context {W : Type} {FS : FileSystem W}.
(** The answers of the system to the gadget ([MtpGadget]). *)
Context (openable : nat -> list Z -> bool) (write_result : nat -> Z -> list Z -> Z) (memory : nat -> bool) (thread_result : nat -> Z).
(** What the commands use ([MtpDispatch]). *)
Context (localtime : Z -> option tm) (mal : nat -> bool) (may_uid may_gid : Z -> bool) (addwatch : list Z -> Z).
Context (wrbuffer wrbuffer' rdbuffer2 : list Z) (read_file_buffer : option (list Z)) (cancel : nat -> bool) (fuel : nat).
(** The storages of the configuration ([MtpConfig]). *)
Context (real : list Z -> option (list Z)) (copied : bool) (tmpstr : list Z).

(** [mutexes] is whether the attributes and the two locks could be set up. *)
Definition mtp_init_responder (uid gid : Z) (mutexes : bool) (o : system) : option daemon * system :=
  let '(ok, o) := sys_malloc memory o in
  if negb ok then (None, o)
  else
    let '(ok, o) := sys_malloc memory o in
    if negb ok then (None, sys_free o)
    else if negb mutexes then (None, sys_free (sys_free o))
    else (Some (responder_context uid gid), o).

(** The three buffers, [temp_array] and the context; the two service threads are
    stopped before ([MtpStop.deinit_services]). *)
Definition mtp_deinit_responder (s : gstate) : gstate := on_sys sys_free (on_sys sys_free (free_buffers s)).

(** ** Serving *)

(** The context is shared with the responder that runs the commands. *)
Definition incoming (d : daemon) (h : responder W) : option (Z * responder W) :=
  mtp_incoming_packet localtime mal may_uid may_gid (strings_of (usb_cfg d)) (negb (show_hidden_files (usb_cfg d) =? 0)) addwatch
    (usb_wr_buffer_max_size d) (usb_rd_buffer_max_size d) (usb_max_packet_size (usb_cfg d))
    wrbuffer wrbuffer' rdbuffer2 read_file_buffer cancel fuel h.

(** True is the thread's end, false its fuel's. *)
Fixpoint io_thread (d : daemon) (turns : nat) (s : gstate) (h : responder W) : option (bool * gstate * responder W) :=
  if negb (is_usb_up (gadget s)) then Some (true, s, h)
  else
    match turns with
    | O => Some (false, s, h)
    | Datatypes.S turns =>
        '(ret, h) ← incoming d (put_ctx (g_ctx s) h);
        let s := s {{ g_ctx := w_ctx (h_world h) }} in
        io_thread d turns (if ret <? 0 then on_gadget (fun g => g {{ stop := true }}) s else s) h
    end.

(** What a round meets: the polls of endpoint 0 in the two modes, the transfers
    of the host in the third, and [shutdown_requested] at its end. *)
Record round := mkround {
  v_gadgetfs : list (poll gadgetfs_event); v_functionfs : list (poll functionfs_event); v_usb : list (list Z); v_shutdown : bool }.

(** False is a daemon that still waits for its host. *)
Definition serve (d : daemon) (r : round) (s : gstate) (h : responder W) : option (bool * gstate * responder W) :=
  if mtp_usb_mode (usb_cfg d) then
    let h := h {{ h_in := v_usb r }} in
    io_thread d (Datatypes.S (length (v_usb r))) (on_gadget (fun g => g {{ stop := false }}) s) h
  else
    '(result, s) ← (if negb (usb_functionfs_mode (usb_cfg d) =? 0)
                    then handle_ffs_ep0 openable write_result thread_result (v_functionfs r) s
                    else handle_ep0 openable write_result thread_result (v_gadgetfs r) s);
    Some (match result with Some _ => true | None => false end, s, h).

(** The loop; [None] for the code is a daemon that still serves or waits. *)
Fixpoint main_loop (d : daemon) (rounds : list round) (s : gstate) (h : responder W) : option (option Z * gstate * responder W) :=
  match rounds with
  | [] => Some (None, s, h)
  | r :: rounds =>
      '(ok, s) ← init_usb_mtp_gadget (usb_cfg d) openable write_result memory s;
      '(left_, s, h) ← (if ok : bool then serve d r s h else Some (true, s, h));
      if negb left_ then Some (None, s, h)
      else
        let s := if ok : bool then deinit_usb_mtp_gadget (usb_cfg d) true s else s in
        ctx ← drop_table (g_ctx s);
        let s := s {{ g_ctx := ctx }} in
        let loop_continue := (ok : bool) && negb (loop_on_disconnect (usb_cfg d) =? 0) in
        if loop_continue && negb (v_shutdown r) then main_loop d rounds s h
        else Some (Some (if ok : bool then 0 else -2), s, h)
  end.

(** [conffile] is the text of the configuration file, if it can be opened. *)
Definition main_thread (uid gid : Z) (mutexes : bool) (conffile : option (list Z)) (rounds : list round) (o : system) (h : responder W) :
    option (option Z * gstate) :=
  let '(d, o) := mtp_init_responder uid gid mutexes o in
  match d with
  | None => Some (Some (-1), mkgstate empty_gadget 0 false false false false (d_ctx (responder_context uid gid)) o)
  | Some d =>
      let '(d, _) := mtp_load_config_file real copied tmpstr conffile d in
      '(retcode, s, _) ← main_loop d rounds (mkgstate empty_gadget 0 false false false false (d_ctx d) o) h;
      Some (retcode, match retcode with Some _ => mtp_deinit_responder s | None => s end)
  end.
End Daemon.
