(* ===== verification/MtpMainProps.v ===== *)
(** * The daemon gives everything back, and runs alone

    The rounds of the daemon from its start to its end, the turns of its third
    mode, and the processes that share the message queue. *)

From Stdlib Require Import Ascii String.
From S2P Require Import Prelude CString MtpData MtpUsb MtpHash MtpDb MtpTable MtpPath MtpStorage MtpMount MtpSession MtpFile MtpHandles MtpOps MtpDisk MtpSend MtpDataset MtpAccess MtpDispatch MtpConfig MtpConfigProps MtpConfigFile MtpDaemon MtpDescriptors MtpGadget MtpGadgetProps MtpGadgetRounds MtpMain.

Section Main.
Context {W : Type} {FS : FileSystem W}.
Context (openable : nat -> list Z -> bool) (write_result : nat -> Z -> list Z -> Z) (memory : nat -> bool) (thread_result : nat -> Z).
Context (localtime : Z -> option tm) (mal : nat -> bool) (may_uid may_gid : Z -> bool) (addwatch : list Z -> Z).
Context (wrbuffer wrbuffer' rdbuffer2 : list Z) (read_file_buffer : option (list Z)) (cancel : nat -> bool) (fuel : nat).
Context (real : list Z -> option (list Z)) (copied : bool) (tmpstr : list Z).
Abbreviation main_loop := (main_loop openable write_result memory thread_result localtime mal may_uid may_gid addwatch
  wrbuffer wrbuffer' rdbuffer2 read_file_buffer cancel fuel).
Abbreviation serve := (serve openable write_result thread_result localtime mal may_uid may_gid addwatch
  wrbuffer wrbuffer' rdbuffer2 read_file_buffer cancel fuel).
Abbreviation main_thread := (main_thread openable write_result memory thread_result localtime mal may_uid may_gid addwatch
  wrbuffer wrbuffer' rdbuffer2 read_file_buffer cancel fuel real copied tmpstr).

(** ** Rounds *)

(** What the transfer thread does meanwhile keeps the session. *)
Definition round_ok (r : round) : Prop := Forall (poll_ok mal) (v_gadgetfs r) /\ Forall (poll_ok mal) (v_functionfs r).

(** The mode is one of the two on endpoint 0, the interface's name fits its
    array, and an endpoint that is open takes its descriptors. *)
Definition endpoint_mode (c : mtp_usb_cfg) : Prop := mtp_usb_mode c = false /\ strlen (usb_string_interface c) <= 127.
Hypothesis endpoint_written : forall t fd desc, write_result t fd (ep_cfg_bytes desc) = EP_CFG_SIZE.

Lemma serve_ok d r s (h : responder W) fds0 live0 : endpoint_mode (usb_cfg d) -> round_ok r -> good mal fds0 live0 s ->
  exists left_ s', serve d r s h = Some (left_, s', h) /\ good mal fds0 live0 s'.
Proof.
  intros [Hm _] [Hg Hf] H. unfold MtpMain.serve. rewrite Hm.
  assert (exists result s', (if negb (usb_functionfs_mode (usb_cfg d) =? 0)
    then handle_ffs_ep0 openable write_result thread_result (v_functionfs r) s
    else handle_ep0 openable write_result thread_result (v_gadgetfs r) s) = Some (result, s') /\ good mal fds0 live0 s') as (result & s' & -> & H').
  { destruct (negb _); apply loop_ok; try done; intros t s1 ev H1; [by apply functionfs_ok|by apply gadgetfs_ok]. }
  cbn [mbind option_bind]. by eexists _, s'.
Qed.

Lemma good_base fds0 live0 s : good mal fds0 live0 s -> base mal fds0 live0 s.
Proof. intros H. split; [by eapply good_owes|]. destruct H as [_ _ (_ & F) _ _ _ T]. done. Qed.

Lemma table_dropped fds0 live0 s ctx : idle mal fds0 live0 s -> drop_table (g_ctx s) = Some ctx ->
  idle mal fds0 live0 (s {{ g_ctx := ctx }}) /\ fs_db ctx = None.
Proof.
  intros [L P F B T] E. assert (fs_db ctx = None) as N.
  { unfold drop_table in E. destruct (fs_db (g_ctx s)) as [d|] eqn:D; [|by injection E as <-].
    destruct (deinit_fs_db d) as [[rm db]|]; [|done]. cbn [mbind option_bind] in E. injection E as <-. by destruct (g_ctx s). }
  split; [|done]. destruct s as [? ? ? ? ? ? ? []]. split; try done. unfold session_ok. upd. by rewrite N.
Qed.

(** The loop is between two rounds, in one of them, or left. *)
Definition loop_state (fds0 : list Z) (live0 : Z) (code : option Z) (s : gstate) : Prop :=
  match code with
  | Some r => (r = 0 \/ r = -2) /\ idle mal fds0 live0 s /\ buffers s = 0 /\ fs_db (g_ctx s) = None
  | None => idle mal fds0 live0 s \/ good mal fds0 live0 s
  end.

Lemma main_loop_ok d rounds s (h : responder W) fds0 live0 : endpoint_mode (usb_cfg d) -> Forall round_ok rounds -> idle mal fds0 live0 s ->
  exists code s' h', main_loop d rounds s h = Some (code, s', h') /\ loop_state fds0 live0 code s'.
Proof.
  intros Hc. revert s h. induction rounds as [|r rounds IH]; intros s h Hr H; cbn [MtpMain.main_loop]; [exists None, s, h; by split; [|left]|].
  rewrite Forall_cons in Hr. destruct Hr as [H1 Hr]. pose proof Hc as [Hm Hi].
  destruct (init_gadget_ok mal fds0 live0 (usb_cfg d) openable write_result memory Hm Hi s H) as (ok & s1 & -> & Hs1). cbn [mbind option_bind].
  assert (exists left_ s2, (if ok then serve d r s1 h else Some (true, s1, h)) = Some (left_, s2, h) /\
    if ok then good mal fds0 live0 s2 else left_ = true /\ idle mal fds0 live0 s2 /\ buffers s2 = 0) as (left_ & s2 & -> & Hs2).
  { destruct ok; [by apply serve_ok|]. destruct Hs1. by exists true, s1. }
  cbn [mbind option_bind]. destruct left_; cbn [negb].
  2: { exists None, s2, h. split; [done|]. destruct ok; [by right|by destruct Hs2]. }
  set (s3 := if ok then deinit_usb_mtp_gadget (usb_cfg d) true s2 else s2).
  assert (idle mal fds0 live0 s3 /\ buffers s3 = 0) as [H3 B3].
  { unfold s3. destruct ok; [|by destruct Hs2 as (_ & ?)]. by apply deinit_idle; [done|apply good_base]. }
  clearbody s3. destruct (drop_table_ok mal (g_ctx s3) (id_table _ _ _ _ H3)) as (ctx & E & _). rewrite E. cbn [mbind option_bind].
  destruct (table_dropped fds0 live0 s3 ctx H3 E) as [H4 N].
  destruct (ok && _ && negb _); [by apply IH|]. eexists _, _, h. split; [done|].
  assert (buffers (s3 {{ g_ctx := ctx }}) = 0 /\ g_ctx (s3 {{ g_ctx := ctx }}) = ctx) as [B4 E4] by (by destruct s3).
  split; [destruct ok; auto|]. by rewrite E4.
Qed.

Lemma loaded_ok uid gid conffile :
  daemon_ok mal (fst (mtp_load_config_file real copied tmpstr conffile (responder_context uid gid))).
Proof.
  unfold mtp_load_config_file. cbn [fst]. assert (daemon_ok mal (with_defaults (responder_context uid gid))) as H0.
  { split; [apply default_ok|by split_and!|done..|]. split; [done|]. intros i s Ei. apply lookup_replicate_1 in Ei. by destruct Ei as [-> _]. }
  destruct conffile; [by apply file_ok|done].
Qed.

Lemma init_responder_ok uid gid mutexes o :
  (exists o', mtp_init_responder memory uid gid mutexes o = (None, o') /\ o_fds o' = o_fds o /\ o_live o' = o_live o /\ o_trace o' = o_trace o) \/
  (exists o', mtp_init_responder memory uid gid mutexes o = (Some (responder_context uid gid), o') /\
    o_fds o' = o_fds o /\ o_next o' = o_next o /\ o_trace o' = o_trace o /\ o_live o' = o_live o + 2).
Proof.
  unfold mtp_init_responder, sys_malloc, sys_free. destruct o as [fds next live time trace].
  destruct (memory _); cbn [negb]; [|left; by eexists]. upd. destruct (memory _); cbn [negb].
  - destruct mutexes; cbn [negb]; [right|left]; eexists; (split; [reflexivity|]); cbn; split_and!; try done; lia.
  - left. eexists. split; [reflexivity|]. cbn. split_and!; try done; lia.
Qed.

Lemma owned_idle c fds0 live0 s : loop_state fds0 live0 (Some c) s ->
  let s' := mtp_deinit_responder s in
  o_fds (sys s') ≡ₚ fds0 /\ o_live (sys s') = live0 - 2 /\ g_ctx s' = g_ctx s /\
  foldM ledger_step (o_trace (sys s')) (fds0, false) = Some (o_fds (sys s'), false).
Proof.
  intros (_ & [L P F B T] & Hb & N). cbv zeta. unfold mtp_deinit_responder, free_buffers. rewrite !free_pays.
  destruct s as [? ? ? w r r2 ? []]. unfold pay, on_sys, sys_free, buffers in *. upd. cbn in *. split_and!; try done. lia.
Qed.

(** C5: the daemon gives back what it takes, in the modes of endpoint 0.  Let the
    configuration file hold any bytes that select GadgetFS or FunctionFS
    ([mtp_usb_mode] false: not Android's [/dev/mtp_usb], where the release leaks,
    [android_mode_leaks]) and name the interface with at most 127 bytes
    (a longer name overflows its array); and let every endpoint that opens take
    its descriptors (one that refuses them is closed twice,
    [refused_endpoint_closed_twice]).  Then whatever else the file holds and
    whatever the host, the kernel and the transfer thread do, round after round,
    the transfers keeping the object table one its operations reach
    ([round_ok]), with any opening, allocation or creation of a thread failing:
    [main_thread] never gets stuck; of all its actions, none opens a descriptor
    that is open, closes one that is not, starts a second transfer thread or
    joins one that does not run; and when it returns (its two service threads
    are ended in [MtpStop]), its code is 0, -1 or -2,
    the descriptors, the blocks and the threads are what they were and no table
    is left. *)
Theorem daemon_gives_back uid gid mutexes conffile rounds o (h : responder W) :
  endpoint_mode (usb_cfg (fst (mtp_load_config_file real copied tmpstr conffile (responder_context uid gid)))) ->
  Forall round_ok rounds ->
  o_trace o = [] -> NoDup (o_fds o) -> Forall (fun fd => fd < o_next o) (o_fds o) -> 0 < o_next o ->
  exists code s fds running, main_thread uid gid mutexes conffile rounds o h = Some (code, s) /\
    foldM ledger_step (o_trace (sys s)) (o_fds o, false) = Some (fds, running) /\
    forall r, code = Some r -> (r = 0 \/ r = -1 \/ r = -2) /\
      o_fds (sys s) ≡ₚ o_fds o /\ fds = o_fds (sys s) /\ o_live (sys s) = o_live o /\ running = false /\ fs_db (g_ctx s) = None.
Proof.
  intros Hc Hr Ht Nd Fr Hn. unfold MtpMain.main_thread.
  destruct (init_responder_ok uid gid mutexes o) as [(o' & -> & E1 & E2 & E3)|(o' & -> & E1 & E2 & E3 & E4)].
  { eexists (Some (-1)), _, (o_fds o), false. split; [done|]. cbn [sys g_ctx]. rewrite E3, Ht. split; [done|].
    intros r [= <-]. rewrite E1. split_and!; auto. }
  pose proof (loaded_ok uid gid conffile) as Hd. destruct (mtp_load_config_file _ _ _ _ _) as [d mask]. cbn [fst] in *.
  destruct (main_loop_ok d rounds (mkgstate empty_gadget 0 false false false false (d_ctx d) o') h (o_fds o) (o_live o + 2) Hc Hr)
    as (code & s & h' & -> & Hs).
  { split; cbn [sys g_ctx]; rewrite ?E1, ?E2, ?E3, ?E4, ?Ht; try done; [unfold buffers; cbn; lia|apply Hd]. }
  cbn [mbind option_bind]. destruct code as [r|].
  - destruct (owned_idle r _ _ _ Hs) as (P & Lv & Eg & Lg). eexists (Some r), _, _, false. split; [done|]. split; [exact Lg|].
    intros r' [= <-]. destruct Hs as (Hs & _ & _ & N). rewrite Eg. split_and!; try done; [tauto|lia].
  - destruct Hs as [Hs|Hs]; eexists None, s, _, _; (split; [done|]); (split; [by apply Hs|done]).
Qed.
End Main.

(** A daemon in GadgetFS mode that loops once: its host selects the
    configuration, a transfer runs, the cable goes. *)
Definition demo_conf : list Z := cstr "loop_on_disconnect 1" ++ [10] ++ cstr "usb_functionfs_mode 0x0" ++ [10].
Definition select_configuration : usb_ctrlrequest := mkrequest USB_DIR_OUT USB_REQ_SET_CONFIGURATION CONFIG_VALUE 0 0.
Definition demo_round (last : bool) : round :=
  mkround [Ready (Some [Connect]); Ready (Some [Setup select_configuration]); Meanwhile (IoTransfers true); Ready (Some [Disconnect])] [] [] last.
Definition demo_system : system := mksystem [3] 4 0 0 [].
Definition written_all (t : nat) (fd : Z) (bytes : list Z) : Z := strlen bytes.
Definition demo_responder : responder disk :=
  mkresp (mkworld (demo_ctx None) (mkids 0 0) demo_disk) (mkinfo 0 0 0) (0, 0) [] [] [].
Abbreviation demo_daemon_run conffile written rounds :=
  (main_thread (fun _ _ => true) written (fun _ => true) (fun _ => 0) (fun _ => None) always (fun _ => true) (fun _ => true)
    (fun _ => -1) [] [] [] None (fun _ => false) 0 Some true [] 0 0 true (Some conffile) rounds demo_system demo_responder).

Lemma demo_mode : endpoint_mode (usb_cfg (fst (mtp_load_config_file Some true [] (Some demo_conf) (responder_context 0 0)))).
Proof. split; vm_compute; [reflexivity|discriminate]. Qed.
Lemma demo_written t fd desc : written_all t fd (ep_cfg_bytes desc) = EP_CFG_SIZE.
Proof. reflexivity. Qed.
Lemma demo_rounds : Forall (round_ok always) [demo_round false; demo_round true].
Proof. repeat (apply Forall_cons_2; [split; repeat (apply Forall_cons_2; [exact I|]); apply Forall_nil_2|]). apply Forall_nil_2. Qed.
Lemma demo_code : fst <$> demo_daemon_run demo_conf written_all [demo_round false; demo_round true] = Some (Some 0).
Proof. vm_compute. reflexivity. Qed.

Lemma daemon_gives_back_witness : exists s, demo_daemon_run demo_conf written_all [demo_round false; demo_round true] = Some (Some 0, s) /\
  o_fds (sys s) ≡ₚ [3] /\ o_live (sys s) = 0.
Proof.
  pose proof demo_code as F.
  destruct (daemon_gives_back (fun _ _ => true) written_all (fun _ => true) (fun _ => 0) (fun _ => None) always (fun _ => true) (fun _ => true)
    (fun _ => -1) [] [] [] None (fun _ => false) 0 Some true [] demo_written 0 0 true (Some demo_conf)
    [demo_round false; demo_round true] demo_system demo_responder) as (code & s & fds & running & E & _ & H).
  - exact demo_mode.
  - exact demo_rounds.
  - reflexivity.
  - apply NoDup_singleton.
  - apply Forall_cons_2; [reflexivity|apply Forall_nil_2].
  - reflexivity.
  - rewrite E in F. injection F as ->. destruct (H 0 eq_refl) as (_ & P & _ & L & _). exists s. split; [exact E|]. split; [exact P|exact L].
Defined.

(** ** Behaviours at the edges *)

(** In the mode of Android's own driver, which is the one this device's
    configuration selects, the release closes the device and nothing more: the
    gadget, its three endpoint blocks and its six strings are lost, once for
    each time the host goes away. *)
Definition android_conf : list Z := cstr "loop_on_disconnect 1" ++ [10] ++ cstr "usb_dev_path /dev/mtp_usb" ++ [10].
Definition unplugged (last : bool) : round := mkround [] [] [] last.

Lemma android_mode_leaks :
  (fun r => (fst r, o_live (sys (snd r)))) <$> demo_daemon_run android_conf written_all [unplugged true] = Some (Some 0, 10) /\
  (fun r => (fst r, o_live (sys (snd r)))) <$> demo_daemon_run android_conf written_all [unplugged false; unplugged false; unplugged true] =
    Some (Some 0, 30).
Proof. split; vm_compute; reflexivity. Qed.

(** An endpoint that refuses its descriptors is closed but keeps its number:
    the release closes it again. *)
Definition refuses (fd0 : Z) (t : nat) (fd : Z) (bytes : list Z) : Z := if fd =? fd0 then -1 else strlen bytes.
Lemma refused_endpoint_closed_twice :
  (fun r => List.filter (fun a => match a with Closed _ => true | _ => false end) (o_trace (sys (snd r)))) <$>
    demo_daemon_run demo_conf (refuses 6) [mkround [Ready (Some [Setup select_configuration]); Ready None] [] [] true] =
  Some [Closed 6; Closed 5; Closed 6; Closed 4].
Proof. vm_compute. reflexivity. Qed.

(** When an endpoint could not be opened, the host's next request starts the
    transfers without it: the first endpoint is open, so none is opened. *)
Definition without_out (t : nat) (path : list Z) : bool := negb (streq path (cstr "/dev/ffs-mtp/ep2")).
Definition waiting_gadget (retries : nat) : option gstate :=
  let c := default_cfg {{ usb_functionfs_mode := 0 }} in
  '(_, s) ← init_usb_mtp_gadget c without_out written_all (fun _ => true)
    (mkgstate empty_gadget 0 false false false false (demo_ctx None) demo_system);
  '(_, s) ← handle_ep0 without_out written_all (fun _ => 0) (replicate retries (Ready (Some [Setup select_configuration]))) s;
  Some s.
Lemma started_without_endpoint :
  (fun s => (ep_handles (gadget s), thread_not_started (gadget s))) <$> waiting_gadget 1 = Some ([5; -1; -1], 1) /\
  (fun s => (ep_handles (gadget s), thread_not_started (gadget s))) <$> waiting_gadget 2 = Some ([5; -1; -1], 0).
Proof. split; vm_compute; reflexivity. Qed.

(** A disconnection sets a time to wait for the host to come back, but the loop
    ends first. *)
Lemma disconnect_ends openable write_result thread_result polls s : stop (gadget s) = false ->
  exists s', handle_ep0 openable write_result thread_result (Ready (Some [Disconnect]) :: polls) s = Some (Some 1, s').
Proof.
  intros E. unfold handle_ep0. cbn [ep0_loop]. rewrite E. cbn [foldM gadgetfs_step mbind option_bind].
  match goal with |- context [ep0_loop _ polls 1 ?s'] => exists s'; assert (stop (gadget s') = true) as Es end.
  { destruct s as [[]]. cbn. by destruct (_ =? 0). }
  destruct polls; cbn [ep0_loop]; by rewrite Es.
Qed.

(** ** One daemon *)

(** A process starts with its arguments, what it can send and whether its
    thread for the queue can be created; a process ends, and gives its lock
    back. *)
Inductive process_event :=
| Start (pid : nat) (argv : list (list Z)) (send : list Z -> Z) (created : bool)
| End_ (pid : nat).

(** The queue and the processes that serve. *)
Record machine := mkmachine { m_queue : queue; m_daemons : list nat }.

Definition unlock (pid : nat) (q : queue) : queue :=
  match q_holder q with
  | Some holder => if (holder =? pid)%nat then q {{ q_holder := None }} else q
  | None => q
  end.

Definition machine_step (m : machine) (ev : process_event) : machine :=
  match ev with
  | Start pid argv send created =>
      let '(already_running, q) := check_running pid (m_queue m) in
      match snd (main send already_running argv) with
      | Exits _ => m {{ m_queue := unlock pid q }}
      | Serves _ => mkmachine (snd (msgqueue_handler_init created q)) (pid :: m_daemons m)
      end
  | End_ pid => mkmachine (unlock pid (m_queue m)) (List.filter (fun p => negb (p =? pid)%nat) (m_daemons m))
  end.

(** The daemon is the process that holds the lock. *)
Definition alone (m : machine) : Prop :=
  q_exists (m_queue m) = true /\ m_daemons m = match q_holder (m_queue m) with Some pid => [pid] | None => [] end.

(** Process numbers are not those of a daemon that runs. *)
Definition event_fresh (m : machine) (ev : process_event) : Prop :=
  match ev with Start pid _ _ _ => pid ∉ m_daemons m | End_ _ => True end.

Lemma arguments_running send argv conffile cmd_sent file : snd (arguments send true argv conffile cmd_sent) <> Serves file.
Proof.
  revert conffile cmd_sent. induction argv as [|arg argv IH]; intros conffile cmd_sent; cbn [arguments]; [by rewrite andb_false_r|].
  destruct (starts_with _ arg).
  - destruct (negb _); [done|]. specialize (IH conffile true). by destruct (arguments send true argv conffile true).
  - by destruct (streq arg _).
Qed.

Lemma main_running send argv file : snd (main send true argv) <> Serves file.
Proof. unfold main. destruct argv; [done|apply arguments_running]. Qed.

(** A process that serves was given files only, and no other daemon ran. *)
Lemma arguments_serve send running argv conffile cmd_sent cmds file : arguments send running argv conffile cmd_sent = (cmds, Serves file) ->
  cmds = [] /\ cmd_sent = false /\ running = false.
Proof.
  remember (length argv) as n eqn:En. revert argv En conffile cmd_sent cmds.
  induction (lt_wf n) as [n _ IH]. intros argv -> conffile cmd_sent cmds. destruct argv as [|arg argv]; cbn [arguments].
  { destruct cmd_sent, running; cbn; try done; by intros [= <- _]. }
  destruct (starts_with _ arg).
  - destruct (negb _); [done|]. destruct (arguments send running argv conffile true) as [cmds' e] eqn:E. intros [= <- ->].
    destruct (IH (length argv) ltac:(cbn; lia) argv eq_refl _ _ _ E) as (_ & ? & _). done.
  - destruct (streq arg _); [|done]. destruct running; [done|].
    destruct argv as [|f argv]; [done|]. intros E. by apply (IH (length argv) ltac:(cbn; lia) argv eq_refl _ _ _ E).
Qed.

Lemma alone_step m ev : alone m -> event_fresh m ev -> alone (machine_step m ev).
Proof.
  destruct m as [[ex holder] daemons]. unfold alone. cbn [m_queue m_daemons q_exists q_holder]. intros [-> ->] Hf.
  destruct ev as [pid argv send created|pid]; cbn [machine_step event_fresh m_daemons m_queue] in *.
  - unfold check_running, get_message_queue. cbn [q_exists q_holder negb]. destruct holder as [h|].
    + pose proof (main_running send argv) as R. destruct (snd (main send true argv)) as [st|file]; [|by destruct (R file)].
      unfold unlock. cbn. rewrite list_elem_of_singleton in Hf. rewrite (proj2 (Nat.eqb_neq h pid)) by done. done.
    + destruct (snd (main send false argv)); [|done]. unfold unlock. cbn. by rewrite Nat.eqb_refl.
  - unfold unlock. cbn [q_holder]. destruct holder as [h|]; [|done]. cbn [List.filter]. destruct (Nat.eqb_spec h pid) as [->|Hn]; done.
Qed.

(** One daemon at a time.  On a system where the queue exists, whatever
    processes start, with any arguments, and end, in any order: at most one
    serves, it holds the lock of the queue, and what a process started beside
    it does is to send commands or to refuse. *)
Theorem single_daemon m events : alone m -> (forall pre ev post, events = pre ++ ev :: post -> event_fresh (fold_left machine_step pre m) ev) ->
  let m' := fold_left machine_step events m in
  alone m' /\ (length (m_daemons m') <= 1)%nat /\
  forall pid send argv, m_daemons m' <> [] -> fst (check_running pid (m_queue m')) = true /\
    exists cmds status, main send true argv = (cmds, Exits status).
Proof.
  intros H Hf. cbv zeta. assert (alone (fold_left machine_step events m)) as A.
  { revert m H Hf. induction events as [|ev events IH]; intros m H Hf; [done|]. cbn [fold_left]. apply IH.
    - apply alone_step; [done|]. by apply (Hf []  ev events).
    - intros pre ev' post ->. by apply (Hf (ev :: pre) ev' post). }
  split; [done|]. destruct A as [Ex Ed]. split; [rewrite Ed; destruct (q_holder _); cbn; lia|].
  intros pid send argv Hn. split.
  - unfold check_running, get_message_queue. rewrite Ex. cbn [negb]. rewrite Ed in Hn. by destruct (q_holder _).
  - pose proof (main_running send argv) as R. destruct (main send true argv) as [cmds [status|file]]; [by eexists _, _|].
    by destruct (R file).
Qed.

Definition no_send (cmd : list Z) : Z := -1.
Lemma single_daemon_witness :
  m_daemons (fold_left machine_step [Start 10 [] no_send true; Start 11 [] no_send true; Start 12 [cstr "-conf"; cstr "/c"] no_send true]
    (mkmachine (mkqueue true None) [])) = [10%nat] /\
  (length [10%nat] <= 1)%nat.
Proof.
  destruct (single_daemon (mkmachine (mkqueue true None) [])
    [Start 10 [] no_send true; Start 11 [] no_send true; Start 12 [cstr "-conf"; cstr "/c"] no_send true]) as (_ & L & _).
  - split; reflexivity.
  - intros [|e1 [|e2 [|e3 pre]]] ev post E; cbn in E.
    + injection E as <- _. apply not_elem_of_nil.
    + injection E as <- <- _. by apply (bool_decide_unpack _).
    + injection E as <- <- <- _. by apply (bool_decide_unpack _).
    + destruct pre; discriminate E.
  - split; [vm_compute; reflexivity|exact L].
Defined.

(** The first daemon after a boot makes the queue itself, and never locks it:
    a second one starts beside it. *)
Lemma first_daemon_not_alone :
  m_daemons (fold_left machine_step [Start 10 [] no_send true; Start 11 [] no_send true] (mkmachine (mkqueue false None) [])) = [11; 10]%nat.
Proof. vm_compute. reflexivity. Qed.

(** A process that only sends a command holds the lock while it does, when no
    daemon runs: a daemon started then takes it for one. *)
Lemma sender_taken_for_daemon pid pid' q : q_exists q = true -> q_holder q = None ->
  let '(r, q') := check_running pid q in r = false /\ fst (check_running pid' q') = true.
Proof. destruct q as [ex holder]. cbn. intros -> ->. done. Qed.
