(* ===== verification/MtpStop.v ===== *)
(** * The daemon's two service threads: starting and stopping

    The thread of the message queue ([msgqueue.c]) and the watcher
    ([inotify.c]) wait in a system call, which [mtp_deinit_responder] interrupts
    with a signal before it joins them.  The two threads, the main thread and
    what comes from outside are interleaved as steps; what the threads do with
    a message or an event is in [MtpMain] and [MtpInotify]. *)

From S2P Require Import Prelude.

(** Where a thread is: in [mq_receive] or [read], at work on what it got, at the
    test of its loop, past the test and on the way to the next call, or over. *)
Inductive place := InCall | Working | Testing | Calling | Over.

#[export] Instance place_eq_dec : EqDecision place.
Proof. solve_decision. Defined.

Inductive service := Queue | Watcher.

(** What the main thread has left to do. *)
Inductive stop_op :=
  | Kill (t : service)
  | Join (t : service)
  | CloseFd (t : service)
  | UnlinkQueue
  | FreeContext.

(** [shutdown_requested], the descriptors in the context (-1 for none), the
    threads that were created, and the rest of the main thread's program. *)
Record services := mkservices {
  shutdown_requested : bool;
  msgqueue_id : Z; queue_thread : option place;
  inotify_fd : Z; watcher_thread : option place;
  to_do : list stop_op }.

(** ** Starting

    [id] is what [get_message_queue] returns, [fd] what [inotify_init1] does;
    [created] is whether the thread could be created.  A thread that starts is on
    the way to its first call, its handler of the signal installed. *)
Definition inotify_handler_init (fd : Z) (created : bool) (s : services) : Z * services :=
  (1, s {{ inotify_fd := fd; watcher_thread := if created then Some Calling else None }}).

Definition msgqueue_handler_init (id : Z) (created : bool) (s : services) : Z * services :=
  let s := s {{ msgqueue_id := id }} in
  if negb (id =? -1) then
    if created then (0, s {{ queue_thread := Some Calling }}) else (-1, s)
  else (-2, s).

(** The two calls of [mtp_init_responder], whose results it does not look at. *)
Definition start_services (fd : Z) (watcher_created : bool) (id : Z) (queue_created : bool) : services :=
  let s := mkservices false 0 None 0 None [] in
  snd (msgqueue_handler_init id queue_created (snd (inotify_handler_init fd watcher_created s))).

(** ** Stopping *)
Definition msgqueue_handler_deinit (s : services) : list stop_op :=
  if negb (msgqueue_id s =? -1) then [Kill Queue; Join Queue; CloseFd Queue; UnlinkQueue] else [].
Definition inotify_handler_deinit (s : services) : list stop_op :=
  if negb (inotify_fd s =? -1) then [Kill Watcher; Join Watcher; CloseFd Watcher] else [].

(** [mtp_deinit_responder]. *)
Definition deinit_services (s : services) : services :=
  s {{ to_do := msgqueue_handler_deinit s ++ inotify_handler_deinit s ++ [FreeContext] }}.

(** A signal, or an error, met by a thread.  Outside the call the handler returns
    and nothing is left of the signal; in it the call fails: the queue's thread
    goes to its test, or out when a shutdown was requested, and the watcher
    always goes out. *)
Definition interrupt_queue (shutdown : bool) (p : place) : place :=
  match p with InCall => if shutdown then Over else Testing | _ => p end.
Definition interrupt_watcher (p : place) : place :=
  match p with InCall => Over | _ => p end.

(** The thread's own next step: [while(!shutdown_requested)] and [for(;;)]. *)
Definition queue_next (shutdown : bool) (p : place) : option place :=
  match p with
  | Working => Some Testing
  | Testing => Some (if shutdown then Over else Calling)
  | Calling => Some InCall
  | InCall | Over => None
  end.
Definition watcher_next (p : place) : option place :=
  match p with
  | Working | Testing => Some Calling
  | Calling => Some InCall
  | InCall | Over => None
  end.

Definition interrupt (t : service) (s : services) : services :=
  match t with
  | Queue => s {{ queue_thread := interrupt_queue (shutdown_requested s) <$> queue_thread s }}
  | Watcher => s {{ watcher_thread := interrupt_watcher <$> watcher_thread s }}
  end.

Definition place_of (t : service) (s : services) : option place :=
  match t with Queue => queue_thread s | Watcher => watcher_thread s end.
Definition put_place (t : service) (p : place) (s : services) : services :=
  match t with Queue => s {{ queue_thread := Some p }} | Watcher => s {{ watcher_thread := Some p }} end.

(** One step of the main thread.  A signal needs a thread that was created. *)
Definition main_step (s : services) : option services :=
  match to_do s with
  | [] => None
  | Kill t :: l => match place_of t s with Some _ => Some ((interrupt t s) {{ to_do := l }}) | None => None end
  | Join t :: l => match place_of t s with Some Over => Some (s {{ to_do := l }}) | _ => None end
  | CloseFd Watcher :: l => Some (s {{ inotify_fd := -1; to_do := l }})
  | (CloseFd Queue | UnlinkQueue | FreeContext) :: l => Some (s {{ to_do := l }})
  end.

(** Every step has a label. *)
Inductive label :=
  | Main
  | Own (t : service)
  | Arrives (t : service)
  | Fails (t : service)
  | Sigterm (t : option service).

(** [Sigterm] is delivered to any thread, the main one for [None]. *)
Definition step (a : label) (s : services) : option services :=
  match a with
  | Main => main_step s
  | Own Queue => p ← queue_thread s; p ← queue_next (shutdown_requested s) p; Some (s {{ queue_thread := Some p }})
  | Own Watcher => p ← watcher_thread s; p ← watcher_next p; Some (s {{ watcher_thread := Some p }})
  | Arrives t => match place_of t s with Some InCall => Some (put_place t Working s) | _ => None end
  | Fails t => match place_of t s with Some InCall => Some (interrupt t s) | _ => None end
  | Sigterm t =>
      let s := s {{ shutdown_requested := true }} in
      Some (match t with Some t => interrupt t s | None => s end)
  end.

Fixpoint steps (l : list label) (s : services) : option services :=
  match l with
  | [] => Some s
  | a :: l => s ← step a s; steps l s
  end.

(** The steps that need nothing from outside. *)
Definition internal (a : label) : bool := match a with Main | Own _ => true | _ => false end.
