(* ===== verification/MtpStopProps.v ===== *)
(** * Does the daemon end?

    Every run of [mtp_deinit_responder] with its two threads, over all
    interleavings: the context is freed only after the threads are over; a
    requested shutdown ends, unless a signal falls where its thread does not
    hear it; and without a requested shutdown the daemon never ends. *)

From S2P Require Import Prelude CString MtpOps MtpDisk MtpMain MtpMainProps MtpStop.

(** ** Steps *)
Lemma steps_app l1 l2 s : steps (l1 ++ l2) s = steps l1 s ≫= steps l2.
Proof. revert s. induction l1 as [|a l1 IH]; intros s; [done|]. cbn. destruct (step a s); cbn; [apply IH|done]. Qed.

Lemma steps_inv (I : services -> Prop) l s s' :
  (forall a s s', I s -> step a s = Some s' -> a ∈ l -> I s') -> I s -> steps l s = Some s' -> I s'.
Proof.
  revert s. induction l as [|a l IH]; intros s Hs Hi; cbn; [by intros [= <-]|].
  destruct (step a s) as [s1|] eqn:E; [|done]. cbn. apply IH; [|by eapply Hs; [..|left]].
  intros b t t' Ht Et Hb. eapply Hs; [done..|by right].
Qed.

Definition alive (t : service) (s : services) : Prop := place_of t s <> None.
(** A thread that will end by its own steps alone. *)
Definition doomed (t : service) (s : services) : Prop :=
  match t with
  | Queue => queue_thread s = Some Working \/ queue_thread s = Some Testing \/ queue_thread s = Some Over
  | Watcher => watcher_thread s = Some Over
  end.
(** A signal sent now will end the thread, if a shutdown is requested. *)
Definition hears (t : service) (s : services) : Prop :=
  match t with
  | Queue => queue_thread s <> Some Calling
  | Watcher => watcher_thread s = Some InCall \/ watcher_thread s = Some Over
  end.

(** What any step but the main thread's leaves alone. *)
Lemma other_step a s s' :
  step a s = Some s' -> a <> Main ->
  to_do s' = to_do s /\ (shutdown_requested s = true -> shutdown_requested s' = true) /\
  (forall t, alive t s -> alive t s') /\
  (forall t, place_of t s = Some Over -> place_of t s' = Some Over) /\
  (shutdown_requested s = true -> forall t, doomed t s -> doomed t s').
Proof.
  destruct s as [sh qi [q|] wi [w|] l]; unfold alive, doomed; destruct a as [|[]|[]|[]|[[]|]]; cbn; intros E Ha; try done;
    try destruct q; try destruct w; cbn in E; try done; injection E as <-; cbn; split_and!; try done;
    try (by intros []); try (by intros -> []; cbn; tauto); try (by intros -> []; cbn; intuition congruence).
Qed.

Lemma interrupt_facts t s :
  to_do (interrupt t s) = to_do s /\ shutdown_requested (interrupt t s) = shutdown_requested s /\
  (forall u, alive u s -> alive u (interrupt t s)) /\
  (forall u, place_of u s = Some Over -> place_of u (interrupt t s) = Some Over) /\
  (forall u, doomed u s -> doomed u (interrupt t s)) /\
  (shutdown_requested s = true -> alive t s -> hears t s -> doomed t (interrupt t s)).
Proof.
  destruct s as [sh qi [[]|] wi [[]|] l]; unfold alive, doomed, hears; destruct t; cbn; split_and!; try done;
    try (by intros []); try (by intros [] ?; cbn in *; intuition congruence); intros ->; cbn; intuition congruence.
Qed.

(** ** What is left to do

    [fits l s]: the operations [l] suit the threads: a signal finds its thread
    and is followed by the wait for it, and a wait without its signal before it
    is for a thread that ends by itself. *)
Fixpoint fits (l : list stop_op) (s : services) : Prop :=
  match l with
  | [] => True
  | Kill t :: l' => alive t s /\ match l' with Join u :: l => u = t /\ fits l s | _ => False end
  | Join t :: l => doomed t s /\ fits l s
  | _ :: l => fits l s
  end.

Lemma fits_mono l s s' :
  (forall t, alive t s -> alive t s') -> (forall t, doomed t s -> doomed t s') -> fits l s -> fits l s'.
Proof.
  intros Ha Hd. revert l. fix IH 1. intros [|op l]; [done|]. destruct op; cbn.
  - intros [H1 H2]. split; [by apply Ha|]. destruct l as [|[] l]; try done. destruct H2. split; [done|by apply IH].
  - intros [H1 H2]. split; [by apply Hd|by apply IH].
  - apply IH.
  - apply IH.
  - apply IH.
Qed.

Definition on_the_way (s : services) : Prop := shutdown_requested s = true /\ fits (to_do s) s.

(** The signals of a run are heard. *)
Fixpoint heard (l : list label) (s : services) : Prop :=
  match l with
  | [] => True
  | a :: l =>
      (a = Main -> match to_do s with Kill t :: _ => hears t s | _ => True end) /\
      match step a s with Some s' => heard l s' | None => True end
  end.

Lemma heard_app l1 l2 s s' : steps l1 s = Some s' -> heard (l1 ++ l2) s <-> heard l1 s /\ heard l2 s'.
Proof.
  revert s. induction l1 as [|a l1 IH]; intros s; cbn; [intros [= <-]; tauto|].
  destruct (step a s) as [s1|]; [|done]. cbn. intros E. rewrite (IH s1 E). tauto.
Qed.

Lemma main_on_the_way s s' :
  on_the_way s -> match to_do s with Kill t :: _ => hears t s | _ => True end ->
  main_step s = Some s' -> on_the_way s' /\ length (to_do s) = S (length (to_do s')).
Proof.
  intros [Hs Hf] Hh. unfold main_step. destruct (to_do s) as [|op l] eqn:E; [done|]. cbn in Hf.
  assert (forall s1, shutdown_requested s1 = true -> (forall t, alive t s -> alive t s1) ->
    (forall t, doomed t s -> doomed t s1) -> fits l s1 -> on_the_way (s1 {{ to_do := l }})) as G.
  { intros s1 H1 _ _ H. split; [done|]. revert H. apply fits_mono; by intros []. }
  destruct op as [t|t|t| |].
  - destruct Hf as [Ha Hf]. destruct (place_of t s); [|done]. intros [= <-]. split; [|done].
    destruct (interrupt_facts t s) as (_ & I1 & I2 & _ & I3 & I4). apply G; [by rewrite I1|done..|].
    destruct l as [|[] l]; try done. destruct Hf as [-> Hf]. split; [by apply I4|]. revert Hf. by apply fits_mono.
  - destruct (place_of t s) as [[]|]; try done. intros [= <-]. split; [|done]. by apply G; try apply Hf.
  - destruct t; intros [= <-]; (split; [|done]).
    + by apply G.
    + split; [done|]. revert Hf. apply fits_mono; by intros [].
  - intros [= <-]. split; [|done]. by apply G.
  - intros [= <-]. split; [|done]. by apply G.
Qed.

Lemma step_on_the_way a s s' :
  on_the_way s -> (a = Main -> match to_do s with Kill t :: _ => hears t s | _ => True end) ->
  step a s = Some s' -> on_the_way s'.
Proof.
  intros H Hh E. destruct a as [|t|t|t|t].
  1: by apply (main_on_the_way s s' H (Hh eq_refl) E).
  all: destruct (other_step _ _ _ E ltac:(done)) as (E1 & E2 & E3 & _ & E4); destruct H as [Hs Hf];
    split; [by apply E2|rewrite E1; revert Hf; apply fits_mono; by auto].
Qed.

Lemma heard_on_the_way l s s' : on_the_way s -> heard l s -> steps l s = Some s' -> on_the_way s'.
Proof.
  revert s. induction l as [|a l IH]; intros s Hw; cbn; [by intros _ [= <-]|]. intros [H1 H2].
  destruct (step a s) as [s1|] eqn:E; [|done]. cbn. apply IH; [by eapply step_on_the_way|done].
Qed.

(** ** From any point the rest runs by itself *)
Definition quick (s s' : services) (n : nat) : Prop :=
  exists l, Forall (fun a => internal a = true) l /\ (length l <= n)%nat /\ heard l s /\ steps l s = Some s'.

Lemma quick_trans s1 s2 s3 n m : quick s1 s2 n -> quick s2 s3 m -> quick s1 s3 (n + m).
Proof.
  intros (l1 & F1 & L1 & H1 & E1) (l2 & F2 & L2 & H2 & E2). exists (l1 ++ l2). split_and!.
  - by apply Forall_app.
  - rewrite length_app. lia.
  - by apply (heard_app l1 l2 s1 s2 E1).
  - by rewrite steps_app, E1.
Qed.

(** The steps of a thread before its signal, and before the wait for it. *)
Lemma settles s t l :
  to_do s = Kill t :: l -> alive t s ->
  exists s', quick s s' 2 /\ hears t s' /\ to_do s' = to_do s /\ alive t s'.
Proof.
  destruct s as [sh qi q wi w td]. unfold alive, hears. cbn. intros -> Ha.
  assert (forall s ls, Forall (fun a => internal a = true) ls -> (length ls <= 2)%nat -> heard ls s ->
            forall s', steps ls s = Some s' -> quick s s' 2) as G by (intros; by eexists).
  destruct t; cbn in *; [destruct q as [[]|]|destruct w as [[]|]]; try done.
  all: let go ls := (eexists; split; [apply (G _ ls); [by repeat constructor|cbn; lia|cbn; by repeat split|reflexivity]|cbn; by auto]) in
    first [go (@nil label)|go [Own Queue]|go [Own Watcher]|go [Own Watcher; Own Watcher]].
Qed.

Lemma ends s t l :
  to_do s = Join t :: l -> shutdown_requested s = true -> doomed t s ->
  exists s', quick s s' 2 /\ place_of t s' = Some Over /\ to_do s' = to_do s.
Proof.
  destruct s as [sh qi q wi w td]. cbn. intros -> ->. destruct t; cbn; [intros [->|[->| ->]]|intros ->].
  - eexists. split; [exists [Own Queue; Own Queue]; split_and!; [by repeat constructor|cbn; lia|done|reflexivity]|done].
  - eexists. split; [exists [Own Queue]; split_and!; [by repeat constructor|cbn; lia|done|reflexivity]|done].
  - eexists. split; [exists []; split_and!; [constructor|cbn; lia|done|reflexivity]|done].
  - eexists. split; [exists []; split_and!; [constructor|cbn; lia|done|reflexivity]|done].
Qed.

Lemma one_main s s' :
  main_step s = Some s' -> match to_do s with Kill t :: _ => hears t s | _ => True end -> quick s s' 1.
Proof.
  intros E H. exists [Main]. split_and!; [by repeat constructor|cbn; lia| |cbn [steps step]; by rewrite E].
  cbn [heard step]. rewrite E. by split.
Qed.

Lemma quick_on_the_way s s' n : on_the_way s -> quick s s' n -> on_the_way s'.
Proof. intros H (l & _ & _ & Hh & E). by eapply heard_on_the_way. Qed.

Lemma finishes n s :
  on_the_way s -> length (to_do s) = n -> exists s', quick s s' (3 * n) /\ to_do s' = [].
Proof.
  revert s. induction n as [|n IH]; intros s Hw Hn.
  { exists s. split; [exists []; split_and!; [constructor|cbn; lia|done..]|by apply nil_length_inv]. }
  assert (exists s1 s2, quick s s1 2 /\ to_do s1 = to_do s /\ main_step s1 = Some s2 /\
    match to_do s1 with Kill t :: _ => hears t s1 | _ => True end) as (s1 & s2 & Q1 & E1 & M & Hh).
  { destruct Hw as [Hs Hf]. destruct (to_do s) as [|op l] eqn:E; [done|].
    assert (quick s s 2) as Q0 by (exists []; split_and!; [constructor|cbn; lia|done..]).
    destruct op as [t|t|t| |].
    - destruct (settles s t l E (proj1 Hf)) as (s1 & Q & H & E1 & Ha). rewrite E in E1.
      unfold alive in Ha. eexists s1, _. split; [done|]. split; [done|]. rewrite E1. split; [|done].
      unfold main_step. rewrite E1. by destruct (place_of t s1).
    - destruct (ends s t l E Hs (proj1 Hf)) as (s1 & Q & O & E1). rewrite E in E1.
      eexists s1, _. split; [done|]. split; [done|]. rewrite E1. split; [|done]. unfold main_step. by rewrite E1, O.
    - destruct t; exists s; eexists; (split; [done|]); (split; [done|]); rewrite E; (split; [|done]); unfold main_step; by rewrite E.
    - exists s. eexists. split; [done|]. split; [done|]. rewrite E. split; [|done]. unfold main_step. by rewrite E.
    - exists s. eexists. split; [done|]. split; [done|]. rewrite E. split; [|done]. unfold main_step. by rewrite E. }
  destruct (main_on_the_way s1 s2 (quick_on_the_way _ _ _ Hw Q1) Hh M) as [W2 L]. rewrite E1, Hn in L.
  destruct (IH s2 W2 ltac:(lia)) as (s3 & Q3 & E3). exists s3. split; [|done].
  replace (3 * S n)%nat with (2 + (1 + 3 * n))%nat by lia.
  eapply quick_trans; [done|]. eapply quick_trans; [by apply one_main|done].
Qed.

(** ** The theorems *)
Definition threads_created (s : services) : Prop :=
  (msgqueue_id s <> -1 -> queue_thread s <> None) /\ (inotify_fd s <> -1 -> watcher_thread s <> None).
(** The threads that had a descriptor are over. *)
Definition threads_over (s s' : services) : Prop :=
  (msgqueue_id s <> -1 -> queue_thread s' = Some Over) /\ (inotify_fd s <> -1 -> watcher_thread s' = Some Over).

Lemma deinit_fits s : threads_created s -> fits (to_do (deinit_services s)) (deinit_services s).
Proof.
  intros [Hq Hw]. unfold deinit_services, msgqueue_handler_deinit, inotify_handler_deinit. cbn [to_do].
  destruct (Z.eqb_spec (msgqueue_id s) (-1)) as [|Nq], (Z.eqb_spec (inotify_fd s) (-1)) as [|Nw]; cbn; unfold alive; cbn; intuition auto.
Qed.

(** A wait not yet done is still to do. *)
Definition awaited (t : service) (s : services) : Prop := Join t ∈ to_do s \/ place_of t s = Some Over.

Lemma step_awaited a t s s' : awaited t s -> step a s = Some s' -> awaited t s'.
Proof.
  intros [H|H] E; destruct a as [|u|u|u|u].
  2-5: left; by rewrite (proj1 (other_step _ _ _ E ltac:(done))).
  3-6: right; by apply (other_step _ _ _ E ltac:(done)).
  - revert E. cbn. unfold main_step. destruct (to_do s) as [|op l] eqn:L; [by apply elem_of_nil in H|].
    apply elem_of_cons in H as [<-|H].
    + destruct (place_of t s) as [[]|] eqn:P; try done. intros [= <-]. right. by destruct t.
    + destruct op as [v|v|[]| |]; try (intros [= <-]; by left).
      * destruct (place_of v s); [|done]. intros [= <-]. by left.
      * destruct (place_of v s) as [[]|]; try done. intros [= <-]. by left.
  - right. revert E. cbn. unfold main_step. destruct (to_do s) as [|[v|v|[]| |] l]; try done; try (intros [= <-]; by destruct t).
    + destruct (place_of v s); [|done]. intros [= <-]. destruct (interrupt_facts v s) as (_ & _ & _ & I & _).
      specialize (I t H). revert I. by destruct t.
    + destruct (place_of v s) as [[]|]; try done. intros [= <-]. by destruct t.
Qed.

(** The context outlives its threads: however the steps are interleaved, with or
    without a shutdown, when the main thread has freed the context no thread
    that had a descriptor still runs. *)
Theorem freed_after_threads s l s' :
  steps l (deinit_services s) = Some s' -> to_do s' = [] -> threads_over s s'.
Proof.
  intros E H.
  assert (forall t, awaited t (deinit_services s) -> place_of t s' = Some Over) as G.
  { intros t Ha. destruct (steps_inv (awaited t) l _ _ ltac:(intros; by eapply step_awaited) Ha E) as [Hin|]; [|done].
    rewrite H in Hin. by apply elem_of_nil in Hin. }
  unfold awaited, deinit_services, msgqueue_handler_deinit, inotify_handler_deinit in G. cbn [to_do] in G.
  split; intros N; rewrite (proj2 (Z.eqb_neq _ _) N) in G; cbn [negb] in G.
  - apply (G Queue). left. set_solver.
  - apply (G Watcher). left. set_solver.
Qed.

(** C33: a requested shutdown ends.  Wherever the two threads are when
    [mtp_deinit_responder] starts, and whatever messages, file events and signals
    come in between: if its two signals find their threads where they hear them,
    then from every point the rest runs to its end with the steps of the three
    threads alone, at most three for each operation left, and both threads are
    over.  The main thread never waits for something from outside. *)
Theorem shutdown_stops s l s' :
  shutdown_requested s = true -> threads_created s ->
  heard l (deinit_services s) -> steps l (deinit_services s) = Some s' ->
  exists s'', quick s' s'' (3 * length (to_do s')) /\ to_do s'' = [] /\ threads_over s s''.
Proof.
  intros Hs Hc Hh E.
  assert (on_the_way (deinit_services s)) as W by (split; [done|by apply deinit_fits]).
  destruct (finishes _ s' (heard_on_the_way _ _ _ W Hh E) eq_refl) as (s'' & Q & D). exists s''. split_and!; [done..|].
  destruct Q as (l' & _ & _ & _ & E'). apply (freed_after_threads s (l ++ l')); [|done]. by rewrite steps_app, E.
Qed.

(** The daemon between two messages, its host gone. *)
Definition idle_services (shutdown : bool) : services :=
  (start_services 5 true 6 true) {{ shutdown_requested := shutdown; queue_thread := Some InCall; watcher_thread := Some InCall }}.

Lemma shutdown_stops_witness :
  exists s'', quick ((idle_services true) {{ queue_thread := Some Working; to_do := to_do (deinit_services (idle_services true)) }})
      s'' 24 /\ to_do s'' = [] /\ threads_over (idle_services true) s''.
Proof.
  apply (shutdown_stops (idle_services true) [Arrives Queue]); [done|by split|by repeat split|reflexivity].
Defined.

(** No shutdown, the queue's thread alive, and the wait for it still to do. *)
Definition queue_waits (s : services) : Prop :=
  shutdown_requested s = false /\ (exists p, queue_thread s = Some p /\ p <> Over) /\ Join Queue ∈ to_do s.

Ltac waits := split; [reflexivity|split; [eexists; split; [reflexivity|done]|set_solver]].

Lemma queue_waits_step a s s' :
  match a with Sigterm _ => False | _ => True end -> queue_waits s -> step a s = Some s' -> queue_waits s'.
Proof.
  unfold queue_waits. destruct s as [sh qi qt wi wt td]. cbn. intros Ha (-> & (q & -> & Nq) & J) E.
  destruct a as [|[]|[]|[]|]; cbn in E; try done; unfold main_step in E; cbn in E.
  - destruct td as [|[[]|[]|[]| |] td]; cbn in E; try done.
    3: by destruct q.
    2,3: destruct wt as [[]|]; try done.
    all: injection E as <-; destruct q; cbn; waits.
  - destruct q; cbn in E; try done; injection E as <-; waits.
  - destruct wt as [[]|]; cbn in E; try done; injection E as <-; waits.
  - destruct q; try done; injection E as <-; waits.
  - destruct wt as [[]|]; try done; injection E as <-; waits.
  - destruct q; try done; injection E as <-; waits.
  - destruct wt as [[]|]; try done; injection E as <-; waits.
Qed.

(** Without a requested shutdown the daemon does not end.  When the last round is
    over because the host has gone and the configuration does not ask for another
    one, or because the gadget cannot be set up, nobody has requested a shutdown:
    the interrupted thread of the queue goes back to its call, and the main thread
    waits for it for ever, whatever messages and file events arrive. *)
Theorem no_shutdown_no_end s l s' :
  shutdown_requested s = false -> msgqueue_id s <> -1 ->
  (exists p, queue_thread s = Some p /\ p <> Over) ->
  Forall (fun a => match a with Sigterm _ => False | _ => True end) l ->
  steps l (deinit_services s) = Some s' -> Join Queue ∈ to_do s'.
Proof.
  intros Hs Hq (p & Hp & Np) Hl E.
  refine (proj2 (proj2 (steps_inv queue_waits l _ s' _ _ E))).
  - rewrite Forall_forall in Hl. intros a x y Hx Ex Ha. specialize (Hl a Ha). by eapply queue_waits_step; [done..|].
  - split_and!; [done|by exists p|]. unfold deinit_services, msgqueue_handler_deinit. cbn [to_do].
    rewrite (proj2 (Z.eqb_neq _ _) Hq). cbn [negb]. set_solver.
Qed.

Lemma no_shutdown_no_end_witness :
  exists s', steps [Main; Own Queue; Own Queue; Arrives Queue; Own Queue] (deinit_services (idle_services false)) = Some s' /\
    Join Queue ∈ to_do s'.
Proof.
  eexists. split; [vm_compute; reflexivity|].
  apply (no_shutdown_no_end (idle_services false) [Main; Own Queue; Own Queue; Arrives Queue; Own Queue]);
    [done|done|by eexists|repeat constructor|vm_compute; reflexivity].
Defined.

(** ** Signals that are not heard *)

(** The main thread waits and no thread can move. *)
Definition deadlocked (s : services) : Prop :=
  to_do s <> [] /\ forall a, internal a = true -> step a s = None.

(** The queue's thread has seen no shutdown and is on the way to its call when
    the shutdown is requested and the signal is sent: it then waits for a message
    that does not come. *)
Lemma signal_between_test_and_call :
  exists s, steps [Own Queue; Sigterm None; Main; Own Queue]
      (deinit_services ((idle_services false) {{ queue_thread := Some Testing }})) = Some s /\ deadlocked s.
Proof. eexists. split; [reflexivity|]. split; [done|]. by intros [|[]|[]|[]|[]]. Qed.

(** The watcher does not look at [shutdown_requested] when it has handled what
    it read: a signal that finds it at work is lost, although the shutdown was
    requested long before. *)
Lemma watcher_at_work_misses_signal :
  exists s, steps [Arrives Watcher; Main; Main; Main; Main; Main; Own Watcher; Own Watcher]
      (deinit_services (idle_services true)) = Some s /\ to_do s = [Join Watcher; CloseFd Watcher; FreeContext] /\ deadlocked s.
Proof. eexists. split; [reflexivity|]. split; [done|]. split; [done|]. by intros [|[]|[]|[]|[]]. Qed.

(** [mtp_init_responder] does not look at what the two start-ups return.  If the
    queue is there and its thread could not be created, the signal at the end goes
    to a thread that does not exist; if there is no inotify, the watcher is
    created all the same, and nobody waits for it. *)
Lemma missing_queue_thread_signalled watcher :
  let s := start_services 5 watcher 6 false in
  to_do (deinit_services s) <> [] /\ main_step (deinit_services s) = None.
Proof. by destruct watcher. Qed.

Lemma watcher_without_inotify_not_awaited :
  let s := start_services (-1) true 6 true in
  watcher_thread s = Some Calling /\ Join Watcher ∉ to_do (deinit_services s).
Proof. split; [done|]. cbn. set_solver. Qed.

(** The two meet in a daemon whose configuration does not ask for another round:
    when its cable is pulled, its last round is over without a shutdown, its code
    is 0, and it stays. *)
Lemma disconnected_daemon_stays :
  fst <$> demo_daemon_run (cstr "usb_dev_path /dev/mtp_usb" ++ [10]) written_all [unplugged false] = Some (Some 0) /\
  forall l s', Forall (fun a => match a with Sigterm _ => False | _ => True end) l ->
    steps l (deinit_services (idle_services false)) = Some s' -> to_do s' <> [].
Proof.
  split; [vm_compute; reflexivity|]. intros l s' Hl E H.
  assert (queue_waits s') as (_ & _ & J).
  { refine (steps_inv queue_waits l _ s' _ _ E); [|by split_and!; [|eexists|cbn; set_solver]].
    rewrite Forall_forall in Hl. intros a x y Hx Ex Ha. specialize (Hl a Ha). by eapply queue_waits_step. }
  rewrite H in J. by apply elem_of_nil in J.
Qed.
