(* ===== verification/MtpTurns.v ===== *)
(** * The third mode ends with its host

    [io_thread] reads a transfer for each turn, and each command may read more:
    the turns given by the transfers the host has left are enough. *)

From Stdlib Require Import Ascii String.
From S2P Require Import Prelude CString MtpData MtpUsb MtpHash MtpDb MtpTable MtpPath MtpStorage MtpMount MtpSession MtpFile MtpHandles MtpOps MtpDisk MtpSend MtpDataset MtpAccess MtpDispatch MtpConfig MtpDescriptors MtpGadget MtpMain.

Section Turns.
Context {W : Type} {FS : FileSystem W}.
Context (localtime : Z -> option tm) (mal : nat -> bool) (may_uid may_gid : Z -> bool) (addwatch : list Z -> Z).
Context (wrbuffer wrbuffer' rdbuffer2 : list Z) (read_file_buffer : option (list Z)) (cancel : nat -> bool) (fuel : nat).
Abbreviation incoming := (incoming localtime mal may_uid may_gid addwatch wrbuffer wrbuffer' rdbuffer2 read_file_buffer cancel fuel).
Abbreviation io_thread := (io_thread localtime mal may_uid may_gid addwatch wrbuffer wrbuffer' rdbuffer2 read_file_buffer cancel fuel).

(** ** What a command leaves to read *)
Lemma receive_loop_reads rd_size usb file sz s size tests s' size' usb' tests' :
  receive_loop rd_size cancel usb file sz s size tests = (s', size', usb', tests') -> (length usb' <= length usb)%nat.
Proof.
  revert sz s size tests. induction usb as [|data usb IH]; intros sz s size tests; cbn [receive_loop];
    (destruct (sz =? rd_size); [|by intros [= <- <- <- <-]]); (destruct (cancel tests); [by intros [= <- <- <- <-]|]).
  - by intros [= <- <- <- <-].
  - intros E. apply IH in E. cbn. lia.
Qed.

Lemma send_object_reads rd_size operation code rd packet usb si (w : world W) r :
  mtp_op_SendObject may_uid may_gid rd_size cancel operation code rd packet usb si w = Some r -> (length (r_usb r) <= length usb)%nat.
Proof.
  unfold mtp_op_SendObject. destruct (fs_db (w_ctx w)) as [d|]; [|by intros [= <-]].
  match goal with |- (_ ← ?x; _) = _ -> _ => destruct x as [si'|] end; [|done]. cbn [mbind option_bind].
  destruct (_ =? NO_HANDLE); [by intros [= <-]|]. destruct (operation =? MTP_CONTAINER_TYPE_DATA).
  - destruct (get_entry_by_handle _ _ _) as [[p|]|]; cbn [mbind option_bind]; [|by intros [= <-]|done].
    destruct (check_handle_access _ _ _ _ _) as [[rc|]|]; cbn [mbind option_bind]; [by intros [= <-]| |done].
    unfold receive_object. destruct (open_entry _ _ _ _ _ _) as [[[f d1] w1]|]; cbn [mbind option_bind]; [|done].
    destruct (f =? -1); [by intros [= <-]|]. unfold receive_data.
    destruct (if 0 <? _ then _ else _) as [s1 z1]. destruct (receive_loop _ _ _ _ _ _ _ _) as [[[s2 z2] usb'] tests] eqn:E.
    apply receive_loop_reads in E. destruct (upd_entry _ _ _) as [d2|]; cbn [mbind option_bind]; [|done].
    match goal with |- (_ ← ?x; _) = _ -> _ => destruct x as [[d3 closed]|] end; [|done]. cbn [mbind option_bind]. by intros [= <-].
  - destruct (operation =? _); [|by intros [= <-]]. destruct (check_handle_access _ _ _ _ _) as [x|]; [|done]. by intros [= <-].
Qed.

(** A reply that leaves no more to read than there was. *)
Definition reads (h : responder W) (r : option (reply W)) : Prop :=
  forall a, r = Some a -> (length (h_in (a_next a)) <= length (h_in h))%nat.

Lemma reads_bind {A} (x : option A) f h : (forall v, reads h (f v)) -> reads h (x ≫= f).
Proof. intros H a. destruct x; [apply H|done]. Qed.
Lemma reads_same a h : h_in (a_next a) = h_in h -> reads h (Some a).
Proof. by intros E ? [= <-]; rewrite E. Qed.
Lemma reads_answer h r : reads h (of_answer h r).
Proof. apply reads_bind. intros [[code packets] w]. by apply reads_same; destruct h. Qed.
Lemma reads_code h r : reads h (of_code h r).
Proof. apply reads_bind. intros [code w]. by apply reads_same; destruct h. Qed.
Lemma reads_outcome h r : reads h (of_outcome h r).
Proof. apply reads_bind. intros o. by apply reads_same; destruct h. Qed.

Lemma dispatch_reads usb_cfg show_hidden wr_size rd_size max_packet_size operation code tx_id size h :
  reads h (dispatch localtime mal may_uid may_gid usb_cfg show_hidden addwatch wr_size rd_size max_packet_size
    wrbuffer rdbuffer2 read_file_buffer cancel fuel operation code tx_id size h).
Proof.
  unfold dispatch. cbv zeta.
  repeat match goal with
  | |- reads _ (if ?b then _ else _) => destruct b
  | |- reads _ (mtp_op_SendObject _ _ _ _ _ _ _ _ _ _ _ ≫= _) => fail 1
  | |- reads _ (_ ≫= _) => apply reads_bind; intros ?
  | |- reads _ (of_answer _ _) => apply reads_answer
  | |- reads _ (of_code _ _) => apply reads_code
  | |- reads _ (of_outcome _ _) => apply reads_outcome
  | |- reads _ (let '(_, _) := match h_in _ with _ => _ end in _) => fail 1
  | |- reads _ (let '(_, _) := ?x in _) => destruct x
  | |- reads _ (Some _) => by apply reads_same; destruct h
  end.
  - destruct h as [wd si pr rd usb out]. cbn [h_in]. 
    assert (forall ds usb', (length usb' <= length usb)%nat -> forall p0 p1 f, reads (mkresp wd si pr rd usb out)
      ('(code, params, si, w) ← mtp_op_SendObjectInfo mal may_uid may_gid p0 p1 ds f wd;
       Some (mkreply code params [] ((with_world w (mkresp wd si pr rd usb out)) {{ h_info := si; h_in := usb' }})))) as G.
    { intros ds usb' Hl p0 p1 f. apply reads_bind. intros [[[code' params] si'] w']. intros a [= <-]. done. }
    destruct usb as [|data usb]; apply G; cbn; lia.
  - destruct (mtp_op_SendObject _ _ _ _ _ _ _ _ _ _ _) as [r|] eqn:E; [|done]. cbn [mbind option_bind]. intros a [= <-].
    apply send_object_reads in E. by destruct h.
Qed.

(** ** Turns *)
Lemma incoming_reads d h ret h' : incoming d h = Some (ret, h') ->
  match h_in h with [] => ret = -1 /\ h' = h | _ :: usb => ret = 0 /\ (length (h_in h') <= length usb)%nat end.
Proof.
  unfold MtpMain.incoming, mtp_incoming_packet. destruct (h_in h) as [|data usb]; [by intros [= <- <-]|]. cbv zeta.
  set (h1 := h {{ h_rd := _; h_in := usb }}). assert (h_in h1 = usb) as E1 by (unfold h1; by destruct h). clearbody h1.
  destruct (strlen data =? 0); [intros [= <- <-]; rewrite E1; split; [done|lia]|]. unfold process_in_packet.
  destruct (peek (h_rd h1) 4 2) as [op|]; cbn [mbind option_bind]; [|done].
  destruct (peek (h_rd h1) 6 2) as [code|]; cbn [mbind option_bind]; [|done].
  destruct (peek (h_rd h1) 8 4) as [tx|]; cbn [mbind option_bind]; [|done].
  pose proof (dispatch_reads (strings_of (usb_cfg d)) (negb (show_hidden_files (usb_cfg d) =? 0)) (usb_wr_buffer_max_size d)
    (usb_rd_buffer_max_size d) (usb_max_packet_size (usb_cfg d)) op code tx (strlen data) h1) as R.
  destruct (dispatch _ _ _ _ _ _ _ _ _ _ _ _ _ _ _ _ _ _ _ h1) as [a|]; cbn [mbind option_bind]; [|done].
  specialize (R a eq_refl). rewrite E1 in R. destruct (response _ _ _ a) as [ps|]; cbn [mbind option_bind]; [|done].
  intros [= <- <-]. split; [done|]. by destruct (a_next a).
Qed.

(** The third mode ends with its host.  Whatever the commands, [io_thread]
    reads the transfers of the host until one fails and then stops the gadget:
    the turns [serve] gives it are never used up, and more of them change
    nothing.  (A command that reads past a buffer or a table stops the model,
    which has then no state.) *)
Theorem io_thread_ends d turns s h : (length (h_in h) < turns)%nat ->
  io_thread d turns s h = io_thread d (Datatypes.S (length (h_in h))) s h /\
  match io_thread d turns s h with
  | Some (ended, s', h') => ended = true /\ is_usb_up (gadget s') = false /\ (is_usb_up (gadget s) = true -> h_in h' = [])
  | None => exists ctx h', incoming d (put_ctx ctx h') = None
  end.
Proof.
  remember (length (h_in h)) as n eqn:En. revert turns s h En. induction (lt_wf n) as [n _ IH]. intros [|turns] s h -> Hl; [lia|].
  cbn [MtpMain.io_thread]. destruct (is_usb_up (gadget s)) eqn:U; cbn [negb]; [|done].
  destruct (incoming d (put_ctx (g_ctx s) h)) as [[ret h1]|] eqn:E; cbn [mbind option_bind]; [|split; [done|by eexists _, _]].
  apply incoming_reads in E. assert (h_in (put_ctx (g_ctx s) h) = h_in h) as E1 by (by destruct h). rewrite E1 in E.
  set (s1 := s {{ g_ctx := _ }}). destruct (h_in h) as [|data usb] eqn:Eh.
  - destruct E as [-> ->]. rewrite (proj2 (Z.ltb_lt (-1) 0)) by done.
    assert (is_usb_up (gadget (on_gadget (fun g => g {{ stop := true }}) s1)) = false) as D by (unfold s1; by destruct s as [[]]).
    destruct turns as [|turns]; cbn [MtpMain.io_thread]; rewrite D; cbn [negb]; (split; [done|]); (split_and!; [done|done|]); by intros _; destruct h.
  - destruct E as [-> Hr]. rewrite Z.ltb_irrefl. assert (is_usb_up (gadget s1) = true) as D by (unfold s1; by destruct s).
    cbn [length] in *. destruct (IH (length (h_in h1)) ltac:(lia) turns s1 h1 eq_refl ltac:(lia)) as [E2 R].
    destruct (IH (length (h_in h1)) ltac:(lia) (Datatypes.S (length usb)) s1 h1 eq_refl ltac:(lia)) as [E3 _]. split; [by rewrite E2, E3|].
    destruct (io_thread d turns s1 h1) as [[[ended s'] h']|]; [|done]. destruct R as (R1 & R2 & R3). split_and!; auto.
Qed.
End Turns.

(** A host that sends one command the responder does not know, and leaves. *)
Definition demo_transfer : list Z := le_bytes 4 12 ++ le_bytes 2 MTP_CONTAINER_TYPE_COMMAND ++ le_bytes 2 0x1FFF ++ le_bytes 4 7.
Definition demo_host : responder disk :=
  mkresp (mkworld (demo_ctx None) (mkids 0 0) demo_disk) (mkinfo 0 0 0) (0, 0) (replicate 512 0) [demo_transfer] [].
Definition demo_gadget : gstate := mkgstate empty_gadget 0 false true true true (demo_ctx None) (mksystem [3] 4 0 0 []).
Abbreviation demo_turns turns :=
  (io_thread (fun _ => None) always (fun _ => true) (fun _ => true) (fun _ => -1) (replicate 512 0) (replicate 512 0) [] None (fun _ => false) 8
    ((responder_context 0 0) {{ usb_cfg := default_cfg }}) turns demo_gadget demo_host).

Lemma io_thread_ends_witness : demo_turns 5%nat = demo_turns 2%nat /\
  exists s h, demo_turns 5%nat = Some (true, s, h) /\ is_usb_up (gadget s) = false /\ h_in h = [] /\ length (h_out h) = 1%nat.
Proof.
  destruct (io_thread_ends (fun _ => None) always (fun _ => true) (fun _ => true) (fun _ => -1) (replicate 512 0) (replicate 512 0) [] None
    (fun _ => false) 8 ((responder_context 0 0) {{ usb_cfg := default_cfg }}) 5%nat demo_gadget demo_host) as [E H].
  - cbn. lia.
  - split; [exact E|]. destruct (demo_turns 5%nat) as [[[ended s] h]|] eqn:R.
    + destruct H as (-> & U & Hi). exists s, h. split; [reflexivity|]. split; [exact U|]. split; [apply Hi; reflexivity|].
      vm_compute in R. injection R as _ <-. reflexivity.
    + vm_compute in R. discriminate R.
Defined.
