(* ===== verification/MtpKept.v ===== *)
(** * What the commands do to the table

    [steps n d d']: the table [d'] comes from [d] by allowed operations of
    which at most [n] add an object.  Each part of an operation is such steps,
    whatever it returns, as long as it returns. *)

From Stdlib Require Import Ascii String.
From S2P Require Import Prelude CString MtpUsb MtpData MtpName MtpHash MtpDb MtpTable MtpPath MtpStorage MtpMount MtpSession MtpScan MtpFile MtpHandles MtpOps MtpSend MtpProps MtpDataset MtpAnswer MtpRename.

(** The binds of a computation that returned. *)
Ltac binds H :=
  repeat match type of H with
  | (?x ≫= _) = Some _ => let E := fresh "E" in destruct x eqn:E; cbn [mbind option_bind] in H; [|discriminate H]
  | (_ <$> ?x) = Some _ => let E := fresh "E" in destruct x eqn:E; cbn [fmap option_fmap option_map] in H; [|discriminate H]
  end.

Definition has_handle (d : fs_handles_db) (h : Z) : Prop := exists p e, d_pool d !! p = Some e /\ e_handle e = h.

Section Steps.
Context (mal : nat -> bool).

Definition steps (n : Z) (d d' : fs_handles_db) : Prop :=
  reachable mal d -> d_next d + n < 2 ^ 32 ->
  reachable mal d' /\ d_next d' <= d_next d + n /\ forall h, has_handle d h -> has_handle d' h.

Lemma steps_refl d : steps 0 d d.
Proof. intros R _. split; [done|]. split; [lia|auto]. Qed.

Lemma steps_trans n m d d1 d2 : 0 <= n -> 0 <= m -> steps n d d1 -> steps m d1 d2 -> steps (n + m) d d2.
Proof.
  intros Hn Hm S1 S2 R Hb. destruct (S1 R ltac:(lia)) as (R1 & B1 & K1). destruct (S2 R1 ltac:(lia)) as (R2 & B2 & K2).
  split_and!; [done|lia|auto].
Qed.

Lemma steps_more n m d d' : n <= m -> steps n d d' -> steps m d d'.
Proof. intros H S R Hb. destruct (S R ltac:(lia)) as (? & ? & ?). split_and!; [done|lia|done]. Qed.

(** Steps that add nothing. *)
Lemma steps_then n d d1 d2 : 0 <= n -> steps n d d1 -> steps 0 d1 d2 -> steps n d d2.
Proof. intros Hn S1 S2. apply (steps_more (n + 0)); [lia|]. by apply (steps_trans n 0 d d1 d2). Qed.
Lemma steps_after n d d1 d2 : 0 <= n -> steps 0 d d1 -> steps n d1 d2 -> steps n d d2.
Proof. intros Hn S1 S2. apply (steps_more (0 + n)); [lia|]. by apply (steps_trans 0 n d d1 d2). Qed.

(** ** One operation *)
Lemma upd_steps op g p d d' : run_op mal op d = upd_entry g p d -> op_allowed op d = is_Some (d_pool d !! p) ->
  (forall e, e_handle (g e) = e_handle e) -> upd_entry g p d = Some d' -> steps 0 d d'.
Proof.
  intros Eo Ea Hg E R _. unfold upd_entry in E. destruct (d_pool d !! p) as [e|] eqn:Ep; [|done]. cbn [mbind option_bind] in E.
  split_and!.
  - apply (reach_step mal d op); [done|rewrite Ea; by eexists|]. rewrite Eo. unfold upd_entry. rewrite Ep. done.
  - injection E as <-. destruct d. cbn. lia.
  - intros h (q & eq & Eq & Eh). injection E as <-. destruct (decide (q = p)) as [->|Hq].
    + exists p, (g e). split; [destruct d; upd; apply lookup_insert_eq|]. rewrite Hg. rewrite Ep in Eq. by injection Eq as <-.
    + exists q, eq. split; [|done]. destruct d; upd. by rewrite lookup_insert_ne.
Qed.

Lemma deleted_steps p d d' : upd_entry mark_deleted p d = Some d' -> steps 0 d d'.
Proof. apply (upd_steps (Delete p)); [done|done|by intros []]. Qed.
Lemma resized_steps p sz d d' : upd_entry (fun e => e {{ e_size := sz }}) p d = Some d' -> steps 0 d d'.
Proof. apply (upd_steps (Resize p sz)); [done|done|by intros []]. Qed.
Lemma descriptor_steps p fd d d' : upd_entry (fun e => e {{ e_fd := fd }}) p d = Some d' -> steps 0 d d'.
Proof. apply (upd_steps (SetDescriptor p fd)); [done|done|by intros []]. Qed.
Lemma watched_steps p wd d d' : upd_entry (fun e => e {{ e_wd := wd }}) p d = Some d' -> steps 0 d d'.
Proof. apply (upd_steps (SetWatch p wd)); [done|done|by intros []]. Qed.

Lemma search_steps parent st d : steps 0 d (init_search_handle parent st d).
Proof.
  intros R _. split_and!; [by apply (reach_step mal d (StartSearch parent st))|destruct d; cbn; lia|]. by destruct d.
Qed.

Lemma next_steps d o d' : get_next_child_handle d = Some (o, d') -> steps 0 d d'.
Proof.
  intros E R _. split; [|destruct (next_child_search d o d' E) as (s & ->); destruct d; cbn; split; [lia|done]].
  apply (reach_step mal d NextChild); [done|done|]. cbn [run_op]. by rewrite E.
Qed.

Lemma renamed_steps p new d d' : rename_entry mal p new d = Some d' -> steps 0 d d'.
Proof.
  intros E R _. destruct (d_pool d !! p) as [e|] eqn:Ep.
  2: { unfold rename_entry, remove_entry in E. by rewrite Ep in E. }
  pose proof (rename_pool mal p new d d' e E Ep) as Pd. split_and!.
  - apply (reach_step mal d (Rename p new)); [done|by eexists|done].
  - clear Pd. unfold rename_entry, remove_entry, upd_entry, insert_entry in E. rewrite Ep in E. cbn [mbind option_bind] in E.
    destruct d as [dl dn dh nx se hs ss pool bl fr ma]. cbn in Ep. revert E. upd. rewrite Ep. upd. rewrite lookup_insert_eq. upd.
    destruct (insert_entry_generic _ _ _ _) as [nh n1]. destruct (insert_entry_generic _ _ _ _) as [nn n2]. intros [= <-]. cbn. lia.
  - intros h (q & eq & Eq & Eh). rewrite <- Eh. destruct (decide (q = p)) as [->|Hq].
    + exists p, (renamed new e). rewrite Pd. split; [apply lookup_insert_eq|]. rewrite Ep in Eq. injection Eq as <-. by destruct e.
    + exists q, eq. rewrite Pd. by rewrite lookup_insert_ne.
Qed.

Lemma handle_below d h : reachable mal d -> has_handle d h -> 0 <= h < d_next d.
Proof.
  intros (l & H & _)%reachable_ok (p & e & Ep & <-). pose proof (ok_next _ _ H).
  destruct (ok_tree _ _ H p e Ep) as [[-> _]|]; lia.
Qed.

(** A folder that objects can be added to. *)
Definition is_folder (d : fs_handles_db) (parent : Z) : Prop := parent = 0 \/ has_handle d parent.

Lemma add_steps f parent st d o d' : is_folder d parent -> add_entry mal f parent st d = Some (o, d') -> steps 1 d d'.
Proof.
  intros Hp E R Hb. pose proof (reachable_ok mal d R) as (l & H & _).
  assert (reachable mal d') as R'.
  { apply (reach_step mal d (AddObject f parent st)); [done|by split|]. cbn [run_op]. by rewrite E. }
  split; [done|]. unfold add_entry in E. binds E. destruct o0 as [p|]; [injection E as <- <-; split; [lia|done]|].
  destruct (alloc_entry_spec mal f parent st d l H Hb) as (o' & d1 & E1 & Ho).
  { pose proof (ok_next _ _ H). destruct Hp as [->|Hp]; [lia|by apply handle_below]. }
  rewrite E in E1. injection E1 as <- <-. destruct o as [p|].
  - destruct Ho as (Hin & _ & Hn & Pd & _). split; [lia|]. intros h (q & eq & Eq & Eh). exists q, eq. split; [|done]. rewrite Pd.
    rewrite lookup_insert_ne; [done|]. intros ->. apply Hin. apply (ok_dom _ _ H). by eexists.
  - destruct Ho as (_ & C & _). unfold content in C. destruct d, d'. cbn in *. injection C as -> -> -> -> -> -> ->. split; [lia|done].
Qed.

(** ** The scan *)
Lemma find_next_length stat64 folder dir f dir' : fs_find_next_file stat64 folder dir = Some (f, dir') -> (length dir' < length dir)%nat.
Proof.
  revert f dir'. induction dir as [|name dir IH]; intros f dir'; cbn [fs_find_next_file]; [done|].
  destruct (fs_entry_stat stat64 _); [intros [= _ ->]; cbn; lia|]. intros E%IH. cbn. lia.
Qed.

Lemma folder_kept n d d' parent : reachable mal d -> d_next d + n < 2 ^ 32 -> steps n d d' -> is_folder d parent -> is_folder d' parent.
Proof. intros R Hb S [->|H]; [by left|right]. by apply (S R Hb). Qed.

Lemma add_files_steps stat64 show fuel base parent st f dir d d' : is_folder d parent ->
  add_files stat64 mal show fuel base parent st f dir d = Some d' -> steps (1 + Z.of_nat (length dir)) d d'.
Proof.
  revert f dir d. induction fuel as [|fuel IH]; intros f dir d Hp E; cbn [add_files] in E; [done|].
  destruct (if listed show f then _ else _) as [d1|] eqn:E1; cbn [mbind option_bind] in E; [|done].
  assert (steps 1 d d1) as S1.
  { destruct (listed show f); [|injection E1 as <-; apply (steps_more 0); [lia|apply steps_refl]].
    binds E1. destruct p as [o d2]. injection E1 as <-. by eapply add_steps. }
  destruct (fs_find_next_file stat64 base dir) as [[f' dir']|] eqn:En.
  - apply find_next_length in En. intros R Hb. apply (steps_more (1 + (1 + Z.of_nat (length dir')))); [lia| |done|done].
    eapply steps_trans; [lia|lia|exact S1|]. apply IH with f'; [|done]. eapply folder_kept; [done| |exact S1|done]. lia.
  - injection E as <-. apply (steps_more 1); [lia|done].
Qed.

Lemma check_file_steps stat64 root_of realpath p d rm d' rm' :
  check_file stat64 root_of realpath p d rm = Some (d', rm') -> steps 0 d d'.
Proof.
  unfold check_file. intros E. binds E. destruct o as [path|]; [|injection E as <- <-; apply steps_refl].
  destruct (stat64 path) as [[isdir size]|]; binds E; injection E as <- <-; [by eapply resized_steps|by eapply deleted_steps].
Qed.

Lemma check_files_steps stat64 root_of realpath fuel d rm d' rm' :
  check_files stat64 root_of realpath fuel d rm = Some (d', rm') -> steps 0 d d'.
Proof.
  revert d rm. induction fuel as [|fuel IH]; intros d rm E; cbn [check_files] in E; [done|].
  destruct (get_next_child_handle d) as [[o d1]|] eqn:En; cbn [mbind option_bind] in E; [|done]. apply next_steps in En.
  destruct o as [p|]; [|injection E as <- <-; done].
  destruct (check_file _ _ _ p d1 rm) as [[d2 rm2]|] eqn:Ec; cbn [mbind option_bind] in E; [|done]. apply check_file_steps in Ec.
  apply (steps_then 0 d d1); [lia|done|]. apply (steps_then 0 d1 d2); [lia|done|]. by eapply IH.
Qed.

Lemma scan_steps stat64 opendir show root_of realpath base parent st d r d' rm : is_folder d parent ->
  scan_and_add_folder stat64 opendir mal show root_of realpath base parent st d = Some (r, d', rm) ->
  steps (Z.of_nat (length (default [] (opendir base)))) d d'.
Proof.
  intros Hp E. unfold scan_and_add_folder in E.
  destruct (match fs_find_first_file stat64 opendir base with Some _ => _ | None => _ end) as [[ret d1]|] eqn:E1; cbn [mbind option_bind] in E; [|done].
  assert (steps (Z.of_nat (length (default [] (opendir base)))) d d1) as S1.
  { unfold fs_find_first_file in E1. destruct (opendir base) as [dir|]; cbn [mbind option_bind default] in *.
    2: { injection E1 as <- <-. apply (steps_more 0); [cbn; lia|apply steps_refl]. }
    destruct (fs_find_next_file stat64 base dir) as [[f dir']|] eqn:En.
    - apply find_next_length in En. binds E1. injection E1 as <- <-.
      apply (steps_more (1 + Z.of_nat (length dir'))); [cbn; lia|]. by eapply add_files_steps.
    - injection E1 as <- <-. apply (steps_more 0); [lia|apply steps_refl]. }
  destruct (check_files _ _ _ _ _ _) as [[d2 rm2]|] eqn:E2; cbn [mbind option_bind] in E; [|done]. injection E as <- <- <-.
  apply (steps_then _ d d1); [lia|done|]. apply (steps_then 0 d1 (init_search_handle parent st d1)); [lia|apply search_steps|].
  by eapply check_files_steps.
Qed.

(** ** Listing and transfers *)
Lemma count_steps fuel d n m d' : count_children fuel d n = Some (m, d') -> steps 0 d d'.
Proof.
  revert d n. induction fuel as [|fuel IH]; intros d n E; cbn [count_children] in E; [done|].
  destruct (get_next_child_handle d) as [[o d1]|] eqn:En; cbn [mbind option_bind] in E; [|done]. apply next_steps in En.
  destruct o; [|injection E as <- <-; done]. apply (steps_then 0 d d1); [lia|done|]. by eapply IH.
Qed.

Lemma fill_steps wr_size mps nb fuel d wr ofs i d' wr' ofs' i' :
  fill_packet wr_size mps nb fuel d wr ofs i = Some (d', wr', ofs', i') -> steps 0 d d'.
Proof.
  revert d wr ofs i. induction fuel as [|fuel IH]; intros d wr ofs i E; cbn [fill_packet] in E; [done|].
  destruct (get_next_child_handle d) as [[o d1]|] eqn:En; cbn [mbind option_bind] in E; [|done]. apply next_steps in En.
  match type of E with (?x ≫= _) = _ => destruct x as [[[wr1 ofs1] i1]|] end; cbn [mbind option_bind] in E; [|done].
  destruct (_ && _ && _); [|injection E as <- <- <- <-; done]. apply (steps_then 0 d d1); [lia|done|]. by eapply IH.
Qed.

Lemma send_handles_steps wr_size mps nb fuel d wr ofs i sent ok d' wr' packets :
  send_handles wr_size mps nb fuel d wr ofs i sent = Some (ok, d', wr', packets) -> steps 0 d d'.
Proof.
  revert d wr ofs i sent. induction fuel as [|fuel IH]; intros d wr ofs i sent E; cbn [send_handles] in E; [done|].
  destruct (fill_packet _ _ _ _ _ _ _ _) as [[[[d1 wr1] ofs1] i1]|] eqn:Ef; cbn [mbind option_bind] in E; [|done]. apply fill_steps in Ef.
  destruct (ofs1 <? 0); [injection E as <- <- <- <-; done|]. binds E. destruct (i1 <? nb); [|injection E as <- <- <- <-; done].
  apply (steps_then 0 d d1); [lia|done|]. by eapply IH.
Qed.

Lemma watch_steps addwatch path entry d d' : watch_folder addwatch path entry d = Some d' -> steps 0 d d'.
Proof.
  unfold watch_folder. destruct entry as [p|]; [|intros [= <-]; apply steps_refl]. intros E. binds E.
  destruct (flagged ENTRY_IS_DIR f); [by eapply watched_steps|injection E as <-; apply steps_refl].
Qed.

Lemma list_folder_steps may_uid may_gid realpath stat64 opendir show addwatch ctx ids st parent path entry d nb d' rm ids' :
  is_folder d parent ->
  list_folder mal may_uid may_gid realpath stat64 opendir show addwatch ctx ids st parent path entry d = Some (nb, d', rm, ids') ->
  steps (Z.of_nat (length (default [] (opendir path)))) d d'.
Proof.
  intros Hp E. unfold list_folder in E. destruct (set_storage_giduid may_uid may_gid ctx st ids) as [access ids1].
  match type of E with (?x ≫= _) = _ => destruct x as [[[ret d1] rm1]|] eqn:E1 end; cbn [mbind option_bind] in E; [|done].
  assert (steps (Z.of_nat (length (default [] (opendir path)))) d d1) as S1.
  { destruct (access =? 0); [by eapply scan_steps|]. injection E1 as <- <- <-. apply (steps_more 0); [lia|apply steps_refl]. }
  destruct (ret <? 0); [injection E as <- <- <- <-; done|].
  destruct (count_children _ _ _) as [[n d2]|] eqn:E2; cbn [mbind option_bind] in E; [|done].
  destruct (watch_folder _ _ _ _) as [d3|] eqn:E3; cbn [mbind option_bind] in E; [|done]. injection E as <- <- <- <-.
  apply count_steps in E2. apply watch_steps in E3. apply (steps_then _ d d1); [lia|done|].
  apply (steps_then 0 d1 (init_search_handle parent st d1)); [lia|apply search_steps|]. apply (steps_then 0 _ d2); [lia|done|].
  by apply (steps_then 0 _ (init_search_handle parent st d2)); [lia|apply search_steps|].
Qed.

Lemma entry_open_steps may_uid may_gid realpath open ctx ids p d fd d' ids' :
  entry_open may_uid may_gid realpath open ctx ids p d = Some (fd, d', ids') -> steps 0 d d'.
Proof.
  unfold entry_open. intros E. binds E. destruct (0 <? e_fd f); [injection E as <- <- <-; apply steps_refl|]. binds E.
  destruct o as [path|].
  - destruct (set_storage_giduid _ _ _ _ _) as [ret ids1]. binds E. destruct p0 as [d1 ids2]. binds E. injection E as <- <- <-.
    destruct (ret =? 0); cbn [mbind option_bind] in E2; binds E2; injection E2 as <- <-; [by eapply descriptor_steps|apply steps_refl].
  - binds E. destruct p0 as [d1 ids2]. binds E. injection E as <- <- <-. injection E2 as <- <-. apply steps_refl.
Qed.

Lemma entry_close_steps p d d' closed : entry_close p d = Some (d', closed) -> steps 0 d d'.
Proof. unfold entry_close. intros E. binds E. injection E as <- <-. by eapply descriptor_steps. Qed.

Lemma send_file_steps may_uid may_gid realpath open read cancel wr_size rd_size mps ctx ids wr buffer p offset maxsize d r :
  send_file_data may_uid may_gid realpath open read cancel wr_size rd_size mps ctx ids wr buffer p offset maxsize d = Some r ->
  steps 0 d (s_db r).
Proof.
  unfold send_file_data. destruct buffer as [buf|]; [|intros [= <-]; apply steps_refl]. intros E. binds E.
  destruct p0 as [wr1 next]. destruct (entry_open _ _ _ _ _ _ _ _) as [[[file d1] ids1]|] eqn:Eo; cbn [mbind option_bind] in E; [|done].
  apply entry_open_steps in Eo. destruct (file =? -1); [injection E as <-; done|]. binds E.
  destruct p0 as [d2 closed]. match goal with H : entry_close _ _ = _ |- _ => apply entry_close_steps in H end.
  assert (s_db r = d2) as ->; [|by apply (steps_then 0 d d1)].
  destruct o as [t|]; [destruct (cancel _)|]; by injection E as <-.
Qed.
End Steps.
