(* ===== verification/MtpResponder.v ===== *)
(** * The session through every command

    Whatever the host sends, the packets the responder takes leave the session
    as they found it: a reachable table, with storages on their identifiers, as
    long as handles are left for the objects that were listed. *)

From Stdlib Require Import Ascii String.
From S2P Require Import Prelude CString MtpUsb MtpData MtpName MtpHash MtpDb MtpTable MtpPath MtpStorage MtpMount MtpSession MtpScan MtpFile MtpHandles MtpOps MtpDisk MtpSend MtpProps MtpDataset MtpAccess MtpAnswer MtpRename MtpKept MtpDispatch MtpConfig MtpDescriptors MtpGadget MtpMain.

(** ** What a search finds *)
Lemma scan_node_some pool P l p : scan_node pool P l = Some (Some p) -> exists e, pool !! p = Some e /\ P e = true.
Proof.
  induction l as [|q l IH]; cbn [scan_node]; [done|]. destruct (pool !! q) as [e|] eqn:E; [|done]. cbn [mbind option_bind].
  destruct (P e) eqn:B; [|done]. intros [= <-]. by exists e.
Qed.

Lemma walk_some fuel pool P q p : walk fuel pool P q = Some (Some p) -> exists e, pool !! p = Some e /\ P e = true.
Proof.
  revert q. induction fuel as [|fuel IH]; intros [q|]; cbn [walk]; try done. destruct (pool !! q) as [e|] eqn:E; [|done].
  cbn [mbind option_bind]. destruct (P e) eqn:B; [|apply IH]. intros [= <-]. by exists e.
Qed.

Lemma found_handle root h d p : get_entry_by_handle root h d = Some (Some p) -> has_handle d h.
Proof. intros (e & E & B)%scan_node_some. exists p, e. bprop. done. Qed.

Lemma found_in_storage h st d p : get_entry_by_handle_and_storageid h st d = Some (Some p) -> has_handle d h.
Proof. intros (e & E & B)%walk_some. exists p, e. bprop. done. Qed.

Section Responder.
Context {S : Type} {FS : FileSystem S} (mal : nat -> bool).
Abbreviation steps := (steps mal).

(** ** The context of a session *)

(** The same storages, and steps on the table. *)
Definition ctx_steps (n : Z) (ctx ctx' : mtp_ctx) : Prop :=
  storages ctx' = storages ctx /\
  match fs_db ctx, fs_db ctx' with Some d, Some d' => steps n d d' | None, None => True | _, _ => False end.

(** The next handle; that of a session that is not open yet. *)
Definition next_handle (ctx : mtp_ctx) : Z := match fs_db ctx with Some d => d_next d | None => 1 end.

(** A session with [n] handles left. *)
Definition budget (n : Z) (ctx : mtp_ctx) : Prop := session_ok mal ctx /\ store_ok ctx /\ next_handle ctx + n < 2 ^ 32.

(** At most [n] of them are used. *)
Definition uses (n : Z) (ctx ctx' : mtp_ctx) : Prop := forall m, 0 <= m -> budget (n + m) ctx -> budget m ctx'.

Lemma steps_use n ctx ctx' : 0 <= n -> ctx_steps n ctx ctx' -> uses n ctx ctx'.
Proof.
  intros Hn [E S1] m Hm (Hs & Ht & Hb). unfold budget, session_ok, next_handle in *. destruct (fs_db ctx) as [d|], (fs_db ctx') as [d'|]; try done.
  - destruct (S1 Hs) as (R & B & _); [lia|]. split; [done|]. split; [by unfold store_ok in *; rewrite E|lia].
  - split; [done|]. split; [by unfold store_ok in *; rewrite E|lia].
Qed.

Lemma uses_more n m ctx ctx' : n <= m -> uses n ctx ctx' -> uses m ctx ctx'.
Proof. intros H U k Hk (Hs & Ht & Hb). apply U; [done|]. split; [done|]. split; [done|lia]. Qed.

Lemma ctx_refl n ctx : 0 <= n -> ctx_steps n ctx ctx.
Proof. intros Hn. split; [done|]. destruct (fs_db ctx); [|done]. apply (steps_more mal 0); [done|apply steps_refl]. Qed.

Lemma table_steps n d d' ctx uw : fs_db ctx = Some d -> steps n d d' -> ctx_steps n ctx (ctx {{ fs_db := Some d'; unwatched := uw }}).
Proof. intros E Hs. destruct ctx. cbn in *. subst. by split. Qed.

Lemma put_steps n d d' rm (w : world S) ctx : w_ctx w = ctx -> fs_db ctx = Some d -> steps n d d' -> ctx_steps n ctx (w_ctx (put_db d' rm w)).
Proof. intros <- E Hs. destruct w as [ctx ids s]. by apply (table_steps n d d'). Qed.

(** ** Opening and closing *)
Lemma alloc_root_next id d o d' : alloc_root_entry mal id d = Some (o, d') -> d_next d' = d_next d.
Proof.
  unfold alloc_root_entry. destruct (take_slot mal d) as [q d1] eqn:E. assert (d_next d1 = d_next d) as <-.
  { unfold take_slot, allocate_pool_block in E. revert E. destruct d as [? ? ? ? ? ? ? ? ? ? k], (_ =? 0); upd; [destruct (mal k); upd|]; by intros [= _ <-]. }
  destruct q as [p|]; [|by intros [= _ <-]]. destruct (mal _); [|intros [= _ <-]; by destruct d1].
  unfold link_entry, insert_entry. upd. rewrite lookup_insert_eq. cbn [mbind option_bind].
  destruct (insert_entry_generic _ _ _ _), (insert_entry_generic _ _ _ _). intros [= _ <-]. by destruct d1.
Qed.

Lemma add_root_next id ctx ctx' : add_root mal id ctx = Some ctx' -> next_handle ctx' = next_handle ctx.
Proof.
  unfold add_root, next_handle. destruct (fs_db ctx) as [d|] eqn:D; [|by intros [= <-]; rewrite D].
  intros E. binds E. destruct p as [o d']. injection E as <-. apply alloc_root_next in E0. by destruct ctx.
Qed.

Lemma open_roots_next l ctx ctx' : open_roots mal l ctx = Some ctx' -> next_handle ctx' = next_handle ctx.
Proof.
  revert ctx. induction l as [|s l IH]; intros ctx; cbn [open_roots]; [by intros [= <-]|]. destruct (root_path s); [|by intros [= <-]].
  intros E. binds E. rewrite <- (add_root_next _ _ _ E0). by apply IH.
Qed.

Lemma open_uses id ctx ctx' code params : mtp_op_OpenSession mal id ctx = Some (code, params, ctx') -> uses 0 ctx ctx'.
Proof.
  intros E m Hm (Hs & Ht & Hb). destruct (open_safe mal id ctx Hs Ht) as (r & c & E1 & Hs' & Ht'). rewrite E in E1. injection E1 as <- <-.
  split; [done|]. split; [done|]. unfold mtp_op_OpenSession in E. destruct (id =? 0); [by injection E as <- <- <-|].
  unfold next_handle in Hb. destruct (fs_db ctx) as [d|] eqn:D; [injection E as <- <- <-; unfold next_handle; by rewrite D|].
  cbn zeta in E. destruct (mal _).
  - destruct (open_roots _ _ _) as [c|] eqn:Eo; cbn [mbind option_bind] in E; [|done]. injection E as <- <- <-. apply open_roots_next in Eo.
    rewrite Eo. destruct ctx. cbn. lia.
  - injection E as <- <- <-. unfold next_handle. destruct ctx. cbn in *. rewrite D. lia.
Qed.

Lemma close_uses ctx ctx' code fd : mtp_op_CloseSession ctx = Some (code, fd, ctx') -> uses 0 ctx ctx'.
Proof.
  intros E m Hm (Hs & Ht & Hb). destruct (close_safe mal ctx Hs Ht) as ([? ?] & c & E1 & Hs' & Ht' & N). rewrite E in E1. injection E1 as _ _ <-.
  split; [done|]. split; [done|]. unfold next_handle in *. rewrite N. unfold session_ok in Hs. destruct (fs_db ctx) as [d|]; [|done].
  destruct (reachable_ok mal d Hs) as (l & H & _). pose proof (ok_next _ _ H). lia.
Qed.
(** ** Objects *)
Context (localtime : Z -> option tm) (may_uid may_gid : Z -> bool) (show_hidden : bool) (addwatch : list Z -> Z) (K : Z).
Context (wr_size rd_size max_packet_size : Z) (cancel : nat -> bool).
(** No folder lists more than [K] names. *)
Hypothesis listings : forall (s : S) folder, Z.of_nat (length (default [] (fs_list s folder))) <= K.
Hypothesis one_object : 1 <= K.

Lemma drop_steps n p d d0 (w w' : world S) ctx : w_ctx w = ctx -> fs_db ctx = Some d0 -> 0 <= n -> steps n d0 d ->
  drop_entry p d w = Some w' -> ctx_steps n ctx (w_ctx w').
Proof.
  intros Ew Ed Hn Hs E. unfold drop_entry in E. binds E. injection E as <-. apply (put_steps n d0); [done|done|].
  apply (steps_then mal n d0 d); [done|done|]. by eapply deleted_steps.
Qed.

Lemma delete_tree_steps fuel handle d (w w' : world S) b : fs_db (w_ctx w) = Some d ->
  delete_tree mal show_hidden fuel handle d w = Some (b, w') -> ctx_steps K (w_ctx w) (w_ctx w').
Proof.
  intros Ed E. unfold delete_tree in E. destruct (get_entry_by_handle _ _ _) as [[p|]|] eqn:Ep; cbn [mbind option_bind] in E; [| |done].
  2: { injection E as <- <-. apply ctx_refl. lia. }
  destruct (d_pool d !! p) as [e|]; cbn [mbind option_bind] in E; [|done].
  destruct (full_path w p d) as [[path|]|]; cbn [mbind option_bind] in E; [| |done].
  2: { injection E as <- <-. apply ctx_refl. lia. }
  assert (forall s w1, drop_entry p d (w {{ w_fs := s }}) = Some w1 -> ctx_steps K (w_ctx w) (w_ctx w1)) as Hd.
  { intros s w1. apply drop_steps with d; [by destruct w|done|lia|]. apply (steps_more mal 0); [lia|apply steps_refl]. }
  destruct (flagged _ _).
  - destruct (fs_remove_tree _ _ _) as [[failed s]|]; cbn [mbind option_bind] in E; [|done]. destruct failed.
    + destruct (scan_and_add_folder _ _ _ _ _ _ _ _ _ _) as [[[r d'] rm]|] eqn:Es; cbn [mbind option_bind] in E; [|done].
      injection E as <- <-. apply (put_steps K d); [by destruct w|done|]. apply (steps_more mal _ K _ _ (listings s path)).
      eapply scan_steps; [|exact Es]. right. by eapply found_handle.
    + binds E. injection E as <- <-. by eapply Hd.
  - destruct (fs_remove _ _) as [ok s]. destruct ok; [|injection E as <- <-; apply ctx_refl; lia]. binds E. injection E as <- <-. by eapply Hd.
Qed.

Lemma delete_steps fuel handle (w w' : world S) code :
  mtp_op_DeleteObject mal may_uid may_gid show_hidden fuel handle w = Some (code, w') -> ctx_steps K (w_ctx w) (w_ctx w').
Proof.
  unfold mtp_op_DeleteObject. destruct (fs_db (w_ctx w)) as [d|] eqn:Ed; [|intros [= _ <-]; apply ctx_refl; lia].
  destruct (check_handle_access _ _ _ _ _) as [[x|]|]; cbn [mbind option_bind]; [intros [= _ <-]; apply ctx_refl; lia| |done].
  destruct (get_entry_by_handle _ _ _) as [[p|]|]; cbn [mbind option_bind]; [| |done].
  2: { intros [= _ <-]. apply ctx_refl. lia. }
  destruct (d_pool d !! p) as [e|]; cbn [mbind option_bind]; [|done].
  destruct (set_storage_giduid _ _ _ _ _) as [access ids]. destruct (access =? 0).
  - destruct (delete_tree _ _ _ _ _ _) as [[b w1]|] eqn:E; cbn [mbind option_bind]; [|done]. intros [= _ <-].
    apply delete_tree_steps in E; [|by destruct w]. by destruct w.
  - intros [= _ <-]. apply ctx_refl. lia.
Qed.

Lemma end_edit_steps handle (w w' : world S) code closed :
  mtp_op_EndEditObject handle w = Some (code, closed, w') -> ctx_steps 0 (w_ctx w) (w_ctx w').
Proof.
  unfold mtp_op_EndEditObject. destruct (fs_db (w_ctx w)) as [d|] eqn:Ed; [|by intros [= _ _ <-]; apply ctx_refl].
  destruct (check_handle_access _ _ _ _ _) as [x|]; cbn [mbind option_bind]; [|done].
  destruct (get_entry_by_handle _ _ _) as [[p|]|]; cbn [mbind option_bind]; [|by intros [= _ _ <-]; apply ctx_refl|done].
  destruct (entry_close p d) as [[d' cl]|] eqn:E; cbn [mbind option_bind]; [|done]. intros [= _ _ <-].
  apply (put_steps 0 d); [done|done|]. by eapply entry_close_steps.
Qed.

Lemma begin_edit_same handle (w w' : world S) code : mtp_op_BeginEditObject handle w = Some (code, w') -> w' = w.
Proof. unfold mtp_op_BeginEditObject. destruct (fs_db _); [|by intros [= _ <-]]. destruct (check_handle_access _ _ _ _ _); [|done]. by intros [= _ <-]. Qed.

Lemma truncate_same handle offset (w w' : world S) code : mtp_op_TruncateObject handle offset w = Some (code, w') -> w_ctx w' = w_ctx w.
Proof.
  unfold mtp_op_TruncateObject. destruct (fs_db _) as [d|]; [|by intros [= _ <-]].
  destruct (get_entry_by_handle _ _ _) as [[p|]|]; cbn [mbind option_bind]; [|by intros [= _ <-]|done].
  destruct (check_handle_access _ _ _ _ _) as [[x|]|]; cbn [mbind option_bind]; [by intros [= _ <-]| |done].
  destruct (full_path w p d) as [[path|]|]; cbn [mbind option_bind]; [|by intros [= _ <-]|done].
  destruct (fs_truncate _ _ _) as [err s]. intros [= _ <-]. by destruct w.
Qed.

(** ** Listing and reading *)
Lemma found_folder realpath ctx d storageid parent h path entry :
  find_folder realpath ctx d storageid parent = Some (h, Some path, entry) -> is_folder d h.
Proof.
  unfold find_folder. destruct (_ && _).
  - destruct (get_entry_by_handle _ _ _) as [[p|]|] eqn:E; cbn [mbind option_bind]; [|done..]. destruct (d_pool d !! p); [|done]. cbn [mbind option_bind].
    destruct (build_full_path _ _ _ _ _); [|done]. cbn [mbind option_bind]. intros [= <- _ _]. right. by eapply found_handle.
  - destruct (get_entry_by_handle_and_storageid _ _ _); [|done]. cbn [mbind option_bind]. intros [= <- _ _]. by left.
Qed.

Lemma get_handles_steps tx_id code storageid parent wrbuffer s ctx ids o :
  mtp_op_GetObjectHandles mal may_uid may_gid (fs_realpath s) (fs_stat s) (fs_list s) show_hidden addwatch wr_size max_packet_size
    tx_id code storageid parent wrbuffer ctx ids = Some o -> ctx_steps K ctx (o_ctx o).
Proof.
  intros E. assert (ctx_steps K ctx ctx) as Hr by (apply ctx_refl; lia).
  unfold mtp_op_GetObjectHandles in E. destruct (fs_db ctx) as [d|] eqn:Ed; [|by injection E as <-].
  destruct (build_response _ _ _ _ _ _) as [[wr sz]|]; cbn [mbind option_bind] in E; [|done]. destruct (sz <? 0); [by injection E as <-|].
  destruct (mtp_get_storage_root _ _); [|by injection E as <-].
  destruct (find_folder _ _ _ _ _) as [[[h path] entry]|] eqn:Ef; cbn [mbind option_bind] in E; [|done].
  match type of E with (?x ≫= _) = _ => destruct x as [[[[listed d1] rm] ids1]|] eqn:El end; cbn [mbind option_bind] in E; [|done].
  assert (steps K d d1) as S1.
  { destruct path as [path|]; [|injection El as <- <- <- <-; apply (steps_more mal 0); [lia|apply steps_refl]].
    apply (steps_more mal _ K _ _ (listings s path)). eapply list_folder_steps; [|exact El]. by eapply found_folder. }
  destruct listed as [nb|]; [|injection E as <-; by apply (table_steps K d)].
  destruct (poke32 _ _ _ _) as [[wr1 o1]|]; cbn [mbind option_bind] in E; [|done].
  destruct (poke32 _ _ _ _) as [[wr2 o2]|]; cbn [mbind option_bind] in E; [|done].
  destruct (send_handles _ _ _ _ _ _ _ _ _) as [[[[ok d2] wr3] packets]|] eqn:Es; cbn [mbind option_bind] in E; [|done].
  apply (send_handles_steps mal) in Es.
  assert (o_ctx o = ctx {{ fs_db := Some d2; unwatched := unwatched ctx ++ rm }}) as ->
    by (destruct ok; injection E as <-; by destruct ctx).
  apply (table_steps K d); [done|]. apply (steps_then mal K d d1); [lia|done|done].
Qed.

Lemma send_object_steps p offset maxsize wrbuffer buffer d (w : world S) r ctx code params : w_ctx w = ctx -> fs_db ctx = Some d ->
  send_object may_uid may_gid wr_size rd_size max_packet_size cancel p offset maxsize wrbuffer buffer d w = Some r ->
  ctx_steps 0 ctx (o_ctx (after_transfer code params r w)).
Proof. intros Ew Ed E. cbn. apply (put_steps 0 d); [done|done|]. by eapply send_file_steps. Qed.

Lemma get_object_steps tx_id code handle wrbuffer buffer (w : world S) o :
  mtp_op_GetObject may_uid may_gid wr_size rd_size max_packet_size cancel tx_id code handle wrbuffer buffer w = Some o ->
  ctx_steps 0 (w_ctx w) (o_ctx o).
Proof.
  intros E. pose proof (ctx_refl 0 (w_ctx w) ltac:(lia)) as Hr.
  unfold mtp_op_GetObject in E. destruct (fs_db (w_ctx w)) as [d|] eqn:Ed; [|by injection E as <-].
  destruct (get_entry_by_handle _ _ _) as [[p|]|]; cbn [mbind option_bind] in E; [|by injection E as <-|done].
  destruct (check_handle_access _ _ _ _ _) as [[x|]|]; cbn [mbind option_bind] in E; [by injection E as <-| |done].
  destruct (build_response _ _ _ _ _ _) as [[wr sz]|]; cbn [mbind option_bind] in E; [|done]. destruct (sz <? 0); [by injection E as <-|].
  binds E. injection E as <-. by eapply send_object_steps.
Qed.

Lemma get_partial_steps tx_id code handle offset size wrbuffer buffer (w : world S) o :
  mtp_op_GetPartialObject may_uid may_gid wr_size rd_size max_packet_size cancel tx_id code handle offset size wrbuffer buffer w = Some o ->
  ctx_steps 0 (w_ctx w) (o_ctx o).
Proof.
  intros E. pose proof (ctx_refl 0 (w_ctx w) ltac:(lia)) as Hr.
  unfold mtp_op_GetPartialObject in E. destruct (fs_db (w_ctx w)) as [d|] eqn:Ed; [|by injection E as <-].
  destruct (get_entry_by_handle _ _ _) as [entry|]; cbn [mbind option_bind] in E; [|done].
  destruct (check_handle_access _ _ _ _ _) as [[x|]|]; cbn [mbind option_bind] in E; [by injection E as <-| |done].
  destruct entry as [p|]; [|by injection E as <-].
  destruct (build_response _ _ _ _ _ _) as [[wr sz]|]; cbn [mbind option_bind] in E; [|done]. destruct (sz <? 0); [by injection E as <-|].
  binds E. destruct (0 <=? _); [|destruct (_ =? -2)]; injection E as <-; by eapply send_object_steps.
Qed.

(** ** Receiving *)
Lemma new_path_folder storage_id parent name d (w : world S) x : new_path storage_id parent name d w = Some (Some x) -> is_folder d parent.
Proof.
  unfold new_path. destruct (get_entry_by_handle_and_storageid _ _ _) as [[p|]|] eqn:E; cbn [mbind option_bind]; [|done..].
  intros _. right. by eapply found_in_storage.
Qed.

Lemma enter_steps f parent st d (w : world S) h w' ctx : w_ctx w = ctx -> fs_db ctx = Some d -> is_folder d parent ->
  enter mal f parent st d w = Some (h, w') -> ctx_steps 1 ctx (w_ctx w').
Proof.
  intros Ew Ed Hp E. unfold enter in E. destruct (add_entry _ _ _ _ _) as [[o d']|] eqn:Ea; cbn [mbind option_bind] in E; [|done].
  apply add_steps in Ea; [|done]. destruct o as [p|]; [binds E|]; injection E as _ <-; by apply (put_steps 1 d).
Qed.

Lemma as_storage_ctx storage_id call (w w' : world S) ok : as_storage may_uid may_gid storage_id call w = (ok, w') -> w_ctx w' = w_ctx w.
Proof.
  unfold as_storage. destruct (set_storage_giduid _ _ _ _ _). destruct (if _ =? 0 then _ else _). by intros [= _ <-].
Qed.

Lemma receive_folder_steps parent st name d si (w w' : world S) code h si' : fs_db (w_ctx w) = Some d ->
  receive_folder mal may_uid may_gid parent st name d si w = Some (code, h, si', w') -> ctx_steps 1 (w_ctx w) (w_ctx w').
Proof.
  intros Ed E. pose proof (ctx_refl 1 (w_ctx w) ltac:(lia)) as Hr. unfold receive_folder in E.
  destruct (new_path _ _ _ _ _) as [[[st' [path|]]|]|] eqn:En; cbn [mbind option_bind] in E; [|by injection E as <- <- <- <-|by injection E as <- <- <- <-|done].
  apply new_path_folder in En. destruct (as_storage _ _ _ _ _) as [ok w1] eqn:Es. apply as_storage_ctx in Es.
  destruct ok; [|injection E as <- <- <- <-; by rewrite Es].
  destruct (enter _ _ _ _ _ _) as [[h1 w2]|] eqn:Ee; cbn [mbind option_bind] in E; [|done]. injection E as <- <- <- <-. by eapply enter_steps.
Qed.

Lemma receive_file_steps parent st size name d si (w w' : world S) code h si' : fs_db (w_ctx w) = Some d ->
  receive_file mal may_uid may_gid parent st size name d si w = Some (code, h, si', w') -> ctx_steps 1 (w_ctx w) (w_ctx w').
Proof.
  intros Ed E. pose proof (ctx_refl 1 (w_ctx w) ltac:(lia)) as Hr. unfold receive_file in E.
  destruct (new_path _ _ _ _ _) as [[[st' [path|]]|]|] eqn:En; cbn [mbind option_bind] in E; [|by injection E as <- <- <- <-|by injection E as <- <- <- <-|done].
  apply new_path_folder in En. destruct (as_storage _ _ _ _ _) as [ok w1] eqn:Es. apply as_storage_ctx in Es.
  destruct ok; [|injection E as <- <- <- <-; by rewrite Es].
  destruct (enter _ _ _ _ _ _) as [[h1 w2]|] eqn:Ee; cbn [mbind option_bind] in E; [|done].
  destruct h1; injection E as <- <- <- <-; by eapply enter_steps.
Qed.

Lemma send_info_steps storageid parent dataset si (w w' : world S) code params si' :
  mtp_op_SendObjectInfo mal may_uid may_gid storageid parent dataset si w = Some (code, params, si', w') -> ctx_steps 1 (w_ctx w) (w_ctx w').
Proof.
  unfold mtp_op_SendObjectInfo. pose proof (ctx_refl 1 (w_ctx w) ltac:(lia)) as Hr. destruct (fs_db (w_ctx w)) as [d|] eqn:Ed; [|by intros [= _ _ _ <-]].
  destruct (parse_incoming_dataset _ _ _ _ _ _ _ _ _) as [[[[c h] s1] w1]|] eqn:E; cbn [mbind option_bind]; [|done]. intros [= _ _ _ <-].
  unfold parse_incoming_dataset in E. destruct (_ =? NO_STORAGE); [by injection E as <- <- <- <-|]. destruct (negb _); [by injection E as <- <- <- <-|].
  binds E. destruct (_ =? MTP_OPERATION_SEND_OBJECT_INFO); [|by injection E as <- <- <- <-]. binds E.
  match goal with o : option (list Z) |- _ => destruct o as [name|] end; [|by injection E as <- <- <- <-].
  destruct (_ =? MTP_FORMAT_ASSOCIATION); [by eapply receive_folder_steps|by eapply receive_file_steps].
Qed.

Lemma open_entry_steps p partial d (w w' : world S) fd d' : open_entry may_uid may_gid p partial d w = Some (fd, d', w') ->
  steps 0 d d' /\ w_ctx w' = w_ctx w.
Proof.
  unfold open_entry. intros E. binds E. destruct (0 <? _); [injection E as <- <- <-; split; [apply steps_refl|done]|]. binds E.
  destruct o as [path|]; [|injection E as <- <- <-; split; [apply steps_refl|done]].
  destruct (set_storage_giduid _ _ _ _ _). destruct (if _ =? 0 then _ else _). binds E. injection E as <- <- <-.
  split; [by eapply descriptor_steps|done].
Qed.

Lemma receive_object_steps partial packet usb p si d (w : world S) r : fs_db (w_ctx w) = Some d ->
  receive_object may_uid may_gid rd_size cancel partial packet usb p si d w = Some r -> ctx_steps 0 (w_ctx w) (w_ctx (r_world r)).
Proof.
  intros Ed E. unfold receive_object in E. destruct (open_entry _ _ _ _ _ _) as [[[file d1] w1]|] eqn:Eo; cbn [mbind option_bind] in E; [|done].
  apply open_entry_steps in Eo as [S1 Ew]. destruct (file =? -1); [injection E as <-; by apply (put_steps 0 d)|].
  destruct (receive_data _ _ _ _ _ _ _ _) as [[[s size] usb1] tests]. binds E. destruct p0 as [d3 closed].
  match goal with H : upd_entry _ _ _ = _ |- _ => apply (resized_steps mal) in H as S2 end.
  injection E as <-. cbn [r_world]. apply (put_steps 0 d); [by destruct w1|done|]. apply (steps_then mal 0 d d1); [done|done|].
  apply (steps_then mal 0 d1 f); [done|done|]. destruct partial.
  - match goal with H : Some _ = Some _ |- _ => injection H as <- <- end. apply steps_refl.
  - by eapply entry_close_steps.
Qed.

Lemma send_steps operation code rdbuffer packet usb si (w : world S) r :
  mtp_op_SendObject may_uid may_gid rd_size cancel operation code rdbuffer packet usb si w = Some r ->
  ctx_steps 0 (w_ctx w) (w_ctx (r_world r)).
Proof.
  intros E. pose proof (ctx_refl 0 (w_ctx w) ltac:(lia)) as Hr. unfold mtp_op_SendObject in E.
  destruct (fs_db (w_ctx w)) as [d|] eqn:Ed; [|by injection E as <-].
  match type of E with (?x ≫= _) = _ => destruct x as [si1|] end; cbn [mbind option_bind] in E; [|done].
  destruct (_ =? NO_HANDLE); [by injection E as <-|]. destruct (operation =? _).
  - destruct (get_entry_by_handle _ _ _) as [[p|]|]; cbn [mbind option_bind] in E; [|by injection E as <-|done].
    destruct (check_handle_access _ _ _ _ _) as [[x|]|]; cbn [mbind option_bind] in E; [by injection E as <-| |done].
    by eapply receive_object_steps.
  - destruct (operation =? _); [|by injection E as <-]. binds E. by injection E as <-.
Qed.
(** ** Answers and renaming *)

(** An operation that answers leaves this context. *)
Definition answers (w : world S) (r : option (Z * list (list Z) * world S)) : Prop :=
  forall code packets w', r = Some (code, packets, w') -> ctx_steps 0 (w_ctx w) (w_ctx w').

Lemma answers_same code packets w : answers w (Some (code, packets, w)).
Proof. intros c ps w' [= _ _ <-]. by apply ctx_refl. Qed.
Lemma answers_bind {A} (x : option A) f w : (forall v, answers w (f v)) -> answers w (x ≫= f).
Proof. intros H. destruct x; [apply H|done]. Qed.
Lemma answers_session w op : (forall d, fs_db (w_ctx w) = Some d -> answers w (op d)) -> answers w (in_session w op).
Proof. intros H. unfold in_session. destruct (fs_db (w_ctx w)); [by apply H|apply answers_same]. Qed.
Lemma answers_object handle d w op : (forall p, answers w (op p)) -> answers w (on_object handle d w op).
Proof. intros H. apply answers_bind. intros [p|]; [apply H|apply answers_same]. Qed.

Lemma answers_data tx_id code build unsupported wrbuffer w :
  (forall dataset w', build = Some (dataset, w') -> ctx_steps 0 (w_ctx w) (w_ctx w')) ->
  answers w (MtpAnswer.answer wr_size max_packet_size tx_id code build unsupported wrbuffer w).
Proof.
  intros H. apply answers_bind. intros [wr sz]. destruct (sz <? 0); [apply answers_same|].
  destruct build as [[dataset w1]|]; cbn [mbind option_bind]; [|done]. specialize (H dataset w1 eq_refl).
  destruct (dataset _ _) as [[buffer tmp]|]; cbn [mbind option_bind]; [|done]. intros c ps w'.
  destruct (tmp <? 0); [by intros [= _ _ <-]|]. destruct unsupported; [destruct (_ <? _); [|by intros [= _ _ <-]]|];
    (destruct (send_packet _ _ _ _); cbn [mbind option_bind]; [|done]); by intros [= _ _ <-].
Qed.

Lemma stat_steps p d (w : world S) size time d' : stat_object localtime p d w = Some (Some (size, time, d')) -> steps 0 d d'.
Proof.
  unfold stat_object. destruct (full_path w p d) as [[path|]|]; cbn [mbind option_bind]; [|done..]. destruct (fs_stat _ _) as [[b z]|]; [|done].
  destruct (upd_entry _ _ _) eqn:E; cbn [mbind option_bind]; [|done]. intros [= _ _ <-]. by eapply resized_steps.
Qed.

Lemma info_steps room p d (w : world S) x d' : build_objectinfo_dataset localtime room p d w = Some (x, d') -> steps 0 d d'.
Proof.
  unfold build_objectinfo_dataset. destruct (stat_object localtime p d w) as [[[[z t] d1]|]|] eqn:E; cbn [mbind option_bind]; [| |done].
  - destruct (d_pool d1 !! p); cbn [mbind option_bind]; [|done]. intros [= _ <-]. by eapply stat_steps.
  - intros [= _ <-]. apply steps_refl.
Qed.

Lemma list_steps room p handle code d (w : world S) x d' : build_objectproplist_dataset localtime room p handle code d w = Some (x, d') -> steps 0 d d'.
Proof.
  unfold build_objectproplist_dataset. destruct (stat_object localtime p d w) as [[[[z t] d1]|]|] eqn:E; cbn [mbind option_bind]; [| |done].
  - destruct (d_pool d1 !! p); cbn [mbind option_bind]; [|done]. destruct (proplist_fields _ _ _ _ _); cbn [mbind option_bind]; [|done].
    intros [= _ <-]. by eapply stat_steps.
  - intros [= _ <-]. apply steps_refl.
Qed.

Lemma answers_plain tx_id code dataset unsupported wrbuffer w :
  answers w (MtpAnswer.answer wr_size max_packet_size tx_id code (Some (dataset, w)) unsupported wrbuffer w).
Proof. apply answers_data. intros ? ? [= _ <-]. by apply ctx_refl. Qed.

Lemma rename_object_steps packet p d (w w' : world S) code : fs_db (w_ctx w) = Some d ->
  rename_object mal may_uid may_gid packet p d w = Some (code, w') -> ctx_steps 0 (w_ctx w) (w_ctx w').
Proof.
  intros Ed E. pose proof (ctx_refl 0 (w_ctx w) ltac:(lia)) as Hr. unfold rename_object in E. binds E.
  destruct o as [path|]; [|by injection E as <- <-]. binds E. destruct o as [new|]; [|by injection E as <- <-]. binds E.
  destruct o as [path2|]; [|by injection E as <- <-]. destruct (set_storage_giduid _ _ _ _ _) as [access ids].
  destruct (if access =? 0 then _ else _) as [ok s]. destruct ok; [|by injection E as <- <-].
  destruct (rename_entry _ _ _ _) as [d'|] eqn:En; cbn [mbind option_bind] in E; [|done]. injection E as <- <-.
  apply (put_steps 0 d); [done|done|]. by eapply renamed_steps.
Qed.

Lemma set_value_steps operation packet prop (w w' : world S) code prop' :
  mtp_op_SetObjectPropValue mal may_uid may_gid operation packet prop w = Some (code, prop', w') -> ctx_steps 0 (w_ctx w) (w_ctx w').
Proof.
  intros E. pose proof (ctx_refl 0 (w_ctx w) ltac:(lia)) as Hr. unfold mtp_op_SetObjectPropValue in E.
  destruct (fs_db (w_ctx w)) as [d|] eqn:Ed; [|by injection E as <- <- <-]. destruct (operation =? _); [binds E; by injection E as <- <- <-|].
  destruct (operation =? _); [|by injection E as <- <- <-].
  destruct (setObjectPropValue _ _ _ _ _ _ _ _) as [[c w1]|] eqn:Es; cbn [mbind option_bind] in E; [|done]. injection E as <- <- <-.
  unfold setObjectPropValue in Es. destruct (_ =? 0xFFFFFFFF); [by injection Es as <- <-|]. destruct (_ =? _); [|by injection Es as <- <-].
  binds Es. destruct o as [p|]; [|by injection Es as <- <-]. binds Es. destruct o as [x|]; [by injection Es as <- <-|].
  by eapply rename_object_steps.
Qed.

End Responder.
