(* ===== verification/MtpThreads.v ===== *)
(** * The session through every command, message and event

    The host's commands ([process_in_packet]), the messages of the queue and
    the rounds of the file watcher change one context between them.  Whatever
    order they come in, the session stays what it must be, as long as each of
    them returns and handles are left for the objects that the folders list. *)

From Stdlib Require Import Ascii String.
From S2P Require Import Prelude CString MtpUsb MtpData MtpName MtpHash MtpDb MtpTable MtpPath MtpStorage MtpMount MtpSession MtpScan MtpFile MtpHandles MtpOps MtpDisk MtpSend MtpProps MtpDataset MtpAccess MtpAnswer MtpRename MtpKept MtpDispatch MtpCommands MtpConfig MtpDaemon MtpInotify MtpDescriptors MtpGadget MtpMain MtpResponder.

Section Threads.
Context {S : Type} {FS : FileSystem S} (mal : nat -> bool).
Context (localtime : Z -> option tm) (may_uid may_gid : Z -> bool) (addwatch : list Z -> Z).
Context (wrbuffer wrbuffer' rdbuffer2 : list Z) (read_file_buffer : option (list Z)) (cancel : nat -> bool) (fuel : nat).
Context (K : Z).
(** No folder lists more than [K] names. *)
Hypothesis listings : forall (s : S) folder, Z.of_nat (length (default [] (fs_list s folder))) <= K.
Hypothesis one_object : 1 <= K.

(** ** Commands *)
Ltac answer_same :=
  unfold mtp_op_GetDeviceInfos, mtp_op_GetStorageIDs, mtp_op_GetStorageInfo, mtp_op_GetDevicePropDesc, mtp_op_GetDevicePropValue,
    mtp_op_GetObjectPropsSupported, mtp_op_GetObjectPropDesc, mtp_op_GetObjectPropValue, mtp_op_GetObjectReferences;
  repeat match goal with
  | |- answers _ _ (in_session _ _) => apply answers_session; intros ? _
  | |- answers _ _ (on_object _ _ _ _) => apply answers_object; intros ?
  | |- answers _ _ (MtpAnswer.answer _ _ _ _ (Some _) _ _ _) => apply answers_plain
  | |- answers _ _ (Some (_, _, _)) => apply answers_same
  | |- answers _ _ (MtpAnswer.answer _ _ _ _ _ _ _ _) => apply answers_data; intros ? ? Hb; binds Hb; injection Hb as _ <-; by apply ctx_refl
  | |- answers _ _ (_ ≫= _) => apply answers_bind; intros ?
  | |- answers _ _ (let '(_, _) := ?x in _) => destruct x
  | |- answers _ _ (if ?b then _ else _) => destruct b
  | |- answers _ _ (match ?x with None => _ | Some _ => _ end) => destruct x
  end.

Definition ctx_of (h : responder S) : mtp_ctx := w_ctx (h_world h).

(** A reply that uses at most [K] handles. *)
Definition replies (h : responder S) (r : option (reply S)) : Prop := forall a, r = Some a -> uses mal K (ctx_of h) (ctx_of (a_next a)).

Lemma replies_bind {A} (x : option A) f h : (forall v, x = Some v -> replies h (f v)) -> replies h (x ≫= f).
Proof. intros H a. destruct x as [v|]; [exact (H v eq_refl a)|done]. Qed.
Lemma replies_steps n a h : 0 <= n <= K -> ctx_steps mal n (ctx_of h) (ctx_of (a_next a)) -> replies h (Some a).
Proof. intros Hn H ? [= <-]. apply uses_more with n; [lia|]. apply steps_use; [lia|done]. Qed.
Lemma replies_answer h r : answers mal (h_world h) r -> replies h (of_answer h r).
Proof. intros H. apply replies_bind. intros [[code packets] w] E. apply (replies_steps 0); [lia|]. destruct h. by eapply H. Qed.
Lemma replies_code n h r : 0 <= n <= K -> (forall code w, r = Some (code, w) -> ctx_steps mal n (ctx_of h) (w_ctx w)) -> replies h (of_code h r).
Proof. intros Hn H. apply replies_bind. intros [code w] E. apply (replies_steps n); [done|]. destruct h. by eapply H. Qed.
Lemma replies_outcome n h r : 0 <= n <= K -> (forall o, r = Some o -> ctx_steps mal n (ctx_of h) (o_ctx o)) -> replies h (of_outcome h r).
Proof. intros Hn H. apply replies_bind. intros o E. apply (replies_steps n); [done|]. destruct h. by apply H. Qed.

Lemma dispatch_uses usb_cfg show_hidden wr_size rd_size max_packet_size operation code tx_id size h :
  replies h (dispatch localtime mal may_uid may_gid usb_cfg show_hidden addwatch wr_size rd_size max_packet_size
    wrbuffer rdbuffer2 read_file_buffer cancel fuel operation code tx_id size h).
Proof.
  unfold dispatch. cbv zeta. set (w := h_world h).
  repeat match goal with
  | |- replies _ (if ?b then _ else _) => destruct b
  | |- replies _ (mtp_op_OpenSession _ _ _ ≫= _) => fail 1
  | |- replies _ (mtp_op_CloseSession _ ≫= _) => fail 1
  | |- replies _ (mtp_op_SendObject _ _ _ _ _ _ _ _ _ _ _ ≫= _) => fail 1
  | |- replies _ (mtp_op_SetObjectPropValue _ _ _ _ _ _ _ ≫= _) => fail 1
  | |- replies _ (mtp_op_EndEditObject _ _ ≫= _) => fail 1
  | |- replies _ (_ ≫= _) => apply replies_bind; intros ? _
  end.
  all: try by (apply replies_answer; answer_same).
  - apply replies_bind. intros [[c ps] ctx] E a [= <-]. apply uses_more with 0; [lia|]. apply open_uses in E. by destruct h as [[]].
  - apply replies_bind. intros [[c fd] ctx] E a [= <-]. apply uses_more with 0; [lia|]. apply (close_uses mal) in E. by destruct h as [[]].
  - apply (replies_outcome K); [lia|]. intros o. by apply get_handles_steps.
  - apply replies_answer, answers_session. intros d Ed. apply answers_object. intros p. apply answers_data. intros x w'.
    destruct (build_objectinfo_dataset _ _ _ _ _) as [[y d']|] eqn:E; [|done]. intros [= _ <-].
    apply (put_steps mal 0 d); [done|done|]. by eapply info_steps.
  - apply (replies_outcome 0); [lia|]. intros o. apply get_partial_steps.
  - apply (replies_outcome 0); [lia|]. intros o. apply get_partial_steps.
  - apply (replies_outcome 0); [lia|]. intros o. apply get_object_steps.
  - destruct (match h_in h with [] => _ | _ :: _ => _ end) as [dataset usb]. apply replies_bind. intros [[[c ps] si] w'] E.
    apply (replies_steps 1); [lia|]. apply send_info_steps in E. by destruct h.
  - apply replies_bind. intros r E. apply (replies_steps 0); [lia|]. apply (send_steps mal) in E. by destruct h.
  - apply (replies_code K); [lia|]. intros c w'. by apply delete_steps.
  - apply replies_bind. intros [[c prop] w'] E. apply (replies_steps 0); [lia|]. apply set_value_steps in E. by destruct h.
  - apply replies_answer, answers_session. intros d Ed. destruct (_ && _); [apply answers_same|]. apply answers_object. intros p. apply answers_data. intros x w'.
    destruct (build_objectproplist_dataset _ _ _ _ _ _ _) as [[y d']|] eqn:E; [|done]. intros [= _ <-].
    apply (put_steps mal 0 d); [done|done|]. by eapply list_steps.
  - apply (replies_code 0); [lia|]. intros c w' E%begin_edit_same. subst. by apply ctx_refl.
  - apply replies_bind. intros [[c closed] w'] E. apply (replies_steps 0); [lia|]. apply (end_edit_steps mal) in E. by destruct h.
  - apply (replies_code 0); [lia|]. intros c w' E%truncate_same. rewrite E. by apply ctx_refl.
  - apply (replies_steps 0); [lia|]. by apply ctx_refl.
Qed.

Lemma incoming_uses d h ret h' : MtpMain.incoming localtime mal may_uid may_gid addwatch wrbuffer wrbuffer' rdbuffer2 read_file_buffer cancel fuel d h =
  Some (ret, h') -> uses mal K (ctx_of h) (ctx_of h').
Proof.
  assert (uses mal K (ctx_of h) (ctx_of h)) as Hr by (apply steps_use; [lia|apply ctx_refl; lia]).
  unfold incoming, mtp_incoming_packet. destruct (h_in h) as [|data usb]; [by intros [= _ <-]|].
  set (h1 := h {{ h_rd := _; h_in := usb }}). assert (ctx_of h1 = ctx_of h) as E1 by (unfold h1; by destruct h). clearbody h1.
  rewrite <- E1 in Hr |- *. cbv zeta. destruct (strlen data =? 0); [by intros [= _ <-]|]. unfold process_in_packet.
  destruct (peek (h_rd h1) 4 2) as [op|]; cbn [mbind option_bind]; [|done].
  destruct (peek (h_rd h1) 6 2) as [code|]; cbn [mbind option_bind]; [|done].
  destruct (peek (h_rd h1) 8 4) as [tx|]; cbn [mbind option_bind]; [|done].
  destruct (dispatch _ _ _ _ _ _ _ _ _ _ _ _ _ _ _ _ _ _ _ h1) as [a|] eqn:E; cbn [mbind option_bind]; [|done].
  apply dispatch_uses in E. destruct (response _ _ _ a) as [ps|]; cbn [mbind option_bind]; [|done].
  intros [= _ <-]. by destruct (a_next a).
Qed.
(** ** Messages *)

(** No message takes a handle. *)
Definition same_next (ctx ctx' : mtp_ctx) : Prop := next_handle ctx' = next_handle ctx.

Lemma umount_loop_next n id from d rm d' rm' : umount_loop n id from d rm = Some (d', rm') -> d_next d' = d_next d.
Proof.
  revert from d rm. induction n as [|n IH]; intros from d rm; cbn [umount_loop]; [done|]. intros E. binds E.
  destruct o as [p|]; [|by injection E as <- <-]. binds E. unfold upd_entry in *.
  match goal with H : (_ ≫= _) = Some ?d1 |- _ => assert (d_next d1 = d_next d) as <- by (binds H; injection H as <-; by destruct d) end.
  destruct (e_next _) as [q|]; [by eapply IH|by injection E as <- <-].
Qed.

Lemma umount_next i fl ctx ctx' : umount_store i fl ctx = Some ctx' -> same_next ctx ctx'.
Proof.
  unfold umount_store, same_next. destruct (used_storage ctx i) as [[n s]|]; [|by intros [= <-]].
  destruct (fs_db ctx) as [d|] eqn:D; cbn [mbind option_bind].
  - destruct (umount_loop _ _ _ _ _) as [[d' rm]|] eqn:E; cbn [mbind option_bind]; [|done]. apply umount_loop_next in E.
    intros [= <-]. unfold next_handle. rewrite D, <- E. by destruct fl, ctx.
  - intros [= <-]. unfold next_handle. rewrite D. destruct fl, ctx; cbn in *; by rewrite D.
Qed.

Lemma mount_next i fl ctx ctx' : mount_store mal i fl ctx = Some ctx' -> same_next ctx ctx'.
Proof.
  unfold mount_store, same_next. destruct (used_storage ctx i) as [[n s]|]; [|by intros [= <-]]. destruct (negb _); cbn [mbind option_bind].
  - destruct (add_root _ _ _) as [c|] eqn:E; cbn [mbind option_bind]; [|done]. apply add_root_next in E. intros [= <-].
    rewrite <- E. by destruct fl, c.
  - intros [= <-]. by destruct fl, ctx.
Qed.

Lemma push_next ev i ctx : next_handle (push_store ev i ctx) = next_handle ctx.
Proof. unfold next_handle. by destruct (push_store_same ev i ctx) as [_ ->]. Qed.
Lemma flags_next n f ctx : next_handle (set_flags n f ctx) = next_handle ctx.
Proof. by destruct ctx. Qed.

Lemma lock_next ctx i ctx' : lock_store ctx i = Some ctx' -> same_next ctx ctx'.
Proof.
  unfold lock_store, same_next. destruct (used_storage ctx i) as [[n s]|]; [|by intros [= <-]]. destruct (_ && _); [|by intros [= <-]].
  destruct (umount_store _ _ _) as [c|] eqn:E; cbn [mbind option_bind]; [|done]. intros [= <-]. rewrite push_next, flags_next. by eapply umount_next.
Qed.

Lemma unlock_next ctx i ctx' : unlock_store mal ctx i = Some ctx' -> same_next ctx ctx'.
Proof.
  unfold unlock_store, same_next. destruct (used_storage ctx i) as [[n s]|]; [|by intros [= <-]]. destruct (_ && _); [|by intros [= <-]].
  destruct (mount_store _ _ _ _) as [c|] eqn:E; cbn [mbind option_bind]; [|done]. intros [= <-]. rewrite push_next, flags_next. by eapply mount_next.
Qed.

Lemma loop_next (f : mtp_ctx -> Z -> option mtp_ctx) l ctx ctx' :
  (forall c i c', f c i = Some c' -> same_next c c') -> foldM f l ctx = Some ctx' -> same_next ctx ctx'.
Proof.
  intros Hf. unfold same_next in *. revert ctx. induction l as [|i l IH]; intros ctx; cbn [foldM]; [by intros [= <-]|].
  destruct (f ctx i) as [c|] eqn:E; cbn [mbind option_bind]; [|done]. rewrite <- (Hf _ _ _ E). apply IH.
Qed.

Lemma store_command_next m ctx ctx' : store_command mal m ctx = Some ctx' -> same_next ctx ctx'.
Proof.
  unfold store_command. intros E. destruct (mount_command mal m ctx) as [c1|] eqn:E1; cbn [mbind option_bind] in E; [|done].
  destruct (unmount_command m c1) as [c2|] eqn:E2; cbn [mbind option_bind] in E; [|done].
  destruct (lock_command m c2) as [c3|] eqn:E3; cbn [mbind option_bind] in E; [|done]. transitivity (next_handle c3); [|transitivity (next_handle c2); [|transitivity (next_handle c1)]].
  - unfold unlock_command in E. destruct (starts_with _ m); [eapply loop_next; [apply unlock_next|done]|by injection E as <-].
  - unfold lock_command in E3. destruct (starts_with _ m); [eapply loop_next; [apply lock_next|done]|by injection E3 as <-].
  - unfold unmount_command in E2. destruct (starts_with _ m); [|by injection E2 as <-]. cbv zeta in E2. destruct (0 <=? _); [|by injection E2 as <-].
    binds E2. injection E2 as <-. rewrite push_next. by eapply umount_next.
  - unfold mount_command in E1. destruct (starts_with _ m); [|by injection E1 as <-]. cbv zeta in E1. destruct (0 <=? _); [|by injection E1 as <-].
    binds E1. injection E1 as <-. rewrite push_next. by eapply mount_next.
Qed.

Context (real : list Z -> option (list Z)) (copied : bool) (tmpstr : list Z).

Lemma message_uses m ctx ctx' : queue_message mal real copied tmpstr m ctx = Some ctx' -> uses mal 0 ctx ctx'.
Proof.
  intros E k Hk (Hs & Ht & Hb). destruct (queued_ok mal real copied tmpstr m ctx Hs Ht) as (c & E1 & Hs' & Ht').
  rewrite E in E1. injection E1 as <-. split; [done|]. split; [done|]. unfold queue_message in E.
  apply store_command_next in E. rewrite E. clear E. set (c1 := if starts_with (cstr "addstorage:") m then _ else ctx).
  assert (next_handle c1 = next_handle ctx) as E1.
  { unfold c1. destruct (starts_with _ m); [|done]. unfold mtp_add_storage_from_line. destruct (get_param _ _); [|done]. destruct (get_param _ _); [|done].
    destruct (match get_param _ _ with Some _ => _ | None => _ end) as [[fl u] g]. unfold mtp_add_storage. destruct (negb _); [done|].
    destruct (free_storage _); [|done]. destruct (real _), copied; by destruct ctx. }
  destruct (starts_with (cstr "rmstorage:") m); [|lia]. unfold mtp_remove_storage_from_line, mtp_remove_storage.
  destruct (get_param _ _); [|cbn; lia]. destruct (_ <? 0); [cbn; lia|]. cbn [snd]. rewrite <- E1 in Hb. by destruct c1.
Qed.

(** ** The file watcher *)
Lemma created_steps p f d ctx ctx' send : fs_db ctx = Some d -> created mal p f d ctx = Some (ctx', send) -> ctx_steps mal 1 ctx ctx'.
Proof.
  intros Ed E. unfold created in E. destruct (d_pool d !! p) as [e|] eqn:Ep; cbn [mbind option_bind] in E; [|done].
  destruct (search_entry _ _ _ _) as [[q|]|]; cbn [mbind option_bind] in E; [injection E as <- <-; by apply ctx_refl| |done].
  destruct (add_entry _ _ _ _ _) as [[o d']|] eqn:Ea; cbn [mbind option_bind] in E; [|done].
  apply add_steps in Ea; [|right; by exists p, e]. assert (ctx_steps mal 1 ctx (ctx {{ fs_db := Some d' }})) as H.
  { pose proof (table_steps mal 1 d d' ctx (unwatched ctx) Ed Ea) as H. by destruct ctx. }
  destruct o as [q|]; [binds E|]; by injection E as <- <-.
Qed.

Lemma removed_steps p f d ctx ctx' send : fs_db ctx = Some d -> removed p f d ctx = Some (ctx', send) -> ctx_steps mal 1 ctx ctx'.
Proof.
  intros Ed E. unfold removed in E. binds E. destruct o as [q|]; [|injection E as <- <-; by apply ctx_refl]. binds E. injection E as <- <-.
  apply (table_steps mal 1 d); [done|]. apply (steps_more mal 0); [done|]. by eapply deleted_steps.
Qed.

Lemma body_steps k p f d ctx ctx' send : fs_db ctx = Some d -> body_of mal k p f d ctx = Some (ctx', send) -> ctx_steps mal 1 ctx ctx'.
Proof.
  destruct k; cbn [body_of]; [apply created_steps| |apply removed_steps]. intros Ed E. unfold modified in E. binds E.
  destruct o as [q|]; [binds E|]; injection E as <- <-; by apply ctx_refl.
Qed.

Lemma round_uses stat64 realpath allocated k ev ctx entry f ctx' entry' f' :
  MtpInotify.round mal stat64 realpath allocated k ev ctx entry f = Some (ctx', entry', f') -> uses mal 1 ctx ctx'.
Proof.
  unfold MtpInotify.round. intros E. apply steps_use; [done|]. destruct (entry_by_wd _ _ _) as [o|]; cbn [mbind option_bind] in E; [|done].
  destruct (get_file_info _ _ _ _ _ _ _ _) as [[found f1]|]; cbn [mbind option_bind] in E; [|done].
  match type of E with (?x ≫= _) = _ => destruct x as [[c send]|] eqn:Eb end; cbn [mbind option_bind] in E; [|done].
  assert (ctx_steps mal 1 ctx c) as H.
  { destruct o as [p|]; [|injection Eb as <- <-; by apply ctx_refl]. destruct (fs_db ctx) as [d|] eqn:D; [|injection Eb as <- <-; by apply ctx_refl].
    destruct found; [by eapply body_steps|injection Eb as <- <-; by apply ctx_refl]. }
  match type of E with (?x ≫= _) = _ => destruct x as [o'|] end; cbn [mbind option_bind] in E; [|done]. injection E as <- _ _.
  destruct send as [[m h]|]; [|done]. by destruct c.
Qed.
(** ** Every order *)
Context (d : daemon).
Abbreviation incoming := (incoming localtime mal may_uid may_gid addwatch wrbuffer wrbuffer' rdbuffer2 read_file_buffer cancel fuel d).

(** One step of the daemon or of what is around it: the host sends a transfer,
    the responder takes one, a message comes, the watcher makes a round of its
    loop, the session ends with the cable, another program changes the files. *)
Inductive activity : responder S -> responder S -> Prop :=
  | by_transfer data h : activity h (h {{ h_in := h_in h ++ [data] }})
  | by_host h ret h' : incoming h = Some (ret, h') -> activity h h'
  | by_message m h ctx : queue_message mal real copied tmpstr m (ctx_of h) = Some ctx -> activity h (put_ctx ctx h)
  | by_watcher allocated k ev entry f h ctx entry' f' :
      MtpInotify.round mal (fs_stat (w_fs (h_world h))) (fs_realpath (w_fs (h_world h))) allocated k ev (ctx_of h) entry f = Some (ctx, entry', f') ->
      activity h (put_ctx ctx h)
  | by_unplug h ctx : drop_table (ctx_of h) = Some ctx -> activity h (put_ctx ctx h)
  | by_others s h : activity h (with_world ((h_world h) {{ w_fs := s }}) h).

Inductive activities : nat -> responder S -> responder S -> Prop :=
  | no_activity h : activities 0 h h
  | more_activity n h h1 h' : activities n h h1 -> activity h1 h' -> activities (Datatypes.S n) h h'.

Lemma uses_same n ctx : 0 <= n -> uses mal n ctx ctx.
Proof. intros Hn. apply steps_use; [done|by apply ctx_refl]. Qed.

Lemma put_ctx_of ctx (h : responder S) : ctx_of (put_ctx ctx h) = ctx.
Proof. by destruct h as [[]]. Qed.

Lemma drop_uses ctx ctx' : drop_table ctx = Some ctx' -> uses mal 0 ctx ctx'.
Proof.
  intros E. unfold drop_table in E. destruct (fs_db ctx) as [t|] eqn:D; [|injection E as <-; by apply uses_same].
  destruct (deinit_fs_db t) as [[rm fd]|] eqn:F; cbn [mbind option_bind] in E; [|done]. injection E as <-.
  apply (close_uses mal _ _ MTP_RESPONSE_OK fd). unfold mtp_op_CloseSession. by rewrite D, F.
Qed.

Lemma activity_uses h h' : activity h h' -> uses mal K (ctx_of h) (ctx_of h').
Proof.
  intros [data h1|h1 ret h2 E|m h1 ctx E|al k ev en f h1 ctx en' f' E|h1 ctx E|s h1]; rewrite ?put_ctx_of.
  - destruct h1. apply uses_same. lia.
  - by eapply incoming_uses.
  - apply uses_more with 0; [lia|]. by eapply message_uses.
  - apply uses_more with 1; [lia|]. by eapply round_uses.
  - apply uses_more with 0; [lia|]. by apply drop_uses.
  - destruct h1 as [[]]. apply uses_same. lia.
Qed.

Lemma activities_use n h h' : activities n h h' -> uses mal (K * Z.of_nat n) (ctx_of h) (ctx_of h').
Proof.
  induction 1 as [h|n h h1 h' _ IH A]; [apply uses_same; lia|]. intros m Hm B. apply (activity_uses _ _ A); [done|].
  apply IH; [lia|]. by replace (K * Z.of_nat n + (K + m)) with (K * Z.of_nat (Datatypes.S n) + m) by lia.
Qed.

(** The responder's buffers and strings are those of a daemon that answers. *)
Definition answers_ready : Prop :=
  strlen wrbuffer = usb_wr_buffer_max_size d /\ strlen wrbuffer' = usb_wr_buffer_max_size d /\
  HEADER_SIZE + 20 < usb_wr_buffer_max_size d /\ usb_ok (strings_of (usb_cfg d)).

(** The next transfer is a command that touches no file, about an object that
    can be told about if it is about one. *)
Definition plain_next (h : responder S) : Prop :=
  exists data usb code, h_in h = data :: usb /\
    let rd := data ++ drop (length data) (h_rd h) in
    32 <= strlen rd /\ peek rd 6 2 = Some code /\ plain_command code = true /\
    (describes code = true -> exists id, param 0 rd = Some id /\ asked_ok (h_world h) id).

Lemma plain_incoming h : answers_ready -> plain_next h -> session_ok mal (ctx_of h) -> store_ok (ctx_of h) ->
  exists h', incoming h = Some (0, h').
Proof.
  intros (W & W' & Wr & U) (data & usb & code & Ein & Hrd & Ec & Hp & Ha) Hs Ht. unfold MtpMain.incoming, mtp_incoming_packet. rewrite Ein.
  set (h1 := h {{ h_rd := _; h_in := usb }}). assert (h_rd h1 = data ++ drop (length data) (h_rd h) /\ h_world h1 = h_world h) as [E1 E2]
    by (unfold h1; by destruct h). clearbody h1. cbv zeta in *. rewrite <- E1 in Hrd, Ec, Ha. rewrite <- E2 in Ha. unfold ctx_of in *. rewrite <- E2 in Hs, Ht.
  destruct (strlen data =? 0); [by eexists|].
  destruct (peek_total (h_rd h1) 4 2) as [op Eo]; [lia|lia|]. destruct (peek_total (h_rd h1) 8 4) as [tx Ex]; [lia|lia|].
  destruct (process_plain localtime mal may_uid may_gid (strings_of (usb_cfg d)) (negb (show_hidden_files (usb_cfg d) =? 0)) addwatch
    (usb_wr_buffer_max_size d) (usb_rd_buffer_max_size d) (usb_max_packet_size (usb_cfg d)) wrbuffer wrbuffer' rdbuffer2 read_file_buffer cancel fuel
    W W' Wr U (strlen data) h1 op code tx Hs Ht Hrd Ha Eo Ec Ex Hp) as (h' & _ & _ & _ & -> & _).
  by exists h'.
Qed.

(** C8: the steps that return leave the session what it must be.  In whatever
    order the host sends its commands, with any bytes in their transfers,
    messages come, the watcher makes its rounds, the cable is pulled and other
    programs change the files, and whatever allocations and system calls fail:
    as long as every command and every round returns, the table stays one that
    the table's operations reach, the storages keep the identifiers of their
    slots, and each step takes at most the handles of one folder's files.  From
    every such state the next message and the next end of the session are
    carried out, and so is every command that touches no file and asks about
    nothing that cannot be told about.  A command or a round that ends the
    daemon is no step: one that reads past a buffer, that meets an object whose
    path crashes [build_full_path] (its folder and the one above were removed by
    another program), that deletes a tree deeper than the fuel, or a round on a
    freed entry. *)
Theorem session_survives n h h' : activities n h h' ->
  session_ok mal (ctx_of h) -> store_ok (ctx_of h) -> next_handle (ctx_of h) + K * Z.of_nat n < 2 ^ 32 ->
  session_ok mal (ctx_of h') /\ store_ok (ctx_of h') /\ next_handle (ctx_of h') <= next_handle (ctx_of h) + K * Z.of_nat n /\
  (forall m, is_Some (queue_message mal real copied tmpstr m (ctx_of h'))) /\ is_Some (drop_table (ctx_of h')) /\
  (answers_ready -> plain_next h' -> exists h'', incoming h' = Some (0, h'')).
Proof.
  intros A Hs Ht Hb. set (m := 2 ^ 32 - 1 - next_handle (ctx_of h) - K * Z.of_nat n).
  destruct (activities_use n h h' A m) as (Hs' & Ht' & Hb'); [lia|split_and!; [done|done|lia]|].
  split; [done|]. split; [done|]. split; [lia|]. split; [|split].
  - intros msg. destruct (queued_ok mal real copied tmpstr msg _ Hs' Ht') as (c & -> & _). by eexists.
  - unfold drop_table, session_ok in *. destruct (fs_db (ctx_of h')) as [t|]; [|by eexists].
    destruct (reachable_ok mal t Hs') as (l & H & _). destruct (deinit_total t l H) as [[rm fd] ->]. by eexists.
  - intros Ha Hp. by apply plain_incoming.
Qed.

(** The thread of the third mode is such steps. *)
Lemma activities_front n h h1 h' : activity h h1 -> activities n h1 h' -> activities (Datatypes.S n) h h'.
Proof. intros A. induction 1 as [h1|n h1 h2 h3 _ IH A2]; [by eapply more_activity; [apply no_activity|]|eapply more_activity; [by apply IH|done]]. Qed.

Lemma io_thread_activities turns s h ended s' h' :
  io_thread localtime mal may_uid may_gid addwatch wrbuffer wrbuffer' rdbuffer2 read_file_buffer cancel fuel d turns s h = Some (ended, s', h') ->
  g_ctx s = ctx_of h -> exists n, (n <= turns)%nat /\ activities n h h' /\ g_ctx s' = ctx_of h'.
Proof.
  revert s h. induction turns as [|turns IH]; intros s h; cbn [io_thread]; (destruct (negb _); [intros [= _ <- <-] E; exists O; split_and!; [lia|constructor|done]|]).
  - intros [= _ <- <-] E. exists O. split_and!; [lia|constructor|done].
  - intros E Eg. assert (put_ctx (g_ctx s) h = h) as Eh by (rewrite Eg; by destruct h as [[]]). rewrite Eh in E.
    destruct (incoming h) as [[ret h1]|] eqn:Ei; cbn [mbind option_bind] in E; [|done].
    apply IH in E; [|destruct (ret <? 0); by destruct s]. destruct E as (n & Hn & A & E). exists (Datatypes.S n).
    split_and!; [lia| |done]. eapply activities_front; [by eapply by_host|done].
Qed.
End Threads.

(** A host that opens a session and lists the storage, on a disk whose folders
    show four files at most; then the storages are locked, and the host asks for
    the storage's information. *)
Definition small_fs : FileSystem disk :=
  let '(Build_FileSystem _ f1 f2 f3 f4 f5 f6 fs_list f8 f9 f10 f11 f12 f13 f14 f15 f16 f17) := disk_fs in
  Build_FileSystem _ f1 f2 f3 f4 f5 f6 (fun s folder => option_map (take 4) (fs_list s folder)) f8 f9 f10 f11 f12 f13 f14 f15 f16 f17.

Definition command_packet (code : Z) (params : list Z) : list Z :=
  le_bytes 4 (12 + 4 * strlen params) ++ le_bytes 2 MTP_CONTAINER_TYPE_COMMAND ++ le_bytes 2 code ++ le_bytes 4 7 ++ concat (map mem32 params).
Definition demo_responder_512 : daemon := (responder_context 0 0) {{ usb_cfg := default_cfg; usb_wr_buffer_max_size := 512 }}.
Definition demo_start : responder disk :=
  mkresp (mkworld (demo_ctx None) (mkids 0 0) demo_disk) (mkinfo 0 0 0) (0, 0) (replicate 64 0)
    [command_packet MTP_OPERATION_OPEN_SESSION [1]; command_packet MTP_OPERATION_GET_OBJECT_HANDLES [0xFFFF0001; 0; 0xFFFFFFFF];
     command_packet MTP_OPERATION_GET_STORAGE_INFO [0xFFFF0001]] [].
Abbreviation demo_incoming :=
  (incoming (FS := small_fs) (fun _ => None) always (fun _ => true) (fun _ => true) (fun _ => -1) (replicate 512 0) (replicate 512 0) (replicate 64 0) None
    (fun _ => false) 8 demo_responder_512).
Abbreviation demo_activity :=
  (activity (FS := small_fs) always (fun _ => None) (fun _ => true) (fun _ => true) (fun _ => -1) (replicate 512 0) (replicate 512 0) (replicate 64 0) None
    (fun _ => false) 8 Some true [] demo_responder_512).
Definition demo_turn (h : responder disk) : responder disk := default h (snd <$> demo_incoming h).
Definition demo_lock (h : responder disk) : responder disk :=
  put_ctx (default (ctx_of h) (queue_message always Some true [] (cstr "lock") (ctx_of h))) h.

Lemma demo_turn_step h : (match demo_incoming h with Some _ => true | None => false end) = true -> demo_activity h (demo_turn h).
Proof. unfold demo_turn. destruct (demo_incoming h) as [[ret h']|] eqn:E; [|done]. intros _. by apply (by_host _ _ _ _ _ _ _ _ _ _ _ _ _ _ _ _ ret). Qed.

Abbreviation demo_end := (demo_lock (demo_turn (demo_turn demo_start))).

Lemma small_listings (s : disk) folder : Z.of_nat (length (default [] (fs_list (FileSystem := small_fs) s folder))) <= 4.
Proof.
  change (fs_list (FileSystem := small_fs) s folder) with (option_map (take 4) (disk_list s folder)).
  destruct (disk_list s folder) as [l|]; [|cbn; lia]. change (default [] (option_map (take 4) (Some l))) with (take 4 l). rewrite length_take. lia.
Qed.

Lemma demo_ready : answers_ready (replicate 512 0) (replicate 512 0) demo_responder_512.
Proof.
  split_and!; [reflexivity|reflexivity|reflexivity|].
  repeat apply Forall_cons_2; try apply Forall_nil_2; (apply is_text_ascii; [reflexivity|vm_compute; discriminate]).
Qed.

Lemma demo_plain : plain_next (FS := small_fs) demo_end.
Proof.
  eexists _, [], MTP_OPERATION_GET_STORAGE_INFO. split; [vm_compute; reflexivity|]. cbv zeta.
  split; [vm_compute; discriminate|]. split; [vm_compute; reflexivity|]. split; [reflexivity|]. intros _.
  exists 0xFFFF0001. split; [vm_compute; reflexivity|]. split.
  - intros desc E. vm_compute in E. injection E as <-. apply is_text_ascii; [reflexivity|vm_compute; discriminate].
  - intros t p e Et Eh. vm_compute in Et. injection Et as <-. vm_compute in Eh. discriminate Eh.
Qed.

Lemma session_survives_witness : next_handle (ctx_of demo_end) = 3 /\ session_ok always (ctx_of demo_end) /\
  (exists ctx, queue_message always Some true [] (cstr "unlock") (ctx_of demo_end) = Some ctx) /\
  exists h'', demo_incoming demo_end = Some (0, h'').
Proof.
  destruct (session_survives (FS := small_fs) always (fun _ => None) (fun _ => true) (fun _ => true) (fun _ => -1) (replicate 512 0) (replicate 512 0)
    (replicate 64 0) None (fun _ => false) 8 4 small_listings ltac:(lia) Some true [] demo_responder_512
    3%nat demo_start demo_end) as (Hs & _ & _ & Hm & _ & Hc).
  - eapply more_activity; [eapply more_activity; [eapply more_activity; [apply no_activity|]|]|].
    + apply demo_turn_step. vm_compute. reflexivity.
    + apply demo_turn_step. vm_compute. reflexivity.
    + unfold demo_lock. destruct (queue_message always Some true [] (cstr "lock") (ctx_of (demo_turn (demo_turn demo_start)))) as [ctx|] eqn:E.
      * apply by_message with (cstr "lock"). exact E.
      * vm_compute in E. discriminate E.
  - exact I.
  - apply demo_store_ok.
  - vm_compute. reflexivity.
  - split; [vm_compute; reflexivity|]. split; [exact Hs|]. split; [destruct (Hm (cstr "unlock")) as [ctx E]; exists ctx; exact E|].
    exact (Hc demo_ready demo_plain).
Defined.
