(* ===== verification/MtpLog.v ===== *)
(** * The daemon's log

    [logs_out.c]: the time stamp of a line, and the dump of a buffer, which the
    debugging build has for whoever wants it (no call is left in the sources).
    The dump's line is a [char] array written at computed places. *)

From Stdlib Require Import Ascii String.
From S2P Require Import Prelude CString.

(** ** [timestamp] *)

(** [%.2d]. *)
Definition two_digits (n : Z) : list Z :=
  if n <? 0 then 45 :: (if - n <? 10 then 48 :: dec_string (- n) else dec_string (- n))
  else if n <? 10 then 48 :: dec_string n else dec_string n.

(** [local] is what [localtime] gives: hours, minutes, seconds. *)
Definition timestamp (local : option (Z * Z * Z)) (maxsize : nat) : list Z :=
  take (maxsize - 1)
    match local with
    | Some (h, m, s) => two_digits h ++ cstr ":" ++ two_digits m ++ cstr ":" ++ two_digits s
    | None => cstr "??:??:??"
    end.

(** ** [printbuf] *)
Definition specialchar : list Z := cstr "&#{}()|_@=$!?;+*-".

Definition is_printable_char (c : Z) : bool :=
  ((65 <=? c) && (c <=? 90)) || ((97 <=? c) && (c <=? 122)) || ((48 <=? c) && (c <=? 57)) ||
  has_char c specialchar.

Definition PRINTBUF_HEXPERLINE : nat := 16.
Definition PRINTBUF_MAXLINE_SIZE : nat := 3 * PRINTBUF_HEXPERLINE + 1 + PRINTBUF_HEXPERLINE + 2.

(** [memset] and the terminator. *)
Definition blank_line : list Z := replicate (PRINTBUF_MAXLINE_SIZE - 1) 32 ++ [0].

(** A store into the array; [None] is a store outside. *)
Definition put_char (i : nat) (c : Z) (str : list Z) : option (list Z) :=
  if (i <? length str)%nat then Some (<[i := c]> str) else None.

(** [%02X] of a byte. *)
Definition hex_digit_upper (d : Z) : Z := if d <? 10 then 48 + d else 55 + d.

(** One byte at the column [j]. *)
Definition print_byte (j : nat) (b : Z) (str : list Z) : option (list Z) :=
  str ← put_char (j * 3) (hex_digit_upper (b / 16)) str;
  str ← put_char (j * 3 + 1) (hex_digit_upper (b mod 16)) str;
  put_char (3 * PRINTBUF_HEXPERLINE + 1 + j) (if is_printable_char b then b else 46) str.

(** The loop: the lines printed so far, the line being filled and its column;
    [i] is the index of the next byte. *)
Fixpoint printbuf_loop (buf : list Z) (i : nat) (lines : list (list Z)) (str : list Z) (j : nat) : option (list (list Z)) :=
  match buf with
  | [] => Some (lines ++ [str])
  | b :: buf =>
      let '(lines, str, j) := if (i mod PRINTBUF_HEXPERLINE =? 0)%nat && negb (i =? 0)%nat
                              then (lines ++ [str], blank_line, O) else (lines, str, j) in
      str ← print_byte j b str;
      printbuf_loop buf (S i) lines str (S j)
  end.

Definition printbuf (buf : list Z) : option (list (list Z)) := printbuf_loop buf 0 [] blank_line 0.

(** ** What a dump shows *)

Definition hex_columns (c : list Z) : list Z :=
  concat (map (fun b => [hex_digit_upper (b / 16); hex_digit_upper (b mod 16); 32]) c).

(** The line for at most sixteen bytes. *)
Definition dump_line (c : list Z) : list Z :=
  hex_columns c ++
  replicate (3 * (16 - length c)) 32 ++ [32] ++
  map (fun b => if is_printable_char b then b else 46) c ++ replicate (16 - length c) 32 ++ [32; 0].

(** Reading a line back. *)
Definition hex_digit_value (c : Z) : Z := if c <=? 57 then c - 48 else c - 55.
Fixpoint read_line (n : nat) (line : list Z) : list Z :=
  match n, line with
  | S n, h :: l :: _ :: line => if h =? 32 then [] else 16 * hex_digit_value h + hex_digit_value l :: read_line n line
  | _, _ => []
  end.

Lemma blank_is_empty : blank_line = dump_line [].
Proof. reflexivity. Qed.

Lemma hex_columns_length c : length (hex_columns c) = (3 * length c)%nat.
Proof. unfold hex_columns. induction c as [|a c IH]; [done|]. cbn [map concat]. rewrite length_app, IH. cbn. lia. Qed.

Lemma put_char_app l1 c d l2 : put_char (length l1) c (l1 ++ d :: l2) = Some (l1 ++ c :: l2).
Proof.
  unfold put_char. rewrite (proj2 (Nat.ltb_lt _ _)) by (rewrite length_app; cbn; lia).
  by rewrite insert_app_r_alt, Nat.sub_diag by lia.
Qed.

(** The array filled up to a column gets one more byte. *)
Lemma print_byte_line c b :
  (length c < 16)%nat -> print_byte (length c) b (dump_line c) = Some (dump_line (c ++ [b])).
Proof.
  intros H. unfold print_byte, dump_line, hex_columns. rewrite length_app, !map_app, concat_app. cbn [length map concat app].
  set (hex := concat (map _ c)). set (shown := map (fun b => if is_printable_char b then b else 46) c).
  assert (length hex = length c * 3)%nat as Lh by (pose proof (hex_columns_length c); unfold hex, hex_columns in *; lia).
  assert (length shown = length c) as Ls by (unfold shown; by rewrite length_map).
  assert (exists k, 16 - length c = S k /\ 16 - (length c + 1) = k)%nat as (k & E1 & E2) by (exists (15 - length c)%nat; lia). rewrite E1, E2.
  replace (3 * S k)%nat with (S (S (S (3 * k)))) by lia. cbn [replicate app].
  rewrite <- Lh, put_char_app. cbn [mbind option_bind].
  set (rest := 32 :: replicate (3 * k) 32 ++ _).
  replace (length hex + 1)%nat with (length (hex ++ [hex_digit_upper (b / 16)])) by (rewrite length_app; cbn; lia).
  rewrite (app_assoc hex [hex_digit_upper (b / 16)] (32 :: rest) : hex ++ hex_digit_upper (b / 16) :: 32 :: rest = _).
  rewrite put_char_app. cbn [mbind option_bind]. unfold rest.
  rewrite <- !app_assoc. cbn [app].
  set (front := hex ++ hex_digit_upper (b / 16) :: hex_digit_upper (b mod 16) :: 32 :: replicate (3 * k) 32 ++ [32] ++ shown).
  assert (forall x, hex ++ hex_digit_upper (b / 16) :: hex_digit_upper (b mod 16) :: 32 :: replicate (3 * k) 32 ++ 32 :: shown ++ x = front ++ x) as F.
  { intros x. unfold front. rewrite <- !app_assoc. cbn [app]. do 4 f_equal. by rewrite <- !app_assoc. }
  rewrite F.
  replace (3 * PRINTBUF_HEXPERLINE + 1 + length c)%nat with (length front).
  2:{ unfold front, PRINTBUF_HEXPERLINE. rewrite length_app. cbn [length]. rewrite !length_app, length_replicate. cbn [length]. rewrite Lh, Ls. lia. }
  rewrite put_char_app. f_equal. rewrite <- F. cbn [app]. by rewrite <- ?app_assoc.
Qed.

(** The lines of a dump are those of chunks of at most sixteen bytes. *)
Lemma printbuf_loop_lines buf i lines c :
  (length c <= 16)%nat -> (i = 0%nat /\ c = [] \/ (0 < length c)%nat /\ exists k, i = (16 * k + length c)%nat) ->
  exists cs, printbuf_loop buf i lines (dump_line c) (length c) = Some (lines ++ map dump_line cs) /\
    concat cs = c ++ buf /\ Forall (fun c => (length c <= 16)%nat) cs.
Proof.
  revert i lines c. induction buf as [|b buf IH]; intros i lines c Hc Hi; cbn [printbuf_loop].
  { exists [c]. cbn. split_and!; [done|done|by apply Forall_singleton]. }
  destruct ((i mod PRINTBUF_HEXPERLINE =? 0)%nat && negb (i =? 0)%nat) eqn:E.
  - apply andb_true_iff in E as [E1 E2]. apply Nat.eqb_eq in E1. apply negb_true_iff, Nat.eqb_neq in E2.
    destruct Hi as [[? _]|[Hp [k ->]]]; [done|].
    assert (length c = 16)%nat as L.
    { unfold PRINTBUF_HEXPERLINE in E1. rewrite Nat.add_comm, Nat.mul_comm, Nat.Div0.mod_add in E1.
      destruct (decide (length c = 16)%nat); [done|]. rewrite Nat.mod_small in E1 by lia. lia. }
    pose proof (print_byte_line [] b ltac:(cbn; lia)) as P. cbn [length app] in P. rewrite blank_is_empty, P. cbn [mbind option_bind app].
    destruct (IH (S (16 * k + length c))%nat (lines ++ [dump_line c]) [b]) as (cs & E & Ec & Fc); [cbn; lia| |].
    { right. split; [cbn; lia|]. exists (S k). cbn [length]. lia. }
    exists (c :: cs). cbn [length map concat] in *. rewrite E, <- app_assoc. split_and!; [done|by rewrite Ec|by constructor].
  - assert (length c < 16)%nat as L.
    { destruct Hi as [[-> ->]|[Hp [k ->]]]; [cbn; lia|]. destruct (decide (length c = 16)%nat) as [L|]; [|lia].
      rewrite L in E. unfold PRINTBUF_HEXPERLINE in E. replace (16 * k + 16)%nat with ((S k) * 16)%nat in E by lia.
      rewrite Nat.Div0.mod_mul in E. cbn in E. done. }
    rewrite print_byte_line by done. cbn [mbind option_bind].
    destruct (IH (S i) lines (c ++ [b])) as (cs & E' & Ec & Fc).
    { rewrite length_app. cbn. lia. }
    { right. rewrite length_app. cbn. split; [lia|]. destruct Hi as [[-> ->]|[_ [k ->]]]; [exists 0%nat|exists k]; cbn; lia. }
    exists cs. rewrite length_app in E'. cbn in E'. rewrite Nat.add_1_r in E'. rewrite E', Ec, <- app_assoc. by split_and!.
Qed.

Lemma hex_digit_back d : 0 <= d < 16 -> hex_digit_value (hex_digit_upper d) = d /\ hex_digit_upper d <> 32.
Proof. intros H. unfold hex_digit_upper, hex_digit_value. destruct (Z.ltb_spec d 10); bdestr; lia. Qed.

Lemma read_dump_line c :
  (length c <= 16)%nat -> Forall is_u8 c -> read_line 16 (dump_line c) = c.
Proof.
  intros Hl Hb. unfold dump_line, hex_columns. generalize ([32] ++ map (fun b => if is_printable_char b then b else 46) c ++
    replicate (16 - length c) 32 ++ [32; 0]). intros tail.
  assert (forall n, (length c <= n)%nat -> read_line n (concat (map (fun b => [hex_digit_upper (b / 16); hex_digit_upper (b mod 16); 32]) c) ++
    replicate (3 * (n - length c)) 32 ++ tail) = c) as G; [|by apply G].
  clear Hl. induction Hb as [|b c Hb Hc IH]; intros n Hn.
  - cbn [map concat app length]. rewrite Nat.sub_0_r. destruct n as [|n]; [done|].
    replace (3 * S n)%nat with (S (S (S (3 * n)))) by lia. reflexivity.
  - destruct n as [|n]; [cbn in Hn; lia|]. cbn [map concat app length read_line Nat.sub] in *. unfold is_u8 in Hb.
    destruct (hex_digit_back (b / 16)) as [E1 N1]; [split; [apply Z.div_pos; lia|apply Z.div_lt_upper_bound; lia]|].
    destruct (hex_digit_back (b mod 16)) as [E2 _]; [apply Z.mod_pos_bound; lia|].
    rewrite (proj2 (Z.eqb_neq _ 32) N1), E1, E2. rewrite <- Z.div_mod by lia. f_equal. apply IH. lia.
Qed.

(** The dump of a buffer stays inside its line whatever the length and the bytes,
    ends every line with a NUL, and shows every byte, in order. *)
Theorem dump_shows_buffer buf :
  Forall is_u8 buf ->
  exists lines, printbuf buf = Some lines /\ concat (map (read_line 16) lines) = buf /\
    Forall (fun line => length line = PRINTBUF_MAXLINE_SIZE /\ List.last line 1 = 0) lines.
Proof.
  intros Hb. destruct (printbuf_loop_lines buf 0 [] []) as (cs & E & Ec & Fc); [cbn; lia|by left|].
  exists (map dump_line cs). split; [exact E|]. cbn [app] in Ec. split.
  - rewrite map_map. revert Hb. rewrite <- Ec. clear E Ec. induction Fc as [|c cs Hc Hcs IH]; [done|].
    cbn [concat map]. intros [H1 H2]%Forall_app. by rewrite read_dump_line, IH.
  - apply Forall_map. eapply Forall_impl; [exact Fc|]. intros c Hc. cbn beta in Hc. unfold dump_line. split.
    + rewrite !length_app, !length_replicate, length_map. cbn [length].
      rewrite hex_columns_length. unfold PRINTBUF_MAXLINE_SIZE, PRINTBUF_HEXPERLINE. lia.
    + rewrite !app_assoc. change [32; 0] with (([32] : list Z) ++ [0]). by rewrite !app_assoc, last_last.
Qed.

Lemma dump_shows_buffer_witness :
  exists lines, printbuf [0; 65; 255] = Some lines /\ concat (map (read_line 16) lines) = [0; 65; 255].
Proof.
  destruct (dump_shows_buffer [0; 65; 255]) as (lines & E & R & _);
    [repeat (apply Forall_cons_2; [split; vm_compute; [discriminate|reflexivity]|]); apply Forall_nil_2|].
  exists lines. by split.
Defined.

(** The time stamp of a line is eight characters and fits its 32 bytes. *)
Lemma timestamp_length h m s :
  0 <= h < 100 -> 0 <= m < 100 -> 0 <= s < 100 -> length (timestamp (Some (h, m, s)) 32) = 8%nat.
Proof.
  intros Hh Hm Hs.
  assert (forall n, 0 <= n < 100 -> length (two_digits n) = 2%nat) as G.
  { intros n Hn. apply Nat.eqb_eq. apply (forallb_In (fun n => (length (two_digits n) =? 2)%nat) (seqZ 0 100)); [vm_compute; reflexivity|].
    apply elem_of_seqZ. lia. }
  unfold timestamp. rewrite length_take, !length_app, !G by done. cbn. lia.
Qed.
