(* ===== verification/MtpCancel.v ===== *)
(** * Cancelling a transfer

    The requests of endpoint 0 that cancel a transfer and ask for its state,
    and what they make of the writes of the transfer thread. *)

From Stdlib Require Import Ascii String.
From S2P Require Import Prelude CString MtpData MtpUsb MtpHash MtpDb MtpTable MtpStorage MtpMount MtpDataset MtpConfig MtpDescriptors MtpGadget.

Definition cancel_request : usb_ctrlrequest := mkrequest 0x21 MTP_REQ_CANCEL 0 0 6.
Definition status_request : usb_ctrlrequest := mkrequest 0xA1 MTP_REQ_GET_DEVICE_STATUS 0 0 4.

(** The bytes written to a descriptor, in their order. *)
Definition written_to (fd : Z) (l : list action) : list (list Z) :=
  omap (fun a => match a with Written fd' bytes => if fd' =? fd then Some bytes else None | _ => None end) l.

Section Cancel.
Context (openable : nat -> list Z -> bool) (write_result : nat -> Z -> list Z -> Z) (thread_result : nat -> Z).
Abbreviation request := (handle_setup_request openable write_result thread_result).
Abbreviation write_usb := (write_usb write_result).

(** While a cancellation is pending nothing is written, on any channel. *)
Lemma cancelled_writes_nothing channel bytes s : cancel_req s <> 0 -> write_usb channel bytes s = (-1, s).
Proof.
  intros H. unfold MtpGadget.write_usb. destruct (channel <? EP_NB_OF_DESCRIPTORS)%nat; [|done].
  rewrite (proj2 (Z.eqb_neq (cancel_req s) 0)) by done. by rewrite andb_false_r.
Qed.

Lemma cancel_answered s : request cancel_request s = Some (cancel_transfer s).
Proof. reflexivity. Qed.

(** The answer to a request for the state; [ret] is what its write returns. *)
Definition status_code (s : gstate) : Z := if cancel_req s =? 2 then MTP_RESPONSE_DEVICE_BUSY else MTP_RESPONSE_OK.
Definition next_request (s : gstate) : Z :=
  if cancel_req s =? 2 then 1 else if transferring_file_data s then cancel_req s else 0.

Lemma status_answered s : exists s', request status_request s = Some s' /\ cancel_req s' = next_request s /\
  transferring_file_data s' = transferring_file_data s /\ gadget s' = gadget s /\
  exists rest, o_trace (sys s') = o_trace (sys s) ++ Written (usb_device (gadget s)) (mtp_device_status (status_code s)) :: rest /\
    (rest = [] \/ rest = [Stalled]).
Proof.
  unfold handle_setup_request. change (bRequest status_request =? USB_REQ_GET_DESCRIPTOR) with false.
  change (bRequest status_request =? USB_REQ_SET_CONFIGURATION) with false. change (bRequest status_request =? USB_REQ_GET_INTERFACE) with false.
  change (bRequest status_request =? USB_REQ_SET_INTERFACE) with false. change (bRequest status_request =? MTP_REQ_CANCEL) with false.
  change (bRequest status_request =? MTP_REQ_RESET) with false. change (bRequest status_request =? MTP_REQ_GET_DEVICE_STATUS) with true. cbv iota.
  unfold status_code, next_request.
  assert (forall code s1, gadget s1 = gadget s -> o_trace (sys s1) = o_trace (sys s) ->
    transferring_file_data s1 = transferring_file_data s -> let s' := answer write_result (mtp_device_status code) s1 in
    cancel_req s' = cancel_req s1 /\ transferring_file_data s' = transferring_file_data s /\ gadget s' = gadget s /\
    exists rest, o_trace (sys s') = o_trace (sys s) ++ Written (usb_device (gadget s)) (mtp_device_status code) :: rest /\ (rest = [] \/ rest = [Stalled])) as G.
  { intros code s1 E1 E2 E3. cbv zeta. unfold answer, sys_write, stall, on_sys, log. cbv zeta. rewrite E1.
    destruct s1 as [g1 ? ? ? ? ? ? [fds1 next1 live1 time1 trace1]]. cbn in *. subst g1 trace1.
    destruct (_ <? 0); cbn; split_and!; try done; [exists [Stalled]|exists []]; rewrite <- ?app_assoc; auto. }
  destruct (cancel_req s =? 2); cbn [negb].
  - eexists. split; [done|]. destruct (G MTP_RESPONSE_DEVICE_BUSY (s {{ cancel_req := 1 }})) as (E & H); [by destruct s..|].
    split; [rewrite E; by destruct s|done].
  - eexists. split; [done|]. set (s1 := if transferring_file_data s then _ else _).
    destruct (G MTP_RESPONSE_OK s1) as (E & H); [by unfold s1; destruct s as [? ? []]..|].
    split; [rewrite E; unfold s1; by destruct s as [? ? []]|done].
Qed.

(** The answers to a run of requests for the state. *)
Definition statuses (n : nat) (s : gstate) : option gstate := foldM (fun s r => request r s) (replicate n status_request) s.

Lemma statuses_pending n s : cancel_req s = 1 -> transferring_file_data s = true -> exists s', statuses n s = Some s' /\ cancel_req s' = 1 /\
  transferring_file_data s' = true /\ gadget s' = gadget s /\
  written_to (usb_device (gadget s)) (o_trace (sys s')) =
    written_to (usb_device (gadget s)) (o_trace (sys s)) ++ replicate n (mtp_device_status MTP_RESPONSE_OK).
Proof.
  unfold statuses. revert s. induction n as [|n IH]; intros s Hc Ht; cbn [replicate foldM].
  { exists s. by rewrite app_nil_r. }
  destruct (status_answered s) as (s1 & -> & E1 & E2 & E3 & rest & E4 & Hr). unfold next_request, status_code in *. rewrite Hc in *. rewrite Ht in *.
  destruct (IH s1 E1 E2) as (s' & E5 & ? & ? & E6 & E7). exists s'. split; [done|]. split_and!; [done|done|congruence|].
  rewrite E3, E4 in E7. rewrite E7. unfold written_to. rewrite omap_app. cbn [omap list_omap]. rewrite Z.eqb_refl, <- app_assoc. f_equal. cbn [app]. f_equal.
  by destruct Hr as [-> | ->].
Qed.

(** C38: a host that cancels is told so until the transfer has ended.  With a
    transfer under way the request signals the transfer thread, and from then on
    nothing is written to any endpoint; the host's first question for the state
    is answered busy, once, and however often it asks again, it is told that the
    device is ready while the thread still has to stop writing.  When the
    transfer is over, the next question clears the cancellation.  Without a
    transfer the request leaves nothing pending. *)
Theorem cancel_protocol n s :
  (transferring_file_data s = false -> request cancel_request s = Some (s {{ cancel_req := 0 }})) /\
  (transferring_file_data s = true ->
   exists s1 s2 s3 s4, request cancel_request s = Some s1 /\ request status_request s1 = Some s2 /\ statuses n s2 = Some s3 /\
     o_trace (sys s1) = o_trace (sys s) ++ [ThreadSignalled] /\
     Forall (fun s' => forall channel bytes, write_usb channel bytes s' = (-1, s')) [s1; s2; s3] /\
     written_to (usb_device (gadget s)) (o_trace (sys s3)) = written_to (usb_device (gadget s)) (o_trace (sys s)) ++
       mtp_device_status MTP_RESPONSE_DEVICE_BUSY :: replicate n (mtp_device_status MTP_RESPONSE_OK) /\
     request status_request (s3 {{ transferring_file_data := false }}) = Some s4 /\ cancel_req s4 = 0).
Proof.
  split; intros Ht.
  { rewrite cancel_answered. unfold cancel_transfer. by rewrite Ht. }
  set (s1 := cancel_transfer s).
  assert (cancel_req s1 = 2 /\ transferring_file_data s1 = true /\ gadget s1 = gadget s /\ o_trace (sys s1) = o_trace (sys s) ++ [ThreadSignalled])
    as (C1 & T1 & G1 & L1).
  { unfold s1, cancel_transfer. rewrite Ht. by destruct s as [? ? ? ? ? ? ? []]. }
  destruct (status_answered s1) as (s2 & E2 & C2 & T2 & G2 & rest & L2 & Hr). unfold next_request, status_code in *. rewrite C1 in *.
  cbn [Z.eqb Pos.eqb] in *. destruct (statuses_pending n s2 C2 ltac:(congruence)) as (s3 & E3 & C3 & T3 & G3 & L3).
  destruct (status_answered (s3 {{ transferring_file_data := false }})) as (s4 & E4 & C4 & _). unfold next_request in C4.
  exists s1, s2, s3, s4. split_and!; [apply cancel_answered|done|done|done| | |done|].
  - repeat (apply Forall_cons_2; [intros channel bytes; apply cancelled_writes_nothing; lia|]). apply Forall_nil_2.
  - rewrite G2, G1 in L3. rewrite L3, L2, L1. unfold written_to. rewrite !omap_app. cbn [omap list_omap]. rewrite G1, Z.eqb_refl, app_nil_r, <- app_assoc. f_equal. cbn [app]. f_equal. by destruct Hr as [-> | ->].
  - rewrite C4. destruct s3. cbn in *. by subst.
Qed.
End Cancel.

(** A gadget whose device is descriptor 4, in a transfer. *)
Definition busy_gadget : gstate :=
  mkgstate (empty_gadget {{ usb_device := 4; thread_not_started := 0 }}) 0 true true true true
    (mkctx 0 0 (-1) (-1) [] None 0 0 [] []) (mksystem [4] 5 10 0 []).

Lemma cancel_protocol_witness : exists s3, statuses (fun _ _ => true) (fun _ _ bytes => strlen bytes) (fun _ => 0) 3
    (cancel_transfer busy_gadget) = Some s3 /\
  written_to 4 (o_trace (sys s3)) = [[4; 0; 0x19; 0x20]; [4; 0; 1; 0x20]; [4; 0; 1; 0x20]].
Proof.
  destruct (cancel_protocol (fun _ _ => true) (fun _ _ bytes => strlen bytes) (fun _ => 0) 2 busy_gadget) as [_ H].
  destruct (H eq_refl) as (s1 & s2 & s3 & _ & E1 & E2 & E3 & _ & _ & W & _). exists s3. split; [|exact W].
  rewrite cancel_answered in E1. injection E1 as E1. unfold statuses in *. cbn [replicate foldM] in *. rewrite E1, E2. exact E3.
Defined.
