(* ===== verification/Tools.v ===== *)
(** * The diagnostic tools

    Six small programs run by hand or by [make device-check]: [touch_inject.c],
    [key_inject.c] and [send_key.c] write input events, [fifo_write.c] writes a
    browser command, [test_epdc.c] and [epdc_probe.c] ask the panel for an
    update.  Each [main] is a function of its arguments and of the kernel's
    answers to an exit status and the list of what it did, in order. *)

From Stdlib Require Import Ascii String.
From S2P Require Import Prelude CString Input PlatoShim.

(** What a tool does.  [Says] is a line on the standard output, [Complains] one
    on the standard error; [perror] appends the text of the error, which is left
    out.  [Opens] is an attempt to open, for reading or writing; [AsksUpdate] and
    [AsksWait] are display requests, [Stores] is the contents given to the file
    opened before it. *)
Inductive tool_action :=
  | Opens (path : string)
  | WritesEvents (evs : list event)
  | WritesBytes (bytes : list Z)
  | AsksUpdate (u : update_v1)
  | AsksWait (marker : Z)
  | Stores (contents : list Z)
  | Pauses (us : Z)
  | Closes
  | Says (line : list Z)
  | Complains (line : list Z).

(** The actions and the exit status. *)
Definition tool_run : Type := list tool_action * Z.

(** [argv[i]]; the arguments are those after [argv[0]]. *)
Definition arg_or (i : nat) (dflt : Z) (args : list (list Z)) : Z :=
  match args !! i with Some a => atoi a | None => dflt end.

Definition usage_line (argv0 : list Z) (rest : string) : tool_action :=
  Complains (cstr "Usage: " ++ argv0 ++ cstr rest).

(** ** [touch_inject.c]: a tap *)
Definition tap_position (phys_x phys_y : Z) : list event :=
  [ mkev EV_ABS ABS_MT_SLOT 0; mkev EV_ABS ABS_MT_TRACKING_ID 0;
    mkev EV_ABS ABS_MT_POSITION_X phys_x; mkev EV_ABS ABS_MT_POSITION_Y phys_y ].
Definition tap_contact : list event :=
  [ mkev EV_ABS ABS_MT_TOUCH_MAJOR 100; mkev EV_ABS ABS_MT_WIDTH_MAJOR 10;
    mkev EV_KEY BTN_TOUCH 1; mkev EV_SYN SYN_REPORT 0 ].
Definition tap_release : list event :=
  [ mkev EV_ABS ABS_MT_SLOT 0; mkev EV_ABS ABS_MT_TRACKING_ID (-1);
    mkev EV_KEY BTN_TOUCH 0; mkev EV_SYN SYN_REPORT 0 ].

Definition injected_line (x y phys_x phys_y : Z) : list Z :=
  cstr "Injected touch at logical (" ++ int_string x ++ cstr "," ++ int_string y ++
  cstr ") -> physical (" ++ int_string phys_x ++ cstr "," ++ int_string phys_y ++ cstr ")".

(** The subtraction wraps for arguments far outside the panel. *)
Definition touch_inject (opened : bool) (argv0 : list Z) (args : list (list Z)) : tool_run :=
  match args with
  | [ax; ay] =>
      let x := atoi ax in
      let y := atoi ay in
      let phys_x := y in
      let phys_y := i32 (1403 - x) in
      if opened then
        ([ Opens "/dev/input/event1"; WritesEvents (tap_position phys_x phys_y);
           WritesEvents tap_contact; Pauses 50000; WritesEvents tap_release; Closes;
           Says (injected_line x y phys_x phys_y) ], 0)
      else ([ Opens "/dev/input/event1"; Complains (cstr "open /dev/input/event1") ], 1)
  | _ => ([ usage_line argv0 " <x> <y>";
            Complains (cstr "Injects touch event at logical coordinates (0-1403, 0-1871)") ], 1)
  end.

(** ** [key_inject.c]: a key of the virtual keyboard *)
Definition key_step (code value : Z) : list event :=
  [ mkev EV_KEY (u16 code) value; mkev EV_SYN SYN_REPORT 0 ].

Definition key_inject (opened : bool) (argv0 : list Z) (args : list (list Z)) : tool_run :=
  match args with
  | [a] =>
      let code := atoi a in
      if opened then
        ([ Opens "/dev/input/event2"; WritesEvents (key_step code 1); Pauses 20000;
           WritesEvents (key_step code 0); Closes;
           Says (cstr "Injected key code " ++ int_string code) ], 0)
      else ([ Opens "/dev/input/event2";
              Complains (cstr "open /dev/input/event2 (uinput virtual keys)") ], 1)
  | _ => ([ usage_line argv0 " <keycode>";
            Complains (cstr "Keycodes: 104=PageDown, 109=PageUp, 174=Left, 175=Right, 28=Enter, 1=Esc") ], 1)
  end.

(** The codes its usage text names. *)
Definition advertised_keys : list Z := [104; 109; 174; 175; 28; 1].

(** ** [send_key.c]: taps of a hardware button *)
Definition emit (type code val : Z) : tool_action := WritesEvents [ mkev (u16 type) (u16 code) val ].

(** The body of the loop, for the tap number [i]. *)
Definition send_tap (code count i : Z) : list tool_action :=
  [ emit EV_KEY code 1; emit EV_SYN SYN_REPORT 0; Pauses 50000;
    emit EV_KEY code 0; emit EV_SYN SYN_REPORT 0 ] ++
  (if i <? count - 1 then [ Pauses 120000 ] else []).

Definition sending_line (count code : Z) (dev : string) : list Z :=
  cstr "Sending " ++ int_string count ++ cstr " tap(s) of key " ++ int_string code ++
  cstr " to " ++ cstr dev ++ cstr "...".

(** The first argument is the device; the numbers follow it. *)
Definition send_key (opened : bool) (args : option (string * list (list Z))) : tool_run :=
  let '(dev, numbers) := default ("/dev/input/event0"%string, []) args in
  let code := arg_or 0 KEY_HOME numbers in
  let count := arg_or 1 2 numbers in
  if opened then
    ([ Opens dev; Says (sending_line count code dev) ] ++
     concat (map (send_tap code count) (seqZ 0 count)) ++
     [ Closes; Says (cstr "Done.") ], 0)
  else ([ Opens dev; Complains (cstr "open") ], 1).

(** ** [fifo_write.c]: a command for the browser *)

(** What [snprintf] leaves in the buffer of 256 bytes. *)
Definition fifo_buffer (cmd : list Z) : list Z := take 255 (cmd ++ [10]).

(** [written] is what [write] answers. *)
Definition fifo_write (opened : bool) (written : Z) (argv0 : list Z) (args : list (list Z)) : tool_run :=
  match args with
  | [] => ([ usage_line argv0 " <command>" ], 1)
  | cmd :: _ =>
      let path := "/data/linuxroot/tmp/netsurf_input.fifo"%string in
      if opened then
        if written <? 0
        then ([ Opens path; WritesBytes (fifo_buffer cmd); Complains (cstr "write FIFO"); Closes ], 1)
        else ([ Opens path; WritesBytes (fifo_buffer cmd);
                Says (cstr "Wrote " ++ int_string written ++ cstr " bytes to FIFO: " ++ fifo_buffer cmd);
                Closes ], 0)
      else ([ Opens path; Complains (cstr "open FIFO") ], 1)
  end.

(** ** [test_epdc.c]: one update of the whole panel *)
Definition no_alt : alt_buffer := mkalt 0 0 0 (mkrect 0 0 0 0).

Definition test_update (waveform update_mode flags : Z) : update_v1 :=
  {| region1 := mkrect 0 0 1404 1872; waveform1 := u32 waveform; mode1 := u32 update_mode;
     marker1 := 0; temp1 := 0x1001; flags1 := u32 flags; alt1 := no_alt |}.

(** [ret] is what the request answers. *)
Definition test_epdc (opened : bool) (ret : Z) (args : list (list Z)) : tool_run :=
  if opened then
    let waveform := arg_or 0 257 args in
    let update_mode := arg_or 1 0 args in
    let flags := arg_or 2 0 args in
    ([ Opens "/dev/fb0"; AsksUpdate (test_update waveform update_mode flags);
       Says (cstr "EPDC update waveform=" ++ int_string waveform ++ cstr " update_mode=" ++
             int_string update_mode ++ cstr " flags=" ++ int_string flags ++ cstr " ret=" ++
             int_string ret); Closes ], 0)
  else ([ Opens "/dev/fb0"; Complains (cstr "open /dev/fb0") ], 1).

(** ** [epdc_probe.c]: the health check of the display *)
Definition EXPECT_XRES := 1404.
Definition EXPECT_YRES := 1872.
Definition EXPECT_BPP := 16.
Definition EXPECT_STRIDE := 2816.

(** What the kernel answers: the descriptor of the panel, the results of the
    requests, with the text of the error each would leave, and whether the file
    of the automatic refresh opens for writing, the first and the second time. *)
Record panel_answers := mkpanel {
  pn_fd : Z; pn_fd_error : list Z;
  pn_vinfo : Z; pn_vinfo_error : list Z; pn_xres : Z; pn_yres : Z; pn_bpp : Z;
  pn_finfo : Z; pn_finfo_error : list Z; pn_line_length : Z;
  pn_send : Z; pn_send_error : list Z;
  pn_wait : Z; pn_retry : Z; pn_wait_error : list Z;
  pn_silence_opens : bool; pn_restore_opens : bool }.

(** [g_fails], the file of the automatic refresh (nothing where it cannot be
    read) and what was done. *)
Record probe := mkprobe { g_fails : bool; auto_update : option (list Z); done_so_far : list tool_action }.

Definition act (l : list tool_action) (s : probe) : probe := s {{ done_so_far := done_so_far s ++ l }}.

(** [report]; the detail is formatted into 160 bytes. *)
Definition report (what : string) (ok : bool) (detail : list Z) (s : probe) : probe :=
  let detail := take 159 detail in
  let s := if ok then s else s {{ g_fails := true }} in
  act (Says (cstr "EPDC-PROBE: " ++ cstr (if ok then "PASS" else "FAIL") ++ cstr " " ++ cstr what) ::
       (if bool_decide (detail = []) then [] else [ Says (cstr "EPDC-PROBE:      " ++ detail) ])) s.

Definition auto_path : string := "/sys/class/graphics/fb0/epdc_auto_update".

(** [fopen] for writing empties the file, [fprintf] gives it its contents. *)
Definition store (opened : bool) (contents : list Z) (s : probe) : probe :=
  let s := act [ Opens auto_path ] s in
  if opened then act [ Stores contents ] (s {{ auto_update := Some contents }}) else s.

Section Probe.
Context (p : panel_answers).

Definition check_geometry (s : probe) : probe :=
  report "bits_per_pixel" (pn_bpp p =? EXPECT_BPP)
    (int_string (i32 (pn_bpp p)) ++ cstr " (expect " ++ int_string EXPECT_BPP ++ cstr ")")
    (report "geometry xres/yres" ((pn_xres p =? EXPECT_XRES) && (pn_yres p =? EXPECT_YRES))
      (int_string (i32 (pn_xres p)) ++ cstr " x " ++ int_string (i32 (pn_yres p)) ++ cstr " (expect " ++
       int_string EXPECT_XRES ++ cstr " x " ++ int_string EXPECT_YRES ++ cstr ")") s).

Definition check_stride (s : probe) : probe :=
  if negb (pn_finfo p =? 0) then report "FBIOGET_FSCREENINFO" false (pn_finfo_error p) s
  else report "stride line_length" (pn_line_length p =? EXPECT_STRIDE)
         (int_string (i32 (pn_line_length p)) ++ cstr " (expect " ++ int_string EXPECT_STRIDE ++ cstr ")") s.

(** The original value, -1 where there is none. *)
Definition auto_orig (node : option (list Z)) : Z :=
  match node with
  | Some c => match scan_int c with Some (v, _) => v | None => -1 end
  | None => -1
  end.

Definition silence (orig : Z) (s : probe) : probe :=
  if 0 <=? orig then store (pn_silence_opens p) (cstr "0" ++ [10]) s else s.

Definition restore (orig : Z) (s : probe) : probe :=
  if 0 <=? orig then store (pn_restore_opens p) (int_string orig ++ [10]) s else s.

Definition probe_update : update_v1 :=
  {| region1 := mkrect 0 0 EXPECT_XRES EXPECT_YRES; waveform1 := 2; mode1 := 1; marker1 := 1;
     temp1 := 4096; flags1 := 0; alt1 := no_alt |}.

Definition round_trip (s : probe) : probe :=
  let s := act [ AsksUpdate probe_update ] s in
  if negb (pn_send p =? 0) then report "MXCFB_SEND_UPDATE_V1 full-frame" false (pn_send_error p) s
  else
    let s := act [ AsksWait 1 ] s in
    let wret := pn_wait p in
    let '(wret, s) := if negb (wret =? 0) then (pn_retry p, act [ Pauses 500000; AsksWait 1 ] s)
                      else (wret, s) in
    if negb (wret =? 0)
    then report "MXCFB_WAIT_FOR_UPDATE_COMPLETE" false
           (pn_wait_error p ++ cstr " (marker=1, retried)") s
    else report "full-frame V1 update + wait" true (cstr "GC16 marker=1") s.

Definition probe_main (node : option (list Z)) : probe * Z :=
  let s := {| g_fails := false; auto_update := node; done_so_far := [ Opens "/dev/fb0" ] |} in
  if pn_fd p <? 0 then
    (act [ Complains (cstr "EPDC-PROBE: FAIL open /dev/fb0 [" ++ pn_fd_error p ++ cstr "]") ] s, 1)
  else
    let s := report "open /dev/fb0" true (cstr "fd=" ++ int_string (pn_fd p)) s in
    if negb (pn_vinfo p =? 0) then
      (act [ Closes ] (report "FBIOGET_VSCREENINFO" false (pn_vinfo_error p) s), 1)
    else
      let s := act [ Opens auto_path ] (check_stride (check_geometry s)) in
      let orig := auto_orig (auto_update s) in
      let s := restore orig (round_trip (silence orig s)) in
      let s := act [ Closes ] s in
      if g_fails s then (act [ Says (cstr "EPDC-PROBE: FAIL overall") ] s, 1)
      else (act [ Says (cstr "EPDC-PROBE: PASS overall") ] s, 0).
End Probe.
