(* ===== verification/ToolsProps.v ===== *)
(** * What the diagnostic tools promise

    The probe's verdict follows from every one of its checks, and the automatic
    refresh it silences comes back. *)

From Stdlib Require Import Ascii String.
From S2P Require Import Prelude CString MtpConfigProps Tools.

(** ** Numbers in text *)
Lemma scan_int_dec n c rest :
  0 <= n < 2 ^ 31 -> is_digit c = false ->
  scan_int (dec_string n ++ c :: rest) = Some (n, c :: rest).
Proof.
  intros Hn Hc. destruct (dec_string_digits n) as [Hd He].
  assert (scan_digits (dec_string n ++ c :: rest) = (dec_string n, c :: rest)) as V.
  { clear He. revert Hd. generalize (dec_string n). induction 1 as [|d l Hl _ IH]; cbn; [by rewrite Hc|].
    by rewrite Hl, IH. }
  pose proof (dec_value_string n ltac:(lia)) as E. destruct (dec_string n) as [|d l]; [done|].
  apply Forall_cons in Hd as [Hd _]. unfold scan_int. destruct (digit_start d Hd) as (Hs & H1 & H2).
  cbn [skip_white app]. rewrite Hs.
  assert (d ∈ seqZ 48 10) as Hin by (apply elem_of_seqZ; unfold is_digit in Hd; bprop; lia).
  change (seqZ 48 10) with [48; 49; 50; 51; 52; 53; 54; 55; 56; 57] in Hin. cbn [app] in V.
  repeat (apply elem_of_cons in Hin as [->|Hin]; [rewrite V, E; by rewrite Z.min_r by lia|]).
  by apply elem_of_nil in Hin.
Qed.

(** ** The probe *)
Definition healthy (p : panel_answers) : bool :=
  (0 <=? pn_fd p) && (pn_vinfo p =? 0) && (pn_xres p =? EXPECT_XRES) && (pn_yres p =? EXPECT_YRES) &&
  (pn_bpp p =? EXPECT_BPP) && (pn_finfo p =? 0) && (pn_line_length p =? EXPECT_STRIDE) &&
  (pn_send p =? 0) && ((pn_wait p =? 0) || (pn_retry p =? 0)).

Lemma report_fails what ok d s : g_fails (report what ok d s) = g_fails s || negb ok.
Proof. unfold report, act. destruct ok; upd; by rewrite ?orb_false_r, ?orb_true_r. Qed.
Lemma report_node what ok d s : auto_update (report what ok d s) = auto_update s.
Proof. unfold report, act. by destruct ok. Qed.

Lemma store_fails b c s : g_fails (store b c s) = g_fails s.
Proof. unfold store. by destruct b. Qed.
Lemma silence_fails p v s : g_fails (silence p v s) = g_fails s.
Proof. unfold silence. destruct (_ <=? _); [apply store_fails|done]. Qed.
Lemma restore_fails p v s : g_fails (restore p v s) = g_fails s.
Proof. unfold restore. destruct (_ <=? _); [apply store_fails|done]. Qed.

Lemma geometry_fails p s :
  g_fails (check_geometry p s) =
  g_fails s || negb ((pn_xres p =? EXPECT_XRES) && (pn_yres p =? EXPECT_YRES)) ||
  negb (pn_bpp p =? EXPECT_BPP).
Proof. unfold check_geometry. by rewrite !report_fails. Qed.
Lemma stride_fails p s :
  g_fails (check_stride p s) =
  g_fails s || negb ((pn_finfo p =? 0) && (pn_line_length p =? EXPECT_STRIDE)).
Proof. unfold check_stride. by destruct (pn_finfo p =? 0); cbn [negb andb]; rewrite report_fails. Qed.
Lemma round_trip_fails p s :
  g_fails (round_trip p s) =
  g_fails s || negb ((pn_send p =? 0) && ((pn_wait p =? 0) || (pn_retry p =? 0))).
Proof.
  unfold round_trip. destruct (pn_send p =? 0); cbn [negb andb]; [|by rewrite report_fails].
  destruct (pn_wait p =? 0) eqn:E; cbn [negb orb]; [rewrite E|destruct (pn_retry p =? 0)];
    cbn [negb]; by rewrite report_fails.
Qed.

(** The probe succeeds exactly on a healthy panel: every check is part of the
    verdict, none is checked twice or forgotten, and a failed first wait is
    forgiven when the retry succeeds. *)
Theorem probe_verdict p node : (probe_main p node).2 = if healthy p then 0 else 1.
Proof.
  unfold probe_main, healthy. rewrite Z.ltb_antisym. destruct (0 <=? pn_fd p); [|done]. cbn [negb andb].
  destruct (pn_vinfo p =? 0); [|done]. cbn [negb andb].
  set (s3 := restore _ _ _). assert (g_fails s3 = negb ((pn_xres p =? EXPECT_XRES) && (pn_yres p =? EXPECT_YRES) &&
    (pn_bpp p =? EXPECT_BPP) && (pn_finfo p =? 0) && (pn_line_length p =? EXPECT_STRIDE) &&
    (pn_send p =? 0) && ((pn_wait p =? 0) || (pn_retry p =? 0)))) as E.
  { unfold s3. rewrite restore_fails, round_trip_fails, silence_fails.
    change (g_fails (act ?l ?s)) with (g_fails s). rewrite stride_fails, geometry_fails, report_fails.
    cbn [g_fails]. rewrite orb_false_l, <- !negb_andb. cbn [orb]. f_equal.
    rewrite <- !andb_assoc. reflexivity. }
  change (g_fails (act ?l ?s)) with (g_fails s). rewrite E.
  destruct (_ && _); reflexivity.
Qed.

(** The value of the automatic refresh while the actions run, and that it is 0
    at every display request. *)
Fixpoint replay (v : Z) (l : list tool_action) : Z :=
  match l with
  | [] => v
  | Stores c :: l' => replay (auto_orig (Some c)) l'
  | _ :: l' => replay v l'
  end.
Fixpoint quiet (v : Z) (l : list tool_action) : Prop :=
  match l with
  | [] => True
  | Stores c :: l' => quiet (auto_orig (Some c)) l'
  | (AsksUpdate _ | AsksWait _) :: l' => v = 0 /\ quiet v l'
  | _ :: l' => quiet v l'
  end.

Lemma quiet_app v l1 l2 : quiet v (l1 ++ l2) <-> quiet v l1 /\ quiet (replay v l1) l2.
Proof. revert v. induction l1 as [|a l1 IH]; intros v; [naive_solver|]. destruct a; cbn; rewrite IH; naive_solver. Qed.
Lemma replay_app v l1 l2 : replay v (l1 ++ l2) = replay (replay v l1) l2.
Proof. revert v. induction l1 as [|a l1 IH]; intros v; [done|]. destruct a; apply IH. Qed.

(** The trace and the file agree, and no request so far was disturbed. *)
Definition steady (v : Z) (s : probe) : Prop :=
  quiet v (done_so_far s) /\ replay v (done_so_far s) = auto_orig (auto_update s).

Lemma steady_act v l s :
  steady v s -> quiet (auto_orig (auto_update s)) l ->
  replay (auto_orig (auto_update s)) l = auto_orig (auto_update s) -> steady v (act l s).
Proof. intros [Hq Hr] Hl Hk. unfold steady, act. upd. rewrite quiet_app, replay_app, Hr. by split. Qed.

Lemma steady_report v what ok d s : steady v s -> steady v (report what ok d s).
Proof.
  intros H. unfold report. destruct ok; (apply steady_act; [done|destruct (bool_decide _); done..]).
Qed.

Lemma steady_store v b c s : steady v s -> steady v (store b c s).
Proof.
  intros H. unfold store. apply (steady_act v [Opens auto_path]) in H; [|done..].
  destruct b; [|done]. destruct H as [Hq Hr]. revert Hq Hr. unfold steady, act. upd. by rewrite !quiet_app, !replay_app.
Qed.

Lemma steady_round_trip p v s :
  auto_orig (auto_update s) = 0 -> steady v s -> steady v (round_trip p s).
Proof.
  intros H0 H. unfold round_trip. apply (steady_act v [AsksUpdate probe_update]) in H; [|done..].
  destruct (pn_send p =? 0); [|by apply steady_report].
  apply (steady_act v [AsksWait 1]) in H; [|done..]. cbn [negb].
  destruct (pn_wait p =? 0) eqn:E; cbn [negb]; [rewrite E; by apply steady_report|].
  apply (steady_act v [Pauses 500000; AsksWait 1]) in H; [|done..].
  destruct (pn_retry p =? 0); by apply steady_report.
Qed.

Lemma round_trip_node p s : auto_update (round_trip p s) = auto_update s.
Proof.
  unfold round_trip. destruct (negb (pn_send p =? 0)); [by rewrite report_node|].
  destruct (negb (pn_wait p =? 0)); cbn beta iota zeta; destruct (negb _); by rewrite report_node.
Qed.

Lemma checks_node p s : auto_update (check_stride p (check_geometry p s)) = auto_update s.
Proof. unfold check_stride, check_geometry. destruct (negb _); by rewrite !report_node. Qed.

Lemma checks_steady p v s : steady v s -> steady v (check_stride p (check_geometry p s)).
Proof.
  intros H. unfold check_stride, check_geometry. destruct (negb _); by repeat apply steady_report.
Qed.

Lemma scan_int_range s v r : scan_int s = Some (v, r) -> is_i32 v.
Proof. intros E. pose proof (atoi_range s) as H. unfold atoi in H. by rewrite E in H. Qed.

Lemma auto_orig_stored v : 0 <= v < 2 ^ 31 -> auto_orig (Some (int_string v ++ [10])) = v.
Proof.
  intros H. unfold auto_orig, int_string. rewrite (proj2 (Z.ltb_ge v 0)) by lia.
  by rewrite scan_int_dec.
Qed.

Lemma auto_orig_range node : auto_orig node < 2 ^ 31.
Proof.
  unfold auto_orig. destruct node as [c|]; [|lia]. destruct (scan_int c) as [[v r]|] eqn:E; [|lia].
  pose proof (scan_int_range _ _ _ E). unfold is_i32 in *. lia.
Qed.

(** As its header comment says, the automatic refresh is off at every request of
    the probe and has its old value when the probe ends, on every path and
    whatever the kernel answers, provided the file that could be read can be
    written; a file that holds no number, or a negative one, is not touched. *)
Theorem probe_restores p node :
  pn_silence_opens p = true -> pn_restore_opens p = true ->
  let s := (probe_main p node).1 in
  auto_orig (auto_update s) = auto_orig node /\
  (0 <= auto_orig node -> quiet (auto_orig node) (done_so_far s)) /\
  (auto_orig node < 0 -> auto_update s = node).
Proof.
  intros H1 H2. unfold probe_main. destruct (_ <? _); [done|]. set (s0 := report "open /dev/fb0" _ _ _).
  assert (steady (auto_orig node) s0 /\ auto_update s0 = node) as [Hs Hn] by (split; [by apply steady_report|apply report_node]).
  clearbody s0. destruct (negb _).
  { cbn [fst]. change (auto_update (act ?l ?s)) with (auto_update s). rewrite report_node, Hn. split_and!; [done| |done].
    intros _. apply (steady_report _ "FBIOGET_VSCREENINFO" false (pn_vinfo_error p)) in Hs. cbn.
    apply quiet_app. split; [apply Hs|done]. }
  apply (checks_steady p) in Hs. rewrite <- (checks_node p) in Hn.
  set (s1 := check_stride p _) in *. clearbody s1. clear s0.
  apply (steady_act _ [Opens auto_path]) in Hs; [|done..]. set (s2 := act _ s1) in *.
  change (auto_update s1) with (auto_update s2) in Hn. clearbody s2. rewrite Hn.
  set (s3 := restore p _ _). pose proof (auto_orig_range node) as Hr.
  assert (auto_orig (auto_update s3) = auto_orig node /\
          (0 <= auto_orig node -> steady (auto_orig node) s3) /\
          (auto_orig node < 0 -> auto_update s3 = node)) as (G1 & G2 & G3).
  { unfold s3, restore, silence. destruct (Z.leb_spec 0 (auto_orig node)).
    - rewrite H1, H2. split_and!; [|intros _|lia].
      + unfold store. cbn. apply auto_orig_stored. lia.
      + by apply steady_store, steady_round_trip, steady_store.
    - rewrite round_trip_node, Hn. split_and!; [done|lia|done]. }
  clearbody s3. destruct (g_fails _); cbn; (split_and!; [done| |done]); intros H; apply quiet_app;
    (split; [|done]); apply quiet_app; (split; [|done]); by apply G2.
Qed.

Definition demo_panel : panel_answers :=
  {| pn_fd := 3; pn_fd_error := []; pn_vinfo := 0; pn_vinfo_error := []; pn_xres := 1404; pn_yres := 1872;
     pn_bpp := 16; pn_finfo := 0; pn_finfo_error := []; pn_line_length := 2816; pn_send := 0;
     pn_send_error := []; pn_wait := -1; pn_retry := 0; pn_wait_error := cstr "Connection timed out";
     pn_silence_opens := true; pn_restore_opens := true |}.

Lemma probe_restores_witness :
  auto_orig (auto_update (probe_main demo_panel (Some (cstr "1" ++ [10]))).1) = 1.
Proof. exact (proj1 (probe_restores demo_panel (Some (cstr "1" ++ [10])) eq_refl eq_refl)). Defined.
