(* ===== verification/ToolsMeet.v ===== *)
(** * The writing tools and the programs that read

    A tap injected at a point of the panel arrives at that point in the browser,
    in the switcher and in Plato; a command written to the FIFO is the command
    the browser runs; the default taps of [send_key] are a double tap for the
    button supervisor; the keys [key_inject] advertises mean nothing to anyone. *)

From Stdlib Require Import Ascii String.
From S2P Require Import Prelude CString Input Ring PlatoShim PlatoTouch SdlText SdlOsk SdlQueue SdlShim SdlSafety SdlBehaviour Overlay BtnWatcher BtnMain AppSwitcher MtpConfigProps Tools.

(** The input events a tool writes. *)
Definition written (l : list tool_action) : list event :=
  concat (omap (fun a => match a with WritesEvents evs => Some evs | _ => None end) l).

(** ** The tap *)
Definition tap_events (x y : Z) : list event :=
  tap_position y (1403 - x) ++ tap_contact ++ tap_release.

(** Called with a point of the panel, the tool writes the tap of that point. *)
Theorem touch_inject_events argv0 x y :
  0 <= x < 1404 -> 0 <= y < 1872 ->
  let r := touch_inject true argv0 [dec_string x; dec_string y] in
  r.2 = 0 /\ written r.1 = tap_events x y.
Proof.
  intros Hx Hy. unfold touch_inject. rewrite !atoi_dec by lia.
  rewrite i32_small by (unfold is_i32; lia). done.
Qed.

Lemma touch_inject_events_witness :
  written (touch_inject true (cstr "touch_inject") [dec_string 1403; dec_string 0]).1 = tap_events 1403 0.
Proof. exact (proj2 (touch_inject_events (cstr "touch_inject") 1403 0 ltac:(lia) ltac:(lia))). Defined.

(** The browser: the reports are handled one by one, and what each does is the
    page's or the keyboard's touch at a point. *)
Section Browser.
Context (heap : option (Z -> Z)).

Definition feed_browser (evs : list event) (w : worker) (s : sdl) : option (worker * sdl) :=
  foldM (fun ws ev => '(w, s, _) ← handle_touch heap ev ws.1 ws.2; Some (w, s)) evs (w, s).

Definition touch_at (down : bool) (x y : Z) (s : sdl) : option sdl :=
  '(s, _) ← (if osk_active s then osk_touch down x y s else page_touch heap down x y s); Some s.

Lemma feed_browser_app l1 l2 w s :
  feed_browser (l1 ++ l2) w s = '(w, s) ← feed_browser l1 w s; feed_browser l2 w s.
Proof.
  unfold feed_browser. rewrite foldM_app. by destruct (foldM _ l1 _) as [[??]|].
Qed.

Lemma report_at w s x y :
  0 <= x < 1404 -> 0 <= y < 1872 -> cur_x w = y -> cur_y w = 1403 - x ->
  ('(s, _) ← handle_report heap w s; Some s) = touch_at (cur_down w) x y s.
Proof.
  intros Hx Hy E1 E2. unfold handle_report, touch_at. rewrite E1, E2.
  replace (clamp 1404 (1403 - (1403 - x))) with x by (unfold clamp; cbn; bdestr; cbn in *; lia).
  by replace (clamp 1872 y) with y by (unfold clamp; cbn; bdestr; cbn in *; lia).
Qed.

(** Whatever the screen shows, an injected tap is a press and a release at its
    point, and nothing else. *)
Theorem injected_tap_browser x y w s :
  0 <= x < 1404 -> 0 <= y < 1872 ->
  feed_browser (tap_events x y) w s =
    s ← touch_at true x y s; s ← touch_at false x y s; Some (mkworker y (1403 - x) false, s).
Proof.
  intros Hx Hy. unfold tap_events. rewrite feed_browser_app.
  assert (forall w s, feed_browser (tap_position y (1403 - x)) w s = Some (mkworker y (1403 - x) (cur_down w), s)) as ->
    by (intros [???] ?; reflexivity).
  cbn [mbind option_bind]. rewrite feed_browser_app.
  assert (forall w s, cur_x w = y -> cur_y w = 1403 - x ->
    feed_browser tap_contact w s = s ← touch_at true x y s; Some (mkworker y (1403 - x) true, s)) as ->.
  { intros [cx cy d] s' E1 E2. cbn in E1, E2. subst cx cy.
    pose proof (report_at (mkworker y (1403 - x) true) s' x y Hx Hy eq_refl eq_refl) as R. cbn [cur_down] in R. rewrite <- R.
    change (feed_browser tap_contact (mkworker y (1403 - x) d) s') with
      (ws ← ('(w, s, _) ← ('(s, c) ← handle_report heap (mkworker y (1403 - x) true) s';
                          Some (mkworker y (1403 - x) true, s, c)); Some (w, s)); Some ws).
    by destruct (handle_report heap _ s') as [[??]|]. }
  destruct (touch_at true x y s) as [s1|]; [|done]. cbn [mbind option_bind].
  pose proof (report_at (mkworker y (1403 - x) false) s1 x y Hx Hy eq_refl eq_refl) as R. cbn [cur_down] in R. rewrite <- R.
  change (feed_browser tap_release (mkworker y (1403 - x) true) s1) with
    (ws ← ('(w, s, _) ← ('(s, c) ← handle_report heap (mkworker y (1403 - x) false) s1;
                        Some (mkworker y (1403 - x) false, s, c)); Some (w, s)); Some ws).
  { by destruct (handle_report heap _ s1) as [[??]|]. }
  all: done.
Qed.
End Browser.

(** A tap on the address bar of a page gives it the keyboard and sends the
    browser no click. *)
Lemma injected_tap_browser_witness :
  feed_browser None (tap_events 700 30) (mkworker 0 0 false) sdl_init =
    s ← touch_at None true 700 30 sdl_init; s ← touch_at None false 700 30 s;
    Some (mkworker 30 703 false, s).
Proof. apply (injected_tap_browser None 700 30); lia. Defined.

(** The switcher decodes the same tap to the same point. *)
Definition decode_all (evs : list event) (s : sw) : sw := fold_left (fun s ev => touch_decode ev s) evs s.

Lemma decode_tap x y s :
  decode_all (tap_position y (1403 - x) ++ tap_contact) s =
    s {{ last_raw_x := y; last_raw_y := 1403 - x; is_contact_down := true }} /\
  decode_all tap_release s = s {{ is_contact_down := false }}.
Proof. by destruct s. Qed.

Theorem injected_tap_switcher x y s :
  0 <= x < 1404 -> 0 <= y < 1872 ->
  let s1 := decode_all (tap_position y (1403 - x) ++ tap_contact) s in
  let s2 := decode_all tap_release s1 in
  (positioned s1 = true /\ is_contact_down s1 = true /\ screen_x s1 = x /\ screen_y s1 = y) /\
  (is_contact_down s2 = false /\ screen_x s2 = x /\ screen_y s2 = y).
Proof.
  intros Hx Hy. cbn zeta. rewrite (proj1 (decode_tap x y s)), (proj2 (decode_tap x y _)).
  unfold positioned, screen_x, screen_y.
  cbv [apply_update constant]. cbn [last_raw_x last_raw_y is_contact_down].
  assert (clamp_axis (1403 - (1403 - x)) 1404 = x) as -> by (unfold clamp_axis; cbn; bdestr; cbn in *; lia).
  assert (clamp_axis y 1872 = y) as -> by (unfold clamp_axis; cbn; bdestr; cbn in *; lia).
  rewrite (proj2 (Z.leb_le 0 y)), (proj2 (Z.leb_le 0 (1403 - x))) by lia. done.
Qed.

Lemma injected_tap_switcher_witness s :
  screen_x (decode_all (tap_position 0 1403 ++ tap_contact) s) = 0.
Proof. exact (proj1 (proj2 (proj2 (proj1 (injected_tap_switcher 0 0 s ltac:(lia) ltac:(lia)))))). Defined.

(** Plato, whose events are the stream of [PlatoTouch.touch_stream_lossless],
    reads one press and one release at the raw point. *)
Definition stamped (sec usec : Z) (evs : list event) : list plato_input_event :=
  map (mkpev sec usec) evs.

Definition shim_packet (sec usec x y major : Z) : list plato_input_event :=
  stamped sec usec [ mkev EV_ABS ABS_MT_TRACKING_ID 0; mkev EV_ABS ABS_MT_POSITION_X x;
                     mkev EV_ABS ABS_MT_POSITION_Y y; mkev EV_ABS ABS_MT_TOUCH_MAJOR major;
                     mkev EV_SYN SYN_REPORT 0 ].

Theorem injected_tap_plato x y t sec usec :
  t_down t = false ->
  stream t (stamped sec usec (tap_events x y)) =
    shim_packet sec usec y (1403 - x) 100 ++ shim_packet sec usec y (1403 - x) 0.
Proof. destruct t as [d n id lx ly]. cbn [t_down]. intros ->. reflexivity. Qed.

(** ** The command *)
Definition sent (l : list tool_action) : list Z :=
  concat (omap (fun a => match a with WritesBytes b => Some b | _ => None end) l).

(** A command: some ASCII characters, without a line end. *)
Definition plain_command (cmd : list Z) : Prop :=
  cmd <> [] /\ ascii cmd /\ Forall (fun c => c <> 10 /\ c <> 13) cmd.

Lemma starts_with_rest p t r r' :
  forallb (fun c => negb (c =? 0)) p = true ->
  starts_with p (t ++ 0 :: r) = starts_with p (t ++ 0 :: r').
Proof.
  revert t. induction p as [|a p IH]; intros t; [done|]. cbn [forallb]. intros [Ha Hp]%andb_true_iff.
  destruct t as [|b t]; cbn [app starts_with]; [|by rewrite IH].
  apply negb_true_iff in Ha. by rewrite Ha.
Qed.

(** What a command does does not depend on the bytes behind it. *)
Lemma command_alone heap t r r' s :
  ascii t -> handle_fifo_command heap (t ++ 0 :: r) s = handle_fifo_command heap (t ++ 0 :: r') s.
Proof.
  intros Ht. unfold handle_fifo_command.
  rewrite (starts_with_rest (cstr "KEY:") t r r'), (starts_with_rest (cstr "TEXT:") t r r'),
    (starts_with_rest (cstr "URL:") t r r'), (starts_with_rest (cstr "CLICK:") t r r') by reflexivity.
  assert (forall p, forallb (fun c => negb (c =? 0)) p = true -> starts_with p (t ++ 0 :: r') = true ->
    exists t', t = p ++ t' /\ ascii t') as Hs.
  { intros p Hp E. destruct (starts_with_token p t r' Hp E) as [t' ->]. exists t'.
    apply ascii_app in Ht. by destruct Ht. }
  destruct (starts_with (cstr "KEY:") _) eqn:E1.
  { destruct (Hs (cstr "KEY:") eq_refl E1) as (t' & -> & Ht'). rewrite <- !app_assoc.
    change (drop 4 (cstr "KEY:" ++ ?x)) with x. by rewrite !to_nul_ascii. }
  destruct (starts_with (cstr "TEXT:") _) eqn:E2.
  { destruct (Hs (cstr "TEXT:") eq_refl E2) as (t' & -> & Ht'). rewrite <- !app_assoc.
    change (drop 5 (cstr "TEXT:" ++ ?x)) with x. unfold fifo_text.
    by rewrite !to_nul_ascii, !type_text_typed. }
  destruct (starts_with (cstr "URL:") _) eqn:E3.
  { destruct (Hs (cstr "URL:") eq_refl E3) as (t' & -> & Ht'). rewrite <- !app_assoc.
    change (drop 4 (cstr "URL:" ++ ?x)) with x. unfold fifo_url.
    by rewrite !to_nul_ascii, !type_text_typed. }
  destruct (starts_with (cstr "CLICK:") _) eqn:E4; [|done].
  destruct (Hs (cstr "CLICK:") eq_refl E4) as (t' & -> & Ht'). rewrite <- !app_assoc.
  change (drop 6 (cstr "CLICK:" ++ ?x)) with x. by rewrite !to_nul_ascii.
Qed.

Lemma fifo_lines_in cmd rest :
  Forall (fun c => c <> 0 /\ c <> 10 /\ c <> 13) cmd ->
  fifo_lines false (cmd ++ rest) = fifo_lines false rest /\ end_token (cmd ++ 10 :: rest) = cmd ++ 0 :: rest.
Proof.
  induction 1 as [|c cmd (H0 & H1 & H2) _ [IH1 IH2]]; [done|]. cbn [app fifo_lines end_token]. unfold is_newline.
  rewrite (proj2 (Z.eqb_neq c 0)), (proj2 (Z.eqb_neq c 13)), (proj2 (Z.eqb_neq c 10)) by done. cbn [orb].
  split; [exact IH1|by rewrite IH2].
Qed.

Lemma command_bytes cmd : plain_command cmd -> Forall (fun c => c <> 0 /\ c <> 10 /\ c <> 13) cmd.
Proof.
  intros (_ & Ha & Hn). unfold ascii in Ha. rewrite Forall_forall in Ha |- *. rewrite Forall_forall in Hn.
  intros c Hc. specialize (Ha c Hc). specialize (Hn c Hc). cbn in *. split; [lia|done].
Qed.

Lemma fifo_lines_command cmd rest :
  plain_command cmd -> fifo_lines true (cmd ++ 10 :: rest) = (cmd ++ 0 :: rest) :: fifo_lines true rest.
Proof.
  intros Hc. pose proof (command_bytes cmd Hc) as Hb. destruct (fifo_lines_in cmd rest Hb) as [_ He].
  destruct (fifo_lines_in cmd (10 :: rest) Hb) as [Hf _].
  destruct Hc as [Hne _]. destruct cmd as [|c cmd]; [done|].
  apply Forall_cons in Hb as [(H0 & H1 & H2) Hb]. cbn [app fifo_lines]. unfold is_newline at 1.
  rewrite (proj2 (Z.eqb_neq c 0)), (proj2 (Z.eqb_neq c 13)), (proj2 (Z.eqb_neq c 10)) by done. cbn [orb].
  cbn [app] in He. rewrite He. f_equal. by rewrite (proj1 (fifo_lines_in cmd (10 :: rest) Hb)).
Qed.

(** Commands that are written one after the other and read together are run one
    after the other, each exactly as written, as long as all fit in one read. *)
Theorem fifo_commands_run heap argv0 cmds s :
  Forall plain_command cmds -> strlen (concat (map (fun cmd => cmd ++ [10]) cmds)) <= 255 ->
  handle_fifo heap (concat (map (fun cmd => sent (fifo_write true (strlen cmd + 1) argv0 [cmd]).1) cmds)) s =
    foldM (fun s cmd => handle_fifo_command heap (cmd ++ [0]) s) cmds s.
Proof.
  intros Hc Hl.
  assert (map (fun cmd => sent (fifo_write true (strlen cmd + 1) argv0 [cmd]).1) cmds =
          map (fun cmd => cmd ++ [10]) cmds) as ->.
  { clear Hc. induction cmds as [|cmd cmds IH]; [done|]. cbn [map concat] in *. rewrite strlen_app in Hl.
    pose proof (strlen_nonneg (concat (map (fun cmd => cmd ++ [10]) cmds))).
    pose proof (strlen_nonneg (cmd ++ [10])). rewrite IH by lia. f_equal. unfold fifo_write.
    rewrite (proj2 (Z.ltb_ge _ 0)) by (pose proof (strlen_nonneg cmd); lia).
    cbn. rewrite app_nil_r. unfold fifo_buffer. apply take_ge. unfold strlen in *. lia. }
  unfold handle_fifo. rewrite take_ge by (unfold strlen in Hl; lia). clear Hl.
  revert s. induction Hc as [|cmd cmds Hcmd Hc IH]; intros s; [done|]. cbn [map concat]. rewrite <- !app_assoc.
  cbn [app]. rewrite fifo_lines_command by done. cbn [foldM].
  rewrite (command_alone heap cmd _ []) by apply Hcmd.
  by destruct (handle_fifo_command _ _ _).
Qed.

Lemma fifo_commands_run_witness :
  let cmds := [cstr "TEXT:ab"; cstr "KEY:enter"] in
  handle_fifo None (concat (map (fun cmd => sent (fifo_write true (strlen cmd + 1) (cstr "w") [cmd]).1) cmds)) sdl_init =
    foldM (fun s cmd => handle_fifo_command None (cmd ++ [0]) s) cmds sdl_init.
Proof.
  apply fifo_commands_run; [|vm_compute; congruence].
  repeat apply Forall_cons_2; [..|by apply Forall_nil_2];
    (split; [done|split; vm_compute; repeat (apply Forall_cons_2; [by split|]); by apply Forall_nil_2]).
Defined.

(** A longer command is cut, with its line end, and the tool reports success. *)
Theorem long_command_cut argv0 cmd :
  255 <= strlen cmd ->
  let r := fifo_write true 255 argv0 [cmd] in r.2 = 0 /\ sent r.1 = take 255 cmd.
Proof.
  intros H. unfold fifo_write. cbn. split; [done|]. rewrite app_nil_r. unfold fifo_buffer.
  apply take_app_le. unfold strlen in H. lia.
Qed.

(** ** The keys *)

(** None of the keys in the usage text of [key_inject] exists on the virtual
    keyboard it writes to, and the browser would do nothing with one. *)
Theorem advertised_keys_dead heap v s :
  Forall (fun code => code ∉ declared_keys /\
            foldM (fun s ev => handle_key heap ev s) (key_step code v) s = Some s) advertised_keys.
Proof.
  repeat apply Forall_cons_2; [..|by apply Forall_nil_2];
    (split; [vm_compute; intros H; repeat (apply elem_of_cons in H as [H|H]; [done|]); by apply elem_of_nil in H|]);
    cbn; unfold handle_key; cbn; by destruct (v =? 1).
Qed.
