(* ===== verification/ToolsTaps.v ===== *)
(** * The default taps of [send_key] and the button supervisor

    Without arguments [send_key] taps Home twice.  Read by the supervisor at any
    instants that keep within its time limits, the eight events are one double
    tap: playback is toggled once and the reader never sees Home. *)

From Stdlib Require Import Ascii String Sorted.
From S2P Require Import Prelude CString Input Framebuffer Overlay BtnWatcher Tools ToolsMeet.

(** A tool's events read one by one: each with the time at the head of the
    supervisor's loop and the time after the read. *)
Definition timed (evs : list event) (ts : list (Z * Z)) : list (Z * answer) :=
  zip_with (fun ev t => (t.1, Read ev t.2)) evs ts.

Lemma send_key_default :
  written (send_key true None).1 =
    [ mkev EV_KEY KEY_HOME 1; mkev EV_SYN 0 0; mkev EV_KEY KEY_HOME 0; mkev EV_SYN 0 0;
      mkev EV_KEY KEY_HOME 1; mkev EV_SYN 0 0; mkev EV_KEY KEY_HOME 0; mkev EV_SYN 0 0 ].
Proof. reflexivity. Qed.

Lemma rem_left d limit now :
  0 <= d -> d <= now -> now < 2 ^ 62 -> 0 < limit <= 500 -> now - d < limit ->
  (rem (u64 (d + limit)) now <=? 0) = false.
Proof.
  intros. apply Z.leb_gt. unfold rem, u64. rewrite (Z.mod_small (d + limit)), Z.mod_small by lia. rewrite i32_small by (unfold is_i32; lia). lia.
Qed.

(** No timer of the keys is due: nothing but the toast can change. *)
Definition undue (now : Z) (k : keys) : Prop :=
  power_pending k = false /\
  (home_down k = true -> 0 <= home_down_time k <= now /\ now - home_down_time k < HOME_LONG_PRESS_MS) /\
  (home_pending_single k = true -> 0 <= home_single_time k <= now /\ now - home_single_time k < POWER_DOUBLE_CLICK_MS) /\
  now < 2 ^ 62.

Section Taps.
Context (e : env).

Lemma timers_undue now s r :
  undue now (ks s) -> timers now s = Some r ->
  exists o, r.1 = s {{ ov := o }} /\ (toast_active (ov s) = false -> o = ov s).
Proof.
  intros (Hp & Hd & Hs & Hn). unfold timers.
  destruct (toast_timer now 1000 s) as [[s1 t1]|] eqn:E; [|done].
  assert (exists o, s1 = s {{ ov := o }} /\ (toast_active (ov s) = false -> o = ov s)) as (o & -> & V).
  { assert (s = s {{ ov := ov s }}) as R by by destruct s.
    revert E. unfold toast_timer. destruct (toast_active (ov s)); [|intros [= <- _]; by exists (ov s)].
    destruct (_ <=? 0); [|intros [= <- _]; by exists (ov s)]. unfold on_ov.
    destruct (hide_toast (ov s)) as [o|]; [|done]. intros [= <- _]. by exists o. }
  clear E. set (s1 := s {{ ov := o }}). change (ks s) with (ks s1) in *.
  cbn [mbind option_bind]. unfold power_timer. rewrite Hp.
  assert (exists t', long_press_timer now t1 s1 = (s1, t')) as [t' ->].
  { unfold long_press_timer. destruct (home_down (ks s1)) eqn:Ed; [|by eexists]. destruct (Hd eq_refl) as [? ?].
    destruct (_ && _); [|by eexists]. unfold HOME_LONG_PRESS_MS in *. rewrite rem_left by lia. by eexists. }
  unfold single_timer. destruct (home_pending_single (ks s1)) eqn:Es; [|intros [= <-]; by exists o].
  destruct (Hs eq_refl) as [? ?]. unfold POWER_DOUBLE_CLICK_MS in *. rewrite rem_left by lia.
  intros [= <-]. by exists o.
Qed.

(** One event between two due times. *)
Lemma iteration_undue now t ev s r :
  undue now (ks s) -> iteration e now (Read ev t) s = Some r ->
  exists o s', handle_event e ev t (s {{ ov := o }}) = Some s' /\ r = inl s' /\
    (toast_active (ov s) = false -> o = ov s).
Proof.
  intros Hu. unfold iteration. destruct (timers now s) as [[s1 t1]|] eqn:E; [|done].
  destruct (timers_undue now s _ Hu E) as (o & R & V). cbn [fst] in R. subst s1. cbn [mbind option_bind].
  destruct (handle_event e ev t _) as [s2|] eqn:H; [|done]. intros [= <-]. by exists o, s2.
Qed.

(** The three kinds of event of a tap. *)
Lemma read_syn now t s r :
  undue now (ks s) -> iteration e now (Read (mkev EV_SYN 0 0) t) s = Some r ->
  exists s', r = inl s' /\ ks s' = ks s /\ out s' = out s ++ [Emit (mkev 0 0 0)] /\
    (toast_active (ov s) = false -> ov s' = ov s).
Proof.
  intros Hu H. destruct (iteration_undue _ _ _ _ _ Hu H) as (o & s' & E & -> & V).
  exists s'. injection E as <-. by split_and!.
Qed.

Lemma read_press now t s r :
  undue now (ks s) -> undue t (ks s) -> iteration e now (Read (mkev EV_KEY KEY_HOME 1) t) s = Some r ->
  let double := home_pending_single (ks s) && negb (home_double_consumed (ks s)) in
  exists s', r = inl s' /\
    ks s' = (ks s) {{ home_double_consumed := double || home_double_consumed (ks s); home_down := true;
                      home_down_time := t; home_combo_consumed := false; home_long_sent := false;
                      home_pending_single := false }} /\
    out s' = out s ++ (if double then [Sys "/opt/audiocontrol.sh pause 2>/dev/null &"] else []) /\
    (double = false -> toast_active (ov s) = false -> ov s' = ov s).
Proof.
  intros Hu Ht H. destruct (iteration_undue _ _ _ _ _ Hu H) as (o & s' & E & -> & V). exists s'.
  split; [done|]. revert E.
  change (home_press e t (s {{ ov := o }}) = Some s' -> let double := home_pending_single (ks s) && negb (home_double_consumed (ks s)) in
    ks s' = (ks s) {{ home_double_consumed := double || home_double_consumed (ks s); home_down := true;
                      home_down_time := t; home_combo_consumed := false; home_long_sent := false;
                      home_pending_single := false }} /\
    out s' = out s ++ (if double then [Sys "/opt/audiocontrol.sh pause 2>/dev/null &"] else []) /\
    (double = false -> toast_active (ov s) = false -> ov s' = ov s)).
  unfold home_press. change (ks (s {{ ov := o }})) with (ks s).
  destruct (home_pending_single (ks s) && negb (home_double_consumed (ks s))) eqn:D; cbn [andb orb].
  - destruct Ht as (_ & _ & Hs & Hn). apply andb_true_iff in D as [D _]. destruct (Hs D) as [? ?].
    unfold POWER_DOUBLE_CLICK_MS in *. unfold u64. rewrite Z.mod_small, (proj2 (Z.leb_le _ 400)) by lia.
    unfold play_pause, card, on_ov. destruct (show_media_card _ _ _) as [o'|]; [|done].
    intros [= <-]. by split_and!.
  - intros [= <-]. rewrite app_nil_r. split_and!; [clear; by destruct s as [? [] ? ?]|done|by intros _].
Qed.

Lemma read_release now t s r :
  undue now (ks s) -> home_combo_consumed (ks s) = false -> home_long_sent (ks s) = false ->
  home_double_consumed (ks s) = true \/ in_media s = false /\ toast_active (ov s) = false ->
  iteration e now (Read (mkev EV_KEY KEY_HOME 0) t) s = Some r ->
  let double := home_double_consumed (ks s) in
  exists s', r = inl s' /\
    ks s' = (if double then (ks s) {{ home_down := false; home_double_consumed := false }}
             else (ks s) {{ home_down := false; home_pending_single := true; home_single_time := t }}) /\
    out s' = out s /\
    (toast_active (ov s) = false -> ov s' = ov s).
Proof.
  intros Hu Hc Hl Hm H. destruct (iteration_undue _ _ _ _ _ Hu H) as (o & s' & E & -> & V). exists s'.
  split; [done|]. revert E. change (handle_event e _ t ?x) with (home_release e t x).
  unfold home_release. set (s1 := on_keys _ _). change (home_combo_consumed (ks s1)) with (home_combo_consumed (ks s)).
  change (home_long_sent (ks s1)) with (home_long_sent (ks s)).
  change (home_double_consumed (ks s1)) with (home_double_consumed (ks s)). rewrite Hc, Hl. cbn zeta.
  destruct (home_double_consumed (ks s)); [intros [= <-]; by split_and!|].
  destruct Hm as [?|[Hm Ht]]; [done|]. change (in_media s1) with (media_mode o). rewrite (V Ht).
  change (media_mode (ov s)) with (in_media s). rewrite Hm. intros [= <-]. by split_and!.
Qed.
End Taps.

(** Times one after the other, and far from the end of the clock. *)
Fixpoint in_order (last : Z) (ts : list (Z * Z)) : Prop :=
  match ts with
  | [] => last < 2 ^ 62
  | (h, t) :: ts' => last <= h /\ h <= t /\ in_order t ts'
  end.

Definition SYN : effect := Emit (mkev EV_SYN 0 0).

(** The next step of a run, by a lemma above: [due] shows that no timer fires,
    from the keys known at that point. *)
Ltac due :=
  match goal with K : ks ?s = _ |- context [ks ?s] => rewrite ?K end;
  try unfold undue, HOME_LONG_PRESS_MS, POWER_DOUBLE_CLICK_MS; cbn; first [done | split_and!; try done; intros; lia].
Ltac read_with lem s K O V :=
  match goal with
  | H : mbind _ (iteration ?e ?h (Read ?ev ?t) ?s0) = Some _, K0 : ks ?s0 = _, O0 : out ?s0 = _ |- _ =>
      let E := fresh "E" in let r := fresh "r" in
      destruct (iteration e h (Read ev t) s0) as [r|] eqn:E; [|done]; cbn [mbind option_bind] in H;
      apply lem in E; [destruct E as (s & -> & K & O & V)|first [done | due | left; due]..];
      rewrite K0 in K; rewrite ?K0, O0 in O; rewrite ?K0 in V; cbv [apply_update constant] in K; cbn in K, O; clear K0 O0
  end.

(** The double tap of the tool's defaults toggles playback once, whatever is on
    the screen and however the events are spread, as long as each press is
    shorter than a long press and the second one comes within the time of a
    double tap (the tool holds for 50 ms and waits for 120 ms).  Nothing is left
    pending, and of the key itself nothing is passed on. *)
Theorem default_taps_toggle e fs h1 t1 h2 t2 h3 t3 h4 t4 h5 t5 h6 t6 h7 t7 h8 t8 :
  let ts := [(h1, t1); (h2, t2); (h3, t3); (h4, t4); (h5, t5); (h6, t6); (h7, t7); (h8, t8)] in
  dev_good (fbdev e) -> in_order 0 ts ->
  t3 - t1 < HOME_LONG_PRESS_MS -> t5 - t3 < POWER_DOUBLE_CLICK_MS -> t7 - t5 < HOME_LONG_PRESS_MS ->
  exists s, run e (timed (written (send_key true None).1) ts) (bw_init fs) = Some (inl s) /\
    out s = [SYN; SYN; Sys "/opt/audiocontrol.sh pause 2>/dev/null &"; SYN; SYN] /\
    home_down (ks s) = false /\ home_pending_single (ks s) = false /\
    home_double_consumed (ks s) = false /\ home_long_sent (ks s) = false.
Proof.
  intros ts Hd Ho H1 H2 H3. rewrite send_key_default.
  destruct (run_ok e Hd (timed [mkev EV_KEY KEY_HOME 1; mkev EV_SYN 0 0; mkev EV_KEY KEY_HOME 0; mkev EV_SYN 0 0;
      mkev EV_KEY KEY_HOME 1; mkev EV_SYN 0 0; mkev EV_KEY KEY_HOME 0; mkev EV_SYN 0 0] ts) (bw_init fs))
    as (r & Hr & _); [by left|].
  rewrite Hr. cbn in Ho. unfold HOME_LONG_PRESS_MS, POWER_DOUBLE_CLICK_MS in *.
  unfold ts, timed in Hr. cbn [zip_with run fst snd] in Hr. clear ts.
  assert (ks (bw_init fs) = keys_init) as K0 by done. assert (out (bw_init fs) = []) as O0 by done.
  assert (ov (bw_init fs) = overlay_init) as V0 by done.
  generalize dependent (bw_init fs). intros s0 Hr K0 O0 V0.
  read_with read_press s1 K1 O1 V1. rewrite V0 in V1. specialize (V1 eq_refl eq_refl).
  read_with read_syn s2 K2 O2 V2. rewrite V1 in V2. specialize (V2 eq_refl).
  assert (in_media s2 = false /\ toast_active (ov s2) = false) as M2 by (unfold in_media; by rewrite V2).
  pose proof (or_intror (home_double_consumed (ks s2) = true) M2) as M.
  read_with read_release s3 K3 O3 V3. clear M V0 V1 V2 V3 M2.
  read_with read_syn s4 K4 O4 V4. read_with read_press s5 K5 O5 V5. read_with read_syn s6 K6 O6 V6.
  read_with read_release s7 K7 O7 V7. read_with read_syn s8 K8 O8 V8. injection Hr as <-.
  exists s8. by rewrite K8, O8.
Qed.

Lemma default_taps_toggle_witness :
  exists s, run demo_env (timed (written (send_key true None).1)
      [(1000, 1001); (1001, 1001); (1051, 1052); (1052, 1052); (1172, 1173); (1173, 1173); (1223, 1224); (1224, 1224)])
      (bw_init ∅) = Some (inl s) /\
    out s = [SYN; SYN; Sys "/opt/audiocontrol.sh pause 2>/dev/null &"; SYN; SYN] /\
    home_down (ks s) = false /\ home_pending_single (ks s) = false /\
    home_double_consumed (ks s) = false /\ home_long_sent (ks s) = false.
Proof.
  apply default_taps_toggle; [split; by eexists|cbn; lia|vm_compute; reflexivity..].
Defined.
